(* ===== verification/_CoqProject ===== *)
-Q . S2P
Prelude.v
Links.v
KString.v
Bytes.v
Frames.v
Pages.v
Paging.v
Heap.v
Ledger.v
KConvert.v
Files.v
Thread.v
Exec.v
Process.v
Start.v
Window.v
Exit.v
Life.v
Argv.v
Server.v
Budget.v
Open.v
Inet.v
Net.v
Tcp.v
Dhcp.v
Socket.v
Path.v
Cfs.v
Ustdio.v
Qsort.v
Libc.v
Libnum.v
Uprintf.v
Resolver.v
Ps2.v
Keyboard.v
Mouse.v
Image.v
