(* ===== verification/Prelude.v ===== *)
(** * Sirius x86-64: the kernel and the user library

    This development models the parts of the Sirius operating system whose behaviour is
    decided by its own C code, and proves what makes them correct.  The sources are under
    src/: the kernel in src/kernel, the C library the programs are linked with in
    src/user/lib.  The C names are kept; a definition that is not a function of the source
    (a loop of it, a step of a loop, a field) has a name of its own.

    ** Conventions

    A w-bit integer is a [Z]; the conversions of C are the functions [u8] ... [s64] below.
    Byte memory is a table [mem] with the default 0 ([m⟦a⟧]); integers of several bytes are
    read and written by [ld]/[st] of Bytes.  A pointer is a [Z] and 0 is NULL.  A call
    returns an [outcome]: [Ret] a value, [Hang] where the code waits for something that
    nothing in the call itself brings about, or stops the machine.  Loops that stop by their data
    run on fuel: each loop has a theorem, or is under one, that names the fuel that is enough
    (usually the length of the string or table that is scanned), so that no theorem rests
    on a body that does not return.  What lies outside src/ or is hardware is a parameter with
    the laws that are used: the disk (a function for sectors, the class [BlockDevice] of Cfs),
    the network card, the time that passes in a sleep, and the other threads that run while a
    call spins.  Components that allocate memory are proved against the class [Allocator] of Bytes;
    Heap shows that the kernel's [malloc] and [free] are an instance.

    ** Kernel: memory

    - KString (lib/string.c): [memset], [memcpy], [strcpy], [strlen], [strcmp]; [cstr m a l]
      is a terminated string, the notion all other files share.
    - Frames (mm.c): the bitmap of physical frames; [alloc_frame] is first fit, hands out distinct
      frames, and scans past the memory the machine is described with when all of it is in use.
    - Pages (mm.c): the bitmap of virtual pages with its two bits a page; the search, marking and
      measuring of blocks refine a set of blocks [(first, length)].
    - Paging (mm.c, paging.c): the page tables; [alloc_pages] and [free_pages] refine the block
      allocator, undo each other, and in each reachable state live pages lie on distinct frames.
    - Heap (lib/stdlib.c): [malloc] and [free] as an [Allocator].

    ** Kernel: streams, threads, text

    - KConvert (lib/stdlib.c, lib/vsprintf.c): numbers to text and back, the formatter.
    - Files (lib/stdio.c, file/std.c, file/pipe.c, file/cfs.c): [FILE] objects, the rings of the
      standard streams, pipes as queues, reading of files block by block.
    - Open (file/cfs.c with lib/stdio.c): [fopen], [fread] and [fclose] of a file of any volume, the chain of its
      blocks walked into the tables and every block of memory given back.
    - Ps2, Keyboard, Mouse (driver/ps2): the ports of the controller as a parameter; the keyboard's handler
      from scan codes to the stream that [fgetc] reads; the mouse's packets and the pointer.
    - Thread (thread.c): creation of threads, the ready queue and its invariant, the two schedulers
      with saving and restoring of registers, fairness.

    ** Kernel: processes

    - Exec (exectve.c, file/elf.c): the address space of a process and the loading of an image into it.
    - Process (exit.c, syscall.c): the release of an address space, the memory a program asked for.
    - Start (exectve.c with thread.c): a loaded image becomes a thread of the ready queue.
    - Argv (argv.c): a command line split into its words.
    - Window (gui/compositor.c): the list of windows, with registration, removal and focus.
    - Exit (exit.c with thread.c, lib/stdio.c): the end of a thread, its streams, windows and record.
    - Life: a program from [exectve] to [exit], after which nothing of it is left.
    - Server (communication.c, server.c, syscall.c): the requests programs send the kernel: start, end, focus.

    Three files hold what these share: Links (linked lists of records), Ledger (the blocks and frames
    a part takes and gives back) and Budget (how many more blocks a heap still serves, a class with
    instances; and that the kernel's heap, too, has as much room after a block is freed as before it was taken).

    ** Kernel: network

    - Inet (include/inet.h, file/inet.c, driver/net/checksum.c, port.c): byte order, checksum, ports.
    - Net (driver/net/arp.c, ipv4.c, udp.c, tcp.c, ethernet.c): the packets of each layer.
    - Tcp (driver/net/tcp.c): the table of connections.
    - Dhcp (driver/net/dhcp.c, ethernet.c): the client and the start of the card.
    - Socket (file/socket.c, bind.c, sendto.c, recvfrom.c, driver/net/vmnet.c, ethernet.c): the sockets,
      the waiting packets, the loopback network and the handler of received frames.

    ** User library

    - Path (lib/sys/path.c): the working directory and names.
    - Cfs (lib/sys/cfs.c): the file system with its chains, directories, creation and removal.
    - Ustdio (lib/sys/file.c, libc/stdio): buffered streams over it.
    - Qsort (libc/stdlib/qsort.c), Libc (libc/string, libc/ctype), Libnum (libc/stdlib): the sort,
      the strings and the conversions of numbers.
    - Uprintf (libc/stdio): formatted output into memory.
    - Resolver (sys/net/dns.c, sys/arpa/inet.c): the question to a name server, its answer, and addresses as text.

    ** Tools

    - Image (fs.c): the program that formats a disk image and stores files in it, run on the host; the streams
      of the host's library are bytes with a length and a position, and its calls succeed.

    ** How the parts fit together

    Paging uses Frames and Pages; Heap turns Paging into the [Allocator] under which Files,
    Thread, Net, Tcp, Dhcp, Socket and Cfs are proved.  Thread opens the streams of a thread with the
    functions of Files.  Exec and Process stand on Paging itself; Start joins Exec with Thread on the one kernel
    heap, Life joins Start with Process, Window and Exit, and Server reaches all of them from one message.  Net builds on Inet; Tcp and Socket use Net only by the contracts of
    what they call ([tcp_send_spec] and the like), and Tcp's connections are shown on the kernel's own heap, whose room for
    one segment the class [RoomLaws] of Bytes carries from one segment to the next; Socket composes the whole path of a datagram, from
    [sendto] through the loopback ring and the handler into the buffer [recvfrom] reads.  Keyboard writes the
    stream of Files that a program reads.  In the user
    library Ustdio runs over Cfs, and Cfs over Path and a device; Resolver reads back with [strtok] and [strtoul] of Libc and Libnum
    what Uprintf prints.  Image writes the volumes that Open and Files read: its theorem follows a file from the host
    into the image and out of it through the kernel.  Where the same text stands twice in the sources one definition models
    it: [get_file_name] and [blank_name] of Cfs are those of fs.c, the conversions of KConvert those of the user library, and
    [htons] of Inet is that of its headers.

    ** What the theorems show

    Refinements and equivalences relate an operation to an abstract object (a set of frames, a set of
    blocks, a queue, a set of ports, a permutation, a span of a string); round trips compose two operations of the code (number
    to text and back, allocate and free, make and release an address space, send and receive, write and read, enter and leave a directory); invariants hold in
    each reachable state (pages, ready queue, buffers of sockets, pointers of streams inside their buffers); safety theorems
    say that nothing else is touched (registers, other frames, other blocks of the device); and where the code
    deviates from what it means to do a theorem says exactly what happens instead.

    ** Bounds and fuel

    Number loops get 64 passes, more than a 64-bit number has digits in base 2; scans of strings get any
    fuel above the length of the string; the bitmap loops have the trip counts of the source; the
    sort's recursion gets the length of the array and its inner loop the length of its range; the
    chains of the file system get the length of the chain.  Each is a hypothesis of the form
    [length ... < fuel] or a constant, and the theorems give a result for every such fuel.

    ** Not modelled

    Device registers and interrupts are hardware: the storage (ahci.c, ide.c, storage.c), network (e1000.c,
    rtl8169.c, pcnet.c), audio, USB, PCI, ACPI, APIC, timer and video drivers mostly read and write them and keep
    little state of their own; their effect enters as parameters (the disk of Cfs and Ustdio is one on which
    every transfer succeeds: the class [BlockDeviceLaws]).  Assembly (vetor.asm, the boot stages 0 and 1) is not
    C; boot/stage2 is a loader that repeats drivers and library routines of the kernel.  user/lua
    and user/nanojpeg are third-party programs, the fonts and maps are data.  The programs and the
    graphical library draw on the screen through function tables.  Floating-point conversions and the mathematical functions
    need a model of the x87 unit's rounding and are left aside; [ftoa] is a parameter of Uprintf.  The threads of the
    kernel servers are loops over calls of Socket and [commun_switch] of Server; they, the sockets' calls of the user library, of which
    [sendto] and [recvfrom] repeat the kernel's, and the scanner of formatted input are left out; copy.c and footer.c are loops of [fread] and [fwrite] of the host.

    This file holds what all the others share: the integers, outcomes, byte memory, generic lemmas and tactics. *)
From Stdlib Require Export ZArith Lia.
From stdpp Require Export base option list gmap.
#[export] Set Default Proof Using "Type".
#[global] Open Scope Z_scope.

Declare Scope c_scope.
Delimit Scope c_scope with C.
#[global] Open Scope c_scope.

(** ** Machine integers

    A w-bit unsigned value is a [Z] in [0, 2^w); the conversions C applies on an
    assignment or a cast are written out with [u8] ... [u64] (reduction modulo 2^w)
    and [s8] ... [s64] (the two's complement reading of the low w bits). *)
Definition u8 (z : Z) : Z := z mod 2 ^ 8.
Definition u16 (z : Z) : Z := z mod 2 ^ 16.
Definition u32 (z : Z) : Z := z mod 2 ^ 32.
Definition u64 (z : Z) : Z := z mod 2 ^ 64.
Definition s8 (z : Z) : Z := (z + 2 ^ 7) mod 2 ^ 8 - 2 ^ 7.
Definition s16 (z : Z) : Z := (z + 2 ^ 15) mod 2 ^ 16 - 2 ^ 15.
Definition s32 (z : Z) : Z := (z + 2 ^ 31) mod 2 ^ 32 - 2 ^ 31.
Definition s64 (z : Z) : Z := (z + 2 ^ 63) mod 2 ^ 64 - 2 ^ 63.

Ltac unfold_words := unfold u8, u16, u32, u64, s8, s16, s32, s64 in *.

(** [word_lia] is [lia] with the conversions unfolded and division explained. *)
Ltac word_lia := unfold_words; Z.div_mod_to_equations; lia.

Section words.
Implicit Types z : Z.

Lemma u8_range z : 0 <= u8 z < 256. Proof. word_lia. Qed.
Lemma u16_range z : 0 <= u16 z < 65536. Proof. word_lia. Qed.
Lemma u32_range z : 0 <= u32 z < 4294967296. Proof. word_lia. Qed.
Lemma u64_range z : 0 <= u64 z < 18446744073709551616. Proof. word_lia. Qed.
Lemma s32_range z : -2147483648 <= s32 z < 2147483648. Proof. word_lia. Qed.
Lemma u8_small z : 0 <= z < 256 -> u8 z = z. Proof. intros. word_lia. Qed.
Lemma u16_small z : 0 <= z < 65536 -> u16 z = z. Proof. intros. word_lia. Qed.
Lemma u32_small z : 0 <= z < 4294967296 -> u32 z = z. Proof. intros. word_lia. Qed.
Lemma u64_small z : 0 <= z < 18446744073709551616 -> u64 z = z. Proof. intros. word_lia. Qed.
Lemma s32_small z : -2147483648 <= z < 2147483648 -> s32 z = z. Proof. intros. word_lia. Qed.
Lemma s64_small z :
-9223372036854775808 <= z < 9223372036854775808 -> s64 z = z.
Proof. intros. word_lia. Qed.

Lemma testbit_wrap w z k : 0 <= k < w -> Z.testbit (z mod 2 ^ w) k = Z.testbit z k.
Proof. intros. apply Z.mod_pow2_bits_low. lia. Qed.
End words.

(** ** Bit tests and masks

    The kernel's bitmaps are read with [(b >> t) & 1] or [b & (1 << t)] and written
    with [b |= 1 << t] and [b &= ~(1 << t)]; these lemmas turn all of them into
    [Z.testbit]. *)
Section bits.
Implicit Types b t k n : Z.

Lemma land_255_small b : 0 <= b < 256 -> Z.land b 0xff = b.
Proof. intros Hb. change 0xff with (Z.ones 8). rewrite Z.land_ones by lia. by apply Z.mod_small. Qed.

Lemma land_shiftr_1 b t : 0 <= t -> Z.land (Z.shiftr b t) 1 = Z.b2z (Z.testbit b t).
Proof.
intros Ht. change 1 with (Z.ones 1). rewrite Z.land_ones by lia.
rewrite Z.testbit_spec' by lia. rewrite Z.shiftr_div_pow2 by lia. reflexivity.
Qed.

Lemma testbit_1_shiftl t k : 0 <= t -> Z.testbit (Z.shiftl 1 t) k = (k =? t).
Proof.
intros Ht. destruct (Z.ltb_spec k 0) as [Hk|Hk].
- rewrite Z.testbit_neg_r by lia. symmetry. apply Z.eqb_neq. lia.
- rewrite Z.shiftl_1_l. destruct (Z.eqb_spec k t) as [->|Hne].
  + apply Z.pow2_bits_true. lia.
  + apply Z.pow2_bits_false. lia.
Qed.

Lemma land_1_shiftl b t :
0 <= t -> Z.land b (Z.shiftl 1 t) = if Z.testbit b t then 2 ^ t else 0.
Proof.
intros Ht. apply Z.bits_inj'. intros k Hk.
rewrite Z.land_spec, testbit_1_shiftl by lia.
destruct (Z.eqb_spec k t) as [->|Hne].
- destruct (Z.testbit b t); simpl.
  + symmetry. apply Z.pow2_bits_true. lia.
  + symmetry. apply Z.bits_0.
- rewrite andb_false_r. destruct (Z.testbit b t).
  + symmetry. apply Z.pow2_bits_false. lia.
  + symmetry. apply Z.bits_0.
Qed.

Lemma land_1_shiftl_eqb b t :
0 <= t -> (Z.land b (Z.shiftl 1 t) =? 0) = negb (Z.testbit b t).
Proof.
intros Ht. rewrite land_1_shiftl by lia.
destruct (Z.testbit b t); simpl; [|reflexivity].
apply Z.eqb_neq. pose proof (Z.pow_pos_nonneg 2 t). lia.
Qed.

Lemma testbit_lor_1 b t k :
0 <= t -> Z.testbit (Z.lor b (Z.shiftl 1 t)) k = Z.testbit b k || (k =? t).
Proof. intros. rewrite Z.lor_spec, testbit_1_shiftl by lia. reflexivity. Qed.

Lemma testbit_clear_1 b t k :
0 <= t -> 0 <= k ->
Z.testbit (Z.land b (Z.lnot (Z.shiftl 1 t))) k = Z.testbit b k && negb (k =? t).
Proof.
intros. rewrite Z.land_spec, Z.lnot_spec, testbit_1_shiftl by lia. reflexivity.
Qed.

Lemma testbit_3_shiftl t k :
0 <= t -> Z.testbit (Z.shiftl 3 t) k = (k =? t) || (k =? t + 1).
Proof.
intros Ht. replace (Z.shiftl 3 t) with (Z.lor (Z.shiftl 1 t) (Z.shiftl 1 (t + 1))).
- rewrite Z.lor_spec, !testbit_1_shiftl by lia. reflexivity.
- replace (Z.shiftl 1 (t + 1)) with (Z.shiftl 2 t).
  + rewrite <- Z.shiftl_lor. reflexivity.
  + change 2 with (Z.shiftl 1 1). rewrite Z.shiftl_shiftl by lia. f_equal. lia.
Qed.
End bits.

(** ** Memory

    A table of cells indexed by [Z]: a byte-addressed memory, an array of records, a
    page table.  A cell never written holds the zero of its type, which is what the
    zeroed memory the program starts from holds.  Two tables are [≡ₘ]-equal when they
    read the same everywhere: writing a zero over a zero changes the map and not the
    memory. *)
Class Zero (A : Type) := zero : A.
#[export] Hint Mode Zero ! : typeclass_instances.
#[export] Instance zero_Z : Zero Z := 0.

Definition rd {A} `{Zero A} (m : gmap Z A) (a : Z) : A := default zero (m !! a).
Definition wr {A} (m : gmap Z A) (a : Z) (v : A) : gmap Z A := <[a := v]> m.
Definition upd {A} `{Zero A} (m : gmap Z A) (a : Z) (f : A -> A) : gmap Z A :=
  wr m a (f (rd m a)).

Notation "m ⟦ a ⟧" := (rd m a) (at level 1, a at level 200, left associativity, format "m ⟦ a ⟧") : c_scope.
Notation "m ⟦ a := v ⟧" := (wr m a v)
  (at level 1, a at level 200, v at level 200, left associativity,
   format "m ⟦ a  :=  v ⟧") : c_scope.

Definition mem_eq {A} `{Zero A} (m1 m2 : gmap Z A) : Prop := forall a, m1⟦a⟧ = m2⟦a⟧.
Infix "≡ₘ" := mem_eq (at level 70) : c_scope.

(** [x |> f] applies a setter, so that a handler's assignments read in their order. *)
Notation "x |> f" := (f x) (at level 59, left associativity, only parsing) : c_scope.

Section memory.
Context {A : Type} `{Zero A}.
Implicit Types (m : gmap Z A) (a b : Z) (v w : A).

Lemma rd_wr m a b v : m⟦a := v⟧⟦b⟧ = if b =? a then v else m⟦b⟧.
Proof.
unfold rd, wr. destruct (Z.eqb_spec b a) as [->|Hne].
- by rewrite lookup_insert_eq.
- by rewrite lookup_insert_ne by congruence.
Qed.

Lemma rd_wr_eq m a v : m⟦a := v⟧⟦a⟧ = v.
Proof. rewrite rd_wr, Z.eqb_refl. reflexivity. Qed.

Lemma rd_wr_ne m a b v : b <> a -> m⟦a := v⟧⟦b⟧ = m⟦b⟧.
Proof. intros ?. rewrite rd_wr. by destruct (Z.eqb_spec b a). Qed.

Lemma rd_empty a : (∅ : gmap Z A)⟦a⟧ = zero.
Proof. unfold rd. by rewrite lookup_empty. Qed.

Lemma rd_upd m a b f : rd (upd m a f) b = if b =? a then f (m⟦a⟧) else m⟦b⟧.
Proof. apply rd_wr. Qed.

Lemma rd_upd_eq m a f : rd (upd m a f) a = f (m⟦a⟧).
Proof. apply rd_wr_eq. Qed.

Lemma rd_upd_ne m a b f : b <> a -> rd (upd m a f) b = m⟦b⟧.
Proof. apply rd_wr_ne. Qed.

#[export] Instance mem_eq_equiv : Equivalence (@mem_eq A _).
Proof.
split.
- intros m a. reflexivity.
- intros m1 m2 E a. by rewrite (E a).
- intros m1 m2 m3 E1 E2 a. by rewrite (E1 a).
Qed.

#[export] Instance rd_proper : Proper (mem_eq ==> eq ==> eq) (@rd A _).
Proof. intros m1 m2 E a ? <-. apply E. Qed.

#[export] Instance wr_proper : Proper (mem_eq ==> eq ==> eq ==> mem_eq) (@wr A).
Proof. intros m1 m2 E a ? <- v ? <- b. rewrite !rd_wr. by rewrite (E b). Qed.
End memory.

Create Rewrite HintDb mem.
#[export] Hint Rewrite @rd_wr_eq @rd_upd_eq @rd_empty : mem.
#[export] Hint Rewrite @rd_wr_ne @rd_upd_ne using lia : mem.

(** [mem_simpl] reads through the writes of a memory expression. *)
Ltac mem_simpl := autorewrite with mem.
Tactic Notation "mem_simpl" "in" hyp(H) := autorewrite with mem in H.

(** [within a lo n]: the address [a] lies in the [n] cells from [lo]. *)
Definition within (a lo n : Z) : bool := (lo <=? a) && (a <? lo + n).

Lemma within_spec a lo n : BoolSpec (lo <= a < lo + n) (~ lo <= a < lo + n) (within a lo n).
Proof.
  unfold within.
  destruct (Z.leb_spec lo a), (Z.ltb_spec a (lo + n)); simpl; constructor; lia.
Qed.

Lemma not_within a lo n : ~ lo <= a < lo + n -> within a lo n = false.
Proof. intros Hn. by destruct (within_spec a lo n). Qed.

(** [case_within] splits on every range test and every equality test of the goal. *)
Ltac case_within :=
  repeat match goal with
  | |- context [within ?a ?lo ?n] => destruct (within_spec a lo n)
  | |- context [?a =? ?b] => destruct (Z.eqb_spec a b)
  end.

(** ** Claims about small numbers, decided by trying all of them *)
Lemma below_forall n (P : Z -> Prop) `{forall c, Decision (P c)} c :
  forallb (fun i => bool_decide (P (Z.of_nat i))) (seq 0 n) = true -> 0 <= c < Z.of_nat n -> P c.
Proof.
  intros Hb Hc. rewrite forallb_forall in Hb. specialize (Hb (Z.to_nat c)).
  rewrite bool_decide_eq_true, Z2Nat.id in Hb by lia. apply Hb. apply in_seq. lia.
Qed.

Ltac below n c :=
  pattern c;
  match goal with
  | |- ?P c => let Q := eval cbv beta in P in apply (below_forall n Q c); [vm_compute; reflexivity|lia]
  end.

(** ** Loops

    [for_upto a b body s] is [for (i = a; i < b; i++) body]; [for_break] is the same loop
    whose body may leave it early with a value ([return] or [break]). *)
Fixpoint for_loop {S} (n : nat) (i : Z) (body : Z -> S -> S) (s : S) : S :=
  match n with
  | O => s
  | Datatypes.S n' => for_loop n' (i + 1) body (body i s)
  end.

Definition for_upto {S} (a b : Z) (body : Z -> S -> S) (s : S) : S :=
  for_loop (Z.to_nat (b - a)) a body s.

Fixpoint for_break {S R} (n : nat) (i : Z) (body : Z -> S -> S + R) (s : S) : S + R :=
  match n with
  | O => inl s
  | Datatypes.S n' =>
      match body i s with
      | inl s' => for_break n' (i + 1) body s'
      | inr r => inr r
      end
  end.

(** The same loop with its count in binary, so that a long search that stops early runs. *)
Fixpoint for_break_pos {S R} (p : positive) (i : Z) (body : Z -> S -> S + R) (s : S) : S + R :=
  match p with
  | xH => body i s
  | xO p =>
      match for_break_pos p i body s with
      | inl s => for_break_pos p (i + Zpos p) body s
      | inr r => inr r
      end
  | xI p =>
      match body i s with
      | inl s =>
          match for_break_pos p (i + 1) body s with
          | inl s => for_break_pos p (i + 1 + Zpos p) body s
          | inr r => inr r
          end
      | inr r => inr r
      end
  end.

Definition for_break_upto {S R} (a b : Z) (body : Z -> S -> S + R) (s : S) : S + R :=
  match b - a with
  | Zpos p => for_break_pos p a body s
  | _ => inl s
  end.

Section loops.
Context {S R : Type}.

Lemma for_loop_inv (P : Z -> S -> Prop) n i body s :
P i s ->
(forall k t, i <= k < i + Z.of_nat n -> P k t -> P (k + 1) (body k t)) ->
P (i + Z.of_nat n) (for_loop n i body s).
Proof.
revert i s. induction n as [|n IH]; intros i s H0 Hs; simpl.
- by rewrite Z.add_0_r.
- replace (i + Z.of_nat (Datatypes.S n)) with (i + 1 + Z.of_nat n) by lia.
  apply IH.
  + apply Hs; [lia|done].
  + intros k t Hk. apply Hs. lia.
Qed.

Lemma for_upto_inv (P : Z -> S -> Prop) a b body s :
a <= b -> P a s ->
(forall k t, a <= k < b -> P k t -> P (k + 1) (body k t)) ->
P b (for_upto a b body s).
Proof.
intros Hab H0 Hs. unfold for_upto.
replace (P b) with (P (a + Z.of_nat (Z.to_nat (b - a)))) by (f_equal; lia).
apply for_loop_inv; [done|]. intros k t Hk. apply Hs. lia.
Qed.

Lemma for_upto_elim (P : Z -> S -> Prop) (C : S -> Prop) a b body s :
a <= b -> P a s ->
(forall k t, a <= k < b -> P k t -> P (k + 1) (body k t)) ->
(forall t, P b t -> C t) ->
C (for_upto a b body s).
Proof. intros Hab H0 Hs HC. apply HC. by apply for_upto_inv. Qed.

Lemma for_break_inv (P : Z -> S -> Prop) (Q : Z -> R -> Prop) n i body s :
P i s ->
(forall k t, i <= k < i + Z.of_nat n -> P k t ->
   match body k t with inl t' => P (k + 1) t' | inr r => Q k r end) ->
match for_break n i body s with
| inl t => P (i + Z.of_nat n) t
| inr r => exists k, i <= k < i + Z.of_nat n /\ Q k r
end.
Proof.
revert i s. induction n as [|n IH]; intros i s H0 Hs; simpl.
- by rewrite Z.add_0_r.
- pose proof (Hs i s ltac:(lia) H0) as Hi. destruct (body i s) as [t|r].
  + specialize (IH (i + 1) t Hi). destruct (for_break n (i + 1) body t) as [t'|r].
    * replace (i + Z.of_nat (Datatypes.S n)) with (i + 1 + Z.of_nat n) by lia.
      apply IH. intros k u Hk. apply Hs. lia.
    * destruct IH as (k & Hk & HQ).
      { intros k u Hk. apply Hs. lia. }
      exists k. split; [lia|done].
  + exists i. split; [lia|done].
Qed.

Lemma for_break_elim (P : Z -> S -> Prop) (Q : Z -> R -> Prop) (C : S + R -> Prop) n i body s :
P i s ->
(forall k t, i <= k < i + Z.of_nat n -> P k t ->
   match body k t with inl t' => P (k + 1) t' | inr r => Q k r end) ->
(forall t, P (i + Z.of_nat n) t -> C (inl t)) ->
(forall k r, i <= k < i + Z.of_nat n -> Q k r -> C (inr r)) ->
C (for_break n i body s).
Proof.
intros H0 Hs Hl Hr. pose proof (for_break_inv P Q n i body s H0 Hs) as HI.
destruct (for_break n i body s) as [t|r]; [by apply Hl|].
destruct HI as (k & Hk & HQ). by eapply Hr.
Qed.

Lemma for_break_app n k i (body : Z -> S -> S + R) s :
for_break (n + k) i body s =
match for_break n i body s with
| inl s => for_break k (i + Z.of_nat n) body s
| inr r => inr r
end.
Proof.
revert i s. induction n as [|n IH]; intros i s; cbn [for_break Nat.add].
- by rewrite Z.add_0_r.
- destruct (body i s) as [t|r]; [|done]. rewrite IH.
  by replace (i + Z.of_nat (Datatypes.S n)) with (i + 1 + Z.of_nat n) by lia.
Qed.

Lemma for_break_pos_nat p i (body : Z -> S -> S + R) s :
for_break_pos p i body s = for_break (Pos.to_nat p) i body s.
Proof.
revert i s. induction p as [p IH|p IH|]; intros i s; cbn [for_break_pos].
- replace (Pos.to_nat p~1) with (Datatypes.S (Pos.to_nat p + Pos.to_nat p)) by lia.
  cbn [for_break]. destruct (body i s) as [t|r]; [|done].
  rewrite for_break_app, IH. destruct (for_break _ (i + 1) body t); [|done].
  by rewrite IH, positive_nat_Z.
- replace (Pos.to_nat p~0) with (Pos.to_nat p + Pos.to_nat p)%nat by lia.
  rewrite for_break_app, IH. destruct (for_break _ i body s); [|done].
  by rewrite IH, positive_nat_Z.
- change (Pos.to_nat 1) with 1%nat. cbn [for_break]. by destruct (body i s).
Qed.

Lemma for_break_upto_nat a b (body : Z -> S -> S + R) s :
for_break_upto a b body s = for_break (Z.to_nat (b - a)) a body s.
Proof.
unfold for_break_upto. destruct (b - a) as [|p|p]; [done| |done].
by rewrite for_break_pos_nat.
Qed.

Lemma for_break_upto_elim (P : Z -> S -> Prop) (Q : Z -> R -> Prop) (C : S + R -> Prop)
  a b body s :
a <= b ->
P a s ->
(forall k t, a <= k < b -> P k t ->
   match body k t with inl t' => P (k + 1) t' | inr r => Q k r end) ->
(forall t, P b t -> C (inl t)) ->
(forall k r, a <= k < b -> Q k r -> C (inr r)) ->
C (for_break_upto a b body s).
Proof.
intros Hab H0 Hs Hl Hr. rewrite for_break_upto_nat. apply (for_break_elim P Q).
- done.
- intros k t Hk. apply Hs. lia.
- intros t. replace (a + Z.of_nat (Z.to_nat (b - a))) with b by lia. apply Hl.
- intros k r Hk. apply Hr. lia.
Qed.

Lemma for_loop_ext n i (f g : Z -> S -> S) s :
(forall k t, i <= k < i + Z.of_nat n -> f k t = g k t) ->
for_loop n i f s = for_loop n i g s.
Proof.
revert i s. induction n as [|n IH]; intros i s E; simpl; [done|].
rewrite E by lia. apply IH. intros k t Hk. apply E. lia.
Qed.
End loops.

(** [upto_with P] reasons on the loop of the goal with invariant [P]. *)
Ltac upto_with P :=
  match goal with
  | |- context [for_upto ?a ?b ?body ?s] =>
      pattern (for_upto a b body s); apply (for_upto_elim P)
  end.

(** [break_with P Q] reasons on the loop of the goal with invariant [P] and exit [Q]. *)
Ltac break_with P Q :=
  match goal with
  | |- context [for_break ?n ?i ?body ?s] =>
      pattern (for_break n i body s); apply (for_break_elim P Q)
  end.

Ltac break_upto_with P Q :=
  match goal with
  | |- context [for_break_upto ?a ?b ?body ?s] =>
      pattern (for_break_upto a b body s); apply (for_break_upto_elim P Q)
  end.

(** ** Outcomes

    What a call does besides returning: it spins for ever on a flag nothing else in the
    run clears ([Hang]), stops the machine ([Die]), dereferences a null or wild pointer
    ([Undef]).  A loop with no bound of its own runs on fuel, and [NoFuel] means only
    that the fuel given was too little. *)
Inductive outcome (A : Type) :=
| Ret (a : A)
| Hang
| Die
| Undef
| NoFuel.
Arguments Ret {A} a.
Arguments Hang {A}.
Arguments Die {A}.
Arguments Undef {A}.
Arguments NoFuel {A}.

#[export] Instance outcome_ret : MRet outcome := fun _ a => Ret a.
#[export] Instance outcome_bind : MBind outcome := fun _ _ k o =>
  match o with
  | Ret a => k a
  | Hang => Hang
  | Die => Die
  | Undef => Undef
  | NoFuel => NoFuel
  end.

Lemma outcome_bind_ret {A B} (o : outcome A) (k : A -> outcome B) b :
  o ≫= k = Ret b <-> exists a, o = Ret a /\ k a = Ret b.
Proof.
  split.
  - destruct o; try discriminate. intros E. eauto.
  - intros (a & -> & E). exact E.
Qed.

(** [inv_ret H] opens the steps of a run [H] that returned. *)
Ltac inv_ret H :=
  repeat match type of H with
  | _ ≫= _ = Ret _ =>
      let a := fresh "a" in let E := fresh "E" in
      apply outcome_bind_ret in H; destruct H as (a & E & H)
  end.

(** A loop in which every pass may stop the run. *)
Fixpoint for_outcome {S} (n : nat) (i : Z) (body : Z -> S -> outcome S) (s : S) : outcome S :=
  match n with
  | O => Ret s
  | Datatypes.S n' => s' ← body i s; for_outcome n' (i + 1) body s'
  end.

Lemma for_outcome_inv {S} (P : Z -> S -> Prop) n i (body : Z -> S -> outcome S) s t :
  P i s ->
  (forall k u v, i <= k < i + Z.of_nat n -> P k u -> body k u = Ret v -> P (k + 1) v) ->
  for_outcome n i body s = Ret t -> P (i + Z.of_nat n) t.
Proof.
  revert i s. induction n as [|n IH]; intros i s H0 Hs E; simpl in E.
  - injection E as <-. by rewrite Z.add_0_r.
  - apply outcome_bind_ret in E as (u & Eu & E).
    replace (i + Z.of_nat (Datatypes.S n)) with (i + 1 + Z.of_nat n) by lia.
    eapply IH; [|intros; eapply Hs; eauto; lia|exact E].
    eapply Hs; eauto; lia.
Qed.

Lemma for_outcome_total {S} (P : Z -> S -> Prop) n i (body : Z -> S -> outcome S) s :
  P i s ->
  (forall k u, i <= k < i + Z.of_nat n -> P k u -> exists v, body k u = Ret v /\ P (k + 1) v) ->
  exists t, for_outcome n i body s = Ret t /\ P (i + Z.of_nat n) t.
Proof.
  revert i s. induction n as [|n IH]; intros i s H0 Hs; simpl.
  - exists s. by rewrite Z.add_0_r.
  - destruct (Hs i s ltac:(lia) H0) as (v & -> & Hv).
    destruct (IH (i + 1) v Hv) as (t & Et & Ht).
    { intros k u Hk. apply Hs. lia. }
    exists t. split; [exact Et|].
    by replace (i + Z.of_nat (Datatypes.S n)) with (i + 1 + Z.of_nat n) by lia.
Qed.
