(* ===== verification/Links.v ===== *)
(** * Links: linked lists in a heap of records

    The kernel keeps its threads, sockets and windows in lists linked by a field of the
    records.  [links nxt m p l]: the records linked from [p] by the field [nxt] are [l], in order. *)
From S2P Require Import Prelude.

Fixpoint links {A : Type} (nxt : A -> Z) (m : gmap Z A) (p : Z) (l : list Z) : Prop :=
  match l with
  | [] => p = 0
  | q :: l => p = q /\ q <> 0 /\ exists r, m !! q = Some r /\ links nxt m (nxt r) l
  end.

Section links.
Context {A : Type} {nxt : A -> Z}.
Implicit Types (m : gmap Z A) (p q t : Z) (l : list Z) (r : A).

Lemma links_lookup m p l q : links nxt m p l -> q ∈ l -> exists r, m !! q = Some r /\ q <> 0.
Proof.
revert p. induction l as [|q' l IH]; intros p Hl Hq; [by apply not_elem_of_nil in Hq|].
destruct Hl as (-> & Hne & r & Hr & Hl). apply elem_of_cons in Hq as [->|Hq]; eauto.
Qed.

(** Only the links matter to the list. *)
Lemma links_ext m m' p l :
(forall q r, q ∈ l -> m !! q = Some r -> exists r', m' !! q = Some r' /\ nxt r' = nxt r) ->
links nxt m p l -> links nxt m' p l.
Proof.
revert p. induction l as [|q l IH]; intros p E Hl; [done|].
destruct Hl as (-> & Hne & r & Hr & Hl). split; [done|]. split; [done|].
destruct (E q r) as (r' & Hr' & En); [left|done|]. exists r'. split; [done|].
rewrite En. apply IH; [|done]. intros q' r'' Hq'. apply E. by right.
Qed.

Lemma links_put m p l q r r' :
m !! q = Some r -> nxt r' = nxt r -> links nxt m p l -> links nxt (<[q := r']> m) p l.
Proof.
intros Hq Hn. apply links_ext. intros t x _ Hx. destruct (decide (t = q)) as [->|Hne].
- exists r'. rewrite lookup_insert_eq. split; [done|]. congruence.
- exists x. by rewrite lookup_insert_ne.
Qed.

(** A record outside the list does not matter. *)
Lemma links_insert m p l q r : q ∉ l -> links nxt m p l -> links nxt (<[q := r]> m) p l.
Proof.
intros Hq. apply links_ext. intros t x Ht Hx. exists x. rewrite lookup_insert_ne; [done|]. by intros ->.
Qed.

Lemma links_delete m p l q : q ∉ l -> links nxt m p l -> links nxt (delete q m) p l.
Proof.
intros Hq. apply links_ext. intros t x Ht Hx. exists x. rewrite lookup_delete_ne; [done|]. by intros ->.
Qed.

Lemma links_app m p l1 q l2 :
links nxt m p (l1 ++ q :: l2) -> exists r, m !! q = Some r /\ links nxt m (nxt r) l2.
Proof.
revert p. induction l1 as [|q' l1 IH]; intros p Hl; cbn in Hl.
- destruct Hl as (_ & _ & r & Hr & Hl). by exists r.
- destruct Hl as (_ & _ & r & _ & Hl). by eapply IH.
Qed.

(** Another rest behind [q]. *)
Lemma links_splice m p l1 q l2 l3 r r' :
links nxt m p (l1 ++ q :: l2) -> q ∉ l1 -> q ∉ l3 -> m !! q = Some r -> links nxt m (nxt r') l3 ->
links nxt (<[q := r']> m) p (l1 ++ q :: l3).
Proof.
intros Hl Hq1 Hq3 Hr H3. revert p Hl. induction l1 as [|t l1 IH]; intros p Hl; cbn in Hl |- *.
- destruct Hl as (-> & Hne & _). split; [done|]. split; [done|]. exists r'.
  rewrite lookup_insert_eq. split; [done|]. by apply links_insert.
- apply not_elem_of_cons in Hq1 as [Hqt Hq1]. destruct Hl as (-> & Hne & x & Hx & Hl).
  split; [done|]. split; [done|]. exists x. rewrite lookup_insert_ne by done. auto.
Qed.

(** A new record behind the last one. *)
Lemma links_snoc m p l q new rq rq' rn :
links nxt m p (l ++ [q]) -> NoDup (l ++ [q]) -> new ∉ l ++ [q] -> new <> 0 ->
m !! q = Some rq -> m !! new = Some rn -> nxt rq' = new -> nxt rn = 0 ->
links nxt (<[q := rq']> m) p ((l ++ [q]) ++ [new]).
Proof.
intros Hl Hnd Hnew Hne Hq Hn Hnq Hn0. rewrite <- app_assoc. cbn [app].
rewrite not_elem_of_app, not_elem_of_cons in Hnew. destruct Hnew as (Hn1 & Hn2 & _).
apply NoDup_app in Hnd as (_ & Hd & _).
apply (links_splice m p l q [] [new] rq); try done.
- intros Hin. apply (Hd q Hin). left.
- intros ->%list_elem_of_singleton. done.
- split; [done|]. split; [done|]. by exists rn.
Qed.

(** The record behind [q] is taken out. *)
Lemma links_unlink m p l1 q t l2 rq rq' rt :
links nxt m p (l1 ++ q :: t :: l2) -> NoDup (l1 ++ q :: t :: l2) ->
m !! q = Some rq -> m !! t = Some rt -> nxt rq' = nxt rt ->
links nxt (<[q := rq']> m) p (l1 ++ q :: l2).
Proof.
intros Hl Hnd Hq Ht Hn. pose proof Hl as H2.
rewrite cons_middle, app_assoc in H2. apply links_app in H2 as (x & Hx & H2).
assert (x = rt) as -> by congruence.
apply NoDup_app in Hnd as (_ & Hd & Hnd). apply NoDup_cons in Hnd as [Hq2 _].
apply (links_splice m p l1 q (t :: l2) l2 rq); try done.
- intros Hin. apply (Hd q Hin). left.
- intros Hin. apply Hq2. by right.
- by rewrite Hn.
Qed.

(** The list from [p] is determined. *)
Lemma links_unique m p l l' : links nxt m p l -> links nxt m p l' -> l = l'.
Proof.
revert p l'. induction l as [|q l IH]; intros p [|q' l'] H1 H2; try done; cbn in H1, H2.
- destruct H2 as (-> & ? & _). congruence.
- destruct H1 as (-> & ? & _). congruence.
- destruct H1 as (-> & _ & r & Hr & H1), H2 as (<- & _ & r' & Hr' & H2). f_equal.
  assert (r' = r) as -> by congruence. by eapply IH.
Qed.
End links.
