(* ===== verification/KString.v ===== *)
(** * KString: the kernel's string routines (kernel/lib/string.c)

    Byte memory is a table [gmap Z Z]; a C string at [a] holding the characters [l] is
    [cstr m a l].  The two scanning loops ([strlen], [strcpy]) and [strcmp] have no bound
    of their own and run on fuel; any fuel above the string's length is enough. *)
From S2P Require Import Prelude.

Abbreviation mem := (gmap Z Z).

(** ** The routines *)

(** [for (i = 0; i < count; i++) *tmp++ = val;] through an [unsigned char *]. *)
Definition memset (m : mem) (s val count : Z) : mem :=
  for_upto 0 count (fun i m => m⟦s + i := u8 val⟧) m.

(** [while (p--) *p_dest++ = *p_src++;] *)
Definition memcpy (m : mem) (s1 s2 n : Z) : mem :=
  for_upto 0 n (fun i m => m⟦s1 + i := m⟦s2 + i⟧⟧) m.

(** [while ( *p_src != 0) *p_dest++ = *p_src++;], returning the final [p_dest]. *)
Fixpoint strcpy_loop (fuel : nat) (m : mem) (p_dest p_src : Z) : outcome (mem * Z) :=
  match fuel with
  | O => NoFuel
  | S fuel =>
      if m⟦p_src⟧ =? 0 then Ret (m, p_dest)
      else strcpy_loop fuel m⟦p_dest := m⟦p_src⟧⟧ (p_dest + 1) (p_src + 1)
  end.

Definition strcpy (fuel : nat) (m : mem) (dest src : Z) : outcome mem :=
  '(m, p_dest) ← strcpy_loop fuel m dest src;
  Ret m⟦p_dest := 0⟧.

Fixpoint strlen_loop (fuel : nat) (m : mem) (tmp : Z) : outcome Z :=
  match fuel with
  | O => NoFuel
  | S fuel => if m⟦tmp⟧ =? 0 then Ret tmp else strlen_loop fuel m (tmp + 1)
  end.

Definition strlen (fuel : nat) (m : mem) (s : Z) : outcome Z :=
  tmp ← strlen_loop fuel m s;
  Ret (tmp - s).

(** [while ( *_s1++ == *_s2++) if ( *_s1 == *_s2 && *_s1 + *_s2 == 0) return 0;
    return -1;]: the characters are compared before the pointers move, the end of the
    strings is tested after they moved. *)
Fixpoint strcmp (fuel : nat) (m : mem) (s1 s2 : Z) : outcome Z :=
  match fuel with
  | O => NoFuel
  | S fuel =>
      if m⟦s1⟧ =? m⟦s2⟧ then
        let s1 := s1 + 1 in
        let s2 := s2 + 1 in
        if (m⟦s1⟧ =? m⟦s2⟧) && (s8 m⟦s1⟧ + s8 m⟦s2⟧ =? 0) then Ret 0
        else strcmp fuel m s1 s2
      else Ret (-1)
  end.

Definition memcmp (m : mem) (s1 s2 n : Z) : Z :=
  match
    for_break (Z.to_nat n) 0
      (fun i (_ : unit) => if m⟦s1 + i⟧ =? m⟦s2 + i⟧ then inl tt else inr 1) tt
  with
  | inl _ => 0
  | inr r => r
  end.

(** ** Strings in memory *)

(** The bytes [l] stand at [a]. *)
Fixpoint bytes_at (m : mem) (a : Z) (l : list Z) : Prop :=
  match l with
  | [] => True
  | c :: l => m⟦a⟧ = c /\ bytes_at m (a + 1) l
  end.

(** [l] is a C string's contents: bytes, none of them zero. *)
Definition chars (l : list Z) : Prop := Forall (fun c => 0 < c < 256) l.

Definition cstr (m : mem) (a : Z) (l : list Z) : Prop :=
  chars l /\ bytes_at m a l /\ m⟦a + Z.of_nat (length l)⟧ = 0.

Abbreviation zlen l := (Z.of_nat (length l)).

Section strings.
Implicit Types (m : mem) (a b : Z) (l : list Z) (fuel : nat).

Lemma rd_memset m s val count a :
(memset m s val count)⟦a⟧ =
if within a s count then u8 val else m⟦a⟧.
Proof.
destruct (Z.le_gt_cases 0 count) as [Hc|Hc].
- unfold memset.
  apply (for_upto_inv
    (fun i m' => m'⟦a⟧ = if within a s i then u8 val else m⟦a⟧));
    [done|case_within; [lia|done]|].
  intros k m' Hk E. rewrite rd_wr, E. case_within; lia.
- unfold memset, for_upto. replace (Z.to_nat (count - 0)) with O by lia.
  simpl. case_within; [lia|done].
Qed.

(** Between regions that do not overlap, [memcpy] copies and touches nothing else. *)
Lemma rd_memcpy m s1 s2 n a :
s1 + n <= s2 \/ s2 + n <= s1 ->
(memcpy m s1 s2 n)⟦a⟧ =
if within a s1 n then m⟦s2 + (a - s1)⟧ else m⟦a⟧.
Proof.
intros Hd. destruct (Z.le_gt_cases 0 n) as [Hn|Hn].
- unfold memcpy. revert a.
  apply (for_upto_inv (fun i m' => forall a, m'⟦a⟧ =
    if within a s1 i then m⟦s2 + (a - s1)⟧ else m⟦a⟧)); [done|..].
  { intros a. case_within; [lia|done]. }
  intros k m' Hk E a. rewrite rd_wr, (E a), (E (s2 + k)).
  case_within; try lia; try done. f_equal. lia.
- unfold memcpy, for_upto. replace (Z.to_nat (n - 0)) with O by lia.
  simpl. case_within; [lia|done].
Qed.

Lemma bytes_at_nth m a l i c :
bytes_at m a l -> l !! i = Some c -> m⟦a + Z.of_nat i⟧ = c.
Proof.
revert a i. induction l as [|d l IH]; intros a i Hb Hi; [done|].
destruct Hb as [Hd Hb]. destruct i as [|i]; simpl in Hi.
- injection Hi as ->. by rewrite Z.add_0_r.
- replace (a + Z.of_nat (S i)) with (a + 1 + Z.of_nat i) by lia. eauto.
Qed.

(** Strings read the same in memories that agree on their bytes. *)
Lemma bytes_at_ext m m' a l :
(forall b, a <= b < a + zlen l -> m'⟦b⟧ = m⟦b⟧) -> bytes_at m a l -> bytes_at m' a l.
Proof.
revert a. induction l as [|c l IH]; intros a E Hb; simpl in *; [done|].
destruct Hb as [Hc Hb]. split.
- rewrite E by lia. done.
- apply IH; [|done]. intros b Hbr. apply E. lia.
Qed.

Lemma cstr_ext m m' a l :
(forall b, a <= b <= a + zlen l -> m'⟦b⟧ = m⟦b⟧) -> cstr m a l -> cstr m' a l.
Proof.
intros E (Hc & Hb & Hz). split; [done|]. split.
- eapply bytes_at_ext; [|done]. intros b Hbr. apply E. lia.
- rewrite E by lia. done.
Qed.

Lemma cstr_cons m a c l :
cstr m a (c :: l) <-> 0 < c < 256 /\ m⟦a⟧ = c /\ cstr m (a + 1) l.
Proof.
unfold cstr, chars. rewrite Forall_cons. simpl length. simpl bytes_at.
replace (a + 1 + zlen l) with (a + Z.of_nat (S (length l))) by lia. tauto.
Qed.

(** Strings in parts. *)
Lemma bytes_at_app m a l1 l2 : bytes_at m a (l1 ++ l2) <-> bytes_at m a l1 /\ bytes_at m (a + zlen l1) l2.
Proof.
  revert a. induction l1 as [|c l1 IH]; intros a; cbn [app bytes_at length].
  - rewrite Z.add_0_r. tauto.
  - rewrite IH. replace (a + 1 + zlen l1) with (a + Z.of_nat (S (length l1))) by lia. tauto.
Qed.

Lemma cstr_app m a l1 l2 :
  cstr m a (l1 ++ l2) <-> chars l1 /\ bytes_at m a l1 /\ cstr m (a + zlen l1) l2.
Proof.
  unfold cstr, chars. rewrite Forall_app, bytes_at_app, length_app.
  replace (a + zlen l1 + zlen l2) with (a + Z.of_nat (length l1 + length l2)) by lia. tauto.
Qed.

Lemma cstr_nil m a : m⟦a⟧ = 0 -> cstr m a [].
Proof. intros E. split; [constructor|]. split; [exact I|]. cbn. by rewrite Z.add_0_r. Qed.

Lemma cstr_chars m a l : cstr m a l -> chars l.
Proof. by intros [? _]. Qed.

Lemma cstr_end m a l : cstr m a l -> m⟦a + zlen l⟧ = 0.
Proof. by intros (_ & _ & ?). Qed.

(** A prefix of a string, ended there. *)
Lemma cstr_cut m a l1 l2 : cstr m a (l1 ++ l2) -> cstr m⟦a + zlen l1 := 0⟧ a l1.
Proof.
  intros (Hc & Hb & _)%cstr_app. split; [done|]. split; [|apply rd_wr_eq].
  eapply bytes_at_ext; [|exact Hb]. intros b Hr. by rewrite rd_wr_ne by lia.
Qed.
Lemma strlen_loop_spec fuel m a l :
cstr m a l -> (length l < fuel)%nat -> strlen_loop fuel m a = Ret (a + zlen l).
Proof.
revert m a l. induction fuel as [|fuel IH]; intros m a l Hs Hf; [lia|].
destruct l as [|c l]; simpl.
- destruct Hs as (_ & _ & Hz). simpl in Hz. rewrite Z.add_0_r in Hz.
  rewrite Hz. simpl. f_equal. lia.
- apply cstr_cons in Hs as (Hc & Hm & Hs). rewrite Hm.
  destruct (Z.eqb_spec c 0); [lia|].
  rewrite (IH m (a + 1) l) by (simpl in Hf; auto with lia). f_equal. lia.
Qed.

Lemma strlen_spec fuel m a l :
cstr m a l -> (length l < fuel)%nat -> strlen fuel m a = Ret (zlen l).
Proof.
intros Hs Hf. unfold strlen. rewrite (strlen_loop_spec _ _ _ l) by done.
simpl. f_equal. lia.
Qed.

(** The copying loop, for a destination clear of the source string. *)
Lemma strcpy_loop_spec fuel m d s l :
cstr m s l -> (length l < fuel)%nat ->
d + zlen l < s \/ s + zlen l < d ->
exists m', strcpy_loop fuel m d s = Ret (m', d + zlen l) /\
  forall a, m'⟦a⟧ = if within a d (zlen l) then m⟦s + (a - d)⟧ else m⟦a⟧.
Proof.
revert m d s l. induction fuel as [|fuel IH]; intros m d s l Hs Hf Hd; [lia|].
destruct l as [|c l]; simpl.
- destruct Hs as (_ & _ & Hz). simpl in Hz. rewrite Z.add_0_r in Hz. rewrite Hz. simpl.
  exists m. split; [do 2 f_equal; lia|]. intros a. case_within; [lia|done].
- apply cstr_cons in Hs as (Hc & Hm & Hs). rewrite Hm.
  destruct (Z.eqb_spec c 0); [lia|]. simpl in Hf, Hd.
  destruct (IH m⟦d := c⟧ (d + 1) (s + 1) l) as (m' & E & Hm'); [|lia|lia|].
  { eapply cstr_ext; [|done]. intros b Hb. mem_simpl. done. }
  rewrite E. exists m'. split; [do 2 f_equal; lia|].
  intros a. rewrite Hm', !rd_wr. case_within; try lia; try done.
  + f_equal. lia.
  + subst. by rewrite Z.sub_diag, Z.add_0_r.
Qed.

Lemma strcpy_total fuel m d s l :
cstr m s l -> (length l < fuel)%nat ->
d + zlen l < s \/ s + zlen l < d ->
exists m', strcpy fuel m d s = Ret m' /\ cstr m' d l /\
  forall a, within a d (zlen l + 1) = false -> m'⟦a⟧ = m⟦a⟧.
Proof.
intros Hs Hf Hd. destruct (strcpy_loop_spec fuel m d s l) as (m1 & E & Hm1); [done..|].
unfold strcpy. rewrite E. simpl. eexists. split; [done|]. split.
- destruct Hs as (Hc & Hb & Hz). split; [done|]. split.
  + clear E Hc Hz. assert (forall i c, l !! i = Some c -> m⟦s + Z.of_nat i⟧ = c)
      as Hn by (intros; eapply bytes_at_nth; eauto).
    assert (forall k l', drop k l = l' ->
      bytes_at m1⟦d + zlen l := 0⟧ (d + Z.of_nat k) l') as Hk.
    { intros k l'. revert k. induction l' as [|c l' IH]; intros k Hl'; [done|].
      assert (l !! k = Some c) as Hlk.
      { rewrite <- (Nat.add_0_r k), <- lookup_drop, Hl'. done. }
      pose proof (lookup_lt_Some _ _ _ Hlk).
      split.
      - rewrite rd_wr, Hm1. case_within; try lia.
        rewrite <- (Hn k c) by done. f_equal. lia.
      - replace (d + Z.of_nat k + 1) with (d + Z.of_nat (S k)) by lia.
        apply IH. replace (S k) with (k + 1)%nat by lia.
        rewrite <- drop_drop, Hl'. done. }
    specialize (Hk O l). rewrite Z.add_0_r in Hk. by apply Hk.
  + mem_simpl. done.
- intros a Ha. unfold within in Ha. apply andb_false_iff in Ha.
  rewrite rd_wr, Hm1. case_within; lia || done.
Qed.

Lemma strcmp_sym fuel m a1 a2 : strcmp fuel m a1 a2 = strcmp fuel m a2 a1.
Proof.
revert a1 a2. induction fuel as [|fuel IH]; intros a1 a2; [done|]. cbn [strcmp].
rewrite (Z.eqb_sym m⟦a1⟧), (Z.eqb_sym m⟦a1 + 1⟧), (Z.add_comm (s8 m⟦a1 + 1⟧)).
by rewrite IH.
Qed.

(** Both strings empty is the one case left out: [strcmp] then compares the bytes that
  follow the two terminators. *)
Lemma strcmp_total fuel m a1 a2 l1 l2 :
cstr m a1 l1 -> cstr m a2 l2 -> l1 <> [] \/ l2 <> [] ->
(length l1 < fuel)%nat ->
strcmp fuel m a1 a2 = Ret (if bool_decide (l1 = l2) then 0 else -1).
Proof.
revert a1 a2 l1 l2. induction fuel as [|fuel IH]; intros a1 a2 l1 l2 H1 H2 Hne Hf; [lia|].
assert (forall a l, cstr m a l -> m⟦a⟧ = hd 0 l) as Hhd.
{ intros a [|c l] H.
  - destruct H as (_ & _ & Hz). simpl in Hz. by rewrite Z.add_0_r in Hz.
  - apply cstr_cons in H as (_ & Hm & _). done. }
cbn [strcmp]. rewrite (Hhd a1 l1), (Hhd a2 l2) by done.
destruct l1 as [|c1 l1], l2 as [|c2 l2]; cbn [hd].
- by destruct Hne.
- apply cstr_cons in H2 as (? & _ & _). destruct (Z.eqb_spec 0 c2); [lia|].
  by rewrite bool_decide_eq_false_2.
- apply cstr_cons in H1 as (? & _ & _). destruct (Z.eqb_spec c1 0); [lia|].
  by rewrite bool_decide_eq_false_2.
- apply cstr_cons in H1 as (Hc1 & _ & H1). apply cstr_cons in H2 as (Hc2 & _ & H2).
  destruct (Z.eqb_spec c1 c2) as [->|Hcne].
  2:{ rewrite bool_decide_eq_false_2; congruence. }
  rewrite (Hhd _ l1), (Hhd _ l2) by done.
  assert (forall l, l = [] \/ hd 0 l <> 0 /\ s8 (hd 0 l) <> 0 \/ ~ chars l) as Hcase.
  { intros [|c l]; [by left|right]. destruct (decide (0 < c < 256)) as [Hr|Hr].
    - left. simpl. word_lia.
    - right. intros Hl. apply Forall_cons_1 in Hl as [? _]. lia. }
  destruct (Hcase l1) as [->|[[Hn1 Hs1]|Hbad]]; [..|by destruct H1].
  + destruct (Hcase l2) as [->|[[Hn2 Hs2]|Hbad]]; [..|by destruct H2].
    * by rewrite bool_decide_eq_true_2.
    * cbn [hd]. destruct (Z.eqb_spec 0 (hd 0 l2)); [congruence|]. cbn [andb].
      assert (l2 <> []) by (intros ->; done).
      rewrite (IH _ _ [] l2) by (auto; simpl in *; lia).
      rewrite !bool_decide_eq_false_2; congruence.
  + assert (l1 <> []) by (intros ->; done).
    replace ((hd 0 l1 =? hd 0 l2) && (s8 (hd 0 l1) + s8 (hd 0 l2) =? 0)) with false.
    2:{ symmetry. apply andb_false_iff.
        destruct (Z.eqb_spec (hd 0 l1) (hd 0 l2)) as [<-|]; [right|by left].
        apply Z.eqb_neq. lia. }
    rewrite (IH _ _ l1 l2) by (auto; simpl in *; lia).
    f_equal. destruct (decide (l1 = l2)) as [->|].
    * rewrite !bool_decide_eq_true_2; done.
    * rewrite !bool_decide_eq_false_2; congruence.
Qed.

Lemma memcmp_zero m s1 s2 n :
memcmp m s1 s2 n = 0 <-> forall i, 0 <= i < n -> m⟦s1 + i⟧ = m⟦s2 + i⟧.
Proof.
unfold memcmp.
set (body := fun i (_ : unit) => _).
pose proof (for_break_inv
  (fun k (_ : unit) => forall i, 0 <= i < k -> m⟦s1 + i⟧ = m⟦s2 + i⟧)
  (fun k r => r = 1 /\ m⟦s1 + k⟧ <> m⟦s2 + k⟧) (Z.to_nat n) 0 body tt) as HI.
destruct (for_break _ _ _ _) as [[]|r].
- split; [|done]. intros _ i Hi. apply HI; [intros; lia| |lia].
  intros k [] Hk Hl. unfold body. destruct (Z.eqb_spec m⟦s1 + k⟧ m⟦s2 + k⟧); [|done].
  intros j Hj. destruct (decide (j = k)) as [->|]; [done|]. apply Hl. lia.
- destruct HI as (k & Hk & -> & Hne).
  + intros; lia.
  + intros k [] Hk Hl. unfold body.
    destruct (Z.eqb_spec m⟦s1 + k⟧ m⟦s2 + k⟧); [|done].
    intros j Hj. destruct (decide (j = k)) as [->|]; [done|]. apply Hl. lia.
  + split; [done|]. intros Hl. destruct Hne. apply Hl. lia.
Qed.
End strings.

(** ** Properties *)

(** [strcpy] returns on every string, whatever the fuel above its length, and leaves at
    the destination the same string, its terminator included, with every other byte of
    memory unchanged; [strlen] of the copy is the length of the source. *)
Theorem strcpy_copies (fuel : nat) (m : mem) (dest src : Z) (l : list Z) :
  cstr m src l -> (length l < fuel)%nat ->
  dest + zlen l < src \/ src + zlen l < dest ->
  exists m', strcpy fuel m dest src = Ret m' /\ cstr m' dest l /\ cstr m' src l /\
    strlen fuel m' dest = strlen fuel m src /\
    forall a, within a dest (zlen l + 1) = false -> m'⟦a⟧ = m⟦a⟧.
Proof.
  intros Hs Hf Hd. destruct (strcpy_total fuel m dest src l) as (m' & E & Hm & Hrest); [done..|].
  exists m'. split_and!; [done|done|..|done].
  - eapply cstr_ext; [|done]. intros b Hb. apply Hrest. unfold within. lia.
  - by rewrite !(strlen_spec _ _ _ l).
Qed.

(** The bytes [l] written from [a]. *)
Fixpoint poke (m : mem) (a : Z) (l : list Z) : mem :=
  match l with
  | [] => m
  | c :: l => poke m⟦a := c⟧ (a + 1) l
  end.

Example strcpy_copies_witness :
  let m := poke ∅ 100 [72; 105; 0] in
  exists m', strcpy 5 m 200 100 = Ret m' /\ cstr m' 200 [72; 105].
Proof.
  destruct (strcpy_copies 5 (poke ∅ 100 [72; 105; 0]) 200 100 [72; 105])
    as (m' & E & H & _).
  - split; [repeat constructor|]. split; [repeat split|reflexivity].
  - simpl. lia.
  - simpl. lia.
  - exists m'. split; [exact E|exact H].
Defined.

(** [strcmp] decides equality of two strings that are not both empty: it returns 0 on
    equal strings and -1 on different ones, and never runs past the shorter of them. *)
Theorem strcmp_decides (fuel : nat) (m : mem) (a1 a2 : Z) (l1 l2 : list Z) :
  cstr m a1 l1 -> cstr m a2 l2 -> l1 <> [] \/ l2 <> [] ->
  (Nat.min (length l1) (length l2) < fuel)%nat ->
  strcmp fuel m a1 a2 = Ret (if bool_decide (l1 = l2) then 0 else -1).
Proof.
  intros H1 H2 Hne Hf. destruct (Nat.le_ge_cases (length l1) (length l2)) as [Hle|Hle].
  - apply strcmp_total; try done. lia.
  - rewrite strcmp_sym. rewrite (strcmp_total _ _ _ _ l2 l1) by (tauto || lia).
    f_equal. destruct (decide (l1 = l2)) as [->|].
    + by rewrite !bool_decide_eq_true_2.
    + by rewrite !bool_decide_eq_false_2 by congruence.
Qed.

Example strcmp_decides_witness :
  strcmp 9 (poke (poke ∅ 100 [72; 105; 0]) 200 [72; 105; 0]) 100 200 = Ret 0 /\
  strcmp 9 (poke (poke ∅ 100 [72; 105; 0]) 200 [72; 0]) 100 200 = Ret (-1).
Proof.
  split.
  - apply (strcmp_decides _ _ _ _ [72; 105] [72; 105]);
      [split; [repeat constructor|split; [repeat split|reflexivity]]..|by left|simpl; lia].
  - apply (strcmp_decides _ _ _ _ [72; 105] [72]);
      [split; [repeat constructor|split; [repeat split|reflexivity]]..|by left|simpl; lia].
Defined.

(** [strcmp] does not report two empty strings equal by themselves: the comparison
    steps over both terminators before it looks for the end, and the answer depends on the
    bytes behind them. *)
Theorem strcmp_empty_overruns (fuel : nat) (m : mem) (a1 a2 : Z) :
  cstr m a1 [] -> cstr m a2 [] -> m⟦a1 + 1⟧ <> m⟦a2 + 1⟧ ->
  strcmp (S (S fuel)) m a1 a2 = Ret (-1).
Proof.
  intros (_ & _ & H1) (_ & _ & H2) Hne. simpl in H1, H2. rewrite Z.add_0_r in H1, H2.
  cbn [strcmp]. rewrite H1, H2. cbn [Z.eqb].
  destruct (Z.eqb_spec m⟦a1 + 1⟧ m⟦a2 + 1⟧) as [|_]; done.
Qed.

Example strcmp_empty_overruns_witness :
  strcmp 2 (poke (poke ∅ 100 [0; 65; 0]) 200 [0; 66; 0]) 100 200 = Ret (-1).
Proof.
  apply strcmp_empty_overruns;
    [split; [constructor|split; [exact I|reflexivity]]..|vm_compute; discriminate].
Defined.
