(* ===== verification/Bytes.v ===== *)
(** * Bytes: integers of several bytes in memory, and the allocator interface

    [ld n m a] and [st n m a v] read and write the [n]-byte little-endian integer at [a],
    the way the compiled code accesses the fields of packed structures.  [Allocator] is what
    the components that allocate memory need of the kernel's heap, with the laws they rely
    on; Heap proves them for [alloc_pages] and [free_pages]. *)
From S2P Require Import Prelude KString.

(** ** Little-endian integers *)
Fixpoint ld (n : nat) (m : mem) (a : Z) : Z :=
  match n with
  | O => 0
  | S n => m⟦a⟧ + 256 * ld n m (a + 1)
  end.

Fixpoint st (n : nat) (m : mem) (a v : Z) : mem :=
  match n with
  | O => m
  | S n => st n m⟦a := v mod 256⟧ (a + 1) (v / 256)
  end.

Abbreviation ld16 := (ld 2).
Abbreviation ld32 := (ld 4).
Abbreviation ld64 := (ld 8).
Abbreviation st16 := (st 2).
Abbreviation st32 := (st 4).
Abbreviation st64 := (st 8).

(** Every cell holds a byte. *)
Definition bytes_in (m : mem) : Prop := forall a, 0 <= m⟦a⟧ < 256.

(** The [n]-byte word at [a] of the cells [c]. *)
Fixpoint word_of (n : nat) (c : Z -> Z) (a : Z) : Z :=
  match n with O => 0 | S n => c a + 256 * word_of n c (a + 1) end.

Section le.
Implicit Types (m : mem) (a b v : Z) (n k : nat).

Lemma word_of_ext n c c' a a' :
(forall i, 0 <= i < Z.of_nat n -> c (a + i) = c' (a' + i)) -> word_of n c a = word_of n c' a'.
Proof.
revert a a'. induction n as [|n IH]; intros a a' E; cbn; [done|]. f_equal.
- pose proof (E 0 ltac:(lia)) as E0. by rewrite !Z.add_0_r in E0.
- f_equal. apply IH. intros i Hi. rewrite <- !Z.add_assoc. apply E. lia.
Qed.

Lemma word_of_range n c a : (forall i, 0 <= c i < 256) -> 0 <= word_of n c a < 256 ^ Z.of_nat n.
Proof.
intros Hc. revert a. induction n as [|n IH]; intros a; [done|]. cbn [word_of].
replace (Z.of_nat (S n)) with (Z.succ (Z.of_nat n)) by lia. rewrite Z.pow_succ_r by lia.
specialize (IH (a + 1)). specialize (Hc a). lia.
Qed.

Lemma ld_word_of n m a : ld n m a = word_of n (rd m) a.
Proof. revert a. induction n as [|n IH]; intros a; cbn; [done|]. by rewrite IH. Qed.

(** A word of the memory that holds a copy of [c]. *)
Lemma ld_copy n m c a b (k : Z) :
(forall i, 0 <= i < k -> m⟦a + i⟧ = c (b + i)) -> forall o, 0 <= o -> o + Z.of_nat n <= k -> ld n m (a + o) = word_of n c (b + o).
Proof.
intros E o Ho Hk. rewrite ld_word_of. apply word_of_ext. intros i Hi. rewrite <- !Z.add_assoc. apply E. lia.
Qed.

Lemma rd_st_out n m a v b : ~ a <= b < a + Z.of_nat n -> (st n m a v)⟦b⟧ = m⟦b⟧.
Proof.
revert m a v. induction n as [|n IH]; intros m a v Hb; [done|]. cbn [st].
rewrite IH by lia. by rewrite rd_wr_ne by lia.
Qed.

Lemma rd_st_in n m a v i :
0 <= i < Z.of_nat n -> (st n m a v)⟦a + i⟧ = v / 256 ^ i mod 256.
Proof.
revert m a v i. induction n as [|n IH]; intros m a v i Hi; [lia|]. cbn [st].
destruct (decide (i = 0)) as [->|Hne].
- rewrite Z.add_0_r, rd_st_out, rd_wr_eq by lia. by rewrite Z.div_1_r.
- replace (a + i) with (a + 1 + (i - 1)) by lia. rewrite IH by lia.
  rewrite Z.div_div by lia. do 2 f_equal.
  rewrite <- Z.pow_succ_r by lia. f_equal. lia.
Qed.

Lemma ld_ext n m m' a :
(forall b, a <= b < a + Z.of_nat n -> m'⟦b⟧ = m⟦b⟧) -> ld n m' a = ld n m a.
Proof.
revert a. induction n as [|n IH]; intros a E; [done|]. cbn [ld].
rewrite E by lia. f_equal. f_equal. apply IH. intros b Hb. apply E. lia.
Qed.

Lemma ld_zero n m a : (forall b, a <= b < a + Z.of_nat n -> m⟦b⟧ = 0) -> ld n m a = 0.
Proof.
revert a. induction n as [|n IH]; intros a Hz; [done|]. cbn [ld]. rewrite Hz, IH by lia || (intros b Hb; apply Hz; lia).
done.
Qed.

Lemma ld_st_eq n m a v : ld n (st n m a v) a = v mod 256 ^ Z.of_nat n.
Proof.
revert m a v. induction n as [|n IH]; intros m a v; [by rewrite Z.mod_1_r|]. cbn [ld st].
rewrite rd_st_out, rd_wr_eq, IH by lia.
replace (Z.of_nat (S n)) with (Z.succ (Z.of_nat n)) by lia.
rewrite Z.pow_succ_r by lia. by rewrite Z.rem_mul_r by lia.
Qed.

Lemma ld_st_ne n k m a b v :
a + Z.of_nat n <= b \/ b + Z.of_nat k <= a -> ld n (st k m b v) a = ld n m a.
Proof. intros Hd. apply ld_ext. intros c Hc. apply rd_st_out. lia. Qed.

Lemma ld_wr_ne n m a b v :
b < a \/ a + Z.of_nat n <= b -> ld n m⟦b := v⟧ a = ld n m a.
Proof. intros Hd. apply ld_ext. intros c Hc. by rewrite rd_wr_ne by lia. Qed.

Lemma ld_range n m a : bytes_in m -> 0 <= ld n m a < 256 ^ Z.of_nat n.
Proof.
intros Hm. revert a. induction n as [|n IH]; intros a; [done|]. cbn [ld].
replace (Z.of_nat (S n)) with (Z.succ (Z.of_nat n)) by lia. rewrite Z.pow_succ_r by lia.
specialize (IH (a + 1)). specialize (Hm a). lia.
Qed.

Lemma bytes_in_st n m a v : bytes_in m -> bytes_in (st n m a v).
Proof.
intros Hm b. destruct (decide (a <= b < a + Z.of_nat n)) as [Hb|Hb].
- replace b with (a + (b - a)) by lia. rewrite rd_st_in by lia. apply Z.mod_pos_bound. lia.
- rewrite rd_st_out by done. apply Hm.
Qed.

Lemma bytes_in_wr m a v : bytes_in m -> 0 <= v < 256 -> bytes_in m⟦a := v⟧.
Proof. intros Hm Hv b. rewrite rd_wr. case_within; [done|apply Hm]. Qed.

Lemma bytes_in_memset m a v (n : Z) : bytes_in m -> bytes_in (memset m a v n).
Proof. intros Hm b. rewrite rd_memset. case_within; [apply u8_range|apply Hm]. Qed.

Lemma bytes_in_empty : bytes_in ∅.
Proof. intros a. rewrite rd_empty. unfold zero, zero_Z. lia. Qed.

(** What stands in [n] cells from [a], as a list. *)
Definition bytes m a (n : Z) : list Z := (fun i => m⟦a + Z.of_nat i⟧) <$> seq 0 (Z.to_nat n).

Lemma length_bytes m a (n : Z) : length (bytes m a n) = Z.to_nat n.
Proof. unfold bytes. by rewrite length_fmap, length_seq. Qed.

Lemma lookup_bytes m a (n : Z) (i : nat) :
Z.of_nat i < n -> bytes m a n !! i = Some m⟦a + Z.of_nat i⟧.
Proof.
intros Hi. unfold bytes. rewrite list_lookup_fmap, lookup_seq_lt by lia. done.
Qed.

Lemma bytes_ext m m' a (n : Z) :
(forall b, a <= b < a + n -> m'⟦b⟧ = m⟦b⟧) -> bytes m' a n = bytes m a n.
Proof.
intros E. unfold bytes. apply list_fmap_ext. intros i x Hx.
apply lookup_seq in Hx as [-> Hi]. apply E. lia.
Qed.
End le.

(** [n] cells of [c] from [a], as a list. *)
Definition cells (c : Z -> Z) (a : Z) (n : nat) : list Z := (fun i => c (a + Z.of_nat i)) <$> seq 0 n.

Lemma cells_ext c c' a a' n :
  (forall i, 0 <= i < Z.of_nat n -> c' (a' + i) = c (a + i)) -> cells c' a' n = cells c a n.
Proof. intros E. apply list_fmap_ext. intros j x Hx. apply lookup_seq in Hx as [-> Hj]. apply E. lia. Qed.

(** Two regions of memory that do not meet. *)
Definition apart (a n b k : Z) : Prop := a + n <= b \/ b + k <= a.

(** ** The allocator interface *)

(** [malloc size] returns an address, [palloc type len] the address of [len] pages (of the
    user when [type] is not 0), [free] takes either back. *)
Class Allocator (A : Type) := {
  malloc : Z -> A -> outcome (Z * A);
  palloc : Z -> Z -> A -> outcome (Z * A);
  free : Z -> A -> outcome A
}.

(** [heap_ok a B]: the heap [a] is well formed and its live allocations are [B], from their
    address to their length; [heap_room a n]: it can serve [n] bytes. *)
Class AllocatorLaws (A : Type) `{Allocator A} := {
  heap_ok : A -> gmap Z Z -> Prop;
  heap_room : A -> Z -> Prop;
  malloc_spec a B n :
    heap_ok a B -> 0 < n < 2 ^ 31 -> heap_room a n ->
    exists p k a', malloc n a = Ret (p, a') /\ n <= k /\ 0 < p /\
      heap_ok a' (<[p := k]> B) /\
      forall q j, B !! q = Some j -> q + j <= p \/ p + k <= q;
  palloc_spec a B type n :
    heap_ok a B -> 0 < n < 2 ^ 19 -> heap_room a (n * 0x1000) ->
    exists p k a', palloc type n a = Ret (p, a') /\ n * 0x1000 <= k /\ 0 < p /\
      heap_ok a' (<[p := k]> B) /\
      forall q j, B !! q = Some j -> q + j <= p \/ p + k <= q;
  free_spec a B p k :
    heap_ok a B -> B !! p = Some k -> exists a', free p a = Ret a' /\ heap_ok a' (delete p B);
  free_inside a B p k q :
    heap_ok a B -> B !! p = Some k -> p <= q < p + 0x1000 -> q < p + k -> free q a = free p a;
  heap_pos a B p k : heap_ok a B -> B !! p = Some k -> 0 < p /\ 0 < k
}.

(** The cells of the live blocks. *)
Definition live (B : gmap Z Z) (b : Z) : Prop := exists p k, B !! p = Some k /\ p <= b < p + k.

Lemma malloc_fresh {A} `{AllocatorLaws A} (a : A) B n :
  heap_ok a B -> 0 < n < 2 ^ 31 -> heap_room a n ->
  exists p k a', malloc n a = Ret (p, a') /\ n <= k /\ 0 < p /\
    heap_ok a' (<[p := k]> B) /\ B !! p = None /\ (forall b, live B b -> ~ p <= b < p + k).
Proof.
  intros Hok Hn Hroom. destruct (malloc_spec _ _ n Hok Hn Hroom) as (p & k & h & E & Hk & Hp & Hok' & Hd).
  exists p, k, h. split; [exact E|]. split; [exact Hk|]. split; [exact Hp|]. split; [exact Hok'|]. split.
  - destruct (B !! p) as [j|] eqn:Ej; [|done]. destruct (heap_pos _ _ _ _ Hok Ej).
    destruct (Hd p j Ej); lia.
  - intros b (q & j & Hq & Hb) Hin. destruct (Hd q j Hq); lia.
Qed.

(** The [n] cells at [a] are in use. *)
Definition live_range (B : gmap Z Z) (a n : Z) : Prop := forall i, 0 <= i < n -> live B (a + i).

Lemma live_apart (B : gmap Z Z) p k a n :
  0 < k -> (forall b, live B b -> ~ p <= b < p + k) -> live_range B a n -> 0 <= n ->
  apart a n p k \/ n = 0.
Proof.
  intros Hk HB Ha Hn. destruct (decide (n = 0)) as [|Hn0]; [by right|left]. unfold apart.
  destruct (Z.leb_spec (a + n) p); [lia|]. destruct (Z.leb_spec (p + k) a); [lia|].
  destruct (Z.leb_spec p a).
  - destruct (HB a); [|lia]. replace a with (a + 0) by lia. apply Ha. lia.
  - destruct (HB p); [|lia]. replace p with (a + (p - a)) by lia. apply Ha. lia.
Qed.

Lemma fresh_apart B p k a n :
  (forall b, live B b -> ~ p <= b < p + k) -> live_range B a n -> 0 < k -> 0 < n -> apart a n p k.
Proof. intros Hr Hl Hn Hk. destruct (live_apart B p k a n Hn Hr Hl); [lia|done|lia]. Qed.


(** A heap that hands out fresh memory and never reuses it: the simplest instance, on which
    examples run. *)
Definition bump : Type := Z.

#[export] Instance bump_allocator : Allocator bump := {
  malloc n (a : bump) := Ret (a, a + n);
  palloc _ n (a : bump) := Ret (a, a + n * 0x1000);
  free _ (a : bump) := Ret a
}.

#[export] Instance bump_allocator_laws : AllocatorLaws bump.
Proof.
  refine {| heap_ok := fun (a : bump) B => 0 < a /\
              forall p k, B !! p = Some k -> 0 < p /\ 0 < k /\ p + k <= a;
            heap_room := fun _ _ => True |}.
  - intros a B n [Ha HB] Hn _. exists a, n, (a + n). split_and!; try done; try lia.
    + intros p k [[<- <-]|[_ Hp]]%lookup_insert_Some; [lia|]. apply HB in Hp. lia.
    + intros q j Hq. apply HB in Hq. lia.
  - intros a B type n [Ha HB] Hn _. exists a, (n * 0x1000), (a + n * 0x1000).
    split_and!; try done; try lia.
    + intros p k [[<- <-]|[_ Hp]]%lookup_insert_Some; [lia|]. apply HB in Hp. lia.
    + intros q j Hq. apply HB in Hq. lia.
  - intros a B p k [Ha HB] Hp. exists a. split; [done|]. split; [done|].
    intros q j [_ Hq]%lookup_delete_Some. by apply HB.
  - intros a B p k q _ _ _ _. reflexivity.
  - intros a B p k [_ HB] Hp. apply HB in Hp. lia.
Defined.

(** A block that is taken and given back leaves as much room as there was. *)
Class RoomLaws (A : Type) `{AllocatorLaws A} := {
  room_back (h : A) B n p h1 h2 m :
    heap_ok h B -> 0 < n < 2 ^ 31 -> heap_room h n -> malloc n h = Ret (p, h1) -> free p h1 = Ret h2 ->
    heap_room h m -> heap_room h2 m
}.

#[export] Instance bump_room : RoomLaws bump.
Proof. done. Qed.
