(* ===== verification/Frames.v ===== *)
(** * Frames: the physical frame allocator (kernel/mm.c)

    One bit per 4 KiB frame, from [RAM_BITMAP]; a set bit is a frame in use.
    [ram_setup], [alloc_frame] and [free_frame] are the code's; [frame_busy] reads the
    bitmap as a set of frame numbers and is what the theorems are stated with. *)
From S2P Require Import Prelude KString Bytes.

(** ** The operations *)

Definition RAM_BITMAP : Z := 0x2000000.

Definition ram_setup (m : mem) : Z * mem :=
  (* Reserved Kernel 128MiB *)
  let len := ((128 * 1024) / 4) / 8 in
  let m := memset m RAM_BITMAP (-1) len in
  (* Free 128 MiB to 512 MiB *)
  let offset := len in
  let len := (((512 - 128) * 1024) / 4) / 8 in
  let m := memset m (RAM_BITMAP + offset) 0 len in
  (RAM_BITMAP, m).

(** The scan of one byte: [for (t = 0; t < 8; t++)] with its [return]. *)
Definition alloc_frame_byte (m : mem) (i bmp : Z) : unit + Z * mem :=
  for_break 8 0
    (fun t _ =>
       if Z.land (Z.shiftr m⟦bmp⟧ t) 0x1 =? 0 then
         inr (u32 ((i * 8 + t) * 0x1000), m⟦bmp := u8 (Z.lor m⟦bmp⟧ (Z.shiftl 1 t))⟧)
       else inl tt) tt.

Definition alloc_frame (m : mem) : Z * mem :=
  let limit := (512 * 1024) / 4 in
  match
    for_break_upto 4096 limit
      (fun i bmp =>
         match alloc_frame_byte m i bmp with
         | inl _ => inl (bmp + 1)
         | inr r => inr r
         end) (RAM_BITMAP + 4096)
  with
  | inl _ => (0, m)
  | inr r => r
  end.

Definition free_frame (m : mem) (addr : Z) : Z * mem :=
  if (addr =? 0) || (addr <? 0x8000000) then (0, m)
  else
    let block := u32 (addr / 0x1000) in
    let byte := block / 8 in
    let bit := block mod 8 in
    let bmp := RAM_BITMAP + byte in
    (s32 (Z.lor byte (u32 (Z.shiftl bit 24))),
     m⟦bmp := u8 (Z.land m⟦bmp⟧ (Z.lnot (Z.shiftl 1 bit)))⟧).

#[global] Arguments alloc_frame : simpl never.

(** ** The bitmap as a set of frames *)

Definition frame_busy (m : mem) (k : Z) : bool :=
  Z.testbit m⟦RAM_BITMAP + k / 8⟧ (k mod 8).

Section frames.
Implicit Types (m : mem) (j k t bmp : Z).

Lemma frame_busy_wr m i v k :
0 <= k ->
frame_busy m⟦RAM_BITMAP + i := v⟧ k =
if k / 8 =? i then Z.testbit v (k mod 8) else frame_busy m k.
Proof.
intros Hk. unfold frame_busy. rewrite rd_wr.
destruct (Z.eqb_spec (RAM_BITMAP + k / 8) (RAM_BITMAP + i)), (Z.eqb_spec (k / 8) i);
  lia || done.
Qed.

Lemma frame_busy_byte m i t :
0 <= i -> 0 <= t < 8 ->
Z.testbit m⟦RAM_BITMAP + i⟧ t = frame_busy m (i * 8 + t).
Proof.
intros Hi Ht. unfold frame_busy. do 2 f_equal; word_lia.
Qed.

(** Setting one bit of the bitmap marks one frame. *)
Lemma frame_busy_set m i t k :
0 <= i -> 0 <= t < 8 -> 0 <= k ->
frame_busy m⟦RAM_BITMAP + i := u8 (Z.lor m⟦RAM_BITMAP + i⟧ (Z.shiftl 1 t))⟧ k =
frame_busy m k || (k =? i * 8 + t).
Proof.
intros Hi Ht Hk. rewrite frame_busy_wr by lia.
pose proof (Z.mod_pos_bound k 8 ltac:(lia)).
destruct (Z.eqb_spec (k / 8) i) as [<-|Hne].
- unfold u8. rewrite testbit_wrap, testbit_lor_1 by lia. fold (frame_busy m k).
  f_equal. apply eq_iff_eq_true. rewrite !Z.eqb_eq. word_lia.
- destruct (Z.eqb_spec k (i * 8 + t)); [word_lia|]. by rewrite orb_false_r.
Qed.

Lemma frame_busy_clear m i t k :
0 <= i -> 0 <= t < 8 -> 0 <= k ->
frame_busy m⟦RAM_BITMAP + i := u8 (Z.land m⟦RAM_BITMAP + i⟧ (Z.lnot (Z.shiftl 1 t)))⟧ k =
frame_busy m k && negb (k =? i * 8 + t).
Proof.
intros Hi Ht Hk. rewrite frame_busy_wr by lia.
pose proof (Z.mod_pos_bound k 8 ltac:(lia)).
destruct (Z.eqb_spec (k / 8) i) as [<-|Hne].
- unfold u8. rewrite testbit_wrap, testbit_clear_1 by lia. fold (frame_busy m k).
  do 2 f_equal. apply eq_iff_eq_true. rewrite !Z.eqb_eq. word_lia.
- destruct (Z.eqb_spec k (i * 8 + t)); [word_lia|]. by rewrite andb_true_r.
Qed.

(** What a successful allocation of frame [k] does. *)
Definition takes_frame (m : mem) (k : Z) (r : Z * mem) : Prop :=
frame_busy m k = false /\
r = (k * 0x1000,
     m⟦RAM_BITMAP + k / 8 := u8 (Z.lor m⟦RAM_BITMAP + k / 8⟧ (Z.shiftl 1 (k mod 8)))⟧).

Lemma alloc_frame_byte_spec m i :
4096 <= i < 131072 ->
match alloc_frame_byte m i (RAM_BITMAP + i) with
| inl _ => forall j, i * 8 <= j < i * 8 + 8 -> frame_busy m j = true
| inr r => exists k, i * 8 <= k < i * 8 + 8 /\ takes_frame m k r /\
             forall j, i * 8 <= j < k -> frame_busy m j = true
end.
Proof.
intros Hi. unfold alloc_frame_byte.
break_with (fun t (_ : unit) => forall j, i * 8 <= j < i * 8 + t -> frame_busy m j = true)
  (fun t r => takes_frame m (i * 8 + t) r /\
     forall j, i * 8 <= j < i * 8 + t -> frame_busy m j = true).
- intros; lia.
- intros t [] Ht Hlow. rewrite land_shiftr_1, frame_busy_byte by lia.
  destruct (frame_busy m (i * 8 + t)) eqn:Hb; simpl.
  + intros j Hj. destruct (decide (j = i * 8 + t)) as [->|]; [done|]. apply Hlow. lia.
  + split; [|done]. split; [done|].
    assert ((i * 8 + t) / 8 = i /\ (i * 8 + t) mod 8 = t) as [-> ->] by word_lia.
    by rewrite u32_small by lia.
- intros _ Hall. exact Hall.
- intros t r Ht [Hr Hlow]. exists (i * 8 + t). split; [lia|]. auto.
Qed.

Lemma alloc_frame_cases m :
(exists k, 32768 <= k < 1048576 /\ takes_frame m k (alloc_frame m) /\
   forall j, 32768 <= j < k -> frame_busy m j = true) \/
alloc_frame m = (0, m) /\ forall j, 32768 <= j < 1048576 -> frame_busy m j = true.
Proof.
unfold alloc_frame. break_upto_with
  (fun i bmp => bmp = RAM_BITMAP + i /\
     forall j, 32768 <= j < i * 8 -> frame_busy m j = true)
  (fun i r => exists k, i * 8 <= k < i * 8 + 8 /\ takes_frame m k r /\
     forall j, 32768 <= j < k -> frame_busy m j = true).
- done.
- split; [done|]. intros; lia.
- change (512 * 1024 / 4) with 131072. intros i bmp Hi [-> Hlow]. pose proof (alloc_frame_byte_spec m i ltac:(lia)) as HB.
  destruct (alloc_frame_byte m i _) as [[]|r].
  + split; [lia|]. intros j Hj. destruct (decide (j < i * 8)); [apply Hlow|apply HB]; lia.
  + destruct HB as (k & Hk & Hr & HB). exists k. split; [lia|]. split; [done|].
    intros j Hj. destruct (decide (j < i * 8)); [apply Hlow|apply HB]; lia.
- intros bmp [_ Hall]. right. split; [done|]. exact Hall.
- change (512 * 1024 / 4) with 131072. intros i r Hi (k & Hk & Hr & Hlow). left. exists k. split; [lia|]. auto.
Qed.

(** A taken frame was free and is the only one whose state changes. *)
Lemma takes_frame_busy m k r j :
0 <= k -> 0 <= j -> takes_frame m k r ->
frame_busy r.2 j = frame_busy m j || (j =? k).
Proof.
intros Hk Hj [_ ->]. simpl. pose proof (Z.mod_pos_bound k 8 ltac:(lia)).
rewrite frame_busy_set by word_lia. do 2 f_equal. word_lia.
Qed.

Lemma takes_frame_ne m k r a :
takes_frame m k r -> a <> RAM_BITMAP + k / 8 -> r.2⟦a⟧ = m⟦a⟧.
Proof. intros [_ ->] Ha. simpl. by rewrite rd_wr_ne by done. Qed.

Lemma takes_frame_ok m k r : takes_frame m k r -> bytes_in m -> bytes_in r.2.
Proof.
intros [_ ->] Hm a. simpl. rewrite rd_wr. case_within; [apply u8_range|apply Hm].
Qed.

Lemma free_frame_busy m addr j :
0 <= addr < 2 ^ 44 -> 0 <= j ->
frame_busy (free_frame m addr).2 j =
frame_busy m j && negb ((0x8000000 <=? addr) && (j =? addr / 0x1000)).
Proof.
intros Ha Hj. unfold free_frame.
destruct (Z.leb_spec 0x8000000 addr) as [Hlo|Hlo].
- replace ((addr =? 0) || (addr <? 0x8000000)) with false by lia. simpl.
  assert (0 <= addr / 0x1000 < 2 ^ 32) as Hb by word_lia.
  rewrite u32_small by lia. pose proof (Z.mod_pos_bound (addr / 4096) 8 ltac:(lia)).
  rewrite frame_busy_clear by word_lia. do 3 f_equal. word_lia.
- replace ((addr =? 0) || (addr <? 0x8000000)) with true by lia. simpl.
  by rewrite andb_true_r.
Qed.

(** Setting a clear bit and clearing it again is the identity on a byte. *)
Lemma u8_set_clear b t :
0 <= b < 256 -> 0 <= t < 8 -> Z.testbit b t = false ->
u8 (Z.land (u8 (Z.lor b (Z.shiftl 1 t))) (Z.lnot (Z.shiftl 1 t))) = b.
Proof.
intros Hb Ht Hbit. rewrite <- (u8_small b) at 2 by lia.
apply Z.bits_inj'. intros k Hk. unfold u8.
destruct (Z.ltb_spec k 8) as [Hlt|Hge].
- rewrite !testbit_wrap, testbit_clear_1, testbit_wrap, testbit_lor_1 by lia.
  destruct (Z.eqb_spec k t) as [->|]; simpl.
  + by rewrite andb_false_r, Hbit.
  + by rewrite orb_false_r, andb_true_r.
- by rewrite !Z.mod_pow2_bits_high by lia.
Qed.

Lemma takes_free_frame m k r :
32768 <= k < 1048576 -> takes_frame m k r -> bytes_in m ->
(free_frame r.2 r.1).2 ≡ₘ m.
Proof.
intros Hk [Hfree ->] Hm a. unfold free_frame. simpl.
replace ((k * 4096 =? 0) || (k * 4096 <? 134217728)) with false by lia. simpl.
rewrite Z.div_mul, u32_small, rd_wr_eq by lia.
rewrite !rd_wr. case_within; [|done]. subst a.
apply u8_set_clear; [apply Hm|apply Z.mod_pos_bound; lia|exact Hfree].
Qed.
End frames.

(** Successive allocations, as [alloc_pages] and [exectve] make them; [None] when one of
    them fails. *)
Fixpoint alloc_frames (n : nat) (m : mem) : option (list Z * mem) :=
  match n with
  | O => Some ([], m)
  | S n =>
      let '(frame, m) := alloc_frame m in
      if frame =? 0 then None
      else '(frames, m) ← alloc_frames n m; Some (frame :: frames, m)
  end.

Section sequences.
Implicit Types (m : mem) (j k : Z).

Lemma alloc_frame_takes m addr m' :
alloc_frame m = (addr, m') -> addr <> 0 ->
exists k, 32768 <= k < 1048576 /\ addr = k * 0x1000 /\ takes_frame m k (addr, m').
Proof.
intros E Hne. destruct (alloc_frame_cases m) as [(k & Hk & Ht & _)|[E' _]].
- rewrite E in Ht. exists k. split; [done|]. split; [|done].
  destruct Ht as [_ Ht]. congruence.
- rewrite E in E'. congruence.
Qed.

Lemma alloc_frames_S n m :
alloc_frames (S n) m =
  let '(frame, m) := alloc_frame m in
  if frame =? 0 then None
  else '(frames, m) ← alloc_frames n m; Some (frame :: frames, m).
Proof. reflexivity. Qed.

(** [n] allocations take [n] frames that were free, and no others. *)
Lemma alloc_frames_spec n m frames m' :
alloc_frames n m = Some (frames, m') ->
length frames = n /\ NoDup frames /\
Forall (fun f => exists k, 32768 <= k < 1048576 /\ f = k * 0x1000 /\
                   frame_busy m k = false) frames /\
(forall j, 0 <= j ->
   frame_busy m' j = frame_busy m j || bool_decide (j * 0x1000 ∈ frames)) /\
(bytes_in m -> bytes_in m').
Proof.
revert m frames m'. induction n as [|n IH]; intros m frames m' E; [|rewrite alloc_frames_S in E].
- injection E as <- <-. split_and!; [done|constructor|constructor|intros j _|done].
  by rewrite bool_decide_eq_false_2, orb_false_r by apply not_elem_of_nil.
- destruct (alloc_frame m) as [f m1] eqn:Ef.
  destruct (Z.eqb_spec f 0) as [|Hf]; [done|].
  destruct (alloc_frames n m1) as [[fs m2]|] eqn:En; [|done].
  injection E as <- <-. apply IH in En as (Hl & Hnd & Hall & Hbusy & Hok).
  apply alloc_frame_takes in Ef as (k & Hk & -> & Ht); [|done].
  assert (forall j, 0 <= j -> frame_busy m1 j = frame_busy m j || (j =? k)) as Hm1.
  { intros j Hj. exact (takes_frame_busy m k _ j ltac:(lia) Hj Ht). }
  split; [simpl; lia|]. split; [|split; [|split]].
  + apply NoDup_cons. split; [|done]. intros Hin.
    eapply Forall_forall in Hall as (k' & Hk' & Ekk & Hfree); [|done].
    replace k' with k in * by lia. rewrite Hm1, Z.eqb_refl, orb_true_r in Hfree by lia.
    done.
  + constructor; [exists k; split_and!; [lia|lia|done|by destruct Ht]|].
    eapply Forall_impl; [done|]. intros f (k' & Hk' & -> & Hfree). exists k'.
    rewrite Hm1 in Hfree by lia. apply orb_false_iff in Hfree as [? _]. done.
  + intros j Hj. rewrite Hbusy, Hm1 by lia.
    rewrite <- orb_assoc. f_equal. apply eq_iff_eq_true.
    rewrite orb_true_iff, Z.eqb_eq, !bool_decide_eq_true, elem_of_cons.
    split; (intros [?|?]; [left; lia|by right]).
  + intros Hm. apply Hok. by apply (takes_frame_ok _ _ _ Ht).
Qed.

(** Two memories with the same frames free allocate alike. *)
Definition same_frames (m m2 : mem) : Prop :=
forall k, 0 <= k < 1048576 -> frame_busy m k = frame_busy m2 k.

Lemma alloc_frame_same m m2 :
same_frames m m2 ->
(alloc_frame m).1 = (alloc_frame m2).1 /\ same_frames (alloc_frame m).2 (alloc_frame m2).2.
Proof.
intros Hs.
destruct (alloc_frame_cases m) as [(k & Hk & Ht & Hlow)|[-> Hall]],
  (alloc_frame_cases m2) as [(k2 & Hk2 & Ht2 & Hlow2)|[-> Hall2]].
- assert (k = k2) as <-.
  { destruct (Z.lt_trichotomy k k2) as [Hlt|[|Hgt]]; [exfalso|done|exfalso].
    - destruct Ht as [Hf _]. rewrite Hs, Hlow2 in Hf by lia. done.
    - destruct Ht2 as [Hf _]. rewrite <- Hs, Hlow in Hf by lia. done. }
  split; [destruct Ht as [_ ->], Ht2 as [_ ->]; done|].
  intros j Hj. rewrite (takes_frame_busy m k _ j), (takes_frame_busy m2 k _ j) by (done || lia).
  by rewrite Hs.
- destruct Ht as [Hf _]. rewrite Hs, Hall2 in Hf by lia. done.
- destruct Ht2 as [Hf _]. rewrite <- Hs, Hall in Hf by lia. done.
- done.
Qed.

Lemma alloc_frames_same n m m2 fs m' :
same_frames m m2 -> alloc_frames n m = Some (fs, m') ->
exists m2', alloc_frames n m2 = Some (fs, m2') /\ same_frames m' m2'.
Proof.
revert m m2 fs m'. induction n as [|n IH]; intros m m2 fs m' Hs E.
{ injection E as <- <-. by exists m2. }
rewrite alloc_frames_S in E |- *. destruct (alloc_frame_same _ _ Hs) as [E1 E2].
destruct (alloc_frame m) as [f r], (alloc_frame m2) as [f2 r2]. simpl in E1, E2. subst f2.
destruct (f =? 0); [done|]. destruct (alloc_frames n r) as [[fs' m1]|] eqn:En; [|done].
injection E as <- <-. destruct (IH _ _ _ _ E2 En) as (m2' & -> & Hs').
by exists m2'.
Qed.

(** The bytes of the bitmap the allocator may write. *)
Definition frame_byte (a : Z) : Prop := RAM_BITMAP <= a < RAM_BITMAP + 131072.

Lemma alloc_frames_rest n m fs m' a :
alloc_frames n m = Some (fs, m') -> ~ frame_byte a -> m'⟦a⟧ = m⟦a⟧.
Proof.
revert m fs m'. induction n as [|n IH]; intros m fs m' E Ha.
{ by injection E as <- <-. }
rewrite alloc_frames_S in E. destruct (alloc_frame m) as [f r] eqn:Ef.
destruct (Z.eqb_spec f 0) as [|Hf]; [done|].
destruct (alloc_frames n r) as [[fs' m1]|] eqn:En; [|done]. injection E as <- <-.
rewrite (IH _ _ _ En Ha). apply alloc_frame_takes in Ef as (k & Hk & _ & Ht); [|done].
apply (takes_frame_ne _ _ _ a Ht). unfold frame_byte in Ha. word_lia.
Qed.

Lemma free_frame_rest m addr a :
0 <= addr < 2 ^ 32 -> ~ frame_byte a -> (free_frame m addr).2⟦a⟧ = m⟦a⟧.
Proof.
intros Hr Ha. unfold free_frame. destruct (_ || _); [done|]. simpl.
rewrite u32_small by word_lia. apply rd_wr_ne. unfold frame_byte in Ha. word_lia.
Qed.

Lemma free_frame_ok m addr : bytes_in m -> bytes_in (free_frame m addr).2.
Proof.
intros Hm a. unfold free_frame. destruct (_ || _); [apply Hm|]. simpl.
rewrite rd_wr. case_within; [apply u8_range|apply Hm].
Qed.
End sequences.

(** ** Properties *)

(** [alloc_frame] is first fit over the frames from 128 MiB: it returns the address
    of the lowest free frame and marks exactly that frame, or returns 0 and leaves the
    bitmap alone when none is free. *)
Theorem alloc_frame_first_fit (m : mem) :
  let '(addr, m') := alloc_frame m in
  (exists k, 32768 <= k < 1048576 /\ addr = k * 0x1000 /\ frame_busy m k = false /\
     (forall j, 32768 <= j < k -> frame_busy m j = true) /\
     (forall j, 0 <= j -> frame_busy m' j = frame_busy m j || (j =? k)) /\
     (forall a, a <> RAM_BITMAP + k / 8 -> m'⟦a⟧ = m⟦a⟧)) \/
  (addr = 0 /\ m' = m /\ forall j, 32768 <= j < 1048576 -> frame_busy m j = true).
Proof.
  pose proof (alloc_frame_cases m) as HC. destruct (alloc_frame m) as [addr m'].
  destruct HC as [(k & Hk & Ht & Hlow)|[E Hall]]; [left|right; by injection E].
  exists k. split; [done|].
  pose proof Ht as [Hfree Er]. injection Er as Ea _.
  split; [done|]. split; [done|]. split; [done|]. split.
  - intros j Hj. exact (takes_frame_busy m k _ j ltac:(lia) Hj Ht).
  - intros a Ha. by apply (takes_frame_ne _ _ _ a) in Ht.
Qed.

(** Freeing what [alloc_frame] just returned gives back the bitmap it started from. *)
Theorem free_alloc_frame (m m' : mem) (addr : Z) :
  bytes_in m -> alloc_frame m = (addr, m') -> addr <> 0 -> (free_frame m' addr).2 ≡ₘ m.
Proof.
  intros Hm E Hne. apply alloc_frame_takes in E as (k & Hk & -> & Ht); [|done].
  by apply (takes_free_frame _ _ _ Hk) in Ht.
Qed.

Example free_alloc_frame_witness :
  exists m', alloc_frame ∅ = (0x8000000, m') /\ (free_frame m' 0x8000000).2 ≡ₘ ∅.
Proof.
  eexists. split; [vm_compute; reflexivity|].
  apply (free_alloc_frame ∅); [apply bytes_in_empty|vm_compute; reflexivity|lia].
Defined.

(** Any number of successive allocations hand out pairwise distinct frames, each
    page-aligned, at or above 128 MiB, below 4 GiB and free beforehand. *)
Theorem alloc_frames_distinct (n : nat) (m m' : mem) (frames : list Z) :
  alloc_frames n m = Some (frames, m') ->
  length frames = n /\ NoDup frames /\
  forall f, f ∈ frames ->
    f mod 0x1000 = 0 /\ 0x8000000 <= f < 2 ^ 32 /\
    frame_busy m (f / 0x1000) = false /\ frame_busy m' (f / 0x1000) = true.
Proof.
  intros E. apply alloc_frames_spec in E as (Hl & Hnd & Hall & Hbusy & _).
  split; [done|]. split; [done|]. intros f Hf.
  rewrite Forall_forall in Hall. destruct (Hall f Hf) as (k & Hk & -> & Hfree).
  rewrite Z.mod_mul, Z.div_mul by lia. split; [done|]. split; [lia|]. split; [done|].
  rewrite Hbusy by lia. by rewrite bool_decide_eq_true_2, orb_true_r.
Qed.

Example alloc_frames_distinct_witness :
  exists frames m', alloc_frames 9 ∅ = Some (frames, m') /\
    frames !! 8%nat = Some 0x8008000 /\ NoDup frames.
Proof.
  eexists _, _. split; [vm_compute; reflexivity|]. split; [reflexivity|].
  eapply (λ H, proj1 (proj2 (alloc_frames_distinct 9 ∅ _ _ H))). vm_compute; reflexivity.
Defined.

(** The scan does not stop at the end of the 512 MiB the bitmap describes: with all of
    them in use it goes on over bytes [ram_setup] never initialised, and a zero there makes
    it return the address 512 MiB, where no frame of the described memory is. *)
Theorem alloc_frame_past_bitmap (m : mem) :
  (forall j, 32768 <= j < 131072 -> frame_busy m j = true) ->
  frame_busy m 131072 = false ->
  (alloc_frame m).1 = 512 * 1024 * 1024.
Proof.
  intros Hall Hfree. destruct (alloc_frame_cases m) as [(k & Hk & Ht & Hlow)|[_ Hbad]].
  - assert (k = 131072) as ->; [|by destruct Ht as [_ ->]].
    destruct (Z.lt_trichotomy k 131072) as [Hlt|[->|Hgt]]; [exfalso|done|exfalso].
    + destruct Ht as [Hb _]. rewrite Hall in Hb by lia. done.
    + rewrite Hlow in Hfree by lia. done.
  - rewrite Hbad in Hfree by lia. done.
Qed.

Example alloc_frame_past_bitmap_witness :
  (alloc_frame (memset ∅ RAM_BITMAP (-1) 16384)).1 = 0x20000000.
Proof.
  apply alloc_frame_past_bitmap; [|vm_compute; reflexivity].
  intros j Hj. unfold frame_busy. rewrite rd_memset.
  destruct (within_spec (RAM_BITMAP + j / 8) RAM_BITMAP 16384); [|word_lia].
  change (u8 (-1)) with (Z.ones 8). rewrite Z.ones_spec_low; [done|].
  apply Z.mod_pos_bound. lia.
Defined.
