(* ===== verification/Pages.v ===== *)
(** * Pages: the virtual page bitmap (kernel/mm.c)

    Two bits per 4 KiB page, from [PAGE_BITMAP]: the low bit of a pair says the page is in
    use, the high bit that it continues the block of the page before it, so a block of
    [len] pages reads 01 11 11 ...  The routines that walk the pairs of a block share one
    loop ([walk]): over the bytes, then over the pairs of a byte from the offset [of],
    stopping after [len] pairs. *)
From S2P Require Import Prelude KString.

Definition PAGE_BITMAP : Z := 0x3000000.

(** ** The loop over the pairs of a block *)
Section walk.
Context {T R : Type} (len : Z) (body : Z -> Z -> T -> T + R).

(** [for (x = of; x < 8; x += 2) { if (i >= len) break; BODY; i++; }]: from an even [of]
  at most four passes. *)
Fixpoint walk_byte (n : nat) (bmp x i : Z) (s : T) : Z * T + R :=
match n with
| O => inl (i, s)
| S n =>
    if 8 <=? x then inl (i, s)
    else if len <=? i then inl (i, s)
    else match body bmp x s with
         | inl s => walk_byte n bmp (x + 2) (i + 1) s
         | inr r => inr r
         end
end.

(** [for (i = 0; i < len; ) { ...; of = 0; bmp++; }]: every pass advances [i], so [len]
  passes are enough. *)
Fixpoint walk (fuel : nat) (bmp of_ i : Z) (s : T) : T + R :=
match fuel with
| O => inl s
| S fuel =>
    if i <? len then
      match walk_byte 4 bmp of_ i s with
      | inl (i, s) => walk fuel (bmp + 1) 0 i s
      | inr r => inr r
      end
    else inl s
end.
End walk.

(** ** The operations *)

Definition linear (m : mem) (p len of_ : Z) : Z :=
  match
    walk len
      (fun bmp x a => if Z.land m⟦bmp⟧ (Z.shiftl 1 x) =? 0 then inl (a + 1) else inr 0)
      (Z.to_nat len) p of_ 0 0
  with
  | inl a => a
  | inr r => r
  end.

Definition masked (m : mem) (p len of_ : Z) : mem :=
  match
    walk (R := Empty_set) len
      (fun bmp x '(a, m) =>
         inl (1,
              if a =? 0 then m⟦bmp := u8 (Z.lor m⟦bmp⟧ (Z.shiftl 1 x))⟧
              else m⟦bmp := u8 (Z.lor m⟦bmp⟧ (Z.shiftl 3 x))⟧))
      (Z.to_nat len) p of_ 0 (0, m)
  with
  | inl (_, m) => m
  | inr r => match r with end
  end.

Definition umasked (m : mem) (p len of_ : Z) : mem :=
  match
    walk (R := Empty_set) len
      (fun bmp x m => inl m⟦bmp := u8 (Z.land m⟦bmp⟧ (Z.lnot (Z.shiftl 3 x)))⟧)
      (Z.to_nat len) p of_ 0 m
  with
  | inl m => m
  | inr r => match r with end
  end.

(** The scan of one byte: [for (x = 0; x < 8; x += 2)], [x = 2 * t]. *)
Definition get_free_page_byte (m : mem) (len bmp a : Z) : Z + Z * mem :=
  for_break 4 0
    (fun t a =>
       let x := 2 * t in
       if Z.land m⟦bmp⟧ (Z.shiftl 1 x) =? 0 then
         let z := linear m bmp (s32 len) x in
         if len =? z then inr (a, masked m bmp (s32 len) x) else inl (a + 1)
       else inl (a + 1)) a.

(** No run found ends in [while (1) {}]. *)
Definition get_free_page (m : mem) (len : Z) : outcome (Z * mem) :=
  match
    for_break_upto 0 (268435456 / 8)
      (fun i '(bmp, a) =>
         match get_free_page_byte m len bmp a with
         | inl a => inl (bmp + 1, a)
         | inr r => inr r
         end) (PAGE_BITMAP, 0)
  with
  | inl _ => Hang
  | inr r => Ret r
  end.

(** One byte of the scan for the end of a block, [i = x + 2 * t]. *)
Definition busy_byte (m : mem) (bmp x a sim : Z) : Z * Z + Z :=
  for_break (Z.to_nat ((8 - x) / 2)) 0
    (fun t '(a, sim) =>
       let i := x + 2 * t in
       if (Z.land m⟦bmp⟧ (Z.shiftl 3 i) =? Z.shiftl 1 i)
          || (Z.land m⟦bmp⟧ (Z.shiftl 3 i) =? 0)
       then if sim =? 1 then inr a else inl (a + 1, 1)
       else inl (a + 1, sim)) (a, sim).

Fixpoint busy_loop (fuel : nat) (m : mem) (bmp x a sim : Z) : outcome Z :=
  match fuel with
  | O => NoFuel
  | S fuel =>
      match busy_byte m bmp x a sim with
      | inl (a, sim) => busy_loop fuel m (bmp + 1) 0 a sim
      | inr a => Ret a
      end
  end.

Definition get_busy_page_size (fuel : nat) (m : mem) (index : Z) : outcome Z :=
  let x := Z.quot index 4 in
  let bmp := PAGE_BITMAP + x in
  let x := Z.rem index 4 in
  let x := x * 2 in
  busy_loop fuel m bmp x 0 0.

(** ** The pairs of bits, page by page *)

Definition page_bit (m : mem) (k b : Z) : bool :=
  Z.testbit m⟦PAGE_BITMAP + k / 4⟧ (2 * (k mod 4) + b).

Definition page_busy (m : mem) (k : Z) : bool := page_bit m k 0.
Definition page_cont (m : mem) (k : Z) : bool := page_bit m k 1.

Section walk_pages.
Context {T R : Type} (len : Z) (body : Z -> Z -> T -> T + R).

(** The same loop, page by page. *)
Definition page_body (k : Z) (s : T) : T + R := body (PAGE_BITMAP + k / 4) (2 * (k mod 4)) s.

Lemma walk_pages fuel k i s :
0 <= k -> (Z.to_nat (len - i) <= fuel)%nat ->
walk len body fuel (PAGE_BITMAP + k / 4) (2 * (k mod 4)) i s =
for_break (Z.to_nat (len - i)) k page_body s.
Proof.
revert k i s. induction fuel as [|fuel IH]; intros k i s Hk Hf.
{ replace (Z.to_nat (len - i)) with O by lia. done. }
cbn [walk]. destruct (Z.ltb_spec i len) as [Hi|Hi].
2:{ replace (Z.to_nat (len - i)) with O by lia. done. }
assert (forall n q r i s,
  0 <= q -> 0 <= r <= 4 -> (Z.to_nat (4 - r) <= n)%nat -> (n <= 4)%nat ->
  (Z.to_nat (len - i) <= (if (r =? 4)%Z then fuel else S fuel))%nat ->
  match walk_byte len body n (PAGE_BITMAP + q) (2 * r) i s with
  | inl (i, s) => walk len body fuel (PAGE_BITMAP + q + 1) 0 i s
  | inr r => inr r
  end = for_break (Z.to_nat (len - i)) (4 * q + r) page_body s) as Hbyte.
{ clear k i s Hk Hf Hi. intros n. induction n as [|n IHn]; intros q r i s Hq Hr Hn Hn4 Hf.
  - assert (r = 4) as -> by lia. simpl in Hf |- *.
    specialize (IH (4 * (q + 1)) i s ltac:(lia) Hf).
    replace (4 * (q + 1) / 4) with (q + 1) in IH by word_lia.
    replace (4 * (q + 1) mod 4) with 0 in IH by word_lia.
    change (2 * 0) with 0 in IH. rewrite Z.add_assoc in IH. rewrite IH. f_equal. lia.
  - simpl walk_byte. destruct (Z.leb_spec 8 (2 * r)) as [H8|H8].
    + assert (r = 4) as -> by lia. simpl in Hf.
      specialize (IH (4 * (q + 1)) i s ltac:(lia) Hf).
      replace (4 * (q + 1) / 4) with (q + 1) in IH by word_lia.
      replace (4 * (q + 1) mod 4) with 0 in IH by word_lia.
      change (2 * 0) with 0 in IH. rewrite Z.add_assoc in IH. rewrite IH. f_equal. lia.
    + destruct (Z.leb_spec len i) as [Hl|Hl].
      * replace (Z.to_nat (len - i)) with O by lia. simpl.
        destruct fuel; [done|]. simpl.
        destruct (Z.ltb_spec i len); [lia|done].
      * replace (Z.to_nat (len - i)) with (S (Z.to_nat (len - (i + 1)))) by lia.
        simpl for_break. unfold page_body at 1.
        replace ((4 * q + r) / 4) with q by word_lia.
        replace ((4 * q + r) mod 4) with r by word_lia.
        destruct (body _ _ s) as [s'|]; [|done].
        replace (2 * r + 2) with (2 * (r + 1)) by lia.
        rewrite IHn; [f_equal; lia|lia|lia|lia|lia|].
        destruct (r =? 4) eqn:?, (r + 1 =? 4) eqn:?; lia. }
rewrite (Hbyte 4%nat (k / 4) (k mod 4) i s); [f_equal; word_lia|word_lia|word_lia|word_lia|lia|].
destruct (Z.eqb_spec (k mod 4) 4); [word_lia|lia].
Qed.

Lemma walk_pages_all k s :
0 <= k ->
walk len body (Z.to_nat len) (PAGE_BITMAP + k / 4) (2 * (k mod 4)) 0 s =
for_break (Z.to_nat len) k page_body s.
Proof. intros Hk. rewrite walk_pages by lia. by rewrite Z.sub_0_r. Qed.
End walk_pages.

(** ** What each routine does to the pages *)
Section pages.
Implicit Types (m : mem) (j k len b : Z).

Lemma page_bit_wr m q v j b :
page_bit m⟦PAGE_BITMAP + q := v⟧ j b =
if j / 4 =? q then Z.testbit v (2 * (j mod 4) + b) else page_bit m j b.
Proof.
unfold page_bit. rewrite rd_wr.
destruct (Z.eqb_spec (PAGE_BITMAP + j / 4) (PAGE_BITMAP + q)), (Z.eqb_spec (j / 4) q);
  lia || done.
Qed.

(** One page's pair rewritten by [f], which works bit by bit. *)
Lemma page_bit_update m k v j b (f : bool -> Z -> bool) :
0 <= k -> 0 <= j -> 0 <= b <= 1 ->
(forall i, 0 <= i < 8 ->
   Z.testbit v i =
   if within i (2 * (k mod 4)) 2
   then f (Z.testbit m⟦PAGE_BITMAP + k / 4⟧ i) (i - 2 * (k mod 4))
   else Z.testbit m⟦PAGE_BITMAP + k / 4⟧ i) ->
page_bit m⟦PAGE_BITMAP + k / 4 := u8 v⟧ j b =
if j =? k then f (page_bit m j b) b else page_bit m j b.
Proof.
intros Hk Hj Hb Hv. rewrite page_bit_wr.
pose proof (Z.mod_pos_bound j 4 ltac:(lia)). pose proof (Z.mod_pos_bound k 4 ltac:(lia)).
destruct (Z.eqb_spec (j / 4) (k / 4)) as [E|Hne].
- unfold u8. rewrite testbit_wrap, Hv by lia. rewrite <- E. fold (page_bit m j b).
  case_within; try word_lia; [|done].
  subst k. f_equal. lia.
- destruct (Z.eqb_spec j k) as [->|]; [lia|done].
Qed.

Lemma page_free_test m k :
0 <= k ->
(Z.land m⟦PAGE_BITMAP + k / 4⟧ (Z.shiftl 1 (2 * (k mod 4))) =? 0) = negb (page_busy m k).
Proof.
intros Hk. pose proof (Z.mod_pos_bound k 4 ltac:(lia)).
rewrite land_1_shiftl_eqb by lia. unfold page_busy, page_bit. by rewrite Z.add_0_r.
Qed.

Lemma linear_spec m k len :
0 <= k -> 0 <= len ->
let r := linear m (PAGE_BITMAP + k / 4) len (2 * (k mod 4)) in
(r = len /\ forall j, k <= j < k + len -> page_busy m j = false) \/
(r = 0 /\ exists j, k <= j < k + len /\ page_busy m j = true).
Proof.
intros Hk Hl. cbv zeta. unfold linear. rewrite walk_pages_all by lia.
break_with (fun i a => a = i - k /\ forall j, k <= j < i -> page_busy m j = false)
  (fun i r => r = 0 /\ page_busy m i = true).
- split; [lia|]. intros; lia.
- intros i a Hi [-> Hlow]. unfold page_body. rewrite page_free_test by lia.
  destruct (page_busy m i) eqn:Hb; simpl; [done|]. split; [lia|].
  intros j Hj. destruct (decide (j = i)) as [->|]; [done|]. apply Hlow. lia.
- intros a [-> Hall]. left. split; [lia|]. intros j Hj. apply Hall. lia.
- intros i r Hi [-> Hb]. right. split; [done|]. exists i. split; [lia|done].
Qed.

Lemma masked_spec m k len :
0 <= k -> 0 <= len ->
let m' := masked m (PAGE_BITMAP + k / 4) len (2 * (k mod 4)) in
(forall j, 0 <= j -> page_busy m' j = page_busy m j || within j k len) /\
(forall j, 0 <= j -> page_cont m' j = page_cont m j || within j (k + 1) (len - 1)) /\
(forall a, a < PAGE_BITMAP + k / 4 \/ PAGE_BITMAP + (k + len - 1) / 4 < a -> m'⟦a⟧ = m⟦a⟧).
Proof.
intros Hk Hl. cbv zeta. unfold masked. rewrite walk_pages_all by lia.
break_with (fun i '(a, m') =>
    a = (if i =? k then 0 else 1) /\
    (forall j, 0 <= j -> page_busy m' j = page_busy m j || within j k (i - k)) /\
    (forall j, 0 <= j -> page_cont m' j = page_cont m j || within j (k + 1) (i - k - 1)) /\
    (forall a, a < PAGE_BITMAP + k / 4 \/ PAGE_BITMAP + (i - 1) / 4 < a -> m'⟦a⟧ = m⟦a⟧))
  (fun (_ : Z) (_ : Empty_set) => False).
- rewrite Z.eqb_refl, Z.sub_diag. split_and!; [done|..|done];
    intros j Hj; case_within; try lia; by rewrite orb_false_r.
- intros i [a m'] Hi (-> & Hbusy & Hcont & Hrest). unfold page_body.
  pose proof (Z.mod_pos_bound i 4 ltac:(lia)).
  destruct (Z.eqb_spec (i + 1) k); [lia|].
  set (v := Z.lor m'⟦PAGE_BITMAP + i / 4⟧
                  (Z.shiftl (if i =? k then 1 else 3) (2 * (i mod 4)))).
  assert (forall j b, 0 <= j -> 0 <= b <= 1 ->
    page_bit m'⟦PAGE_BITMAP + i / 4 := u8 v⟧ j b =
    if j =? i then page_bit m' j b || (b =? 0) || negb (i =? k) else page_bit m' j b) as Hbit.
  { intros j b Hj Hb.
    rewrite (page_bit_update _ _ _ _ _ (fun c b => c || (b =? 0) || negb (i =? k)));
      [done|lia..|].
    intros t Ht. unfold v. rewrite Z.lor_spec.
    destruct (Z.eqb_spec i k); [rewrite testbit_1_shiftl by lia|rewrite testbit_3_shiftl by lia];
      case_within; try lia; simpl; rewrite ?orb_false_r, ?orb_true_r; done. }
  replace (if (if i =? k then 0 else 1) =? 0
           then m'⟦PAGE_BITMAP + i / 4 := u8 (Z.lor m'⟦PAGE_BITMAP + i / 4⟧
                  (Z.shiftl 1 (2 * (i mod 4))))⟧
           else m'⟦PAGE_BITMAP + i / 4 := u8 (Z.lor m'⟦PAGE_BITMAP + i / 4⟧
                  (Z.shiftl 3 (2 * (i mod 4))))⟧)
    with m'⟦PAGE_BITMAP + i / 4 := u8 v⟧
    by (unfold v; by destruct (i =? k)).
  split_and!; [done|..].
  + intros j Hj. unfold page_busy at 1. rewrite Hbit by lia.
    fold (page_busy m' j). rewrite Hbusy by lia.
    case_within; try lia; by rewrite ?orb_false_r, ?orb_true_r.
  + intros j Hj. unfold page_cont at 1. rewrite Hbit by lia.
    fold (page_cont m' j). rewrite Hcont by lia.
    case_within; try lia; by rewrite ?orb_false_r, ?orb_true_r.
  + intros a Ha. rewrite rd_wr_ne; [apply Hrest|]; word_lia.
- intros [a m'] (_ & Hbusy & Hcont & Hrest).
  replace (k + Z.of_nat (Z.to_nat len)) with (k + len) in * by lia.
  split_and!.
  + intros j Hj. rewrite Hbusy by lia. f_equal. f_equal. lia.
  + intros j Hj. rewrite Hcont by lia. f_equal. f_equal. lia.
  + exact Hrest.
- done.
Qed.

Lemma umasked_spec m k len :
0 <= k -> 0 <= len ->
let m' := umasked m (PAGE_BITMAP + k / 4) len (2 * (k mod 4)) in
(forall j b, 0 <= j -> 0 <= b <= 1 -> page_bit m' j b = page_bit m j b && negb (within j k len)) /\
(forall a, a < PAGE_BITMAP + k / 4 \/ PAGE_BITMAP + (k + len - 1) / 4 < a -> m'⟦a⟧ = m⟦a⟧).
Proof.
intros Hk Hl. cbv zeta. unfold umasked. rewrite walk_pages_all by lia.
break_with (fun i m' =>
    (forall j b, 0 <= j -> 0 <= b <= 1 ->
       page_bit m' j b = page_bit m j b && negb (within j k (i - k))) /\
    (forall a, a < PAGE_BITMAP + k / 4 \/ PAGE_BITMAP + (i - 1) / 4 < a -> m'⟦a⟧ = m⟦a⟧))
  (fun (_ : Z) (_ : Empty_set) => False).
- rewrite Z.sub_diag. split; [|done]. intros j b Hj Hb. case_within; [lia|].
  by rewrite andb_true_r.
- intros i m' Hi [Hbit Hrest]. unfold page_body.
  pose proof (Z.mod_pos_bound i 4 ltac:(lia)). split.
  + intros j b Hj Hb. rewrite (page_bit_update _ _ _ _ _ (fun _ _ => false)); [|lia..|].
    * rewrite Hbit by lia. case_within; try lia;
        by rewrite ?andb_true_r, ?andb_false_r.
    * intros t Ht. rewrite Z.land_spec, Z.lnot_spec, testbit_3_shiftl by lia.
      case_within; try lia; simpl; by rewrite ?andb_true_r, ?andb_false_r.
  + intros a Ha. rewrite rd_wr_ne; [apply Hrest|]; word_lia.
- intros m'. replace (k + Z.of_nat (Z.to_nat len)) with (k + len) by lia.
  by replace (k + len - k) with len by lia.
- done.
Qed.
End pages.

(** ** The two searches *)
Section searches.
Implicit Types (m : mem) (j k len : Z).

(** [len] free pages in a row from [k]. *)
Definition run_free m k len : Prop := forall j, k <= j < k + len -> page_busy m j = false.

Definition takes_run m len k (r : Z * mem) : Prop :=
r = (k, masked m (PAGE_BITMAP + k / 4) len (2 * (k mod 4))) /\ run_free m k len.

Lemma get_free_page_byte_spec m len i :
1 <= len < 2147483648 -> 0 <= i ->
match get_free_page_byte m len (PAGE_BITMAP + i) (4 * i) with
| inl a => a = 4 * (i + 1) /\ forall j, 4 * i <= j < 4 * (i + 1) -> ~ run_free m j len
| inr r => exists k, 4 * i <= k < 4 * (i + 1) /\ takes_run m len k r /\
             forall j, 4 * i <= j < k -> ~ run_free m j len
end.
Proof.
intros Hl Hi. unfold get_free_page_byte. rewrite s32_small by lia.
break_with (fun t a => a = 4 * i + t /\
      forall j, 4 * i <= j < 4 * i + t -> ~ run_free m j len)
  (fun t r => takes_run m len (4 * i + t) r /\
      forall j, 4 * i <= j < 4 * i + t -> ~ run_free m j len).
- split; [lia|]. intros; lia.
- intros t a Ht [-> Hlow].
  assert ((4 * i + t) / 4 = i /\ (4 * i + t) mod 4 = t) as [Eq Em] by word_lia.
  pose proof (page_free_test m (4 * i + t) ltac:(lia)) as Hfree.
  pose proof (linear_spec m (4 * i + t) len ltac:(lia) ltac:(lia)) as HL.
  cbv zeta in HL. rewrite Eq, Em in Hfree, HL. rewrite Hfree.
  assert (~ run_free m (4 * i + t) len ->
    4 * i + t + 1 = 4 * i + (t + 1) /\
    forall j, 4 * i <= j < 4 * i + (t + 1) -> ~ run_free m j len) as Hnext.
  { intros Hno. split; [lia|]. intros j Hj.
    destruct (decide (j = 4 * i + t)) as [->|]; [done|]. apply Hlow. lia. }
  destruct (page_busy m (4 * i + t)) eqn:Hb; simpl.
  { apply Hnext. intros Hr. rewrite Hr in Hb by lia. done. }
  destruct HL as [[-> Hrun]|[-> (j & Hj & Hbj)]].
  + rewrite Z.eqb_refl. split; [|done]. split; [|exact Hrun]. by rewrite Eq, Em.
  + destruct (Z.eqb_spec len 0); [lia|]. apply Hnext.
    intros Hr. rewrite Hr in Hbj by lia. done.
- intros a [-> Hall]. split; [lia|]. intros j Hj. apply Hall. lia.
- intros t r Ht [Hr Hlow]. exists (4 * i + t). split; [lia|]. done.
Qed.

Lemma get_free_page_cases m len :
1 <= len < 2147483648 ->
(exists k, 0 <= k < 134217728 /\ run_free m k len /\
   get_free_page m len = Ret (k, masked m (PAGE_BITMAP + k / 4) len (2 * (k mod 4))) /\
   forall j, 0 <= j < k -> ~ run_free m j len) \/
get_free_page m len = Hang /\ forall j, 0 <= j < 134217728 -> ~ run_free m j len.
Proof.
intros Hl. unfold get_free_page. change (268435456 / 8) with 33554432.
break_upto_with (fun i '(bmp, a) => bmp = PAGE_BITMAP + i /\ a = 4 * i /\
    forall j, 0 <= j < 4 * i -> ~ run_free m j len)
  (fun (i : Z) r => exists k, 4 * i <= k < 4 * (i + 1) /\ takes_run m len k r /\
    forall j, 0 <= j < k -> ~ run_free m j len); [done|..].
- split_and!; [done|done|]. intros; lia.
- intros i [bmp a] Hi (-> & -> & Hlow).
  pose proof (get_free_page_byte_spec m len i Hl ltac:(lia)) as HB.
  destruct (get_free_page_byte _ _ _ _) as [a|r].
  + destruct HB as [-> HB]. split_and!; [lia|done|]. intros j Hj.
    destruct (decide (j < 4 * i)); [apply Hlow|apply HB]; lia.
  + destruct HB as (k & Hk & Hr & HB). exists k. split; [lia|]. split; [done|].
    intros j Hj. destruct (decide (j < 4 * i)); [apply Hlow|apply HB]; lia.
- intros [bmp a] (_ & _ & Hall). right. split; [done|]. intros j Hj. apply Hall. lia.
- intros i r Hi (k & Hk & [-> Hrun] & Hlow). left. exists k. split; [lia|]. done.
Qed.

Lemma busy_pair_start m k :
0 <= k ->
(Z.land m⟦PAGE_BITMAP + k / 4⟧ (Z.shiftl 3 (2 * (k mod 4))) =? Z.shiftl 1 (2 * (k mod 4)))
|| (Z.land m⟦PAGE_BITMAP + k / 4⟧ (Z.shiftl 3 (2 * (k mod 4))) =? 0)
= negb (page_cont m k).
Proof.
intros Hk. pose proof (Z.mod_pos_bound k 4 ltac:(lia)).
unfold page_cont, page_bit. set (c := m⟦_⟧). set (x := 2 * (k mod 4)).
assert (forall t, 0 <= t -> Z.testbit (Z.land c (Z.shiftl 3 x)) t =
  Z.testbit c t && ((t =? x) || (t =? x + 1))) as Hbit.
{ intros t Ht. rewrite Z.land_spec, testbit_3_shiftl by lia. done. }
destruct (Z.testbit c (x + 1)) eqn:H1; simpl.
- apply orb_false_iff; split; apply Z.eqb_neq; intros E;
    specialize (Hbit (x + 1) ltac:(lia)); rewrite E, H1 in Hbit.
  + rewrite testbit_1_shiftl in Hbit by lia. simpl in Hbit. lia.
  + rewrite Z.bits_0 in Hbit. simpl in Hbit. lia.
- apply orb_true_iff. destruct (Z.testbit c x) eqn:H0; [left|right];
    apply Z.eqb_eq, Z.bits_inj'; intros t Ht; rewrite Hbit by lia;
    rewrite ?testbit_1_shiftl, ?Z.bits_0 by lia;
    (destruct (Z.eqb_spec t x) as [->|]; [rewrite H0; try done; lia|]);
    (destruct (Z.eqb_spec t (x + 1)) as [->|]; [rewrite H1; simpl; try done; lia|]);
    by rewrite andb_false_r.
Qed.

(** [e] is the first page after [k] that does not continue the block. *)
Definition block_end m k e : Prop :=
k < e /\ page_cont m e = false /\ forall j, k < j < e -> page_cont m j = true.

Lemma busy_byte_spec m k e q r :
0 <= q -> 0 <= r <= 4 -> 0 <= k <= 4 * q + r -> 4 * q + r <= e ->
page_cont m k = false -> block_end m k e ->
busy_byte m (PAGE_BITMAP + q) (2 * r) (4 * q + r - k) (if 4 * q + r =? k then 0 else 1) =
if e <? 4 * (q + 1) then inr (e - k)
else inl (4 * (q + 1) - k, if 4 * (q + 1) =? k then 0 else 1).
Proof.
intros Hq Hr Hk He H0 (Hke & Hend & Hin). unfold busy_byte.
replace (Z.to_nat ((8 - 2 * r) / 2)) with (Z.to_nat (4 - r)) by word_lia.
break_with (fun t '(a, sim) => 4 * q + r + t <= e /\ a = 4 * q + r + t - k /\
     sim = (if 4 * q + r + t =? k then 0 else 1))
  (fun t a => a = e - k /\ 4 * q + r + t = e).
- split_and!; [lia|lia|]. by rewrite Z.add_0_r.
- intros t [a sim] Ht (Hle & -> & ->).
  pose proof (busy_pair_start m (4 * q + r + t) ltac:(lia)) as HP.
  replace ((4 * q + r + t) / 4) with q in HP by word_lia.
  replace ((4 * q + r + t) mod 4) with (r + t) in HP by word_lia.
  replace (2 * (r + t)) with (2 * r + 2 * t) in HP by lia. rewrite HP.
  destruct (Z.eqb_spec (4 * q + r + t) k) as [Ek|Ek].
  + rewrite Ek, H0. simpl. split_and!; [lia|lia|].
    destruct (Z.eqb_spec (4 * q + r + (t + 1)) k); [lia|done].
  + destruct (page_cont m (4 * q + r + t)) eqn:Hc; simpl.
    * assert (4 * q + r + t <> e) by congruence. split_and!; [lia|lia|].
      destruct (Z.eqb_spec (4 * q + r + (t + 1)) k); [lia|done].
    * assert (4 * q + r + t = e); [|lia].
      destruct (decide (4 * q + r + t = e)); [done|].
      rewrite Hin in Hc by lia. done.
- intros [a sim] (Hle & -> & ->). destruct (Z.ltb_spec e (4 * (q + 1))); [lia|].
  do 2 f_equal; [lia|]. by replace (4 * q + r + (0 + Z.of_nat (Z.to_nat (4 - r)))) with (4 * (q + 1)) by lia.
- intros t a Ht [-> He']. destruct (Z.ltb_spec e (4 * (q + 1))); [done|lia].
Qed.

Lemma busy_loop_spec fuel m k e q r :
0 <= q -> 0 <= r <= 4 -> 0 <= k <= 4 * q + r -> 4 * q + r <= e ->
page_cont m k = false -> block_end m k e -> e / 4 - q < Z.of_nat fuel ->
busy_loop fuel m (PAGE_BITMAP + q) (2 * r) (4 * q + r - k)
  (if 4 * q + r =? k then 0 else 1) = Ret (e - k).
Proof.
revert q r. induction fuel as [|fuel IH]; intros q r Hq Hr Hk He H0 HB Hf; [word_lia|].
cbn [busy_loop]. rewrite (busy_byte_spec m k e q r) by done.
destruct (Z.ltb_spec e (4 * (q + 1))); [done|].
specialize (IH (q + 1) 0). rewrite Z.mul_0_r, Z.add_0_r, Z.add_assoc in IH.
apply IH; try done; try lia.
Qed.

Lemma get_busy_page_size_spec fuel m k e :
0 <= k -> page_cont m k = false -> block_end m k e -> e - k < Z.of_nat fuel ->
get_busy_page_size fuel m k = Ret (e - k).
Proof.
intros Hk H0 HB Hf. unfold get_busy_page_size.
rewrite Z.quot_div_nonneg, Z.rem_mod_nonneg by lia.
pose proof (busy_loop_spec fuel m k e (k / 4) (k mod 4)) as HL.
replace (4 * (k / 4) + k mod 4) with k in HL by word_lia.
rewrite Z.sub_diag, Z.eqb_refl in HL. rewrite (Z.mul_comm (k mod 4)).
destruct HB as (? & ? & ?). apply HL; try done; word_lia.
Qed.
End searches.

(** ** The allocator's specification: a set of disjoint blocks

    [B] maps the first page of every allocated block to its length; [page_rep m B] says the
    bitmap of [m] spells exactly [B]. *)
Abbreviation blocks := (gmap Z Z).

Definition block_ok (B : blocks) : Prop :=
  (forall s n, B !! s = Some n -> 0 <= s /\ 1 <= n) /\
  (forall s n s' n', B !! s = Some n -> B !! s' = Some n' -> s < s' -> s + n <= s').

Definition in_block (B : blocks) (j : Z) : Prop := exists s n, B !! s = Some n /\ s <= j < s + n.
Definition inside_block (B : blocks) (j : Z) : Prop := exists s n, B !! s = Some n /\ s < j < s + n.

Definition page_rep (m : mem) (B : blocks) : Prop :=
  block_ok B /\
  (forall j, 0 <= j -> page_busy m j = true <-> in_block B j) /\
  (forall j, 0 <= j -> page_cont m j = true <-> inside_block B j).

(** The run starting at [k] meets no block. *)
Definition fits (B : blocks) (k len : Z) : Prop :=
  forall s n, B !! s = Some n -> s + n <= k \/ k + len <= s.

Section blocks.
Implicit Types (m : mem) (B : blocks) (j k s n len : Z).

Lemma page_rep_empty : page_rep ∅ ∅.
Proof.
split_and!.
- split; intros ? ? ?; by rewrite ?lookup_empty.
- intros j _. unfold page_busy, page_bit. mem_simpl. rewrite Z.bits_0.
  split; [done|]. intros (s & n & Hs & _). by rewrite lookup_empty in Hs.
- intros j _. unfold page_cont, page_bit. mem_simpl. rewrite Z.bits_0.
  split; [done|]. intros (s & n & Hs & _). by rewrite lookup_empty in Hs.
Qed.

Lemma page_rep_ext m m' B :
(forall a, PAGE_BITMAP <= a -> m'⟦a⟧ = m⟦a⟧) -> page_rep m B -> page_rep m' B.
Proof.
intros E (Hok & Hb & Hc). split; [done|]. unfold page_busy, page_cont, page_bit in *.
split; intros j Hj; rewrite E by word_lia; auto.
Qed.

Lemma run_free_fits m B k len :
page_rep m B -> 0 <= k -> 1 <= len -> run_free m k len <-> fits B k len.
Proof.
intros ([Hpos _] & Hb & _) Hk Hl. split.
- intros Hr s n Hs. pose proof (Hpos s n Hs).
  destruct (decide (s + n <= k \/ k + len <= s)) as [|Hno]; [done|exfalso].
  assert (page_busy m (Z.max s k) = true) as Hbusy.
  { apply Hb; [lia|]. exists s, n. split; [done|lia]. }
  rewrite Hr in Hbusy by lia. done.
- intros Hf j Hj. destruct (page_busy m j) eqn:Hbj; [|done].
  apply Hb in Hbj as (s & n & Hs & Hin); [|lia]. apply Hf in Hs. lia.
Qed.

Lemma fits_None B k len : block_ok B -> 1 <= len -> fits B k len -> B !! k = None.
Proof.
intros [Hpos _] Hl Hf. destruct (B !! k) as [n|] eqn:Hk; [|done].
pose proof (Hpos _ _ Hk). apply Hf in Hk. lia.
Qed.

Lemma block_ok_insert B k len :
block_ok B -> 0 <= k -> 1 <= len -> fits B k len -> block_ok (<[k := len]> B).
Proof.
intros [Hpos Hdis] Hk Hl Hf. split.
- intros s n. rewrite lookup_insert_Some. intros [[<- <-]|[_ Hs]]; [done|]. eauto.
- intros s n s' n'. rewrite !lookup_insert_Some.
  intros [[<- <-]|[Hne Hs]] [[<- <-]|[Hne' Hs']] Hlt; try lia.
  + pose proof (Hpos _ _ Hs'). apply Hf in Hs'. lia.
  + apply Hf in Hs. lia.
  + eauto.
Qed.

(** Marking a free run adds its block. *)
Lemma masked_rep m B k len :
page_rep m B -> 0 <= k -> 1 <= len -> fits B k len ->
page_rep (masked m (PAGE_BITMAP + k / 4) len (2 * (k mod 4))) (<[k := len]> B).
Proof.
intros (Hok & Hb & Hc) Hk Hl Hf.
destruct (masked_spec m k len ltac:(lia) ltac:(lia)) as (Hmb & Hmc & _).
pose proof (fits_None _ _ _ Hok Hl Hf) as HNone. split_and!.
- by apply block_ok_insert.
- intros j Hj. rewrite Hmb, orb_true_iff, Hb by lia. unfold in_block. split.
  + intros [(s & n & Hs & Hin)|Hin].
    * exists s, n. rewrite lookup_insert_ne by congruence. done.
    * exists k, len. rewrite lookup_insert_eq. revert Hin. case_within; done.
  + intros (s & n & Hs & Hin). apply lookup_insert_Some in Hs as [[<- <-]|[_ Hs]].
    * right. case_within; [done|lia].
    * left. eauto.
- intros j Hj. rewrite Hmc, orb_true_iff, Hc by lia. unfold inside_block. split.
  + intros [(s & n & Hs & Hin)|Hin].
    * exists s, n. rewrite lookup_insert_ne by congruence. done.
    * exists k, len. rewrite lookup_insert_eq. revert Hin. case_within; [|done]. intros _. split; [done|lia].
  + intros (s & n & Hs & Hin). apply lookup_insert_Some in Hs as [[<- <-]|[_ Hs]].
    * right. case_within; [done|lia].
    * left. eauto.
Qed.

(** Two blocks that share a page are the same. *)
Lemma block_unique B s n s' n' j :
block_ok B -> B !! s = Some n -> B !! s' = Some n' ->
s <= j < s + n -> s' <= j < s' + n' -> s = s' /\ n = n'.
Proof.
intros [_ Hdis] Hs Hs' Hj Hj'. destruct (Z.lt_trichotomy s s') as [Hlt|[->|Hgt]].
- specialize (Hdis _ _ _ _ Hs Hs' Hlt). lia.
- split; congruence.
- specialize (Hdis _ _ _ _ Hs' Hs Hgt). lia.
Qed.

(** The bitmap determines the blocks. *)
Lemma page_rep_sub m B B' a n : page_rep m B -> page_rep m B' -> B !! a = Some n -> B' !! a = Some n.
Proof.
intros (Hok & Hb & Hc) (Hok' & Hb' & Hc') HB. destruct (proj1 Hok _ _ HB) as [Ha Hn].
assert (forall C s l j, block_ok C -> C !! s = Some l -> inside_block C j -> s <= j < s + l -> s < j) as Hin.
{ intros C s l j HC Hs (t & q & Ht & Hj) Hjs. destruct (decide (s = j)) as [->|]; [|lia].
  pose proof (proj2 HC t q j l Ht Hs ltac:(lia)). lia. }
assert (in_block B' a) as (s & l & Hs & Hsl) by (apply Hb', Hb; [lia..|by exists a, n; split; [|lia]]).
assert (s = a) as ->.
{ destruct (decide (s = a)) as [|Hne]; [done|]. destruct (proj1 Hok' _ _ Hs).
  assert (inside_block B a) as Hi by (apply Hc, Hc'; [lia..|exists s, l; split; [done|lia]]).
  pose proof (Hin B a n a Hok HB Hi ltac:(lia)). lia. }
destruct (proj1 Hok' _ _ Hs) as [_ Hl]. assert (l = n) as ->; [|done].
destruct (Z.lt_trichotomy l n) as [Hlt|[|Hgt]]; [exfalso|done|exfalso].
- assert (inside_block B' (a + l)) as (t & q & Ht & Hj)
    by (apply Hc', Hc; [lia..|exists a, n; split; [done|lia]]).
  destruct (Z.lt_trichotomy t a) as [H|[->|H]].
  + pose proof (proj2 Hok' t q a l Ht Hs H). lia.
  + assert (q = l) by congruence. lia.
  + pose proof (proj2 Hok' a l t q Hs Ht H). lia.
- assert (inside_block B (a + n)) as (t & q & Ht & Hj)
    by (apply Hc, Hc'; [lia..|exists a, l; split; [done|lia]]).
  destruct (Z.lt_trichotomy t a) as [H|[->|H]].
  + pose proof (proj2 Hok t q a n Ht HB H). lia.
  + assert (q = n) by congruence. lia.
  + pose proof (proj2 Hok a n t q HB Ht H). lia.
Qed.

Lemma page_rep_unique m B B' : page_rep m B -> page_rep m B' -> B = B'.
Proof.
intros H H'. apply map_eq. intros a. apply option_eq. intros n.
split; intros E; [by apply (page_rep_sub m B B')|by apply (page_rep_sub m B' B)].
Qed.

(** Clearing a block's pages removes it. *)
Lemma umasked_rep m B k len :
page_rep m B -> B !! k = Some len ->
page_rep (umasked m (PAGE_BITMAP + k / 4) len (2 * (k mod 4))) (delete k B).
Proof.
intros (Hok & Hb & Hc) HB. pose proof Hok as [Hpos Hdis].
destruct (Hpos _ _ HB) as [Hk Hl].
destruct (umasked_spec m k len ltac:(lia) ltac:(lia)) as (Hmb & _). split_and!.
- split.
  + intros s n [_ Hs]%lookup_delete_Some. eauto.
  + intros s n s' n' [_ Hs]%lookup_delete_Some [_ Hs']%lookup_delete_Some. eauto.
- intros j Hj. unfold page_busy. rewrite Hmb, andb_true_iff, negb_true_iff by lia.
  fold (page_busy m j). rewrite Hb by lia. split.
  + intros [(s & n & Hs & Hin) Hout]. exists s, n. split; [|done].
    apply lookup_delete_Some. split; [|done]. intros <-.
    replace n with len in * by congruence. revert Hout. case_within; [done|lia].
  + intros (s & n & Hs & Hin). apply lookup_delete_Some in Hs as [Hne Hs].
    split; [by exists s, n|]. case_within; [|done]. exfalso.
    destruct (block_unique B s n k len j); auto.
- intros j Hj. unfold page_cont. rewrite Hmb, andb_true_iff, negb_true_iff by lia.
  fold (page_cont m j). rewrite Hc by lia. split.
  + intros [(s & n & Hs & Hin) Hout]. exists s, n. split; [|done].
    apply lookup_delete_Some. split; [|done]. intros <-.
    replace n with len in * by congruence. revert Hout. case_within; [done|lia].
  + intros (s & n & Hs & Hin). apply lookup_delete_Some in Hs as [Hne Hs].
    split; [by exists s, n|]. case_within; [|done]. exfalso.
    destruct (block_unique B s n k len j); auto with lia.
Qed.

Lemma block_end_rep m B k len :
page_rep m B -> B !! k = Some len ->
page_cont m k = false /\ block_end m k (k + len).
Proof.
intros (Hok & Hb & Hc) HB. pose proof Hok as [Hpos Hdis]. destruct (Hpos _ _ HB).
assert (forall j, 0 <= j -> ~ inside_block B j -> page_cont m j = false) as Hno.
{ intros j Hj Hin. destruct (page_cont m j) eqn:Hcj; [|done].
  by apply Hc in Hcj. }
split; [|split_and!; [lia|..]].
- apply Hno; [lia|]. intros (s & n & Hs & Hin).
  specialize (Hdis _ _ _ _ Hs HB). lia.
- apply Hno; [lia|]. intros (s & n & Hs & Hin).
  destruct (Z.lt_trichotomy s k) as [Hlt|[->|Hgt]].
  + specialize (Hdis _ _ _ _ Hs HB Hlt). lia.
  + replace n with len in Hin by congruence. lia.
  + specialize (Hdis _ _ _ _ HB Hs Hgt). lia.
- intros j Hj. apply Hc; [lia|]. exists k, len. split; [done|lia].
Qed.

Lemma get_busy_page_size_rep fuel m B k len :
page_rep m B -> B !! k = Some len -> len < Z.of_nat fuel ->
get_busy_page_size fuel m k = Ret len.
Proof.
intros Hrep HB Hf. destruct (block_end_rep _ _ _ _ Hrep HB) as [Hk He].
destruct Hrep as ([Hpos _] & _). destruct (Hpos _ _ HB).
rewrite (get_busy_page_size_spec fuel m k (k + len)) by (done || lia).
f_equal. lia.
Qed.
End blocks.

(** ** Properties *)

(** C21: [get_free_page] is first fit on the blocks: it returns the lowest page at which a run
    of [len] pages meets no block, and its bitmap then spells the old blocks and that one; it
    spins for ever exactly when no run fits. *)
Theorem get_free_page_refines (m : mem) (B : blocks) (len : Z) :
  page_rep m B -> 1 <= len < 2147483648 ->
  match get_free_page m len with
  | Ret (a, m') =>
      0 <= a < 134217728 /\ fits B a len /\ (forall j, 0 <= j < a -> ~ fits B j len) /\
      page_rep m' (<[a := len]> B)
  | Hang => forall j, 0 <= j < 134217728 -> ~ fits B j len
  | _ => False
  end.
Proof.
  intros Hrep Hl.
  destruct (get_free_page_cases m len Hl) as [(k & Hk & Hrun & -> & Hlow)|[-> Hno]].
  - assert (fits B k len) by (apply (run_free_fits m); auto with lia).
    split_and!; [lia|lia|done|..].
    + intros j Hj Hf. apply (Hlow j Hj). apply (run_free_fits m B); auto with lia.
    + apply masked_rep; auto with lia.
  - intros j Hj Hf. apply (Hno j Hj). apply (run_free_fits m B); auto with lia.
Qed.

Example get_free_page_refines_witness :
  exists m', get_free_page ∅ 6 = Ret (0, m') /\ page_rep m' (<[0 := 6]> ∅).
Proof.
  pose proof (get_free_page_refines ∅ ∅ 6 page_rep_empty ltac:(lia)) as H.
  assert (exists m', get_free_page ∅ 6 = Ret (0, m')) as [m' E]
    by (eexists; vm_compute; reflexivity).
  rewrite E in H. destruct H as (_ & _ & _ & H). exists m'. split; [exact E|exact H].
Defined.

(** The length of a block is not stored anywhere: [get_busy_page_size] recovers it from
    the continuation bits, and clearing that many pages removes that block and no other. *)
Theorem busy_size_umasked (m : mem) (B : blocks) (s n : Z) (fuel : nat) :
  page_rep m B -> B !! s = Some n -> n < Z.of_nat fuel ->
  get_busy_page_size fuel m s = Ret n /\
  page_rep (umasked m (PAGE_BITMAP + s / 4) n (2 * (s mod 4))) (delete s B).
Proof.
  intros Hrep HB Hf. split.
  - by apply (get_busy_page_size_rep _ _ B).
  - by apply umasked_rep.
Qed.

Example busy_size_umasked_witness :
  let m := masked ∅ (PAGE_BITMAP + 3 / 4) 6 (2 * (3 mod 4)) in
  get_busy_page_size 7 m 3 = Ret 6 /\
  page_rep (umasked m (PAGE_BITMAP + 3 / 4) 6 (2 * (3 mod 4))) (delete 3 (<[3 := 6]> ∅)).
Proof.
  apply busy_size_umasked; [|reflexivity|lia].
  apply masked_rep; [apply page_rep_empty|lia|lia|].
  intros s n Hs. by rewrite lookup_empty in Hs.
Defined.
