(* ===== verification/Paging.v ===== *)
(** * Paging: page tables, device mappings and page blocks (kernel/mm.c, kernel/paging.c)

    A page-table entry is a 64-bit word whose bit-fields are those of
    kernel/include/paging.h.  The tables live in [tab], a memory of such words by address;
    the two bitmaps live in [ram].  [mm_mp] maps device memory at 3 GiB, [alloc_pages] and
    [free_pages] manage blocks of pages at 4 GiB, [get_phy_addr] walks the tables the way
    the processor does.  Flushing the TLB has no effect on the tables and is left out. *)
From S2P Require Import Prelude KString Bytes Frames Pages.

(** ** Bit-fields of a table entry *)
Record field := Field { lo : Z; width : Z }.

Definition fget (f : field) (e : Z) : Z := Z.land (Z.shiftr e (lo f)) (Z.ones (width f)).

Definition fset (f : field) (v e : Z) : Z :=
  Z.lor (Z.land e (Z.lnot (Z.shiftl (Z.ones (width f)) (lo f))))
        (Z.shiftl (Z.land v (Z.ones (width f))) (lo f)).

Definition f_p : field := Field 0 1.
Definition f_rw : field := Field 1 1.
Definition f_us : field := Field 2 1.
Definition f_pwt : field := Field 3 1.
Definition f_pcd : field := Field 4 1.
(** [frames] of a page table, [phy_addr_pt] of a directory, [phy_addr_pd] of a pointer table. *)
Definition f_frames : field := Field 12 40.
Definition f_phy_addr_pt : field := Field 12 40.
Definition f_phy_addr_pd : field := Field 12 40.

(** ** The state *)
Record mm := Mm {
  ram : mem;
  tab : gmap Z Z;
  pml4e : Z;
  pdpte : Z;
  g_mm_mp_index : Z;
  alloc_spin_lock : Z
}.

Definition set_ram (v : mem) (s : mm) : mm := Mm v (tab s) (pml4e s) (pdpte s) (g_mm_mp_index s)
  (alloc_spin_lock s).
Definition set_tab (v : gmap Z Z) (s : mm) : mm := Mm (ram s) v (pml4e s) (pdpte s)
  (g_mm_mp_index s) (alloc_spin_lock s).
Definition set_pml4e (v : Z) (s : mm) : mm := Mm (ram s) (tab s) v (pdpte s) (g_mm_mp_index s)
  (alloc_spin_lock s).
Definition set_pdpte (v : Z) (s : mm) : mm := Mm (ram s) (tab s) (pml4e s) v (g_mm_mp_index s)
  (alloc_spin_lock s).
Definition set_g_mm_mp_index (v : Z) (s : mm) : mm := Mm (ram s) (tab s) (pml4e s) (pdpte s) v
  (alloc_spin_lock s).
Definition set_alloc_spin_lock (v : Z) (s : mm) : mm := Mm (ram s) (tab s) (pml4e s) (pdpte s)
  (g_mm_mp_index s) v.

Definition DEVICE_PAGE_DIR : Z := 0x180000.
Definition DEVICE_PAGE_TABLE : Z := 0x181000.
Definition DEVICE_PDPTE_ENTRY : Z := 3.
Definition DEVICE_MEMORY_MAP : Z := 0xC0000000.
Definition ALLOC_PAGE_MEMORY : Z := 0x100000000.
Definition ALLOC_PDPTE_ENTRY : Z := 4.
Definition PAGE_SIZE : Z := 4096.
Definition device_pde : Z := DEVICE_PAGE_DIR.
Definition alloc_pde : Z := 0x5000000.
Definition alloc_pte : Z := 0x5001000.

(** The address mask [&0xffffffffffff] of the code. *)
Definition mask48 (z : Z) : Z := Z.land z 0xffffffffffff.

(** [memset] over [n] table entries. *)
Definition clear_entries (t : gmap Z Z) (a n : Z) : gmap Z Z :=
  for_upto 0 n (fun i t => t⟦a + 8 * i := 0⟧) t.

(** ** Device mappings *)

Definition page_install (paging_addr : Z) (s : mm) : mm :=
  s |> set_pml4e paging_addr |> set_pdpte (paging_addr + 0x1000).

Definition initialize_mm_mp (s : mm) : mm :=
  let s := set_tab (clear_entries (tab s) device_pde 512) s in
  let addr := device_pde in
  let s := set_tab (upd (tab s) (pdpte s + 8 * DEVICE_PDPTE_ENTRY) (fun e =>
             e |> fset f_p 1 |> fset f_rw 1 |> fset f_pcd 1
               |> fset f_phy_addr_pd (mask48 (Z.shiftr addr 12)))) s in
  set_g_mm_mp_index 0 s.

(** The entry [mm_mp] writes for the page at [addr]. *)
Definition device_entry (flag addr e : Z) : Z :=
  let e := e |> fset f_p 1 |> fset f_rw 1 |> fset f_pcd 1 in
  let e := if Z.land flag 1 =? 0 then e else fset f_us 1 e in
  fset f_frames (mask48 (Z.shiftr addr 12)) e.

Definition device_directory (flag addr e : Z) : Z :=
  let e := e |> fset f_p 1 |> fset f_rw 1 in
  let e := if Z.land flag 1 =? 0 then e else fset f_us 1 e in
  e |> fset f_pcd 1 |> fset f_phy_addr_pt (mask48 (Z.shiftr addr 12)).

(** The result, the value left in [*virt_addr] and the state. *)
Definition mm_mp (phy_addr size flag : Z) (s : mm) : Z * Z * mm :=
  let pte := DEVICE_PAGE_TABLE + 0x1000 * g_mm_mp_index s in
  let addr := phy_addr in
  let index := s32 (g_mm_mp_index s) in
  if size >? 0x40000000 then (1, 0, s)
  else if size >? u32 (0x40000000 - s32 (index * 0x200000)) then (2, 0, s)
  else
    let count := size / PAGE_SIZE in
    let count := if size mod PAGE_SIZE =? 0 then count else count + 1 in
    let count2 := count / 512 in
    let count2 := if count mod 512 =? 0 then count2 else count2 + 1 in
    let t := clear_entries (tab s) pte (512 * count2) in
    let '(t, addr) :=
      for_upto 0 count (fun i '(t, addr) =>
        (upd t (pte + 8 * i) (device_entry flag addr), u64 (addr + 0x1000))) (t, addr) in
    let addr := pte in
    let '(t, addr, g) :=
      for_upto 0 count2 (fun i '(t, addr, g) =>
        (upd t (device_pde + 8 * (index + i)) (device_directory flag addr),
         u64 (addr + 0x1000), u64 (g + 1))) (t, addr, g_mm_mp_index s) in
    (0, u64 (DEVICE_MEMORY_MAP + s32 (index * 0x200000)),
     s |> set_tab t |> set_g_mm_mp_index g).

(** ** Page blocks *)

Definition alloc_pages_setup (s : mm) : mm :=
  let s := set_alloc_spin_lock 0 s in
  let s := set_ram (memset (ram s) PAGE_BITMAP 0 0x2000000) s in
  let t := clear_entries (tab s) alloc_pde 512 in
  let t := clear_entries t alloc_pte (512 * 512) in
  let addr := 0 in
  let t := for_upto 0 (512 * 512) (fun i t =>
             upd t (alloc_pte + 8 * i) (fun e =>
               e |> fset f_p 0 |> fset f_rw 1 |> fset f_frames (mask48 (Z.shiftr addr 12)))) t in
  let '(t, addr) := for_upto 0 512 (fun i '(t, addr) =>
             (upd t (alloc_pde + 8 * i) (fun e =>
               e |> fset f_p 1 |> fset f_rw 1 |> fset f_us 1
                 |> fset f_phy_addr_pt (mask48 (Z.shiftr addr 12))), addr + 0x1000))
             (t, alloc_pte) in
  let addr := alloc_pde in
  let t := upd t (pdpte s + 8 * ALLOC_PDPTE_ENTRY) (fun e =>
             e |> fset f_p 1 |> fset f_rw 1 |> fset f_us 1
               |> fset f_phy_addr_pd (mask48 (Z.shiftr addr 12))) in
  let t := upd t (pml4e s) (fset f_us 1) in
  set_tab t s.

Definition v_pool (t : gmap Z Z) (pte len : Z) : Z :=
  if negb (fget f_p t⟦pte⟧ =? 0) then 1
  else
    match
      for_break (Z.to_nat len) 0
        (fun i (_ : unit) => if negb (fget f_p t⟦pte + 8 * i⟧ =? 0) then inr (-1) else inl tt) tt
    with
    | inl _ => 0
    | inr r => r
    end.

Definition alloc_entry (type frame e : Z) : Z :=
  let e := fset f_p 1 e in
  let e := if type =? 0 then e else fset f_us 1 e in
  fset f_frames (mask48 (Z.shiftr frame 12)) e.

(** One pass of the loop of [alloc_pages]; no frame left ends in [while (1) {}]. *)
Definition alloc_page_step (type pte i : Z) (s : mm) : outcome mm :=
  let '(frame, r) := alloc_frame (ram s) in
  let s := set_ram r s in
  if frame =? 0 then Hang
  else Ret (set_tab (upd (tab s) (pte + 8 * i) (alloc_entry type frame)) s).

(** The result, [*addr] and the state.  A lock somebody holds is never released while this
    call spins on it. *)
Definition alloc_pages (type len addr : Z) (s : mm) : outcome (Z * Z * mm) :=
  if len =? 0 then Ret (0, addr, s)
  else if negb (alloc_spin_lock s =? 0) then Hang
  else
    let s := set_alloc_spin_lock (alloc_spin_lock s + 1) s in
    '(index, r) ← get_free_page (ram s) len;
    let s := set_ram r s in
    let pte := alloc_pte + 8 * index in
    s ← for_outcome (Z.to_nat len) 0 (alloc_page_step type pte) s;
    let addr := u64 (ALLOC_PAGE_MEMORY + s32 (index * 0x1000)) in
    Ret (len, addr, set_alloc_spin_lock 0 s).

Definition free_entry (e : Z) : Z := e |> fset f_p 0 |> fset f_us 0 |> fset f_frames 0.

Definition free_page_step (pte i : Z) (s : mm) : mm :=
  let phy := Z.shiftl (fget f_frames (tab s)⟦pte + 8 * i⟧) 12 in
  let s := set_ram (free_frame (ram s) phy).2 s in
  set_tab (upd (tab s) (pte + 8 * i) free_entry) s.

Definition free_pages (fuel : nat) (addr : Z) (s : mm) : outcome mm :=
  if addr =? 0 then Ret s
  else
    let a := u64 (addr - ALLOC_PAGE_MEMORY) in
    let a := a / 0x1000 in
    let index := s32 a in
    let pte := alloc_pte + 8 * index in
    len ← get_busy_page_size fuel (ram s) index;
    let bmp := PAGE_BITMAP + Z.quot index 4 in
    let a := Z.rem index 4 * 2 in
    let s := set_ram (umasked (ram s) bmp len a) s in
    Ret (for_upto 0 len (free_page_step pte) s).

(** ** Translation *)

Definition get_phy_addr (s : mm) (v : Z) : Z :=
  let table := Z.land (Z.shiftr v 12) 0x1FF in
  let directory := Z.land (Z.shiftr v 21) 0x1FF in
  let directory_ptr := Z.land (Z.shiftr v 30) 0x1FF in
  let pde := mask48 (Z.shiftl (fget f_phy_addr_pd (tab s)⟦pdpte s + 8 * directory_ptr⟧) 12) in
  let pte := mask48 (Z.shiftl (fget f_phy_addr_pt (tab s)⟦pde + 8 * directory⟧) 12) in
  mask48 (Z.shiftl (fget f_frames (tab s)⟦pte + 8 * table⟧) 12).

(** ** Reading the fields back *)
Section fields.
Implicit Types (f g : field) (v e k : Z).

Definition field_ok f : bool := (0 <=? lo f) && (0 <=? width f).
Definition apart f g : bool :=
(lo f + width f <=? lo g) || (lo g + width g <=? lo f).

Lemma testbit_ones w k : 0 <= w -> 0 <= k -> Z.testbit (Z.ones w) k = (k <? w).
Proof.
intros Hw Hk. destruct (Z.ltb_spec k w).
- by apply Z.ones_spec_low.
- apply Z.ones_spec_high. lia.
Qed.

Lemma testbit_fset f v e k :
field_ok f = true -> 0 <= k ->
Z.testbit (fset f v e) k =
if within k (lo f) (width f) then Z.testbit v (k - lo f) else Z.testbit e k.
Proof.
unfold field_ok, fset. intros Hf Hk.
rewrite Z.lor_spec, Z.land_spec, Z.lnot_spec by lia.
destruct (Z.le_gt_cases (lo f) k).
- rewrite !Z.shiftl_spec by lia.
  rewrite Z.land_spec, testbit_ones by lia.
  case_within; destruct (Z.ltb_spec (k - lo f) (width f)); try lia; simpl;
    by rewrite ?andb_true_r, ?andb_false_r, ?orb_false_r.
- rewrite !Z.shiftl_spec_low by lia. case_within; [lia|]. simpl.
  by rewrite andb_true_r, orb_false_r.
Qed.

Lemma testbit_fget f e k :
field_ok f = true -> 0 <= k -> Z.testbit (fget f e) k = Z.testbit e (k + lo f) && (k <? width f).
Proof.
unfold field_ok, fget. intros Hf Hk.
by rewrite Z.land_spec, Z.shiftr_spec, testbit_ones by lia.
Qed.

Lemma fget_fset_eq f v e : field_ok f = true -> fget f (fset f v e) = v mod 2 ^ width f.
Proof.
intros Hf. rewrite <- Z.land_ones by (unfold field_ok in Hf; lia).
apply Z.bits_inj'. intros k Hk.
rewrite testbit_fget, testbit_fset, Z.land_spec, testbit_ones by (unfold field_ok in Hf; done || lia).
case_within; [by replace (k + lo f - lo f) with k by lia|].
destruct (Z.ltb_spec k (width f)); [lia|]. by rewrite !andb_false_r.
Qed.

Lemma fget_fset_ne f g v e :
field_ok f = true -> field_ok g = true -> apart f g = true -> fget g (fset f v e) = fget g e.
Proof.
unfold apart. intros Hf Hg Ha. apply Z.bits_inj'. intros k Hk.
rewrite !testbit_fget, testbit_fset by (unfold field_ok in *; done || lia).
case_within; [|done]. destruct (Z.ltb_spec k (width g)); [lia|]. by rewrite !andb_false_r.
Qed.

Lemma fget_0 f : fget f 0 = 0.
Proof. unfold fget. by rewrite Z.shiftr_0_l, Z.land_0_l. Qed.
End fields.

(** [field_simpl] reads fields of entries built by [fset]. *)
Ltac field_simpl :=
  repeat first
    [ rewrite fget_fset_eq by reflexivity
    | rewrite fget_fset_ne by reflexivity
    | rewrite fget_0 ].

Section entries.
Implicit Types (t : gmap Z Z) (a b i n e : Z).

Lemma land_1FF v : Z.land v 0x1FF = v mod 512.
Proof. change 0x1FF with (Z.ones 9). by rewrite Z.land_ones by lia. Qed.

Lemma mask48_small z : 0 <= z < 2 ^ 48 -> mask48 z = z.
Proof.
intros Hz. unfold mask48. change 0xffffffffffff with (Z.ones 48).
rewrite Z.land_ones by lia. by apply Z.mod_small.
Qed.

(** The address an entry's frame field stands for. *)
Lemma frame_addr z :
0 <= z < 2 ^ 48 ->
mask48 (Z.shiftl (mask48 (Z.shiftr z 12) mod 2 ^ 40) 12) = z / 4096 * 4096.
Proof.
intros Hz. rewrite Z.shiftr_div_pow2, Z.shiftl_mul_pow2 by lia.
rewrite (mask48_small (z / 2 ^ 12)) by word_lia.
rewrite Z.mod_small by word_lia. rewrite mask48_small; word_lia.
Qed.

(** [t] is [t0] with the [n] entries from [b] holding [f 0], [f 1], ... *)
Definition filled t0 b n (f : Z -> Z) t : Prop :=
(forall i, 0 <= i < n -> t⟦b + 8 * i⟧ = f i) /\
(forall a, ~ b <= a < b + 8 * n -> t⟦a⟧ = t0⟦a⟧) /\
(forall a, (a - b) mod 8 <> 0 -> t⟦a⟧ = t0⟦a⟧).

Lemma filled_0 t b f : filled t b 0 f t.
Proof. split_and!; intros; [lia|done|done]. Qed.

Lemma filled_S t0 b n f t v :
0 <= n -> v = f n -> filled t0 b n f t -> filled t0 b (n + 1) f t⟦b + 8 * n := v⟧.
Proof.
intros Hn -> (Hin & Hout & Hmid). split_and!.
- intros i Hi. rewrite rd_wr. case_within; [f_equal; lia|]. apply Hin. lia.
- intros a Ha. rewrite rd_wr_ne by lia. apply Hout. lia.
- intros a Ha. rewrite rd_wr_ne by word_lia. by apply Hmid.
Qed.

(** The cell the next pass writes is still the old one. *)
Lemma filled_next t0 b n f t : filled t0 b n f t -> t⟦b + 8 * n⟧ = t0⟦b + 8 * n⟧.
Proof. intros (_ & Hout & _). apply Hout. lia. Qed.

Lemma clear_entries_filled t a n : 0 <= n -> filled t a n (fun _ => 0) (clear_entries t a n).
Proof.
intros Hn. unfold clear_entries.
apply (for_upto_inv (fun i t' => filled t a i (fun _ => 0) t')); [done|apply filled_0|].
intros k t' Hk. apply filled_S; [lia|done].
Qed.
End entries.

(** ** Device mappings: what the tables hold afterwards *)
Section devices.
Implicit Types (s : mm) (t : gmap Z Z) (a i v phy size flag : Z).

(** The pointer table stands clear of the tables this file fills. *)
Definition pdpt_apart (s : mm) : Prop :=
pdpte s + 4096 <= DEVICE_PAGE_DIR \/
(DEVICE_PAGE_TABLE + 0x200000 <= pdpte s /\ pdpte s + 4096 <= alloc_pde) \/
alloc_pte + 0x200000 <= pdpte s.

Definition entry_addr (e : Z) : Z := mask48 (Z.shiftl (fget f_frames e) 12).

(** The first [g_mm_mp_index] page tables of the 1 GiB at [DEVICE_MEMORY_MAP] are linked. *)
Definition device_ok (s : mm) : Prop :=
pdpt_apart s /\
0 <= g_mm_mp_index s <= 512 /\
entry_addr (tab s)⟦pdpte s + 8 * DEVICE_PDPTE_ENTRY⟧ = device_pde /\
forall i, 0 <= i < g_mm_mp_index s ->
  entry_addr (tab s)⟦device_pde + 8 * i⟧ = DEVICE_PAGE_TABLE + 0x1000 * i.

Lemma get_phy_addr_split s dp d pt o :
0 <= dp < 512 -> 0 <= d < 512 -> 0 <= pt < 512 -> 0 <= o < 4096 ->
get_phy_addr s (dp * 0x40000000 + d * 0x200000 + pt * 0x1000 + o) =
entry_addr (tab s)⟦entry_addr (tab s)⟦entry_addr (tab s)⟦pdpte s + 8 * dp⟧ + 8 * d⟧ + 8 * pt⟧.
Proof.
intros. unfold get_phy_addr. rewrite !land_1FF, !Z.shiftr_div_pow2 by lia.
replace (_ / 2 ^ 12 mod 512) with pt by word_lia.
replace (_ / 2 ^ 21 mod 512) with d by word_lia.
replace (_ / 2 ^ 30 mod 512) with dp by word_lia.
reflexivity.
Qed.

Lemma device_phy s i pt o :
device_ok s -> 0 <= i < g_mm_mp_index s -> 0 <= pt < 512 -> 0 <= o < 4096 ->
get_phy_addr s (DEVICE_MEMORY_MAP + i * 0x200000 + pt * 0x1000 + o) =
entry_addr (tab s)⟦DEVICE_PAGE_TABLE + 0x1000 * i + 8 * pt⟧.
Proof.
intros (_ & Hg & Hpd & Hpt) Hi Hp Ho.
change DEVICE_MEMORY_MAP with (DEVICE_PDPTE_ENTRY * 0x40000000).
rewrite get_phy_addr_split by (unfold DEVICE_PDPTE_ENTRY; lia).
rewrite Hpd, Hpt by lia. done.
Qed.

Lemma device_entry_addr flag a e :
0 <= a < 2 ^ 48 -> entry_addr (device_entry flag a e) = a / 4096 * 4096.
Proof.
intros Ha. unfold entry_addr, device_entry. rewrite fget_fset_eq by reflexivity.
by apply frame_addr.
Qed.

Lemma device_directory_addr flag a e :
0 <= a < 2 ^ 48 -> entry_addr (device_directory flag a e) = a / 4096 * 4096.
Proof.
intros Ha. unfold entry_addr, device_directory. rewrite fget_fset_eq by reflexivity.
by apply frame_addr.
Qed.

(** The number of pages of [size] bytes and the number of page tables they need. *)
Definition page_count (size : Z) : Z := (size + 4095) / 4096.
Definition table_count (size : Z) : Z := (page_count size + 511) / 512.

Lemma mm_mp_counts size :
0 <= size ->
let count := if size mod PAGE_SIZE =? 0 then size / PAGE_SIZE else size / PAGE_SIZE + 1 in
count = page_count size /\
(if count mod 512 =? 0 then count / 512 else count / 512 + 1) = table_count size.
Proof.
intros Hs. unfold table_count.
assert ((if size mod PAGE_SIZE =? 0 then size / PAGE_SIZE else size / PAGE_SIZE + 1)
          = page_count size) as ->.
{ unfold page_count, PAGE_SIZE. destruct (Z.eqb_spec (size mod 4096) 0); word_lia. }
split; [done|]. destruct (Z.eqb_spec (page_count size mod 512) 0); word_lia.
Qed.

Lemma mm_mp_tables s phy size flag :
0 <= g_mm_mp_index s <= 512 -> 0 <= phy -> phy + size <= 2 ^ 48 ->
0 <= size <= (512 - g_mm_mp_index s) * 0x200000 ->
let n := g_mm_mp_index s in
let pte := DEVICE_PAGE_TABLE + 0x1000 * n in
exists t',
  mm_mp phy size flag s =
    (0, DEVICE_MEMORY_MAP + n * 0x200000,
     s |> set_tab t' |> set_g_mm_mp_index (n + table_count size)) /\
  (forall i, 0 <= i < page_count size ->
     t'⟦pte + 8 * i⟧ = device_entry flag (phy + 0x1000 * i) 0) /\
  (forall i, 0 <= i < table_count size ->
     t'⟦device_pde + 8 * (n + i)⟧ =
     device_directory flag (pte + 0x1000 * i) (tab s)⟦device_pde + 8 * (n + i)⟧) /\
  (forall a, ~ pte <= a < pte + 4096 * table_count size ->
     ~ device_pde + 8 * n <= a < device_pde + 8 * (n + table_count size) ->
     t'⟦a⟧ = (tab s)⟦a⟧).
Proof.
intros Hn Hphy Hpl Hsz n pte. unfold mm_mp. fold n. fold pte.
rewrite (s32_small n), (s32_small (n * _)), (u32_small (1073741824 - _)) by lia.
destruct (Z.gtb_spec size 0x40000000); [lia|].
destruct (Z.gtb_spec size (0x40000000 - n * 0x200000)); [lia|].
cbv zeta. destruct (mm_mp_counts size) as [Hc Ht]; [lia|]. cbv zeta in Hc, Ht.
rewrite Ht, Hc. clear Ht Hc.
set (count := page_count size). set (count2 := table_count size).
assert (0 <= count /\ 0 <= count2 /\ count <= 512 * count2 /\ n + count2 <= 512 /\
        4096 * count < size + 4096) as (Hc0 & Hc20 & Hcc & Hcn & Hcs).
{ unfold count, count2, table_count, page_count. unfold n in *. word_lia. }
set (t0 := clear_entries _ _ _).
assert (filled (tab s) pte (512 * count2) (fun _ => 0) t0) as Ft0
  by (apply clear_entries_filled; lia).
upto_with (fun i '(t, addr) =>
  filled t0 pte i (fun i => device_entry flag (phy + 0x1000 * i) 0) t /\
  addr = phy + 0x1000 * i); [done|split; [apply filled_0|lia]|..].
{ intros k [t addr] Hk [Hf ->]. split; [|rewrite u64_small; lia].
  apply filled_S; [lia| |done].
  rewrite (filled_next _ _ _ _ _ Hf). f_equal. apply Ft0. lia. }
intros [t1 addr1] [F1 _].
upto_with (fun i '(t, addr, g) =>
  filled t1 (device_pde + 8 * n) i (fun i => device_directory flag (pte + 0x1000 * i)
    t1⟦device_pde + 8 * (n + i)⟧) t /\ addr = pte + 0x1000 * i /\ g = n + i);
  [done|split_and!; [apply filled_0|lia|lia]|..].
{ intros k [[t addr] g] Hk (Hf & -> & ->).
  unfold pte, DEVICE_PAGE_TABLE in *. split_and!; [|rewrite u64_small; lia|rewrite u64_small; lia].
  replace (device_pde + 8 * (n + k)) with (device_pde + 8 * n + 8 * k) by lia.
  apply filled_S; [lia| |done]. rewrite (filled_next _ _ _ _ _ Hf). do 2 f_equal; lia. }
intros [[t2 addr2] g2] (F2 & _ & ->).
assert (forall a, ~ pte <= a < pte + 4096 * count2 -> t1⟦a⟧ = (tab s)⟦a⟧) as H1.
{ intros a Ha. destruct F1 as (_ & F1 & _). rewrite F1 by lia. apply (proj1 (proj2 Ft0)). lia. }
exists t2. destruct F2 as (F2 & G2 & _). destruct F1 as (F1 & _ & _).
unfold pte, device_pde, DEVICE_PAGE_DIR, DEVICE_PAGE_TABLE in *. split_and!.
- rewrite u64_small by (unfold DEVICE_MEMORY_MAP; lia). done.
- intros i Hi. rewrite G2 by lia. apply F1. lia.
- intros i Hi. rewrite <- H1 by lia. rewrite <- F2 by lia. f_equal. lia.
- intros a Ha Ha2. rewrite G2 by lia. apply H1. lia.
Qed.

Lemma device_ok_mm_mp s phy size flag :
device_ok s -> 0 <= phy -> phy + size <= 2 ^ 48 ->
0 <= size <= (512 - g_mm_mp_index s) * 0x200000 ->
device_ok (mm_mp phy size flag s).2.
Proof.
intros (Ha & Hg & Hpd & Hpt) Hphy Hpl Hsz.
destruct (mm_mp_tables s phy size flag) as (t' & -> & _ & Hdir & Hold); [done..|].
assert (0 <= table_count size /\ g_mm_mp_index s + table_count size <= 512)
  by (unfold table_count, page_count; word_lia).
unfold device_ok. cbn [snd set_tab set_g_mm_mp_index tab pdpte g_mm_mp_index].
unfold pdpt_apart in *. cbn [pdpte].
unfold device_pde, DEVICE_PAGE_DIR, DEVICE_PAGE_TABLE, DEVICE_PDPTE_ENTRY, alloc_pde, alloc_pte in *.
split_and!; [done|lia|lia|..].
- rewrite Hold by lia. done.
- intros i Hi. destruct (decide (i < g_mm_mp_index s)).
  + rewrite Hold by lia. apply Hpt. lia.
  + specialize (Hdir (i - g_mm_mp_index s) ltac:(lia)).
    replace (g_mm_mp_index s + (i - g_mm_mp_index s)) with i in Hdir by lia.
    rewrite Hdir, device_directory_addr by lia. word_lia.
Qed.
End devices.

(** ** Page blocks: what the tables and bitmaps hold afterwards *)

(** The 512 page tables of the 1 GiB at [ALLOC_PAGE_MEMORY] are linked. *)
Definition alloc_tables (s : mm) : Prop :=
  pdpt_apart s /\
  entry_addr (tab s)⟦pdpte s + 8 * ALLOC_PDPTE_ENTRY⟧ = alloc_pde /\
  forall i, 0 <= i < 512 -> entry_addr (tab s)⟦alloc_pde + 8 * i⟧ = alloc_pte + 0x1000 * i.

(** The entry of page [j] and the frame it maps. *)
Definition page_entry (s : mm) (j : Z) : Z := (tab s)⟦alloc_pte + 8 * j⟧.
Definition page_frame (s : mm) (j : Z) : Z := fget f_frames (page_entry s j).

Definition ALLOC_PAGES : Z := 262144.

(** The allocator's invariant, for the set [B] of allocated blocks: the bitmap spells [B];
    every page of a block is present and owns a frame marked in use, no two pages the same
    one; the entries of the other pages are clear; the lock is free. *)
Record mm_ok (s : mm) (B : blocks) : Prop := {
  ok_rep : page_rep (ram s) B;
  ok_bytes : bytes_in (ram s);
  ok_tables : alloc_tables s;
  ok_bound : forall a n, B !! a = Some n -> a + n <= ALLOC_PAGES;
  ok_live : forall j, in_block B j ->
    fget f_p (page_entry s j) = 1 /\ 32768 <= page_frame s j < 1048576 /\
    frame_busy (ram s) (page_frame s j) = true;
  ok_inj : forall i j, in_block B i -> in_block B j -> page_frame s i = page_frame s j -> i = j;
  ok_dead : forall j, 0 <= j < ALLOC_PAGES -> ~ in_block B j ->
    free_entry (page_entry s j) = page_entry s j;
  ok_lock : alloc_spin_lock s = 0
}.

Section page_blocks.
Implicit Types (s : mm) (t : gmap Z Z) (B : blocks) (a i j k len : Z).

Lemma alloc_phy s j o :
alloc_tables s -> 0 <= j < ALLOC_PAGES -> 0 <= o < 4096 ->
get_phy_addr s (ALLOC_PAGE_MEMORY + j * 0x1000 + o) = entry_addr (page_entry s j).
Proof.
intros (_ & Hpd & Hpt) Hj Ho. unfold ALLOC_PAGES in Hj.
replace (ALLOC_PAGE_MEMORY + j * 0x1000 + o) with
  (ALLOC_PDPTE_ENTRY * 0x40000000 + j / 512 * 0x200000 + j mod 512 * 0x1000 + o)
  by (unfold ALLOC_PAGE_MEMORY, ALLOC_PDPTE_ENTRY; word_lia).
rewrite get_phy_addr_split by (unfold ALLOC_PDPTE_ENTRY; word_lia).
rewrite Hpd, Hpt by word_lia. unfold page_entry. do 2 f_equal. word_lia.
Qed.

Lemma entry_addr_frame e k :
fget f_frames e = k -> 0 <= k < 2 ^ 36 -> entry_addr e = k * 0x1000.
Proof.
intros E Hk. unfold entry_addr. rewrite E, Z.shiftl_mul_pow2 by lia.
apply mask48_small. lia.
Qed.

(** The writes of the loops stay in the page tables, so the walk to them is unchanged. *)
Lemma alloc_tables_ext s s' :
pdpte s' = pdpte s ->
(forall a, ~ alloc_pte <= a < alloc_pte + 8 * ALLOC_PAGES -> (tab s')⟦a⟧ = (tab s)⟦a⟧) ->
alloc_tables s -> alloc_tables s'.
Proof.
unfold alloc_tables, pdpt_apart, ALLOC_PAGES, ALLOC_PDPTE_ENTRY, DEVICE_PAGE_DIR,
  DEVICE_PAGE_TABLE, alloc_pde, alloc_pte.
intros Ep Et (Ha & Hpd & Hpt). rewrite Ep. split; [done|]. split.
- rewrite Et by lia. done.
- intros i Hi. rewrite Et by lia. auto.
Qed.

Lemma alloc_entry_fields type f e :
0 <= f < 2 ^ 48 ->
fget f_p (alloc_entry type f e) = 1 /\ fget f_frames (alloc_entry type f e) = f / 4096.
Proof.
intros Hf. unfold alloc_entry. split.
- destruct (type =? 0); field_simpl; done.
- rewrite fget_fset_eq by done. rewrite Z.shiftr_div_pow2 by lia.
  rewrite mask48_small by word_lia. change (width f_frames) with 40. word_lia.
Qed.

Lemma testbit_fset_any f v e k :
field_ok f = true ->
Z.testbit (fset f v e) k =
if within k (lo f) (width f) then Z.testbit v (k - lo f) else Z.testbit e k.
Proof.
intros Hf. destruct (Z.le_gt_cases 0 k); [by apply testbit_fset|].
unfold field_ok in Hf. rewrite !Z.testbit_neg_r by lia. by case_within.
Qed.

(** Clearing an entry that [alloc_pages] filled gives the clear entry it was. *)
Lemma free_alloc_entry type f e :
free_entry e = e -> free_entry (alloc_entry type f e) = e.
Proof.
intros <-. unfold free_entry, alloc_entry. apply Z.bits_inj. intros k.
destruct (type =? 0); rewrite !testbit_fset_any by done; simpl;
  rewrite ?Z.bits_0; case_within; done || lia.
Qed.

Lemma free_entry_idem e : free_entry (free_entry e) = free_entry e.
Proof.
unfold free_entry. apply Z.bits_inj. intros k.
rewrite !testbit_fset_any by done. simpl. case_within; done || lia.
Qed.

Lemma alloc_page_step_eq type pte i s f r :
alloc_frame (ram s) = (f, r) -> f <> 0 ->
alloc_page_step type pte i s =
Ret (set_tab (upd (tab s) (pte + 8 * i) (alloc_entry type f)) (set_ram r s)).
Proof.
intros E Hf. unfold alloc_page_step. rewrite E. destruct (Z.eqb_spec f 0); [done|reflexivity].
Qed.

(** The loop of [alloc_pages] takes the frames [alloc_frames] takes and writes them, one
  after the other, into the entries from [pte]. *)
Lemma alloc_page_loop type (n : nat) i pte s fs r :
alloc_frames n (ram s) = Some (fs, r) ->
exists t,
  for_outcome n i (alloc_page_step type pte) s = Ret (s |> set_ram r |> set_tab t) /\
  (forall (k : nat) f, fs !! k = Some f ->
     t⟦pte + 8 * (i + Z.of_nat k)⟧ =
     alloc_entry type f (tab s)⟦pte + 8 * (i + Z.of_nat k)⟧) /\
  (forall a, ~ pte + 8 * i <= a < pte + 8 * (i + Z.of_nat n) -> t⟦a⟧ = (tab s)⟦a⟧) /\
  (forall a, (a - pte) mod 8 <> 0 -> t⟦a⟧ = (tab s)⟦a⟧).
Proof.
revert i s fs r. induction n as [|n IH]; intros i s fs r E.
{ injection E as <- <-. exists (tab s). destruct s. by split_and!. }
rewrite alloc_frames_S in E. cbn [for_outcome].
destruct (alloc_frame (ram s)) as [f r1] eqn:Ef. destruct (Z.eqb_spec f 0); [done|].
rewrite (alloc_page_step_eq _ _ _ _ _ _ Ef) by done.
destruct (alloc_frames n r1) as [[fs' r2]|] eqn:En; [|done]. injection E as <- <-.
set (s1 := set_tab (upd (tab s) (pte + 8 * i) (alloc_entry type f)) (set_ram r1 s)).
destruct (IH (i + 1) s1 fs' r2 En) as (t & Et & Hin & Hout & Hmid).
exists t. split; [exact Et|]. split_and!.
- intros k f' Hf'. destruct k as [|k]; simpl in Hf'.
  + injection Hf' as <-. rewrite Z.add_0_r, Hout by lia.
    unfold s1. cbn [tab set_tab set_ram]. by rewrite rd_upd_eq.
  + replace (i + Z.of_nat (S k)) with (i + 1 + Z.of_nat k) by lia.
    rewrite (Hin _ _ Hf'). f_equal. unfold s1. cbn [tab set_tab set_ram].
    rewrite rd_upd_ne by lia. done.
- intros a Ha. rewrite Hout by lia. unfold s1. cbn [tab set_tab set_ram].
  rewrite rd_upd_ne by lia. done.
- intros a Ha. rewrite Hmid by done. unfold s1. cbn [tab set_tab set_ram].
  rewrite rd_upd_ne by word_lia. done.
Qed.

(** The loop of [free_pages] clears the entries and returns their frames. *)
Lemma free_page_loop n pte s :
0 <= n ->
(forall i, 0 <= i < n -> 32768 <= fget f_frames (tab s)⟦pte + 8 * i⟧ < 1048576) ->
let s' := for_upto 0 n (free_page_step pte) s in
s' = (s |> set_ram (ram s') |> set_tab (tab s')) /\
filled (tab s) pte n (fun i => free_entry (tab s)⟦pte + 8 * i⟧) (tab s') /\
(forall k, 0 <= k -> frame_busy (ram s') k = true <->
   frame_busy (ram s) k = true /\
   forall i, 0 <= i < n -> fget f_frames (tab s)⟦pte + 8 * i⟧ <> k) /\
(forall a, ~ frame_byte a -> (ram s')⟦a⟧ = (ram s)⟦a⟧) /\
(bytes_in (ram s) -> bytes_in (ram s')).
Proof.
intros Hn Hfr. cbv zeta.
upto_with (fun i s' =>
  s' = (s |> set_ram (ram s') |> set_tab (tab s')) /\
  filled (tab s) pte i (fun i => free_entry (tab s)⟦pte + 8 * i⟧) (tab s') /\
  (forall k, 0 <= k -> frame_busy (ram s') k = true <->
     frame_busy (ram s) k = true /\
     forall j, 0 <= j < i -> fget f_frames (tab s)⟦pte + 8 * j⟧ <> k) /\
  (forall a, ~ frame_byte a -> (ram s')⟦a⟧ = (ram s)⟦a⟧) /\
  (bytes_in (ram s) -> bytes_in (ram s'))); [done|..|done].
- destruct s. split_and!; try done; [apply filled_0|].
  intros k Hk. split; [|by intros [? _]]. intros Hb. split; [done|]. intros; lia.
- intros i s' Hi (Es & Hf & Hb & Hr & Hok). unfold free_page_step.
  cbn [ram tab set_ram set_tab].
  pose proof (filled_next _ _ _ _ _ Hf) as En. rewrite En.
  specialize (Hfr i ltac:(lia)). set (fr := fget f_frames _) in *.
  rewrite Z.shiftl_mul_pow2 by lia. change (2 ^ 12) with 4096.
  split_and!.
  + rewrite Es. done.
  + unfold upd. apply filled_S; [lia| |done]. by rewrite En.
  + intros k Hk. rewrite free_frame_busy, Z.div_mul, andb_true_iff, negb_true_iff, Hb by lia.
    replace (0x8000000 <=? fr * 4096) with true by lia. simpl. rewrite Z.eqb_neq. split.
    * intros [[Hbk Hlow] Hne]. split; [done|]. intros j Hj.
      destruct (decide (j = i)) as [->|]; [fold fr; lia|]. apply Hlow. lia.
    * intros [Hbk Hall]. split; [split; [done|]|].
      { intros j Hj. apply Hall. lia. }
      specialize (Hall i ltac:(lia)). fold fr in Hall. lia.
  + intros a Ha. rewrite free_frame_rest by (done || lia). by apply Hr.
  + intros Hm. by apply free_frame_ok, Hok.
Qed.
End page_blocks.

Section alloc_free.
Implicit Types (s : mm) (B : blocks) (a j k n len : Z).

(** What a successful [alloc_pages] did: block [a], frames [fs]. *)
Record allocated s B type len a (fs : list Z) s' : Prop := {
al_state : s' = (s |> set_ram (ram s') |> set_tab (tab s'));
al_block : 0 <= a /\ a + len <= ALLOC_PAGES /\ fits B a len /\
           forall j, 0 <= j < a -> ~ fits B j len;
al_rep : page_rep (ram s') (<[a := len]> B);
al_frames : length fs = Z.to_nat len /\ NoDup fs /\
  Forall (fun f => exists k, 32768 <= k < 1048576 /\ f = k * 0x1000 /\
                     frame_busy (ram s) k = false) fs;
al_busy : forall k, 0 <= k < 1048576 ->
  frame_busy (ram s') k = frame_busy (ram s) k || bool_decide (k * 0x1000 ∈ fs);
al_bytes : bytes_in (ram s');
al_low : forall b, b < PAGE_BITMAP -> ~ frame_byte b -> (ram s')⟦b⟧ = (ram s)⟦b⟧;
al_entry : forall (i : nat) f, fs !! i = Some f ->
  page_entry s' (a + Z.of_nat i) = alloc_entry type f (page_entry s (a + Z.of_nat i));
al_other : forall b, ~ alloc_pte + 8 * a <= b < alloc_pte + 8 * (a + len) ->
  (tab s')⟦b⟧ = (tab s)⟦b⟧;
al_mid : forall b, (b - alloc_pte) mod 8 <> 0 -> (tab s')⟦b⟧ = (tab s)⟦b⟧
}.

Lemma masked_frames m k len :
0 <= k -> 0 <= len -> same_frames m (masked m (PAGE_BITMAP + k / 4) len (2 * (k mod 4))).
Proof.
intros Hk Hl j Hj. destruct (masked_spec m k len) as (_ & _ & Hrest); [done..|].
unfold frame_busy. cbv zeta in Hrest. rewrite Hrest; [done|].
unfold RAM_BITMAP, PAGE_BITMAP. word_lia.
Qed.

Lemma masked_ok m k len :
bytes_in m -> 0 <= k -> 0 <= len ->
bytes_in (masked m (PAGE_BITMAP + k / 4) len (2 * (k mod 4))).
Proof.
intros Hm Hk Hl. unfold masked. rewrite walk_pages_all by lia.
break_with (fun (_ : Z) (p : Z * mem) => bytes_in p.2) (fun (_ : Z) (_ : Empty_set) => False);
  [done|..|by intros []|done].
- intros i [c m'] Hi Hok. unfold page_body.
  destruct (c =? 0); intros b; cbn [snd]; rewrite rd_wr; case_within; apply Hok || apply u8_range.
Qed.

Lemma alloc_pages_result type len addr s B fs r :
mm_ok s B -> 1 <= len < 2147483648 ->
(exists k, 0 <= k /\ k + len <= ALLOC_PAGES /\ fits B k len) ->
alloc_frames (Z.to_nat len) (ram s) = Some (fs, r) ->
exists a s',
  alloc_pages type len addr s = Ret (len, ALLOC_PAGE_MEMORY + a * 0x1000, s') /\
  allocated s B type len a fs s'.
Proof.
intros [Hrep Hbytes Htab _ _ _ _ Hlock] Hl (k & Hk & Hkb & Hkf) Ef.
unfold alloc_pages. destruct (Z.eqb_spec len 0); [lia|]. rewrite Hlock. cbn [Z.eqb negb].
change (ram (set_alloc_spin_lock (0 + 1) s)) with (ram s).
destruct (get_free_page_cases (ram s) len Hl) as [(a & Ha & Hrun & -> & Hlow)|[_ Hno]].
2:{ exfalso. apply (Hno k); [unfold ALLOC_PAGES in Hkb; lia|].
    by apply (run_free_fits _ B); auto with lia. }
assert (fits B a len) as Hfit by (apply (run_free_fits (ram s)); auto with lia).
assert (a <= k) as Hak.
{ destruct (Z.le_gt_cases a k); [done|]. exfalso. apply (Hlow k ltac:(lia)).
  apply (run_free_fits _ B); auto with lia. }
cbn [mbind outcome_bind].
set (m1 := masked (ram s) (PAGE_BITMAP + a / 4) len (2 * (a mod 4))).
destruct (alloc_frames_same _ _ m1 _ _ (masked_frames (ram s) a len ltac:(lia) ltac:(lia)) Ef)
  as (r' & Ef' & _).
set (s1 := set_ram m1 (set_alloc_spin_lock (0 + 1) s)).
destruct (alloc_page_loop type (Z.to_nat len) 0 (alloc_pte + 8 * a) s1 fs r' Ef')
  as (t & Et & Hin & Hout & Hmid).
rewrite Et. cbn [mbind outcome_bind].
rewrite (s32_small (a * _)) by (unfold ALLOC_PAGES in Hkb; lia).
rewrite (u64_small (ALLOC_PAGE_MEMORY + _))
  by (unfold ALLOC_PAGES, ALLOC_PAGE_MEMORY in *; lia).
exists a. eexists. split; [reflexivity|].
apply alloc_frames_spec in Ef' as HS. destruct HS as (Hlen & Hnd & Hall & Hbusy & Hok).
pose proof (masked_frames (ram s) a len ltac:(lia) ltac:(lia)) as Hsame.
fold m1 in Hsame.
assert (page_rep m1 (<[a := len]> B)) as Hrep1 by (apply masked_rep; auto with lia).
destruct (masked_spec (ram s) a len) as (_ & _ & Hmrest); [lia..|]. cbv zeta in Hmrest.
fold m1 in Hmrest.
constructor; unfold s1; cbn [ram tab set_ram set_tab set_alloc_spin_lock].
- destruct s. cbn in Hlock. by rewrite Hlock.
- split_and!; [lia|lia|done|]. intros j Hj Hf. apply (Hlow j Hj).
  apply (run_free_fits _ B); auto with lia.
- apply (page_rep_ext m1); [|done]. intros b Hb.
  apply (alloc_frames_rest _ _ _ _ b Ef'). unfold frame_byte, RAM_BITMAP, PAGE_BITMAP in *. lia.
- split_and!; [done|done|]. eapply Forall_impl; [done|].
  intros f (k' & Hk' & -> & Hfree). exists k'. split_and!; [lia|lia|done|].
  rewrite Hsame by lia. done.
- intros j Hj. rewrite Hbusy by lia. by rewrite Hsame by lia.
- apply Hok, masked_ok; auto with lia.
- intros b Hb Hfb. rewrite (alloc_frames_rest _ _ _ _ b Ef') by done.
  apply Hmrest. left. word_lia.
- intros i f Hf. unfold page_entry. cbn [tab set_tab].
  pose proof (Hin i f Hf) as Hi. unfold s1 in Hi.
  cbn [tab set_ram set_tab set_alloc_spin_lock] in Hi.
  by replace (alloc_pte + 8 * (a + Z.of_nat i)) with
    (alloc_pte + 8 * a + 8 * (0 + Z.of_nat i)) by lia.
- intros b Hb. rewrite Hout by lia. done.
- intros b Hb. rewrite Hmid by word_lia. done.
Qed.

Lemma alloc_pages_found type len addr s a m1 :
len <> 0 -> alloc_spin_lock s = 0 -> get_free_page (ram s) len = Ret (a, m1) ->
alloc_pages type len addr s =
(s' ← for_outcome (Z.to_nat len) 0 (alloc_page_step type (alloc_pte + 8 * a))
        (set_ram m1 (set_alloc_spin_lock (0 + 1) s));
 Ret (len, u64 (ALLOC_PAGE_MEMORY + s32 (a * 0x1000)), set_alloc_spin_lock 0 s')).
Proof.
intros Hl Hlock E. unfold alloc_pages. destruct (Z.eqb_spec len 0); [done|].
rewrite Hlock. cbn [Z.eqb negb].
change (ram (set_alloc_spin_lock (0 + 1) s)) with (ram s). rewrite E. reflexivity.
Qed.

Lemma alloc_pages_stuck type len addr s :
len <> 0 -> alloc_spin_lock s = 0 -> get_free_page (ram s) len = Hang ->
alloc_pages type len addr s = Hang.
Proof.
intros Hl Hlock E. unfold alloc_pages. destruct (Z.eqb_spec len 0); [done|].
rewrite Hlock. cbn [Z.eqb negb].
change (ram (set_alloc_spin_lock (0 + 1) s)) with (ram s). rewrite E. reflexivity.
Qed.

(** A call that returned took all the frames it asked for, and a run it found fits. *)
Lemma alloc_page_loop_None type (n : nat) i pte s :
alloc_frames n (ram s) = None -> for_outcome n i (alloc_page_step type pte) s = Hang.
Proof.
revert i s. induction n as [|n IH]; intros i s E; [done|].
rewrite alloc_frames_S in E. cbn [for_outcome].
destruct (alloc_frame (ram s)) as [f r1] eqn:Ef. destruct (Z.eqb_spec f 0) as [->|Hf].
- unfold alloc_page_step. by rewrite Ef.
- rewrite (alloc_page_step_eq _ _ _ _ _ _ Ef Hf). apply IH. cbn [ram set_tab set_ram].
  by destruct (alloc_frames n r1) as [[]|].
Qed.

Lemma alloc_pages_inv type len addr s B v s' :
mm_ok s B -> 1 <= len < 2147483648 ->
(exists k, 0 <= k /\ k + len <= ALLOC_PAGES /\ fits B k len) ->
alloc_pages type len addr s = Ret (len, v, s') ->
exists a fs, v = ALLOC_PAGE_MEMORY + a * 0x1000 /\ allocated s B type len a fs s'.
Proof.
intros Hs Hl Hroom E.
destruct (alloc_frames (Z.to_nat len) (ram s)) as [[fs r]|] eqn:Ef.
- destruct (alloc_pages_result type len addr s B fs r) as (a & s2 & E2 & HA); [done..|].
  rewrite E in E2. injection E2 as -> ->. by exists a, fs.
- exfalso. pose proof (ok_lock _ _ Hs) as Hlock. assert (len <> 0) as Hne by lia.
  destruct (get_free_page_cases (ram s) len Hl) as [(a & Ha & _ & Eg & _)|[Eg _]].
  2:{ rewrite (alloc_pages_stuck _ _ _ _ Hne Hlock Eg) in E. discriminate E. }
  rewrite (alloc_pages_found _ _ _ _ _ _ Hne Hlock Eg), alloc_page_loop_None in E;
    [discriminate E|].
  cbn [ram set_ram set_alloc_spin_lock]. set (m1 := masked _ _ _ _).
  destruct (alloc_frames (Z.to_nat len) m1) as [[fs r]|] eqn:Em; [exfalso|done].
  destruct (alloc_frames_same _ _ (ram s) _ _ (fun k Hk => eq_sym
    (masked_frames (ram s) a len ltac:(lia) ltac:(lia) k Hk)) Em) as (r2 & E2 & _).
  congruence.
Qed.

Lemma in_block_insert B a len j :
fits B a len -> block_ok B -> 1 <= len ->
in_block (<[a := len]> B) j <-> in_block B j \/ a <= j < a + len.
Proof.
intros Hf Hok Hl. pose proof (fits_None _ _ _ Hok Hl Hf) as HN. unfold in_block. split.
- intros (s & n & Hs & Hin). apply lookup_insert_Some in Hs as [[<- <-]|[_ Hs]]; eauto.
- intros [(s & n & Hs & Hin)|Hin].
  + exists s, n. rewrite lookup_insert_ne by congruence. done.
  + exists a, len. by rewrite lookup_insert_eq.
Qed.

Lemma in_block_delete B a len j :
block_ok B -> B !! a = Some len ->
in_block (delete a B) j <-> in_block B j /\ ~ a <= j < a + len.
Proof.
intros Hok HB. unfold in_block. split.
- intros (s & n & [Hne Hs]%lookup_delete_Some & Hin). split; [by exists s, n|].
  intros Hj. destruct (block_unique B s n a len j); auto.
- intros [(s & n & Hs & Hin) Hout]. exists s, n. split; [|done].
  apply lookup_delete_Some. split; [|done]. intros <-. by replace n with len in Hin by congruence.
Qed.

Lemma fits_not_in B a len j : fits B a len -> a <= j < a + len -> ~ in_block B j.
Proof. intros Hf Hj (s & n & Hs & Hin). apply Hf in Hs. lia. Qed.

(** The entries of the block, with the frame each of them got. *)
Lemma allocated_page s B type len a fs s' j :
allocated s B type len a fs s' -> a <= j < a + len ->
exists k, fs !! Z.to_nat (j - a) = Some (k * 0x1000) /\ 32768 <= k < 1048576 /\
  frame_busy (ram s) k = false /\ frame_busy (ram s') k = true /\
  page_frame s' j = k /\ fget f_p (page_entry s' j) = 1 /\
  page_entry s' j = alloc_entry type (k * 0x1000) (page_entry s j).
Proof.
intros HA Hj. destruct (al_frames _ _ _ _ _ _ _ HA) as (Hlen & _ & Hall).
destruct (lookup_lt_is_Some_2 fs (Z.to_nat (j - a))) as [f Hf]; [lia|].
rewrite Forall_forall in Hall. pose proof (list_elem_of_lookup_2 _ _ _ Hf) as Hin.
destruct (Hall f Hin) as (k & Hk & -> & Hfree). exists k.
pose proof (al_entry _ _ _ _ _ _ _ HA _ _ Hf) as He.
replace (a + Z.of_nat (Z.to_nat (j - a))) with j in He by lia.
destruct (alloc_entry_fields type (k * 0x1000) (page_entry s j)) as [Hp Hfr]; [lia|].
split_and!; try done; try lia.
- rewrite (al_busy _ _ _ _ _ _ _ HA) by lia.
  by rewrite bool_decide_eq_true_2, orb_true_r.
- unfold page_frame. rewrite He, Hfr. word_lia.
- by rewrite He.
Qed.

Lemma allocated_old s B type len a fs s' j :
allocated s B type len a fs s' -> ~ a <= j < a + len -> page_entry s' j = page_entry s j.
Proof. intros HA Hj. apply (al_other _ _ _ _ _ _ _ HA). lia. Qed.

Lemma allocated_ok s B type len a fs s' :
mm_ok s B -> 1 <= len -> allocated s B type len a fs s' -> mm_ok s' (<[a := len]> B).
Proof.
intros [Hrep Hbytes Htab Hbound Hlive Hinj Hdead Hlock] Hl HA.
destruct (al_block _ _ _ _ _ _ _ HA) as (Ha0 & Hab & Hfit & _).
pose proof (proj1 Hrep) as Hok.
assert (forall j, in_block B j -> ~ a <= j < a + len) as Hout.
{ intros j Hj Hin. by apply (fits_not_in B a len j). }
assert (forall j, in_block B j -> page_frame s' j = page_frame s j) as Hold.
{ intros j Hj. unfold page_frame. by rewrite (allocated_old _ _ _ _ _ _ _ _ HA) by auto. }
constructor.
- apply HA.
- apply HA.
- apply (alloc_tables_ext s); [by rewrite (al_state _ _ _ _ _ _ _ HA)|..|done].
  intros b Hb. apply (al_other _ _ _ _ _ _ _ HA). lia.
- intros b n [[<- <-]|[_ Hb]]%lookup_insert_Some; [done|]. eauto.
- intros j [Hj|Hj]%in_block_insert; [..|done|done|done].
  + unfold page_frame. rewrite (allocated_old _ _ _ _ _ _ _ _ HA) by auto.
    destruct (Hlive j Hj) as (Hp & Hfr & Hb). split_and!; [done|apply Hfr..|].
    rewrite (al_busy _ _ _ _ _ _ _ HA) by (unfold page_frame in Hfr; lia).
    unfold page_frame in Hb. by rewrite Hb.
  + destruct (allocated_page _ _ _ _ _ _ _ j HA Hj)
      as (k & _ & Hk & _ & Hb & -> & Hp & _). done.
- intros i j Hi Hj E. apply in_block_insert in Hi; [|done..]. apply in_block_insert in Hj; [|done..].
  destruct Hi as [Hi|Hi], Hj as [Hj|Hj].
  + rewrite !Hold in E by done. auto.
  + destruct (allocated_page _ _ _ _ _ _ _ j HA Hj) as (k & _ & _ & Hfree & _ & Ek & _).
    destruct (Hlive i Hi) as (_ & _ & Hb). rewrite Hold, Ek in E by done. congruence.
  + destruct (allocated_page _ _ _ _ _ _ _ i HA Hi) as (k & _ & _ & Hfree & _ & Ek & _).
    destruct (Hlive j Hj) as (_ & _ & Hb). rewrite (Hold j), Ek in E by done. congruence.
  + destruct (allocated_page _ _ _ _ _ _ _ i HA Hi) as (k & Hk & _ & _ & _ & Ek & _).
    destruct (allocated_page _ _ _ _ _ _ _ j HA Hj) as (k2 & Hk2 & _ & _ & _ & Ek2 & _).
    assert (k2 = k) as -> by congruence.
    destruct (al_frames _ _ _ _ _ _ _ HA) as (_ & Hnd & _).
    pose proof (NoDup_lookup _ _ _ _ Hnd Hk Hk2). lia.
- intros j Hj Hno. rewrite in_block_insert in Hno by done.
  rewrite (allocated_old _ _ _ _ _ _ _ _ HA) by tauto. apply Hdead; tauto.
- rewrite (al_state _ _ _ _ _ _ _ HA). done.
Qed.
End alloc_free.

Section free.
Implicit Types (s : mm) (B : blocks) (a j k n len : Z).

Lemma umasked_frames m k len :
0 <= k -> 0 <= len -> same_frames m (umasked m (PAGE_BITMAP + k / 4) len (2 * (k mod 4))).
Proof.
intros Hk Hl j Hj. destruct (umasked_spec m k len) as (_ & Hrest); [done..|].
unfold frame_busy. cbv zeta in Hrest. rewrite Hrest; [done|].
unfold RAM_BITMAP, PAGE_BITMAP. word_lia.
Qed.

Lemma umasked_ok m k len :
bytes_in m -> 0 <= k -> 0 <= len ->
bytes_in (umasked m (PAGE_BITMAP + k / 4) len (2 * (k mod 4))).
Proof.
intros Hm Hk Hl. unfold umasked. rewrite walk_pages_all by lia.
break_with (fun (_ : Z) m => bytes_in m) (fun (_ : Z) (_ : Empty_set) => False);
  [done|..|done|done].
intros i m' Hi Hok. unfold page_body.
intros b; rewrite rd_wr; case_within; apply Hok || apply u8_range.
Qed.

(** What [free_pages] does to block [a] of length [n]. *)
Record freed s B a n s' : Prop := {
fr_state : s' = (s |> set_ram (ram s') |> set_tab (tab s'));
fr_bits : forall j b, 0 <= j -> 0 <= b <= 1 ->
  page_bit (ram s') j b = page_bit (ram s) j b && negb (within j a n);
fr_rep : page_rep (ram s') (delete a B);
fr_busy : forall k, 0 <= k < 1048576 -> frame_busy (ram s') k = true <->
  frame_busy (ram s) k = true /\ forall j, a <= j < a + n -> page_frame s j <> k;
fr_bytes : bytes_in (ram s');
fr_low : forall b, b < PAGE_BITMAP -> ~ frame_byte b -> (ram s')⟦b⟧ = (ram s)⟦b⟧;
fr_entry : forall j, a <= j < a + n -> page_entry s' j = free_entry (page_entry s j);
fr_other : forall b, ~ alloc_pte + 8 * a <= b < alloc_pte + 8 * (a + n) ->
  (tab s')⟦b⟧ = (tab s)⟦b⟧;
fr_mid : forall b, (b - alloc_pte) mod 8 <> 0 -> (tab s')⟦b⟧ = (tab s)⟦b⟧
}.

Lemma page_in_block B a n j : B !! a = Some n -> a <= j < a + n -> in_block B j.
Proof. intros HB Hj. by exists a, n. Qed.

Lemma free_pages_result fuel s B a n :
mm_ok s B -> B !! a = Some n -> n < Z.of_nat fuel ->
exists s', free_pages fuel (ALLOC_PAGE_MEMORY + a * 0x1000) s = Ret s' /\ freed s B a n s'.
Proof.
intros [Hrep Hbytes Htab Hbound Hlive _ _ _] HB Hfuel.
destruct (proj1 Hrep) as [Hpos _]. destruct (Hpos _ _ HB) as [Ha Hn].
pose proof (Hbound _ _ HB) as Hab. unfold ALLOC_PAGES in Hab.
unfold free_pages. destruct (Z.eqb_spec (ALLOC_PAGE_MEMORY + a * 0x1000) 0) as [E|_];
  [unfold ALLOC_PAGE_MEMORY in E; lia|].
replace (s32 (u64 (ALLOC_PAGE_MEMORY + a * 0x1000 - ALLOC_PAGE_MEMORY) / 0x1000)) with a
  by (rewrite u64_small by lia; rewrite s32_small; word_lia).
rewrite (get_busy_page_size_rep fuel (ram s) B a n) by done. cbn [mbind outcome_bind].
rewrite Z.quot_div_nonneg, Z.rem_mod_nonneg by lia.
rewrite (Z.mul_comm (a mod 4)).
set (m1 := umasked (ram s) (PAGE_BITMAP + a / 4) n (2 * (a mod 4))).
eexists. split; [reflexivity|].
assert (forall i, 0 <= i < n ->
  32768 <= fget f_frames (tab (set_ram m1 s))⟦alloc_pte + 8 * a + 8 * i⟧ < 1048576) as Hfr.
{ intros i Hi. destruct (Hlive (a + i)) as (_ & Hfr & _).
  - apply (page_in_block B a n); [done|lia].
  - unfold page_frame, page_entry in Hfr. cbn [tab set_ram].
    by replace (alloc_pte + 8 * a + 8 * i) with (alloc_pte + 8 * (a + i)) by lia. }
destruct (free_page_loop n (alloc_pte + 8 * a) (set_ram m1 s)) as (Es & Hf & Hb & Hr & Hok);
  [lia|done|].
destruct (umasked_spec (ram s) a n) as (Hbit & Hrest); [lia..|]. cbv zeta in Hbit, Hrest.
fold m1 in Hbit, Hrest.
pose proof (umasked_frames (ram s) a n ltac:(lia) ltac:(lia)) as Hsame. fold m1 in Hsame.
set (s' := for_upto _ _ _ _) in *. cbn [ram tab set_ram] in *.
assert (forall b, PAGE_BITMAP <= b -> (ram s')⟦b⟧ = m1⟦b⟧) as Hpage.
{ intros b Hpb. apply Hr. unfold frame_byte, RAM_BITMAP, PAGE_BITMAP in *. lia. }
constructor.
- rewrite Es at 1. by destruct s.
- intros j b Hj Hb'. rewrite <- Hbit by done. unfold page_bit. by rewrite Hpage by word_lia.
- apply (page_rep_ext m1); [done|]. by apply umasked_rep.
- intros k Hk. rewrite Hb by lia. rewrite <- Hsame by lia. split.
  + intros [Hbk Hall]. split; [done|]. intros j Hj. specialize (Hall (j - a) ltac:(lia)).
    unfold page_frame, page_entry.
    by replace (alloc_pte + 8 * j) with (alloc_pte + 8 * a + 8 * (j - a)) by lia.
  + intros [Hbk Hall]. split; [done|]. intros i Hi. specialize (Hall (a + i) ltac:(lia)).
    unfold page_frame, page_entry in Hall.
    by replace (alloc_pte + 8 * a + 8 * i) with (alloc_pte + 8 * (a + i)) by lia.
- apply Hok, umasked_ok; auto with lia.
- intros b Hpb Hfb. rewrite Hr by done. apply Hrest. left. word_lia.
- intros j Hj. unfold page_entry. destruct Hf as (Hf & _ & _).
  specialize (Hf (j - a) ltac:(lia)).
  by replace (alloc_pte + 8 * a + 8 * (j - a)) with (alloc_pte + 8 * j) in Hf by lia.
- intros b Hb'. apply (proj1 (proj2 Hf)). lia.
- intros b Hb'. apply (proj2 (proj2 Hf)). word_lia.
Qed.

Lemma freed_ok s B a n s' :
mm_ok s B -> B !! a = Some n -> freed s B a n s' -> mm_ok s' (delete a B).
Proof.
intros [Hrep Hbytes Htab Hbound Hlive Hinj Hdead Hlock] HB HF.
pose proof (proj1 Hrep) as Hok. destruct (proj1 Hok _ _ HB) as [Ha Hn].
assert (forall j, ~ a <= j < a + n -> page_entry s' j = page_entry s j) as Hold.
{ intros j Hj. apply (fr_other _ _ _ _ _ HF). lia. }
constructor.
- apply HF.
- apply HF.
- pose proof (Hbound _ _ HB).
  apply (alloc_tables_ext s); [by rewrite (fr_state _ _ _ _ _ HF)|..|done].
  intros b Hb. apply (fr_other _ _ _ _ _ HF). lia.
- intros b m [_ Hb]%lookup_delete_Some. eauto.
- intros j [Hj Hout]%(in_block_delete _ _ n); [|done..]. unfold page_frame. rewrite Hold by done.
  destruct (Hlive j Hj) as (Hp & Hfr & Hb). split_and!; [done|apply Hfr..|].
  apply (fr_busy _ _ _ _ _ HF); [unfold page_frame in Hfr; lia|]. split; [done|].
  intros i Hi E. apply Hout. rewrite <- (Hinj i j); [done| |done|done].
  by apply (page_in_block B a n).
- intros i j [Hi Hoi]%(in_block_delete _ _ n) [Hj Hoj]%(in_block_delete _ _ n); [|done..].
  unfold page_frame. rewrite !Hold by done. by apply Hinj.
- intros j Hj Hno. rewrite (in_block_delete _ _ n) in Hno by done.
  destruct (decide (a <= j < a + n)) as [Hin|Hin].
  + rewrite (fr_entry _ _ _ _ _ HF) by done. apply free_entry_idem.
  + rewrite Hold by done. apply Hdead; tauto.
- rewrite (fr_state _ _ _ _ _ HF). done.
Qed.

(** Two memories whose bytes spell the same bits are equal. *)
Lemma ram_ext m m' :
bytes_in m -> bytes_in m' ->
(forall j b, 0 <= j -> 0 <= b <= 1 -> page_bit m j b = page_bit m' j b) ->
same_frames m m' ->
(forall b, b < PAGE_BITMAP -> ~ frame_byte b -> m⟦b⟧ = m'⟦b⟧) -> m ≡ₘ m'.
Proof.
intros Hm Hm' Hp Hf Hl a.
assert ((forall i, 0 <= i < 8 -> Z.testbit m⟦a⟧ i = Z.testbit m'⟦a⟧ i) -> m⟦a⟧ = m'⟦a⟧) as Hbits.
{ intros Hi. rewrite <- (u8_small m⟦a⟧), <- (u8_small m'⟦a⟧) by auto.
  apply Z.bits_inj'. intros k Hk. unfold u8. destruct (Z.ltb_spec k 8).
  - rewrite !testbit_wrap by lia. auto.
  - by rewrite !Z.mod_pow2_bits_high by lia. }
destruct (Z.le_gt_cases PAGE_BITMAP a) as [Ha|Ha].
- apply Hbits. intros i Hi.
  specialize (Hp (4 * (a - PAGE_BITMAP) + i / 2) (i mod 2) ltac:(word_lia) ltac:(word_lia)).
  unfold page_bit in Hp.
  replace (PAGE_BITMAP + (4 * (a - PAGE_BITMAP) + i / 2) / 4) with a in Hp by word_lia.
  by replace (2 * ((4 * (a - PAGE_BITMAP) + i / 2) mod 4) + i mod 2) with i in Hp by word_lia.
- destruct (decide (RAM_BITMAP <= a < RAM_BITMAP + 131072)) as [Hfa|Hfa].
  + apply Hbits. intros i Hi. specialize (Hf (8 * (a - RAM_BITMAP) + i) ltac:(lia)).
    unfold frame_busy in Hf.
    replace (RAM_BITMAP + (8 * (a - RAM_BITMAP) + i) / 8) with a in Hf by word_lia.
    by replace ((8 * (a - RAM_BITMAP) + i) mod 8) with i in Hf by word_lia.
  + by apply Hl.
Qed.

(** Freeing a block just allocated gives back both bitmaps and every table entry. *)
Lemma allocated_freed s B type len a fs s1 s2 :
mm_ok s B -> 1 <= len -> allocated s B type len a fs s1 ->
freed s1 (<[a := len]> B) a len s2 ->
ram s2 ≡ₘ ram s /\ tab s2 ≡ₘ tab s /\ s2 = (s |> set_ram (ram s2) |> set_tab (tab s2)).
Proof.
intros Hs Hl HA HF.
destruct (al_block _ _ _ _ _ _ _ HA) as (Ha0 & Hab & Hfit & _).
pose proof (ok_rep _ _ Hs) as (Hok & Hb0 & Hc0).
split; [|split].
- apply ram_ext; [apply HF|apply Hs|..].
  + intros j b Hj Hb. pose proof (fr_rep _ _ _ _ _ HF) as (_ & Hb2 & Hc2).
    rewrite delete_insert_eq in Hb2, Hc2.
    rewrite (delete_id B a) in Hb2, Hc2 by (by apply (fits_None _ _ len)).
    apply eq_iff_eq_true. assert (b = 0 \/ b = 1) as [-> | ->] by lia.
    * fold (page_busy (ram s2) j) (page_busy (ram s) j). by rewrite Hb0, Hb2.
    * fold (page_cont (ram s2) j) (page_cont (ram s) j). by rewrite Hc0, Hc2.
  + intros k Hk. apply eq_iff_eq_true. rewrite (fr_busy _ _ _ _ _ HF) by done.
    rewrite (al_busy _ _ _ _ _ _ _ HA) by done. rewrite orb_true_iff, bool_decide_eq_true. split.
    * intros [[Hb|Hin] Hno]; [done|exfalso].
      apply list_elem_of_lookup_1 in Hin as [i Hi].
      destruct (al_frames _ _ _ _ _ _ _ HA) as (Hlen & _ & _).
      pose proof (lookup_lt_Some _ _ _ Hi) as Hlt.
      destruct (allocated_page _ _ _ _ _ _ _ (a + Z.of_nat i) HA ltac:(lia))
        as (k' & Hk' & _ & _ & _ & Ek & _).
      apply (Hno (a + Z.of_nat i) ltac:(lia)). rewrite Ek.
      replace (Z.to_nat (a + Z.of_nat i - a)) with i in Hk' by lia.
      rewrite Hi in Hk'. injection Hk'. lia.
    * intros Hb. split; [by left|]. intros j Hj E.
      destruct (allocated_page _ _ _ _ _ _ _ j HA Hj) as (k' & _ & _ & Hfree & _ & Ek & _).
      congruence.
  + intros b Hb Hfb. rewrite (fr_low _ _ _ _ _ HF) by done. by apply (al_low _ _ _ _ _ _ _ HA).
- intros b. destruct (decide (alloc_pte + 8 * a <= b < alloc_pte + 8 * (a + len))) as [Hb|Hb].
  + destruct (decide ((b - alloc_pte) mod 8 = 0)) as [Hm|Hm].
    * assert (exists j, b = alloc_pte + 8 * j) as [j ->]
        by (exists ((b - alloc_pte) / 8); word_lia).
      fold (page_entry s2 j) (page_entry s j). assert (a <= j < a + len) as Hj by lia.
      rewrite (fr_entry _ _ _ _ _ HF) by done.
      destruct (allocated_page _ _ _ _ _ _ _ j HA Hj) as (k' & _ & _ & _ & _ & _ & _ & ->).
      apply free_alloc_entry, (ok_dead _ _ Hs); [unfold ALLOC_PAGES in *; lia|].
      by apply (fits_not_in B a len).
    * rewrite (fr_mid _ _ _ _ _ HF), (al_mid _ _ _ _ _ _ _ HA) by done. done.
  + rewrite (fr_other _ _ _ _ _ HF), (al_other _ _ _ _ _ _ _ HA) by done. done.
- rewrite (fr_state _ _ _ _ _ HF), (al_state _ _ _ _ _ _ _ HA). done.
Qed.
End free.

(** ** The state [alloc_pages_setup] leaves *)
Section setup.
Implicit Types (s : mm).

(** The hierarchy's root stands clear of the tables too. *)
Definition pml4_apart s : Prop :=
(pml4e s < alloc_pde \/ alloc_pte + 0x200000 <= pml4e s) /\
(pml4e s < pdpte s \/ pdpte s + 4096 <= pml4e s).

Lemma alloc_pages_setup_ok s :
pdpt_apart s -> pml4_apart s -> bytes_in (ram s) ->
(forall a, PAGE_BITMAP + 0x2000000 <= a -> (ram s)⟦a⟧ = 0) ->
mm_ok (alloc_pages_setup s) ∅.
Proof.
intros Hap [Hp4 Hp4'] Hbytes Hzero. unfold alloc_pages_setup.
cbn [ram tab pdpte pml4e set_ram set_tab set_alloc_spin_lock].
set (m1 := memset (ram s) PAGE_BITMAP 0 0x2000000).
assert (forall a, PAGE_BITMAP <= a -> m1⟦a⟧ = 0) as Hm1.
{ intros a Ha. unfold m1. rewrite rd_memset. case_within; [done|]. apply Hzero. lia. }
assert (bytes_in m1) as Hm1b.
{ intros a. unfold m1. rewrite rd_memset. case_within; [apply u8_range|apply Hbytes]. }
clearbody m1. set (t0 := clear_entries (tab s) alloc_pde 512).
set (t1 := clear_entries t0 alloc_pte (512 * 512)).
assert (filled t0 alloc_pte (512 * 512) (fun _ => 0) t1) as F1
  by (apply clear_entries_filled; lia).
clearbody t0 t1. change (512 * 512) with 262144 in *.
match goal with |- context [for_upto 0 262144 ?b ?t] =>
  assert (filled t1 alloc_pte 262144 (fun _ => fset f_rw 1 0) (for_upto 0 262144 b t)) as F2;
  [|set (t2 := for_upto 0 262144 b t) in *; clearbody t2]
end.
{ apply (for_upto_inv (fun i t => filled t1 alloc_pte i (fun _ => fset f_rw 1 0) t));
    [lia|apply filled_0|].
  intros i t Hi Hf. apply filled_S; [lia| |done].
  rewrite (filled_next _ _ _ _ _ Hf). destruct F1 as (F1 & _ & _). rewrite F1 by lia. done. }
upto_with (fun i '(t, addr) => addr = alloc_pte + 0x1000 * i /\
  filled t2 alloc_pde i (fun i => t2⟦alloc_pde + 8 * i⟧ |> fset f_p 1 |> fset f_rw 1
    |> fset f_us 1 |> fset f_phy_addr_pt (mask48 (Z.shiftr (alloc_pte + 0x1000 * i) 12))) t);
  [done|split; [done|apply filled_0]|..].
{ intros i [t addr] Hi [-> Hf]. split; [lia|]. apply filled_S; [lia| |done].
  by rewrite (filled_next _ _ _ _ _ Hf). }
intros [t3 addr] [_ F3].
unfold pdpt_apart, ALLOC_PDPTE_ENTRY, DEVICE_PAGE_DIR, DEVICE_PAGE_TABLE in *.
destruct F1 as (F1 & _ & _), F2 as (F2 & _ & _), F3 as (F3 & G3 & _).
assert (forall j, 0 <= j < 262144 -> page_entry (set_tab
  (upd (upd t3 (pdpte s + 8 * 4) (fun e => e |> fset f_p 1 |> fset f_rw 1 |> fset f_us 1
           |> fset f_phy_addr_pd (mask48 (Z.shiftr alloc_pde 12)))) (pml4e s) (fset f_us 1))
  (set_ram m1 (set_alloc_spin_lock 0 s))) j = fset f_rw 1 0) as Hentry.
{ intros j Hj. unfold page_entry. cbn [tab set_tab]. unfold alloc_pte, alloc_pde in *.
  rewrite !rd_upd_ne by lia. rewrite G3 by lia. apply F2. lia. }
constructor.
- apply (page_rep_ext ∅); [|apply page_rep_empty]. intros a Ha.
  cbn [ram set_tab set_ram]. rewrite rd_empty. by apply Hm1.
- exact Hm1b.
- unfold alloc_tables, pdpt_apart, ALLOC_PDPTE_ENTRY, alloc_pte, alloc_pde in *.
  cbn [tab pdpte set_tab set_ram set_alloc_spin_lock]. split; [done|]. split.
  + rewrite rd_upd_ne, rd_upd_eq by lia. unfold entry_addr.
    by rewrite fget_fset_eq by done.
  + intros i Hi. rewrite !rd_upd_ne by lia. rewrite F3 by lia. unfold entry_addr.
    rewrite fget_fset_eq, frame_addr by (done || lia). word_lia.
- intros a n Ha. by rewrite lookup_empty in Ha.
- intros j (a & n & Ha & _). by rewrite lookup_empty in Ha.
- intros i j (a & n & Ha & _). by rewrite lookup_empty in Ha.
- intros j Hj _. unfold ALLOC_PAGES in Hj. rewrite Hentry by lia. done.
- done.
Qed.
End setup.

(** A booted memory manager: tables at 1 MiB, everything else zero. *)
Definition boot_mm : mm :=
  alloc_pages_setup (page_install 0x100000 (Mm ∅ ∅ 0 0 0 0)).

Lemma boot_mm_ok : mm_ok boot_mm ∅.
Proof.
  apply alloc_pages_setup_ok.
  - left. vm_compute. discriminate.
  - split; left; vm_compute; reflexivity.
  - apply bytes_in_empty.
  - intros a _. apply rd_empty.
Qed.

(** The frames [boot_mm] allocates are those of an empty bitmap. *)
Lemma boot_mm_frames : same_frames ∅ (ram boot_mm).
Proof.
  intros k Hk. unfold boot_mm, frame_busy.
  change (ram (alloc_pages_setup _)) with (memset ∅ PAGE_BITMAP 0 0x2000000).
  rewrite rd_memset. unfold RAM_BITMAP, PAGE_BITMAP. by case_within.
Qed.

(** ** Properties *)

(** [mm_mp] maps a device: every byte of [size] bytes from the address it returns
    translates to the page the device's byte is in, the mappings made before still
    translate as they did, and the device tables stay linked, so that calls compose.  It
    succeeds on every size that fits in what is left of the 1 GiB window. *)
Theorem mm_mp_maps (s : mm) (phy size flag : Z) :
  device_ok s -> 0 <= phy -> phy + size <= 2 ^ 48 ->
  0 <= size <= (512 - g_mm_mp_index s) * 0x200000 ->
  let '(r, virt, s') := mm_mp phy size flag s in
  r = 0 /\ virt = DEVICE_MEMORY_MAP + g_mm_mp_index s * 0x200000 /\ device_ok s' /\
  (forall v, 0 <= v < page_count size * 0x1000 ->
     get_phy_addr s' (virt + v) = (phy / 0x1000 + v / 0x1000) * 0x1000) /\
  (forall w, DEVICE_MEMORY_MAP <= w < virt -> get_phy_addr s' w = get_phy_addr s w).
Proof.
  intros Hs Hphy Hpl Hsz. pose proof (device_ok_mm_mp s phy size flag Hs Hphy Hpl Hsz) as Hs'.
  pose proof Hs as (_ & Hg & _).
  destruct (mm_mp_tables s phy size flag) as (t' & E & Hpage & _ & Hold); [done..|].
  rewrite E in Hs' |- *. cbn [snd] in Hs'. set (s' := set_g_mm_mp_index _ _) in *.
  assert (0 <= page_count size <= 512 * table_count size /\
          page_count size * 4096 < size + 4096 /\
          g_mm_mp_index s + table_count size <= 512) as (Hc & Hcs & Hct)
    by (unfold table_count, page_count; word_lia).
  set (n := g_mm_mp_index s) in *.
  assert (g_mm_mp_index s' = n + table_count size) as Hg' by done.
  split_and!; [done|done|done|..].
  - intros v Hv. replace (DEVICE_MEMORY_MAP + n * 0x200000 + v) with
      (DEVICE_MEMORY_MAP + (n + v / 0x200000) * 0x200000 + v / 0x1000 mod 512 * 0x1000 + v mod 0x1000)
      by word_lia.
    rewrite device_phy by (done || (rewrite ?Hg'; word_lia)).
    specialize (Hpage (v / 0x1000) ltac:(word_lia)).
    replace (DEVICE_PAGE_TABLE + 0x1000 * (n + v / 0x200000) + 8 * (v / 0x1000 mod 512)) with
      (DEVICE_PAGE_TABLE + 0x1000 * n + 8 * (v / 0x1000)) by word_lia.
    change (tab s') with t'. rewrite Hpage, device_entry_addr by word_lia. word_lia.
  - intros w Hw. set (v := w - DEVICE_MEMORY_MAP).
    replace w with
      (DEVICE_MEMORY_MAP + v / 0x200000 * 0x200000 + v / 0x1000 mod 512 * 0x1000 + v mod 0x1000)
      by (unfold v; word_lia).
    assert (0 <= v < n * 0x200000) by (unfold v; lia).
    rewrite !device_phy by (done || (rewrite ?Hg'; fold n; word_lia)).
    change (tab s') with t'. f_equal. apply Hold; unfold device_pde, DEVICE_PAGE_DIR, DEVICE_PAGE_TABLE; word_lia.
Qed.

Lemma device_ok_boot : device_ok (initialize_mm_mp (page_install 0x100000 (Mm ∅ ∅ 0 0 0 0))).
Proof.
  split; [|split; [|split]].
  - left. vm_compute. discriminate.
  - vm_compute. split; discriminate.
  - vm_compute. reflexivity.
  - intros i Hi. change (g_mm_mp_index _) with 0 in Hi. lia.
Qed.

Example mm_mp_maps_witness :
  let s := initialize_mm_mp (page_install 0x100000 (Mm ∅ ∅ 0 0 0 0)) in
  let '(r, virt, s') := mm_mp 0xFEBC0000 0x20001 0 s in
  r = 0 /\ get_phy_addr s' (virt + 0x1fff0) = 0xFEBDF000.
Proof.
  intros s.
  pose proof (mm_mp_maps s 0xFEBC0000 0x20001 0 device_ok_boot ltac:(lia) ltac:(lia)) as H.
  destruct (mm_mp 0xFEBC0000 0x20001 0 s) as [[r virt] s'].
  destruct H as (Hr & _ & _ & Hphy & _); [change (g_mm_mp_index s) with 0; lia|].
  split; [exact Hr|]. rewrite Hphy; [reflexivity|]. vm_compute. split; [discriminate|reflexivity].
Defined.

(** The address of page [j] of the allocator's window. *)
Definition page_addr (j : Z) : Z := ALLOC_PAGE_MEMORY + j * 0x1000.

Section contracts.
Implicit Types (s : mm) (B : blocks) (a j len : Z).

Lemma page_phy s B j :
mm_ok s B -> in_block B j ->
0 <= j < ALLOC_PAGES /\ get_phy_addr s (page_addr j) = page_frame s j * 0x1000.
Proof.
intros Hs Hin. destruct (ok_live _ _ Hs j Hin) as (_ & Hfr & _).
destruct Hin as (a & n & HB & Hj). pose proof (ok_bound _ _ Hs _ _ HB).
destruct (proj1 (proj1 (ok_rep _ _ Hs)) _ _ HB). split; [lia|].
unfold page_addr. rewrite <- (Z.add_0_r (_ + _)).
rewrite alloc_phy by (apply Hs || lia). apply entry_addr_frame; [done|lia].
Qed.

Lemma allocated_phy s B type len a fs s' (i : nat) f o :
mm_ok s B -> 1 <= len -> allocated s B type len a fs s' ->
fs !! i = Some f -> 0 <= o < 0x1000 ->
get_phy_addr s' (page_addr (a + Z.of_nat i) + o) = f.
Proof.
intros Hs Hl HA Hf Ho. pose proof (allocated_ok _ _ _ _ _ _ _ Hs Hl HA) as Hs'.
destruct (al_frames _ _ _ _ _ _ _ HA) as (Hlen & _ & _).
pose proof (lookup_lt_Some _ _ _ Hf) as Hlt.
destruct (al_block _ _ _ _ _ _ _ HA) as (Ha0 & Hab & _ & _).
destruct (allocated_page _ _ _ _ _ _ _ (a + Z.of_nat i) HA ltac:(lia))
  as (k & Hk & Hkr & _ & _ & Efr & _ & _).
unfold page_addr. rewrite alloc_phy by (apply Hs' || lia).
replace (Z.to_nat (a + Z.of_nat i - a)) with i in Hk by lia.
rewrite Hf in Hk. injection Hk as ->. apply entry_addr_frame; [exact Efr|lia].
Qed.

Lemma allocated_keeps s B type len a fs s' j :
mm_ok s B -> 1 <= len -> allocated s B type len a fs s' -> in_block B j ->
get_phy_addr s' (page_addr j) = get_phy_addr s (page_addr j).
Proof.
intros Hs Hl HA Hin. pose proof (allocated_ok _ _ _ _ _ _ _ Hs Hl HA) as Hs'.
destruct (al_block _ _ _ _ _ _ _ HA) as (_ & _ & Hfit & _).
assert (in_block (<[a := len]> B) j) as Hin'.
{ apply in_block_insert; [done|apply (ok_rep _ _ Hs)|done|by left]. }
destruct (page_phy _ _ _ Hs Hin) as [_ ->]. destruct (page_phy _ _ _ Hs' Hin') as [_ ->].
unfold page_frame. rewrite (allocated_old _ _ _ _ _ _ _ _ HA); [done|].
intros Hj. by apply (fits_not_in B a len j).
Qed.

Lemma pages_apart s B i j :
mm_ok s B -> in_block B i -> in_block B j ->
get_phy_addr s (page_addr i) = get_phy_addr s (page_addr j) -> i = j.
Proof.
intros Hs Hi Hj E. destruct (page_phy _ _ _ Hs Hi) as [_ Ei].
destruct (page_phy _ _ _ Hs Hj) as [_ Ej]. apply (ok_inj _ _ Hs); [done|done|lia].
Qed.
End contracts.

(** C10: [alloc_pages] implements the block allocator: when a run of [len] pages and [len]
    frames are free it returns [len] and the lowest block that fits, the invariant holds for
    the old blocks and the new one, the block's pages translate to exactly the frames
    [alloc_frame] hands out one after the other, and every older block translates as before. *)
Theorem alloc_pages_refines (s : mm) (B : blocks) (type len addr : Z) (fs : list Z) (r : mem) :
  mm_ok s B -> 1 <= len < 2147483648 ->
  (exists k, 0 <= k /\ k + len <= ALLOC_PAGES /\ fits B k len) ->
  alloc_frames (Z.to_nat len) (ram s) = Some (fs, r) ->
  exists a s',
    alloc_pages type len addr s = Ret (len, page_addr a, s') /\
    fits B a len /\ (forall j, 0 <= j < a -> ~ fits B j len) /\
    mm_ok s' (<[a := len]> B) /\
    (forall (i : nat) f o, fs !! i = Some f -> 0 <= o < 0x1000 ->
       get_phy_addr s' (page_addr (a + Z.of_nat i) + o) = f) /\
    (forall j, in_block B j -> get_phy_addr s' (page_addr j) = get_phy_addr s (page_addr j)).
Proof.
  intros Hs Hl Hroom Hfr.
  destruct (alloc_pages_result type len addr s B fs r Hs Hl Hroom Hfr) as (a & s' & E & HA).
  destruct (al_block _ _ _ _ _ _ _ HA) as (_ & _ & Hfit & Hlow).
  exists a, s'. split_and!; [done|done|done|..].
  - refine (allocated_ok _ _ _ _ _ _ _ Hs _ HA). lia.
  - intros i f o Hi Ho. refine (allocated_phy _ _ _ _ _ _ _ _ _ _ Hs _ HA Hi Ho). lia.
  - intros j Hj. refine (allocated_keeps _ _ _ _ _ _ _ _ Hs _ HA Hj). lia.
Qed.

Lemma boot_frames n fs m :
  alloc_frames n ∅ = Some (fs, m) -> exists r, alloc_frames n (ram boot_mm) = Some (fs, r).
Proof.
  intros E. destruct (alloc_frames_same n _ _ _ _ boot_mm_frames E) as (r & Er & _). by exists r.
Qed.

Lemma fits_empty k len : fits ∅ k len.
Proof. intros a n Ha. by rewrite lookup_empty in Ha. Qed.

Example alloc_pages_refines_witness :
  exists a s', alloc_pages 1 3 0 boot_mm = Ret (3, page_addr a, s') /\
    get_phy_addr s' (page_addr (a + 2) + 0x10) = 0x8002000.
Proof.
  assert (exists fs m, alloc_frames 3 ∅ = Some (fs, m) /\ fs !! 2%nat = Some 0x8002000)
    as (fs & m & E & Hfs) by (eexists _, _; split; [vm_compute; reflexivity|reflexivity]).
  apply boot_frames in E as [r E].
  destruct (alloc_pages_refines boot_mm ∅ 1 3 0 fs r boot_mm_ok ltac:(lia)) as (a & s' & Ea & _ & _ & _ & Hp & _).
  - exists 0. split; [lia|]. split; [unfold ALLOC_PAGES; lia|apply fits_empty].
  - exact E.
  - exists a, s'. split; [exact Ea|]. apply (Hp 2%nat _ 0x10 Hfs). lia.
Defined.

(** C11: [free_pages] given the address [alloc_pages] returned for a block removes that block
    and no other: it recovers the length from the bitmap, marks exactly the block's frames
    free, and the invariant holds for the remaining blocks. *)
Theorem free_pages_refines (fuel : nat) (s : mm) (B : blocks) (a n : Z) :
  mm_ok s B -> B !! a = Some n -> n < Z.of_nat fuel ->
  exists s', free_pages fuel (page_addr a) s = Ret s' /\
    mm_ok s' (delete a B) /\
    (forall k, 0 <= k < 1048576 -> frame_busy (ram s') k = true <->
       frame_busy (ram s) k = true /\
       forall j, a <= j < a + n -> get_phy_addr s (page_addr j) <> k * 0x1000).
Proof.
  intros Hs HB Hf. destruct (free_pages_result fuel s B a n Hs HB Hf) as (s' & E & HF).
  exists s'. split; [exact E|]. split; [by apply (freed_ok s B a n)|].
  intros k Hk. rewrite (fr_busy _ _ _ _ _ HF) by done.
  assert (forall j, a <= j < a + n ->
    get_phy_addr s (page_addr j) <> k * 0x1000 <-> page_frame s j <> k) as Hphy.
  { intros j Hj. destruct (page_phy s B j Hs) as [_ ->]; [by exists a, n|]. lia. }
  split; (intros [Hb Hall]; split; [done|]; intros j Hj; apply Hphy; auto).
Qed.

(** Freeing a block just allocated undoes it: both bitmaps, every page-table entry and
    every other field are what they were before [alloc_pages]. *)
Theorem free_alloc_pages (fuel : nat) (s : mm) (B : blocks) (type len addr : Z)
    (fs : list Z) (r : mem) :
  mm_ok s B -> 1 <= len < 2147483648 -> len < Z.of_nat fuel ->
  (exists k, 0 <= k /\ k + len <= ALLOC_PAGES /\ fits B k len) ->
  alloc_frames (Z.to_nat len) (ram s) = Some (fs, r) ->
  exists v s1 s2,
    alloc_pages type len addr s = Ret (len, v, s1) /\ free_pages fuel v s1 = Ret s2 /\
    ram s2 ≡ₘ ram s /\ tab s2 ≡ₘ tab s /\
    s2 = (s |> set_ram (ram s2) |> set_tab (tab s2)).
Proof.
  intros Hs Hl Hfuel Hroom Hfr.
  destruct (alloc_pages_result type len addr s B fs r Hs Hl Hroom Hfr) as (a & s1 & E1 & HA).
  pose proof (allocated_ok s B type len a fs s1 Hs ltac:(lia) HA) as Hs1.
  destruct (free_pages_result fuel s1 _ a len Hs1 (lookup_insert_eq _ _ _) Hfuel) as (s2 & E2 & HF).
  exists (page_addr a), s1, s2. split_and!; [exact E1|exact E2|..];
    by apply (allocated_freed s B type len a fs s1 s2 Hs ltac:(lia) HA HF).
Qed.

Example free_alloc_pages_witness :
  exists v s1 s2, alloc_pages 0 5 0 boot_mm = Ret (5, v, s1) /\
    free_pages 10 v s1 = Ret s2 /\ ram s2 ≡ₘ ram boot_mm.
Proof.
  assert (exists fs m, alloc_frames 5 ∅ = Some (fs, m)) as (fs & m & E)
    by (eexists _, _; vm_compute; reflexivity).
  apply boot_frames in E as [r E].
  destruct (free_alloc_pages 10 boot_mm ∅ 0 5 0 fs r boot_mm_ok ltac:(lia) ltac:(lia))
    as (v & s1 & s2 & H1 & H2 & H3 & _).
  - exists 0. split; [lia|]. split; [unfold ALLOC_PAGES; lia|apply fits_empty].
  - exact E.
  - exists v, s1, s2. split; [exact H1|]. split; [exact H2|exact H3].
Defined.

Example free_pages_refines_witness :
  exists v s1 s2, alloc_pages 1 2 0 boot_mm = Ret (2, v, s1) /\
    free_pages 3 v s1 = Ret s2 /\ mm_ok s2 (delete 0 (<[0 := 2]> ∅)).
Proof.
  assert (exists fs m, alloc_frames 2 ∅ = Some (fs, m)) as (fs & m & E)
    by (eexists _, _; vm_compute; reflexivity).
  apply boot_frames in E as [r E].
  assert (exists k, 0 <= k /\ k + 2 <= ALLOC_PAGES /\ fits ∅ k 2) as Hroom
    by (exists 0; split; [lia|]; split; [unfold ALLOC_PAGES; lia|apply fits_empty]).
  destruct (alloc_pages_result 1 2 0 boot_mm ∅ fs r boot_mm_ok ltac:(lia) Hroom E)
    as (a & s1 & E1 & HA).
  assert (a = 0) as ->.
  { destruct (al_block _ _ _ _ _ _ _ HA) as (Ha0 & _ & _ & Hlow).
    destruct (Z.eq_dec a 0) as [|Hne]; [done|]. exfalso.
    apply (Hlow 0 ltac:(lia)), fits_empty. }
  pose proof (allocated_ok boot_mm ∅ 1 2 0 fs s1 boot_mm_ok ltac:(lia) HA) as Hs1.
  destruct (free_pages_refines 3 s1 _ 0 2 Hs1 (lookup_insert_eq _ _ _) ltac:(lia))
    as (s2 & E2 & H2 & _).
  exists (page_addr 0), s1, s2. split; [exact E1|]. split; [exact E2|exact H2].
Defined.

(** ** Sequences of allocations and frees

    A client's steps, with the set of blocks it holds: it frees only what it holds, by the
    address it was given. *)
Inductive mm_step : mm * blocks -> mm * blocks -> Prop :=
| step_alloc s B type len addr a s' :
    1 <= len < 2147483648 ->
    (exists k, 0 <= k /\ k + len <= ALLOC_PAGES /\ fits B k len) ->
    alloc_pages type len addr s = Ret (len, page_addr a, s') ->
    mm_step (s, B) (s', <[a := len]> B)
| step_free s B fuel a n s' :
    B !! a = Some n -> n < Z.of_nat fuel ->
    free_pages fuel (page_addr a) s = Ret s' ->
    mm_step (s, B) (s', delete a B).

Lemma mm_step_ok p q : mm_step p q -> mm_ok p.1 p.2 -> mm_ok q.1 q.2.
Proof.
  intros [s B type len addr a s' Hl Hroom E|s B fuel a n s' HB Hf E] Hs; cbn [fst snd] in *.
  - destruct (alloc_pages_inv _ _ _ _ _ _ _ Hs Hl Hroom E) as (a' & fs & Ea & HA).
    assert (a = a') as -> by (unfold page_addr in Ea; lia).
    refine (allocated_ok _ _ _ _ _ _ _ Hs _ HA). lia.
  - destruct (free_pages_result fuel s B a n Hs HB Hf) as (s2 & E2 & HF).
    unfold page_addr in E. rewrite E in E2. injection E2 as ->. by apply (freed_ok s B a n).
Qed.

(** C6: however allocations and frees follow one another from the booted state, no two pages
    held by clients ever translate to the same frame, and every such frame is one the
    bitmap marks in use. *)
Theorem reachable_pages_isolated (s : mm) (B : blocks) :
  rtc mm_step (boot_mm, ∅) (s, B) ->
  forall i j, in_block B i -> in_block B j ->
    (get_phy_addr s (page_addr i) = get_phy_addr s (page_addr j) -> i = j) /\
    frame_busy (ram s) (get_phy_addr s (page_addr i) / 0x1000) = true.
Proof.
  intros Hr.
  assert (mm_ok s B) as Hs.
  { apply (rtc_ind_r (fun p => mm_ok p.1 p.2) (boot_mm, ∅)) in Hr; [exact Hr|exact boot_mm_ok|].
    intros p q _ Hpq Hp. by apply (mm_step_ok p q). }
  intros i j Hi Hj. split; [by apply (pages_apart s B)|].
  destruct (page_phy _ _ _ Hs Hi) as [_ ->]. rewrite Z.div_mul by lia.
  by destruct (ok_live _ _ Hs i Hi) as (_ & _ & ?).
Qed.

Example reachable_pages_isolated_witness :
  exists s, rtc mm_step (boot_mm, ∅) (s, <[0 := 2]> ∅) /\
    (get_phy_addr s (page_addr 0) = get_phy_addr s (page_addr 1) -> 0 = 1).
Proof.
  assert (exists fs m, alloc_frames 2 ∅ = Some (fs, m)) as (fs & m & E)
    by (eexists _, _; vm_compute; reflexivity).
  apply boot_frames in E as [r E].
  assert (exists k, 0 <= k /\ k + 2 <= ALLOC_PAGES /\ fits ∅ k 2) as Hroom
    by (exists 0; split; [lia|]; split; [unfold ALLOC_PAGES; lia|apply fits_empty]).
  destruct (alloc_pages_result 1 2 0 boot_mm ∅ fs r boot_mm_ok ltac:(lia) Hroom E)
    as (a & s1 & E1 & HA).
  assert (a = 0) as ->.
  { destruct (al_block _ _ _ _ _ _ _ HA) as (Ha0 & _ & _ & Hlow).
    destruct (Z.eq_dec a 0) as [|Hne]; [done|]. exfalso.
    apply (Hlow 0 ltac:(lia)), fits_empty. }
  assert (rtc mm_step (boot_mm, ∅) (s1, <[0 := 2]> ∅)) as Hr.
  { apply rtc_once. apply (step_alloc boot_mm ∅ 1 2 0 0 s1); [lia|exact Hroom|exact E1]. }
  exists s1. split; [exact Hr|].
  apply (reachable_pages_isolated s1 _ Hr 0 1); exists 0, 2; (split; [reflexivity|lia]).
Defined.
