(* ===== verification/Heap.v ===== *)
(** * Heap: [malloc] and [free] of the kernel (kernel/lib/stdlib.c) on the page allocator

    The kernel's heap hands out whole pages.  [mm_allocator] makes the memory manager an
    [Allocator], and [mm_allocator_laws] discharges the interface's laws from the page
    allocator's contract. *)
From S2P Require Import Prelude KString Bytes Frames Pages Paging.

(** A size of 0 returns the uninitialised local [addr]. *)
Definition kmalloc (size : Z) (s : mm) : outcome (Z * mm) :=
  let len := s32 (size / 0x1000) in
  let len := if size mod 0x1000 =? 0 then len else len + 1 in
  '(r, addr, s) ← alloc_pages 1 len 0 s;
  if r =? 0 then Undef else Ret (addr, s).

(** A block of [n] pages ends [get_busy_page_size] after at most [n + 1] bytes of bitmap. *)
Definition FREE_FUEL : nat := S (Z.to_nat ALLOC_PAGES).

Definition kfree (ptr : Z) (s : mm) : outcome mm := free_pages FREE_FUEL ptr s.

(** [alloc_pages] with the address in a local that starts at 0. *)
Definition kpalloc (type len : Z) (s : mm) : outcome (Z * mm) :=
  '(_, addr, s) ← alloc_pages type len 0 s;
  Ret (addr, s).

#[export] Instance mm_allocator : Allocator mm :=
  { malloc := kmalloc; palloc := kpalloc; free := kfree }.

(** The blocks as the client sees them: addresses and lengths in bytes. *)
Definition heap_blocks (B : blocks) : gmap Z Z := kmap page_addr ((fun n => n * 0x1000) <$> B).

#[export] Instance page_addr_inj : Inj (=) (=) page_addr.
Proof. intros i j. unfold page_addr. lia. Qed.

Lemma heap_blocks_Some B p k :
  heap_blocks B !! p = Some k <-> exists a n, p = page_addr a /\ k = n * 0x1000 /\ B !! a = Some n.
Proof.
  unfold heap_blocks. rewrite lookup_kmap_Some by apply _. split.
  - intros (a & -> & Ha). rewrite lookup_fmap in Ha.
    destruct (B !! a) as [n|] eqn:E; [|done]. injection Ha as <-. by exists a, n.
  - intros (a & n & -> & -> & Ha). exists a. rewrite lookup_fmap, Ha. done.
Qed.

(** [n] bytes can be served: a run of pages and as many frames are free. *)
Definition mm_room (s : mm) (n : Z) : Prop :=
  let len := (n + 0xFFF) / 0x1000 in
  (forall B, mm_ok s B -> exists k, 0 <= k /\ k + len <= ALLOC_PAGES /\ fits B k len) /\
  exists fs r, alloc_frames (Z.to_nat len) (ram s) = Some (fs, r).

Lemma mm_room_intro s B n :
  mm_ok s B ->
  (exists k, 0 <= k /\ k + (n + 0xFFF) / 0x1000 <= ALLOC_PAGES /\ fits B k ((n + 0xFFF) / 0x1000)) ->
  is_Some (alloc_frames (Z.to_nat ((n + 0xFFF) / 0x1000)) (ram s)) -> mm_room s n.
Proof.
  intros Hs Hk [[fs r] E]. split; [|by exists fs, r]. intros B' Hs'.
  by rewrite (page_rep_unique (ram s) B' B (ok_rep _ _ Hs') (ok_rep _ _ Hs)).
Qed.

Lemma kmalloc_eq size s :
  0 < size < 2 ^ 31 ->
  kmalloc size s =
  ('(r, addr, s) ← alloc_pages 1 ((size + 0xFFF) / 0x1000) 0 s;
   if r =? 0 then Undef else Ret (addr, s)).
Proof.
  intros Hs. unfold kmalloc. rewrite s32_small by word_lia.
  replace (if size mod 0x1000 =? 0 then size / 0x1000 else size / 0x1000 + 1)
    with ((size + 0xFFF) / 0x1000); [done|].
  destruct (Z.eqb_spec (size mod 0x1000) 0); word_lia.
Qed.

Lemma mm_alloc_spec s B type n :
  mm_ok s B -> 0 < n <= 2 ^ 31 -> mm_room s n ->
  let len := (n + 0xFFF) / 0x1000 in
  exists p a s', alloc_pages type len 0 s = Ret (len, p, s') /\ 0 < p /\
    mm_ok s' (<[a := len]> B) /\
    heap_blocks (<[a := len]> B) = <[p := len * 0x1000]> (heap_blocks B) /\
    forall q j, heap_blocks B !! q = Some j -> q + j <= p \/ p + len * 0x1000 <= q.
Proof.
  intros Hs Hn [Hroom (fs & r & Hfr)] len. specialize (Hroom B Hs). fold len in Hroom, Hfr.
  assert (1 <= len < 2147483648) as Hl by (unfold len; word_lia).
  destruct (alloc_pages_result type len 0 s B fs r Hs Hl Hroom Hfr) as (a & s' & E & HA).
  destruct (al_block _ _ _ _ _ _ _ HA) as (Ha0 & _ & Hfit & _).
  exists (page_addr a), a, s'. split_and!; [exact E|unfold page_addr, ALLOC_PAGE_MEMORY; lia|..].
  - by apply (allocated_ok s B type len a fs); [|lia|].
  - unfold heap_blocks. by rewrite fmap_insert, kmap_insert by apply _.
  - intros q j (b & m & -> & -> & Hb)%heap_blocks_Some. apply Hfit in Hb. unfold page_addr. lia.
Qed.

(** [free_pages] looks at the page of the address only. *)
Lemma free_pages_same fuel p q s :
  ALLOC_PAGE_MEMORY <= p < 2 ^ 63 -> ALLOC_PAGE_MEMORY <= q < 2 ^ 63 ->
  (p - ALLOC_PAGE_MEMORY) / 0x1000 = (q - ALLOC_PAGE_MEMORY) / 0x1000 ->
  free_pages fuel q s = free_pages fuel p s.
Proof.
  unfold ALLOC_PAGE_MEMORY. intros Hp Hq E. unfold free_pages, ALLOC_PAGE_MEMORY.
  rewrite (u64_small (q - _)), (u64_small (p - _)) by lia. rewrite E.
  destruct (Z.eqb_spec q 0); [lia|]. by destruct (Z.eqb_spec p 0); [lia|].
Qed.

#[export] Instance mm_allocator_laws : AllocatorLaws mm.
Proof.
  refine {| heap_ok := fun s H => exists B, mm_ok s B /\ H = heap_blocks B;
            heap_room := mm_room |}.
  - intros s H n (B & Hs & ->) Hn Hroom. cbn [malloc mm_allocator].
    destruct (mm_alloc_spec s B 1 n Hs ltac:(lia) Hroom) as (p & a & s' & E & Hp & Hs' & Hk & Hd).
    exists p, ((n + 0xFFF) / 0x1000 * 0x1000), s'. rewrite kmalloc_eq by done. rewrite E.
    cbn [mbind outcome_bind]. destruct (Z.eqb_spec ((n + 0xFFF) / 0x1000) 0); [word_lia|].
    split_and!; [done|word_lia|done|by eexists|done].
  - intros s H type n (B & Hs & ->) Hn Hroom. cbn [palloc mm_allocator]. unfold kpalloc.
    destruct (mm_alloc_spec s B type (n * 0x1000) Hs ltac:(lia) Hroom)
      as (p & a & s' & E & Hp & Hs' & Hk & Hd).
    replace ((n * 0x1000 + 0xFFF) / 0x1000) with n in * by word_lia.
    exists p, (n * 0x1000), s'. rewrite E. cbn [mbind outcome_bind].
    split_and!; [done|lia|done|by eexists|done].
  - intros s H p k (B & Hs & ->) (a & n & -> & -> & Ha)%heap_blocks_Some.
    pose proof (ok_bound _ _ Hs _ _ Ha) as Hbound.
    destruct (proj1 (proj1 (ok_rep _ _ Hs)) _ _ Ha) as [Ha0 Hn].
    assert (n < Z.of_nat FREE_FUEL) as Hf by (unfold FREE_FUEL; lia).
    destruct (free_pages_result FREE_FUEL s B a n Hs Ha Hf) as (s' & E & HF).
    exists s'. split; [exact E|]. exists (delete a B). split; [by apply (freed_ok s B a n)|].
    unfold heap_blocks. by rewrite fmap_delete, kmap_delete by apply _.
  - intros s H p k q (B & Hs & ->) (a & n & -> & -> & Ha)%heap_blocks_Some Hq Hqk.
    pose proof (ok_bound _ _ Hs _ _ Ha) as Hbound. unfold ALLOC_PAGES in Hbound.
    destruct (proj1 (proj1 (ok_rep _ _ Hs)) _ _ Ha) as [Ha0 Hn].
    unfold page_addr, ALLOC_PAGE_MEMORY in Hq |- *. apply free_pages_same; unfold ALLOC_PAGE_MEMORY; word_lia.
  - intros s H p k (B & Hs & ->) (a & n & -> & -> & Ha)%heap_blocks_Some.
    destruct (proj1 (proj1 (ok_rep _ _ Hs)) _ _ Ha) as [Ha0 Hn].
    unfold page_addr, ALLOC_PAGE_MEMORY. lia.
Defined.
#[global] Opaque FREE_FUEL.
