(* ===== verification/Ledger.v ===== *)
(** * Ledger: the blocks and frames a part of the kernel takes and gives back

    [took l fs s B s' B']: between two states of the memory manager the blocks that start at the pages
    [l] and the frames [fs] were taken; [gave l fs s B s' B']: they were given back.  Both compose, and a part
    that gives back what it took leaves the blocks and the frames as they were ([took_gave]). *)
From S2P Require Import Prelude KString Bytes Frames Pages Paging Heap.

Definition without (l : list Z) (B : blocks) : blocks := foldr delete B l.

(** The frame [k] is under one of the blocks [l]. *)
Definition block_frame (s : mm) (B : blocks) (l : list Z) (k : Z) : Prop :=
  exists a n j, a ∈ l /\ B !! a = Some n /\ a <= j < a + n /\ page_frame s j = k.

Record took (l fs : list Z) (s : mm) (B : blocks) (s' : mm) (B' : blocks) : Prop := {
  tk_ok : mm_ok s' B';
  tk_nodup : NoDup l;
  tk_new : forall a, a ∈ l -> B !! a = None /\ is_Some (B' !! a);
  tk_without : without l B' = B;
  tk_frame : forall j, in_block B j -> page_frame s' j = page_frame s j;
  tk_busy : forall k, 0 <= k < 1048576 -> frame_busy (ram s') k = true <->
    frame_busy (ram s) k = true \/ block_frame s' B' l k \/ k * 0x1000 ∈ fs;
  tk_free : forall k, 0 <= k < 1048576 -> block_frame s' B' l k \/ k * 0x1000 ∈ fs -> frame_busy (ram s) k = false;
  tk_apart : forall k, 0 <= k < 1048576 -> k * 0x1000 ∈ fs -> ~ block_frame s' B' l k
}.

Record gave (l fs : list Z) (s : mm) (B : blocks) (s' : mm) (B' : blocks) : Prop := {
  gv_ok : mm_ok s' B';
  gv_without : B' = without l B;
  gv_frame : forall j, in_block B' j -> page_frame s' j = page_frame s j;
  gv_busy : forall k, 0 <= k < 1048576 -> frame_busy (ram s') k = true <->
    frame_busy (ram s) k = true /\ ~ block_frame s B l k /\ k * 0x1000 ∉ fs;
  gv_tab : forall b, 0x8000000 <= b -> (tab s')⟦b⟧ = (tab s)⟦b⟧
}.

Section ledger.
Implicit Types (s : mm) (B : blocks) (a j k n : Z) (l fs : list Z).

Lemma lookup_without l B a : without l B !! a = if bool_decide (a ∈ l) then None else B !! a.
Proof.
induction l as [|b l IH]; cbn [without foldr].
- by rewrite bool_decide_eq_false_2 by apply not_elem_of_nil.
- destruct (decide (a = b)) as [->|Hne].
  + rewrite lookup_delete_eq. by rewrite bool_decide_eq_true_2 by left.
  + rewrite lookup_delete_ne by done. fold (without l B). rewrite IH.
    rewrite (bool_decide_ext (a ∈ b :: l) (a ∈ l)); [done|]. rewrite elem_of_cons. tauto.
Qed.

Lemma without_Some l B a n : without l B !! a = Some n <-> (a ∉ l) /\ B !! a = Some n.
Proof.
rewrite lookup_without. case_bool_decide; (split; [done || tauto|intros [? ?]; done]).
Qed.

Lemma without_app l1 l2 B : without (l1 ++ l2) B = without l1 (without l2 B).
Proof. unfold without. by rewrite foldr_app. Qed.

Lemma without_perm l l' B : l ≡ₚ l' -> without l B = without l' B.
Proof.
intros Hp. apply map_eq. intros a. rewrite !lookup_without.
by rewrite (bool_decide_ext (a ∈ l) (a ∈ l')) by (by rewrite Hp).
Qed.

Lemma block_frame_app s B l1 l2 k : block_frame s B (l1 ++ l2) k <-> block_frame s B l1 k \/ block_frame s B l2 k.
Proof.
unfold block_frame. setoid_rewrite elem_of_app. split.
- intros (a & n & j & [Ha|Ha] & H); [left|right]; by exists a, n, j.
- intros [(a & n & j & Ha & H)|(a & n & j & Ha & H)]; exists a, n, j; tauto.
Qed.

Lemma block_frame_perm s B l l' k : l ≡ₚ l' -> block_frame s B l k <-> block_frame s B l' k.
Proof. intros Hp. unfold block_frame. by setoid_rewrite Hp. Qed.

Lemma block_frame_mono s B s' B' l k :
(forall a n, a ∈ l -> B !! a = Some n -> B' !! a = Some n) ->
(forall j, in_block B j -> page_frame s' j = page_frame s j) -> block_frame s B l k -> block_frame s' B' l k.
Proof.
intros HB Hf (a & n & j & Ha & HBa & Hj & E). exists a, n, j. do 3 (split; [auto|]). rewrite Hf; [done|].
by exists a, n.
Qed.

Lemma tk_sub l fs s B s' B' a n : took l fs s B s' B' -> B !! a = Some n -> B' !! a = Some n.
Proof. intros T Ha. rewrite <- (tk_without _ _ _ _ _ _ T) in Ha. by apply without_Some in Ha as [_ ?]. Qed.

Lemma tk_in_block l fs s B s' B' j : took l fs s B s' B' -> in_block B j -> in_block B' j.
Proof. intros T (a & n & Ha & Hj). exists a, n. split; [by eapply tk_sub|done]. Qed.

Lemma took_trans l1 fs1 l2 fs2 s B s1 B1 s2 B2 :
took l1 fs1 s B s1 B1 -> took l2 fs2 s1 B1 s2 B2 -> took (l1 ++ l2) (fs1 ++ fs2) s B s2 B2.
Proof.
intros T U.
assert (forall k, block_frame s1 B1 l1 k <-> block_frame s2 B2 l1 k) as Hbf.
{ intros k. split.
  - apply block_frame_mono; [intros a n _; by apply (tk_sub _ _ _ _ _ _ a n U)|]. apply U.
  - intros (a & n & j & Ha & HBa & Hj & E). destruct (tk_new _ _ _ _ _ _ T a Ha) as [_ [n' Hn']].
    assert (n' = n) as -> by (pose proof (tk_sub _ _ _ _ _ _ a n' U Hn'); congruence).
    exists a, n, j. do 3 (split; [done|]). rewrite <- E. symmetry. apply (tk_frame _ _ _ _ _ _ U). by exists a, n. }
constructor.
- apply U.
- apply NoDup_app. split; [apply T|]. split; [|apply U]. intros a Ha Ha2.
  destruct (tk_new _ _ _ _ _ _ T a Ha) as [_ [n Hn]]. destruct (tk_new _ _ _ _ _ _ U a Ha2) as [? _]. congruence.
- intros a [Ha|Ha]%elem_of_app.
  + destruct (tk_new _ _ _ _ _ _ T a Ha) as [H1 [n Hn]]. split; [done|]. exists n. by eapply tk_sub.
  + destruct (tk_new _ _ _ _ _ _ U a Ha) as [H1 H2]. split; [|done]. destruct (B !! a) as [n|] eqn:E; [|done].
    apply (tk_sub _ _ _ _ _ _ a n T) in E. congruence.
- rewrite without_app, (tk_without _ _ _ _ _ _ U). apply T.
- intros j Hj. rewrite (tk_frame _ _ _ _ _ _ U) by (by eapply tk_in_block).
  by apply (tk_frame _ _ _ _ _ _ T).
- intros k Hk. rewrite (tk_busy _ _ _ _ _ _ U), (tk_busy _ _ _ _ _ _ T) by done.
  rewrite block_frame_app, elem_of_app, Hbf. tauto.
- intros k Hk. rewrite block_frame_app, elem_of_app, <- Hbf. intros HK.
  assert (block_frame s1 B1 l1 k \/ k * 0x1000 ∈ fs1 \/ block_frame s2 B2 l2 k \/ k * 0x1000 ∈ fs2) as [H1|[H1|H2]]
    by tauto.
  + apply (tk_free _ _ _ _ _ _ T); tauto.
  + apply (tk_free _ _ _ _ _ _ T); tauto.
  + pose proof (tk_free _ _ _ _ _ _ U k Hk H2) as Hf. apply not_true_is_false. intros Hb.
    rewrite (proj2 (tk_busy _ _ _ _ _ _ T k Hk) (or_introl Hb)) in Hf. done.
- intros k Hk. rewrite elem_of_app, block_frame_app, <- Hbf. intros Hin Hbl.
  pose proof (proj2 (tk_busy _ _ _ _ _ _ T k Hk)) as Hbz. pose proof (tk_free _ _ _ _ _ _ U k Hk) as Hfr.
  pose proof (tk_apart _ _ _ _ _ _ T k Hk) as A1. pose proof (tk_apart _ _ _ _ _ _ U k Hk) as A2.
  destruct Hin as [Hin|Hin], Hbl as [Hb|Hb]; [by apply A1| | |by apply A2];
    (rewrite Hfr in Hbz by tauto; discriminate Hbz; tauto).
Qed.

Lemma gave_trans l1 fs1 l2 fs2 s B s1 B1 s2 B2 :
gave l1 fs1 s B s1 B1 -> gave l2 fs2 s1 B1 s2 B2 -> (forall a, a ∈ l1 -> a ∉ l2) ->
gave (l1 ++ l2) (fs1 ++ fs2) s B s2 B2.
Proof.
intros T U Hd. pose proof (gv_without _ _ _ _ _ _ T) as E1.
assert (forall k, block_frame s1 B1 l2 k <-> block_frame s B l2 k) as Hbf.
{ intros k. split; intros (a & n & j & Ha & HBa & Hj & E); exists a, n, j.
  - assert (B !! a = Some n) by (rewrite E1 in HBa; by apply without_Some in HBa as [_ ?]).
    do 3 (split; [done|]). rewrite <- E. symmetry. apply (gv_frame _ _ _ _ _ _ T). by exists a, n.
  - assert (B1 !! a = Some n) as HB1 by (rewrite E1; apply without_Some; split; [intros Hin; by apply (Hd a)|done]).
    do 3 (split; [done|]). rewrite (gv_frame _ _ _ _ _ _ T); [done|]. by exists a, n. }
constructor.
- apply U.
- rewrite (gv_without _ _ _ _ _ _ U), E1. apply map_eq. intros a. rewrite !lookup_without.
  rewrite (bool_decide_ext (a ∈ l1 ++ l2) (a ∈ l1 \/ a ∈ l2)) by apply elem_of_app.
  repeat case_bool_decide; done || tauto.
- intros j Hj. rewrite (gv_frame _ _ _ _ _ _ U) by done. apply (gv_frame _ _ _ _ _ _ T). destruct Hj as (a & n & Ha & Hj). exists a, n.
  split; [|done]. rewrite (gv_without _ _ _ _ _ _ U) in Ha. by apply without_Some in Ha as [_ ?].
- intros k Hk. rewrite (gv_busy _ _ _ _ _ _ U), (gv_busy _ _ _ _ _ _ T) by done.
  rewrite block_frame_app, elem_of_app, Hbf. tauto.
- intros b Hb. by rewrite (gv_tab _ _ _ _ _ _ U), (gv_tab _ _ _ _ _ _ T).
Qed.

Lemma gave_perm l l' fs s B s' B' : l ≡ₚ l' -> gave l fs s B s' B' -> gave l' fs s B s' (without l' B).
Proof.
intros Hp [W1 W2 W3 W4 W5]. rewrite <- (without_perm l l' B Hp), <- W2. constructor; [done|by rewrite W2; apply without_perm|done| |done].
intros k Hk. rewrite W4 by done. by rewrite (block_frame_perm s B l l' k Hp).
Qed.

Lemma took_perm l l' fs s B s' B' : l ≡ₚ l' -> took l fs s B s' B' -> took l' fs s B s' B'.
Proof.
intros Hp [T1 T2 T3 T4 T5 T6 T7 T8].
assert (forall k, block_frame s' B' l k <-> block_frame s' B' l' k) as Hbf by (intros k; by apply block_frame_perm).
constructor; [done|by rewrite <- Hp| |by rewrite <- (without_perm l l' B' Hp)|done|..].
- intros a. rewrite <- Hp. apply T3.
- intros k Hk. rewrite <- Hbf. by apply T6.
- intros k Hk. rewrite <- Hbf. by apply T7.
- intros k Hk. rewrite <- Hbf. by apply T8.
Qed.

(** Two blocks share no frame. *)
Lemma block_frame_unique s B a b k : mm_ok s B -> block_frame s B [a] k -> block_frame s B [b] k -> a = b.
Proof.
intros Hs (x & n & i & ->%list_elem_of_singleton & Ha & Hi & Ei) (y & m & j & ->%list_elem_of_singleton & Hb & Hj & Ej).
assert (i = j) as -> by (apply (ok_inj _ _ Hs); [by exists a, n|by exists b, m|congruence]).
by destruct (block_unique B a n b m j (proj1 (ok_rep _ _ Hs)) Ha Hb Hi Hj).
Qed.

Lemma block_frame_in s B l k : block_frame s B l k <-> exists a, a ∈ l /\ block_frame s B [a] k.
Proof.
split.
- intros (a & n & j & Ha & H). exists a. split; [done|]. exists a, n, j. split; [left|done].
- intros (a & Ha & (b & n & j & ->%list_elem_of_singleton & H)). by exists a, n, j.
Qed.

(** One of the blocks that were taken goes back. *)
Lemma took_less l l' fs a s B s1 B1 s2 B2 :
took l fs s B s1 B1 -> gave [a] [] s1 B1 s2 B2 -> l ≡ₚ a :: l' -> took l' fs s B s2 B2.
Proof.
intros T G Hl. pose proof (gv_without _ _ _ _ _ _ G) as E2. pose proof (tk_nodup _ _ _ _ _ _ T) as Hnd.
rewrite Hl in Hnd. apply NoDup_cons in Hnd as [Hal Hnd].
assert (forall b, b ∈ l' -> b ∈ l) as Hsub by (intros b Hb; rewrite Hl; by right).
assert (B !! a = None) as HBa by (apply (tk_new _ _ _ _ _ _ T); rewrite Hl; left).
assert (forall b n, B2 !! b = Some n <-> b <> a /\ B1 !! b = Some n) as HB2.
{ intros b n. by rewrite E2, without_Some, list_elem_of_singleton. }
assert (forall j, in_block B j -> in_block B2 j) as Hin.
{ intros j (b & n & Hb & Hj). exists b, n. split; [|done]. apply HB2. split; [congruence|by apply (tk_sub _ _ _ _ _ _ b n T)]. }
assert (forall k, block_frame s2 B2 l' k <-> block_frame s1 B1 l' k) as Hbf.
{ intros k. split; intros (b & n & j & Hb & HBb & Hj & E); exists b, n, j; (split; [done|]).
  - split; [by apply HB2|]. split; [done|]. rewrite <- E. symmetry. apply (gv_frame _ _ _ _ _ _ G). by exists b, n.
  - assert (B2 !! b = Some n) as HBb2 by (apply HB2; split; [congruence|done]). split; [done|]. split; [done|].
    rewrite <- E. apply (gv_frame _ _ _ _ _ _ G). by exists b, n. }
assert (forall k, block_frame s1 B1 l k <-> block_frame s1 B1 [a] k \/ block_frame s1 B1 l' k) as Hbl.
{ intros k. rewrite (block_frame_perm _ _ _ _ k Hl). exact (block_frame_app s1 B1 [a] l' k). }
assert (mm_ok s1 B1) as Hs1 by apply T.
constructor.
- apply G.
- done.
- intros b Hb. destruct (tk_new _ _ _ _ _ _ T b (Hsub b Hb)) as [? [n Hn]]. split; [done|]. exists n. apply HB2.
  split; [congruence|done].
- rewrite E2, <- without_app, <- (tk_without _ _ _ _ _ _ T). apply without_perm. rewrite Hl.
  by rewrite (Permutation_app_comm l' [a]).
- intros j Hj. rewrite (gv_frame _ _ _ _ _ _ G) by auto. by apply (tk_frame _ _ _ _ _ _ T).
- intros k Hk. rewrite (gv_busy _ _ _ _ _ _ G), (tk_busy _ _ _ _ _ _ T), Hbf, Hbl by done.
  pose proof (tk_free _ _ _ _ _ _ T k Hk) as Hfree. rewrite Hbl in Hfree.
  pose proof (tk_apart _ _ _ _ _ _ T k Hk) as Hap. rewrite Hbl in Hap. rewrite elem_of_nil. split; [tauto|].
  intros Hb. split; [tauto|]. split; [|tauto]. intros Ha. destruct Hb as [Hb|[Hb|Hb]].
  + rewrite Hfree in Hb by tauto. done.
  + apply block_frame_in in Hb as (b & Hb & Hbk). by rewrite (block_frame_unique s1 B1 a b k Hs1 Ha Hbk) in Hal.
  + tauto.
- intros k Hk. rewrite Hbf. intros Hb. apply (tk_free _ _ _ _ _ _ T k Hk). rewrite Hbl. tauto.
- intros k Hk Hin2. rewrite Hbf. intros Hb. apply (tk_apart _ _ _ _ _ _ T k Hk Hin2). rewrite Hbl. by right.
Qed.

(** Everything that was taken is given back. *)
Lemma took_gave l fs l' fs' s B s1 B1 s2 B2 :
took l fs s B s1 B1 -> gave l' fs' s1 B1 s2 B2 -> l ≡ₚ l' -> fs ≡ₚ fs' ->
B2 = B /\ forall k, 0 <= k < 1048576 -> frame_busy (ram s2) k = frame_busy (ram s) k.
Proof.
intros T G Hl Hfs. split.
- rewrite (gv_without _ _ _ _ _ _ G), <- (without_perm l l' B1 Hl). apply T.
- intros k Hk. apply eq_true_iff_eq. rewrite (gv_busy _ _ _ _ _ _ G), (tk_busy _ _ _ _ _ _ T) by done.
  rewrite <- (block_frame_perm s1 B1 l l' k Hl), <- Hfs. split; [tauto|]. intros Hb. split; [by left|].
  split; intros Hn; (rewrite (tk_free _ _ _ _ _ _ T k Hk) in Hb; [done|tauto]).
Qed.

(** ** One block *)

Lemma allocated_took s B type len a fs s' :
mm_ok s B -> 1 <= len -> allocated s B type len a fs s' -> took [a] [] s B s' (<[a := len]> B).
Proof.
intros Hs Hl HA. destruct (al_block _ _ _ _ _ _ _ HA) as (Ha & Hab & Hfit & _).
pose proof (proj1 (ok_rep _ _ Hs)) as Hok. pose proof (fits_None B a len Hok Hl Hfit) as HN.
assert (forall k, block_frame s' (<[a := len]> B) [a] k <-> exists j, a <= j < a + len /\ page_frame s' j = k) as Hbf.
{ intros k. split.
  - intros (b & n & j & ->%list_elem_of_singleton & Hb & Hj & E). rewrite lookup_insert_eq in Hb.
    injection Hb as <-. by exists j.
  - intros (j & Hj & E). exists a, len, j. split; [left|]. by rewrite lookup_insert_eq. }
assert (forall k, 0 <= k < 1048576 -> k * 0x1000 ∈ fs <-> exists j, a <= j < a + len /\ page_frame s' j = k) as Hfs.
{ intros k Hk. destruct (al_frames _ _ _ _ _ _ _ HA) as (Hlen & _ & _). split.
  - intros [i Hi]%list_elem_of_lookup. pose proof (lookup_lt_Some _ _ _ Hi).
    destruct (allocated_page _ _ _ _ _ _ _ (a + Z.of_nat i) HA ltac:(lia)) as (q & Hq & _ & _ & _ & E & _).
    replace (Z.to_nat (a + Z.of_nat i - a)) with i in Hq by lia. exists (a + Z.of_nat i). split; [lia|].
    rewrite E. rewrite Hi in Hq. injection Hq. lia.
  - intros (j & Hj & E). destruct (allocated_page _ _ _ _ _ _ _ j HA Hj) as (q & Hq & _ & _ & _ & Eq & _).
    assert (q = k) as -> by congruence. by apply list_elem_of_lookup_2 in Hq. }
constructor.
- by apply (allocated_ok s B type len a fs s').
- apply NoDup_singleton.
- intros b ->%list_elem_of_singleton. rewrite lookup_insert_eq. by split.
- cbn [without foldr]. by apply delete_insert_id.
- intros j Hj. unfold page_frame. rewrite (allocated_old _ _ _ _ _ _ _ _ HA); [done|].
  intros Hj'. by apply (fits_not_in B a len j).
- intros k Hk. rewrite (al_busy _ _ _ _ _ _ _ HA), orb_true_iff, bool_decide_eq_true by done.
  rewrite Hfs, Hbf by done. rewrite elem_of_nil. tauto.
- intros k Hk [Hb|Hn%not_elem_of_nil]; [|done]. apply Hbf in Hb as (j & Hj & E).
  destruct (allocated_page _ _ _ _ _ _ _ j HA Hj) as (q & _ & _ & Hq & _ & Eq & _).
  assert (q = k) as -> by congruence. done.
- by intros k _ Hn%not_elem_of_nil.
Qed.

(** One of the blocks goes back. *)
Lemma kfree_block s B a n :
mm_ok s B -> B !! a = Some n ->
exists s', kfree (page_addr a) s = Ret s' /\ mm_ok s' (delete a B) /\
  (forall j, in_block (delete a B) j -> page_frame s' j = page_frame s j) /\
  (forall k, 0 <= k < 1048576 -> frame_busy (ram s') k = true <->
     frame_busy (ram s) k = true /\ forall j, a <= j < a + n -> page_frame s j <> k) /\
  forall b, 0x8000000 <= b -> (tab s')⟦b⟧ = (tab s)⟦b⟧.
Proof.
intros Hs HB. pose proof (ok_bound _ _ Hs _ _ HB) as Hbound.
pose proof (proj1 (ok_rep _ _ Hs)) as Hok. destruct (proj1 Hok _ _ HB) as [Ha Hn].
destruct (free_pages_result FREE_FUEL s B a n Hs HB) as (s' & E & HF).
{ with_strategy transparent [FREE_FUEL] unfold FREE_FUEL. lia. }
exists s'. split; [exact E|]. split; [by apply (freed_ok s B a n)|]. split; [|split; [apply HF|]].
2:{ intros b Hb. apply (fr_other _ _ _ _ _ HF). unfold alloc_pte, ALLOC_PAGES in *. lia. }
intros j Hj. apply (in_block_delete B a n) in Hj as [_ Hj]; [|done..]. unfold page_frame, page_entry.
f_equal. apply (fr_other _ _ _ _ _ HF). lia.
Qed.
Lemma kfree_gave s B a : mm_ok s B -> is_Some (B !! a) ->
exists s', kfree (page_addr a) s = Ret s' /\ gave [a] [] s B s' (delete a B).
Proof.
intros Hs [n HB]. destruct (kfree_block s B a n Hs HB) as (s' & E & Hs' & Hf & Hb & Ht). exists s'. split; [done|].
constructor; try done. intros k Hk. rewrite Hb by done. apply and_iff_compat_l. split.
- intros Hn. split; [|apply not_elem_of_nil]. intros (b & m & j & ->%list_elem_of_singleton & Hbm & Hj & Ek).
  apply (Hn j); [|done]. congruence.
- intros [Hn _] j Hj Ek. apply Hn. exists a, n, j. split; [left|done].
Qed.

(** [free] of several addresses in turn. *)
Fixpoint frees {A} `{Allocator A} (l : list Z) (h : A) : outcome A :=
  match l with
  | [] => Ret h
  | p :: l => h ← free p h; frees l h
  end.

Lemma frees_app {A} `{Allocator A} (l1 l2 : list Z) (h : A) :
frees (l1 ++ l2) h = (h ← frees l1 h; frees l2 h).
Proof.
revert h. induction l1 as [|p l1 IH]; intros h; [done|]. cbn [app frees].
destruct (free p h); [|done..]. cbn [mbind outcome_bind]. apply IH.
Qed.

Lemma frees_gave l s B : mm_ok s B -> NoDup l -> (forall a, a ∈ l -> is_Some (B !! a)) ->
exists s', frees (page_addr <$> l) s = Ret s' /\ gave l [] s B s' (without l B).
Proof.
revert s B. induction l as [|a l IH]; intros s B Hs Hnd Hin.
- exists s. split; [done|]. constructor; try done. intros k Hk. split; [|tauto]. intros Hb. split; [done|].
  split; [by intros (a & n & j & Ha%not_elem_of_nil & _)|apply not_elem_of_nil].
- apply NoDup_cons in Hnd as [Hal Hnd].
  destruct (kfree_gave s B a Hs) as (s1 & E1 & G1); [apply Hin; left|].
  destruct (IH s1 (delete a B) (gv_ok _ _ _ _ _ _ G1) Hnd) as (s2 & E2 & G2).
  { intros b Hb. rewrite lookup_delete_ne by (intros ->; done). apply Hin. by right. }
  exists s2. cbn [fmap list_fmap frees free mm_allocator]. rewrite E1. cbn [mbind outcome_bind]. split; [done|].
  assert (without (a :: l) B = without l (delete a B)) as ->.
  { change (a :: l) with ([a] ++ l). rewrite (without_perm ([a] ++ l) (l ++ [a])) by apply Permutation_app_comm.
    by rewrite without_app. }
  apply (gave_trans [a] [] l [] s B s1 (delete a B) s2 _ G1 G2). by intros b ->%list_elem_of_singleton.
Qed.
End ledger.
