(* ===== verification/KConvert.v ===== *)
(** * KConvert: number conversion and formatted output (kernel/lib/stdlib.c, vsprintf.c)

    [utoa_r], [itoa], [i2hex] and [utoa] write the text of a number into byte memory;
    [vsprintf] interprets a format over a list of argument words.  The loops stop by their
    data and run on fuel; 64 passes are more than a 64-bit number has digits in any radix
    used here. *)
From S2P Require Import Prelude KString.

(** ** The conversions *)

(** [do { *p++ = value % radix + '0'; value /= radix; } while (value);], the final [p]. *)
Fixpoint digit_loop (fuel : nat) (m : mem) (p value : Z) : mem * Z :=
  match fuel with
  | O => (m, p)
  | S fuel =>
      let m := m⟦p := u8 (s8 (Z.rem value 10) + 48)⟧ in
      let p := p + 1 in
      let value := Z.quot value 10 in
      if value =? 0 then (m, p) else digit_loop fuel m p value
  end.

(** [while (p > valuestring) { swap = *valuestring; *valuestring++ = *p; *p-- = swap; }] *)
Fixpoint swap_loop (fuel : nat) (m : mem) (p valuestring : Z) : mem :=
  match fuel with
  | O => m
  | S fuel =>
      if p >? valuestring then
        let swap := m⟦valuestring⟧ in
        let m := m⟦valuestring := m⟦p⟧⟧ in
        let m := m⟦p := swap⟧ in
        swap_loop fuel m (p - 1) (valuestring + 1)
      else m
  end.

Definition utoa_r (m : mem) (val str : Z) : mem :=
  let valuestring := str in
  let value := val in
  let p := valuestring in
  let '(m, p) := digit_loop 64 m p value in
  let m := m⟦p := 0⟧ in
  let p := p - 1 in
  swap_loop 64 m p valuestring.

Definition INT_MAX : Z := 2147483647.

Definition itoa (m : mem) (val str : Z) : mem :=
  let valuestring := str in
  let value := val in
  let min_flag := 0 in
  let '(m, valuestring, value, min_flag) :=
    if 0 >? value then
      let m := m⟦valuestring := 45⟧ in
      let valuestring := valuestring + 1 in
      if - INT_MAX >? value then (m, valuestring, INT_MAX, INT_MAX)
      else (m, valuestring, - value, min_flag)
    else (m, valuestring, value, min_flag) in
  let p := valuestring in
  let '(m, p) := digit_loop 64 m p value in
  let m := if negb (min_flag =? 0) then m⟦valuestring := u8 (m⟦valuestring⟧ + 1)⟧ else m in
  let m := m⟦p := 0⟧ in
  let p := p - 1 in
  swap_loop 64 m p valuestring.

(** [while (cp > dest) { x = n & 0xF; n >>= 4; *--cp = ...; }] from [cp = &dest[len]]. *)
Definition hex_char (x : Z) : Z := x + (if x >? 9 then 65 - 10 else 48).

Fixpoint hex_loop (k : nat) (m : mem) (dest n : Z) : mem :=
  match k with
  | O => m
  | S k =>
      let x := Z.land n 0xF in
      hex_loop k m⟦dest + Z.of_nat k := hex_char x⟧ dest (Z.shiftr n 4)
  end.

(** [for (i = 0; i < len; i++) if ( *cp == '0') cp++; else { strcpy(dest, cp); break; }] *)
Fixpoint strip_loop (k fuel : nat) (m : mem) (dest cp : Z) : outcome mem :=
  match k with
  | O => Ret m
  | S k => if m⟦cp⟧ =? 48 then strip_loop k fuel m dest (cp + 1) else strcpy fuel m dest cp
  end.

Definition i2hex (fuel : nat) (m : mem) (val dest len : Z) : outcome mem :=
  if val =? 0 then Ret m⟦dest := 48⟧⟦dest + 1 := 0⟧
  else
    let n := val in
    let m := hex_loop (Z.to_nat len) m dest n in
    let m := m⟦dest + len := 0⟧ in
    m ← strip_loop (Z.to_nat len) fuel m dest dest;
    n ← strlen fuel m dest;
    Ret (memset m (dest + n) 0 (len - n)).

Definition utoa (fuel : nat) (m : mem) (val dst radix : Z) : outcome mem :=
  let lu := val in
  if radix =? 16 then i2hex fuel m lu dst 16 else Ret (utoa_r m lu dst).

(** ** Formatted output

    [buffer] and [c_r] are the addresses of the locals [buffer] and [_c_r]; [pct] is the
    address of the literal "%%".  An argument list that runs out is undefined behaviour. *)
Fixpoint vsputs_r (fuel : nat) (m : mem) (dest src : Z) : outcome (mem * Z) :=
  match fuel with
  | O => NoFuel
  | S fuel =>
      if m⟦src⟧ =? 0 then Ret (m, dest)
      else vsputs_r fuel m⟦dest := m⟦src⟧⟧ (dest + 1) (src + 1)
  end.

Section vsprintf.
Context (buffer c_r pct : Z).

(** The directive after a '%': the new memory, output pointer and argument list. *)
Definition directive (fuel : nat) (m : mem) (str_tmp c : Z) (ap : list Z) :
  outcome (mem * Z * list Z) :=
if c =? 99 (* 'c' *) then
  match ap with
  | [] => Undef
  | a :: ap =>
      '(m, str_tmp) ← vsputs_r fuel m⟦c_r := u8 a⟧ str_tmp c_r; Ret (m, str_tmp, ap)
  end
else if c =? 115 (* 's' *) then
  match ap with
  | [] => Undef
  | s :: ap => '(m, str_tmp) ← vsputs_r fuel m str_tmp s; Ret (m, str_tmp, ap)
  end
else if (c =? 100) || (c =? 105) (* 'd', 'i' *) then
  match ap with
  | [] => Undef
  | d :: ap =>
      '(m, str_tmp) ← vsputs_r fuel (itoa m (s32 d) buffer) str_tmp buffer;
      Ret (m, str_tmp, ap)
  end
else if c =? 117 (* 'u': into an unsigned char *) then
  match ap with
  | [] => Undef
  | u :: ap =>
      '(m, str_tmp) ← vsputs_r fuel (itoa m (u8 u) buffer) str_tmp buffer;
      Ret (m, str_tmp, ap)
  end
else if (c =? 88) || (c =? 120) (* 'X', 'x' *) then
  match ap with
  | [] => Undef
  | lu :: ap =>
      m ← utoa fuel m (u64 lu) buffer 16;
      '(m, str_tmp) ← vsputs_r fuel m str_tmp buffer;
      Ret (m, str_tmp, ap)
  end
else '(m, str_tmp) ← vsputs_r fuel m str_tmp pct; Ret (m, str_tmp, ap).

Fixpoint vsprintf_loop (k fuel : nat) (m : mem) (fmt index str_tmp : Z) (ap : list Z) :
  outcome (mem * Z) :=
match k with
| O => NoFuel
| S k =>
    let c := m⟦fmt + index⟧ in
    if c =? 0 then Ret (m, str_tmp)
    else if c =? 37 (* '%' *) then
      let index := index + 1 in
      '(m, str_tmp, ap) ← directive fuel m str_tmp m⟦fmt + index⟧ ap;
      vsprintf_loop k fuel m fmt (index + 1) str_tmp ap
    else
      '(m, str_tmp) ← vsputs_r fuel m⟦c_r := c⟧ str_tmp c_r;
      vsprintf_loop k fuel m fmt (index + 1) str_tmp ap
end.

(** The result and the memory; nothing terminates the output. *)
Definition vsprintf (fuel : nat) (m : mem) (str fmt : Z) (ap : list Z) : outcome (Z * mem) :=
let m := m⟦c_r := 0⟧⟦c_r + 1 := 0⟧⟦c_r + 2 := 0⟧ in
'(m, str_tmp) ← vsprintf_loop fuel fuel m fmt 0 str ap;
Ret (str_tmp - str, m).
End vsprintf.

(** ** Digits *)

(** The decimal digits of [v], the least significant first. *)
Fixpoint digits (fuel : nat) (v : Z) : list Z :=
  match fuel with
  | O => []
  | S fuel => v mod 10 :: if v / 10 =? 0 then [] else digits fuel (v / 10)
  end.

Definition dec_chars (ds : list Z) : list Z := (fun d => d + 48) <$> reverse ds.

(** What a reader makes of a text: the value of a decimal numeral, with an optional sign. *)
Definition dec_val (l : list Z) : Z := foldl (fun acc c => acc * 10 + (c - 48)) 0 l.
Definition int_val (l : list Z) : Z :=
  match l with
  | 45 :: l => - dec_val l
  | _ => dec_val l
  end.

(** No superfluous zero in front. *)
Definition canonical (l : list Z) : Prop := hd 48 l <> 48 \/ l = [48].

Section digits.
Implicit Types (v d : Z) (ds : list Z).

Definition le_val ds : Z := foldr (fun d acc => d + 10 * acc) 0 ds.

Lemma digits_cons fuel v :
digits (S fuel) v = v mod 10 :: if v / 10 =? 0 then [] else digits fuel (v / 10).
Proof. reflexivity. Qed.

Lemma digits_spec fuel v :
0 <= v < 10 ^ Z.of_nat fuel -> (0 < fuel)%nat ->
le_val (digits fuel v) = v /\ Forall (fun d => 0 <= d < 10) (digits fuel v) /\
(0 < length (digits fuel v) <= fuel)%nat /\
(v <> 0 -> last (digits fuel v) <> Some 0).
Proof.
revert v. induction fuel as [|fuel IH]; intros v Hv Hf; [lia|].
rewrite digits_cons. replace (Z.of_nat (S fuel)) with (Z.of_nat fuel + 1) in Hv by lia.
rewrite Z.pow_add_r in Hv by lia.
destruct (Z.eqb_spec (v / 10) 0) as [E|Hne].
- split_and!; cbn; [word_lia|repeat constructor; word_lia|lia|lia|].
  intros Hv0 [= E0]. word_lia.
- destruct fuel as [|fuel]; [exfalso; simpl in Hv; word_lia|].
  destruct (IH (v / 10)) as (Hval & Hall & Hlen & Hlast); [word_lia|lia|].
  split_and!.
  + cbn [le_val foldr]. fold (le_val (digits (S fuel) (v / 10))). rewrite Hval. word_lia.
  + constructor; [word_lia|done].
  + cbn [length]. lia.
  + cbn [length]. lia.
  + intros _. rewrite digits_cons in Hlast |- *. cbn. by apply Hlast.
Qed.

Lemma dec_val_chars ds : dec_val (dec_chars ds) = le_val ds.
Proof.
unfold dec_chars, dec_val. induction ds as [|d ds IH]; [done|].
rewrite reverse_cons, fmap_app, foldl_app, IH.
change (le_val (d :: ds)) with (d + 10 * le_val ds). simpl. lia.
Qed.

Lemma dec_chars_chars ds : Forall (fun d => 0 <= d < 10) ds -> chars (dec_chars ds).
Proof.
intros Hd. unfold chars, dec_chars. apply Forall_fmap, Forall_reverse.
eapply Forall_impl; [exact Hd|]. intros d Hr. cbv [compose] in *. lia.
Qed.

Lemma dec_chars_canonical fuel v :
0 <= v < 10 ^ Z.of_nat fuel -> (0 < fuel)%nat -> canonical (dec_chars (digits fuel v)).
Proof.
intros Hv Hf. destruct (digits_spec fuel v Hv Hf) as (_ & _ & Hlen & Hlast).
destruct (decide (v = 0)) as [->|Hne].
{ right. destruct fuel; [lia|]. done. }
left. specialize (Hlast Hne). unfold dec_chars.
destruct (digits fuel v) as [|d ds _] using rev_ind; [cbn in Hlen; lia|].
rewrite last_snoc in Hlast. rewrite reverse_snoc. cbn. intros E. apply Hlast. f_equal. lia.
Qed.

Lemma length_dec_chars ds : length (dec_chars ds) = length ds.
Proof. unfold dec_chars. by rewrite length_fmap, length_reverse. Qed.

(** Memory that holds the characters one by one holds the text. *)
Lemma bytes_at_intro (m : mem) a l :
(forall (i : nat) c, l !! i = Some c -> m⟦a + Z.of_nat i⟧ = c) -> bytes_at m a l.
Proof.
revert a. induction l as [|c l IH]; intros a Hl; [done|]. split.
- rewrite <- (Hl O c) by done. f_equal. lia.
- apply IH. intros i c' Hc. rewrite <- (Hl (S i) c') by done. f_equal. lia.
Qed.

Lemma digit_loop_spec fuel m p v :
0 <= v < 10 ^ Z.of_nat fuel -> (0 < fuel)%nat ->
exists m', digit_loop fuel m p v = (m', p + zlen (digits fuel v)) /\
  (forall (i : nat) d, digits fuel v !! i = Some d -> m'⟦p + Z.of_nat i⟧ = d + 48) /\
  (forall a, ~ p <= a < p + zlen (digits fuel v) -> m'⟦a⟧ = m⟦a⟧).
Proof.
revert m p v. induction fuel as [|fuel IH]; intros m p v Hv Hf; [lia|].
rewrite digits_cons. cbn [digit_loop].
rewrite Z.rem_mod_nonneg, Z.quot_div_nonneg by lia.
replace (u8 (s8 (v mod 10) + 48)) with (v mod 10 + 48) by word_lia.
replace (Z.of_nat (S fuel)) with (Z.of_nat fuel + 1) in Hv by lia.
rewrite Z.pow_add_r in Hv by lia.
destruct (Z.eqb_spec (v / 10) 0) as [E|Hne].
- eexists. split; [reflexivity|]. split.
  + intros [|i] d Hd; [|done]. injection Hd as <-. by rewrite Z.add_0_r, rd_wr_eq.
  + intros a Ha. cbn in Ha. by rewrite rd_wr_ne by lia.
- destruct fuel as [|fuel]; [exfalso; simpl in Hv; word_lia|].
  destruct (IH m⟦p := v mod 10 + 48⟧ (p + 1) (v / 10)) as (m' & E & Hin & Hout);
    [word_lia|lia|].
  exists m'. split; [rewrite E; f_equal; cbn [length]; lia|]. split.
  + intros [|i] d Hd.
    * injection Hd as <-. rewrite Z.add_0_r, Hout, rd_wr_eq by lia. done.
    * replace (p + Z.of_nat (S i)) with (p + 1 + Z.of_nat i) by lia. by apply Hin.
  + intros a Ha. cbn [length] in Ha. rewrite Hout by lia. by rewrite rd_wr_ne by lia.
Qed.

Lemma swap_loop_spec fuel m hi lo a :
hi - lo < 2 * Z.of_nat fuel ->
(swap_loop fuel m hi lo)⟦a⟧ = if within a lo (hi - lo + 1) then m⟦lo + hi - a⟧ else m⟦a⟧.
Proof.
revert m hi lo. induction fuel as [|fuel IH]; intros m hi lo Hf.
- simpl. case_within; [lia|done].
- cbn [swap_loop]. destruct (Z.gtb_spec hi lo).
  + rewrite IH by lia. rewrite !rd_wr. case_within; lia || (f_equal; lia) || done.
  + case_within; [f_equal; lia|done].
Qed.

(** From the digits in memory to the text: terminate and reverse. *)
Lemma finish_number m v ds :
(0 < length ds <= 64)%nat -> Forall (fun d => 0 <= d < 10) ds ->
(forall (i : nat) d, ds !! i = Some d -> m⟦v + Z.of_nat i⟧ = d + 48) ->
let m' := swap_loop 64 m⟦v + zlen ds := 0⟧ (v + zlen ds - 1) v in
cstr m' v (dec_chars ds) /\
(forall a, ~ v <= a <= v + zlen ds -> m'⟦a⟧ = m⟦a⟧).
Proof.
intros Hl Hall Hm. cbv zeta. split.
- split; [by apply dec_chars_chars|]. split.
  + apply bytes_at_intro. intros i c Hc. unfold dec_chars in Hc.
    rewrite list_lookup_fmap in Hc. destruct (reverse ds !! i) as [d|] eqn:Hd; [|done].
    injection Hc as <-. pose proof (lookup_lt_Some _ _ _ Hd) as Hi.
    rewrite length_reverse in Hi. rewrite reverse_lookup in Hd by done.
    rewrite swap_loop_spec by lia. rewrite !rd_wr. case_within; try lia.
    rewrite <- (Hm _ _ Hd). f_equal. lia.
  + rewrite length_dec_chars, swap_loop_spec by lia. rewrite !rd_wr. case_within; lia.
- intros a Ha. rewrite swap_loop_spec by lia. rewrite !rd_wr. case_within; lia || done.
Qed.

Lemma pow64 v : 0 <= v < 2 ^ 64 -> 0 <= v < 10 ^ Z.of_nat 64.
Proof. assert (2 ^ 64 < 10 ^ Z.of_nat 64) by (vm_compute; reflexivity). lia. Qed.

Lemma utoa_r_text m val str :
0 <= val < 2 ^ 64 ->
let ds := digits 64 val in
cstr (utoa_r m val str) str (dec_chars ds) /\
(forall a, ~ str <= a <= str + zlen ds -> (utoa_r m val str)⟦a⟧ = m⟦a⟧).
Proof.
intros Hv ds. apply pow64 in Hv.
destruct (digits_spec 64 val Hv ltac:(lia)) as (_ & Hall & Hlen & _).
destruct (digit_loop_spec 64 m str val Hv ltac:(lia)) as (m' & E & Hin & Hout).
unfold utoa_r. rewrite E. fold ds in Hall, Hlen, Hin, Hout |- *.
destruct (finish_number m' str ds Hlen Hall Hin) as [Hs Ho].
split; [exact Hs|]. intros a Ha. rewrite Ho by lia. apply Hout. lia.
Qed.
End digits.

Section itoa.
Implicit Types (m : mem) (val str : Z).

(** The text of a number of any sign. *)
Definition int_text val : list Z :=
if val <? 0 then 45 :: dec_chars (digits 64 (- val)) else dec_chars (digits 64 val).

Lemma itoa_nonneg m val str :
0 <= val -> itoa m val str = utoa_r m val str.
Proof. intros Hv. unfold itoa, utoa_r. destruct (Z.gtb_spec 0 val); [lia|reflexivity]. Qed.

Lemma itoa_neg m val str :
- INT_MAX <= val < 0 -> itoa m val str = utoa_r m⟦str := 45⟧ (- val) (str + 1).
Proof.
intros Hv. unfold itoa, utoa_r. destruct (Z.gtb_spec 0 val); [|lia].
destruct (Z.gtb_spec (- INT_MAX) val); [lia|reflexivity].
Qed.

(** The least value has no opposite: the digits of [INT_MAX] are written and the first of
  them, the last of the text, is increased. *)
Lemma itoa_min m str :
let ds := digits 64 2147483648 in
cstr (itoa m (-2147483648) str) (str + 1) (dec_chars ds) /\
(itoa m (-2147483648) str)⟦str⟧ = 45 /\
(forall a, ~ str <= a <= str + 1 + zlen ds -> (itoa m (-2147483648) str)⟦a⟧ = m⟦a⟧).
Proof.
cbv zeta.
destruct (digit_loop_spec 64 m⟦str := 45⟧ (str + 1) INT_MAX) as (m' & E & Hin & Hout);
  [apply pow64; unfold INT_MAX; lia|lia|].
assert (itoa m (-2147483648) str =
  let m := m'⟦str + 1 := u8 (m'⟦str + 1⟧ + 1)⟧ in
  swap_loop 64 m⟦str + 1 + zlen (digits 64 2147483648) := 0⟧
    (str + 1 + zlen (digits 64 2147483648) - 1) (str + 1)) as ->.
{ unfold itoa. change (0 >? -2147483648) with true. cbv iota.
  change (- INT_MAX >? -2147483648) with true. cbv iota. rewrite E. reflexivity. }
set (m1 := m'⟦str + 1 := _⟧). set (ds := digits 64 2147483648).
assert (forall (i : nat) d, ds !! i = Some d -> m1⟦str + 1 + Z.of_nat i⟧ = d + 48) as Hm1.
{ intros i d Hd. unfold m1. rewrite rd_wr.
  destruct i as [|i].
  - rewrite Z.add_0_r, Z.eqb_refl. injection Hd as <-.
    pose proof (Hin O 7 eq_refl) as H0. rewrite Z.add_0_r in H0. rewrite H0. reflexivity.
  - destruct (Z.eqb_spec (str + 1 + Z.of_nat (S i)) (str + 1)); [lia|].
    rewrite (Hin (S i) d); [reflexivity|]. rewrite <- Hd. reflexivity. }
destruct (finish_number m1 (str + 1) ds) as [Hs Ho]; [unfold ds; simpl; lia| |done|].
{ unfold ds. vm_compute digits. repeat constructor; lia. }
split; [exact Hs|]. change (zlen ds) with 10 in *.
change (zlen (digits 64 INT_MAX)) with 10 in Hout. split.
- rewrite Ho by lia. unfold m1. rewrite rd_wr_ne, Hout, rd_wr_eq by lia. done.
- intros a Ha. rewrite Ho by lia. unfold m1. rewrite rd_wr_ne, Hout, rd_wr_ne by lia. done.
Qed.

Lemma itoa_text m val str :
-2147483648 <= val < 2147483648 ->
cstr (itoa m val str) str (int_text val) /\
(forall a, ~ str <= a <= str + zlen (int_text val) -> (itoa m val str)⟦a⟧ = m⟦a⟧).
Proof.
intros Hv. unfold int_text. destruct (Z.ltb_spec val 0) as [Hneg|Hpos].
- cbn [length]. rewrite length_dec_chars.
  destruct (decide (val = -2147483648)) as [->|Hne].
  + destruct (itoa_min m str) as (Hs & H45 & Ho). change (- -2147483648) with 2147483648.
    split; [apply cstr_cons; split; [lia|done]|]. intros a Ha. apply Ho. lia.
  + rewrite itoa_neg by (unfold INT_MAX; lia).
    destruct (utoa_r_text m⟦str := 45⟧ (- val) (str + 1)) as [Hs Ho]; [lia|]. split.
    * apply cstr_cons. split; [lia|]. split; [|done]. rewrite Ho, rd_wr_eq by lia. done.
    * intros a Ha. rewrite Ho, rd_wr_ne by lia. done.
- rewrite itoa_nonneg, length_dec_chars by lia. apply utoa_r_text. lia.
Qed.

Lemma int_text_val val : -2147483648 <= val < 2147483648 -> int_val (int_text val) = val.
Proof.
intros Hv. unfold int_text. destruct (Z.ltb_spec val 0) as [Hneg|Hpos].
- cbn [int_val]. rewrite dec_val_chars.
  destruct (digits_spec 64 (- val)) as [-> _]; [apply pow64; lia|lia|lia].
- assert (0 <= val < 10 ^ Z.of_nat 64) as Hp by (apply pow64; lia).
  destruct (digits_spec 64 val Hp ltac:(lia)) as (Hval & Hall & _).
  assert (int_val (dec_chars (digits 64 val)) = dec_val (dec_chars (digits 64 val))) as ->.
  { unfold int_val. destruct (dec_chars _) as [|c l] eqn:E; [done|].
    assert (48 <= c < 58) as Hc.
    { assert (c ∈ dec_chars (digits 64 val)) as Hin by (rewrite E; left).
      unfold dec_chars in Hin. apply list_elem_of_fmap in Hin as (d & -> & Hd).
      rewrite Forall_forall in Hall. specialize (Hall d). rewrite elem_of_reverse in Hd.
      specialize (Hall Hd). simpl in Hall. lia. }
    destruct c as [|c|c]; try lia. do 6 (destruct c as [c|c|]; try lia; try done). }
  rewrite dec_val_chars. exact Hval.
Qed.
End itoa.

(** ** Hexadecimal text *)

(** The [k] low hexadecimal digits, the most significant first. *)
Fixpoint hex_digits (k : nat) (v : Z) : list Z :=
  match k with
  | O => []
  | S k => hex_digits k (v / 16) ++ [v mod 16]
  end.

Fixpoint strip (l : list Z) : list Z :=
  match l with
  | 48 :: l => strip l
  | _ => l
  end.

(** The text of [v] in at most [k] hexadecimal digits. *)
Definition hex_text (k : nat) (v : Z) : list Z :=
  if v =? 0 then [48] else strip (hex_char <$> hex_digits k v).

Definition hex_digit_val (c : Z) : Z := if c <? 58 then c - 48 else c - 55.
Definition hex_val (l : list Z) : Z := foldl (fun acc c => acc * 16 + hex_digit_val c) 0 l.

Section hex.
Implicit Types (m : mem) (v a : Z) (l : list Z) (k : nat).

Lemma length_hex_digits k v : length (hex_digits k v) = k.
Proof.
revert v. induction k as [|k IH]; intros v; [done|]. cbn [hex_digits].
rewrite length_app, IH. simpl. lia.
Qed.

Lemma hex_digits_range k v : Forall (fun d => 0 <= d < 16) (hex_digits k v).
Proof.
revert v. induction k as [|k IH]; intros v; [constructor|]. cbn [hex_digits].
apply Forall_app. split; [done|]. repeat constructor; word_lia.
Qed.

Lemma hex_char_chars l : Forall (fun d => 0 <= d < 16) l -> chars (hex_char <$> l).
Proof.
intros Hl. apply Forall_fmap. eapply Forall_impl; [exact Hl|]. intros d Hd.
cbv [compose hex_char] in *. destruct (Z.gtb_spec d 9); lia.
Qed.

Lemma hex_val_digits k v :
hex_val (hex_char <$> hex_digits k v) = v mod 16 ^ Z.of_nat k.
Proof.
revert v. induction k as [|k IH]; intros v; [by rewrite Z.mod_1_r|]. cbn [hex_digits].
unfold hex_val in *. rewrite fmap_app, foldl_app, IH. cbn [fmap list_fmap foldl].
replace (hex_digit_val (hex_char (v mod 16))) with (v mod 16).
2:{ unfold hex_digit_val, hex_char. pose proof (Z.mod_pos_bound v 16 ltac:(lia)).
    destruct (Z.gtb_spec (v mod 16) 9).
    - destruct (Z.ltb_spec (v mod 16 + (65 - 10)) 58); lia.
    - destruct (Z.ltb_spec (v mod 16 + 48) 58); lia. }
replace (Z.of_nat (S k)) with (Z.succ (Z.of_nat k)) by lia.
rewrite Z.pow_succ_r by lia. rewrite Z.rem_mul_r by lia. lia.
Qed.

Lemma foldl_strip l acc : acc = 0 ->
foldl (fun acc c => acc * 16 + hex_digit_val c) acc (strip l) =
foldl (fun acc c => acc * 16 + hex_digit_val c) acc l.
Proof.
intros ->. induction l as [|c l IH]; [done|].
destruct (decide (c = 48)) as [->|Hc]; [exact IH|].
replace (strip (c :: l)) with (c :: l); [done|]. simpl.
destruct c as [|c|c]; try done. do 6 (destruct c as [c|c|]; try done).
Qed.

Lemma hex_loop_spec k m a v :
0 <= v ->
(forall (i : nat) d, hex_digits k v !! i = Some d ->
   (hex_loop k m a v)⟦a + Z.of_nat i⟧ = hex_char d) /\
(forall b, ~ a <= b < a + Z.of_nat k -> (hex_loop k m a v)⟦b⟧ = m⟦b⟧).
Proof.
revert m v. induction k as [|k IH]; intros m v Hv; [done|]. cbn [hex_loop hex_digits].
change 0xF with (Z.ones 4). rewrite Z.land_ones, Z.shiftr_div_pow2 by lia.
change (2 ^ 4) with 16.
destruct (IH m⟦a + Z.of_nat k := hex_char (v mod 16)⟧ (v / 16)) as [Hin Hout]; [word_lia|].
split.
- intros i d Hd. apply lookup_app_Some in Hd as [Hd|[Hi Hd]]; [by apply Hin|].
  rewrite length_hex_digits in Hi, Hd. apply list_lookup_singleton_Some in Hd as [Hi0 <-].
  assert (i = k) as -> by lia. rewrite Hout, rd_wr_eq by lia. done.
- intros b Hb. rewrite Hout, rd_wr_ne by lia. done.
Qed.

(** A copy towards lower addresses moves a string onto itself intact. *)
Lemma strcpy_loop_down fuel m d s l :
cstr m s l -> (length l < fuel)%nat -> d <= s ->
exists m', strcpy_loop fuel m d s = Ret (m', d + zlen l) /\
  bytes_at m' d l /\ (forall a, ~ d <= a < d + zlen l -> m'⟦a⟧ = m⟦a⟧).
Proof.
revert m d s l. induction fuel as [|fuel IH]; intros m d s l Hs Hf Hd; [lia|].
destruct l as [|c l]; cbn [strcpy_loop].
- destruct Hs as (_ & _ & Hz). cbn in Hz. rewrite Z.add_0_r in Hz. rewrite Hz. cbn.
  exists m. split; [do 2 f_equal; lia|]. done.
- apply cstr_cons in Hs as (Hc & Hm & Hs). rewrite Hm.
  destruct (Z.eqb_spec c 0); [lia|]. cbn [length] in Hf |- *.
  destruct (IH m⟦d := c⟧ (d + 1) (s + 1) l) as (m' & E & Hb & Ho); [|lia|lia|].
  { eapply cstr_ext; [|done]. intros b Hb. mem_simpl. done. }
  exists m'. rewrite E. split; [do 2 f_equal; lia|]. split.
  + split; [rewrite Ho, rd_wr_eq by lia; done|done].
  + intros a Ha. rewrite Ho, rd_wr_ne by lia. done.
Qed.

Lemma strcpy_down fuel m d s l :
cstr m s l -> (length l < fuel)%nat -> d <= s ->
exists m', strcpy fuel m d s = Ret m' /\ cstr m' d l /\
  (forall a, ~ d <= a <= d + zlen l -> m'⟦a⟧ = m⟦a⟧).
Proof.
intros Hs Hf Hd. destruct (strcpy_loop_down fuel m d s l Hs Hf Hd) as (m' & E & Hb & Ho).
unfold strcpy. rewrite E. cbn [mbind outcome_bind]. eexists. split; [done|]. split.
- destruct Hs as (Hc & _ & _). split; [done|]. split; [|apply rd_wr_eq].
  eapply bytes_at_ext; [|done]. intros b Hb'. by rewrite rd_wr_ne by lia.
- intros a Ha. rewrite rd_wr_ne by lia. apply Ho. lia.
Qed.

Lemma strip_cons c l : c <> 48 -> strip (c :: l) = c :: l.
Proof.
intros Hc. simpl. destruct c as [|c|c]; try done. do 6 (destruct c as [c|c|]; try done).
Qed.

(** The stripping loop over a text [l] of which something other than '0' is left. *)
Lemma strip_loop_spec k fuel m dest cp l :
cstr m cp l -> length l = k -> strip l <> [] -> (k < fuel)%nat -> dest <= cp ->
exists m', strip_loop k fuel m dest cp = Ret m' /\ cstr m' dest (strip l) /\
  (forall a, ~ dest <= a <= cp + zlen l -> m'⟦a⟧ = m⟦a⟧).
Proof.
revert cp l. induction k as [|k IH]; intros cp l Hs Hl Hne Hf Hd.
- by destruct l.
- destruct l as [|c l]; [done|]. pose proof Hs as (Hc & Hm & Hs')%cstr_cons.
  cbn [strip_loop]. rewrite Hm. destruct (Z.eqb_spec c 48) as [->|Hn].
  + destruct (IH (cp + 1) l) as (m' & E & Hm' & Ho); [done|by injection Hl|done|lia|lia|].
    exists m'. split; [done|]. split; [done|]. intros a Ha. apply Ho. cbn [length] in Ha. lia.
  + rewrite strip_cons in Hne |- * by done.
    destruct (strcpy_down fuel m dest cp (c :: l)) as (m' & E & Hm' & Ho); [done|lia|lia|].
    exists m'. split; [done|]. split; [done|]. intros a Ha. apply Ho. lia.
Qed.

Lemma strip_suffix l : exists z, l = replicate z 48 ++ strip l.
Proof.
induction l as [|c l [z IH]]; [by exists O|]. destruct (decide (c = 48)) as [->|Hc].
- exists (S z). cbn [strip replicate app]. by rewrite <- IH.
- exists O. by rewrite strip_cons.
Qed.

Lemma i2hex_text fuel m v dest len :
0 <= v < 16 ^ len -> 1 <= len -> len < Z.of_nat fuel ->
exists m', i2hex fuel m v dest len = Ret m' /\
  cstr m' dest (hex_text (Z.to_nat len) v) /\
  (forall a, ~ dest <= a <= dest + len -> m'⟦a⟧ = m⟦a⟧).
Proof.
intros Hv Hl Hf. unfold i2hex, hex_text. destruct (Z.eqb_spec v 0) as [->|Hne].
{ eexists. split; [done|]. split.
  - apply cstr_cons. split; [lia|]. mem_simpl. split; [done|].
    split; [constructor|]. split; [done|]. cbn. rewrite Z.add_0_r. by mem_simpl.
  - intros a Ha. by rewrite !rd_wr_ne by lia. }
set (k := Z.to_nat len). set (l := hex_char <$> hex_digits k v).
destruct (hex_loop_spec k m dest v ltac:(lia)) as [Hin Hout].
set (m1 := (hex_loop k m dest v)⟦dest + len := 0⟧).
assert (length l = k) as Hlen by (unfold l; by rewrite length_fmap, length_hex_digits).
assert (cstr m1 dest l) as Hs.
{ split; [apply hex_char_chars, hex_digits_range|]. split.
  - apply bytes_at_intro. intros i c Hc. unfold l in Hc.
    pose proof (lookup_lt_Some _ _ _ Hc) as Hi. rewrite length_fmap, length_hex_digits in Hi.
    rewrite list_lookup_fmap in Hc. destruct (hex_digits k v !! i) as [d|] eqn:Hd; [|done].
    injection Hc as <-. unfold m1. rewrite rd_wr_ne by lia. by apply Hin.
  - rewrite Hlen. unfold m1. replace (dest + Z.of_nat k) with (dest + len) by lia.
    apply rd_wr_eq. }
assert (hex_val l = v) as Hval.
{ unfold l. rewrite hex_val_digits. replace (Z.of_nat k) with len by lia.
  apply Z.mod_small. lia. }
assert (strip l <> []) as Hstrip.
{ intros E. apply Hne. rewrite <- Hval. unfold hex_val. rewrite <- foldl_strip, E by done. done. }
destruct (strip_loop_spec k fuel m1 dest dest l Hs Hlen Hstrip ltac:(lia) ltac:(lia))
  as (m2 & E2 & Hs2 & Ho2).
rewrite E2. cbn [mbind outcome_bind].
destruct (strip_suffix l) as [z Hz].
assert (length (strip l) <= k)%nat as Hsl.
{ rewrite Hz, length_app in Hlen. lia. }
rewrite (strlen_spec fuel m2 dest (strip l)) by (done || lia).
cbn [mbind outcome_bind]. eexists. split; [reflexivity|]. split.
- destruct Hs2 as (Hc & Hb & Hzero). split; [done|]. split.
  + eapply bytes_at_ext; [|done]. intros b Hb'. rewrite rd_memset. case_within; [lia|done].
  + rewrite rd_memset. case_within; [done|done].
- intros a Ha. rewrite rd_memset. case_within; [lia|].
  rewrite Ho2 by lia. unfold m1. rewrite rd_wr_ne, Hout by lia. done.
Qed.

Lemma hex_text_val len v : 0 <= v < 16 ^ len -> 0 <= len -> hex_val (hex_text (Z.to_nat len) v) = v.
Proof.
intros Hv Hl. unfold hex_text. destruct (Z.eqb_spec v 0) as [->|Hne]; [done|].
unfold hex_val. rewrite foldl_strip by done. fold (hex_val (hex_char <$> hex_digits (Z.to_nat len) v)).
rewrite hex_val_digits. rewrite Z2Nat.id by lia. apply Z.mod_small. lia.
Qed.
End hex.

(** ** What a format prints *)

(** A format taken apart: what stands in the text and the argument it consumes. *)
Inductive item :=
| Lit (c : Z)
| Chr (a : Z)
| Str (s : Z) (l : list Z)
| Dec (d : Z)
| Unsg (u : Z)
| Hex (lu : Z)
| Other (c : Z).

Definition item_text (i : item) : list Z :=
  match i with
  | Lit c => [c]
  | Chr _ => [37; 99]
  | Str _ _ => [37; 115]
  | Dec _ => [37; 100]
  | Unsg _ => [37; 117]
  | Hex _ => [37; 120]
  | Other c => [37; c]
  end.

Definition item_args (i : item) : list Z :=
  match i with
  | Lit _ | Other _ => []
  | Chr a | Str a _ | Dec a | Unsg a | Hex a => [a]
  end.

Definition item_out (i : item) : list Z :=
  match i with
  | Lit c => [c]
  | Chr a => if u8 a =? 0 then [] else [u8 a]
  | Str _ l => l
  | Dec d => int_text (s32 d)
  | Unsg u => int_text (u8 u)
  | Hex lu => hex_text 16 (u64 lu)
  | Other _ => [37; 37]
  end.

Definition directive_char (c : Z) : bool :=
  (c =? 99) || (c =? 115) || (c =? 100) || (c =? 105) || (c =? 117) || (c =? 88) || (c =? 120).

Lemma vsputs_strcpy fuel m d s : vsputs_r fuel m d s = strcpy_loop fuel m d s.
Proof.
  revert m d s. induction fuel as [|fuel IH]; intros m d s; [done|]. cbn.
  by destruct (m⟦s⟧ =? 0).
Qed.

Lemma length_int_text v : -2147483648 <= v < 2147483648 -> (length (int_text v) <= 65)%nat.
Proof.
  intros Hv. unfold int_text. destruct (Z.ltb_spec v 0); cbn [length]; rewrite length_dec_chars.
  - destruct (digits_spec 64 (- v)) as (_ & _ & Hl & _); [apply pow64; lia|lia|lia].
  - destruct (digits_spec 64 v) as (_ & _ & Hl & _); [apply pow64; lia|lia|lia].
Qed.

Lemma length_hex_text k v : (0 < k)%nat -> (length (hex_text k v) <= k)%nat.
Proof.
  intros Hk. unfold hex_text. destruct (v =? 0); [simpl; lia|].
  destruct (strip_suffix (hex_char <$> hex_digits k v)) as [z Hz].
  assert (length (hex_char <$> hex_digits k v) = k) as Hl
    by (by rewrite length_fmap, length_hex_digits).
  rewrite Hz, length_app in Hl. lia.
Qed.

Section formats.
#[local] Set Default Proof Using "All".
Context (buffer c_r str : Z) (locals : Z -> bool) (m0 : mem) (total : Z).
Implicit Types (m : mem) (its : list item) (p a : Z).

(** The memory [vsprintf] writes: the output, [buffer], [_c_r] and the [locals] a directive may have. *)
Definition touched a : bool := within a str total || within a buffer 256 || within a c_r 3 || locals a.

(** A string nobody writes. *)
Definition source (a : Z) (l : list Z) : Prop :=
cstr m0 a l /\ forall b, a <= b <= a + zlen l -> touched b = false.

Definition item_ok (i : item) : Prop :=
match i with
| Lit c => 0 < c < 256 /\ c <> 37
| Str s l => source s l
| Other c => 0 < c < 256 /\ directive_char c = false
| _ => True
end.

Hypothesis Hregions :
(str + total <= buffer \/ buffer + 256 <= str) /\
(str + total <= c_r \/ c_r + 3 <= str) /\ (buffer + 256 <= c_r \/ c_r + 3 <= buffer).
Hypothesis Hlocals : forall a, locals a = true ->
  within a str total = false /\ within a buffer 256 = false /\ within a c_r 3 = false.

(** The state of the loop: the sources are intact, [out] is written, [_c_r] ends in zero. *)
Definition printing m (out : list Z) : Prop :=
(forall a, touched a = false -> m⟦a⟧ = m0⟦a⟧) /\ bytes_at m str out /\ m⟦c_r + 1⟧ = 0.

(** Putting the string [l] at [s], outside the output, after [out]. *)
Lemma vsputs_spec fuel m out s l :
printing m out -> cstr m s l -> (length l < fuel)%nat ->
zlen out + zlen l < total ->
(s + zlen l < str \/ str + total <= s) ->
exists m', vsputs_r fuel m (str + zlen out) s = Ret (m', str + zlen (out ++ l)) /\
  printing m' (out ++ l).
Proof.
intros (Hsrc & Hout & Hz) Hs Hf Ht Hd. rewrite vsputs_strcpy.
destruct Hregions as (R1 & R2 & R3).
destruct (strcpy_loop_spec fuel m (str + zlen out) s l Hs Hf) as (m' & E & Hm');
  [destruct l; cbn [length] in *; lia|].
exists m'. rewrite E, length_app. split; [do 2 f_equal; lia|]. split_and!.
- intros a Ha. rewrite Hm'. unfold touched in Ha.
  rewrite !orb_false_iff in Ha. destruct Ha as [[[Ha1 Ha2] Ha3] Ha4]. case_within.
  + unfold within in Ha1. lia.
  + apply Hsrc. unfold touched. by rewrite Ha1, Ha2, Ha3, Ha4.
- apply bytes_at_app. split.
  + eapply bytes_at_ext; [|exact Hout]. intros b Hb. rewrite Hm'. case_within; [lia|done].
  + apply bytes_at_intro. intros i c Hc. rewrite Hm'.
    pose proof (lookup_lt_Some _ _ _ Hc). case_within; [|lia].
    replace (s + (str + zlen out + Z.of_nat i - (str + zlen out))) with (s + Z.of_nat i) by lia.
    destruct Hs as (_ & Hb & _). by eapply bytes_at_nth.
- rewrite Hm'. case_within; [lia|done].
Qed.

Lemma source_cstr m out a l : printing m out -> source a l -> cstr m a l.
Proof.
intros (Hsrc & _ & _) [Hc Ht]. eapply cstr_ext; [|exact Hc]. intros b Hb. auto.
Qed.

Lemma source_apart a l : source a l -> a + zlen l < str \/ str + total <= a \/ total <= 0.
Proof.
intros [_ Ht]. destruct (decide (a + zlen l < str \/ str + total <= a \/ total <= 0)) as [|Hno]; [done|].
exfalso. specialize (Ht (Z.max a str) ltac:(lia)). unfold touched in Ht.
rewrite !orb_false_iff in Ht. destruct Ht as [[[Ht _] _] _]. unfold within in Ht. lia.
Qed.

(** Writing the local buffers leaves the rest of the state alone. *)
Lemma printing_buffer m m' out :
printing m out -> zlen out <= total ->
(forall a, ~ buffer <= a < buffer + 256 -> m'⟦a⟧ = m⟦a⟧) -> printing m' out.
Proof.
intros (Hsrc & Hout & Hz) Ht Ho. destruct Hregions as (R1 & R2 & R3). split_and!.
- intros a Ha. unfold touched in Ha. apply orb_false_iff in Ha as [Ha Hl]. unfold within in Ha.
  rewrite Ho by lia. apply Hsrc. unfold touched. rewrite Hl, orb_false_r. unfold within. lia.
- eapply bytes_at_ext; [|exact Hout]. intros b Hb. apply Ho. lia.
- rewrite Ho by lia. done.
Qed.

(** So does writing the others. *)
Lemma printing_locals m m' out :
printing m out -> zlen out <= total -> (forall a, locals a = false -> m'⟦a⟧ = m⟦a⟧) -> printing m' out.
Proof.
intros (Hsrc & Hout & Hz) Ht Ho.
assert (forall a, within a str total || within a c_r 3 = true -> locals a = false) as Hn.
{ intros a Ha. destruct (locals a) eqn:E; [|done]. destruct (Hlocals a E) as (E1 & _ & E3). by rewrite E1, E3 in Ha. }
split_and!.
- intros a Ha. rewrite Ho; [by apply Hsrc|]. unfold touched in Ha. by apply orb_false_iff in Ha as [_ ?].
- eapply bytes_at_ext; [|exact Hout]. intros b Hb. apply Ho, Hn. unfold within. lia.
- rewrite Ho; [done|]. apply Hn. unfold within. lia.
Qed.

Lemma printing_char m c out :
printing m out -> zlen out <= total -> 0 <= c < 256 ->
printing m⟦c_r := c⟧ out /\ cstr m⟦c_r := c⟧ c_r (if c =? 0 then [] else [c]).
Proof.
intros (Hsrc & Hout & Hz) Ht Hc. destruct Hregions as (R1 & R2 & R3). split; [split_and!|].
- intros a Ha. unfold touched in Ha. apply orb_false_iff in Ha as [Ha Hl]. unfold within in Ha.
  rewrite rd_wr_ne by lia. apply Hsrc. unfold touched. rewrite Hl, orb_false_r. unfold within. lia.
- eapply bytes_at_ext; [|exact Hout]. intros b Hb. rewrite rd_wr_ne by lia. done.
- rewrite rd_wr_ne by lia. done.
- destruct (Z.eqb_spec c 0) as [->|Hne].
  + split; [constructor|]. split; [done|]. cbn. rewrite Z.add_0_r. apply rd_wr_eq.
  + apply cstr_cons. rewrite rd_wr_eq. split; [lia|]. split; [done|].
    split; [constructor|]. split; [done|]. cbn. rewrite Z.add_0_r, rd_wr_ne by lia. done.
Qed.

Lemma source_cons c l p : source p (c :: l) -> 0 < c < 256 /\ m0⟦p⟧ = c /\ touched p = false /\ source (p + 1) l.
Proof.
intros [(Hc & Hm & Hs)%cstr_cons Ht]. cbn [length] in Ht. split_and!; [lia|lia|done|..].
- apply Ht. lia.
- split; [done|]. intros b Hb. apply Ht. lia.
Qed.

Lemma source_read m out c l p : printing m out -> source p (c :: l) -> m⟦p⟧ = c.
Proof. intros (Hsrc & _ & _) (_ & Hm & Ht & _)%source_cons. rewrite Hsrc; done. Qed.

Context (pct : Z).
Hypothesis Hpct : source pct [37; 37].

(** One directive. *)
Lemma directive_spec fuel m out i ap c :
item_ok i -> item_text i = [37; c] -> printing m out ->
zlen out + zlen (item_out i) < total -> (length (item_out i) < fuel)%nat ->
(65 < fuel)%nat ->
exists m', directive buffer c_r pct fuel m (str + zlen out) c (item_args i ++ ap) =
    Ret (m', str + zlen (out ++ item_out i), ap) /\ printing m' (out ++ item_out i).
Proof.
intros Hok Hc Hp Ht Hf Hf65. destruct Hregions as (R1 & R2 & R3).
assert (forall s l m, printing m out -> cstr m s l -> l = item_out i ->
  (s + zlen l < str \/ str + total <= s) ->
  exists m', vsputs_r fuel m (str + zlen out) s = Ret (m', str + zlen (out ++ item_out i)) /\
    printing m' (out ++ item_out i)) as Hput.
{ intros s l m1 Hp1 Hs -> Hd. by apply vsputs_spec. }
destruct i as [c'|a|s l|d|u|lu|c']; try discriminate Hc; injection Hc as <-;
  cbn [item_args app item_out] in *; unfold directive; cbn [Z.eqb Pos.eqb orb].
- destruct (printing_char m (u8 a) out Hp) as [Hp1 Hs]; [lia|apply u8_range|].
  destruct (Hput _ _ _ Hp1 Hs eq_refl) as (m' & E & Hm').
  { destruct (u8 a =? 0); cbn [length]; lia. }
  exists m'. rewrite E. split; [reflexivity|exact Hm'].
- destruct (Hput s l m Hp) as (m' & E & Hm'); [by eapply source_cstr|done|..].
  { destruct (source_apart _ _ Hok) as [|[|]]; lia. }
  exists m'. rewrite E. split; [reflexivity|exact Hm'].
- pose proof (s32_range d) as Hr.
  destruct (itoa_text m (s32 d) buffer ltac:(lia)) as [Hs Ho].
  pose proof (length_int_text (s32 d) ltac:(lia)).
  destruct (Hput _ _ _ (printing_buffer m _ out Hp ltac:(lia)
    (fun a Ha => Ho a ltac:(lia))) Hs eq_refl) as (m' & E & Hm'); [lia|].
  exists m'. rewrite E. split; [reflexivity|exact Hm'].
- pose proof (u8_range u) as Hr.
  destruct (itoa_text m (u8 u) buffer ltac:(lia)) as [Hs Ho].
  pose proof (length_int_text (u8 u) ltac:(lia)).
  destruct (Hput _ _ _ (printing_buffer m _ out Hp ltac:(lia)
    (fun a Ha => Ho a ltac:(lia))) Hs eq_refl) as (m' & E & Hm'); [lia|].
  exists m'. rewrite E. split; [reflexivity|exact Hm'].
- pose proof (u64_range lu) as Hr. unfold utoa. cbn [Z.eqb Pos.eqb].
  destruct (i2hex_text fuel m (u64 lu) buffer 16) as (m1 & E1 & Hs & Ho);
    [change (16 ^ 16) with 18446744073709551616; lia|lia|lia|].
  change (Z.to_nat 16) with 16%nat in Hs. rewrite E1. cbn [mbind outcome_bind].
  pose proof (length_hex_text 16 (u64 lu) ltac:(lia)).
  destruct (Hput _ _ _ (printing_buffer m m1 out Hp ltac:(lia)
    (fun a Ha => Ho a ltac:(lia))) Hs eq_refl) as (m' & E & Hm'); [lia|].
  exists m'. rewrite E. split; [reflexivity|exact Hm'].
- destruct Hok as [Hc Hd]. unfold directive_char in Hd. rewrite !orb_false_iff in Hd.
  destruct Hd as [[[[[[-> ->] ->] ->] ->] ->] ->]. cbn [orb].
  destruct (Hput pct [37; 37] m Hp) as (m' & E & Hm'); [by eapply source_cstr|done|..].
  { destruct (source_apart _ _ Hpct) as [|[|]]; cbn in *; lia. }
  exists m'. rewrite E. split; [reflexivity|exact Hm'].
Qed.

Definition fmt_text its : list Z := concat (item_text <$> its).
Definition fmt_args its : list Z := concat (item_args <$> its).
Definition fmt_out its : list Z := concat (item_out <$> its).

Lemma vsprintf_loop_spec its k fuel m fmt index out ap :
Forall item_ok its -> source (fmt + index) (fmt_text its) -> printing m out ->
zlen out + zlen (fmt_out its) < total -> (length its < k)%nat ->
(length (fmt_out its) < fuel)%nat -> (65 < fuel)%nat ->
exists m',
  vsprintf_loop buffer c_r pct k fuel m fmt index (str + zlen out) (fmt_args its ++ ap) =
    Ret (m', str + zlen (out ++ fmt_out its)) /\ printing m' (out ++ fmt_out its).
Proof.
revert k m index out. induction its as [|i its IH]; intros k m index out Hok Hsrc Hp Ht Hk Hf Hf65;
  (destruct k as [|k]; [cbn in Hk; lia|]); cbn [vsprintf_loop].
- unfold fmt_out. cbn [fmap list_fmap concat]. rewrite app_nil_r.
  pose proof (source_cstr m out _ _ Hp Hsrc) as (_ & _ & Hz). cbn in Hz. rewrite Z.add_0_r in Hz.
  rewrite Hz. exists m. done.
- apply Forall_cons in Hok as [Hi Hok]. unfold fmt_text, fmt_args, fmt_out in *.
  cbn [fmap list_fmap concat length] in *. rewrite length_app in Ht, Hf. rewrite <- app_assoc.
  assert (forall m' index' out', out' = out ++ item_out i ->
    source (fmt + index') (concat (item_text <$> its)) -> printing m' out' ->
    exists m2, vsprintf_loop buffer c_r pct k fuel m' fmt index' (str + zlen out')
        (concat (item_args <$> its) ++ ap) =
      Ret (m2, str + zlen (out ++ item_out i ++ concat (item_out <$> its))) /\
      printing m2 (out ++ item_out i ++ concat (item_out <$> its))) as Hrest.
  { intros m' index' out' -> Hs' Hp'. rewrite (app_assoc out).
    apply IH; [done|done|done|rewrite length_app; lia|lia|lia|lia]. }
  assert ((exists c, i = Lit c) \/ exists c, item_text i = [37; c]) as [[c ->]|[c Hc]]
    by (destruct i; eauto).
  + cbn [item_text item_args item_out app] in *. destruct Hi as [Hc Hpc].
    rewrite (source_read m out _ _ _ Hp Hsrc).
    destruct (Z.eqb_spec c 0); [lia|]. destruct (Z.eqb_spec c 37); [done|].
    destruct (printing_char m c out Hp) as [Hp1 Hs1]; [lia|lia|].
    destruct (Z.eqb_spec c 0); [lia|].
    destruct (vsputs_spec fuel m⟦c_r := c⟧ out c_r [c] Hp1 Hs1) as (m' & E & Hm');
      [cbn [length] in *; lia|cbn [length] in *; lia|
       destruct Hregions as (_ & R2 & _); cbn [length]; lia|].
    rewrite E. cbn [mbind outcome_bind].
    apply Hrest; [done| |done]. rewrite Z.add_assoc. by apply source_cons in Hsrc as (_ & _ & _ & ?).
  + rewrite Hc in Hsrc. cbn [app] in Hsrc.
    rewrite (source_read m out _ _ _ Hp Hsrc). cbn [Z.eqb Pos.eqb].
    apply source_cons in Hsrc as (_ & _ & _ & Hsrc). rewrite <- Z.add_assoc in Hsrc.
    rewrite (source_read m out _ _ _ Hp Hsrc).
    destruct (directive_spec fuel m out i (concat (item_args <$> its) ++ ap) c Hi Hc Hp)
      as (m' & E & Hm'); [lia|lia|lia|].
    rewrite E. cbn [mbind outcome_bind]. apply Hrest; [done| |done].
    apply source_cons in Hsrc as (_ & _ & _ & Hsrc). by rewrite Z.add_assoc.
Qed.
End formats.

Definition no_locals (a : Z) : bool := false.

(** ** Properties *)

(** [itoa] round-trips: for every 32-bit integer, the least one included, it writes one
    terminated string and no byte beyond it, and reading that string back gives the integer. *)
Theorem itoa_roundtrip (m : mem) (val str : Z) :
  -2147483648 <= val < 2147483648 ->
  exists l, cstr (itoa m val str) str l /\ int_val l = val /\ (0 <= val -> canonical l) /\
    forall a, ~ str <= a <= str + zlen l -> (itoa m val str)⟦a⟧ = m⟦a⟧.
Proof.
  intros Hv. destruct (itoa_text m val str Hv) as [Hs Ho]. exists (int_text val).
  split; [exact Hs|]. split; [by apply int_text_val|]. split; [|exact Ho]. intros Hpos.
  unfold int_text. destruct (Z.ltb_spec val 0); [lia|].
  apply dec_chars_canonical; [apply pow64; lia|lia].
Qed.

Example itoa_roundtrip_witness :
  exists l, cstr (itoa ∅ (-2147483648) 100) 100 l /\ int_val l = -2147483648.
Proof.
  destruct (itoa_roundtrip ∅ (-2147483648) 100 ltac:(lia)) as (l & H1 & H2 & _).
  exists l. split; [exact H1|exact H2].
Defined.

(** [utoa] round-trips in both radices on every 64-bit value: the string it writes reads
    back as the value, in hexadecimal (upper case, at most 16 digits) for radix 16 and in
    decimal otherwise. *)
Theorem utoa_roundtrip (fuel : nat) (m : mem) (val dst radix : Z) :
  0 <= val < 2 ^ 64 -> (16 < fuel)%nat ->
  exists m' l, utoa fuel m val dst radix = Ret m' /\ cstr m' dst l /\
    (if radix =? 16 then hex_val l = val /\ (length l <= 16)%nat else dec_val l = val) /\
    (forall a, ~ dst <= a <= dst + Z.max 16 (zlen l) -> m'⟦a⟧ = m⟦a⟧).
Proof.
  intros Hv Hf. unfold utoa. destruct (radix =? 16).
  - assert (0 <= val < 16 ^ 16) as Hv16 by (change (16 ^ 16) with (2 ^ 64); lia).
    destruct (i2hex_text fuel m val dst 16 Hv16 ltac:(lia) ltac:(lia)) as (m' & E & Hs & Ho).
    exists m', (hex_text (Z.to_nat 16) val). split; [exact E|]. split; [exact Hs|]. split.
    + split; [by apply hex_text_val|]. apply length_hex_text. lia.
    + intros a Ha. apply Ho. lia.
  - destruct (utoa_r_text m val dst Hv) as [Hs Ho]. eexists _, _. split; [reflexivity|].
    split; [exact Hs|]. split.
    + rewrite dec_val_chars. by destruct (digits_spec 64 val (pow64 _ Hv) ltac:(lia)).
    + intros a Ha. apply Ho. rewrite length_dec_chars in Ha. lia.
Qed.

Example utoa_roundtrip_witness :
  exists m' l, utoa 17 ∅ 0xDEADBEEF 100 16 = Ret m' /\ cstr m' 100 l /\ hex_val l = 0xDEADBEEF.
Proof.
  destruct (utoa_roundtrip 17 ∅ 0xDEADBEEF 100 16 ltac:(lia) ltac:(lia))
    as (m' & l & E & Hs & [H _] & _).
  exists m', l. split; [exact E|]. split; [exact Hs|exact H].
Defined.

(** [vsprintf] terminates and prints its format: for every format made of plain
    characters and directives, with the arguments they consume, it returns the number of
    characters of the text and leaves exactly that text at [str]: characters, strings,
    signed decimals and hexadecimals in full, "%u" as the low eight bits of its argument, any
    other directive as "%%".  The text carries no terminator of its own. *)
Theorem vsprintf_prints (buffer c_r pct str fmt total : Z) (m0 : mem) (its : list item)
    (ap : list Z) (fuel : nat) :
  (str + total <= buffer \/ buffer + 256 <= str) ->
  (str + total <= c_r \/ c_r + 3 <= str) -> (buffer + 256 <= c_r \/ c_r + 3 <= buffer) ->
  source buffer c_r str no_locals m0 total pct [37; 37] ->
  source buffer c_r str no_locals m0 total fmt (fmt_text its) ->
  Forall (item_ok buffer c_r str no_locals m0 total) its ->
  zlen (fmt_out its) < total ->
  (length its < fuel)%nat -> (length (fmt_out its) < fuel)%nat -> (65 < fuel)%nat ->
  exists m', vsprintf buffer c_r pct fuel m0 str fmt (fmt_args its ++ ap) =
      Ret (zlen (fmt_out its), m') /\
    bytes_at m' str (fmt_out its) /\
    forall a, touched buffer c_r str no_locals total a = false -> m'⟦a⟧ = m0⟦a⟧.
Proof.
  intros R1 R2 R3 Hpct Hfmt Hok Ht Hk Hf Hf65. unfold vsprintf.
  assert (printing buffer c_r str no_locals m0 total m0⟦c_r := 0⟧⟦c_r + 1 := 0⟧⟦c_r + 2 := 0⟧ []) as Hp.
  { split_and!; [|done|by mem_simpl]. intros a Ha. unfold touched, no_locals, within in Ha.
    by rewrite !rd_wr_ne by lia. }
  set (m1 := m0⟦c_r := 0⟧⟦c_r + 1 := 0⟧⟦c_r + 2 := 0⟧) in *.
  destruct (vsprintf_loop_spec buffer c_r str no_locals m0 total (conj R1 (conj R2 R3)) ltac:(done) pct Hpct its fuel
    fuel m1 fmt 0 [] ap Hok) as (m' & E & Hm'); [by rewrite Z.add_0_r|exact Hp|cbn; lia|done..|].
  cbn [length app] in E, Hm'. rewrite Z.add_0_r in E. rewrite E. cbn [mbind outcome_bind].
  exists m'. split; [do 2 f_equal; lia|]. destruct Hm' as (Hsrc & Hout & _). done.
Qed.

Example vsprintf_prints_witness :
  let m0 := poke (poke ∅ 10 [37; 37; 0]) 20 [120; 61; 37; 100; 44; 37; 117; 0] in
  exists m', vsprintf 1000 2000 10 70 m0 3000 20 [-7; 300] = Ret (7, m') /\
    bytes_at m' 3000 [120; 61; 45; 55; 44; 52; 52].
Proof.
  set (m0 := poke _ _ _). intros m1.
  destruct (vsprintf_prints 1000 2000 10 3000 20 64 m0 [Lit 120; Lit 61; Dec (-7); Lit 44; Unsg 300] [] 70)
    as (m' & E & H & _).
  - lia.
  - lia.
  - lia.
  - split; [split; [repeat constructor|split; [repeat split|reflexivity]]|].
    intros b Hb. cbn in Hb. unfold touched, no_locals. by case_within; try lia.
  - split; [split; [repeat constructor|split; [repeat split|reflexivity]]|].
    intros b Hb. cbn in Hb. unfold touched, no_locals. by case_within; try lia.
  - repeat constructor; lia.
  - vm_compute. reflexivity.
  - simpl. lia.
  - vm_compute. lia.
  - lia.
  - exists m'. split; [exact E|exact H].
Defined.
