(* ===== verification/Files.v ===== *)
(** * Files: the kernel's streams, pipes and file reader (kernel/lib/stdio.c, kernel/file)

    A [FILE] is a heap object at an address; its transfer buffer and block tables are byte
    memory.  The standard streams (std.c) and pipes (pipe.c) are rings on the buffer; a CFS
    file (cfs.c) is read block by block through it.  The heap is any [Allocator].  The disk
    is [read_sector] (the storage drivers): it transfers [count] sectors from [start] to a
    buffer and returns 0, or another value.  Where the code waits in [pause] for another
    thread the call is [Hang]: nothing in the call itself ends the wait.  The fields of
    [FILE] no function of the kernel reads are left out. *)
From S2P Require Import Prelude KString Bytes.

Definition BUFSIZ : Z := 8192.
Definition EOF : Z := -1.
Definition PIPE_SIZE : Z := 16.
Definition sizeof_FILE : Z := 331.

Record FILE := File {
  level : Z;
  flags : Z;
  bsize : Z;
  buffer : Z;
  curp : Z;
  mode : Z;
  off : Z;
  off2 : Z;
  fsize : Z;
  byte_per_sector : Z;
  count : Z;
  num_of_blocks : Z;
  dv_num : Z;
  blocks : Z
}.

Definition set_level (v : Z) (s : FILE) : FILE := File v (flags s) (bsize s) (buffer s) (curp s)
  (mode s) (off s) (off2 s) (fsize s) (byte_per_sector s) (count s) (num_of_blocks s) (dv_num s)
  (blocks s).
Definition set_flags (v : Z) (s : FILE) : FILE := File (level s) v (bsize s) (buffer s) (curp s)
  (mode s) (off s) (off2 s) (fsize s) (byte_per_sector s) (count s) (num_of_blocks s) (dv_num s)
  (blocks s).
Definition set_bsize (v : Z) (s : FILE) : FILE := File (level s) (flags s) v (buffer s) (curp s)
  (mode s) (off s) (off2 s) (fsize s) (byte_per_sector s) (count s) (num_of_blocks s) (dv_num s)
  (blocks s).
Definition set_buffer (v : Z) (s : FILE) : FILE := File (level s) (flags s) (bsize s) v (curp s)
  (mode s) (off s) (off2 s) (fsize s) (byte_per_sector s) (count s) (num_of_blocks s) (dv_num s)
  (blocks s).
Definition set_curp (v : Z) (s : FILE) : FILE := File (level s) (flags s) (bsize s) (buffer s) v
  (mode s) (off s) (off2 s) (fsize s) (byte_per_sector s) (count s) (num_of_blocks s) (dv_num s)
  (blocks s).
Definition set_mode (v : Z) (s : FILE) : FILE := File (level s) (flags s) (bsize s) (buffer s)
  (curp s) v (off s) (off2 s) (fsize s) (byte_per_sector s) (count s) (num_of_blocks s) (dv_num
  s) (blocks s).
Definition set_off (v : Z) (s : FILE) : FILE := File (level s) (flags s) (bsize s) (buffer s)
  (curp s) (mode s) v (off2 s) (fsize s) (byte_per_sector s) (count s) (num_of_blocks s) (dv_num
  s) (blocks s).
Definition set_off2 (v : Z) (s : FILE) : FILE := File (level s) (flags s) (bsize s) (buffer s)
  (curp s) (mode s) (off s) v (fsize s) (byte_per_sector s) (count s) (num_of_blocks s) (dv_num
  s) (blocks s).
Definition set_fsize (v : Z) (s : FILE) : FILE := File (level s) (flags s) (bsize s) (buffer s)
  (curp s) (mode s) (off s) (off2 s) v (byte_per_sector s) (count s) (num_of_blocks s) (dv_num
  s) (blocks s).
Definition set_byte_per_sector (v : Z) (s : FILE) : FILE := File (level s) (flags s) (bsize s)
  (buffer s) (curp s) (mode s) (off s) (off2 s) (fsize s) v (count s) (num_of_blocks s) (dv_num
  s) (blocks s).
Definition set_count (v : Z) (s : FILE) : FILE := File (level s) (flags s) (bsize s) (buffer s)
  (curp s) (mode s) (off s) (off2 s) (fsize s) (byte_per_sector s) v (num_of_blocks s) (dv_num
  s) (blocks s).
Definition set_num_of_blocks (v : Z) (s : FILE) : FILE := File (level s) (flags s) (bsize s)
  (buffer s) (curp s) (mode s) (off s) (off2 s) (fsize s) (byte_per_sector s) (count s) v
  (dv_num s) (blocks s).
Definition set_dv_num (v : Z) (s : FILE) : FILE := File (level s) (flags s) (bsize s) (buffer s)
  (curp s) (mode s) (off s) (off2 s) (fsize s) (byte_per_sector s) (count s) (num_of_blocks s) v
  (blocks s).
Definition set_blocks (v : Z) (s : FILE) : FILE := File (level s) (flags s) (bsize s) (buffer s)
  (curp s) (mode s) (off s) (off2 s) (fsize s) (byte_per_sector s) (count s) (num_of_blocks s)
  (dv_num s) v.

#[export] Instance zero_FILE : Zero FILE := File 0 0 0 0 0 0 0 0 0 0 0 0 0 0.

(** The state: the heap, byte memory, the open streams and the global [_stdout]. *)
Record sys (H : Type) := Sys {
  heap : H;
  bytes_of : mem;
  files : gmap Z FILE;
  stdout_fp : Z
}.
Arguments Sys {H}.
Arguments heap {H}.
Arguments bytes_of {H}.
Arguments files {H}.
Arguments stdout_fp {H}.

(** The disk: device, number of sectors, first sector and buffer address. *)
Definition disk := Z -> Z -> Z -> Z -> mem -> Z * mem.

Section files.
Context {H : Type} `{Allocator H} (read_sector : disk).
Implicit Types (s : sys H) (fp : Z).

Definition set_heap (h : H) s : sys H := Sys h (bytes_of s) (files s) (stdout_fp s).
Definition set_bytes (m : mem) s : sys H := Sys (heap s) m (files s) (stdout_fp s).
Definition set_files (f : gmap Z FILE) s : sys H := Sys (heap s) (bytes_of s) f (stdout_fp s).

(** Dereference: an address where no stream lives is a fault. *)
Definition get_file fp s : outcome FILE :=
match files s !! fp with
| Some f => Ret f
| None => Undef
end.

Definition put_file fp (f : FILE) s : sys H := set_files (<[fp := f]> (files s)) s.

Definition malloc_ (n : Z) s : outcome (Z * sys H) :=
'(p, h) ← malloc n (heap s);
Ret (p, set_heap h s).

Definition free_ (p : Z) s : outcome (sys H) :=
h ← free p (heap s);
Ret (set_heap h s).

Definition read_ (dv count start buf : Z) s : Z * sys H :=
let '(r, m) := read_sector dv count start buf (bytes_of s) in (r, set_bytes m s).

(** [memcmp] against a literal. *)
Definition starts_with (m : mem) (p : Z) (lit : list Z) : bool :=
bool_decide (bytes m p (zlen lit) = lit).

Definition str_stdin : list Z := [115; 116; 100; 105; 110].
Definition str_stdout : list Z := [115; 116; 100; 111; 117; 116].
Definition str_stderr : list Z := [115; 116; 100; 101; 114; 114].
Definition str_std : list Z := [115; 116; 100].
Definition str_pipe : list Z := [112; 105; 112; 101].

(** ** Pipes (pipe.c) *)

(** A new stream with a zeroed buffer, as [pipe_open_file] and [std_open_file] build it. *)
Definition new_stream (flag : Z) s : outcome (Z * sys H) :=
'(fp, s) ← malloc_ sizeof_FILE s;
let f := zero |> set_bsize BUFSIZ in
'(b, s) ← malloc_ BUFSIZ s;
let f := f |> set_buffer b |> set_fsize 0 |> set_mode 0x2 |> set_flags flag in
let s := set_bytes (memset (bytes_of s) b 0 BUFSIZ) s in
Ret (fp, put_file fp f s).

Definition pipe_open_file s : outcome (Z * sys H) := new_stream 0x1 s.

Definition pipe_write (buf fp : Z) s : outcome (Z * sys H) :=
if fp =? 0 then Ret (0, s)
else
  f ← get_file fp s;
  let f := if (u32 (level f) >=? bsize f) || (off f >=? bsize f)
           then f |> set_off 0 |> set_level 0 else f in
  let '(f, m) :=
    for_upto 0 PIPE_SIZE (fun i '(f, m) =>
      let f := set_curp (buffer f + off f + i) f in
      (f, m⟦curp f := m⟦buf + i⟧⟧)) (f, bytes_of s) in
  let f := f |> set_off (u32 (off f + PIPE_SIZE)) |> set_fsize (u32 (fsize f + PIPE_SIZE)) in
  Ret (PIPE_SIZE, s |> set_bytes m |> put_file fp f).

Definition pipe_read (buf fp : Z) s : outcome (Z * sys H) :=
if fp =? 0 then Ret (0, s)
else
  f ← get_file fp s;
  let f := if off2 f >=? bsize f then set_off2 0 f else f in
  if (off f <=? off2 f) && (off f >=? off2 f) then Hang
  else
    let '(f, m) :=
      for_upto 0 PIPE_SIZE (fun i '(f, m) =>
        let f := set_curp (buffer f + off2 f + i) f in
        (f, m⟦buf + i := m⟦curp f⟧⟧)) (f, bytes_of s) in
    let f := set_off2 (u32 (off2 f + PIPE_SIZE)) f in
    Ret (PIPE_SIZE, s |> set_bytes m |> put_file fp f).

(** ** Standard streams (std.c) *)

Definition std_open_file (m : Z) s : outcome (Z * sys H) :=
if starts_with (bytes_of s) m str_stdin then new_stream 0x2 s
else if starts_with (bytes_of s) m str_stdout then new_stream 0x3 s
else if starts_with (bytes_of s) m str_stderr then new_stream 0x4 s
else Ret (0, s).

Definition std_file_close fp s : outcome (Z * sys H) :=
f ← get_file fp s;
s ← free_ (buffer f) s;
s ← free_ fp s;
Ret (0, set_files (delete fp (files s)) s).

(** [stderr] first echoes to the global standard output, which is [fuel] deep at most when
  it is not itself a [stderr]. *)
Fixpoint std_putc (fuel : nat) (c fp : Z) s : outcome (Z * sys H) :=
match fuel with
| O => NoFuel
| S fuel =>
    f ← get_file fp s;
    let f := if (u32 (level f) >=? bsize f) || (off f >=? bsize f)
             then f |> set_off 0 |> set_level 0 else f in
    let s := put_file fp f s in
    s ← (if flags f =? 4 then '(_, s) ← std_putc fuel c (stdout_fp s) s; Ret s else Ret s);
    f ← get_file fp s;
    if flags f =? 3 then
      let f := set_curp (buffer f + off f) f in
      let s := set_bytes (st16 (bytes_of s) (curp f) (u16 c)) s in
      let f := set_off (u32 (off f + 2)) f in
      let f := if off f >? fsize f then set_fsize (u32 (fsize f + 2)) f else f in
      Ret (c, put_file fp f s)
    else
      let f := set_curp (buffer f + off f) f in
      let s := set_bytes (bytes_of s)⟦curp f := u8 c⟧ s in
      let f := set_off (u32 (off f + 1)) f in
      let f := if off f >? fsize f then set_fsize (u32 (fsize f + 1)) f else f in
      Ret (c, put_file fp f s)
end.

Definition std_getc fp s : outcome (Z * sys H) :=
f ← get_file fp s;
let r := 0 in
if fsize f =? 0 then Ret (EOF, s)
else
  let f := if off2 f >=? bsize f then set_off2 0 f else f in
  let s := put_file fp f s in
  if flags f =? 2 then
    if (off f <=? off2 f) && (off f >=? off2 f) then Hang
    else
      let f := set_curp (buffer f + off2 f) f in
      let r := (bytes_of s)⟦curp f⟧ in
      let f := set_off2 (u32 (off2 f + 1)) f in
      Ret (r, put_file fp f s)
  else if flags f =? 4 then
    if off f =? 0 then Ret (EOF, s)
    else if off2 f >=? off f then Ret (EOF, s)
    else
      let f := set_curp (buffer f + off2 f) f in
      let r := (bytes_of s)⟦curp f⟧ in
      let f := set_off2 (u32 (off2 f + 1)) f in
      Ret (r, put_file fp f s)
  else if flags f =? 3 then
    if off2 f =? off f then Ret (EOF, s)
    else
      let f := set_curp (buffer f + off2 f) f in
      let r := ld16 (bytes_of s) (curp f) in
      let f := set_off2 (u32 (off2 f + 2)) f in
      Ret (r, put_file fp f s)
  else Ret (r, s).

(** ** The file system reader (cfs.c) *)

(** [super_block_t] and [directory_entry_t] are read in place. *)
Definition sb_hidden (m : mem) (f : Z) : Z := ld32 m (f + 20).
Definition sb_rsv (m : mem) (f : Z) : Z := ld32 m (f + 24).
Definition sb_byte_per_sector (m : mem) (f : Z) : Z := ld32 m (f + 28).
Definition sb_sector_per_blk (m : mem) (f : Z) : Z := ld32 m (f + 32).
Definition sb_root_blk (m : mem) (f : Z) : Z := ld32 m (f + 44).
Definition de_first_blk (m : mem) (d : Z) : Z := ld32 m (d + 107).
Definition de_file_size (m : mem) (d : Z) : Z := ld32 m (d + 111).
Definition sizeof_directory_entry : Z := 128.

(** The name [us2] padded with blanks to 96 characters. *)
Definition pad_name (m : mem) (us2 : Z) : list Z :=
(for_upto 0 96 (fun _ '(us2, l) =>
   if m⟦us2⟧ =? 0 then (us2, l ++ [32]) else (us2 + 1, l ++ [m⟦us2⟧])) (us2, [])).2.

Definition filename_cmp (m : mem) (s1 s2 : Z) : Z :=
if bool_decide (bytes m s1 96 = pad_name m s2) then 0 else 1.

Definition read_super_block (f dv start : Z) s : Z * sys H := read_ dv 1 start f s.

(** The scan of the root block: [for (i = 0; i < 64; i++)] with its [break]. *)
Definition find_entry (m : mem) (root filename : Z) : option Z :=
match
  for_break 64 0 (fun i (_ : unit) =>
    if filename_cmp m (root + i * 128) filename =? 0 then inr i else inl tt) tt
with
| inl _ => None
| inr i => Some i
end.

Definition read_directory_entry (d f dv filename : Z) s : outcome (Z * sys H) :=
let data_sector := u32 (sb_rsv (bytes_of s) f + sb_hidden (bytes_of s) f) in
let first_sector :=
  u32 (sb_root_blk (bytes_of s) f * sb_sector_per_blk (bytes_of s) f + data_sector) in
let count := sb_sector_per_blk (bytes_of s) f in
'(root, s) ← malloc_ 8192 s;
let s := set_bytes (memset (bytes_of s) root 0 8192) s in
let '(r, s) := read_ dv count first_sector root s in
if negb (r =? 0) then Ret (r, s)
else
  match find_entry (bytes_of s) root filename with
  | Some i =>
      let s := set_bytes (memcpy (bytes_of s) d (root + i * 128) 128) s in
      s ← free_ root s; Ret (0, s)
  | None => s ← free_ root s; Ret (1, s)
  end.

(** [file_close]: the tables are freed up to the first null entry. *)
Fixpoint free_tables (k : nat) (i blocks : Z) s : outcome (sys H) :=
match k with
| O => Ret s
| S k =>
    let b := ld64 (bytes_of s) (blocks + 8 * i) in
    if b =? 0 then Ret s
    else s ← free_ b s; free_tables k (i + 1) blocks s
end.

Definition file_close fp s : outcome (Z * sys H) :=
if fp =? 0 then Ret (-1, s)
else
  f ← get_file fp s;
  s ← free_ (buffer f) s;
  s ← free_tables 1024 0 (blocks f) s;
  s ← free_ (blocks f) s;
  s ← free_ fp s;
  Ret (0, set_files (delete fp (files s)) s).

(** The walk along the chain of blocks.  [Chain index flg_start]: the table is full;
  [ChainEof]: the chain ended; [ChainErr]: a sector of the table could not be read. *)
Inductive chain :=
| Chain (index flg_start : Z)
| ChainEof
| ChainErr.

Fixpoint fill_blocks (k : nat) (t f fp dv BLK blocks index flg_start : Z) s :
  outcome (chain * sys H) :=
match k with
| O => Ret (Chain index flg_start, s)
| S k =>
    let m := bytes_of s in
    let lba := u32 (u32 (index * sb_sector_per_blk m f) + sb_rsv m f + sb_hidden m f) in
    let s := set_bytes (st32 m (blocks + 4 * t) lba) s in
    fl ← get_file fp s;
    let s := put_file fp (set_num_of_blocks (u32 (num_of_blocks fl + 1)) fl) s in
    let m := bytes_of s in
    if sb_byte_per_sector m f =? 0 then Undef
    else
      let start := u32 (u32 (index * 4) / sb_byte_per_sector m f + sb_rsv m f + sb_hidden m f) in
      let '(r, s) :=
        if negb (flg_start =? start) then read_ dv 1 start BLK s else (0, s) in
      if negb (r =? 0) then Ret (ChainErr, s)
      else
        let flg_start := start in
        let m := bytes_of s in
        if sb_byte_per_sector m f / 4 =? 0 then Undef
        else
          let index := index mod (sb_byte_per_sector m f / 4) in
          let index := ld32 m (BLK + 4 * index) in
          if index =? u32 EOF then Ret (ChainEof, s)
          else fill_blocks k (t + 1) f fp dv BLK blocks index flg_start s
end.

(** The outer loop: one table of 1024 entries per pass.  [false] is the error. *)
Fixpoint fill_tables (k : nat) (i f fp dv BLK index flg_start : Z) s : outcome (bool * sys H) :=
match k with
| O => Ret (true, s)
| S k =>
    '(b, s) ← malloc_ (1024 * 4) s;
    fl ← get_file fp s;
    let s := set_bytes (st64 (bytes_of s) (blocks fl + 8 * i) b) s in
    let s := set_bytes (memset (bytes_of s) b 0 4096) s in
    '(c, s) ← fill_blocks 1024 0 f fp dv BLK b index flg_start s;
    match c with
    | Chain index flg_start => fill_tables k (i + 1) f fp dv BLK index flg_start s
    | ChainEof => Ret (true, s)
    | ChainErr =>
        s ← free_ BLK s;
        '(_, s) ← file_close fp s;
        Ret (false, s)
    end
end.

Definition open_file_r (d f dv : Z) s : outcome (Z * sys H) :=
'(fp, s) ← malloc_ sizeof_FILE s;
let fl := zero |> set_bsize (u32 (sb_byte_per_sector (bytes_of s) f * sb_sector_per_blk (bytes_of s) f)) in
'(b, s) ← malloc_ BUFSIZ s;
let fl := fl |> set_buffer b |> set_fsize (de_file_size (bytes_of s) d)
             |> set_byte_per_sector (sb_byte_per_sector (bytes_of s) f)
             |> set_count (sb_sector_per_blk (bytes_of s) f)
             |> set_dv_num dv in
'(bl, s) ← malloc_ (1024 * 8) s;
let s := put_file fp (set_blocks bl fl) s in
let s := set_bytes (memset (bytes_of s) bl 0 (1024 * 8)) s in
let index := de_first_blk (bytes_of s) d in
'(BLK, s) ← malloc_ 8192 s;
'(ok, s) ← fill_tables 1024 0 f fp dv BLK index (u32 (-1)) s;
if (ok : bool) then s ← free_ BLK s; Ret (fp, s) else Ret (0, s).

Definition open_file (dv filename : Z) s : outcome (Z * sys H) :=
'(fs_directory, s) ← malloc_ sizeof_directory_entry s;
let s := set_bytes (memset (bytes_of s) fs_directory 0 sizeof_directory_entry) s in
'(f, s) ← malloc_ 0x1000 s;
let s := set_bytes (memset (bytes_of s) f 0 0x1000) s in
let start := 1 in
let '(r, s) := read_super_block f dv start s in
if negb (r =? 0) then
  s ← free_ fs_directory s; s ← free_ f s; Ret (0, s)
else
  '(r, s) ← read_directory_entry fs_directory f dv filename s;
  if negb (r =? 0) then
    s ← free_ fs_directory s; s ← free_ f s; Ret (0, s)
  else
    '(fp, s) ← open_file_r fs_directory f dv s;
    s ← free_ fs_directory s;
    s ← free_ f s;
    Ret (fp, s).

Definition file_read_block fp (addr : Z) s : outcome (Z * sys H) :=
f ← get_file fp s;
if (u32 addr >=? num_of_blocks f) || (fp =? 0) then Ret (-1, s)
else
  let blocks := ld64 (bytes_of s) (blocks f + 8 * Z.quot addr 1024) in
  let start := ld32 (bytes_of s) (blocks + 4 * Z.rem addr 1024) in
  Ret (read_ (dv_num f) (count f) start (buffer f) s).

(** ** The standard library's face (stdio.c) *)

Definition fopen (dv path mode : Z) s : outcome (Z * sys H) :=
if (bytes_of s)⟦mode⟧ =? 0 then Ret (0, s)
else if starts_with (bytes_of s) mode str_std then std_open_file mode s
else if starts_with (bytes_of s) mode str_pipe then pipe_open_file s
else open_file dv path s.

Definition fclose fp s : outcome (Z * sys H) :=
if fp =? 0 then Ret (-1, s)
else
  f ← get_file fp s;
  if (flags f =? 1) || (flags f =? 2) || (flags f =? 3) || (flags f =? 4)
  then std_file_close fp s
  else file_close fp s.

Definition rewind fp s : outcome (sys H) :=
if fp =? 0 then Ret s
else
  f ← get_file fp s;
  Ret (put_file fp (f |> set_off2 0 |> set_off 0 |> set_level 0
                      |> set_flags (Z.land (flags f) (Z.lnot 0x10))) s).

Definition fseek fp (num_bytes origin : Z) s : outcome (Z * sys H) :=
f ← get_file fp s;
let f :=
  if origin =? 0 then f |> set_off (u32 num_bytes) |> set_off2 (u32 num_bytes)
  else if origin =? 1 then
    f |> set_off (u32 (off f + num_bytes)) |> set_off2 (u32 (off2 f + num_bytes))
  else if origin =? 2 then
    let f := set_off (u32 (fsize f - num_bytes)) f in set_off2 (off f) f
  else f in
if bsize f =? 0 then Undef
else Ret (0, put_file fp (set_level (s16 (off f mod bsize f)) f) s).

Definition ftell fp s : outcome Z :=
if fp =? 0 then Ret 0 else f ← get_file fp s; Ret (off f).

Definition fputc (fuel : nat) (ch fp : Z) s : outcome (Z * sys H) :=
f ← get_file fp s;
if (flags f =? 2) || (flags f =? 3) || (flags f =? 4) then std_putc fuel ch fp s
else Ret (0, s).

(** The block of the position is read when the flag 0x10 says the buffer does not hold it. *)
Definition fgetc_load fp s : outcome (sys H) :=
f ← get_file fp s;
if Z.land (flags f) 0x10 =? 0 then
  let f := set_flags (Z.lor (flags f) 0x10) f in
  let s := put_file fp f s in
  if bsize f =? 0 then Undef
  else
    let addr := s32 (off f / bsize f) in
    '(_, s) ← file_read_block fp addr s; Ret s
else Ret s.

(** The byte at the buffer position is taken and the position advances. *)
Definition fgetc_take fp s : outcome (Z * sys H) :=
f ← get_file fp s;
let f := set_curp (buffer f + level f) f in
let f := set_level (s16 (level f + 1)) f in
let r := (bytes_of s)⟦curp f⟧ in
let f := if u32 (level f) >=? bsize f
         then f |> set_flags (Z.land (flags f) (Z.lnot 0x10)) |> set_level 0 else f in
let f := set_off (u32 (off f + 1)) f in
Ret (r, put_file fp f s).

Definition fgetc fp s : outcome (Z * sys H) :=
f ← get_file fp s;
if (flags f =? 2) || (flags f =? 3) || (flags f =? 4) then std_getc fp s
else if off f >=? fsize f then Ret (EOF, s)
else s ← fgetc_load fp s; fgetc_take fp s.

Fixpoint fread_loop (n : nat) (buf fp rc : Z) s : outcome (Z * sys H) :=
match n with
| O => Ret (rc, s)
| S n =>
    '(c, s) ← fgetc fp s;
    if c =? EOF then Ret (rc, s)
    else fread_loop n (buf + 1) fp (rc + 1) (set_bytes (bytes_of s)⟦buf := u8 c⟧ s)
end.

Definition fread (buffer size count fp : Z) s : outcome (Z * sys H) :=
if fp =? 0 then Ret (0, s)
else
  '(rc, s) ← fread_loop (Z.to_nat (u64 (size * count))) buffer fp 0 s;
  if size =? 0 then Undef else Ret (rc / size, s).
End files.

(** ** Pipes as queues *)

(** Offsets after [k] messages: the counter wraps only when the next message comes. *)
Definition ring_off (k : Z) : Z := if k =? 0 then 0 else 16 * ((k - 1) mod 512 + 1).

Section pipes.
Context {H : Type} `{Allocator H}.
Implicit Types (s : sys H) (fp buf r w k : Z) (msgs : list (list Z)).

(** The pipe at [fp] has carried the messages [msgs], of which [r] were read. *)
Definition pipe_rep s fp msgs r : Prop :=
exists f, files s !! fp = Some f /\ fp <> 0 /\ level f = 0 /\ bsize f = BUFSIZ /\
  off f = ring_off (zlen msgs) /\ off2 f = ring_off r /\
  0 <= r <= zlen msgs /\ zlen msgs < r + 512 /\
  forall (k : nat) l, r <= Z.of_nat k -> msgs !! k = Some l ->
    bytes (bytes_of s) (buffer f + 16 * (Z.of_nat k mod 512)) 16 = l.

(** [buf] is clear of the pipe's buffer. *)
Definition clear_of s fp buf n : Prop :=
forall f, files s !! fp = Some f -> buf + n <= buffer f \/ buffer f + BUFSIZ <= buf.

Lemma files_put s fp f : files (put_file fp f s) !! fp = Some f.
Proof. apply lookup_insert_eq. Qed.

(** A loop that copies byte by byte between two regions that do not overlap, with the
  pointer it used last left in [curp]. *)
Lemma copy_loop n (body : Z -> FILE * mem -> FILE * mem) (f0 : FILE) (m0 : mem) dst src :
0 <= n -> (dst + n <= src \/ src + n <= dst) ->
(forall i c m, 0 <= i < n -> exists c', body i (set_curp c f0, m) =
   (set_curp c' f0, m⟦dst + i := m⟦src + i⟧⟧)) ->
exists c m', for_upto 0 n body (f0, m0) = (set_curp c f0, m') /\
  forall a, m'⟦a⟧ = if within a dst n then m0⟦src + (a - dst)⟧ else m0⟦a⟧.
Proof.
intros Hn Hd Hbody.
apply (for_upto_elim (fun i p => exists c m', p = (set_curp c f0, m') /\
  forall a, m'⟦a⟧ = if within a dst i then m0⟦src + (a - dst)⟧ else m0⟦a⟧)); [done|..|done].
- exists (curp f0), m0. split; [by destruct f0|]. intros a. case_within; [lia|done].
- intros i p Hi (c & m' & -> & Hm'). destruct (Hbody i c m' Hi) as [c' E].
  exists c', m'⟦dst + i := m'⟦src + i⟧⟧. split; [exact E|].
  intros a. rewrite rd_wr, (Hm' (src + i)), (Hm' a). case_within; try lia; try done.
  f_equal. lia.
Qed.

Lemma both_eqb a b : (a <=? b) && (a >=? b) = (a =? b).
Proof. destruct (Z.leb_spec a b), (Z.geb_spec a b), (Z.eqb_spec a b); lia || done. Qed.

Lemma ring_off_S k : 0 <= k -> ring_off (k + 1) = 16 * (k mod 512) + 16.
Proof.
intros Hk. unfold ring_off. destruct (Z.eqb_spec (k + 1) 0); [lia|].
replace (k + 1 - 1) with k by lia. lia.
Qed.

(** The offset an operation starts from, the wrap included. *)
Lemma ring_off_wrap k :
0 <= k -> (if ring_off k >=? BUFSIZ then 0 else ring_off k) = 16 * (k mod 512).
Proof.
intros Hk. unfold ring_off, BUFSIZ. destruct (Z.eqb_spec k 0) as [->|]; [done|].
destruct (Z.geb_spec (16 * ((k - 1) mod 512 + 1)) 8192); word_lia.
Qed.

Lemma pipe_write_enqueues s fp msgs r buf :
pipe_rep s fp msgs r -> clear_of s fp buf PIPE_SIZE -> zlen msgs - r < 511 ->
exists s', pipe_write buf fp s = Ret (PIPE_SIZE, s') /\
  pipe_rep s' fp (msgs ++ [bytes (bytes_of s) buf 16]) r /\ heap s' = heap s.
Proof.
intros (f & Hf & Hfp & Hlev & Hbs & Hoff & Hoff2 & Hr & Hw & Hmsgs) Hclear Hroom.
unfold pipe_write. destruct (Z.eqb_spec fp 0); [done|].
unfold get_file. rewrite Hf. cbn [mbind outcome_bind].
set (w := zlen msgs) in *.
set (f1 := if _ || _ then _ else f).
assert (buffer f1 = buffer f /\ off f1 = 16 * (w mod 512) /\ off2 f1 = off2 f /\
        level f1 = 0 /\ bsize f1 = BUFSIZ) as (Eb & Eo & Eo2 & El & Es).
{ pose proof (ring_off_wrap w ltac:(lia)) as Hwrap. unfold f1. rewrite Hlev, Hbs, Hoff.
  change (u32 0 >=? BUFSIZ) with false. cbn [orb].
  destruct (ring_off w >=? BUFSIZ); cbn; rewrite ?Hoff; done. }
clearbody f1.
specialize (Hclear f Hf). unfold PIPE_SIZE, BUFSIZ in *.
match goal with |- context [for_upto 0 16 ?b _] =>
  destruct (copy_loop 16 b f1 (bytes_of s) (buffer f + 16 * (w mod 512)) buf)
    as (c & m' & E & Hm'); [lia|word_lia|..|rewrite E]
end.
{ intros i c m Hi. eexists. cbn. rewrite Eb, Eo. reflexivity. }
cbn. eexists. split; [reflexivity|]. split; [|done].
eexists. split; [apply files_put|]. cbn. rewrite length_app. cbn [length].
replace (Z.of_nat (length msgs + 1)) with (w + 1) by (unfold w; lia).
split_and!; [exact Hfp|exact El|exact Es| |by rewrite Eo2|lia|lia|lia|].
- rewrite Eo, ring_off_S by lia. rewrite u32_small; word_lia.
- intros k l Hk Hl. rewrite Eb.
  destruct (decide (k < length msgs)%nat) as [Hlt|Hge].
  + rewrite lookup_app_l in Hl by done.
    rewrite <- (Hmsgs k l Hk Hl). apply bytes_ext. intros a Ha. rewrite Hm'.
    case_within; [exfalso|done]. word_lia.
  + assert (k = length msgs) as -> by (apply lookup_lt_Some in Hl; rewrite length_app in Hl; cbn in Hl; lia).
    rewrite lookup_app_r, Nat.sub_diag in Hl by done. injection Hl as <-. fold w.
    unfold bytes. apply list_fmap_ext. intros i x Hx. apply lookup_seq in Hx as [-> Hi].
    rewrite Hm'. case_within; [|lia]. f_equal. lia.
Qed.

Lemma pipe_read_start s fp msgs r f :
pipe_rep s fp msgs r -> files s !! fp = Some f ->
let f1 := if off2 f >=? bsize f then set_off2 0 f else f in
buffer f1 = buffer f /\ off f1 = off f /\ off2 f1 = 16 * (r mod 512) /\
level f1 = 0 /\ bsize f1 = BUFSIZ /\ off f = ring_off (zlen msgs).
Proof.
intros (f' & Hf & Hfp & Hlev & Hbs & Hoff & Hoff2 & Hr & Hw & Hmsgs) Hf'.
rewrite Hf in Hf'. injection Hf' as <-. cbv zeta.
pose proof (ring_off_wrap r ltac:(lia)) as Hwrap. rewrite Hbs, Hoff2.
destruct (ring_off r >=? BUFSIZ); cbn; rewrite ?Hoff2; done.
Qed.

Lemma pipe_read_copies s fp msgs r buf f :
pipe_rep s fp msgs r -> clear_of s fp buf PIPE_SIZE -> files s !! fp = Some f ->
ring_off (zlen msgs) <> 16 * (r mod 512) ->
exists s', pipe_read buf fp s = Ret (PIPE_SIZE, s') /\
  bytes (bytes_of s') buf 16 = bytes (bytes_of s) (buffer f + 16 * (r mod 512)) 16 /\
  (r < zlen msgs -> pipe_rep s' fp msgs (r + 1)) /\ heap s' = heap s.
Proof.
intros Hrep Hclear Hf Hne.
destruct (pipe_read_start s fp msgs r f Hrep Hf) as (Eb & Eo & Eo2 & El & Es & Eoff).
destruct Hrep as (f' & Hf' & Hfp & Hlev & Hbs & Hoff & Hoff2 & Hr & Hw & Hmsgs).
rewrite Hf in Hf'. injection Hf' as <-.
unfold pipe_read. destruct (Z.eqb_spec fp 0); [done|].
unfold get_file. rewrite Hf. cbn [mbind outcome_bind].
set (f1 := if _ >=? _ then _ else f) in *. clearbody f1.
rewrite Eo, Eo2, Eoff.
rewrite both_eqb. destruct (Z.eqb_spec (ring_off (zlen msgs)) (16 * (r mod 512))); [done|].
specialize (Hclear f Hf). unfold PIPE_SIZE, BUFSIZ in *.
pose proof (Z.mod_pos_bound r 512 ltac:(lia)) as Hrm.
match goal with |- context [for_upto 0 16 ?b _] =>
  destruct (copy_loop 16 b f1 (bytes_of s) buf (buffer f + 16 * (r mod 512)))
    as (c & m' & E & Hm'); [lia|lia|intros i c m Hi; eexists; cbn; rewrite Eb, Eo2; reflexivity|rewrite E]
end.
cbn. eexists. split; [reflexivity|]. cbn. split; [|split; [|done]].
- unfold bytes. apply list_fmap_ext. intros i x Hx. apply lookup_seq in Hx as [-> Hi].
  rewrite Hm'. case_within; [f_equal; lia|lia].
- intros Hlt. eexists. split; [apply files_put|]. cbn. split_and!; [exact Hfp|exact El|exact Es|congruence| |lia|lia|lia|].
  + rewrite Eo2, ring_off_S, u32_small by lia. done.
  + intros k l Hk Hl. rewrite Eb. rewrite <- (Hmsgs k l ltac:(lia) Hl). apply bytes_ext.
    pose proof (Z.mod_pos_bound (Z.of_nat k) 512 ltac:(lia)).
    intros a Ha. rewrite Hm'. case_within; [lia|done].
Qed.

(** A reader whose offset, reset at the end of the ring, is the writer's waits. *)
Lemma pipe_read_waits s fp f buf :
files s !! fp = Some f -> fp <> 0 -> off f = (if off2 f >=? bsize f then 0 else off2 f) -> pipe_read buf fp s = Hang.
Proof.
intros Hf Hfp Ho. unfold pipe_read. destruct (Z.eqb_spec fp 0); [done|]. unfold get_file. rewrite Hf.
cbn [mbind outcome_bind]. destruct (off2 f >=? bsize f); cbn [off off2 set_off2]; by rewrite both_eqb, Ho, Z.eqb_refl.
Qed.

Lemma pipe_read_empty s fp msgs r buf : pipe_rep s fp msgs r -> zlen msgs = r -> r = 0 \/ r mod 512 <> 0 ->
pipe_read buf fp s = Hang.
Proof.
intros (f & Hf & Hfp & _ & Hbs & Ho & Ho2 & Hr & _ & _) Hl Hm. apply (pipe_read_waits s fp f); [done..|].
rewrite Ho, Ho2, Hbs, Hl. pose proof (ring_off_wrap r ltac:(lia)) as Hw. rewrite Hw. unfold ring_off.
destruct (Z.eqb_spec r 0) as [->|]; [done|]. word_lia.
Qed.

(** The message that fills the ring. *)
Lemma pipe_write_fills s fp msgs r buf : pipe_rep s fp msgs r -> zlen msgs - r = 511 -> r mod 512 <> 0 ->
exists s', pipe_write buf fp s = Ret (PIPE_SIZE, s') /\ forall to, pipe_read to fp s' = Hang.
Proof.
intros (f & Hf & Hfp & Hlev & Hbs & Ho & Ho2 & Hr & _ & _) Hl Hm. unfold pipe_write.
destruct (Z.eqb_spec fp 0); [done|]. unfold get_file. rewrite Hf. cbn [mbind outcome_bind].
set (f1 := if _ || _ then _ else f).
assert (off f1 = 16 * (zlen msgs mod 512) /\ off2 f1 = off2 f /\ bsize f1 = BUFSIZ) as (E1 & E2 & E3).
{ pose proof (ring_off_wrap (zlen msgs) ltac:(lia)) as Hw. unfold f1. rewrite Hlev, Hbs, Ho.
  change (u32 0 >=? BUFSIZ) with false. cbn [orb]. destruct (ring_off (zlen msgs) >=? BUFSIZ); cbn; by rewrite ?Ho. }
clearbody f1.
match goal with |- context [for_upto 0 PIPE_SIZE ?b _] =>
  pose proof (for_upto_inv (fun _ (p : FILE * mem) => off p.1 = off f1 /\ off2 p.1 = off2 f1 /\ bsize p.1 = bsize f1)
    0 PIPE_SIZE b (f1, bytes_of s)) as Hi;
  destruct (for_upto 0 PIPE_SIZE b (f1, bytes_of s)) as [f2 m2]
end.
destruct Hi as (G1 & G2 & G3); [done|done|intros i [g m] _ HG; exact HG|]. cbn [fst] in G1, G2, G3.
eexists. split; [reflexivity|]. intros to. apply (pipe_read_waits _ fp _ to (files_put _ _ _) Hfp).
cbn [off off2 bsize set_off set_fsize]. rewrite G1, G2, G3, E1, E2, E3, Ho2.
rewrite (ring_off_wrap r) by lia. unfold PIPE_SIZE. rewrite u32_small; word_lia.
Qed.
End pipes.

(** ** Reading a file *)

(** The disk holds [data dv lba i] in the [i]-th byte from sector [lba], with sectors of
    [bps] bytes: every transfer succeeds and writes those bytes and no others. *)
Definition disk_holds (read_sector : disk) (bps : Z) (data : Z -> Z -> Z -> Z) : Prop :=
  forall dv count lba buf m, 0 <= count ->
  exists m', read_sector dv count lba buf m = (0, m') /\
    forall a, m'⟦a⟧ = if within a buf (count * bps) then data dv lba (a - buf) else m⟦a⟧.

Section reading.
Context {H : Type} `{Allocator H} (read_sector : disk) (bps : Z) (data : Z -> Z -> Z -> Z).
(** The open file: its buffer, block tables, and geometry. *)
Context (fp b bl n dv cnt bs size : Z) (tbl lba : Z -> Z).
Implicit Types (s : sys H) (p k a : Z).

(** The cells of the table entries of block [k]. *)
Definition table_cell k a : Prop :=
bl + 8 * (k / 1024) <= a < bl + 8 * (k / 1024) + 8 \/
tbl (k / 1024) + 4 * (k mod 1024) <= a < tbl (k / 1024) + 4 * (k mod 1024) + 4.

Definition tables_hold (m : mem) : Prop :=
forall k, 0 <= k < n ->
  ld64 m (bl + 8 * (k / 1024)) = tbl (k / 1024) /\
  ld32 m (tbl (k / 1024) + 4 * (k mod 1024)) = lba k.

(** The byte at offset [p] of the file. *)
Definition file_byte p : Z := data dv (lba (p / bs)) (p mod bs).

Record geometry : Prop := {
geo_disk : disk_holds read_sector bps data;
geo_bs : 0 < bs <= BUFSIZ;
geo_cnt : cnt * bps = bs /\ 0 <= cnt;
geo_fp : fp <> 0;
geo_n : 0 <= n <= 1048576;
geo_size : 0 <= size < 2 ^ 32 /\ size <= n * bs;
geo_bytes : forall l i, 0 <= data dv l i < 256;
geo_apart : forall k a, 0 <= k < n -> table_cell k a -> ~ b <= a < b + bs
}.

(** The file stands at offset [p]; with the flag 0x10 set the buffer holds its block. *)
Definition file_rep s p : Prop :=
exists f, files s !! fp = Some f /\
  buffer f = b /\ blocks f = bl /\ num_of_blocks f = n /\ dv_num f = dv /\ count f = cnt /\
  bsize f = bs /\ fsize f = size /\ off f = p /\ level f = p mod bs /\ 0 <= p <= size /\
  tables_hold (bytes_of s) /\
  ((flags f = 0 /\ p mod bs = 0) \/
   (flags f = 0x10 /\ forall i, 0 <= i < bs -> (bytes_of s)⟦b + i⟧ = data dv (lba (p / bs)) i)).

Lemma tables_hold_ext m m' :
(forall k a, 0 <= k < n -> table_cell k a -> m'⟦a⟧ = m⟦a⟧) -> tables_hold m -> tables_hold m'.
Proof.
intros E Ht k Hk. destruct (Ht k Hk) as [H1 H2]. split.
- rewrite (ld_ext 8 m); [done|]. intros a Ha. apply (E k); [done|]. left. lia.
- rewrite (ld_ext 4 m); [done|]. intros a Ha. apply (E k); [done|]. right. lia.
Qed.

Lemma file_read_block_spec s f k :
geometry -> files s !! fp = Some f -> buffer f = b -> blocks f = bl ->
num_of_blocks f = n -> dv_num f = dv -> count f = cnt -> tables_hold (bytes_of s) ->
0 <= k < n ->
exists m', file_read_block read_sector fp k s = Ret (0, set_bytes m' s) /\
  (forall i, 0 <= i < bs -> m'⟦b + i⟧ = data dv (lba k) i) /\
  (forall a, ~ b <= a < b + bs -> m'⟦a⟧ = (bytes_of s)⟦a⟧).
Proof.
intros G Hf Hb Hbl Hn Hdv Hc Ht Hk. unfold file_read_block, get_file. rewrite Hf.
cbn [mbind outcome_bind]. pose proof (geo_n G). pose proof (geo_cnt G) as [Hcb Hc0].
rewrite u32_small by lia. rewrite Hn, Hb, Hbl, Hdv, Hc.
destruct (Z.geb_spec k n); [lia|]. cbn [orb]. destruct (Z.eqb_spec fp 0); [by destruct (geo_fp G)|].
rewrite Z.quot_div_nonneg, Z.rem_mod_nonneg by lia.
destruct (Ht k Hk) as [-> ->].
destruct (geo_disk G dv cnt (lba k) b (bytes_of s) Hc0) as (m' & E & Hm').
unfold read_. rewrite E. exists m'. rewrite Hcb in Hm'. split_and!; [done|..].
- intros i Hi. rewrite Hm'. case_within; [f_equal; lia|lia].
- intros a Ha. rewrite Hm'. by case_within.
Qed.

(** The byte in the buffer is delivered and the position advances. *)
Lemma fgetc_deliver s f p :
geometry -> files s !! fp = Some f ->
buffer f = b -> blocks f = bl -> num_of_blocks f = n -> dv_num f = dv -> count f = cnt ->
bsize f = bs -> fsize f = size -> off f = p -> level f = p mod bs -> 0 <= p < size ->
tables_hold (bytes_of s) -> flags f = 0x10 ->
(forall i, 0 <= i < bs -> (bytes_of s)⟦b + i⟧ = data dv (lba (p / bs)) i) ->
exists s', fgetc_take fp s = Ret (file_byte p, s') /\ file_rep s' (p + 1) /\
  bytes_of s' = bytes_of s /\ heap s' = heap s /\ delete fp (files s') = delete fp (files s).
Proof.
intros G Hf Hb Hbl Hn Hdv Hc Hbs Hsz Hoff Hlev Hp Ht Hfl Hbuf.
pose proof (geo_bs G) as Hgb. unfold BUFSIZ in Hgb. pose proof (geo_size G) as [Hgs _].
pose proof (Z.mod_pos_bound p bs ltac:(lia)) as Hpm.
unfold fgetc_take, get_file. rewrite Hf. cbn [mbind outcome_bind].
cbn [curp set_curp set_level level buffer]. rewrite Hb, Hlev, Hbuf by lia.
replace (s16 (p mod bs + 1)) with (p mod bs + 1) by word_lia.
rewrite (u32_small (p mod bs + 1)) by lia. cbn [bsize set_level set_curp]. rewrite Hbs.
assert (p + 1 = bs * (p / bs) + (p mod bs + 1)) as Hp1 by (pose proof (Z.div_mod p bs); lia).
eexists. split; [reflexivity|]. split; [|split; [done|split; [done|apply delete_insert_eq]]].
eexists. split; [apply files_put|].
destruct (Z.geb_spec (p mod bs + 1) bs) as [Hge|Hlt].
- cbn. rewrite Hfl, Hoff, u32_small by lia.
  assert ((p + 1) mod bs = 0) as Hz.
  { replace (p + 1) with (0 + (p / bs + 1) * bs) by lia. rewrite Z.mod_add by lia.
    apply Z.mod_small. lia. }
  split_and!; try done; try lia. left. done.
- cbn. rewrite Hoff, u32_small by lia.
  assert ((p + 1) mod bs = p mod bs + 1 /\ (p + 1) / bs = p / bs) as [Hm Hd].
  { split; [symmetry; apply (Z.mod_unique_pos _ _ (p / bs)); lia|
            symmetry; apply (Z.div_unique_pos _ _ _ (p mod bs + 1)); lia]. }
  split_and!; try done; try lia. right. split; [done|]. by rewrite Hd.
Qed.

Lemma fgetc_load_spec s f p :
geometry -> files s !! fp = Some f ->
buffer f = b -> blocks f = bl -> num_of_blocks f = n -> dv_num f = dv -> count f = cnt ->
bsize f = bs -> fsize f = size -> off f = p -> 0 <= p < size -> tables_hold (bytes_of s) ->
(flags f = 0 \/
 (flags f = 0x10 /\ forall i, 0 <= i < bs -> (bytes_of s)⟦b + i⟧ = data dv (lba (p / bs)) i)) ->
exists s1 f1, fgetc_load read_sector fp s = Ret s1 /\ files s1 !! fp = Some f1 /\
  (buffer f1 = buffer f /\ blocks f1 = blocks f /\ num_of_blocks f1 = num_of_blocks f /\
   dv_num f1 = dv_num f /\ count f1 = count f /\ bsize f1 = bsize f /\ fsize f1 = fsize f /\
   off f1 = off f /\ level f1 = level f) /\ flags f1 = 0x10 /\
  (forall i, 0 <= i < bs -> (bytes_of s1)⟦b + i⟧ = data dv (lba (p / bs)) i) /\
  (forall a, ~ b <= a < b + bs -> (bytes_of s1)⟦a⟧ = (bytes_of s)⟦a⟧) /\ heap s1 = heap s /\
  delete fp (files s1) = delete fp (files s).
Proof.
intros G Hf Hb Hbl Hn Hdv Hc Hbs Hsz Hoff Hp Ht Hcase.
pose proof (geo_bs G) as Hgb. pose proof (geo_size G) as [Hgs Hgn]. pose proof (geo_n G).
unfold fgetc_load, get_file. rewrite Hf. cbn [mbind outcome_bind].
destruct Hcase as [Hfl|[Hfl Hbuf]]; rewrite Hfl; cbn [Z.land Pos.land Z.eqb Pos.eqb].
- set (f0 := set_flags (Z.lor 0 16) f).
  assert (bsize f0 = bs /\ off f0 = p) as [-> ->] by (split; [exact Hbs|exact Hoff]).
  destruct (Z.eqb_spec bs 0); [lia|].
  assert (0 <= p / bs < n) as Hk.
  { split; [apply Z.div_pos; lia|]. apply Z.div_lt_upper_bound; lia. }
  rewrite s32_small by lia.
  destruct (file_read_block_spec (put_file fp f0 s) f0 (p / bs) G) as (m' & E & Hin & Hout);
    [apply files_put|done..|].
  rewrite E. cbn [mbind outcome_bind].
  exists (set_bytes m' (put_file fp f0 s)), f0. split_and!; try done; [apply files_put|apply delete_insert_eq].
- exists s, f. split_and!; done.
Qed.

Lemma fgetc_next s p :
geometry -> file_rep s p -> p < size ->
exists s', fgetc read_sector fp s = Ret (file_byte p, s') /\ file_rep s' (p + 1) /\
  (forall a, ~ b <= a < b + bs -> (bytes_of s')⟦a⟧ = (bytes_of s)⟦a⟧) /\ heap s' = heap s /\
  delete fp (files s') = delete fp (files s).
Proof.
intros G (f & Hf & Hb & Hbl & Hn & Hdv & Hc & Hbs & Hsz & Hoff & Hlev & Hp & Ht & Hcase) Hlt.
pose proof (geo_bs G) as Hgb. pose proof (geo_size G) as [Hgs Hgn]. pose proof (geo_n G).
unfold fgetc, get_file. rewrite Hf. cbn [mbind outcome_bind].
replace ((flags f =? 2) || (flags f =? 3) || (flags f =? 4)) with false
  by (destruct Hcase as [[-> _]|[-> _]]; done).
rewrite Hoff, Hsz. destruct (Z.geb_spec p size); [lia|].
destruct (fgetc_load_spec s f p) as (s1 & f1 & E & Hf1 & Hsame & Hfl & Hin & Hout & Hh & Hd); [first [done|lia|destruct Hcase as [[? _]|?]; auto]..|].
rewrite E. cbn [mbind outcome_bind].
destruct Hsame as (? & ? & ? & ? & ? & ? & ? & ? & ?).
destruct (fgetc_deliver s1 f1 p G Hf1) as (s2 & E2 & Hrep & Hb2 & Hh2 & Hd2);
  [congruence..|lia| |done|done|].
{ eapply tables_hold_ext; [|exact Ht]. intros k a Hk' Hcell. apply Hout.
  by apply (geo_apart G k). }
exists s2. split; [exact E2|]. split; [exact Hrep|]. rewrite Hb2, Hh2, Hd2. done.
Qed.

Lemma fgetc_eof s p : geometry -> file_rep s p -> p = size -> fgetc read_sector fp s = Ret (EOF, s).
Proof.
intros G (f & Hf & Hb & Hbl & Hn & Hdv & Hc & Hbs & Hsz & Hoff & Hlev & Hp & Ht & Hcase) ->.
unfold fgetc, get_file. rewrite Hf. cbn [mbind outcome_bind].
replace ((flags f =? 2) || (flags f =? 3) || (flags f =? 4)) with false
  by (destruct Hcase as [[-> _]|[-> _]]; done).
rewrite Hoff, Hsz. destruct (Z.geb_spec size size); [done|lia].
Qed.

Lemma file_byte_range p : geometry -> 0 <= file_byte p < 256.
Proof. intros G. apply (geo_bytes G). Qed.

(** A cell the reader neither fills nor looks block numbers up in. *)
Definition outside_file a : Prop :=
~ b <= a < b + bs /\ forall k, 0 <= k < n -> ~ table_cell k a.

Lemma file_rep_write s p a v :
geometry -> outside_file a -> file_rep s p -> file_rep (set_bytes (bytes_of s)⟦a := v⟧ s) p.
Proof.
intros G [Ha Hcell] (f & Hf & Hb & Hbl & Hn & Hdv & Hc & Hbs & Hsz & Hoff & Hlev & Hp & Ht & Hcase).
exists f. split_and!; try first [done|lia].
- eapply tables_hold_ext; [|exact Ht]. intros k a' Hk Hc'. cbn. apply rd_wr_ne.
  intros ->. by apply (Hcell k).
- destruct Hcase as [Hl|[Hfl Hbuf]]; [by left|right]. split; [done|]. intros i Hi. cbn.
  rewrite rd_wr_ne by lia. by apply Hbuf.
Qed.

Lemma fread_loop_spec (m : nat) s p buf rc :
geometry -> file_rep s p -> (forall i, 0 <= i < Z.of_nat m -> outside_file (buf + i)) ->
let got := Z.min (Z.of_nat m) (size - p) in
exists s', fread_loop read_sector m buf fp rc s = Ret (rc + got, s') /\
  file_rep s' (p + got) /\
  (forall i, 0 <= i < got -> (bytes_of s')⟦buf + i⟧ = file_byte (p + i)) /\
  (forall a, ~ b <= a < b + bs -> ~ buf <= a < buf + got -> (bytes_of s')⟦a⟧ = (bytes_of s)⟦a⟧) /\
  heap s' = heap s /\ delete fp (files s') = delete fp (files s).
Proof.
intros G. revert s p buf rc. induction m as [|m IH]; intros s p buf rc Hrep Hout; cbv zeta.
- assert (0 <= p <= size) as Hp by (by destruct Hrep as (f & Hr); decompose [and] Hr).
  replace (Z.min (Z.of_nat 0) (size - p)) with 0 by lia. rewrite !Z.add_0_r.
  exists s. split_and!; [done|done|intros; lia|done..].
- assert (0 <= p <= size) as Hp by (by destruct Hrep as (f & Hr); decompose [and] Hr).
  cbn [fread_loop]. destruct (decide (p = size)) as [->|Hne].
  + rewrite (fgetc_eof s size) by done. cbn [mbind outcome_bind].
    replace (Z.min (Z.of_nat (S m)) (size - size)) with 0 by lia. rewrite !Z.add_0_r.
    change (EOF =? EOF) with true. cbv iota.
    exists s. split_and!; [done|done|intros; lia|done..].
  + destruct (fgetc_next s p G Hrep ltac:(lia)) as (s1 & E & Hrep1 & Hold & Hh1 & Hd1).
    rewrite E. cbn [mbind outcome_bind]. pose proof (file_byte_range p G) as Hbyte.
    destruct (Z.eqb_spec (file_byte p) EOF) as [Ee|_]; [unfold EOF in Ee; lia|].
    rewrite u8_small by lia.
    pose proof (Hout 0 ltac:(lia)) as Hout0. rewrite Z.add_0_r in Hout0.
    destruct (IH (set_bytes (bytes_of s1)⟦buf := file_byte p⟧ s1) (p + 1) (buf + 1) (rc + 1))
      as (s2 & E2 & Hrep2 & Hin2 & Hold2 & Hh2 & Hd2).
    { by apply file_rep_write. }
    { intros i Hi. replace (buf + 1 + i) with (buf + (i + 1)) by lia. apply Hout. lia. }
    replace (Z.min (Z.of_nat (S m)) (size - p)) with (Z.min (Z.of_nat m) (size - (p + 1)) + 1) by lia.
    set (got := Z.min (Z.of_nat m) (size - (p + 1))) in *.
    assert (0 <= got) by (unfold got; lia).
    exists s2. split_and!.
    * rewrite E2. do 2 f_equal. lia.
    * by replace (p + (got + 1)) with (p + 1 + got) by lia.
    * intros i Hi. destruct (decide (i = 0)) as [->|].
      -- rewrite !Z.add_0_r, Hold2; [|apply Hout0|lia]. cbn. apply rd_wr_eq.
      -- replace (buf + i) with (buf + 1 + (i - 1)) by lia. rewrite Hin2 by lia. f_equal. lia.
    * intros a Ha Hab. rewrite Hold2 by lia. cbn. rewrite rd_wr_ne by lia. by apply Hold.
    * by rewrite Hh2.
    * by rewrite Hd2.
Qed.
End reading.

(** ** The directory *)
Section directory.
Implicit Types (m : mem) (p i : Z) (l : list Z).

(** The entry name of a file: the name, padded with blanks to 96 characters. *)
Definition entry_name l : list Z := l ++ replicate (96 - length l) 32.

Lemma replicate_snoc {A} k (x : A) : replicate (S k) x = replicate k x ++ [x].
Proof. rewrite <- Nat.add_1_r, replicate_add. done. Qed.

Lemma pad_name_spec m p l :
cstr m p l -> (length l <= 96)%nat -> pad_name m p = entry_name l.
Proof.
intros (Hc & Hb & Hz) Hl. unfold pad_name.
apply (for_upto_elim (fun i '(q, l') =>
  q = p + Z.min i (zlen l) /\
  l' = take (Z.to_nat i) l ++ replicate (Z.to_nat (i - zlen l)) 32)); [done|..].
- split; [lia|]. rewrite take_0. replace (Z.to_nat (0 - zlen l)) with O by lia. done.
- intros i [q l'] Hi [-> ->]. destruct (Z.ltb_spec i (zlen l)) as [Hlt|Hge].
  + rewrite Z.min_l by lia.
    destruct (lookup_lt_is_Some_2 l (Z.to_nat i)) as [c Hci]; [lia|].
    pose proof (bytes_at_nth _ _ _ _ _ Hb Hci) as Hm. rewrite Z2Nat.id in Hm by lia.
    assert (0 < c < 256) as Hcr.
    { unfold chars in Hc. rewrite Forall_forall in Hc. apply Hc. by eapply list_elem_of_lookup_2. }
    rewrite Hm. destruct (Z.eqb_spec c 0); [lia|]. split; [lia|].
    replace (Z.to_nat (i - zlen l)) with O by lia. replace (Z.to_nat (i + 1 - zlen l)) with O by lia.
    cbn. rewrite !app_nil_r. replace (Z.to_nat (i + 1)) with (S (Z.to_nat i)) by lia.
    by rewrite (take_S_r _ _ c).
  + rewrite Z.min_r, Hz by lia. split; [lia|].
    rewrite !take_ge by lia. rewrite <- app_assoc. f_equal.
    replace (Z.to_nat (i + 1 - zlen l)) with (S (Z.to_nat (i - zlen l))) by lia.
    by rewrite replicate_snoc.
- intros [q l'] [_ ->]. cbn. unfold entry_name. rewrite take_ge by lia. do 2 f_equal. lia.
Qed.

Lemma filename_cmp_spec m s1 p l :
cstr m p l -> (length l <= 96)%nat ->
filename_cmp m s1 p = if bool_decide (bytes m s1 96 = entry_name l) then 0 else 1.
Proof. intros Hs Hl. unfold filename_cmp. by rewrite (pad_name_spec _ _ l). Qed.

End directory.

(** ** Opening and closing *)
Section opening.
Context {H : Type} `{AllocatorLaws H}.
Implicit Types (s : sys H).

(** There is room for a stream: its [FILE] and its buffer. *)
Definition stream_room s : Prop :=
heap_room (heap s) sizeof_FILE /\
forall p h, malloc sizeof_FILE (heap s) = Ret (p, h) -> heap_room h BUFSIZ.

Lemma new_stream_spec s B flag :
heap_ok (heap s) B -> stream_room s ->
exists fp s' f k1 k2,
  new_stream flag s = Ret (fp, s') /\ 0 < fp /\
  files s' = <[fp := f]> (files s) /\ flags f = flag /\ off f = 0 /\ off2 f = 0 /\
  fsize f = 0 /\ bsize f = BUFSIZ /\ level f = 0 /\ buffer f <> fp /\
  B !! fp = None /\ B !! buffer f = None /\
  heap_ok (heap s') (<[buffer f := k2]> (<[fp := k1]> B)).
Proof.
intros Hok [Hr1 Hr2]. unfold new_stream, malloc_.
destruct (malloc_spec (heap s) B sizeof_FILE Hok ltac:(done) Hr1)
  as (fp & k1 & h1 & E1 & Hk1 & Hp1 & Hok1 & Hd1).
rewrite E1. cbn [mbind outcome_bind heap set_heap].
destruct (malloc_spec h1 _ BUFSIZ Hok1 ltac:(done) (Hr2 _ _ E1))
  as (b & k2 & h2 & E2 & Hk2 & Hp2 & Hok2 & Hd2).
rewrite E2. cbn [mbind outcome_bind]. unfold sizeof_FILE, BUFSIZ in Hk1, Hk2.
assert (b <> fp) as Hne.
{ intros ->. destruct (Hd2 fp k1 (lookup_insert_eq _ _ _)); lia. }
eexists _, _, _, k1, k2. split; [reflexivity|]. cbn. split; [done|]. split; [reflexivity|].
split_and!; try done.
- destruct (B !! fp) as [j|] eqn:Ej; [|done]. destruct (heap_pos _ _ _ _ Hok Ej).
  destruct (Hd1 fp j Ej); lia.
- destruct (B !! b) as [j|] eqn:Ej; [|done].
  assert (<[fp := k1]> B !! b = Some j) as Ej' by (by rewrite lookup_insert_ne by congruence).
  destruct (heap_pos _ _ _ _ Hok Ej). destruct (Hd2 b j Ej'); lia.
Qed.

Lemma std_file_close_spec s B fp f k1 k2 :
files s !! fp = Some f -> buffer f <> fp ->
heap_ok (heap s) (<[buffer f := k2]> (<[fp := k1]> B)) ->
B !! fp = None -> B !! buffer f = None ->
exists s', std_file_close fp s = Ret (0, s') /\ heap_ok (heap s') B /\
  files s' = delete fp (files s) /\ bytes_of s' = bytes_of s.
Proof.
intros Hf Hne Hok HN1 HN2. unfold std_file_close, get_file, free_. rewrite Hf.
cbn [mbind outcome_bind].
destruct (free_spec _ _ (buffer f) k2 Hok (lookup_insert_eq _ _ _)) as (h1 & E1 & Hok1).
rewrite E1. cbn [mbind outcome_bind heap set_heap].
rewrite delete_insert_eq in Hok1.
assert (delete (buffer f) (<[fp := k1]> B) = <[fp := k1]> B) as Ed
  by (apply delete_id; by rewrite lookup_insert_ne by congruence).
rewrite Ed in Hok1.
destruct (free_spec _ _ fp k1 Hok1 (lookup_insert_eq _ _ _)) as (h2 & E2 & Hok2).
rewrite E2. cbn [mbind outcome_bind]. rewrite delete_insert_id in Hok2 by done.
eexists. split; [reflexivity|]. done.
Qed.
End opening.

(** ** Properties *)

(** C35: a pipe is a queue of 16-byte messages as long as fewer than 512 wait in it, with a fault at the end of the
    ring.  While fewer than 511 messages wait, a write returns 16 and appends its message behind the waiting ones; while
    one waits, a read returns 16 and delivers the oldest, exactly as it was written, however often
    the ring has wrapped in between.  A read of an empty pipe waits, unless the last message read was
    the last of the ring: then it returns the bytes at the start of the buffer, a message that was read long ago.
    A write when 511 messages wait makes the pipe look empty, so that the reader waits, unless
    the oldest message stands at the start of the ring. *)
Theorem pipe_is_queue {H : Type} `{Allocator H} (s : sys H) (fp buf r : Z) (msgs : list (list Z)) :
  pipe_rep s fp msgs r -> clear_of s fp buf PIPE_SIZE ->
  (zlen msgs - r < 511 ->
   exists s', pipe_write buf fp s = Ret (PIPE_SIZE, s') /\
     pipe_rep s' fp (msgs ++ [bytes (bytes_of s) buf 16]) r) /\
  (forall l, msgs !! Z.to_nat r = Some l ->
   exists s', pipe_read buf fp s = Ret (PIPE_SIZE, s') /\
     bytes (bytes_of s') buf 16 = l /\ pipe_rep s' fp msgs (r + 1)) /\
  (zlen msgs = r -> r = 0 \/ r mod 512 <> 0 -> pipe_read buf fp s = Hang) /\
  (zlen msgs = r -> 0 < r -> r mod 512 = 0 ->
   exists f s', files s !! fp = Some f /\ pipe_read buf fp s = Ret (PIPE_SIZE, s') /\
     bytes (bytes_of s') buf 16 = bytes (bytes_of s) (buffer f) 16) /\
  (zlen msgs - r = 511 -> r mod 512 <> 0 ->
   exists s', pipe_write buf fp s = Ret (PIPE_SIZE, s') /\ forall to, pipe_read to fp s' = Hang).
Proof.
  intros Hrep Hclear. split; [|split; [|split; [|split]]].
  - intros Hroom. destruct (pipe_write_enqueues s fp msgs r buf Hrep Hclear Hroom)
      as (s' & E & Hrep' & _). by exists s'.
  - intros l Hl. pose proof (lookup_lt_Some _ _ _ Hl) as Hlt.
    pose proof Hrep as (f & Hf & _ & _ & _ & _ & _ & Hr & Hw & Hmsgs).
    destruct (pipe_read_copies s fp msgs r buf f Hrep Hclear Hf) as (s' & E & Hb & Hrep' & _).
    { replace (zlen msgs) with (zlen msgs - 1 + 1) by lia. rewrite ring_off_S by lia. word_lia. }
    exists s'. split; [exact E|]. split; [|apply Hrep'; lia].
    rewrite Hb. rewrite <- (Hmsgs (Z.to_nat r) l) by (done || lia). by rewrite Z2Nat.id by lia.
  - intros Hl Hm. by apply (pipe_read_empty s fp msgs r).
  - intros Hl Hr Hm. pose proof Hrep as (f & Hf & _). exists f.
    destruct (pipe_read_copies s fp msgs r buf f Hrep Hclear Hf) as (s' & E & Hb & _).
    { rewrite Hl, Hm. unfold ring_off. destruct (Z.eqb_spec r 0); word_lia. }
    exists s'. split; [done|]. split; [exact E|]. rewrite Hb, Hm. f_equal. lia.
  - intros Hl Hm. by apply (pipe_write_fills s fp msgs r).
Qed.

(** A system with one fresh pipe at 0x1000, buffer at 0x2000. *)
Definition pipe_file : FILE :=
  zero |> set_bsize BUFSIZ |> set_buffer 0x2000 |> set_mode 2 |> set_flags 1.
Definition pipe_sys (m : mem) : sys bump := Sys 0x9000 m {[0x1000 := pipe_file]} 0.

Lemma pipe_sys_rep m : pipe_rep (pipe_sys m) 0x1000 [] 0.
Proof.
  exists pipe_file. split; [reflexivity|]. split_and!; try reflexivity; try done.
Qed.

Example pipe_is_queue_witness :
  let m := poke ∅ 0x100 [1; 2; 3] in
  exists s', pipe_write 0x100 0x1000 (pipe_sys m) = Ret (16, s') /\
    pipe_rep s' 0x1000 [[1; 2; 3; 0; 0; 0; 0; 0; 0; 0; 0; 0; 0; 0; 0; 0]] 0.
Proof.
  intros m. destruct (pipe_is_queue (pipe_sys m) 0x1000 0x100 0 [] (pipe_sys_rep m)) as [Hw _].
  - intros f Hf. change (Some pipe_file = Some f) in Hf. injection Hf as <-. left. vm_compute. discriminate.
  - destruct Hw as (s' & E & Hrep); [vm_compute; reflexivity|]. exists s'. split; [exact E|exact Hrep].
Defined.

(** An empty pipe does not always make its reader wait: when the last message read filled
    the ring exactly, the reader's offset wraps before it is compared with the writer's, and
    the call returns at once with the stale bytes at the start of the buffer. *)
Theorem pipe_read_stale {H : Type} `{Allocator H} (s : sys H) (fp buf : Z) (f : FILE)
    (msgs : list (list Z)) :
  pipe_rep s fp msgs (zlen msgs) -> clear_of s fp buf PIPE_SIZE -> files s !! fp = Some f ->
  0 < zlen msgs -> zlen msgs mod 512 = 0 ->
  exists s', pipe_read buf fp s = Ret (PIPE_SIZE, s') /\
    bytes (bytes_of s') buf 16 = bytes (bytes_of s) (buffer f) 16.
Proof.
  intros Hrep Hclear Hf Hpos Hmod.
  destruct (pipe_read_copies s fp msgs (zlen msgs) buf f Hrep Hclear Hf) as (s' & E & Hb & _).
  { rewrite Hmod. unfold ring_off. destruct (Z.eqb_spec (zlen msgs) 0); word_lia. }
  exists s'. split; [exact E|]. rewrite Hb, Hmod. f_equal. lia.
Qed.

Example pipe_read_stale_witness :
  let f := pipe_file |> set_off 8192 |> set_off2 8192 in
  let s : sys bump := Sys 0x9000 (poke ∅ 0x2000 [7]) {[0x1000 := f]} 0 in
  exists s', pipe_read 0x100 0x1000 s = Ret (16, s') /\
    bytes (bytes_of s') 0x100 16 = bytes (poke ∅ 0x2000 [7]) 0x2000 16.
Proof.
  intros f s.
  destruct (pipe_read_stale s 0x1000 0x100 f (replicate 512 (replicate 16 0))) as (s' & E & Hb).
  - exists f. split; [reflexivity|]. split; [discriminate|]. rewrite length_replicate.
    split_and!; try reflexivity; try discriminate. intros k l Hk Hl.
    apply lookup_replicate_1 in Hl. lia.
  - intros g Hg. change (Some f = Some g) in Hg. injection Hg as <-. left. vm_compute. discriminate.
  - reflexivity.
  - by rewrite length_replicate.
  - by rewrite length_replicate.
  - exists s'. split; [exact E|exact Hb].
Defined.

(** [fread] delivers the file: from position [p] it returns the number of whole items in
    the bytes there are left, stores the bytes of the file's blocks in order, one block read
    per block, leaves every cell outside the transfer buffer and the destination alone and
    advances the position by what it read. *)
Theorem fread_delivers {H : Type} `{Allocator H} (read_sector : disk) (bps : Z)
    (data : Z -> Z -> Z -> Z) (fp b bl n dv cnt bs size : Z) (tbl lba : Z -> Z)
    (s : sys H) (p buffer item num : Z) :
  geometry read_sector bps data fp b bl n dv cnt bs size tbl ->
  file_rep data fp b bl n dv cnt bs size tbl lba s p ->
  0 < item -> 0 <= num -> item * num < 2 ^ 64 ->
  (forall i, 0 <= i < item * num -> outside_file b bl n bs tbl (buffer + i)) ->
  let got := Z.min (item * num) (size - p) in
  exists s', fread read_sector buffer item num fp s = Ret (got / item, s') /\
    file_rep data fp b bl n dv cnt bs size tbl lba s' (p + got) /\
    (forall i, 0 <= i < got -> (bytes_of s')⟦buffer + i⟧ = file_byte data dv bs lba (p + i)) /\
    (forall a, ~ b <= a < b + bs -> ~ buffer <= a < buffer + got -> (bytes_of s')⟦a⟧ = (bytes_of s)⟦a⟧) /\
    heap s' = heap s /\ delete fp (files s') = delete fp (files s).
Proof.
  intros G Hrep Hi Hn Hsz Hout got. unfold fread.
  destruct (Z.eqb_spec fp 0) as [E|_]; [by destruct (geo_fp _ _ _ _ _ _ _ _ _ _ _ _ G)|].
  rewrite u64_small by nia.
  destruct (fread_loop_spec read_sector bps data fp b bl n dv cnt bs size tbl lba
    (Z.to_nat (item * num)) s p buffer 0 G Hrep) as (s' & E & Hrep' & Hin & Hold & Hh & Hd).
  { intros i Hi'. apply Hout. lia. }
  rewrite Z2Nat.id in E, Hrep', Hin, Hold by nia. fold got in E, Hrep', Hin, Hold.
  rewrite E. cbn [mbind outcome_bind]. destruct (Z.eqb_spec item 0); [lia|].
  exists s'. split; [by rewrite Z.add_0_l|]. done.
Qed.

(** A disk whose byte [i] from sector [lba] is [(lba + i) mod 256], and a file of one block
    of 16 bytes at sector 5. *)
Definition ramp (dv lba i : Z) : Z := (lba + i) mod 256.
Definition ramp_disk : disk := fun dv count lba buf m =>
  (0, for_upto 0 (count * 16) (fun i m => m⟦buf + i := ramp dv lba i⟧) m).
Definition ramp_file : FILE :=
  zero |> set_bsize 16 |> set_buffer 0x2000 |> set_count 1 |> set_fsize 10
       |> set_num_of_blocks 1 |> set_blocks 0x3000.
Definition ramp_sys : sys bump :=
  Sys 0x9000 (st32 (st64 ∅ 0x3000 0x4000) 0x4000 5) {[0x1000 := ramp_file]} 0.

Lemma ramp_disk_holds : disk_holds ramp_disk 16 ramp.
Proof.
  intros dv count lba buf m Hc. eexists. split; [reflexivity|]. intros a.
  apply (for_upto_elim (fun i m' => m'⟦a⟧ = if within a buf i then ramp dv lba (a - buf) else m⟦a⟧));
    [lia|case_within; [lia|done]|..|done].
  intros i m' Hi E. rewrite rd_wr, E. case_within; try lia; try done. f_equal. lia.
Qed.

Example fread_delivers_witness :
  exists s', fread ramp_disk 0x5000 4 3 0x1000 ramp_sys = Ret (2, s') /\
    (bytes_of s')⟦0x5000 + 9⟧ = 14.
Proof.
  destruct (fread_delivers ramp_disk 16 ramp 0x1000 0x2000 0x3000 1 0 1 16 10 (fun _ => 0x4000)
    (fun _ => 5) ramp_sys 0 0x5000 4 3) as (s' & E & _ & Hin & _).
  - constructor; [exact ramp_disk_holds|unfold BUFSIZ; lia|lia|discriminate|lia|lia|..].
    + intros l i. apply Z.mod_pos_bound. lia.
    + intros k a Hk Hc. assert (k = 0) as -> by lia. unfold table_cell in Hc. change (0 / 1024) with 0 in Hc. change (0 mod 1024) with 0 in Hc. lia.
  - exists ramp_file. split; [reflexivity|]. split_and!; try reflexivity; try discriminate.
    + intros k Hk. assert (k = 0) as -> by lia. split; reflexivity.
    + left. done.
  - lia.
  - lia.
  - lia.
  - intros i Hi. split; [lia|]. intros k Hk Hc. assert (k = 0) as -> by lia.
    unfold table_cell in Hc. change (0 / 1024) with 0 in Hc. change (0 mod 1024) with 0 in Hc. lia.
  - exists s'. split; [exact E|]. rewrite Hin; [reflexivity|lia].
Defined.

(** Closing a stream gives back all the memory opening it took, and forgets the stream:
    for pipes and the three standard modes, on any allocator that keeps the interface's laws. *)
Theorem stream_close_open {H : Type} `{AllocatorLaws H} (read_sector : disk) (s : sys H)
    (B : gmap Z Z) (flag : Z) :
  heap_ok (heap s) B -> stream_room s -> 1 <= flag <= 4 ->
  files s !! (match new_stream flag s with Ret (fp, _) => fp | _ => 0 end) = None ->
  exists fp s1 s2,
    new_stream flag s = Ret (fp, s1) /\ fclose fp s1 = Ret (0, s2) /\
    heap_ok (heap s2) B /\ files s2 = files s.
Proof.
  intros Hok Hroom Hfl HNone.
  destruct (new_stream_spec s B flag Hok Hroom)
    as (fp & s1 & f & k1 & k2 & E & Hpos & Hfiles & Hflags & _ & _ & _ & _ & _ & Hne & HN1 & HN2 & Hok1).
  rewrite E in HNone. assert (files s1 !! fp = Some f) as Hf by (rewrite Hfiles; apply lookup_insert_eq).
  destruct (std_file_close_spec s1 B fp f k1 k2 Hf Hne Hok1 HN1 HN2) as (s2 & E2 & Hok2 & Hfiles2 & _).
  exists fp, s1, s2. split; [exact E|]. split; [|split; [exact Hok2|]].
  - unfold fclose, get_file. destruct (Z.eqb_spec fp 0); [lia|]. rewrite Hf. cbn [mbind outcome_bind].
    replace ((flags f =? 1) || (flags f =? 2) || (flags f =? 3) || (flags f =? 4)) with true by lia.
    exact E2.
  - by rewrite Hfiles2, Hfiles, delete_insert_id.
Qed.

Example stream_close_open_witness :
  exists fp s1 s2, new_stream 3 (Sys (0x1000 : bump) ∅ ∅ 0) = Ret (fp, s1) /\
    fclose fp s1 = Ret (0, s2) /\ files s2 = ∅.
Proof.
  destruct (stream_close_open ramp_disk (Sys (0x1000 : bump) ∅ ∅ 0) ∅ 3) as (fp & s1 & s2 & E & E2 & _ & Hf).
  - split; [reflexivity|]. intros p k Hp. by rewrite lookup_empty in Hp.
  - split; [exact I|]. intros p h _. exact I.
  - lia.
  - apply lookup_empty.
  - exists fp, s1, s2. split; [exact E|]. split; [exact E2|exact Hf].
Defined.

(** The directory scan finds a file by name: for a name of at most 96 characters
    [find_entry] returns the first of the 64 entries of the root block whose 96-byte name
    field is the name padded with blanks, and none exactly when no entry is. *)
Theorem find_entry_first (m : mem) (root name : Z) (l : list Z) :
  cstr m name l -> (length l <= 96)%nat ->
  match find_entry m root name with
  | Some i => 0 <= i < 64 /\ bytes m (root + i * 128) 96 = entry_name l /\
              forall j, 0 <= j < i -> bytes m (root + j * 128) 96 <> entry_name l
  | None => forall j, 0 <= j < 64 -> bytes m (root + j * 128) 96 <> entry_name l
  end.
Proof.
  intros Hs Hl. unfold find_entry.
  break_with (fun i (_ : unit) => forall j, 0 <= j < i -> bytes m (root + j * 128) 96 <> entry_name l)
    (fun i r => r = i /\ bytes m (root + i * 128) 96 = entry_name l /\
       forall j, 0 <= j < i -> bytes m (root + j * 128) 96 <> entry_name l).
  - intros; lia.
  - intros i [] Hi Hlow. rewrite (filename_cmp_spec _ _ _ l) by done.
    destruct (decide (bytes m (root + i * 128) 96 = entry_name l)) as [E|E].
    + rewrite bool_decide_eq_true_2 by done. done.
    + rewrite bool_decide_eq_false_2 by done. intros j Hj.
      destruct (decide (j = i)) as [->|]; [done|]. apply Hlow. lia.
  - intros _ Hall. exact Hall.
  - intros i r Hi (-> & E & Hlow). split; [lia|]. done.
Qed.

Example find_entry_first_witness :
  let m := poke (poke ∅ 0x5000 [97; 98; 0]) (0x6000 + 3 * 128) (entry_name [97; 98]) in
  find_entry m 0x6000 0x5000 = Some 3 /\ bytes m (0x6000 + 3 * 128) 96 = entry_name [97; 98].
Proof.
  intros m. pose proof (find_entry_first m 0x6000 0x5000 [97; 98]) as HF.
  assert (find_entry m 0x6000 0x5000 = Some 3) as E by (vm_compute; reflexivity).
  rewrite E in HF. split; [exact E|]. apply HF; [|simpl; lia].
  split; [repeat constructor|]. split; [repeat split|reflexivity].
Defined.

(** [fseek] moves the position and not the buffer: when a block is in the buffer, the
    next [fgetc] after a seek takes its byte from that block, whichever block the new
    position is in. *)
Theorem fseek_keeps_block {H : Type} `{Allocator H} (read_sector : disk) (s s1 : sys H)
    (fp q r : Z) (f : FILE) :
  files s !! fp = Some f -> flags f = 0x10 -> 0 < bsize f <= BUFSIZ ->
  0 <= q < fsize f -> fsize f < 2 ^ 32 ->
  fseek fp q 0 s = Ret (r, s1) ->
  exists s2, fgetc read_sector fp s1 = Ret ((bytes_of s)⟦buffer f + q mod bsize f⟧, s2).
Proof.
  intros Hf Hfl Hbs Hq Hsz E. unfold fseek, get_file in E. rewrite Hf in E.
  cbn [mbind outcome_bind Z.eqb] in E. unfold BUFSIZ in Hbs.
  pose proof (Z.mod_pos_bound q (bsize f) ltac:(lia)).
  cbv zeta in E. cbn [bsize off set_off set_off2] in E. rewrite u32_small in E by lia.
  destruct (Z.eqb_spec (bsize f) 0); [lia|].
  replace (s16 (q mod bsize f)) with (q mod bsize f) in E by word_lia.
  injection E as <- <-. set (f1 := set_level _ _).
  unfold fgetc, get_file. rewrite files_put. cbn [mbind outcome_bind].
  change (flags f1) with (flags f). change (off f1) with q. change (fsize f1) with (fsize f).
  rewrite Hfl. cbn [Z.eqb Pos.eqb orb]. destruct (Z.geb_spec q (fsize f)); [lia|].
  unfold fgetc_load, get_file. rewrite files_put. cbn [mbind outcome_bind].
  change (flags f1) with (flags f). rewrite Hfl. change (Z.land 0x10 0x10 =? 0) with false.
  cbn [mbind outcome_bind]. unfold fgetc_take, get_file. rewrite files_put.
  cbn [mbind outcome_bind]. eexists. reflexivity.
Qed.

Example fseek_keeps_block_witness :
  let f := ramp_file |> set_flags 0x10 |> set_fsize 100 in
  let s : sys bump := Sys 0x9000 (poke ∅ 0x2000 [42]) {[0x1000 := f]} 0 in
  exists s1 s2, fseek 0x1000 32 0 s = Ret (0, s1) /\ fgetc ramp_disk 0x1000 s1 = Ret (42, s2).
Proof.
  intros f s.
  assert (exists s1, fseek 0x1000 32 0 s = Ret (0, s1)) as [s1 E1] by (eexists; reflexivity).
  destruct (fseek_keeps_block ramp_disk s s1 0x1000 32 0 f) as [s2 E2].
  - reflexivity.
  - reflexivity.
  - vm_compute. split; [reflexivity|discriminate].
  - vm_compute. split; [discriminate|reflexivity].
  - vm_compute. reflexivity.
  - exact E1.
  - exists s1, s2. split; [exact E1|exact E2].
Defined.
