(* ===== verification/Thread.v ===== *)
(** * Thread: thread creation and the two schedulers (kernel/thread.c)

    A [THREAD] is a heap object at an address; the ready queue is the list linked through
    [next] from [thread_ready_queue].  [task_switch] is the scheduler of the first processor
    and [task_switch2] of the second: each saves the processor's registers (the globals
    [context_*] and [context2_*], here [cpu1] and [cpu2]) in the thread that was running,
    chooses the next one and loads its registers.  Creation takes memory from any
    [Allocator] and opens the thread's streams with the functions of Files. *)
From S2P Require Import Prelude Links KString Bytes Files.

Definition THREAD_ZUMBI : Z := 1.
Definition THREAD_WAIT : Z := 2.

(** ** Registers and threads *)

Record context := Context {
  rax : Z;
  rbx : Z;
  rcx : Z;
  rdx : Z;
  rdi : Z;
  rsi : Z;
  rbp : Z;
  rsp : Z;
  rip : Z;
  r8 : Z;
  r9 : Z;
  r10 : Z;
  r11 : Z;
  r12 : Z;
  r13 : Z;
  r14 : Z;
  r15 : Z;
  cs : Z;
  ds : Z;
  es : Z;
  fs : Z;
  gs : Z;
  ss : Z;
  rflag : Z;
  cr3 : Z
}.

Definition set_rax (v : Z) (s : context) : context := Context v (rbx s) (rcx s) (rdx s) (rdi s)
  (rsi s) (rbp s) (rsp s) (rip s) (r8 s) (r9 s) (r10 s) (r11 s) (r12 s) (r13 s) (r14 s) (r15 s)
  (cs s) (ds s) (es s) (fs s) (gs s) (ss s) (rflag s) (cr3 s).
Definition set_rbx (v : Z) (s : context) : context := Context (rax s) v (rcx s) (rdx s) (rdi s)
  (rsi s) (rbp s) (rsp s) (rip s) (r8 s) (r9 s) (r10 s) (r11 s) (r12 s) (r13 s) (r14 s) (r15 s)
  (cs s) (ds s) (es s) (fs s) (gs s) (ss s) (rflag s) (cr3 s).
Definition set_rcx (v : Z) (s : context) : context := Context (rax s) (rbx s) v (rdx s) (rdi s)
  (rsi s) (rbp s) (rsp s) (rip s) (r8 s) (r9 s) (r10 s) (r11 s) (r12 s) (r13 s) (r14 s) (r15 s)
  (cs s) (ds s) (es s) (fs s) (gs s) (ss s) (rflag s) (cr3 s).
Definition set_rdx (v : Z) (s : context) : context := Context (rax s) (rbx s) (rcx s) v (rdi s)
  (rsi s) (rbp s) (rsp s) (rip s) (r8 s) (r9 s) (r10 s) (r11 s) (r12 s) (r13 s) (r14 s) (r15 s)
  (cs s) (ds s) (es s) (fs s) (gs s) (ss s) (rflag s) (cr3 s).
Definition set_rdi (v : Z) (s : context) : context := Context (rax s) (rbx s) (rcx s) (rdx s) v
  (rsi s) (rbp s) (rsp s) (rip s) (r8 s) (r9 s) (r10 s) (r11 s) (r12 s) (r13 s) (r14 s) (r15 s)
  (cs s) (ds s) (es s) (fs s) (gs s) (ss s) (rflag s) (cr3 s).
Definition set_rsi (v : Z) (s : context) : context := Context (rax s) (rbx s) (rcx s) (rdx s)
  (rdi s) v (rbp s) (rsp s) (rip s) (r8 s) (r9 s) (r10 s) (r11 s) (r12 s) (r13 s) (r14 s) (r15
  s) (cs s) (ds s) (es s) (fs s) (gs s) (ss s) (rflag s) (cr3 s).
Definition set_rbp (v : Z) (s : context) : context := Context (rax s) (rbx s) (rcx s) (rdx s)
  (rdi s) (rsi s) v (rsp s) (rip s) (r8 s) (r9 s) (r10 s) (r11 s) (r12 s) (r13 s) (r14 s) (r15
  s) (cs s) (ds s) (es s) (fs s) (gs s) (ss s) (rflag s) (cr3 s).
Definition set_rsp (v : Z) (s : context) : context := Context (rax s) (rbx s) (rcx s) (rdx s)
  (rdi s) (rsi s) (rbp s) v (rip s) (r8 s) (r9 s) (r10 s) (r11 s) (r12 s) (r13 s) (r14 s) (r15
  s) (cs s) (ds s) (es s) (fs s) (gs s) (ss s) (rflag s) (cr3 s).
Definition set_rip (v : Z) (s : context) : context := Context (rax s) (rbx s) (rcx s) (rdx s)
  (rdi s) (rsi s) (rbp s) (rsp s) v (r8 s) (r9 s) (r10 s) (r11 s) (r12 s) (r13 s) (r14 s) (r15
  s) (cs s) (ds s) (es s) (fs s) (gs s) (ss s) (rflag s) (cr3 s).
Definition set_r8 (v : Z) (s : context) : context := Context (rax s) (rbx s) (rcx s) (rdx s)
  (rdi s) (rsi s) (rbp s) (rsp s) (rip s) v (r9 s) (r10 s) (r11 s) (r12 s) (r13 s) (r14 s) (r15
  s) (cs s) (ds s) (es s) (fs s) (gs s) (ss s) (rflag s) (cr3 s).
Definition set_r9 (v : Z) (s : context) : context := Context (rax s) (rbx s) (rcx s) (rdx s)
  (rdi s) (rsi s) (rbp s) (rsp s) (rip s) (r8 s) v (r10 s) (r11 s) (r12 s) (r13 s) (r14 s) (r15
  s) (cs s) (ds s) (es s) (fs s) (gs s) (ss s) (rflag s) (cr3 s).
Definition set_r10 (v : Z) (s : context) : context := Context (rax s) (rbx s) (rcx s) (rdx s)
  (rdi s) (rsi s) (rbp s) (rsp s) (rip s) (r8 s) (r9 s) v (r11 s) (r12 s) (r13 s) (r14 s) (r15
  s) (cs s) (ds s) (es s) (fs s) (gs s) (ss s) (rflag s) (cr3 s).
Definition set_r11 (v : Z) (s : context) : context := Context (rax s) (rbx s) (rcx s) (rdx s)
  (rdi s) (rsi s) (rbp s) (rsp s) (rip s) (r8 s) (r9 s) (r10 s) v (r12 s) (r13 s) (r14 s) (r15
  s) (cs s) (ds s) (es s) (fs s) (gs s) (ss s) (rflag s) (cr3 s).
Definition set_r12 (v : Z) (s : context) : context := Context (rax s) (rbx s) (rcx s) (rdx s)
  (rdi s) (rsi s) (rbp s) (rsp s) (rip s) (r8 s) (r9 s) (r10 s) (r11 s) v (r13 s) (r14 s) (r15
  s) (cs s) (ds s) (es s) (fs s) (gs s) (ss s) (rflag s) (cr3 s).
Definition set_r13 (v : Z) (s : context) : context := Context (rax s) (rbx s) (rcx s) (rdx s)
  (rdi s) (rsi s) (rbp s) (rsp s) (rip s) (r8 s) (r9 s) (r10 s) (r11 s) (r12 s) v (r14 s) (r15
  s) (cs s) (ds s) (es s) (fs s) (gs s) (ss s) (rflag s) (cr3 s).
Definition set_r14 (v : Z) (s : context) : context := Context (rax s) (rbx s) (rcx s) (rdx s)
  (rdi s) (rsi s) (rbp s) (rsp s) (rip s) (r8 s) (r9 s) (r10 s) (r11 s) (r12 s) (r13 s) v (r15
  s) (cs s) (ds s) (es s) (fs s) (gs s) (ss s) (rflag s) (cr3 s).
Definition set_r15 (v : Z) (s : context) : context := Context (rax s) (rbx s) (rcx s) (rdx s)
  (rdi s) (rsi s) (rbp s) (rsp s) (rip s) (r8 s) (r9 s) (r10 s) (r11 s) (r12 s) (r13 s) (r14 s)
  v (cs s) (ds s) (es s) (fs s) (gs s) (ss s) (rflag s) (cr3 s).
Definition set_cs (v : Z) (s : context) : context := Context (rax s) (rbx s) (rcx s) (rdx s)
  (rdi s) (rsi s) (rbp s) (rsp s) (rip s) (r8 s) (r9 s) (r10 s) (r11 s) (r12 s) (r13 s) (r14 s)
  (r15 s) v (ds s) (es s) (fs s) (gs s) (ss s) (rflag s) (cr3 s).
Definition set_ds (v : Z) (s : context) : context := Context (rax s) (rbx s) (rcx s) (rdx s)
  (rdi s) (rsi s) (rbp s) (rsp s) (rip s) (r8 s) (r9 s) (r10 s) (r11 s) (r12 s) (r13 s) (r14 s)
  (r15 s) (cs s) v (es s) (fs s) (gs s) (ss s) (rflag s) (cr3 s).
Definition set_es (v : Z) (s : context) : context := Context (rax s) (rbx s) (rcx s) (rdx s)
  (rdi s) (rsi s) (rbp s) (rsp s) (rip s) (r8 s) (r9 s) (r10 s) (r11 s) (r12 s) (r13 s) (r14 s)
  (r15 s) (cs s) (ds s) v (fs s) (gs s) (ss s) (rflag s) (cr3 s).
Definition set_fs (v : Z) (s : context) : context := Context (rax s) (rbx s) (rcx s) (rdx s)
  (rdi s) (rsi s) (rbp s) (rsp s) (rip s) (r8 s) (r9 s) (r10 s) (r11 s) (r12 s) (r13 s) (r14 s)
  (r15 s) (cs s) (ds s) (es s) v (gs s) (ss s) (rflag s) (cr3 s).
Definition set_gs (v : Z) (s : context) : context := Context (rax s) (rbx s) (rcx s) (rdx s)
  (rdi s) (rsi s) (rbp s) (rsp s) (rip s) (r8 s) (r9 s) (r10 s) (r11 s) (r12 s) (r13 s) (r14 s)
  (r15 s) (cs s) (ds s) (es s) (fs s) v (ss s) (rflag s) (cr3 s).
Definition set_ss (v : Z) (s : context) : context := Context (rax s) (rbx s) (rcx s) (rdx s)
  (rdi s) (rsi s) (rbp s) (rsp s) (rip s) (r8 s) (r9 s) (r10 s) (r11 s) (r12 s) (r13 s) (r14 s)
  (r15 s) (cs s) (ds s) (es s) (fs s) (gs s) v (rflag s) (cr3 s).
Definition set_rflag (v : Z) (s : context) : context := Context (rax s) (rbx s) (rcx s) (rdx s)
  (rdi s) (rsi s) (rbp s) (rsp s) (rip s) (r8 s) (r9 s) (r10 s) (r11 s) (r12 s) (r13 s) (r14 s)
  (r15 s) (cs s) (ds s) (es s) (fs s) (gs s) (ss s) v (cr3 s).
Definition set_cr3 (v : Z) (s : context) : context := Context (rax s) (rbx s) (rcx s) (rdx s)
  (rdi s) (rsi s) (rbp s) (rsp s) (rip s) (r8 s) (r9 s) (r10 s) (r11 s) (r12 s) (r13 s) (r14 s)
  (r15 s) (cs s) (ds s) (es s) (fs s) (gs s) (ss s) (rflag s) v.

#[export] Instance zero_context : Zero context :=
  Context 0 0 0 0 0 0 0 0 0 0 0 0 0 0 0 0 0 0 0 0 0 0 0 0 0.

(** The assignments of a save or a restore, register by register. *)
Definition copy_context (src dst : context) : context :=
  dst
    |> set_rax (rax src)
    |> set_rbx (rbx src)
    |> set_rcx (rcx src)
    |> set_rdx (rdx src)
    |> set_rdi (rdi src)
    |> set_rsi (rsi src)
    |> set_rbp (rbp src)
    |> set_rsp (rsp src)
    |> set_rip (rip src)
    |> set_r8 (r8 src)
    |> set_r9 (r9 src)
    |> set_r10 (r10 src)
    |> set_r11 (r11 src)
    |> set_r12 (r12 src)
    |> set_r13 (r13 src)
    |> set_r14 (r14 src)
    |> set_r15 (r15 src)
    |> set_cs (cs src)
    |> set_ds (ds src)
    |> set_es (es src)
    |> set_fs (fs src)
    |> set_gs (gs src)
    |> set_ss (ss src)
    |> set_rflag (rflag src)
    |> set_cr3 (cr3 src).

(** [for (i = 0; i < 512; i++) dst[i] = src[i];] *)
Definition copy_fxsave (src dst : gmap Z Z) : gmap Z Z :=
  for_upto 0 512 (fun i dst => dst⟦i := src⟦i⟧⟧) dst.

Record THREAD := Thread {
  ctx : context;
  fxsave : gmap Z Z;
  pid : Z;
  prv : Z;
  status : Z;
  stdin : Z;
  stdout : Z;
  stderr : Z;
  pipe : Z;
  mouse : Z;
  window : Z;
  id : Z;
  pool : Z;
  wait_pid : Z;
  head : Z;
  next : Z;
  tail : Z
}.

Definition set_ctx (v : context) (s : THREAD) : THREAD := Thread v (fxsave s) (pid s) (prv s)
  (status s) (stdin s) (stdout s) (stderr s) (pipe s) (mouse s) (window s) (id s) (pool s)
  (wait_pid s) (head s) (next s) (tail s).
Definition set_fxsave (v : gmap Z Z) (s : THREAD) : THREAD := Thread (ctx s) v (pid s) (prv s)
  (status s) (stdin s) (stdout s) (stderr s) (pipe s) (mouse s) (window s) (id s) (pool s)
  (wait_pid s) (head s) (next s) (tail s).
Definition set_pid (v : Z) (s : THREAD) : THREAD := Thread (ctx s) (fxsave s) v (prv s) (status
  s) (stdin s) (stdout s) (stderr s) (pipe s) (mouse s) (window s) (id s) (pool s) (wait_pid s)
  (head s) (next s) (tail s).
Definition set_prv (v : Z) (s : THREAD) : THREAD := Thread (ctx s) (fxsave s) (pid s) v (status
  s) (stdin s) (stdout s) (stderr s) (pipe s) (mouse s) (window s) (id s) (pool s) (wait_pid s)
  (head s) (next s) (tail s).
Definition set_status (v : Z) (s : THREAD) : THREAD := Thread (ctx s) (fxsave s) (pid s) (prv s)
  v (stdin s) (stdout s) (stderr s) (pipe s) (mouse s) (window s) (id s) (pool s) (wait_pid s)
  (head s) (next s) (tail s).
Definition set_stdin (v : Z) (s : THREAD) : THREAD := Thread (ctx s) (fxsave s) (pid s) (prv s)
  (status s) v (stdout s) (stderr s) (pipe s) (mouse s) (window s) (id s) (pool s) (wait_pid s)
  (head s) (next s) (tail s).
Definition set_stdout (v : Z) (s : THREAD) : THREAD := Thread (ctx s) (fxsave s) (pid s) (prv s)
  (status s) (stdin s) v (stderr s) (pipe s) (mouse s) (window s) (id s) (pool s) (wait_pid s)
  (head s) (next s) (tail s).
Definition set_stderr (v : Z) (s : THREAD) : THREAD := Thread (ctx s) (fxsave s) (pid s) (prv s)
  (status s) (stdin s) (stdout s) v (pipe s) (mouse s) (window s) (id s) (pool s) (wait_pid s)
  (head s) (next s) (tail s).
Definition set_pipe (v : Z) (s : THREAD) : THREAD := Thread (ctx s) (fxsave s) (pid s) (prv s)
  (status s) (stdin s) (stdout s) (stderr s) v (mouse s) (window s) (id s) (pool s) (wait_pid s)
  (head s) (next s) (tail s).
Definition set_mouse (v : Z) (s : THREAD) : THREAD := Thread (ctx s) (fxsave s) (pid s) (prv s)
  (status s) (stdin s) (stdout s) (stderr s) (pipe s) v (window s) (id s) (pool s) (wait_pid s)
  (head s) (next s) (tail s).
Definition set_window (v : Z) (s : THREAD) : THREAD := Thread (ctx s) (fxsave s) (pid s) (prv s)
  (status s) (stdin s) (stdout s) (stderr s) (pipe s) (mouse s) v (id s) (pool s) (wait_pid s)
  (head s) (next s) (tail s).
Definition set_id (v : Z) (s : THREAD) : THREAD := Thread (ctx s) (fxsave s) (pid s) (prv s)
  (status s) (stdin s) (stdout s) (stderr s) (pipe s) (mouse s) (window s) v (pool s) (wait_pid
  s) (head s) (next s) (tail s).
Definition set_pool (v : Z) (s : THREAD) : THREAD := Thread (ctx s) (fxsave s) (pid s) (prv s)
  (status s) (stdin s) (stdout s) (stderr s) (pipe s) (mouse s) (window s) (id s) v (wait_pid s)
  (head s) (next s) (tail s).
Definition set_wait_pid (v : Z) (s : THREAD) : THREAD := Thread (ctx s) (fxsave s) (pid s) (prv
  s) (status s) (stdin s) (stdout s) (stderr s) (pipe s) (mouse s) (window s) (id s) (pool s) v
  (head s) (next s) (tail s).
Definition set_head (v : Z) (s : THREAD) : THREAD := Thread (ctx s) (fxsave s) (pid s) (prv s)
  (status s) (stdin s) (stdout s) (stderr s) (pipe s) (mouse s) (window s) (id s) (pool s)
  (wait_pid s) v (next s) (tail s).
Definition set_next (v : Z) (s : THREAD) : THREAD := Thread (ctx s) (fxsave s) (pid s) (prv s)
  (status s) (stdin s) (stdout s) (stderr s) (pipe s) (mouse s) (window s) (id s) (pool s)
  (wait_pid s) (head s) v (tail s).
Definition set_tail (v : Z) (s : THREAD) : THREAD := Thread (ctx s) (fxsave s) (pid s) (prv s)
  (status s) (stdin s) (stdout s) (stderr s) (pipe s) (mouse s) (window s) (id s) (pool s)
  (wait_pid s) (head s) (next s) v.

#[export] Instance zero_THREAD : Zero THREAD := Thread zero ∅ 0 0 0 0 0 0 0 0 0 0 0 0 0 0 0.

(** A processor: the registers [context_*] of the interrupted thread, its SSE area and the
    pid it is told. *)
Record cpu := Cpu {
  regs : context;
  fx : gmap Z Z;
  cpid : Z
}.

(** ** The state of the schedulers *)
Record sched (H : Type) := Sched {
  threads : gmap Z THREAD;
  thread_ready_queue : Z;
  current_thread : Z;
  current_thread2 : Z;
  cpu1 : cpu;
  cpu2 : cpu;
  next_pid : Z;
  threadz : Z;
  first_thread2 : Z;
  thread_id : Z;
  io : sys H
}.
Arguments Sched {H}.
Arguments threads {H}.
Arguments thread_ready_queue {H}.
Arguments current_thread {H}.
Arguments current_thread2 {H}.
Arguments cpu1 {H}.
Arguments cpu2 {H}.
Arguments next_pid {H}.
Arguments threadz {H}.
Arguments first_thread2 {H}.
Arguments thread_id {H}.
Arguments io {H}.

Section threads.
Context {H : Type} `{Allocator H}.
(** What [SaveSSE] stores, and the screen of [gui]. *)
Context (sse : gmap Z Z) (horizontal_resolution vertical_resolution bpp pixels_per_scan_line : Z).
Context (pml4e : Z).
Implicit Types (s : sched H) (t p : Z).

Definition set_threads (v : gmap Z THREAD) s : sched H := Sched v (thread_ready_queue s)
  (current_thread s) (current_thread2 s) (cpu1 s) (cpu2 s) (next_pid s) (threadz s)
  (first_thread2 s) (thread_id s) (io s).
Definition set_thread_ready_queue (v : Z) s : sched H := Sched (threads s) v (current_thread s)
  (current_thread2 s) (cpu1 s) (cpu2 s) (next_pid s) (threadz s) (first_thread2 s) (thread_id s)
  (io s).
Definition set_current_thread (v : Z) s : sched H := Sched (threads s) (thread_ready_queue s) v
  (current_thread2 s) (cpu1 s) (cpu2 s) (next_pid s) (threadz s) (first_thread2 s) (thread_id s)
  (io s).
Definition set_current_thread2 (v : Z) s : sched H := Sched (threads s) (thread_ready_queue s)
  (current_thread s) v (cpu1 s) (cpu2 s) (next_pid s) (threadz s) (first_thread2 s) (thread_id
  s) (io s).
Definition set_cpu1 (v : cpu) s : sched H := Sched (threads s) (thread_ready_queue s)
  (current_thread s) (current_thread2 s) v (cpu2 s) (next_pid s) (threadz s) (first_thread2 s)
  (thread_id s) (io s).
Definition set_cpu2 (v : cpu) s : sched H := Sched (threads s) (thread_ready_queue s)
  (current_thread s) (current_thread2 s) (cpu1 s) v (next_pid s) (threadz s) (first_thread2 s)
  (thread_id s) (io s).
Definition set_next_pid (v : Z) s : sched H := Sched (threads s) (thread_ready_queue s)
  (current_thread s) (current_thread2 s) (cpu1 s) (cpu2 s) v (threadz s) (first_thread2 s)
  (thread_id s) (io s).
Definition set_threadz (v : Z) s : sched H := Sched (threads s) (thread_ready_queue s)
  (current_thread s) (current_thread2 s) (cpu1 s) (cpu2 s) (next_pid s) v (first_thread2 s)
  (thread_id s) (io s).
Definition set_first_thread2 (v : Z) s : sched H := Sched (threads s) (thread_ready_queue s)
  (current_thread s) (current_thread2 s) (cpu1 s) (cpu2 s) (next_pid s) (threadz s) v (thread_id
  s) (io s).
Definition set_thread_id (v : Z) s : sched H := Sched (threads s) (thread_ready_queue s)
  (current_thread s) (current_thread2 s) (cpu1 s) (cpu2 s) (next_pid s) (threadz s)
  (first_thread2 s) v (io s).
Definition set_io (v : sys H) s : sched H := Sched (threads s) (thread_ready_queue s)
  (current_thread s) (current_thread2 s) (cpu1 s) (cpu2 s) (next_pid s) (threadz s)
  (first_thread2 s) (thread_id s) v.

Definition get_t t s : outcome THREAD :=
  match threads s !! t with
  | Some th => Ret th
  | None => Undef
  end.

Definition put_t t (th : THREAD) s : sched H := set_threads (<[t := th]> (threads s)) s.

(** ** Creation *)

(** [alloc_pages(type, len, &v)], [fopen(0, "stdin")] and the like, [malloc]. *)
Definition alloc_pages_ (type len : Z) s : outcome (Z * sched H) :=
  '(v, h) ← palloc type len (heap (io s));
  Ret (v, set_io (set_heap h (io s)) s).

Definition fopen_ (flag : Z) s : outcome (Z * sched H) :=
  '(fp, i) ← new_stream flag (io s);
  Ret (fp, set_io i s).

Definition malloc_t (n : Z) s : outcome (Z * sched H) :=
  '(p, i) ← malloc_ n (io s);
  Ret (p, set_io i s).

Definition poke_bytes (f : mem -> mem) s : sched H := set_io (set_bytes (f (bytes_of (io s))) (io s)) s.

(** [memset((char* )new_thread->pool, 0, 0x2000)]. *)
Definition clear_pool (v : Z) s : sched H := poke_bytes (fun b => memset b v 0 0x2000) s.

Definition sizeof_mouse : Z := 24.

Definition thread_setup s : outcome (Z * sched H) :=
  let s := s |> set_threadz 0 |> set_next_pid 0 |> set_first_thread2 0 in
  '(addr, s) ← alloc_pages_ 0 2 s;
  let s := s |> set_thread_ready_queue addr |> set_current_thread addr |> set_current_thread2 addr in
  let th := (zero : THREAD) in
  let th := set_pid (next_pid s) th in
  let s := set_next_pid (next_pid s + 1) s in
  let th := set_fxsave sse th in
  let th := set_ctx (ctx th |> set_cs 0x8 |> set_ss 0x10 |> set_rflag 0x202 |> set_cr3 pml4e) th in
  '(a, s) ← fopen_ 2 s;
  '(b, s) ← fopen_ 3 s;
  '(c, s) ← fopen_ 4 s;
  '(d, s) ← fopen_ 1 s;
  '(m, s) ← malloc_t sizeof_mouse s;
  let th := th |> set_stdin a |> set_stdout b |> set_stderr c |> set_pipe d |> set_mouse m
               |> set_head 0 |> set_prv 0 |> set_next 0 in
  '(v, s) ← alloc_pages_ 0 2 s;
  let th := set_pool v th in
  let s := clear_pool v s in
  Ret (pid th, put_t addr th s).

(** The segments, flags and privilege of a new thread, from [pv]. *)
Definition set_privilege (pv : Z) (th : THREAD) : THREAD :=
  let th :=
    if Z.land pv 1 =? 1 then
      let th := set_ctx (ctx th |> set_cs 0x1B |> set_ss 0x23) th in
      let th := set_prv 1 th in
      set_ctx (set_rflag 0x202 (ctx th)) th
    else
      let th := set_ctx (ctx th |> set_cs 0x8 |> set_ss 0x10) th in
      let th := set_prv 0 th in
      set_ctx (set_rflag 0x202 (ctx th)) th in
  th.

(** The registers a new thread starts with tell it its streams, window and arguments. *)
Definition set_start (rbx argc argv pwd : Z) (th : THREAD) : THREAD :=
  set_ctx (ctx th |> set_rcx (stdin th) |> set_rdx (stdout th) |> set_rsi (stderr th)
                  |> set_rdi (window th) |> set_rbx rbx |> set_r8 0 |> set_r9 0
                  |> set_r10 (pipe th) |> set_rax (mouse th)
                  |> set_r11 argc |> set_r12 argv |> set_r13 pwd) th.

(** [while (tmp->next) tmp = tmp->next;] *)
Fixpoint last_of (fuel : nat) (th : gmap Z THREAD) (tmp : Z) : outcome Z :=
  match fuel with
  | O => NoFuel
  | S fuel =>
      match th !! tmp with
      | None => Undef
      | Some r => if next r =? 0 then Ret tmp else last_of fuel th (next r)
      end
  end.

(** The new thread goes to the end of the list. *)
Definition append_thread (fuel : nat) (new : Z) s : outcome (sched H) :=
  tmp ← last_of fuel (threads s) (thread_ready_queue s);
  th ← get_t tmp s;
  Ret (put_t tmp (set_next new th) s).

Definition create_thread (fuel : nat) (main rsp cr3 rbx pv argc argv pwd : Z) s :
    outcome (Z * sched H) :=
  '(new_thread, s) ← alloc_pages_ 0 2 s;
  let th := (zero : THREAD) in
  let th := set_pid (next_pid s) th in
  let s := set_next_pid (u64 (next_pid s + 1)) s in
  let th := set_fxsave sse th in
  let th := set_ctx (ctx th |> set_rsp rsp |> set_rip main) th in
  let th := set_privilege pv th in
  let th := if Z.land pv 0x80 =? 0x80 then set_prv (Z.lor (prv th) 0x80) th else th in
  let th := set_ctx (set_cr3 cr3 (ctx th)) th in
  '(a, s) ← fopen_ 2 s;
  '(b, s) ← fopen_ 3 s;
  '(c, s) ← fopen_ 4 s;
  '(d, s) ← fopen_ 1 s;
  '(m, s) ← malloc_t sizeof_mouse s;
  let th := th |> set_stdin a |> set_stdout b |> set_stderr c |> set_pipe d |> set_mouse m in
  let th := set_prv (Z.lor (prv th) 0x20) th in
  '(th, s) ←
    (if Z.land pv 0x10 =? 0 then Ret (th, s)
     else
       '(v, s) ← alloc_pages_ 1 (512 * 3) s;
       let th := set_window v th in
       let th := set_prv (Z.lor (prv th) 0x10) th in
       let s := poke_bytes (fun b =>
                  let b := memset b v 0 0x1000 in
                  let b := st32 b (v + 4) horizontal_resolution in
                  let b := st32 b (v + 8) vertical_resolution in
                  let b := st32 b (v + 12) bpp in
                  st32 b (v + 16) pixels_per_scan_line) s in
       Ret (set_id (thread_id s) th, s));
  let th := set_start rbx argc argv pwd th in
  let th := th |> set_head new_thread |> set_next 0 |> set_tail 0 in
  let th := set_wait_pid (pid th) th in
  '(v, s) ← alloc_pages_ 0 2 s;
  let th := set_pool v th in
  let s := clear_pool v s in
  let s := put_t new_thread th s in
  s ← append_thread fuel new_thread s;
  Ret (new_thread, s).

(** A child shares the streams, the pointer and the window of its parent [thread]. *)
Definition share (t : THREAD) (th : THREAD) : THREAD :=
  th |> set_stdin (stdin t) |> set_stdout (stdout t) |> set_stderr (stderr t)
     |> set_pipe (pipe t) |> set_mouse (mouse t) |> set_window (window t).

(** What [create_thread_child] and [pthread_create] do from the point the new thread's
    registers are set: links, pool, list. *)
Definition finish_child (fuel : nat) (new_thread thread : Z) (th : THREAD) s :
    outcome (Z * sched H) :=
  let th := th |> set_head thread |> set_next 0 |> set_tail 0 in
  t ← get_t thread s;
  let s := put_t thread (set_wait_pid (pid th) t) s in
  '(v, s) ← alloc_pages_ 0 2 s;
  let th := set_pool v th in
  let s := clear_pool v s in
  let s := put_t new_thread th s in
  s ← append_thread fuel new_thread s;
  t ← get_t thread s;
  Ret (new_thread, put_t thread (set_tail new_thread t) s).

Definition create_thread_child (fuel : nat) (main rsp cr3 rbx pv argc argv pwd thread : Z) s :
    outcome (Z * sched H) :=
  '(new_thread, s) ← alloc_pages_ 0 2 s;
  let th := (zero : THREAD) in
  let th := set_pid (next_pid s) th in
  let s := set_next_pid (u64 (next_pid s + 1)) s in
  let th := set_fxsave sse th in
  let th := set_ctx (ctx th |> set_rsp rsp |> set_rip main) th in
  let th := set_privilege pv th in
  let th := if Z.land pv 0x80 =? 0x80 then set_prv (Z.lor (prv th) 0x80) th else th in
  let th := set_ctx (set_cr3 cr3 (ctx th)) th in
  t ← get_t thread s;
  let th := share t th in
  let th := set_start rbx argc argv pwd th in
  finish_child fuel new_thread thread th s.

Definition pthread_create (fuel : nat) (main rsp pv thread : Z) s : outcome (Z * sched H) :=
  '(new_thread, s) ← alloc_pages_ 0 2 s;
  let th := (zero : THREAD) in
  let th := set_pid (next_pid s) th in
  let s := set_next_pid (u64 (next_pid s + 1)) s in
  let th := set_fxsave sse th in
  let th := set_ctx (ctx th |> set_rsp rsp |> set_rip main) th in
  let th := set_status THREAD_ZUMBI th in
  let th := set_privilege pv th in
  t ← get_t thread s;
  let th := set_ctx (set_cr3 (cr3 (ctx t)) (ctx th)) th in
  let th := share t th in
  let th := set_start 0 0 0 0 th in
  finish_child fuel new_thread thread th s.

Definition pthread_join thread s : outcome (Z * sched H) :=
  th ← get_t thread s;
  Ret (0, put_t thread (set_status (Z.land (status th) (Z.lnot THREAD_ZUMBI)) th) s).

(** ** The schedulers *)

Definition save (c : cpu) (th : THREAD) : THREAD :=
  th |> set_ctx (copy_context (regs c) (ctx th)) |> set_fxsave (copy_fxsave (fx c) (fxsave th)).

Definition restore (th : THREAD) (c : cpu) : cpu :=
  Cpu (copy_context (ctx th) (regs c)) (copy_fxsave (fxsave th) (fx c)) (pid th).

(** The first processor skips the threads of the second and those that sleep. *)
Definition skipped (th : THREAD) : bool :=
  negb (Z.land (prv th) 0x80 =? 0) || negb (Z.land (status th) THREAD_ZUMBI =? 0)
  || negb (Z.land (status th) THREAD_WAIT =? 0).

(** The second takes only its own. *)
Definition taken2 (th : THREAD) : bool :=
  negb (Z.land (prv th) 0x80 =? 0)
  && negb (Z.land (status th) THREAD_ZUMBI =? THREAD_ZUMBI)
  && negb (Z.land (status th) THREAD_WAIT =? THREAD_WAIT).

(** [while (p) { if (stop(p)) break; p = p->next; }] *)
Fixpoint seek_thread (fuel : nat) (stop : THREAD -> bool) (th : gmap Z THREAD) (p : Z) : outcome Z :=
  match fuel with
  | O => NoFuel
  | S fuel =>
      if p =? 0 then Ret 0
      else
        match th !! p with
        | None => Undef
        | Some r => if stop r then Ret p else seek_thread fuel stop th (next r)
        end
  end.

Definition task_switch (fuel : nat) s : outcome (sched H) :=
  th ← get_t (current_thread s) s;
  let s := put_t (current_thread s) (save (cpu1 s) th) s in
  let s := set_current_thread (next th) s in
  p ← seek_thread fuel (fun r => negb (skipped r)) (threads s) (current_thread s);
  let s := set_current_thread (if p =? 0 then thread_ready_queue s else p) s in
  th ← get_t (current_thread s) s;
  Ret (set_cpu1 (restore th (cpu1 s)) s).

(** The two rounds of the search of [task_switch2]: the rest of the list, then the list. *)
Definition seek2 (fuel : nat) (tmp : Z) s : outcome Z :=
  p ← seek_thread fuel taken2 (threads s) tmp;
  if p =? 0 then seek_thread fuel taken2 (threads s) (thread_ready_queue s) else Ret p.

Definition task_switch2 (fuel : nat) s : outcome (sched H) :=
  let tmp := current_thread2 s in
  th ← get_t tmp s;
  let s := if first_thread2 s =? 0 then s else put_t tmp (save (cpu2 s) th) s in
  if negb (first_thread2 s =? 0) && negb (threadz s =? 0) then
    th ← get_t tmp s;
    Ret (set_cpu2 (restore th (cpu2 s)) s)
  else
    p ← seek2 fuel (next th) s;
    if p =? 0 then Ret s
    else
      let s := s |> set_current_thread2 p |> set_first_thread2 1 in
      th ← get_t p s;
      Ret (set_cpu2 (restore th (cpu2 s)) s).

(** ** Looking threads up *)

Definition getpid s : outcome Z := th ← get_t (current_thread s) s; Ret (pid th).

Definition getpid2 s : outcome Z :=
  th ← get_t (current_thread s) s;
  let thread := if head th =? 0 then current_thread s else head th in
  th ← get_t thread s;
  Ret (pid th).

Definition get_thread (fuel : nat) (n : Z) s : outcome Z :=
  seek_thread fuel (fun th => pid th =? n) (threads s) (thread_ready_queue s).
End threads.

(** ** The ready queue as a list *)

(** The threads linked from [p] are [l], in order. *)
Abbreviation linked := (links next).

(** The first thread of [l] that satisfies [stop], 0 when none does. *)
Fixpoint pick (stop : THREAD -> bool) (th : gmap Z THREAD) (l : list Z) : Z :=
  match l with
  | [] => 0
  | p :: l => if stop (rd th p) then p else pick stop th l
  end.

Section queue.
Implicit Types (th : gmap Z THREAD) (l : list Z) (p t : Z).

Lemma copy_context_eq src dst : copy_context src dst = src.
Proof. by destruct src, dst. Qed.

Lemma copy_fxsave_spec src dst i :
  (copy_fxsave src dst)⟦i⟧ = if within i 0 512 then src⟦i⟧ else dst⟦i⟧.
Proof.
  unfold copy_fxsave.
  apply (for_upto_elim (fun k d => d⟦i⟧ = if within i 0 k then src⟦i⟧ else dst⟦i⟧)); [done|..|done].
  - case_within; [lia|done].
  - intros k d Hk E. rewrite rd_wr, E. case_within; subst; lia || done.
Qed.

Lemma seek_thread_spec fuel stop th p l :
  linked th p l -> (length l < fuel)%nat -> seek_thread fuel stop th p = Ret (pick stop th l).
Proof.
  revert p l. induction fuel as [|fuel IH]; intros p l Hl Hf; [lia|]. cbn [seek_thread].
  destruct l as [|q l]; [by rewrite Hl|].
  destruct Hl as (-> & Hne & r & Hr & Hl). destruct (Z.eqb_spec q 0); [done|].
  rewrite Hr. cbn [pick]. unfold rd. rewrite Hr. change (default zero (Some r)) with r.
  destruct (stop r); [done|]. apply IH; [done|]. cbn in Hf. lia.
Qed.

Lemma pick_cases stop th l :
  (exists l1 p l2, l = l1 ++ p :: l2 /\ stop (rd th p) = true /\ pick stop th l = p /\
     Forall (fun q => stop (rd th q) = false) l1) \/
  (pick stop th l = 0 /\ Forall (fun q => stop (rd th q) = false) l).
Proof.
  induction l as [|p l IH]; [right; by split|]. cbn [pick].
  destruct (stop (rd th p)) eqn:Hs.
  - left. exists [], p, l. done.
  - destruct IH as [(l1 & q & l2 & -> & Hq & E & Hall)|[E Hall]].
    + left. exists (p :: l1), q, l2. split_and!; try done. by constructor.
    + right. split; [done|]. by constructor.
Qed.

Lemma pick_ext stop th th' l :
  (forall q, q ∈ l -> stop (rd th' q) = stop (rd th q)) -> pick stop th' l = pick stop th l.
Proof.
  induction l as [|q l IH]; intros E; [done|]. cbn. rewrite E by left.
  rewrite IH; [done|]. intros q' Hq'. apply E. by right.
Qed.

Lemma last_of_spec fuel th p l q :
  linked th p (l ++ [q]) -> (length l < fuel)%nat -> last_of fuel th p = Ret q.
Proof.
  revert p l. induction fuel as [|fuel IH]; intros p l Hl Hf; [lia|]. cbn [last_of].
  destruct l as [|q' l]; cbn in Hl.
  - destruct Hl as (-> & Hne & r & Hr & Hn). rewrite Hr, Hn. done.
  - destruct Hl as (-> & Hne & r & Hr & Hl). rewrite Hr.
    destruct (Z.eqb_spec (next r) 0) as [E|]; [|apply (IH _ l); [done|cbn in Hf; lia]].
    rewrite E in Hl. destruct l; cbn in Hl; by destruct Hl as (<- & ? & _).
Qed.
End queue.

(** ** Switching *)
Section switching.
Context {H : Type} `{Allocator H}.
Implicit Types (s : sched H) (l : list Z) (t p : Z).

(** The queue is [l], and the running thread is in it. *)
Record sched_ok s l : Prop := {
  so_linked : linked (threads s) (thread_ready_queue s) l;
  so_nodup : NoDup l;
  so_current : current_thread s ∈ l
}.

Definition runnable s t : bool := negb (skipped (rd (threads s) t)).

(** What a switch from [t] to [p] does to the threads and the processor. *)
Record switched s s' t p : Prop := {
  sw_old : exists r r',
    threads s !! t = Some r /\ threads s' !! t = Some r' /\ ctx r' = regs (cpu1 s) /\
    (forall i, 0 <= i < 512 -> (fxsave r')⟦i⟧ = (fx (cpu1 s))⟦i⟧) /\
    r' = (r |> set_ctx (ctx r') |> set_fxsave (fxsave r'));
  sw_others : forall q, q <> t -> threads s' !! q = threads s !! q;
  sw_new : exists r, threads s' !! p = Some r /\ regs (cpu1 s') = ctx r /\
    (forall i, 0 <= i < 512 -> (fx (cpu1 s'))⟦i⟧ = (fxsave r)⟦i⟧) /\ cpid (cpu1 s') = pid r;
  sw_current : current_thread s' = p;
  sw_queue : thread_ready_queue s' = thread_ready_queue s
}.

Lemma save_keeps c th : next (save c th) = next th /\ skipped (save c th) = skipped th.
Proof. done. Qed.

Lemma task_switch_spec fuel s l l1 l2 :
  sched_ok s l -> l = l1 ++ current_thread s :: l2 -> (length l < fuel)%nat ->
  let p := pick (fun r => negb (skipped r)) (threads s) l2 in
  let target := if p =? 0 then thread_ready_queue s else p in
  exists s', task_switch fuel s = Ret s' /\ switched s s' (current_thread s) target.
Proof.
  intros [Hl Hnd Hcur] El Hf p target. set (t := current_thread s) in *.
  pose proof Hl as Hl0. rewrite El in Hl0. apply links_app in Hl0 as (r & Hr & Hl2).
  unfold task_switch, get_t. fold t. rewrite Hr. cbn [mbind outcome_bind].
  set (r1 := save (cpu1 s) r). set (th1 := <[t := r1]> (threads s)).
  assert (linked th1 (next r) l2) as Hl2'.
  { eapply links_ext; [|exact Hl2]. intros q rq Hq Hrq. destruct (decide (q = t)) as [->|Hne].
    - exists r1. unfold th1. rewrite lookup_insert_eq. split; [done|]. assert (rq = r) as -> by congruence. done.
    - exists rq. unfold th1. by rewrite lookup_insert_ne. }
  cbn [threads put_t set_threads set_current_thread current_thread thread_ready_queue].
  fold th1. rewrite (seek_thread_spec fuel _ th1 (next r) l2 Hl2')
    by (rewrite El, length_app in Hf; cbn in Hf; lia).
  cbn [mbind outcome_bind].
  assert (t ∉ l2) as Ht2.
  { rewrite El in Hnd. apply NoDup_app in Hnd as (_ & _ & Hnd). by apply NoDup_cons in Hnd as [? _]. }
  rewrite (pick_ext _ (threads s) th1 l2).
  2:{ intros q Hq. unfold th1, rd. rewrite lookup_insert_ne by (intros <-; done). done. }
  fold p. fold target.
  assert (exists r2, th1 !! target = Some r2) as [r2 Hr2].
  { unfold target. destruct (Z.eqb_spec p 0) as [Ep|Ep].
    - destruct l as [|q l']; [by apply not_elem_of_nil in Hcur|]. destruct Hl as (Eq & _ & rq & Hrq & _).
      rewrite Eq. unfold th1. destruct (decide (q = t)) as [->|]; [rewrite lookup_insert_eq; by eexists|].
      rewrite lookup_insert_ne by done. by exists rq.
    - destruct (pick_cases (fun r => negb (skipped r)) (threads s) l2)
        as [(m1 & q & m2 & E & _ & Eq & _)|[E0 _]]; [|by destruct (Ep E0)].
      assert (p ∈ l2) as Hp by (fold p in Eq; rewrite E, Eq; apply elem_of_app; right; left).
      destruct (links_lookup _ _ _ p Hl2' Hp) as (r2 & Hr2 & _). by exists r2. }
  rewrite Hr2. cbn [mbind outcome_bind]. eexists. split; [reflexivity|].
  constructor; cbn [threads current_thread thread_ready_queue cpu1 set_cpu1].
  - exists r, r1. split; [done|]. 
    split; [by apply lookup_insert_eq|]. split; [by apply copy_context_eq|]. split; [|done].
    intros i Hi. unfold r1. cbn. rewrite copy_fxsave_spec. case_within; [done|lia].
  - intros q Hq. apply lookup_insert_ne. intros E. by apply Hq.
  - exists r2. split; [done|]. cbn. split; [apply copy_context_eq|]. split; [|done].
    intros i Hi. rewrite copy_fxsave_spec. case_within; [done|lia].
  - done.
  - done.
Qed.

(** A switch keeps links, states and everything [skipped] looks at. *)
Lemma switched_keeps s s' t p q :
  switched s s' t p -> skipped (rd (threads s') q) = skipped (rd (threads s) q) /\
  next (rd (threads s') q) = next (rd (threads s) q).
Proof.
  intros Hsw. unfold rd. destruct (decide (q = t)) as [->|Hne].
  - destruct (sw_old _ _ _ _ Hsw) as (r & r' & -> & -> & _ & _ & ->). done.
  - by rewrite (sw_others _ _ _ _ Hsw q Hne).
Qed.

(** [j] is the next runnable position after [i], or the head when there is none. *)
Definition next_position s l (i j : nat) : Prop :=
  ((i < j)%nat /\ forall k t, (i < k < j)%nat -> l !! k = Some t -> runnable s t = false) \/
  (j = O /\ forall k t, (i < k)%nat -> l !! k = Some t -> runnable s t = false).

Lemma sched_ok_switch fuel s l i :
  sched_ok s l -> (length l < fuel)%nat -> l !! i = Some (current_thread s) ->
  exists s' j, task_switch fuel s = Ret s' /\ switched s s' (current_thread s) (current_thread s') /\
    sched_ok s' l /\ l !! j = Some (current_thread s') /\ next_position s l i j.
Proof.
  intros Hok Hf Hi. destruct (list_elem_of_split_length _ _ _ Hi) as (l1 & l2 & El & Hlen).
  destruct (task_switch_spec fuel s l l1 l2 Hok El Hf) as (s' & E & Hsw).
  set (target := if _ =? 0 then _ else _) in Hsw.
  pose proof (sw_current _ _ _ _ Hsw) as Ecur. rewrite <- Ecur in Hsw.
  assert (linked (threads s') (thread_ready_queue s') l) as Hl'.
  { rewrite (sw_queue _ _ _ _ Hsw). eapply links_ext; [|apply Hok]. intros q r Hq Hr.
    destruct (switched_keeps _ _ _ _ q Hsw) as [_ En]. unfold rd in En. rewrite Hr in En.
    destruct (decide (q = current_thread s)) as [->|Hne].
    - destruct (sw_old _ _ _ _ Hsw) as (r0 & r1 & Hr0 & Hr1 & _). rewrite Hr1 in En.
      exists r1. done.
    - exists r. rewrite (sw_others _ _ _ _ Hsw q Hne). done. }
  assert (forall k t, (i < k)%nat -> l !! k = Some t -> l2 !! (k - S i)%nat = Some t) as Hafter.
  { intros k t Hk Hkt. rewrite Hlen in Hk |- *. rewrite El, lookup_app_r in Hkt by lia.
    replace (k - length l1)%nat with (S (k - S (length l1))) in Hkt by lia. exact Hkt. }
  destruct (pick_cases (fun r => negb (skipped r)) (threads s) l2)
    as [(m1 & q & m2 & E2 & Hq & Ep & Hall)|[Ep Hall]].
  - assert (q <> 0) as Hq0.
    { destruct (links_lookup _ _ _ q (so_linked _ _ Hok)) as (? & _ & ?); [|done].
      rewrite El, E2. apply elem_of_app. right. right. apply elem_of_app. right. left. }
    assert (current_thread s' = q) as Eq.
    { rewrite Ecur. unfold target. rewrite Ep. destruct (Z.eqb_spec q 0); done. }
    exists s', (S i + length m1)%nat. split_and!; try done.
    + constructor; [exact Hl'|apply Hok|]. rewrite Eq, El, E2.
      apply elem_of_app. right. right. apply elem_of_app. right. left.
    + rewrite Eq, El, E2, Hlen, lookup_app_r by lia.
      replace (S (length l1) + length m1 - length l1)%nat with (S (length m1)) by lia.
      change ((m1 ++ q :: m2) !! length m1 = Some q). rewrite lookup_app_r, Nat.sub_diag by lia. done.
    + left. split; [lia|]. intros k t Hk Hkt. apply Hafter in Hkt; [|lia].
      rewrite E2, lookup_app_l in Hkt by lia. unfold runnable.
      rewrite Forall_forall in Hall. apply Hall. by eapply list_elem_of_lookup_2.
  - assert (current_thread s' = thread_ready_queue s) as Eq.
    { rewrite Ecur. unfold target. by rewrite Ep. }
    destruct l as [|h l0]; [by destruct l1|].
    assert (thread_ready_queue s = h) as Eh by (by destruct (so_linked _ _ Hok) as [-> _]).
    exists s', O. split_and!; try done.
    + constructor; [exact Hl'|apply Hok|]. rewrite Eq, Eh. left.
    + by rewrite Eq, Eh.
    + right. split; [done|]. intros k t Hk Hkt. apply Hafter in Hkt; [|lia]. unfold runnable.
      rewrite Forall_forall in Hall. apply Hall. by eapply list_elem_of_lookup_2.
Qed.

(** Successive switches, the running thread leaving any registers behind in between; the
    threads switched to. *)
Fixpoint switches (fuel : nat) (cs : list cpu) s : outcome (list Z * sched H) :=
  match cs with
  | [] => Ret ([], s)
  | c :: cs =>
      s ← task_switch fuel (set_cpu1 c s);
      '(v, s') ← switches fuel cs s;
      Ret (current_thread s :: v, s')
  end.

Lemma switches_total fuel cs s l :
  sched_ok s l -> (length l < fuel)%nat -> exists v s', switches fuel cs s = Ret (v, s').
Proof.
  intros Hok Hf. revert s Hok. induction cs as [|c cs IH]; intros s Hok; [by eexists _, _|].
  cbn [switches]. assert (sched_ok (set_cpu1 c s) l) as Hok1 by (by destruct Hok).
  destruct (list_elem_of_lookup_1 _ _ (so_current _ _ Hok1)) as [i Hi].
  destruct (sched_ok_switch fuel (set_cpu1 c s) l i Hok1 Hf Hi) as (s1 & j & E & _ & Hok2 & _).
  rewrite E. cbn [mbind outcome_bind]. destruct (IH s1 Hok2) as (v & s2 & ->).
  by eexists _, _.
Qed.

(** How many switches away position [k] is from position [i] at most. *)
Definition distance (n i k : nat) : nat := if (i <? k)%nat then k - i else n - i + k.

Lemma switches_visit fuel cs s l i k t :
  sched_ok s l -> (length l < fuel)%nat -> l !! i = Some (current_thread s) ->
  l !! k = Some t -> runnable s t = true -> (distance (length l) i k <= length cs)%nat ->
  exists v s', switches fuel cs s = Ret (v, s') /\ t ∈ v.
Proof.
  revert s i. induction cs as [|c cs IH]; intros s i Hok Hf Hi Hk Ht Hd.
  { apply lookup_lt_Some in Hi. cbn in Hd. unfold distance in Hd.
    destruct (Nat.ltb_spec i k); lia. }
  cbn [switches length] in *.
  assert (sched_ok (set_cpu1 c s) l) as Hok1 by (by destruct Hok).
  destruct (sched_ok_switch fuel (set_cpu1 c s) l i Hok1 Hf Hi)
    as (s1 & j & E & Hsw & Hok2 & Hj & Hnext).
  rewrite E. cbn [mbind outcome_bind].
  destruct (decide (j = k)) as [->|Hne].
  - assert (current_thread s1 = t) as -> by congruence.
    destruct (switches_total fuel cs s1 l Hok2 Hf) as (v & s2 & E2). rewrite E2. cbn [mbind outcome_bind].
    exists (t :: v), s2. split; [done|left].
  - destruct (IH s1 j) as (v & s2 & E2 & Hv); try done.
    + unfold runnable in *. by rewrite (proj1 (switched_keeps _ _ _ _ t Hsw)).
    + pose proof (lookup_lt_Some _ _ _ Hi). pose proof (lookup_lt_Some _ _ _ Hj).
      change (runnable s t) with (runnable (set_cpu1 c s) t) in Ht.
      unfold distance in *. destruct Hnext as [[Hij Hno]|[-> Hno]].
      * destruct (Nat.ltb_spec i k) as [Hik|Hik].
        -- destruct (Nat.ltb_spec j k); [lia|]. exfalso. rewrite (Hno k t) in Ht by (done || lia). done.
        -- destruct (Nat.ltb_spec j k); lia.
      * destruct (Nat.ltb_spec i k) as [Hik|Hik].
        -- exfalso. rewrite (Hno k t) in Ht by (done || lia). done.
        -- destruct (Nat.ltb_spec 0 k); lia.
    + rewrite E2. cbn [mbind outcome_bind]. exists (current_thread s1 :: v), s2.
      split; [done|by right].
Qed.
End switching.

(** ** Creation *)
Section creation.
Context {H : Type} `{AllocatorLaws H}.
Implicit Types (s : sched H) (l : list Z) (t : Z).

(** Every thread of the queue has a pid of its own, below the next one to be given, and
    stands in a block of the heap. *)
Record queue_ok s l (B : gmap Z Z) : Prop := {
  qo_linked : linked (threads s) (thread_ready_queue s) l;
  qo_nodup : NoDup l;
  qo_pids : forall t, t ∈ l -> exists r, threads s !! t = Some r /\ 0 <= pid r < next_pid s;
  qo_distinct : forall t u r q, t ∈ l -> u ∈ l -> threads s !! t = Some r ->
    threads s !! u = Some q -> pid r = pid q -> t = u;
  qo_heap : heap_ok (heap (io s)) B;
  qo_blocks : forall t, t ∈ l -> is_Some (B !! t)
}.

(** There is room for a thread and its pool. *)
Definition thread_room s : Prop :=
  heap_room (heap (io s)) 0x2000 /\
  forall p h, palloc 0 2 (heap (io s)) = Ret (p, h) -> heap_room h 0x2000.

Lemma alloc_pages_spec s B :
  heap_ok (heap (io s)) B -> heap_room (heap (io s)) 0x2000 ->
  exists v k h, alloc_pages_ 0 2 s = Ret (v, set_io (set_heap h (io s)) s) /\ 0 < v /\
    palloc 0 2 (heap (io s)) = Ret (v, h) /\
    heap_ok h (<[v := k]> B) /\ B !! v = None.
Proof.
  intros Hok Hroom.
  destruct (palloc_spec (heap (io s)) B 0 2 Hok ltac:(lia) Hroom)
    as (v & k & h & E & Hk & Hv & Hok' & Hd).
  exists v, k, h. unfold alloc_pages_. rewrite E. split_and!; try done.
  destruct (B !! v) as [j|] eqn:Ej; [|done]. destruct (heap_pos _ _ _ _ Hok Ej).
  destruct (Hd v j Ej); lia.
Qed.

Lemma append_thread_spec fuel s l new rn :
  linked (threads s) (thread_ready_queue s) l -> NoDup l -> l <> [] -> (length l <= fuel)%nat ->
  new ∉ l -> new <> 0 -> threads s !! new = Some rn -> next rn = 0 ->
  exists q rq, q ∈ l /\ threads s !! q = Some rq /\
    append_thread fuel new s = Ret (put_t q (set_next new rq) s) /\
    linked (<[q := set_next new rq]> (threads s)) (thread_ready_queue s) (l ++ [new]).
Proof.
  intros Hl Hnd Hne Hf Hnew Hn0 Hrn Hnx.
  destruct l as [|q l0 _] using rev_ind; [done|].
  pose proof Hl as Hq. apply (links_app _ _ l0 q []) in Hq as (rq & Hrq & _).
  exists q, rq. split; [apply elem_of_app; right; left|]. split; [done|].
  rewrite length_app in Hf. cbn in Hf. unfold append_thread.
  rewrite (last_of_spec fuel _ _ l0 q) by (done || lia). cbn [mbind outcome_bind].
  unfold get_t. rewrite Hrq. cbn [mbind outcome_bind]. split; [done|].
  exact (links_snoc _ _ l0 q new rq (set_next new rq) rn Hl Hnd Hnew Hn0 Hrq Hrn eq_refl Hnx).
Qed.

(** A thread linked behind the others with a pid of its own keeps the queue. *)
Lemma queue_ok_grow s s' l B B' new rn :
  queue_ok s l B -> linked (threads s') (thread_ready_queue s') (l ++ [new]) -> new ∉ l ->
  threads s' !! new = Some rn -> 0 <= pid rn < next_pid s' -> next_pid s <= next_pid s' ->
  (forall t r, t ∈ l -> threads s !! t = Some r -> pid r <> pid rn) ->
  (forall t r, t ∈ l -> threads s' !! t = Some r ->
    exists r0, threads s !! t = Some r0 /\ pid r = pid r0) ->
  heap_ok (heap (io s')) B' -> (forall t, t ∈ l -> is_Some (B !! t) -> is_Some (B' !! t)) ->
  is_Some (B' !! new) -> queue_ok s' (l ++ [new]) B'.
Proof.
  intros [Hl Hnd Hpids Hdist Hheap Hblocks] Hl' Hnew Hrn Hpid Hmono Hfresh Hkeep Hheap' HB HBn.
  constructor.
  - exact Hl'.
  - apply NoDup_app. split; [exact Hnd|]. split; [|apply NoDup_singleton].
    intros t Ht Ht'. by apply list_elem_of_singleton in Ht' as ->.
  - intros t [Ht|Ht]%elem_of_app.
    + destruct (links_lookup _ _ _ t Hl') as (r & Hr & _); [apply elem_of_app; by left|].
      destruct (Hkeep t r Ht Hr) as (r0 & Hr0 & Ep). exists r. split; [exact Hr|]. rewrite Ep.
      destruct (Hpids t Ht) as (r1 & Hr1 & ?). assert (r0 = r1) as -> by congruence. lia.
    + apply list_elem_of_singleton in Ht as ->. by exists rn.
  - intros t u r q [Ht|Ht]%elem_of_app [Hu|Hu]%elem_of_app Hr Hq Ep;
      try (apply list_elem_of_singleton in Ht as ->); try (apply list_elem_of_singleton in Hu as ->).
    + destruct (Hkeep t r Ht Hr) as (r0 & Hr0 & Er). destruct (Hkeep u q Hu Hq) as (q0 & Hq0 & Eq).
      apply (Hdist t u r0 q0); try assumption. congruence.
    + destruct (Hkeep t r Ht Hr) as (r0 & Hr0 & Er). destruct (Hfresh t r0 Ht Hr0). congruence.
    + destruct (Hkeep u q Hu Hq) as (q0 & Hq0 & Eq). destruct (Hfresh u q0 Hu Hq0). congruence.
    + reflexivity.
  - exact Hheap'.
  - intros t [Ht|Ht]%elem_of_app; [by apply HB, Hblocks|].
    by apply list_elem_of_singleton in Ht as ->.
Qed.

Lemma clear_pool_keeps v s :
  threads (clear_pool v s) = threads s /\
  thread_ready_queue (clear_pool v s) = thread_ready_queue s /\
  next_pid (clear_pool v s) = next_pid s /\ current_thread (clear_pool v s) = current_thread s /\
  cpu1 (clear_pool v s) = cpu1 s /\ heap (io (clear_pool v s)) = heap (io s).
Proof. unfold clear_pool, poke_bytes. generalize (fun b => memset b v 0 0x2000). done. Qed.

(** What the two functions that make a child leave: the child [new] at the end of the
    queue, the parent waiting for it and pointing to it. *)
Lemma finish_child_spec fuel s l B new thread th :
  queue_ok s l B -> thread ∈ l -> (length l <= fuel)%nat -> new ∉ l -> 0 < new ->
  is_Some (B !! new) -> heap_room (heap (io s)) 0x2000 ->
  0 <= pid th < next_pid s ->
  (forall t r, t ∈ l -> threads s !! t = Some r -> pid r <> pid th) ->
  exists s' B' rn rt, finish_child fuel new thread th s = Ret (new, s') /\
    queue_ok s' (l ++ [new]) B' /\ next_pid s' = next_pid s /\
    threads s' !! new = Some rn /\ ctx rn = ctx th /\ pid rn = pid th /\ head rn = thread /\
    status rn = status th /\ prv rn = prv th /\
    threads s' !! thread = Some rt /\ wait_pid rt = pid th /\ tail rt = new /\
    current_thread s' = current_thread s /\ cpu1 s' = cpu1 s.
Proof.
  intros Hq0 Hthr Hf Hnew Hn0 HBn Hroom Hpid Hfresh.
  pose proof Hq0 as [Hl Hnd _ _ Hheap _].
  destruct (links_lookup _ _ _ thread Hl Hthr) as (rt & Hrt & _).
  assert (new <> thread) as Hnt by (by intros ->).
  unfold finish_child, get_t. rewrite Hrt. cbn [mbind outcome_bind].
  set (th0 := th |> set_head thread |> set_next 0 |> set_tail 0).
  set (s1 := put_t thread (set_wait_pid (pid th0) rt) s).
  destruct (alloc_pages_spec s1 B Hheap Hroom) as (v & k & h & E & Hv & _ & Hheap' & HBv).
  rewrite E. cbn [mbind outcome_bind].
  set (th1 := set_pool v th0).
  destruct (clear_pool_keeps v (set_io (set_heap h (io s1)) s1)) as (E2 & Eq2 & En2 & Ec2 & Eu2 & Eh2).
  generalize dependent (clear_pool v (set_io (set_heap h (io s1)) s1)).
  intros s2 E2 Eq2 En2 Ec2 Eu2 Eh2. unfold s1 in *. clear s1 E.
  set (s3 := put_t new th1 s2).
  assert (threads s3 = <[new := th1]> (<[thread := set_wait_pid (pid th) rt]> (threads s))) as Eth
    by (change (threads s3) with (<[new := th1]> (threads s2)); by rewrite E2).
  assert (thread_ready_queue s3 = thread_ready_queue s) as Eq3 by exact Eq2.
  assert (linked (threads s3) (thread_ready_queue s3) l) as Hl3.
  { rewrite Eq3. eapply links_ext; [|exact Hl]. intros q r Hq Hr. rewrite Eth.
    assert (q <> new) by (by intros ->). rewrite lookup_insert_ne by done.
    destruct (decide (q = thread)) as [->|].
    - rewrite lookup_insert_eq. eexists. split; [done|]. assert (r = rt) as -> by congruence. done.
    - rewrite lookup_insert_ne by done. by exists r. }
  assert (l <> []) as Hne by (intros ->; by apply not_elem_of_nil in Hthr).
  destruct (append_thread_spec fuel s3 l new th1 Hl3 Hnd Hne Hf Hnew ltac:(lia))
    as (q & rq & Hq & Hrq & Ea & Hla); [by rewrite Eth, lookup_insert_eq|done|].
  rewrite Ea. cbn [mbind outcome_bind].
  assert (q <> new) as Hqn by (by intros ->).
  set (s4 := put_t q (set_next new rq) s3).
  assert (threads s4 = <[q := set_next new rq]> (threads s3)) as E4 by done.
  assert (exists rt4, threads s4 !! thread = Some rt4 /\ wait_pid rt4 = pid th /\ pid rt4 = pid rt)
    as (rt4 & Hrt4 & Hw4 & Hp4).
  { rewrite E4. destruct (decide (thread = q)) as [<-|Hne'].
    - rewrite lookup_insert_eq. eexists. split; [done|].
      rewrite Eth, lookup_insert_ne, lookup_insert_eq in Hrq by done. by injection Hrq as <-.
    - rewrite lookup_insert_ne by done. rewrite Eth, lookup_insert_ne, lookup_insert_eq by done.
      by eexists. }
  rewrite Hrt4. cbn [mbind outcome_bind]. set (s5 := put_t thread (set_tail new rt4) s4).
  assert (threads s5 = <[thread := set_tail new rt4]> (threads s4)) as E5 by done.
  (* every old thread keeps its pid *)
  assert (forall t r, t ∈ l -> threads s5 !! t = Some r ->
            exists r0, threads s !! t = Some r0 /\ pid r = pid r0) as Hkeep.
  { intros t r Ht Hr. assert (t <> new) by (by intros ->). rewrite E5 in Hr.
    destruct (decide (t = thread)) as [->|Htt].
    - rewrite lookup_insert_eq in Hr. injection Hr as <-. by exists rt.
    - rewrite lookup_insert_ne in Hr by done. rewrite E4 in Hr.
      assert (forall r', threads s3 !! t = Some r' -> threads s !! t = Some r') as H3.
      { intros r'. rewrite Eth, !lookup_insert_ne by done. done. }
      destruct (decide (t = q)) as [->|Htq].
      + rewrite lookup_insert_eq in Hr. injection Hr as <-. exists rq. split; [by apply H3|done].
      + rewrite lookup_insert_ne in Hr by done. exists r. split; [by apply H3|done]. }
  assert (threads s5 !! new = Some th1) as Hnew5.
  { rewrite E5, lookup_insert_ne, E4, lookup_insert_ne, Eth, lookup_insert_eq by done. done. }
  assert (linked (threads s5) (thread_ready_queue s5) (l ++ [new])) as Hl5.
  { eapply links_ext; [|exact Hla]. intros t r _ Hr. fold s4 in Hr. rewrite <- E4 in Hr.
    rewrite E5. destruct (decide (t = thread)) as [->|].
    - rewrite lookup_insert_eq. eexists. split; [done|]. by assert (r = rt4) as -> by congruence.
    - rewrite lookup_insert_ne by done. by exists r. }
  assert (B !! new <> None) as HBn' by (by destruct HBn as [? ->]).
  exists s5, (<[v := k]> B), th1, (set_tail new rt4).
  assert (next_pid s5 = next_pid s) as En5 by exact En2.
  split; [reflexivity|]. split; [|split; [exact En5|]].
  - refine (queue_ok_grow s s5 l B _ new th1 Hq0 Hl5 Hnew Hnew5 _ _ Hfresh Hkeep _ _ _).
    + rewrite En5. exact Hpid.
    + rewrite En5. reflexivity.
    + change (heap_ok (heap (io s2)) (<[v := k]> B)). by rewrite Eh2.
    + intros t _ [j Hj]. exists j. rewrite lookup_insert_ne; [done|]. intros ->. congruence.
    + destruct HBn as [j Hj]. exists j. rewrite lookup_insert_ne; [done|]. intros ->. congruence.
  - split; [exact Hnew5|]. split; [reflexivity|]. split; [reflexivity|]. split; [reflexivity|].
    split; [reflexivity|]. split; [reflexivity|].
    split; [rewrite E5; apply lookup_insert_eq|]. split; [exact Hw4|]. split; [reflexivity|].
    split; [exact Ec2|exact Eu2].
Qed.
End creation.

(** ** Resumption *)
Section resumption.
Context {H : Type} `{Allocator H}.
Implicit Types (s : sched H) (l : list Z) (t p : Z).

(** The record of [t] holds the registers, the SSE area and the pid of [c]. *)
Definition stored s t (c : cpu) : Prop :=
  exists r, threads s !! t = Some r /\ ctx r = regs c /\
    (forall i, 0 <= i < 512 -> (fxsave r)⟦i⟧ = (fx c)⟦i⟧) /\ pid r = cpid c.

Definition same_cpu (c d : cpu) : Prop :=
  regs c = regs d /\ (forall i, 0 <= i < 512 -> (fx c)⟦i⟧ = (fx d)⟦i⟧) /\ cpid c = cpid d.

Lemma switched_stored s s' p :
  switched s s' (current_thread s) p -> pid (rd (threads s) (current_thread s)) = cpid (cpu1 s) ->
  stored s' (current_thread s) (cpu1 s).
Proof.
  intros Hsw Hp. destruct (sw_old _ _ _ _ Hsw) as (r & r' & Hr & Hr' & Ec & Ef & Er).
  exists r'. split_and!; try done. unfold rd in Hp. rewrite Hr in Hp. by rewrite Er.
Qed.

Lemma switched_keeps_stored s s' q p t c :
  switched s s' q p -> q <> t -> stored s t c -> stored s' t c.
Proof.
  intros Hsw Hne (r & Hr & Hrest). exists r. split; [|exact Hrest].
  by rewrite (sw_others _ _ _ _ Hsw t) by congruence.
Qed.

Lemma switched_resumes s s' q t c : switched s s' q t -> stored s' t c -> same_cpu (cpu1 s') c.
Proof.
  intros Hsw (r & Hr & Ec & Ef & Ep). destruct (sw_new _ _ _ _ Hsw) as (r2 & Hr2 & Ec2 & Ef2 & Ep2).
  assert (r2 = r) as -> by congruence. split_and!; [congruence| |congruence].
  intros i Hi. by rewrite Ef2, Ef.
Qed.

Lemma switches_length fuel cs s v s' : switches fuel cs s = Ret (v, s') -> length v = length cs.
Proof.
  revert s v. induction cs as [|c cs IH]; intros s v E; cbn in E; [by injection E as <- _|].
  inv_ret E. destruct a0 as [w s1]. injection E as <- <-. cbn. f_equal. by eapply IH.
Qed.

Lemma switches_first fuel c cs s l v s' :
  sched_ok s l -> (length l < fuel)%nat -> switches fuel (c :: cs) s = Ret (v, s') ->
  exists s1 v1, switched (set_cpu1 c s) s1 (current_thread s) (current_thread s1) /\
    sched_ok s1 l /\ switches fuel cs s1 = Ret (v1, s') /\ v = current_thread s1 :: v1.
Proof.
  intros Hok Hf E. cbn [switches] in E. inv_ret E. destruct a0 as [v1 s2]. injection E as <- <-.
  assert (sched_ok (set_cpu1 c s) l) as Hok1 by (by destruct Hok).
  destruct (list_elem_of_lookup_1 _ _ (so_current _ _ Hok1)) as [i Hi].
  destruct (sched_ok_switch fuel (set_cpu1 c s) l i Hok1 Hf Hi) as (s1 & j & E' & Hsw & Hok2 & _).
  rewrite E0 in E'. injection E' as ->. exists s1, v1. done.
Qed.

(** While [t] is not chosen its record stays; when it is, it gets it back. *)
Lemma switches_resume fuel cs s l t c v s' :
  sched_ok s l -> (length l < fuel)%nat -> current_thread s <> t -> stored s t c ->
  switches fuel cs s = Ret (v ++ [t], s') -> t ∉ v -> same_cpu (cpu1 s') c.
Proof.
  revert s v. induction cs as [|d cs IH]; intros s v Hok Hf Hne Hst E Hv.
  { cbn in E. injection E as E _. by destruct v. }
  destruct (switches_first _ _ _ _ _ _ _ Hok Hf E) as (s1 & v1 & Hsw & Hok1 & E1 & Ev).
  assert (stored s1 t c) as Hst1 by (by eapply switched_keeps_stored).
  destruct v as [|q v].
  - injection Ev as Et <-. rewrite <- Et in Hsw.
    pose proof (switches_length _ _ _ _ _ E1) as Hlen. destruct cs; [|done].
    injection E1 as <-. by eapply switched_resumes.
  - injection Ev as -> <-. apply not_elem_of_cons in Hv as [Hq Hv].
    apply (IH s1 v); congruence || done.
Qed.

(** C4: a thread interrupted with any register values gets back, the next time the
    scheduler of the first processor chooses it and whatever ran in between, exactly those
    registers, its SSE area and its pid. *)
Theorem resume_registers fuel s l c cs v s' :
  sched_ok s l -> (length l < fuel)%nat ->
  cpid c = pid (rd (threads s) (current_thread s)) ->
  switches fuel (c :: cs) s = Ret (v ++ [current_thread s], s') -> current_thread s ∉ v ->
  same_cpu (cpu1 s') c.
Proof.
  intros Hok Hf Hp E Hv. set (t := current_thread s) in *.
  destruct (switches_first _ _ _ _ _ _ _ Hok Hf E) as (s1 & v1 & Hsw & Hok1 & E1 & Ev).
  assert (stored s1 t c) as Hst by (by apply (switched_stored (set_cpu1 c s) s1 _ Hsw)).
  destruct v as [|q v].
  - injection Ev as Et <-. rewrite <- Et in Hsw.
    pose proof (switches_length _ _ _ _ _ E1) as Hlen. destruct cs; [|done].
    injection E1 as <-. by eapply switched_resumes.
  - injection Ev as -> <-. apply not_elem_of_cons in Hv as [Hq Hv].
    apply (switches_resume fuel cs s1 l t c v s'); congruence || done.
Qed.

(** C3: the scheduler of the first processor starves nobody: with [length l] switches,
    whatever the threads compute in between, every thread of the queue that is runnable has
    been switched to. *)
Theorem scheduler_fair fuel s l cs t :
  sched_ok s l -> (length l < fuel)%nat -> length cs = length l ->
  t ∈ l -> runnable s t = true ->
  exists v s', switches fuel cs s = Ret (v, s') /\ length v = length l /\ t ∈ v.
Proof.
  intros Hok Hf Hcs Ht Hr.
  destruct (list_elem_of_lookup_1 _ _ (so_current _ _ Hok)) as [i Hi].
  destruct (list_elem_of_lookup_1 _ _ Ht) as [k Hk].
  destruct (switches_visit fuel cs s l i k t Hok Hf Hi Hk Hr) as (v & s' & E & Hv).
  - pose proof (lookup_lt_Some _ _ _ Hi). pose proof (lookup_lt_Some _ _ _ Hk).
    unfold distance. destruct (Nat.ltb_spec i k); lia.
  - exists v, s'. split; [exact E|]. split; [|exact Hv].
    rewrite <- Hcs. by eapply switches_length.
Qed.
End resumption.

(** ** The second processor *)
Section second.
Context {H : Type} `{Allocator H}.
Implicit Types (s : sched H) (l : list Z) (t p : Z).

Lemma get_t_rd s t : is_Some (threads s !! t) -> get_t t s = Ret (rd (threads s) t).
Proof. intros [r Hr]. unfold get_t, rd. by rewrite Hr. Qed.

Lemma linked_put s t r p l :
  (forall q, q = t -> exists r0, threads s !! t = Some r0 /\ next r = next r0) ->
  linked (threads s) p l -> linked (threads (put_t t r s)) p l.
Proof.
  intros Ht Hl. eapply links_ext; [|exact Hl]. intros q r0 Hq Hr0. cbn.
  destruct (decide (q = t)) as [->|Hne].
  - destruct (Ht t eq_refl) as (r1 & Hr1 & En). exists r. rewrite lookup_insert_eq.
    split; [done|]. rewrite En. congruence.
  - exists r0. by rewrite lookup_insert_ne.
Qed.

Lemma pick_app stop th l1 l2 :
  Forall (fun q => q <> 0) l1 ->
  pick stop th (l1 ++ l2) = if pick stop th l1 =? 0 then pick stop th l2 else pick stop th l1.
Proof.
  induction 1 as [|q l1 Hq _ IH]; [done|]. cbn [app pick].
  destruct (stop (rd th q)); [by destruct (Z.eqb_spec q 0)|exact IH].
Qed.

Lemma seek2_spec fuel s l l1 t l2 r :
  linked (threads s) (thread_ready_queue s) l -> l = l1 ++ t :: l2 -> (length l < fuel)%nat ->
  threads s !! t = Some r -> seek2 fuel (next r) s = Ret (pick taken2 (threads s) (l2 ++ l)).
Proof.
  intros Hl El Hf Hr. pose proof Hl as Hl0. rewrite El in Hl0.
  apply links_app in Hl0 as (r0 & Hr0 & Hl2). assert (r0 = r) as -> by congruence.
  assert (length l2 < fuel)%nat as Hf2 by (rewrite El, length_app in Hf; cbn in Hf; lia).
  unfold seek2. rewrite (seek_thread_spec _ _ _ _ _ Hl2 Hf2). cbn [mbind outcome_bind].
  rewrite (seek_thread_spec _ _ _ _ _ Hl Hf). rewrite pick_app.
  - by destruct (pick taken2 (threads s) l2 =? 0).
  - apply Forall_forall. intros q Hq. by destruct (links_lookup _ _ _ q Hl2 Hq) as (? & _ & ?).
Qed.

(** What the second processor's switch has saved before it searches. *)
Definition saved2 s : sched H :=
  if first_thread2 s =? 0 then s
  else put_t (current_thread2 s) (save (cpu2 s) (rd (threads s) (current_thread2 s))) s.

Lemma saved2_rd s q :
  is_Some (threads s !! current_thread2 s) ->
  next (rd (threads (saved2 s)) q) = next (rd (threads s) q) /\
  taken2 (rd (threads (saved2 s)) q) = taken2 (rd (threads s) q) /\
  (is_Some (threads s !! q) -> is_Some (threads (saved2 s) !! q)).
Proof.
  intros [r Hr]. unfold saved2. destruct (first_thread2 s =? 0); [done|]. unfold rd. cbn [threads put_t set_threads].
  destruct (decide (q = current_thread2 s)) as [->|Hne].
  - rewrite lookup_insert_eq, Hr. done.
  - by rewrite lookup_insert_ne.
Qed.

Lemma saved2_linked s l :
  is_Some (threads s !! current_thread2 s) -> linked (threads s) (thread_ready_queue s) l ->
  linked (threads (saved2 s)) (thread_ready_queue s) l.
Proof.
  intros Hc Hl. eapply links_ext; [|exact Hl]. intros q r Hq Hr.
  destruct (saved2_rd s q Hc) as (En & _ & Hs). destruct (Hs ltac:(by exists r)) as [r' Hr'].
  exists r'. split; [done|]. unfold rd in En. by rewrite Hr, Hr' in En.
Qed.

Lemma saved2_keeps s :
  first_thread2 (saved2 s) = first_thread2 s /\ threadz (saved2 s) = threadz s /\
  current_thread2 (saved2 s) = current_thread2 s /\ cpu2 (saved2 s) = cpu2 s /\
  thread_ready_queue (saved2 s) = thread_ready_queue s.
Proof. unfold saved2. by destruct (first_thread2 s =? 0). Qed.

(** The second processor's scheduler saves the interrupted registers (once it has a
    thread), takes the first thread marked for it that does not sleep in the cyclic order that
    starts behind the current one, and loads its registers; when no thread is marked it
    changes nothing else, and while [threadz] is set it resumes the thread it interrupted. *)
Theorem task_switch2_takes fuel s l l1 l2 :
  linked (threads s) (thread_ready_queue s) l -> l = l1 ++ current_thread2 s :: l2 ->
  (length l < fuel)%nat ->
  let p := pick taken2 (threads s) (l2 ++ l) in
  exists s', task_switch2 fuel s = Ret s' /\ threads s' = threads (saved2 s) /\
    if negb (first_thread2 s =? 0) && negb (threadz s =? 0) then
      current_thread2 s' = current_thread2 s /\ regs (cpu2 s') = regs (cpu2 s)
    else if p =? 0 then
      s' = saved2 s /\ Forall (fun q => taken2 (rd (threads s) q) = false) l
    else
      p ∈ l /\ taken2 (rd (threads s) p) = true /\ current_thread2 s' = p /\
      first_thread2 s' = 1 /\ regs (cpu2 s') = ctx (rd (threads s') p) /\
      cpid (cpu2 s') = pid (rd (threads s') p).
Proof.
  intros Hl El Hf p. set (t := current_thread2 s) in *.
  assert (t ∈ l) as Ht by (rewrite El; apply elem_of_app; right; left).
  destruct (links_lookup _ _ _ t Hl Ht) as (r & Hr & _).
  assert (is_Some (threads s !! t)) as Hs by (by exists r).
  unfold task_switch2. fold t. rewrite get_t_rd by done. cbn [mbind outcome_bind].
  change (if first_thread2 s =? 0 then s else put_t t (save (cpu2 s) (rd (threads s) t)) s)
    with (saved2 s). set (s1 := saved2 s).
  destruct (saved2_keeps s) as (Ef1 & Ez1 & Ec1 & Eu1 & Eq1). fold s1 in Ef1, Ez1, Ec1, Eu1, Eq1.
  rewrite Ef1, Ez1.
  assert (is_Some (threads s1 !! t)) as Hs1 by (by apply (saved2_rd s t Hs)).
  destruct (negb (first_thread2 s =? 0) && negb (threadz s =? 0)) eqn:Ez.
  - rewrite get_t_rd by done. cbn [mbind outcome_bind]. eexists. split; [reflexivity|].
    split; [reflexivity|]. split; [exact Ec1|].
    cbn [cpu2 set_cpu2 restore regs]. rewrite copy_context_eq. unfold s1, saved2, rd.
    apply andb_true_iff in Ez as [Ez _]. apply negb_true_iff in Ez. rewrite Ez.
    cbn [threads put_t set_threads]. fold t. rewrite lookup_insert_eq.
    apply copy_context_eq.
  - destruct Hs1 as [r1 Hr1].
    assert (next (rd (threads s) t) = next r1) as ->.
    { destruct (saved2_rd s t Hs) as (En & _). rewrite <- En. fold s1. unfold rd. by rewrite Hr1. }
    assert (linked (threads s1) (thread_ready_queue s1) l) as Hl1
      by (rewrite Eq1; by apply saved2_linked).
    rewrite (seek2_spec fuel s1 l l1 t l2 r1 Hl1 El Hf Hr1). cbn [mbind outcome_bind].
    rewrite (pick_ext taken2 (threads s) (threads s1))
      by (intros q _; apply (saved2_rd s q Hs)). fold p.
    destruct (pick_cases taken2 (threads s) (l2 ++ l)) as [(m1 & q & m2 & E & Hq & Ep & _)|[Ep Hall]].
    + fold p in Ep. rewrite Ep.
      assert (q ∈ l) as Hql.
      { assert (q ∈ l2 ++ l) as [Hin|Hin]%elem_of_app
          by (rewrite E; apply elem_of_app; right; left); [|done].
        rewrite El. apply elem_of_app. right. by right. }
      destruct (links_lookup _ _ _ q Hl1 Hql) as (rq & Hrq & Hq0).
      destruct (Z.eqb_spec q 0); [done|]. 
      rewrite get_t_rd by (by exists rq). cbn [mbind outcome_bind].
      eexists. split; [reflexivity|]. split; [reflexivity|].
      split; [done|]. split; [done|]. split; [reflexivity|]. split; [reflexivity|].
      split; [apply copy_context_eq|reflexivity].
    + fold p in Ep. rewrite Ep. exists s1. split; [reflexivity|]. split; [reflexivity|].
      split; [reflexivity|]. by apply Forall_app in Hall as [_ Hall].
Qed.
End second.

(** ** A new thread *)
Section pthread.
Context {H : Type} `{AllocatorLaws H}.
Implicit Types (s : sched H) (l : list Z) (t : Z).

(** C37: on any allocator that keeps the interface's laws [pthread_create] returns a thread
    that was not in the queue, at its end, with a pid no other thread has, its own stack
    pointer and entry point, the address space, streams and window of its parent, asleep
    until it is joined; the parent waits for it and points to it; the other links, the
    allocator and the queue's invariant are kept, and the parent runs on. *)
Theorem pthread_create_appends sse fuel main rsp_ pv thread s l B :
  queue_ok s l B -> thread ∈ l -> (length l <= fuel)%nat -> thread_room s ->
  0 <= next_pid s < 2 ^ 64 - 1 ->
  exists t s' B' rt rp, pthread_create sse fuel main rsp_ pv thread s = Ret (t, s') /\
    (t ∉ l) /\ queue_ok s' (l ++ [t]) B' /\
    threads s' !! t = Some rt /\ rip (ctx rt) = main /\ rsp (ctx rt) = rsp_ /\
    cs (ctx rt) = (if Z.land pv 1 =? 1 then 0x1B else 0x8) /\
    cr3 (ctx rt) = cr3 (ctx (rd (threads s) thread)) /\ skipped rt = true /\
    pid rt = next_pid s /\ next_pid s' = next_pid s + 1 /\ head rt = thread /\
    threads s' !! thread = Some rp /\ wait_pid rp = pid rt /\ tail rp = t /\
    current_thread s' = current_thread s /\ cpu1 s' = cpu1 s.
Proof.
  intros Hq Ht Hf [Hroom1 Hroom2] Hpid. pose proof Hq as [Hl Hnd Hpids Hdist Hheap Hblocks].
  destruct (alloc_pages_spec s B Hheap Hroom1) as (t & k & h & E & Hpos & Ep & Hheap1 & HBt).
  unfold pthread_create. rewrite E. cbn [mbind outcome_bind].
  destruct (links_lookup _ _ _ thread Hl Ht) as (rp & Hrp & _).
  match goal with |- context [set_next_pid ?v ?x] => set (s1 := set_next_pid v x) end.
  assert (next_pid s1 = next_pid s + 1) as En1 by (apply u64_small; lia).
  assert (get_t thread s1 = Ret rp) as -> by (unfold get_t; change (threads s1) with (threads s); by rewrite Hrp).
  cbn [mbind outcome_bind].
  match goal with |- context [finish_child _ _ _ ?x _] => set (th := x) end.
  assert (t ∉ l) as Htl by (intros Hin; destruct (Hblocks t Hin) as [j Hj]; congruence).
  assert (pid th = next_pid s) as Epid by (unfold th, set_privilege; by destruct (_ =? 1)).
  assert (queue_ok s1 l (<[t := k]> B)) as Hq1.
  { constructor; [exact Hl|exact Hnd| |exact Hdist|exact Hheap1|].
    - intros u Hu. destruct (Hpids u Hu) as (r & Hr & Hb). exists r. split; [exact Hr|]. lia.
    - intros u Hu. destruct (Hblocks u Hu) as [j Hj]. exists j. rewrite lookup_insert_ne; [done|].
      intros ->. congruence. }
  destruct (finish_child_spec fuel s1 l _ t thread th Hq1 Ht Hf Htl Hpos) as
    (s' & B' & rt & rp' & Ef & Hq' & En & Hrt & Ectx & Epid' & Ehead & Estat & Eprv & Hrp' & Hw & Htail & Ec & Eu).
  - exists k. apply lookup_insert_eq.
  - exact (Hroom2 _ _ Ep).
  - lia.
  - intros u r Hu Hr. destruct (Hpids u Hu) as (r' & Hr' & Hb). rewrite Epid.
    change (threads s1 !! u) with (threads s !! u) in Hr. assert (r = r') as -> by congruence. lia.
  - exists t, s', B', rt, rp'. rewrite Ectx, Epid', Ehead, Epid.
    assert (rip (ctx th) = main /\ rsp (ctx th) = rsp_ /\
      cs (ctx th) = (if Z.land pv 1 =? 1 then 0x1B else 0x8) /\ cr3 (ctx th) = cr3 (ctx rp) /\
      status th = THREAD_ZUMBI) as (E1 & E2 & E3 & E4 & E5)
      by (unfold th, set_privilege; by destruct (_ =? 1)).
    split; [exact Ef|]. split; [exact Htl|]. split; [exact Hq'|]. split; [exact Hrt|].
    split; [exact E1|]. split; [exact E2|]. split; [exact E3|].
    split; [unfold rd; by rewrite Hrp|].
    split; [unfold skipped; rewrite Estat, E5; apply orb_true_iff; left; apply orb_true_r|].
    split; [reflexivity|]. split; [lia|]. split; [reflexivity|]. split; [exact Hrp'|].
    split; [congruence|]. split; [exact Htail|]. split; [exact Ec|exact Eu].
Qed.
End pthread.

(** ** Examples: three threads at 0x1000, 0x2000 and 0x3000 *)
Definition ex_thread (n p : Z) (st : Z) (pr : Z) : THREAD :=
  (zero : THREAD) |> set_next n |> set_pid p |> set_status st |> set_prv pr.

Definition ex_sched : sched bump :=
  Sched {[0x1000 := ex_thread 0x2000 0 0 0; 0x2000 := ex_thread 0x3000 1 0 0;
          0x3000 := ex_thread 0 2 0 0x80]} 0x1000 0x1000 0x1000
        (Cpu zero ∅ 0) (Cpu zero ∅ 0) 3 0 0 0 (Sys (0x10000 : bump) ∅ ∅ 0).

Definition ex_list : list Z := [0x1000; 0x2000; 0x3000].

Lemma ex_linked : linked (threads ex_sched) 0x1000 ex_list.
Proof.
  split; [done|]. split; [done|]. exists (ex_thread 0x2000 0 0 0). split; [reflexivity|].
  split; [done|]. split; [done|]. exists (ex_thread 0x3000 1 0 0). split; [reflexivity|].
  split; [done|]. split; [done|]. exists (ex_thread 0 2 0 0x80). split; reflexivity.
Qed.

Lemma ex_nodup : NoDup ex_list.
Proof. apply (bool_decide_eq_true_1 (NoDup ex_list)). vm_compute. reflexivity. Qed.

Lemma ex_sched_ok : sched_ok ex_sched ex_list.
Proof. constructor; [exact ex_linked|exact ex_nodup|left]. Qed.

Lemma ex_lookup t r : t ∈ ex_list -> threads ex_sched !! t = Some r ->
  (t = 0x1000 /\ pid r = 0) \/ (t = 0x2000 /\ pid r = 1) \/ (t = 0x3000 /\ pid r = 2).
Proof.
  intros [->|[->|[->|Hn]%elem_of_cons]%elem_of_cons]%elem_of_cons Hr.
  - change (Some (ex_thread 0x2000 0 0 0) = Some r) in Hr. injection Hr as <-. by left.
  - change (Some (ex_thread 0x3000 1 0 0) = Some r) in Hr. injection Hr as <-. by right; left.
  - change (Some (ex_thread 0 2 0 0x80) = Some r) in Hr. injection Hr as <-. by right; right.
  - by apply not_elem_of_nil in Hn.
Qed.

Lemma ex_queue_ok : queue_ok ex_sched ex_list {[0x1000 := 1; 0x2000 := 1; 0x3000 := 1]}.
Proof.
  constructor.
  - exact ex_linked.
  - exact ex_nodup.
  - intros t Ht. destruct (links_lookup _ _ _ t ex_linked Ht) as (r & Hr & _). exists r.
    split; [exact Hr|]. change (next_pid ex_sched) with 3.
    destruct (ex_lookup t r Ht Hr) as [[_ ->]|[[_ ->]|[_ ->]]]; lia.
  - intros t u r q Ht Hu Hr Hq E.
    destruct (ex_lookup t r Ht Hr) as [[-> Er]|[[-> Er]|[-> Er]]], (ex_lookup u q Hu Hq) as [[-> Eq]|[[-> Eq]|[-> Eq]]];
      congruence.
  - split; [reflexivity|]. intros p k Hp. change (heap (io ex_sched)) with 0x10000.
    repeat (apply lookup_insert_Some in Hp as [[<- <-]|[_ Hp]]; [lia|]).
    apply lookup_singleton_Some in Hp as [<- <-]. lia.
  - intros t [->|[->|[->|Hn]%elem_of_cons]%elem_of_cons]%elem_of_cons; try (by eexists).
    by apply not_elem_of_nil in Hn.
Qed.

Definition ex_cpu (a p : Z) : cpu := Cpu (set_rax a zero) ∅ p.

Example resume_registers_witness :
  exists v s', switches 4 [ex_cpu 7 0; ex_cpu 8 1] ex_sched = Ret (v ++ [0x1000], s') /\
    same_cpu (cpu1 s') (ex_cpu 7 0).
Proof.
  destruct (switches_total 4 [ex_cpu 7 0; ex_cpu 8 1] ex_sched ex_list ex_sched_ok) as (w & s' & E);
    [cbn; lia|].
  assert (w = [0x2000] ++ [0x1000]) as ->.
  { change w with (match Ret (w, s') with Ret (x, _) => x | _ => [] end). rewrite <- E.
    vm_compute. reflexivity. }
  exists [0x2000], s'. split; [exact E|].
  apply (resume_registers 4 ex_sched ex_list (ex_cpu 7 0) [ex_cpu 8 1] [0x2000]).
  - exact ex_sched_ok.
  - cbn. lia.
  - reflexivity.
  - exact E.
  - intros Hin. apply list_elem_of_singleton in Hin. discriminate.
Defined.

Example scheduler_fair_witness :
  exists v s', switches 4 [ex_cpu 7 0; ex_cpu 8 1; ex_cpu 9 0] ex_sched = Ret (v, s') /\
    length v = 3%nat /\ 0x2000 ∈ v.
Proof.
  apply (scheduler_fair 4 ex_sched ex_list [ex_cpu 7 0; ex_cpu 8 1; ex_cpu 9 0] 0x2000).
  - exact ex_sched_ok.
  - cbn. lia.
  - reflexivity.
  - right. left.
  - reflexivity.
Defined.

Example task_switch2_takes_witness :
  exists s', task_switch2 4 ex_sched = Ret s' /\ current_thread2 s' = 0x3000.
Proof.
  destruct (task_switch2_takes 4 ex_sched ex_list [] [0x2000; 0x3000]) as (s' & E & _ & Hs).
  - exact ex_linked.
  - reflexivity.
  - cbn. lia.
  - exists s'. split; [exact E|]. exact (proj1 (proj2 (proj2 Hs))).
Defined.

Example pthread_create_appends_witness :
  exists t s' B', pthread_create ∅ 3 0x400000 0x500000 1 0x1000 ex_sched = Ret (t, s') /\
    queue_ok s' (ex_list ++ [t]) B'.
Proof.
  destruct (pthread_create_appends ∅ 3 0x400000 0x500000 1 0x1000 ex_sched ex_list _ ex_queue_ok)
    as (t & s' & B' & rt & rp & E & _ & Hq & _).
  - left.
  - cbn. lia.
  - split; [exact I|]. intros p h _. exact I.
  - change (next_pid ex_sched) with 3. lia.
  - exists t, s', B'. split; [exact E|exact Hq].
Defined.
