(* ===== verification/Exec.v ===== *)
(** * Exec: loading a program (kernel/exectve.c, kernel/file/elf.c, kernel/argv.c)

    [exec_space] builds the address space of a process: four levels of tables in blocks of the
    page allocator and a frame for every page of the image; [walk] is the translation the
    processor makes with them.  [load_elf64_header] and [load_elf64_segment] read the image, a
    buffer in kernel memory; [exec_args] writes the working directory and the arguments behind it.
    The bytes of the process are [ubytes], by physical address: every access to them goes
    through [walk], and one that leaves the pages of the process is [Undef].  The words of the
    tables are in [tab] of Paging, by physical address. *)
From S2P Require Import Prelude KString Bytes Frames Pages Paging Heap Ledger.

(** ** The tables of a process *)

(** The physical address of a kernel address: the memory below the window of the page allocator
    is mapped one to one. *)
Definition kaddr (s : mm) (v : Z) : Z :=
  if v <? ALLOC_PAGE_MEMORY then v else get_phy_addr s v + v mod 0x1000.

(** A change of the table entry at the kernel address [v]. *)
Definition set_word (v : Z) (f : Z -> Z) (s : mm) : mm := set_tab (upd (tab s) (kaddr s v) f) s.

Definition zero_words (v n : Z) (s : mm) : mm :=
  for_upto 0 n (fun i => set_word (v + 8 * i) (fun _ => 0)) s.

(** [p = 1; rw = 1; us = 1; frames = (phy >> 12) & 0xffffffffffff], with the address at the same
    bits in the entries of all four levels. *)
Definition user_entry (phy e : Z) : Z :=
  e |> fset f_p 1 |> fset f_rw 1 |> fset f_us 1 |> fset f_frames (mask48 (Z.shiftr phy 12)).

Record tables := Tables { t_pml4e : Z; t_pdpte : Z; t_pde : Z; t_pte : Z }.

(** [alloc_pages(0, len, &v); memset(v, 0, len * 4096);] *)
Definition alloc_table (len : Z) (s : mm) : outcome (Z * mm) :=
  '(_, v, s) ← alloc_pages 0 (u32 len) 0 s;
  Ret (v, zero_words v (512 * len) s).

(** The four blocks; the first entry of the new root is that of the kernel. *)
Definition exec_tables (tbs : Z) (s : mm) : outcome (tables * mm) :=
  '(_pml4e, s) ← alloc_table 1 s;
  '(_pdpte, s) ← alloc_table 1 s;
  '(pde, s) ← alloc_table 1 s;
  '(pte, s) ← alloc_table tbs s;
  let e := (tab s)⟦kaddr s (pml4e s)⟧ in
  let s := set_word _pml4e (fun _ => e) s in
  Ret (Tables _pml4e _pdpte pde pte, s).

(** The frame of one page; that there may be none is not looked at. *)
Definition map_page (pte i : Z) (s : mm) : mm :=
  let '(frame, r) := alloc_frame (ram s) in
  set_word (pte + 8 * i) (user_entry frame) (set_ram r s).

Definition link_table (pte pde i : Z) (s : mm) : mm :=
  let phy := get_phy_addr s (pte + 0x1000 * i) in
  set_word (pde + 8 * i) (user_entry phy) s.

(** The tables, the physical address of their root, and the state. *)
Definition exec_space (pagesize tbs : Z) (s : mm) : outcome (tables * Z * mm) :=
  '(tb, s) ← exec_tables tbs s;
  let s := for_upto 0 pagesize (map_page (t_pte tb)) s in
  let s := for_upto 0 tbs (link_table (t_pte tb) (t_pde tb)) s in
  let phy := get_phy_addr s (t_pde tb) in
  let s := set_word (t_pdpte tb) (user_entry phy) s in
  let phy := get_phy_addr s (t_pdpte tb) in
  let s := set_word (t_pml4e tb + 8) (user_entry phy) s in
  Ret (tb, get_phy_addr s (t_pml4e tb), s).

(** The translation of [v] with the root [cr3]: an entry that is not present is a fault. *)
Definition walk_level (t : gmap Z Z) (table v shift : Z) : option Z :=
  let e := t⟦table + 8 * Z.land (Z.shiftr v shift) 0x1FF⟧ in
  if fget f_p e =? 0 then None else Some (entry_addr e).

Definition walk (t : gmap Z Z) (cr3 v : Z) : option Z :=
  if (0 <=? v) && (v <? 2 ^ 47) then
    a ← walk_level t cr3 v 39;
    a ← walk_level t a v 30;
    a ← walk_level t a v 21;
    a ← walk_level t a v 12;
    Some (a + v mod 0x1000)
  else None.

(** ** The memory of the process *)

Definition IMAGE_START : Z := 0x8000000000.

(** The tables and bitmaps, the bytes of the kernel by address, the bytes of the processes by
    physical address. *)
Record mach := Mach { mmu : mm; kbytes : mem; ubytes : mem }.
Definition set_ubytes (v : mem) (x : mach) : mach := Mach (mmu x) (kbytes x) v.

Definition user_addr (cr3 v : Z) (x : mach) : outcome Z :=
  if v <? IMAGE_START then Undef
  else match walk (tab (mmu x)) cr3 v with None => Undef | Some a => Ret a end.

Definition put8 (cr3 v b : Z) (x : mach) : outcome mach :=
  a ← user_addr cr3 v x; Ret (set_ubytes (ubytes x)⟦a := u8 b⟧ x).

Definition get8 (cr3 v : Z) (x : mach) : outcome Z :=
  a ← user_addr cr3 v x; Ret (ubytes x)⟦a⟧.

Fixpoint put_word (n : nat) (cr3 v w : Z) (x : mach) : outcome mach :=
  match n with
  | O => Ret x
  | S n => x ← put8 cr3 v w x; put_word n cr3 (v + 1) (w / 256) x
  end.

Fixpoint get_word (n : nat) (cr3 v : Z) (x : mach) : outcome Z :=
  match n with
  | O => Ret 0
  | S n => b ← get8 cr3 v x; r ← get_word n cr3 (v + 1) x; Ret (b + 256 * r)
  end.

(** [memset] into the process, and [strcpy] from the kernel into it. *)
Definition user_memset (cr3 v val n : Z) (x : mach) : outcome mach :=
  for_outcome (Z.to_nat n) 0 (fun i => put8 cr3 (v + i) val) x.

Fixpoint user_strcpy (fuel : nat) (cr3 dest src : Z) (x : mach) : outcome mach :=
  match fuel with
  | O => NoFuel
  | S fuel =>
      if (kbytes x)⟦src⟧ =? 0 then put8 cr3 dest 0 x
      else x ← put8 cr3 dest (kbytes x)⟦src⟧ x; user_strcpy fuel cr3 (dest + 1) (src + 1) x
  end.

(** ** The image *)

Definition e_class (m : mem) (bf : Z) : Z := m⟦bf + 4⟧.
Definition e_type (m : mem) (bf : Z) : Z := ld16 m (bf + 16).
Definition e_machine (m : mem) (bf : Z) : Z := ld16 m (bf + 18).
Definition e_entry (m : mem) (bf : Z) : Z := ld64 m (bf + 24).
Definition e_shoff (m : mem) (bf : Z) : Z := ld64 m (bf + 40).
Definition e_shnum (m : mem) (bf : Z) : Z := ld16 m (bf + 60).

Definition section (m : mem) (bf i : Z) : Z := u64 (bf + e_shoff m bf) + 64 * i.
Definition sh_type (m : mem) (sec : Z) : Z := ld32 m (sec + 4).
Definition sh_addr (m : mem) (sec : Z) : Z := ld64 m (sec + 16).
Definition sh_offset (m : mem) (sec : Z) : Z := ld64 m (sec + 24).
Definition sh_size (m : mem) (sec : Z) : Z := ld64 m (sec + 32).

(** A section with an address and contents of its own is loaded. *)
Definition loaded (m : mem) (sec : Z) : bool := negb (sh_addr m sec =? 0) && (sh_type m sec =? 1).

Record program_header_t := Phdr { start : Z; entry : Z; end_ : Z }.

(** The 32-bit counter of the loop [for (e = 0; e < sh_size; e++) end = sh_addr + sh_size;] never
    reaches a size of 4 GiB. *)
Definition header_section (m : mem) (bf i end_ : Z) : outcome Z :=
  let sec := section m bf i in
  if loaded m sec then
    if sh_size m sec >=? 2 ^ 32 then Hang
    else Ret (if sh_size m sec =? 0 then end_ else u64 (sh_addr m sec + sh_size m sec))
  else Ret end_.

(** The result and [*phdr], which keeps its value on an error. *)
Definition load_elf64_header (m : mem) (bf : Z) (phdr : program_header_t) :
    outcome (Z * program_header_t) :=
  if negb (e_class m bf =? 2) then Ret (1, phdr)
  else if negb (e_type m bf =? 2) then Ret (2, phdr)
  else if negb (e_machine m bf =? 62) then Ret (3, phdr)
  else
    e ← for_outcome (Z.to_nat (e_shnum m bf)) 0 (header_section m bf) 0;
    Ret (0, Phdr IMAGE_START (e_entry m bf) e).

(** A section of 4 GiB leaves the pages of the process before its counter wraps. *)
Definition copy_section (cr3 bf i : Z) (x : mach) : outcome mach :=
  let m := kbytes x in
  let sec := section m bf i in
  if loaded m sec then
    for_outcome (Z.to_nat (sh_size m sec)) 0
      (fun e x => put8 cr3 (sh_addr m sec + e) (kbytes x)⟦u64 (bf + sh_offset m sec + e)⟧ x) x
  else Ret x.

Definition load_elf64_segment (cr3 bf : Z) (x : mach) : outcome mach :=
  for_outcome (Z.to_nat (e_shnum (kbytes x) bf)) 0 (copy_section cr3 bf) x.

(** ** The arguments *)

Definition APP_STAK_SIZE : Z := 0x1000 * 32.
Definition APP_ARG_SIZE : Z := 0x1000 * 16.
Definition APP_ARG_LEN : Z := 256.
Definition APP_ARG_COUNT : Z := 128.

(** [arg[i] = (char* )(argv_ptr + i * APP_ARG_LEN)] for the table [arg] and the strings behind it. *)
Definition arg_table (cr3 arg : Z) (x : mach) : outcome mach :=
  for_outcome (Z.to_nat APP_ARG_COUNT) 0
    (fun i => put_word 8 cr3 (arg + 8 * i) (arg + 0x1000 + i * APP_ARG_LEN)) x.

Definition copy_arg (fuel : nat) (cr3 arg argv i : Z) (x : mach) : outcome mach :=
  d ← get_word 8 cr3 (arg + 8 * i) x;
  user_strcpy fuel cr3 d (ld64 (kbytes x) (argv + 8 * i)) x.

Definition exec_args (fuel : nat) (cr3 argc argv pwd argv_ptr : Z) (x : mach) : outcome mach :=
  let arg := argv_ptr + 0x1000 in
  x ← arg_table cr3 arg x;
  x ← (if pwd =? 0 then Ret x else user_strcpy fuel cr3 argv_ptr pwd x);
  if argv =? 0 then Ret x else for_outcome (Z.to_nat argc) 0 (copy_arg fuel cr3 arg argv) x.

(** ** The call up to the creation of the thread *)

Definition image_size (end_ : Z) : Z := s32 (u64 (end_ + APP_STAK_SIZE + APP_ARG_SIZE) - IMAGE_START).
Definition round_up (n k : Z) : Z := if Z.rem n k =? 0 then Z.quot n k else Z.quot n k + 1.

Record loaded_image := Image { im_tables : tables; im_cr3 : Z; im_pages : Z; im_entry : Z;
  im_stack : Z; im_pwd : Z; im_arg : Z }.

(** [None] when the header is refused.  [child] tells [exectve_child], which computes the address of
    the arguments from the size of the image. *)
Definition exec_image (child : bool) (fuel : nat) (argc argv pwd bf : Z) (phdr : program_header_t) (x : mach) :
    outcome (option loaded_image * mach) :=
  '(r, phdr) ← load_elf64_header (kbytes x) bf phdr;
  if negb (r =? 0) then Ret (None, x)
  else
    let stack := u64 (end_ phdr + APP_STAK_SIZE + APP_ARG_SIZE) in
    let physize := image_size (end_ phdr) in
    let pagesize := round_up physize 0x1000 in
    let tbs := round_up pagesize 512 in
    '(tb, cr3, s) ← exec_space pagesize tbs (mmu x);
    let x := Mach s (kbytes x) (ubytes x) in
    if pagesize <? 0 then Undef
    else
      x ← user_memset cr3 IMAGE_START 0 (pagesize * 0x1000) x;
      x ← load_elf64_segment cr3 bf x;
      let argv_ptr :=
        if child then u64 (IMAGE_START + physize - (APP_STAK_SIZE + APP_ARG_SIZE)) else end_ phdr in
      x ← exec_args fuel cr3 argc argv pwd argv_ptr x;
      Ret (Some (Image tb cr3 pagesize (entry phdr) stack argv_ptr (argv_ptr + 0x1000)), x).

(** ** Words in the pages of a block *)

(** The tables of the kernel lie below the frames, and its root clear of the tables of the page
    allocator. *)
Definition tables_low (s : mm) : Prop :=
  0 <= pdpte s /\ pdpte s + 4096 <= 0x8000000 /\ 0 <= pml4e s /\ pml4e s + 8 <= 0x8000000 /\
  (pml4e s + 8 <= alloc_pde \/ alloc_pte + 0x200000 <= pml4e s).

(** The physical address of word [i] of the block that starts at page [a]. *)
Definition word (s : mm) (a i : Z) : Z := page_frame s (a + i / 512) * 0x1000 + 8 * (i mod 512).

(** What changes between [s] and [s'] is above the kernel's tables, and frames that become busy. *)
Record beside (s s' : mm) : Prop := {
  be_tab : forall b, b < 0x8000000 -> (tab s')⟦b⟧ = (tab s)⟦b⟧;
  be_pdpte : pdpte s' = pdpte s;
  be_pml4e : pml4e s' = pml4e s;
  be_lock : alloc_spin_lock s' = alloc_spin_lock s;
  be_pages : forall b, PAGE_BITMAP <= b -> (ram s')⟦b⟧ = (ram s)⟦b⟧;
  be_bytes : bytes_in (ram s) -> bytes_in (ram s');
  be_busy : forall k, 0 <= k < 1048576 -> frame_busy (ram s) k = true -> frame_busy (ram s') k = true
}.

Section words_.
Implicit Types (s : mm) (B : blocks) (a b i j k n v : Z).

Lemma beside_refl s : beside s s.
Proof. by constructor. Qed.

Lemma beside_trans s1 s2 s3 : beside s1 s2 -> beside s2 s3 -> beside s1 s3.
Proof.
intros [A1 A2 A3 A4 A5 A6 A7] [B1 B2 B3 B4 B5 B6 B7]. constructor; try congruence; auto.
- intros b Hb. by rewrite B1, A1.
- intros b Hb. by rewrite B5, A5.
Qed.

Lemma beside_entry s s' j : beside s s' -> j < ALLOC_PAGES -> page_entry s' j = page_entry s j.
Proof. intros Hb Hj. apply (be_tab _ _ Hb). unfold alloc_pte, ALLOC_PAGES in *. lia. Qed.

Lemma beside_frame s s' j : beside s s' -> j < ALLOC_PAGES -> page_frame s' j = page_frame s j.
Proof. intros Hb Hj. unfold page_frame. by rewrite (beside_entry s s'). Qed.

Lemma block_page s B j : mm_ok s B -> in_block B j ->
0 <= j < ALLOC_PAGES /\ 32768 <= page_frame s j < 1048576.
Proof. intros Hs Hj. destruct (page_phy s B j Hs Hj). by destruct (ok_live _ _ Hs j Hj) as (_ & ? & _). Qed.

Lemma beside_ok s s' B : mm_ok s B -> tables_low s -> beside s s' -> mm_ok s' B /\ tables_low s'.
Proof.
intros Hs Hlow Hb. split.
2:{ unfold tables_low in *. by rewrite (be_pdpte _ _ Hb), (be_pml4e _ _ Hb). }
assert (forall j, in_block B j -> page_entry s' j = page_entry s j /\ page_frame s' j = page_frame s j) as HE.
{ intros j Hj. destruct (block_page s B j Hs Hj). split; [apply beside_entry|apply beside_frame]; done || lia. }
destruct Hs as [Hrep Hbytes Htab Hbound Hlive Hinj Hdead Hlock]. constructor.
- apply (page_rep_ext (ram s)); [apply Hb|done].
- by apply (be_bytes _ _ Hb).
- destruct Htab as (Ha & Hpd & Hpt). destruct Hlow as (_ & Hlo & _).
  unfold alloc_tables, pdpt_apart, ALLOC_PDPTE_ENTRY in *. rewrite (be_pdpte _ _ Hb).
  split; [done|]. split.
  + rewrite (be_tab _ _ Hb) by lia. done.
  + intros i Hi. rewrite (be_tab _ _ Hb) by (unfold alloc_pde; lia). auto.
- done.
- intros j Hj. destruct (HE j Hj) as [-> ->]. destruct (Hlive j Hj) as (? & ? & ?).
  split_and!; try done; try lia. apply (be_busy _ _ Hb); [lia|done].
- intros i j Hi Hj. destruct (HE i Hi) as [_ ->], (HE j Hj) as [_ ->]. auto.
- intros j Hj Hn. rewrite (beside_entry s s') by (done || lia). auto.
- by rewrite (be_lock _ _ Hb).
Qed.

Lemma kaddr_word s B a i :
mm_ok s B -> in_block B (a + i / 512) -> 0 <= i -> kaddr s (page_addr a + 8 * i) = word s a i.
Proof.
intros Hs Hin Hi. destruct (block_page s B _ Hs Hin) as [Hj Hf].
assert (0 <= a + i / 512) as Ha by lia. unfold kaddr.
assert (page_addr a + 8 * i = page_addr (a + i / 512) + 8 * (i mod 512)) as E
  by (unfold page_addr; word_lia).
destruct (Z.ltb_spec (page_addr a + 8 * i) ALLOC_PAGE_MEMORY) as [Hl|_].
{ exfalso. rewrite E in Hl. unfold page_addr in Hl. word_lia. }
rewrite E. unfold page_addr at 1. rewrite alloc_phy by (apply Hs || word_lia).
rewrite (entry_addr_frame _ (page_frame s (a + i / 512))) by (done || lia).
unfold word. f_equal. unfold page_addr, ALLOC_PAGE_MEMORY. word_lia.
Qed.

Lemma word_range s B a i : mm_ok s B -> in_block B (a + i / 512) -> 0x8000000 <= word s a i < 2 ^ 32.
Proof. intros Hs Hin. destruct (block_page s B _ Hs Hin). unfold word. word_lia. Qed.

(** Different words of live pages stand at different addresses. *)
Lemma word_inj s B a i b j :
mm_ok s B -> in_block B (a + i / 512) -> in_block B (b + j / 512) -> word s a i = word s b j ->
a + i / 512 = b + j / 512 /\ i mod 512 = j mod 512.
Proof.
intros Hs Hi Hj E. unfold word in E.
assert (page_frame s (a + i / 512) = page_frame s (b + j / 512) /\ i mod 512 = j mod 512) as [Ef Em]
  by word_lia.
split; [|done]. by apply (ok_inj _ _ Hs).
Qed.

(** A write to a word of a live page is beside the kernel. *)
Lemma set_word_beside s B a i f :
mm_ok s B -> in_block B (a + i / 512) -> 0 <= i -> beside s (set_word (page_addr a + 8 * i) f s).
Proof.
intros Hs Hin Hi. unfold set_word. rewrite (kaddr_word s B) by done.
pose proof (word_range s B a i Hs Hin). constructor; cbn [tab ram pdpte pml4e alloc_spin_lock set_tab];
  try done.
intros b Hb. apply rd_upd_ne. lia.
Qed.

Lemma tab_set_word s B a i f b :
mm_ok s B -> in_block B (a + i / 512) -> 0 <= i ->
(tab (set_word (page_addr a + 8 * i) f s))⟦b⟧ =
  if b =? word s a i then f (tab s)⟦word s a i⟧ else (tab s)⟦b⟧.
Proof.
intros Hs Hin Hi. unfold set_word. rewrite (kaddr_word s B) by done.
cbn [tab set_tab]. apply rd_upd.
Qed.

Lemma beside_word s s' B a i :
beside s s' -> mm_ok s B -> in_block B (a + i / 512) -> word s' a i = word s a i.
Proof.
intros Hb Hs Hin. destruct (block_page s B _ Hs Hin). unfold word.
by rewrite (beside_frame s s') by (done || lia).
Qed.
End words_.

(** The first [n] words of block [a] hold [g 0], [g 1], ... *)
Definition words_filled (s0 : mm) (a n : Z) (g : Z -> Z) (s : mm) : Prop :=
  beside s0 s /\
  (forall i, 0 <= i < n -> (tab s)⟦word s0 a i⟧ = g i) /\
  (forall b, (forall i, 0 <= i < n -> b <> word s0 a i) -> (tab s)⟦b⟧ = (tab s0)⟦b⟧).

(** [n] words from block [a] are in live pages. *)
Definition words_in (B : blocks) (a n : Z) : Prop := forall i, 0 <= i < n -> in_block B (a + i / 512).

(** There is a run of [n] pages, and [n] frames. *)
Definition pages_room (B : blocks) (n : Z) : Prop := exists k, 0 <= k /\ k + n <= ALLOC_PAGES /\ fits B k n.
Definition frames_room (s : mm) (n : Z) : Prop := is_Some (alloc_frames (Z.to_nat n) (ram s)).

Section filling.
Implicit Types (s : mm) (B : blocks) (a b i j k n v : Z) (g : Z -> Z).

Lemma words_filled_0 s a g : words_filled s a 0 g s.
Proof. split_and!; [apply beside_refl|intros; lia|done]. Qed.

Lemma words_filled_ram s0 a n g s r :
beside s (set_ram r s) -> words_filled s0 a n g s -> words_filled s0 a n g (set_ram r s).
Proof. intros Hr (Hb & Hin & Hout). split_and!; [by eapply beside_trans|done|done]. Qed.

Lemma words_filled_S s0 B a n g s f :
mm_ok s0 B -> tables_low s0 -> words_in B a (n + 1) -> 0 <= n ->
f (tab s0)⟦word s0 a n⟧ = g n -> words_filled s0 a n g s ->
words_filled s0 a (n + 1) g (set_word (page_addr a + 8 * n) f s).
Proof.
intros Hs Hlow Hin Hn Hf (Hb & Hw & Hr).
destruct (beside_ok s0 s B Hs Hlow Hb) as [Hs' Hlow'].
assert (in_block B (a + n / 512)) as Hbn by (apply Hin; lia).
assert (word s a n = word s0 a n) as Ew by (by apply (beside_word s0 s B)).
assert (forall i, 0 <= i < n -> word s0 a i <> word s0 a n) as Hne.
{ intros i Hi E. apply (word_inj s0 B) in E; [|done|apply Hin; lia|done]. word_lia. }
split_and!.
- eapply beside_trans; [exact Hb|]. by apply (set_word_beside s B).
- intros i Hi. rewrite (tab_set_word s B), Ew by done.
  destruct (Z.eqb_spec (word s0 a i) (word s0 a n)) as [E|E].
  + assert (i = n) as -> by (destruct (decide (i = n)); [done|]; exfalso; apply (Hne i); [lia|done]).
    rewrite Hr; [done|]. intros j Hj E'. by apply (Hne j).
  + apply Hw. assert (i <> n) by (by intros ->). lia.
- intros b Hbi. rewrite (tab_set_word s B), Ew by done.
  destruct (Z.eqb_spec b (word s0 a n)) as [E|E]; [exfalso; apply (Hbi n); [lia|done]|].
  apply Hr. intros i Hi. apply Hbi. lia.
Qed.

Lemma zero_words_filled s B a n :
mm_ok s B -> tables_low s -> words_in B a n -> 0 <= n ->
words_filled s a n (fun _ => 0) (zero_words (page_addr a) n s).
Proof.
intros Hs Hlow Hin Hn. unfold zero_words.
apply (for_upto_inv (fun i t => words_filled s a i (fun _ => 0) t)); [done|apply words_filled_0|].
intros k t Hk Ht. apply (words_filled_S s B); try done; try lia.
intros i Hi. apply Hin. lia.
Qed.

Lemma alloc_frames_app m (n k : nat) :
alloc_frames (n + k) m =
'(fs, r) ← alloc_frames n m; '(gs, r) ← alloc_frames k r; Some (fs ++ gs, r).
Proof.
revert m. induction n as [|n IH]; intros m.
- cbn [Nat.add alloc_frames]. cbn. by destruct (alloc_frames k m) as [[]|].
- cbn [Nat.add]. rewrite !alloc_frames_S. destruct (alloc_frame m) as [f r].
  destruct (f =? 0); [done|]. rewrite IH. cbn.
  destruct (alloc_frames n r) as [[fs r1]|]; [|done]. cbn.
  by destruct (alloc_frames k r1) as [[gs r2]|].
Qed.

Lemma pages_room_less B n k : k <= n -> pages_room B n -> pages_room B k.
Proof.
intros Hk (p & Hp & Hpb & Hpf). exists p. split; [lia|]. split; [lia|].
intros q l Hq. apply Hpf in Hq. lia.
Qed.

Lemma frames_room_split s n k : 0 <= n -> 0 <= k -> frames_room s (n + k) ->
exists fs r, alloc_frames (Z.to_nat n) (ram s) = Some (fs, r) /\ is_Some (alloc_frames (Z.to_nat k) r).
Proof.
intros Hn Hk [[gs r] E]. rewrite Z2Nat.inj_add, alloc_frames_app in E by lia.
destruct (alloc_frames (Z.to_nat n) (ram s)) as [[fs r1]|]; [|done]. exists fs, r1. split; [done|].
cbn in E. by destruct (alloc_frames (Z.to_nat k) r1).
Qed.

(** What is left after a block of [len] pages was taken. *)
Lemma room_after s B type len a fs s' k k2 :
mm_ok s B -> 1 <= len -> 0 <= k -> 0 <= k2 -> allocated s B type len a fs s' ->
(exists r, alloc_frames (Z.to_nat len) (ram s) = Some (fs, r)) ->
pages_room B (len + k) -> frames_room s (len + k2) ->
pages_room (<[a := len]> B) k /\ frames_room s' k2.
Proof.
intros Hs Hl Hk Hk2 HA (r & Er) (p & Hp & Hpb & Hpf) Hfr.
destruct (al_block _ _ _ _ _ _ _ HA) as (Ha & Hab & Hfit & Hlow). split.
- assert (a <= p) as Hap.
  { destruct (Z.le_gt_cases a p); [done|]. exfalso. apply (Hlow p); [lia|].
    intros q n Hq. apply Hpf in Hq. lia. }
  exists (p + len). split; [lia|]. split; [lia|].
  intros q n [[<- <-]|[_ Hq]]%lookup_insert_Some; [lia|]. apply Hpf in Hq. lia.
- unfold frames_room in *. rewrite Z2Nat.inj_add, alloc_frames_app in Hfr by lia.
  rewrite Er in Hfr. cbn in Hfr.
  destruct (alloc_frames (Z.to_nat k2) r) as [[gs r']|] eqn:Eg; [|by destruct Hfr].
  apply alloc_frames_spec in Er as (_ & _ & _ & Hbusy & _).
  destruct (alloc_frames_same _ r (ram s') _ _ (fun j Hj => eq_trans (Hbusy j (proj1 Hj))
    (eq_sym (al_busy _ _ _ _ _ _ _ HA j Hj))) Eg) as (r2 & -> & _). done.
Qed.
End filling.

(** What [alloc_table] did: a block of [len] zeroed pages at [a]. *)
Record table_at (s : mm) (B : blocks) (len a : Z) (s' : mm) : Prop := {
  ta_ok : mm_ok s' (<[a := len]> B);
  ta_low : tables_low s';
  ta_range : 0 <= a /\ a + len <= ALLOC_PAGES /\ fits B a len;
  ta_frame : forall j, in_block B j -> page_frame s' j = page_frame s j;
  ta_zero : forall i, 0 <= i < 512 * len -> (tab s')⟦word s' a i⟧ = 0;
  ta_tab : forall b, ~ alloc_pte <= b < alloc_pte + 0x200000 ->
    (forall i, 0 <= i < 512 * len -> b <> word s' a i) -> (tab s')⟦b⟧ = (tab s)⟦b⟧;
  ta_new : forall j, a <= j < a + len -> frame_busy (ram s) (page_frame s' j) = false;
  ta_busy : forall k, 0 <= k < 1048576 -> frame_busy (ram s') k = true <->
    frame_busy (ram s) k = true \/ exists j, a <= j < a + len /\ page_frame s' j = k;
  ta_pml4e : pml4e s' = pml4e s
}.

Section tables.
Implicit Types (s : mm) (B : blocks) (a b i j k n v : Z) (g : Z -> Z).

Lemma ram_zero_words v n s : 0 <= n -> ram (zero_words v n s) = ram s.
Proof. intros Hn. unfold zero_words. by apply (for_upto_inv (fun _ t => ram t = ram s)). Qed.

Lemma words_in_insert B a len :
block_ok B -> 1 <= len -> fits B a len -> words_in (<[a := len]> B) a (512 * len).
Proof. intros Hok Hl Hf i Hi. apply in_block_insert; [done..|]. right. word_lia. Qed.

Lemma alloc_table_spec s B len k k2 :
mm_ok s B -> tables_low s -> 1 <= len < 2 ^ 31 -> 0 <= k -> 0 <= k2 ->
pages_room B (len + k) -> frames_room s (len + k2) ->
exists a s', alloc_table len s = Ret (page_addr a, s') /\ table_at s B len a s' /\
  pages_room (<[a := len]> B) k /\ frames_room s' k2.
Proof.
intros Hs Hlow Hl Hk Hk2 Hroom Hfr.
destruct (frames_room_split s len k2) as (fs & r & Er & _); [lia..|done|].
destruct (alloc_pages_result 0 len 0 s B fs r Hs ltac:(lia) (pages_room_less B (len + k) len ltac:(lia) Hroom) Er) as (a & s1 & E1 & HA).
pose proof (allocated_ok s B 0 len a fs s1 Hs ltac:(lia) HA) as Hs1.
destruct (al_block _ _ _ _ _ _ _ HA) as (Ha & Hab & Hfit & _).
pose proof (proj1 (ok_rep _ _ Hs)) as Hok.
assert (pdpte s1 = pdpte s /\ pml4e s1 = pml4e s) as [Ep1 Ep2]
  by (by rewrite (al_state _ _ _ _ _ _ _ HA)).
assert (tables_low s1) as Hlow1 by (unfold tables_low in *; by rewrite Ep1, Ep2).
pose proof (words_in_insert B a len Hok ltac:(lia) Hfit) as Hin.
pose proof (zero_words_filled s1 _ a (512 * len) Hs1 Hlow1 Hin ltac:(lia)) as (Hbe & Hw & Hout).
pose proof (ram_zero_words (page_addr a) (512 * len) s1 ltac:(lia)) as Eram.
exists a, (zero_words (page_addr a) (512 * len) s1).
unfold alloc_table. rewrite u32_small, E1 by lia. cbn [mbind outcome_bind].
split; [reflexivity|].
set (s' := zero_words _ _ _) in *. clearbody s'.
destruct (beside_ok s1 s' _ Hs1 Hlow1 Hbe) as [Hs' Hlow'].
destruct (room_after s B 0 len a fs s1 k k2) as [HR HF]; try done; [lia|by exists r|].
assert (forall j, in_block (<[a := len]> B) j -> page_frame s' j = page_frame s1 j) as Hfr1.
{ intros j Hj. apply (beside_frame s1 s'); [done|]. destruct (block_page _ _ _ Hs1 Hj). lia. }
assert (forall j, a <= j < a + len -> in_block (<[a := len]> B) j) as Hnew.
{ intros j Hj. exists a, len. by rewrite lookup_insert_eq. }
assert (forall i, 0 <= i < 512 * len -> word s' a i = word s1 a i) as Ew.
{ intros i Hi. apply (beside_word s1 s' _ a i Hbe Hs1). by apply Hin. }
split; [|split; [done|]].
2:{ unfold frames_room. by rewrite Eram. }
constructor.
- done.
- done.
- done.
- intros j Hj. rewrite Hfr1 by (apply in_block_insert; [done..|lia|by left]).
  unfold page_frame. rewrite (allocated_old _ _ _ _ _ _ _ _ HA); [done|].
  intros Hj'. by apply (fits_not_in B a len j).
- intros i Hi. rewrite Ew by done. by apply Hw.
- intros b Hb Hbw. rewrite Hout; [|intros i Hi; rewrite <- Ew by done; by apply Hbw].
  apply (al_other _ _ _ _ _ _ _ HA). unfold ALLOC_PAGES in Hab. lia.
- intros j Hj. rewrite Hfr1 by auto.
  by destruct (allocated_page _ _ _ _ _ _ _ j HA Hj) as (q & _ & _ & Hq & _ & -> & _).
- intros q Hq. rewrite Eram, (al_busy _ _ _ _ _ _ _ HA), orb_true_iff, bool_decide_eq_true by done.
  apply or_iff_compat_l. split.
  + intros Hqf. apply list_elem_of_lookup in Hqf as [i Hi].
    destruct (al_frames _ _ _ _ _ _ _ HA) as (Hlen & _ & _).
    pose proof (lookup_lt_Some _ _ _ Hi).
    exists (a + Z.of_nat i). split; [lia|]. rewrite Hfr1 by (apply Hnew; lia).
    destruct (allocated_page _ _ _ _ _ _ _ (a + Z.of_nat i) HA ltac:(lia)) as (q' & Hq' & _ & _ & _ & -> & _).
    replace (Z.to_nat (a + Z.of_nat i - a)) with i in Hq' by lia. rewrite Hi in Hq'. injection Hq'. lia.
  + intros (j & Hj & Ej). rewrite Hfr1 in Ej by auto.
    destruct (allocated_page _ _ _ _ _ _ _ j HA Hj) as (q' & Hq' & _ & _ & _ & Eq' & _).
    rewrite Eq' in Ej. subst q'. by apply list_elem_of_lookup_2 in Hq'.
- by rewrite (be_pml4e _ _ Hbe).
Qed.

(** The words of older live pages keep their contents. *)
Lemma table_at_word s B len a s' b i :
mm_ok s B -> 1 <= len -> table_at s B len a s' -> in_block B (b + i / 512) ->
word s' b i = word s b i /\ (tab s')⟦word s b i⟧ = (tab s)⟦word s b i⟧.
Proof.
intros Hs Hl HT Hb. destruct (ta_range _ _ _ _ _ HT) as (Ha & Hab & Hfit).
assert (word s' b i = word s b i) as Ew
  by (unfold word; by rewrite (ta_frame _ _ _ _ _ HT)).
split; [done|]. pose proof (word_range s B b i Hs Hb).
apply (ta_tab _ _ _ _ _ HT); [unfold alloc_pte; lia|].
intros j Hj E. rewrite <- Ew in E.
pose proof (proj1 (ok_rep _ _ Hs)) as Hok.
pose proof (words_in_insert B a len Hok Hl Hfit j Hj) as Hinj.
apply (word_inj s' (<[a := len]> B)) in E as [E _]; [..|apply HT|apply in_block_insert; [done..|by left]|exact Hinj].
apply (fits_not_in B a len (b + i / 512)); [done|word_lia|done].
Qed.
End tables.

(** From [s] with the blocks [B] to [s'] with more blocks [B']: what was there is untouched. *)
Record grew (s : mm) (B : blocks) (s' : mm) (B' : blocks) : Prop := {
  gr_ok : mm_ok s' B';
  gr_low : tables_low s';
  gr_page : forall j, in_block B j -> in_block B' j /\ page_frame s' j = page_frame s j;
  gr_word : forall b i, in_block B (b + i / 512) -> (tab s')⟦word s b i⟧ = (tab s)⟦word s b i⟧;
  gr_tab : forall b, b < 0x8000000 -> ~ alloc_pte <= b < alloc_pte + 0x200000 ->
    (tab s')⟦b⟧ = (tab s)⟦b⟧;
  gr_new : forall j, in_block B' j -> in_block B j \/ frame_busy (ram s) (page_frame s' j) = false;
  gr_busy : forall k, 0 <= k < 1048576 -> frame_busy (ram s') k = true <->
    frame_busy (ram s) k = true \/ exists j, in_block B' j /\ ~ in_block B j /\ page_frame s' j = k;
  gr_pml4e : pml4e s' = pml4e s
}.

Section growing.
Implicit Types (s : mm) (B : blocks) (a b i j k n v : Z).

Lemma in_block_dec B j : block_ok B -> in_block B j \/ ~ in_block B j.
Proof.
intros Hok. destruct (decide (map_Exists (fun a n => a <= j < a + n) B)) as [(a & n & Ha & Hj)|Hn].
- left. by exists a, n.
- right. intros (a & n & Ha & Hj). apply Hn. by exists a, n.
Qed.

Lemma grew_trans s1 B1 s2 B2 s3 B3 :
mm_ok s2 B2 -> block_ok B1 -> grew s1 B1 s2 B2 -> grew s2 B2 s3 B3 -> grew s1 B1 s3 B3.
Proof.
intros Hs2 Hok1 [P1 P2 P3 P4 P5 P6 P7 P8] [Q1 Q2 Q3 Q4 Q5 Q6 Q7 Q8].
assert (forall j, in_block B2 j -> page_frame s3 j = page_frame s2 j) as Hfr by (intros j Hj; by apply Q3).
constructor; try done.
- intros j Hj. destruct (P3 j Hj) as [Hj2 E]. destruct (Q3 j Hj2) as [Hj3 E3]. split; [done|congruence].
- intros b i Hi. destruct (P3 _ Hi) as [Hi2 E]. rewrite <- (P4 b i Hi).
  replace (word s1 b i) with (word s2 b i) by (unfold word; by rewrite E). by apply Q4.
- intros b Hb Hn. by rewrite Q5, P5.
- intros j Hj. destruct (Q6 j Hj) as [Hj2|Hf].
  + destruct (P6 j Hj2) as [|Hf]; [by left|right]. by rewrite Hfr.
  + destruct (block_page s3 B3 j Q1 Hj) as [_ Hr].
    destruct (frame_busy (ram s1) (page_frame s3 j)) eqn:E; [|by right].
    rewrite (proj2 (P7 (page_frame s3 j) ltac:(lia)) (or_introl E)) in Hf. done.
- intros k Hk. rewrite Q7, P7 by done. split.
  + intros [[H|(j & Hj & Hn & E)]|(j & Hj & Hn & E)]; [by left|right..].
    * exists j. rewrite Hfr by done. split; [by apply Q3|done].
    * exists j. split; [done|]. split; [|done]. intros Hj1. by apply Hn, P3.
  + intros [H|(j & Hj & Hn & E)]; [by do 2 left|].
    destruct (in_block_dec B2 j) as [H2|H2]; [apply Hs2|left; right|right].
    * exists j. by rewrite <- Hfr.
    * by exists j.
- congruence.
Qed.

Lemma table_at_grew s B len a s' :
mm_ok s B -> 1 <= len -> table_at s B len a s' -> grew s B s' (<[a := len]> B).
Proof.
intros Hs Hl HT. destruct (ta_range _ _ _ _ _ HT) as (Ha & Hab & Hfit).
pose proof (proj1 (ok_rep _ _ Hs)) as Hok.
assert (forall j, in_block (<[a := len]> B) j <-> in_block B j \/ a <= j < a + len) as Hin
  by (intros j; by apply in_block_insert).
constructor.
- exact (ta_ok _ _ _ _ _ HT).
- exact (ta_low _ _ _ _ _ HT).
- intros j Hj. split; [apply Hin; by left|by apply (ta_frame _ _ _ _ _ HT)].
- intros b i Hi. by apply (table_at_word s B len a s' b i Hs Hl HT).
- intros b Hb Hn. apply (ta_tab _ _ _ _ _ HT); [done|]. intros i Hi E.
  pose proof (word_range s' _ a i (ta_ok _ _ _ _ _ HT) (words_in_insert B a len Hok Hl Hfit i Hi)). lia.
- intros j [Hj|Hj]%Hin; [by left|right]. by apply (ta_new _ _ _ _ _ HT).
- intros k Hk. rewrite (ta_busy _ _ _ _ _ HT) by done. apply or_iff_compat_l. split.
  + intros (j & Hj & E). exists j. split; [apply Hin; by right|]. split; [|done].
    by apply (fits_not_in B a len j).
  + intros (j & [Hj|Hj]%Hin & Hn & E); [done|by exists j].
- exact (ta_pml4e _ _ _ _ _ HT).
Qed.

Lemma set_word_grew s B a i f :
mm_ok s B -> tables_low s -> in_block B (a + i / 512) -> 0 <= i ->
let s' := set_word (page_addr a + 8 * i) f s in
mm_ok s' B /\ tables_low s' /\ beside s s' /\ ram s' = ram s.
Proof.
intros Hs Hlow Hin Hi s'. pose proof (set_word_beside s B a i f Hs Hin Hi) as Hb.
destruct (beside_ok s s' B Hs Hlow Hb). done.
Qed.
End growing.

(** The four blocks of a process: [B'] is [B] with them, and their words are as [exec_tables]
    leaves them. *)
Record tables_ready (s : mm) (B : blocks) (tbs a4 ap ad at_ : Z) (s' : mm) (B' : blocks) : Prop := {
  tr_grew : grew s B s' B';
  tr_blocks : B' = <[at_ := tbs]> (<[ad := 1]> (<[ap := 1]> (<[a4 := 1]> B)));
  tr_in4 : in_block B' a4;
  tr_inp : in_block B' ap;
  tr_ind : in_block B' ad;
  tr_int : words_in B' at_ (512 * tbs);
  tr_apart : a4 <> ap /\ a4 <> ad /\ ap <> ad /\
    forall j, at_ <= j < at_ + tbs -> j <> a4 /\ j <> ap /\ j <> ad;
  tr_fresh : ~ in_block B a4 /\ ~ in_block B ap /\ ~ in_block B ad /\
    forall j, at_ <= j < at_ + tbs -> ~ in_block B j;
  tr_root : forall i, 0 <= i < 512 ->
    (tab s')⟦word s' a4 i⟧ = if i =? 0 then (tab s)⟦pml4e s⟧ else 0;
  tr_ptr : forall i, 0 <= i < 512 -> (tab s')⟦word s' ap i⟧ = 0;
  tr_dir : forall i, 0 <= i < 512 -> (tab s')⟦word s' ad i⟧ = 0;
  tr_tab : forall i, 0 <= i < 512 * tbs -> (tab s')⟦word s' at_ i⟧ = 0
}.

Section building.
Implicit Types (s : mm) (B : blocks) (a b i j k n v : Z).

Lemma one_page B a i : block_ok B -> fits B a 1 -> 0 <= i < 512 -> in_block (<[a := 1]> B) (a + i / 512).
Proof. intros Hok Hf Hi. apply (words_in_insert B a 1); [done|lia|done|lia]. Qed.

Lemma insert_ok s B len a s' : table_at s B len a s' -> block_ok (<[a := len]> B).
Proof. intros HT. exact (proj1 (ok_rep _ _ (ta_ok _ _ _ _ _ HT))). Qed.

(** Writing the first word of the root's block. *)
Lemma root_ready s4 B' a4 :
mm_ok s4 B' -> tables_low s4 -> in_block B' a4 ->
let s' := set_word (page_addr a4) (fun _ => (tab s4)⟦kaddr s4 (pml4e s4)⟧) s4 in
mm_ok s' B' /\ tables_low s' /\ beside s4 s' /\ ram s' = ram s4 /\
(forall b i, in_block B' (b + i / 512) -> (b + i / 512 = a4 -> i mod 512 <> 0) ->
  (tab s')⟦word s' b i⟧ = (tab s4)⟦word s4 b i⟧) /\
(tab s')⟦word s' a4 0⟧ = (tab s4)⟦pml4e s4⟧.
Proof.
intros Hs Hlow Ha s'.
assert (in_block B' (a4 + 0 / 512)) as Ha0 by (by rewrite Z.div_0_l, Z.add_0_r by lia).
assert (s' = set_word (page_addr a4 + 8 * 0) (fun _ => (tab s4)⟦pml4e s4⟧) s4) as ->.
{ unfold s'. rewrite Z.mul_0_r, Z.add_0_r. unfold kaddr at 1. destruct Hlow as (_ & _ & _ & Hp & _).
  replace (pml4e s4 <? ALLOC_PAGE_MEMORY) with true by (unfold ALLOC_PAGE_MEMORY; lia). done. }
destruct (set_word_grew s4 B' a4 0 (fun _ => (tab s4)⟦pml4e s4⟧) Hs Hlow Ha0 ltac:(lia))
  as (Hs' & Hlow' & Hb & Hr).
split; [done|]. split; [done|]. split; [done|]. split; [done|]. split.
- intros b i Hbi Hne. rewrite (beside_word s4 _ B' b i Hb Hs Hbi).
  rewrite (tab_set_word s4 B') by done.
  destruct (Z.eqb_spec (word s4 b i) (word s4 a4 0)) as [E|]; [|done]. exfalso.
  apply (word_inj s4 B') in E as [E1 E2]; [|done..]. rewrite Z.div_0_l, Z.add_0_r in E1 by lia.
  by apply Hne.
- rewrite (beside_word s4 _ B' a4 0 Hb Hs Ha0). rewrite (tab_set_word s4 B') by done.
  by rewrite Z.eqb_refl.
Qed.

Lemma grew_word s B s' B' b i : grew s B s' B' -> in_block B (b + i / 512) ->
word s' b i = word s b i /\ (tab s')⟦word s' b i⟧ = (tab s)⟦word s b i⟧.
Proof.
intros HG Hb. assert (word s' b i = word s b i) as ->
  by (unfold word; by rewrite (proj2 (gr_page _ _ _ _ HG _ Hb))).
split; [done|]. by apply (gr_word _ _ _ _ HG).
Qed.

(** A change of words outside the blocks [B]. *)
Lemma grew_beside s B s' B' s2 :
grew s B s' B' -> mm_ok s' B' -> tables_low s' -> beside s' s2 -> ram s2 = ram s' ->
(forall b i, in_block B (b + i / 512) -> (tab s2)⟦word s' b i⟧ = (tab s')⟦word s' b i⟧) ->
grew s B s2 B'.
Proof.
intros HG Hs' Hlow' Hb Hr Hw. destruct (beside_ok s' s2 B' Hs' Hlow' Hb) as [Hs2 Hlow2].
assert (forall j, in_block B' j -> page_frame s2 j = page_frame s' j) as Hfr.
{ intros j Hj. apply (beside_frame s' s2); [done|]. destruct (block_page _ _ _ Hs' Hj). lia. }
pose proof HG as [_ _ P3 P4 P5 P6 P7 P8]. constructor.
- done.
- done.
- intros j Hj. destruct (P3 j Hj) as [Hj' E]. split; [done|]. rewrite Hfr by done. done.
- intros b i Hi. destruct (grew_word s B s' B' b i HG Hi) as [E1 E2]. rewrite <- E2, <- E1. by apply Hw.
- intros b Hlt Hn. rewrite (be_tab _ _ Hb) by done. auto.
- intros j Hj. rewrite Hfr by done. auto.
- intros k Hk. rewrite Hr, P7 by done. apply or_iff_compat_l.
  split; intros (j & Hj & Hn & E); exists j; split_and!; try done;
    [by rewrite Hfr|by rewrite Hfr in E].
- by rewrite (be_pml4e _ _ Hb).
Qed.

Lemma exec_tables_spec s B tbs kp k :
mm_ok s B -> tables_low s -> 1 <= tbs <= 512 -> 0 <= kp -> 0 <= k ->
pages_room B (3 + tbs + kp) -> frames_room s (3 + tbs + k) ->
exists a4 ap ad at_ s' B',
  exec_tables tbs s = Ret (Tables (page_addr a4) (page_addr ap) (page_addr ad) (page_addr at_), s') /\
  tables_ready s B tbs a4 ap ad at_ s' B' /\ pages_room B' kp /\ frames_room s' k.
Proof.
intros Hs Hlow Ht Hkp Hk Hroom Hfr.
destruct (alloc_table_spec s B 1 (2 + tbs + kp) (2 + tbs + k)) as (a4 & s1 & E1 & T1 & R1 & F1);
  try done; try lia; [by replace (1 + (2 + tbs + kp)) with (3 + tbs + kp) by lia|
  by replace (1 + (2 + tbs + k)) with (3 + tbs + k) by lia|].
set (B1 := <[a4 := 1]> B) in *. pose proof (ta_ok _ _ _ _ _ T1) as O1.
destruct (alloc_table_spec s1 B1 1 (1 + tbs + kp) (1 + tbs + k)) as (ap & s2 & E2 & T2 & R2 & F2);
  try done; try lia; [apply T1|by replace (1 + (1 + tbs + kp)) with (2 + tbs + kp) by lia|
  by replace (1 + (1 + tbs + k)) with (2 + tbs + k) by lia|].
set (B2 := <[ap := 1]> B1) in *. pose proof (ta_ok _ _ _ _ _ T2) as O2.
destruct (alloc_table_spec s2 B2 1 (tbs + kp) (tbs + k)) as (ad & s3 & E3 & T3 & R3 & F3);
  try done; try lia; [apply T2|by replace (1 + (tbs + kp)) with (1 + tbs + kp) by lia|by replace (1 + (tbs + k)) with (1 + tbs + k) by lia|].
set (B3 := <[ad := 1]> B2) in *. pose proof (ta_ok _ _ _ _ _ T3) as O3.
destruct (alloc_table_spec s3 B3 tbs kp k) as (at_ & s4 & E4 & T4 & R4 & F4);
  try done; try lia; [apply T3|].
set (B4 := <[at_ := tbs]> B3) in *. pose proof (ta_ok _ _ _ _ _ T4) as O4.
pose proof (proj1 (ok_rep _ _ Hs)) as K0. pose proof (insert_ok _ _ _ _ _ T1) as K1.
pose proof (insert_ok _ _ _ _ _ T2) as K2. pose proof (insert_ok _ _ _ _ _ T3) as K3.
destruct (ta_range _ _ _ _ _ T1) as (_ & _ & W1), (ta_range _ _ _ _ _ T2) as (_ & _ & W2),
  (ta_range _ _ _ _ _ T3) as (_ & _ & W3), (ta_range _ _ _ _ _ T4) as (_ & _ & W4).
pose proof (table_at_grew s B 1 a4 s1 Hs ltac:(lia) T1) as G1.
pose proof (table_at_grew s1 B1 1 ap s2 O1 ltac:(lia) T2) as G2.
pose proof (table_at_grew s2 B2 1 ad s3 O2 ltac:(lia) T3) as G3.
pose proof (table_at_grew s3 B3 tbs at_ s4 O3 ltac:(lia) T4) as G4.
pose proof (grew_trans _ _ _ _ _ _ O3 K2 G3 G4) as G34.
pose proof (grew_trans _ _ _ _ _ _ O2 K1 G2 G34) as G24.
pose proof (grew_trans _ _ _ _ _ _ O1 K0 G1 G24) as G14.
assert (forall j, in_block B4 j <->
  (((in_block B j \/ a4 <= j < a4 + 1) \/ ap <= j < ap + 1) \/ ad <= j < ad + 1) \/
  at_ <= j < at_ + tbs) as Hin.
{ intros j. unfold B4, B3, B2, B1 in *. rewrite !in_block_insert by (done || lia). done. }
assert (in_block B4 a4) as I4 by (apply Hin; lia).
assert (in_block B4 ap) as Ip by (apply Hin; lia).
assert (in_block B4 ad) as Id by (apply Hin; lia).
assert (words_in B4 at_ (512 * tbs)) as It by (intros i Hi; apply Hin; right; word_lia).
destruct (root_ready s4 B4 a4 O4 (ta_low _ _ _ _ _ T4) I4) as (O5 & L5 & Hb5 & Hr5 & Hw5 & Hroot).
unfold exec_tables. rewrite E1. cbn [mbind outcome_bind]. rewrite E2. cbn [mbind outcome_bind].
rewrite E3. cbn [mbind outcome_bind]. rewrite E4. cbn [mbind outcome_bind]. cbv zeta.
set (s5 := set_word _ _ s4) in *. clearbody s5.
exists a4, ap, ad, at_, s5, B4. split; [reflexivity|].
split; [|split; [done|unfold frames_room in *; by rewrite Hr5]].
assert (~ in_block B a4 /\ ~ in_block B1 ap /\ ~ in_block B2 ad /\
  forall j, at_ <= j < at_ + tbs -> ~ in_block B3 j) as (N1 & N2 & N3 & N4).
{ split_and!; [apply (fits_not_in B a4 1)|apply (fits_not_in B1 ap 1)|apply (fits_not_in B2 ad 1)|
    intros j Hj; apply (fits_not_in B3 at_ tbs)]; done || lia. }
assert (forall j, in_block B1 j <-> in_block B j \/ a4 <= j < a4 + 1) as H1
  by (intros j; apply in_block_insert; done || lia).
assert (forall j, in_block B2 j <-> in_block B1 j \/ ap <= j < ap + 1) as H2
  by (intros j; apply in_block_insert; done || lia).
assert (forall j, in_block B3 j <-> in_block B2 j \/ ad <= j < ad + 1) as H3
  by (intros j; apply in_block_insert; done || lia).
assert (a4 <> ap /\ a4 <> ad /\ ap <> ad) as (D1 & D2 & D3).
{ split_and!; intros E; [apply N2|apply N3|apply N3]; rewrite ?H3, ?H2, ?H1; lia. }
assert (forall j, at_ <= j < at_ + tbs -> j <> a4 /\ j <> ap /\ j <> ad /\ ~ in_block B j) as D4.
{ intros j Hj. pose proof (N4 j Hj) as Hn. rewrite H3, H2, H1 in Hn. split_and!; [lia..|tauto]. }
constructor; try done.
- apply (grew_beside s B s4 B4 s5 G14 O4 (ta_low _ _ _ _ _ T4) Hb5 Hr5).
  intros b i Hb. rewrite <- (Hw5 b i); [|apply Hin; tauto|by intros E; rewrite E in Hb].
  by rewrite (beside_word s4 s5 B4 b i Hb5 O4) by (apply Hin; tauto).
- split_and!; try done. intros j Hj. by destruct (D4 j Hj) as (? & ? & ? & _).
- rewrite H1 in N2. rewrite H2, H1 in N3. split_and!; [done|tauto|tauto|].
  intros j Hj. by destruct (D4 j Hj) as (_ & _ & _ & ?).
- intros i Hi. destruct (Z.eqb_spec i 0) as [->|Hi0].
  + rewrite Hroot, (gr_pml4e _ _ _ _ G14). destruct Hlow as (_ & _ & Hp0 & Hp1 & Hp2).
    apply (gr_tab _ _ _ _ G14); [lia|]. unfold alloc_pde, alloc_pte in *. lia.
  + assert (i / 512 = 0 /\ i mod 512 = i) as [Eq Em] by word_lia.
    rewrite Hw5 by (rewrite ?Eq, ?Z.add_0_r, ?Em; done).
    destruct (grew_word s1 B1 s4 B4 a4 i G24) as [_ ->]; [apply H1; lia|].
    apply (ta_zero _ _ _ _ _ T1). lia.
- intros i Hi. assert (i / 512 = 0) as Eq by word_lia.
  rewrite Hw5 by (rewrite Eq, Z.add_0_r; done || congruence).
  destruct (grew_word s2 B2 s4 B4 ap i G34) as [_ ->]; [apply H2; lia|].
  apply (ta_zero _ _ _ _ _ T2). lia.
- intros i Hi. assert (i / 512 = 0) as Eq by word_lia.
  rewrite Hw5 by (rewrite Eq, Z.add_0_r; done || congruence).
  destruct (grew_word s3 B3 s4 B4 ad i G4) as [_ ->]; [apply H3; lia|].
  apply (ta_zero _ _ _ _ _ T3). lia.
- intros i Hi. rewrite Hw5; [|by apply It|].
  + apply (ta_zero _ _ _ _ _ T4). lia.
  + intros E. exfalso. destruct (D4 (at_ + i / 512)) as (? & _); [word_lia|done].
Qed.
End building.

(** Two words at different places of live pages. *)
Definition other_word (a i b j : Z) : Prop := a + i / 512 = b + j / 512 -> i mod 512 <> j mod 512.

(** The frames of a list, as the entries of a page table. *)
Definition frame_entry (fs : list Z) (i : Z) : Z := user_entry (default 0 (fs !! Z.to_nat i)) 0.

Section linking.
Implicit Types (s : mm) (B : blocks) (a b i j k n v : Z) (g : Z -> Z).

Lemma filled_in s0 B a n g s i :
mm_ok s0 B -> words_in B a n -> words_filled s0 a n g s -> 0 <= i < n -> (tab s)⟦word s a i⟧ = g i.
Proof.
intros Hs Hin (Hb & Hw & _) Hi. rewrite (beside_word s0 s B) by (done || by apply Hin). by apply Hw.
Qed.

Lemma filled_out s0 B a n g s b j :
mm_ok s0 B -> words_in B a n -> words_filled s0 a n g s -> in_block B (b + j / 512) ->
(forall i, 0 <= i < n -> other_word a i b j) -> (tab s)⟦word s b j⟧ = (tab s0)⟦word s0 b j⟧.
Proof.
intros Hs Hin (Hb & _ & Hw) Hj Hne. rewrite (beside_word s0 s B) by done. apply Hw.
intros i Hi E. symmetry in E. apply (word_inj s0 B) in E as [E1 E2]; [|done|by apply Hin|done].
by apply (Hne i).
Qed.

Lemma words_filled_ext s0 a n g g' s :
(forall i, 0 <= i < n -> g i = g' i) -> words_filled s0 a n g s -> words_filled s0 a n g' s.
Proof. intros E (Hb & Hw & Hr). split_and!; try done. intros i Hi. rewrite Hw by done. auto. Qed.

Lemma alloc_frame_beside s f r :
alloc_frames 1 (ram s) = Some ([f], r) -> beside s (set_ram r s) /\ alloc_frame (ram s) = (f, r).
Proof.
intros E. split.
- pose proof (alloc_frames_spec 1 _ _ _ E) as (_ & _ & _ & Hbusy & Hok).
  constructor; cbn [ram tab pdpte pml4e alloc_spin_lock set_ram]; try done.
  + intros b Hb. apply (alloc_frames_rest 1 _ _ _ _ E). unfold frame_byte, RAM_BITMAP, PAGE_BITMAP in *. lia.
  + intros k Hk Hbk. by rewrite Hbusy, Hbk by lia.
- cbn in E. destruct (alloc_frame (ram s)) as [f' r']. destruct (f' =? 0); [done|]. by injection E as -> ->.
Qed.

Lemma map_loop s B a n fs r :
mm_ok s B -> tables_low s -> words_in B a n -> 0 <= n ->
(forall i, 0 <= i < n -> (tab s)⟦word s a i⟧ = 0) ->
alloc_frames (Z.to_nat n) (ram s) = Some (fs, r) ->
let s' := for_upto 0 n (map_page (page_addr a)) s in
words_filled s a n (frame_entry fs) s' /\ ram s' = r.
Proof.
intros Hs Hlow Hin Hn Hz E.
assert (forall k, 0 <= k <= n -> exists fs1 r1, alloc_frames (Z.to_nat k) (ram s) = Some (fs1, r1)) as Hpre.
{ intros k Hk. replace (Z.to_nat n) with (Z.to_nat k + Z.to_nat (n - k))%nat in E by lia.
  rewrite alloc_frames_app in E. destruct (alloc_frames (Z.to_nat k) (ram s)) as [[fs1 r1]|]; [|done].
  by exists fs1, r1. }
upto_with (fun k t => exists fs1, alloc_frames (Z.to_nat k) (ram s) = Some (fs1, ram t) /\
  words_filled s a k (frame_entry fs1) t).
- done.
- exists []. split; [done|]. apply words_filled_0.
- intros k t Hk (fs1 & E1 & Hf).
  destruct (Hpre (k + 1) ltac:(lia)) as (fs2 & r2 & E2).
  rewrite Z2Nat.inj_add, alloc_frames_app, E1 in E2 by lia. cbn [mbind option_bind] in E2.
  destruct (alloc_frames (Z.to_nat 1) (ram t)) as [[gs r3]|] eqn:E3; [|done].
  injection E2 as <- <-. pose proof (alloc_frames_spec _ _ _ _ E3) as (Hlg & _).
  destruct gs as [|f [|]]; try done. apply alloc_frame_beside in E3 as E4. destruct E4 as [Hbe Ef].
  pose proof (alloc_frames_spec _ _ _ _ E1) as (Hl1 & _).
  exists (fs1 ++ [f]). split.
  { rewrite Z2Nat.inj_add, alloc_frames_app, E1 by lia. cbn [mbind option_bind]. rewrite E3. cbn.
    unfold map_page. rewrite Ef. done. }
  unfold map_page. rewrite Ef.
  apply (words_filled_S s B a k); try done; try lia.
  + intros i Hi. apply Hin. lia.
  + rewrite Hz by lia. unfold frame_entry. rewrite lookup_app_r by lia.
    replace (Z.to_nat k - length fs1)%nat with O by lia. done.
  + apply (words_filled_ext s a k (frame_entry fs1)).
    { intros i Hi. unfold frame_entry. rewrite lookup_app_l by lia. done. }
    by apply words_filled_ram.
- intros t (fs1 & E1 & Hf). assert (fs1 = fs /\ ram t = r) as [E2 E3] by (split; congruence).
  subst fs1. split; [exact Hf|exact E3].
Qed.

Lemma link_loop s B at_ ad n :
mm_ok s B -> tables_low s -> words_in B ad n -> 0 <= n ->
(forall i, 0 <= i < n -> in_block B (at_ + i)) ->
(forall i, 0 <= i < n -> (tab s)⟦word s ad i⟧ = 0) ->
let s' := for_upto 0 n (link_table (page_addr at_) (page_addr ad)) s in
words_filled s ad n (fun i => user_entry (page_frame s (at_ + i) * 0x1000) 0) s' /\ ram s' = ram s.
Proof.
intros Hs Hlow Hin Hn Hat Hz.
apply (for_upto_inv (fun k t => words_filled s ad k (fun i => user_entry (page_frame s (at_ + i) * 0x1000) 0) t
  /\ ram t = ram s)).
- done.
- split; [apply words_filled_0|done].
- intros k t Hk [Hf Hr]. split; [|exact Hr]. unfold link_table.
  destruct (beside_ok s t B Hs Hlow (proj1 Hf)) as [Ht _].
  replace (page_addr at_ + 0x1000 * k) with (page_addr (at_ + k)) by (unfold page_addr; lia).
  destruct (page_phy t B (at_ + k) Ht (Hat k Hk)) as [Hr2 ->].
  rewrite (beside_frame s t) by (apply Hf || lia).
  apply (words_filled_S s B ad k); try done; try lia.
  + intros i Hi. apply Hin. lia.
  + by rewrite Hz by lia.
Qed.

Lemma set_word_words s B a i f b j :
mm_ok s B -> in_block B (a + i / 512) -> 0 <= i -> in_block B (b + j / 512) ->
let s' := set_word (page_addr a + 8 * i) f s in
(other_word a i b j -> (tab s')⟦word s' b j⟧ = (tab s)⟦word s b j⟧) /\
(tab s')⟦word s' a i⟧ = f (tab s)⟦word s a i⟧.
Proof.
intros Hs Hi Hi0 Hj s'. pose proof (set_word_beside s B a i f Hs Hi Hi0) as Hb.
rewrite !(beside_word s s' B) by done. unfold s'. rewrite !(tab_set_word s B) by done.
split; [|by rewrite Z.eqb_refl].
intros Hne. destruct (Z.eqb_spec (word s b j) (word s a i)) as [E|]; [|done]. exfalso. symmetry in E.
apply (word_inj s B) in E as [E1 E2]; try done. by apply Hne.
Qed.
End linking.

(** The tables of a process with [n] pages on the frames [fs]; [s1] is the state before the
    frames were taken. *)
Record space_built (s : mm) (B : blocks) (n tbs a4 ap ad at_ : Z) (fs : list Z) (s1 s' : mm)
    (B' : blocks) : Prop := {
  sb_ready : tables_ready s B tbs a4 ap ad at_ s1 B';
  sb_frames : alloc_frames (Z.to_nat n) (ram s1) = Some (fs, ram s');
  sb_beside : beside s1 s';
  sb_root : forall i, 0 <= i < 512 -> (tab s')⟦word s' a4 i⟧ =
    if i =? 0 then (tab s)⟦pml4e s⟧ else if i =? 1 then user_entry (page_frame s' ap * 0x1000) 0 else 0;
  sb_ptr : forall i, 0 <= i < 512 -> (tab s')⟦word s' ap i⟧ =
    if i =? 0 then user_entry (page_frame s' ad * 0x1000) 0 else 0;
  sb_dir : forall i, 0 <= i < 512 -> (tab s')⟦word s' ad i⟧ =
    if i <? tbs then user_entry (page_frame s' (at_ + i) * 0x1000) 0 else 0;
  sb_tab : forall i, 0 <= i < 512 * tbs -> (tab s')⟦word s' at_ i⟧ =
    if i <? n then frame_entry fs i else 0
}.

Section space.
Implicit Types (s : mm) (B : blocks) (a b i j k n v : Z) (g : Z -> Z).

(** The last two steps of [exec_space], from the page tables and the directory. *)
Lemma finish_space s B a4 ap ad :
mm_ok s B -> tables_low s -> in_block B a4 -> in_block B ap -> in_block B ad -> a4 <> ap ->
let s3 := set_word (page_addr ap) (user_entry (get_phy_addr s (page_addr ad))) s in
let s' := set_word (page_addr a4 + 8) (user_entry (get_phy_addr s3 (page_addr ap))) s3 in
beside s s' /\ ram s' = ram s /\
(forall b j, in_block B (b + j / 512) -> other_word ap 0 b j -> other_word a4 1 b j ->
  (tab s')⟦word s' b j⟧ = (tab s)⟦word s b j⟧) /\
(tab s')⟦word s' ap 0⟧ = user_entry (page_frame s ad * 0x1000) (tab s)⟦word s ap 0⟧ /\
(tab s')⟦word s' a4 1⟧ = user_entry (page_frame s ap * 0x1000) (tab s)⟦word s a4 1⟧.
Proof.
intros Hs Hlow I4 Ip Id Hne s3 s'.
assert (in_block B (ap + 0 / 512)) as Ip0 by (by rewrite Z.div_0_l, Z.add_0_r by lia).
assert (in_block B (a4 + 1 / 512)) as I41 by (by replace (a4 + 1 / 512) with a4 by word_lia).
assert (s3 = set_word (page_addr ap + 8 * 0) (user_entry (page_frame s ad * 0x1000)) s) as E3.
{ unfold s3. rewrite (proj2 (page_phy s B ad Hs Id)). f_equal. lia. }
clearbody s3.
destruct (set_word_grew s B ap 0 (user_entry (page_frame s ad * 0x1000)) Hs Hlow Ip0 ltac:(lia))
  as (Hs3 & Hlow3 & Hb3 & Hr3). rewrite <- E3 in *.
assert (s' = set_word (page_addr a4 + 8 * 1) (user_entry (page_frame s ap * 0x1000)) s3) as E'.
{ unfold s'. rewrite (proj2 (page_phy s3 B ap Hs3 Ip)). f_equal. f_equal.
  by rewrite (beside_frame s s3) by (done || by destruct (block_page s B ap Hs Ip); lia). }
clearbody s'.
destruct (set_word_grew s3 B a4 1 (user_entry (page_frame s ap * 0x1000)) Hs3 Hlow3 I41 ltac:(lia))
  as (Hs' & Hlow' & Hb' & Hr'). rewrite <- E' in *.
pose proof (fun b j Hj => set_word_words s B ap 0 (user_entry (page_frame s ad * 0x1000)) b j Hs Ip0
  ltac:(lia) Hj) as W3. rewrite <- E3 in W3. cbv zeta in W3.
pose proof (fun b j Hj => set_word_words s3 B a4 1 (user_entry (page_frame s ap * 0x1000)) b j Hs3 I41
  ltac:(lia) Hj) as W'. rewrite <- E' in W'. cbv zeta in W'.
split; [by eapply beside_trans|]. split; [congruence|]. split_and!.
- intros b j Hj Hnp Hn4. rewrite (proj1 (W' b j Hj) Hn4). by apply W3.
- rewrite (proj1 (W' ap 0 Ip0)) by (unfold other_word; word_lia). exact (proj2 (W3 ap 0 Ip0)).
- rewrite (proj2 (W' a4 1 I41)). f_equal. apply W3; [done|]. unfold other_word. word_lia.
Qed.

Lemma exec_space_built s B n tbs kp kf :
mm_ok s B -> tables_low s -> 1 <= tbs <= 512 -> 0 <= n <= 512 * tbs -> 0 <= kp -> 0 <= kf ->
pages_room B (3 + tbs + kp) -> frames_room s (3 + tbs + n + kf) ->
exists a4 ap ad at_ fs s1 s' B',
  exec_space n tbs s =
    Ret (Tables (page_addr a4) (page_addr ap) (page_addr ad) (page_addr at_), page_frame s' a4 * 0x1000, s') /\
  mm_ok s' B' /\ tables_low s' /\ space_built s B n tbs a4 ap ad at_ fs s1 s' B' /\
  pages_room B' kp /\ frames_room s' kf.
Proof.
intros Hs Hlow Ht Hn Hkp Hkf Hroom Hfr.
destruct (exec_tables_spec s B tbs kp (n + kf)) as (a4 & ap & ad & at_ & s1 & B' & E1 & R & Rp & Hfr1);
  try done; try lia; [by replace (3 + tbs + (n + kf)) with (3 + tbs + n + kf) by lia|].
destruct (frames_room_split s1 n kf) as (fs & r & Ef & Hr); [lia..|done|].
pose proof R as [G _ I4 Ip Id It (D1 & D2 & D3 & D4) _ Zroot Zptr Zdir Ztab].
pose proof (gr_ok _ _ _ _ G) as O1. pose proof (gr_low _ _ _ _ G) as L1.
destruct (map_loop s1 B' at_ n fs r O1 L1) as [F2 R2]; try done; try lia.
{ intros i Hi. apply It. lia. }
{ intros i Hi. apply Ztab. lia. }
set (s2 := for_upto 0 n (map_page (page_addr at_)) s1) in *.
destruct (beside_ok s1 s2 B' O1 L1 (proj1 F2)) as [O2 L2].
assert (words_in B' at_ n) as It' by (intros i Hi; apply It; lia).
assert (forall b, in_block B' b -> (forall j, at_ <= j < at_ + tbs -> j <> b) -> forall j, 0 <= j < 512 ->
  (tab s2)⟦word s2 b j⟧ = (tab s1)⟦word s1 b j⟧) as K2.
{ intros b Hb Hne j Hj. assert (b + j / 512 = b) as Eb by word_lia.
  apply (filled_out s1 B' at_ n (frame_entry fs) s2); [done..|by rewrite Eb|].
  intros i Hi E. exfalso. apply (Hne (at_ + i / 512)); [word_lia|lia]. }
assert (words_in B' ad tbs) as Id' by (intros i Hi; by replace (ad + i / 512) with ad by word_lia).
destruct (link_loop s2 B' at_ ad tbs O2 L2 Id') as [F3 R3]; [lia|..].
{ intros i Hi. specialize (It (512 * i) ltac:(lia)). by replace (512 * i / 512) with i in It by word_lia. }
{ intros i Hi. rewrite K2 by (done || lia || (intros j Hj; by apply D4)). apply Zdir. lia. }
set (s3 := for_upto 0 tbs (link_table (page_addr at_) (page_addr ad)) s2) in *.
destruct (beside_ok s2 s3 B' O2 L2 (proj1 F3)) as [O3 L3].
destruct (finish_space s3 B' a4 ap ad O3 L3 I4 Ip Id D1) as (Hb & R4 & K4 & V1 & V2).
set (s4 := set_word (page_addr ap) _ s3) in *. set (s' := set_word (page_addr a4 + 8) _ s4) in *.
destruct (beside_ok s3 s' B' O3 L3 Hb) as [O5 L5].
assert (beside s1 s') as Hb1 by (eapply beside_trans; [apply F2|eapply beside_trans; [apply F3|done]]).
assert (forall j, in_block B' j -> page_frame s' j = page_frame s2 j /\ page_frame s' j = page_frame s3 j) as Hfr'.
{ intros j Hj. destruct (block_page s1 B' j O1 Hj).
  rewrite <- (beside_frame s2 s3 j (proj1 F3)) by lia.
  by rewrite (beside_frame s3 s' j Hb) by lia. }
exists a4, ap, ad, at_, fs, s1, s', B'. split.
{ unfold exec_space. rewrite E1. cbn [mbind outcome_bind t_pml4e t_pdpte t_pde t_pte].
  fold s2. fold s3. fold s4. fold s'. do 2 f_equal. f_equal. by apply (page_phy s' B'). }
split; [done|]. split; [done|].
split; [|split; [done|by unfold frames_room; rewrite R4, R3, R2]].
assert (forall b j, in_block B' (b + j / 512) -> b + j / 512 <> ad ->
  (tab s3)⟦word s3 b j⟧ = (tab s2)⟦word s2 b j⟧) as K3.
{ intros b j Hj Hne. apply (filled_out s2 B' ad tbs _ s3 b j O2 Id' F3 Hj).
  intros i Hi E. exfalso. apply Hne. rewrite <- E. word_lia. }
constructor.
- exact R.
- by rewrite R4, R3, R2.
- done.
- intros i Hi. assert (a4 + i / 512 = a4) as Ea by word_lia.
  destruct (Z.eqb_spec i 1) as [->|Hi1].
  + rewrite V2. rewrite (proj2 (Hfr' ap Ip)). f_equal.
    rewrite K3 by (rewrite Ea; done || congruence).
    rewrite K2 by (done || lia || (intros j Hj; by apply D4)). rewrite Zroot by lia. done.
  + rewrite K4 by (rewrite ?Ea; first [done|unfold other_word; word_lia]).
    rewrite K3 by (rewrite Ea; done || congruence).
    rewrite K2 by (done || lia || (intros j Hj; by apply D4)). rewrite Zroot by lia. done.
- intros i Hi. assert (ap + i / 512 = ap) as Ea by word_lia.
  destruct (Z.eqb_spec i 0) as [->|Hi1].
  + rewrite V1. rewrite (proj2 (Hfr' ad Id)). f_equal.
    rewrite K3 by (rewrite Ea; done || congruence).
    rewrite K2 by (done || lia || (intros j Hj; by apply D4)). by rewrite Zptr by lia.
  + rewrite K4 by (rewrite ?Ea; first [done|unfold other_word; word_lia]).
    rewrite K3 by (rewrite Ea; done || congruence).
    rewrite K2 by (done || lia || (intros j Hj; by apply D4)). by rewrite Zptr by lia.
- intros i Hi. assert (ad + i / 512 = ad) as Ea by word_lia.
  rewrite K4 by (rewrite ?Ea; first [done|unfold other_word; word_lia]).
  destruct (Z.ltb_spec i tbs) as [Hlt|Hge].
  + rewrite (filled_in s2 B' ad tbs _ s3 i O2 Id' F3) by lia. do 2 f_equal.
    symmetry. apply Hfr'. specialize (It (512 * i) ltac:(lia)).
    by replace (512 * i / 512) with i in It by word_lia.
  + rewrite (filled_out s2 B' ad tbs _ s3 ad i O2 Id' F3); [|by rewrite Ea|].
    * rewrite K2 by (done || lia || (intros j Hj; by apply D4)). by rewrite Zdir.
    * intros j Hj _. word_lia.
- intros i Hi. specialize (D4 (at_ + i / 512) ltac:(word_lia)) as (N4 & Np & Nd).
  rewrite K4 by (first [by apply It|unfold other_word; word_lia]).
  rewrite K3 by (done || by apply It).
  destruct (Z.ltb_spec i n) as [Hlt|Hge].
  + by rewrite (filled_in s1 B' at_ n _ s2 i O1 It' F2) by lia.
  + rewrite (filled_out s1 B' at_ n _ s2 at_ i O1 It' F2); [by apply Ztab|by apply It|].
    intros j Hj E. word_lia.
Qed.
End space.

(** ** Translation in a finished address space *)
Section walking.
Implicit Types (s : mm) (B : blocks) (a b i j k n v o : Z) (g : Z -> Z).

Lemma user_entry_fields k e :
0 <= k < 2 ^ 36 -> fget f_p (user_entry (k * 0x1000) e) = 1 /\ entry_addr (user_entry (k * 0x1000) e) = k * 0x1000.
Proof.
intros Hk. unfold user_entry. split.
- rewrite !fget_fset_ne by done. by rewrite fget_fset_eq by done.
- unfold entry_addr. rewrite fget_fset_eq by done. change (width f_frames) with 40.
  rewrite frame_addr by lia. word_lia.
Qed.

Lemma walk_level_entry t table v sh i :
0 <= sh -> v / 2 ^ sh mod 512 = i ->
walk_level t table v sh = let e := t⟦table + 8 * i⟧ in if fget f_p e =? 0 then None else Some (entry_addr e).
Proof. intros Hsh <-. unfold walk_level. by rewrite land_1FF, Z.shiftr_div_pow2. Qed.

Lemma word_low s b i : 0 <= i < 512 -> page_frame s b * 0x1000 + 8 * i = word s b i.
Proof. intros Hi. unfold word. replace (b + i / 512) with b by word_lia. word_lia. Qed.

(** The words that are in frames are those of [s]. *)
Definition same_high s (t : gmap Z Z) : Prop := forall b, 0x8000000 <= b -> t⟦b⟧ = (tab s)⟦b⟧.

(** The walk through a table whose entry [i] is known. *)
Lemma walk_level_word s t b v sh i :
same_high s t -> 32768 <= page_frame s b -> 0 <= sh -> v / 2 ^ sh mod 512 = i ->
walk_level t (page_frame s b * 0x1000) v sh =
  let e := (tab s)⟦word s b i⟧ in if fget f_p e =? 0 then None else Some (entry_addr e).
Proof.
intros Ht Hb Hsh Hi. rewrite (walk_level_entry _ _ _ _ i) by done.
assert (0 <= i < 512) by (subst i; apply Z.mod_pos_bound; lia).
rewrite Ht by lia. by rewrite word_low.
Qed.

Lemma frame_entry_fields m n fs r i :
alloc_frames (Z.to_nat n) m = Some (fs, r) -> 0 <= i < n ->
exists f, fs !! Z.to_nat i = Some f /\ fget f_p (frame_entry fs i) = 1 /\ entry_addr (frame_entry fs i) = f.
Proof.
intros E Hi. apply alloc_frames_spec in E as (Hl & _ & Hall & _).
destruct (lookup_lt_is_Some_2 fs (Z.to_nat i)) as [f Hf]; [lia|]. exists f. split; [done|].
rewrite Forall_forall in Hall. destruct (Hall f (list_elem_of_lookup_2 _ _ _ Hf)) as (k & Hk & -> & _).
unfold frame_entry. rewrite Hf. cbn [default from_option]. apply user_entry_fields. lia.
Qed.

Lemma space_walk s B n tbs a4 ap ad at_ fs s1 s' B' t v :
space_built s B n tbs a4 ap ad at_ fs s1 s' B' -> mm_ok s' B' -> same_high s' t ->
1 <= tbs <= 512 -> 0 <= n <= 512 * tbs -> IMAGE_START <= v < 2 ^ 47 ->
walk t (page_frame s' a4 * 0x1000) v =
  f ← fs !! Z.to_nat ((v - IMAGE_START) / 0x1000); Some (f + v mod 0x1000).
Proof.
intros SB Hs' Hsame Ht Hn Hv. pose proof (sb_ready _ _ _ _ _ _ _ _ _ _ _ _ SB) as R.
destruct (block_page s' B' a4 Hs' (tr_in4 _ _ _ _ _ _ _ _ _ R)) as [_ Ha4].
destruct (block_page s' B' ap Hs' (tr_inp _ _ _ _ _ _ _ _ _ R)) as [_ Hap].
destruct (block_page s' B' ad Hs' (tr_ind _ _ _ _ _ _ _ _ _ R)) as [_ Had].
pose proof (sb_frames _ _ _ _ _ _ _ _ _ _ _ _ SB) as Ef.
pose proof (alloc_frames_spec _ _ _ _ Ef) as (Hlen & _).
unfold walk. unfold IMAGE_START in *. replace ((0 <=? v) && (v <? 2 ^ 47)) with true by lia.
assert (forall i, n <= i -> fs !! Z.to_nat i = None) as Hnone.
{ intros i Hi. apply lookup_ge_None_2. lia. }
rewrite (walk_level_word s' t a4 v 39 (v / 2 ^ 39 mod 512)) by (done || lia).
rewrite (sb_root _ _ _ _ _ _ _ _ _ _ _ _ SB) by (apply Z.mod_pos_bound; lia).
destruct (Z.eqb_spec (v / 2 ^ 39 mod 512) 0); [word_lia|].
destruct (Z.eqb_spec (v / 2 ^ 39 mod 512) 1) as [E1|N1].
2:{ cbn. symmetry. rewrite Hnone; [done|]. word_lia. }
destruct (user_entry_fields (page_frame s' ap) 0) as [P1 A1]; [lia|].
cbv zeta. rewrite P1. cbn [Z.eqb mbind option_bind]. rewrite A1.
rewrite (walk_level_word s' t ap v 30 (v / 2 ^ 30 mod 512)) by (done || lia).
rewrite (sb_ptr _ _ _ _ _ _ _ _ _ _ _ _ SB) by (apply Z.mod_pos_bound; lia).
destruct (Z.eqb_spec (v / 2 ^ 30 mod 512) 0) as [E2|N2].
2:{ cbn. symmetry. rewrite Hnone; [done|]. word_lia. }
destruct (user_entry_fields (page_frame s' ad) 0) as [P2 A2]; [lia|].
cbv zeta. rewrite P2. cbn [Z.eqb mbind option_bind]. rewrite A2.
rewrite (walk_level_word s' t ad v 21 (v / 2 ^ 21 mod 512)) by (done || lia).
rewrite (sb_dir _ _ _ _ _ _ _ _ _ _ _ _ SB) by (apply Z.mod_pos_bound; lia).
set (d := v / 2 ^ 21 mod 512) in *. set (p := (v - 549755813888) / 4096).
assert (0 <= d < 512) as Hd by (apply Z.mod_pos_bound; lia).
assert (p / 512 = d /\ p mod 512 = v / 2 ^ 12 mod 512 /\ 0 <= p) as (Ed & Ep & Hp) by (unfold p, d in *; word_lia).
destruct (Z.ltb_spec d tbs) as [Hlt|Hge].
2:{ cbn. symmetry. rewrite Hnone; [done|]. word_lia. }
destruct (block_page s' B' (at_ + d) Hs') as [_ Hat].
{ pose proof (tr_int _ _ _ _ _ _ _ _ _ R (512 * d) ltac:(lia)) as H.
  by replace (512 * d / 512) with d in H by word_lia. }
destruct (user_entry_fields (page_frame s' (at_ + d)) 0) as [P3 A3]; [lia|].
cbv zeta. rewrite P3. cbn [Z.eqb mbind option_bind]. rewrite A3.
rewrite (walk_level_word s' t (at_ + d) v 12 (p mod 512)) by (done || lia).
replace (word s' (at_ + d) (p mod 512)) with (word s' at_ p).
2:{ unfold word. rewrite Ed. replace (p mod 512 / 512) with 0 by word_lia.
    rewrite Z.add_0_r. f_equal. f_equal. word_lia. }
rewrite (sb_tab _ _ _ _ _ _ _ _ _ _ _ _ SB) by word_lia.
destruct (Z.ltb_spec p n) as [Hpn|Hpn].
2:{ cbn. by rewrite Hnone. }
destruct (frame_entry_fields _ _ _ _ p Ef ltac:(lia)) as (f & Hf & P4 & A4).
cbv zeta. rewrite P4. cbn [Z.eqb mbind option_bind]. rewrite A4, Hf. done.
Qed.
End walking.

(** The tables [tb] of a process stand in the four blocks [l] and map its pages to the frames [fs], on which no
    page of the kernel's heap lies. *)
Record space_at (s : mm) (B : blocks) (tb : tables) (l fs : list Z) : Prop := {
  sp_list : [t_pml4e tb; t_pdpte tb; t_pde tb; t_pte tb] = page_addr <$> l;
  sp_words : exists a m, t_pte tb = page_addr a /\ B !! a = Some m /\ zlen fs <= 512 * m /\
    forall i, 0 <= i < zlen fs -> (tab s)⟦word s a i⟧ = frame_entry fs i;
  sp_frames : forall f, f ∈ fs -> exists k, 32768 <= k < 1048576 /\ f = k * 0x1000 /\
    forall j, in_block B j -> page_frame s j <> k
}.

Section taking.
Implicit Types (s : mm) (B : blocks) (a b i j k m n : Z) (l lt fs : list Z) (tb : tables).

Lemma block_words B a m n : B !! a = Some m -> n <= 512 * m -> words_in B a n.
Proof. intros HB Hn i Hi. exists a, m. split; [done|]. split; [word_lia|]. word_lia. Qed.

(** The words of a table do not change when pages are taken or given back elsewhere. *)
Lemma space_words s s' B fs a m :
mm_ok s B -> B !! a = Some m -> zlen fs <= 512 * m -> (forall j, in_block B j -> page_frame s' j = page_frame s j) ->
(forall b, 0x8000000 <= b -> (tab s')⟦b⟧ = (tab s)⟦b⟧) ->
(forall i, 0 <= i < zlen fs -> (tab s)⟦word s a i⟧ = frame_entry fs i) ->
forall i, 0 <= i < zlen fs -> (tab s')⟦word s' a i⟧ = frame_entry fs i.
Proof.
intros Hs HB Hm Hf Ht Hw i Hi. pose proof (block_words B a m _ HB Hm i Hi) as Hin.
destruct (block_page s B _ Hs Hin) as [_ Hp]. unfold word in *. rewrite Hf by done.
rewrite Ht by (pose proof (Z.mod_pos_bound i 512 ltac:(lia)); lia). by apply Hw.
Qed.

Lemma space_blocks s B tbs a4 ap ad at_ s1 B' :
tables_ready s B tbs a4 ap ad at_ s1 B' -> block_ok B -> 1 <= tbs ->
NoDup [a4; ap; ad; at_] /\ (forall a, a ∈ [a4; ap; ad; at_] -> B !! a = None /\ is_Some (B' !! a)) /\
without [a4; ap; ad; at_] B' = B.
Proof.
intros R Hok Ht. destruct (tr_apart _ _ _ _ _ _ _ _ _ R) as (D1 & D2 & D3 & D4).
destruct (tr_fresh _ _ _ _ _ _ _ _ _ R) as (N1 & N2 & N3 & N4).
pose proof (tr_blocks _ _ _ _ _ _ _ _ _ R) as EB. destruct (D4 at_ ltac:(lia)) as (D5 & D6 & D7).
assert (forall a, ~ in_block B a -> B !! a = None) as HN.
{ intros a Ha. destruct (B !! a) as [l|] eqn:E; [|done]. exfalso. apply Ha. exists a, l.
  destruct (proj1 Hok _ _ E). split; [done|lia]. }
assert (B !! a4 = None /\ B !! ap = None /\ B !! ad = None /\ B !! at_ = None) as (M1 & M2 & M3 & M4).
{ split_and!; apply HN; try done. apply N4. lia. }
split.
{ repeat (apply NoDup_cons; split; [rewrite ?elem_of_cons, elem_of_nil; intuition congruence|]).
  apply NoDup_nil_2. }
split.
- intros a Ha. rewrite EB. rewrite !elem_of_cons, elem_of_nil in Ha.
  destruct Ha as [-> | [-> | [-> | [-> | []]]]]; (split; [done|]); rewrite ?lookup_insert_eq, ?lookup_insert_ne,
    ?lookup_insert_eq, ?lookup_insert_ne, ?lookup_insert_eq, ?lookup_insert_ne, ?lookup_insert_eq by congruence; done.
- rewrite EB. apply map_eq. intros i. rewrite lookup_without. case_bool_decide as Hi.
  + rewrite !elem_of_cons, elem_of_nil in Hi. destruct Hi as [-> | [-> | [-> | [-> | []]]]]; done.
  + rewrite !elem_of_cons, elem_of_nil in Hi. by rewrite !lookup_insert_ne by (intros ->; tauto).
Qed.

Lemma space_took s B n tbs a4 ap ad at_ fs s1 s' B' :
space_built s B n tbs a4 ap ad at_ fs s1 s' B' -> mm_ok s B -> mm_ok s' B' -> 1 <= tbs <= 512 ->
0 <= n <= 512 * tbs ->
took [a4; ap; ad; at_] fs s B s' B' /\
space_at s' B' (Tables (page_addr a4) (page_addr ap) (page_addr ad) (page_addr at_)) [a4; ap; ad; at_] fs.
Proof.
intros SB Hs Hs' Ht Hn. pose proof (sb_ready _ _ _ _ _ _ _ _ _ _ _ _ SB) as R.
pose proof (tr_grew _ _ _ _ _ _ _ _ _ R) as G. pose proof (gr_ok _ _ _ _ G) as Hs1.
pose proof (alloc_frames_spec _ _ _ _ (sb_frames _ _ _ _ _ _ _ _ _ _ _ _ SB)) as (Hl & _ & Hall & Hbusy & _).
rewrite Forall_forall in Hall.
assert (forall j, in_block B' j -> page_frame s' j = page_frame s1 j) as Hfr'.
{ intros j Hj. destruct (block_page s1 B' j Hs1 Hj).
  apply (beside_frame s1 s'); [exact (sb_beside _ _ _ _ _ _ _ _ _ _ _ _ SB)|lia]. }
destruct (space_blocks s B tbs a4 ap ad at_ s1 B' R (proj1 (ok_rep _ _ Hs)) ltac:(lia)) as (Hnd & Hnew & Hwo).
set (l := [a4; ap; ad; at_]) in *.
assert (forall a m, B !! a = Some m -> B' !! a = Some m) as Hsub.
{ intros a m Ha. rewrite <- Hwo in Ha. by apply without_Some in Ha as [_ ?]. }
assert (forall k, block_frame s' B' l k <-> exists j, in_block B' j /\ ~ in_block B j /\ page_frame s1 j = k) as Hbf.
{ intros k. split.
  - intros (a & m & j & Ha & HB & Hj & E). exists j. split; [by exists a, m|]. split.
    + intros (b & m' & Hb & Hj'). apply Hsub in Hb as Hb'.
      destruct (block_unique B' a m b m' j (proj1 (ok_rep _ _ Hs')) HB Hb' Hj Hj') as [-> _].
      destruct (Hnew b Ha). congruence.
    + rewrite <- E. symmetry. apply Hfr'. by exists a, m.
  - intros (j & (a & m & HB & Hj) & Hnj & E). exists a, m, j.
    split; [|do 2 (split; [done|]); rewrite Hfr' by (by exists a, m); done].
    destruct (decide (a ∈ l)) as [|Ha]; [done|]. exfalso. apply Hnj. exists a, m. split; [|done].
    rewrite <- Hwo. by apply without_Some. }
assert (forall f, f ∈ fs -> exists k, 32768 <= k < 1048576 /\ f = k * 0x1000 /\ forall j, in_block B' j -> page_frame s' j <> k)
  as Hsp.
{ intros f Hf. destruct (Hall f Hf) as (k & Hk & -> & Hfree). exists k. split; [done|]. split; [done|].
  intros j Hj E. rewrite Hfr' in E by done. destruct (ok_live _ _ Hs1 j Hj) as (_ & _ & Hb). congruence. }
split; constructor.
- done.
- done.
- done.
- done.
- intros j Hj. destruct (gr_page _ _ _ _ G j Hj) as [Hj' E]. by rewrite Hfr'.
- intros k Hk. rewrite Hbusy, orb_true_iff, bool_decide_eq_true, (gr_busy _ _ _ _ G), Hbf by lia. tauto.
- intros k Hk [(j & Hj & Hnj & E)%Hbf|Hin].
  + destruct (gr_new _ _ _ _ G j Hj) as [|Hf]; [done|]. by rewrite E in Hf.
  + destruct (Hall _ Hin) as (q & _ & Eq & Hfree). replace q with k in Hfree by lia. apply not_true_is_false.
    intros Hb. rewrite (proj2 (gr_busy _ _ _ _ G k Hk) (or_introl Hb)) in Hfree. done.
- intros k Hk Hin (a & m & j & _ & HB & Hj & E). destruct (Hsp _ Hin) as (q & _ & Eq & Hno).
  apply (Hno j); [by exists a, m|]. lia.
- done.
- exists at_, tbs. split; [done|]. split; [rewrite (tr_blocks _ _ _ _ _ _ _ _ _ R); apply lookup_insert_eq|].
  split; [lia|]. intros i Hi. rewrite (sb_tab _ _ _ _ _ _ _ _ _ _ _ _ SB) by lia. by destruct (Z.ltb_spec i n); [|lia].
- exact Hsp.
Qed.

(** What others take and give back afterwards leaves the space alone. *)
Lemma space_grow s B tb lt fs l s' B' :
mm_ok s B -> space_at s B tb lt fs ->
(forall k, 0 <= k < 1048576 -> k * 0x1000 ∈ fs -> frame_busy (ram s) k = true) ->
took l [] s B s' B' -> (forall b, 0x8000000 <= b -> (tab s')⟦b⟧ = (tab s)⟦b⟧) -> space_at s' B' tb lt fs.
Proof.
intros Hs [Hl (a & m & Et & HB & Hm & Hw) Hfs] Hbusy T Htab. constructor; [done|..].
- exists a, m. split; [done|]. split; [by apply (tk_sub _ _ _ _ _ _ a m T)|]. split; [done|].
  by apply (space_words s s' B fs a m Hs HB Hm (tk_frame _ _ _ _ _ _ T)).
- intros f Hf. destruct (Hfs f Hf) as (k & Hk & -> & Hno). exists k. do 2 (split; [done|]). intros j (b & n & HB' & Hj) E.
  destruct (decide (b ∈ l)) as [Hbl|Hbl].
  + pose proof (tk_free _ _ _ _ _ _ T k ltac:(lia) (or_introl (ex_intro _ b (ex_intro _ n (ex_intro _ j
      (conj Hbl (conj HB' (conj Hj E)))))))) as Hfree. rewrite Hbusy in Hfree by (done || lia). done.
  + assert (B !! b = Some n) as HBb by (rewrite <- (tk_without _ _ _ _ _ _ T); by apply without_Some).
    apply (Hno j); [by exists b, n|]. rewrite <- E. symmetry. apply (tk_frame _ _ _ _ _ _ T). by exists b, n.
Qed.

Lemma space_shrink s B tb lt fs l s' B' :
mm_ok s B -> space_at s B tb lt fs -> gave l [] s B s' B' -> (forall a, a ∈ lt -> a ∉ l) -> space_at s' B' tb lt fs.
Proof.
intros Hs [Hl (a & m & Et & HB & Hm & Hw) Hfs] G Hd. constructor; [done|..].
- assert (a ∈ lt) as Ha.
  { assert (page_addr a ∈ page_addr <$> lt) as Hin by (rewrite <- Hl, Et; do 3 right; left).
    apply list_elem_of_fmap in Hin as (b & E & Hb). by apply (inj page_addr) in E as ->. }
  assert (B' !! a = Some m) as HB' by (rewrite (gv_without _ _ _ _ _ _ G); apply without_Some; auto).
  exists a, m. do 3 (split; [done|]). intros i Hi.
  pose proof (block_words B' a m _ HB' Hm i Hi) as Hin. pose proof (block_words B a m _ HB Hm i Hi) as Hin2.
  destruct (block_page s B _ Hs Hin2) as [_ Hp]. unfold word in *. rewrite (gv_frame _ _ _ _ _ _ G) by done.
  rewrite (gv_tab _ _ _ _ _ _ G) by (pose proof (Z.mod_pos_bound i 512 ltac:(lia)); lia). by apply Hw.
- intros f Hf. destruct (Hfs f Hf) as (k & Hk & -> & Hno). exists k. do 2 (split; [done|]). intros j Hj E.
  rewrite (gv_frame _ _ _ _ _ _ G) in E by done. destruct Hj as (b & n & HB' & Hj).
  rewrite (gv_without _ _ _ _ _ _ G) in HB'. apply without_Some in HB' as [_ HB'].
  apply (Hno j); [by exists b, n|done].
Qed.
End taking.

(** ** The memory of the process as a function

    [holds x μ]: [x] differs from [x0] only in the pages of the process, and those hold [μ]. *)
Definition put_range (a n : Z) (g μ : Z -> Z) (w : Z) : Z := if within w a n then g (w - a) else μ w.

Definition maps (t : gmap Z Z) (cr3 : Z) (fs : list Z) : Prop :=
  forall v, IMAGE_START <= v < 2 ^ 47 ->
    walk t cr3 v = (f ← fs !! Z.to_nat ((v - IMAGE_START) / 0x1000); Some (f + v mod 0x1000)).

Section contents.
Context (x0 : mach) (cr3 : Z) (fs : list Z).
Hypothesis (Hmap : maps (tab (mmu x0)) cr3 fs) (Hnd : NoDup fs)
  (Hal : forall f, f ∈ fs -> f mod 0x1000 = 0) (Hlen : zlen fs <= 262144).
Implicit Types (x : mach) (μ g : Z -> Z) (v w a n b : Z).

Definition in_image v : Prop := IMAGE_START <= v < IMAGE_START + zlen fs * 0x1000.

Record holds x μ : Prop := {
ho_mmu : mmu x = mmu x0;
ho_kernel : kbytes x = kbytes x0;
ho_bytes : forall v, in_image v -> get8 cr3 v x = Ret (μ v);
ho_other : forall a, a / 0x1000 * 0x1000 ∉ fs -> (ubytes x)⟦a⟧ = (ubytes x0)⟦a⟧
}.

Lemma image_addr x v :
mmu x = mmu x0 -> in_image v ->
exists f, fs !! Z.to_nat ((v - IMAGE_START) / 0x1000) = Some f /\
  user_addr cr3 v x = Ret (f + v mod 0x1000).
Proof using Hmap Hlen.
intros Ex [H1 H2]. destruct (lookup_lt_is_Some_2 fs (Z.to_nat ((v - IMAGE_START) / 0x1000))) as [f Hf];
  [word_lia|].
exists f. split; [done|]. unfold user_addr. rewrite Ex.
destruct (Z.ltb_spec v IMAGE_START); [lia|]. rewrite Hmap by (unfold IMAGE_START in *; lia).
by rewrite Hf.
Qed.

Lemma image_addr_inj x v w a :
mmu x = mmu x0 -> in_image v -> in_image w -> user_addr cr3 v x = Ret a -> user_addr cr3 w x = Ret a -> v = w.
Proof using Hmap Hlen Hnd Hal.
intros Ex Hv Hw Ev Ew. destruct (image_addr x v Ex Hv) as (f & Hf & Ef), (image_addr x w Ex Hw) as (g & Hg & Eg).
rewrite Ef in Ev. rewrite Eg in Ew. injection Ev as Ev. injection Ew as Ew.
pose proof (Hal f (list_elem_of_lookup_2 _ _ _ Hf)). pose proof (Hal g (list_elem_of_lookup_2 _ _ _ Hg)).
assert (f = g) as -> by word_lia. pose proof (NoDup_lookup _ _ _ _ Hnd Hf Hg) as E.
unfold in_image in *. word_lia.
Qed.

Lemma put8_holds x μ v b :
holds x μ -> in_image v ->
exists x', put8 cr3 v b x = Ret x' /\ holds x' (put_range v 1 (fun _ => u8 b) μ).
Proof using Hmap Hlen Hnd Hal.
intros [E1 E2 Hb Ho] Hv. destruct (image_addr x v E1 Hv) as (f & Hf & Ef).
unfold put8. rewrite Ef. cbn [mbind outcome_bind]. eexists. split; [reflexivity|].
constructor; try done.
- intros w Hw. specialize (Hb w Hw). unfold get8 in *.
  change (user_addr cr3 w (set_ubytes _ x)) with (user_addr cr3 w x).
  destruct (image_addr x w E1 Hw) as (g & Hg & Eg). rewrite Eg in *. cbn [mbind outcome_bind] in *.
  cbn [ubytes set_ubytes]. rewrite rd_wr. unfold put_range.
  destruct (Z.eqb_spec (g + w mod 0x1000) (f + v mod 0x1000)) as [E|E].
  + rewrite E in Eg. rewrite (image_addr_inj x w v _ E1 Hw Hv Eg Ef). case_within; [done|lia].
  + rewrite Hb. case_within; [|done]. exfalso. assert (w = v) as -> by lia. congruence.
- intros a Ha. cbn [ubytes set_ubytes]. rewrite rd_wr_ne; [by apply Ho|]. intros ->. apply Ha.
  pose proof (Hal f (list_elem_of_lookup_2 _ _ _ Hf)).
  replace ((f + v mod 0x1000) / 0x1000 * 0x1000) with f by word_lia. by apply list_elem_of_lookup_2 in Hf.
Qed.

Lemma holds_ext x μ μ' : (forall v, in_image v -> μ v = μ' v) -> holds x μ -> holds x μ'.
Proof. intros E [H1 H2 H3 H4]. constructor; try done. intros v Hv. rewrite H3 by done. by rewrite E. Qed.

(** A loop of writes to consecutive addresses. *)
Lemma put_loop_holds x μ a n g (body : Z -> mach -> outcome mach) :
holds x μ -> 0 <= n -> IMAGE_START <= a -> a + n <= IMAGE_START + zlen fs * 0x1000 ->
(forall e y, 0 <= e < n -> kbytes y = kbytes x0 -> body e y = put8 cr3 (a + e) (g e) y) ->
exists x', for_outcome (Z.to_nat n) 0 body x = Ret x' /\ holds x' (put_range a n (fun e => u8 (g e)) μ).
Proof using Hmap Hlen Hnd Hal.
intros Hx Hn Ha Hb Hbody.
destruct (for_outcome_total (fun k y => holds y (put_range a k (fun e => u8 (g e)) μ)) (Z.to_nat n) 0 body x)
  as (x' & E & Hx').
- eapply holds_ext; [|done]. intros v _. unfold put_range. by rewrite not_within by lia.
- intros k y Hk Hy. rewrite Hbody by (apply Hy || lia).
  destruct (put8_holds y _ (a + k) (g k) Hy) as (y' & E & Hy'); [unfold in_image; lia|].
  exists y'. split; [done|]. eapply holds_ext; [|done]. intros v _. unfold put_range.
  case_within; try lia; try done. do 2 f_equal. lia.
- exists x'. split; [done|]. by replace (0 + Z.of_nat (Z.to_nat n)) with n in Hx' by lia.
Qed.

Lemma put_word_holds k x μ a w :
holds x μ -> IMAGE_START <= a -> a + Z.of_nat k <= IMAGE_START + zlen fs * 0x1000 ->
exists x', put_word k cr3 a w x = Ret x' /\ holds x' (put_range a (Z.of_nat k) (fun i => w / 256 ^ i mod 256) μ).
Proof using Hmap Hlen Hnd Hal.
revert x μ a w. induction k as [|k IH]; intros x μ a w Hx Ha Hb.
- exists x. split; [done|]. eapply holds_ext; [|done]. intros v _. unfold put_range. by rewrite not_within by lia.
- cbn [put_word]. destruct (put8_holds x μ a w Hx) as (y & E & Hy); [unfold in_image; lia|].
  rewrite E. cbn [mbind outcome_bind].
  destruct (IH y _ (a + 1) (w / 256) Hy) as (x' & E' & Hx'); [lia..|]. exists x'. split; [done|].
  eapply holds_ext; [|exact Hx']. intros v _. unfold put_range. case_within; try lia; try done.
  + replace (v - a) with (v - (a + 1) + 1) by lia. rewrite Z.div_div by lia.
    rewrite Z.pow_add_r by lia. by rewrite Z.mul_comm.
  + replace (v - a) with 0 by lia. by rewrite Z.div_1_r.
Qed.

Lemma get_word_holds k x μ a w :
holds x μ -> IMAGE_START <= a -> a + Z.of_nat k <= IMAGE_START + zlen fs * 0x1000 ->
0 <= w < 256 ^ Z.of_nat k -> (forall i, 0 <= i < Z.of_nat k -> μ (a + i) = w / 256 ^ i mod 256) ->
get_word k cr3 a x = Ret w.
Proof using Hmap Hlen Hnd Hal.
intros Hx. revert a w. induction k as [|k IH]; intros a w Ha Hb Hw E.
- cbn. f_equal. change (256 ^ Z.of_nat 0) with 1 in Hw. lia.
- cbn [get_word]. rewrite (ho_bytes _ _ Hx) by (unfold in_image; lia). cbn [mbind outcome_bind].
  rewrite (IH (a + 1) (w / 256)); [|lia..| |].
  + cbn [mbind outcome_bind]. f_equal. specialize (E 0 ltac:(lia)). rewrite Z.add_0_r, Z.div_1_r in E.
    rewrite E. word_lia.
  + replace (Z.of_nat (S k)) with (Z.succ (Z.of_nat k)) in Hw by lia. rewrite Z.pow_succ_r in Hw by lia.
    split; [word_lia|]. apply Z.div_lt_upper_bound; lia.
  + intros i Hi. specialize (E (i + 1) ltac:(lia)). replace (a + 1 + i) with (a + (i + 1)) by lia.
    rewrite E, Z.div_div, Z.pow_add_r by lia. by rewrite (Z.mul_comm 256).
Qed.

(** The bytes of a C string with its terminator. *)
Definition text (l : list Z) (i : Z) : Z := default 0 (l !! Z.to_nat i).

Lemma user_strcpy_holds fuel x μ d s l :
holds x μ -> cstr (kbytes x0) s l -> (length l < fuel)%nat ->
IMAGE_START <= d -> d + zlen l + 1 <= IMAGE_START + zlen fs * 0x1000 ->
exists x', user_strcpy fuel cr3 d s x = Ret x' /\ holds x' (put_range d (zlen l + 1) (text l) μ).
Proof using Hmap Hlen Hnd Hal.
revert x μ d s l. induction fuel as [|fuel IH]; intros x μ d s l Hx Hs Hf Ha Hb; [lia|].
cbn [user_strcpy]. rewrite (ho_kernel _ _ Hx). destruct l as [|c l].
- destruct Hs as (_ & _ & Hz). cbn in Hz. rewrite Z.add_0_r in Hz. rewrite Hz. cbn [Z.eqb].
  destruct (put8_holds x μ d 0 Hx) as (y & E & Hy); [unfold in_image; lia|]. exists y. split; [done|].
  eapply holds_ext; [|done]. intros v _. unfold put_range. cbn [length].
  case_within; try lia; try done.
- apply cstr_cons in Hs as (Hc & Ec & Hs). rewrite Ec. destruct (Z.eqb_spec c 0); [lia|].
  cbn [length] in *.
  destruct (put8_holds x μ d c Hx) as (y & E & Hy); [unfold in_image; lia|]. rewrite E. cbn [mbind outcome_bind].
  destruct (IH y _ (d + 1) (s + 1) l Hy Hs) as (x' & E' & Hx'); [lia..|]. exists x'. split; [done|].
  eapply holds_ext; [|exact Hx']. intros v _. unfold put_range. case_within; try lia; try done.
  + unfold text. replace (Z.to_nat (v - d)) with (S (Z.to_nat (v - (d + 1)))) by lia. done.
  + replace (v - d) with 0 by lia. unfold text. change (default 0 ((c :: l) !! Z.to_nat 0)) with c. apply u8_small. clear - Hc. lia.
Qed.
End contents.

(** ** The image in the memory of the process *)

Definition in_section (m : mem) (bf i v : Z) : Prop :=
  loaded m (section m bf i) = true /\
  sh_addr m (section m bf i) <= v < sh_addr m (section m bf i) + sh_size m (section m bf i).

(** The sections that are loaded lie between the start of the image and [lim] and do not meet. *)
Record image_ok (m : mem) (bf lim : Z) : Prop := {
  im_range : forall i, 0 <= i < e_shnum m bf -> loaded m (section m bf i) = true ->
    IMAGE_START <= sh_addr m (section m bf i) /\
    sh_addr m (section m bf i) + sh_size m (section m bf i) <= lim /\
    0 <= bf /\ bf + sh_offset m (section m bf i) + sh_size m (section m bf i) < 2 ^ 64;
  im_apart : forall i j v, 0 <= i < e_shnum m bf -> 0 <= j < e_shnum m bf ->
    in_section m bf i v -> in_section m bf j v -> i = j
}.

(** Byte [v] of the process, once the sections are there. *)
Definition section_byte (m : mem) (bf i v : Z) : Z :=
  m⟦bf + sh_offset m (section m bf i) + (v - sh_addr m (section m bf i))⟧.

Section loading.
Context (x0 : mach) (cr3 : Z) (fs : list Z).
Hypothesis (Hmap : maps (tab (mmu x0)) cr3 fs) (Hnd : NoDup fs)
  (Hal : forall f, f ∈ fs -> f mod 0x1000 = 0) (Hlen : zlen fs <= 262144)
  (Hbytes : bytes_in (kbytes x0)).
Implicit Types (x : mach) (μ g : Z -> Z) (v w a n b i k : Z).
#[local] Set Default Proof Using "Hmap Hnd Hal Hlen Hbytes".

Abbreviation holds := (holds x0 cr3 fs).
Abbreviation m := (kbytes x0).
Abbreviation room_end := (IMAGE_START + zlen fs * 0x1000).

Lemma ld_nonneg (n : nat) a : 0 <= ld n m a.
Proof. pose proof (ld_range n m a Hbytes). lia. Qed.

Lemma copy_section_holds bf lim x μ i :
image_ok m bf lim -> lim <= room_end -> holds x μ -> 0 <= i < e_shnum m bf ->
exists x' μ', copy_section cr3 bf i x = Ret x' /\ holds x' μ' /\
  (forall v, in_section m bf i v -> μ' v = section_byte m bf i v) /\
  (forall v, ~ in_section m bf i v -> μ' v = μ v).
Proof.
intros [Hr _] Hlim Hx Hi. unfold copy_section. rewrite (ho_kernel _ _ _ _ _ Hx). unfold in_section, section_byte.
destruct (loaded m (section m bf i)) eqn:El.
2:{ exists x, μ. split_and!; try done. by intros v [? _]. }
destruct (Hr i Hi El) as (Ha & Hb & Hbf & Ho).
set (a := sh_addr m (section m bf i)) in *. set (n := sh_size m (section m bf i)) in *.
set (o := sh_offset m (section m bf i)) in *.
assert (0 <= n /\ 0 <= o) as [Hn Ho0] by (split; apply ld_nonneg).
destruct (put_loop_holds x0 cr3 fs Hmap Hnd Hal Hlen x μ a n (fun e => m⟦u64 (bf + o + e)⟧)
  (fun e y => put8 cr3 (a + e) (kbytes y)⟦u64 (bf + o + e)⟧ y) Hx Hn Ha) as (x' & E & Hx'); [lia|..].
{ intros e y He Ey. by rewrite Ey. }
exists x', (put_range a n (fun e => u8 m⟦u64 (bf + o + e)⟧) μ). split; [exact E|]. split; [exact Hx'|].
unfold put_range. split; intros v Hv; case_within; try tauto.
rewrite u64_small by lia. by rewrite u8_small by apply Hbytes.
Qed.

Lemma load_segment_holds bf lim x μ :
image_ok m bf lim -> lim <= room_end -> holds x μ ->
exists x' μ', load_elf64_segment cr3 bf x = Ret x' /\ holds x' μ' /\
  (forall i v, 0 <= i < e_shnum m bf -> in_section m bf i v -> μ' v = section_byte m bf i v) /\
  (forall v, (forall i, 0 <= i < e_shnum m bf -> ~ in_section m bf i v) -> μ' v = μ v).
Proof.
intros Him Hlim Hx. unfold load_elf64_segment. rewrite (ho_kernel _ _ _ _ _ Hx).
assert (0 <= e_shnum m bf) as Hn by apply ld_nonneg.
destruct (for_outcome_total (fun k y => exists μ', holds y μ' /\
    (forall i v, 0 <= i < k -> in_section m bf i v -> μ' v = section_byte m bf i v) /\
    (forall v, (forall i, 0 <= i < k -> ~ in_section m bf i v) -> μ' v = μ v))
  (Z.to_nat (e_shnum m bf)) 0 (copy_section cr3 bf) x) as (x' & E & μ' & Hx' & Hin & Hout).
- exists μ. split_and!; [done|intros; lia|done].
- intros k y Hk (μ1 & Hy & Hin & Hout).
  destruct (copy_section_holds bf lim y μ1 k Him Hlim Hy ltac:(lia)) as (y' & μ2 & E & Hy' & Hin2 & Hout2).
  exists y'. split; [done|]. exists μ2. split; [done|]. split.
  + intros i v Hi Hv. destruct (decide (i = k)) as [->|Hne]; [by apply Hin2|].
    rewrite Hout2; [apply Hin; [lia|done]|]. intros Hv2. apply Hne.
    by apply (im_apart _ _ _ Him i k v); [lia|lia|..].
  + intros v Hv. rewrite Hout2 by (apply Hv; lia). apply Hout. intros i Hi. apply Hv. lia.
- rewrite Z.add_0_l, Z2Nat.id in Hin, Hout by lia. exists x', μ'. split_and!; done.
Qed.

Lemma arg_table_holds x μ arg :
holds x μ -> IMAGE_START <= arg -> arg + 0x400 <= room_end ->
exists x' μ', arg_table cr3 arg x = Ret x' /\ holds x' μ' /\
  (forall k i, 0 <= k < APP_ARG_COUNT -> 0 <= i < 8 ->
     μ' (arg + 8 * k + i) = (arg + 0x1000 + k * APP_ARG_LEN) / 256 ^ i mod 256) /\
  (forall v, ~ arg <= v < arg + 0x400 -> μ' v = μ v).
Proof.
intros Hx Ha Hb. unfold arg_table, APP_ARG_COUNT.
destruct (for_outcome_total (fun n y => exists μ', holds y μ' /\
    (forall k i, 0 <= k < n -> 0 <= i < 8 ->
       μ' (arg + 8 * k + i) = (arg + 0x1000 + k * APP_ARG_LEN) / 256 ^ i mod 256) /\
    (forall v, ~ arg <= v < arg + 8 * n -> μ' v = μ v)) (Z.to_nat 128) 0
  (fun i => put_word 8 cr3 (arg + 8 * i) (arg + 0x1000 + i * APP_ARG_LEN)) x) as (x' & E & μ' & Hx' & Hin & Hout).
- exists μ. split_and!; [done|intros; lia|done].
- intros n y Hn (μ1 & Hy & Hin & Hout).
  destruct (put_word_holds x0 cr3 fs Hmap Hnd Hal Hlen 8 y μ1 (arg + 8 * n) (arg + 0x1000 + n * APP_ARG_LEN) Hy)
    as (y' & E & Hy'); [lia..|].
  exists y'. split; [exact E|]. eexists. split; [exact Hy'|]. unfold put_range. split.
  + intros k i Hk Hi. case_within.
    * assert (k = n) as -> by lia. by replace (arg + 8 * n + i - (arg + 8 * n)) with i by lia.
    * apply Hin; lia.
  + intros v Hv. rewrite not_within by lia. apply Hout. lia.
- exists x', μ'. change (0 + Z.of_nat (Z.to_nat 128)) with 128 in *. split_and!; try done.
Qed.

(** What the arguments look like in the process: the working directory [lp] at [p], the table of the
    addresses of the arguments behind it and their strings [args] after that. *)
Record args_at (p pwd argv : Z) (lp : list Z) (args : list (list Z)) (μ0 μ : Z -> Z) : Prop := {
  aa_pwd : pwd <> 0 -> forall i, 0 <= i <= zlen lp -> μ (p + i) = text lp i;
  aa_table : forall k i, 0 <= k < APP_ARG_COUNT -> 0 <= i < 8 ->
    μ (p + 0x1000 + 8 * k + i) = (p + 0x2000 + k * APP_ARG_LEN) / 256 ^ i mod 256;
  aa_args : argv <> 0 -> forall (k : nat) l i, args !! k = Some l -> 0 <= i <= zlen l ->
    μ (p + 0x2000 + Z.of_nat k * APP_ARG_LEN + i) = text l i;
  aa_rest : forall v, ~ p <= v < p + 0xA000 -> μ v = μ0 v
}.

Lemma exec_args_holds fuel x μ argc argv pwd p lp args :
holds x μ -> IMAGE_START <= p -> p + 0xA000 <= room_end -> (0x1000 <= fuel)%nat ->
(pwd <> 0 -> cstr m pwd lp /\ zlen lp < 0x1000) ->
(argv <> 0 -> argc = zlen args /\ zlen args <= APP_ARG_COUNT /\
   forall (k : nat) l, args !! k = Some l -> cstr m (ld64 m (argv + 8 * Z.of_nat k)) l /\ zlen l < APP_ARG_LEN) ->
exists x' μ', exec_args fuel cr3 argc argv pwd p x = Ret x' /\ holds x' μ' /\ args_at p pwd argv lp args μ μ'.
Proof.
intros Hx Hp Hb Hf Hpwd Hargs. unfold APP_ARG_COUNT, APP_ARG_LEN in *. unfold exec_args.
destruct (arg_table_holds x μ (p + 0x1000) Hx) as (x1 & μ1 & E1 & Hx1 & Ht1 & Hr1); [lia..|].
rewrite E1. cbn [mbind outcome_bind]. unfold APP_ARG_COUNT, APP_ARG_LEN in Ht1.
assert (exists x2 μ2, (if pwd =? 0 then Ret x1 else user_strcpy fuel cr3 p pwd x1) = Ret x2 /\ holds x2 μ2 /\
  (pwd <> 0 -> forall i, 0 <= i <= zlen lp -> μ2 (p + i) = text lp i) /\
  (forall v, ~ p <= v < p + 0x1000 -> μ2 v = μ1 v)) as (x2 & μ2 & E2 & Hx2 & Hl2 & Hr2).
{ destruct (Z.eqb_spec pwd 0) as [|Hn]; [by exists x1, μ1|]. destruct (Hpwd Hn) as [Hc Hlen'].
  destruct (user_strcpy_holds x0 cr3 fs Hmap Hnd Hal Hlen fuel x1 μ1 p pwd lp Hx1 Hc) as (x2 & E2 & Hx2); [lia..|].
  exists x2. eexists. split; [exact E2|]. split; [exact Hx2|]. unfold put_range. split.
  - intros _ i Hi. case_within; [|lia]. f_equal. lia.
  - intros v Hv. by rewrite not_within by lia. }
rewrite E2. cbn [mbind outcome_bind].
destruct (Z.eqb_spec argv 0) as [Ha|Ha].
{ exists x2, μ2. split; [done|]. split; [done|]. constructor; [done|..].
  - intros k i Hk Hi. unfold APP_ARG_COUNT, APP_ARG_LEN in *. rewrite Hr2 by lia. rewrite Ht1 by lia.
    do 2 f_equal. lia.
  - done.
  - intros v Hv. rewrite Hr2, Hr1 by lia. done. }
destruct (Hargs Ha) as (-> & Hcount & Hstr). rewrite Nat2Z.id.
destruct (for_outcome_total (fun n y => exists μ', holds y μ' /\
    (forall (k : nat) l i, Z.of_nat k < n -> args !! k = Some l -> 0 <= i <= zlen l ->
       μ' (p + 0x2000 + Z.of_nat k * 256 + i) = text l i) /\
    (forall v, ~ p + 0x2000 <= v < p + 0x2000 + 256 * n -> μ' v = μ2 v)) (length args) 0
  (copy_arg fuel cr3 (p + 0x1000) argv) x2) as (x' & E & μ' & Hx' & Hin & Hout).
- exists μ2. split_and!; [done|intros; lia|done].
- intros n y Hn (μ3 & Hy & Hin & Hout).
  destruct (lookup_lt_is_Some_2 args (Z.to_nat n)) as [l Hl]; [lia|].
  destruct (Hstr _ _ Hl) as [Hc Hl256]. rewrite Z2Nat.id in Hc by lia.
  unfold copy_arg.
  rewrite (get_word_holds x0 cr3 fs Hmap Hnd Hal Hlen 8 y μ3 (p + 0x1000 + 8 * n) (p + 0x2000 + n * 256) Hy);
    [|unfold IMAGE_START in *; lia..|].
  2:{ intros i Hi. rewrite Hout, Hr2 by lia. rewrite Ht1 by lia. do 2 f_equal. lia. }
  cbn [mbind outcome_bind]. rewrite (ho_kernel _ _ _ _ _ Hy).
  destruct (user_strcpy_holds x0 cr3 fs Hmap Hnd Hal Hlen fuel y μ3 (p + 0x2000 + n * 256) _ l Hy Hc)
    as (y' & E & Hy'); [lia..|].
  exists y'. split; [exact E|]. eexists. split; [exact Hy'|]. unfold put_range. split.
  + intros k l' i Hk Hl' Hi. destruct (decide (Z.of_nat k = n)) as [Ek|Hne].
    * assert (l' = l) as -> by (replace k with (Z.to_nat n) in Hl' by lia; congruence).
      rewrite Ek. case_within; [|lia]. f_equal. lia.
    * destruct (Hstr _ _ Hl') as [_ Hl'256]. rewrite not_within by lia. apply (Hin k l' i); done || lia.
  + intros v Hv. rewrite not_within by lia. apply Hout. lia.
- rewrite Z.add_0_l in Hin, Hout. exists x', μ'. split; [exact E|]. split; [exact Hx'|]. constructor.
  + intros Hn i Hi. destruct (Hpwd Hn). rewrite Hout by lia. by apply Hl2.
  + intros k i Hk Hi. unfold APP_ARG_COUNT, APP_ARG_LEN in *. rewrite Hout, Hr2 by lia. rewrite Ht1 by lia.
    do 2 f_equal. lia.
  + intros _ k l i Hl Hi. apply Hin; [|done|done]. apply lookup_lt_Some in Hl. lia.
  + intros v Hv. rewrite Hout, Hr2, Hr1 by lia. done.
Qed.
End loading.

(** ** Properties *)
Section images.
Implicit Types (x : mach) (s : mm) (B : blocks) (v n k : Z).

Lemma round_up_pos n k : 0 <= n -> 0 < k -> round_up n k = (n + (k - 1)) / k.
Proof.
intros Hn Hk. unfold round_up. rewrite Z.rem_mod_nonneg, Z.quot_div_nonneg by lia.
destruct (Z.eqb_spec (n mod k) 0); Z.div_mod_to_equations; nia.
Qed.

Lemma header_loaded m bf phdr p :
load_elf64_header m bf phdr = Ret (0, p) -> start p = IMAGE_START /\ entry p = e_entry m bf.
Proof.
unfold load_elf64_header. destruct (negb (e_class m bf =? 2)); [discriminate|].
destruct (negb (e_type m bf =? 2)); [discriminate|]. destruct (negb (e_machine m bf =? 62)); [discriminate|].
intros E. inv_ret E. injection E as <-. done.
Qed.

Lemma holds_init x cr3 fs :
maps (tab (mmu x)) cr3 fs -> zlen fs <= 262144 ->
holds x cr3 fs x (fun v => match get8 cr3 v x with Ret b => b | _ => 0 end).
Proof.
intros Hm Hl. constructor; try done. intros v Hv.
destruct (image_addr x cr3 fs Hm Hl x v eq_refl Hv) as (f & _ & E). unfold get8. by rewrite E.
Qed.

Lemma get8_same_high cr3 fs x y v :
maps (tab (mmu x)) cr3 fs -> maps (tab (mmu y)) cr3 fs -> ubytes y = ubytes x ->
IMAGE_START <= v < IMAGE_START + zlen fs * 0x1000 -> zlen fs <= 262144 -> get8 cr3 v y = get8 cr3 v x.
Proof.
intros Hx Hy Hu Hv Hl. unfold get8, user_addr. unfold IMAGE_START in *.
destruct (Z.ltb_spec v 549755813888); [lia|]. rewrite Hx, Hy by (unfold IMAGE_START; lia). by rewrite Hu.
Qed.

(** The address space as a list of frames; [kp] pages and [kf] frames are still to be had. *)
Lemma exec_space_maps s B n tbs kp kf :
mm_ok s B -> tables_low s -> 1 <= tbs <= 512 -> 0 <= n <= 512 * tbs -> 0 <= kp -> 0 <= kf ->
pages_room B (3 + tbs + kp) -> frames_room s (3 + tbs + n + kf) ->
exists tb cr3 s' B' fs,
  exec_space n tbs s = Ret (tb, cr3, s') /\ mm_ok s' B' /\ tables_low s' /\
  ((forall t, same_high s' t -> maps t cr3 fs) /\ pages_room B' kp /\ frames_room s' kf /\
   exists l, took l fs s B s' B' /\ space_at s' B' tb l fs) /\
  zlen fs = n /\ NoDup fs /\ (forall f, f ∈ fs -> f mod 0x1000 = 0) /\
  (forall f, f ∈ fs -> frame_busy (ram s) (f / 0x1000) = false /\ frame_busy (ram s') (f / 0x1000) = true /\
     forall j, in_block B' j -> get_phy_addr s' (page_addr j) <> f) /\
  (tab s')⟦cr3⟧ = (tab s)⟦pml4e s⟧ /\
  (forall j, in_block B j -> in_block B' j /\ get_phy_addr s' (page_addr j) = get_phy_addr s (page_addr j)).
Proof.
intros Hs Hlow Ht Hn Hkp Hkf Hroom Hfr.
destruct (exec_space_built s B n tbs kp kf Hs Hlow Ht Hn Hkp Hkf Hroom Hfr)
  as (a4 & ap & ad & at_ & fs & s1 & s' & B' & E & Hs' & Hlow' & SB & Rp & Rf).
pose proof (sb_ready _ _ _ _ _ _ _ _ _ _ _ _ SB) as R. pose proof (tr_grew _ _ _ _ _ _ _ _ _ R) as G.
pose proof (alloc_frames_spec _ _ _ _ (sb_frames _ _ _ _ _ _ _ _ _ _ _ _ SB)) as (Hl & Hnd & Hall & Hbusy & _).
rewrite Forall_forall in Hall.
assert (forall j, in_block B' j -> page_frame s' j = page_frame s1 j) as Hfr'.
{ intros j Hj. destruct (block_page s1 B' j (gr_ok _ _ _ _ G) Hj).
  apply (beside_frame s1 s'); [exact (sb_beside _ _ _ _ _ _ _ _ _ _ _ _ SB)|lia]. }
exists (Tables (page_addr a4) (page_addr ap) (page_addr ad) (page_addr at_)), (page_frame s' a4 * 0x1000),
  s', B', fs.
split; [done|]. split; [done|]. split; [done|]. split_and!.
- intros t Hsame v Hv. by apply (space_walk s B n tbs a4 ap ad at_ fs s1 s' B').
- done.
- done.
- eexists. by apply (space_took s B n tbs a4 ap ad at_ fs s1).
- lia.
- done.
- intros f Hf. destruct (Hall f Hf) as (k & _ & -> & _). word_lia.
- intros f Hf. destruct (Hall f Hf) as (k & Hk & -> & Hfree). rewrite Z.div_mul by lia. split_and!.
  + destruct (frame_busy (ram s) k) eqn:Eb; [|done].
    rewrite (proj2 (gr_busy _ _ _ _ G k ltac:(lia)) (or_introl Eb)) in Hfree. done.
  + rewrite Hbusy by lia. by rewrite bool_decide_eq_true_2, orb_true_r.
  + intros j Hj E'. rewrite (proj2 (page_phy s' B' j Hs' Hj)), Hfr' in E' by done.
    destruct (ok_live _ _ (gr_ok _ _ _ _ G) j Hj) as (_ & _ & Hb).
    assert (page_frame s1 j = k) as Ek by lia. rewrite Ek in Hb. congruence.
- pose proof (sb_root _ _ _ _ _ _ _ _ _ _ _ _ SB 0 ltac:(lia)) as E0. cbn [Z.eqb] in E0.
  rewrite <- E0, <- word_low by lia. by rewrite Z.add_0_r.
- intros j Hj. destruct (gr_page _ _ _ _ G j Hj) as [Hj' Ef]. split; [done|].
  rewrite (proj2 (page_phy s' B' j Hs' Hj')), (proj2 (page_phy s B j Hs Hj)), Hfr' by done. by rewrite Ef.
Qed.
End images.

(** C5: [exec_space] gives a process an address space of its own: the pages of the image
    translate, each to a frame of its own that was free, is marked in use and backs no page of the kernel's
    heap; every other address from the start of the image on faults; the first entry of the root is the kernel's, so the
    kernel's memory is there too; and the memory manager keeps its invariant, its blocks and their
    translations. *)
Theorem exec_space_isolates (s : mm) (B : blocks) (n tbs : Z) :
  mm_ok s B -> tables_low s -> 1 <= tbs <= 512 -> 0 <= n <= 512 * tbs ->
  pages_room B (3 + tbs) -> frames_room s (3 + tbs + n) ->
  exists tb cr3 s' B' fs,
    exec_space n tbs s = Ret (tb, cr3, s') /\ mm_ok s' B' /\ zlen fs = n /\ NoDup fs /\
    (forall (i : nat) f o, fs !! i = Some f -> 0 <= o < 0x1000 ->
       walk (tab s') cr3 (IMAGE_START + Z.of_nat i * 0x1000 + o) = Some (f + o)) /\
    (forall v, IMAGE_START + n * 0x1000 <= v < 2 ^ 47 -> walk (tab s') cr3 v = None) /\
    (forall f, f ∈ fs -> f mod 0x1000 = 0 /\ frame_busy (ram s) (f / 0x1000) = false /\
       frame_busy (ram s') (f / 0x1000) = true /\
       forall j, in_block B' j -> get_phy_addr s' (page_addr j) <> f) /\
    (tab s')⟦cr3⟧ = (tab s)⟦pml4e s⟧ /\
    (forall j, in_block B j ->
       in_block B' j /\ get_phy_addr s' (page_addr j) = get_phy_addr s (page_addr j)).
Proof.
  intros Hs Hlow Ht Hn Hroom Hfr.
  destruct (exec_space_maps s B n tbs 0 0 Hs Hlow Ht Hn ltac:(lia) ltac:(lia))
    as (tb & cr3 & s' & B' & fs & E & Hs' & _ & (Hmaps & _) & Hl & Hnd & Hmod & Hf & Hroot & Hold);
    [by rewrite Z.add_0_r..|].
  pose proof (Hmaps (tab s') (fun b _ => eq_refl)) as Hm.
  exists tb, cr3, s', B', fs. split_and!; try done.
  - intros i f o Hi Ho. pose proof (lookup_lt_Some _ _ _ Hi). pose proof (Hmod f (list_elem_of_lookup_2 _ _ _ Hi)).
    rewrite Hm by (unfold IMAGE_START; lia).
    replace (Z.to_nat _) with i by word_lia. rewrite Hi. cbn. f_equal. unfold IMAGE_START. word_lia.
  - intros v Hv. unfold IMAGE_START in *. rewrite Hm by (unfold IMAGE_START; lia).
    rewrite lookup_ge_None_2; [done|]. unfold IMAGE_START. word_lia.
  - intros f Hf'. split; [by apply Hmod|]. by apply Hf.
Qed.

Lemma boot_room n : 0 <= n <= ALLOC_PAGES -> pages_room ∅ n.
Proof. intros Hn. exists 0. split; [lia|]. split; [lia|apply fits_empty]. Qed.

Lemma boot_frames_room n fs r :
  alloc_frames (Z.to_nat n) ∅ = Some (fs, r) -> frames_room boot_mm n.
Proof. intros E. apply boot_frames in E as [r' E]. by exists (fs, r'). Qed.

Lemma boot_tables_low : tables_low boot_mm.
Proof.
  unfold tables_low, boot_mm. change (pdpte (alloc_pages_setup _)) with 0x101000.
  change (pml4e (alloc_pages_setup _)) with 0x100000. unfold alloc_pde. lia.
Qed.

Example exec_space_isolates_witness :
  exists tb cr3 s' fs, exec_space 3 1 boot_mm = Ret (tb, cr3, s') /\ zlen fs = 3 /\ NoDup fs /\
    (forall f, fs !! 2%nat = Some f -> walk (tab s') cr3 0x8000002010 = Some (f + 0x10)) /\
    walk (tab s') cr3 0x8000003000 = None.
Proof.
  assert (exists fs r, alloc_frames (Z.to_nat 7) ∅ = Some (fs, r)) as (fs0 & r & E)
    by (eexists _, _; vm_compute; reflexivity).
  destruct (exec_space_isolates boot_mm ∅ 3 1 boot_mm_ok boot_tables_low ltac:(lia) ltac:(lia))
    as (tb & cr3 & s' & B' & fs & E' & _ & Hl & Hnd & Hw & Hn & _).
  - apply boot_room. unfold ALLOC_PAGES. lia.
  - exact (boot_frames_room 7 fs0 r E).
  - exists tb, cr3, s', fs. split; [exact E'|]. split; [exact Hl|]. split; [exact Hnd|]. split.
    + intros f Hf. apply (Hw 2%nat f 0x10 Hf). lia.
    + apply Hn. unfold IMAGE_START. lia.
Defined.

(** What a caller of [exectve] has to see to: an image the header check accepts, with [p] as the
    result of the check, sections clear of each other and of what comes behind them, and strings
    that fit. *)
Record exec_request (x : mach) (fuel : nat) (argc argv pwd bf : Z) (phdr p : program_header_t)
    (lp : list Z) (args : list (list Z)) : Prop := {
  rq_header : load_elf64_header (kbytes x) bf phdr = Ret (0, p);
  rq_end : IMAGE_START <= end_ p <= IMAGE_START + 0x3FFD0000;
  rq_image : image_ok (kbytes x) bf (end_ p);
  rq_bytes : bytes_in (kbytes x);
  rq_fuel : (0x1000 <= fuel)%nat;
  rq_pwd : pwd <> 0 -> cstr (kbytes x) pwd lp /\ zlen lp < 0x1000;
  rq_args : argv <> 0 -> argc = zlen args /\ zlen args <= APP_ARG_COUNT /\
    forall (k : nat) l, args !! k = Some l ->
      cstr (kbytes x) (ld64 (kbytes x) (argv + 8 * Z.of_nat k)) l /\ zlen l < APP_ARG_LEN
}.

(** The pages of the process and of their tables. *)
Definition request_pages (p : program_header_t) : Z := (end_ p + 0x30FFF - IMAGE_START) / 0x1000.
Definition request_tables (p : program_header_t) : Z := 3 + (request_pages p + 511) / 512.

(** What stands in the memory of the process, [μ], before its first step. *)
Record image_in (m : mem) (bf argv pwd : Z) (p : program_header_t) (lp : list Z) (args : list (list Z))
    (im : loaded_image) (μ : Z -> Z) : Prop := {
  ii_entry : im_entry im = e_entry m bf;
  ii_stack : im_stack im = end_ p + 0x30000;
  ii_pwd : im_pwd im = end_ p;
  ii_arg : im_arg im = end_ p + 0x1000;
  ii_pages : im_pages im = request_pages p;
  ii_sections : forall i v, 0 <= i < e_shnum m bf -> in_section m bf i v -> μ v = section_byte m bf i v;
  ii_args : exists μ0, args_at (end_ p) pwd argv lp args μ0 μ;
  ii_zero : forall v, IMAGE_START <= v < IMAGE_START + request_pages p * 0x1000 ->
    ~ end_ p <= v < end_ p + 0xA000 -> (forall i, 0 <= i < e_shnum m bf -> ~ in_section m bf i v) -> μ v = 0
}.

(** The pages of the process in any state that left the tables in the frames as they were. *)
Definition process_reads (im : loaded_image) (μ : Z -> Z) (x y : mach) : Prop :=
  same_high (mmu x) (tab (mmu y)) -> ubytes y = ubytes x ->
  forall v, IMAGE_START <= v < IMAGE_START + im_pages im * 0x1000 -> get8 (im_cr3 im) v y = Ret (μ v).

Lemma exec_image_spec child fuel argc argv pwd bf phdr p x B lp args kp kf :
  mm_ok (mmu x) B -> tables_low (mmu x) -> exec_request x fuel argc argv pwd bf phdr p lp args ->
  0 <= kp -> 0 <= kf -> pages_room B (request_tables p + kp) ->
  frames_room (mmu x) (request_tables p + request_pages p + kf) ->
  exists im x' B' μ,
    exec_image child fuel argc argv pwd bf phdr x = Ret (Some im, x') /\
    kbytes x' = kbytes x /\ mm_ok (mmu x') B' /\
    (pages_room B' kp /\ frames_room (mmu x') kf /\
     exists l fs, took l fs (mmu x) B (mmu x') B' /\ space_at (mmu x') B' (im_tables im) l fs /\ im_pages im = zlen fs) /\
    image_in (kbytes x) bf argv pwd p lp args im μ /\ forall y, process_reads im μ x' y.
Proof.
  intros Hs Hlow [Eh He Him Hbytes Hfuel Hpwd Hargs] Hkp Hkf Hroom Hfr. unfold request_tables in *.
  set (n := request_pages p) in *.
  destruct (header_loaded _ _ _ _ Eh) as [_ Een].
  assert (48 <= n /\ n * 0x1000 >= end_ p - IMAGE_START + 0x30000 /\ n <= 262144) as (Hn1 & Hn2 & Hn3)
    by (unfold n, request_pages, IMAGE_START in *; word_lia).
  assert (image_size (end_ p) = end_ p + 0x30000 - IMAGE_START) as Esize.
  { unfold image_size, APP_STAK_SIZE, APP_ARG_SIZE, IMAGE_START in *. rewrite u64_small by lia.
    rewrite s32_small by lia. lia. }
  assert (round_up (image_size (end_ p)) 0x1000 = n) as En.
  { rewrite Esize, round_up_pos by (unfold IMAGE_START in *; lia). unfold n, request_pages. f_equal. lia. }
  assert (round_up n 512 = (n + 511) / 512) as Et by (rewrite round_up_pos by lia; f_equal; lia).
  destruct (exec_space_maps (mmu x) B n ((n + 511) / 512) kp kf Hs Hlow) as
    (tb & cr3 & s' & B' & fs & E & Hs' & _ & (Hmaps & Hrp & Hrf & l & Htook & Hspace) & Hl & Hnd & Hmod & _);
    try done; try word_lia.
  pose proof (Hmaps (tab s') (fun b _ => eq_refl)) as Hm.
  unfold exec_image. rewrite Eh. cbn [mbind outcome_bind Z.eqb negb]. cbv zeta.
  rewrite En, Et, E. cbn [mbind outcome_bind]. destruct (Z.ltb_spec n 0); [lia|].
  set (x0 := Mach s' (kbytes x) (ubytes x)).
  assert (zlen fs <= 262144) as Hl' by lia.
  destruct (put_loop_holds x0 cr3 fs Hm Hnd Hmod Hl' x0 _ IMAGE_START (n * 0x1000) (fun _ => 0)
    (fun i => put8 cr3 (IMAGE_START + i) 0) (holds_init x0 cr3 fs Hm Hl')) as (x1 & E1 & H1); [lia..|done|].
  unfold user_memset. rewrite E1. cbn [mbind outcome_bind].
  destruct (load_segment_holds x0 cr3 fs Hm Hnd Hmod Hl' Hbytes bf (end_ p) x1 _ Him ltac:(lia) H1)
    as (x2 & μ2 & E2 & H2 & Hin & Hout).
  rewrite E2. cbn [mbind outcome_bind].
  assert ((if child then u64 (IMAGE_START + image_size (end_ p) - (APP_STAK_SIZE + APP_ARG_SIZE)) else end_ p)
    = end_ p) as ->.
  { destruct child; [|done]. rewrite Esize. unfold APP_STAK_SIZE, APP_ARG_SIZE, IMAGE_START in *.
    rewrite u64_small by lia. lia. }
  destruct (exec_args_holds x0 cr3 fs Hm Hnd Hmod Hl' Hbytes fuel x2 μ2 argc argv pwd (end_ p) lp args H2)
    as (x3 & μ3 & E3 & H3 & HA); [lia|lia|done|done|done|].
  rewrite E3. cbn [mbind outcome_bind]. pose proof (ho_mmu _ _ _ _ _ H3) as Emm.
  eexists _, x3, B', μ3. split; [reflexivity|].
  split; [exact (ho_kernel _ _ _ _ _ H3)|]. rewrite !Emm. split; [done|].
  split; [split; [done|split; [done|by exists l, fs]]|]. split.
  - constructor; cbn [im_entry im_stack im_pwd im_arg im_pages im_cr3]; try done.
    + unfold APP_STAK_SIZE, APP_ARG_SIZE, IMAGE_START in *. rewrite u64_small by lia. lia.
    + intros i v Hi Hv. rewrite (aa_rest _ _ _ _ _ _ _ HA); [by apply Hin|].
      destruct Hv as [Hld Hv]. destruct (im_range _ _ _ Him i Hi Hld). lia.
    + by exists μ2.
    + fold n. intros v Hv Hna Hns. rewrite (aa_rest _ _ _ _ _ _ _ HA) by done. rewrite Hout by done.
      unfold put_range. case_within; [done|lia].
  - intros y Hsame Hub v Hv. cbn [im_pages im_cr3] in *.
    rewrite (get8_same_high cr3 fs x3 y v); try done.
    + apply (ho_bytes _ _ _ _ _ H3). unfold in_image. lia.
    + rewrite Emm. exact Hm.
    + apply Hmaps. rewrite Emm in Hsame. exact Hsame.
    + lia.
Qed.

(** C7: [exectve] and [exectve_child] load an image their header check accepts: in the address space they
    build every loaded section stands at its address, the working directory, the table of the
    arguments and the arguments stand behind the image, and all the rest is zero; the entry
    point and the stack are those of the image.  The kernel's memory is not written. *)
Theorem exec_image_loads (child : bool) (fuel : nat) (argc argv pwd bf : Z) (phdr p : program_header_t)
    (x : mach) (B : blocks) (lp : list Z) (args : list (list Z)) :
  mm_ok (mmu x) B -> tables_low (mmu x) -> exec_request x fuel argc argv pwd bf phdr p lp args ->
  pages_room B (request_tables p) -> frames_room (mmu x) (request_tables p + request_pages p) ->
  exists im x' B' μ,
    exec_image child fuel argc argv pwd bf phdr x = Ret (Some im, x') /\
    kbytes x' = kbytes x /\ mm_ok (mmu x') B' /\
    image_in (kbytes x) bf argv pwd p lp args im μ /\
    (forall v, IMAGE_START <= v < IMAGE_START + im_pages im * 0x1000 -> get8 (im_cr3 im) v x' = Ret (μ v)).
Proof.
  intros Hs Hlow Hrq Hroom Hfr.
  destruct (exec_image_spec child fuel argc argv pwd bf phdr p x B lp args 0 0 Hs Hlow Hrq)
    as (im & x' & B' & μ & E & Hk & Hs' & _ & Hin & Hrd); [lia..|by rewrite Z.add_0_r|by rewrite Z.add_0_r|].
  exists im, x', B', μ. do 4 (split; [done|]). by apply Hrd.
Qed.

(** An image of one section of two bytes, a working directory "/" and an argument "a". *)
Definition ex_bf : Z := 0x100000000.
Definition ex_image : mem :=
  let m := (∅ : mem)⟦ex_bf + 4 := 2⟧ in
  let m := st16 m (ex_bf + 16) 2 in
  let m := st16 m (ex_bf + 18) 62 in
  let m := st64 m (ex_bf + 24) 0x8000001000 in
  let m := st64 m (ex_bf + 40) 64 in
  let m := st16 m (ex_bf + 60) 1 in
  let m := st32 m (ex_bf + 68) 1 in
  let m := st64 m (ex_bf + 80) 0x8000001000 in
  let m := st64 m (ex_bf + 88) 128 in
  let m := st64 m (ex_bf + 96) 2 in
  let m := m⟦ex_bf + 128 := 0x90⟧⟦ex_bf + 129 := 0xC3⟧ in
  let m := m⟦0x200 := 47⟧ in
  let m := st64 m 0x300 0x400 in
  m⟦0x400 := 97⟧.

Lemma ex_image_bytes : bytes_in ex_image.
Proof.
  unfold ex_image. repeat first [apply bytes_in_wr; [|lia] | apply bytes_in_st | apply bytes_in_empty].
Qed.

Lemma ex_image_ok : image_ok ex_image ex_bf 0x8000001002.
Proof.
  assert (e_shnum ex_image ex_bf = 1) as En by (vm_compute; reflexivity). constructor; rewrite En.
  - intros i Hi _. assert (i = 0) as -> by lia. vm_compute. repeat split; discriminate.
  - intros i j v Hi Hj _ _. lia.
Qed.

Lemma ex_image_header :
  load_elf64_header ex_image ex_bf (Phdr 0 0 0) = Ret (0, Phdr IMAGE_START 0x8000001000 0x8000001002).
Proof. vm_compute. reflexivity. Qed.

Lemma ex_section :
  0 <= 0 < e_shnum ex_image ex_bf /\ in_section ex_image ex_bf 0 0x8000001001 /\
  section_byte ex_image ex_bf 0 0x8000001001 = 0xC3.
Proof. vm_compute. repeat split; discriminate. Qed.

Lemma ex_request :
  exec_request (Mach boot_mm ex_image ∅) 4096 1 0x300 0x200 ex_bf (Phdr 0 0 0)
    (Phdr IMAGE_START 0x8000001000 0x8000001002) [47] [[97]].
Proof.
  constructor; cbn [kbytes end_].
  - exact ex_image_header.
  - unfold IMAGE_START. lia.
  - exact ex_image_ok.
  - exact ex_image_bytes.
  - lia.
  - intros _. split; [|cbn; lia]. split; [repeat constructor; lia|]. clear. vm_compute. repeat split; reflexivity.
  - intros _. split; [done|]. split; [vm_compute; discriminate|]. intros k l Hl.
    destruct k as [|k]; [|destruct k; discriminate]. injection Hl as <-.
    split; [|cbn; unfold APP_ARG_LEN; lia]. split; [repeat constructor; lia|]. clear. vm_compute. repeat split; reflexivity.
Qed.

Example exec_image_loads_witness :
  exists im x', exec_image false 4096 1 0x300 0x200 ex_bf (Phdr 0 0 0) (Mach boot_mm ex_image ∅) =
      Ret (Some im, x') /\
    im_entry im = 0x8000001000 /\ im_stack im = 0x8000031002 /\
    get8 (im_cr3 im) 0x8000001001 x' = Ret 0xC3 /\ get8 (im_cr3 im) 0x8000001002 x' = Ret 47 /\
    get8 (im_cr3 im) 0x8000003002 x' = Ret 97.
Proof.
  assert (exists fs r, alloc_frames (Z.to_nat 54) ∅ = Some (fs, r)) as (fs0 & r & E)
    by (eexists _, _; vm_compute; reflexivity).
  destruct (exec_image_loads false 4096 1 0x300 0x200 ex_bf (Phdr 0 0 0)
    (Phdr IMAGE_START 0x8000001000 0x8000001002) (Mach boot_mm ex_image ∅) ∅ [47] [[97]]
    boot_mm_ok boot_tables_low ex_request)
    as (im & x' & B' & μ & E' & _ & _ & [H1 H2 _ _ H5 Hsec (μ0 & HA) _] & Hget).
  - apply boot_room. vm_compute. split; discriminate.
  - exact (boot_frames_room 54 fs0 r E).
  - exists im, x'. split; [exact E'|]. split; [rewrite H1; cbn [kbytes]; vm_compute; reflexivity|].
    split; [exact H2|].
    assert (im_pages im = 50) as En by exact H5. rewrite En in Hget. cbn [end_ kbytes] in *.
    split; [|split].
    + rewrite Hget by (unfold IMAGE_START; lia).
      destruct ex_section as (S1 & S2 & S3). rewrite (Hsec 0 _ S1 S2). by rewrite S3.
    + rewrite Hget by (unfold IMAGE_START; lia). f_equal.
      exact (aa_pwd _ _ _ _ _ _ _ HA ltac:(lia) 0 ltac:(cbn; lia)).
    + rewrite Hget by (unfold IMAGE_START; lia). f_equal.
      exact (aa_args _ _ _ _ _ _ _ HA ltac:(lia) 0%nat [97] 0 eq_refl ltac:(cbn; lia)).
Defined.
