(* ===== verification/Process.v ===== *)
(** * Process: the end of a process and its memory (kernel/exit.c, syscall.c, argv.c)

    [release_space] gives the frames and tables of a process back; the memory a program asked for
    with the system call is in the table of 512 rows at the thread's [pool], from where
    [user_free] frees it. *)
From S2P Require Import Prelude KString Bytes Frames Pages Paging Heap Ledger Exec.

(** ** The address space *)

(** The frame of one page, read out of the page table; [free_pages] then takes the four blocks. *)
Definition free_user_page (pte i : Z) (s : mm) : mm :=
  let phy := mask48 (Z.shiftl (fget f_frames (tab s)⟦kaddr s (pte + 8 * i)⟧) 12) in
  set_ram (free_frame (ram s) phy).2 s.

Definition release_space (tb : tables) (frame_size : Z) (s : mm) : outcome mm :=
  let s := for_upto 0 frame_size (free_user_page (t_pte tb)) s in
  s ← kfree (t_pml4e tb) s;
  s ← kfree (t_pdpte tb) s;
  s ← kfree (t_pde tb) s;
  kfree (t_pte tb) s.

Section release.
Implicit Types (s : mm) (B : blocks) (a j k n : Z).

(** Frames no live page stands on may change. *)
Lemma mm_ok_frames s B r :
mm_ok s B -> bytes_in r -> (forall b, PAGE_BITMAP <= b -> r⟦b⟧ = (ram s)⟦b⟧) ->
(forall j, in_block B j -> frame_busy r (page_frame s j) = true) -> mm_ok (set_ram r s) B.
Proof.
intros [Hrep _ Htab Hbound Hlive Hinj Hdead Hlock] Hb Hp Hf. constructor; try done.
- by apply (page_rep_ext (ram s)).
- intros j Hj. destruct (Hlive j Hj) as (? & ? & _). split; [done|]. split; [done|]. by apply Hf.
Qed.

(** The loop over the page table of a process frees the frames in its first words. *)
Lemma free_user_loop s B a n fs :
mm_ok s B -> words_in B a n -> 0 <= n -> zlen fs = n ->
(forall f, f ∈ fs -> exists k, 32768 <= k < 1048576 /\ f = k * 0x1000) ->
(forall i, 0 <= i < n -> (tab s)⟦word s a i⟧ = frame_entry fs i) ->
let s' := for_upto 0 n (free_user_page (page_addr a)) s in
s' = set_ram (ram s') s /\ bytes_in (ram s') /\
(forall b, PAGE_BITMAP <= b -> (ram s')⟦b⟧ = (ram s)⟦b⟧) /\
(forall k, 0 <= k < 1048576 -> frame_busy (ram s') k = true <->
   frame_busy (ram s) k = true /\ k * 0x1000 ∉ fs).
Proof.
intros Hs Hin Hn Hl Hfs Hw.
apply (for_upto_inv (fun i t => t = set_ram (ram t) s /\ bytes_in (ram t) /\
  (forall b, PAGE_BITMAP <= b -> (ram t)⟦b⟧ = (ram s)⟦b⟧) /\
  (forall k, 0 <= k < 1048576 -> frame_busy (ram t) k = true <->
     frame_busy (ram s) k = true /\ forall j : nat, Z.of_nat j < i -> fs !! j <> Some (k * 0x1000))) 0 n
  (free_user_page (page_addr a)) s) in Hn as H.
- destruct H as (H1 & H2 & H3 & H4). split_and!; try done. intros k Hk. rewrite H4 by done.
  apply and_iff_compat_l. rewrite list_elem_of_lookup. split.
  + intros H [j Hj]. apply (H j); [|done]. apply lookup_lt_Some in Hj. lia.
  + intros H j Hj E. apply H. by exists j.
- split; [by destruct s|]. split; [apply Hs|]. split; [done|]. intros k Hk. split; [|by intros [? _]].
  intros H. split; [done|]. intros j Hj. lia.
- intros i t Hi (E & Hb & Hp & Hbusy). unfold free_user_page.
  assert (mm_ok s B) as Hs2 by done. pose proof (kaddr_word s B a i Hs (Hin i Hi) ltac:(lia)) as Ek.
  assert (kaddr t (page_addr a + 8 * i) = word s a i) as -> by (rewrite E; exact Ek).
  assert (tab t = tab s) as -> by (by rewrite E). rewrite Hw by done.
  destruct (lookup_lt_is_Some_2 fs (Z.to_nat i)) as [f Hf]; [lia|].
  destruct (Hfs f (list_elem_of_lookup_2 _ _ _ Hf)) as (k & Hk & ->).
  assert (frame_entry fs i = user_entry (k * 0x1000) 0) as -> by (unfold frame_entry; by rewrite Hf).
  destruct (user_entry_fields k 0 ltac:(lia)) as [_ Ea]. unfold entry_addr in Ea. rewrite Ea.
  cbn [ram set_ram]. split; [by rewrite E|]. split; [by apply free_frame_ok|]. split.
  + intros b Hbb. rewrite free_frame_rest; [by apply Hp|lia|].
    unfold frame_byte, RAM_BITMAP, PAGE_BITMAP in *. lia.
  + intros q Hq. rewrite free_frame_busy by lia. rewrite andb_true_iff, negb_true_iff, Z.div_mul by lia.
    rewrite Hbusy by done. rewrite andb_false_iff, Z.leb_gt, Z.eqb_neq. split.
    * intros [[H1 H2] H3]. split; [done|]. intros j Hj Ej. destruct (decide (Z.of_nat j = i)) as [Eji|Hne].
      { replace (Z.to_nat i) with j in Hf by lia. rewrite Ej in Hf. injection Hf. lia. }
      apply (H2 j); [lia|done].
    * intros [H1 H2]. split; [split; [done|]; intros j Hj; apply H2; lia|]. right. intros ->.
      apply (H2 (Z.to_nat i)); [lia|done].
Qed.

End release.

Section roundtrip.
Implicit Types (s : mm) (B : blocks) (l fs : list Z).

(** The loop over the page table gives the frames of the image back. *)
Lemma user_frames_gave s B tb l fs :
mm_ok s B -> space_at s B tb l fs -> let s' := for_upto 0 (zlen fs) (free_user_page (t_pte tb)) s in
gave [] fs s B s' B.
Proof.
intros Hs [_ (a & m & -> & HB & Hm & Hw) Hfs] s'. pose proof (block_words B a m _ HB Hm) as Hin.
destruct (free_user_loop s B a (zlen fs) fs Hs Hin ltac:(lia) eq_refl) as (E & Hb & Hp & U); [|done|].
{ intros f Hf. destruct (Hfs f Hf) as (k & Hk & -> & _). by exists k. }
fold s' in E, Hb, Hp, U. constructor.
- rewrite E. apply mm_ok_frames; try done. intros j Hj. destruct (block_page s B j Hs Hj) as [_ Hr].
  apply U; [lia|]. destruct (ok_live _ _ Hs j Hj) as (_ & _ & Hbz). split; [done|]. intros Hf.
  destruct (Hfs _ Hf) as (k & _ & Ek & Hno). apply (Hno j Hj). lia.
- done.
- intros j _. by rewrite E.
- intros k Hk. rewrite U by done. apply and_iff_compat_l. split; [|tauto]. intros Hf. split; [|done].
  by intros (b & m' & j & Hb'%not_elem_of_nil & _).
- intros b _. by rewrite E.
Qed.

(** The tables go back as four blocks. *)
Lemma release_frees tb n s : release_space tb n s =
frees [t_pml4e tb; t_pdpte tb; t_pde tb; t_pte tb] (for_upto 0 n (free_user_page (t_pte tb)) s).
Proof.
unfold release_space. set (s1 := for_upto _ _ _ _). cbn [frees free mm_allocator].
destruct (kfree (t_pml4e tb) s1) as [u1| | | |]; try done. cbn [mbind outcome_bind].
destruct (kfree (t_pdpte tb) u1) as [u2| | | |]; try done. cbn [mbind outcome_bind].
destruct (kfree (t_pde tb) u2) as [u3| | | |]; try done. cbn [mbind outcome_bind].
by destruct (kfree (t_pte tb) u3).
Qed.

Lemma release_gave s B tb l fs :
mm_ok s B -> space_at s B tb l fs -> NoDup l -> (forall a, a ∈ l -> is_Some (B !! a)) ->
exists s', release_space tb (zlen fs) s = Ret s' /\ gave l fs s B s' (without l B).
Proof.
intros Hs Hsp Hnd Hin. pose proof (user_frames_gave s B tb l fs Hs Hsp) as G1. cbv zeta in G1.
set (s1 := for_upto 0 (zlen fs) (free_user_page (t_pte tb)) s) in *.
destruct (frees_gave l s1 B (gv_ok _ _ _ _ _ _ G1) Hnd Hin) as (s2 & E & G2). exists s2. split.
- rewrite release_frees, (sp_list _ _ _ _ _ Hsp). exact E.
- apply (gave_trans [] fs l [] s B s1 B s2 _) in G2; [|done|by intros b Hb%not_elem_of_nil].
  by rewrite app_nil_r in G2.
Qed.
End roundtrip.

(** What [exit] does with the address space of a process undoes what [exectve] did to make it: all
    frames, those of the image and those of the tables, are free again, the page allocator has the blocks
    it had, and its invariant holds. *)
Theorem release_exec_space (s : mm) (B : blocks) (n tbs : Z) :
  mm_ok s B -> tables_low s -> 1 <= tbs <= 512 -> 0 <= n <= 512 * tbs ->
  pages_room B (3 + tbs) -> frames_room s (3 + tbs + n) ->
  exists tb cr3 s1 s2,
    exec_space n tbs s = Ret (tb, cr3, s1) /\ release_space tb n s1 = Ret s2 /\ mm_ok s2 B /\
    forall k, 0 <= k < 1048576 -> frame_busy (ram s2) k = frame_busy (ram s) k.
Proof.
  intros Hs Hlow Ht Hn Hroom Hfr.
  destruct (exec_space_maps s B n tbs 0 0 Hs Hlow Ht Hn ltac:(lia) ltac:(lia))
    as (tb & cr3 & s' & B' & fs & E & Hs' & _ & (_ & _ & _ & l & T & Hsp) & <- & _); [by rewrite Z.add_0_r..|].
  destruct (release_gave s' B' tb l fs Hs' Hsp (tk_nodup _ _ _ _ _ _ T)) as (s2 & E2 & G);
    [intros a Ha; apply (tk_new _ _ _ _ _ _ T a Ha)|].
  destruct (took_gave _ _ _ _ _ _ _ _ _ _ T G) as [EB Hb]; [done..|].
  exists tb, cr3, s', s2. split; [done|]. split; [done|]. split; [rewrite <- EB; apply (gv_ok _ _ _ _ _ _ G)|done].
Qed.

Example release_exec_space_witness :
  exists tb cr3 s1 s2, exec_space 3 1 boot_mm = Ret (tb, cr3, s1) /\ release_space tb 3 s1 = Ret s2 /\
    mm_ok s2 ∅ /\ frame_busy (ram s2) 32768 = frame_busy (ram boot_mm) 32768.
Proof.
  assert (exists fs r, alloc_frames (Z.to_nat 7) ∅ = Some (fs, r)) as (fs0 & r & E)
    by (eexists _, _; vm_compute; reflexivity).
  destruct (release_exec_space boot_mm ∅ 3 1 boot_mm_ok boot_tables_low ltac:(lia) ltac:(lia))
    as (tb & cr3 & s1 & s2 & E1 & E2 & Hs2 & Hb).
  - apply boot_room. unfold ALLOC_PAGES. lia.
  - exact (boot_frames_room 7 fs0 r E).
  - exists tb, cr3, s1, s2. split; [exact E1|]. split; [exact E2|]. split; [exact Hs2|]. apply Hb. lia.
Defined.

(** ** The memory of a program

    A row of the pool: the address of a block, 0 when the row is free, its size and a flag. *)
Definition POOL_COUNT : Z := 512.
Definition pool_ptr (m : mem) (pool i : Z) : Z := ld64 m (pool + 16 * i).
Definition pool_row (pool i ptr size : Z) (m : mem) : mem :=
  st32 (st32 (st64 m (pool + 16 * i) ptr) (pool + 16 * i + 8) size) (pool + 16 * i + 12) 0.

(** The first row that holds [ptr]. *)
Definition pool_find (m : mem) (pool ptr : Z) : option Z :=
  match
    for_break 512 0 (fun i (_ : unit) => if pool_ptr m pool i =? ptr then inr i else inl tt) tt
  with
  | inl _ => None
  | inr i => Some i
  end.

Section pool.
Context {A : Type} `{Allocator A}.
Implicit Types (h : A) (m : mem).

(** [size] is 32 bits wide; for 0 pages the address that is recorded and returned is an
    uninitialised one.  With no row free the block is not recorded. *)
Definition malloc_syscall_ (pool size : Z) (s : A * mem) : outcome (Z * (A * mem)) :=
  let '(h, m) := s in
  let size := u32 size in
  let len := s32 (size / 0x1000) in
  let len := if size mod 0x1000 =? 0 then len else len + 1 in
  if len =? 0 then Undef
  else
    '(addr, h) ← palloc 1 len h;
    let m := match pool_find m pool 0 with Some i => pool_row pool i addr size m | None => m end in
    Ret (addr, (h, m)).

Definition free_syscall_ (pool ptr : Z) (s : A * mem) : outcome (A * mem) :=
  let '(h, m) := s in
  if ptr =? 0 then Ret (h, m)
  else
    h ← free ptr h;
    let m := match pool_find m pool ptr with Some i => pool_row pool i 0 0 m | None => m end in
    Ret (h, m).

Definition user_free (pool : Z) (s : A * mem) : outcome A :=
  let '(h, m) := s in
  h ← for_outcome 512 0 (fun i h => let ptr := pool_ptr m pool i in if ptr =? 0 then Ret h else free ptr h) h;
  free pool h.
End pool.

Section pools.
Context {A : Type} `{AllocatorLaws A}.
(** Addresses have 64 bits. *)
Context (Haddr : forall (h : A) B p k, heap_ok h B -> B !! p = Some k -> p < 2 ^ 64).
Implicit Types (h : A) (m : mem) (B : gmap Z Z) (pool i j p k : Z).

Lemma pool_find_spec m pool ptr :
match pool_find m pool ptr with
| Some i => 0 <= i < POOL_COUNT /\ pool_ptr m pool i = ptr
| None => forall i, 0 <= i < POOL_COUNT -> pool_ptr m pool i <> ptr
end.
Proof.
unfold pool_find. break_with (fun k (_ : unit) => forall i, 0 <= i < k -> pool_ptr m pool i <> ptr)
  (fun k r => r = k /\ pool_ptr m pool k = ptr).
- intros i Hi. lia.
- intros k [] Hk Hlow. destruct (Z.eqb_spec (pool_ptr m pool k) ptr) as [E|E]; [done|].
  intros i Hi. destruct (decide (i = k)) as [->|]; [done|]. apply Hlow. lia.
- intros [] Hall. exact Hall.
- intros k r Hk [-> E]. split; [unfold POOL_COUNT; lia|done].
Qed.

Lemma pool_ptr_row m pool i j ptr size :
0 <= ptr < 2 ^ 64 ->
pool_ptr (pool_row pool i ptr size m) pool j = if j =? i then ptr else pool_ptr m pool j.
Proof.
intros Hp. unfold pool_ptr, pool_row. destruct (Z.eqb_spec j i) as [->|Hne].
- rewrite !ld_st_ne by lia. rewrite ld_st_eq. apply Z.mod_small. exact Hp.
- rewrite !ld_st_ne by lia. done.
Qed.

(** The blocks of the heap are [B0], among them the pool, and those the rows name. *)
Record pool_ok (B0 : gmap Z Z) (pool : Z) (s : A * mem) (B : gmap Z Z) : Prop := {
po_heap : heap_ok s.1 B;
po_pool : is_Some (B0 !! pool);
po_old : forall p k, B0 !! p = Some k -> B !! p = Some k;
po_rows : forall i, 0 <= i < POOL_COUNT -> pool_ptr s.2 pool i <> 0 ->
  is_Some (B !! pool_ptr s.2 pool i) /\ B0 !! pool_ptr s.2 pool i = None;
po_all : forall p k, B !! p = Some k ->
  B0 !! p = Some k \/ exists i, 0 <= i < POOL_COUNT /\ pool_ptr s.2 pool i = p;
po_inj : forall i j, 0 <= i < POOL_COUNT -> 0 <= j < POOL_COUNT -> pool_ptr s.2 pool i <> 0 ->
  pool_ptr s.2 pool i = pool_ptr s.2 pool j -> i = j
}.

(** What a program may do: ask for memory while a row is free, and free what it was given. *)
Inductive pool_step (pool : Z) : A * mem -> A * mem -> Prop :=
| step_malloc size s addr s' :
    0 < size < 2 ^ 31 - 0x1000 -> heap_room s.1 ((size + 0xFFF) / 0x1000 * 0x1000) ->
    (exists i, 0 <= i < POOL_COUNT /\ pool_ptr s.2 pool i = 0) ->
    malloc_syscall_ pool size s = Ret (addr, s') -> pool_step pool s s'
| step_free_ ptr s s' :
    ptr <> 0 -> (exists i, 0 <= i < POOL_COUNT /\ pool_ptr s.2 pool i = ptr) ->
    free_syscall_ pool ptr s = Ret s' -> pool_step pool s s'.

Lemma malloc_pool_ok B0 pool s B size :
pool_ok B0 pool s B -> 0 < size < 2 ^ 31 - 0x1000 -> heap_room s.1 ((size + 0xFFF) / 0x1000 * 0x1000) ->
(exists i, 0 <= i < POOL_COUNT /\ pool_ptr s.2 pool i = 0) ->
exists addr s' B', malloc_syscall_ pool size s = Ret (addr, s') /\ pool_ok B0 pool s' B' /\
  B !! addr = None /\ is_Some (B' !! addr).
Proof using Haddr.
destruct s as [h m]. cbn [fst snd]. intros [Hh Hp Hold Hrows Hall Hinj] Hsz Hroom Hfree. cbn [fst snd] in *.
unfold malloc_syscall_. rewrite u32_small, (s32_small (size / 0x1000)) by word_lia.
replace (if size mod 0x1000 =? 0 then size / 0x1000 else size / 0x1000 + 1) with ((size + 0xFFF) / 0x1000)
  by (destruct (Z.eqb_spec (size mod 0x1000) 0); word_lia).
set (len := (size + 0xFFF) / 0x1000) in *. assert (0 < len < 2 ^ 19) as Hlen by (unfold len; word_lia).
destruct (Z.eqb_spec len 0); [lia|].
destruct (palloc_spec h B 1 len Hh Hlen Hroom) as (p & k & h' & E & Hk & Hp0 & Hh' & Hd).
rewrite E. cbn [mbind outcome_bind].
assert (B !! p = None) as HBp.
{ destruct (B !! p) as [j|] eqn:Ej; [|done]. destruct (heap_pos _ _ _ _ Hh Ej). destruct (Hd p j Ej); lia. }
assert (p < 2 ^ 64) as Hp64 by (apply (Haddr h' (<[p := k]> B) p k); [done|by rewrite lookup_insert_eq]).
pose proof (pool_find_spec m pool 0) as HF. destruct (pool_find m pool 0) as [i|].
2:{ destruct Hfree as (i & Hi & E0). by destruct (HF i Hi). }
destruct HF as [Hi Ei]. eexists p, _, (<[p := k]> B). split; [reflexivity|].
assert (forall j, pool_ptr (pool_row pool i p size m) pool j = if j =? i then p else pool_ptr m pool j) as Hrow
  by (intros j; apply pool_ptr_row; lia).
assert (B0 !! p = None) as HB0p.
{ destruct (B0 !! p) as [j|] eqn:Ej; [|done]. apply Hold in Ej. congruence. }
split; [|split; [done|by rewrite lookup_insert_eq]].
constructor; cbn [fst snd].
- done.
- done.
- intros q j Hq. rewrite lookup_insert_ne; [by apply Hold|]. intros ->. congruence.
- intros j Hj. rewrite Hrow. destruct (Z.eqb_spec j i) as [->|Hne]; intros Hne0.
  + rewrite lookup_insert_eq. done.
  + destruct (Hrows j Hj Hne0) as [[x Hx] H2]. split; [|done]. exists x.
    rewrite lookup_insert_ne; [done|]. intros E'. congruence.
- intros q j [[<- <-]|[Hne Hq]]%lookup_insert_Some.
  + right. exists i. rewrite Hrow, Z.eqb_refl. done.
  + destruct (Hall q j Hq) as [|(x & Hx & Ex)]; [by left|]. right. destruct (decide (x = i)) as [->|Hxi].
    * exfalso. rewrite Ei in Ex. subst q. destruct (heap_pos _ _ _ _ Hh Hq). lia.
    * exists x. rewrite Hrow. by destruct (Z.eqb_spec x i).
- intros a b Ha Hb. rewrite !Hrow.
  destruct (Z.eqb_spec a i) as [->|Hai], (Z.eqb_spec b i) as [->|Hbi]; intros Hne E'; try done.
  + exfalso. destruct (Hrows b Hb) as [[x Hx] _]; [congruence|]. rewrite <- E' in Hx. congruence.
  + exfalso. destruct (Hrows a Ha Hne) as [[x Hx] _]. rewrite E' in Hx. congruence.
  + by apply Hinj.
Qed.

Lemma free_pool_ok B0 pool s B ptr :
pool_ok B0 pool s B -> ptr <> 0 -> (exists i, 0 <= i < POOL_COUNT /\ pool_ptr s.2 pool i = ptr) ->
exists s', free_syscall_ pool ptr s = Ret s' /\ pool_ok B0 pool s' (delete ptr B).
Proof.
destruct s as [h m]. cbn [fst snd]. intros [Hh Hp Hold Hrows Hall Hinj] Hne (i0 & Hi0 & Ei0). cbn [fst snd] in *.
unfold free_syscall_. destruct (Z.eqb_spec ptr 0); [done|].
destruct (Hrows i0 Hi0) as [[k Hk] HB0]; [congruence|]. rewrite Ei0 in Hk, HB0.
destruct (free_spec h B ptr k Hh Hk) as (h' & E & Hh'). rewrite E. cbn [mbind outcome_bind].
pose proof (pool_find_spec m pool ptr) as HF. destruct (pool_find m pool ptr) as [i|]; [|by destruct (HF i0 Hi0)].
destruct HF as [Hi Ei]. eexists. split; [reflexivity|].
assert (forall j, pool_ptr (pool_row pool i 0 0 m) pool j = if j =? i then 0 else pool_ptr m pool j) as Hrow
  by (intros j; apply pool_ptr_row; lia).
assert (forall j, 0 <= j < POOL_COUNT -> j <> i -> pool_ptr m pool j <> 0 -> pool_ptr m pool j <> ptr) as Hother.
{ intros j Hj Hji Hj0 E'. apply Hji, Hinj; congruence || done. }
constructor; cbn [fst snd].
- done.
- done.
- intros q j Hq. rewrite lookup_delete_ne; [by apply Hold|]. intros ->. congruence.
- intros j Hj. rewrite Hrow. destruct (Z.eqb_spec j i) as [->|Hji]; [done|]. intros Hj0.
  destruct (Hrows j Hj Hj0) as [H1 H2]. split; [|done].
  rewrite lookup_delete_ne by (apply not_eq_sym, Hother; done). done.
- intros q j [Hqp Hq]%lookup_delete_Some. destruct (Hall q j Hq) as [|(x & Hx & Ex)]; [by left|right].
  exists x. split; [done|]. rewrite Hrow. destruct (Z.eqb_spec x i) as [->|]; congruence.
- intros a b Ha Hb. rewrite !Hrow.
  destruct (Z.eqb_spec a i) as [->|Hai], (Z.eqb_spec b i) as [->|Hbi]; intros Ha0 E'; try done.
  by apply Hinj.
Qed.

Lemma pool_step_ok B0 pool s s' B : pool_step pool s s' -> pool_ok B0 pool s B -> exists B', pool_ok B0 pool s' B'.
Proof using Haddr.
intros Hst Hs. destruct Hst as [size s addr s' Hsz Hroom Hfree E|ptr s s' Hne Hrow E].
- destruct (malloc_pool_ok B0 pool s B size Hs Hsz Hroom Hfree) as (a & t & B' & E' & Ht & _).
  rewrite E in E'. injection E' as -> ->. by exists B'.
- destruct (free_pool_ok B0 pool s B ptr Hs Hne Hrow) as (t & E' & Ht).
  rewrite E in E'. injection E' as ->. by eexists.
Qed.

(** [user_free] frees the rows one after the other, and the pool last. *)
Lemma user_free_ok B0 pool s B :
pool_ok B0 pool s B -> exists h, user_free pool s = Ret h /\ heap_ok h (delete pool B0).
Proof.
destruct s as [h m]. intros [Hh Hp Hold Hrows Hall Hinj]. cbn [fst snd] in *. unfold user_free. cbn beta iota.
destruct (for_outcome_total (fun n h => exists Bn, heap_ok h Bn /\
    (forall p k, Bn !! p = Some k <->
       B !! p = Some k /\ forall i, 0 <= i < n -> pool_ptr m pool i <> 0 -> pool_ptr m pool i <> p)) 512 0
  (fun i h => if pool_ptr m pool i =? 0 then Ret h else free (pool_ptr m pool i) h) h) as (h1 & E & B1 & Hh1 & H1).
- exists B. split; [done|]. intros p k. split; [|by intros [? _]]. intros Hpk. split; [done|]. intros; lia.
- intros n t Hn (Bn & Ht & Hbn). destruct (Z.eqb_spec (pool_ptr m pool n) 0) as [E0|E0].
  + exists t. split; [done|]. exists Bn. split; [done|]. intros p k. rewrite Hbn. apply and_iff_compat_l.
    split; intros Hi i Hin Hne; [|apply Hi; [lia|done]].
    destruct (decide (i = n)) as [->|]; [done|]. apply Hi; [lia|done].
  + destruct (Hrows n ltac:(unfold POOL_COUNT; lia) E0) as [[k Hk] _].
    assert (Bn !! pool_ptr m pool n = Some k) as Hbk.
    { apply Hbn. split; [done|]. intros i Hi Hi0 E'. assert (i = n); [|lia].
      apply Hinj; [unfold POOL_COUNT; lia|unfold POOL_COUNT; lia|done|done]. }
    destruct (free_spec t Bn _ k Ht Hbk) as (t' & E & Ht'). exists t'. split; [done|].
    exists (delete (pool_ptr m pool n) Bn). split; [done|]. intros p q. rewrite lookup_delete_Some, Hbn. split.
    * intros (Hne & HBp & Hi). split; [done|]. intros i Hin Hi0. destruct (decide (i = n)) as [->|]; [done|].
      apply Hi; [lia|done].
    * intros (HBp & Hi). split; [apply Hi; [lia|done]|]. split; [done|]. intros i Hin Hi0. apply Hi; [lia|done].
- rewrite E. cbn [mbind outcome_bind]. change (0 + Z.of_nat 512) with POOL_COUNT in H1.
  assert (B1 = B0) as ->.
  { apply map_eq. intros p. apply option_eq. intros k. rewrite H1. split.
    - intros [HBp Hi]. destruct (Hall p k HBp) as [|(i & Hi' & Ei)]; [done|]. exfalso.
      destruct (heap_pos _ _ _ _ Hh HBp). apply (Hi i Hi'); [lia|done].
    - intros HB0. split; [by apply Hold|]. intros i Hi Hne E'. destruct (Hrows i Hi Hne) as [_ HN].
      rewrite E' in HN. congruence. }
  destruct Hp as [k Hk]. destruct (free_spec h1 B0 pool k Hh1 Hk) as (h2 & E2 & Hh2). by exists h2.
Qed.
Lemma pool_ok_init B0 pool s :
heap_ok s.1 B0 -> is_Some (B0 !! pool) -> (forall i, 0 <= i < POOL_COUNT -> pool_ptr s.2 pool i = 0) ->
pool_ok B0 pool s B0.
Proof.
intros Hh Hp Hz. constructor; try done.
- intros i Hi Hne. by rewrite Hz in Hne.
- intros p k Hpk. by left.
- intros i j Hi Hj Hne. by rewrite Hz in Hne.
Qed.
End pools.


(** The page allocator's addresses are below 2^33. *)
Lemma mm_addresses (h : mm) B p k : heap_ok h B -> B !! p = Some k -> p < 2 ^ 64.
Proof.
  intros (C & Hs & ->) (a & n & -> & _ & Ha)%heap_blocks_Some. pose proof (ok_bound _ _ Hs _ _ Ha).
  destruct (proj1 (proj1 (ok_rep _ _ Hs)) _ _ Ha). unfold page_addr, ALLOC_PAGE_MEMORY, ALLOC_PAGES in *. lia.
Qed.

