(* ===== verification/Start.v ===== *)
(** * Start: a program becomes a process (kernel/exectve.c with kernel/thread.c)

    [exectve] loads an image with Exec and makes a thread for it with Thread, on the kernel's own
    heap; [exectve_child] makes a child of another thread.  The state is that of the schedulers, the
    address spaces of the processes by the address of their thread, and the bytes of the
    processes by physical address. *)
From S2P Require Import Prelude Links KString Bytes Files Thread Frames Pages Paging Heap Ledger Exec.
From S2P Require Import Process.

(** The fields of a [THREAD] that say where its tables are. *)
Record pspace := Pspace { ps_tables : tables; frame_size : Z }.

Record proc := Proc { sc : sched mm; spaces : gmap Z pspace; ubytes_of : mem }.

Section exectve.
Context (sse : gmap Z Z) (horizontal_resolution vertical_resolution bpp pixels_per_scan_line : Z).
(** The page the kernel shows to programs. *)
Context (user : Z).

Definition mach_of (p : proc) : mach := Mach (heap (io (sc p))) (bytes_of (io (sc p))) (ubytes_of p).

Definition with_mach (x : mach) (p : proc) : proc :=
  Proc (set_io (set_heap (mmu x) (set_bytes (kbytes x) (io (sc p)))) (sc p)) (spaces p) (ubytes x).

(** The pid, and 0 when the header is refused. *)
Definition exectve (fuel : nat) (argc argv pwd bf : Z) (phdr : program_header_t) (p : proc) :
    outcome (Z * proc) :=
  '(r, x) ← exec_image false fuel argc argv pwd bf phdr (mach_of p);
  match r with
  | None => Ret (0, p)
  | Some im =>
      let p := with_mach x p in
      '(thread, s) ← create_thread sse horizontal_resolution vertical_resolution bpp pixels_per_scan_line
        fuel (im_entry im) (im_stack im) (im_cr3 im) user 0x11 argc (im_arg im) (im_pwd im) (sc p);
      th ← get_t thread s;
      Ret (pid th, Proc s (<[thread := Pspace (im_tables im) (im_pages im)]> (spaces p)) (ubytes_of p))
  end.

Definition exectve_child (fuel : nat) (argc argv pwd bf thread : Z) (phdr : program_header_t) (p : proc) :
    outcome (Z * proc) :=
  '(r, x) ← exec_image true fuel argc argv pwd bf phdr (mach_of p);
  match r with
  | None => Ret (0, p)
  | Some im =>
      let p := with_mach x p in
      '(thread2, s) ← create_thread_child sse fuel (im_entry im) (im_stack im) (im_cr3 im) user 0x1 argc
        (im_arg im) (im_pwd im) thread (sc p);
      th ← get_t thread2 s;
      Ret (pid th, Proc s (<[thread2 := Pspace (im_tables im) (im_pages im)]> (spaces p)) (ubytes_of p))
  end.
End exectve.

(** ** The kernel's heap with room for more *)

(** [s'] with the blocks [B'] came from [s] by taking the blocks at the pages [l]; [k] pages are still
    to be had. *)
Record more (l : list Z) (s : mm) (B : blocks) (s' : mm) (B' : blocks) (k : Z) : Prop := {
  mo_took : took l [] s B s' B';
  mo_pages : pages_room B' k;
  mo_frames : frames_room s' k;
  mo_low : tables_low s -> tables_low s';
  mo_tab : forall b, 0x8000000 <= b -> (tab s')⟦b⟧ = (tab s)⟦b⟧
}.

Section rooms.
Implicit Types (s : mm) (B : blocks) (i : sys mm) (k len n : Z) (l : list Z).

Lemma mo_ok l s B s' B' k : more l s B s' B' k -> mm_ok s' B'.
Proof. intros M. exact (tk_ok _ _ _ _ _ _ (mo_took _ _ _ _ _ _ M)). Qed.

Lemma more_trans l1 s1 B1 l2 s2 B2 s3 B3 k k2 :
more l1 s1 B1 s2 B2 k -> more l2 s2 B2 s3 B3 k2 -> more (l1 ++ l2) s1 B1 s3 B3 k2.
Proof.
intros [P1 P2 P3 P4 P5] [Q1 Q2 Q3 Q4 Q5]. constructor; try done; [|auto|].
- exact (took_trans _ _ _ _ _ _ _ _ _ _ P1 Q1).
- intros b Hb. by rewrite Q5, P5.
Qed.

Lemma frames_room_less s n k : 0 <= k <= n -> frames_room s n -> frames_room s k.
Proof.
intros Hk Hn. replace n with (k + (n - k)) in Hn by lia.
destruct (frames_room_split s k (n - k)) as (fs & r & E & _); [lia..|done|]. by exists (fs, r).
Qed.

Lemma alloc_pages_more s B type len k :
mm_ok s B -> 1 <= len < 2 ^ 31 -> 0 <= k -> pages_room B (len + k) -> frames_room s (len + k) ->
exists a s', alloc_pages type len 0 s = Ret (len, page_addr a, s') /\ 0 < page_addr a /\
  more [a] s B s' (<[a := len]> B) k.
Proof.
intros Hs Hl Hk Hroom Hfr.
destruct (frames_room_split s len k) as (fs & r & Er & _); [lia..|done|].
destruct (alloc_pages_result type len 0 s B fs r Hs Hl) as (a & s' & E & HA); [|done|].
{ exact (pages_room_less B (len + k) len ltac:(lia) Hroom). }
destruct (al_block _ _ _ _ _ _ _ HA) as (Ha & Hab & Hfit & _).
destruct (room_after s B type len a fs s' k k Hs ltac:(lia) Hk Hk HA (ex_intro _ r Er) Hroom Hfr) as [R1 R2].
exists a, s'. split; [exact E|]. split; [unfold page_addr, ALLOC_PAGE_MEMORY; lia|]. constructor; try done.
- apply (allocated_took s B type len a fs s' Hs); [lia|done].
- unfold tables_low. by rewrite (al_state _ _ _ _ _ _ _ HA).
- intros b Hb. apply (al_other _ _ _ _ _ _ _ HA). unfold alloc_pte, ALLOC_PAGES in *. lia.
Qed.

Lemma palloc_more s B type len k :
mm_ok s B -> 1 <= len < 2 ^ 31 -> 0 <= k -> pages_room B (len + k) -> frames_room s (len + k) ->
exists a s', palloc type len s = Ret (page_addr a, s') /\ 0 < page_addr a /\ more [a] s B s' (<[a := len]> B) k.
Proof.
intros Hs Hl Hk Hroom Hfr.
destruct (alloc_pages_more s B type len k Hs Hl Hk Hroom Hfr) as (a & s' & E & H).
exists a, s'. split; [|exact H]. cbn [palloc mm_allocator]. unfold kpalloc. by rewrite E.
Qed.

Lemma malloc_more s B n len k :
mm_ok s B -> 0 < n < 2 ^ 31 -> len = (n + 0xFFF) / 0x1000 -> 0 <= k ->
pages_room B (len + k) -> frames_room s (len + k) ->
exists a s', malloc n s = Ret (page_addr a, s') /\ 0 < page_addr a /\ more [a] s B s' (<[a := len]> B) k.
Proof.
intros Hs Hn -> Hk Hroom Hfr. set (len := (n + 0xFFF) / 0x1000) in *.
assert (1 <= len < 2 ^ 31) as Hl by (unfold len; word_lia).
destruct (alloc_pages_more s B 1 len k Hs Hl Hk Hroom Hfr) as (a & s' & E & Hp & HM).
exists a, s'. split; [|done]. cbn [malloc mm_allocator]. rewrite kmalloc_eq by done. fold len. rewrite E.
cbn [mbind outcome_bind]. by destruct (Z.eqb_spec len 0); [lia|].
Qed.

(** A stream takes two blocks: the object and its buffer. *)
Definition stream_file (flag b : Z) : FILE :=
  zero |> set_bsize BUFSIZ |> set_buffer (page_addr b) |> set_fsize 0 |> set_mode 0x2 |> set_flags flag.

Lemma new_stream_more i B flag k :
mm_ok (heap i) B -> 0 <= k -> pages_room B (3 + k) -> frames_room (heap i) (3 + k) ->
exists a b i', new_stream flag i = Ret (page_addr a, i') /\ 0 < page_addr a /\
  more [a; b] (heap i) B (heap i') (<[b := 2]> (<[a := 1]> B)) k /\
  files i' = <[page_addr a := stream_file flag b]> (files i) /\
  bytes_of i' = memset (bytes_of i) (page_addr b) 0 BUFSIZ /\ stdout_fp i' = stdout_fp i.
Proof.
intros Hs Hk Hroom Hfr. unfold new_stream, malloc_.
destruct (malloc_more (heap i) B sizeof_FILE 1 (2 + k) Hs) as (a & h1 & E1 & Ha & M1);
  [unfold sizeof_FILE; lia|reflexivity|lia|by replace (1 + (2 + k)) with (3 + k) by lia..|].
rewrite E1. cbn [mbind outcome_bind]. cbn [heap set_heap].
destruct (malloc_more h1 (<[a := 1]> B) BUFSIZ 2 k (mo_ok _ _ _ _ _ _ M1)) as (b & h2 & E2 & _ & M2);
  [unfold BUFSIZ; lia|reflexivity|lia|apply M1..|].
rewrite E2. cbn [mbind outcome_bind]. eexists a, b, _. split; [reflexivity|]. split; [done|].
split; [exact (more_trans _ _ _ _ _ _ _ _ _ _ M1 M2)|done].
Qed.
End rooms.

(** ** What a thread holds *)

(** A stream and its buffer, in the order they are freed. *)
Definition stream_list (f : gmap Z FILE) (fp : Z) : list Z :=
  match f !! fp with
  | Some x => [buffer x; fp]
  | None => []
  end.

(** The rows of the pool that are in use. *)
Definition pool_list (m : mem) (pool : Z) : list Z :=
  filter (fun p => p <> 0) ((fun i => pool_ptr m pool (Z.of_nat i)) <$> seq 0 512).

(** The addresses of the blocks of the thread [th] at [t], in the order [exit] frees them. *)
Definition thread_list (i : sys mm) (t : Z) (th : THREAD) : list Z :=
  [window th] ++ stream_list (files i) (stdin th) ++ stream_list (files i) (stdout th) ++
  stream_list (files i) (stderr th) ++ stream_list (files i) (pipe th) ++ [mouse th] ++
  pool_list (bytes_of i) (pool th) ++ [pool th; t].

Definition streams_of (th : THREAD) : list Z := [stdin th; stdout th; stderr th; pipe th].

(** A thread with a window of its own, new in the state [s'] behind the threads [l] of [s]; [k] pages and
    frames are still to be had. *)
Record created (s s' : sched mm) (B B' : blocks) (l : list Z) (k t : Z) (th : THREAD) : Prop := {
  cr_fresh : t ∉ l;
  cr_thread : threads s' !! t = Some th;
  cr_queue : queue_ok s' (l ++ [t]) (heap_blocks B');
  cr_more : exists own, more own (heap (io s)) B (heap (io s')) B' k /\ page_addr <$> own ≡ₚ thread_list (io s') t th;
  cr_alone : prv th = 0x31 /\ head th = t /\ tail th = 0;
  cr_streams : forall fp, fp ∈ streams_of th ->
    exists flag b, files (io s') !! fp = Some (stream_file flag b) /\ 1 <= flag <= 4 /\ B' !! b = Some 2;
  cr_blocks : exists pp pw, pool th = page_addr pp /\ B' !! pp = Some 2 /\ window th = page_addr pw /\ B' !! pw = Some 1536;
  cr_files : forall fp, fp ∉ streams_of th -> files (io s') !! fp = files (io s) !! fp;
  cr_pid : pid th = next_pid s /\ next_pid s' = next_pid s + 1
}.

Section creating.
Implicit Types (s : sched mm) (B : blocks) (l : list Z) (t k : Z).

Lemma fopen_more s B flag k :
mm_ok (heap (io s)) B -> 0 <= k -> pages_room B (3 + k) -> frames_room (heap (io s)) (3 + k) ->
exists a b i, fopen_ flag s = Ret (page_addr a, set_io i s) /\ 0 < page_addr a /\
  more [a; b] (heap (io s)) B (heap i) (<[b := 2]> (<[a := 1]> B)) k /\
  files i = <[page_addr a := stream_file flag b]> (files (io s)).
Proof.
intros Hs Hk Hroom Hfr. unfold fopen_.
destruct (new_stream_more (io s) B flag k Hs Hk Hroom Hfr) as (a & b & i & E & Ha & M & Ef & _).
rewrite E. by exists a, b, i.
Qed.

Lemma alloc_more s B type len k :
mm_ok (heap (io s)) B -> 1 <= len < 2 ^ 31 -> 0 <= k ->
pages_room B (len + k) -> frames_room (heap (io s)) (len + k) ->
exists a i, alloc_pages_ type len s = Ret (page_addr a, set_io i s) /\ 0 < page_addr a /\
  more [a] (heap (io s)) B (heap i) (<[a := len]> B) k /\ files i = files (io s).
Proof.
intros Hs Hl Hk Hroom Hfr. unfold alloc_pages_.
destruct (palloc_more (heap (io s)) B type len k Hs Hl Hk Hroom Hfr) as (a & h & E & Ha & M).
rewrite E. by exists a, (set_heap h (io s)).
Qed.

Lemma malloc_t_more s B n len k :
mm_ok (heap (io s)) B -> 0 < n < 2 ^ 31 -> len = (n + 0xFFF) / 0x1000 -> 0 <= k ->
pages_room B (len + k) -> frames_room (heap (io s)) (len + k) ->
exists a i, malloc_t n s = Ret (page_addr a, set_io i s) /\
  more [a] (heap (io s)) B (heap i) (<[a := len]> B) k /\ files i = files (io s).
Proof.
intros Hs Hn Hl Hk Hroom Hfr. unfold malloc_t, malloc_.
destruct (malloc_more (heap (io s)) B n len k Hs Hn Hl Hk Hroom Hfr) as (a & h & E & _ & M).
rewrite E. by exists a, (set_heap h (io s)).
Qed.

Lemma set_io_io i s : io (set_io i s) = i.
Proof. reflexivity. Qed.

Lemma heap_blocks_sub B B' p : (forall a n, B !! a = Some n -> B' !! a = Some n) ->
is_Some (heap_blocks B !! p) -> is_Some (heap_blocks B' !! p).
Proof.
intros Hsub [j (a & n & -> & -> & Ha)%heap_blocks_Some]. exists (n * 0x1000).
apply heap_blocks_Some. exists a, n. auto.
Qed.

Lemma heap_blocks_at B a : is_Some (heap_blocks B !! page_addr a) <-> is_Some (B !! a).
Proof.
split.
- intros [j (b & n & E & -> & Hb)%heap_blocks_Some]. apply (inj page_addr) in E as ->. by exists n.
- intros [n Hn]. exists (n * 0x1000). apply heap_blocks_Some. by exists a, n.
Qed.

(** The pool of a new thread is empty. *)
Lemma pool_list_clear m v : pool_list (memset m v 0 0x2000) v = [].
Proof.
unfold pool_list.
assert (forall l : list nat, Forall (fun i => (i < 512)%nat) l ->
  filter (fun p => p <> 0) ((fun i => pool_ptr (memset m v 0 0x2000) v (Z.of_nat i)) <$> l) = []) as H.
{ induction 1 as [|i l Hi _ IH]; [done|]. cbn [fmap list_fmap]. rewrite filter_cons_False; [done|].
  intros Hn. apply Hn. unfold pool_ptr. apply ld_zero. intros b Hb. rewrite rd_memset. case_within; [done|lia]. }
apply H. apply Forall_forall. intros i Hi. apply elem_of_seq in Hi. lia.
Qed.

(** The record of a new thread outside the list, with what the first part of [create_thread] put into it. *)
Record begun (s s' : sched mm) (B B' : blocks) (own : list Z) (t k : Z) (fa fb fc fd : Z) : Prop := {
  bg_more : more own (heap (io s)) B (heap (io s')) B' k;
  bg_threads : threads s' = threads s;
  bg_queue : thread_ready_queue s' = thread_ready_queue s;
  bg_pid : next_pid s' = u64 (next_pid s + 1);
  bg_streams : exists ba bb bc bd, own = [t; fa; ba; fb; bb; fc; bc; fd; bd] /\
    (forall b, b ∈ [ba; bb; bc; bd] -> B' !! b = Some 2) /\
    files (io s') = <[page_addr fd := stream_file 1 bd]> (<[page_addr fc := stream_file 4 bc]>
      (<[page_addr fb := stream_file 3 bb]> (<[page_addr fa := stream_file 2 ba]> (files (io s)))))
}.

(** The thread's pages and its four streams. *)
Lemma begin_thread s B k :
mm_ok (heap (io s)) B -> 0 <= k -> pages_room B (14 + k) -> frames_room (heap (io s)) (14 + k) ->
exists t fa fb fc fd s1 s2 s3 s4 s' B' own,
  alloc_pages_ 0 2 s = Ret (page_addr t, s1) /\ next_pid s1 = next_pid s /\ 0 < page_addr t /\
  fopen_ 2 (set_next_pid (u64 (next_pid s + 1)) s1) = Ret (page_addr fa, s2) /\
  fopen_ 3 s2 = Ret (page_addr fb, s3) /\ fopen_ 4 s3 = Ret (page_addr fc, s4) /\
  fopen_ 1 s4 = Ret (page_addr fd, s') /\ begun s s' B B' own t k fa fb fc fd.
Proof.
intros Hs Hk Hroom Hfr.
destruct (alloc_more s B 0 2 (12 + k) Hs) as (t & i1 & E1 & Ht & M1 & F1);
  [lia|lia|by replace (2 + (12 + k)) with (14 + k) by lia..|].
set (s1 := set_next_pid (u64 (next_pid s + 1)) (set_io i1 s)).
destruct (fopen_more s1 (<[t := 2]> B) 2 (9 + k) (mo_ok _ _ _ _ _ _ M1)) as (a2 & b2 & i2 & E2 & _ & M2 & F2);
  [lia|replace (3 + (9 + k)) with (12 + k) by lia; apply M1..|].
destruct (fopen_more (set_io i2 s1) _ 3 (6 + k) (mo_ok _ _ _ _ _ _ M2)) as (a3 & b3 & i3 & E3 & _ & M3 & F3);
  [lia|replace (3 + (6 + k)) with (9 + k) by lia; apply M2..|].
destruct (fopen_more (set_io i3 s1) _ 4 (3 + k) (mo_ok _ _ _ _ _ _ M3)) as (a4 & b4 & i4 & E4 & _ & M4 & F4);
  [lia|replace (3 + (3 + k)) with (6 + k) by lia; apply M3..|].
destruct (fopen_more (set_io i4 s1) _ 1 k (mo_ok _ _ _ _ _ _ M4)) as (a5 & b5 & i5 & E5 & _ & M5 & F5);
  [lia|apply M4..|].
pose proof (more_trans _ _ _ _ _ _ _ _ _ _ M4 M5) as N4. pose proof (more_trans _ _ _ _ _ _ _ _ _ _ M3 N4) as N3.
pose proof (more_trans _ _ _ _ _ _ _ _ _ _ M2 N3) as N2. pose proof (more_trans _ _ _ _ _ _ _ _ _ _ M1 N2) as N1.
exists t, a2, a3, a4, a5, (set_io i1 s), (set_io i2 s1), (set_io i3 s1), (set_io i4 s1), (set_io i5 s1).
eexists _, _. split; [exact E1|]. split; [done|]. split; [done|]. split; [exact E2|]. split; [exact E3|].
split; [exact E4|]. split; [exact E5|]. constructor; [exact N1|done..|].
exists b2, b3, b4, b5. split; [done|]. split.
{ intros b Hb. rewrite !elem_of_cons, elem_of_nil in Hb. destruct Hb as [-> | [-> | [-> | [-> | []]]]].
  - apply (tk_sub _ _ _ _ _ _ _ _ (mo_took _ _ _ _ _ _ N3)), lookup_insert_eq.
  - apply (tk_sub _ _ _ _ _ _ _ _ (mo_took _ _ _ _ _ _ N4)), lookup_insert_eq.
  - apply (tk_sub _ _ _ _ _ _ _ _ (mo_took _ _ _ _ _ _ M5)), lookup_insert_eq.
  - apply lookup_insert_eq. }
change (io (set_io i5 s1)) with i5. rewrite F5.
change (io (set_io i4 s1)) with i4. rewrite F4. change (io (set_io i3 s1)) with i3. rewrite F3.
change (io (set_io i2 s1)) with i2. rewrite F2. change (io s1) with i1. by rewrite F1.
Qed.

Lemma stream_list_at (f : gmap Z FILE) a flag b :
f !! page_addr a = Some (stream_file flag b) -> stream_list f (page_addr a) = [page_addr b; page_addr a].
Proof. unfold stream_list. by intros ->. Qed.

Lemma clear_pool_io v s : bytes_of (io (clear_pool v s)) = memset (bytes_of (io s)) v 0 0x2000 /\
files (io (clear_pool v s)) = files (io s).
Proof. split; reflexivity. Qed.

(** The order of the list does not matter. *)
Lemma list_same (l1 l2 : list Z) : NoDup l1 -> (length l2 <= length l1)%nat -> (forall x, x ∈ l1 -> x ∈ l2) -> l1 ≡ₚ l2.
Proof. intros H1 H2 H3. apply submseteq_length_Permutation; [by apply NoDup_submseteq|done]. Qed.

Lemma begun_streams s s' B B' own t k fa fb fc fd :
begun s s' B B' own t k fa fb fc fd ->
NoDup own /\ exists ba bb bc bd, own = [t; fa; ba; fb; bb; fc; bc; fd; bd] /\
  (forall b, b ∈ [ba; bb; bc; bd] -> B' !! b = Some 2) /\
  files (io s') !! page_addr fa = Some (stream_file 2 ba) /\
  files (io s') !! page_addr fb = Some (stream_file 3 bb) /\
  files (io s') !! page_addr fc = Some (stream_file 4 bc) /\
  files (io s') !! page_addr fd = Some (stream_file 1 bd) /\
  forall fp, fp ∉ [page_addr fa; page_addr fb; page_addr fc; page_addr fd] ->
    files (io s') !! fp = files (io s) !! fp.
Proof.
intros [M _ _ _ (ba & bb & bc & bd & Eo & HB2 & Ef)]. pose proof (tk_nodup _ _ _ _ _ _ (mo_took _ _ _ _ _ _ M)) as Hnd.
split; [done|]. exists ba, bb, bc, bd. split; [done|]. split; [done|]. rewrite Ef.
assert (fa <> fb /\ fa <> fc /\ fa <> fd /\ fb <> fc /\ fb <> fd /\ fc <> fd) as (? & ? & ? & ? & ? & ?).
{ rewrite Eo in Hnd. rewrite !NoDup_cons, !elem_of_cons in Hnd. intuition congruence. }
assert (forall x y, x <> y -> page_addr x <> page_addr y) as Hne by (intros x y Hxy E; by apply (inj page_addr) in E).
split_and!.
- by rewrite !lookup_insert_ne, lookup_insert_eq by auto.
- by rewrite !lookup_insert_ne, lookup_insert_eq by auto.
- by rewrite !lookup_insert_ne, lookup_insert_eq by auto.
- by rewrite lookup_insert_eq.
- intros fp Hfp. rewrite !elem_of_cons in Hfp. by rewrite !lookup_insert_ne by (intros <-; tauto).
Qed.

(** The pages a thread with a window takes: itself, four streams, the pointer, the window, its pool. *)
Definition THREAD_PAGES : Z := 1553.

Lemma create_thread_starts sse hr vr bpp pps fuel main rsp_ cr3_ rbx_ argc argv pwd s l B k :
queue_ok s l (heap_blocks B) -> mm_ok (heap (io s)) B -> l <> [] -> (length l <= fuel)%nat ->
0 <= next_pid s < 2 ^ 64 - 1 -> 0 <= k ->
pages_room B (THREAD_PAGES + k) -> frames_room (heap (io s)) (THREAD_PAGES + k) ->
exists t s' B' th,
  create_thread sse hr vr bpp pps fuel main rsp_ cr3_ rbx_ 0x11 argc argv pwd s = Ret (t, s') /\
  created s s' B B' l k t th /\ rip (ctx th) = main /\ rsp (ctx th) = rsp_ /\ cr3 (ctx th) = cr3_ /\
  r11 (ctx th) = argc /\ r12 (ctx th) = argv /\ r13 (ctx th) = pwd /\ cs (ctx th) = 0x1B /\
  skipped th = false.
Proof.
intros Hq Hs Hne Hf Hpid Hk Hroom Hfr. unfold THREAD_PAGES in *.
pose proof Hq as [Hl Hnd Hpids Hdist _ Hblocks]. unfold create_thread.
destruct (begin_thread s B (1539 + k) Hs) as
  (t & fa & fb & fc & fd & s1 & s2 & s3 & s4 & s5 & B5 & own & E1 & Ep1 & Ht & E2 & E3 & E4 & E5 & G);
  [lia|by replace (14 + (1539 + k)) with (1553 + k) by lia..|].
rewrite E1. cbn [mbind outcome_bind]. rewrite Ep1, E2. cbn [mbind outcome_bind]. rewrite E3. cbn [mbind outcome_bind].
rewrite E4. cbn [mbind outcome_bind]. rewrite E5. cbn [mbind outcome_bind]. clear E1 E2 E3 E4 E5.
destruct (begun_streams _ _ _ _ _ _ _ _ _ _ _ G) as (_ & ba & bb & bc & bd & Eo & HB2 & Fa & Fb & Fc & Fd & Fother).
pose proof (bg_more _ _ _ _ _ _ _ _ _ _ _ G) as M5.
destruct (malloc_t_more s5 B5 sizeof_mouse 1 (1538 + k) (mo_ok _ _ _ _ _ _ M5)) as (pm & i6 & E6 & M6 & F6);
  [unfold sizeof_mouse; lia|reflexivity|lia|replace (1 + (1538 + k)) with (1539 + k) by lia; apply M5..|].
rewrite E6. cbn [mbind outcome_bind]. clear E6. set (s6 := set_io i6 s5).
change (Z.land 0x11 0x10 =? 0) with false. cbv iota.
destruct (alloc_more s6 _ 1 (512 * 3) (2 + k) (mo_ok _ _ _ _ _ _ M6)) as (pw & i7 & E7 & _ & M7 & F7);
  [lia|lia|replace (512 * 3 + (2 + k)) with (1538 + k) by lia; apply M6..|].
rewrite E7. cbn [mbind outcome_bind]. clear E7.
match goal with |- context [poke_bytes ?f (set_io i7 s6)] => set (g := f); set (s7 := poke_bytes g (set_io i7 s6)) end.
assert (heap (io s7) = heap i7 /\ files (io s7) = files i7 /\ threads s7 = threads s5 /\
  thread_ready_queue s7 = thread_ready_queue s5 /\ next_pid s7 = next_pid s5) as (Eh7 & Ef7 & Et7 & Eq7 & En7)
  by (clearbody g; done).
clearbody s7. cbv beta zeta.
match type of M7 with more _ _ _ _ ?b _ =>
  destruct (alloc_more s7 b 0 2 k) as (pp & i8 & E8 & _ & M8 & F8);
  [rewrite Eh7; apply (mo_ok _ _ _ _ _ _ M7)|lia|lia|apply M7|rewrite Eh7; apply M7|] end.
rewrite E8. cbn [mbind outcome_bind]. clear E8. rewrite Eh7 in M8.
match goal with |- context [put_t (page_addr t) ?x _] => set (th := x) end.
set (s8 := clear_pool (page_addr pp) (set_io i8 s7)).
destruct (clear_pool_keeps (page_addr pp) (set_io i8 s7)) as (Et8 & Eq8 & En8 & _ & _ & Eh8). fold s8 in Et8, Eq8, En8, Eh8.
destruct (clear_pool_io (page_addr pp) (set_io i8 s7)) as [Eb8 Ef8]. fold s8 in Eb8, Ef8.
rewrite set_io_io in Eb8, Ef8.
clearbody s8. cbn [threads thread_ready_queue next_pid set_io heap io] in Et8, Eq8, En8, Eh8.
pose proof (more_trans _ _ _ _ _ _ _ _ _ _ M7 M8) as N7. pose proof (more_trans _ _ _ _ _ _ _ _ _ _ M6 N7) as N6.
pose proof (more_trans _ _ _ _ _ _ _ _ _ _ M5 N6) as M. clear N7.
match type of M with more ?o _ _ _ ?b _ => set (own' := o) in M; set (B8 := b) in M end.
pose proof (mo_took _ _ _ _ _ _ M) as T. pose proof (tk_nodup _ _ _ _ _ _ T) as Hown.
assert (own' = [t; fa; ba; fb; bb; fc; bc; fd; bd; pm; pw; pp]) as Eown by (unfold own'; by rewrite Eo).
assert (page_addr t ∉ l) as Htl.
{ intros Hin. apply Hblocks, (proj1 (heap_blocks_at B t)) in Hin as [j Hj].
  destruct (tk_new _ _ _ _ _ _ T t) as [HN _]; [rewrite Eown; left|]. congruence. }
set (s9 := put_t (page_addr t) th s8).
assert (threads s9 = <[page_addr t := th]> (threads s)) as Eth
  by (cbn [s9 put_t set_threads threads]; by rewrite Et8, Et7, (bg_threads _ _ _ _ _ _ _ _ _ _ _ G)).
assert (next th = 0) as Enx by reflexivity. assert (pid th = next_pid s) as Epid by reflexivity.
assert (prv th = 0x31 /\ head th = page_addr t /\ tail th = 0) as Ealone by (split_and!; reflexivity).
assert (rip (ctx th) = main /\ rsp (ctx th) = rsp_ /\ cr3 (ctx th) = cr3_ /\ r11 (ctx th) = argc /\
  r12 (ctx th) = argv /\ r13 (ctx th) = pwd /\ cs (ctx th) = 0x1B /\ skipped th = false) as Eregs
  by (split_and!; reflexivity).
assert (stdin th = page_addr fa /\ stdout th = page_addr fb /\ stderr th = page_addr fc /\
  pipe th = page_addr fd /\ mouse th = page_addr pm /\ window th = page_addr pw /\ pool th = page_addr pp)
  as (Ein & Eout & Eerr & Epipe & Emouse & Ewin & Epool) by (split_and!; reflexivity).
clearbody th.
assert (linked (threads s9) (thread_ready_queue s9) l) as Hl9.
{ change (thread_ready_queue s9) with (thread_ready_queue s8). rewrite Eq8, Eq7, (bg_queue _ _ _ _ _ _ _ _ _ _ _ G), Eth.
  by apply links_insert. }
destruct (append_thread_spec fuel s9 l (page_addr t) th Hl9 Hnd Hne Hf Htl ltac:(lia)) as (q & rq & Hqin & Hrq & Ea & Hla);
  [by rewrite Eth, lookup_insert_eq|done|].
fold s9. rewrite Ea. cbn [mbind outcome_bind].
assert (q <> page_addr t) as Hqt by (intros E; apply Htl; rewrite <- E; exact Hqin).
set (s' := put_t q (set_next (page_addr t) rq) s9).
assert (threads s' = <[q := set_next (page_addr t) rq]> (threads s9)) as Eth' by done.
assert (threads s !! q = Some rq) as Hrq0 by (rewrite Eth, lookup_insert_ne in Hrq by done; done).
assert (threads s' !! page_addr t = Some th) as Htt by (rewrite Eth', lookup_insert_ne, Eth, lookup_insert_eq by done; done).
assert (next_pid s' = next_pid s + 1) as Enp.
{ change (next_pid s') with (next_pid s8). rewrite En8, En7, (bg_pid _ _ _ _ _ _ _ _ _ _ _ G). apply u64_small. lia. }
assert (files (io s') = files (io s5)) as Ef'.
{ change (files (io s')) with (files (io s8)). rewrite Ef8, F8, Ef7, F7. exact F6. }
exists (page_addr t), s', B8, th. split; [reflexivity|]. split; [|exact Eregs]. constructor.
- exact Htl.
- exact Htt.
- refine (queue_ok_grow s s' l (heap_blocks B) _ (page_addr t) th Hq _ Htl Htt _ _ _ _ _ _ _).
  + rewrite Eth'. exact Hla.
  + rewrite Epid, Enp. lia.
  + lia.
  + intros u r Hu Hr. destruct (Hpids u Hu) as (r' & Hr' & Hb). assert (r = r') as -> by congruence. lia.
  + intros u r Hu Hr. assert (u <> page_addr t) by (intros E; apply Htl; rewrite <- E; exact Hu).
    rewrite Eth' in Hr.
    destruct (decide (u = q)) as [->|Huq].
    * rewrite lookup_insert_eq in Hr. injection Hr as <-. exists rq. split; [exact Hrq0|reflexivity].
    * rewrite lookup_insert_ne in Hr by congruence. rewrite Eth, lookup_insert_ne in Hr by congruence.
      exists r. split; [exact Hr|reflexivity].
  + exists B8. change (heap (io s')) with (heap (io s8)). rewrite Eh8. split; [exact (mo_ok _ _ _ _ _ _ M)|reflexivity].
  + intros u _. apply heap_blocks_sub. intros a n. exact (tk_sub _ _ _ _ _ _ a n T).
  + apply heap_blocks_at. apply (tk_new _ _ _ _ _ _ T). rewrite Eown. left.
- exists own'. split; [change (heap (io s')) with (heap (io s8)); by rewrite Eh8|].
  assert (thread_list (io s') (page_addr t) th =
    page_addr <$> [pw; ba; fa; bb; fb; bc; fc; bd; fd; pm; pp; t]) as ->.
  { unfold thread_list. rewrite Ef', Ein, Eout, Eerr, Epipe, Emouse, Ewin, Epool.
    rewrite (stream_list_at _ _ _ _ Fa), (stream_list_at _ _ _ _ Fb), (stream_list_at _ _ _ _ Fc),
      (stream_list_at _ _ _ _ Fd).
    change (bytes_of (io s')) with (bytes_of (io s8)). rewrite Eb8. by rewrite pool_list_clear. }
  apply fmap_Permutation, list_same; [exact Hown|rewrite Eown; reflexivity|]. rewrite Eown. intros x. clear.
  rewrite !elem_of_cons. tauto.
- exact Ealone.
- intros fp Hfp. unfold streams_of in Hfp. rewrite Ein, Eout, Eerr, Epipe in Hfp. rewrite Ef'.
  rewrite !elem_of_cons, elem_of_nil in Hfp.
  assert (forall b, b ∈ [ba; bb; bc; bd] -> B8 !! b = Some 2) as HB8.
  { intros b Hb. apply (tk_sub _ _ _ _ _ _ _ _ (mo_took _ _ _ _ _ _ N6)). by apply HB2. }
  destruct Hfp as [-> | [-> | [-> | [-> | []]]]].
  + exists 2, ba. split; [exact Fa|]. split; [lia|]. apply HB8. left.
  + exists 3, bb. split; [exact Fb|]. split; [lia|]. apply HB8. right. left.
  + exists 4, bc. split; [exact Fc|]. split; [lia|]. apply HB8. do 2 right. left.
  + exists 1, bd. split; [exact Fd|]. split; [lia|]. apply HB8. do 3 right. left.
- exists pp, pw. split; [exact Epool|]. split; [apply lookup_insert_eq|]. split; [exact Ewin|].
  apply (tk_sub _ _ _ _ _ _ _ _ (mo_took _ _ _ _ _ _ M8)), lookup_insert_eq.
- intros fp Hfp. unfold streams_of in Hfp. rewrite Ein, Eout, Eerr, Epipe in Hfp. rewrite Ef'. by apply Fother.
- exact (conj Epid Enp).
Qed.

(** The queue does not depend on what else the heap holds. *)
Lemma queue_ok_io s l B i B' :
queue_ok s l (heap_blocks B) -> mm_ok (heap i) B' ->
(forall u, u ∈ l -> is_Some (heap_blocks B !! u) -> is_Some (heap_blocks B' !! u)) ->
queue_ok (set_io i s) l (heap_blocks B').
Proof.
intros [Hl Hnd Hpids Hdist Hh Hb] Hs' Hsub. constructor; try done.
- by exists B'.
- intros t Ht. auto.
Qed.

Lemma queue_ok_heap s l B i B' :
queue_ok s l (heap_blocks B) -> mm_ok (heap i) B' -> (forall a n, B !! a = Some n -> B' !! a = Some n) ->
queue_ok (set_io i s) l (heap_blocks B').
Proof. intros Hq Hs' Hsub. apply (queue_ok_io s l B); [done|done|]. intros u _. by apply heap_blocks_sub. Qed.
End creating.

(** What the scheduler finds of the process: its thread [t] with the record [th]. *)
Record process_of (argc : Z) (im : loaded_image) (p : proc) (t : Z) (th : THREAD) : Prop := {
  pr_thread : threads (sc p) !! t = Some th;
  pr_space : spaces p !! t = Some (Pspace (im_tables im) (im_pages im));
  pr_rip : rip (ctx th) = im_entry im;
  pr_rsp : rsp (ctx th) = im_stack im;
  pr_cr3 : cr3 (ctx th) = im_cr3 im;
  pr_argc : r11 (ctx th) = argc;
  pr_argv : r12 (ctx th) = im_arg im;
  pr_pwd : r13 (ctx th) = im_pwd im;
  pr_user : cs (ctx th) = 0x1B;
  pr_runs : skipped th = false
}.

(** What [exectve] leaves behind, for the theorem on it and that on its undoing. *)
Lemma exectve_spec sse hr vr bpp pps user fuel argc argv pwd bf phdr h p l B lp args k :
  queue_ok (sc p) l (heap_blocks B) -> mm_ok (heap (io (sc p))) B -> tables_low (heap (io (sc p))) ->
  l <> [] -> (length l <= fuel)%nat -> 0 <= next_pid (sc p) < 2 ^ 64 - 1 -> 0 <= k ->
  exec_request (mach_of p) fuel argc argv pwd bf phdr h lp args ->
  pages_room B (request_tables h + (THREAD_PAGES + k)) ->
  frames_room (heap (io (sc p))) (request_tables h + request_pages h + (THREAD_PAGES + k)) ->
  exists t p' B' th im μ p1 B1 lt fs,
    exectve sse hr vr bpp pps user fuel argc argv pwd bf phdr p = Ret (next_pid (sc p), p') /\
    created (sc p1) (sc p') B1 B' l k t th /\ process_of argc im p' t th /\
    image_in (bytes_of (io (sc p))) bf argv pwd h lp args im μ /\
    (forall v, IMAGE_START <= v < IMAGE_START + im_pages im * 0x1000 ->
      get8 (cr3 (ctx th)) v (mach_of p') = Ret (μ v)) /\
    took lt fs (heap (io (sc p))) B (heap (io (sc p1))) B1 /\
    space_at (heap (io (sc p1))) B1 (im_tables im) lt fs /\ im_pages im = zlen fs /\
    files (io (sc p1)) = files (io (sc p)) /\ next_pid (sc p1) = next_pid (sc p) /\
    threads (sc p1) = threads (sc p) /\ thread_ready_queue (sc p1) = thread_ready_queue (sc p).
Proof.
  intros Hq Hs Hlow Hne Hf Hpid Hk Hrq Hroom Hfr.
  destruct (exec_image_spec false fuel argc argv pwd bf phdr h (mach_of p) B lp args (THREAD_PAGES + k)
    (THREAD_PAGES + k) Hs Hlow Hrq) as
    (im & x & B1 & μ & E & Hk1 & Hs1 & (Hr1 & Hf1 & lt & fs & T & Hsp & Hpg) & Hin & Hrd);
    [unfold THREAD_PAGES; lia..|done|done|].
  unfold exectve. rewrite E. cbn [mbind outcome_bind]. cbv zeta.
  set (p1 := with_mach x p).
  destruct (create_thread_starts sse hr vr bpp pps fuel (im_entry im) (im_stack im) (im_cr3 im) user argc
    (im_arg im) (im_pwd im) (sc p1) l B1 k) as
    (t & s' & B' & th & E2 & C & Hrip & Hrsp & Hcr3 & H11 & H12 & H13 & Hcs & Hsk).
  - exact (queue_ok_heap (sc p) l B (set_heap (mmu x) (set_bytes (kbytes x) (io (sc p)))) B1 Hq Hs1
      (fun a n => tk_sub _ _ _ _ _ _ a n T)).
  - exact Hs1.
  - done.
  - done.
  - exact Hpid.
  - done.
  - done.
  - done.
  - destruct (cr_more _ _ _ _ _ _ _ _ C) as (own & M & _). destruct (cr_pid _ _ _ _ _ _ _ _ C) as [Hp _].
    pose proof (cr_thread _ _ _ _ _ _ _ _ C) as Hth.
    rewrite E2. cbn [mbind outcome_bind]. unfold get_t. rewrite Hth. cbn [mbind outcome_bind]. rewrite Hp.
    eexists t, _, B', th, im, μ, p1, B1, lt, fs. split; [reflexivity|]. split; [exact C|]. split.
    { constructor; try done. cbn [spaces]. by rewrite lookup_insert_eq. }
    split; [exact Hin|]. split; [|by split_and!]. rewrite Hcr3. apply Hrd; [|done].
    intros b Hb. cbn [mach_of mmu sc]. exact (mo_tab _ _ _ _ _ _ M b Hb).
Qed.

(** C2: with room for it, [exectve] of an image its header check accepts makes a process: a new
    thread at the end of the ready queue, which keeps its invariant, with the next pid, that will run in user
    mode from the entry point of the image, on the stack and in the address space that was built
    for it, with the arguments in its registers; and in that address space, after the
    thread was made, stand the sections of the image, the working directory and the arguments. *)
Theorem exectve_starts sse hr vr bpp pps user fuel argc argv pwd bf phdr (h : program_header_t)
    (p : proc) (l : list Z) (B : blocks) (lp : list Z) (args : list (list Z)) :
  queue_ok (sc p) l (heap_blocks B) -> mm_ok (heap (io (sc p))) B -> tables_low (heap (io (sc p))) ->
  l <> [] -> (length l <= fuel)%nat -> 0 <= next_pid (sc p) < 2 ^ 64 - 1 ->
  exec_request (mach_of p) fuel argc argv pwd bf phdr h lp args ->
  pages_room B (request_tables h + THREAD_PAGES) ->
  frames_room (heap (io (sc p))) (request_tables h + request_pages h + THREAD_PAGES) ->
  exists t p' B' th im μ,
    exectve sse hr vr bpp pps user fuel argc argv pwd bf phdr p = Ret (next_pid (sc p), p') /\
    (t ∉ l) /\ queue_ok (sc p') (l ++ [t]) (heap_blocks B') /\ mm_ok (heap (io (sc p'))) B' /\
    process_of argc im p' t th /\ pid th = next_pid (sc p) /\
    image_in (bytes_of (io (sc p))) bf argv pwd h lp args im μ /\
    forall v, IMAGE_START <= v < IMAGE_START + im_pages im * 0x1000 ->
      get8 (cr3 (ctx th)) v (mach_of p') = Ret (μ v).
Proof.
  intros Hq Hs Hlow Hne Hf Hpid Hrq Hroom Hfr.
  destruct (exectve_spec sse hr vr bpp pps user fuel argc argv pwd bf phdr h p l B lp args 0) as
    (t & p' & B' & th & im & μ & p1 & B1 & lt & fs & E & C & P & Hin & Hget & _ & _ & _ & _ & Ep & _); try done;
    [by rewrite Z.add_0_r..|].
  destruct (cr_more _ _ _ _ _ _ _ _ C) as (own & M & _). destruct (cr_pid _ _ _ _ _ _ _ _ C) as [Hp _].
  exists t, p', B', th, im, μ. split; [done|]. split; [exact (cr_fresh _ _ _ _ _ _ _ _ C)|].
  split; [exact (cr_queue _ _ _ _ _ _ _ _ C)|]. split; [exact (mo_ok _ _ _ _ _ _ M)|].
  split; [done|]. split; [congruence|]. by split.
Qed.

(** ** The first program, started by a kernel thread *)

(** The scheduler of a kernel whose thread stands at [t], on the heap [h]. *)
Definition first_sched (h : mm) (t : Z) : sched mm :=
  Sched {[t := (zero : THREAD)]} t t t (Cpu zero ∅ 0) (Cpu zero ∅ 0) 1 0 0 0 (Sys h ex_image ∅ 0).

Lemma first_queue_ok h t B : 0 < t -> mm_ok h B -> is_Some (heap_blocks B !! t) ->
  queue_ok (first_sched h t) [t] (heap_blocks B).
Proof.
  intros Ht Hh HB. constructor.
  - cbn [first_sched threads thread_ready_queue linked]. split; [done|]. split; [lia|].
    exists zero. rewrite lookup_singleton_eq. done.
  - apply NoDup_singleton.
  - intros u ->%list_elem_of_singleton. exists zero. cbn [first_sched threads next_pid].
    rewrite lookup_singleton_eq. split; [done|]. change (pid zero) with 0. lia.
  - by intros u v r q ->%list_elem_of_singleton ->%list_elem_of_singleton.
  - by exists B.
  - by intros u ->%list_elem_of_singleton.
Qed.

Lemma boot_frames_left : frames_room boot_mm 1620.
Proof.
  assert (match alloc_frames (Z.to_nat 1620) ∅ with Some _ => true | None => false end = true) as H
    by (vm_compute; reflexivity).
  destruct (alloc_frames (Z.to_nat 1620) ∅) as [[fs r]|] eqn:E; [|discriminate].
  exact (boot_frames_room 1620 fs r E).
Qed.

(** The kernel's thread takes its two pages. *)
Lemma first_boot : exists t h B l, 0 < t /\ is_Some (heap_blocks B !! t) /\ more l boot_mm ∅ h B 1618.
Proof.
  destruct (alloc_pages_more boot_mm ∅ 0 2 1618 boot_mm_ok) as (a & h & E & Ht & M);
    [lia|lia|apply boot_room; unfold ALLOC_PAGES; lia|exact boot_frames_left|].
  assert (is_Some (heap_blocks (<[a := 2]> (∅ : blocks)) !! page_addr a)) as HB
    by (apply heap_blocks_at; rewrite lookup_insert_eq; exact (ex_intro _ 2 eq_refl)).
  exact (ex_intro _ (page_addr a) (ex_intro _ h (ex_intro _ _ (ex_intro _ _ (conj Ht (conj HB M)))))).
Qed.

Definition first_header : program_header_t := Phdr IMAGE_START 0x8000001000 0x8000001002.

Lemma first_request h t :
  exec_request (mach_of (Proc (first_sched h t) ∅ ∅)) 4096 1 0x300 0x200 ex_bf (Phdr 0 0 0) first_header
    [47] [[97]].
Proof. destruct ex_request as [R1 R2 R3 R4 R5 R6 R7]. constructor; assumption. Qed.

Lemma first_pages : request_tables first_header = 4 /\ request_pages first_header = 50.
Proof. split; reflexivity. Qed.

Example exectve_starts_witness :
  exists t0 h t p' th, exectve ∅ 1024 768 32 1024 0x1000000 4096 1 0x300 0x200 ex_bf (Phdr 0 0 0)
      (Proc (first_sched h t0) ∅ ∅) = Ret (1, p') /\
    threads (sc p') !! t = Some th /\ rip (ctx th) = 0x8000001000 /\ pid th = 1 /\
    get8 (cr3 (ctx th)) 0x8000001001 (mach_of p') = Ret 0xC3.
Proof.
  destruct first_boot as (t0 & h & B & l0 & Ht & HB & M). destruct first_pages as [F1 F2].
  destruct (exectve_starts ∅ 1024 768 32 1024 0x1000000 4096 1 0x300 0x200 ex_bf (Phdr 0 0 0) first_header
    (Proc (first_sched h t0) ∅ ∅) [t0] B [47] [[97]] (first_queue_ok h t0 B Ht (mo_ok _ _ _ _ _ _ M) HB)
    (mo_ok _ _ _ _ _ _ M) (mo_low _ _ _ _ _ _ M boot_tables_low))
    as (t & p' & B' & th & im & μ & E & _ & _ & _ & [P1 _ P3 _ _ _ _ _ _ _] & Hpid & [I1 _ _ _ I5 I6 _ _] & Hget).
  - discriminate.
  - cbn [length]. lia.
  - cbn [sc first_sched next_pid]. lia.
  - exact (first_request h t0).
  - rewrite F1. apply (pages_room_less B 1618); [unfold THREAD_PAGES; lia|exact (mo_pages _ _ _ _ _ _ M)].
  - rewrite F1, F2. refine (frames_room_less h 1618 _ _ (mo_frames _ _ _ _ _ _ M)). unfold THREAD_PAGES. lia.
  - exists t0, h, t, p', th. split; [exact E|]. split; [exact P1|]. split.
    { rewrite P3, I1. cbn [sc first_sched io bytes_of]. vm_compute. reflexivity. }
    split; [exact Hpid|]. rewrite Hget by (rewrite I5, F2; unfold IMAGE_START; lia).
    destruct ex_section as (S1 & S2 & S3). cbn [sc first_sched io bytes_of] in I6.
    rewrite (I6 0 _ S1 S2). by rewrite S3.
Defined.
