(* ===== verification/Window.v ===== *)
(** * Window: the list of windows (kernel/gui/compositor.c)

    The compositor paints the windows in the order of a list of [PAINT] records; the last one is on top and has
    the focus.  The first record of the list is the compositor's own and has no window.  A
    record is in [paints] by its address, the blocks they stand in belong to the heap of [sys]; a
    spin lock that is taken is a [Hang], since nothing in the call itself releases it. *)
From S2P Require Import Prelude Links KString Bytes Files.

Record PAINT := Paint { w : Z; spinlock : Z; p_next : Z }.
Definition set_w (v : Z) (s : PAINT) : PAINT := Paint v (spinlock s) (p_next s).
Definition set_spinlock (v : Z) (s : PAINT) : PAINT := Paint (w s) v (p_next s).
Definition set_p_next (v : Z) (s : PAINT) : PAINT := Paint (w s) (spinlock s) v.
Definition sizeof_PAINT : Z := 24.

Record desk := Desk {
  paints : gmap Z PAINT;
  paint_ready_queue : Z;
  paint_foco : Z;
  gid : Z;
  window_count : Z;
  w_remove_spinlock : Z
}.
Definition set_paints (v : gmap Z PAINT) (d : desk) : desk := Desk v (paint_ready_queue d)
  (paint_foco d) (gid d) (window_count d) (w_remove_spinlock d).
Definition set_paint_foco (v : Z) (d : desk) : desk := Desk (paints d) (paint_ready_queue d) v
  (gid d) (window_count d) (w_remove_spinlock d).
Definition set_gid (v : Z) (d : desk) : desk := Desk (paints d) (paint_ready_queue d)
  (paint_foco d) v (window_count d) (w_remove_spinlock d).
Definition set_window_count (v : Z) (d : desk) : desk := Desk (paints d) (paint_ready_queue d)
  (paint_foco d) (gid d) v (w_remove_spinlock d).
Definition set_w_remove_spinlock (v : Z) (d : desk) : desk := Desk (paints d) (paint_ready_queue d)
  (paint_foco d) (gid d) (window_count d) v.

Definition get_p (p : Z) (d : desk) : outcome PAINT :=
  match paints d !! p with
  | Some r => Ret r
  | None => Undef
  end.

Definition put_p (p : Z) (r : PAINT) (d : desk) : desk := set_paints (<[p := r]> (paints d)) d.

(** [while (paint_ready_queue->spinlock); paint_ready_queue->spinlock++;] and the release. *)
Definition paint_lock (d : desk) : outcome desk :=
  r ← get_p (paint_ready_queue d) d;
  if spinlock r =? 0 then Ret (put_p (paint_ready_queue d) (set_spinlock (u64 (spinlock r + 1)) r) d)
  else Hang.

Definition paint_unlock (d : desk) : outcome desk :=
  r ← get_p (paint_ready_queue d) d;
  Ret (put_p (paint_ready_queue d) (set_spinlock 0 r) d).

(** The first record with the window [addr]; 0 at the end of the list. *)
Fixpoint find_paint (fuel : nat) (addr tmp : Z) (d : desk) : outcome Z :=
  match fuel with
  | O => NoFuel
  | S fuel =>
      if tmp =? 0 then Ret 0
      else
        r ← get_p tmp d;
        if w r =? addr then Ret tmp else find_paint fuel addr (p_next r) d
  end.

(** [while (tmp->next) tmp = tmp->next;] *)
Fixpoint last_paint (fuel : nat) (tmp : Z) (d : desk) : outcome Z :=
  match fuel with
  | O => NoFuel
  | S fuel =>
      r ← get_p tmp d;
      if p_next r =? 0 then Ret tmp else last_paint fuel (p_next r) d
  end.

(** Where [WINDOW] has its number. *)
Definition window_gid : Z := 168.

Section windows.
Context {H : Type} `{Allocator H}.
Implicit Types (s : sys H) (d : desk) (addr : Z).

(** The record is taken from the heap before it is known whether it is needed.  [memset] clears 32 bytes of it, 8
    more than it has. *)
Definition window_add (fuel : nat) addr d s : outcome (desk * sys H) :=
  '(new, s) ← malloc_ sizeof_PAINT s;
  d ← paint_lock d;
  tmp ← find_paint fuel addr (paint_ready_queue d) d;
  if negb (tmp =? 0) then d ← paint_unlock d; Ret (d, s)
  else
    let d := put_p new (Paint addr 0 0) d in
    let s := set_bytes (st64 (bytes_of s) (new + sizeof_PAINT) 0) s in
    let s := set_bytes (st32 (bytes_of s) (addr + window_gid) (gid d)) s in
    let d := set_gid (u64 (gid d + 1)) d in
    tmp ← last_paint fuel (paint_ready_queue d) d;
    r ← get_p tmp d;
    let d := put_p tmp (set_p_next new r) d in
    let d := set_paint_foco new d in
    let d := set_window_count (u64 (window_count d + 1)) d in
    d ← paint_unlock d;
    Ret (d, s).

(** The loop looks at [tmp->next->w] without asking whether there is a next record. *)
Fixpoint remove_loop (fuel : nat) (addr tmp : Z) (d : desk) (s : sys H) : outcome (desk * sys H) :=
  match fuel with
  | O => NoFuel
  | S fuel =>
      if tmp =? 0 then Ret (d, s)
      else
        r ← get_p tmp d;
        let save := p_next r in
        n ← get_p save d;
        if w n =? addr then
          let d := set_window_count (u64 (window_count d - 1)) d in
          let d := put_p tmp (set_p_next (p_next n) r) d in
          let d := if paint_foco d =? save then set_paint_foco 0 d else d in
          s ← free_ save s;
          Ret (set_paints (delete save (paints d)) d, s)
        else remove_loop fuel addr save d s
  end.

Definition window_remove (fuel : nat) addr d s : outcome (desk * sys H) :=
  if window_count d <? 1 then Ret (d, s)
  else
    d ← paint_lock d;
    if negb (w_remove_spinlock d =? 0) then Hang
    else
      let d := set_w_remove_spinlock (w_remove_spinlock d + 1) d in
      '(d, s) ← remove_loop fuel addr (paint_ready_queue d) d s;
      let d := set_w_remove_spinlock 0 d in
      d ← paint_unlock d;
      Ret (d, s).
End windows.

Fixpoint foco_loop (fuel : nat) (addr tmp pre : Z) (d : desk) : outcome desk :=
  match fuel with
  | O => NoFuel
  | S fuel =>
      if tmp =? 0 then Ret d
      else
        r ← get_p tmp d;
        if w r =? addr then
          let d := set_paint_foco tmp d in
          if p_next r =? 0 then Ret d
          else
            rp ← get_p pre d;
            let d := put_p pre (set_p_next (p_next r) rp) d in
            r ← get_p tmp d;
            let d := put_p tmp (set_p_next 0 r) d in
            pre ← last_paint fuel (paint_ready_queue d) d;
            rp ← get_p pre d;
            Ret (put_p pre (set_p_next tmp rp) d)
        else foco_loop fuel addr (p_next r) tmp d
  end.

Definition window_foco (fuel : nat) (addr : Z) (d : desk) : outcome desk :=
  d ← paint_lock d;
  d ← foco_loop fuel addr (paint_ready_queue d) (paint_ready_queue d) d;
  paint_unlock d.

(** ** The list of windows *)

(** The records [ps] behind the first one, [h], show the windows [ws]. *)
Record listed (m : gmap Z PAINT) (h : Z) (ps ws : list Z) : Prop := {
  li_links : links p_next m h (h :: ps);
  li_nodup : NoDup (h :: ps);
  li_windows : Forall2 (fun p a => exists r, m !! p = Some r /\ w r = a) ps ws;
  li_first : exists r, m !! h = Some r /\ w r = 0
}.

(** The record [p] shows the window [a]. *)
Definition shows (d : desk) (p a : Z) : Prop := exists r, paints d !! p = Some r /\ w r = a.

(** [d] is a list of the windows [ws]; its locks are free. *)
Record desk_rep (d : desk) (ps ws : list Z) : Prop := {
  dr_list : listed (paints d) (paint_ready_queue d) ps ws;
  dr_free : exists r, paints d !! paint_ready_queue d = Some r /\ spinlock r = 0;
  dr_distinct : NoDup ws;
  dr_nonzero : 0 ∉ ws;
  dr_count : window_count d = zlen ws;
  dr_small : zlen ws < 2 ^ 63;
  dr_lock : w_remove_spinlock d = 0
}.

Section lists.
Implicit Types (m : gmap Z PAINT) (h p q t a : Z) (ps ws l : list Z) (r : PAINT) (d : desk).

(** Spin locks do not matter to the list. *)
Lemma listed_put m h ps ws q r r' :
listed m h ps ws -> m !! q = Some r -> w r' = w r -> p_next r' = p_next r -> listed (<[q := r']> m) h ps ws.
Proof.
intros [L N W (rh & Hrh & Hw)] Hq Ew En.
assert (forall p x, m !! p = Some x -> exists y, <[q := r']> m !! p = Some y /\ w y = w x) as K.
{ intros p x Hx. destruct (decide (p = q)) as [->|Hne].
  - exists r'. rewrite lookup_insert_eq. split; [done|]. congruence.
  - exists x. by rewrite lookup_insert_ne. }
constructor; [by eapply links_put|done| |].
- eapply Forall2_impl; [exact W|]. intros p a (x & Hx & <-). by apply K.
- destruct (K h rh Hrh) as (y & ? & E). exists y. split; [done|]. congruence.
Qed.

Lemma listed_insert m h ps ws q r : q ∉ h :: ps -> listed m h ps ws -> listed (<[q := r]> m) h ps ws.
Proof.
intros Hq [L N W (rh & Hrh & Hw)]. constructor; [by apply links_insert|done| |].
- apply Forall2_same_length_lookup_2; [by eapply Forall2_length|]. intros i p a Hp Ha.
  destruct (Forall2_lookup_lr _ _ _ _ _ _ W Hp Ha) as (x & Hx & E). exists x.
  rewrite lookup_insert_ne; [done|]. intros ->. apply Hq. right. by eapply list_elem_of_lookup_2.
- exists rh. rewrite lookup_insert_ne; [done|]. intros ->. apply Hq. left.
Qed.

Lemma listed_delete m h ps ws q : q ∉ h :: ps -> listed m h ps ws -> listed (delete q m) h ps ws.
Proof.
intros Hq [L N W (rh & Hrh & Hw)]. constructor; [by apply links_delete|done| |].
- apply Forall2_same_length_lookup_2; [by eapply Forall2_length|]. intros i p a Hp Ha.
  destruct (Forall2_lookup_lr _ _ _ _ _ _ W Hp Ha) as (x & Hx & E). exists x.
  rewrite lookup_delete_ne; [done|]. intros ->. apply Hq. right. by eapply list_elem_of_lookup_2.
- exists rh. rewrite lookup_delete_ne; [done|]. intros ->. apply Hq. left.
Qed.

(** A record behind the last one. *)
Lemma listed_snoc m h ps ws l q rq t rt :
listed m h ps ws -> h :: ps = l ++ [q] -> m !! q = Some rq -> m !! t = Some rt -> t ∉ h :: ps -> t <> 0 ->
p_next rt = 0 -> listed (<[q := set_p_next t rq]> m) h (ps ++ [t]) (ws ++ [w rt]).
Proof.
intros [L N W (rh & Hrh & Hw)] El Hq Ht Hnew Ht0 Hn0.
assert (q <> t) as Hqt by (intros ->; apply Hnew; rewrite El; apply elem_of_app; right; left).
assert (forall p x, m !! p = Some x -> exists y, <[q := set_p_next t rq]> m !! p = Some y /\ w y = w x) as K.
{ intros p x Hx. destruct (decide (p = q)) as [->|Hne].
  - exists (set_p_next t rq). rewrite lookup_insert_eq. split; [done|]. cbn. congruence.
  - exists x. by rewrite lookup_insert_ne. }
constructor.
- change (h :: ps ++ [t]) with ((h :: ps) ++ [t]). rewrite El in *.
  by apply (links_snoc _ _ l q t rq (set_p_next t rq) rt).
- change (h :: ps ++ [t]) with ((h :: ps) ++ [t]). apply NoDup_app. split; [done|].
  split; [by intros x Hx ->%list_elem_of_singleton|apply NoDup_singleton].
- apply Forall2_app.
  + eapply Forall2_impl; [exact W|]. intros p a (x & Hx & <-). by apply K.
  + constructor; [|constructor]. by apply K.
- destruct (K h rh Hrh) as (y & ? & E). exists y. split; [done|]. congruence.
Qed.

(** The record [t] behind [q] is taken out of the list. *)
Lemma listed_unlink m h l1 t l2 ws1 a ws2 l q rq rt :
listed m h (l1 ++ t :: l2) (ws1 ++ a :: ws2) -> length l1 = length ws1 -> h :: l1 = l ++ [q] ->
m !! q = Some rq -> m !! t = Some rt ->
listed (<[q := set_p_next (p_next rt) rq]> m) h (l1 ++ l2) (ws1 ++ ws2).
Proof.
intros [L N W (rh & Hrh & Hw)] Hlen El Hq Ht.
assert (forall p x, m !! p = Some x ->
  exists y, <[q := set_p_next (p_next rt) rq]> m !! p = Some y /\ w y = w x) as K.
{ intros p x Hx. destruct (decide (p = q)) as [->|Hne].
  - exists (set_p_next (p_next rt) rq). rewrite lookup_insert_eq. split; [done|]. cbn. congruence.
  - exists x. by rewrite lookup_insert_ne. }
change (h :: l1 ++ t :: l2) with ((h :: l1) ++ t :: l2) in L, N. rewrite El in L, N.
rewrite <- app_assoc in L, N. cbn [app] in L, N.
constructor.
- change (h :: l1 ++ l2) with ((h :: l1) ++ l2). rewrite El, <- app_assoc. cbn [app].
  by apply (links_unlink m h l q t l2 rq _ rt).
- change (h :: l1 ++ l2) with ((h :: l1) ++ l2). rewrite El, <- app_assoc. cbn [app].
  apply NoDup_app in N as (N1 & N2 & (N3 & N4)%NoDup_cons). apply NoDup_cons in N4 as [N4 N5].
  apply NoDup_app. split; [done|]. split.
  + intros x Hx [->|Hx2]%elem_of_cons; [by apply (N2 q Hx); left|]. apply (N2 x Hx). by do 2 right.
  + apply NoDup_cons. split; [|done]. intros Hin. apply N3. by right.
- apply Forall2_app_inv in W as [W1 W2]; [|done]. apply Forall2_cons in W2 as [_ W2].
  apply Forall2_app; (eapply Forall2_impl; [eassumption|]); intros p b (x & Hx & <-); by apply K.
- destruct (K h rh Hrh) as (y & ? & E). exists y. split; [done|]. congruence.
Qed.

(** Where the window [a] is in the list. *)
Lemma listed_at m h ps ws a :
listed m h ps ws -> a ∈ ws -> NoDup ws -> exists l1 t l2 ws1 ws2 rt,
  ps = l1 ++ t :: l2 /\ ws = ws1 ++ a :: ws2 /\ length l1 = length ws1 /\ m !! t = Some rt /\ w rt = a /\
  Forall (fun p => exists r, m !! p = Some r /\ w r <> a) l1.
Proof.
intros HL Ha Hnd. apply list_elem_of_split in Ha as (ws1 & ws2 & ->).
pose proof (li_windows _ _ _ _ HL) as W. apply Forall2_app_inv_r in W as (l1 & l' & W1 & W2 & ->).
inversion W2 as [|t ? l2 ? (rt & Ht & Hwt) W3]; subst. exists l1, t, l2, ws1, ws2, rt.
do 5 (split; [done || by eapply Forall2_length|]).
apply NoDup_app in Hnd as (_ & Hd & _). apply Forall_lookup_2. intros i p Hp.
destruct (Forall2_lookup_l _ _ _ _ _ W1 Hp) as (b & Hb & r & Hr & E). exists r. split; [done|].
rewrite E. intros ->. apply (Hd (w rt)); [by eapply list_elem_of_lookup_2|]. left.
Qed.

Lemma listed_without m h ps ws a : listed m h ps ws -> a ∉ ws ->
Forall (fun p => exists r, m !! p = Some r /\ w r <> a) ps.
Proof.
intros HL Ha. apply Forall_lookup_2. intros i p Hp.
destruct (Forall2_lookup_l _ _ _ _ _ (li_windows _ _ _ _ HL) Hp) as (b & Hb & r & Hr & E).
exists r. split; [done|]. rewrite E. intros ->. apply Ha. by eapply list_elem_of_lookup_2.
Qed.
End lists.

Section loops.
Implicit Types (p q t a : Z) (ps ws l : list Z) (r : PAINT) (d : desk).

Lemma find_paint_none fuel a p l d :
links p_next (paints d) p l -> (length l < fuel)%nat ->
Forall (fun q => exists r, paints d !! q = Some r /\ w r <> a) l -> find_paint fuel a p d = Ret 0.
Proof.
revert p l. induction fuel as [|fuel IH]; intros p l Hl Hf Ha; [lia|]. cbn [find_paint].
destruct l as [|q l]; [by rewrite Hl|]. destruct Hl as (-> & Hq & r & Hr & Hl).
apply Forall_cons in Ha as [(r' & Hr' & Hw) Ha]. destruct (Z.eqb_spec q 0); [done|].
unfold get_p. rewrite Hr. cbn [mbind outcome_bind]. assert (r' = r) as -> by congruence.
destruct (Z.eqb_spec (w r) a); [done|]. apply (IH _ l); [done| |done]. cbn in Hf. lia.
Qed.

Lemma find_paint_at fuel a p l1 t l2 d rt :
links p_next (paints d) p (l1 ++ t :: l2) -> (length l1 < fuel)%nat ->
Forall (fun q => exists r, paints d !! q = Some r /\ w r <> a) l1 ->
paints d !! t = Some rt -> w rt = a -> find_paint fuel a p d = Ret t.
Proof.
intros Hl Hf Ha Ht Hw. revert p fuel Hl Hf. induction Ha as [|q l1 (r & Hr & Hwr) _ IH]; intros p fuel Hl Hf;
  (destruct fuel as [|fuel]; [cbn in Hf; lia|]); destruct Hl as (-> & Hq & x & Hx & Hl); cbn [find_paint];
  rewrite (proj2 (Z.eqb_neq _ 0) Hq); unfold get_p; rewrite Hx; cbn [mbind outcome_bind].
- assert (x = rt) as -> by congruence. by rewrite Hw, Z.eqb_refl.
- assert (x = r) as -> by congruence. destruct (Z.eqb_spec (w r) a); [done|]. apply IH; [done|]. cbn in Hf. lia.
Qed.

Lemma last_paint_spec fuel d p l q :
links p_next (paints d) p (l ++ [q]) -> (length l < fuel)%nat -> last_paint fuel p d = Ret q.
Proof.
revert p l. induction fuel as [|fuel IH]; intros p l Hl Hf; [lia|]. cbn [last_paint]. unfold get_p.
destruct l as [|q' l]; cbn in Hl; destruct Hl as (-> & Hne & r & Hr & Hl); rewrite Hr; cbn [mbind outcome_bind].
- by rewrite Hl.
- destruct (Z.eqb_spec (p_next r) 0) as [E|]; [|apply (IH _ l); [done|cbn in Hf; lia]].
  rewrite E in Hl. destruct l; cbn in Hl; by destruct Hl as (<- & ? & _).
Qed.

(** The lock of the list, and its release. *)
Lemma paint_lock_spec d ps ws : desk_rep d ps ws ->
exists m, paint_lock d = Ret (set_paints m d) /\ listed m (paint_ready_queue d) ps ws /\
  dom m = dom (paints d).
Proof.
intros [HL (r & Hr & Hs) _ _ _ _ _]. unfold paint_lock, get_p. rewrite Hr. cbn [mbind outcome_bind].
rewrite Hs. cbn [Z.eqb]. eexists. split; [reflexivity|]. split; [by apply (listed_put _ _ _ _ _ r)|].
apply dom_insert_lookup_L. by exists r.
Qed.

Lemma paint_unlock_spec d ps ws : listed (paints d) (paint_ready_queue d) ps ws ->
exists m, paint_unlock d = Ret (set_paints m d) /\ listed m (paint_ready_queue d) ps ws /\
  dom m = dom (paints d) /\ exists r, m !! paint_ready_queue d = Some r /\ spinlock r = 0.
Proof.
intros HL. destruct (li_first _ _ _ _ HL) as (r & Hr & Hw). unfold paint_unlock, get_p. rewrite Hr.
cbn [mbind outcome_bind]. eexists. split; [reflexivity|]. split; [by apply (listed_put _ _ _ _ _ r)|]. split.
- apply dom_insert_lookup_L. by exists r.
- exists (set_spinlock 0 r). by rewrite lookup_insert_eq.
Qed.

Lemma foco_step fuel a tmp pre d r : tmp <> 0 -> paints d !! tmp = Some r -> w r <> a ->
foco_loop (S fuel) a tmp pre d = foco_loop fuel a (p_next r) tmp d.
Proof.
intros Ht Hr Hw. cbn [foco_loop]. rewrite (proj2 (Z.eqb_neq _ 0) Ht). unfold get_p. rewrite Hr.
cbn [mbind outcome_bind]. by rewrite (proj2 (Z.eqb_neq _ a) Hw).
Qed.

(** Moving the window [a] behind all others, in the loop from [tmp] on. *)
Lemma foco_loop_spec fuel a d pre tmp l1 t l2 rt :
links p_next (paints d) tmp (l1 ++ t :: l2) -> (length l1 < fuel)%nat ->
Forall (fun q => exists r, paints d !! q = Some r /\ w r <> a) l1 ->
paints d !! t = Some rt -> w rt = a ->
exists fuel', (fuel <= fuel' + S (length l1))%nat /\ foco_loop fuel a tmp pre d =
  foco_loop (S fuel') a t (default pre (last l1)) d.
Proof.
intros Hl Hf Ha Ht Hw. revert tmp pre fuel Hl Hf.
induction Ha as [|q l1 (r & Hr & Hwr) _ IH]; intros tmp pre fuel Hl Hf.
- destruct Hl as (-> & _). destruct fuel as [|fuel]; [cbn in Hf; lia|]. exists fuel. cbn. split; [lia|done].
- destruct fuel as [|fuel]; [cbn in Hf; lia|]. destruct Hl as (-> & Hq & x & Hx & Hl).
  assert (x = r) as -> by congruence. cbn in Hf.
  destruct (IH (p_next r) q fuel Hl ltac:(lia)) as (f' & Hf' & E). exists f'. split; [cbn; lia|].
  rewrite (foco_step fuel a q pre d r) by done. rewrite E. f_equal. destruct l1 as [|x l1]; [done|]. cbn.
  by destruct (last (x :: l1)) eqn:El; [|by apply last_None in El].
Qed.
End loops.

Section operations.
Context {H : Type} `{Allocator H}.
Implicit Types (s : sys H) (d : desk) (a p q t : Z) (ps ws l : list Z).

Lemma without_none a l : a ∉ l -> filter (fun b => b <> a) l = l.
Proof.
induction l as [|b l IH]; intros Ha; [done|]. apply not_elem_of_cons in Ha as [Hb Ha].
rewrite filter_cons_True by congruence. by rewrite IH.
Qed.

Lemma without_split a ws1 ws2 : NoDup (ws1 ++ a :: ws2) -> filter (fun b => b <> a) (ws1 ++ a :: ws2) = ws1 ++ ws2.
Proof.
intros (_ & Hd & [Ha _]%NoDup_cons)%NoDup_app. rewrite filter_app, filter_cons_False by tauto. f_equal.
- apply without_none. intros Hb. apply (Hd a Hb). left.
- by apply without_none.
Qed.

Lemma last_split h l : exists l0 q, h :: l = l0 ++ [q] /\ last (h :: l) = Some q.
Proof.
destruct l as [|x l _] using rev_ind; [by exists [], h|]. exists (h :: l), x. split; [done|].
change (h :: l ++ [x]) with ((h :: l) ++ [x]). apply last_snoc.
Qed.

Lemma remove_loop_at fuel a d s q0 l1 t l2 rt :
  links p_next (paints d) q0 (q0 :: l1 ++ t :: l2) -> (length l1 < fuel)%nat ->
  Forall (fun p => exists r, paints d !! p = Some r /\ w r <> a) l1 ->
  paints d !! t = Some rt -> w rt = a ->
  exists l q rq, q0 :: l1 = l ++ [q] /\ paints d !! q = Some rq /\
    remove_loop fuel a q0 d s =
      (s ← free_ t s;
       Ret (set_paints (delete t (<[q := set_p_next (p_next rt) rq]> (paints d)))
              (set_paint_foco (if paint_foco d =? t then 0 else paint_foco d)
                 (set_window_count (u64 (window_count d - 1)) d)), s)).
Proof.
intros Hl Hf Ha Ht Hw. revert fuel q0 Hl Hf. induction Ha as [|x l1 (r & Hr & Hwr) Ha IH]; intros fuel q0 Hl Hf;
  (destruct fuel as [|fuel]; [cbn in Hf; lia|]); destruct Hl as (_ & Hq & r0 & Hr0 & Hl); cbn [remove_loop];
  rewrite (proj2 (Z.eqb_neq _ 0) Hq); unfold get_p; rewrite Hr0; cbn [mbind outcome_bind].
- destruct Hl as (-> & _). rewrite Ht. cbn [mbind outcome_bind]. rewrite Hw, Z.eqb_refl.
  exists [], q0, r0. split; [done|]. split; [done|].
  change (paint_foco (put_p _ _ _)) with (paint_foco d). by destruct (paint_foco d =? t).
- pose proof Hl as [Ex _]. rewrite Ex in Hl |- *. rewrite Hr. cbn [mbind outcome_bind].
  destruct (Z.eqb_spec (w r) a); [done|].
  destruct (IH fuel x Hl) as (l & q & rq & El & Hrq & E); [cbn in Hf; lia|].
  exists (q0 :: l), q, rq. split; [cbn; by rewrite <- El|]. by split.
Qed.

Lemma window_remove_at fuel a d s ps ws :
  desk_rep d ps ws -> a ∈ ws -> (length ps < fuel)%nat ->
  exists l1 t l2 d', ps = l1 ++ t :: l2 /\
    window_remove fuel a d s = (s ← free_ t s; Ret (d', s)) /\
    desk_rep d' (l1 ++ l2) (filter (fun b => b <> a) ws) /\
    paint_ready_queue d' = paint_ready_queue d /\ gid d' = gid d /\
    paint_foco d' = (if paint_foco d =? t then 0 else paint_foco d) /\ shows d t a.
Proof.
intros HR Ha Hf. pose proof HR as [HL0 _ Hnd Hnz Hc Hsm Hlk].
destruct (paint_lock_spec d ps ws HR) as (m & E1 & HL & Hdom).
destruct (listed_at _ _ _ _ a HL Ha Hnd) as (l1 & t & l2 & ws1 & ws2 & rt & -> & -> & Hlen & Hrt & Hw & Hall).
rewrite without_split by done. rewrite length_app in Hf. cbn in Hf.
set (d1 := set_w_remove_spinlock (w_remove_spinlock d + 1) (set_paints m d)).
destruct (remove_loop_at fuel a d1 s (paint_ready_queue d) l1 t l2 rt)
  as (l & q & rq & El & Hrq & E2); [apply HL|lia|done|done|done|].
set (m2 := delete t (<[q := set_p_next (p_next rt) rq]> (paints d1))) in E2.
set (d2 := set_paints m2 _) in E2.
assert (listed m2 (paint_ready_queue d) (l1 ++ l2) (ws1 ++ ws2)) as HL2.
{ apply listed_delete; [|by eapply listed_unlink].
  pose proof (li_nodup _ _ _ _ HL) as N. change (?h :: l1 ++ t :: l2) with ((h :: l1) ++ t :: l2) in N.
  apply NoDup_app in N as (_ & N2 & (N3 & _)%NoDup_cons). change (?h :: l1 ++ l2) with ((h :: l1) ++ l2).
  intros [Hin|Hin]%elem_of_app; [|done]. apply (N2 t Hin). left. }
set (d3 := set_w_remove_spinlock 0 d2).
destruct (paint_unlock_spec d3 _ _ HL2) as (m3 & E3 & HL3 & _ & Hfree).
exists l1, t, l2, (set_paints m3 d3). split; [done|]. split; [|split; [|do 3 (split; [done|])]].
- unfold window_remove. rewrite Hc. destruct (Z.ltb_spec (zlen (ws1 ++ a :: ws2)) 1) as [Hlt|_];
    [rewrite length_app in Hlt; cbn in Hlt; lia|].
  rewrite E1. cbn [mbind outcome_bind]. change (w_remove_spinlock (set_paints m d)) with (w_remove_spinlock d).
  rewrite Hlk at 1. cbn [Z.eqb negb]. fold d1.
  change (paint_ready_queue d1) with (paint_ready_queue d). rewrite E2.
  destruct (free_ t s); [|done..]. cbn [mbind outcome_bind]. fold d3. by rewrite E3.
- assert (ws1 ++ ws2 = filter (fun b => b <> a) (ws1 ++ a :: ws2)) as Ef by (by rewrite without_split).
  constructor.
  + exact HL3.
  + exact Hfree.
  + rewrite Ef. by apply NoDup_filter.
  + rewrite Ef. intros [_ Hin]%list_elem_of_filter. done.
  + change (window_count (set_paints m3 d3)) with (u64 (window_count d - 1)). rewrite Hc.
    rewrite !length_app in *. cbn in *. rewrite u64_small by lia. lia.
  + rewrite !length_app in *. cbn in *. lia.
  + done.
- pose proof (li_windows _ _ _ _ HL0) as W. apply Forall2_app_inv in W as [_ W]; [|done].
  by apply Forall2_cons in W as [W _].
Qed.

Lemma get_p_eq p d r : paints d !! p = Some r -> get_p p d = Ret r.
Proof. unfold get_p. by intros ->. Qed.

(** What [window_add] does with the record [new] it took. *)
Lemma window_add_new fuel a d s s1 new ps ws :
  desk_rep d ps ws -> a ∉ ws -> a <> 0 -> zlen ws + 1 < 2 ^ 63 -> (S (length ps) < fuel)%nat ->
  malloc_ sizeof_PAINT s = Ret (new, s1) -> new ∉ paint_ready_queue d :: ps -> new <> 0 ->
  exists d', window_add fuel a d s =
      Ret (d', set_bytes (st32 (st64 (bytes_of s1) (new + sizeof_PAINT) 0) (a + window_gid) (gid d)) s1) /\
    desk_rep d' (ps ++ [new]) (ws ++ [a]) /\ paint_ready_queue d' = paint_ready_queue d /\
    paint_foco d' = new /\ gid d' = u64 (gid d + 1).
Proof.
intros HR Ha Ha0 Hsm Hf Em Hnew Hn0. pose proof HR as [HL0 _ Hnd Hnz Hc _ Hlk].
destruct (paint_lock_spec d ps ws HR) as (m & E1 & HL & _). unfold window_add. rewrite Em.
cbn [mbind outcome_bind]. rewrite E1. cbn [mbind outcome_bind].
change (paint_ready_queue (set_paints m d)) with (paint_ready_queue d). set (h := paint_ready_queue d) in *.
rewrite (find_paint_none fuel a h (h :: ps)); [|exact (li_links _ _ _ _ HL)|cbn; lia|].
2:{ constructor; [|by apply (listed_without _ _ _ _ _ HL)]. destruct (li_first _ _ _ _ HL) as (r & Hr & Hw).
    exists r. split; [done|]. congruence. }
cbn [mbind outcome_bind Z.eqb negb].
destruct (last_split h ps) as (l & q & El & _).
set (d1 := set_gid _ (put_p new (Paint a 0 0) (set_paints m d))).
assert (listed (paints d1) h ps ws) as HL1 by (by apply listed_insert).
assert (links p_next (paints d1) h (l ++ [q])) as Hq by (rewrite <- El; apply HL1).
pose proof Hq as (rq & Hrq & _)%links_app.
change (paint_ready_queue d1) with h.
rewrite (last_paint_spec fuel d1 h l q Hq)
  by (assert (length (h :: ps) = length (l ++ [q])) as E by (by rewrite El); rewrite length_app in E; cbn in E; lia).
cbn [mbind outcome_bind]. rewrite (get_p_eq q d1 rq Hrq). cbn [mbind outcome_bind].
assert (listed (<[q := set_p_next new rq]> (paints d1)) h (ps ++ [new]) (ws ++ [a])) as HL2.
{ apply (listed_snoc (paints d1) h ps ws l q rq new (Paint a 0 0) HL1 El Hrq); [|done..].
  apply lookup_insert_eq. }
set (d2 := set_window_count _ _).
destruct (paint_unlock_spec d2 (ps ++ [new]) (ws ++ [a]) HL2) as (m3 & E3 & HL3 & _ & Hfree).
rewrite E3. cbn [mbind outcome_bind]. eexists. split; [reflexivity|]. split; [|done]. constructor.
- exact HL3.
- exact Hfree.
- apply NoDup_app. split; [done|]. split; [by intros x Hx ->%list_elem_of_singleton|apply NoDup_singleton].
- rewrite elem_of_app, list_elem_of_singleton. intros [?|?]; [done|congruence].
- change (window_count (set_paints m3 d2)) with (u64 (window_count d + 1)). rewrite Hc, length_app. cbn.
  rewrite u64_small by lia. lia.
- rewrite length_app. cbn. lia.
- exact Hlk.
Qed.

(** A window that is already in the list costs a record. *)
Lemma window_add_again fuel a d s s1 new ps ws :
  desk_rep d ps ws -> a ∈ ws -> (S (length ps) < fuel)%nat -> malloc_ sizeof_PAINT s = Ret (new, s1) ->
  exists d', window_add fuel a d s = Ret (d', s1) /\ desk_rep d' ps ws /\
    paint_ready_queue d' = paint_ready_queue d /\ paint_foco d' = paint_foco d /\ gid d' = gid d.
Proof.
intros HR Ha Hf Em. pose proof HR as [HL0 _ Hnd Hnz Hc Hsm Hlk].
destruct (paint_lock_spec d ps ws HR) as (m & E1 & HL & _). unfold window_add. rewrite Em.
cbn [mbind outcome_bind]. rewrite E1. cbn [mbind outcome_bind].
change (paint_ready_queue (set_paints m d)) with (paint_ready_queue d). set (h := paint_ready_queue d) in *.
destruct (listed_at _ _ _ _ a HL Ha Hnd) as (l1 & t & l2 & ws1 & ws2 & rt & -> & -> & Hlen & Hrt & Hw & Hall).
rewrite length_app in Hf. cbn in Hf.
rewrite (find_paint_at fuel a h (h :: l1) t l2 (set_paints m d) rt);
  [|exact (li_links _ _ _ _ HL)|cbn; lia| |done|done].
2:{ constructor; [|done]. destruct (li_first _ _ _ _ HL) as (r & Hr & Hwr). exists r. split; [done|].
    rewrite Hwr. intros <-. done. }
cbn [mbind outcome_bind]. destruct (Z.eqb_spec t 0) as [->|_].
{ destruct (links_lookup _ _ _ 0 (li_links _ _ _ _ HL)) as (_ & _ & ?); [|done].
  right. apply elem_of_app. right. left. }
cbn [negb]. destruct (paint_unlock_spec (set_paints m d) _ _ HL) as (m3 & E3 & HL3 & _ & Hfree).
rewrite E3. cbn [mbind outcome_bind]. eexists. split; [reflexivity|]. split; [|done]. by constructor.
Qed.

(** The window [a] moves behind all others. *)
Lemma window_foco_at fuel a d ps ws :
  desk_rep d ps ws -> a ∈ ws -> (2 * length ps + 3 < fuel)%nat ->
  exists d' l1 t l2, ps = l1 ++ t :: l2 /\ window_foco fuel a d = Ret d' /\
    desk_rep d' (l1 ++ l2 ++ [t]) (filter (fun b => b <> a) ws ++ [a]) /\
    paint_ready_queue d' = paint_ready_queue d /\ paint_foco d' = t /\ gid d' = gid d.
Proof.
intros HR Ha Hf. pose proof HR as [HL0 _ Hnd Hnz Hc Hsm Hlk].
destruct (paint_lock_spec d ps ws HR) as (m & E1 & HL & _). set (h := paint_ready_queue d) in *.
destruct (listed_at _ _ _ _ a HL Ha Hnd) as (l1 & t & l2 & ws1 & ws2 & rt & -> & -> & Hlen & Hrt & Hw & Hall).
rewrite without_split by done.
assert (desk_rep d (l1 ++ t :: l2) (ws1 ++ a :: ws2) ->
  forall d', listed (paints d') h (l1 ++ l2 ++ [t]) ((ws1 ++ ws2) ++ [a]) -> paint_ready_queue d' = h ->
  window_count d' = window_count d -> w_remove_spinlock d' = 0 -> exists m3,
  paint_unlock d' = Ret (set_paints m3 d') /\
  desk_rep (set_paints m3 d') (l1 ++ l2 ++ [t]) ((ws1 ++ ws2) ++ [a])) as Hend.
{ intros _ d' HL' Eh Ec El. rewrite <- Eh in HL'.
  destruct (paint_unlock_spec d' _ _ HL') as (m3 & E3 & HL3 & _ & Hfree). exists m3. split; [done|].
  assert ((ws1 ++ ws2) ++ [a] ≡ₚ ws1 ++ a :: ws2) as Hp by (rewrite <- app_assoc; apply Permutation_app_head;
    by rewrite Permutation_app_comm). constructor; try done.
  - by rewrite Hp.
  - by rewrite Hp.
  - change (window_count (set_paints m3 d')) with (window_count d'). by rewrite Ec, Hc, Hp.
  - by rewrite Hp. }
specialize (Hend HR).
assert (t <> 0 /\ t ∉ h :: l1 ++ l2) as [Ht0 Htn].
{ split; [destruct (links_lookup _ _ _ t (li_links _ _ _ _ HL)) as (_ & _ & ?); [|done];
    right; apply elem_of_app; right; left|].
  pose proof (li_nodup _ _ _ _ HL) as N. change (h :: l1 ++ t :: l2) with ((h :: l1) ++ t :: l2) in N.
  apply NoDup_app in N as (_ & N2 & (N3 & _)%NoDup_cons). change (h :: l1 ++ l2) with ((h :: l1) ++ l2).
  intros [Hin|Hin]%elem_of_app; [|done]. apply (N2 t Hin). left. }
rewrite length_app in Hf. cbn in Hf.
destruct (foco_loop_spec fuel a (set_paints m d) h h (h :: l1) t l2 rt (li_links _ _ _ _ HL))
  as (f' & Hf' & E2); [cbn; lia| |done|done|].
{ constructor; [|done]. destruct (li_first _ _ _ _ HL) as (r & Hr & Hwr). exists r. split; [done|]. congruence. }
cbn [length] in Hf'. unfold window_foco. rewrite E1. cbn [mbind outcome_bind].
change (paint_ready_queue (set_paints m d)) with h. rewrite E2.
destruct (last_split h l1) as (l & q & El & ->). cbn [default from_option id].
cbn [foco_loop]. rewrite (proj2 (Z.eqb_neq _ 0) Ht0), (get_p_eq t (set_paints m d) rt Hrt). cbn [mbind outcome_bind]. rewrite Hw, Z.eqb_refl.
pose proof (li_links _ _ _ _ HL) as Hlk2. change (h :: l1 ++ t :: l2) with ((h :: l1) ++ t :: l2) in Hlk2.
pose proof Hlk2 as (rt' & Hrt' & Hl2)%links_app. assert (rt' = rt) as -> by congruence.
destruct (Z.eqb_spec (p_next rt) 0) as [En|En].
- assert (l2 = []) as ->.
  { destruct l2 as [|x l2]; [done|]. destruct Hl2 as (<- & ? & _). done. }
  assert (ws2 = []) as ->.
  { pose proof (Forall2_length _ _ _ (li_windows _ _ _ _ HL)) as E. rewrite !length_app in E. cbn in E.
    destruct ws2; [done|cbn in E; lia]. }
  cbn [mbind outcome_bind]. destruct (Hend (set_paint_foco t (set_paints m d))) as (m3 & E3 & HR3);
    [by rewrite app_nil_r|done|done|done|].
  rewrite E3. eexists _, l1, t, []. done.
- rewrite El, <- app_assoc in Hlk2. cbn [app] in Hlk2. pose proof Hlk2 as (rq & Hrq & _)%links_app.
  assert (q <> t) as Hqt.
  { intros ->. apply Htn. change (h :: l1 ++ l2) with ((h :: l1) ++ l2). rewrite El, <- app_assoc.
    apply elem_of_app. right. left. }
  rewrite (get_p_eq q (set_paint_foco t (set_paints m d)) rq Hrq).
  cbn [mbind outcome_bind]. set (d1 := put_p q _ _).
  assert (listed (paints d1) h (l1 ++ l2) (ws1 ++ ws2)) as HL1 by (by apply (listed_unlink _ _ l1 t l2 ws1 a ws2 l)).
  assert (paints d1 !! t = Some rt) as Hrt1 by (cbn; by rewrite lookup_insert_ne).
  rewrite (get_p_eq t d1 rt Hrt1). cbn [mbind outcome_bind].
  set (d2 := put_p t (set_p_next 0 rt) d1).
  assert (listed (paints d2) h (l1 ++ l2) (ws1 ++ ws2)) as HL2 by (by apply listed_insert).
  destruct (last_split h (l1 ++ l2)) as (l' & q' & El' & _).
  assert (links p_next (paints d2) h (l' ++ [q'])) as Hq' by (rewrite <- El'; apply HL2).
  change (paint_ready_queue d2) with h.
  rewrite (last_paint_spec f' d2 h l' q' Hq').
  2:{ assert (length (h :: l1 ++ l2) = length (l' ++ [q'])) as E by (by rewrite El').
      rewrite length_app in E. cbn in E. rewrite length_app in E. lia. }
  cbn [mbind outcome_bind]. pose proof Hq' as (rq' & Hrq' & _)%links_app.
  rewrite (get_p_eq q' d2 rq' Hrq'). cbn [mbind outcome_bind].
  destruct (Hend (put_p q' (set_p_next t rq') d2)) as (m3 & E3 & HR3); [|done|done|done|].
  { rewrite app_assoc, <- Hw. apply (listed_snoc (paints d2) h (l1 ++ l2) (ws1 ++ ws2) l' q' rq' t (set_p_next 0 rt) HL2 El' Hrq');
      [apply lookup_insert_eq|done..]. }
  rewrite E3. eexists _, l1, t, l2. done.
Qed.
End operations.

(** ** The calls as operations on a list of windows *)

Inductive wop := Add (a : Z) | Remove (a : Z) | Foco (a : Z).

(** What a call does to the list, from the bottom of the screen to the top. *)
Definition wspec (op : wop) (ws : list Z) : list Z :=
  match op with
  | Add a => if bool_decide (a ∈ ws) then ws else ws ++ [a]
  | Remove a => filter (fun b => b <> a) ws
  | Foco a => filter (fun b => b <> a) ws ++ [a]
  end.

(** The window that has the focus afterwards, where the call decides it. *)
Definition wfocus (op : wop) (ws : list Z) : option Z :=
  match op with
  | Add a => if bool_decide (a ∈ ws) then None else Some a
  | Remove _ => None
  | Foco a => Some a
  end.

(** A call that names no window that is not there: a new window has an address, the others are in the list. *)
Definition wallowed (op : wop) (ws : list Z) : Prop :=
  match op with
  | Add a => a <> 0 /\ zlen ws + 1 < 2 ^ 63
  | Remove a | Foco a => a ∈ ws
  end.

Definition wrun {H} `{Allocator H} (fuel : nat) (op : wop) (d : desk) (s : sys H) : outcome (desk * sys H) :=
  match op with
  | Add a => window_add fuel a d s
  | Remove a => window_remove fuel a d s
  | Foco a => d ← window_foco fuel a d; Ret (d, s)
  end.

Section refinement.
Context {H : Type} `{AllocatorLaws H}.
Implicit Types (s : sys H) (d : desk) (a p q t : Z) (ps ws l : list Z) (B : gmap Z Z).

(** The records stand in blocks of the heap, which has room for another. *)
Record desk_heap d ps s B : Prop := {
  dh_ok : heap_ok (heap s) B;
  dh_blocks : forall p, p ∈ paint_ready_queue d :: ps -> is_Some (B !! p)
}.

Lemma desk_last d ps ws p a : desk_rep d (ps ++ [p]) (ws ++ [a]) -> shows d p a.
Proof.
intros HR. pose proof (li_windows _ _ _ _ (dr_list _ _ _ HR)) as W. apply Forall2_app_inv in W as [_ W].
- by apply Forall2_cons in W as [W _].
- pose proof (Forall2_length _ _ _ W) as E. rewrite !length_app in E. cbn in E. lia.
Qed.
End refinement.

(** C8: the calls of the compositor's list implement operations on a list of distinct windows: adding
    a window puts it on top, unless it is there already, removing takes it out, giving it
    the focus moves it to the top; the window on top after the first and the last has the focus.  Records
    come from the heap and go back to it; only adding a window again keeps a block that nothing
    will free. *)
Theorem windows_refine_list {H : Type} `{AllocatorLaws H} (fuel : nat) (op : wop) (d : desk) (s : sys H)
    (ps ws : list Z) (B : gmap Z Z) :
  desk_rep d ps ws -> desk_heap d ps s B -> heap_room (heap s) sizeof_PAINT -> wallowed op ws ->
  (2 * length ps + 3 < fuel)%nat ->
  exists d' s' ps' B', wrun fuel op d s = Ret (d', s') /\ desk_rep d' ps' (wspec op ws) /\
    desk_heap d' ps' s' B' /\
    (forall a, wfocus op ws = Some a -> last (wspec op ws) = Some a /\ shows d' (paint_foco d') a) /\
    (forall p, p ∉ ps -> is_Some (B !! p) -> B' !! p = B !! p) /\
    match op with
    | Add a => exists p k, B !! p = None /\ B' = <[p := k]> B /\ (p ∈ ps' <-> a ∉ ws)
    | Remove a => exists p, p ∈ ps /\ shows d p a /\ B' = delete p B
    | Foco a => B' = B
    end.
Proof.
  intros HR [Hok Hb] Hroom Ha Hf. destruct op as [a|a|a]; cbn [wrun wspec wfocus wallowed] in *.
  - destruct (malloc_spec (heap s) B sizeof_PAINT Hok ltac:(done) Hroom) as (new & k & h & E & Hk & Hp & Hok' & Hd).
    unfold sizeof_PAINT in Hk. assert (B !! new = None) as HN.
    { destruct (B !! new) as [j|] eqn:Ej; [|done]. destruct (heap_pos _ _ _ _ Hok Ej). destruct (Hd new j Ej); lia. }
    assert (malloc_ sizeof_PAINT s = Ret (new, set_heap h s)) as Em by (unfold malloc_; by rewrite E).
    assert (new ∉ paint_ready_queue d :: ps) as Hnew by (intros [j Hj]%Hb; congruence).
    assert (forall p, is_Some (B !! p) -> <[new := k]> B !! p = B !! p) as Hkeep
      by (intros p [j Hj]; apply lookup_insert_ne; congruence).
    case_bool_decide as Hin.
    + destruct (window_add_again fuel a d s _ new ps ws HR Hin ltac:(lia) Em) as (d' & E' & HR' & Eh & Ef & _).
      exists d', (set_heap h s), ps, (<[new := k]> B). split; [done|]. split; [done|]. split_and!; try done; auto.
      * constructor; [done|]. intros p. rewrite Eh. intros Hps. rewrite Hkeep; auto.
      * exists new, k. split; [done|]. split; [done|]. split; [|done]. intros Hps. exfalso. apply Hnew. by right.
    + destruct Ha as [Ha0 Hsm].
      destruct (window_add_new fuel a d s _ new ps ws HR Hin Ha0 Hsm ltac:(lia) Em Hnew ltac:(lia))
        as (d' & E' & HR' & Eh & Ef & _).
      eexists d', _, (ps ++ [new]), (<[new := k]> B). split; [exact E'|]. split; [done|]. split_and!; try done; auto.
      * constructor; [done|]. intros p. rewrite Eh. intros [-> | [Hps | ->%list_elem_of_singleton]%elem_of_app ]%elem_of_cons.
        -- rewrite Hkeep; apply Hb; left.
        -- rewrite Hkeep; apply Hb; by right.
        -- by rewrite lookup_insert_eq.
      * intros b [= <-]. split; [by apply last_snoc|]. rewrite Ef. by apply (desk_last d' ps ws).
      * exists new, k. split; [done|]. split; [done|]. split; [done|]. intros _. apply elem_of_app. right. left.
  - destruct (window_remove_at fuel a d s ps ws HR Ha ltac:(lia)) as (l1 & t & l2 & d' & Ep & E & HR' & Eh & _ & _ & Hsh).
    destruct (Hb t) as [k Hk]; [rewrite Ep; right; apply elem_of_app; right; left|].
    destruct (free_spec _ _ t k Hok Hk) as (h & Ef & Hok').
    unfold free_ in E. rewrite Ef in E. cbn [mbind outcome_bind] in E.
    pose proof (li_nodup _ _ _ _ (dr_list _ _ _ HR)) as N. rewrite Ep in N.
    change (?x :: l1 ++ t :: l2) with ((x :: l1) ++ t :: l2) in N.
    apply NoDup_app in N as (_ & N2 & (N3 & _)%NoDup_cons).
    eexists d', _, (l1 ++ l2), (delete t B). split; [exact E|]. split; [done|]. split_and!; try done.
    + constructor; [done|]. intros p. rewrite Eh. change (?x :: l1 ++ l2) with ((x :: l1) ++ l2). intros Hp.
      assert (p <> t) as Hpt.
      { intros ->. apply elem_of_app in Hp as [Hp|Hp]; [|done]. apply (N2 t Hp). left. }
      rewrite lookup_delete_ne by congruence. apply Hb. rewrite Ep.
      change (?x :: l1 ++ t :: l2) with ((x :: l1) ++ t :: l2). apply elem_of_app in Hp as [Hp|Hp];
        apply elem_of_app; [by left|]. right. by right.
    + intros p Hp _. apply lookup_delete_ne. intros ->. apply Hp. rewrite Ep. apply elem_of_app. right. left.
    + exists t. split; [rewrite Ep; apply elem_of_app; right; left|]. by split.
  - destruct (window_foco_at fuel a d ps ws HR Ha Hf) as (d' & l1 & t & l2 & Ep & E & HR' & Eh & Ef & _).
    exists d', s, (l1 ++ l2 ++ [t]), B. rewrite E. split; [done|]. split; [done|]. split_and!; try done.
    + constructor; [done|]. intros p. rewrite Eh. intros Hp. apply Hb. rewrite Ep. revert Hp.
      rewrite !elem_of_cons, !elem_of_app, !elem_of_cons. rewrite elem_of_nil. tauto.
    + intros b [= <-]. split; [by apply last_snoc|]. rewrite Ef. rewrite app_assoc in HR'.
      by apply (desk_last d' (l1 ++ l2) (filter (fun b => b <> a) ws)).
Qed.

(** Two windows, the one at 0x5000 on top. *)
Definition ex_desk : desk :=
  Desk {[0x1000 := Paint 0 0 0x2000; 0x2000 := Paint 0x4000 0 0x3000; 0x3000 := Paint 0x5000 0 0]} 0x1000 0x3000 2 2 0.

Definition ex_sys : sys bump := Sys (0x10000 : bump) ∅ ∅ 0.

Lemma ex_desk_rep : desk_rep ex_desk [0x2000; 0x3000] [0x4000; 0x5000].
Proof.
  constructor; try done.
  - constructor.
    + split; [done|]. split; [done|]. eexists. split; [reflexivity|]. split; [done|]. split; [done|].
      eexists. split; [reflexivity|]. split; [done|]. split; [done|]. eexists. split; reflexivity.
    + apply (bool_decide_eq_true_1 (NoDup _)). vm_compute. reflexivity.
    + repeat constructor; (eexists; split; reflexivity).
    + eexists. split; reflexivity.
  - eexists. split; reflexivity.
  - apply (bool_decide_eq_true_1 (NoDup _)). vm_compute. reflexivity.
  - apply (bool_decide_eq_true_1 (0 ∉ _)). vm_compute. reflexivity.
Qed.

Lemma ex_desk_heap :
  desk_heap ex_desk [0x2000; 0x3000] ex_sys {[0x1000 := 24; 0x2000 := 24; 0x3000 := 24]}.
Proof.
  constructor.
  - split; [reflexivity|]. intros p k Hp. change (heap ex_sys) with 0x10000.
    apply lookup_insert_Some in Hp as [[<- <-]|[_ Hp]]; [lia|].
    apply lookup_insert_Some in Hp as [[<- <-]|[_ Hp]]; [lia|].
    apply lookup_singleton_Some in Hp as [<- <-]. lia.
  - intros p [-> | [-> | ->%list_elem_of_singleton]%elem_of_cons ]%elem_of_cons; by eexists.
Qed.

Example windows_refine_list_witness :
  exists d' s' ps', wrun 10 (Foco 0x4000) ex_desk ex_sys = Ret (d', s') /\
    desk_rep d' ps' [0x5000; 0x4000] /\ shows d' (paint_foco d') 0x4000.
Proof.
  destruct (windows_refine_list 10 (Foco 0x4000) ex_desk ex_sys [0x2000; 0x3000] [0x4000; 0x5000]
    {[0x1000 := 24; 0x2000 := 24; 0x3000 := 24]} ex_desk_rep ex_desk_heap)
    as (d' & s' & ps' & B' & E & HR & _ & Hfoc & _); [vm_compute; done|left|cbn; lia|].
  exists d', s', ps'. split; [exact E|]. split; [exact HR|]. apply (Hfoc 0x4000). reflexivity.
Defined.

(** Giving the focus to a thread that has no window (address 0) finds the compositor's own record, which is
    then linked to itself: the windows are lost, and every later search for a window, as adding
    one does first, runs for ever. *)
Theorem window_foco_zero_loops (fuel : nat) (d : desk) (ps ws : list Z) :
  desk_rep d ps ws -> ws <> [] -> (2 <= fuel)%nat ->
  exists d', window_foco fuel 0 d = Ret d' /\ paint_ready_queue d' = paint_ready_queue d /\
    (exists r, paints d' !! paint_ready_queue d = Some r /\ p_next r = paint_ready_queue d) /\
    forall n a, a <> 0 -> find_paint n a (paint_ready_queue d) d' = NoFuel.
Proof.
  intros HR Hne Hf. destruct (paint_lock_spec d ps ws HR) as (m & E1 & HL & _).
  set (h := paint_ready_queue d) in *. destruct fuel as [|[|fuel]]; [lia|lia|].
  assert (exists rh, m !! h = Some rh /\ w rh = 0 /\ p_next rh <> 0 /\ h <> 0) as (rh & Hrh & Hw & Hn & Hh).
  { destruct (li_first _ _ _ _ HL) as (rh & Hrh & Hw). exists rh. split; [done|]. split; [done|].
    destruct (li_links _ _ _ _ HL) as (_ & Hh & r & Hr & Hl). assert (r = rh) as -> by congruence.
    destruct ps as [|p ps]; [|by destruct Hl as (-> & ? & _)].
    pose proof (Forall2_length _ _ _ (li_windows _ _ _ _ HL)) as E. by destruct ws. }
  unfold window_foco. rewrite E1. cbn [mbind outcome_bind]. change (paint_ready_queue (set_paints m d)) with h.
  cbn [foco_loop]. rewrite (proj2 (Z.eqb_neq _ 0) Hh), (get_p_eq h (set_paints m d) rh Hrh).
  cbn [mbind outcome_bind]. rewrite Hw. cbn [Z.eqb]. rewrite (proj2 (Z.eqb_neq _ 0) Hn).
  rewrite (get_p_eq h (set_paint_foco h (set_paints m d)) rh Hrh). cbn [mbind outcome_bind].
  set (d1 := put_p h _ _). set (r1 := set_p_next (p_next rh) rh) in *.
  rewrite (get_p_eq h d1 r1) by apply lookup_insert_eq. cbn [mbind outcome_bind].
  set (d2 := put_p h _ d1). set (r2 := set_p_next 0 r1) in *.
  assert (get_p h d2 = Ret r2) as G2 by (apply get_p_eq; apply lookup_insert_eq).
  change (paint_ready_queue d2) with h. cbn [last_paint]. rewrite G2. cbn [mbind outcome_bind].
  change (p_next r2 =? 0) with true. cbv iota. cbn [mbind outcome_bind]. rewrite G2. cbn [mbind outcome_bind].
  set (d3 := put_p h _ d2). set (r3 := set_p_next h r2) in *.
  unfold paint_unlock. change (paint_ready_queue d3) with h. rewrite (get_p_eq h d3 r3) by apply lookup_insert_eq.
  cbn [mbind outcome_bind]. set (d4 := put_p h _ d3). exists d4. split; [done|]. split; [done|].
  assert (get_p h d4 = Ret (set_spinlock 0 r3)) as G4 by (apply get_p_eq; apply lookup_insert_eq).
  split; [eexists; split; [apply lookup_insert_eq|done]|].
  intros n a Ha. induction n as [|n IH]; [done|]. cbn [find_paint]. rewrite (proj2 (Z.eqb_neq _ 0) Hh), G4.
  cbn [mbind outcome_bind]. change (w (set_spinlock 0 r3)) with (w rh). rewrite Hw.
  destruct (Z.eqb_spec 0 a); [congruence|]. exact IH.
Qed.

Example window_foco_zero_loops_witness :
  exists d', window_foco 2 0 ex_desk = Ret d' /\ forall n, find_paint n 0x4000 0x1000 d' = NoFuel.
Proof.
  destruct (window_foco_zero_loops 2 ex_desk [0x2000; 0x3000] [0x4000; 0x5000] ex_desk_rep) as (d' & E & _ & _ & Hn);
    [discriminate|lia|].
  exists d'. split; [exact E|]. intros n. by apply Hn.
Defined.
