(* ===== verification/Exit.v ===== *)
(** * Exit: the end of a process (kernel/exit.c)

    [exit] marks a thread and its children, gives back what they hold and takes them out of the ready queue.
    The state joins that of the processes with the list of windows and the globals the call
    touches; the array [pipe] of the call stands at the address [local]. *)
From S2P Require Import Prelude Links KString Bytes Files Thread Frames Pages Paging Heap Ledger Exec.
From S2P Require Import Process Start Window.

Record os := Os { pr : proc; dk : desk; std_in : Z; std_err : Z; mouse2 : Z; pipe_launcher : Z; mult_task : Z }.

Definition io_of (o : os) : sys mm := io (sc (pr o)).
Definition set_sc (s : sched mm) (o : os) : os :=
  Os (Proc s (spaces (pr o)) (ubytes_of (pr o))) (dk o) (std_in o) (std_err o) (mouse2 o) (pipe_launcher o) (mult_task o).
Definition set_sys (i : sys mm) (o : os) : os := set_sc (set_io i (sc (pr o))) o.
Definition set_dk (d : desk) (o : os) : os :=
  Os (pr o) d (std_in o) (std_err o) (mouse2 o) (pipe_launcher o) (mult_task o).
Definition set_focus (i e mo : Z) (o : os) : os := Os (pr o) (dk o) i e mo (pipe_launcher o) (mult_task o).
Definition set_mult_task (v : Z) (o : os) : os :=
  Os (pr o) (dk o) (std_in o) (std_err o) (mouse2 o) (pipe_launcher o) v.

(** The keyboard and the streams of the kernel go to the first thread. *)
Definition foco_default (o : os) : outcome os :=
  th ← get_t (thread_ready_queue (sc (pr o))) (sc (pr o));
  let i := io_of o in
  let o := set_sys (Sys (heap i) (bytes_of i) (files i) (stdout th)) o in
  Ret (set_focus (stdin th) (stderr th) (mouse th) o).

(** [while (tmp) { tmp->status |= THREAD_ZUMBI; tmp = tmp->tail; }] *)
Fixpoint mark_zombies (fuel : nat) (tmp : Z) (s : sched mm) : outcome (sched mm) :=
  match fuel with
  | O => NoFuel
  | S fuel =>
      if tmp =? 0 then Ret s
      else
        th ← get_t tmp s;
        let s := put_t tmp (set_status (Z.lor (status th) THREAD_ZUMBI) th) s in
        mark_zombies fuel (tail th) s
  end.

(** The eight shorts of the message. *)
Definition message (local : Z) (l : list Z) (m : mem) : mem :=
  foldr (fun '(i, v) m => st16 m (local + 2 * Z.of_nat i) v) m (imap pair l).

Definition send_message (local : Z) (l : list Z) (fp : Z) (o : os) : outcome os :=
  let i := io_of o in
  '(_, i) ← pipe_write local fp (set_bytes (message local l (bytes_of i)) i);
  Ret (set_sys i o).

Definition free_o (p : Z) (o : os) : outcome os := i ← free_ p (io_of o); Ret (set_sys i o).

(** No stream of a thread is a file: the disk is not read. *)
Definition fclose_o (fp : Z) (o : os) : outcome os := '(_, i) ← fclose fp (io_of o); Ret (set_sys i o).

(** The frames and tables of a thread; one that was not made by [exectve] has none. *)
Definition space_o (t : Z) (o : os) : outcome os :=
  let ps := default (Pspace (Tables 0 0 0 0) 0) (spaces (pr o) !! t) in
  h ← release_space (ps_tables ps) (frame_size ps) (heap (io_of o));
  Ret (set_sys (set_heap h (io_of o)) o).

Definition window_o (fuel : nat) (th : THREAD) (o : os) : outcome os :=
  if Z.land (prv th) 0x10 =? 0 then Ret o
  else
    '(d, i) ← window_remove fuel (window th) (dk o) (io_of o);
    let o := set_sys i (set_dk d o) in
    free_o (window th) o.

Definition streams_o (local : Z) (th : THREAD) (o : os) : outcome os :=
  if Z.land (prv th) 0x20 =? 0 then Ret o
  else
    o ← foco_default o;
    o ← fclose_o (stdin th) o;
    o ← fclose_o (stdout th) o;
    o ← fclose_o (stderr th) o;
    o ← fclose_o (pipe th) o;
    o ← free_o (mouse th) o;
    send_message local [0x1001; 0; 0; 0; id th; Z.shiftr (id th) 16; Z.shiftr (id th) 32; Z.shiftr (id th) 48]
      (pipe_launcher o) o.

Definition user_free_o (th : THREAD) (o : os) : outcome os :=
  h ← user_free (pool th) (heap (io_of o), bytes_of (io_of o));
  Ret (set_sys (set_heap h (io_of o)) o).

Fixpoint exit_free (n fuel : nat) (local tmp : Z) (o : os) : outcome os :=
  match n with
  | O => NoFuel
  | S n =>
      if tmp =? 0 then Ret o
      else
        th ← get_t tmp (sc (pr o));
        o ← space_o tmp o;
        o ← window_o fuel th o;
        o ← streams_o local th o;
        o ← user_free_o th o;
        exit_free n fuel local (tail th) o
  end.

(** The thread whose [tail] is [tmp] forgets it. *)
Fixpoint clear_tail (fuel : nat) (p tmp : Z) (s : sched mm) : outcome (sched mm) :=
  match fuel with
  | O => NoFuel
  | S fuel =>
      if p =? 0 then Ret s
      else
        th ← get_t p s;
        if tail th =? tmp then Ret (put_t p (set_tail 0 th) s)
        else clear_tail fuel (next th) tmp s
  end.

(** The thread in front of [tmp] is linked to the one behind it, and the father of [tmp] is woken. *)
Fixpoint unlink (fuel : nat) (p tmp : Z) (s : sched mm) : outcome (sched mm) :=
  match fuel with
  | O => NoFuel
  | S fuel =>
      if p =? 0 then Ret s
      else
        th ← get_t p s;
        if next th =? tmp then
          r ← get_t tmp s;
          let s := put_t p (set_next (next r) th) s in
          r ← get_t tmp s;
          f ← get_t (head r) s;
          Ret (put_t (head r) (set_tail 0 (set_status (Z.land (status f) (Z.lnot THREAD_WAIT)) f)) s)
        else unlink fuel (next th) tmp s
  end.

Fixpoint exit_unlink (n fuel : nat) (tmp : Z) (o : os) : outcome os :=
  match n with
  | O => NoFuel
  | S n =>
      if tmp =? 0 then Ret o
      else
        s ← unlink fuel (thread_ready_queue (sc (pr o))) tmp (sc (pr o));
        th ← get_t tmp s;
        let o := set_sc s o in
        o ← free_o tmp o;
        let o := set_sc (set_threads (delete tmp (threads (sc (pr o)))) (sc (pr o))) o in
        exit_unlink n fuel (tail th) o
  end.

(** [rc] is not used. *)
Definition exit (fuel : nat) (rc thr local : Z) (o : os) : outcome os :=
  s ← mark_zombies fuel thr (sc (pr o));
  let o := set_sc s o in
  th ← get_t thr (sc (pr o));
  o ← send_message local [0x1001; 0; 0; 0; 0; 0; 0; 0] (pipe th) o;
  o ← exit_free fuel fuel local thr o;
  let o := set_mult_task 0 o in
  th ← get_t thr (sc (pr o));
  s ← (if Z.land (prv th) 0x20 =? 0 then clear_tail fuel (thread_ready_queue (sc (pr o))) thr (sc (pr o))
       else Ret (sc (pr o)));
  let o := set_sc s o in
  o ← exit_unlink fuel fuel thr o;
  Ret (set_mult_task 1 o).

(** ** What a message changes *)

(** The next message to the pipe stays inside its buffer. *)
Definition pipe_safe (f : FILE) : Prop := bsize f = BUFSIZ /\ 0 <= off f /\ off f mod PIPE_SIZE = 0.

(** The write of a message to [fp] from [i] to [i']: bytes change at [local] and in the buffer of [fp] only. *)
Record sent (fp local : Z) (i i' : sys mm) : Prop := {
  se_heap : heap i' = heap i;
  se_stdout : stdout_fp i' = stdout_fp i;
  se_bytes : forall a, ~ local <= a < local + 16 ->
    (forall f, fp <> 0 -> files i !! fp = Some f -> ~ buffer f <= a < buffer f + BUFSIZ) -> (bytes_of i')⟦a⟧ = (bytes_of i)⟦a⟧;
  se_files : forall p f, files i !! p = Some f ->
    exists f', files i' !! p = Some f' /\ buffer f' = buffer f /\ flags f' = flags f;
  se_other : forall p, p <> fp -> files i' !! p = files i !! p
}.

Section messages.
Implicit Types (i : sys mm) (m : mem) (fp local buf a : Z) (f : FILE) (l : list Z) (o : os).

Lemma message_rest local l m a : ~ local <= a < local + 2 * zlen l -> (message local l m)⟦a⟧ = m⟦a⟧.
Proof.
unfold message. intros Ha.
assert (Forall (fun p : nat * Z => Z.of_nat p.1 < zlen l) (imap pair l)) as Hl.
{ apply Forall_lookup_2. intros k [j v] Hk. rewrite list_lookup_imap in Hk.
  destruct (l !! k) eqn:E; [|done]. injection Hk as <- <-. apply lookup_lt_Some in E. cbn. lia. }
revert Hl. generalize (imap pair l). induction l0 as [|[j v] l0 IH]; intros Hl; [done|].
apply Forall_cons in Hl as [Hj Hl]. cbn [foldr]. cbn in Hj. rewrite rd_st_out by lia. auto.
Qed.

Lemma pipe_write_keeps i buf fp f :
fp <> 0 -> files i !! fp = Some f -> pipe_safe f ->
exists m f', pipe_write buf fp i = Ret (PIPE_SIZE, put_file fp f' (set_bytes m i)) /\
  buffer f' = buffer f /\ flags f' = flags f /\
  forall a, ~ buffer f <= a < buffer f + BUFSIZ -> m⟦a⟧ = (bytes_of i)⟦a⟧.
Proof.
intros Hfp Hf (Hbs & Ho & Hal). unfold pipe_write. destruct (Z.eqb_spec fp 0); [done|].
unfold get_file. rewrite Hf. cbn [mbind outcome_bind].
set (f1 := if _ || _ then _ else f).
assert (buffer f1 = buffer f /\ flags f1 = flags f /\ 0 <= off f1 <= BUFSIZ - PIPE_SIZE) as (E1 & E2 & E3).
{ unfold f1. rewrite Hbs. unfold BUFSIZ, PIPE_SIZE in *.
  destruct (Z.geb_spec (u32 (level f)) 8192); cbn [orb]; [by split_and!|].
  destruct (Z.geb_spec (off f) 8192); [by split_and!|]. split; [done|]. split; [done|]. word_lia. }
clearbody f1.
match goal with |- context [for_upto 0 PIPE_SIZE ?b _] =>
  pose proof (for_upto_inv (fun _ (p : FILE * mem) => buffer p.1 = buffer f /\ flags p.1 = flags f /\ off p.1 = off f1 /\
    forall a, ~ buffer f <= a < buffer f + BUFSIZ -> p.2⟦a⟧ = (bytes_of i)⟦a⟧) 0 PIPE_SIZE b (f1, bytes_of i)) as H;
  destruct (for_upto 0 PIPE_SIZE b (f1, bytes_of i)) as [f2 m2]
end.
destruct H as (G1 & G2 & _ & G4).
- done.
- split; [done|]. split; [done|]. split; [done|]. intros a _. done.
- intros k [g m] Hk (H1 & H2 & H3 & H4). cbn [fst snd] in *.
  split; [exact H1|]. split; [exact H2|]. split; [exact H3|]. intros a Ha.
  change (curp (set_curp (buffer g + off g + k) g)) with (buffer g + off g + k).
  rewrite rd_wr_ne; [by apply H4|]. unfold PIPE_SIZE in *. lia.
- cbn [fst snd] in *. eexists m2, _. split; [reflexivity|]. split; [exact G1|]. split; [exact G2|exact G4].
Qed.

Lemma send_message_sent local l fp o :
length l = 8%nat -> (fp = 0 \/ exists f, files (io_of o) !! fp = Some f /\ pipe_safe f) ->
exists i, send_message local l fp o = Ret (set_sys i o) /\ sent fp local (io_of o) i.
Proof.
intros Hl Hfp. unfold send_message. set (m1 := message local l (bytes_of (io_of o))).
assert (forall a, ~ local <= a < local + 16 -> m1⟦a⟧ = (bytes_of (io_of o))⟦a⟧) as Hm
  by (intros a Ha; apply message_rest; lia).
destruct (decide (fp = 0)) as [->|Hne].
- change (pipe_write local 0 (set_bytes m1 (io_of o))) with (Ret (0, set_bytes m1 (io_of o))).
  cbn [mbind outcome_bind]. eexists. split; [reflexivity|]. constructor; [done|done|by intros a Ha _; apply Hm| |done].
  intros p f Hf. by exists f.
- destruct Hfp as [?|(f & Hf & Hs)]; [done|].
  destruct (pipe_write_keeps (set_bytes m1 (io_of o)) local fp f Hne Hf Hs) as (m & f' & E & B1 & B2 & U).
  rewrite E. cbn [mbind outcome_bind]. eexists. split; [reflexivity|]. constructor; [done|done|..].
  + intros a Ha Hb. cbn [bytes_of put_file set_files set_bytes]. rewrite U by (by apply Hb). by apply Hm.
  + intros p g Hg. cbn [files put_file set_files set_bytes]. destruct (decide (p = fp)) as [->|Hp].
    * exists f'. rewrite lookup_insert_eq. split; [done|]. assert (g = f) as -> by congruence. done.
    * exists g. by rewrite lookup_insert_ne.
  + intros p Hp. by apply lookup_insert_ne.
Qed.
End messages.

(** ** What is freed, in order *)

Fixpoint fcloses (l : list Z) (o : os) : outcome os :=
  match l with
  | [] => Ret o
  | fp :: l => o ← fclose_o fp o; fcloses l o
  end.

Section freeing.
Implicit Types (o : os) (i : sys mm) (h : mm) (l fps : list Z) (p fp : Z) (th : THREAD) (f : FILE) (m : mem).

Lemma frees_app_inv l1 l2 h h' : frees (l1 ++ l2) h = Ret h' -> exists h1, frees l1 h = Ret h1 /\ frees l2 h1 = Ret h'.
Proof.
rewrite frees_app. intros E. destruct (frees l1 h) as [h1| | | |] eqn:E1; try done. exists h1. by split.
Qed.

Lemma frees_one p h h' : frees [p] h = Ret h' -> free p h = Ret h'.
Proof. cbn [frees]. destruct (free p h); try done. Qed.

Lemma free_o_frees p o h : frees [p] (heap (io_of o)) = Ret h -> free_o p o = Ret (set_sys (set_heap h (io_of o)) o).
Proof. intros E%frees_one. unfold free_o, free_. by rewrite E. Qed.

Lemma fclose_o_frees fp o f h :
fp <> 0 -> files (io_of o) !! fp = Some f -> 1 <= flags f <= 4 -> frees [buffer f; fp] (heap (io_of o)) = Ret h ->
fclose_o fp o = Ret (set_sys (Sys h (bytes_of (io_of o)) (delete fp (files (io_of o))) (stdout_fp (io_of o))) o).
Proof.
intros Hne Hf Hfl E. apply (frees_app_inv [buffer f] [fp]) in E as (h1 & E1%frees_one & E2%frees_one).
unfold fclose_o, fclose. destruct (Z.eqb_spec fp 0); [done|]. unfold get_file at 1. rewrite Hf.
cbn [mbind outcome_bind].
assert ((flags f =? 1) || (flags f =? 2) || (flags f =? 3) || (flags f =? 4) = true) as -> by lia.
unfold std_file_close, get_file, free_. rewrite Hf. cbn [mbind outcome_bind]. rewrite E1. cbn [mbind outcome_bind].
cbn [heap set_heap]. rewrite E2. done.
Qed.

Lemma fcloses_frees fps tl o h' :
NoDup fps ->
(forall fp, fp ∈ fps -> fp <> 0 /\ exists f, files (io_of o) !! fp = Some f /\ 1 <= flags f <= 4) ->
frees (concat (stream_list (files (io_of o)) <$> fps) ++ tl) (heap (io_of o)) = Ret h' ->
exists i, fcloses fps o = Ret (set_sys i o) /\ frees tl (heap i) = Ret h' /\ bytes_of i = bytes_of (io_of o) /\
  stdout_fp i = stdout_fp (io_of o) /\ forall p, p ∉ fps -> files i !! p = files (io_of o) !! p.
Proof.
revert o. induction fps as [|fp fps IH]; intros o Hnd Hin E.
- exists (io_of o). split; [by destruct o as [[[] ? ?] ? ? ? ? ? ?]|]. done.
- apply NoDup_cons in Hnd as [Hfp Hnd]. destruct (Hin fp) as (Hne & f & Hf & Hfl); [left|].
  cbn [fmap list_fmap concat] in E. rewrite <- app_assoc in E.
  apply frees_app_inv in E as (h1 & E1 & E2). unfold stream_list at 1 in E1. rewrite Hf in E1.
  cbn [fcloses]. rewrite (fclose_o_frees fp o f h1 Hne Hf Hfl E1). cbn [mbind outcome_bind].
  set (o1 := set_sys _ o).
  assert (forall p, p ∈ fps -> files (io_of o1) !! p = files (io_of o) !! p) as Hsame.
  { intros p Hp. apply (lookup_delete_ne (files (io_of o)) fp p). intros ->. done. }
  destruct (IH o1 Hnd) as (i & Ei & Eh & Eb & Es & Ef).
  + intros p Hp. rewrite Hsame by done. apply Hin. by right.
  + assert (stream_list (files (io_of o1)) <$> fps = stream_list (files (io_of o)) <$> fps) as ->; [|exact E2].
    apply list_fmap_ext. intros k p Hp. apply list_elem_of_lookup_2 in Hp. unfold stream_list. by rewrite Hsame.
  + exists i. split; [exact Ei|]. split; [exact Eh|]. split; [exact Eb|]. split; [exact Es|].
    intros p Hp. rewrite not_elem_of_cons in Hp. rewrite Ef by tauto.
    apply (lookup_delete_ne (files (io_of o)) fp p). intros ->. tauto.
Qed.

(** [user_free] frees the rows in use, and the pool. *)
Lemma user_free_frees pool h m : user_free pool (h, m) = frees (pool_list m pool ++ [pool]) h.
Proof.
unfold user_free. rewrite frees_app. cbn beta iota.
assert (forall n k h, for_outcome n (Z.of_nat k) (fun (i : Z) h => if pool_ptr m pool i =? 0 then Ret h else free (pool_ptr m pool i) h) h =
  frees (filter (fun p => p <> 0) ((fun j : nat => pool_ptr m pool (Z.of_nat j)) <$> seq k n)) h) as H.
{ induction n as [|n IH]; intros k g; [done|]. cbn [for_outcome seq fmap list_fmap].
  replace (Z.of_nat k + 1) with (Z.of_nat (S k)) by lia.
  destruct (Z.eqb_spec (pool_ptr m pool (Z.of_nat k)) 0) as [E0|E0].
  - rewrite filter_cons_False by (rewrite E0; tauto). exact (IH (S k) g).
  - rewrite filter_cons_True by done. cbn [frees]. destruct (free (pool_ptr m pool (Z.of_nat k)) g) as [g'| | | |]; try done.
    exact (IH (S k) g'). }
change 0 with (Z.of_nat 0) at 1. rewrite H. unfold pool_list.
destruct (frees _ h) as [g| | | |]; try done. cbn [mbind outcome_bind frees]. by destruct (free pool g).
Qed.

Lemma pool_list_ext m m' pool : (forall a, pool <= a < pool + 0x2000 -> m'⟦a⟧ = m⟦a⟧) -> pool_list m' pool = pool_list m pool.
Proof.
intros Hm. unfold pool_list. f_equal. apply list_fmap_ext. intros k j Hj. apply lookup_seq in Hj as [-> Hk].
unfold pool_ptr. apply ld_ext. intros b Hb. apply Hm. lia.
Qed.

Lemma user_free_o_frees th o h :
frees (pool_list (bytes_of (io_of o)) (pool th) ++ [pool th]) (heap (io_of o)) = Ret h ->
user_free_o th o = Ret (set_sys (set_heap h (io_of o)) o).
Proof. intros E. unfold user_free_o. rewrite user_free_frees, E. done. Qed.
End freeing.

(** ** One thread *)

(** The records of the window [a] in the list: one at most. *)
Definition window_record (d : desk) (ps ws : list Z) (a : Z) (wl : list Z) : Prop :=
  ((a ∉ ws) /\ wl = []) \/ (a ∈ ws /\ forall p, p ∈ ps -> shows d p a -> wl = [p]).

Section thread.
Implicit Types (o : os) (i : sys mm) (h : mm) (l ps ws wl : list Z) (p fp local t : Z) (th : THREAD) (f : FILE) (m : mem) (d : desk).

Lemma window_o_frees fuel th o ps ws wl h :
Z.land (prv th) 0x10 <> 0 -> desk_rep (dk o) ps ws -> (length ps < fuel)%nat -> ws = [] \/ window th ∈ ws ->
window_record (dk o) ps ws (window th) wl -> frees (wl ++ [window th]) (heap (io_of o)) = Ret h ->
exists d ps', window_o fuel th o = Ret (set_sys (set_heap h (io_of o)) (set_dk d o)) /\
  desk_rep d ps' (filter (fun b => b <> window th) ws).
Proof.
intros Hp HR Hf Hreg HW E. unfold window_o. destruct (Z.eqb_spec (Z.land (prv th) 0x10) 0); [done|].
destruct HW as [[Ha ->]|[Ha Hwl]].
- destruct Hreg as [->|?]; [|done]. exists (dk o), ps. split; [|done]. unfold window_remove. rewrite (dr_count _ _ _ HR). cbn [length].
  change (Z.of_nat 0 <? 1) with true. cbv iota. cbn [mbind outcome_bind].
  rewrite (free_o_frees (window th) _ h); [done|exact E].
- destruct (window_remove_at fuel (window th) (dk o) (io_of o) ps ws HR Ha Hf) as
    (l1 & t & l2 & d' & -> & E1 & HR' & _ & _ & _ & Hsh).
  rewrite (Hwl t) in E; [|apply elem_of_app; right; left|done].
  apply frees_app_inv in E as (h1 & E2%frees_one & E3).
  exists d', (l1 ++ l2). split; [|done]. rewrite E1. unfold free_ at 1. rewrite E2. cbn [mbind outcome_bind].
  idtac. rewrite (free_o_frees (window th) _ h); [done|exact E3].
Qed.

Lemma streams_o_frees local th o r0 h' :
Z.land (prv th) 0x20 <> 0 -> threads (sc (pr o)) !! thread_ready_queue (sc (pr o)) = Some r0 ->
NoDup (streams_of th) ->
(forall fp, fp ∈ streams_of th -> fp <> 0 /\ exists f, files (io_of o) !! fp = Some f /\ 1 <= flags f <= 4) ->
(pipe_launcher o = 0 \/ (pipe_launcher o ∉ streams_of th) /\
  exists f, files (io_of o) !! pipe_launcher o = Some f /\ pipe_safe f) ->
frees (concat (stream_list (files (io_of o)) <$> streams_of th) ++ [mouse th]) (heap (io_of o)) = Ret h' ->
exists i, streams_o local th o = Ret (set_sys i (set_focus (stdin r0) (stderr r0) (mouse r0) o)) /\ heap i = h' /\
  (forall a, ~ local <= a < local + 16 ->
    (forall f, pipe_launcher o <> 0 -> files (io_of o) !! pipe_launcher o = Some f -> ~ buffer f <= a < buffer f + BUFSIZ) ->
    (bytes_of i)⟦a⟧ = (bytes_of (io_of o))⟦a⟧) /\
  (forall p f, p ∉ streams_of th -> files (io_of o) !! p = Some f ->
    exists f', files i !! p = Some f' /\ buffer f' = buffer f /\ flags f' = flags f).
Proof.
intros Hp Hr0 Hnd Hst Hla E. unfold streams_o. destruct (Z.eqb_spec (Z.land (prv th) 0x20) 0); [done|].
unfold foco_default, get_t. rewrite Hr0. cbn [mbind outcome_bind].
set (o1 := set_focus _ _ _ _).
destruct (fcloses_frees (streams_of th) [mouse th] o1 h' Hnd Hst E) as (i & E1 & E2 & Eb & _ & Ef).
change (fcloses (streams_of th) o1) with
  (o2 ← fclose_o (stdin th) o1; o3 ← fclose_o (stdout th) o2; o4 ← fclose_o (stderr th) o3;
   o5 ← fclose_o (pipe th) o4; Ret o5) in E1.
destruct (fclose_o (stdin th) o1) as [o2| | | |]; try done. cbn [mbind outcome_bind] in E1 |- *.
destruct (fclose_o (stdout th) o2) as [o3| | | |]; try done. cbn [mbind outcome_bind] in E1 |- *.
destruct (fclose_o (stderr th) o3) as [o4| | | |]; try done. cbn [mbind outcome_bind] in E1 |- *.
destruct (fclose_o (pipe th) o4) as [o5| | | |]; try done. cbn [mbind outcome_bind] in E1 |- *.
injection E1 as ->. set (o5 := set_sys i o1).
rewrite (free_o_frees (mouse th) o5 h' E2). cbn [mbind outcome_bind].
set (o6 := set_sys (set_heap h' (io_of o5)) o5).
change (pipe_launcher o6) with (pipe_launcher o). change (files (io_of o1)) with (files (io_of o)) in Ef.
change (bytes_of (io_of o1)) with (bytes_of (io_of o)) in Eb.
match goal with |- context [send_message local ?l _ _] =>
  destruct (send_message_sent local l (pipe_launcher o) o6) as (i' & E3 & [S1 S2 S3 S4 _]); [done|..] end.
{ destruct Hla as [?|[Hout (f & Hf & Hs)]]; [by left|right]. exists f. split; [|done].
  change (files (io_of o6)) with (files i). by rewrite Ef. }
exists i'. split; [rewrite E3; reflexivity|]. split; [exact S1|].
change (files (io_of o6)) with (files i) in S3, S4. change (bytes_of (io_of o6)) with (bytes_of i) in S3. split.
- intros a Ha Hb. rewrite S3, Eb; [done|done|]. intros f Hne Hf. apply Hb; [done|]. destruct Hla as [E0|[Hout _]]; [done|].
  by rewrite Ef in Hf.
- intros p f Hps Hf. apply S4. by rewrite Ef.
Qed.
End thread.

(** ** The ready queue without a thread *)

Section queue.
Implicit Types (s : sched mm) (l : list Z) (p q t u : Z) (r : THREAD) (B : blocks).

Lemma get_t_eq (t : Z) (s : sched mm) r : threads s !! t = Some r -> get_t t s = Ret r.
Proof. intros E. unfold get_t. by rewrite E. Qed.

Lemma unlink_at fuel s p l1 q t l2 rq rt :
linked (threads s) p (l1 ++ q :: t :: l2) -> NoDup (l1 ++ q :: t :: l2) -> (length l1 < fuel)%nat ->
threads s !! q = Some rq -> threads s !! t = Some rt -> head rt = t ->
unlink fuel p t s =
  Ret (put_t t (set_tail 0 (set_status (Z.land (status rt) (Z.lnot THREAD_WAIT)) rt)) (put_t q (set_next (next rt) rq) s)).
Proof.
intros Hl Hnd Hf Hq Ht Hh. revert p l1 Hl Hnd Hf. induction fuel as [|fuel IH]; intros p l1 Hl Hnd Hf; [lia|].
cbn [unlink]. destruct l1 as [|u l1]; cbn [app links] in Hl.
- destruct Hl as (-> & Hq0 & r & Hr & En & Ht0 & _). destruct (Z.eqb_spec q 0); [done|].
  assert (r = rq) as -> by congruence. rewrite (get_t_eq q s rq Hq). cbn [mbind outcome_bind].
  rewrite En, Z.eqb_refl, (get_t_eq t s rt Ht). cbn [mbind outcome_bind]. cbv zeta.
  assert (q <> t) as Hqt by (intros ->; apply NoDup_cons in Hnd as [Hnd _]; apply Hnd; left).
  assert (get_t t (put_t q (set_next (next rt) rq) s) = Ret rt) as E
    by (unfold get_t; cbn [put_t set_threads threads]; rewrite lookup_insert_ne by done; by rewrite Ht).
  rewrite E. cbn [mbind outcome_bind]. rewrite Hh, E. done.
- destruct Hl as (-> & Hu0 & r & Hr & Hl). destruct (Z.eqb_spec u 0); [done|]. rewrite (get_t_eq u s r Hr).
  cbn [mbind outcome_bind]. destruct (Z.eqb_spec (next r) t) as [E|_].
  + exfalso. apply NoDup_cons in Hnd as [_ Hnd]. rewrite E in Hl.
    assert (exists x l, l1 ++ q :: t :: l2 = x :: l) as (x & l & El) by (destruct l1; by eexists _, _).
    assert (exists l3, l1 ++ q :: t :: l2 = t :: l3) as [l3 E3].
    { rewrite El in Hl |- *. destruct Hl as (<- & _). by eexists. }
    destruct l1 as [|y l1].
    * injection E3 as -> _. apply NoDup_cons in Hnd as [Hnd _]. apply Hnd. left.
    * injection E3 as -> _. apply NoDup_cons in Hnd as [Hnd _]. apply Hnd. apply elem_of_app. right. right. left.
  + apply (IH (next r) l1); [done| |cbn in Hf; lia]. by apply NoDup_cons in Hnd as [_ Hnd].
Qed.

Lemma linked_ext m m' p l : (forall u r, u ∈ l -> m !! u = Some r -> m' !! u = Some r) -> linked m p l -> linked m' p l.
Proof. intros E. apply links_ext. intros u r Hu Hr. exists r. split; [by apply E|done]. Qed.

Lemma queue_ok_unlink s s' l1 q t l2 rq rt B B' :
queue_ok s (l1 ++ q :: t :: l2) (heap_blocks B) -> threads s !! q = Some rq -> threads s !! t = Some rt ->
threads s' = delete t (<[q := set_next (next rt) rq]> (threads s)) ->
thread_ready_queue s' = thread_ready_queue s -> next_pid s' = next_pid s -> mm_ok (heap (io s')) B' ->
(forall u, u ∈ l1 ++ q :: l2 -> is_Some (heap_blocks B !! u) -> is_Some (heap_blocks B' !! u)) ->
queue_ok s' (l1 ++ q :: l2) (heap_blocks B').
Proof.
intros [Hl Hnd Hpids Hdist Hh Hb] Hq Ht Eth Erq Enp Hs' HB.
assert (forall u, u ∈ l1 ++ q :: l2 -> u ∈ l1 ++ q :: t :: l2 /\ u <> t) as Hsub.
{ intros u Hu. split; [revert Hu; rewrite !elem_of_app, !elem_of_cons; tauto|]. intros ->.
  rewrite cons_middle, app_assoc in Hnd. apply NoDup_app in Hnd as (_ & Hd & Hnd). apply NoDup_cons in Hnd as [Hn _].
  rewrite cons_middle, app_assoc in Hu. apply elem_of_app in Hu as [Hu|Hu]; [|done]. apply (Hd t Hu). left. }
assert (forall u r', u ∈ l1 ++ q :: l2 -> threads s' !! u = Some r' ->
  exists r, threads s !! u = Some r /\ pid r' = pid r) as Hold.
{ intros u r' Hu Hr'. apply Hsub in Hu as [_ Hut]. rewrite Eth, lookup_delete_ne in Hr' by done.
  destruct (decide (u = q)) as [->|Huq].
  - rewrite lookup_insert_eq in Hr'. injection Hr' as <-. by exists rq.
  - rewrite lookup_insert_ne in Hr' by done. by exists r'. }
constructor.
- rewrite Eth, Erq. apply links_delete; [intros [_ Hn]%Hsub; done|].
  by apply (links_unlink (threads s) _ l1 q t l2 rq _ rt).
- apply NoDup_app in Hnd as (N1 & N2 & (N3 & [N4 N5]%NoDup_cons)%NoDup_cons). apply NoDup_app. split; [done|]. split.
  + intros u Hu. apply N2 in Hu. rewrite !elem_of_cons in *. tauto.
  + apply NoDup_cons. split; [|done]. intros Hq2. apply N3. by right.
- intros u Hu. destruct (Hsub u Hu) as [Hu2 Hut]. destruct (Hpids u Hu2) as (r & Hr & Hp). rewrite Enp, Eth.
  rewrite lookup_delete_ne by done. destruct (decide (u = q)) as [->|Huq].
  + rewrite lookup_insert_eq. eexists. split; [reflexivity|]. assert (r = rq) as -> by congruence. exact Hp.
  + rewrite lookup_insert_ne by done. by exists r.
- intros u v r1 r2 Hu Hv H1 H2 Ep. destruct (Hold u r1 Hu H1) as (x1 & Hx1 & P1). destruct (Hold v r2 Hv H2) as (x2 & Hx2 & P2).
  apply (Hdist u v x1 x2); [by apply Hsub|by apply Hsub|done|done|congruence].
- by exists B'.
- intros u Hu. apply HB; [done|]. apply Hb. by apply Hsub.
Qed.
End queue.

(** ** The end of a process *)

(** The thread [th] has no children; its streams are open, its pool is apart from what messages change; the list of windows
    is [ws], and the record of its own, if any, is [wl]. *)
Record holding (o : os) (local : Z) (th : THREAD) (ps ws wl : list Z) : Prop := {
  ho_alone : prv th = 0x31 /\ tail th = 0;
  ho_nodup : NoDup (streams_of th);
  ho_streams : forall fp, fp ∈ streams_of th -> fp <> 0 /\ exists f, files (io_of o) !! fp = Some f /\ 1 <= flags f <= 4;
  ho_launcher : pipe_launcher o = 0 \/ (pipe_launcher o ∉ streams_of th) /\
    exists f, files (io_of o) !! pipe_launcher o = Some f /\ pipe_safe f;
  ho_local : forall a, pool th <= a < pool th + 0x2000 -> ~ local <= a < local + 16;
  ho_pipes : forall a fp f, pool th <= a < pool th + 0x2000 -> fp <> 0 -> fp = pipe th \/ fp = pipe_launcher o ->
    files (io_of o) !! fp = Some f -> ~ buffer f <= a < buffer f + BUFSIZ;
  ho_desk : desk_rep (dk o) ps ws;
  ho_window : window_record (dk o) ps ws (window th) wl
}.

(** Everything [exit] frees on the way, the thread apart. *)
Definition held (i : sys mm) (th : THREAD) : list Z :=
  [window th] ++ concat (stream_list (files i) <$> streams_of th) ++ [mouse th] ++ pool_list (bytes_of i) (pool th) ++ [pool th].

Section ending.
Implicit Types (o : os) (i : sys mm) (h : mm) (l fs ps ws wl : list Z) (p fp local t : Z) (th : THREAD) (f : FILE) (m : mem) (d : desk).

Lemma held_list i t th : held i th ++ [t] = thread_list i t th.
Proof.
unfold held, thread_list, streams_of. cbn [fmap list_fmap concat]. rewrite app_nil_r. by rewrite <- !app_assoc.
Qed.

(** The first message, to the thread's own pipe. *)
Lemma holding_sent o local th ps ws wl i :
holding o local th ps ws wl -> sent (pipe th) local (io_of o) i ->
holding (set_sys i o) local th ps ws wl /\ held i th = held (io_of o) th.
Proof.
intros [H1 H2 H3 H4 H5 H6 H7 H8] [S1 S2 S3 S4 S5].
assert (pipe th ∈ streams_of th) as Hp by (unfold streams_of; rewrite !elem_of_cons; tauto).
split; [constructor; try done|].
- intros fp Hfp. destruct (H3 fp Hfp) as (Hne & f & Hf & Hfl). split; [done|].
  destruct (S4 fp f Hf) as (f' & Hf' & _ & E). exists f'. split; [exact Hf'|]. by rewrite E.
- destruct H4 as [?|[Hn (f & Hf & Hs)]]; [by left|right]. split; [exact Hn|]. exists f.
  split; [|done]. change (files i !! pipe_launcher o = Some f). rewrite S5; [done|]. intros E. apply Hn. by rewrite E.
- intros a fp f Ha Hfp0 Hfp Hf. change (files i !! fp = Some f) in Hf. destruct (decide (fp = pipe th)) as [->|Hne].
  + destruct (H3 (pipe th) Hp) as (_ & g & Hg & _). destruct (S4 _ g Hg) as (g' & Hg' & E & _).
    assert (g' = f) as -> by congruence. rewrite E. by apply (H6 a (pipe th) g Ha); [|left|].
  + rewrite S5 in Hf by done. by apply (H6 a fp f Ha).
- unfold held. do 2 f_equal.
  + f_equal. apply list_fmap_ext. intros k fp Hfp. apply list_elem_of_lookup_2 in Hfp.
    destruct (H3 fp Hfp) as (_ & f & Hf & _). destruct (S4 fp f Hf) as (f' & Hf' & E & _). unfold stream_list.
    by rewrite Hf, Hf', E.
  + do 2 f_equal. apply pool_list_ext. intros a Ha. apply S3; [by apply H5|]. intros f Hne Hf.
    by apply (H6 a (pipe th) f Ha); [|left|].
Qed.

(** What the thread [t] holds is freed in one pass. *)
Lemma exit_free_one n fuel local t o th ps ws wl tb fs r0 h tl :
holding o local th ps ws wl -> threads (sc (pr o)) !! t = Some th -> t <> 0 -> (length ps < fuel)%nat ->
threads (sc (pr o)) !! thread_ready_queue (sc (pr o)) = Some r0 -> ws = [] \/ window th ∈ ws ->
spaces (pr o) !! t = Some (Pspace tb (zlen fs)) ->
frees ([t_pml4e tb; t_pdpte tb; t_pde tb; t_pte tb] ++ wl ++ held (io_of o) th ++ tl)
  (for_upto 0 (zlen fs) (free_user_page (t_pte tb)) (heap (io_of o))) = Ret h ->
exists i d ps', exit_free (S (S n)) fuel local t o =
    Ret (set_sys i (set_focus (stdin r0) (stderr r0) (mouse r0) (set_dk d o))) /\
  frees tl (heap i) = Ret h /\ desk_rep d ps' (filter (fun b => b <> window th) ws) /\
  (forall p f, p ∉ streams_of th -> files (io_of o) !! p = Some f ->
    exists f', files i !! p = Some f' /\ buffer f' = buffer f /\ flags f' = flags f).
Proof.
intros HH Ht Ht0 Hf Hr0 Hreg Hsp E. pose proof HH as [[Hprv Htl] H2 H3 H4 H5 H6 H7 H8].
apply frees_app_inv in E as (h1 & E1 & E). apply frees_app_inv in E as (h2 & E2 & E).
unfold held in E. rewrite <- app_assoc in E. apply frees_app_inv in E as (h3 & E3 & E).
rewrite <- app_assoc in E. apply frees_app_inv in E as (h4 & E4 & E). rewrite <- app_assoc in E.
apply frees_app_inv in E as (h5 & E5 & E). apply frees_app_inv in E as (h6 & E6 & E7).
cbn [exit_free]. rewrite (proj2 (Z.eqb_neq t 0) Ht0), (get_t_eq _ _ _ Ht). cbn [mbind outcome_bind].
set (o1 := set_sys (set_heap h1 (io_of o)) o).
assert (space_o t o = Ret o1) as Esp.
{ unfold space_o. rewrite Hsp.
  change (default (Pspace (Tables 0 0 0 0) 0) (Some (Pspace tb (zlen fs)))) with (Pspace tb (zlen fs)).
  cbv zeta. cbn [ps_tables frame_size]. rewrite release_frees, E1. reflexivity. }
rewrite Esp. cbn [mbind outcome_bind].
destruct (window_o_frees fuel th o1 ps ws wl h3) as (d & ps' & Ew & HR'); [by rewrite Hprv|done|done|exact Hreg|done| |].
{ rewrite frees_app. change (heap (io_of o1)) with h1. rewrite E2. exact E3. }
rewrite Ew. cbn [mbind outcome_bind]. set (o2 := set_sys _ (set_dk d o1)).
destruct (streams_o_frees local th o2 r0 h5) as (i & Es & Hh & Hb & Hfi); [by rewrite Hprv|done|done|done|done| |].
{ rewrite frees_app. change (heap (io_of o2)) with h3. change (files (io_of o2)) with (files (io_of o)).
  rewrite E4. exact E5. }
rewrite Es. cbn [mbind outcome_bind]. set (o3 := set_sys i _).
assert (pool_list (bytes_of i) (pool th) = pool_list (bytes_of (io_of o)) (pool th)) as Epool.
{ apply pool_list_ext. intros a Ha. apply Hb; [by apply H5|]. intros f Hne Hfl. by apply (H6 a (pipe_launcher o) f Ha); [|right|]. }
rewrite (user_free_o_frees th o3 h6); [|change (io_of o3) with i; by rewrite Epool, Hh]. cbn [mbind outcome_bind].
rewrite Htl. change (0 =? 0) with true. cbv iota. exists (set_heap h6 i), d, ps'. split; [reflexivity|].
split; [exact E7|]. split; [exact HR'|exact Hfi].
Qed.

(** The queue is closed over the thread, whose pages go back. *)
Lemma exit_unlink_one n fuel o l1 q t l2 rq th h :
linked (threads (sc (pr o))) (thread_ready_queue (sc (pr o))) (l1 ++ q :: t :: l2) -> NoDup (l1 ++ q :: t :: l2) ->
(length l1 < fuel)%nat -> threads (sc (pr o)) !! q = Some rq -> threads (sc (pr o)) !! t = Some th -> head th = t ->
frees [t] (heap (io_of o)) = Ret h ->
exit_unlink (S (S n)) fuel t o = Ret (set_sc (set_threads (delete t (<[q := set_next (next th) rq]> (threads (sc (pr o)))))
  (set_io (set_heap h (io_of o)) (sc (pr o)))) o).
Proof.
intros Hl Hnd Hf Hq Ht Hh E. destruct (links_lookup _ _ _ t Hl) as (_ & _ & Ht0).
{ apply elem_of_app. right. right. left. }
assert (q <> t) as Hqt.
{ apply NoDup_app in Hnd as (_ & _ & [Hn _]%NoDup_cons). intros ->. apply Hn. left. }
cbn [exit_unlink]. rewrite (proj2 (Z.eqb_neq t 0) Ht0), (unlink_at fuel _ _ l1 q t l2 rq th Hl Hnd Hf Hq Ht Hh).
cbn [mbind outcome_bind]. set (th2 := set_tail 0 _). assert (tail th2 = 0) as Etl by reflexivity. clearbody th2.
set (s2 := put_t t th2 _).
assert (threads s2 !! t = Some th2) as E2 by (unfold s2; cbn [put_t set_threads threads]; apply lookup_insert_eq).
rewrite (get_t_eq t s2 th2 E2). cbn [mbind outcome_bind]. rewrite (free_o_frees t (set_sc s2 o) h E).
cbn [mbind outcome_bind]. rewrite Etl. change (0 =? 0) with true. cbv iota.
assert (delete t (threads s2) = delete t (<[q := set_next (next th) rq]> (threads (sc (pr o))))) as <-.
{ unfold s2. cbn [put_t set_threads threads]. by rewrite delete_insert_eq. }
reflexivity.
Qed.
End ending.

(** The process whose thread is [t], behind [q] in the ready queue [l1 ++ q :: t :: l2], may end: its address space stands in
    the blocks [lt] and on the frames [fs], the record of its window in [wl] and the rest of what it holds
    in [own]; no other thread stands there. *)
Record ending (o : os) (B : blocks) (local : Z) (l1 : list Z) (q t : Z) (l2 : list Z) (th : THREAD)
    (lt wl own fs ps ws : list Z) : Prop := {
  en_queue : queue_ok (sc (pr o)) (l1 ++ q :: t :: l2) (heap_blocks B);
  en_heap : mm_ok (heap (io_of o)) B;
  en_thread : threads (sc (pr o)) !! t = Some th;
  en_head : head th = t;
  en_space : exists tb, spaces (pr o) !! t = Some (Pspace tb (zlen fs)) /\ space_at (heap (io_of o)) B tb lt fs;
  en_own : page_addr <$> own ≡ₚ thread_list (io_of o) t th;
  en_nodup : NoDup (lt ++ wl ++ own);
  en_blocks : forall a, a ∈ lt ++ wl ++ own -> is_Some (B !! a);
  en_others : forall u, u ∈ l1 ++ q :: l2 -> u ∉ page_addr <$> (lt ++ wl ++ own);
  en_pipe : exists f, files (io_of o) !! pipe th = Some f /\ pipe_safe f;
  en_holding : holding o local th ps ws (page_addr <$> wl)
}.

Section exit.
Implicit Types (o : os) (B : blocks) (s : sched mm) (h : mm) (t p q : Z) (th : THREAD) (l lt wl own fs ps ws : list Z).

Lemma mark_zombies_one n t th s : t <> 0 -> threads s !! t = Some th -> tail th = 0 ->
mark_zombies (S (S n)) t s = Ret (put_t t (set_status (Z.lor (status th) THREAD_ZUMBI) th) s).
Proof.
intros Ht0 Ht Htl. cbn [mark_zombies]. rewrite (proj2 (Z.eqb_neq t 0) Ht0), (get_t_eq _ _ _ Ht).
cbn [mbind outcome_bind]. by rewrite Htl.
Qed.

(** Blocks other than those given back stay. *)
Lemma without_blocks B l u : is_Some (heap_blocks B !! u) -> u ∉ page_addr <$> l -> is_Some (heap_blocks (without l B) !! u).
Proof.
intros [j (a & n & -> & -> & Ha)%heap_blocks_Some] Hu. exists (n * 0x1000). apply heap_blocks_Some.
exists a, n. do 2 (split; [done|]). apply without_Some. split; [|done]. intros Hin. apply Hu.
apply list_elem_of_fmap. by exists a.
Qed.

(** Everything it frees, in the order of the calls. *)
Lemma ending_frees o B local l1 q t l2 th lt wl own fs ps ws tb :
ending o B local l1 q t l2 th lt wl own fs ps ws -> spaces (pr o) !! t = Some (Pspace tb (zlen fs)) ->
space_at (heap (io_of o)) B tb lt fs ->
exists h, frees ([t_pml4e tb; t_pdpte tb; t_pde tb; t_pte tb] ++ (page_addr <$> wl) ++ held (io_of o) th ++ [t])
    (for_upto 0 (zlen fs) (free_user_page (t_pte tb)) (heap (io_of o))) = Ret h /\
  gave (lt ++ wl ++ own) fs (heap (io_of o)) B h (without (lt ++ wl ++ own) B).
Proof.
intros [_ Hs _ _ _ Hown Hnd Hbl _ _ _] Hspace Hsp.
pose proof (user_frames_gave _ _ _ _ _ Hs Hsp) as G1. cbv zeta in G1.
set (h1 := for_upto 0 (zlen fs) (free_user_page (t_pte tb)) (heap (io_of o))) in *.
symmetry in Hown. apply Permutation_map_inv in Hown as (own' & Elist & Hown').
assert (lt ++ wl ++ own' ≡ₚ lt ++ wl ++ own) as HL by (by rewrite Hown').
destruct (frees_gave (lt ++ wl ++ own') h1 B) as (h2 & E2 & G2);
  [apply G1|by rewrite HL|by intros a; rewrite HL; apply Hbl|]. exists h2. split.
- rewrite held_list, Elist, (sp_list _ _ _ _ _ Hsp). change (map page_addr own') with (page_addr <$> own').
  by rewrite <- !fmap_app.
- apply (gave_trans [] fs _ [] _ _ _ _ _ _ G1) in G2; [|by intros b Hb%not_elem_of_nil]. rewrite app_nil_r in G2.
  exact (gave_perm _ _ _ _ _ _ _ HL G2).
Qed.

Lemma exit_spec fuel rc t local o B l1 q l2 th lt wl own fs ps ws :
ending o B local l1 q t l2 th lt wl own fs ps ws -> ws = [] \/ window th ∈ ws ->
(length l1 + length ps + 2 <= fuel)%nat ->
exists o' ps', exit fuel rc t local o = Ret o' /\
  queue_ok (sc (pr o')) (l1 ++ q :: l2) (heap_blocks (without (lt ++ wl ++ own) B)) /\
  gave (lt ++ wl ++ own) fs (heap (io_of o)) B (heap (io_of o')) (without (lt ++ wl ++ own) B) /\
  desk_rep (dk o') ps' (filter (fun b => b <> window th) ws) /\
  (forall p f, p ∉ streams_of th -> files (io_of o) !! p = Some f ->
    exists f', files (io_of o') !! p = Some f' /\ buffer f' = buffer f /\ flags f' = flags f) /\
  mult_task o' = 1.
Proof.
intros HE Hreg Hf. pose proof HE as [Hq Hs Ht Hh (tb & Hspace & Hsp) _ _ _ Hoth Hpipe HH]. destruct fuel as [|[|n]]; [lia..|].
pose proof Hq as [Hl Hqnd _ _ _ _]. pose proof (ho_alone _ _ _ _ _ _ HH) as [Hprv Htl].
destruct (links_lookup _ _ _ t Hl) as (_ & _ & Ht0); [apply elem_of_app; right; right; left|].
destruct (links_lookup _ _ _ q Hl) as (rq & Hrq & _); [apply elem_of_app; right; left|].
assert (q <> t) as Hqt.
{ apply NoDup_app in Hqnd as (_ & _ & [Hn _]%NoDup_cons). intros ->. apply Hn. left. }
destruct (ending_frees o B local l1 q t l2 th lt wl own fs ps ws tb HE Hspace Hsp) as (h2 & E2 & G).
set (h1 := for_upto 0 (zlen fs) (free_user_page (t_pte tb)) (heap (io_of o))) in *.
unfold exit. rewrite (mark_zombies_one n t th _ Ht0 Ht Htl). cbn [mbind outcome_bind].
set (th1 := set_status (Z.lor (status th) THREAD_ZUMBI) th). set (o1 := set_sc _ o).
assert (holding o1 local th1 ps ws (page_addr <$> wl)) as HH1 by (destruct HH; by constructor).
assert (threads (sc (pr o1)) !! t = Some th1) as Ht1 by apply lookup_insert_eq.
rewrite (get_t_eq _ _ _ Ht1). cbn [mbind outcome_bind].
assert (linked (threads (sc (pr o1))) (thread_ready_queue (sc (pr o1))) (l1 ++ q :: t :: l2)) as Hl1
  by exact (links_put (nxt := next) _ _ _ t th th1 Ht eq_refl Hl).
assert (exists r0, threads (sc (pr o1)) !! thread_ready_queue (sc (pr o1)) = Some r0) as [r0 Hr0].
{ destruct (links_lookup _ _ _ (thread_ready_queue (sc (pr o1))) Hl1) as (r0 & Hr0 & _); [|by exists r0].
  destruct l1 as [|u l1]; destruct Hl1 as (-> & _); left. }
destruct (send_message_sent local [0x1001; 0; 0; 0; 0; 0; 0; 0] (pipe th1) o1) as (i2 & Es & Hsent); [done| |].
{ right. exact Hpipe. }
rewrite Es. cbn [mbind outcome_bind]. destruct (holding_sent o1 local th1 ps ws _ i2 HH1 Hsent) as [HH2 Eheld].
set (o2 := set_sys i2 o1) in *.
destruct (exit_free_one n (S (S n)) local t o2 th1 ps ws (page_addr <$> wl) tb fs r0 h2 [t]) as
  (i3 & d & ps' & E3 & Eh3 & HR & Hfi); [done|done|done|lia|done|exact Hreg|done| |].
{ change (io_of o2) with i2. rewrite Eheld, (se_heap _ _ _ _ Hsent). rewrite <- E2. f_equal. }
rewrite E3. cbn [mbind outcome_bind]. set (o3 := set_sys i3 _).
assert (get_t t (sc (pr (set_mult_task 0 o3))) = Ret th1) as -> by exact (get_t_eq _ _ _ Ht1).
cbn [mbind outcome_bind]. change (prv th1) with (prv th). rewrite Hprv. change (Z.land 0x31 0x20 =? 0) with false.
cbv iota. cbn [mbind outcome_bind].
assert (threads (sc (pr o1)) !! q = Some rq) as Hrq1 by exact (eq_trans (lookup_insert_ne _ _ _ _ (not_eq_sym Hqt)) Hrq).
rewrite (exit_unlink_one n (S (S n)) (set_sc (sc (pr (set_mult_task 0 o3))) (set_mult_task 0 o3)) l1 q t l2 rq th1 h2 Hl1 Hqnd
  ltac:(lia) Hrq1 Ht1 Hh Eh3).
cbn [mbind outcome_bind]. eexists _, ps'. split; [reflexivity|].
split; [|split; [|split; [|split; [|done]]]].
- apply (queue_ok_unlink (sc (pr o)) _ l1 q t l2 rq th B _ Hq Hrq Ht); [|done|done|apply G|].
  + change (delete t (<[q := set_next (next th) rq]> (<[t := th1]> (threads (sc (pr o))))) =
      delete t (<[q := set_next (next th) rq]> (threads (sc (pr o))))).
    by rewrite insert_insert_ne, delete_insert_eq by done.
  + intros u Hu Hu2. apply without_blocks; [done|]. by apply Hoth.
- exact G.
- exact HR.
- intros p f Hp Hpf. destruct (se_files _ _ _ _ Hsent p f Hpf) as (f1 & Hf1 & E1 & F1).
  destruct (Hfi p f1 Hp Hf1) as (f2 & Hf2 & E4 & F2). exists f2. split; [exact Hf2|]. split; congruence.
Qed.
End exit.
