(* ===== verification/Life.v ===== *)
(** * Life: a process from its start to its end

    [run_step] is what a program may ask of the kernel while it runs: memory that the table of its
    thread can record, its window in the compositor's list, its own bytes.  However these follow one another,
    the end of the process gives back what its start and they have taken: Start, Process, Window and Exit put
    together.  What the table cannot record is not given back by the code, and is not a step here: the
    block a program asks for while all 512 rows are in use ([__malloc_syscall] returns it unrecorded), and the pages
    of the system call 4 ([syscall_alloc_pages]), which enters nothing in the table. *)
From S2P Require Import Prelude Links KString Bytes Files Thread Frames Pages Paging Heap Ledger Exec.
From S2P Require Import Process Start Window Exit.

Definition set_pr (p : proc) (o : os) : os :=
  Os p (dk o) (std_in o) (std_err o) (mouse2 o) (pipe_launcher o) (mult_task o).
Definition set_ubytes (m : mem) (o : os) : os := set_pr (Proc (sc (pr o)) (spaces (pr o)) m) o.

(** [malloc] and [free] of the running thread [t], its window, and stores to its own memory.  A request is for at
    least one byte and less than 2 GiB, finds room in the heap, and a row of the table free; what is freed is a block
    the table names. *)
Inductive run_step (t : Z) : os -> os -> Prop :=
| run_malloc th size addr h m o :
    threads (sc (pr o)) !! t = Some th -> 0 < size < 2 ^ 31 - 0x1000 ->
    heap_room (heap (io_of o)) ((size + 0xFFF) / 0x1000 * 0x1000) ->
    (exists i, 0 <= i < POOL_COUNT /\ pool_ptr (bytes_of (io_of o)) (pool th) i = 0) ->
    malloc_syscall_ (pool th) size (heap (io_of o), bytes_of (io_of o)) = Ret (addr, (h, m)) ->
    run_step t o (set_sys (set_heap h (set_bytes m (io_of o))) o)
| run_free th ptr h m o :
    threads (sc (pr o)) !! t = Some th -> ptr <> 0 ->
    (exists i, 0 <= i < POOL_COUNT /\ pool_ptr (bytes_of (io_of o)) (pool th) i = ptr) ->
    free_syscall_ (pool th) ptr (heap (io_of o), bytes_of (io_of o)) = Ret (h, m) ->
    run_step t o (set_sys (set_heap h (set_bytes m (io_of o))) o)
| run_window th fuel d i ps ws o :
    threads (sc (pr o)) !! t = Some th -> desk_rep (dk o) ps ws -> window th ∉ ws -> zlen ws + 1 < 2 ^ 63 ->
    (S (length ps) < fuel)%nat -> heap_room (heap (io_of o)) sizeof_PAINT ->
    window_add fuel (window th) (dk o) (io_of o) = Ret (d, i) -> run_step t o (set_sys i (set_dk d o))
| run_store m o : run_step t o (set_ubytes m o).

(** ** One system call, in the ledger *)

Section calls.
Implicit Types (h : mm) (m : gmap Z Z) (B : blocks) (a i len size pool ptr : Z) (l : list Z).

Lemma room_pages h B len : mm_ok h B -> 0 < len -> heap_room h (len * 0x1000) -> pages_room B len /\ frames_room h len.
Proof.
intros Hs Hl [H1 (fs & r & H2)]. replace ((len * 0x1000 + 0xFFF) / 0x1000) with len in * by word_lia.
split; [by apply H1|by exists (fs, r)].
Qed.

(** A row of the table is put to another value. *)
Lemma pool_list_row m pool i ptr size :
0 <= i < POOL_COUNT -> 0 <= ptr < 2 ^ 64 -> exists l1 l2,
  pool_list m pool = l1 ++ filter (fun p => p <> 0) [pool_ptr m pool i] ++ l2 /\
  pool_list (pool_row pool i ptr size m) pool = l1 ++ filter (fun p => p <> 0) [ptr] ++ l2.
Proof.
intros Hi Hp. unfold POOL_COUNT, pool_list in *. set (k := Z.to_nat i).
assert (seq 0 512 = seq 0 k ++ [k] ++ seq (S k) (511 - k)) as ->.
{ replace 512%nat with (k + (1 + (511 - k)))%nat by lia. rewrite !seq_app. cbn [seq app]. do 2 f_equal. f_equal. lia. }
assert (forall g : Z -> Z, filter (fun p => p <> 0) ((fun j : nat => g (Z.of_nat j)) <$> seq 0 k ++ [k] ++ seq (S k) (511 - k)) =
  filter (fun p => p <> 0) ((fun j : nat => g (Z.of_nat j)) <$> seq 0 k) ++ filter (fun p => p <> 0) [g i] ++
  filter (fun p => p <> 0) ((fun j : nat => g (Z.of_nat j)) <$> seq (S k) (511 - k))) as Hsplit.
{ intros g. rewrite !fmap_app, !filter_app. cbn [fmap list_fmap]. unfold k. by rewrite Z2Nat.id by lia. }
rewrite (Hsplit (pool_ptr m pool)), (Hsplit (pool_ptr (pool_row pool i ptr size m) pool)).
rewrite pool_ptr_row, Z.eqb_refl by done.
assert (forall l : list nat, Forall (fun j => j <> k) l -> (fun j => pool_ptr (pool_row pool i ptr size m) pool (Z.of_nat j)) <$> l =
  (fun j => pool_ptr m pool (Z.of_nat j)) <$> l) as Hsame.
{ induction 1 as [|j l Hj _ IH]; [done|]. cbn [fmap list_fmap]. rewrite pool_ptr_row by done. rewrite IH.
  by destruct (Z.eqb_spec (Z.of_nat j) i); [lia|]. }
rewrite !Hsame; [by eexists _, _|..]; apply Forall_forall; intros j Hj%elem_of_seq; lia.
Qed.

Lemma malloc_ledger h m B pool size addr h' m' :
mm_ok h B -> 0 < size < 2 ^ 31 - 0x1000 -> heap_room h ((size + 0xFFF) / 0x1000 * 0x1000) ->
(exists i, 0 <= i < POOL_COUNT /\ pool_ptr m pool i = 0) ->
malloc_syscall_ pool size (h, m) = Ret (addr, (h', m')) ->
exists a B', addr = page_addr a /\ took [a] [] h B h' B' /\ (forall b, 0x8000000 <= b -> (tab h')⟦b⟧ = (tab h)⟦b⟧) /\
  pool_list m' pool ≡ₚ addr :: pool_list m pool /\ forall b, ~ pool <= b < pool + 0x2000 -> m'⟦b⟧ = m⟦b⟧.
Proof.
intros Hs Hsz Hroom Hfree. unfold malloc_syscall_. rewrite u32_small, (s32_small (size / 0x1000)) by word_lia.
replace (if size mod 0x1000 =? 0 then size / 0x1000 else size / 0x1000 + 1) with ((size + 0xFFF) / 0x1000)
  by (destruct (Z.eqb_spec (size mod 0x1000) 0); word_lia).
set (len := (size + 0xFFF) / 0x1000) in *. assert (0 < len < 2 ^ 31) as Hlen by (unfold len; word_lia).
destruct (Z.eqb_spec len 0); [lia|]. destruct (room_pages h B len Hs ltac:(lia) Hroom) as [R1 R2].
destruct (palloc_more h B 1 len 0 Hs ltac:(lia) ltac:(lia)) as (a & h1 & E & Ha & M); [by rewrite Z.add_0_r..|].
rewrite E. cbn [mbind outcome_bind].
pose proof (pool_find_spec m pool 0) as HF. destruct (pool_find m pool 0) as [i|].
2:{ destruct Hfree as (i & Hi & E0). by destruct (HF i Hi). }
destruct HF as [Hi Ei]. intros [= <- <- <-].
assert (page_addr a < 2 ^ 64).
{ apply (mm_addresses h1 (heap_blocks (<[a := len]> B)) (page_addr a) (len * 0x1000)).
  - exists (<[a := len]> B). split; [exact (mo_ok _ _ _ _ _ _ M)|done].
  - apply heap_blocks_Some. exists a, len. by rewrite lookup_insert_eq. }
exists a, (<[a := len]> B). split; [done|]. split; [apply M|]. split; [apply M|]. split.
- destruct (pool_list_row m pool i (page_addr a) size Hi ltac:(lia)) as (l1 & l2 & -> & ->). rewrite Ei.
  rewrite filter_cons_True by lia. rewrite filter_cons_False by (intros Hn; by apply Hn). cbn [app filter list_filter].
  by rewrite Permutation_middle.
- intros b Hb. unfold pool_row, POOL_COUNT in *. by rewrite !rd_st_out by lia.
Qed.

Lemma free_ledger h m B pool a h' m' :
mm_ok h B -> is_Some (B !! a) -> page_addr a <> 0 -> (exists i, 0 <= i < POOL_COUNT /\ pool_ptr m pool i = page_addr a) ->
free_syscall_ pool (page_addr a) (h, m) = Ret (h', m') ->
gave [a] [] h B h' (delete a B) /\ pool_list m pool ≡ₚ page_addr a :: pool_list m' pool /\
  forall b, ~ pool <= b < pool + 0x2000 -> m'⟦b⟧ = m⟦b⟧.
Proof.
intros Hs HB Hne Hrow. unfold free_syscall_. destruct (Z.eqb_spec (page_addr a) 0); [done|].
destruct (kfree_gave h B a Hs HB) as (h1 & E & G). cbn [free mm_allocator]. rewrite E. cbn [mbind outcome_bind].
pose proof (pool_find_spec m pool (page_addr a)) as HF. destruct (pool_find m pool (page_addr a)) as [i|].
2:{ destruct Hrow as (i & Hi & E0). by destruct (HF i Hi). }
destruct HF as [Hi Ei]. intros [= <- <-]. split; [done|]. split.
- destruct (pool_list_row m pool i 0 0 Hi ltac:(lia)) as (l1 & l2 & -> & ->). rewrite Ei.
  rewrite filter_cons_True by done. rewrite filter_cons_False by (intros Hn; by apply Hn). cbn [app filter list_filter].
  by rewrite Permutation_middle.
- intros b Hb. unfold pool_row, POOL_COUNT in *. by rewrite !rd_st_out by lia.
Qed.
End calls.

(** ** The running process *)

(** The process of [t], started in the state [s0] with the blocks [B0] behind the threads [l1 ++ [q]]: since then
    its address space [lt], [fs], the record [wl] of its window and [own] have been taken, and nothing else. *)
Record living (s0 : mm) (B0 : blocks) (local : Z) (l1 : list Z) (q t : Z) (th : THREAD) (lt fs : list Z) (o : os)
    (B : blocks) (wl own ps ws : list Z) : Prop := {
  lv_queue : queue_ok (sc (pr o)) (l1 ++ q :: [t]) (heap_blocks B);
  lv_thread : threads (sc (pr o)) !! t = Some th;
  lv_head : head th = t;
  lv_space : exists tb, spaces (pr o) !! t = Some (Pspace tb (zlen fs)) /\ space_at (heap (io_of o)) B tb lt fs;
  lv_took : took (lt ++ wl ++ own) fs s0 B0 (heap (io_of o)) B;
  lv_own : page_addr <$> own ≡ₚ thread_list (io_of o) t th;
  lv_pipe : exists f, files (io_of o) !! pipe th = Some f /\ pipe_safe f;
  lv_base : forall u, u ∈ l1 ++ [q] -> is_Some (heap_blocks B0 !! u);
  lv_gid : forall a, pool th <= a < pool th + 0x2000 -> ~ window th + window_gid <= a < window th + window_gid + 4;
  lv_pool : exists pp, pool th = page_addr pp /\ B !! pp = Some 2;
  lv_window : window th <> 0;
  lv_paints : forall p, p ∈ paint_ready_queue (dk o) :: ps -> is_Some (heap_blocks B !! p) /\
    (p ∈ page_addr <$> wl \/ is_Some (heap_blocks B0 !! p));
  lv_holding : holding o local th ps ws (page_addr <$> wl)
}.

(** Two blocks share no byte. *)
Lemma blocks_apart (B : blocks) (a n b m y : Z) : block_ok B -> B !! a = Some n -> B !! b = Some m -> a <> b ->
page_addr a <= y < page_addr (a + n) -> ~ page_addr b <= y < page_addr (b + m).
Proof.
intros Hok Ha Hb Hne Hy Hy2. apply Hne. unfold page_addr in *.
destruct (block_unique B a n b m ((y - ALLOC_PAGE_MEMORY) / 0x1000) Hok Ha Hb); [word_lia|word_lia|done].
Qed.

Section living.
Context (s0 : mm) (B0 : blocks) (local : Z) (l1 : list Z) (q t : Z) (th : THREAD) (lt fs : list Z).
Implicit Types (o : os) (h : mm) (m : gmap Z Z) (B : blocks) (wl own ps ws : list Z) (i : sys mm) (d : desk).

Abbreviation lives := (living s0 B0 local l1 q t th lt fs).

(** A block that was there before is none of those that were taken. *)
Lemma took_old l fs' s B s' B' u : took l fs' s B s' B' -> is_Some (heap_blocks B !! u) -> u ∉ page_addr <$> l.
Proof.
intros T [n (a & m & -> & _ & Ha)%heap_blocks_Some] (b & E & Hb)%list_elem_of_fmap. apply (inj page_addr) in E as ->.
destruct (tk_new _ _ _ _ _ _ T b Hb) as [? _]. congruence.
Qed.

Lemma living_ending o B wl own ps ws : lives o B wl own ps ws -> ending o B local l1 q t [] th lt wl own fs ps ws.
Proof.
intros [L1 L2 L3 L4 L5 L6 L7 L8 _ _ _ _ L12]. constructor; try done.
- apply L5.
- apply L5.
- intros a Ha. by apply (tk_new _ _ _ _ _ _ L5).
- intros u Hu. apply (took_old _ _ _ _ _ _ u L5). by apply L8.
Qed.

(** The memory changed, and the bytes, but not those of the pool. *)
Lemma holding_heap o ps ws wl h m :
holding o local th ps ws wl -> holding (set_sys (set_heap h (set_bytes m (io_of o))) o) local th ps ws wl.
Proof. intros []. by constructor. Qed.

Lemma thread_list_pool i i' x : files i' = files i ->
pool_list (bytes_of i') (pool th) ≡ₚ x :: pool_list (bytes_of i) (pool th) -> thread_list i' t th ≡ₚ x :: thread_list i t th.
Proof.
intros Ef Hpool. unfold thread_list. rewrite Ef. set (f := files i).
assert (forall l, [window th] ++ stream_list f (stdin th) ++ stream_list f (stdout th) ++ stream_list f (stderr th) ++
  stream_list f (pipe th) ++ [mouse th] ++ l = ([window th] ++ stream_list f (stdin th) ++ stream_list f (stdout th) ++
  stream_list f (stderr th) ++ stream_list f (pipe th) ++ [mouse th]) ++ l) as E by (intros l; by rewrite <- !app_assoc).
rewrite !E, Hpool. symmetry. apply Permutation_middle.
Qed.

(** A block was taken for the program. *)
Lemma living_more o B wl own ps ws a h B' m :
lives o B wl own ps ws -> took [a] [] (heap (io_of o)) B h B' ->
(forall b, 0x8000000 <= b -> (tab h)⟦b⟧ = (tab (heap (io_of o)))⟦b⟧) ->
pool_list m (pool th) ≡ₚ page_addr a :: pool_list (bytes_of (io_of o)) (pool th) ->
lives (set_sys (set_heap h (set_bytes m (io_of o))) o) B' wl (own ++ [a]) ps ws.
Proof.
intros [L1 L2 L3 (tb & Et & Hsp) L5 L6 L7 L8 L9 (pp & Epp & Hpp) L10 L11 L12] T Htab Hpool.
assert (forall b n, B !! b = Some n -> B' !! b = Some n) as Hsub by (intros b n; exact (tk_sub _ _ _ _ _ _ b n T)).
constructor; try done.
- exact (queue_ok_heap _ _ B (set_heap h (set_bytes m (io_of o))) B' L1 (tk_ok _ _ _ _ _ _ T) Hsub).
- exists tb. split; [done|]. apply (space_grow _ B tb lt fs [a] h B' (tk_ok _ _ _ _ _ _ L5) Hsp); [|done|done].
  intros k Hk Hin. apply (tk_busy _ _ _ _ _ _ L5 k Hk). tauto.
- pose proof (took_trans _ _ _ _ _ _ _ _ _ _ L5 T) as T2. rewrite app_nil_r in T2.
  by rewrite <- !app_assoc in T2.
- rewrite fmap_app. cbn [fmap list_fmap]. rewrite L6.
  rewrite (thread_list_pool (io_of o) (set_heap h (set_bytes m (io_of o))) (page_addr a) eq_refl Hpool).
  apply (Permutation_app_comm _ [page_addr a]).
- exists pp. split; [done|]. by apply Hsub.
- intros p Hp. destruct (L11 p Hp) as [H1 H2]. split; [|done]. by apply (heap_blocks_sub B).
- by apply holding_heap.
Qed.

(** One of its blocks went back. *)
Lemma living_less o B wl own ps ws a h m :
lives o B wl own ps ws -> gave [a] [] (heap (io_of o)) B h (delete a B) ->
pool_list (bytes_of (io_of o)) (pool th) ≡ₚ page_addr a :: pool_list m (pool th) ->
exists own', lives (set_sys (set_heap h (set_bytes m (io_of o))) o) (delete a B) wl own' ps ws.
Proof.
intros [L1 L2 L3 (tb & Et & Hsp) L5 L6 L7 L8 L9 (pp & Epp & Hpp) L10 L11 L12] G Hpool.
set (i' := set_heap h (set_bytes m (io_of o))).
pose proof (thread_list_pool i' (io_of o) (page_addr a) eq_refl Hpool) as Hlist.
rewrite Hlist in L6. assert (a ∈ own) as Ha.
{ assert (page_addr a ∈ page_addr <$> own) as Hin by (rewrite L6; left).
  apply list_elem_of_fmap in Hin as (b & E & Hb). by apply (inj page_addr) in E as ->. }
apply elem_of_Permutation in Ha as [own' Hown]. rewrite Hown in L6. cbn [fmap list_fmap] in L6.
apply Permutation_cons_inv in L6.
assert (lt ++ wl ++ own ≡ₚ a :: lt ++ wl ++ own') as HL by (rewrite Hown; by rewrite !Permutation_middle).
pose proof (took_less _ _ _ a _ _ _ _ _ _ L5 G HL) as T. exists own'.
pose proof (tk_nodup _ _ _ _ _ _ L5) as Hnd. rewrite HL in Hnd. apply NoDup_cons in Hnd as [Hal Hnd].
assert (forall u, is_Some (heap_blocks B !! u) -> u ∈ page_addr <$> (wl ++ own') \/ is_Some (heap_blocks B0 !! u) ->
  is_Some (heap_blocks (delete a B) !! u)) as Hstay.
{ intros u Hu Hor. apply (without_blocks B [a] u Hu). intros ->%list_elem_of_singleton. destruct Hor as [Hin|Hin].
  - apply list_elem_of_fmap in Hin as (b & E & Hb). apply (inj page_addr) in E as ->. apply Hal.
    apply elem_of_app. by right.
  - apply (took_old _ _ _ _ _ _ _ L5) in Hin. apply Hin. rewrite HL. left. }
constructor; try done.
- apply (queue_ok_io _ _ B i' _ L1 (gv_ok _ _ _ _ _ _ G)). intros u Hu Hu2. apply Hstay; [done|].
  rewrite cons_middle, app_assoc in Hu. apply elem_of_app in Hu as [Hu| ->%list_elem_of_singleton ]; [right; by apply L8|left].
  rewrite fmap_app, L6. apply elem_of_app. right. unfold thread_list. rewrite !elem_of_app, !elem_of_cons. tauto.
- exists tb. split; [done|]. apply (space_shrink _ B tb lt fs [a] h _ (tk_ok _ _ _ _ _ _ L5) Hsp G).
  intros b Hb ->%list_elem_of_singleton. apply Hal, elem_of_app. by left.
- exists pp. split; [done|]. rewrite lookup_delete_ne; [done|]. intros ->. apply Hal. rewrite !elem_of_app. do 2 right.
  assert (page_addr pp ∈ page_addr <$> own') as Hin
    by (rewrite L6, <- Epp; unfold thread_list; rewrite !elem_of_app, !elem_of_cons; tauto).
  apply list_elem_of_fmap in Hin as (b & E & Hb). by apply (inj page_addr) in E as ->.
- intros p Hp. destruct (L11 p Hp) as [H1 H2]. split; [|done]. apply Hstay; [done|].
  destruct H2 as [H2|H2]; [left|by right]. rewrite fmap_app. apply elem_of_app. by left.
- by apply holding_heap.
Qed.

Lemma desk_rep_unique d ps ws ps' ws' : desk_rep d ps ws -> desk_rep d ps' ws' -> ps = ps' /\ ws = ws'.
Proof.
intros [[L N W _] _ _ _ _ _ _] [[L' N' W' _] _ _ _ _ _ _].
pose proof (links_unique _ _ _ _ L L') as [= <-]. split; [done|]. clear -W W'.
revert ws' W'. induction W as [|p a ps ws (r & Hr & E) _ IH]; intros ws' W'; inversion W'; [done|]; subst.
match goal with H : exists _, _ |- _ => destruct H as (r' & Hr' & <-) end. f_equal; [congruence|by apply IH].
Qed.

(** The record of the last window is the last one. *)
Lemma shows_last d ps ws p a x : desk_rep d (ps ++ [p]) (ws ++ [a]) -> x ∈ ps ++ [p] -> shows d x a -> x = p.
Proof.
intros HR Hx (r & Hr & Hw). pose proof (dr_distinct _ _ _ HR) as Hnd.
apply NoDup_app in Hnd as (_ & Hd & _). pose proof (li_windows _ _ _ _ (dr_list _ _ _ HR)) as W.
apply elem_of_app in Hx as [Hx|Hx%list_elem_of_singleton]; [|done]. exfalso.
pose proof (Forall2_length _ _ _ W) as El. rewrite !length_app in El. cbn in El.
apply Forall2_app_inv in W as [W _]; [|lia]. apply list_elem_of_lookup in Hx as [k Hk].
destruct (Forall2_lookup_l _ _ _ _ _ W Hk) as (b & Hb & r' & Hr' & Hw'). apply (Hd a); [|left].
assert (r' = r) as -> by (rewrite Hr in Hr'; by injection Hr'). assert (b = a) as <- by congruence. by eapply list_elem_of_lookup_2.
Qed.

(** The window comes into the compositor's list. *)
Lemma living_window fuel o B wl own ps ws d i :
lives o B wl own ps ws -> window th ∉ ws -> zlen ws + 1 < 2 ^ 63 -> (S (length ps) < fuel)%nat ->
heap_room (heap (io_of o)) sizeof_PAINT -> window_add fuel (window th) (dk o) (io_of o) = Ret (d, i) ->
exists B' wl' ps', lives (set_sys i (set_dk d o)) B' wl' own ps' (ws ++ [window th]).
Proof.
intros [L1 L2 L3 (tb & Et & Hsp) L5 L6 L7 L8 L9 (pp & Epp & Hpp) L10 L11 L12] Hnw Hsm Hf Hroom E.
pose proof (tk_ok _ _ _ _ _ _ L5) as Hs. pose proof L12 as [H1 H2 H3 H4 H5 H6 H7 H8].
assert (wl = []) as -> by (destruct H8 as [[_ Hw]|[? _]]; [by apply fmap_nil_inv in Hw|done]).
destruct (room_pages (heap (io_of o)) B 1 Hs ltac:(lia) Hroom) as [R1 R2].
destruct (malloc_more (heap (io_of o)) B sizeof_PAINT 1 0 Hs) as (a & h & Em & Ha & M);
  [unfold sizeof_PAINT; lia|reflexivity|lia|done|done|].
pose proof (mo_took _ _ _ _ _ _ M) as T. destruct (tk_new _ _ _ _ _ _ T a) as [HN HS]; [left|].
assert (malloc_ sizeof_PAINT (io_of o) = Ret (page_addr a, set_heap h (io_of o))) as Em2 by (unfold malloc_; by rewrite Em).
assert (page_addr a ∉ paint_ready_queue (dk o) :: ps) as Hnew.
{ intros Hin. destruct (L11 _ Hin) as [Hp _]. apply (proj1 (heap_blocks_at B a)) in Hp as [j Hj]. congruence. }
destruct (window_add_new fuel (window th) (dk o) (io_of o) _ (page_addr a) ps ws H7 Hnw L10 Hsm Hf Em2 Hnew ltac:(lia))
  as (d' & E' & HR & Eq & _).
rewrite E in E'. injection E' as -> ->. cbn [bytes_of set_heap].
set (m := st32 (st64 (bytes_of (io_of o)) (page_addr a + sizeof_PAINT) 0) (window th + window_gid) (gid (dk o))). set (i := set_bytes m (set_heap h (io_of o))).
assert (pool_list m (pool th) = pool_list (bytes_of (io_of o)) (pool th)) as Epool.
{ apply pool_list_ext. intros b Hb. specialize (L9 b Hb). unfold m. rewrite rd_st_out by lia. apply rd_st_out.
  rewrite Epp in Hb. intros Hb2. apply (blocks_apart (<[a := 1]> B) pp 2 a 1 b (proj1 (ok_rep _ _ (mo_ok _ _ _ _ _ _ M))));
    [exact (tk_sub _ _ _ _ _ _ _ _ T Hpp)|apply lookup_insert_eq|congruence|unfold page_addr in *; lia|].
  unfold sizeof_PAINT, page_addr in *. lia. }
assert (thread_list i t th = thread_list (io_of o) t th) as Elist.
{ unfold thread_list. change (bytes_of i) with m. change (files i) with (files (io_of o)). by rewrite Epool. }
exists (<[a := 1]> B), [a], (ps ++ [page_addr a]).
constructor; [|exact L2|exact L3| | | |exact L7|exact L8|exact L9| |exact L10| |].
- exact (queue_ok_heap _ _ B i _ L1 (mo_ok _ _ _ _ _ _ M) (fun b n => tk_sub _ _ _ _ _ _ b n T)).
- exists tb. split; [done|]. apply (space_grow _ B tb lt fs [a] h _ Hs Hsp); [|done|apply M].
  intros k Hk Hin. apply (tk_busy _ _ _ _ _ _ L5 k Hk). tauto.
- pose proof (took_trans _ _ _ _ _ _ _ _ _ _ L5 T) as T2. rewrite app_nil_r in T2.
  refine (took_perm _ _ _ _ _ _ _ _ T2). cbn [app]. rewrite (Permutation_app_comm (lt ++ own) [a]). cbn [app].
  by rewrite Permutation_middle.
- rewrite <- Elist in L6. exact L6.
- exists pp. split; [done|]. exact (tk_sub _ _ _ _ _ _ _ _ T Hpp).
- intros p Hp. change (p ∈ paint_ready_queue d' :: ps ++ [page_addr a]) in Hp. rewrite Eq, app_comm_cons in Hp.
  apply elem_of_app in Hp as [Hp| ->%list_elem_of_singleton].
  + destruct (L11 p Hp) as [P1 [P2%not_elem_of_nil|P2]]; [done|]. split; [|by right].
    apply (heap_blocks_sub B); [|done]. intros b n. exact (tk_sub _ _ _ _ _ _ b n T).
  + split; [by apply heap_blocks_at|]. left. left.
- constructor; try done. right. split; [apply elem_of_app; right; left|]. intros p Hp Hsh.
  cbn [fmap list_fmap]. f_equal. symmetry. by apply (shows_last d' ps ws (page_addr a) (window th)).
Qed.

(** Whatever the program does, it stays in order. *)
Lemma run_step_living o o' : run_step t o o' -> (exists B wl own ps ws, lives o B wl own ps ws) ->
exists B wl own ps ws, lives o' B wl own ps ws.
Proof.
intros Hst (B & wl & own & ps & ws & L). pose proof (lv_thread _ _ _ _ _ _ _ _ _ _ _ _ _ _ _ L) as Ht.
pose proof (tk_ok _ _ _ _ _ _ (lv_took _ _ _ _ _ _ _ _ _ _ _ _ _ _ _ L)) as Hs.
inversion Hst as [th' size addr h m x Ht' Hsz Hroom Hrow E| th' ptr h m x Ht' Hne Hrow E
  | th' fuel d i ps' ws' x Ht' HR Hnw Hsm Hf Hroom E | m x]; subst x o'.
- assert (th' = th) as -> by congruence.
  destruct (malloc_ledger _ _ B _ _ _ _ _ Hs Hsz Hroom Hrow E) as (a & B' & -> & T & Htab & Hpool & _).
  exists B', wl, (own ++ [a]), ps, ws. by apply (living_more _ B).
- assert (th' = th) as -> by congruence.
  assert (exists a, ptr = page_addr a /\ is_Some (B !! a)) as (a & -> & HB).
  { destruct Hrow as (k & Hk & Ek). assert (ptr ∈ page_addr <$> own) as Hin.
    - rewrite (lv_own _ _ _ _ _ _ _ _ _ _ _ _ _ _ _ L). unfold thread_list. rewrite !elem_of_app. do 6 right. left.
      unfold pool_list. apply list_elem_of_filter. split; [done|]. apply list_elem_of_fmap. exists (Z.to_nat k).
      rewrite Z2Nat.id by lia. split; [done|]. apply elem_of_seq. unfold POOL_COUNT in Hk. lia.
    - apply list_elem_of_fmap in Hin as (a & -> & Ha). exists a. split; [done|].
      apply (tk_new _ _ _ _ _ _ (lv_took _ _ _ _ _ _ _ _ _ _ _ _ _ _ _ L)). rewrite !elem_of_app. tauto. }
  destruct (free_ledger _ _ B _ a _ _ Hs HB Hne Hrow E) as (G & Hpool & _).
  destruct (living_less _ B wl own ps ws a h m L G Hpool) as [own' L']. by eexists _, wl, own', ps, ws.
- assert (th' = th) as -> by congruence.
  destruct (desk_rep_unique _ _ _ _ _ HR (ho_desk _ _ _ _ _ _ (lv_holding _ _ _ _ _ _ _ _ _ _ _ _ _ _ _ L))) as [-> ->].
  destruct (living_window fuel o B wl own ps ws d i L Hnw Hsm Hf Hroom E) as (B' & wl' & ps2 & L').
  by exists B', wl', own, ps2, (ws ++ [window th]).
- exists B, wl, own, ps, ws. destruct L as [L1 L2 L3 L4 L5 L6 L7 L8 L9 L10 L11 L12 L13]. constructor; try done.
  destruct L13. by constructor.
Qed.
End living.

(** ** From the start to the end *)

(** [len] bytes at [p] are in one block. *)
Definition in_kernel (B : blocks) (p len : Z) : Prop :=
  exists a n, B !! a = Some n /\ page_addr a <= p /\ p + len <= page_addr (a + n).

(** What stands in the kernel's blocks [B] when a program is started: the compositor's list [ws], the array [local] of
    the end of a process, and the pipe of the launcher, if there is one. *)
Record around (o : os) (B : blocks) (local : Z) (ps ws : list Z) : Prop := {
  ar_desk : desk_rep (dk o) ps ws;
  ar_paints : forall p, p ∈ paint_ready_queue (dk o) :: ps -> is_Some (heap_blocks B !! p);
  ar_windows : forall a, a ∈ ws -> is_Some (heap_blocks B !! a);
  ar_local : in_kernel B local 16;
  ar_launcher : pipe_launcher o = 0 \/ is_Some (heap_blocks B !! pipe_launcher o) /\
    exists f, files (io_of o) !! pipe_launcher o = Some f /\ pipe_safe f /\ in_kernel B (buffer f) BUFSIZ
}.

Section starting.
Implicit Types (s : mm) (B : blocks) (a b m n x y len : Z) (l fs : list Z) (i : sys mm) (th : THREAD).

Lemma page_addr_pos B a n : block_ok B -> B !! a = Some n -> 0 < page_addr a.
Proof. intros [Hok _] Ha. destruct (Hok _ _ Ha). unfold page_addr, ALLOC_PAGE_MEMORY. lia. Qed.

(** A new block has no byte of an old one. *)
Lemma in_kernel_apart l fs s B s' B' a n x len y : took l fs s B s' B' -> a ∈ l -> B' !! a = Some n -> in_kernel B x len ->
page_addr a <= y < page_addr (a + n) -> ~ x <= y < x + len.
Proof.
intros T Hl Ha (b & m & Hb & Hx & Hx2) Hy Hyx. destruct (tk_new _ _ _ _ _ _ T a Hl) as [HN _].
apply (blocks_apart B' a n b m y (proj1 (ok_rep _ _ (tk_ok _ _ _ _ _ _ T))) Ha); [by apply (tk_sub _ _ _ _ _ _ _ _ T)|congruence|done|].
lia.
Qed.

Lemma streams_nodup i t th : (forall fp, fp ∈ streams_of th -> is_Some (files i !! fp)) -> NoDup (thread_list i t th) ->
NoDup (streams_of th) /\ forall f, files i !! pipe th = Some f -> pool th <> buffer f.
Proof.
unfold streams_of. intros Hin Hnd. destruct (Hin (stdin th)) as [f1 E1]; [left|]. destruct (Hin (stdout th)) as [f2 E2]; [right; left|].
destruct (Hin (stderr th)) as [f3 E3]; [do 2 right; left|]. destruct (Hin (pipe th)) as [f4 E4]; [do 3 right; left|].
unfold thread_list, stream_list in Hnd. rewrite E1, E2, E3, E4 in Hnd. cbn [app] in Hnd. split.
- apply (sublist_NoDup _ _ Hnd). do 2 apply sublist_cons. apply sublist_skip, sublist_cons.
  apply sublist_skip, sublist_cons, sublist_skip, sublist_cons, sublist_skip. apply sublist_nil_l.
- intros f Ef E. assert (f4 = f) as -> by congruence.
  rewrite !NoDup_cons in Hnd. destruct Hnd as (_ & _ & _ & _ & _ & _ & _ & Hn & _). apply Hn.
  rewrite <- E. rewrite !elem_of_cons, elem_of_app, elem_of_cons. tauto.
Qed.

(** A program just started lives. *)
Lemma created_living (p1 p' : proc) s B B1 B' l1 q t th lt fs tb o local ps ws :
created (sc p1) (sc p') B1 B' (l1 ++ [q]) 0 t th -> (forall u, u ∈ l1 ++ [q] -> is_Some (heap_blocks B !! u)) ->
took lt fs s B (heap (io (sc p1))) B1 -> space_at (heap (io (sc p1))) B1 tb lt fs ->
spaces p' !! t = Some (Pspace tb (zlen fs)) -> files (io (sc p1)) = files (io_of o) -> around o B local ps ws ->
exists own, living s B local l1 q t th lt fs (set_pr p' o) B' [] own ps ws.
Proof.
intros [C1 C2 C3 (own & M & Hown) (Hprv & Hhead & Htail) C6 (pp & pw & Epp & Hpp & Epw & Hpw) C8 _] Hbase T Hsp Hspace Ef
  [A1 A2 A3 A4 A5].
pose proof (mo_took _ _ _ _ _ _ M) as T2. pose proof (took_trans _ _ _ _ _ _ _ _ _ _ T T2) as T3. rewrite app_nil_r in T3.
pose proof (tk_ok _ _ _ _ _ _ T3) as Hs'. pose proof (proj1 (ok_rep _ _ Hs')) as Hok.
assert (NoDup (thread_list (io (sc p')) t th)) as Hnd.
{ rewrite <- Hown. apply NoDup_fmap_2; [apply _|]. apply T2. }
assert (forall x, x ∈ thread_list (io (sc p')) t th -> exists a, x = page_addr a /\ a ∈ own) as Hin.
{ intros x Hx. rewrite <- Hown in Hx. by apply list_elem_of_fmap in Hx. }
assert (forall fp, fp ∈ streams_of th -> fp ∈ thread_list (io (sc p')) t th) as Hst.
{ intros fp Hfp. destruct (C6 fp Hfp) as (flag & b & E & _). unfold thread_list. rewrite !elem_of_app.
  assert (fp ∈ stream_list (files (io (sc p'))) fp) as Hl by (unfold stream_list; rewrite E; right; left).
  unfold streams_of in Hfp. rewrite !elem_of_cons, elem_of_nil in Hfp.
  destruct Hfp as [-> | [-> | [-> | [-> | []]]]]; tauto. }
destruct (streams_nodup (io (sc p')) t th) as [Hsn Hpb]; [|done|].
{ intros fp Hfp. destruct (C6 fp Hfp) as (flag & b & E & _). by eexists. }
destruct (C6 (pipe th)) as (flag & b & Eb & _ & HBb); [unfold streams_of; do 3 right; left|].
assert (pp ∈ own) as Hppo.
{ destruct (Hin (pool th)) as (a & E & Ha); [unfold thread_list; rewrite !elem_of_app, !elem_of_cons; tauto|].
  rewrite Epp in E. by apply (inj page_addr) in E as ->. }
assert (forall a, pool th <= a < pool th + 0x2000 -> page_addr pp <= a < page_addr (pp + 2)) as Hrange
  by (unfold page_addr in *; lia).
assert (forall fp, is_Some (heap_blocks B !! fp) -> fp ∉ streams_of th) as Hold.
{ intros fp Hfp Hfs. destruct (Hin fp (Hst fp Hfs)) as (a & -> & Ha). apply (took_old _ _ _ _ _ _ _ T3 Hfp).
  apply list_elem_of_fmap. exists a. split; [done|]. apply elem_of_app. by right. }
exists own. constructor.
- by rewrite <- app_assoc in C3.
- exact C2.
- exact Hhead.
- exists tb. split; [exact Hspace|]. apply (space_grow (heap (io (sc p1))) B1 tb lt fs own _ B' (tk_ok _ _ _ _ _ _ T) Hsp);
    [|exact T2|apply M]. intros k Hk Hk2. apply (tk_busy _ _ _ _ _ _ T k Hk). tauto.
- exact T3.
- exact Hown.
- exists (stream_file flag b). split; [exact Eb|]. split; [done|]. split; [done|reflexivity].
- exact Hbase.
- intros a Ha. rewrite Epw. unfold window_gid. intros Hw.
  apply (blocks_apart B' pp 2 pw 1536 a Hok Hpp Hpw); [congruence|auto|]. unfold page_addr in *. lia.
- by exists pp.
- rewrite Epw. pose proof (page_addr_pos B' pw 1536 Hok Hpw). lia.
- intros p Hp. specialize (A2 p Hp). split; [|by right]. apply (heap_blocks_sub B); [|done].
  intros a n. exact (tk_sub _ _ _ _ _ _ a n T3).
- constructor.
  + done.
  + exact Hsn.
  + intros fp Hfp. destruct (C6 fp Hfp) as (fl & c & E & Hfl & _). destruct (Hin fp (Hst fp Hfp)) as (a & Ea & Ha).
    destruct (tk_new _ _ _ _ _ _ T2 a Ha) as [_ [n Hn]]. pose proof (page_addr_pos B' a n Hok Hn). split; [lia|].
    by eexists.
  + destruct A5 as [?|[Hk (f & Hf & Hsafe & _)]]; [by left|right]. split; [by apply Hold|]. exists f.
    split; [|done]. change (files (io (sc p')) !! pipe_launcher o = Some f). rewrite C8 by (by apply Hold). by rewrite Ef.
  + intros a Ha. apply (in_kernel_apart _ _ _ _ _ _ pp 2 local 16 a T3); [apply elem_of_app; by right|done|done|auto].
  + intros a fp f Ha Hfp0 Hfp Hf. change (files (io (sc p')) !! fp = Some f) in Hf. destruct (decide (fp = pipe th)) as [->|Hne].
    * assert (f = stream_file flag b) as -> by congruence.
      change (~ page_addr b <= a < page_addr b + BUFSIZ).
      assert (pp <> b) as Hne by (intros ->; apply (Hpb _ Eb); exact Epp).
      pose proof (blocks_apart B' pp 2 b 2 a Hok Hpp HBb Hne (Hrange a Ha)) as Hap. unfold page_addr, BUFSIZ in *. lia.
    * destruct Hfp as [?|Efp]; [done|]. change (fp = pipe_launcher o) in Efp. subst fp.
      destruct A5 as [E0|[Hk (g & Hg & _ & Hker)]]; [done|].
      rewrite C8, Ef, Hg in Hf by (by apply Hold). injection Hf as <-.
      apply (in_kernel_apart _ _ _ _ _ _ pp 2 _ _ a T3); [apply elem_of_app; by right|done|done|auto].
  + exact A1.
  + left. split; [|done]. intros Hw. specialize (A3 _ Hw). destruct (Hin (window th)) as (a & E & Ha).
    { unfold thread_list. left. }
    rewrite E in A3. apply (took_old _ _ _ _ _ _ _ T3 A3). apply list_elem_of_fmap. exists a. split; [done|].
    apply elem_of_app. by right.
Qed.
End starting.

Lemma runs_living s0 B0 local l1 q t th lt fs o o' :
  rtc (run_step t) o o' -> (exists B wl own ps ws, living s0 B0 local l1 q t th lt fs o B wl own ps ws) ->
  exists B wl own ps ws, living s0 B0 local l1 q t th lt fs o' B wl own ps ws.
Proof.
  intros Hr. induction Hr as [|x y z Hst _ IH]; [done|]. intros HL. apply IH.
  by apply (run_step_living s0 B0 local l1 q t th lt fs x y).
Qed.

(** C1: a process leaves nothing behind, as long as the table of its thread can record its memory.  [exectve]
    starts it; then it runs: it asks with the system call [malloc] for blocks of at least one byte, no more than 512 of
    which it holds at a time (the rows of the table), frees blocks it holds, keeps what it likes, opens its window,
    writes to its pages; then [exit] ends it.  (A block it gets while all rows are in use, and pages it gets with
    the system call 4, are recorded nowhere and lost: they are not among the steps.)  The ready queue is
    the one from before, every block of the kernel's heap and every frame that was taken is given
    back, the frames of its image included, and its window is out of the compositor's list.  [exit] looks for
    the window without asking whether it is there, so it must be, unless no window is. *)
Theorem process_leaves_nothing sse hr vr bpp pps user fuel argc argv pwd bf phdr (h : program_header_t)
    (o : os) (l : list Z) (B : blocks) (lp : list Z) (args : list (list Z)) (local : Z) (ps ws : list Z) :
  queue_ok (sc (pr o)) l (heap_blocks B) -> mm_ok (heap (io_of o)) B -> tables_low (heap (io_of o)) ->
  l <> [] -> (length l <= fuel)%nat -> 0 <= next_pid (sc (pr o)) < 2 ^ 64 - 1 ->
  exec_request (mach_of (pr o)) fuel argc argv pwd bf phdr h lp args ->
  pages_room B (request_tables h + THREAD_PAGES) ->
  frames_room (heap (io_of o)) (request_tables h + request_pages h + THREAD_PAGES) ->
  around o B local ps ws ->
  exists t th p', exectve sse hr vr bpp pps user fuel argc argv pwd bf phdr (pr o) = Ret (next_pid (sc (pr o)), p') /\
    threads (sc p') !! t = Some th /\
    forall o' ps' ws' fuel' rc, rtc (run_step t) (set_pr p' o) o' -> desk_rep (dk o') ps' ws' ->
      ws' = [] \/ window th ∈ ws' -> (length l + length ps' + 2 <= fuel')%nat ->
      exists o'' ps'', exit fuel' rc t local o' = Ret o'' /\
        queue_ok (sc (pr o'')) l (heap_blocks B) /\ mm_ok (heap (io_of o'')) B /\
        (forall k, 0 <= k < 1048576 ->
           frame_busy (ram (heap (io_of o''))) k = frame_busy (ram (heap (io_of o))) k) /\
        desk_rep (dk o'') ps'' (filter (fun a => a <> window th) ws').
Proof.
  intros Hq Hs Hlow Hne Hf Hpid Hrq Hroom Hfr Har.
  destruct (exectve_spec sse hr vr bpp pps user fuel argc argv pwd bf phdr h (pr o) l B lp args 0) as
    (t & p' & B' & th & im & μ & p1 & B1 & lt & fs & E & C & P & _ & _ & T & Hsp & Epg & Ef & _); try done;
    [by rewrite Z.add_0_r..|].
  destruct (exists_last Hne) as (l1 & q & ->).
  exists t, th, p'. split; [done|]. split; [exact (pr_thread _ _ _ _ _ P)|].
  intros o' ps' ws' fuel' rc Hruns HR Hreg Hfuel.
  destruct (created_living p1 p' (heap (io_of o)) B B1 B' l1 q t th lt fs (im_tables im) o local ps ws C) as [own HL]; try done.
  { apply Hq. }
  { rewrite <- Epg. exact (pr_space _ _ _ _ _ P). }
  destruct (runs_living (heap (io_of o)) B local l1 q t th lt fs _ o' Hruns) as (B2 & wl & own2 & ps2 & ws2 & L).
  { by exists B', [], own, ps, ws. }
  destruct (desk_rep_unique _ _ _ _ _ HR (ho_desk _ _ _ _ _ _ (lv_holding _ _ _ _ _ _ _ _ _ _ _ _ _ _ _ L))) as [-> ->].
  rewrite length_app in Hfuel. cbn [length] in Hfuel.
  destruct (exit_spec fuel' rc t local o' B2 l1 q [] th lt wl own2 fs ps2 ws2 (living_ending _ _ _ _ _ _ _ _ _ _ _ _ _ _ _ L) Hreg)
    as (o2 & ps3 & E2 & Hq2 & G & HR2 & _); [lia|].
  destruct (took_gave _ _ _ _ _ _ _ _ _ _ (lv_took _ _ _ _ _ _ _ _ _ _ _ _ _ _ _ L) G) as [EB Hbusy]; [done..|].
  rewrite EB in Hq2. exists o2, ps3. split; [done|]. split; [done|]. split; [|done]. rewrite <- EB. apply G.
Qed.

(** ** A program that stores a byte and ends *)

(** The kernel's thread and the compositor's first record. *)
Lemma first_life : exists a b h B, B !! a = Some 2 /\ B !! b = Some 1 /\ 0 < page_addr a /\ 0 < page_addr b /\
  mm_ok h B /\ tables_low h /\ pages_room B 1617 /\ frames_room h 1617.
Proof.
  destruct (alloc_pages_more boot_mm ∅ 0 2 1618 boot_mm_ok) as (a & h1 & _ & Ha & M1);
    [lia|lia|apply boot_room; unfold ALLOC_PAGES; lia|exact boot_frames_left|].
  destruct (alloc_pages_more h1 _ 0 1 1617 (mo_ok _ _ _ _ _ _ M1)) as (b & h2 & _ & Hb & M2); [lia|lia|apply M1|apply M1|].
  pose proof (more_trans _ _ _ _ _ _ _ _ _ _ M1 M2) as M. exists a, b, h2, (<[b := 1]> (<[a := 2]> ∅)). split.
  { apply (tk_sub _ _ _ _ _ _ _ _ (mo_took _ _ _ _ _ _ M2)), lookup_insert_eq. }
  split; [apply lookup_insert_eq|]. split; [exact Ha|]. split; [exact Hb|]. split; [exact (mo_ok _ _ _ _ _ _ M)|].
  split; [exact (mo_low _ _ _ _ _ _ M boot_tables_low)|]. split; [apply M|apply M].
Qed.

Definition first_desk (p : Z) : desk := Desk {[p := Paint 0 0 0]} p 0 0 0 0.
Definition first_os (h : mm) (t p : Z) : os := Os (Proc (first_sched h t) ∅ ∅) (first_desk p) 0 0 0 0 1.

Lemma first_desk_rep p : 0 < p -> desk_rep (first_desk p) [] [].
Proof.
  intros Hp. assert (paints (first_desk p) !! p = Some (Paint 0 0 0)) as E by apply lookup_singleton_eq.
  constructor; try done.
  - constructor; [|apply NoDup_singleton|constructor|by exists (Paint 0 0 0)].
    split; [done|]. split; [change (p <> 0); lia|]. by exists (Paint 0 0 0).
  - by exists (Paint 0 0 0).
  - constructor.
  - apply not_elem_of_nil.
Qed.

Lemma first_around h a b B : B !! a = Some 2 -> B !! b = Some 1 -> 0 < page_addr b ->
  around (first_os h (page_addr a) (page_addr b)) B (page_addr a + 0x100) [] [].
Proof.
  intros Ha Hb Hp. constructor.
  - by apply first_desk_rep.
  - intros p ->%list_elem_of_singleton. apply heap_blocks_at. by eexists.
  - intros x Hx%not_elem_of_nil. done.
  - exists a, 2. split; [exact Ha|]. unfold page_addr. lia.
  - by left.
Qed.

Example process_leaves_nothing_witness :
  exists t p' h a b o'' m, exectve ∅ 1024 768 32 1024 0x1000000 4096 1 0x300 0x200 ex_bf (Phdr 0 0 0)
      (Proc (first_sched h (page_addr a)) ∅ ∅) = Ret (1, p') /\
    exit 4 0 t (page_addr a + 0x100) (set_ubytes m (set_pr p' (first_os h (page_addr a) (page_addr b)))) = Ret o'' /\
    frame_busy (ram (heap (io_of o''))) 40000 = frame_busy (ram h) 40000.
Proof.
  destruct first_life as (a & b & h & B & Ha & Hb & Hpa & Hpb & Hs & Hlow & Hroom & Hfr).
  destruct first_pages as [F1 F2].
  destruct (process_leaves_nothing ∅ 1024 768 32 1024 0x1000000 4096 1 0x300 0x200 ex_bf (Phdr 0 0 0) first_header
    (first_os h (page_addr a) (page_addr b)) [page_addr a] B [47] [[97]] (page_addr a + 0x100) [] [])
    as (t & th & p' & E & Ht & Hend).
  - apply first_queue_ok; [exact Hpa|exact Hs|]. apply heap_blocks_at. exact (ex_intro _ 2 Ha).
  - exact Hs.
  - exact Hlow.
  - discriminate.
  - cbn [length]. lia.
  - cbn [pr first_os sc first_sched next_pid]. lia.
  - exact (first_request h (page_addr a)).
  - rewrite F1. apply (pages_room_less B 1617); [unfold THREAD_PAGES; lia|exact Hroom].
  - rewrite F1, F2. refine (frames_room_less h 1617 _ _ Hfr). unfold THREAD_PAGES. lia.
  - exact (first_around h a b B Ha Hb Hpb).
  - set (m := (ubytes_of p')⟦0x9000000 := 7⟧).
    destruct (Hend (set_ubytes m (set_pr p' (first_os h (page_addr a) (page_addr b)))) [] [] 4%nat 0) as
      (o2 & ps2 & E2 & _ & _ & Hbusy & _).
    + exact (rtc_once _ _ (run_store t m _)).
    + exact (first_desk_rep (page_addr b) Hpb).
    + left. reflexivity.
    + cbn [length]. lia.
    + exists t, p', h, a, b, o2, m. split; [exact E|]. split; [exact E2|]. apply Hbusy. lia.
Defined.
