(* ===== verification/Argv.v ===== *)
(** * Argv: a command line into arguments (kernel/argv.c) *)
From S2P Require Import Prelude KString Bytes.

(** One turn of the loop of [cpy]; it leaves the loop with the index it stopped at. *)
Definition cpy_step (dst src : Z) (i : Z) (s : Z * mem) : (Z * mem) + (Z * mem) :=
  let '(flag, m) := s in
  let val := m⟦src + i⟧ in
  if negb (val =? 32) then
    if flag >? 0 then inr (i, m)
    else
      let m := m⟦dst + i := val⟧ in
      if val =? 0 then inr (i, m) else inl (flag, m)
  else inl (1, m⟦dst + i := 0⟧).

Definition cpy (dst src : Z) (m : mem) : Z * mem :=
  if m⟦src⟧ =? 0 then (0, m)
  else
    match for_break 256 0 (cpy_step dst src) (0, m) with
    | inl (_, m) => (256, m)
    | inr (i, m) => (i, m)
    end.

(** [tmp] is the address of the local array of 256 characters. *)
Fixpoint format_loop (n fuel : nat) (argv tmp i mem_ src_tmp : Z) (m : mem) : outcome (Z * mem) :=
  match n with
  | O => Ret (i, m)
  | S n =>
      let m := st64 m (argv + 8 * i) mem_ in
      let '(r, m) := cpy tmp src_tmp m in
      if r =? 0 then Ret (i, m)
      else
        m ← strcpy fuel m mem_ tmp;
        format_loop n fuel argv tmp (i + 1) (mem_ + r) (src_tmp + r) m
  end.

(** The number of arguments, which is also stored in [*argc], and the memory. *)
Definition format_argv (fuel : nat) (argv src tmp : Z) (m : mem) : outcome (Z * mem) :=
  format_loop 32 fuel argv tmp 0 (argv + 8 * 32) src m.

(** ** Command lines *)

(** A word and the spaces behind it. *)
Definition piece (t : list Z) (k : nat) : list Z := t ++ replicate k 32.
Definition line (ps : list (list Z * nat)) : list Z := concat ((fun '(t, k) => piece t k) <$> ps).

(** Words have no spaces; all but the last have spaces behind them, all but the first are not
    empty; a word and its spaces fit the local array. *)
Fixpoint pieces (ps : list (list Z * nat)) : Prop :=
  match ps with
  | [] => True
  | (t, k) :: ps =>
      Forall (fun c => 0 < c < 256 /\ c <> 32) t /\ (0 < length t + k < 256)%nat /\
      match ps with [] => True | (u, _) :: _ => (0 < k)%nat /\ u <> [] end /\ pieces ps
  end.

Section cpy.
Implicit Types (m : mem) (dst src i : Z) (t : list Z).

Lemma cpy_word n dst src i m t :
Forall (fun c => 0 < c < 256 /\ c <> 32) t -> bytes_at m (src + i) t ->
apart (dst + i) (zlen t) (src + i) (zlen t) ->
exists m', for_break (length t + n) i (cpy_step dst src) (0, m) =
    for_break n (i + zlen t) (cpy_step dst src) (0, m') /\
  bytes_at m' (dst + i) t /\ forall a, ~ dst + i <= a < dst + i + zlen t -> m'⟦a⟧ = m⟦a⟧.
Proof.
intros Ht. revert i m. induction Ht as [|c t [Hc Hc32] Ht IH]; intros i m Hb Hap.
- exists m. rewrite Z.add_0_r. done.
- destruct Hb as [Hb0 Hb]. cbn [length Nat.add for_break]. unfold cpy_step at 1. rewrite Hb0.
  destruct (Z.eqb_spec c 32); [done|]. destruct (Z.eqb_spec c 0); [lia|]. cbn [negb]. change (0 >? 0) with false.
  cbv iota. cbn [length] in Hap. unfold apart in *.
  destruct (IH (i + 1) m⟦dst + i := c⟧) as (m' & E & H1 & H2).
  + replace (src + (i + 1)) with (src + i + 1) by lia. eapply bytes_at_ext; [|exact Hb].
    intros b Hbr. rewrite rd_wr_ne by lia. done.
  + lia.
  + exists m'. rewrite E. split; [f_equal; cbn [length]; lia|].
    replace (dst + (i + 1)) with (dst + i + 1) in * by lia. split.
    * split; [|done]. rewrite H2 by lia. apply rd_wr_eq.
    * intros a Ha. cbn [length] in Ha. rewrite H2 by lia. apply rd_wr_ne. lia.
Qed.

Lemma cpy_spaces n dst src i m k f :
bytes_at m (src + i) (replicate k 32) -> apart (dst + i) (Z.of_nat k) (src + i) (Z.of_nat k) ->
exists m', for_break (k + n) i (cpy_step dst src) (f, m) =
    for_break n (i + Z.of_nat k) (cpy_step dst src) ((if (k =? 0)%nat then f else 1), m') /\
  (forall a, dst + i <= a < dst + i + Z.of_nat k -> m'⟦a⟧ = 0) /\
  forall a, ~ dst + i <= a < dst + i + Z.of_nat k -> m'⟦a⟧ = m⟦a⟧.
Proof.
revert i m f. induction k as [|k IH]; intros i m f Hb Hap.
- exists m. rewrite Z.add_0_r. split; [done|]. split; [lia|done].
- destruct Hb as [Hb0 Hb]. unfold apart in *. cbn [Nat.add for_break]. unfold cpy_step at 1. rewrite Hb0. cbn [Z.eqb negb Pos.eqb].
  destruct (IH (i + 1) m⟦dst + i := 0⟧ 1) as (m' & E & H1 & H2).
  + replace (src + (i + 1)) with (src + i + 1) by lia. eapply bytes_at_ext; [|exact Hb].
    intros b Hbr. rewrite length_replicate in Hbr. rewrite rd_wr_ne by lia. done.
  + lia.
  + exists m'. rewrite E. replace (i + Z.of_nat (S k)) with (i + 1 + Z.of_nat k) by lia.
    split; [by destruct k|]. split.
    * intros a Ha. destruct (decide (a = dst + i)) as [->|Hne]; [|apply H1; lia].
      rewrite H2 by lia. apply rd_wr_eq.
    * intros a Ha. rewrite H2 by lia. apply rd_wr_ne. lia.
Qed.

(** A word with its spaces, up to a character that is not a space. *)
Lemma cpy_piece dst src m t (k : nat) c :
Forall (fun c => 0 < c < 256 /\ c <> 32) t -> (0 < length t + k < 256)%nat ->
bytes_at m src (piece t k) -> m⟦src + zlen (piece t k)⟧ = c -> c <> 32 -> (0 < k)%nat \/ c = 0 ->
apart dst 256 src 256 ->
exists m', cpy dst src m = (zlen (piece t k), m') /\ cstr m' dst t /\
  forall a, ~ dst <= a < dst + 256 -> m'⟦a⟧ = m⟦a⟧.
Proof.
intros Ht Hlen Hb Hc Hc32 Hk Hap. unfold piece in *. rewrite length_app, length_replicate in *.
apply bytes_at_app in Hb as [Hbt Hbk]. unfold apart in Hap.
assert (m⟦src⟧ <> 0) as Hne.
{ destruct t as [|x t]; [|destruct Hbt as [-> _]; apply Forall_cons in Ht as [[? _] _]; lia].
  destruct k as [|k]; [cbn in Hlen; lia|]. destruct Hbk as [E _]. cbn in E. rewrite Z.add_0_r in E. lia. }
unfold cpy. destruct (Z.eqb_spec m⟦src⟧ 0); [done|].
replace 256%nat with (length t + (k + (256 - (length t + k))))%nat by lia.
destruct (cpy_word (k + (256 - (length t + k))) dst src 0 m t Ht) as (m1 & E1 & B1 & U1);
  [by rewrite Z.add_0_r|unfold apart; lia|].
rewrite E1, Z.add_0_l.
destruct (cpy_spaces (256 - (length t + k)) dst src (zlen t) m1 k 0) as (m2 & E2 & B2 & U2);
  [eapply bytes_at_ext; [|exact Hbk]; intros b Hbr; rewrite length_replicate in Hbr; apply U1; lia|unfold apart; lia|].
rewrite E2. replace (256 - (length t + k))%nat with (S (255 - (length t + k))) by lia. cbn [for_break].
unfold cpy_step at 1. replace (zlen t + Z.of_nat k) with (Z.of_nat (length t + k)) by lia.
rewrite U2, U1, Hc by lia. destruct (Z.eqb_spec c 32); [done|]. cbn [negb].
assert (bytes_at m2 dst t) as Hbm2.
{ rewrite Z.add_0_r in B1. eapply bytes_at_ext; [|exact B1]. intros b Hbr. apply U2. lia. }
assert (chars t) as Hchars by (eapply Forall_impl; [exact Ht|]; by intros ? [? _]).
destruct k as [|k].
- destruct Hk as [?|Hc0]; [lia|]. cbn [Nat.eqb]. change (0 >? 0) with false. cbv iota. rewrite Hc0. cbn [Z.eqb].
  eexists. split; [reflexivity|]. rewrite Nat.add_0_r in *. split.
  + split; [done|]. split; [|apply rd_wr_eq]. eapply bytes_at_ext; [|exact Hbm2]. intros b Hbr. apply rd_wr_ne. lia.
  + intros a Ha. rewrite rd_wr_ne by lia. rewrite U2, U1 by lia. done.
- cbn [Nat.eqb]. change (1 >? 0) with true. cbv iota. exists m2. split; [done|]. split.
  + split; [done|]. split; [done|]. apply B2. lia.
  + intros a Ha. rewrite U2, U1 by lia. done.
Qed.
End cpy.

(** What the words of a line take, with the terminator of the last one. *)
Definition extent (ps : list (list Z * nat)) : Z := match ps with [] => 0 | _ => zlen (line ps) + 1 end.

(** The arguments [i], [i + 1], ... of the table at [argv] are the words of [ps]. *)
Definition arguments (m : mem) (argv i : Z) (ps : list (list Z * nat)) : Prop :=
  forall (k : nat) t j, ps !! k = Some (t, j) -> cstr m (ld64 m (argv + 8 * (i + Z.of_nat k))) t.

Section format.
Implicit Types (m : mem) (argv tmp i mp sp : Z) (t : list Z) (ps : list (list Z * nat)).

Lemma line_cons t k ps : line ((t, k) :: ps) = piece t k ++ line ps.
Proof. done. Qed.

Lemma pieces_next t k ps m sp : pieces ((t, k) :: ps) -> bytes_at m sp (line ps) -> m⟦sp + zlen (line ps)⟧ = 0 ->
m⟦sp⟧ <> 32 /\ ((0 < k)%nat \/ m⟦sp⟧ = 0) /\ (k = O -> ps = []).
Proof.
intros (_ & _ & Hn & Hps) Hb Hz. destruct ps as [|[u j] ps].
- cbn in Hz. rewrite Z.add_0_r in Hz. rewrite Hz. split; [done|]. split; [by right|done].
- destruct Hn as [Hk Hu]. split; [|split; [by left|lia]]. destruct Hps as (Hu2 & _).
  destruct u as [|x u]; [done|]. apply Forall_cons in Hu2 as [[_ Hx] _]. rewrite line_cons in Hb.
  destruct Hb as [-> _]. exact Hx.
Qed.

Lemma format_loop_spec n fuel argv tmp i mp sp m ps :
pieces ps -> (length ps <= n)%nat -> bytes_at m sp (line ps) -> m⟦sp + zlen (line ps)⟧ = 0 ->
0 <= i -> i + Z.of_nat n <= 32 -> (256 <= fuel)%nat -> 0 <= mp -> mp + zlen (line ps) < 2 ^ 64 ->
apart tmp 256 sp (zlen (line ps) + 256) -> apart mp (zlen (line ps) + 1) sp (zlen (line ps) + 256) ->
apart mp (zlen (line ps) + 1) tmp 256 -> apart argv 256 sp (zlen (line ps) + 256) -> apart argv 256 tmp 256 ->
argv + 256 <= mp ->
exists m', format_loop n fuel argv tmp i mp sp m = Ret (i + zlen ps, m') /\ arguments m' argv i ps /\
  forall a, ~ argv + 8 * i <= a < argv + 256 -> ~ tmp <= a < tmp + 256 -> ~ mp <= a < mp + extent ps ->
    m'⟦a⟧ = m⟦a⟧.
Proof.
intros Hps Hn Hb Hz Hi Hin Hf Hmp Hmax A1 A2 A3 A4 A5 A6.
revert n i mp sp m Hps Hn Hb Hz Hi Hin Hmp Hmax A1 A2 A3 A4 A6.
induction ps as [|[t k] ps IH]; intros n i mp sp m Hps Hn Hb Hz Hi Hin Hmp Hmax A1 A2 A3 A4 A6; unfold apart in *.
- destruct n as [|n]; cbn [format_loop].
  + exists m. rewrite Z.add_0_r. split; [done|]. split; [by intros [] t j|done].
  + cbn in Hz, A4. rewrite Z.add_0_r in Hz. unfold cpy. rewrite rd_st_out by lia. rewrite Hz. cbn [Z.eqb].
    eexists. rewrite Z.add_0_r. split; [reflexivity|]. split; [by intros [] t j|].
    intros a Ha _ _. apply rd_st_out. lia.
- destruct n as [|n]; [cbn in Hn; lia|]. cbn [format_loop]. rewrite line_cons, length_app in *.
  pose proof Hps as (Ht & Hlen & _ & Hps'). set (r := zlen (piece t k)) in *.
  assert (r = zlen t + Z.of_nat k) as Er by (unfold r, piece; rewrite length_app, length_replicate; lia).
  set (m1 := st64 m (argv + 8 * i) mp).
  assert (forall a, ~ argv + 8 * i <= a < argv + 8 * i + 8 -> m1⟦a⟧ = m⟦a⟧) as U1 by (intros a Ha; apply rd_st_out; lia).
  apply bytes_at_app in Hb as [Hb1 Hb2]. fold r in Hb2.
  assert (m⟦sp + r + zlen (line ps)⟧ = 0) as Hz2 by (rewrite <- Hz; f_equal; lia).
  destruct (pieces_next t k ps m (sp + r) Hps Hb2 Hz2) as (C1 & C2 & C3).
  destruct (cpy_piece tmp sp m1 t k m⟦sp + r⟧ Ht Hlen) as (m2 & E2 & S2 & U2);
    [eapply bytes_at_ext; [|exact Hb1]; intros b Hbr; apply U1; lia|apply U1; lia|done|done|unfold apart; lia|].
  rewrite E2. fold r. destruct (Z.eqb_spec r 0); [lia|].
  destruct (strcpy_total fuel m2 mp tmp t S2) as (m3 & E3 & S3 & U3); [lia|lia|].
  assert (forall a, ~ mp <= a < mp + zlen t + 1 -> m3⟦a⟧ = m2⟦a⟧) as U3'
    by (intros a Ha; apply U3, not_within; lia).
  rewrite E3. cbn [mbind outcome_bind].
  assert (forall a, sp <= a < sp + zlen (piece t k ++ line ps) + 1 -> m3⟦a⟧ = m⟦a⟧) as Usp.
  { intros a Ha. rewrite length_app in Ha. rewrite U3', U2, U1 by lia. done. }
  rewrite length_app in Usp.
  destruct (IH n (i + 1) (mp + r) (sp + r) m3) as (m' & E' & HA & U'); try done; try lia.
  + cbn in Hn. lia.
  + eapply bytes_at_ext; [|exact Hb2]. intros b Hbr. apply Usp. lia.
  + rewrite Usp by lia. done.
  + exists m'. rewrite E'. split; [f_equal; f_equal; cbn [length]; lia|].
    assert (extent ps <= zlen (line ps) + 1 /\ (k = O -> extent ps = 0)) as [X1 X2].
    { split; [unfold extent; destruct ps; lia|]. intros ->. by rewrite C3. }
    split.
    * intros [|q] u j Hq; cbn in Hq.
      -- injection Hq as <- <-. rewrite Z.add_0_r.
         assert (ld64 m' (argv + 8 * i) = mp) as ->.
         { rewrite (ld_ext 8 m1 m'); [unfold m1; rewrite ld_st_eq; apply Z.mod_small; lia|].
           intros b Hbr. rewrite U' by (destruct (decide (k = O)); lia). rewrite U3', U2 by lia. done. }
         eapply cstr_ext; [|exact S3]. intros b Hbr. apply U'; [lia|lia|].
         destruct (decide (k = O)) as [Hk0|]; [specialize (X2 Hk0); lia|lia].
      -- specialize (HA q u j Hq). by replace (i + 1 + Z.of_nat q) with (i + Z.of_nat (S q)) in HA by lia.
    * intros a Ha1 Ha2 Ha3. unfold extent in Ha3. rewrite line_cons, length_app in Ha3. fold r in Ha3.
      rewrite U', U3', U2, U1 by lia. done.
Qed.
End format.

(** C38: [format_argv] splits a command line at its spaces: it returns the number of words, at most 32, and
    the table of arguments points to the words, each a terminated string of its own; nothing but
    the table, the text behind it and the local array is written. *)
Theorem format_argv_splits (fuel : nat) (argv src tmp : Z) (m : mem) (ps : list (list Z * nat)) :
  pieces ps -> (length ps <= 32)%nat -> cstr m src (line ps) -> (256 <= fuel)%nat ->
  0 <= argv -> argv + 256 + zlen (line ps) < 2 ^ 64 ->
  apart tmp 256 src (zlen (line ps) + 256) -> apart argv (257 + zlen (line ps)) src (zlen (line ps) + 256) ->
  apart argv (257 + zlen (line ps)) tmp 256 ->
  exists m', format_argv fuel argv src tmp m = Ret (zlen ps, m') /\ arguments m' argv 0 ps /\
    forall a, ~ argv <= a < argv + 257 + zlen (line ps) -> ~ tmp <= a < tmp + 256 -> m'⟦a⟧ = m⟦a⟧.
Proof.
  intros Hps Hn (_ & Hb & Hz) Hf Ha Hmax A1 A2 A3. unfold apart in *.
  destruct (format_loop_spec 32 fuel argv tmp 0 (argv + 8 * 32) src m ps) as (m' & E & HA & U);
    unfold apart; try done; try lia.
  exists m'. split; [exact E|]. split; [done|]. intros a Ha1 Ha2. apply U; [lia|done|].
  unfold extent. destruct ps; lia.
Qed.

(** "ls  -a" *)
Definition ex_line : list (list Z * nat) := [([108; 115], 2%nat); ([45; 97], 0%nat)].
Definition ex_command : mem := foldr (fun '(i, c) m => m⟦0x2000 + i := c⟧) ∅
  [(0, 108); (1, 115); (2, 32); (3, 32); (4, 45); (5, 97)].

Example format_argv_splits_witness :
  exists m', format_argv 256 0x1000 0x2000 0x3000 ex_command = Ret (2, m') /\
    cstr m' (ld64 m' 0x1000) [108; 115] /\ cstr m' (ld64 m' 0x1008) [45; 97].
Proof.
  destruct (format_argv_splits 256 0x1000 0x2000 0x3000 ex_command ex_line) as (m' & E & HA & _);
    [|cbn; lia| |unfold apart; cbn; lia..|].
  - repeat split; first [lia | discriminate | repeat constructor; lia].
  - split; [repeat constructor; lia|]. vm_compute. repeat split; reflexivity.
  - exists m'. split; [exact E|]. split; [exact (HA 0%nat _ _ eq_refl)|exact (HA 1%nat _ _ eq_refl)].
Defined.
