(* ===== verification/Server.v ===== *)
(** * Server: requests between processes (kernel/communication.c, kernel/server.c, kernel/syscall.c)

    The communication thread of the kernel serves one request after another: to end a process, to start
    one, to give a thread the focus.  [commun] and [ret] are the addresses of its two messages, [memory] of the page
    for arguments; [local] and [tmp] stand for the arrays of [exit] and [format_argv], [phdr] for what
    the header record of [exectve] holds before it is filled. *)
From stdpp Require Import strings.
From S2P Require Import Prelude Links KString Bytes Argv Files Thread Frames Pages Paging Heap Ledger Exec.
From S2P Require Import Process Start Window Exit Life.

(** The keyboard, the pointer and the streams of the kernel go to the thread [th]. *)
Definition streams_to (th : THREAD) (o : os) : os :=
  let i := io_of o in
  set_focus (stdin th) (stderr th) (mouse th) (set_sys (Sys (heap i) (bytes_of i) (files i) (stdout th)) o).

(** [pid] is not used. *)
Definition foco (fuel : nat) (pid id_ : Z) (o : os) : outcome os :=
  let s := sc (pr o) in
  tmp ← seek_thread fuel (fun th => id th =? id_) (threads s) (thread_ready_queue s);
  if tmp =? 0 then Ret o
  else
    th ← get_t tmp s;
    let o := streams_to th o in
    d ← window_foco fuel (window th) (dk o);
    Ret (set_dk d o).

Definition syscall_kbd_foco (o : os) : outcome os :=
  th ← get_t (current_thread (sc (pr o))) (sc (pr o));
  Ret (streams_to th o).

Definition COMMUN_TYPE_REBOOT : Z := 0x1001.
Definition COMMUN_TYPE_POWEROFF : Z := 0x1002.
Definition COMMUN_TYPE_EXIT : Z := 0x1003.
Definition COMMUN_TYPE_FOCO : Z := 0x1004.
Definition COMMUN_TYPE_EXEC : Z := 0x1005.
Definition COMMUN_TYPE_EXEC_CHILD : Z := 0x1006.

(** [struct communication]: three words and the text. *)
Definition commun_pid : Z := 8.
Definition commun_apid : Z := 16.
Definition commun_message : Z := 24.

Definition chars_of (s : string) : list Z := (fun c => Z.of_nat (Ascii.nat_of_ascii c)) <$> String.list_ascii_of_string s.

(** [strcpy((char * )ret->message, ...)] of a literal. *)
Definition say (ret : Z) (text : list Z) (o : os) : os :=
  set_sys (set_bytes (poke (bytes_of (io_of o)) (ret + commun_message) (text ++ [0])) (io_of o)) o.

(** [for (i = 1000; i > 0; i--) if ( *option++ == 0) break;]: the address behind the terminator, if it was met. *)
Definition skip_string (option_ : Z) (m : mem) : option Z :=
  match for_break 1000 0 (fun _ p => if m⟦p⟧ =? 0 then inr (p + 1) else inl (p + 1)) option_ with
  | inl _ => None
  | inr p => Some p
  end.

Definition set_thread_id_o (v : Z) (o : os) : os := set_sc (set_thread_id v (sc (pr o))) o.

Section server.
Context (sse : gmap Z Z) (horizontal_resolution vertical_resolution bpp pixels_per_scan_line user : Z).
Context (commun ret memory local tmp : Z) (phdr : program_header_t).

(** It returns 0 always.  The restart does not return; the port that turns the power off is not modelled. *)
Definition commun_switch (fuel : nat) (o : os) : outcome os :=
  let type := ld64 (bytes_of (io_of o)) commun in
  let field f (o : os) := ld64 (bytes_of (io_of o)) (commun + f) in
  if type =? COMMUN_TYPE_REBOOT then Die
  else if type =? COMMUN_TYPE_POWEROFF then Ret (say ret (chars_of "poweroff" ++ [10]) o)
  else if type =? COMMUN_TYPE_EXIT then
    let o := say ret (chars_of "exit" ++ [10]) o in
    thread ← get_thread fuel (field commun_pid o) (sc (pr o));
    exit fuel 0 thread local o
  else if type =? COMMUN_TYPE_FOCO then
    let o := say ret (chars_of "foco" ++ [10]) o in
    foco fuel (field commun_pid o) (field commun_apid o) o
  else if type =? COMMUN_TYPE_EXEC then
    let o := say ret (chars_of "exective" ++ [10]) o in
    let buf := field commun_message o in
    let pwd := commun + commun_message + 8 in
    let o := set_thread_id_o (field commun_apid o) o in
    '(_, p) ← exectve sse horizontal_resolution vertical_resolution bpp pixels_per_scan_line user fuel
      0 0 pwd buf phdr (pr o);
    Ret (set_thread_id_o 0 (set_pr p o))
  else if type =? COMMUN_TYPE_EXEC_CHILD then
    let o := say ret (chars_of "exective child" ++ [10]) o in
    let buf := field commun_message o in
    let pid := field commun_pid o in
    let pwd := commun + commun_message + 8 in
    '(argc, argv, o) ←
      match skip_string pwd (bytes_of (io_of o)) with
      | None => Ret (0, 0, o)
      | Some option_ =>
          '(argc, m) ← format_argv fuel memory option_ tmp (bytes_of (io_of o));
          Ret (argc, memory, set_sys (set_bytes m (io_of o)) o)
      end;
    thread ← get_thread fuel pid (sc (pr o));
    '(r, p) ← exectve_child sse user fuel argc argv pwd buf thread phdr (pr o);
    let o := set_pr p o in
    let i := io_of o in
    if r =? 0 then Ret (set_sys (set_bytes (st64 (bytes_of i) ret (2 ^ 64 - 1)) i) o)
    else
      let o := set_sys (set_bytes (st64 (bytes_of i) ret 0) i) o in
      Ret (say ret (chars_of "executado...") o)
  else Ret o.
End server.

(** ** What a request for the focus does *)

(** The first thread of the queue [l] registered under [x], 0 when there is none. *)
Definition named (s : sched mm) (l : list Z) (x : Z) : Z := pick (fun th => id th =? x) (threads s) l.

Definition raise (a : Z) (ws : list Z) : list Z := filter (fun b => b <> a) ws ++ [a].

(** The request for [x] on the windows, the one in front last, and the thread with the focus. *)
Definition focus_step (s : sched mm) (l : list Z) (v : list Z * Z) (x : Z) : list Z * Z :=
  let t := named s l x in
  if t =? 0 then v else (raise (window (rd (threads s) t)) v.1, t).

(** The thread [t] has the focus: its window, and what the user types, moves and sees. *)
Record focused (o : os) (t : Z) : Prop := {
  fo_thread : exists th, threads (sc (pr o)) !! t = Some th /\ std_in o = stdin th /\ stdout_fp (io_of o) = stdout th /\
    std_err o = stderr th /\ mouse2 o = mouse th /\ shows (dk o) (paint_foco (dk o)) (window th)
}.

(** Another packet has arrived in [commun]. *)
Definition deliver (commun type pid apid : Z) (o : os) : os :=
  set_sys (set_bytes (st64 (st64 (st64 (bytes_of (io_of o)) commun type) (commun + commun_pid) pid) (commun + commun_apid) apid)
    (io_of o)) o.

(** Requests for the focus, served in order. *)
Fixpoint serve (switch : os -> outcome os) (commun : Z) (reqs : list (Z * Z)) (o : os) : outcome os :=
  match reqs with
  | [] => Ret o
  | (pid, x) :: reqs => o ← switch (deliver commun COMMUN_TYPE_FOCO pid x o); serve switch commun reqs o
  end.

Section focus.
Implicit Types (o : os) (s : sched mm) (l ps ws : list Z) (t x a : Z) (th : THREAD) (m : mem).

Lemma rd_poke_out m a l b : ~ a <= b < a + zlen l -> (poke m a l)⟦b⟧ = m⟦b⟧.
Proof.
revert m a. induction l as [|c l IH]; intros m a Hb; [done|]. cbn [poke]. cbn in Hb.
rewrite IH by lia. apply rd_wr_ne. lia.
Qed.

Lemma elem_raise a b ws : a ∈ ws -> b ∈ ws -> b ∈ raise a ws.
Proof.
intros Ha Hb. unfold raise. apply elem_of_app. destruct (decide (b = a)) as [->|Hne]; [right; left|left].
by apply list_elem_of_filter.
Qed.

Lemma named_at s l x p : linked (threads s) p l -> named s l x <> 0 ->
  exists th, threads s !! named s l x = Some th /\ rd (threads s) (named s l x) = th.
Proof.
intros Hl Hn. destruct (pick_cases (fun th => id th =? x) (threads s) l) as [(l1 & t & l2 & -> & _ & E & _)|[E _]]; [|done].
change (named s (l1 ++ t :: l2) x = t) in E. rewrite E. destruct (links_app _ _ _ _ _ Hl) as (th & Ht & _).
exists th. split; [done|]. unfold rd. by rewrite Ht.
Qed.

Lemma foco_spec fuel pid x o l ps ws t :
  linked (threads (sc (pr o))) (thread_ready_queue (sc (pr o))) l -> (length l < fuel)%nat ->
  desk_rep (dk o) ps ws -> (2 * length ps + 3 < fuel)%nat -> focused o t ->
  named (sc (pr o)) l x = 0 \/ window (rd (threads (sc (pr o))) (named (sc (pr o)) l x)) ∈ ws ->
  exists o' ps', foco fuel pid x o = Ret o' /\ length ps' = length ps /\
    desk_rep (dk o') ps' (focus_step (sc (pr o)) l (ws, t) x).1 /\ focused o' (focus_step (sc (pr o)) l (ws, t) x).2 /\
    threads (sc (pr o')) = threads (sc (pr o)) /\ thread_ready_queue (sc (pr o')) = thread_ready_queue (sc (pr o)) /\
    bytes_of (io_of o') = bytes_of (io_of o).
Proof.
intros Hl Hf HR Hfd Hfo Hw. unfold foco, focus_step. rewrite (seek_thread_spec _ _ _ _ _ Hl Hf).
change (pick _ _ l) with (named (sc (pr o)) l x). cbn [mbind outcome_bind].
destruct (Z.eqb_spec (named (sc (pr o)) l x) 0) as [E0|Hn]; [by exists o, ps|].
destruct Hw as [Hw|Hw]; [done|]. destruct (named_at _ _ _ _ Hl Hn) as (th & Ht & Er). rewrite Er in Hw |- *.
rewrite (get_t_eq _ _ _ Ht). cbn [mbind outcome_bind fst snd].
destruct (window_foco_at fuel (window th) (dk o) ps ws HR Hw Hfd) as (d' & l1 & p & l2 & -> & E & HR' & _ & Ep & _).
change (dk (streams_to th o)) with (dk o). rewrite E. cbn [mbind outcome_bind].
eexists _, (l1 ++ l2 ++ [p]). split; [reflexivity|]. split; [rewrite !length_app; cbn; lia|].
split; [exact HR'|]. split; [|done]. constructor. exists th. split; [exact Ht|]. do 4 (split; [done|]).
cbn [dk set_dk]. rewrite Ep. rewrite app_assoc in HR'. exact (desk_last d' (l1 ++ l2) _ p (window th) HR').
Qed.
End focus.

Section requests.
Context (sse : gmap Z Z) (hr vr bpp pps user commun ret memory local tmp : Z) (phdr : program_header_t).
Context (Hapart : Bytes.apart commun 24 (ret + commun_message) 6).
Local Abbreviation switch fuel := (commun_switch sse hr vr bpp pps user commun ret memory local tmp phdr fuel).
Implicit Types (o : os) (l ps ws : list Z) (t x : Z) (reqs : list (Z * Z)).

(** The bytes a request for the focus writes: the packet and the answer. *)
Definition messages (a : Z) : Prop := commun <= a < commun + 24 \/ ret + commun_message <= a < ret + commun_message + 6.

(** The state when [foco] is called. *)
Definition asked pid x o : os := say ret (chars_of "foco" ++ [10]) (deliver commun COMMUN_TYPE_FOCO pid x o).

Lemma asked_bytes pid x o a : ~ messages a -> (bytes_of (io_of (asked pid x o)))⟦a⟧ = (bytes_of (io_of o))⟦a⟧.
Proof using.
unfold messages, commun_message. intros Ha.
change ((poke (st64 (st64 (st64 (bytes_of (io_of o)) commun COMMUN_TYPE_FOCO) (commun + 8) pid) (commun + 16) x) (ret + 24)
  [102; 111; 99; 111; 10; 0])⟦a⟧ = (bytes_of (io_of o))⟦a⟧).
rewrite rd_poke_out by (change (zlen [102; 111; 99; 111; 10; 0]) with 6; lia). by rewrite !rd_st_out by lia.
Qed.

Lemma asked_says pid x o : cstr (bytes_of (io_of (asked pid x o))) (ret + commun_message) [102; 111; 99; 111; 10].
Proof using.
unfold commun_message. set (m := st64 (st64 (st64 (bytes_of (io_of o)) commun COMMUN_TYPE_FOCO) (commun + 8) pid) (commun + 16) x).
change (cstr (poke m (ret + 24) [102; 111; 99; 111; 10; 0]) (ret + 24) [102; 111; 99; 111; 10]).
cbn [poke]. split; [repeat constructor; lia|]. cbn [bytes_at length].
repeat (split; [repeat first [rewrite rd_wr_eq; reflexivity | rewrite rd_wr_ne by lia]|]); [done|].
replace (ret + 24 + Z.of_nat 5) with (ret + 24 + 1 + 1 + 1 + 1 + 1) by lia. apply rd_wr_eq.
Qed.

(** The packet, before and after the answer is written. *)
Lemma delivered type pid x o : 0 <= type < 2 ^ 64 ->
  ld64 (bytes_of (io_of (deliver commun type pid x o))) commun = type.
Proof using.
intros Ht. change (ld64 (st64 (st64 (st64 (bytes_of (io_of o)) commun type) (commun + 8) pid) (commun + 16) x) commun = type).
rewrite !ld_st_ne by lia. rewrite ld_st_eq. by apply Z.mod_small.
Qed.

Lemma said_fields text type pid x o : Bytes.apart commun 24 (ret + commun_message) (zlen text + 1) ->
  ld64 (bytes_of (io_of (say ret text (deliver commun type pid x o)))) (commun + commun_pid) = pid mod 2 ^ 64 /\
  ld64 (bytes_of (io_of (say ret text (deliver commun type pid x o)))) (commun + commun_apid) = x mod 2 ^ 64.
Proof using.
unfold Bytes.apart, commun_message, commun_pid, commun_apid. intros Ha.
set (m := st64 (st64 (st64 (bytes_of (io_of o)) commun type) (commun + 8) pid) (commun + 16) x).
assert (bytes_of (io_of (say ret text (deliver commun type pid x o))) = poke m (ret + 24) (text ++ [0])) as -> by reflexivity.
assert (forall k, 0 <= k <= 16 -> ld64 (poke m (ret + 24) (text ++ [0])) (commun + k) = ld64 m (commun + k)) as Hk.
{ intros k Hk. apply ld_ext. intros b Hb. apply rd_poke_out. rewrite length_app. cbn [length]. lia. }
rewrite !Hk by lia. unfold m. rewrite ld_st_ne, !ld_st_eq by lia. done.
Qed.

Lemma switch_foco fuel pid x o : 0 <= x < 2 ^ 64 ->
  switch fuel (deliver commun COMMUN_TYPE_FOCO pid x o) = foco fuel (pid mod 2 ^ 64) x (asked pid x o).
Proof using Hapart.
intros Hx. unfold commun_switch. cbv zeta. rewrite delivered by done.
change (COMMUN_TYPE_FOCO =? COMMUN_TYPE_REBOOT) with false. change (COMMUN_TYPE_FOCO =? COMMUN_TYPE_POWEROFF) with false.
change (COMMUN_TYPE_FOCO =? COMMUN_TYPE_EXIT) with false. change (COMMUN_TYPE_FOCO =? COMMUN_TYPE_FOCO) with true. cbv iota.
destruct (said_fields (chars_of "foco" ++ [10]) COMMUN_TYPE_FOCO pid x o Hapart) as [-> ->]. unfold asked.
f_equal. by apply Z.mod_small.
Qed.

Lemma switch_exit fuel pid x o : Bytes.apart commun 24 (ret + commun_message) 6 -> 0 <= pid < 2 ^ 64 ->
  switch fuel (deliver commun COMMUN_TYPE_EXIT pid x o) =
    (let o := say ret (chars_of "exit" ++ [10]) (deliver commun COMMUN_TYPE_EXIT pid x o) in
     thread ← get_thread fuel pid (sc (pr o)); exit fuel 0 thread local o).
Proof using.
intros Ha Hpid. unfold commun_switch. cbv zeta. rewrite delivered by done.
change (COMMUN_TYPE_EXIT =? COMMUN_TYPE_REBOOT) with false. change (COMMUN_TYPE_EXIT =? COMMUN_TYPE_POWEROFF) with false.
change (COMMUN_TYPE_EXIT =? COMMUN_TYPE_EXIT) with true. cbv iota.
destruct (said_fields (chars_of "exit" ++ [10]) COMMUN_TYPE_EXIT pid x o Ha) as [-> _]. by rewrite Z.mod_small.
Qed.

(** One request. *)
Lemma focus_served fuel pid x o l ps ws t :
  0 <= x < 2 ^ 64 -> linked (threads (sc (pr o))) (thread_ready_queue (sc (pr o))) l -> (length l < fuel)%nat ->
  desk_rep (dk o) ps ws -> (2 * length ps + 3 < fuel)%nat -> focused o t ->
  named (sc (pr o)) l x = 0 \/ window (rd (threads (sc (pr o))) (named (sc (pr o)) l x)) ∈ ws ->
  exists o' ps', switch fuel (deliver commun COMMUN_TYPE_FOCO pid x o) = Ret o' /\ length ps' = length ps /\
    desk_rep (dk o') ps' (focus_step (sc (pr o)) l (ws, t) x).1 /\ focused o' (focus_step (sc (pr o)) l (ws, t) x).2 /\
    threads (sc (pr o')) = threads (sc (pr o)) /\ thread_ready_queue (sc (pr o')) = thread_ready_queue (sc (pr o)) /\
    (forall a, ~ messages a -> (bytes_of (io_of o'))⟦a⟧ = (bytes_of (io_of o))⟦a⟧) /\
    cstr (bytes_of (io_of o')) (ret + commun_message) [102; 111; 99; 111; 10].
Proof using Hapart.
intros Hx Hl Hf HR Hfd [Hfo] Hw. rewrite switch_foco by done.
destruct (foco_spec fuel (pid mod 2 ^ 64) x (asked pid x o) l ps ws t) as (o' & ps' & E & Hlen & HR' & Hfo' & Et & Eq & Eb);
  [exact Hl|exact Hf|exact HR|exact Hfd|constructor; exact Hfo|exact Hw|].
exists o', ps'. split; [exact E|]. split; [exact Hlen|]. split; [exact HR'|]. split; [exact Hfo'|]. split; [exact Et|].
split; [exact Eq|]. rewrite Eb. split; [apply asked_bytes|apply asked_says].
Qed.
End requests.

(** A request to end the process of a pid ends the thread with that pid, and [exit] gives back what it held: the state
    when [exit] is called is that of [ending], the answer written. *)
Theorem exit_request_ends sse hr vr bpp pps user commun ret memory local tmp phdr (fuel : nat) (pid_ x : Z) (o : os)
    (B : blocks) (l1 : list Z) (q t : Z) (l2 : list Z) (th : THREAD) (lt wl own fs ps ws : list Z) :
  Bytes.apart commun 24 (ret + commun_message) 6 -> 0 <= pid_ < 2 ^ 64 -> pid th = pid_ ->
  ending (say ret (chars_of "exit" ++ [10]) (deliver commun COMMUN_TYPE_EXIT pid_ x o)) B local l1 q t l2 th lt wl own fs ps ws ->
  ws = [] \/ window th ∈ ws -> (length l1 + length l2 + length ps + 2 < fuel)%nat ->
  exists o' ps', commun_switch sse hr vr bpp pps user commun ret memory local tmp phdr fuel
      (deliver commun COMMUN_TYPE_EXIT pid_ x o) = Ret o' /\
    queue_ok (sc (pr o')) (l1 ++ q :: l2) (heap_blocks (without (lt ++ wl ++ own) B)) /\
    mm_ok (heap (io_of o')) (without (lt ++ wl ++ own) B) /\ desk_rep (dk o') ps' (filter (fun b => b <> window th) ws).
Proof.
  intros Hap Hpid Hth HE Hw Hf. rewrite switch_exit by done. cbv zeta. set (o1 := say _ _ _) in *.
  assert (get_thread fuel pid_ (sc (pr o1)) = Ret t) as ->.
  { pose proof (en_queue _ _ _ _ _ _ _ _ _ _ _ _ _ _ HE) as [Hl Hnd _ Hd _ _].
    pose proof (en_thread _ _ _ _ _ _ _ _ _ _ _ _ _ _ HE) as Ht.
    unfold get_thread. rewrite (seek_thread_spec _ _ _ _ _ Hl) by (rewrite length_app; cbn; lia). f_equal.
    assert (t ∈ l1 ++ q :: t :: l2) as Hin by (apply elem_of_app; right; right; left).
    destruct (pick_cases (fun r => pid r =? pid_) (threads (sc (pr o1))) (l1 ++ q :: t :: l2))
      as [(k1 & u & k2 & El & Hu & E & _)|[_ Hall]].
    - rewrite E. destruct (links_app (threads (sc (pr o1))) (thread_ready_queue (sc (pr o1))) k1 u k2 (nxt := next)) as (ru & Hru & _); [by rewrite <- El|].
      unfold rd in Hu. rewrite Hru in Hu. change (default zero (Some ru)) with ru in Hu.
      apply (Hd u t ru th); [rewrite El; apply elem_of_app; right; left|done|done|done|].
      apply Z.eqb_eq in Hu. congruence.
    - rewrite Forall_forall in Hall. specialize (Hall t Hin). unfold rd in Hall. rewrite Ht in Hall.
      change (default zero (Some th)) with th in Hall. lia. }
  cbn [mbind outcome_bind].
  destruct (exit_spec fuel 0 t local o1 B l1 q l2 th lt wl own fs ps ws HE Hw) as (o' & ps' & E & Hq & G & HR & _); [lia|].
  exists o', ps'. split; [exact E|]. split; [exact Hq|]. split; [apply G|exact HR].
Qed.

(** A request to end a process that does not exist reads the thread at the address 0. *)
Theorem exit_request_unknown sse hr vr bpp pps user commun ret memory local tmp phdr (fuel : nat) (pid_ x : Z) (o : os) (l : list Z) :
  Bytes.apart commun 24 (ret + commun_message) 6 -> 0 <= pid_ < 2 ^ 64 -> threads (sc (pr o)) !! 0 = None ->
  linked (threads (sc (pr o))) (thread_ready_queue (sc (pr o))) l -> (length l < fuel)%nat ->
  pick (fun r => pid r =? pid_) (threads (sc (pr o))) l = 0 ->
  commun_switch sse hr vr bpp pps user commun ret memory local tmp phdr fuel (deliver commun COMMUN_TYPE_EXIT pid_ x o) = Undef.
Proof.
  intros Hap Hpid H0 Hl Hf Hp. rewrite switch_exit by done. cbv zeta. set (o1 := say _ _ _).
  assert (get_thread fuel pid_ (sc (pr o1)) = Ret 0) as ->.
  { unfold get_thread. change (thread_ready_queue (sc (pr o1))) with (thread_ready_queue (sc (pr o))).
    change (threads (sc (pr o1))) with (threads (sc (pr o))). by rewrite (seek_thread_spec _ _ _ _ _ Hl Hf), Hp. }
  cbn [mbind outcome_bind]. unfold exit. destruct fuel as [|fuel]; [lia|]. cbn [mark_zombies Z.eqb mbind outcome_bind].
  unfold get_t. change (threads (sc (pr (set_sc (sc (pr o1)) o1)))) with (threads (sc (pr o))). by rewrite H0.
Qed.

(** C13: the kernel's communication thread serves requests for the focus as operations on a list, in any number
    and order, as long as each names a number no thread has or a thread whose window is in the compositor's list (for a
    thread without a window, that is with the window 0, the code links the first record of the list to itself): each
    brings the window of the first thread registered under the number it names in front of all others, which keep
    their order, and gives this thread the keyboard, the pointer and the streams; a number no thread has
    changes nothing.  Threads stay as they are, and only the two messages are written. *)
Theorem focus_requests_refine sse hr vr bpp pps user commun ret memory local tmp phdr (fuel : nat)
    (reqs : list (Z * Z)) (o : os) (l ps ws : list Z) (t : Z) :
  Bytes.apart commun 24 (ret + commun_message) 6 ->
  linked (threads (sc (pr o))) (thread_ready_queue (sc (pr o))) l -> (length l < fuel)%nat ->
  desk_rep (dk o) ps ws -> (2 * length ps + 3 < fuel)%nat -> focused o t ->
  Forall (fun '(pid, x) => 0 <= x < 2 ^ 64 /\
    (named (sc (pr o)) l x = 0 \/ window (rd (threads (sc (pr o))) (named (sc (pr o)) l x)) ∈ ws)) reqs ->
  exists o' ps',
    serve (commun_switch sse hr vr bpp pps user commun ret memory local tmp phdr fuel) commun reqs o = Ret o' /\
    desk_rep (dk o') ps' (foldl (focus_step (sc (pr o)) l) (ws, t) reqs.*2).1 /\
    focused o' (foldl (focus_step (sc (pr o)) l) (ws, t) reqs.*2).2 /\
    threads (sc (pr o')) = threads (sc (pr o)) /\
    forall a, ~ messages commun ret a -> (bytes_of (io_of o'))⟦a⟧ = (bytes_of (io_of o))⟦a⟧.
Proof.
  intros Hap. revert o ps ws t. induction reqs as [|[pid x] reqs IH]; intros o ps ws t Hl Hf HR Hfd Hfo Hr.
  - by exists o, ps.
  - apply Forall_cons in Hr as [[Hx Hw] Hr]. cbn [serve fmap list_fmap foldl snd].
    destruct (focus_served sse hr vr bpp pps user commun ret memory local tmp phdr Hap fuel pid x o l ps ws t Hx Hl Hf HR Hfd Hfo Hw)
      as (o1 & ps1 & E & Hlen & HR1 & Hfo1 & Et & Eq & Eb & _).
    rewrite E. cbn [mbind outcome_bind].
    assert (forall y, named (sc (pr o1)) l y = named (sc (pr o)) l y) as En by (intros y; unfold named; by rewrite Et).
    assert (forall v y, focus_step (sc (pr o1)) l v y = focus_step (sc (pr o)) l v y) as Es
      by (intros v y; unfold focus_step; by rewrite En, Et).
    destruct (focus_step (sc (pr o)) l (ws, t) x) as [ws1 t1] eqn:Ev. cbn [fst snd] in HR1, Hfo1.
    destruct (IH o1 ps1 ws1 t1) as (o' & ps' & E' & HR' & Hfo' & Et' & Eb'); [by rewrite Et, Eq|done|done|lia|done| |].
    + apply (Forall_impl _ _ _ Hr). intros [p y] [Hy Hy2]. split; [done|]. rewrite En, Et.
      destruct Hy2 as [?|Hy2]; [by left|right]. unfold focus_step in Ev. destruct (named (sc (pr o)) l x =? 0) eqn:E0.
      * by injection Ev as <- <-.
      * injection Ev as <- <-. destruct Hw as [Hw|Hw]; [lia|]. by apply elem_raise.
    + exists o', ps'. split; [exact E'|].
      assert (foldl (focus_step (sc (pr o1)) l) (ws1, t1) reqs.*2 = foldl (focus_step (sc (pr o)) l) (ws1, t1) reqs.*2) as Ef.
      { clear -Es. generalize (ws1, t1). induction (reqs.*2) as [|y ys IHy]; intros v; [done|]. cbn [foldl]. by rewrite Es. }
      rewrite Ef in HR', Hfo'. split; [exact HR'|]. split; [exact Hfo'|]. split; [congruence|].
      intros a Ha. by rewrite Eb', Eb.
Qed.

(** ** Two programs with a window each *)
Definition ex_program (n i st_ wi : Z) : THREAD :=
  (zero : THREAD) |> set_next n |> set_id i |> set_stdin st_ |> set_window wi.

Definition ex_programs : os :=
  Os (Proc (Sched {[0x100 := ex_program 0x200 7 0x701 0x4000; 0x200 := ex_program 0 8 0x801 0x5000]} 0x100 0x100 0x100
        (Cpu zero ∅ 0) (Cpu zero ∅ 0) 2 0 0 0 (Sys boot_mm ∅ ∅ 0)) ∅ ∅) ex_desk 0x801 0 0 0 1.

Lemma ex_programs_linked : linked (threads (sc (pr ex_programs))) 0x100 [0x100; 0x200].
Proof.
  split; [done|]. split; [done|]. eexists. split; [reflexivity|]. split; [done|]. split; [done|].
  eexists. split; reflexivity.
Qed.

Lemma ex_programs_focused : focused ex_programs 0x200.
Proof.
  constructor. exists (ex_program 0 8 0x801 0x5000). split; [reflexivity|]. do 4 (split; [reflexivity|]).
  eexists. split; reflexivity.
Qed.

Example focus_requests_refine_witness :
  exists o' ps', serve (commun_switch ∅ 1024 768 32 1024 0 0x9000 0xA000 0xB000 0xC000 0xD000 (Phdr 0 0 0) 10) 0x9000
      [(1, 7); (1, 99)] ex_programs = Ret o' /\
    desk_rep (dk o') ps' [0x5000; 0x4000] /\ focused o' 0x100.
Proof.
  destruct (focus_requests_refine ∅ 1024 768 32 1024 0 0x9000 0xA000 0xB000 0xC000 0xD000 (Phdr 0 0 0) 10
    [(1, 7); (1, 99)] ex_programs [0x100; 0x200] [0x2000; 0x3000] [0x4000; 0x5000] 0x200) as (o' & ps' & E & HR & Hfo & _).
  - left. unfold commun_message. lia.
  - exact ex_programs_linked.
  - cbn. lia.
  - exact ex_desk_rep.
  - cbn. lia.
  - exact ex_programs_focused.
  - apply Forall_cons. split; [split; [lia|right; change (0x4000 ∈ [0x4000; 0x5000]); left]|].
    apply Forall_cons. split; [split; [lia|left; reflexivity]|constructor].
  - exists o', ps'. split; [exact E|]. split; [exact HR|exact Hfo].
Defined.
