(* ===== verification/Budget.v ===== *)
(** * Budget: how much the kernel's heap still serves

    A client that takes several blocks in turn needs room for each of them in the state the one before has
    left.  [BudgetLaws] counts pages: [budget h k] promises room for [k] more, whatever is asked for
    first, and what is freed costs nothing. *)
From S2P Require Import Prelude KString Bytes Frames Pages Paging Heap Ledger Exec Process Start.

Definition pages_of (n : Z) : Z := (n + 0xFFF) / 0x1000.

Class BudgetLaws (A : Type) `{AllocatorLaws A} := {
  budget : A -> Z -> Prop;
  budget_malloc (h : A) B n k :
    heap_ok h B -> 0 < n < 2 ^ 31 -> 0 <= k -> budget h (pages_of n + k) ->
    heap_room h n /\ forall p h', malloc n h = Ret (p, h') -> p < 2 ^ 64 /\ budget h' k;
  budget_free (h : A) B p k h' :
    heap_ok h B -> is_Some (B !! p) -> budget h k -> free p h = Ret h' -> budget h' k
}.

(** One that only grows. *)
#[export] Instance bump_budget : BudgetLaws bump.
Proof.
  refine {| budget := fun (a : bump) k => 0 <= k /\ a + k * 0x1000 < 2 ^ 64 |}.
  - intros a B n k _ Hn Hk [_ Hb]. split; [exact I|]. intros p a' E. injection E as <- <-. unfold pages_of in Hb.
    split; [word_lia|]. split; [done|]. word_lia.
  - intros a B p k a' _ _ Hb E. injection E as <-. exact Hb.
Defined.

Section frames.
Implicit Types (m r : gmap Z Z) (s : mm) (n k : Z) (l : list Z).

(** The first fit finds as many frames as are free. *)
Lemma alloc_frames_enough (n : nat) m l :
NoDup l -> length l = n -> (forall k, k ∈ l -> 32768 <= k < 1048576 /\ frame_busy m k = false) ->
is_Some (alloc_frames n m).
Proof.
revert m l. induction n as [|n IH]; intros m l Hnd Hl Hin; [by eexists|]. rewrite alloc_frames_S.
destruct (alloc_frame_cases m) as [(k & Hk & [Hfree E] & _)|[_ Hall]].
2:{ destruct l as [|k l]; [done|]. destruct (Hin k) as [Hk Hf]; [left|]. rewrite Hall in Hf by lia. done. }
rewrite E. destruct (Z.eqb_spec (k * 0x1000) 0); [lia|].
set (m' := m⟦_ := _⟧).
assert (exists l', NoDup l' /\ length l' = n /\ forall j, j ∈ l' -> 32768 <= j < 1048576 /\ frame_busy m j = false /\ j <> k)
  as (l' & N' & L' & I').
{ destruct (decide (k ∈ l)) as [Hkl|Hkl].
  - apply elem_of_Permutation in Hkl as [l' Hp]. rewrite Hp in Hnd. apply NoDup_cons in Hnd as [Hk1 Hnd].
    exists l'. split; [done|]. split; [apply Permutation_length in Hp; cbn in Hp; lia|]. intros j Hj.
    destruct (Hin j) as [? ?]; [rewrite Hp; by right|]. split; [done|]. split; [done|]. congruence.
  - destruct l as [|j0 l']; [done|]. apply NoDup_cons in Hnd as [_ Hnd]. exists l'. split; [done|].
    split; [cbn in Hl; lia|]. intros j Hj. destruct (Hin j) as [? ?]; [by right|]. split; [done|]. split; [done|].
    intros ->. apply Hkl. by right. }
destruct (IH m' l' N' L') as [[fs r] Er].
{ intros j Hj. destruct (I' j Hj) as (Hr & Hf & Hne). split; [done|]. unfold m'.
  pose proof (frame_busy_set m (k / 8) (k mod 8) j) as Hset. rewrite Hset by word_lia. rewrite Hf. cbn [orb].
  replace (k / 8 * 8 + k mod 8) with k by word_lia. by destruct (Z.eqb_spec j k). }
rewrite Er. by eexists.
Qed.

Lemma frames_room_mono s s' n : (forall k, 0 <= k < 1048576 -> frame_busy (ram s') k = true -> frame_busy (ram s) k = true) ->
frames_room s n -> frames_room s' n.
Proof.
intros Hb [[fs r] E]. apply alloc_frames_spec in E as (Hl & Hnd & Hall & _).
apply (alloc_frames_enough _ _ ((fun f => f / 0x1000) <$> fs)).
- apply NoDup_fmap_2_strong; [|done]. intros x y Hx Hy Exy. rewrite Forall_forall in Hall.
  destruct (Hall x Hx) as (i & _ & -> & _). destruct (Hall y Hy) as (j & _ & -> & _).
  cbv beta in Exy. rewrite !Z.div_mul in Exy by lia. lia.
- by rewrite length_fmap.
- intros k (f & -> & Hf)%list_elem_of_fmap. rewrite Forall_forall in Hall.
  destruct (Hall f Hf) as (i & Hi & -> & Hfree). rewrite Z.div_mul by lia. split; [done|].
  apply not_true_is_false. intros Ht. apply Hb in Ht; [congruence|lia].
Qed.
End frames.

#[export] Instance mm_budget : BudgetLaws mm.
Proof.
  refine {| budget := fun s k => forall B, mm_ok s B -> pages_room B k /\ frames_room s k |}.
  - intros s H n k (B & Hs & ->) Hn Hk Hbud. destruct (Hbud B Hs) as [R1 R2].
    assert (0 < pages_of n < 2 ^ 31) as Hp by (unfold pages_of; word_lia). split.
    + apply (mm_room_intro s B); [done|exact (pages_room_less B (pages_of n + k) (pages_of n) ltac:(lia) R1)|].
      exact (frames_room_less s (pages_of n + k) (pages_of n) ltac:(lia) R2).
    + intros p s' E.
      destruct (malloc_more s B n (pages_of n) k Hs Hn eq_refl Hk R1 R2) as (a & s2 & E2 & _ & [T P F _ _]).
      rewrite E in E2. injection E2 as -> ->. pose proof (tk_ok _ _ _ _ _ _ T) as Hs2. split.
      { apply (mm_addresses s2 (heap_blocks (<[a := pages_of n]> B)) _ (pages_of n * 0x1000)); [by exists (<[a := pages_of n]> B)|].
        apply heap_blocks_Some. exists a, (pages_of n). by rewrite lookup_insert_eq. }
      intros C Hs'. split; [|done]. by rewrite (page_rep_unique (ram s2) C _ (ok_rep _ _ Hs') (ok_rep _ _ (tk_ok _ _ _ _ _ _ T))).
  - intros s H p k s' (B & Hs & ->) Hin Hbud E C Hs'. destruct (Hbud B Hs) as [R1 R2].
    destruct Hin as [j (a & n & -> & -> & Ha)%heap_blocks_Some].
    destruct (kfree_block s B a n Hs Ha) as (s2 & E2 & Hs2 & _ & Hb & _).
    change (free (page_addr a) s) with (kfree (page_addr a) s) in E. rewrite E in E2. injection E2 as <-.
    rewrite (page_rep_unique (ram s') C _ (ok_rep _ _ Hs') (ok_rep _ _ Hs2)). split.
    + destruct R1 as (q & Hq & Hqb & Hqf). exists q. split; [done|]. split; [done|].
      intros x l [_ Hx]%lookup_delete_Some. by apply Hqf.
    + apply (frames_room_mono s); [|done]. intros i Hi Hbi. by apply Hb in Hbi as [? _].
Defined.

(** The pages and the frames of a block that is given back are free as they were. *)
#[export] Instance mm_room_laws : RoomLaws mm.
Proof.
  constructor. intros s H n p s1 s2 m (B & Hs & ->) Hn [Hroom [fs [r Efs]]] E Ef [Hm [gs [r2 Egs]]].
  assert (0 <= (n + 0xFFF) / 0x1000) by word_lia.
  destruct (malloc_more s B n ((n + 0xFFF) / 0x1000) 0 Hs Hn eq_refl) as (a & s1' & E' & _ & [T _ _ _ _]);
    [lia|rewrite Z.add_0_r; by apply Hroom|rewrite Z.add_0_r; unfold frames_room; rewrite Efs; by eexists|].
  rewrite E in E'. injection E' as -> ->.
  destruct (kfree_gave s1' _ a (tk_ok _ _ _ _ _ _ T)) as (s2' & E2 & G); [rewrite lookup_insert_eq; by eexists|].
  change (free (page_addr a) s1') with (kfree (page_addr a) s1') in Ef. rewrite E2 in Ef. injection Ef as ->.
  destruct (took_gave _ _ _ _ _ _ _ _ _ _ T G) as [EB Hbusy]; [done..|].
  pose proof (gv_ok _ _ _ _ _ _ G) as Hs2. rewrite EB in Hs2. apply (mm_room_intro s2 B); [done|by apply Hm|].
  apply (frames_room_mono s s2); [intros k Hk Hb; by rewrite <- Hbusy|unfold frames_room; rewrite Egs; by eexists].
Qed.

Section taking.
Context {A : Type} `{BudgetLaws A}.
Implicit Types (h : A) (B : gmap Z Z) (a b n k p : Z).

(** One more block. *)
Lemma malloc_budget h B n k :
heap_ok h B -> 0 < n < 2 ^ 31 -> 0 <= k -> budget h (pages_of n + k) ->
exists p j h', malloc n h = Ret (p, h') /\ n <= j /\ 0 < p /\ heap_ok h' (<[p := j]> B) /\ B !! p = None /\
  (forall b, live B b -> ~ p <= b < p + j) /\ p < 2 ^ 64 /\ budget h' k.
Proof.
intros Hok Hn Hk Hb. destruct (budget_malloc h B n k Hok Hn Hk Hb) as [Hroom Hnext].
destruct (malloc_fresh h B n Hok Hn Hroom) as (p & j & h' & E & Hj & Hp & Hok' & HN & Hf).
exists p, j, h'. destruct (Hnext p h' E). by split_and!.
Qed.

Lemma free_budget h B p k :
heap_ok h B -> is_Some (B !! p) -> budget h k -> exists h', free p h = Ret h' /\ heap_ok h' (delete p B) /\ budget h' k.
Proof.
intros Hok [j Hj] Hb. destruct (free_spec h B p j Hok Hj) as (h' & E & Hok'). exists h'. split; [done|]. split; [done|].
apply (budget_free h B p k h'); [done|by exists j|done|done].
Qed.

(** [B'] is [B] and the new blocks [l], of [n] bytes at least. *)
Record added n (l : list Z) B B' : Prop := {
  ad_nodup : NoDup l;
  ad_old : foldr delete B' l = B;
  ad_new : forall p, p ∈ l -> B !! p = None /\ exists j, B' !! p = Some j /\ n <= j /\ forall b, live B b -> ~ p <= b < p + j
}.

Lemma lookup_deletes (l : list Z) B p : foldr delete B l !! p = if bool_decide (p ∈ l) then None else B !! p.
Proof.
induction l as [|q l IH]; cbn [foldr]; [by rewrite bool_decide_eq_false_2 by apply not_elem_of_nil|].
destruct (decide (p = q)) as [->|Hne].
- rewrite lookup_delete_eq. by rewrite bool_decide_eq_true_2 by left.
- rewrite lookup_delete_ne by done. rewrite IH. rewrite (bool_decide_ext (p ∈ q :: l) (p ∈ l)); [done|].
  rewrite elem_of_cons. tauto.
Qed.

Lemma ad_sub n l B B' p k : added n l B B' -> B !! p = Some k -> B' !! p = Some k.
Proof. intros HA Hp. rewrite <- (ad_old _ _ _ _ HA), lookup_deletes in Hp. by case_bool_decide. Qed.

Lemma added_live n l B B' b : added n l B B' -> live B b -> live B' b.
Proof. intros HA (p & k & Hp & Hb). exists p, k. split; [by apply (ad_sub n l B)|done]. Qed.

Lemma added_nil n B : added n [] B B.
Proof. constructor; [constructor|done|]. by intros p Hp%not_elem_of_nil. Qed.

Lemma added_cons n p j l B B' : n <= j -> B !! p = None -> (forall b, live B b -> ~ p <= b < p + j) ->
added n l (<[p := j]> B) B' -> added n (p :: l) B B'.
Proof.
intros Hj HN Hf HA. assert (B' !! p = Some j) as Hp by (apply (ad_sub n l _ B' p j HA), lookup_insert_eq).
assert (p ∉ l) as Hpl by (intros Hin; destruct (ad_new _ _ _ _ HA p Hin) as [E _]; by rewrite lookup_insert_eq in E).
assert (forall b, live B b -> live (<[p := j]> B) b) as Hlive.
{ intros b (q & k & Hq & Hb). exists q, k. rewrite lookup_insert_ne by congruence. done. }
constructor.
- apply NoDup_cons. split; [done|apply HA].
- cbn [foldr]. rewrite (ad_old _ _ _ _ HA). by apply delete_insert_id.
- intros q [->|Hq]%elem_of_cons; [split; [done|]; by exists j|].
  destruct (ad_new _ _ _ _ HA q Hq) as [E (k & Hk & Hn & Hfr)]. rewrite lookup_insert_None in E.
  split; [by destruct E|]. exists k. split; [done|]. split; [done|]. intros b Hb. by apply Hfr, Hlive.
Qed.

Lemma added_perm n l l' B B' : l ≡ₚ l' -> added n l B B' -> added n l' B B'.
Proof.
intros Hp [A1 A2 A3]. constructor; [by rewrite <- Hp| |intros p; rewrite <- Hp; apply A3].
rewrite <- A2. apply map_eq. intros x. rewrite !lookup_deletes.
by rewrite (bool_decide_ext (x ∈ l') (x ∈ l)) by (by rewrite Hp).
Qed.

(** One of them was freed. *)
Lemma added_delete n p l B B' : added n (p :: l) B B' -> added n l B (delete p B').
Proof.
intros [[Hp Hnd]%NoDup_cons A2 A3]. constructor; [done|..].
- rewrite <- A2. apply map_eq. intros x. rewrite !lookup_deletes.
  destruct (decide (x = p)) as [->|Hne].
  + rewrite lookup_delete_eq, (bool_decide_eq_true_2 (p ∈ p :: l)) by left. by destruct (bool_decide (p ∈ l)).
  + rewrite lookup_delete_ne by done. rewrite (bool_decide_ext (x ∈ p :: l) (x ∈ l)); [done|].
    rewrite elem_of_cons. tauto.
- intros q Hq. assert (q <> p) by (by intros ->). destruct (A3 q) as [HN HS]; [by right|]. split; [done|].
  by rewrite lookup_delete_ne.
Qed.

Lemma live_more B p j b : B !! p = None -> live B b -> live (<[p := j]> B) b.
Proof. intros HN (q & k & Hq & Hb). exists q, k. by rewrite lookup_insert_ne by congruence. Qed.

Lemma live_range_more B p j a n : B !! p = None -> live_range B a n -> live_range (<[p := j]> B) a n.
Proof. intros HN Ha i Hi. by apply live_more, Ha. Qed.

Lemma live_range_new B p j n : n <= j -> live_range (<[p := j]> B) p n.
Proof. intros Hn i Hi. exists p, j. rewrite lookup_insert_eq. split; [done|lia]. Qed.

Lemma added_mono n n' l B B' : n' <= n -> added n l B B' -> added n' l B B'.
Proof.
intros Hn [A1 A2 A3]. constructor; [done|done|]. intros p Hp. destruct (A3 p Hp) as [HN (j & Hj & Hl & Hf)].
split; [done|]. exists j. split; [done|]. split; [lia|done].
Qed.

Lemma added_fresh n l B B' p b : added n l B B' -> p ∈ l -> live B b -> ~ p <= b < p + n.
Proof. intros [_ _ A3] Hp Hb. destruct (A3 p Hp) as [_ (j & _ & Hj & Hf)]. specialize (Hf b Hb). lia. Qed.
End taking.
