(* ===== verification/Open.v ===== *)
(** * Open: opening a file of a CFS volume (kernel/file/cfs.c)

    What the reader of Files makes of a volume: the super block in sector 1, the directory in the root block, the
    table of blocks with the chain of each file.  [open_file] of a name in the directory gives a
    stream on the bytes of its chain, from which [fread] reads them. *)
From S2P Require Import Prelude KString Bytes Files Budget.

(** The super block: reserved and hidden sectors, sector size, sectors in a block, root block. *)
Record volume := Vol { v_hidden : Z; v_rsv : Z; v_bps : Z; v_spb : Z; v_root : Z }.

(** The first sector of block [c], and the sector of the table with its word. *)
Definition blk_lba (v : volume) (c : Z) : Z := u32 (u32 (c * v_spb v) + v_rsv v + v_hidden v).
Definition table_sector (v : volume) (c : Z) : Z := u32 (u32 (c * 4) / v_bps v + v_rsv v + v_hidden v).

Section volumes.
Context (data : Z -> Z -> Z -> Z) (dv : Z) (v : volume).

Definition next_block (c : Z) : Z := word_of 4 (data dv (table_sector v c)) (4 * (c mod (v_bps v / 4))).

(** The blocks from [c] to the end mark. *)
Fixpoint chain_of (c : Z) (cs : list Z) : Prop :=
  match cs with
  | [] => False
  | d :: cs =>
      d = c /\
      match cs with
      | [] => next_block c = u32 EOF
      | _ => next_block c <> u32 EOF /\ chain_of (next_block c) cs
      end
  end.

(** The super block is on the device. *)
Record volume_on : Prop := {
  vo_hidden : word_of 4 (data dv 1) 20 = v_hidden v;
  vo_rsv : word_of 4 (data dv 1) 24 = v_rsv v;
  vo_bps : word_of 4 (data dv 1) 28 = v_bps v;
  vo_spb : word_of 4 (data dv 1) 32 = v_spb v;
  vo_root : word_of 4 (data dv 1) 44 = v_root v;
  vo_size : 48 <= v_bps v <= 0x1000 /\ 1 <= v_spb v /\ v_bps v * v_spb v <= BUFSIZ;
  vo_table : forall c, table_sector v c <> u32 (-1)
}.

(** Entry [i] of the root directory: its name, its first block and its size. *)
Definition root_sector : Z := u32 (v_root v * v_spb v + u32 (v_rsv v + v_hidden v)).
Definition entry_bytes (i : Z) : list Z := cells (data dv root_sector) (i * 128) 96.

Record entry_on (i : Z) (name : list Z) (first size : Z) : Prop := {
  eo_index : 0 <= i /\ (i + 1) * 128 <= v_bps v * v_spb v;
  eo_name : entry_bytes i = entry_name name;
  eo_only : forall j, 0 <= j < i -> entry_bytes j <> entry_name name;
  eo_first : word_of 4 (data dv root_sector) (i * 128 + 107) = first;
  eo_size : word_of 4 (data dv root_sector) (i * 128 + 111) = size
}.
End volumes.

(** The super block in memory. *)
Record sb_at (m : mem) (f : Z) (v : volume) : Prop := {
  sa_hidden : sb_hidden m f = v_hidden v;
  sa_rsv : sb_rsv m f = v_rsv v;
  sa_bps : sb_byte_per_sector m f = v_bps v;
  sa_spb : sb_sector_per_blk m f = v_spb v;
  sa_root : sb_root_blk m f = v_root v
}.

Section words.
Implicit Types (m : gmap Z Z) (a p f : Z).

Lemma sb_at_ext m m' f v : (forall a, f <= a < f + 48 -> m'⟦a⟧ = m⟦a⟧) -> sb_at m f v -> sb_at m' f v.
Proof.
intros E [H1 H2 H3 H4 H5]. unfold sb_hidden, sb_rsv, sb_byte_per_sector, sb_sector_per_blk, sb_root_blk in *.
constructor; unfold sb_hidden, sb_rsv, sb_byte_per_sector, sb_sector_per_blk, sb_root_blk;
  (rewrite (ld_ext 4 m m'); [done|]; intros b Hb; apply E; lia).
Qed.
End words.

(** ** The walk along a chain *)

Section walk.
Context (read_sector : disk) (data : Z -> Z -> Z -> Z) (dv : Z) (v : volume).
Hypothesis (Hdisk : disk_holds read_sector (v_bps v) data) (Hvol : volume_on data dv v)
  (Hbytes : forall l i, 0 <= data dv l i < 256).
(** The super block and the buffer for sectors of the table. *)
Context (f BLK : Z).
Context {H : Type}.
Implicit Types (s : sys H) (m : gmap Z Z) (a c i t fp : Z) (cs : list Z).

(** The buffer holds sector [start] of the table, [u32 (-1)] for none. *)
Definition table_loaded m (start : Z) : Prop :=
start = u32 (-1) \/ forall i, 0 <= i < v_bps v -> m⟦BLK + i⟧ = data dv start i.

Lemma next_range c : 0 <= next_block data dv v c < 2 ^ 32.
Proof using Hbytes. apply (word_of_range 4). auto. Qed.

Lemma chain_head c cs : chain_of data dv v c cs -> exists cs', cs = c :: cs'.
Proof. destruct cs as [|d cs]; [done|]. intros [-> _]. by eexists. Qed.

(** One step: the sector of the table is there, and the next block is in it. *)
Lemma next_word m start c :
sb_at m f v -> table_loaded m start -> apart f 48 BLK (v_bps v) ->
exists m', (if negb (start =? table_sector v c) then read_sector dv 1 (table_sector v c) BLK m else (0, m)) = (0, m') /\
  (forall a, ~ BLK <= a < BLK + v_bps v -> m'⟦a⟧ = m⟦a⟧) /\ sb_at m' f v /\ table_loaded m' (table_sector v c) /\
  ld32 m' (BLK + 4 * (c mod (v_bps v / 4))) = next_block data dv v c.
Proof using Hdisk Hvol Hbytes.
intros Hsb Hload Hap. destruct (vo_size _ _ _ Hvol) as (Hbps & _ & _).
assert (exists m', (if negb (start =? table_sector v c) then read_sector dv 1 (table_sector v c) BLK m else (0, m)) = (0, m') /\
  (forall a, ~ BLK <= a < BLK + v_bps v -> m'⟦a⟧ = m⟦a⟧) /\
  forall i, 0 <= i < v_bps v -> m'⟦BLK + i⟧ = data dv (table_sector v c) i) as (m' & E & Hout & Hin).
{ destruct (Z.eqb_spec start (table_sector v c)) as [->|Hne]; cbn [negb].
  - exists m. split; [done|]. split; [done|]. destruct Hload as [E|Hload]; [|done].
    by destruct (vo_table _ _ _ Hvol c).
  - destruct (Hdisk dv 1 (table_sector v c) BLK m ltac:(lia)) as (m' & E & Hm). exists m'. split; [done|].
    rewrite Z.mul_1_l in Hm. split; intros a Ha; rewrite Hm.
    + by destruct (within_spec a BLK (v_bps v)).
    + destruct (within_spec (BLK + a) BLK (v_bps v)); [f_equal; lia|lia]. }
exists m'. split; [done|]. split; [done|]. split.
{ apply (sb_at_ext m); [|done]. intros a Ha. apply Hout. unfold apart in Hap. lia. }
split; [by right|]. unfold next_block. rewrite <- (Z.add_0_l (4 * _)) at 2. apply (ld_copy _ _ _ _ _ (v_bps v)); [done|..];
  assert (0 <= c mod (v_bps v / 4) < v_bps v / 4) by (apply Z.mod_pos_bound; word_lia); word_lia.
Qed.

(** The blocks of a chain go into one table, as far as it reaches. *)
Lemma fill_blocks_spec k t cs c start s fp fl table :
chain_of data dv v c cs -> files s !! fp = Some fl -> sb_at (bytes_of s) f v -> table_loaded (bytes_of s) start ->
apart f 48 BLK (v_bps v) -> apart table 4096 BLK (v_bps v) -> apart table 4096 f 48 ->
0 <= t -> t + Z.of_nat k = 1024 -> 0 <= num_of_blocks fl -> num_of_blocks fl + Z.of_nat k < 2 ^ 32 ->
exists m' start', let n := Nat.min k (length cs) in
  fill_blocks read_sector k t f fp dv BLK table c start s =
    Ret (match drop k cs with [] => ChainEof | d :: _ => Chain d start' end,
         Sys (heap s) m' (<[fp := set_num_of_blocks (num_of_blocks fl + Z.of_nat n) fl]> (files s)) (stdout_fp s)) /\
  (forall (i : nat) d, (i < n)%nat -> cs !! i = Some d -> ld32 m' (table + 4 * (t + Z.of_nat i)) = blk_lba v d) /\
  (forall a, ~ table + 4 * t <= a < table + 4096 -> ~ BLK <= a < BLK + v_bps v -> m'⟦a⟧ = (bytes_of s)⟦a⟧) /\
  sb_at m' f v /\ table_loaded m' start' /\ (drop k cs <> [] -> exists d, chain_of data dv v d (drop k cs)).
Proof using Hdisk Hvol Hbytes.
revert t cs c start s fl.
induction k as [|k IH]; intros t cs c start s fl Hc Hfl Hsb Hload A1 A2 A3 Ht Htk Hn0 Hn.
- destruct (chain_head c cs Hc) as [cs' ->]. exists (bytes_of s), start. cbv zeta. cbn [fill_blocks Nat.min drop].
  rewrite Z.add_0_r. split.
  { assert (<[fp := set_num_of_blocks (num_of_blocks fl) fl]> (files s) = files s) as ->
      by (apply insert_id; rewrite Hfl; by destruct fl). by destruct s. }
  split; [lia|]. split; [done|]. split; [done|]. split; [done|]. intros _. by exists c.
- destruct (chain_head c cs Hc) as [cs' ->]. cbn [fill_blocks].
  pose proof Hsb as [B1 B2 B3 B4 B5]. destruct (vo_size _ _ _ Hvol) as (Hbps & _ & _). cbv zeta.
  rewrite B1, B2, B4.
  set (m1 := st32 (bytes_of s) (table + 4 * t) (u32 (u32 (c * v_spb v) + v_rsv v + v_hidden v))).
  assert (forall a, ~ table + 4 * t <= a < table + 4 * t + 4 -> m1⟦a⟧ = (bytes_of s)⟦a⟧) as U1
    by (intros a Ha; apply rd_st_out; lia).
  assert (sb_at m1 f v) as Hsb1 by (apply (sb_at_ext (bytes_of s)); [intros a Ha; apply U1; unfold apart in *; lia|done]).
  assert (table_loaded m1 start) as Hload1.
  { destruct Hload as [?|Hload]; [by left|right]. intros i Hi. rewrite U1 by (unfold apart in *; lia). auto. }
  unfold get_file. cbn [files set_bytes]. rewrite Hfl. cbn [mbind outcome_bind].
  set (fl1 := set_num_of_blocks (u32 (num_of_blocks fl + 1)) fl).
  set (s1 := put_file fp fl1 (set_bytes m1 s)). change (bytes_of s1) with m1.
  pose proof Hsb1 as [D1 D2 D3 D4 D5]. rewrite D1, D2, D3.
  destruct (Z.eqb_spec (v_bps v) 0); [lia|].
  change (u32 (u32 (c * 4) / v_bps v + v_rsv v + v_hidden v)) with (table_sector v c).
  destruct (next_word m1 start c Hsb1 Hload1 A1) as (m2 & E2 & U2 & Hsb2 & Hload2 & Enext).
  assert ((if negb (start =? table_sector v c) then read_ read_sector dv 1 (table_sector v c) BLK s1 else (0, s1)) =
    (0, set_bytes m2 s1)) as ->.
  { unfold read_. change (bytes_of s1) with m1. destruct (negb (start =? table_sector v c)); [by rewrite E2|].
    injection E2 as <-. done. }
  cbn [Z.eqb negb]. change (bytes_of (set_bytes m2 s1)) with m2. rewrite (sa_bps _ _ _ Hsb2).
  destruct (Z.eqb_spec (v_bps v / 4) 0); [exfalso; word_lia|]. rewrite Enext.
  assert (forall a, ~ table + 4 * t <= a < table + 4 * t + 4 -> ~ BLK <= a < BLK + v_bps v -> m2⟦a⟧ = (bytes_of s)⟦a⟧) as U
    by (intros a Ha Hb; rewrite U2, U1 by done; done).
  assert (ld32 m2 (table + 4 * t) = blk_lba v c) as Et.
  { rewrite (ld_ext 4 m1 m2); [|intros a Ha; apply U2; unfold apart in *; lia]. unfold m1. rewrite ld_st_eq.
    unfold blk_lba. apply Z.mod_small. apply u32_range. }
  destruct cs' as [|d cs'].
  + destruct Hc as [_ ->]. rewrite Z.eqb_refl. exists m2, (table_sector v c). cbv zeta. rewrite (drop_ge [c]) by (cbn; lia).
    replace (Nat.min (S k) (length [c])) with 1%nat by (cbn; lia). split.
    { unfold s1, fl1. rewrite u32_small by lia. reflexivity. }
    split; [|split; [intros a Ha Hb; apply U; lia|]].
    * intros [|i] d Hi Hd; [|lia]. injection Hd as <-. by rewrite Z.add_0_r.
    * split; [done|]. split; [done|]. done.
  + destruct Hc as (_ & Hne & Hc). destruct (Z.eqb_spec (next_block data dv v c) (u32 EOF)); [done|].
    destruct (chain_head _ _ Hc) as [cs2 E]. injection E as -> ->.
    set (s2 := set_bytes m2 s1).
    destruct (IH (t + 1) (next_block data dv v c :: cs2) (next_block data dv v c) (table_sector v c) s2 fl1 Hc) as
      (m3 & start3 & E3 & HT & U3 & Hsb3 & Hload3 & Hrest); try done; try lia.
    { cbn [s2 s1 files set_bytes put_file set_files]. apply lookup_insert_eq. }
    { cbn [fl1 num_of_blocks set_num_of_blocks]. rewrite u32_small by lia. lia. }
    { cbn [fl1 num_of_blocks set_num_of_blocks]. rewrite u32_small by lia. lia. }
    exists m3, start3. cbv zeta in E3, HT |- *. cbn [drop]. rewrite E3.
    change (length (c :: next_block data dv v c :: cs2)) with (S (length (next_block data dv v c :: cs2))).
    set (q := Nat.min k (length (next_block data dv v c :: cs2))) in *.
    replace (Nat.min (S k) (S (length (next_block data dv v c :: cs2)))) with (S q) by (unfold q; lia). split.
    { assert (set_num_of_blocks (num_of_blocks fl1 + Z.of_nat q) fl1 = set_num_of_blocks (num_of_blocks fl + Z.of_nat (S q)) fl)
        as -> by (unfold fl1; rewrite u32_small by lia; unfold set_num_of_blocks; cbn; f_equal; lia).
      change (files s2) with (<[fp := fl1]> (files s)). by rewrite insert_insert_eq. }
    change (bytes_of s2) with m2 in U3. split; [|split].
    * intros [|i] d Hi Hd.
      -- injection Hd as <-. rewrite Z.add_0_r, <- Et. apply ld_ext. intros a Ha. apply U3; [lia|].
         unfold apart in *. lia.
      -- rewrite <- (HT i d ltac:(lia) Hd). f_equal. lia.
    * intros a Ha Hb. rewrite U3, U by (lia || done). done.
    * done.
Qed.
End walk.

(** ** The heap of the readers *)

(** The bind is not unfolded over the long loops. *)
Lemma bind_ret {A B : Type} (a : A) (K : A -> outcome B) : (x ← Ret a; K x) = K a.
Proof. done. Qed.

Section heap.
Context {H : Type} `{BudgetLaws H}.
Implicit Types (s : sys H) (p n k : Z) (B : gmap Z Z).

Lemma malloc_taken s B n k :
heap_ok (heap s) B -> 0 < n < 2 ^ 31 -> 0 <= k -> budget (heap s) (pages_of n + k) ->
exists p j h', malloc_ n s = Ret (p, set_heap h' s) /\ n <= j /\ 0 < p < 2 ^ 64 /\ heap_ok h' (<[p := j]> B) /\ B !! p = None /\
  (forall b, live B b -> ~ p <= b < p + j) /\ budget h' k.
Proof.
intros Hok Hn Hk Hb. destruct (malloc_budget (heap s) B n k Hok Hn Hk Hb) as (p & j & h' & E & Hj & Hp & Hok' & HN & Hf & Hp64 & Hb').
exists p, j, h'. unfold malloc_. rewrite E, bind_ret. by split_and!.
Qed.

Lemma free_given s B p k :
heap_ok (heap s) B -> is_Some (B !! p) -> budget (heap s) k ->
exists h', free_ p s = Ret (set_heap h' s) /\ heap_ok h' (delete p B) /\ budget h' k.
Proof.
intros Hok Hp Hb. destruct (free_budget (heap s) B p k Hok Hp Hb) as (h' & E & Hok' & Hb').
exists h'. unfold free_. rewrite E. done.
Qed.
End heap.

(** ** The tables of an open file *)

Section tables.
Context (read_sector : disk) (data : Z -> Z -> Z -> Z) (dv : Z) (v : volume).
Hypothesis (Hdisk : disk_holds read_sector (v_bps v) data) (Hvol : volume_on data dv v)
  (Hbytes : forall l i, 0 <= data dv l i < 256).
Context (f BLK bl : Z).
Context {H : Type} `{BudgetLaws H}.
Implicit Types (s : sys H) (m : gmap Z Z) (a c i t fp p r : Z) (cs tbls : list Z) (B : gmap Z Z).

(** A table holds 1024 blocks and takes a page. *)
Definition tables_of cs : Z := (zlen cs + 1023) / 1024.

Lemma tables_of_bound cs : zlen cs <= 1048576 -> tables_of cs <= 1024.
Proof. unfold tables_of. word_lia. Qed.

Lemma fill_tables_spec k i cs c start s fp fl B r :
chain_of data dv v c cs -> files s !! fp = Some fl -> blocks fl = bl -> sb_at (bytes_of s) f v ->
table_loaded data dv v BLK (bytes_of s) start -> heap_ok (heap s) B -> 0 <= r -> budget (heap s) (tables_of cs + r) ->
live_range B f 48 -> live_range B BLK (v_bps v) -> live_range B bl 8192 -> apart f 48 BLK (v_bps v) ->
apart bl 8192 BLK (v_bps v) -> apart bl 8192 f 48 -> 0 <= i -> i + Z.of_nat k = 1024 ->
zlen cs <= Z.of_nat k * 1024 -> 0 <= num_of_blocks fl -> num_of_blocks fl + zlen cs < 2 ^ 31 ->
exists h' m' tbls B',
  fill_tables read_sector k i f fp dv BLK c start s = Ret (true,
    Sys h' m' (<[fp := set_num_of_blocks (num_of_blocks fl + zlen cs) fl]> (files s)) (stdout_fp s)) /\
  heap_ok h' B' /\ budget h' r /\ added 4096 tbls B B' /\ zlen tbls = tables_of cs /\
  (forall (x : nat) d, cs !! x = Some d -> exists p, tbls !! (x / 1024)%nat = Some p /\
     ld32 m' (p + 4 * Z.of_nat (x mod 1024)) = blk_lba v d) /\
  (forall (j : nat) p, tbls !! j = Some p -> ld64 m' (bl + 8 * (i + Z.of_nat j)) = p) /\
  (forall a, live B a -> ~ bl + 8 * i <= a < bl + 8 * (i + zlen tbls) -> ~ BLK <= a < BLK + v_bps v -> m'⟦a⟧ = (bytes_of s)⟦a⟧) /\
  sb_at m' f v.
Proof using Hdisk Hvol Hbytes.
destruct (vo_size _ _ _ Hvol) as (Hbps & _ & _).
revert i cs c start s fl B. induction k as [|k IH];
  intros i cs c start s fl B Hc Hfl Hbl Hsb Hload Hok Hr Hbud L1 L2 L3 A1 A2 A3 Hi Hik Hlen Hn0 Hn;
  destruct (chain_head data dv v c cs Hc) as [cs' Ecs]; [rewrite Ecs in Hlen; cbn [length] in Hlen; lia|].
assert (1024 < zlen cs /\ tables_of cs = 1 + tables_of (drop 1024 cs) \/ zlen cs <= 1024 /\ tables_of cs = 1) as HT.
{ unfold tables_of. rewrite length_drop. destruct (Z.leb_spec (zlen cs) 1024) as [l|l].
  - right. split; [done|]. rewrite Ecs. rewrite Ecs in l. cbn [length] in *. word_lia.
  - left. split; [done|]. replace (Z.of_nat (length cs - 1024)) with (zlen cs - 1024) by lia. word_lia. }
assert (1 <= tables_of cs) as HT1 by (unfold tables_of; rewrite Ecs; cbn [length]; word_lia).
cbn [fill_tables]. change (1024 * 4) with 4096.
assert (exists r', 0 <= r' /\ tables_of cs + r = pages_of 4096 + r' /\ r' = tables_of cs - 1 + r) as (r' & Hr' & Er & Er').
{ exists (tables_of cs - 1 + r). change (pages_of 4096) with 1. lia. }
rewrite Er in Hbud.
destruct (malloc_taken s B 4096 r' Hok ltac:(lia) Hr' Hbud) as (p & j & h1 & E & Hj & Hp & Hok1 & HN & Hf & Hbud1).
rewrite E, bind_ret. unfold get_file at 1. cbn [files set_heap]. rewrite Hfl, bind_ret. cbv zeta.
rewrite Hbl. set (m1 := memset (st64 (bytes_of s) (bl + 8 * i) p) p 0 4096).
match goal with |- context [fill_blocks _ _ _ _ _ _ _ _ _ _ ?x] => change x with (Sys h1 m1 (files s) (stdout_fp s)) end.
set (s1 := Sys h1 m1 (files s) (stdout_fp s)).
assert (ld64 m1 (bl + 8 * i) = p) as Em1.
{ rewrite (ld_ext 8 (st64 (bytes_of s) (bl + 8 * i) p)); [rewrite ld_st_eq; apply Z.mod_small; lia|].
  pose proof (fresh_apart B p j bl 8192 Hf L3 ltac:(lia) ltac:(lia)) as A6. unfold apart in A6.
  intros b Hb. unfold m1. rewrite rd_memset. destruct (within_spec b p 4096); [lia|done]. }
pose proof (fresh_apart B p j f 48 Hf L1 ltac:(lia) ltac:(lia)) as A4.
pose proof (fresh_apart B p j BLK (v_bps v) Hf L2 ltac:(lia) ltac:(lia)) as A5.
pose proof (fresh_apart B p j bl 8192 Hf L3 ltac:(lia) ltac:(lia)) as A6. unfold apart in A1, A2, A3, A4, A5, A6.
assert (forall a, ~ bl + 8 * i <= a < bl + 8 * i + 8 -> ~ p <= a < p + 4096 -> m1⟦a⟧ = (bytes_of s)⟦a⟧) as U1.
{ intros a Ha1 Ha2. unfold m1. rewrite rd_memset. destruct (within_spec a p 4096); [lia|]. apply rd_st_out. lia. }
clearbody m1.
assert (sb_at m1 f v) as Hsb1 by (apply (sb_at_ext (bytes_of s)); [intros a Ha; apply U1; lia|done]).
assert (table_loaded data dv v BLK m1 start) as Hload1.
{ destruct Hload as [?|Hload]; [by left|right]. intros x Hx. rewrite U1 by lia. auto. }
destruct (fill_blocks_spec read_sector data dv v Hdisk Hvol Hbytes f BLK 1024 0 cs c start s1 fp fl p Hc Hfl Hsb1 Hload1)
  as (m2 & start2 & E2 & HT2 & U2 & Hsb2 & Hload2 & Hrest); try (unfold apart; lia); try lia.
cbv zeta in E2, HT2. rewrite E2, bind_ret. cbv beta iota. clear E2.
assert (bytes_of s1 = m1) as Es1 by reflexivity. rewrite Es1 in U2. change (heap s1) with h1. change (files s1) with (files s).
change (stdout_fp s1) with (stdout_fp s).
assert (ld64 m2 (bl + 8 * i) = p) as Ep.
{ rewrite <- Em1. apply ld_ext. intros b Hb. apply U2; lia. }
assert (forall a, live B a -> ~ bl + 8 * i <= a < bl + 8 * i + 8 -> ~ BLK <= a < BLK + v_bps v -> m2⟦a⟧ = (bytes_of s)⟦a⟧) as U.
{ intros a Ha Ha1 Ha2. specialize (Hf a Ha). rewrite U2, U1 by lia. done. }
assert (added 4096 [p] B (<[p := j]> B)) as Hadd by (by apply (added_cons 4096 p j [] B); [..|apply added_nil]).
destruct (drop 1024 cs) as [|d rest] eqn:Edrop.
- assert (zlen cs <= 1024) as Hl by (apply (f_equal length) in Edrop; rewrite length_drop in Edrop; cbn in Edrop; lia).
  destruct HT as [[? _]|[_ HT]]; [lia|].
  replace (Nat.min 1024 (length cs)) with (length cs) by lia.
  eexists h1, m2, [p], _. split; [reflexivity|]. split; [exact Hok1|]. split; [by replace r with r' by lia|].
  split; [exact Hadd|]. split; [by rewrite HT|]. split; [|split; [|split; [|done]]].
  + intros x d Hx. pose proof (lookup_lt_Some _ _ _ Hx) as Hxl. exists p. rewrite Nat.div_small, Nat.mod_small by lia.
    split; [done|]. rewrite <- (HT2 x d) by (done || lia). f_equal.
  + intros [|y] q Hq; [|by destruct y]. injection Hq as <-. by rewrite Z.add_0_r.
  + cbn [length]. intros a Ha Ha1 Ha2. apply U; [done|lia|done].
- destruct (Hrest ltac:(done)) as (d' & Hc').
  destruct (chain_head data dv v d' (d :: rest) Hc') as [rest' E']. injection E' as -> _.
  assert (1024 < zlen cs) as Hl by (apply (f_equal length) in Edrop; rewrite length_drop in Edrop; cbn in Edrop; lia).
  destruct HT as [[_ HT]|[? _]]; [|lia].
  assert (zlen (d' :: rest) = zlen cs - 1024) as Elen by (rewrite <- Edrop, length_drop; lia).
  set (fl2 := set_num_of_blocks _ fl). set (s2 := Sys h1 m2 _ _).
  assert (num_of_blocks fl2 = num_of_blocks fl + 1024) as En2.
  { change (num_of_blocks fl + Z.of_nat (Nat.min 1024 (length cs)) = num_of_blocks fl + 1024). lia. }
  destruct (IH (i + 1) (d' :: rest) d' start2 s2 fl2 (<[p := j]> B)) as (h3 & m3 & tbls & B3 & E3 & Hok3 & Hbud3 & Hadd3 & HTl & T1 & T2 & T3 & Hsb3);
    try done; try lia.
  { apply lookup_insert_eq. }
  { by replace (tables_of (d' :: rest) + r) with r' by lia. }
  { by apply live_range_more. }
  { by apply live_range_more. }
  { by apply live_range_more. }
  assert (bytes_of s2 = m2) as Es2 by reflexivity. rewrite Es2 in T3. clear Es2.
  assert (i + 1 + zlen tbls <= 1024) as Htb by (rewrite HTl; unfold tables_of; word_lia).
  exists h3, m3, (p :: tbls), B3. split; [|split; [done|split; [done|]]].
  { assert (set_num_of_blocks (num_of_blocks fl2 + zlen (d' :: rest)) fl2 = set_num_of_blocks (num_of_blocks fl + zlen cs) fl)
      as E4 by (rewrite En2, Elen; transitivity (set_num_of_blocks (num_of_blocks fl + 1024 + (zlen cs - 1024)) fl); [done|f_equal; lia]).
    rewrite E3, E4. change (files s2) with (<[fp := fl2]> (files s)). by rewrite insert_insert_eq. }
  split; [by apply (added_cons 4096 p j)|]. split; [rewrite HT, <- HTl; cbn [length]; lia|].
  split; [|split; [|split; [|done]]].
  + intros x y Hx. destruct (decide (x < 1024)%nat) as [Hlt|Hge].
    * exists p. rewrite Nat.div_small, Nat.mod_small by lia. split; [done|].
      rewrite <- (HT2 x y) by (done || lia). rewrite Z.add_0_l. apply ld_ext. intros a Ha. apply T3; [|lia|lia].
      exists p, j. rewrite lookup_insert_eq. split; [done|lia].
    * destruct (T1 (x - 1024)%nat y) as (q & Hq & Hld).
      { rewrite <- Edrop, lookup_drop. by replace (1024 + (x - 1024))%nat with x by lia. }
      exists q. replace x with ((x - 1024) + 1 * 1024)%nat by lia. rewrite Nat.div_add, Nat.Div0.mod_add by lia.
      rewrite Nat.add_1_r. done.
  + intros [|y] q Hq.
    * injection Hq as <-. rewrite Z.add_0_r, <- Ep at 1. apply ld_ext. intros a Ha. apply T3; [|lia|lia].
      replace a with (bl + (a - bl)) by lia. apply (live_range_more B p j bl 8192 HN L3). lia.
    * rewrite <- (T2 y q Hq). f_equal. lia.
  + cbn [length]. intros a Ha Ha1 Ha2. rewrite T3; [apply U; [done|lia|done]| |lia|done].
    destruct Ha as (q & l & Hq & Hb). exists q, l. by rewrite lookup_insert_ne by congruence.
Qed.
End tables.

(** ** The stream *)

Section streams.
Context (read_sector : disk) (data : Z -> Z -> Z -> Z) (dv : Z) (v : volume).
Hypothesis (Hdisk : disk_holds read_sector (v_bps v) data) (Hvol : volume_on data dv v)
  (Hbytes : forall l i, 0 <= data dv l i < 256).
Context {H : Type} `{BudgetLaws H}.
Implicit Types (s : sys H) (m : gmap Z Z) (a c i t f d fp b bl p r size : Z) (cs tbls : list Z) (B : gmap Z Z).

Definition block_size : Z := v_bps v * v_spb v.
Definition table_at tbls (j : Z) : Z := default 0 (tbls !! Z.to_nat j).
Definition sector_at cs (k : Z) : Z := blk_lba v (default 0 (cs !! Z.to_nat k)).

(** The stream [fp] is open at the start of the file of [size] bytes in the blocks [cs]: buffer [b], tables [tbls]
    in the list at [bl], which a null entry ends. *)
Record opened fp b bl cs tbls size s : Prop := {
  op_rep : file_rep data fp b bl (zlen cs) dv (v_spb v) block_size size (table_at tbls) (sector_at cs) s 0;
  op_geo : geometry read_sector (v_bps v) data fp b bl (zlen cs) dv (v_spb v) block_size size (table_at tbls);
  op_tables : forall (j : nat) p, tbls !! j = Some p -> ld64 (bytes_of s) (bl + 8 * Z.of_nat j) = p;
  op_end : zlen tbls < 1024 -> ld64 (bytes_of s) (bl + 8 * zlen tbls) = 0;
  op_length : zlen tbls = tables_of cs /\ zlen cs <= 1048576;
  op_apart : apart b 8192 bl 8192 /\ 0 < block_size <= 8192
}.

(** A cell that is none of the stream's. *)
Definition off_stream b bl tbls a : Prop :=
~ b <= a < b + 8192 /\ ~ bl <= a < bl + 8192 /\ forall p, p ∈ tbls -> ~ p <= a < p + 4096.

(** What the blocks of a stream do not meet, its reader leaves alone. *)
Lemma outside_stream fp b bl cs tbls size s a :
opened fp b bl cs tbls size s -> off_stream b bl tbls a -> outside_file b bl (zlen cs) block_size (table_at tbls) a.
Proof using.
intros [_ _ _ _ [Hl Hn] [_ Hbs]] (Hb & Hbl & Hp). split; [lia|]. intros k Hk [Hc|Hc]; [word_lia|].
unfold tables_of in Hl. destruct (lookup_lt_is_Some_2 tbls (Z.to_nat (k / 1024))) as [p Hp2]; [word_lia|].
unfold table_at in Hc. rewrite Hp2 in Hc. cbn in Hc.
apply (Hp p); [by eapply list_elem_of_lookup_2|word_lia].
Qed.

(** The block counter is one field. *)
Lemma set_num_of_blocks_keeps n (f : FILE) :
let f' := set_num_of_blocks n f in
num_of_blocks f' = n /\ buffer f' = buffer f /\ blocks f' = blocks f /\ dv_num f' = dv_num f /\ count f' = count f /\
bsize f' = bsize f /\ fsize f' = fsize f /\ off f' = off f /\ level f' = level f /\ flags f' = flags f.
Proof. by destruct f. Qed.

Lemma opened_intro fp b bl cs tbls size s m fl B :
bytes_of s = m -> files s !! fp = Some fl -> fp <> 0 -> buffer fl = b -> blocks fl = bl -> num_of_blocks fl = zlen cs -> dv_num fl = dv ->
count fl = v_spb v -> bsize fl = block_size -> fsize fl = size -> off fl = 0 -> level fl = 0 -> flags fl = 0 ->
zlen cs <= 1048576 -> 0 <= size < 2 ^ 32 -> size <= zlen cs * block_size ->
(forall (x : nat) d, cs !! x = Some d -> exists p, tbls !! (x / 1024)%nat = Some p /\
   ld32 m (p + 4 * Z.of_nat (x mod 1024)) = blk_lba v d) ->
(forall (j : nat) p, tbls !! j = Some p -> ld64 m (bl + 8 * Z.of_nat j) = p) ->
(zlen tbls < 1024 -> ld64 m (bl + 8 * zlen tbls) = 0) ->
zlen tbls = tables_of cs -> live_range B b 8192 -> apart b 8192 bl 8192 -> (forall p a, p ∈ tbls -> live B a -> ~ p <= a < p + 4096) ->
opened fp b bl cs tbls size s.
Proof using Hdisk Hvol Hbytes.
intros Hm Hf Hfp Hb Hbl Hn Hdv Hcnt Hbs Hfs Hoff Hlev Hfl Hn20 Hsz Hszn T1 T2 T3 HTl Lb Ab Ht.
destruct (vo_size _ _ _ Hvol) as (Hbps & Hspb & Hbs2). unfold BUFSIZ in Hbs2. unfold block_size in *.
assert (0 < v_bps v * v_spb v) as Hpos by nia.
assert (forall k, 0 <= k < zlen cs -> exists d p, cs !! Z.to_nat k = Some d /\ table_at tbls (k / 1024) = p /\ p ∈ tbls /\
  ld64 m (bl + 8 * (k / 1024)) = p /\ ld32 m (p + 4 * (k mod 1024)) = blk_lba v d) as Hk.
{ intros k Hk. destruct (lookup_lt_is_Some_2 cs (Z.to_nat k)) as [d Hd]; [lia|]. destruct (T1 _ _ Hd) as (p & Hp & Hld).
  exists d, p. split; [done|]. assert (Z.to_nat (k / 1024) = (Z.to_nat k / 1024)%nat) as E by (rewrite Z2Nat.inj_div by lia; done).
  unfold table_at. rewrite E, Hp. split; [done|]. split; [by eapply list_elem_of_lookup_2|].
  pose proof (T2 _ _ Hp) as E2. rewrite <- E, Z2Nat.id in E2 by word_lia. split; [exact E2|]. rewrite <- Hld. do 2 f_equal.
  rewrite Nat2Z.inj_mod, Z2Nat.id by lia. done. }
constructor; rewrite ?Hm; [| |done|done|done|unfold block_size; split; [done|lia]].
- exists fl. split; [done|]. rewrite Hm. split_and!; try done; try lia.
  + intros k Hkn. destruct (Hk k Hkn) as (d & p & Hd & -> & _ & -> & ->). split; [done|]. unfold sector_at. by rewrite Hd.
  + left. split; [done|]. apply Zmod_0_l.
- constructor; unfold block_size; try done; try (unfold BUFSIZ; lia).
  intros k a Hkn [Hcell|Hcell].
  + unfold apart in Ab. word_lia.
  + destruct (Hk k Hkn) as (d & p & _ & E & Hp & _). rewrite E in Hcell. intros Ha.
    apply (Ht p a Hp); [replace a with (b + (a - b)) by lia; apply Lb; lia|word_lia].
Qed.

Lemma open_file_r_spec d f s B c cs size r :
chain_of data dv v c cs -> sb_at (bytes_of s) f v -> de_first_blk (bytes_of s) d = c -> de_file_size (bytes_of s) d = size ->
heap_ok (heap s) B -> 0 <= r -> budget (heap s) (7 + tables_of cs + r) -> live_range B f 48 -> live_range B d 128 ->
zlen cs <= 1048576 -> 0 <= size < 2 ^ 32 -> size <= zlen cs * block_size ->
exists fp b bl tbls fl h' m' B',
  open_file_r read_sector d f dv s = Ret (fp, Sys h' m' (<[fp := fl]> (files s)) (stdout_fp s)) /\
  opened fp b bl cs tbls size (Sys h' m' (<[fp := fl]> (files s)) (stdout_fp s)) /\
  heap_ok h' B' /\ budget h' r /\ added 331 (fp :: b :: bl :: tbls) B B' /\
  (forall a, live B a -> m'⟦a⟧ = (bytes_of s)⟦a⟧ /\ off_stream b bl tbls a).
Proof using Hdisk Hvol Hbytes.
intros Hc Hsb Hfirst Hsize Hok Hr Hbud Lf Ld Hn Hsz Hszn. destruct (vo_size _ _ _ Hvol) as (Hbps & Hspb & Hbs).
unfold BUFSIZ in Hbs.
assert (1 <= tables_of cs) as HT1 by (destruct (chain_head data dv v c cs Hc) as [? ->]; unfold tables_of; cbn [length]; word_lia).
unfold open_file_r. change sizeof_FILE with 331. change BUFSIZ with 8192. change (1024 * 8) with 8192.
destruct (malloc_taken s B 331 (6 + tables_of cs + r) Hok ltac:(lia) ltac:(lia))
  as (fp & j1 & h1 & E1 & Hj1 & Hp1 & Hok1 & N1 & F1 & Hb1).
{ change (pages_of 331) with 1. by replace (1 + (6 + tables_of cs + r)) with (7 + tables_of cs + r) by lia. }
rewrite E1, bind_ret. cbv beta iota.
destruct (malloc_taken (set_heap h1 s) _ 8192 (4 + tables_of cs + r) Hok1 ltac:(lia) ltac:(lia))
  as (b & j2 & h2 & E2 & Hj2 & Hp2 & Hok2 & N2 & F2 & Hb2).
{ change (pages_of 8192) with 2. by replace (2 + (4 + tables_of cs + r)) with (6 + tables_of cs + r) by lia. }
rewrite E2, bind_ret. cbv beta iota.
destruct (malloc_taken (set_heap h2 (set_heap h1 s)) _ 8192 (2 + tables_of cs + r) Hok2 ltac:(lia) ltac:(lia))
  as (bl & j3 & h3 & E3 & Hj3 & Hp3 & Hok3 & N3 & F3 & Hb3).
{ change (pages_of 8192) with 2. by replace (2 + (2 + tables_of cs + r)) with (4 + tables_of cs + r) by lia. }
rewrite E3, bind_ret. cbv beta iota zeta.
match goal with |- context [put_file fp (set_blocks bl ?g)] => set (fl0 := set_blocks bl g) end.
match goal with |- context [malloc_ 8192 ?x] => change x with (Sys h3 (memset (bytes_of s) bl 0 8192) (<[fp := fl0]> (files s)) (stdout_fp s)) end.
set (m1 := memset (bytes_of s) bl 0 8192). set (s1 := Sys h3 m1 _ _).
assert (bytes_of s1 = m1) as Eb1 by reflexivity. rewrite Eb1.
destruct (malloc_taken s1 _ 8192 (tables_of cs + r) Hok3 ltac:(lia) ltac:(lia))
  as (BLK & j4 & h4 & E4 & Hj4 & Hp4 & Hok4 & N4 & F4 & Hb4).
{ change (pages_of 8192) with 2. by replace (2 + (tables_of cs + r)) with (2 + tables_of cs + r) by lia. }
rewrite E4, bind_ret. cbv beta iota.
assert (apart b 8192 bl 8192) as Abl.
{ pose proof (fresh_apart _ _ _ _ _ F3 (live_range_new _ b j2 8192 Hj2)). unfold apart in *. lia. }
assert (forall a, live B a -> m1⟦a⟧ = (bytes_of s)⟦a⟧) as U1.
{ intros a Ha. unfold m1. rewrite rd_memset. destruct (within_spec a bl 8192) as [Hw|]; [|done].
  destruct (F3 a); [|lia]. by apply live_more, live_more. }
assert (forall a, bl <= a < bl + 8192 -> m1⟦a⟧ = 0) as Z1
  by (intros a Ha; unfold m1; rewrite rd_memset; destruct (within_spec a bl 8192); [done|lia]).
clearbody m1.
assert (sb_at m1 f v) as Hsb1 by (apply (sb_at_ext (bytes_of s)); [intros a Ha; apply U1; replace a with (f + (a - f)) by lia; apply Lf; lia|done]).
assert (de_first_blk m1 d = c) as ->.
{ rewrite <- Hfirst. apply ld_ext. intros a Ha. apply U1. replace a with (d + (a - d)) by lia. apply Ld. lia. }
assert (buffer fl0 = b /\ blocks fl0 = bl /\ num_of_blocks fl0 = 0 /\ dv_num fl0 = dv /\ count fl0 = v_spb v /\
  bsize fl0 = block_size /\ fsize fl0 = size /\ off fl0 = 0 /\ level fl0 = 0 /\ flags fl0 = 0)
  as (Eb & Ebl & En0 & Edv & Ecnt & Ebs & Efs & Eoff & Elev & Eflags).
{ split_and!; try reflexivity; [exact (sa_spb _ _ _ Hsb)| |exact Hsize].
  change (u32 (sb_byte_per_sector (bytes_of s) f * sb_sector_per_blk (bytes_of s) f) = block_size).
  destruct Hsb as [_ _ -> -> _]. unfold block_size. apply u32_small. nia. }
clearbody fl0.
assert (live_range (<[b := j2]> (<[fp := j1]> B)) f 48) as Lf2 by (by apply live_range_more, live_range_more).
assert (live_range (<[bl := j3]> (<[b := j2]> (<[fp := j1]> B))) f 48) as Lf3 by (by apply live_range_more).
pose proof (live_range_new (<[b := j2]> (<[fp := j1]> B)) bl j3 8192 Hj3) as Lbl3.
pose proof (live_range_new (<[bl := j3]> (<[b := j2]> (<[fp := j1]> B))) BLK j4 8192 Hj4) as Lk4.
destruct (fill_tables_spec read_sector data dv v Hdisk Hvol Hbytes f BLK bl 1024 0 cs c (u32 (-1)) (set_heap h4 s1) fp fl0
  (<[BLK := j4]> (<[bl := j3]> (<[b := j2]> (<[fp := j1]> B)))) r) as
  (h5 & m5 & tbls & B5 & E5 & Hok5 & Hb5 & A5 & HTl & T1 & T2 & T3 & _); try done; try lia.
{ apply lookup_insert_eq. }
{ by left. }
{ by apply live_range_more. }
{ intros i Hi. apply Lk4. lia. }
{ by apply live_range_more. }
{ pose proof (fresh_apart _ _ _ _ _ F4 Lf3). unfold apart in *. lia. }
{ pose proof (fresh_apart _ _ _ _ _ F4 Lbl3). unfold apart in *. lia. }
{ pose proof (fresh_apart _ _ _ _ _ F3 Lf2). unfold apart in *. lia. }
rewrite E5, bind_ret. cbv beta iota.
set (B4 := <[BLK := j4]> _) in *.
assert (bytes_of (set_heap h4 s1) = m1) as Es1 by reflexivity. rewrite Es1 in T3.
assert (added 331 (BLK :: fp :: b :: bl :: tbls) B B5) as A.
{ apply (added_perm 331 (fp :: b :: bl :: BLK :: tbls)).
  { exact (Permutation_sym (Permutation_middle [fp; b; bl] tbls BLK)). }
  apply (added_cons 331 fp j1); [lia|done|done|]. apply (added_cons 331 b j2); [lia|done|done|].
  apply (added_cons 331 bl j3); [lia|done|done|]. apply (added_cons 331 BLK j4); [lia|done|done|].
  by apply (added_mono 4096). }
destruct (ad_new _ _ _ _ A BLK) as [_ (j & Hj & _)]; [by left|].
set (s5 := Sys h5 m5 _ _). destruct (free_given s5 B5 BLK r Hok5 ltac:(by exists j) Hb5) as (h6 & E6 & Hok6 & Hb6).
rewrite E6, bind_ret. cbv beta.
exists fp, b, bl, tbls, (set_num_of_blocks (zlen cs) fl0), h6, m5, (delete BLK B5).
assert (files s5 = <[fp := set_num_of_blocks (zlen cs) fl0]> (files s)) as Ef5.
{ change (files s5) with (<[fp := set_num_of_blocks (num_of_blocks fl0 + zlen cs) fl0]> (<[fp := fl0]> (files s))).
  by rewrite insert_insert_eq, En0. }
split; [unfold set_heap; by rewrite Ef5|]. split; [|split; [exact Hok6|split; [exact Hb6|split; [by apply added_delete|]]]].
- destruct (set_num_of_blocks_keeps (zlen cs) fl0) as (K1 & K2 & K3 & K4 & K5 & K6 & K7 & K8 & K9 & K10).
  rewrite <- K2 in Eb. rewrite <- K3 in Ebl. rewrite <- K4 in Edv. rewrite <- K5 in Ecnt. rewrite <- K6 in Ebs.
  rewrite <- K7 in Efs. rewrite <- K8 in Eoff. rewrite <- K9 in Elev. rewrite <- K10 in Eflags.
  refine (opened_intro fp b bl cs tbls size (Sys h6 m5 (<[fp := set_num_of_blocks (zlen cs) fl0]> (files s)) (stdout_fp s)) m5
    (set_num_of_blocks (zlen cs) fl0) B4 eq_refl _ _ Eb Ebl K1 Edv Ecnt Ebs Efs Eoff Elev Eflags Hn Hsz Hszn T1 T2 _ HTl _ Abl _);
  cbn [bytes_of files].
  + by rewrite lookup_insert_eq.
  + lia.
  + intros Hlt. assert (live_range B4 bl 8192) as Lbl4 by (by apply live_range_more).
    assert (0 <= zlen tbls) by lia.
    transitivity (ld64 m1 (bl + 8 * zlen tbls)).
    * apply ld_ext. intros a Ha. apply T3; [replace a with (bl + (a - bl)) by lia; apply Lbl4; lia|lia|].
      pose proof (fresh_apart _ _ _ _ _ F4 Lbl3). unfold apart in *. lia.
    * apply ld_zero. intros a Ha. apply Z1. lia.
  + apply live_range_more; [done|]. apply live_range_more; [done|]. by apply live_range_new.
  + intros p a Hp Ha. by apply (added_fresh 4096 tbls B4 B5).
- pose proof (tables_of_bound cs Hn) as Htb. rewrite <- HTl in Htb. intros a Ha.
  assert (live (<[fp := j1]> B) a) as Ha1 by (by apply live_more). assert (live (<[b := j2]> (<[fp := j1]> B)) a) as Ha2 by (by apply live_more).
  assert (live (<[bl := j3]> (<[b := j2]> (<[fp := j1]> B))) a) as Ha3 by (by apply live_more).
  assert (live B4 a) as Ha4 by (by apply live_more). specialize (F2 a Ha1). specialize (F3 a Ha2). specialize (F4 a Ha3). split.
  + rewrite <- U1 by done. apply T3; [done|lia..].
  + split; [lia|]. split; [lia|]. intros p Hp. by apply (added_fresh 4096 tbls B4 B5).
Qed.
End streams.

(** ** The directory and the file *)

Section opening_files.
Context (read_sector : disk) (data : Z -> Z -> Z -> Z) (dv : Z) (v : volume).
Hypothesis (Hdisk : disk_holds read_sector (v_bps v) data) (Hvol : volume_on data dv v)
  (Hbytes : forall l i, 0 <= data dv l i < 256).
Context {H : Type} `{BudgetLaws H}.
Implicit Types (s : sys H) (m : gmap Z Z) (a d f i p r root size first : Z) (N cs : list Z) (B : gmap Z Z).

(** Entry [i] is the first of its name in a copy of the root block. *)
Lemma find_entry_on m root filename N i first size :
entry_on data dv v i N first size -> v_bps v * v_spb v <= 8192 -> cstr m filename N -> (length N <= 96)%nat ->
(forall a, 0 <= a < v_bps v * v_spb v -> m⟦root + a⟧ = data dv (root_sector v) a) ->
find_entry m root filename = Some i.
Proof using.
intros [Hi Hn Ho _ _] Hbs Hc HN Hm. pose proof (find_entry_first m root filename N Hc HN) as Hf.
assert (forall j, 0 <= j <= i -> bytes m (root + j * 128) 96 = entry_bytes data dv v j) as Hcopy.
{ intros j Hj. apply list_fmap_ext. intros x y Hx. apply lookup_seq in Hx as [-> Hx].
  rewrite <- Z.add_assoc. apply Hm. cbn in Hx. lia. }
destruct (find_entry m root filename) as [k|].
- destruct Hf as (Hk & Hkn & Hko). f_equal. destruct (Z.lt_trichotomy k i) as [Hlt|[?|Hlt]]; [|done|].
  + rewrite Hcopy in Hkn by lia. by destruct (Ho k); [lia|].
  + destruct (Hko i); [lia|]. rewrite Hcopy by lia. exact Hn.
- destruct (Hf i); [lia|]. rewrite Hcopy by lia. exact Hn.
Qed.

Lemma read_entry_spec d f filename s B N i first size r :
entry_on data dv v i N first size -> sb_at (bytes_of s) f v -> heap_ok (heap s) B -> 0 <= r -> budget (heap s) (2 + r) ->
live_range B f 48 -> live_range B d 128 -> live_range B filename (zlen N + 1) ->
cstr (bytes_of s) filename N -> (length N <= 96)%nat ->
exists h' m', read_directory_entry read_sector d f dv filename s = Ret (0, Sys h' m' (files s) (stdout_fp s)) /\
  heap_ok h' B /\ budget h' r /\ de_first_blk m' d = first /\ de_file_size m' d = size /\
  (forall a, live B a -> ~ d <= a < d + 128 -> m'⟦a⟧ = (bytes_of s)⟦a⟧).
Proof using Hdisk Hvol.
intros He [S1 S2 S3 S4 S5] Hok Hr Hbud Lf Ld Ln Hc HN. destruct (vo_size _ _ _ Hvol) as (Hbps & Hspb & Hbs). unfold BUFSIZ in Hbs.
unfold read_directory_entry. rewrite S1, S2, S4, S5. cbv zeta.
destruct (malloc_taken s B 8192 r Hok ltac:(lia) Hr) as (root & j & h1 & E & Hj & Hp & Hok1 & HNn & Hf & Hb1); [exact Hbud|].
rewrite E, bind_ret. cbv beta iota. set (m1 := memset (bytes_of (set_heap h1 s)) root 0 8192).
assert (forall a, live B a -> m1⟦a⟧ = (bytes_of s)⟦a⟧) as U1.
{ intros a Ha. unfold m1. rewrite rd_memset. destruct (within_spec a root 8192); [destruct (Hf a); [done|lia]|done]. }
clearbody m1. fold (root_sector v). destruct (Hdisk dv (v_spb v) (root_sector v) root m1 ltac:(lia)) as (m2 & E2 & Hm2).
unfold read_. cbn [bytes_of set_bytes]. rewrite E2. cbn [negb Z.eqb]. cbn [bytes_of set_bytes].
assert (forall a, live B a -> m2⟦a⟧ = (bytes_of s)⟦a⟧) as U2.
{ intros a Ha. rewrite Hm2. destruct (within_spec a root (v_spb v * v_bps v)); [destruct (Hf a); [done|lia]|by apply U1]. }
rewrite (find_entry_on m2 root filename N i first size He Hbs); [|apply (cstr_ext (bytes_of s)); [|done]|done|].
2:{ intros a Ha. apply U2. replace a with (filename + (a - filename)) by lia. apply Ln. lia. }
2:{ intros a Ha. rewrite Hm2. destruct (within_spec (root + a) root (v_spb v * v_bps v)); [f_equal; lia|lia]. }
pose proof (fresh_apart B root j d 128 Hf Ld ltac:(lia) ltac:(lia)) as Ad. unfold apart in Ad.
set (m3 := memcpy m2 d (root + i * 128) 128).
assert (forall a, m3⟦a⟧ = if within a d 128 then m2⟦root + i * 128 + (a - d)⟧ else m2⟦a⟧) as Hm3.
{ intros a. unfold m3. rewrite rd_memcpy; [done|]. destruct He as [Hi _ _ _ _]. lia. }
clearbody m3. set (s3 := set_bytes m3 _).
destruct (free_given s3 (<[root := j]> B) root r Hok1 ltac:(rewrite lookup_insert_eq; by eexists) Hb1) as (h2 & E3 & Hok2 & Hb2).
rewrite E3, bind_ret. cbv beta. rewrite delete_insert_id in Hok2 by done.
exists h2, m3. split; [reflexivity|]. split; [exact Hok2|]. split; [exact Hb2|].
assert (forall o, 0 <= o < 128 -> m3⟦d + o⟧ = data dv (root_sector v) (i * 128 + o)) as Hcopy.
{ intros o Ho. destruct He as [Hi _ _ _ _]. rewrite Hm3. destruct (within_spec (d + o) d 128); [|lia]. rewrite Hm2.
  destruct (within_spec (root + i * 128 + (d + o - d)) root (v_spb v * v_bps v)); [f_equal; lia|lia]. }
split; [|split].
- rewrite <- (eo_first _ _ _ _ _ _ _ He). by apply (ld_copy 4 m3 _ d (i * 128) 128 Hcopy 107).
- rewrite <- (eo_size _ _ _ _ _ _ _ He). by apply (ld_copy 4 m3 _ d (i * 128) 128 Hcopy 111).
- intros a Ha Hd. rewrite Hm3. destruct (within_spec a d 128); [lia|]. by apply U2.
Qed.

(** The rest of the heap is not the stream's. *)
Lemma opened_heap fp b bl cs tbls size (h h' : H) m (fs : gmap Z FILE) out :
opened read_sector data dv v fp b bl cs tbls size (Sys h m fs out) -> opened read_sector data dv v fp b bl cs tbls size (Sys h' m fs out).
Proof using. intros [O1 O2 O3 O4 O5 O6]. constructor; [exact O1|exact O2|exact O3|exact O4|exact O5|exact O6]. Qed.

Lemma open_file_spec filename s B N i first size cs r :
entry_on data dv v i N first size -> chain_of data dv v first cs -> zlen cs <= 1048576 -> 0 <= size < 2 ^ 32 ->
size <= zlen cs * block_size v -> heap_ok (heap s) B -> 0 <= r -> budget (heap s) (11 + tables_of cs + r) ->
live_range B filename (zlen N + 1) -> cstr (bytes_of s) filename N -> (length N <= 96)%nat ->
exists fp b bl tbls fl h' m' B',
  open_file read_sector dv filename s = Ret (fp, Sys h' m' (<[fp := fl]> (files s)) (stdout_fp s)) /\
  opened read_sector data dv v fp b bl cs tbls size (Sys h' m' (<[fp := fl]> (files s)) (stdout_fp s)) /\
  heap_ok h' B' /\ budget h' r /\ added 128 (fp :: b :: bl :: tbls) B B' /\
  (forall a, live B a -> m'⟦a⟧ = (bytes_of s)⟦a⟧ /\ off_stream b bl tbls a).
Proof using Hdisk Hvol Hbytes.
intros He Hc Hn Hsz Hszn Hok Hr Hbud Ln Hcs HN. destruct (vo_size _ _ _ Hvol) as (Hbps & Hspb & Hbs). unfold BUFSIZ in Hbs.
assert (1 <= tables_of cs) as HT1 by (destruct (chain_head data dv v first cs Hc) as [? ->]; unfold tables_of; cbn [length]; word_lia).
unfold open_file. change sizeof_directory_entry with 128.
destruct (malloc_taken s B 128 (10 + tables_of cs + r) Hok ltac:(lia) ltac:(lia))
  as (d & j1 & h1 & E1 & Hj1 & Hp1 & Hok1 & N1 & F1 & Hb1).
{ change (pages_of 128) with 1. by replace (1 + (10 + tables_of cs + r)) with (11 + tables_of cs + r) by lia. }
rewrite E1, bind_ret. cbv beta iota zeta. set (m1 := memset (bytes_of (set_heap h1 s)) d 0 128).
destruct (malloc_taken (set_bytes m1 (set_heap h1 s)) _ 0x1000 (9 + tables_of cs + r) Hok1 ltac:(lia) ltac:(lia))
  as (f & j2 & h2 & E2 & Hj2 & Hp2 & Hok2 & N2 & F2 & Hb2).
{ change (pages_of 0x1000) with 1. by replace (1 + (9 + tables_of cs + r)) with (10 + tables_of cs + r) by lia. }
rewrite E2, bind_ret. cbv beta iota. set (m2 := memset (bytes_of (set_heap h2 _)) f 0 0x1000).
assert (forall a, live B a -> m2⟦a⟧ = (bytes_of s)⟦a⟧) as U2.
{ intros a Ha. pose proof (F1 a Ha). pose proof (F2 a (live_more B d j1 a N1 Ha)).
  unfold m2. rewrite rd_memset. destruct (within_spec a f 0x1000); [lia|]. change (m1⟦a⟧ = (bytes_of s)⟦a⟧).
  unfold m1. rewrite rd_memset. by destruct (within_spec a d 128); [lia|]. }
clearbody m2. destruct (Hdisk dv 1 1 f m2 ltac:(lia)) as (m3 & E3 & Hm3). rewrite Z.mul_1_l in Hm3.
unfold read_super_block, read_. cbn [bytes_of set_bytes]. rewrite E3. cbv beta iota. cbn [negb Z.eqb].
match goal with |- context [read_directory_entry _ _ _ _ _ ?x] => change x with (Sys h2 m3 (files s) (stdout_fp s)) end.
set (B2 := <[f := j2]> _) in *. set (s3 := Sys h2 m3 _ _).
assert (live_range B2 f 48) as Lf by (intros x Hx; apply (live_range_new _ f j2 4096 Hj2); lia).
assert (live_range B2 d 128) as Ld by (by apply live_range_more, live_range_new).
assert (forall a, live B a -> live B2 a) as L2 by (intros a Ha; by apply live_more, live_more).
assert (forall a, live B a -> ~ d <= a < d + j1 /\ ~ f <= a < f + j2) as Fa
  by (intros a Ha; split; [by apply F1|by apply F2, live_more]).
assert (forall a, live B a -> (bytes_of s3)⟦a⟧ = (bytes_of s)⟦a⟧) as U3.
{ intros a Ha. destruct (Fa a Ha). change (m3⟦a⟧ = (bytes_of s)⟦a⟧). rewrite Hm3. destruct (within_spec a f (v_bps v)); [lia|by apply U2]. }
assert (sb_at (bytes_of s3) f v) as Hsb.
{ assert (forall o, 0 <= o -> o + 4 <= 48 -> ld32 m3 (f + o) = word_of 4 (data dv 1) o) as Hw.
  { intros o Ho Ho4. apply (ld_copy 4 m3 (data dv 1) f 0 48); [|done|done]. intros x Hx. rewrite Hm3.
    destruct (within_spec (f + x) f (v_bps v)); [f_equal; lia|lia]. }
  destruct Hvol as [V1 V2 V3 V4 V5 _ _]. constructor; [rewrite <- V1|rewrite <- V2|rewrite <- V3|rewrite <- V4|rewrite <- V5]; by apply Hw. }
assert (apart d 128 f 0x1000) as Adf.
{ pose proof (fresh_apart _ f j2 d 128 F2 (live_range_new B d j1 128 Hj1)). unfold apart in *. lia. }
destruct (read_entry_spec d f filename s3 B2 N i first size (7 + tables_of cs + r) He Hsb Hok2)
  as (h4 & m4 & E4 & Hok4 & Hb4 & Efirst & Esize & U4); try done; try lia.
{ by replace (2 + (7 + tables_of cs + r)) with (9 + tables_of cs + r) by lia. }
{ intros x Hx. by apply L2, Ln. }
{ apply (cstr_ext (bytes_of s)); [|done]. intros a Ha. apply U3. replace a with (filename + (a - filename)) by lia. apply Ln. lia. }
rewrite E4, bind_ret. cbv beta iota. cbn [negb Z.eqb]. set (s4 := Sys h4 m4 _ _).
assert (sb_at (bytes_of s4) f v) as Hsb4.
{ apply (sb_at_ext (bytes_of s3)); [|done]. intros a Ha. apply U4; [replace a with (f + (a - f)) by lia; apply Lf; lia|].
  unfold apart in Adf. lia. }
destruct (open_file_r_spec read_sector data dv v Hdisk Hvol Hbytes d f s4 B2 first cs size r Hc Hsb4 Efirst Esize Hok4 Hr Hb4 Lf Ld Hn Hsz Hszn)
  as (fp & b & bl & tbls & fl & h5 & m5 & B5 & E5 & Hop & Hok5 & Hb5 & A5 & U5).
rewrite E5, bind_ret. cbv beta iota. set (s5 := Sys h5 m5 _ _).
assert (added 128 (d :: f :: fp :: b :: bl :: tbls) B B5) as A.
{ apply (added_cons 128 d j1); [lia|done|done|]. apply (added_cons 128 f j2); [lia|done|done|]. by apply (added_mono 331). }
destruct (ad_new _ _ _ _ A d) as [_ (k1 & Hk1 & _)]; [by left|].
destruct (free_given s5 B5 d r Hok5 ltac:(by exists k1) Hb5) as (h6 & E6 & Hok6 & Hb6).
rewrite E6, bind_ret. cbv beta. apply added_delete in A.
destruct (ad_new _ _ _ _ A f) as [_ (k2 & Hk2 & _)]; [by left|].
destruct (free_given (set_heap h6 s5) (delete d B5) f r Hok6 ltac:(by exists k2) Hb6) as (h7 & E7 & Hok7 & Hb7).
rewrite E7, bind_ret. cbv beta. apply added_delete in A.
exists fp, b, bl, tbls, fl, h7, m5, (delete f (delete d B5)).
split; [reflexivity|]. split; [exact (opened_heap _ _ _ _ _ _ _ h7 _ _ _ Hop)|]. split; [exact Hok7|]. split; [exact Hb7|]. split; [exact A|].
intros a Ha. destruct (U5 a (L2 a Ha)) as [U Ho]. destruct (Fa a Ha). split; [|exact Ho]. rewrite U.
assert (bytes_of s4 = m4) as -> by reflexivity. rewrite U4; [by apply U3|by apply L2|lia].
Qed.
End opening_files.

(** ** Closing *)

Section closing.
Context {H : Type} `{BudgetLaws H}.
Implicit Types (s : sys H) (a i p bl : Z) (l rest : list Z) (B : gmap Z Z).

Lemma free_added s n p l B B' :
heap_ok (heap s) B' -> added n (p :: l) B B' ->
exists h' B2, free_ p s = Ret (set_heap h' s) /\ heap_ok h' B2 /\ added n l B B2.
Proof.
intros Hok HA. destruct (ad_new _ _ _ _ HA p) as [_ (j & Hj & _)]; [by left|].
destruct (free_spec (heap s) B' p j Hok Hj) as (h' & E & Hok'). exists h', (delete p B'). unfold free_. rewrite E.
split; [done|]. split; [done|]. by apply added_delete.
Qed.

(** The tables are freed up to the null entry that ends their list. *)
Lemma free_tables_spec n k l rest i bl s B B' :
(forall (x : nat) p, l !! x = Some p -> 0 < p /\ ld64 (bytes_of s) (bl + 8 * (i + Z.of_nat x)) = p) ->
(length l < k)%nat /\ ld64 (bytes_of s) (bl + 8 * (i + zlen l)) = 0 \/ length l = k ->
heap_ok (heap s) B' -> added n (l ++ rest) B B' ->
exists h' B2, free_tables k i bl s = Ret (set_heap h' s) /\ heap_ok h' B2 /\ added n rest B B2.
Proof.
revert k i s B'. induction l as [|p l IH]; intros k i s B' Hl Hend Hok HA.
- exists (heap s), B'. split; [|done]. destruct Hend as [[Hk E]|Hk]; [|rewrite <- Hk; by destruct s].
  destruct k as [|k]; [cbn in Hk; lia|]. cbn [free_tables]. change (zlen (@nil Z)) with 0 in E. rewrite Z.add_0_r in E. rewrite E. by destruct s.
- destruct k as [|k]; [cbn in Hend; lia|]. cbn [free_tables]. destruct (Hl 0%nat p eq_refl) as [Hp E].
  rewrite Z.add_0_r in E. rewrite E. destruct (Z.eqb_spec p 0); [lia|].
  destruct (free_added s n p (l ++ rest) B B' Hok HA) as (h1 & B1 & E1 & Hok1 & A1). rewrite E1, bind_ret. cbv beta.
  destruct (IH k (i + 1) (set_heap h1 s) B1) as (h2 & B2 & E2 & Hok2 & A2); [..|done|done|exists h2, B2; by rewrite E2].
  + intros x q Hx. destruct (Hl (S x) q Hx) as [Hq Eq]. split; [done|]. rewrite <- Eq. cbn [bytes_of set_heap]. do 2 f_equal. lia.
  + destruct Hend as [[Hk E0]|Hk]; [left|right; cbn in Hk; lia]. cbn [length] in Hk. split; [lia|]. rewrite <- E0.
    cbn [bytes_of set_heap length]. f_equal. lia.
Qed.

Lemma starts_with_no (m : mem) p c l : m⟦p⟧ <> c -> starts_with m p (c :: l) = false.
Proof.
intros Hc. apply bool_decide_eq_false_2. intros E. apply Hc. pose proof (lookup_bytes m p (zlen (c :: l)) 0 ltac:(cbn [length]; lia)) as El.
rewrite E in El. injection El as ->. by rewrite Z.add_0_r.
Qed.

Lemma file_close_spec n s fp fl tbls B B' :
files s !! fp = Some fl -> fp <> 0 -> (length tbls <= 1024)%nat ->
(forall (x : nat) p, tbls !! x = Some p -> ld64 (bytes_of s) (blocks fl + 8 * Z.of_nat x) = p) ->
(zlen tbls < 1024 -> ld64 (bytes_of s) (blocks fl + 8 * zlen tbls) = 0) ->
heap_ok (heap s) B' -> added n (fp :: buffer fl :: blocks fl :: tbls) B B' ->
exists h', file_close fp s = Ret (0, Sys h' (bytes_of s) (delete fp (files s)) (stdout_fp s)) /\ heap_ok h' B.
Proof.
intros Hf Hfp Hlen HT He Hok HA.
assert (forall (x : nat) p, tbls !! x = Some p -> 0 < p) as Hpos.
{ intros x p Hx. destruct (ad_new _ _ _ _ HA p) as [_ (j & Hj & _)]; [do 3 right; by eapply list_elem_of_lookup_2|].
  apply (heap_pos _ _ _ _ Hok Hj). }
unfold file_close, get_file. rewrite Hf. destruct (Z.eqb_spec fp 0); [done|]. rewrite bind_ret.
apply (added_perm n _ (buffer fl :: tbls ++ [blocks fl; fp])) in HA.
2:{ rewrite (Permutation_app_comm tbls). cbn. rewrite Permutation_swap. apply Permutation_skip, Permutation_swap. }
destruct (free_added s n _ _ B B' Hok HA) as (h1 & B1 & E1 & Hok1 & A1). rewrite E1, bind_ret. cbv beta.
destruct (free_tables_spec n 1024 tbls [blocks fl; fp] 0 (blocks fl) (set_heap h1 s) B B1) as (h2 & B2 & E2 & Hok2 & A2); [..|done|done|].
{ intros x p Hx. split; [by apply (Hpos x)|]. by apply (HT x). }
{ destruct (decide (length tbls = 1024%nat)); [by right|left]. split; [lia|]. apply He. lia. }
rewrite E2, bind_ret. cbv beta.
destruct (free_added (set_heap h2 (set_heap h1 s)) n _ _ B B2 Hok2 A2) as (h3 & B3 & E3 & Hok3 & A3). rewrite E3, bind_ret. cbv beta.
destruct (free_added (set_heap h3 (set_heap h2 (set_heap h1 s))) n _ _ B B3 Hok3 A3) as (h4 & B4 & E4 & Hok4 & A4).
rewrite E4, bind_ret. exists h4. split; [done|]. by rewrite <- (ad_old _ _ _ _ A4).
Qed.
End closing.

(** A disk with sectors of [bps] bytes that holds an image. *)
Definition image_bytes (img : mem) (bps dv lba i : Z) : Z := img⟦lba * bps + i⟧.
Definition image_disk (img : mem) (bps : Z) : disk := fun dv count lba buf m =>
  (0, for_upto 0 (count * bps) (fun i m => m⟦buf + i := image_bytes img bps dv lba i⟧) m).

Lemma image_disk_holds img bps : 0 <= bps -> disk_holds (image_disk img bps) bps (image_bytes img bps).
Proof.
  intros Hb dv count lba buf m Hc. eexists. split; [reflexivity|]. intros a.
  apply (for_upto_elim (fun i m' => m'⟦a⟧ = if within a buf i then image_bytes img bps dv lba (a - buf) else m⟦a⟧));
    [nia|case_within; [lia|done]|..|done].
  intros i m' Hi E. rewrite rd_wr, E. case_within; try lia; try done. f_equal. lia.
Qed.

(** ** Properties *)

(** C15: the kernel reads the files of a volume: on a disk that holds a volume, [fopen] for reading of a
    name of the root directory gives a stream, [fread] from it stores the first [n] bytes of the file, block
    after block along the chain of the table of blocks, and [fclose] gives all the memory back: for a heap
    with room for the stream, whatever the sizes of sectors and blocks, with no byte
    of the other allocations changed but the destination. *)
Theorem open_read_close {H : Type} `{BudgetLaws H} (read_sector : disk) (data : Z -> Z -> Z -> Z) (dv : Z) (v : volume) (s : sys H)
    (B : gmap Z Z) (filename mode i first size dst n : Z) (N cs : list Z) :
  disk_holds read_sector (v_bps v) data -> volume_on data dv v -> (forall l o, 0 <= data dv l o < 256) ->
  entry_on data dv v i N first size -> chain_of data dv v first cs -> zlen cs <= 1048576 ->
  0 <= size < 2 ^ 32 -> size <= zlen cs * block_size v ->
  heap_ok (heap s) B -> budget (heap s) (11 + tables_of cs) ->
  live_range B filename (zlen N + 1) -> cstr (bytes_of s) filename N -> (length N <= 96)%nat ->
  (bytes_of s)⟦mode⟧ = 114 -> 0 <= n < 2 ^ 64 -> live_range B dst n ->
  let got := Z.min n size in
  exists fp s1 s2 s3,
    fopen read_sector dv filename mode s = Ret (fp, s1) /\ fread read_sector dst 1 n fp s1 = Ret (got, s2) /\
    fclose fp s2 = Ret (0, s3) /\
    (forall j, 0 <= j < got -> (bytes_of s3)⟦dst + j⟧ = data dv (sector_at v cs (j / block_size v)) (j mod block_size v)) /\
    (forall a, live B a -> ~ dst <= a < dst + got -> (bytes_of s3)⟦a⟧ = (bytes_of s)⟦a⟧) /\
    heap_ok (heap s3) B /\ files s3 = delete fp (files s).
Proof.
  intros Hdisk Hvol Hbytes He Hc Hn Hsz Hszn Hok Hbud Ln Hcs HN Hmode Hnn Ldst got.
  destruct (open_file_spec read_sector data dv v Hdisk Hvol Hbytes filename s B N i first size cs 0 He Hc Hn Hsz Hszn Hok)
    as (fp & b & bl & tbls & fl & h1 & m1 & B1 & E1 & Hop & Hok1 & _ & A1 & U1); try done.
  { by rewrite Z.add_0_r. }
  set (s1 := Sys h1 m1 _ _) in *. pose proof Hop as [Hrep Hgeo HT Hend [HTl _] [Abl Hbs]].
  assert (files s1 = <[fp := fl]> (files s)) as Ef1 by reflexivity. assert (heap s1 = h1) as Eh1 by reflexivity.
  assert (bytes_of s1 = m1) as Em1 by reflexivity. clearbody s1.
  destruct (fread_delivers read_sector (v_bps v) data fp b bl (zlen cs) dv (v_spb v) (block_size v) size (table_at tbls) (sector_at v cs)
    s1 0 dst 1 n Hgeo Hrep) as (s2 & E2 & Hrep2 & Hin2 & Hout2 & Hh2 & Hd2); try lia.
  { intros j Hj. apply (outside_stream read_sector data dv v fp b bl cs tbls size s1); [done|]. apply U1, Ldst. lia. }
  rewrite Z.mul_1_l, Z.sub_0_r, Z.div_1_r in E2. rewrite Z.mul_1_l, Z.sub_0_r in Hin2, Hout2. fold got in E2, Hin2, Hout2.
  destruct Hrep2 as (f2 & Hf2 & Eb & Ebl & _ & _ & _ & _ & _ & _ & _ & _ & _ & Hflags).
  assert (forall a, bl <= a < bl + 8192 -> (bytes_of s2)⟦a⟧ = (bytes_of s1)⟦a⟧) as Hlist.
  { intros a Ha. apply Hout2; [unfold apart in Abl; lia|]. intros Hd.
    destruct (U1 a) as (_ & _ & Hno & _); [replace a with (dst + (a - dst)) by lia; apply Ldst; lia|]. by apply Hno. }
  pose proof (tables_of_bound cs Hn) as Htb. rewrite <- HTl in Htb.
  destruct (file_close_spec 128 s2 fp f2 tbls B B1) as (h3 & E3 & Hok3); try done.
  { by destruct Hgeo. }
  { lia. }
  { intros x p Hx. rewrite Ebl, <- (HT x p Hx). apply lookup_lt_Some in Hx. apply ld_ext. intros a Ha. apply Hlist. lia. }
  { intros Hlt. rewrite Ebl, <- (Hend Hlt). apply ld_ext. intros a Ha. apply Hlist. lia. }
  { by rewrite Hh2, Eh1. }
  { by rewrite Eb, Ebl. }
  exists fp, s1, s2, (Sys h3 (bytes_of s2) (delete fp (files s2)) (stdout_fp s2)).
  split; [|split; [exact E2|split; [|split; [exact Hin2|split; [|split; [exact Hok3|]]]]]].
  - unfold fopen, str_std, str_pipe. rewrite !starts_with_no by (rewrite Hmode; done). rewrite Hmode. exact E1.
  - unfold fclose, get_file. destruct (Z.eqb_spec fp 0) as [E|_]; [by destruct Hgeo|]. rewrite Hf2, bind_ret.
    replace ((flags f2 =? 1) || (flags f2 =? 2) || (flags f2 =? 3) || (flags f2 =? 4)) with false
      by (destruct Hflags as [[-> _]|[-> _]]; done).
    exact E3.
  - intros a Ha Hd. cbn [bytes_of]. destruct (U1 a Ha) as [<- (Hb & _)]. rewrite Hout2, Em1; [done|lia|lia].
  - cbn [files]. rewrite Hd2, Ef1. apply delete_insert_eq.
Qed.

(** A volume of sectors and blocks of 512 bytes: a file of 600 bytes in the blocks 3 and 4. *)
Definition little_volume : volume := Vol 0 2 512 1 1.
Definition little_image : mem :=
  (st32 (st32 (st32 (st32 (st32 (st32 (st32 (st32 (memset ∅ 1536 32 96)⟦1536 := 97⟧⟦1537 := 98⟧ (512 + 24) 2) (512 + 28) 512) (512 + 32) 1)
     (512 + 44) 1) (1536 + 107) 3) (1536 + 111) 600) (1024 + 12) 4) (1024 + 16) (u32 EOF))⟦3072 := 7⟧.
Definition little_sys : sys bump := Sys 0x1000 (poke ∅ 0x100 [97; 98; 0; 114; 0]) ∅ 0.
Definition little_heap : gmap Z Z := {[0x100 := 5; 0x200 := 700]}.

Lemma little_bytes l o : 0 <= image_bytes little_image 512 0 l o < 256.
Proof.
  unfold image_bytes, little_image. generalize (l * 512 + o). apply bytes_in_wr; [|lia]. do 8 apply bytes_in_st.
  apply bytes_in_wr; [|lia]. apply bytes_in_wr; [|lia]. apply bytes_in_memset, bytes_in_empty.
Qed.

Example open_read_close_witness :
  exists fp s1 s2 s3,
    fopen (image_disk little_image 512) 0 0x100 0x103 little_sys = Ret (fp, s1) /\
    fread (image_disk little_image 512) 0x200 1 700 fp s1 = Ret (600, s2) /\ fclose fp s2 = Ret (0, s3) /\
    (bytes_of s3)⟦0x200 + 512⟧ = 7 /\ heap_ok (heap s3) little_heap.
Proof.
  destruct (open_read_close (image_disk little_image 512) (image_bytes little_image 512) 0 little_volume little_sys little_heap
    0x100 0x103 0 3 600 0x200 700 [97; 98] [3; 4]) as (fp & s1 & s2 & s3 & E1 & E2 & E3 & Hin & _ & Hok & _).
  - by apply image_disk_holds.
  - constructor; [vm_compute; reflexivity..| |].
    + cbn. unfold BUFSIZ. lia.
    + intros c. unfold table_sector. cbn [v_bps v_rsv v_hidden little_volume]. pose proof (u32_range (c * 4)). word_lia.
  - apply little_bytes.
  - constructor; [cbn; lia|vm_compute; reflexivity|intros; lia|vm_compute; reflexivity..].
  - assert (next_block (image_bytes little_image 512) 0 little_volume 3 = 4 /\ next_block (image_bytes little_image 512) 0 little_volume 4 = u32 EOF)
      as [E3 E4] by (split; vm_compute; reflexivity).
    cbn [chain_of]. rewrite E3, E4. split; [reflexivity|]. split; [intros E; vm_compute in E; discriminate|]. by split.
  - cbn. lia.
  - lia.
  - cbn. unfold block_size. cbn. lia.
  - split; [reflexivity|]. intros p k Hp. unfold little_heap in Hp.
    apply lookup_insert_Some in Hp as [[<- <-]|[_ [<- <-]%lookup_singleton_Some]]; cbn; lia.
  - split; [done|vm_compute; reflexivity].
  - intros x Hx. exists 0x100, 5. split; [reflexivity|]. cbn in Hx. lia.
  - split; [repeat constructor; lia|]. split; [repeat split|reflexivity].
  - cbn. lia.
  - reflexivity.
  - lia.
  - intros x Hx. exists 0x200, 700. split; [reflexivity|lia].
  - exists fp, s1, s2, s3. split; [exact E1|]. split; [exact E2|]. split; [exact E3|]. split; [|exact Hok].
    rewrite Hin by lia. vm_compute. reflexivity.
Defined.
