(* ===== verification/Inet.v ===== *)
(** * Inet: byte order, the Internet checksum and the port bitmap

    include/inet.h, file/inet.c, driver/net/checksum.c and driver/net/port.c: the pure
    helpers of the network stack, over byte memory.  [net_checksum] is shown to compute a
    checksum that makes a second pass over the finished packet give 0, whatever the
    packet, and the port bitmap to be a set of ports. *)
From S2P Require Import Prelude KString Bytes.

(** ** Byte order (include/inet.h) *)
Definition htons (nb : Z) : Z := u16 (Z.lor (Z.shiftr nb 8) (Z.shiftl nb 8)).

Definition htonl (nb : Z) : Z :=
  Z.lor (Z.lor (Z.land (Z.shiftr nb 24) 0xff) (Z.land (u32 (Z.shiftl nb 8)) 0xff0000))
    (Z.lor (Z.land (Z.shiftr nb 8) 0xff00) (Z.land (u32 (Z.shiftl nb 24)) 0xff000000)).

(** The address 127.0.0.1 stored byte by byte, read back as a number. *)
Definition inet_addr (cp : Z) : Z := ld32 (poke ∅ 0 [127; 0; 0; 1]) 0.

(** ** The checksum (driver/net/checksum.c) *)

(** [while (len > 1) { checksum += *p++; len -= 2; }] *)
Definition sum_words (m : mem) (p len checksum : Z) : Z :=
  for_upto 0 (len / 2) (fun i c => u32 (c + ld16 m (p + 2 * i))) checksum.

Definition net_checksum (m : mem) (phdr phdr_len start end_ : Z) : Z :=
  let checksum := if phdr =? 0 then 0 else sum_words m phdr (u32 phdr_len) 0 in
  let len := u32 (end_ - start) in
  let checksum := sum_words m start len checksum in
  let checksum := if len mod 2 =? 0 then checksum else u32 (checksum + m⟦start + len - 1⟧) in
  let checksum := u32 (Z.land checksum 0xffff + Z.shiftr checksum 16) in
  let checksum := u32 (checksum + Z.shiftr checksum 16) in
  let final := u16 (Z.lnot checksum) in
  htons final.

(** ** Ports (driver/net/port.c): a bitmap of 65536 bits at [port_bitmap] *)
Section ports.
Context (port_bitmap : Z).
Implicit Types (m : mem) (port : Z).

Definition set_port port m : Z * mem :=
  let bmp := port_bitmap + port / 8 in
  let b := port mod 8 in
  if negb (Z.land m⟦bmp⟧ (Z.shiftl 1 b) =? 0) then (0, m)
  else (port, m⟦bmp := Z.lor m⟦bmp⟧ (Z.shiftl 1 b)⟧).

Definition ethernet_port_setup m : mem :=
  let m := memset m port_bitmap 0 (2 * 4096) in
  snd (set_port 0 m).

(** [b] runs over the bits of the byte [bmp]; the port is counted along. *)
Definition get_port_byte m bmp (port : Z) : Z + (Z * mem) :=
  for_break_upto 0 8 (fun b port =>
    if Z.land m⟦bmp⟧ (Z.shiftl 1 b) =? 0
    then inr (port, m⟦bmp := Z.lor m⟦bmp⟧ (Z.shiftl 1 b)⟧)
    else inl (port + 1)) port.

Definition get_port m : Z * mem :=
  match for_break_upto 0 (65536 / 8) (fun i port => get_port_byte m (port_bitmap + i) port) 0 with
  | inr (port, m) => if 65536 <=? port then (0, m) else (u16 port, m)
  | inl port => if 65536 <=? port then (0, m) else (u16 port, m)
  end.

Definition clean_port port m : Z * mem :=
  let bmp := port_bitmap + port / 8 in
  let b := port mod 8 in
  (0, m⟦bmp := Z.land m⟦bmp⟧ (Z.lnot (Z.shiftl 1 b))⟧).
End ports.

(** ** Lemmas: byte order *)
Section order.
Implicit Types (m : mem) (a v : Z).

Lemma lor_shifted hi lo w : 0 <= w -> 0 <= lo < 2 ^ w -> Z.lor (hi * 2 ^ w) lo = hi * 2 ^ w + lo.
Proof.
  intros Hw Hlo. assert (Z.land (hi * 2 ^ w) lo = 0) as E.
  { apply Z.bits_inj'. intros n Hn. rewrite Z.land_spec, Z.bits_0.
    destruct (Z.ltb_spec n w).
    - by rewrite Z.mul_pow2_bits_low.
    - rewrite <- (Z.mod_small lo (2 ^ w)) by lia. rewrite Z.mod_pow2_bits_high by lia. apply andb_false_r. }
  by rewrite <- Z.lxor_lor, <- Z.add_nocarry_lxor.
Qed.

Lemma land_byte x k : 0 <= k -> Z.land x (255 * 2 ^ k) = x / 2 ^ k mod 2 ^ 8 * 2 ^ k.
Proof.
  intros Hk. apply Z.bits_inj'. intros n Hn. rewrite Z.land_spec.
  destruct (Z.ltb_spec n k).
  - rewrite !Z.mul_pow2_bits_low by lia. apply andb_false_r.
  - replace n with (k + (n - k)) by lia. rewrite !Z.mul_pow2_bits_add by lia.
    change 255 with (Z.ones 8). destruct (Z.ltb_spec (n - k) 8).
    + rewrite Z.ones_spec_low, Z.mod_pow2_bits_low, Z.div_pow2_bits by lia.
      rewrite andb_true_r. f_equal. lia.
    + rewrite Z.ones_spec_high, Z.mod_pow2_bits_high by lia. apply andb_false_r.
Qed.

(** Byte swapping, in numbers. *)
Lemma htons_eq v : 0 <= v < 2 ^ 16 -> htons v = v mod 256 * 256 + v / 256.
Proof.
  intros Hv. unfold htons. rewrite Z.lor_comm, Z.shiftl_mul_pow2, Z.shiftr_div_pow2 by lia.
  rewrite lor_shifted by (try apply Z.div_pos; try (apply Z.div_lt_upper_bound; lia); lia || word_lia).
  change (2 ^ 8) with 256. word_lia.
Qed.

Lemma htonl_eq v : 0 <= v < 2 ^ 32 ->
  htonl v = v mod 256 * 2 ^ 24 + v / 256 mod 256 * 2 ^ 16 + v / 2 ^ 16 mod 256 * 2 ^ 8 + v / 2 ^ 24.
Proof.
  intros Hv. unfold htonl.
  change 0xff with (255 * 2 ^ 0). change 0xff0000 with (255 * 2 ^ 16).
  change 0xff00 with (255 * 2 ^ 8). change 0xff000000 with (255 * 2 ^ 24).
  rewrite !land_byte, !Z.shiftl_mul_pow2, !Z.shiftr_div_pow2 by lia. change (2 ^ 0) with 1.
  rewrite !Z.div_1_r, !Z.mul_1_r.
  replace (v / 2 ^ 24 mod 2 ^ 8) with (v / 2 ^ 24) by word_lia.
  replace (u32 (v * 2 ^ 8) / 2 ^ 16 mod 2 ^ 8) with (v / 256 mod 256) by word_lia.
  replace (v / 2 ^ 8 / 2 ^ 8 mod 2 ^ 8) with (v / 2 ^ 16 mod 256) by word_lia.
  replace (u32 (v * 2 ^ 24) / 2 ^ 24 mod 2 ^ 8) with (v mod 256) by word_lia.
  set (b0 := v mod 256). set (b1 := v / 256 mod 256). set (b2 := v / 2 ^ 16 mod 256).
  set (b3 := v / 2 ^ 24).
  assert (0 <= b0 < 256 /\ 0 <= b1 < 256 /\ 0 <= b2 < 256 /\ 0 <= b3 < 256)
    as (H0 & H1 & H2 & H3) by (subst b0 b1 b2 b3; word_lia).
  transitivity (Z.lor (b0 * 2 ^ 24) (Z.lor (b1 * 2 ^ 16) (Z.lor (b2 * 2 ^ 8) b3))).
  - rewrite (Z.lor_comm (b2 * 2 ^ 8) (b0 * 2 ^ 24)), (Z.lor_comm b3), Z.lor_comm.
    rewrite <- !Z.lor_assoc. f_equal. rewrite !Z.lor_assoc. f_equal. apply Z.lor_comm.
  - rewrite (lor_shifted b2 b3 8), (lor_shifted b1 _ 16), (lor_shifted b0 _ 24) by lia. lia.
Qed.

Lemma htons_range v : 0 <= htons v < 2 ^ 16.
Proof. unfold htons. apply u16_range. Qed.

Lemma htonl_range v : 0 <= v < 2 ^ 32 -> 0 <= htonl v < 2 ^ 32.
Proof. intros Hv. rewrite htonl_eq by done. word_lia. Qed.

(** A word of four bytes. *)
Definition word4 (b0 b1 b2 b3 : Z) : Z := b0 + 256 * (b1 + 256 * (b2 + 256 * b3)).

Lemma word4_split v : 0 <= v < 2 ^ 32 ->
  exists b0 b1 b2 b3, v = word4 b0 b1 b2 b3 /\
    0 <= b0 < 256 /\ 0 <= b1 < 256 /\ 0 <= b2 < 256 /\ 0 <= b3 < 256.
Proof.
  intros Hv. exists (v mod 256), (v / 256 mod 256), (v / 256 / 256 mod 256), (v / 256 / 256 / 256).
  unfold word4. pose proof (Z.div_mod v 256). pose proof (Z.div_mod (v / 256) 256).
  pose proof (Z.div_mod (v / 256 / 256) 256).
  split; [lia|]. split; [apply Z.mod_pos_bound; lia|]. split; [apply Z.mod_pos_bound; lia|].
  split; [apply Z.mod_pos_bound; lia|]. rewrite !Z.div_div by lia. split.
  - apply Z.div_pos; lia.
  - apply Z.div_lt_upper_bound; lia.
Qed.

Lemma htonl_word4 b0 b1 b2 b3 :
  0 <= b0 < 256 -> 0 <= b1 < 256 -> 0 <= b2 < 256 -> 0 <= b3 < 256 ->
  htonl (word4 b0 b1 b2 b3) = word4 b3 b2 b1 b0.
Proof.
  intros H0 H1 H2 H3. unfold word4.
  set (t2 := b2 + 256 * b3). set (t1 := b1 + 256 * t2). set (v := b0 + 256 * t1).
  assert (v mod 256 = b0 /\ v / 256 = t1) as [E0 E1] by (subst v; word_lia).
  assert (t1 mod 256 = b1 /\ t1 / 256 = t2) as [E2 E3] by (subst t1; word_lia).
  assert (t2 mod 256 = b2 /\ t2 / 256 = b3) as [E4 E5] by (subst t2; word_lia).
  rewrite htonl_eq by lia.
  replace (v / 2 ^ 24) with (v / 256 / 256 / 256) by (rewrite !Z.div_div; done).
  replace (v / 2 ^ 16) with (v / 256 / 256) by (rewrite !Z.div_div; done).
  rewrite E0, E1, E2, E3, E4, E5. lia.
Qed.

Lemma htons_word2 l h : 0 <= l < 256 -> 0 <= h < 256 -> htons (l + 256 * h) = h + 256 * l.
Proof. intros Hl Hh. rewrite htons_eq by lia. word_lia. Qed.

Lemma htons_invol v : 0 <= v < 2 ^ 16 -> htons (htons v) = v.
Proof.
  intros Hv. assert (v = v mod 256 + 256 * (v / 256)) as E by word_lia.
  assert (0 <= v mod 256 < 256) by word_lia. assert (0 <= v / 256 < 256) by word_lia.
  rewrite E, !htons_word2 by lia. reflexivity.
Qed.

Lemma htonl_invol v : 0 <= v < 2 ^ 32 -> htonl (htonl v) = v.
Proof.
  intros Hv. destruct (word4_split v Hv) as (b0 & b1 & b2 & b3 & -> & H0 & H1 & H2 & H3).
  by rewrite !htonl_word4.
Qed.
End order.

(** ** Lemmas: the checksum *)
Section checksum.
Implicit Types (m : mem) (p : Z) (n : nat).

(** The sum of [n] little-endian words, unbounded. *)
Fixpoint wsum n m p : Z :=
  match n with
  | O => 0
  | S n => ld16 m p + wsum n m (p + 2)
  end.

Lemma wsum_snoc n m p : wsum (S n) m p = wsum n m p + ld16 m (p + 2 * Z.of_nat n).
Proof.
  revert p. induction n as [|n IH]; intros p.
  - change (wsum 1 m p) with (ld16 m p + 0). change (wsum 0 m p) with 0.
    replace (p + 2 * Z.of_nat 0) with p by lia. lia.
  - change (wsum (S (S n)) m p) with (ld16 m p + wsum (S n) m (p + 2)). rewrite IH.
    change (wsum (S n) m p) with (ld16 m p + wsum n m (p + 2)).
    replace (p + 2 * Z.of_nat (S n)) with (p + 2 + 2 * Z.of_nat n) by lia. lia.
Qed.

Lemma wsum_bound n m p : bytes_in m -> 0 <= wsum n m p <= 65535 * Z.of_nat n.
Proof.
  intros Hm. revert p. induction n as [|n IH]; intros p; [done|].
  change (wsum (S n) m p) with (ld16 m p + wsum n m (p + 2)). specialize (IH (p + 2)).
  pose proof (ld_range 2 m p Hm) as Hl. change (256 ^ Z.of_nat 2) with 65536 in Hl. lia.
Qed.

Lemma wsum_ext n m m' p :
  (forall b, p <= b < p + 2 * Z.of_nat n -> m'⟦b⟧ = m⟦b⟧) -> wsum n m' p = wsum n m p.
Proof.
  revert p. induction n as [|n IH]; intros p E; [done|].
  change (wsum (S n) m p) with (ld16 m p + wsum n m (p + 2)).
  change (wsum (S n) m' p) with (ld16 m' p + wsum n m' (p + 2)).
  rewrite (ld_ext 2 m m') by (intros b Hb; apply E; lia).
  by rewrite IH by (intros b Hb; apply E; lia).
Qed.

(** Two memories that differ in one aligned word. *)
Lemma wsum_change n m m' p off :
  0 <= off -> off + 2 <= 2 * Z.of_nat n -> off mod 2 = 0 ->
  (forall b, p <= b < p + 2 * Z.of_nat n -> ~ p + off <= b < p + off + 2 -> m'⟦b⟧ = m⟦b⟧) ->
  wsum n m' p = wsum n m p + (ld16 m' (p + off) - ld16 m (p + off)).
Proof.
  revert p off. induction n as [|n IH]; intros p off H0 Hoff Heven E; [lia|].
  change (wsum (S n) m p) with (ld16 m p + wsum n m (p + 2)).
  change (wsum (S n) m' p) with (ld16 m' p + wsum n m' (p + 2)).
  destruct (decide (off = 0)) as [->|Hne].
  - rewrite Z.add_0_r. rewrite (wsum_ext n m m' (p + 2)) by (intros b Hb; apply E; lia). lia.
  - assert (2 <= off) by word_lia. rewrite (ld_ext 2 m m') by (intros b Hb; apply E; lia).
    rewrite (IH (p + 2) (off - 2)); [|lia|lia|word_lia|intros b Hb Hn; apply E; lia].
    replace (p + 2 + (off - 2)) with (p + off) by lia. lia.
Qed.

Lemma sum_words_eq m p len c :
  bytes_in m -> 0 <= len -> 0 <= c -> c + 65535 * (len / 2) < 2 ^ 32 ->
  sum_words m p len c = c + wsum (Z.to_nat (len / 2)) m p.
Proof.
  intros Hm Hlen Hc Hb. unfold sum_words. assert (0 <= len / 2) by (apply Z.div_pos; lia).
  upto_with (fun k x => x = c + wsum (Z.to_nat k) m p).
  - lia.
  - change (Z.to_nat 0) with O. change (wsum 0 m p) with 0. lia.
  - intros k x Hk ->. replace (Z.to_nat (k + 1)) with (S (Z.to_nat k)) by lia.
    rewrite wsum_snoc. replace (2 * Z.of_nat (Z.to_nat k)) with (2 * k) by lia.
    pose proof (wsum_bound (Z.to_nat k) m p Hm). pose proof (ld_range 2 m (p + 2 * k) Hm) as Hl.
    change (256 ^ Z.of_nat 2) with 65536 in Hl. rewrite u32_small by lia. lia.
  - intros x ->. reflexivity.
Qed.

(** The sum [net_checksum] folds. *)
Definition packet_sum m phdr phdr_len start len : Z :=
  (if phdr =? 0 then 0 else wsum (Z.to_nat (phdr_len / 2)) m phdr)
  + wsum (Z.to_nat (len / 2)) m start
  + (if len mod 2 =? 0 then 0 else m⟦start + len - 1⟧).

Definition fold16 (S : Z) : Z :=
  let c := S mod 2 ^ 16 + S / 2 ^ 16 in (c + c / 2 ^ 16) mod 2 ^ 16.

Lemma fold16_spec S : 0 <= S < 2 ^ 32 ->
  0 <= fold16 S < 2 ^ 16 /\ (exists q, S = fold16 S + q * 65535) /\ (fold16 S = 0 <-> S = 0).
Proof.
  intros HS. unfold fold16. set (h := S / 2 ^ 16). set (l := S mod 2 ^ 16).
  assert (S = l + h * 65536 /\ 0 <= l < 65536 /\ 0 <= h < 65536) as (ES & Hl & Hh)
    by (subst l h; word_lia).
  destruct (Z.ltb_spec (l + h) 65536) as [Hs|Hs].
  - replace ((l + h) / 2 ^ 16) with 0 by word_lia. rewrite Z.add_0_r, Z.mod_small by lia.
    split; [lia|]. split; [exists h; lia|lia].
  - replace ((l + h) / 2 ^ 16) with 1 by word_lia.
    replace ((l + h + 1) mod 2 ^ 16) with (l + h + 1 - 65536) by word_lia.
    split; [lia|]. split; [exists (h + 1); lia|lia].
Qed.

Lemma packet_sum_bound m phdr phdr_len start len :
  bytes_in m -> 0 <= phdr_len < 2 ^ 16 -> 0 <= len < 2 ^ 16 ->
  0 <= packet_sum m phdr phdr_len start len < 2 ^ 32.
Proof.
  intros Hm Hp Hl. unfold packet_sum.
  pose proof (wsum_bound (Z.to_nat (phdr_len / 2)) m phdr Hm) as H1.
  pose proof (wsum_bound (Z.to_nat (len / 2)) m start Hm) as H2.
  pose proof (Hm (start + len - 1)). rewrite Z2Nat.id in H1, H2 by (apply Z.div_pos; lia).
  assert (phdr_len / 2 < 2 ^ 15) by (apply Z.div_lt_upper_bound; lia).
  assert (len / 2 < 2 ^ 15) by (apply Z.div_lt_upper_bound; lia).
  destruct (phdr =? 0), (len mod 2 =? 0); lia.
Qed.

Lemma net_checksum_eq m phdr phdr_len start len :
  bytes_in m -> 0 <= phdr_len < 2 ^ 16 -> 0 <= len < 2 ^ 16 ->
  net_checksum m phdr phdr_len start (start + len) =
  htons (65535 - fold16 (packet_sum m phdr phdr_len start len)).
Proof.
  intros Hm Hp Hl. pose proof (packet_sum_bound m phdr phdr_len start len Hm Hp Hl) as HB.
  pose proof (wsum_bound (Z.to_nat (phdr_len / 2)) m phdr Hm) as H1.
  pose proof (wsum_bound (Z.to_nat (len / 2)) m start Hm) as H2.
  rewrite Z2Nat.id in H1, H2 by (apply Z.div_pos; lia).
  assert (phdr_len / 2 < 2 ^ 15) by (apply Z.div_lt_upper_bound; lia).
  assert (len / 2 < 2 ^ 15) by (apply Z.div_lt_upper_bound; lia).
  unfold net_checksum. replace (start + len - start) with len by lia.
  rewrite (u32_small len), (u32_small phdr_len) by lia.
  rewrite (sum_words_eq m phdr phdr_len 0) by (lia || done). rewrite Z.add_0_l.
  rewrite sum_words_eq by (destruct (phdr =? 0); lia || done).
  match goal with |- context [u32 (?x + m⟦start + len - 1⟧)] =>
    replace (if len mod 2 =? 0 then x else u32 (x + m⟦start + len - 1⟧))
      with (packet_sum m phdr phdr_len start len) end.
  2:{ unfold packet_sum in HB |- *. destruct (phdr =? 0), (len mod 2 =? 0); try lia;
        rewrite u32_small by lia; lia. }
  generalize dependent (packet_sum m phdr phdr_len start len). intros S HS. clear -HS. f_equal.
  unfold fold16. cbv zeta. change 0xffff with (Z.ones 16).
  rewrite Z.land_ones, !Z.shiftr_div_pow2 by lia.
  assert (0 <= S mod 2 ^ 16 < 2 ^ 16) by (apply Z.mod_pos_bound; lia).
  assert (0 <= S / 2 ^ 16 < 2 ^ 16) by (split; [apply Z.div_pos|apply Z.div_lt_upper_bound]; lia).
  rewrite (u32_small (S mod 2 ^ 16 + S / 2 ^ 16)) by lia.
  set (c := S mod 2 ^ 16 + S / 2 ^ 16) in *.
  assert (0 <= c / 2 ^ 16 < 2 ^ 16) by (subst c; split; [apply Z.div_pos|apply Z.div_lt_upper_bound]; lia).
  rewrite (u32_small (c + c / 2 ^ 16)) by lia. generalize (c + c / 2 ^ 16). intros x.
  unfold Z.lnot. change (Z.ones 16) with 65535. clear. word_lia.
Qed.

Lemma packet_sum_change m m' phdr phdr_len start len off :
  0 <= phdr_len -> 0 <= off -> off + 2 <= len -> off mod 2 = 0 ->
  (forall b, ~ start + off <= b < start + off + 2 -> m'⟦b⟧ = m⟦b⟧) ->
  phdr = 0 \/ phdr + phdr_len <= start \/ start + len <= phdr ->
  packet_sum m' phdr phdr_len start len =
  packet_sum m phdr phdr_len start len + (ld16 m' (start + off) - ld16 m (start + off)).
Proof.
  intros Hp H0 Hoff Heven E Hd. unfold packet_sum.
  assert (off + 2 <= 2 * Z.of_nat (Z.to_nat (len / 2))) by (rewrite Z2Nat.id by word_lia; word_lia).
  rewrite (wsum_change (Z.to_nat (len / 2)) m m' start off) by (done || (intros; by apply E)).
  assert ((if len mod 2 =? 0 then 0 else m'⟦start + len - 1⟧) =
          (if len mod 2 =? 0 then 0 else m⟦start + len - 1⟧)) as ->.
  { destruct (Z.eqb_spec (len mod 2) 0); [done|]. apply E. word_lia. }
  destruct (Z.eqb_spec phdr 0); [lia|]. rewrite (wsum_ext _ m m' phdr); [lia|].
  intros b Hb. apply E. rewrite Z2Nat.id in Hb by word_lia. word_lia.
Qed.
(** Filling the field with [htons] of the result makes the sum a multiple of 65535. *)
Lemma checksum_filled m phdr phdr_len start len off :
  bytes_in m -> 0 <= phdr_len < 2 ^ 16 -> len < 2 ^ 16 ->
  phdr = 0 \/ phdr + phdr_len <= start \/ start + len <= phdr ->
  0 <= off -> off + 2 <= len -> off mod 2 = 0 -> ld16 m (start + off) = 0 ->
  let m' := st16 m (start + off) (htons (net_checksum m phdr phdr_len start (start + len))) in
  net_checksum m' phdr phdr_len start (start + len) = 0 /\
  exists q, packet_sum m' phdr phdr_len start len = q * 65535.
Proof.
  intros Hm Hp Hlen Hd H0 Hoff Heven Hz m'.
  assert (bytes_in m') as Hm' by (by apply bytes_in_st).
  pose proof (packet_sum_bound m phdr phdr_len start len Hm Hp ltac:(lia)) as HB.
  destruct (fold16_spec _ HB) as (Hf & (q & Eq) & Hf0).
  assert (packet_sum m' phdr phdr_len start len =
    packet_sum m phdr phdr_len start len + (65535 - fold16 (packet_sum m phdr phdr_len start len))) as E.
  { rewrite (packet_sum_change m m' phdr phdr_len start len off); try done; [|lia|].
    - unfold m'. rewrite ld_st_eq, Hz, net_checksum_eq by (done || lia). rewrite htons_invol by lia.
      change (256 ^ Z.of_nat 2) with 65536. rewrite Z.mod_small by lia. lia.
    - intros b Hb. apply rd_st_out. lia. }
  pose proof (packet_sum_bound m' phdr phdr_len start len Hm' Hp ltac:(lia)) as HB'.
  destruct (fold16_spec _ HB') as (Hf' & (q' & Eq') & Hf0').
  assert (packet_sum m' phdr phdr_len start len = (q + 1) * 65535) as Em' by lia.
  split; [|by exists (q + 1)]. rewrite net_checksum_eq by (done || lia).
  assert (fold16 (packet_sum m' phdr phdr_len start len) = 65535) as -> by lia. reflexivity.
Qed.

Lemma wsum_agree n m m' p p' :
  (forall i, 0 <= i < 2 * Z.of_nat n -> m'⟦p' + i⟧ = m⟦p + i⟧) -> wsum n m' p' = wsum n m p.
Proof.
  revert p p'. induction n as [|n IH]; intros p p' E; [done|].
  change (wsum (S n) m p) with (ld16 m p + wsum n m (p + 2)).
  change (wsum (S n) m' p') with (ld16 m' p' + wsum n m' (p' + 2)).
  rewrite (IH (p + 2) (p' + 2)).
  - f_equal. cbn [ld]. pose proof (E 0 ltac:(lia)) as E0. pose proof (E 1 ltac:(lia)) as E1.
    rewrite !Z.add_0_r in E0. by rewrite E0, E1.
  - intros i Hi. replace (p' + 2 + i) with (p' + (2 + i)) by lia.
    replace (p + 2 + i) with (p + (2 + i)) by lia. apply E. lia.
Qed.

(** The checksum is a function of the bytes, wherever they stand. *)
Lemma net_checksum_agree m m' phdr phdr' phdr_len start start' len :
  bytes_in m -> bytes_in m' -> 0 <= phdr_len < 2 ^ 16 -> 0 <= len < 2 ^ 16 ->
  (phdr = 0 <-> phdr' = 0) ->
  (forall i, 0 <= i < phdr_len -> m'⟦phdr' + i⟧ = m⟦phdr + i⟧) ->
  (forall i, 0 <= i < len -> m'⟦start' + i⟧ = m⟦start + i⟧) ->
  net_checksum m' phdr' phdr_len start' (start' + len) = net_checksum m phdr phdr_len start (start + len).
Proof.
  intros Hm Hm' Hp Hl Hz Ep El. rewrite !net_checksum_eq by done. do 3 f_equal. unfold packet_sum.
  f_equal; [f_equal|].
  - destruct (Z.eqb_spec phdr 0), (Z.eqb_spec phdr' 0); try (done || lia). apply wsum_agree.
    intros i Hi. apply Ep. rewrite Z2Nat.id in Hi by word_lia. word_lia.
  - apply wsum_agree. intros i Hi. apply El. rewrite Z2Nat.id in Hi by word_lia. word_lia.
  - destruct (Z.eqb_spec (len mod 2) 0); [done|].
    replace (start' + len - 1) with (start' + (len - 1)) by lia.
    replace (start + len - 1) with (start + (len - 1)) by lia. apply El. word_lia.
Qed.
End checksum.

(** C40: the Internet checksum: once the field at an even offset, 0 while the sum was taken,
    holds [htons] of the result, a second [net_checksum] over the packet gives 0, and over
    any memory in which one aligned word of it has changed (other than between 0 and 0xffff)
    gives something else. *)
Theorem checksum_verifies (m : mem) (phdr phdr_len start len off : Z) :
  bytes_in m -> 0 <= phdr_len < 2 ^ 16 -> len < 2 ^ 16 ->
  phdr = 0 \/ phdr + phdr_len <= start \/ start + len <= phdr ->
  0 <= off -> off + 2 <= len -> off mod 2 = 0 -> ld16 m (start + off) = 0 ->
  let sum m := net_checksum m phdr phdr_len start (start + len) in
  let m' := st16 m (start + off) (htons (sum m)) in
  sum m' = 0 /\
  forall m'' o, bytes_in m'' -> 0 <= o -> o + 2 <= len -> o mod 2 = 0 ->
    (forall b, ~ start + o <= b < start + o + 2 -> m''⟦b⟧ = m'⟦b⟧) ->
    (ld16 m'' (start + o) - ld16 m' (start + o)) mod 65535 <> 0 -> sum m'' <> 0.
Proof.
  intros Hm Hp Hlen Hd H0 Hoff Heven Hz sum m'.
  assert (bytes_in m') as Hm' by (by apply bytes_in_st).
  destruct (checksum_filled m phdr phdr_len start len off Hm Hp Hlen Hd H0 Hoff Heven Hz) as (Es & q & Em').
  change (sum m' = 0) in Es. change (packet_sum m' phdr phdr_len start len = q * 65535) in Em'.
  assert (forall x, bytes_in x -> sum x = htons (65535 - fold16 (packet_sum x phdr phdr_len start len))) as Hsum.
  { intros x Hx. unfold sum. rewrite net_checksum_eq by (exact Hx || lia). reflexivity. }
  split; [exact Es|].
  intros m'' o Hm'' Ho0 Ho Hoe Hout Hne. rewrite Hsum by done.
  pose proof (packet_sum_bound m'' phdr phdr_len start len Hm'' Hp ltac:(lia)) as HB''.
  destruct (fold16_spec _ HB'') as (Hf'' & (q'' & Eq'') & _).
  rewrite (packet_sum_change m' m'' phdr phdr_len start len o) in * by (done || lia).
  set (d := ld16 m'' (start + o) - ld16 m' (start + o)) in *.
  set (F := fold16 (packet_sum m' phdr phdr_len start len + d)) in *.
  intros Hcs. assert (F = 65535) as HF.
  { assert (65535 - F = htons (htons (65535 - F))) as EF by (symmetry; apply htons_invol; lia).
    rewrite Hcs in EF. change (htons 0) with 0 in EF. lia. }
  apply Hne. assert (d = (q'' + 1 - q) * 65535) as -> by lia. apply Z.mod_mul. lia.
Qed.

Example checksum_verifies_witness :
  let m := poke ∅ 0x100 [0x45; 0; 0; 28; 0; 1; 0x40; 0; 64; 17; 0; 0; 10; 0; 2; 15; 10; 0; 2; 2] in
  let sum m := net_checksum m 0 0 0x100 0x114 in
  sum (st16 m 0x10a (htons (sum m))) = 0 /\ sum m <> 0.
Proof.
  intros m sum. split; [|vm_compute; discriminate].
  assert (bytes_in m) as Hm.
  { unfold m. cbn [poke]. repeat (apply bytes_in_wr; [|lia]). apply bytes_in_empty. }
  apply (checksum_verifies m 0 0 0x100 20 10 Hm); (left; reflexivity) || lia || reflexivity.
Defined.

(** ** Lemmas: the port bitmap *)
Section port_set.
Context (port_bitmap : Z).
Implicit Types (m : mem) (p q : Z).

Definition port_used m p : bool := Z.testbit m⟦port_bitmap + p / 8⟧ (p mod 8).

(** The bitmap at [port_bitmap] marks the ports of [X]. *)
Definition ports_rep m (X : gset Z) : Prop :=
  forall p, 0 <= p < 65536 -> port_used m p = bool_decide (p ∈ X).

Lemma bool_decide_union p (q : Z) (X : gset Z) :
  bool_decide (p ∈ {[q]} ∪ X) = bool_decide (p ∈ X) || (p =? q).
Proof.
  apply eq_true_iff_eq.
  rewrite orb_true_iff, !bool_decide_eq_true, Z.eqb_eq, elem_of_union, elem_of_singleton. tauto.
Qed.

Lemma port_used_wr m p q v :
  0 <= p -> 0 <= q ->
  port_used m⟦port_bitmap + q / 8 := v⟧ p =
  if p / 8 =? q / 8 then Z.testbit v (p mod 8) else port_used m p.
Proof.
  intros Hp Hq. unfold port_used. rewrite rd_wr.
  destruct (Z.eqb_spec (port_bitmap + p / 8) (port_bitmap + q / 8)), (Z.eqb_spec (p / 8) (q / 8));
    (reflexivity || lia).
Qed.

Lemma mark_port m p q :
  0 <= p -> 0 <= q ->
  port_used m⟦port_bitmap + q / 8 := Z.lor m⟦port_bitmap + q / 8⟧ (Z.shiftl 1 (q mod 8))⟧ p =
  port_used m p || (p =? q).
Proof.
  intros Hp Hq. rewrite port_used_wr, testbit_lor_1 by (lia || apply Z.mod_pos_bound; lia).
  unfold port_used. destruct (Z.eqb_spec (p / 8) (q / 8)) as [E|E].
  - rewrite E. f_equal. destruct (Z.eqb_spec (p mod 8) (q mod 8)), (Z.eqb_spec p q); word_lia || reflexivity.
  - destruct (Z.eqb_spec p q); [congruence|]. by rewrite orb_false_r.
Qed.

Lemma unmark_port m p q :
  0 <= p -> 0 <= q ->
  port_used m⟦port_bitmap + q / 8 := Z.land m⟦port_bitmap + q / 8⟧ (Z.lnot (Z.shiftl 1 (q mod 8)))⟧ p =
  port_used m p && negb (p =? q).
Proof.
  intros Hp Hq. rewrite port_used_wr, testbit_clear_1 by (lia || apply Z.mod_pos_bound; lia).
  unfold port_used. destruct (Z.eqb_spec (p / 8) (q / 8)) as [E|E].
  - rewrite E. f_equal. f_equal.
    destruct (Z.eqb_spec (p mod 8) (q mod 8)), (Z.eqb_spec p q); word_lia || reflexivity.
  - destruct (Z.eqb_spec p q); [congruence|]. by rewrite andb_true_r.
Qed.

Lemma port_bit m q :
  0 <= q -> (Z.land m⟦port_bitmap + q / 8⟧ (Z.shiftl 1 (q mod 8)) =? 0) = negb (port_used m q).
Proof. intros Hq. apply land_1_shiftl_eqb. apply Z.mod_pos_bound. lia. Qed.

Lemma set_port_spec m X q :
  ports_rep m X -> 0 <= q < 65536 ->
  exists m', set_port port_bitmap q m = (if bool_decide (q ∈ X) then 0 else q, m') /\
    ports_rep m' ({[q]} ∪ X).
Proof.
  intros HX Hq. unfold set_port. rewrite port_bit, negb_involutive, HX by lia.
  destruct (bool_decide (q ∈ X)) eqn:Eq.
  - exists m. split; [reflexivity|]. intros p Hp. rewrite bool_decide_union, HX by lia.
    destruct (Z.eqb_spec p q) as [->|]; [by rewrite Eq|by rewrite orb_false_r].
  - eexists. split; [reflexivity|]. intros p Hp. rewrite mark_port by lia.
    by rewrite bool_decide_union, HX.
Qed.

(** The search of one byte: ports [8 * i] and up. *)
Lemma get_port_byte_spec m i :
  0 <= i ->
  match get_port_byte m (port_bitmap + i) (8 * i) with
  | inl p => p = 8 * i + 8 /\ forall q, 8 * i <= q < p -> port_used m q = true
  | inr (p, m') => 8 * i <= p < 8 * i + 8 /\ port_used m p = false /\
      (forall q, 8 * i <= q < p -> port_used m q = true) /\
      m' = m⟦port_bitmap + p / 8 := Z.lor m⟦port_bitmap + p / 8⟧ (Z.shiftl 1 (p mod 8))⟧
  end.
Proof.
  intros Hi. unfold get_port_byte.
  break_upto_with
    (fun b p => p = 8 * i + b /\ forall q, 8 * i <= q < p -> port_used m q = true)
    (fun b (r : Z * mem) => r = (8 * i + b, m⟦port_bitmap + i := Z.lor m⟦port_bitmap + i⟧ (Z.shiftl 1 b)⟧) /\
       port_used m (8 * i + b) = false /\ forall q, 8 * i <= q < 8 * i + b -> port_used m q = true).
  - lia.
  - split; [lia|]. intros q Hq. lia.
  - intros b p Hb [-> Hall].
    assert ((8 * i + b) / 8 = i /\ (8 * i + b) mod 8 = b) as [Ed Em] by word_lia.
    pose proof (port_bit m (8 * i + b) ltac:(lia)) as Ep. rewrite Ed, Em in Ep. rewrite Ep.
    destruct (port_used m (8 * i + b)) eqn:Eu; cbn [negb].
    + split; [lia|]. intros q Hq. destruct (decide (q = 8 * i + b)) as [->|]; [done|]. apply Hall. lia.
    + split; [reflexivity|]. split; [done|exact Hall].
  - intros p [-> Hall]. split; [lia|exact Hall].
  - intros b [p m'] Hb (E & Eu & Hall). injection E as -> ->.
    assert ((8 * i + b) / 8 = i /\ (8 * i + b) mod 8 = b) as [-> ->] by word_lia.
    split; [lia|]. split; [exact Eu|]. split; [exact Hall|reflexivity].
Qed.

Lemma get_port_cases m :
  (exists p, 0 <= p < 65536 /\ port_used m p = false /\
    (forall q, 0 <= q < p -> port_used m q = true) /\
    get_port port_bitmap m =
      (p, m⟦port_bitmap + p / 8 := Z.lor m⟦port_bitmap + p / 8⟧ (Z.shiftl 1 (p mod 8))⟧)) \/
  ((forall q, 0 <= q < 65536 -> port_used m q = true) /\ get_port port_bitmap m = (0, m)).
Proof.
  unfold get_port.
  break_upto_with
    (fun i p => p = 8 * i /\ forall q, 0 <= q < p -> port_used m q = true)
    (fun i (r : Z * mem) => exists p, 8 * i <= p < 8 * i + 8 /\ port_used m p = false /\
       (forall q, 0 <= q < p -> port_used m q = true) /\
       r = (p, m⟦port_bitmap + p / 8 := Z.lor m⟦port_bitmap + p / 8⟧ (Z.shiftl 1 (p mod 8))⟧)).
  - done.
  - split; [lia|]. intros q Hq. lia.
  - intros i p Hi [-> Hall]. pose proof (get_port_byte_spec m i ltac:(lia)) as Hb.
    destruct (get_port_byte m (port_bitmap + i) (8 * i)) as [p|[p m']].
    + destruct Hb as [-> Hb]. split; [lia|]. intros q Hq.
      destruct (Z.ltb_spec q (8 * i)); [apply Hall; lia|apply Hb; lia].
    + destruct Hb as (Hp & Hu & Hb & ->). exists p. split; [exact Hp|]. split; [exact Hu|].
      split; [|reflexivity]. intros q Hq. destruct (Z.ltb_spec q (8 * i)); [apply Hall; lia|apply Hb; lia].
  - intros p [-> Hall]. right. change (65536 / 8) with 8192 in *. split; [|reflexivity].
    intros q Hq. apply Hall. lia.
  - intros i r Hi (p & Hp & Hu & Hall & ->). left. exists p. change (65536 / 8) with 8192 in Hi.
    split; [lia|]. split; [exact Hu|]. split; [exact Hall|].
    destruct (Z.leb_spec 65536 p); [lia|]. by rewrite u16_small by lia.
Qed.
End port_set.

(** The port bitmap is a set of ports: setting it up leaves exactly port 0 taken,
    [set_port] takes a free port and returns it and returns 0 for a taken one, [clean_port]
    frees one, and [get_port] takes the least free port, or returns 0 when all 65536 are
    taken. *)
Theorem ports_refine_set (bmp : Z) (m : mem) (X : gset Z) :
  ports_rep bmp m X ->
  ports_rep bmp (ethernet_port_setup bmp m) {[0]} /\
  (forall p, 0 <= p < 65536 -> exists m', set_port bmp p m = (if bool_decide (p ∈ X) then 0 else p, m') /\
    ports_rep bmp m' ({[p]} ∪ X)) /\
  (forall p, 0 <= p < 65536 -> exists m', clean_port bmp p m = (0, m') /\ ports_rep bmp m' (X ∖ {[p]})) /\
  exists p m', get_port bmp m = (p, m') /\
    ((0 <= p < 65536 /\ (p ∉ X) /\ (forall q, 0 <= q < p -> q ∈ X) /\ ports_rep bmp m' ({[p]} ∪ X)) \/
     (p = 0 /\ m' = m /\ forall q, 0 <= q < 65536 -> q ∈ X)).
Proof.
  intros HX. split; [|split; [|split]].
  - unfold ethernet_port_setup. set (m0 := memset m bmp 0 (2 * 4096)).
    assert (ports_rep bmp m0 ∅) as H0.
    { intros p Hp. unfold port_used, m0. rewrite rd_memset.
      assert (0 <= p / 8 < 8192) by word_lia.
      destruct (within_spec (bmp + p / 8) bmp (2 * 4096)); [|lia]. by rewrite Z.bits_0. }
    destruct (set_port_spec bmp m0 ∅ 0 H0 ltac:(lia)) as (m' & -> & Hm'). cbn [snd].
    by rewrite (right_id_L ∅ (∪)) in Hm'.
  - intros p Hp. by apply set_port_spec.
  - intros p Hp. eexists. split; [reflexivity|]. intros q Hq.
    rewrite unmark_port, HX by lia. apply eq_true_iff_eq.
    rewrite andb_true_iff, negb_true_iff, Z.eqb_neq, !bool_decide_eq_true.
    by rewrite elem_of_difference, elem_of_singleton.
  - destruct (get_port_cases bmp m) as [(p & Hp & Hu & Hall & E)|[Hall E]]; eexists _, _; (split; [exact E|]).
    + left. rewrite HX in Hu by lia. apply bool_decide_eq_false in Hu. split; [lia|]. split; [exact Hu|].
      split.
      * intros q Hq. specialize (Hall q Hq). rewrite HX in Hall by lia. by apply bool_decide_eq_true in Hall.
      * intros q Hq. rewrite mark_port by lia. by rewrite bool_decide_union, HX.
    + right. split; [reflexivity|]. split; [reflexivity|]. intros q Hq. specialize (Hall q Hq).
      rewrite HX in Hall by lia. by apply bool_decide_eq_true in Hall.
Qed.

Example ports_refine_set_witness :
  exists p m', get_port 0 (ethernet_port_setup 0 ∅) = (p, m') /\ p = 1.
Proof.
  assert (ports_rep 0 ∅ ∅) as H0 by (intros p Hp; unfold port_used; by rewrite rd_empty, Z.bits_0).
  destruct (ports_refine_set 0 ∅ ∅ H0) as [H1 _].
  destruct (ports_refine_set 0 _ _ H1) as (_ & _ & _ & p & m' & E & Hp).
  exists p, m'. split; [exact E|]. destruct Hp as [(Hp & Hn & Hall & _)|(_ & _ & Hall)].
  - destruct (decide (p = 1)); [done|]. destruct (decide (p = 0)) as [->|]; [by destruct Hn; apply elem_of_singleton|].
    specialize (Hall 1 ltac:(lia)). apply elem_of_singleton in Hall. lia.
  - specialize (Hall 1 ltac:(lia)). apply elem_of_singleton in Hall. lia.
Defined.
