(* ===== verification/Net.v ===== *)
(** * Net: the packet layers (kernel/driver/net: arp.c, ipv4.c, udp.c, tcp.c, ethernet.c)

    The packets are built in byte memory, in blocks of any [Allocator], the way the C code
    builds them through its packed structures, and handed to the driver, which records them
    on the [wire].  The driver of the card ([nic], its return value for a frame; [receive],
    which fills the descriptors) and what happens while the kernel sleeps ([sleep_]) are
    parameters: the cards' registers are not modelled.  MAC and IP addresses in the globals
    are lists of bytes. *)
From S2P Require Import Prelude KString Bytes Inet.

Definition ET_IPV4 : Z := 0x0800.
Definition ET_ARP : Z := 0x0806.
Definition ARP_OPC_REQUEST : Z := 1.
Definition ARP_OPC_REPLY : Z := 2.
Definition IP_PROTOCOL_ICMP : Z := 1.
Definition IP_PROTOCOL_TCP : Z := 6.
Definition IP_PROTOCOL_UDP : Z := 17.
Definition TCP_FIN : Z := 1.
Definition TCP_SYN : Z := 2.
Definition TCP_PSH : Z := 8.
Definition TCP_ACK : Z := 16.
Definition TCP_OPT_MSS : Z := 2.
Definition TCP_OPT_SACK : Z := 4.
Definition TCP_WINDOW_SIZE : Z := 4096.
Definition sizeof_ether_header : Z := 14.
Definition sizeof_arp_header : Z := 28.
Definition sizeof_ipv4_header : Z := 20.
Definition sizeof_udp_header : Z := 8.
Definition sizeof_tcp_header : Z := 20.
Definition everyone : list Z := [0xFF; 0xFF; 0xFF; 0xFF; 0xFF; 0xFF].

(** ** State *)

(** An entry of [arp_cache]. *)
Record arp_entry := Arp_entry {
  amac : list Z;
  aip : list Z
}.

Definition set_amac (v : list Z) (s : arp_entry) : arp_entry := Arp_entry v (aip s).
Definition set_aip (v : list Z) (s : arp_entry) : arp_entry := Arp_entry (amac s) v.

#[export] Instance zero_arp_entry : Zero arp_entry := Arp_entry [0; 0; 0; 0; 0; 0] [0; 0; 0; 0].

(** [struct tcp_connect]. *)
Record tcp_connection := Tcp_connect {
  c_src_ip : Z;
  c_dst_ip : Z;
  c_src_port : Z;
  c_dst_port : Z;
  c_seq : Z;
  c_ack : Z;
  c_pack : Z;
  c_flags : Z;
  c_status : Z;
  c_busy : Z
}.

Definition set_c_src_ip (v : Z) (s : tcp_connection) : tcp_connection := Tcp_connect v (c_dst_ip
  s) (c_src_port s) (c_dst_port s) (c_seq s) (c_ack s) (c_pack s) (c_flags s) (c_status s)
  (c_busy s).
Definition set_c_dst_ip (v : Z) (s : tcp_connection) : tcp_connection := Tcp_connect (c_src_ip
  s) v (c_src_port s) (c_dst_port s) (c_seq s) (c_ack s) (c_pack s) (c_flags s) (c_status s)
  (c_busy s).
Definition set_c_src_port (v : Z) (s : tcp_connection) : tcp_connection := Tcp_connect (c_src_ip
  s) (c_dst_ip s) v (c_dst_port s) (c_seq s) (c_ack s) (c_pack s) (c_flags s) (c_status s)
  (c_busy s).
Definition set_c_dst_port (v : Z) (s : tcp_connection) : tcp_connection := Tcp_connect (c_src_ip
  s) (c_dst_ip s) (c_src_port s) v (c_seq s) (c_ack s) (c_pack s) (c_flags s) (c_status s)
  (c_busy s).
Definition set_c_seq (v : Z) (s : tcp_connection) : tcp_connection := Tcp_connect (c_src_ip s)
  (c_dst_ip s) (c_src_port s) (c_dst_port s) v (c_ack s) (c_pack s) (c_flags s) (c_status s)
  (c_busy s).
Definition set_c_ack (v : Z) (s : tcp_connection) : tcp_connection := Tcp_connect (c_src_ip s)
  (c_dst_ip s) (c_src_port s) (c_dst_port s) (c_seq s) v (c_pack s) (c_flags s) (c_status s)
  (c_busy s).
Definition set_c_pack (v : Z) (s : tcp_connection) : tcp_connection := Tcp_connect (c_src_ip s)
  (c_dst_ip s) (c_src_port s) (c_dst_port s) (c_seq s) (c_ack s) v (c_flags s) (c_status s)
  (c_busy s).
Definition set_c_flags (v : Z) (s : tcp_connection) : tcp_connection := Tcp_connect (c_src_ip s)
  (c_dst_ip s) (c_src_port s) (c_dst_port s) (c_seq s) (c_ack s) (c_pack s) v (c_status s)
  (c_busy s).
Definition set_c_status (v : Z) (s : tcp_connection) : tcp_connection := Tcp_connect (c_src_ip
  s) (c_dst_ip s) (c_src_port s) (c_dst_port s) (c_seq s) (c_ack s) (c_pack s) (c_flags s) v
  (c_busy s).
Definition set_c_busy (v : Z) (s : tcp_connection) : tcp_connection := Tcp_connect (c_src_ip s)
  (c_dst_ip s) (c_src_port s) (c_dst_port s) (c_seq s) (c_ack s) (c_pack s) (c_flags s)
  (c_status s) v.

#[export] Instance zero_tcp_connection : Zero tcp_connection := Tcp_connect 0 0 0 0 0 0 0 0 0 0.

(** [ethernet_package_descriptor_t]. *)
Record package := Package {
  p_flag : Z;
  p_count : Z;
  p_buffersize : Z;
  p_buf : Z
}.

Definition set_p_flag (v : Z) (s : package) : package := Package v (p_count s) (p_buffersize s)
  (p_buf s).
Definition set_p_count (v : Z) (s : package) : package := Package (p_flag s) v (p_buffersize s)
  (p_buf s).
Definition set_p_buffersize (v : Z) (s : package) : package := Package (p_flag s) (p_count s) v
  (p_buf s).
Definition set_p_buf (v : Z) (s : package) : package := Package (p_flag s) (p_count s)
  (p_buffersize s) v.

#[export] Instance zero_package : Zero package := Package 0 0 0 0.

(** The globals of the network drivers, the memory, the heap and the frames sent. *)
Record net (H : Type) := Net {
  nheap : H;
  nmem : mem;
  device_mac : list Z;
  is_enabled : Z;
  is_online : Z;
  client_ip : list Z;
  server_ip : list Z;
  your_ip : list Z;
  router_ip : list Z;
  dns_ip : list Z;
  dhcp_ip : list Z;
  local_ip : list Z;
  arp_cache : gmap Z arp_entry;
  ipv4_count : Z;
  queue_conn : gmap Z tcp_connection;
  port_bitmap : Z;
  packege_desc_buffer : gmap Z package;
  wire : list (list Z)
}.
Arguments Net {H}.
Arguments nheap {H}.
Arguments nmem {H}.
Arguments device_mac {H}.
Arguments is_enabled {H}.
Arguments is_online {H}.
Arguments client_ip {H}.
Arguments server_ip {H}.
Arguments your_ip {H}.
Arguments router_ip {H}.
Arguments dns_ip {H}.
Arguments dhcp_ip {H}.
Arguments local_ip {H}.
Arguments arp_cache {H}.
Arguments ipv4_count {H}.
Arguments queue_conn {H}.
Arguments port_bitmap {H}.
Arguments packege_desc_buffer {H}.
Arguments wire {H}.

Section set_net.
Context {H : Type}.
Implicit Types (s : net H).

Definition set_nheap (v : H) (s : net H) : net H := Net v (nmem s) (device_mac s) (is_enabled s)
  (is_online s) (client_ip s) (server_ip s) (your_ip s) (router_ip s) (dns_ip s) (dhcp_ip s)
  (local_ip s) (arp_cache s) (ipv4_count s) (queue_conn s) (port_bitmap s) (packege_desc_buffer
  s) (wire s).
Definition set_nmem (v : mem) (s : net H) : net H := Net (nheap s) v (device_mac s) (is_enabled
  s) (is_online s) (client_ip s) (server_ip s) (your_ip s) (router_ip s) (dns_ip s) (dhcp_ip s)
  (local_ip s) (arp_cache s) (ipv4_count s) (queue_conn s) (port_bitmap s) (packege_desc_buffer
  s) (wire s).
Definition set_device_mac (v : list Z) (s : net H) : net H := Net (nheap s) (nmem s) v
  (is_enabled s) (is_online s) (client_ip s) (server_ip s) (your_ip s) (router_ip s) (dns_ip s)
  (dhcp_ip s) (local_ip s) (arp_cache s) (ipv4_count s) (queue_conn s) (port_bitmap s)
  (packege_desc_buffer s) (wire s).
Definition set_is_enabled (v : Z) (s : net H) : net H := Net (nheap s) (nmem s) (device_mac s) v
  (is_online s) (client_ip s) (server_ip s) (your_ip s) (router_ip s) (dns_ip s) (dhcp_ip s)
  (local_ip s) (arp_cache s) (ipv4_count s) (queue_conn s) (port_bitmap s) (packege_desc_buffer
  s) (wire s).
Definition set_is_online (v : Z) (s : net H) : net H := Net (nheap s) (nmem s) (device_mac s)
  (is_enabled s) v (client_ip s) (server_ip s) (your_ip s) (router_ip s) (dns_ip s) (dhcp_ip s)
  (local_ip s) (arp_cache s) (ipv4_count s) (queue_conn s) (port_bitmap s) (packege_desc_buffer
  s) (wire s).
Definition set_client_ip (v : list Z) (s : net H) : net H := Net (nheap s) (nmem s) (device_mac
  s) (is_enabled s) (is_online s) v (server_ip s) (your_ip s) (router_ip s) (dns_ip s) (dhcp_ip
  s) (local_ip s) (arp_cache s) (ipv4_count s) (queue_conn s) (port_bitmap s)
  (packege_desc_buffer s) (wire s).
Definition set_server_ip (v : list Z) (s : net H) : net H := Net (nheap s) (nmem s) (device_mac
  s) (is_enabled s) (is_online s) (client_ip s) v (your_ip s) (router_ip s) (dns_ip s) (dhcp_ip
  s) (local_ip s) (arp_cache s) (ipv4_count s) (queue_conn s) (port_bitmap s)
  (packege_desc_buffer s) (wire s).
Definition set_your_ip (v : list Z) (s : net H) : net H := Net (nheap s) (nmem s) (device_mac s)
  (is_enabled s) (is_online s) (client_ip s) (server_ip s) v (router_ip s) (dns_ip s) (dhcp_ip
  s) (local_ip s) (arp_cache s) (ipv4_count s) (queue_conn s) (port_bitmap s)
  (packege_desc_buffer s) (wire s).
Definition set_router_ip (v : list Z) (s : net H) : net H := Net (nheap s) (nmem s) (device_mac
  s) (is_enabled s) (is_online s) (client_ip s) (server_ip s) (your_ip s) v (dns_ip s) (dhcp_ip
  s) (local_ip s) (arp_cache s) (ipv4_count s) (queue_conn s) (port_bitmap s)
  (packege_desc_buffer s) (wire s).
Definition set_dns_ip (v : list Z) (s : net H) : net H := Net (nheap s) (nmem s) (device_mac s)
  (is_enabled s) (is_online s) (client_ip s) (server_ip s) (your_ip s) (router_ip s) v (dhcp_ip
  s) (local_ip s) (arp_cache s) (ipv4_count s) (queue_conn s) (port_bitmap s)
  (packege_desc_buffer s) (wire s).
Definition set_dhcp_ip (v : list Z) (s : net H) : net H := Net (nheap s) (nmem s) (device_mac s)
  (is_enabled s) (is_online s) (client_ip s) (server_ip s) (your_ip s) (router_ip s) (dns_ip s)
  v (local_ip s) (arp_cache s) (ipv4_count s) (queue_conn s) (port_bitmap s)
  (packege_desc_buffer s) (wire s).
Definition set_local_ip (v : list Z) (s : net H) : net H := Net (nheap s) (nmem s) (device_mac
  s) (is_enabled s) (is_online s) (client_ip s) (server_ip s) (your_ip s) (router_ip s) (dns_ip
  s) (dhcp_ip s) v (arp_cache s) (ipv4_count s) (queue_conn s) (port_bitmap s)
  (packege_desc_buffer s) (wire s).
Definition set_arp_cache (v : gmap Z arp_entry) (s : net H) : net H := Net (nheap s) (nmem s)
  (device_mac s) (is_enabled s) (is_online s) (client_ip s) (server_ip s) (your_ip s) (router_ip
  s) (dns_ip s) (dhcp_ip s) (local_ip s) v (ipv4_count s) (queue_conn s) (port_bitmap s)
  (packege_desc_buffer s) (wire s).
Definition set_ipv4_count (v : Z) (s : net H) : net H := Net (nheap s) (nmem s) (device_mac s)
  (is_enabled s) (is_online s) (client_ip s) (server_ip s) (your_ip s) (router_ip s) (dns_ip s)
  (dhcp_ip s) (local_ip s) (arp_cache s) v (queue_conn s) (port_bitmap s) (packege_desc_buffer
  s) (wire s).
Definition set_queue_conn (v : gmap Z tcp_connection) (s : net H) : net H := Net (nheap s) (nmem
  s) (device_mac s) (is_enabled s) (is_online s) (client_ip s) (server_ip s) (your_ip s)
  (router_ip s) (dns_ip s) (dhcp_ip s) (local_ip s) (arp_cache s) (ipv4_count s) v (port_bitmap
  s) (packege_desc_buffer s) (wire s).
Definition set_port_bitmap (v : Z) (s : net H) : net H := Net (nheap s) (nmem s) (device_mac s)
  (is_enabled s) (is_online s) (client_ip s) (server_ip s) (your_ip s) (router_ip s) (dns_ip s)
  (dhcp_ip s) (local_ip s) (arp_cache s) (ipv4_count s) (queue_conn s) v (packege_desc_buffer s)
  (wire s).
Definition set_packege_desc_buffer (v : gmap Z package) (s : net H) : net H := Net (nheap s)
  (nmem s) (device_mac s) (is_enabled s) (is_online s) (client_ip s) (server_ip s) (your_ip s)
  (router_ip s) (dns_ip s) (dhcp_ip s) (local_ip s) (arp_cache s) (ipv4_count s) (queue_conn s)
  (port_bitmap s) v (wire s).
Definition set_wire (v : list (list Z)) (s : net H) : net H := Net (nheap s) (nmem s)
  (device_mac s) (is_enabled s) (is_online s) (client_ip s) (server_ip s) (your_ip s) (router_ip
  s) (dns_ip s) (dhcp_ip s) (local_ip s) (arp_cache s) (ipv4_count s) (queue_conn s)
  (port_bitmap s) (packege_desc_buffer s) v.
End set_net.

Section net.
Context {H : Type} `{Allocator H}.
(** The card and the time. *)
Context (nic : list Z -> Z) (receive : net H -> outcome (net H)) (sleep_ : Z -> net H -> net H).
Implicit Types (s : net H) (m : mem) (a : Z).

Definition net_malloc (n : Z) s : outcome (Z * net H) :=
  '(p, h) ← malloc n (nheap s);
  Ret (p, set_nheap h s).

Definition net_free (p : Z) s : outcome (net H) :=
  h ← free p (nheap s);
  Ret (set_nheap h s).

Definition with_mem (f : mem -> mem) s : net H := set_nmem (f (nmem s)) s.

(** ** The device (ethernet.c) *)

(** [fillMac] and [fillIP] from an array to memory. *)
Definition fillMac m (to : Z) (from : list Z) : mem :=
  for_upto 0 6 (fun i m => m⟦to + i := nth (Z.to_nat i) from 0⟧) m.

Definition fillIP m (to : Z) (from : list Z) : mem :=
  for_upto 0 4 (fun i m => m⟦to + i := nth (Z.to_nat i) from 0⟧) m.

Definition register_ethernet_device (mac : list Z) s : net H :=
  s |> set_is_enabled 1 |> set_device_mac (take 6 mac).

Definition ethernet_set_link_status (v : Z) s : net H := set_is_online (u8 v) s.

(** The descriptors the driver left, at [packege_desc_buffer]; 0 without a device. *)
Definition get_ethernet_package s : outcome (bool * net H) :=
  if is_enabled s =? 0 then Ret (false, s)
  else s ← receive s; Ret (true, s).

Definition send_ethernet_package (buf size : Z) s : Z * net H :=
  if is_enabled s =? 0 then (0, s)
  else
    let f := bytes (nmem s) buf (u32 size) in
    (nic f, set_wire (wire s ++ [f]) s).

(** ** Address resolution (arp.c) *)

(** [a[0] == b[0] && ... && a[n-1] == b[n-1]] *)
Definition same (n : nat) (l1 l2 : list Z) : bool :=
  forallb (fun i => nth i l1 0 =? nth i l2 0) (seq 0 n).

Definition arp_save_address (ip mac : list Z) s : Z * net H :=
  match for_break_upto 0 1024 (fun i (_ : unit) =>
          let e := rd (arp_cache s) i in
          if nth 0 (aip e) 0 =? 0 then inl tt
          else if same 4 ip (aip e) && same 6 mac (amac e) then inr 0 else inl tt) tt with
  | inr r => (r, s)
  | inl _ =>
      match for_break_upto 0 1024 (fun i (_ : unit) =>
              let ip := aip (rd (arp_cache s) i) in
              if nth 0 ip 0 + nth 1 ip 0 + nth 2 ip 0 + nth 3 ip 0 =? 0 then inr i else inl tt) tt with
      | inr i => (1, set_arp_cache (wr (arp_cache s) i (Arp_entry (take 6 mac) (take 4 ip))) s)
      | inl _ => (1, s)
      end
  end.

Definition arp_cache_get_address (ip : list Z) s : option (list Z) :=
  match for_break_upto 0 1024 (fun i (_ : unit) =>
          let e := rd (arp_cache s) i in
          if same 4 ip (aip e) then inr (amac e) else inl tt) tt with
  | inr mac => Some mac
  | inl _ => None
  end.

(** The packet of [arp_request] and [arp_replay] at [addr]: they differ in the operation and
    in the addresses of the receiver. *)
Definition arp_packet (op : Z) (mac dest_mac ip : list Z) (addr : Z) s : net H :=
  let arp := addr + sizeof_ether_header in
  with_mem (fun m =>
    let m := fillMac m addr mac in
    let m := fillMac m (addr + 6) (device_mac s) in
    let m := st16 m (addr + 12) (htons ET_ARP) in
    let m := st16 m arp (htons 0x0001) in
    let m := st16 m (arp + 2) (htons ET_IPV4) in
    let m := m⟦arp + 4 := 6⟧ in
    let m := m⟦arp + 5 := 4⟧ in
    let m := st16 m (arp + 6) (htons op) in
    let m := fillMac m (arp + 8) (device_mac s) in
    let m := fillIP m (arp + 14) (your_ip s) in
    let m := fillMac m (arp + 18) dest_mac in
    fillIP m (arp + 24) ip) s.

(** [free(arp)]: not the address [malloc] returned, but one in its first page. *)
Definition arp_request (ip mac : list Z) s : outcome (net H) :=
  '(addr, s) ← net_malloc (sizeof_arp_header + sizeof_ether_header) s;
  let s := arp_packet ARP_OPC_REQUEST mac [0; 0; 0; 0; 0; 0] ip addr s in
  let '(_, s) := send_ethernet_package addr (sizeof_arp_header + sizeof_ether_header) s in
  net_free (addr + sizeof_ether_header) s.

Definition arp_replay (ip mac : list Z) s : outcome (net H) :=
  '(addr, s) ← net_malloc (sizeof_arp_header + sizeof_ether_header) s;
  let s := arp_packet ARP_OPC_REPLY mac mac ip addr s in
  let '(_, s) := send_ethernet_package addr (sizeof_arp_header + sizeof_ether_header) s in
  net_free (addr + sizeof_ether_header) s.

(** [while (n > 0)] with [n] never decremented: only the router's address ends it. *)
Fixpoint get_hardwere_ethernet (fuel : nat) (ip : Z) s : outcome (Z * list Z * net H) :=
  match fuel with
  | O => NoFuel
  | S fuel =>
      match arp_cache_get_address (router_ip s) s with
      | Some mac => Ret (0, mac, s)
      | None =>
          s ← arp_request (router_ip s) everyone s;
          get_hardwere_ethernet fuel ip (sleep_ 1000 s)
      end
  end.

Definition init_arp s : outcome (net H) :=
  s ← arp_request (router_ip s) everyone (set_arp_cache ∅ s);
  Ret (sleep_ 1000 s).

(** ** IP (ipv4.c) *)
Definition ipv4_header (protocol src_address dst_address length : Z) (hdr : Z) (count : Z) m : mem :=
  let len := u32 (length + sizeof_ipv4_header) in
  let m := m⟦hdr := Z.lor (Z.land m⟦hdr⟧ 0xF0) 5⟧ in
  let m := m⟦hdr := Z.lor (Z.land m⟦hdr⟧ 0x0F) (Z.shiftl 4 4)⟧ in
  let m := m⟦hdr + 1 := 0⟧ in
  let m := st16 m (hdr + 2) (htons (u16 len)) in
  let m := st16 m (hdr + 4) (htons (u16 count)) in
  let m := st16 m (hdr + 6) (htons 0x4000) in
  let m := m⟦hdr + 8 := 64⟧ in
  let m := m⟦hdr + 9 := protocol⟧ in
  let m := st16 m (hdr + 10) 0 in
  let m := st32 m (hdr + 12) src_address in
  let m := st32 m (hdr + 16) dst_address in
  let checksum := net_checksum m 0 0 hdr (hdr + sizeof_ipv4_header) in
  st16 m (hdr + 10) (htons checksum).

Definition ether_header (dst src : list Z) (type : Z) (eh : Z) m : mem :=
  let m := fillMac m eh dst in
  let m := fillMac m (eh + 6) src in
  st16 m (eh + 12) (htons type).

Definition ipv4_send (fuel : nat) (buf protocol src_address dst_address length : Z) s :
    outcome (Z * net H) :=
  '(r, mac, s) ←
    (if dst_address =? 0xFFFFFFFF then Ret (0, everyone, s)
     else get_hardwere_ethernet fuel dst_address s);
  if negb (r =? 0) then Ret (0, s)
  else
    let s := with_mem (ether_header mac (device_mac s) ET_IPV4 buf) s in
    let s := with_mem (ipv4_header protocol src_address dst_address length
                         (buf + sizeof_ether_header) (ipv4_count s)) s in
    let s := set_ipv4_count (u32 (ipv4_count s + 1)) s in
    let '(r, s) := send_ethernet_package buf (length + sizeof_ipv4_header + sizeof_ether_header) s in
    Ret (if r =? 0 then 0 else 1, s).

(** ** UDP (udp.c) *)

(** The datagram [udp_send] writes at [udp]. *)
Definition udp_datagram (src_port dst_port data length udp : Z) m : mem :=
  let m := st16 m (udp + 4) (htons (u16 (sizeof_udp_header + length))) in
  let m := st16 m (udp + 2) (htons dst_port) in
  let m := st16 m udp (htons src_port) in
  let m := st16 m (udp + 6) 0 in
  if negb (data =? 0) || (0 <? length) then memcpy m (udp + sizeof_udp_header) data length else m.

Definition udp_send (fuel : nat) (src_address dst_address src_port dst_port data length : Z) s :
    outcome (Z * net H) :=
  let len := u32 (sizeof_ether_header + sizeof_ipv4_header + sizeof_udp_header + length) in
  '(buf, s) ← net_malloc len s;
  let udp := buf + sizeof_ipv4_header + sizeof_ether_header in
  let s := with_mem (udp_datagram src_port dst_port data length udp) s in
  let len := u32 (sizeof_udp_header + length) in
  '(_, s) ← ipv4_send fuel buf IP_PROTOCOL_UDP src_address dst_address len s;
  s ← net_free buf s;
  Ret (s32 length, s).

(** The descriptor of a UDP packet for [port], among the first [count]. *)
Definition udp_find (port : Z) s : unit + Z :=
  for_break_upto 0 (s32 (p_count (rd (packege_desc_buffer s) 0))) (fun i (_ : unit) =>
    let eh := p_buf (rd (packege_desc_buffer s) i) in
    let hdr := eh + sizeof_ether_header in
    let m := nmem s in
    if (htons (ld16 m (eh + 12)) =? ET_IPV4) && (m⟦hdr + 9⟧ =? IP_PROTOCOL_UDP)
       && (htons (ld16 m (hdr + sizeof_ipv4_header + 2)) =? port)
    then inr eh else inl tt) tt.

(** [swait k]: at poll [k] the ten seconds have not run out. *)
Fixpoint udp_poll (fuel : nat) (swait : nat -> bool) (k : nat) (port : Z) s : outcome (option Z * net H) :=
  match fuel with
  | O => NoFuel
  | S fuel =>
      '(ok, s) ← get_ethernet_package s;
      if negb ok then Undef
      else if negb (p_flag (rd (packege_desc_buffer s) 0) =? 0) then
        if swait k then udp_poll fuel swait (S k) port s else Ret (None, s)
      else
        match udp_find port s with
        | inr eh => Ret (Some eh, s)
        | inl _ => if swait k then udp_poll fuel swait (S k) port s else Ret (None, s)
        end
  end.

Definition udp_receive (fuel : nat) (swait : nat -> bool) (data length port : Z) s :
    outcome (Z * net H) :=
  '(r, s) ← udp_poll fuel swait 0 port s;
  match r with
  | None => Ret (0, s)
  | Some eh =>
      let udp := eh + sizeof_ether_header + sizeof_ipv4_header in
      let payload := udp + sizeof_udp_header in
      let ulen := htons (ld16 (nmem s) (udp + 4)) in
      let len := if length <? ulen then s32 length else ulen in
      Ret (len, with_mem (fun m => memcpy m data payload len) s)
  end.

(** ** TCP segments (tcp.c) *)

(** The header and its options at [tcp]; [flags & TCP_SYN || 1] always holds. *)
Definition tcp_header (src_port dst_port seq ack flags : Z) (tcp : Z) m : mem :=
  let m := st16 m (tcp + 2) (htons dst_port) in
  let m := st16 m tcp (htons src_port) in
  let m := st32 m (tcp + 4) (htonl seq) in
  let m := st32 m (tcp + 8) (htonl ack) in
  let m := m⟦tcp + 12 := 0⟧ in
  let m := m⟦tcp + 13 := flags⟧ in
  let m := st16 m (tcp + 14) (htons TCP_WINDOW_SIZE) in
  let m := st16 m (tcp + 16) (htons 0) in
  let m := st16 m (tcp + 18) (htons 0) in
  let options := tcp + sizeof_tcp_header in
  let m := m⟦options := TCP_OPT_MSS⟧ in
  let m := m⟦options + 1 := 4⟧ in
  let m := st16 m (options + 2) (htons 1460) in
  let options := options + 4 in
  let m := m⟦options := TCP_OPT_SACK⟧ in
  m⟦options + 1 := 2⟧.

(** [while ((options - start) & 3) *options++ = 0;] *)
Fixpoint pad_options (fuel : nat) (start options : Z) m : Z * mem :=
  match fuel with
  | O => (options, m)
  | S fuel =>
      if Z.land (options - start) 3 =? 0 then (options, m)
      else pad_options fuel start (options + 1) m⟦options := 0⟧
  end.

Definition pseudo_header (phdr src dst protocol len : Z) m : mem :=
  let m := st32 m phdr src in
  let m := st32 m (phdr + 4) dst in
  let m := m⟦phdr + 8 := 0⟧ in
  let m := m⟦phdr + 9 := protocol⟧ in
  st16 m (phdr + 10) (htons (u16 len)).

(** The whole segment at [tcp], with the pseudo header in the local at [phdr]. *)
Definition tcp_segment (phdr src_address dst_address src_port dst_port seq ack flags data length : Z)
    (tcp : Z) m : Z * mem :=
  let m := tcp_header src_port dst_port seq ack flags tcp m in
  let '(options, m) := pad_options 3 tcp (tcp + sizeof_tcp_header + 6) m in
  let hlen := options - tcp in
  let m := m⟦tcp + 12 := u8 (Z.shiftl hlen 2)⟧ in
  let m := if negb (data =? 0) || (0 <? length) then memcpy m options data length else m in
  let end_ := tcp + (hlen + length) in
  let m := pseudo_header phdr src_address dst_address IP_PROTOCOL_TCP (end_ - tcp) m in
  let checksum := net_checksum m phdr 12 tcp end_ in
  (hlen, st16 m (tcp + 16) (htons checksum)).

Definition tcp_send (fuel : nat) (phdr : Z)
    (src_address dst_address src_port dst_port seq ack flags data length : Z) s : outcome (Z * net H) :=
  let len := u32 (sizeof_ether_header + sizeof_ipv4_header + sizeof_tcp_header + length) in
  '(buf, s) ← net_malloc (u32 (len + 40)) s;
  let tcp := buf + sizeof_ipv4_header + sizeof_ether_header in
  let '(hlen, m) := tcp_segment phdr src_address dst_address src_port dst_port seq ack flags
                      data length tcp (nmem s) in
  let s := set_nmem m s in
  let len := u32 (hlen + length) in
  '(_, s) ← ipv4_send fuel buf IP_PROTOCOL_TCP src_address dst_address len s;
  s ← net_free buf s;
  Ret (s32 length, s).
End net.

(** ** Memory lemmas *)
Section memory_facts.
Implicit Types (m : mem) (a b : Z) (n : nat).

Lemma rd_st n m a v b :
  (st n m a v)⟦b⟧ = if within b a (Z.of_nat n) then v / 256 ^ (b - a) mod 256 else m⟦b⟧.
Proof.
  destruct (within_spec b a (Z.of_nat n)).
  - replace b with (a + (b - a)) at 1 by lia. by rewrite rd_st_in by lia.
  - by rewrite rd_st_out by lia.
Qed.

Lemma rd_fillMac m to from b :
  (fillMac m to from)⟦b⟧ = if within b to 6 then nth (Z.to_nat (b - to)) from 0 else m⟦b⟧.
Proof.
  unfold fillMac.
  upto_with (fun k (x : mem) => x⟦b⟧ = if within b to k then nth (Z.to_nat (b - to)) from 0 else m⟦b⟧).
  - lia.
  - case_within; [lia|done].
  - intros k x Hk E. rewrite rd_wr, E. case_within; subst; try lia; try done. do 2 f_equal. lia.
  - done.
Qed.

Lemma rd_fillIP m to from b :
  (fillIP m to from)⟦b⟧ = if within b to 4 then nth (Z.to_nat (b - to)) from 0 else m⟦b⟧.
Proof.
  unfold fillIP.
  upto_with (fun k (x : mem) => x⟦b⟧ = if within b to k then nth (Z.to_nat (b - to)) from 0 else m⟦b⟧).
  - lia.
  - case_within; [lia|done].
  - intros k x Hk E. rewrite rd_wr, E. case_within; subst; try lia; try done. do 2 f_equal. lia.
  - done.
Qed.

Lemma rd_fillMac_out m to from b : ~ to <= b < to + 6 -> (fillMac m to from)⟦b⟧ = m⟦b⟧.
Proof. intros. rewrite rd_fillMac. by destruct (within_spec b to 6). Qed.

Lemma rd_fillIP_out m to from b : ~ to <= b < to + 4 -> (fillIP m to from)⟦b⟧ = m⟦b⟧.
Proof. intros. rewrite rd_fillIP. by destruct (within_spec b to 4). Qed.

Definition bytes_list (l : list Z) : Prop := Forall (fun b => 0 <= b < 256) l.

Lemma bytes_list_nth l i : bytes_list l -> 0 <= nth i l 0 < 256.
Proof.
  intros Hl. destruct (nth_in_or_default i l 0) as [Hin| ->]; [|lia].
  apply list_elem_of_In in Hin. unfold bytes_list in Hl. rewrite Forall_forall in Hl. by apply Hl.
Qed.

Lemma bytes_in_fillMac m to from : bytes_in m -> bytes_list from -> bytes_in (fillMac m to from).
Proof. intros Hm Hl b. rewrite rd_fillMac. case_within; [by apply bytes_list_nth|apply Hm]. Qed.

Lemma bytes_in_fillIP m to from : bytes_in m -> bytes_list from -> bytes_in (fillIP m to from).
Proof. intros Hm Hl b. rewrite rd_fillIP. case_within; [by apply bytes_list_nth|apply Hm]. Qed.

Lemma bytes_in_memcpy m s1 s2 (n : Z) : bytes_in m -> bytes_in (memcpy m s1 s2 n).
Proof.
  intros Hm. unfold memcpy. destruct (Z.leb_spec 0 n).
  - upto_with (fun (_ : Z) (x : mem) => bytes_in x); try done.
    intros k x Hk Hx. apply bytes_in_wr; [done|apply Hx].
  - unfold for_upto. by replace (Z.to_nat (n - 0)) with O by lia.
Qed.

Lemma ld_fillMac_ne n m to from a :
  a + Z.of_nat n <= to \/ to + 6 <= a -> ld n (fillMac m to from) a = ld n m a.
Proof. intros. apply ld_ext. intros b Hb. apply rd_fillMac_out. lia. Qed.

Lemma ld_fillIP_ne n m to from a :
  a + Z.of_nat n <= to \/ to + 4 <= a -> ld n (fillIP m to from) a = ld n m a.
Proof. intros. apply ld_ext. intros b Hb. apply rd_fillIP_out. lia. Qed.

(** The bytes a list of 6 was filled from. *)
Lemma bytes_fillMac m to from : length from = 6%nat -> bytes (fillMac m to from) to 6 = from.
Proof.
  intros Hl. apply list_eq. intros i. destruct (decide (i < 6)%nat) as [Hi|Hi].
  - rewrite lookup_bytes by lia. rewrite rd_fillMac.
    destruct (within_spec (to + Z.of_nat i) to 6); [|lia].
    replace (Z.to_nat (to + Z.of_nat i - to)) with i by lia.
    destruct (lookup_lt_is_Some_2 from i) as [x Hx]; [lia|]. rewrite Hx. f_equal.
    by apply nth_lookup_Some with (d := 0) in Hx.
  - rewrite !lookup_ge_None_2; [done|lia|rewrite length_bytes; lia].
Qed.

(** [holds m a l]: the bytes [l] stand at [a]. *)
Definition holds m a (l : list Z) : Prop := bytes m a (Z.of_nat (length l)) = l.

Lemma holds_bytes m a (n : Z) : holds m a (bytes m a n).
Proof.
  unfold holds. rewrite length_bytes. unfold bytes. do 2 f_equal. lia.
Qed.

Lemma holds_rd m m' a a' (n : Z) :
  holds m' a' (bytes m a n) -> forall i, 0 <= i < n -> m'⟦a' + i⟧ = m⟦a + i⟧.
Proof.
  unfold holds. rewrite length_bytes. intros E i Hi.
  assert (bytes m' a' n !! Z.to_nat i = bytes m a n !! Z.to_nat i) as El.
  { rewrite <- E. f_equal. unfold bytes. do 2 f_equal. lia. }
  rewrite !lookup_bytes in El by lia. injection El as El. by rewrite !Z2Nat.id in El by lia.
Qed.

Lemma ld_agree n m m' a a' :
  (forall i, 0 <= i < Z.of_nat n -> m'⟦a' + i⟧ = m⟦a + i⟧) -> ld n m' a' = ld n m a.
Proof.
  revert a a'. induction n as [|n IH]; intros a a' E; [done|]. cbn [ld].
  pose proof (E 0 ltac:(lia)) as E0. rewrite !Z.add_0_r in E0. rewrite E0. f_equal. f_equal.
  apply IH. intros i Hi. replace (a' + 1 + i) with (a' + (i + 1)) by lia.
  replace (a + 1 + i) with (a + (i + 1)) by lia. apply E. lia.
Qed.
End memory_facts.

(** [pkt] reads a field through the writes of a packet; [pkt_bytes] shows that they were
    writes of bytes. *)
Ltac pkt :=
  repeat first
    [ rewrite ld_st_eq | rewrite rd_wr_eq
    | rewrite ld_st_ne by lia | rewrite ld_wr_ne by lia
    | rewrite ld_fillMac_ne by lia | rewrite ld_fillIP_ne by lia
    | rewrite rd_st_out by lia | rewrite rd_wr_ne by lia
    | rewrite rd_fillMac_out by lia | rewrite rd_fillIP_out by lia ].

Ltac pkt_bytes :=
  repeat first [ apply bytes_in_st | apply bytes_in_wr; [|lia] | apply bytes_in_fillMac; [|done]
               | apply bytes_in_fillIP; [|done] | apply bytes_in_memcpy | done ].

(** ** Frames as a receiver reads them *)

(** An IP packet in an Ethernet frame at [a], with [len] bytes behind the IP header. *)
Record ip_frame_at (m : mem) (a : Z) (dmac smac : list Z) (proto src dst len : Z) : Prop := {
  if_dmac : bytes m a 6 = dmac;
  if_smac : bytes m (a + 6) 6 = smac;
  if_type : htons (ld16 m (a + 12)) = ET_IPV4;
  if_version : m⟦a + 14⟧ = 0x45;
  if_length : htons (ld16 m (a + 16)) = len + sizeof_ipv4_header;
  if_protocol : m⟦a + 23⟧ = proto;
  if_source : ld32 m (a + 26) = src;
  if_destination : ld32 m (a + 30) = dst;
  if_checksum : net_checksum m 0 0 (a + 14) (a + 34) = 0
}.

Section frames.
Implicit Types (m : mem) (a buf : Z).

Lemma ip_frame_agree m m' a a' dmac smac proto src dst len :
  bytes_in m -> bytes_in m' -> (forall i, 0 <= i < 34 -> m'⟦a' + i⟧ = m⟦a + i⟧) ->
  ip_frame_at m a dmac smac proto src dst len -> ip_frame_at m' a' dmac smac proto src dst len.
Proof.
  intros Hm Hm' E [H1 H2 H3 H4 H5 H6 H7 H8 H9].
  assert (forall o (n : nat), 0 <= o -> o + Z.of_nat n <= 34 -> ld n m' (a' + o) = ld n m (a + o)) as El.
  { intros o n Ho Hn. apply ld_agree. intros i Hi. rewrite <- !Z.add_assoc. apply E. lia. }
  assert (forall o, 0 <= o -> o + 6 <= 34 -> bytes m' (a' + o) 6 = bytes m (a + o) 6) as Eb.
  { intros o Ho Hn. unfold bytes. apply list_fmap_ext. intros i x Hx.
    apply lookup_seq in Hx as [-> Hi]. rewrite <- !Z.add_assoc. apply E. lia. }
  constructor.
  - pose proof (Eb 0 ltac:(lia) ltac:(lia)) as E0. by rewrite !Z.add_0_r in E0; rewrite E0.
  - by rewrite Eb by lia.
  - by rewrite El by lia.
  - by rewrite E by lia.
  - by rewrite El by lia.
  - by rewrite E by lia.
  - by rewrite El by lia.
  - by rewrite El by lia.
  - replace (a' + 34) with (a' + 14 + 20) by lia. replace (a + 34) with (a + 14 + 20) in H9 by lia.
    rewrite (net_checksum_agree m m' 0 0 0 (a + 14) (a' + 14) 20); try done; try lia.
    intros i Hi. rewrite <- !Z.add_assoc. apply E. lia.
Qed.

Lemma ihl_ver b : Z.lor (Z.land (Z.lor (Z.land b 0xF0) 5) 0x0F) (Z.shiftl 4 4) = 0x45.
Proof.
  rewrite Z.land_lor_distr_l, <- Z.land_assoc. change (Z.land 0xF0 0x0F) with 0.
  by rewrite Z.land_0_r.
Qed.

Lemma htons_u16_range v : 0 <= htons v < 65536.
Proof. apply (htons_range v). Qed.

Lemma ipv4_header_out protocol src dst len hdr count m b :
  ~ hdr <= b < hdr + 20 -> (ipv4_header protocol src dst len hdr count m)⟦b⟧ = m⟦b⟧.
Proof.
  intros Hb. unfold ipv4_header. rewrite rd_st_out by lia. generalize (net_checksum). intros _.
  pkt. done.
Qed.

(** The header behind the Ethernet header, and its checksum. *)
Lemma ipv4_header_spec protocol src dst len hdr count m :
  bytes_in m -> 0 <= protocol < 256 -> 0 <= src < 2 ^ 32 -> 0 <= dst < 2 ^ 32 ->
  0 <= len < 2 ^ 16 - 20 ->
  let m' := ipv4_header protocol src dst len hdr count m in
  bytes_in m' /\ m'⟦hdr⟧ = 0x45 /\ htons (ld16 m' (hdr + 2)) = len + 20 /\ m'⟦hdr + 9⟧ = protocol /\
  ld32 m' (hdr + 12) = src /\ ld32 m' (hdr + 16) = dst /\ net_checksum m' 0 0 hdr (hdr + 20) = 0.
Proof.
  intros Hm Hp Hs Hd Hl. unfold ipv4_header. rewrite rd_wr_eq, ihl_ver.
  set (h0 := Z.lor (Z.land m⟦hdr⟧ 240) 5).
  assert (0 <= h0 < 256) as Hh0.
  { subst h0. change 5 with (5 mod 2 ^ 8). change 240 with (Z.land 240 (Z.ones 8)).
    rewrite Z.land_assoc, Z.land_ones by lia. rewrite <- (Z.land_ones _ 8), <- (Z.land_ones 5 8) by lia.
    rewrite <- Z.land_lor_distr_l, Z.land_ones by lia. apply Z.mod_pos_bound. lia. }
  match goal with |- context [net_checksum ?x 0 0 hdr _] => set (m1 := x) end.
  assert (bytes_in m1) as Hm1 by (subst m1; unfold sizeof_ipv4_header; pkt_bytes).
  destruct (checksum_filled m1 0 0 hdr 20 10) as [Hc _]; try lia; try done.
  { subst m1. pkt. done. }
  cbv zeta. change (hdr + sizeof_ipv4_header) with (hdr + 20).
  set (c := htons (net_checksum m1 0 0 hdr (hdr + 20))) in *.
  split; [by apply bytes_in_st|]. rewrite !rd_st_out by lia.
  split; [subst m1; pkt; reflexivity|].
  split.
  { subst m1. pkt. change (256 ^ Z.of_nat 2) with (2 ^ 16). rewrite Z.mod_small by apply htons_range.
    unfold sizeof_ipv4_header. rewrite u32_small, u16_small by lia. by rewrite htons_invol by lia. }
  split; [subst m1; pkt; reflexivity|].
  split; [subst m1; pkt; rewrite Z.mod_small by (change (256 ^ Z.of_nat 4) with (2 ^ 32); lia); reflexivity|].
  split; [subst m1; pkt; rewrite Z.mod_small by (change (256 ^ Z.of_nat 4) with (2 ^ 32); lia); reflexivity|].
  exact Hc.
Qed.
End frames.

(** ** Sending *)
Section sending.
Context {H : Type} `{AllocatorLaws H}.
Context (nic : list Z -> Z) (receive : net H -> outcome (net H)) (sleep_ : Z -> net H -> net H).
Implicit Types (s : net H) (m : mem) (a : Z).

(** The hardware address packets for [dst] go to. *)
Definition routed s (dst : Z) (mac : list Z) : Prop :=
  length mac = 6%nat /\ bytes_list mac /\
  if dst =? 0xFFFFFFFF then mac = everyone else arp_cache_get_address (router_ip s) s = Some mac.

(** A device is up and the memory holds bytes. *)
Record net_ok s : Prop := {
  no_enabled : is_enabled s <> 0;
  no_mac : length (device_mac s) = 6%nat /\ bytes_list (device_mac s);
  no_mem : bytes_in (nmem s)
}.

Lemma ether_header_spec dst src type eh m :
  bytes_in m -> length dst = 6%nat -> bytes_list dst -> length src = 6%nat -> bytes_list src ->
  0 <= type < 2 ^ 16 ->
  let m' := ether_header dst src type eh m in
  bytes_in m' /\ bytes m' eh 6 = dst /\ bytes m' (eh + 6) 6 = src /\
  htons (ld16 m' (eh + 12)) = type /\ (forall b, ~ eh <= b < eh + 14 -> m'⟦b⟧ = m⟦b⟧).
Proof.
  intros Hm Hd1 Hd2 Hs1 Hs2 Ht m'. unfold m', ether_header. split; [pkt_bytes|].
  split; [|split; [|split]].
  - rewrite <- (bytes_fillMac m eh dst Hd1) at 2. apply bytes_ext. intros b Hb. by pkt.
  - rewrite <- (bytes_fillMac (fillMac m eh dst) (eh + 6) src Hs1) at 2. apply bytes_ext. intros b Hb. by pkt.
  - pkt. change (256 ^ Z.of_nat 2) with (2 ^ 16). rewrite Z.mod_small by apply htons_range.
    by apply htons_invol.
  - intros b Hb. by pkt.
Qed.

Lemma get_hardwere_routed fuel dst s mac :
  arp_cache_get_address (router_ip s) s = Some mac ->
  get_hardwere_ethernet nic sleep_ (S fuel) dst s = Ret (0, mac, s).
Proof. intros E. cbn [get_hardwere_ethernet]. by rewrite E. Qed.

Lemma send_enabled buf size s :
  is_enabled s <> 0 -> 0 <= size < 2 ^ 32 ->
  send_ethernet_package nic buf size s =
  (nic (bytes (nmem s) buf size), set_wire (wire s ++ [bytes (nmem s) buf size]) s).
Proof.
  intros He Hs. unfold send_ethernet_package. rewrite u32_small by lia.
  by destruct (Z.eqb_spec (is_enabled s) 0).
Qed.

Lemma ipv4_send_spec fuel buf proto src dst len s mac :
  net_ok s -> routed s dst mac -> 0 <= proto < 256 -> 0 <= src < 2 ^ 32 -> 0 <= dst < 2 ^ 32 ->
  0 <= len < 2 ^ 16 - 34 ->
  exists r m', ipv4_send nic sleep_ (S fuel) buf proto src dst len s =
    Ret (r, s |> set_nmem m' |> set_ipv4_count (u32 (ipv4_count s + 1))
              |> set_wire (wire s ++ [bytes m' buf (len + 34)])) /\
    bytes_in m' /\ ip_frame_at m' buf mac (device_mac s) proto src dst len /\
    forall b, ~ buf <= b < buf + 34 -> m'⟦b⟧ = (nmem s)⟦b⟧.
Proof.
  intros [He [Hm1 Hm2] Hmem] (Hl & Hb & Hr) Hp Hs Hd Hlen.
  destruct (ether_header_spec mac (device_mac s) ET_IPV4 buf (nmem s) Hmem Hl Hb Hm1 Hm2 ltac:(done))
    as (He1 & He2 & He3 & He4 & He5).
  set (m1 := ether_header mac (device_mac s) ET_IPV4 buf (nmem s)) in *.
  destruct (ipv4_header_spec proto src dst len (buf + 14) (ipv4_count s) m1 He1 Hp Hs Hd ltac:(lia))
    as (Hi1 & Hi2 & Hi3 & Hi4 & Hi5 & Hi6 & Hi7).
  pose proof (ipv4_header_out proto src dst len (buf + 14) (ipv4_count s) m1) as Hout.
  set (m2 := ipv4_header proto src dst len (buf + 14) (ipv4_count s) m1) in *.
  assert ((if dst =? 0xFFFFFFFF then Ret (0, everyone, s)
           else get_hardwere_ethernet nic sleep_ (S fuel) dst s) = Ret (0, mac, s)) as Er.
  { destruct (dst =? 0xFFFFFFFF); [by rewrite Hr|by apply get_hardwere_routed]. }
  set (s2 := set_ipv4_count (u32 (ipv4_count s + 1)) (set_nmem m2 s)).
  exists (if nic (bytes m2 buf (len + 34)) =? 0 then 0 else 1), m2.
  split; [|split; [exact Hi1|split]].
  - unfold ipv4_send. rewrite Er. cbn [mbind outcome_bind]. change (negb (0 =? 0)) with false.
    cbv iota. change (with_mem _ (with_mem _ s)) with (set_nmem m2 s).
    change (ipv4_count (set_nmem m2 s)) with (ipv4_count s). fold s2.
    replace (len + sizeof_ipv4_header + sizeof_ether_header) with (len + 34)
      by (unfold sizeof_ipv4_header, sizeof_ether_header; lia).
    rewrite (send_enabled buf (len + 34) s2 He) by lia. reflexivity.
  - constructor.
    + rewrite <- He2. apply bytes_ext. intros b Hb'. apply Hout. lia.
    + rewrite <- He3. apply bytes_ext. intros b Hb'. apply Hout. lia.
    + rewrite <- He4. f_equal. apply ld_ext. intros b Hb'. apply Hout. lia.
    + exact Hi2.
    + unfold sizeof_ipv4_header. rewrite <- Hi3. do 2 f_equal. lia.
    + rewrite <- Hi4. f_equal. lia.
    + rewrite <- Hi5. f_equal. lia.
    + rewrite <- Hi6. f_equal. lia.
    + replace (buf + 34) with (buf + 14 + 20) by lia. exact Hi7.
  - intros b Hb'. rewrite Hout by lia. apply He5. lia.
Qed.

(** What a send leaves: one more frame on the wire, the heap as it was but for one block taken and
    given back, the memory of the live blocks as it was but for the [n] cells of the local at [lo]. *)
Record sent s s' (B : gmap Z Z) (lo n : Z) (f : list Z) : Prop := {
  sent_wire : wire s' = wire s ++ [f];
  sent_heap : heap_ok (nheap s') B;
  sent_back : exists k p h, 0 < k < 2 ^ 31 /\ heap_room (nheap s) k /\ malloc k (nheap s) = Ret (p, h) /\
    free p h = Ret (nheap s');
  sent_mem : bytes_in (nmem s');
  sent_keep : forall b, live B b -> ~ lo <= b < lo + n -> (nmem s')⟦b⟧ = (nmem s)⟦b⟧;
  sent_rest : s' = (s |> set_nheap (nheap s') |> set_nmem (nmem s')
                      |> set_ipv4_count (ipv4_count s') |> set_wire (wire s'))
}.

Lemma net_malloc_ret n s p s' : net_malloc n s = Ret (p, s') -> malloc n (nheap s) = Ret (p, nheap s').
Proof. unfold net_malloc. intros E. inv_ret E. destruct a as [q h]. by injection E as <- <-. Qed.

Lemma net_malloc_spec s B n :
  heap_ok (nheap s) B -> 0 < n < 2 ^ 31 -> heap_room (nheap s) n ->
  exists p k h, net_malloc n s = Ret (p, set_nheap h s) /\ n <= k /\ 0 < p /\
    heap_ok h (<[p := k]> B) /\ B !! p = None /\ (forall b, live B b -> ~ p <= b < p + k).
Proof.
  intros Hok Hn Hroom. destruct (malloc_fresh _ _ n Hok Hn Hroom) as (p & k & h & E & Hrest).
  exists p, k, h. unfold net_malloc. by rewrite E.
Qed.

(** The steps shared by the two senders: from the transport packet in the block to the end. *)
Lemma send_block fuel buf k B proto src dst len s mac :
  net_ok s -> routed s dst mac -> 0 <= proto < 256 -> 0 <= src < 2 ^ 32 -> 0 <= dst < 2 ^ 32 ->
  0 <= len < 2 ^ 16 - 34 -> len + 34 <= k ->
  heap_ok (nheap s) (<[buf := k]> B) -> B !! buf = None ->
  exists r m' h, ('(_, s) ← ipv4_send nic sleep_ (S fuel) buf proto src dst len s;
                  s ← net_free buf s; Ret s) =
    Ret (s |> set_nheap h |> set_nmem m' |> set_ipv4_count (u32 (ipv4_count s + 1))
           |> set_wire (wire s ++ [r])) /\
    r = bytes m' buf (len + 34) /\ free buf (nheap s) = Ret h /\ heap_ok h B /\ bytes_in m' /\
    ip_frame_at m' buf mac (device_mac s) proto src dst len /\
    forall b, ~ buf <= b < buf + 34 -> m'⟦b⟧ = (nmem s)⟦b⟧.
Proof.
  intros Hok Hr Hp Hs Hd Hlen Hk Hheap HB.
  destruct (ipv4_send_spec fuel buf proto src dst len s mac Hok Hr Hp Hs Hd Hlen)
    as (r & m' & E & Hm' & Hf & Hout).
  destruct (free_spec (nheap s) _ buf k Hheap (lookup_insert_eq _ _ _)) as (h & Ef & Hh).
  rewrite delete_insert_id in Hh by done.
  exists (bytes m' buf (len + 34)), m', h. rewrite E. cbn [mbind outcome_bind]. unfold net_free.
  change (nheap (set_wire _ _)) with (nheap s). rewrite Ef. cbn [mbind outcome_bind].
  split; [reflexivity|]. split; [reflexivity|]. split; [reflexivity|]. split; [exact Hh|]. split; [exact Hm'|].
  split; [exact Hf|exact Hout].
Qed.
End sending.

(** ** UDP *)

(** A datagram in a frame at [a], as the receiver reads it. *)
Record udp_frame_at (m : mem) (a : Z) (dmac smac : list Z) (src dst sport dport : Z) (data : list Z) : Prop := {
  uf_ip : ip_frame_at m a dmac smac IP_PROTOCOL_UDP src dst (8 + Z.of_nat (length data));
  uf_sport : htons (ld16 m (a + 34)) = sport;
  uf_dport : htons (ld16 m (a + 36)) = dport;
  uf_length : htons (ld16 m (a + 38)) = 8 + Z.of_nat (length data);
  uf_data : holds m (a + 42) data
}.

Section udp.
Context {H : Type} `{AllocatorLaws H}.
Context (nic : list Z -> Z) (receive : net H -> outcome (net H)) (sleep_ : Z -> net H -> net H).
Implicit Types (s : net H) (m : mem) (a : Z).

Lemma udp_frame_agree m m' a a' dmac smac src dst sport dport data :
  bytes_in m -> bytes_in m' ->
  (forall i, 0 <= i < 42 + Z.of_nat (length data) -> m'⟦a' + i⟧ = m⟦a + i⟧) ->
  udp_frame_at m a dmac smac src dst sport dport data ->
  udp_frame_at m' a' dmac smac src dst sport dport data.
Proof.
  intros Hm Hm' E [Q1 Q2 Q3 Q4 Q5].
  assert (forall o (n : nat), 0 <= o -> o + Z.of_nat n <= 42 -> ld n m' (a' + o) = ld n m (a + o)) as El.
  { intros o n Ho Hn. apply ld_agree. intros i Hi. rewrite <- !Z.add_assoc. apply E. lia. }
  constructor.
  - eapply ip_frame_agree; [exact Hm|exact Hm'| |exact Q1]. intros i Hi. apply E. lia.
  - by rewrite El by lia.
  - by rewrite El by lia.
  - by rewrite El by lia.
  - unfold holds in *. rewrite <- Q5 at 2. unfold bytes. apply list_fmap_ext. intros i x Hx.
    apply lookup_seq in Hx as [-> Hi]. rewrite <- !Z.add_assoc. apply E. lia.
Qed.

Lemma copy_guard m d data len b :
  0 <= len ->
  (if negb (data =? 0) || (0 <? len) then memcpy m d data len else m)⟦b⟧ = (memcpy m d data len)⟦b⟧.
Proof.
  intros Hl. destruct (negb (data =? 0) || (0 <? len)) eqn:Eg; [done|].
  apply orb_false_iff in Eg as [_ Eg]. by assert (len = 0) as -> by lia.
Qed.

Lemma udp_datagram_spec sport dport data len udp m :
  bytes_in m -> 0 <= sport < 2 ^ 16 -> 0 <= dport < 2 ^ 16 -> 0 <= len < 2 ^ 16 - 8 ->
  len = 0 \/ data + len <= udp \/ udp + 8 + len <= data ->
  let m' := udp_datagram sport dport data len udp m in
  bytes_in m' /\ htons (ld16 m' udp) = sport /\ htons (ld16 m' (udp + 2)) = dport /\
  htons (ld16 m' (udp + 4)) = 8 + len /\ (forall i, 0 <= i < len -> m'⟦udp + 8 + i⟧ = m⟦data + i⟧) /\
  forall b, ~ udp <= b < udp + 8 + len -> m'⟦b⟧ = m⟦b⟧.
Proof.
  intros Hm Hs Hd Hl Hdis m'. unfold m', udp_datagram. cbv zeta.
  match goal with |- context [memcpy ?x (udp + _) data len] => set (m1 := x) end.
  assert (bytes_in m1) as Hm1 by (subst m1; pkt_bytes).
  match goal with |- context [if ?c then memcpy m1 ?d data len else m1] =>
    set (m2 := if c then memcpy m1 d data len else m1) end.
  assert (forall b, m2⟦b⟧ = if within b (udp + 8) len then m1⟦data + (b - (udp + 8))⟧ else m1⟦b⟧) as E2.
  { intros b. unfold m2. rewrite copy_guard by lia. unfold sizeof_udp_header. apply rd_memcpy. lia. }
  assert (forall (n : nat) o, 0 <= o -> o + Z.of_nat n <= 8 -> ld n m2 (udp + o) = ld n m1 (udp + o)) as El.
  { intros n o Ho Hn. apply ld_ext. intros b Hb. rewrite E2. by destruct (within_spec b (udp + 8) len); [lia|]. }
  assert (bytes_in m2) as Hm2.
  { intros b. rewrite E2. destruct (within b (udp + 8) len); apply Hm1. }
  split; [exact Hm2|]. split; [|split; [|split; [|split]]].
  - pose proof (El 2%nat 0 ltac:(lia) ltac:(lia)) as E0. rewrite Z.add_0_r in E0. rewrite E0. subst m1. pkt.
    change (256 ^ Z.of_nat 2) with (2 ^ 16). rewrite Z.mod_small by apply htons_range. by apply htons_invol.
  - rewrite El by lia. subst m1. pkt.
    change (256 ^ Z.of_nat 2) with (2 ^ 16). rewrite Z.mod_small by apply htons_range. by apply htons_invol.
  - rewrite El by lia. subst m1. pkt.
    change (256 ^ Z.of_nat 2) with (2 ^ 16). rewrite Z.mod_small by apply htons_range.
    unfold sizeof_udp_header. rewrite u16_small by lia. apply htons_invol. lia.
  - intros i Hi. rewrite E2. destruct (within_spec (udp + 8 + i) (udp + 8) len); [|lia].
    replace (data + (udp + 8 + i - (udp + 8))) with (data + i) by lia. subst m1. by pkt.
  - intros b Hb. rewrite E2. destruct (within_spec b (udp + 8) len); [lia|]. subst m1. by pkt.
Qed.

(** [udp_send] puts one frame on the wire, addressed to the router's hardware address (or to
    everyone for the broadcast address); it gives its block back and changes no live memory. *)
Lemma udp_send_spec fuel src dst sport dport data len s B mac :
  net_ok s -> heap_ok (nheap s) B -> heap_room (nheap s) (42 + len) -> routed s dst mac ->
  0 <= src < 2 ^ 32 -> 0 <= dst < 2 ^ 32 -> 0 <= sport < 2 ^ 16 -> 0 <= dport < 2 ^ 16 ->
  0 <= len < 2 ^ 16 - 42 -> (forall i, 0 <= i < len -> live B (data + i)) ->
  exists s' f, udp_send nic sleep_ (S fuel) src dst sport dport data len s = Ret (len, s') /\
    sent s s' B 0 0 f /\
    forall m a, bytes_in m -> holds m a f ->
      udp_frame_at m a mac (device_mac s) src dst sport dport (bytes (nmem s) data len).
Proof.
  intros Hok Hheap Hroom Hr Hsrc Hdst Hsp Hdp Hlen Hdata.
  destruct (net_malloc_spec s B (42 + len) Hheap ltac:(lia) Hroom) as (p & k & h & Em & Hk & Hp & Hh & HB & Hdis).
  assert (len = 0 \/ data + len <= p + 34 \/ p + 34 + 8 + len <= data) as Hd.
  { destruct (decide (len = 0)) as [->|]; [by left|]. pose proof (Hdis _ (Hdata 0 ltac:(lia))).
    pose proof (Hdis _ (Hdata (len - 1) ltac:(lia))).
    destruct (Z.leb_spec (data + len) (p + 34)); [lia|]. destruct (Z.leb_spec (p + 42 + len) data); [lia|].
    destruct (Z.ltb_spec data p); [|lia].
    pose proof (Hdis _ (Hdata (p - data) ltac:(lia))). lia. }
  destruct Hok as [He Hmac Hmem].
  destruct (udp_datagram_spec sport dport data len (p + 34) (nmem s) Hmem Hsp Hdp ltac:(lia) ltac:(lia))
    as (Hu0 & Hu1 & Hu2 & Hu3 & Hu4 & Hu5).
  set (m1 := udp_datagram sport dport data len (p + 34) (nmem s)) in *.
  set (s1 := set_nmem m1 (set_nheap h s)).
  destruct (send_block nic sleep_ fuel p k B IP_PROTOCOL_UDP src dst (8 + len) s1 mac)
    as (f & m' & h' & E & Ef & Hfree & Hh' & Hm' & Hip & Hout);
    [by constructor|exact Hr|done|lia|lia|lia|lia|exact Hh|exact HB|].
  exists (s1 |> set_nheap h' |> set_nmem m' |> set_ipv4_count (u32 (ipv4_count s1 + 1))
             |> set_wire (wire s1 ++ [f])), f.
  split; [|split].
  - unfold udp_send.
    replace (u32 (sizeof_ether_header + sizeof_ipv4_header + sizeof_udp_header + len)) with (42 + len)
      by (symmetry; apply u32_small; lia).
    rewrite Em. cbn [mbind outcome_bind]. unfold sizeof_ipv4_header, sizeof_ether_header.
    replace (p + 20 + 14) with (p + 34) by lia.
    replace (u32 (sizeof_udp_header + len)) with (8 + len) by (symmetry; apply u32_small; unfold sizeof_udp_header; lia).
    change (with_mem _ (set_nheap h s)) with s1.
    destruct (ipv4_send nic sleep_ (S fuel) p IP_PROTOCOL_UDP src dst (8 + len) s1) as [[r s2]| | | |]; try discriminate E.
    cbn [mbind outcome_bind] in E |- *. destruct (net_free p s2) as [s3| | | |]; try discriminate E.
    cbn [mbind outcome_bind] in E |- *. injection E as ->. by rewrite s32_small by lia.
  - constructor; try reflexivity; try assumption.
    { exists (42 + len), p, h. split; [lia|]. split; [exact Hroom|]. split; [exact (net_malloc_ret _ _ _ _ Em)|exact Hfree]. }
    intros b Hb _. change ((m')⟦b⟧ = (nmem s)⟦b⟧). pose proof (Hdis b Hb).
    rewrite Hout by lia. apply Hu5. lia.
  - intros m a Hm Hf.
    assert (udp_frame_at m' p mac (device_mac s) src dst sport dport (bytes (nmem s) data len)) as HF.
    { constructor.
      - rewrite length_bytes, Z2Nat.id by lia. exact Hip.
      - rewrite <- Hu1. f_equal. apply ld_ext. intros b Hb. apply Hout. lia.
      - rewrite <- Hu2. f_equal. replace (p + 34 + 2) with (p + 36) by lia. apply ld_ext. intros b Hb. apply Hout. lia.
      - rewrite length_bytes, Z2Nat.id by lia. rewrite <- Hu3. f_equal.
        replace (p + 34 + 4) with (p + 38) by lia. apply ld_ext. intros b Hb. apply Hout. lia.
      - unfold holds. rewrite length_bytes, Z2Nat.id by lia. apply list_fmap_ext. intros i x Hx.
        apply lookup_seq in Hx as [-> Hi]. rewrite Nat.add_0_l. rewrite Hout by lia.
        replace (p + 42 + Z.of_nat i) with (p + 34 + 8 + Z.of_nat i) by lia. apply Hu4. lia. }
    apply (udp_frame_agree m' m p a); try assumption. rewrite length_bytes, Z2Nat.id by lia.
    rewrite Ef in Hf. intros i Hi. apply (holds_rd m' m p a (8 + len + 34) Hf). lia.
Qed.
End udp.

(** ** TCP segments *)

(** The pseudo header the checksum covers. *)
Definition pseudo_bytes (src dst protocol len : Z) : list Z :=
  bytes (pseudo_header 0 src dst protocol len ∅) 0 12.

(** A segment in a frame at [a], as the receiver reads it; its checksum is right wherever the
    segment and its pseudo header stand. *)
Record tcp_frame_at (m : mem) (a : Z) (dmac smac : list Z)
    (src dst sport dport seq ack flags : Z) (data : list Z) : Prop := {
  tf_ip : ip_frame_at m a dmac smac IP_PROTOCOL_TCP src dst (28 + Z.of_nat (length data));
  tf_sport : htons (ld16 m (a + 34)) = sport;
  tf_dport : htons (ld16 m (a + 36)) = dport;
  tf_seq : htonl (ld32 m (a + 38)) = seq;
  tf_ack : htonl (ld32 m (a + 42)) = ack;
  tf_off : m⟦a + 46⟧ = 0x70;
  tf_flags : m⟦a + 47⟧ = flags;
  tf_data : holds m (a + 62) data;
  tf_checksum : forall m2 p x, bytes_in m2 -> p <> 0 ->
    holds m2 p (pseudo_bytes src dst IP_PROTOCOL_TCP (28 + Z.of_nat (length data))) ->
    (forall i, 0 <= i < 28 + Z.of_nat (length data) -> m2⟦x + i⟧ = m⟦a + 34 + i⟧) ->
    net_checksum m2 p 12 x (x + (28 + Z.of_nat (length data))) = 0
}.

Section tcp_segment.
Implicit Types (m : mem) (a tcp phdr : Z).

Lemma pad_options_26 tcp m :
  pad_options 3 tcp (tcp + 26) m = (tcp + 28, m⟦tcp + 26 := 0⟧⟦tcp + 27 := 0⟧).
Proof.
  cbn [pad_options]. replace (tcp + 26 - tcp) with 26 by lia.
  replace (tcp + 26 + 1 - tcp) with 27 by lia. replace (tcp + 26 + 1 + 1 - tcp) with 28 by lia.
  change (Z.land 26 3 =? 0) with false. change (Z.land 27 3 =? 0) with false.
  change (Z.land 28 3 =? 0) with true. cbv iota. f_equal; [lia|]. by replace (tcp + 26 + 1) with (tcp + 27) by lia.
Qed.

Lemma pseudo_header_rd phdr src dst protocol len m b :
  (pseudo_header phdr src dst protocol len m)⟦b⟧ =
  if within b phdr 12 then (pseudo_header 0 src dst protocol len ∅)⟦b - phdr⟧ else m⟦b⟧.
Proof.
  unfold pseudo_header. rewrite !rd_st, !rd_wr, !rd_st, rd_empty.
  change (Z.of_nat 2) with 2. change (Z.of_nat 4) with 4.
  replace (b - phdr - (0 + 10)) with (b - (phdr + 10)) by lia.
  replace (b - phdr - (0 + 4)) with (b - (phdr + 4)) by lia.
  replace (b - phdr - 0) with (b - phdr) by lia.
  case_within; try lia; try reflexivity.
Qed.

Lemma pseudo_header_holds phdr src dst protocol len m :
  holds (pseudo_header phdr src dst protocol len m) phdr (pseudo_bytes src dst protocol len).
Proof.
  unfold holds, pseudo_bytes. rewrite length_bytes. change (Z.of_nat (Z.to_nat 12)) with 12.
  apply list_fmap_ext. intros i x Hx. apply lookup_seq in Hx as [-> Hi]. rewrite pseudo_header_rd.
  destruct (within_spec (phdr + Z.of_nat (0 + i)) phdr 12); [|lia]. f_equal. lia.
Qed.

Lemma bytes_in_pseudo phdr src dst protocol len m :
  bytes_in m -> 0 <= protocol < 256 -> bytes_in (pseudo_header phdr src dst protocol len m).
Proof. intros Hm Hp. unfold pseudo_header. pkt_bytes. Qed.

(** The header with its options, before data and checksum. *)
Definition tcp_head (sport dport seq ack flags tcp : Z) m : mem :=
  (snd (pad_options 3 tcp (tcp + 26) (tcp_header sport dport seq ack flags tcp m)))⟦tcp + 12 := 0x70⟧.

Lemma tcp_head_spec sport dport seq ack flags tcp m :
  bytes_in m -> 0 <= sport < 2 ^ 16 -> 0 <= dport < 2 ^ 16 -> 0 <= seq < 2 ^ 32 -> 0 <= ack < 2 ^ 32 ->
  0 <= flags < 256 ->
  let m' := tcp_head sport dport seq ack flags tcp m in
  bytes_in m' /\ htons (ld16 m' tcp) = sport /\ htons (ld16 m' (tcp + 2)) = dport /\
  htonl (ld32 m' (tcp + 4)) = seq /\ htonl (ld32 m' (tcp + 8)) = ack /\ m'⟦tcp + 12⟧ = 0x70 /\
  m'⟦tcp + 13⟧ = flags /\ ld16 m' (tcp + 16) = 0 /\ forall b, ~ tcp <= b < tcp + 28 -> m'⟦b⟧ = m⟦b⟧.
Proof.
  intros Hm Hs Hd Hq Ha Hf. unfold tcp_head. rewrite pad_options_26. cbn [snd].
  unfold tcp_header, sizeof_tcp_header, TCP_OPT_MSS, TCP_OPT_SACK. cbv zeta.
  replace (tcp + 20 + 4) with (tcp + 24) by lia. replace (tcp + 20 + 1) with (tcp + 21) by lia.
  replace (tcp + 20 + 2) with (tcp + 22) by lia. replace (tcp + 24 + 1) with (tcp + 25) by lia.
  split; [pkt_bytes|].
  split; [pkt; rewrite Z.mod_small by apply htons_range; by apply htons_invol|].
  split; [pkt; rewrite Z.mod_small by apply htons_range; by apply htons_invol|].
  split; [pkt; rewrite Z.mod_small by (by apply htonl_range); by apply htonl_invol|].
  split; [pkt; rewrite Z.mod_small by (by apply htonl_range); by apply htonl_invol|].
  split; [by pkt|]. split; [by pkt|]. split; [by pkt|].
  intros b Hb. by pkt.
Qed.

Lemma tcp_segment_spec phdr src dst sport dport seq ack flags data len tcp m :
  bytes_in m -> 0 <= sport < 2 ^ 16 -> 0 <= dport < 2 ^ 16 -> 0 <= seq < 2 ^ 32 -> 0 <= ack < 2 ^ 32 ->
  0 <= flags < 256 -> 0 <= len < 2 ^ 16 - 28 -> phdr <> 0 ->
  phdr + 12 <= tcp \/ tcp + 28 + len <= phdr ->
  len = 0 \/ data + len <= tcp \/ tcp + 28 + len <= data ->
  exists m', tcp_segment phdr src dst sport dport seq ack flags data len tcp m = (28, m') /\
  bytes_in m' /\ htons (ld16 m' tcp) = sport /\ htons (ld16 m' (tcp + 2)) = dport /\
  htonl (ld32 m' (tcp + 4)) = seq /\ htonl (ld32 m' (tcp + 8)) = ack /\ m'⟦tcp + 12⟧ = 0x70 /\
  m'⟦tcp + 13⟧ = flags /\ (forall i, 0 <= i < len -> m'⟦tcp + 28 + i⟧ = m⟦data + i⟧) /\
  holds m' phdr (pseudo_bytes src dst IP_PROTOCOL_TCP (28 + len)) /\
  net_checksum m' phdr 12 tcp (tcp + (28 + len)) = 0 /\
  forall b, ~ tcp <= b < tcp + 28 + len -> ~ phdr <= b < phdr + 12 -> m'⟦b⟧ = m⟦b⟧.
Proof.
  intros Hm Hs Hd Hq Ha Hf Hl Hp0 Hphdr Hdis.
  destruct (tcp_head_spec sport dport seq ack flags tcp m Hm Hs Hd Hq Ha Hf)
    as (Hh & H1 & H2 & H3 & H4 & H5 & H6 & H7 & Hout).
  unfold tcp_head in *. unfold tcp_segment. change (tcp + sizeof_tcp_header + 6) with (tcp + 20 + 6).
  replace (tcp + 20 + 6) with (tcp + 26) by lia. rewrite pad_options_26 in *. cbn [snd] in *.
  replace (tcp + 28 - tcp) with 28 by lia. change (u8 (Z.shiftl 28 2)) with 0x70.
  match goal with |- context [(?x)⟦tcp + 12 := 112⟧] => set (m1 := x⟦tcp + 12 := 112⟧) in * end.
  clearbody m1.
  match goal with |- context [if ?c then memcpy m1 ?d data len else m1] =>
    set (m2 := if c then memcpy m1 d data len else m1) end.
  assert (forall b, m2⟦b⟧ = if within b (tcp + 28) len then m1⟦data + (b - (tcp + 28))⟧ else m1⟦b⟧) as E2.
  { intros b. unfold m2. rewrite copy_guard by lia. apply rd_memcpy. lia. }
  assert (bytes_in m2) as Hm2 by (intros b; rewrite E2; destruct (within b (tcp + 28) len); apply Hh).
  clearbody m2. replace (tcp + (28 + len) - tcp) with (28 + len) by lia.
  set (m3 := pseudo_header phdr src dst IP_PROTOCOL_TCP (28 + len) m2).
  assert (bytes_in m3) as Hm3 by (by apply bytes_in_pseudo).
  assert (forall b, ~ phdr <= b < phdr + 12 -> m3⟦b⟧ = m2⟦b⟧) as E3.
  { intros b Hb. unfold m3. rewrite pseudo_header_rd. by destruct (within_spec b phdr 12). }
  pose proof (pseudo_header_holds phdr src dst IP_PROTOCOL_TCP (28 + len) m2) as Hps. fold m3 in Hps.
  clearbody m3.
  assert (forall (n : nat) o, 0 <= o -> o + Z.of_nat n <= 28 -> ld n m3 (tcp + o) = ld n m1 (tcp + o)) as El.
  { intros n o Ho Hn. apply ld_ext. intros b Hb. rewrite E3, E2 by lia. by destruct (within_spec b (tcp + 28) len); [lia|]. }
  eexists. split; [reflexivity|].
  destruct (checksum_filled m3 phdr 12 tcp (28 + len) 16) as [Hc _];
    [done|lia|lia|lia|lia|lia|reflexivity|by rewrite El by lia|].
  set (c := htons (net_checksum m3 phdr 12 tcp (tcp + (28 + len)))) in *.
  split; [by apply bytes_in_st|].
  pose proof (El 2%nat 0 ltac:(lia) ltac:(lia)) as E0. rewrite Z.add_0_r in E0.
  split; [rewrite ld_st_ne by lia; by rewrite E0|].
  split; [rewrite ld_st_ne by lia; by rewrite El by lia|].
  split; [rewrite ld_st_ne by lia; by rewrite El by lia|].
  split; [rewrite ld_st_ne by lia; by rewrite El by lia|].
  assert (forall o, 0 <= o < 28 -> m3⟦tcp + o⟧ = m1⟦tcp + o⟧) as Er.
  { intros o Ho. rewrite E3, E2 by lia. by destruct (within_spec (tcp + o) (tcp + 28) len); [lia|]. }
  split; [rewrite rd_st_out by lia; by rewrite Er by lia|].
  split; [rewrite rd_st_out by lia; by rewrite Er by lia|].
  split; [|split; [|split; [exact Hc|]]].
  - intros i Hi. rewrite rd_st_out, E3, E2 by lia. destruct (within_spec (tcp + 28 + i) (tcp + 28) len); [|lia].
    replace (data + (tcp + 28 + i - (tcp + 28))) with (data + i) by lia. apply Hout. lia.
  - unfold holds in *. rewrite <- Hps at 2. apply bytes_ext. intros b Hb. apply rd_st_out.
    unfold pseudo_bytes in Hb. rewrite length_bytes in Hb. lia.
  - intros b Hb Hb'. rewrite rd_st_out, E3, E2 by lia. destruct (within_spec b (tcp + 28) len); [lia|].
    apply Hout. lia.
Qed.
End tcp_segment.

Section tcp_send.
Context {H : Type} `{AllocatorLaws H}.
Context (nic : list Z -> Z) (sleep_ : Z -> net H -> net H).
Implicit Types (s : net H) (m : mem) (a : Z).

Lemma tcp_frame_agree m m' a a' dmac smac src dst sport dport seq ack flags data :
  bytes_in m -> bytes_in m' ->
  (forall i, 0 <= i < 62 + Z.of_nat (length data) -> m'⟦a' + i⟧ = m⟦a + i⟧) ->
  tcp_frame_at m a dmac smac src dst sport dport seq ack flags data ->
  tcp_frame_at m' a' dmac smac src dst sport dport seq ack flags data.
Proof.
  intros Hm Hm' E [Q1 Q2 Q3 Q4 Q5 Q6 Q7 Q8 Q9].
  assert (forall o (n : nat), 0 <= o -> o + Z.of_nat n <= 62 -> ld n m' (a' + o) = ld n m (a + o)) as El.
  { intros o n Ho Hn. apply ld_agree. intros i Hi. rewrite <- !Z.add_assoc. apply E. lia. }
  constructor; try (by rewrite El by lia); try (by rewrite E by lia).
  - eapply ip_frame_agree; [exact Hm|exact Hm'| |exact Q1]. intros i Hi. apply E. lia.
  - unfold holds in *. rewrite <- Q8 at 2. unfold bytes. apply list_fmap_ext. intros i x Hx.
    apply lookup_seq in Hx as [-> Hi]. rewrite <- !Z.add_assoc. apply E. lia.
  - intros m2 p x Hm2 Hp Hh Hx. apply Q9; try done. intros i Hi. rewrite Hx by lia.
    rewrite <- !Z.add_assoc. apply E. lia.
Qed.

Lemma tcp_send_spec fuel phdr src dst sport dport seq ack flags data len s B mac :
  net_ok s -> heap_ok (nheap s) B -> heap_room (nheap s) (94 + len) -> routed s dst mac ->
  0 <= src < 2 ^ 32 -> 0 <= dst < 2 ^ 32 -> 0 <= sport < 2 ^ 16 -> 0 <= dport < 2 ^ 16 ->
  0 <= seq < 2 ^ 32 -> 0 <= ack < 2 ^ 32 -> 0 <= flags < 256 ->
  0 <= len < 2 ^ 16 - 62 -> (forall i, 0 <= i < len -> live B (data + i)) ->
  phdr <> 0 -> (forall i, 0 <= i < 12 -> live B (phdr + i)) ->
  exists s' f, tcp_send nic sleep_ (S fuel) phdr src dst sport dport seq ack flags data len s = Ret (len, s') /\
    sent s s' B phdr 12 f /\
    forall m a, bytes_in m -> holds m a f ->
      tcp_frame_at m a mac (device_mac s) src dst sport dport seq ack flags (bytes (nmem s) data len).
Proof.
  intros Hok Hheap Hroom Hr Hsrc Hdst Hsp Hdp Hseq Hack Hfl Hlen Hdata Hp0 Hphdr.
  destruct (net_malloc_spec s B (94 + len) Hheap ltac:(lia) Hroom) as (p & k & h & Em & Hk & Hp & Hh & HB & Hdis).
  assert (forall q n, 0 <= n -> (forall i, 0 <= i < n -> live B (q + i)) ->
            n = 0 \/ q + n <= p \/ p + k <= q) as Hsep.
  { intros q n Hn Hq. destruct (decide (n = 0)) as [->|]; [by left|]. right.
    pose proof (Hdis _ (Hq 0 ltac:(lia))). pose proof (Hdis _ (Hq (n - 1) ltac:(lia))).
    destruct (Z.leb_spec (q + n) p); [lia|]. destruct (Z.leb_spec (p + k) q); [lia|].
    destruct (Z.ltb_spec q p); [|lia]. pose proof (Hdis _ (Hq (p - q) ltac:(lia))). lia. }
  pose proof (Hsep data len ltac:(lia) Hdata) as Hd1. pose proof (Hsep phdr 12 ltac:(lia) Hphdr) as Hd2.
  destruct Hok as [He Hmac Hmem].
  destruct (tcp_segment_spec phdr src dst sport dport seq ack flags data len (p + 34) (nmem s))
    as (m1 & Eseg & Hm1 & Q1 & Q2 & Q3 & Q4 & Q5 & Q6 & Q7 & Q8 & Q9 & Q10); try assumption; try lia.
  set (s1 := set_nmem m1 (set_nheap h s)).
  destruct (send_block nic sleep_ fuel p k B IP_PROTOCOL_TCP src dst (28 + len) s1 mac)
    as (f & m' & h' & E & Ef & Hfree & Hh' & Hm' & Hip & Hout);
    [by constructor|exact Hr|done|lia|lia|lia|lia|exact Hh|exact HB|].
  exists (s1 |> set_nheap h' |> set_nmem m' |> set_ipv4_count (u32 (ipv4_count s1 + 1))
             |> set_wire (wire s1 ++ [f])), f.
  split; [|split].
  - unfold tcp_send.
    replace (u32 (u32 (sizeof_ether_header + sizeof_ipv4_header + sizeof_tcp_header + len) + 40)) with (94 + len).
    2:{ unfold sizeof_ether_header, sizeof_ipv4_header, sizeof_tcp_header.
        rewrite (u32_small (14 + 20 + 20 + len)), u32_small by lia. lia. }
    rewrite Em. cbn [mbind outcome_bind]. unfold sizeof_ipv4_header, sizeof_ether_header.
    replace (p + 20 + 14) with (p + 34) by lia. change (nmem (set_nheap h s)) with (nmem s). rewrite Eseg.
    replace (u32 (28 + len)) with (28 + len) by (symmetry; apply u32_small; lia).
    change (set_nmem m1 (set_nheap h s)) with s1.
    destruct (ipv4_send nic sleep_ (S fuel) p IP_PROTOCOL_TCP src dst (28 + len) s1) as [[r s2]| | | |]; try discriminate E.
    cbn [mbind outcome_bind] in E |- *. destruct (net_free p s2) as [s3| | | |]; try discriminate E.
    cbn [mbind outcome_bind] in E |- *. injection E as ->. by rewrite s32_small by lia.
  - constructor; try reflexivity; try assumption.
    { exists (94 + len), p, h. split; [lia|]. split; [exact Hroom|]. split; [exact (net_malloc_ret _ _ _ _ Em)|exact Hfree]. }
    intros b Hb Hb'. change ((m')⟦b⟧ = (nmem s)⟦b⟧). pose proof (Hdis b Hb).
    rewrite Hout by lia. apply Q10; lia.
  - intros m a Hm Hf.
    assert (tcp_frame_at m' p mac (device_mac s) src dst sport dport seq ack flags (bytes (nmem s) data len)) as HF.
    { assert (forall (n : nat) o, 34 <= o -> ld n m' (p + o) = ld n m1 (p + o)) as El.
      { intros n o Ho. apply ld_ext. intros b Hb. apply Hout. lia. }
      constructor; rewrite ?length_bytes, ?Z2Nat.id by lia.
      - exact Hip.
      - rewrite El by lia. exact Q1.
      - rewrite El by lia. rewrite <- Q2. do 2 f_equal. lia.
      - rewrite El by lia. rewrite <- Q3. do 2 f_equal. lia.
      - rewrite El by lia. rewrite <- Q4. do 2 f_equal. lia.
      - rewrite Hout by lia. rewrite <- Q5. f_equal. lia.
      - rewrite Hout by lia. rewrite <- Q6. f_equal. lia.
      - unfold holds. rewrite length_bytes, Z2Nat.id by lia. apply list_fmap_ext. intros i x Hx.
        apply lookup_seq in Hx as [-> Hi]. rewrite Nat.add_0_l. rewrite Hout by lia.
        replace (p + 62 + Z.of_nat i) with (p + 34 + 28 + Z.of_nat i) by lia. apply Q7. lia.
      - intros m2 q x Hm2 Hq0 Hq Hx. rewrite (net_checksum_agree m1 m2 phdr q 12 (p + 34) x (28 + len)); try done; try lia.
        + intros i Hi. unfold holds, pseudo_bytes in Q8, Hq. rewrite length_bytes in Q8, Hq.
          change (Z.of_nat (Z.to_nat 12)) with 12 in Q8, Hq. rewrite <- Q8 in Hq.
          assert (bytes m2 q 12 !! Z.to_nat i = bytes m1 phdr 12 !! Z.to_nat i) as Ei by (by rewrite Hq).
          rewrite !lookup_bytes in Ei by lia. injection Ei as Ei. by rewrite Z2Nat.id in Ei by lia.
        + intros i Hi. rewrite Hx by lia. apply Hout. lia. }
    apply (tcp_frame_agree m' m p a); try assumption. rewrite length_bytes, Z2Nat.id by lia.
    rewrite Ef in Hf. intros i Hi. apply (holds_rd m' m p a (28 + len + 34) Hf). lia.
Qed.
End tcp_send.

(** ** Address resolution *)

(** Four bytes, not all 0; six bytes. *)
Definition ip_valid (ip : list Z) : Prop :=
  length ip = 4%nat /\ bytes_list ip /\ nth 0 ip 0 + nth 1 ip 0 + nth 2 ip 0 + nth 3 ip 0 <> 0.

(** The hardware address of the first entry for [ip]. *)
Fixpoint first_mac (ip : list Z) (es : list arp_entry) : option (list Z) :=
  match es with
  | [] => None
  | e :: es => if decide (aip e = ip) then Some (amac e) else first_mac ip es
  end.

#[export] Instance arp_entry_eq_dec : EqDecision arp_entry.
Proof. solve_decision. Defined.

Section arp.
Context {H : Type} `{AllocatorLaws H}.
Context (nic : list Z -> Z) (sleep_ : Z -> net H -> net H).
Implicit Types (s : net H) (ip mac : list Z) (es : list arp_entry).

(** The cache holds the entries [es], then free slots. *)
Record arp_rep s es : Prop := {
  ar_length : (length es <= 1024)%nat;
  ar_entry : forall i e, es !! i = Some e -> rd (arp_cache s) (Z.of_nat i) = e /\ ip_valid (aip e) /\ length (amac e) = 6%nat;
  ar_free : forall i, Z.of_nat (length es) <= i -> rd (arp_cache s) i = zero
}.

Lemma same_spec n l1 l2 : length l1 = n -> length l2 = n -> same n l1 l2 = bool_decide (l1 = l2).
Proof.
  intros L1 L2. apply eq_true_iff_eq. rewrite bool_decide_eq_true. unfold same. rewrite forallb_forall.
  split; [|intros ->; intros i _; apply Z.eqb_refl]. intros E. apply list_eq_Forall2, Forall2_same_length_lookup.
  split; [congruence|]. intros i x y Hx Hy. pose proof (lookup_lt_Some _ _ _ Hx).
  specialize (E i). rewrite in_seq in E. specialize (E ltac:(lia)). apply Z.eqb_eq in E.
  apply nth_lookup_Some with (d := 0) in Hx. apply nth_lookup_Some with (d := 0) in Hy. congruence.
Qed.

Lemma first_mac_app ip es1 es2 :
  first_mac ip (es1 ++ es2) = match first_mac ip es1 with Some m => Some m | None => first_mac ip es2 end.
Proof. induction es1 as [|e es1 IH]; [done|]. cbn. by case_decide. Qed.

Lemma arp_entry_at s es k :
  arp_rep s es -> 0 <= k ->
  (exists e es1 es2, es = es1 ++ e :: es2 /\ Z.of_nat (length es1) = k /\ rd (arp_cache s) k = e /\
     ip_valid (aip e) /\ length (amac e) = 6%nat) \/
  (Z.of_nat (length es) <= k /\ rd (arp_cache s) k = zero).
Proof.
  intros Hrep Hk. destruct (es !! Z.to_nat k) as [e|] eqn:Ee.
  - left. destruct (ar_entry _ _ Hrep _ _ Ee) as (Er & Hv & Hm). rewrite Z2Nat.id in Er by lia.
    destruct (list_elem_of_split_length _ _ _ Ee) as (es1 & es2 & -> & El).
    exists e, es1, es2. split; [done|]. split; [lia|]. done.
  - right. apply lookup_ge_None_1 in Ee. split; [lia|]. apply (ar_free _ _ Hrep). lia.
Qed.

Lemma arp_get_spec s es ip :
  arp_rep s es -> ip_valid ip -> arp_cache_get_address ip s = first_mac ip es.
Proof.
  intros Hrep Hip. unfold arp_cache_get_address.
  break_upto_with (fun k (_ : unit) => first_mac ip (take (Z.to_nat k) es) = None)
    (fun (k : Z) mac => first_mac ip es = Some mac).
  - lia.
  - done.
  - intros k _ Hk Hnone. destruct (arp_entry_at s es k Hrep ltac:(lia)) as [(e & es1 & es2 & -> & El & Er & Hv & Hm)|[Hl Er]].
    + rewrite Er. rewrite same_spec by (apply Hip || apply Hv).
      replace (Z.to_nat k) with (length es1) in Hnone by lia. rewrite take_app_length in Hnone.
      destruct (bool_decide_reflect (ip = aip e)) as [->|Hne].
      * rewrite first_mac_app, Hnone. cbn. by rewrite decide_True.
      * replace (Z.to_nat (k + 1)) with (length (es1 ++ [e])) by (rewrite length_app; cbn; lia).
        replace (es1 ++ e :: es2) with ((es1 ++ [e]) ++ es2) by (by rewrite <- app_assoc).
        rewrite take_app_length, first_mac_app, Hnone. cbn. by rewrite decide_False.
    + rewrite Er. rewrite same_spec by (apply Hip || done). rewrite bool_decide_false.
      * rewrite take_ge in Hnone |- * by lia. exact Hnone.
      * intros ->. destruct Hip as (_ & _ & Hip). apply Hip. reflexivity.
  - intros _ Hnone. rewrite take_ge in Hnone; [done|]. pose proof (ar_length _ _ Hrep). lia.
  - intros k mac Hk E. by rewrite E.
Qed.

(** What [arp_save_address] makes of the entries. *)
Definition arp_saved ip mac es : Z * list arp_entry :=
  if decide (Arp_entry mac ip ∈ es) then (0, es)
  else if decide (length es < 1024)%nat then (1, es ++ [Arp_entry mac ip]) else (1, es).

Lemma arp_known s es ip mac :
  arp_rep s es -> ip_valid ip -> nth 0 ip 0 <> 0 -> length mac = 6%nat ->
  for_break_upto 0 1024 (fun i (_ : unit) =>
    let e := rd (arp_cache s) i in
    if nth 0 (aip e) 0 =? 0 then inl tt
    else if same 4 ip (aip e) && same 6 mac (amac e) then inr 0 else inl tt) tt =
  if decide (Arp_entry mac ip ∈ es) then inr 0 else inl tt.
Proof.
  intros Hrep Hip Hnz Hmac.
  break_upto_with (fun k (_ : unit) => Arp_entry mac ip ∉ take (Z.to_nat k) es)
    (fun (k : Z) r => r = 0 /\ Arp_entry mac ip ∈ es).
  - lia.
  - apply not_elem_of_nil.
  - intros k _ Hk Hno. destruct (arp_entry_at s es k Hrep ltac:(lia)) as [(e & es1 & es2 & -> & El & Er & Hv & Hm)|[Hl Er]].
    + rewrite Er. cbv zeta. rewrite !same_spec by (apply Hip || apply Hv || done).
      replace (Z.to_nat k) with (length es1) in Hno by lia. rewrite take_app_length in Hno.
      assert (Arp_entry mac ip <> e -> Arp_entry mac ip ∉ take (Z.to_nat (k + 1)) (es1 ++ e :: es2)) as Hnext.
      { intros Hne. replace (Z.to_nat (k + 1)) with (length (es1 ++ [e])) by (rewrite length_app; cbn; lia).
        replace (es1 ++ e :: es2) with ((es1 ++ [e]) ++ es2) by (by rewrite <- app_assoc).
        rewrite take_app_length. intros [Hin|Hin]%elem_of_app; [done|].
        by apply list_elem_of_singleton in Hin. }
      destruct (Z.eqb_spec (nth 0 (aip e) 0) 0) as [E0|E0]; [apply Hnext; intros <-; done|].
      destruct (bool_decide_reflect (ip = aip e)) as [Ei|Ei]; [|apply Hnext; intros <-; done].
      destruct (bool_decide_reflect (mac = amac e)) as [Em|Em]; [|apply Hnext; intros <-; done].
      split; [done|]. apply elem_of_app. right. destruct e as [em ei]. cbn in Ei, Em. subst. left.
    + rewrite Er. cbn [aip zero zero_arp_entry nth]. change (0 =? 0) with true. cbv iota.
      rewrite take_ge in Hno |- * by lia. exact Hno.
  - intros [] Hno. rewrite take_ge in Hno by (pose proof (ar_length _ _ Hrep); lia). by rewrite decide_False.
  - intros k r Hk [-> Hin]. by rewrite decide_True.
Qed.

Lemma arp_save_spec s es ip mac :
  arp_rep s es -> ip_valid ip -> nth 0 ip 0 <> 0 -> length mac = 6%nat ->
  exists s', arp_save_address ip mac s = (fst (arp_saved ip mac es), s') /\
    arp_rep s' (snd (arp_saved ip mac es)) /\ s' = set_arp_cache (arp_cache s') s.
Proof.
  intros Hrep Hip Hnz Hmac. pose proof (arp_known s es ip mac Hrep Hip Hnz Hmac) as Ek.
  unfold arp_save_address. cbv zeta in Ek |- *. rewrite Ek. clear Ek.
  unfold arp_saved. destruct (decide (Arp_entry mac ip ∈ es)).
  { exists s. split; [done|]. split; [done|]. by destruct s. }
  match goal with |- context [for_break_upto 0 1024 ?f tt] =>
    assert (for_break_upto 0 1024 f tt =
      if decide (length es < 1024)%nat then inr (Z.of_nat (length es)) else inl tt) as -> end.
  { break_upto_with (fun k (_ : unit) => k <= Z.of_nat (length es))
      (fun (k : Z) r => r = Z.of_nat (length es) /\ k = r).
    - lia.
    - lia.
    - intros k _ Hk Hle. destruct (arp_entry_at s es k Hrep ltac:(lia)) as [(e & es1 & es2 & -> & El & Er & Hv & Hm)|[Hl Er]].
      + rewrite Er. destruct Hv as (_ & _ & Hv). apply Z.eqb_neq in Hv. cbv zeta. rewrite Hv.
        rewrite length_app. cbn. lia.
      + rewrite Er. change (zero : arp_entry) with (Arp_entry [0; 0; 0; 0; 0; 0] [0; 0; 0; 0]).
        cbn [aip nth]. change (0 + 0 + 0 + 0 =? 0) with true. cbv iota. lia.
    - intros [] Hle. by rewrite decide_False by lia.
    - intros k r Hk [-> ->]. by rewrite decide_True by lia. }
  destruct (decide (length es < 1024)%nat) as [Hl|Hl]; cbn [fst snd].
  2:{ exists s. split; [done|]. split; [done|]. by destruct s. }
  rewrite !take_ge by (rewrite ?(proj1 Hip), ?Hmac; lia).
  eexists. split; [reflexivity|]. split; [|by destruct s]. constructor.
  - rewrite length_app. cbn. lia.
  - intros i e He. change (arp_cache (set_arp_cache ?x s)) with x.
    apply lookup_app_Some in He as [He|[Hi He]].
    + pose proof (lookup_lt_Some _ _ _ He). rewrite rd_wr_ne by lia. by apply (ar_entry _ _ Hrep).
    + apply list_lookup_singleton_Some in He as [Hi' <-]. replace (Z.of_nat i) with (Z.of_nat (length es)) by lia.
      by rewrite rd_wr_eq.
  - intros i Hi. change (arp_cache (set_arp_cache ?x s)) with x. rewrite length_app in Hi. cbn in Hi.
    rewrite rd_wr_ne by lia. apply (ar_free _ _ Hrep). lia.
Qed.

(** The address cache keeps, for each IP address, the first hardware address it was told,
    up to 1024 entries: storing another one for the same address changes no lookup, and
    storing one never changes the lookups of the others. *)
Theorem arp_first_binding s es ip mac :
  arp_rep s es -> ip_valid ip -> nth 0 ip 0 <> 0 -> length mac = 6%nat ->
  exists r s' es', arp_save_address ip mac s = (r, s') /\ arp_rep s' es' /\
    arp_cache_get_address ip s' =
      match arp_cache_get_address ip s with
      | Some old => Some old
      | None => if decide (length es < 1024)%nat then Some mac else None
      end /\
    forall jp, ip_valid jp -> jp <> ip -> arp_cache_get_address jp s' = arp_cache_get_address jp s.
Proof.
  intros Hrep Hip Hnz Hmac. destruct (arp_save_spec s es ip mac Hrep Hip Hnz Hmac) as (s' & E & Hrep' & _).
  exists (fst (arp_saved ip mac es)), s', (snd (arp_saved ip mac es)).
  split; [exact E|]. split; [exact Hrep'|].
  assert (forall jp, ip_valid jp -> first_mac jp (snd (arp_saved ip mac es)) =
    match first_mac jp es with
    | Some old => Some old
    | None => if decide (length es < 1024)%nat then (if decide (jp = ip) then Some mac else None) else None
    end) as Hf.
  { intros jp Hjp. unfold arp_saved. destruct (decide (Arp_entry mac ip ∈ es)) as [Hin|Hin].
    - cbn [snd]. destruct (first_mac jp es) eqn:Ef; [done|]. destruct (decide (jp = ip)) as [->|]; [|by case_decide].
      exfalso. clear -Ef Hin. induction es as [|x es IH]; [by apply not_elem_of_nil in Hin|]. cbn in Ef.
      apply elem_of_cons in Hin as [<-|Hin]; [by rewrite decide_True in Ef|]. case_decide; [done|]. by apply IH.
    - destruct (decide (length es < 1024)%nat); cbn [snd]; [|by destruct (first_mac jp es)].
      rewrite first_mac_app. destruct (first_mac jp es); [done|]. cbn.
      destruct (decide (ip = jp)), (decide (jp = ip)); congruence. }
  split.
  - rewrite (arp_get_spec s' _ ip Hrep' Hip), (arp_get_spec s es ip Hrep Hip), Hf by done.
    by rewrite (decide_True (P := ip = ip)).
  - intros jp Hjp Hne. rewrite (arp_get_spec s' _ jp Hrep' Hjp), (arp_get_spec s es jp Hrep Hjp), Hf by done.
    destruct (first_mac jp es); [done|]. case_decide; [|done]. by rewrite decide_False.
Qed.
End arp.

Section claims.
Context {H : Type} `{AllocatorLaws H}.
Context (nic : list Z -> Z) (receive : net H -> outcome (net H)) (sleep_ : Z -> net H -> net H).
Implicit Types (s : net H) (ip mac : list Z).

Lemma send_keeps buf size s : nheap (snd (send_ethernet_package nic buf size s)) = nheap s.
Proof. unfold send_ethernet_package. by destruct (is_enabled s =? 0). Qed.

(** The request is sent and its block given back, through an address inside it. *)
Lemma arp_request_total ip mac s B :
  heap_ok (nheap s) B -> heap_room (nheap s) 42 -> exists s', arp_request nic ip mac s = Ret s'.
Proof.
  intros Hok Hroom. unfold arp_request.
  destruct (net_malloc_spec s B (sizeof_arp_header + sizeof_ether_header) Hok ltac:(done) Hroom)
    as (p & k & h & E & Hk & Hp & Hh & _).
  rewrite E. cbn [mbind outcome_bind].
  match goal with |- context [send_ethernet_package nic p ?n ?x] => pose proof (send_keeps p n x) as Eh;
    change (nheap x) with h in Eh; destruct (send_ethernet_package nic p n x) as [r s2] end.
  cbn [snd] in Eh.
  unfold net_free. rewrite Eh, (free_inside h _ p k) by (apply lookup_insert_eq || done || (unfold sizeof_ether_header, sizeof_arp_header in *; lia)).
  destruct (free_spec h _ p k Hh (lookup_insert_eq _ _ _)) as (h' & -> & _). by eexists.
Qed.

(** The hardware address of any IP address is the router's: with the router in the cache
    the call returns it at once, whatever address was asked for, and sends nothing; without
    it, and as long as no answer comes, the call sends requests for ever and never returns
    the error its code has for that case. *)
Theorem hardware_address_router s :
  (forall mac fuel (ip : Z), arp_cache_get_address (router_ip s) s = Some mac ->
    get_hardwere_ethernet nic sleep_ (S fuel) ip s = Ret (0, mac, s)) /\
  forall (Quiet : net H -> Prop) B,
    (forall u, Quiet u -> arp_cache_get_address (router_ip u) u = None /\
       heap_ok (nheap u) B /\ heap_room (nheap u) 42) ->
    (forall u v, Quiet u -> arp_request nic (router_ip u) everyone u = Ret v -> Quiet (sleep_ 1000 v)) ->
    Quiet s -> forall fuel (ip : Z), get_hardwere_ethernet nic sleep_ fuel ip s = NoFuel.
Proof.
  split.
  - intros mac fuel ip E. by apply get_hardwere_routed.
  - intros Quiet B Hq Hstep Hs fuel ip. revert s Hs. induction fuel as [|fuel IH]; intros s Hs; [done|].
    destruct (Hq s Hs) as (Hn & Hheap & Hroom). cbn [get_hardwere_ethernet]. rewrite Hn.
    destruct (arp_request_total (router_ip s) everyone s B Hheap Hroom) as (v & Ev). rewrite Ev.
    cbn [mbind outcome_bind]. apply IH. by apply (Hstep s v).
Qed.

(** [udp_receive] reports the length field of the UDP header, which counts the header. *)
Lemma udp_receive_spec fuel swait data len port s s1 dmac smac src dip sport payload :
  is_enabled s <> 0 -> receive s = Ret s1 ->
  let d := rd (packege_desc_buffer s1) 0 in
  let a := p_buf d in
  let n := Z.min len (8 + Z.of_nat (length payload)) in
  p_flag d = 0 -> p_count d = 1 -> 0 <= len < 2 ^ 31 ->
  udp_frame_at (nmem s1) a dmac smac src dip sport port payload ->
  data + n <= a + 42 \/ a + 42 + n <= data ->
  exists s', udp_receive receive (S fuel) swait data len port s = Ret (n, s') /\
    (forall i, 0 <= i < n -> (nmem s')⟦data + i⟧ = (nmem s1)⟦a + 42 + i⟧) /\
    forall b, ~ data <= b < data + n -> (nmem s')⟦b⟧ = (nmem s1)⟦b⟧.
Proof.
  intros He Er d a n Hf Hc Hl [Hip Hsp Hdp Hul Hdata] Hdis.
  assert (udp_find port s1 = inr a) as Ef.
  { unfold udp_find. fold d. rewrite Hc. change (s32 1) with 1. unfold for_break_upto. change (1 - 0) with 1.
    cbn [for_break_pos]. fold d. fold a. unfold sizeof_ether_header, sizeof_ipv4_header.
    replace (a + 14 + 9) with (a + 23) by lia. replace (a + 14 + 20 + 2) with (a + 36) by lia.
    rewrite (if_type _ _ _ _ _ _ _ _ Hip), (if_protocol _ _ _ _ _ _ _ _ Hip), Hdp.
    by rewrite !Z.eqb_refl. }
  assert (udp_poll receive (S fuel) swait 0 port s = Ret (Some a, s1)) as Ep.
  { cbn [udp_poll]. unfold get_ethernet_package. destruct (Z.eqb_spec (is_enabled s) 0); [done|].
    rewrite Er. cbn [mbind outcome_bind]. fold d. rewrite Hf. change (negb (0 =? 0)) with false. cbv iota.
    by rewrite Ef. }
  unfold udp_receive. rewrite Ep. cbn [mbind outcome_bind].
  unfold sizeof_ether_header, sizeof_ipv4_header, sizeof_udp_header.
  replace (a + 14 + 20 + 4) with (a + 38) by lia. replace (a + 14 + 20 + 8) with (a + 42) by lia. rewrite Hul.
  replace (if len <? 8 + Z.of_nat (length payload) then s32 len else 8 + Z.of_nat (length payload)) with n.
  2:{ unfold n. destruct (Z.ltb_spec len (8 + Z.of_nat (length payload))); [rewrite s32_small by lia|]; lia. }
  assert (0 <= n) by (unfold n; lia).
  eexists. split; [reflexivity|]. split.
  - intros i Hi. change (nmem (with_mem _ s1)) with (memcpy (nmem s1) data (a + 42) n).
    rewrite rd_memcpy by lia. destruct (within_spec (data + i) data n); [|lia]. f_equal. lia.
  - intros b Hb. change (nmem (with_mem _ s1)) with (memcpy (nmem s1) data (a + 42) n).
    rewrite rd_memcpy by lia. by destruct (within_spec b data n).
Qed.
(** C39: a datagram from one host to another: [udp_send] puts exactly one frame on the wire and
    gives its block back; when the receiver's card delivers that frame, [udp_receive] on the
    destination port finds it and copies the payload.  What it returns is the length field of
    the UDP header, which counts the header: up to 8 bytes more than were sent. *)
Theorem udp_roundtrip fuel swait src dst sport dport data len s B mac :
  net_ok s -> heap_ok (nheap s) B -> heap_room (nheap s) (42 + len) -> routed s dst mac ->
  0 <= src < 2 ^ 32 -> 0 <= dst < 2 ^ 32 -> 0 <= sport < 2 ^ 16 -> 0 <= dport < 2 ^ 16 ->
  0 <= len < 2 ^ 16 - 42 -> (forall i, 0 <= i < len -> live B (data + i)) ->
  exists s' f, udp_send nic sleep_ (S fuel) src dst sport dport data len s = Ret (len, s') /\
    sent s s' B 0 0 f /\
    forall (r r1 : net H) to n, is_enabled r <> 0 -> receive r = Ret r1 -> bytes_in (nmem r1) ->
      let d := rd (packege_desc_buffer r1) 0 in
      p_flag d = 0 -> p_count d = 1 -> holds (nmem r1) (p_buf d) f -> 0 <= n < 2 ^ 31 ->
      to + n <= p_buf d \/ p_buf d + 50 + len <= to ->
      exists r', udp_receive receive (S fuel) swait to n dport r = Ret (Z.min n (8 + len), r') /\
        forall i, 0 <= i < Z.min n len -> (nmem r')⟦to + i⟧ = (nmem s)⟦data + i⟧.
Proof.
  intros Hok Hheap Hroom Hr Hsrc Hdst Hsp Hdp Hlen Hdata.
  destruct (udp_send_spec nic sleep_ fuel src dst sport dport data len s B mac
    Hok Hheap Hroom Hr Hsrc Hdst Hsp Hdp Hlen Hdata) as (s' & f & E & Hs & Hf).
  exists s', f. split; [exact E|]. split; [exact Hs|].
  intros r r1 to n He Er Hm d Hfl Hc Hh Hn Hdis. pose proof (Hf _ _ Hm Hh) as Hfr.
  pose proof (uf_data _ _ _ _ _ _ _ _ _ Hfr) as Hd.
  destruct (udp_receive_spec fuel swait to n dport r r1 _ _ _ _ _ _ He Er Hfl Hc Hn Hfr) as (r' & E' & Hi & _).
  { fold d. rewrite length_bytes, Z2Nat.id by lia. lia. }
  fold d in E', Hi, Hd. rewrite length_bytes, Z2Nat.id in E', Hi by lia.
  exists r'. split; [exact E'|]. intros i Hi'. rewrite Hi by lia.
  apply (holds_rd (nmem s) (nmem r1) data (p_buf d + 42) len Hd). lia.
Qed.
End claims.

(** ** Examples: a host at 10.0.2.15 whose router is 10.0.2.2, and one live block *)
Definition ex_mac : list Z := [2; 0; 0; 0; 0; 1].
Definition ex_router_mac : list Z := [2; 0; 0; 0; 0; 2].
Definition ex_net : net bump :=
  Net (0x100000 : bump) (poke ∅ 0x2000 [104; 105; 33]) ex_mac 1 1 [10; 0; 2; 15] [10; 0; 2; 2]
    [10; 0; 2; 15] [10; 0; 2; 2] [0; 0; 0; 0] [10; 0; 2; 2] [127; 0; 0; 1]
    {[0 := Arp_entry ex_router_mac [10; 0; 2; 2]]} 0 ∅ 0x8000 ∅ [].
Definition ex_blocks : gmap Z Z := {[0x2000 := 0x1000]}.
Definition ex_nic : list Z -> Z := fun _ => 0.
Definition ex_sleep : Z -> net bump -> net bump := fun _ s => s.

Lemma ex_bytes : bytes_in (nmem ex_net).
Proof.
  change (bytes_in (poke ∅ 0x2000 [104; 105; 33])). cbn [poke].
  repeat (apply bytes_in_wr; [|lia]). apply bytes_in_empty.
Qed.

Lemma ex_bytes_list l : forallb (fun b => (0 <=? b) && (b <? 256)) l = true -> bytes_list l.
Proof. intros E. apply Forall_forall. intros b Hb. rewrite forallb_forall in E. apply list_elem_of_In in Hb. apply E in Hb. lia. Qed.

Lemma ex_net_ok : net_ok ex_net.
Proof.
  constructor; [discriminate| |exact ex_bytes]. split; [reflexivity|]. by apply ex_bytes_list.
Qed.

Lemma ex_heap : heap_ok (nheap ex_net) ex_blocks.
Proof.
  split; [reflexivity|]. intros p k Hp. unfold ex_blocks in Hp. apply lookup_singleton_Some in Hp as [<- <-].
  change (nheap ex_net) with 0x100000. lia.
Qed.

Lemma ex_live a : 0x2000 <= a < 0x3000 -> live ex_blocks a.
Proof. intros Ha. exists 0x2000, 0x1000. split; [reflexivity|lia]. Qed.

Lemma ex_arp_rep : arp_rep ex_net [Arp_entry ex_router_mac [10; 0; 2; 2]].
Proof.
  constructor.
  - cbn. lia.
  - intros i e He. apply list_lookup_singleton_Some in He as [-> <-]. split; [reflexivity|].
    split; [|reflexivity]. split; [reflexivity|]. split; [by apply ex_bytes_list|discriminate].
  - intros i Hi. cbn in Hi. unfold rd. change (arp_cache ex_net) with ({[0 := Arp_entry ex_router_mac [10; 0; 2; 2]]} : gmap Z arp_entry).
    rewrite lookup_singleton_ne by lia. reflexivity.
Qed.

Lemma ex_routed dst : dst <> 0xFFFFFFFF -> routed ex_net dst ex_router_mac.
Proof.
  intros Hd. split; [reflexivity|]. split; [by apply ex_bytes_list|].
  destruct (Z.eqb_spec dst 0xFFFFFFFF); [done|].
  rewrite (arp_get_spec ex_net _ _ ex_arp_rep); [reflexivity|].
  split; [reflexivity|]. split; [by apply ex_bytes_list|discriminate].
Qed.

Example arp_first_binding_witness :
  exists r s', arp_save_address [10; 0; 2; 2] [9; 9; 9; 9; 9; 9] ex_net = (r, s') /\
    arp_cache_get_address [10; 0; 2; 2] s' = Some ex_router_mac.
Proof.
  assert (ip_valid [10; 0; 2; 2]) as Hip.
  { split; [reflexivity|]. split; [by apply ex_bytes_list|discriminate]. }
  destruct (arp_first_binding ex_net _ [10; 0; 2; 2] [9; 9; 9; 9; 9; 9] ex_arp_rep Hip)
    as (r & s' & es' & E & _ & Eg & _).
  - discriminate.
  - reflexivity.
  - exists r, s'. split; [exact E|]. rewrite Eg.
    by rewrite (arp_get_spec ex_net _ _ ex_arp_rep Hip).
Defined.

Example hardware_address_router_witness :
  get_hardwere_ethernet ex_nic ex_sleep 1 0x08080808 ex_net = Ret (0, ex_router_mac, ex_net) /\
  get_hardwere_ethernet ex_nic ex_sleep 9 0x08080808 (set_arp_cache ∅ ex_net) = NoFuel.
Proof.
  split.
  - apply (hardware_address_router ex_nic ex_sleep ex_net).
    apply (ex_routed 0x08080808). discriminate.
  - apply (proj2 (hardware_address_router ex_nic ex_sleep (set_arp_cache ∅ ex_net))
      (fun u => arp_cache u = ∅ /\ router_ip u = [10; 0; 2; 2] /\ exists n : Z, 0x3000 <= n /\ nheap u = n) ex_blocks).
    + intros u (Ha & Hr & n & Hn & Eh). split; [|split].
      * assert (arp_rep u []) as Hrep.
        { constructor; [cbn; lia| |].
          - intros i e He. by rewrite lookup_nil in He.
          - intros i _. by rewrite Ha, rd_empty. }
        rewrite (arp_get_spec u [] _ Hrep); [reflexivity|]. rewrite Hr.
        split; [reflexivity|]. split; [by apply ex_bytes_list|discriminate].
      * rewrite Eh. split; [lia|]. intros p k Hp. unfold ex_blocks in Hp. apply lookup_singleton_Some in Hp as [<- <-]. lia.
      * exact I.
    + intros u v (Ha & Hr & n & Hn & Eh) Ev. unfold arp_request, net_malloc in Ev. rewrite Eh in Ev.
      cbn [malloc bump_allocator mbind outcome_bind] in Ev.
      set (x := arp_packet _ _ _ _ _ _) in Ev.
      assert (arp_cache x = ∅ /\ router_ip x = [10; 0; 2; 2] /\ nheap x = n + 42) as (H1 & H2 & H3).
      { split; [exact Ha|]. split; [exact Hr|reflexivity]. }
      clearbody x. unfold send_ethernet_package in Ev.
      destruct (is_enabled x =? 0); unfold net_free in Ev; cbn [free bump_allocator mbind outcome_bind] in Ev;
        injection Ev as <-; (split; [exact H1|]; split; [exact H2|]; exists (n + 42); split; [lia|exact H3]).
    + split; [reflexivity|]. split; [reflexivity|]. exists 0x100000. split; [lia|reflexivity].
Defined.

Example udp_roundtrip_witness :
  exists s' f, udp_send ex_nic ex_sleep 1 0x0f02000a 0x0202000a 2000 53 0x2000 3 ex_net = Ret (3, s') /\
    wire s' = [f].
Proof.
  destruct (udp_roundtrip ex_nic (fun s => Ret s) ex_sleep 0 (fun _ => true) 0x0f02000a 0x0202000a 2000 53 0x2000 3
    ex_net ex_blocks ex_router_mac) as (s' & f & E & Hs & _).
  - exact ex_net_ok.
  - exact ex_heap.
  - exact I.
  - by apply ex_routed.
  - lia.
  - lia.
  - lia.
  - lia.
  - lia.
  - intros i Hi. apply ex_live. lia.
  - exists s', f. split; [exact E|]. exact (sent_wire _ _ _ _ _ _ Hs).
Defined.
