(* ===== verification/Tcp.v ===== *)
(** * Tcp: connections (kernel/driver/net/tcp.c)

    The table of 1024 connections and the four operations on it: opening ([tcp_connect]),
    receiving ([tcp_ack]), sending ([tcp_send_payload]) and closing ([tcp_finish]).  Segments
    go out through [tcp_send] of Net, whose contract ([tcp_send_spec]) is all the proofs here
    use.  What they need of the heap is room for one segment where they start: each segment frees what it takes
    ([RoomLaws]).  The examples run on the kernel's own heap. *)
From S2P Require Import Prelude KString Bytes Frames Pages Paging Heap Ledger Exec Start Budget Inet Net.

Definition NUM_CONN : Z := 1024.

Section tcp.
Context {H : Type} `{Allocator H}.
Context (nic : list Z -> Z) (sleep_ : Z -> net H -> net H).
(** The fuel of the address resolution and the local that holds the pseudo header. *)
Context (fuel : nat) (phdr : Z).
Implicit Types (s : net H) (c : tcp_connection) (i : Z).

Definition conn_at s i : tcp_connection := rd (queue_conn s) i.

Definition put_conn i c s : net H := set_queue_conn (wr (queue_conn s) i c) s.

Definition init_tcp s : outcome (Z * net H) :=
  '(_, h) ← palloc 0 8 (nheap s);
  Ret (0, s |> set_nheap h |> set_queue_conn ∅).

(** [for (i = 1024; i > 0; i--) { if (P(conn)) break; conn++; }] *)
Definition find_conn (P : tcp_connection -> bool) s : unit + Z :=
  for_break_upto 0 NUM_CONN (fun i (_ : unit) => if P (conn_at s i) then inr i else inl tt) tt.

(** [conn->src_port == port && conn->busy == 1 && conn->status == 0], or [status == 1]. *)
Definition is_open (port : Z) c : bool := (c_src_port c =? port) && (c_busy c =? 1) && (c_status c =? 0).
Definition is_closing (port : Z) c : bool := (c_src_port c =? port) && (c_busy c =? 1) && (c_status c =? 1).

(** [tcp_send] of a connection's own addresses and numbers. *)
Definition send_conn c (flags data length : Z) s : outcome (Z * net H) :=
  tcp_send nic sleep_ fuel phdr (c_src_ip c) (c_dst_ip c) (c_src_port c) (c_dst_port c)
    (c_seq c) (c_ack c) flags data length s.

Definition tcp_connect (src_address dst_address src_port dst_port : Z) s : outcome (Z * net H) :=
  match find_conn (fun c => c_busy c =? 0) s with
  | inl _ => Ret (1, s)
  | inr i =>
      let conn := set_c_busy 1 (conn_at s i) in
      let conn := conn |> set_c_src_ip src_address |> set_c_dst_ip dst_address
        |> set_c_src_port src_port |> set_c_dst_port dst_port
        |> set_c_seq 0 |> set_c_ack 0 |> set_c_pack 0 |> set_c_flags TCP_SYN
        |> set_c_status 0 |> set_c_busy 1 in
      let s := put_conn i conn s in
      '(_, s) ← send_conn conn (c_flags conn) 0 0 s;
      let conn := conn_at s i in
      Ret (0, put_conn i (set_c_seq (u32 (c_seq conn + 1)) conn) s)
  end.

(** How far a segment advances the stream: a [size_t]. *)
Definition advance (flags len : Z) : Z := if Z.land flags TCP_PSH =? 0 then 1 else len.

Definition tcp_ack (src_address dst_address src_port dst_port seq ack flags len : Z) s :
    outcome (Z * net H) :=
  match find_conn (is_open dst_port) s with
  | inl _ => Ret (1, s)
  | inr i =>
      let conn := conn_at s i in
      if negb (c_seq conn =? ack) then Ret (1, s)
      else if u64 (seq + advance flags len) <=? c_ack conn then
        (* retransmission *)
        let conn := set_c_flags TCP_ACK conn in
        '(_, s) ← send_conn conn TCP_ACK 0 0 (put_conn i conn s);
        Ret (1, s)
      else
        let conn := conn |> set_c_pack ack |> set_c_ack seq in
        let conn := set_c_ack (u32 (c_ack conn + advance flags len)) conn in
        let conn := set_c_flags TCP_ACK conn in
        '(_, s) ← send_conn conn (c_flags conn) 0 0 (put_conn i conn s);
        if negb (Z.land flags TCP_FIN =? 0) then
          let conn := set_c_flags (Z.lor TCP_FIN TCP_ACK) (conn_at s i) in
          '(r, s) ← send_conn conn (c_flags conn) 0 0 (put_conn i conn s);
          let conn := set_c_flags (u8 r) (conn_at s i) in
          let conn := set_c_seq (u32 (c_seq conn + 1)) conn in
          Ret (2, put_conn i (set_c_status 1 conn) s)
        else Ret (0, s)
  end.

Definition tcp_send_payload (src_address dst_address src_port dst_port flags data len : Z) s :
    outcome (Z * net H) :=
  match find_conn (is_open src_port) s with
  | inl _ => Ret (1, s)
  | inr i =>
      let conn := set_c_flags flags (conn_at s i) in
      '(_, s) ← send_conn conn (c_flags conn) data len (put_conn i conn s);
      let conn := conn_at s i in
      let conn := set_c_seq (u32 (c_seq conn + len)) conn in
      let conn := if negb (Z.land flags TCP_FIN =? 0) then set_c_status 1 conn else conn in
      Ret (0, put_conn i conn s)
  end.

Definition tcp_finish (src_address dst_address src_port dst_port ack : Z) s : net H :=
  match find_conn (is_closing dst_port) s with
  | inl _ => s
  | inr i =>
      let conn := conn_at s i in
      if negb (c_seq conn =? ack) then s else put_conn i (set_c_busy 0 conn) s
  end.
End tcp.

(** ** Lemmas *)
Section facts.
Context {H : Type} `{Allocator H, !AllocatorLaws H} {HR : RoomLaws H}.
#[local] Set Default Proof Using "Type HR".
Context (nic : list Z -> Z) (sleep_ : Z -> net H -> net H) (fuel : nat) (phdr : Z).
Implicit Types (s : net H) (c : tcp_connection) (i : Z).

(** [i] is the first connection that satisfies [P]. *)
Definition first_conn (P : tcp_connection -> bool) s i : Prop :=
  0 <= i < NUM_CONN /\ P (conn_at s i) = true /\ forall j, 0 <= j < i -> P (conn_at s j) = false.

Lemma find_conn_first P s i : first_conn P s i -> find_conn P s = inr i.
Proof.
  intros (Hi & HP & Hno). unfold find_conn.
  break_upto_with (fun k (_ : unit) => k <= i) (fun (k : Z) r => r = i).
  - lia.
  - lia.
  - intros k _ Hk Hle. destruct (decide (k = i)) as [->|Hne]; [by rewrite HP|].
    rewrite Hno by lia. lia.
  - intros [] Hle. lia.
  - intros k r _ ->. reflexivity.
Qed.

Lemma find_conn_none P s : (forall i, 0 <= i < NUM_CONN -> P (conn_at s i) = false) -> find_conn P s = inl tt.
Proof.
  intros Hno. unfold find_conn.
  break_upto_with (fun (k : Z) (_ : unit) => True) (fun (k : Z) (r : Z) => False); try done.
  - intros k _ Hk _. by rewrite Hno.
  - by intros [].
Qed.

Lemma conn_put i j c s : conn_at (put_conn i c s) j = if j =? i then c else conn_at s j.
Proof. unfold conn_at, put_conn. cbn [queue_conn set_queue_conn]. apply rd_wr. Qed.

(** The host can send to [dst]: the device is up, the route known, the pseudo header's local
    in a live block and there is room for a segment now; a send gives back what it takes, so there is afterwards. *)
Record host_ok s (B : gmap Z Z) (dst : Z) (mac : list Z) : Prop := {
  ho_net : net_ok s;
  ho_heap : heap_ok (nheap s) B;
  ho_route : routed s dst mac;
  ho_local : phdr <> 0 /\ forall i, 0 <= i < 12 -> live B (phdr + i);
  ho_room : forall n, 0 <= n <= 0x10000 -> heap_room (nheap s) n
}.

(** The addresses and numbers of a connection are in range. *)
Record conn_ok c : Prop := {
  co_ips : 0 <= c_src_ip c < 2 ^ 32 /\ 0 <= c_dst_ip c < 2 ^ 32;
  co_ports : 0 <= c_src_port c < 2 ^ 16 /\ 0 <= c_dst_port c < 2 ^ 16;
  co_numbers : 0 <= c_seq c < 2 ^ 32 /\ 0 <= c_ack c < 2 ^ 32
}.

(** The frame [f] carries the segment: wherever it is received it reads so. *)
Definition carries s (f : list Z) (mac : list Z) c (seq ack flags : Z) (data : list Z) : Prop :=
  forall m a, bytes_in m -> holds m a f ->
    tcp_frame_at m a mac (device_mac s) (c_src_ip c) (c_dst_ip c) (c_src_port c) (c_dst_port c)
      seq ack flags data.

Lemma host_put s B dst mac i c : host_ok s B dst mac -> host_ok (put_conn i c s) B dst mac.
Proof. intros [[? ? ?] ? ? ? ?]. by constructor; [constructor|..]. Qed.

Lemma sent_conn s s' B lo n f i : sent s s' B lo n f -> conn_at s' i = conn_at s i.
Proof. intros Hs. unfold conn_at. by rewrite (sent_rest _ _ _ _ _ _ Hs). Qed.

Lemma sent_device s s' B lo n f : sent s s' B lo n f -> device_mac s' = device_mac s.
Proof. intros Hs. by rewrite (sent_rest _ _ _ _ _ _ Hs). Qed.

Lemma host_sent s s' B dst mac lo n f : sent s s' B lo n f -> host_ok s B dst mac -> host_ok s' B dst mac.
Proof.
  intros Hs [[He Hm _] Hh Hr Hl Ho]. destruct Hs as [_ Sh (k & p & h & Hk & Hroom & Em & Ef) Sm _ Sr].
  constructor; [constructor|..].
  - by rewrite Sr.
  - by rewrite Sr.
  - exact Sm.
  - exact Sh.
  - unfold routed in *. by rewrite Sr.
  - exact Hl.
  - intros n' Hn. exact (room_back _ B k p h _ n' Hh Hk Hroom Em Ef (Ho n' Hn)).
Qed.

Lemma send_conn_spec s B mac c flags data len :
  host_ok s B (c_dst_ip c) mac -> conn_ok c -> 0 <= flags < 256 -> 0 <= len < 2 ^ 15 ->
  (forall i, 0 <= i < len -> live B (data + i)) ->
  exists s' f, send_conn nic sleep_ (S fuel) phdr c flags data len s = Ret (len, s') /\
    sent s s' B phdr 12 f /\ carries s f mac c (c_seq c) (c_ack c) flags (bytes (nmem s) data len).
Proof.
  intros [Hn Hh Hr [Hl0 Hl] Ho] [[? ?] [? ?] [? ?]] Hf Hlen Hd. unfold send_conn.
  apply (tcp_send_spec nic sleep_ fuel phdr); try assumption; try lia. apply Ho. lia.
Qed.

(** An answer without data. *)
Lemma send_conn_empty s B mac c flags :
  host_ok s B (c_dst_ip c) mac -> conn_ok c -> 0 <= flags < 256 ->
  exists s' f, send_conn nic sleep_ (S fuel) phdr c flags 0 0 s = Ret (0, s') /\
    sent s s' B phdr 12 f /\ carries s f mac c (c_seq c) (c_ack c) flags [].
Proof.
  intros Hh Hc Hf. destruct (send_conn_spec s B mac c flags 0 0 Hh Hc Hf) as (s' & f & E & Hs & Hcar).
  - lia.
  - intros i Hi. lia.
  - by exists s', f.
Qed.
End facts.

Section claims.
Context {H : Type} `{Allocator H, !AllocatorLaws H} {HR : RoomLaws H}.
#[local] Set Default Proof Using "Type HR".
Context (nic : list Z -> Z) (sleep_ : Z -> net H -> net H) (fuel : nat) (phdr : Z).
Implicit Types (s : net H) (c : tcp_connection) (i : Z).

Abbreviation tcp_ack := (tcp_ack nic sleep_ (S fuel) phdr).
Abbreviation tcp_connect := (tcp_connect nic sleep_ (S fuel) phdr).
Abbreviation tcp_send_payload := (tcp_send_payload nic sleep_ (S fuel) phdr).

(** Connection [i] is the one of the local port [port]; the host can send to its peer. *)
Record connected s B mac port i c : Prop := {
  cn_first : first_conn (is_open port) s i;
  cn_conn : conn_at s i = c;
  cn_ok : conn_ok c;
  cn_host : host_ok phdr s B (c_dst_ip c) mac
}.

(** Frames more, connection [i] now [c], the others, the device and the memory of the live
    blocks (the local of the pseudo header apart) as they were. *)
Record stepped B s s' i c (fs : list (list Z)) : Prop := {
  sp_wire : wire s' = wire s ++ fs;
  sp_conn : conn_at s' i = c;
  sp_others : forall j, j <> i -> conn_at s' j = conn_at s j;
  sp_device : device_mac s' = device_mac s;
  sp_keep : forall b, live B b -> ~ phdr <= b < phdr + 12 -> (nmem s')⟦b⟧ = (nmem s)⟦b⟧
}.

Lemma first_conn_same P B s s' i c fs :
  stepped B s s' i c fs -> P c = true -> first_conn P s i -> first_conn P s' i.
Proof.
  intros [_ Ec Eo _ _] Hc (Hi & _ & Hno). split; [exact Hi|]. split; [by rewrite Ec|].
  intros j Hj. rewrite Eo by lia. by apply Hno.
Qed.

(** Storing connection [i] and answering with it. *)
Lemma put_and_send s B mac i c flags :
  host_ok phdr s B (c_dst_ip c) mac -> conn_ok c -> 0 <= flags < 256 ->
  exists s' f, send_conn nic sleep_ (S fuel) phdr c flags 0 0 (put_conn i c s) = Ret (0, s') /\
    stepped B s s' i c [f] /\ host_ok phdr s' B (c_dst_ip c) mac /\
    carries s f mac c (c_seq c) (c_ack c) flags [].
Proof.
  intros Hh Hc Hf. pose proof (host_put phdr s B (c_dst_ip c) mac i c Hh) as Hh1.
  destruct (send_conn_empty nic sleep_ fuel phdr (put_conn i c s) B mac c flags Hh1 Hc Hf) as (s' & f & E & Hs & Hcar).
  exists s', f. split; [exact E|]. split; [|split; [|exact Hcar]].
  - constructor.
    + exact (sent_wire _ _ _ _ _ _ Hs).
    + rewrite (sent_conn _ _ _ _ _ _ _ Hs), conn_put. by rewrite Z.eqb_refl.
    + intros j Hj. rewrite (sent_conn _ _ _ _ _ _ _ Hs), conn_put. by destruct (Z.eqb_spec j i).
    + exact (sent_device _ _ _ _ _ _ Hs).
    + intros b Hb Hn. by rewrite (sent_keep _ _ _ _ _ _ Hs b Hb Hn).
  - by eapply host_sent.
Qed.

(** The segment that comes next in the stream, or further on. *)
Lemma ack_new s B mac port i c src dst sport seq flags len :
  connected s B mac port i c -> 0 <= seq -> seq + advance flags len < 2 ^ 32 -> 0 <= len ->
  c_ack c < seq + advance flags len -> Z.land flags TCP_FIN = 0 ->
  let c' := c |> set_c_pack (c_seq c) |> set_c_ack (seq + advance flags len) |> set_c_flags TCP_ACK in
  exists s' f, tcp_ack src dst sport port seq (c_seq c) flags len s = Ret (0, s') /\
    stepped B s s' i c' [f] /\ connected s' B mac port i c' /\
    carries s f mac c (c_seq c) (seq + advance flags len) TCP_ACK [].
Proof.
  intros [Hfst Hci Hco Hh] Hseq Hadv Hlen Hnew Hfin c'.
  assert (0 <= advance flags len) as Ha by (unfold advance; destruct (_ =? 0); lia).
  assert (conn_ok c') as Hco' by (destruct Hco as [? ? [? ?]]; constructor; cbn; lia).
  destruct (put_and_send s B mac i c' TCP_ACK Hh Hco' ltac:(done)) as (s' & f & E & Hst & Hh' & Hcar).
  exists s', f. split; [|split; [exact Hst|split; [|exact Hcar]]].
  - unfold Tcp.tcp_ack. rewrite (find_conn_first _ _ _ Hfst), Hci, Z.eqb_refl. cbn [negb].
    rewrite u64_small by lia. destruct (Z.leb_spec (seq + advance flags len) (c_ack c)); [lia|].
    change (c_ack (set_c_ack seq (set_c_pack (c_seq c) c))) with seq. rewrite u32_small by lia.
    change (set_c_flags TCP_ACK _) with c'. change (c_flags c') with TCP_ACK. rewrite E.
    cbn [mbind outcome_bind]. by rewrite Hfin.
  - constructor; [|exact (sp_conn _ _ _ _ _ _ Hst)|exact Hco'|exact Hh'].
    eapply first_conn_same; [exact Hst| |exact Hfst]. destruct Hfst as (_ & Hp & _). by rewrite Hci in Hp.
Qed.

(** A segment that was already received. *)
Lemma ack_old s B mac port i c src dst sport seq flags len :
  connected s B mac port i c -> 0 <= seq -> 0 <= len -> seq + advance flags len <= c_ack c ->
  let c' := set_c_flags TCP_ACK c in
  exists s' f, tcp_ack src dst sport port seq (c_seq c) flags len s = Ret (1, s') /\
    stepped B s s' i c' [f] /\ connected s' B mac port i c' /\
    carries s f mac c (c_seq c) (c_ack c) TCP_ACK [].
Proof.
  intros [Hfst Hci Hco Hh] Hseq Hlen Hold c'.
  assert (0 <= advance flags len) as Ha by (unfold advance; destruct (_ =? 0); lia).
  assert (conn_ok c') as Hco' by (by destruct Hco as [? ? [? ?]]; constructor).
  destruct (put_and_send s B mac i c' TCP_ACK Hh Hco' ltac:(done)) as (s' & f & E & Hst & Hh' & Hcar).
  exists s', f. split; [|split; [exact Hst|split; [|exact Hcar]]].
  - unfold Tcp.tcp_ack. rewrite (find_conn_first _ _ _ Hfst), Hci, Z.eqb_refl. cbn [negb].
    destruct Hco as [_ _ [_ ?]]. rewrite u64_small by lia.
    destruct (Z.leb_spec (seq + advance flags len) (c_ack c)); [|lia].
    change (set_c_flags TCP_ACK c) with c'. by rewrite E.
  - constructor; [|exact (sp_conn _ _ _ _ _ _ Hst)|exact Hco'|exact Hh'].
    eapply first_conn_same; [exact Hst| |exact Hfst]. destruct Hfst as (_ & Hp & _). by rewrite Hci in Hp.
Qed.

(** *** The stream *)

(** Data segments arriving one after the other: sequence number and length; the results of
    [tcp_ack], 0 for a segment handed on to the socket. *)
Fixpoint receive_segments (src dst sport port ack : Z) (segs : list (Z * Z)) s : outcome (list Z * net H) :=
  match segs with
  | [] => Ret ([], s)
  | (seq, len) :: segs =>
      '(r, s) ← tcp_ack src dst sport port seq ack (Z.lor TCP_ACK TCP_PSH) len s;
      '(rs, s) ← receive_segments src dst sport port ack segs s;
      Ret (r :: rs, s)
  end.

(** From position [a]: each segment is the next one or one received before. *)
Inductive arrivals : Z -> list (Z * Z) -> list Z -> Z -> Prop :=
| arr_done a : arrivals a [] [] a
| arr_next a len segs rs b :
    0 < len -> a + len < 2 ^ 32 -> arrivals (a + len) segs rs b -> arrivals a ((a, len) :: segs) (0 :: rs) b
| arr_old a seq len segs rs b :
    0 <= seq -> 0 < len -> seq + len <= a -> arrivals a segs rs b -> arrivals a ((seq, len) :: segs) (1 :: rs) b.

(** The numbers the answers acknowledge: the end of what has arrived, which an old segment does not move. *)
Fixpoint answers (a : Z) (segs : list (Z * Z)) : list Z :=
  match segs with
  | [] => []
  | (seq, len) :: segs => let a := Z.max a (seq + len) in a :: answers a segs
  end.

Lemma carries_same s s' f mac c c' seq ack flags data :
  device_mac s' = device_mac s -> c_src_ip c' = c_src_ip c -> c_dst_ip c' = c_dst_ip c ->
  c_src_port c' = c_src_port c -> c_dst_port c' = c_dst_port c ->
  carries s' f mac c' seq ack flags data -> carries s f mac c seq ack flags data.
Proof. unfold carries. intros -> -> -> -> -> Hf. exact Hf. Qed.

(** C22: in-order delivery without duplicates: whatever mix of next segments and
    retransmissions arrives (below the wrap of the sequence numbers), exactly the next ones
    are handed on; every arrival, the old ones too, is answered with one frame, an ACK without data that
    carries the connection's own sequence number and acknowledges all that has arrived so far; the connection ends
    expecting the byte behind the last one, and the other connections are not touched.  The heap needs room
    for a segment at the start only. *)
Theorem tcp_stream_exactly_once s B mac port i c src dst sport segs rs b :
  connected s B mac port i c -> arrivals (c_ack c) segs rs b ->
  exists s' fs, receive_segments src dst sport port (c_seq c) segs s = Ret (rs, s') /\
    wire s' = wire s ++ fs /\
    Forall2 (fun f n => carries s f mac c (c_seq c) n TCP_ACK []) fs (answers (c_ack c) segs) /\
    c_ack (conn_at s' i) = b /\ c_seq (conn_at s' i) = c_seq c /\
    (exists c', connected s' B mac port i c') /\
    forall j, j <> i -> conn_at s' j = conn_at s j.
Proof.
  intros Hcn Harr. remember (c_ack c) as a eqn:Ea. revert s c Hcn Ea.
  induction Harr as [a|a len segs rs b Hl Hb _ IH|a seq len segs rs b Hs Hl Hb _ IH]; intros s c Hcn ->.
  - exists s, []. cbn. split; [done|]. rewrite app_nil_r, (cn_conn _ _ _ _ _ _ Hcn).
    split; [done|]. split; [constructor|]. split; [done|]. split; [done|]. split; [by exists c|done].
  - destruct (co_numbers _ (cn_ok _ _ _ _ _ _ Hcn)) as [_ Hack].
    assert (advance (Z.lor TCP_ACK TCP_PSH) len = len) as Eadv by done.
    destruct (ack_new s B mac port i c src dst sport (c_ack c) (Z.lor TCP_ACK TCP_PSH) len Hcn)
      as (s1 & f & E & Hst & Hcn1 & Hcar); [lia|lia|lia|lia|done|].
    destruct (IH s1 _ Hcn1) as (s2 & fs & E2 & Hw & Hans & Hak & Hsq & Hc2 & Ho).
    { cbn [c_ack set_c_flags set_c_ack]. by rewrite Eadv. }
    exists s2, (f :: fs). cbn [receive_segments answers]. rewrite E. cbn [mbind outcome_bind].
    change (c_seq (set_c_flags TCP_ACK _)) with (c_seq c) in E2, Hsq, Hans. rewrite E2. cbn [mbind outcome_bind].
    split; [done|]. split; [by rewrite Hw, (sp_wire _ _ _ _ _ _ Hst), <- app_assoc|].
    split; [|split; [exact Hak|split; [exact Hsq|split; [exact Hc2|]]]].
    + rewrite Eadv in Hcar. rewrite Z.max_r by lia. constructor; [exact Hcar|].
      refine (Forall2_impl _ _ _ _ Hans _). intros g n. by apply carries_same; [apply Hst|..].
    + intros j Hj. rewrite Ho by done. by apply (sp_others _ _ _ _ _ _ Hst).
  - assert (advance (Z.lor TCP_ACK TCP_PSH) len = len) as Eadv by done.
    destruct (ack_old s B mac port i c src dst sport seq (Z.lor TCP_ACK TCP_PSH) len Hcn)
      as (s1 & f & E & Hst & Hcn1 & Hcar); [lia|lia|lia|].
    destruct (IH s1 _ Hcn1 eq_refl) as (s2 & fs & E2 & Hw & Hans & Hak & Hsq & Hc2 & Ho).
    exists s2, (f :: fs). cbn [receive_segments answers]. rewrite E. cbn [mbind outcome_bind].
    change (c_seq (set_c_flags TCP_ACK c)) with (c_seq c) in E2, Hsq, Hans. rewrite E2. cbn [mbind outcome_bind].
    split; [done|]. split; [by rewrite Hw, (sp_wire _ _ _ _ _ _ Hst), <- app_assoc|].
    split; [|split; [exact Hak|split; [exact Hsq|split; [exact Hc2|]]]].
    + rewrite Z.max_l by lia. constructor; [exact Hcar|].
      refine (Forall2_impl _ _ _ _ Hans _). intros g n. by apply carries_same; [apply Hst|..].
    + intros j Hj. rewrite Ho by done. by apply (sp_others _ _ _ _ _ _ Hst).
Qed.

(** What the receiver does not check: a data segment that starts beyond the expected byte
    is accepted and acknowledged like the next one, and the bytes in between are lost; and a
    retransmission of the segment that took the sequence numbers past 2^32 is accepted a
    second time. *)
Theorem tcp_ack_accepts_gap s B mac port i c src dst sport seq len :
  connected s B mac port i c -> 0 < len -> 0 <= seq < 2 ^ 32 ->
  (c_ack c < seq /\ seq + len < 2 ^ 32) \/ (2 ^ 32 <= seq + len < 2 ^ 33 /\ c_ack c = u32 (seq + len)) ->
  exists s', tcp_ack src dst sport port seq (c_seq c) (Z.lor TCP_ACK TCP_PSH) len s = Ret (0, s') /\
    c_ack (conn_at s' i) = u32 (seq + len) /\ length (wire s') = S (length (wire s)).
Proof.
  intros [Hfst Hci Hco Hh] Hlen Hseq Hcase.
  assert (advance (Z.lor TCP_ACK TCP_PSH) len = len) as Eadv by done.
  set (c' := c |> set_c_pack (c_seq c) |> set_c_ack (u32 (seq + len)) |> set_c_flags TCP_ACK).
  assert (conn_ok c') as Hco'.
  { destruct Hco as [? ? [? ?]]. constructor; cbn; try done. split; [done|apply u32_range]. }
  destruct (put_and_send s B mac i c' TCP_ACK Hh Hco' ltac:(done)) as (s' & f & E & Hst & Hh' & _).
  exists s'. split; [|split].
  - unfold Tcp.tcp_ack. rewrite (find_conn_first _ _ _ Hfst), Hci, Z.eqb_refl. cbn [negb].
    rewrite Eadv. destruct Hco as [_ _ [_ Hack]].
    assert (u64 (seq + len) = seq + len) as -> by (apply u64_small; lia).
    destruct (Z.leb_spec (seq + len) (c_ack c)) as [Hle|_].
    { exfalso. destruct Hcase as [?|[? Ea]]; [lia|]. pose proof (u32_range (seq + len)). lia. }
    change (c_ack (set_c_ack seq (set_c_pack (c_seq c) c))) with seq.
    change (set_c_flags TCP_ACK _) with c'. change (c_flags c') with TCP_ACK. rewrite E. reflexivity.
  - by rewrite (sp_conn _ _ _ _ _ _ Hst).
  - rewrite (sp_wire _ _ _ _ _ _ Hst), length_app. cbn. lia.
Qed.

(** *** Opening and closing *)

Lemma tcp_connect_full src dst sport dport s :
  (forall i, 0 <= i < NUM_CONN -> c_busy (conn_at s i) <> 0) -> tcp_connect src dst sport dport s = Ret (1, s).
Proof.
  intros Hb. unfold Tcp.tcp_connect. rewrite find_conn_none; [done|].
  intros i Hi. apply Z.eqb_neq. by apply Hb.
Qed.

(** [tcp_connect] in the first free slot. *)
Lemma tcp_connect_spec s B mac src dst sport dport i :
  first_conn (fun c => c_busy c =? 0) s i ->
  (forall j, 0 <= j < NUM_CONN -> is_open sport (conn_at s j) = false) ->
  host_ok phdr s B dst mac -> 0 <= src < 2 ^ 32 -> 0 <= dst < 2 ^ 32 ->
  0 <= sport < 2 ^ 16 -> 0 <= dport < 2 ^ 16 ->
  let c := Tcp_connect src dst sport dport 0 0 0 TCP_SYN 0 1 in
  exists s' f, tcp_connect src dst sport dport s = Ret (0, s') /\ stepped B s s' i (set_c_seq 1 c) [f] /\
    connected s' B mac sport i (set_c_seq 1 c) /\ carries s f mac c 0 0 TCP_SYN [].
Proof.
  intros Hfst Hno Hh Hs Hd Hsp Hdp c. assert (conn_ok c) as Hco by (constructor; cbn; lia).
  destruct (put_and_send s B mac i c TCP_SYN Hh Hco ltac:(done)) as (s' & f & E & Hst & Hh' & Hcar).
  exists (put_conn i (set_c_seq 1 c) s'), f.
  assert (stepped B s (put_conn i (set_c_seq 1 c) s') i (set_c_seq 1 c) [f]) as Hst1.
  { constructor; [exact (sp_wire _ _ _ _ _ _ Hst)|by rewrite conn_put, Z.eqb_refl| |exact (sp_device _ _ _ _ _ _ Hst)|exact (sp_keep _ _ _ _ _ _ Hst)].
    intros j Hj. rewrite conn_put. destruct (Z.eqb_spec j i); [done|]. by apply (sp_others _ _ _ _ _ _ Hst). }
  split; [|split; [exact Hst1|split; [|exact Hcar]]].
  - unfold Tcp.tcp_connect. rewrite (find_conn_first _ _ _ Hfst).
    change (set_c_busy 1 _) with c. change (c_flags c) with TCP_SYN. rewrite E. cbn [mbind outcome_bind].
    by rewrite (sp_conn _ _ _ _ _ _ Hst).
  - constructor; [|exact (sp_conn _ _ _ _ _ _ Hst1)|constructor; cbn; lia|by apply host_put].
    destruct Hfst as (Hi & _ & _). split; [exact Hi|]. split.
    + rewrite (sp_conn _ _ _ _ _ _ Hst1). unfold is_open. cbn. by rewrite Z.eqb_refl.
    + intros j Hj. rewrite (sp_others _ _ _ _ _ _ Hst1) by lia. apply Hno. unfold NUM_CONN in *. lia.
Qed.

(** C23: the handshake: [tcp_connect] takes the first free slot and sends a SYN with sequence
    number 0; the peer's SYN|ACK, whatever its sequence number (but the last), is answered
    with the ACK of the next byte, and the connection is then open with its numbers at 1 and
    one past the peer's. *)
Theorem tcp_handshake s B mac src dst sport dport i peer :
  first_conn (fun c => c_busy c =? 0) s i ->
  (forall j, 0 <= j < NUM_CONN -> is_open sport (conn_at s j) = false) ->
  host_ok phdr s B dst mac -> 0 <= src < 2 ^ 32 -> 0 <= dst < 2 ^ 32 ->
  0 <= sport < 2 ^ 16 -> 0 <= dport < 2 ^ 16 -> 0 <= peer < 2 ^ 32 - 1 ->
  let c := Tcp_connect src dst sport dport 0 0 0 TCP_SYN 0 1 in
  exists s1 s2 syn ack c', tcp_connect src dst sport dport s = Ret (0, s1) /\
    tcp_ack dst src dport sport peer 1 (Z.lor TCP_SYN TCP_ACK) 0 s1 = Ret (0, s2) /\
    wire s2 = wire s ++ [syn; ack] /\
    carries s syn mac c 0 0 TCP_SYN [] /\ carries s ack mac c 1 (peer + 1) TCP_ACK [] /\
    connected s2 B mac sport i c' /\ c_seq c' = 1 /\ c_ack c' = peer + 1.
Proof.
  intros Hfst Hno Hh Hs Hd Hsp Hdp Hp c.
  destruct (tcp_connect_spec s B mac src dst sport dport i Hfst Hno Hh Hs Hd Hsp Hdp)
    as (s1 & f1 & E1 & Hst1 & Hcn1 & Hcar1).
  assert (advance (Z.lor TCP_SYN TCP_ACK) 0 = 1) as Ea by done.
  destruct (ack_new s1 B mac sport i _ dst src dport peer (Z.lor TCP_SYN TCP_ACK) 0 Hcn1)
    as (s2 & f2 & E2 & Hst2 & Hcn2 & Hcar2); [lia|rewrite Ea; lia|lia|rewrite Ea; cbn; lia|done|].
  exists s1, s2, f1, f2. eexists. split; [exact E1|]. split; [exact E2|].
  split; [by rewrite (sp_wire _ _ _ _ _ _ Hst2), (sp_wire _ _ _ _ _ _ Hst1), <- app_assoc|].
  split; [exact Hcar1|]. split.
  - intros m a Hm Hf. rewrite <- (sp_device _ _ _ _ _ _ Hst1). by apply Hcar2.
  - split; [exact Hcn2|]. done.
Qed.

Lemma finish_match s port i src dst sport ack :
  first_conn (is_closing port) s i ->
  tcp_finish src dst sport port ack s =
  if c_seq (conn_at s i) =? ack then put_conn i (set_c_busy 0 (conn_at s i)) s else s.
Proof.
  intros Hf. unfold tcp_finish. rewrite (find_conn_first _ _ _ Hf).
  by destruct (c_seq (conn_at s i) =? ack).
Qed.

(** The peer closes: its FIN|ACK is answered with the ACK and with a FIN|ACK of our own,
    and once the peer acknowledges that one the slot is free again. *)
Theorem tcp_passive_close s B mac port i c src dst sport :
  connected s B mac port i c -> c_ack c + 1 < 2 ^ 32 -> c_seq c + 1 < 2 ^ 32 ->
  (forall j, 0 <= j < i -> is_closing port (conn_at s j) = false) ->
  exists s1 fin ack, tcp_ack src dst sport port (c_ack c) (c_seq c) (Z.lor TCP_FIN TCP_ACK) 0 s = Ret (2, s1) /\
    wire s1 = wire s ++ [ack; fin] /\
    carries s ack mac c (c_seq c) (c_ack c + 1) TCP_ACK [] /\
    carries s fin mac c (c_seq c) (c_ack c + 1) (Z.lor TCP_FIN TCP_ACK) [] /\
    c_busy (conn_at s1 i) = 1 /\ is_open port (conn_at s1 i) = false /\
    c_busy (conn_at (tcp_finish src dst sport port (c_seq c + 1) s1) i) = 0.
Proof.
  intros [Hfst Hci Hco Hh] Ha Hq Hno.
  assert (advance (Z.lor TCP_FIN TCP_ACK) 0 = 1) as Eadv by done.
  set (c1 := c |> set_c_pack (c_seq c) |> set_c_ack (c_ack c + 1) |> set_c_flags TCP_ACK).
  assert (conn_ok c1) as Hco1 by (destruct Hco as [? ? [? ?]]; constructor; cbn; lia).
  destruct (put_and_send s B mac i c1 TCP_ACK Hh Hco1 ltac:(done)) as (s1 & f1 & E1 & Hst1 & Hh1 & Hcar1).
  set (c2 := set_c_flags (Z.lor TCP_FIN TCP_ACK) c1).
  assert (conn_ok c2) as Hco2 by (by destruct Hco1; constructor).
  destruct (put_and_send s1 B mac i c2 (Z.lor TCP_FIN TCP_ACK) Hh1 Hco2 ltac:(done)) as (s2 & f2 & E2 & Hst2 & Hh2 & Hcar2).
  set (c3 := c2 |> set_c_flags 0 |> set_c_seq (c_seq c + 1) |> set_c_status 1).
  pose proof Hfst as (Hi & Hop & _). rewrite Hci in Hop. unfold is_open in Hop.
  apply andb_true_iff in Hop as [[Hport Hbusy]%andb_true_iff _].
  assert (first_conn (is_closing port) (put_conn i c3 s2) i) as Hclose.
  { split; [exact Hi|]. split.
    - rewrite conn_put, Z.eqb_refl. unfold is_closing. cbn. by rewrite Hport, Hbusy.
    - intros j Hj. rewrite conn_put. destruct (Z.eqb_spec j i); [lia|].
      rewrite (sp_others _ _ _ _ _ _ Hst2), (sp_others _ _ _ _ _ _ Hst1) by lia. apply Hno. lia. }
  exists (put_conn i c3 s2), f2, f1. split; [|split; [|split; [exact Hcar1|split; [|split; [|split]]]]].
  - unfold Tcp.tcp_ack. rewrite (find_conn_first _ _ _ Hfst), Hci, Z.eqb_refl. cbn [negb].
    destruct Hco as [_ _ [? ?]]. rewrite Eadv. rewrite u64_small by lia.
    destruct (Z.leb_spec (c_ack c + 1) (c_ack c)); [lia|].
    change (c_ack (set_c_ack (c_ack c) (set_c_pack (c_seq c) c))) with (c_ack c). rewrite u32_small by lia.
    change (set_c_flags TCP_ACK _) with c1. change (c_flags c1) with TCP_ACK. rewrite E1.
    cbn [mbind outcome_bind]. change (negb (Z.land (Z.lor TCP_FIN TCP_ACK) TCP_FIN =? 0)) with true. cbv iota.
    rewrite (sp_conn _ _ _ _ _ _ Hst1). change (set_c_flags (Z.lor TCP_FIN TCP_ACK) c1) with c2.
    change (c_flags c2) with (Z.lor TCP_FIN TCP_ACK). rewrite E2. cbn [mbind outcome_bind].
    rewrite (sp_conn _ _ _ _ _ _ Hst2). change (c_seq (set_c_flags (u8 0) c2)) with (c_seq c).
    rewrite u32_small by lia. reflexivity.
  - change (wire (put_conn i c3 s2)) with (wire s2).
    by rewrite (sp_wire _ _ _ _ _ _ Hst2), (sp_wire _ _ _ _ _ _ Hst1), <- app_assoc.
  - intros m a Hm Hf. rewrite <- (sp_device _ _ _ _ _ _ Hst1). by apply Hcar2.
  - rewrite conn_put, Z.eqb_refl. by apply Z.eqb_eq in Hbusy.
  - rewrite conn_put, Z.eqb_refl. unfold is_open. cbn. apply andb_false_r.
  - rewrite (finish_match _ _ i) by exact Hclose. rewrite !conn_put, Z.eqb_refl.
    change (c_seq c3) with (c_seq c + 1). rewrite Z.eqb_refl. by rewrite conn_put, Z.eqb_refl.
Qed.

(** When the program closes first, the slot is lost: the FIN sent by [tcp_send_payload] is
    not counted in the sequence number, so the peer's acknowledgement of it never matches in
    [tcp_finish], and the peer's own FIN finds no open connection. *)
Theorem tcp_active_close_leaks s B mac port i c src dst sport data len :
  connected s B mac port i c -> 0 <= len < 2 ^ 15 -> (forall k, 0 <= k < len -> live B (data + k)) ->
  (forall j, 0 <= j < NUM_CONN -> j <> i -> is_open port (conn_at s j) = false /\ is_closing port (conn_at s j) = false) ->
  exists s', tcp_send_payload dst src port sport (Z.lor TCP_FIN TCP_ACK) data len s = Ret (0, s') /\
    c_busy (conn_at s' i) = 1 /\
    tcp_finish src dst sport port (u32 (c_seq c + len + 1)) s' = s' /\
    forall seq ack flags n, tcp_ack src dst sport port seq ack flags n s' = Ret (1, s').
Proof.
  intros [Hfst Hci Hco Hh] Hlen Hdata Hno.
  set (c1 := set_c_flags (Z.lor TCP_FIN TCP_ACK) c).
  assert (conn_ok c1) as Hco1 by (by destruct Hco; constructor).
  destruct (send_conn_spec nic sleep_ fuel phdr (put_conn i c1 s) B mac c1 (Z.lor TCP_FIN TCP_ACK) data len)
    as (s1 & f & E & Hs & _); [by apply host_put|done|done|lia|done|].
  assert (conn_at s1 i = c1) as E1.
  { rewrite (sent_conn _ _ _ _ _ _ _ Hs), conn_put. by rewrite Z.eqb_refl. }
  set (c2 := c1 |> set_c_seq (u32 (c_seq c + len)) |> set_c_status 1).
  pose proof Hfst as (Hi & Hop & _). rewrite Hci in Hop. unfold is_open in Hop.
  apply andb_true_iff in Hop as [[Hport Hbusy]%andb_true_iff _].
  assert (forall j, 0 <= j < NUM_CONN -> j <> i ->
    is_open port (conn_at (put_conn i c2 s1) j) = false /\ is_closing port (conn_at (put_conn i c2 s1) j) = false) as Hno'.
  { intros j Hj Hji. rewrite conn_put. destruct (Z.eqb_spec j i); [done|].
    rewrite (sent_conn _ _ _ _ _ _ _ Hs), conn_put. destruct (Z.eqb_spec j i); [done|]. by apply Hno. }
  exists (put_conn i c2 s1). split; [|split; [|split]].
  - unfold Tcp.tcp_send_payload. rewrite (find_conn_first _ _ _ Hfst), Hci.
    fold c1. change (c_flags c1) with (Z.lor TCP_FIN TCP_ACK). rewrite E. cbn [mbind outcome_bind].
    rewrite E1. reflexivity.
  - rewrite conn_put, Z.eqb_refl. by apply Z.eqb_eq in Hbusy.
  - rewrite (finish_match _ _ i).
    + rewrite conn_put, Z.eqb_refl. change (c_seq c2) with (u32 (c_seq c + len)).
      destruct (Z.eqb_spec (u32 (c_seq c + len)) (u32 (c_seq c + len + 1))); [word_lia|done].
    + split; [exact Hi|]. split.
      * rewrite conn_put, Z.eqb_refl. unfold is_closing. cbn. by rewrite Hport, Hbusy.
      * intros j Hj. apply Hno'; unfold NUM_CONN in *; lia.
  - intros seq ack flags n. unfold Tcp.tcp_ack. rewrite find_conn_none; [done|].
    intros j Hj. destruct (decide (j = i)) as [->|Hne]; [|by apply Hno'].
    rewrite conn_put, Z.eqb_refl. unfold is_open. cbn. apply andb_false_r.
Qed.
End claims.

(** ** Examples: port 2000 of the example host, connected to port 80 of 10.0.2.2 *)
Definition ex_conn : tcp_connection := Tcp_connect 0x0f02000a 0x0202000a 2000 80 1 101 0 TCP_ACK 0 1.
Definition ex_connected : net bump := set_queue_conn {[0 := ex_conn]} ex_net.

Lemma ex_host s :
  net_ok s -> nheap s = nheap ex_net -> arp_cache s = arp_cache ex_net -> router_ip s = router_ip ex_net ->
  host_ok 0x2f00 s ex_blocks 0x0202000a ex_router_mac.
Proof.
  intros Hn Hh Ha Hr. constructor.
  - exact Hn.
  - rewrite Hh. exact ex_heap.
  - destruct (ex_routed 0x0202000a ltac:(discriminate)) as (R1 & R2 & R3). split; [exact R1|]. split; [exact R2|].
    change (0x0202000a =? 0xFFFFFFFF) with false in R3 |- *. cbv iota in R3 |- *.
    unfold arp_cache_get_address in *. by rewrite Ha, Hr.
  - split; [discriminate|]. intros i Hi. apply ex_live. lia.
  - intros n _. exact I.
Qed.

Lemma ex_connected_ok : connected 0x2f00 ex_connected ex_blocks ex_router_mac 2000 0 ex_conn.
Proof.
  constructor.
  - split; [unfold NUM_CONN; lia|]. split; [reflexivity|]. intros j Hj. lia.
  - reflexivity.
  - constructor; cbn; lia.
  - apply ex_host; try reflexivity. destruct ex_net_ok. by constructor.
Qed.

Lemma ex_other j : j <> 0 -> conn_at ex_connected j = zero.
Proof. intros Hj. unfold conn_at, rd. change (queue_conn ex_connected) with ({[0 := ex_conn]} : gmap Z tcp_connection). by rewrite lookup_singleton_ne by lia. Qed.

(** The same host on the kernel's own heap, with the local of the pseudo header in a block of it. *)
Definition kernel_net (h : mm) (conns : gmap Z tcp_connection) : net mm :=
  Net h ∅ ex_mac 1 1 [10; 0; 2; 15] [10; 0; 2; 2] [10; 0; 2; 15] [10; 0; 2; 2] [0; 0; 0; 0] [10; 0; 2; 2] [127; 0; 0; 1]
    (arp_cache ex_net) 0 conns 0x8000 ∅ [].
Definition kernel_sleep : Z -> net mm -> net mm := fun _ s => s.

Lemma kernel_host l s0 B0 h B t conns :
  more l s0 B0 h B 1618 -> 0 < t -> is_Some (heap_blocks B !! t) ->
  host_ok t (kernel_net h conns) (heap_blocks B) 0x0202000a ex_router_mac.
Proof.
  intros M Ht [k HB]. constructor.
  - constructor; [discriminate| |exact bytes_in_empty]. split; [reflexivity|]. by apply ex_bytes_list.
  - exists B. split; [exact (mo_ok _ _ _ _ _ _ M)|done].
  - destruct (ex_routed 0x0202000a ltac:(discriminate)) as (R1 & R2 & R3). split; [exact R1|]. split; [exact R2|]. exact R3.
  - split; [lia|]. intros i Hi. exists t, k. split; [done|]. apply heap_blocks_Some in HB as (a & n & -> & -> & Ha).
    destruct (proj1 (proj1 (ok_rep _ _ (mo_ok _ _ _ _ _ _ M))) _ _ Ha) as [_ Hn]. lia.
  - intros n Hn. apply (mm_room_intro h B); [exact (mo_ok _ _ _ _ _ _ M)|..].
    + apply (pages_room_less B 1618); [word_lia|apply M].
    + refine (frames_room_less h 1618 _ _ (mo_frames _ _ _ _ _ _ M)). word_lia.
Qed.

Lemma kernel_connected l s0 B0 h B t : more l s0 B0 h B 1618 -> 0 < t -> is_Some (heap_blocks B !! t) ->
  connected t (kernel_net h {[0 := ex_conn]}) (heap_blocks B) ex_router_mac 2000 0 ex_conn.
Proof.
  intros M Ht HB. constructor.
  - split; [unfold NUM_CONN; lia|]. split; [reflexivity|]. intros j Hj. lia.
  - reflexivity.
  - constructor; cbn; lia.
  - exact (kernel_host l s0 B0 h B t _ M Ht HB).
Qed.

Example tcp_stream_exactly_once_witness :
  exists h t s' f1 f2 f3, receive_segments ex_nic kernel_sleep 0 t 0x0202000a 0x0f02000a 80 2000 1
      [(101, 10); (101, 10); (111, 5)] (kernel_net h {[0 := ex_conn]}) = Ret ([0; 1; 0], s') /\
    wire s' = [f1; f2; f3] /\ c_ack (conn_at s' 0) = 116 /\
    carries (kernel_net h {[0 := ex_conn]}) f2 ex_router_mac ex_conn 1 111 TCP_ACK [].
Proof.
  destruct first_boot as (t & h & B & l & Ht & HB & M).
  destruct (tcp_stream_exactly_once ex_nic kernel_sleep 0 t (kernel_net h {[0 := ex_conn]}) (heap_blocks B) ex_router_mac
    2000 0 ex_conn 0x0202000a 0x0f02000a 80 [(101, 10); (101, 10); (111, 5)] [0; 1; 0] 116
    (kernel_connected l _ _ h B t M Ht HB)) as (s' & fs & E & Hw & Hans & Ha & _).
  - change (c_ack ex_conn) with 101. apply arr_next; [lia|lia|]. apply arr_old; [lia|lia|lia|].
    change (101 + 10) with 111. apply arr_next; [lia|lia|]. apply arr_done.
  - change (answers (c_ack ex_conn) [(101, 10); (101, 10); (111, 5)]) with [111; 111; 116] in Hans.
    apply Forall2_cons_inv_r in Hans as (f1 & ? & _ & Hans & ->).
    apply Forall2_cons_inv_r in Hans as (f2 & ? & Hf2 & Hans & ->).
    apply Forall2_cons_inv_r in Hans as (f3 & ? & _ & Hans & ->). apply Forall2_nil_inv_r in Hans as ->.
    exists h, t, s', f1, f2, f3. split; [exact E|]. split; [exact Hw|]. split; [exact Ha|exact Hf2].
Defined.

Example tcp_ack_accepts_gap_witness :
  exists s', tcp_ack ex_nic ex_sleep 1 0x2f00 0x0202000a 0x0f02000a 80 2000 500 1 24 10 ex_connected = Ret (0, s') /\
    c_ack (conn_at s' 0) = 510.
Proof.
  destruct (tcp_ack_accepts_gap ex_nic ex_sleep 0 0x2f00 ex_connected ex_blocks ex_router_mac 2000 0 ex_conn
    0x0202000a 0x0f02000a 80 500 10 ex_connected_ok) as (s' & E & Ha & _).
  - lia.
  - lia.
  - left. cbn. lia.
  - exists s'. split; [exact E|exact Ha].
Defined.

Example tcp_handshake_witness :
  exists h t s1 s2, tcp_connect ex_nic kernel_sleep 1 t 0x0f02000a 0x0202000a 2000 80 (kernel_net h ∅) = Ret (0, s1) /\
    tcp_ack ex_nic kernel_sleep 1 t 0x0202000a 0x0f02000a 80 2000 100 1 18 0 s1 = Ret (0, s2).
Proof.
  destruct first_boot as (t & h & B & l & Ht & HB & M).
  destruct (tcp_handshake ex_nic kernel_sleep 0 t (kernel_net h ∅) (heap_blocks B) ex_router_mac 0x0f02000a 0x0202000a 2000 80 0 100)
    as (s1 & s2 & f1 & f2 & c & E1 & E2 & _).
  - split; [unfold NUM_CONN; lia|]. split; [reflexivity|]. intros j Hj. lia.
  - intros j Hj. unfold conn_at. change (queue_conn (kernel_net h ∅)) with (∅ : gmap Z tcp_connection). by rewrite rd_empty.
  - exact (kernel_host l _ _ h B t _ M Ht HB).
  - lia.
  - lia.
  - lia.
  - lia.
  - lia.
  - exists h, t, s1, s2. split; [exact E1|exact E2].
Defined.

Example tcp_passive_close_witness :
  exists s1, tcp_ack ex_nic ex_sleep 1 0x2f00 0x0202000a 0x0f02000a 80 2000 101 1 17 0 ex_connected = Ret (2, s1) /\
    c_busy (conn_at (tcp_finish 0x0202000a 0x0f02000a 80 2000 2 s1) 0) = 0.
Proof.
  destruct (tcp_passive_close ex_nic ex_sleep 0 0x2f00 ex_connected ex_blocks ex_router_mac 2000 0 ex_conn
    0x0202000a 0x0f02000a 80 ex_connected_ok) as (s1 & f1 & f2 & E & _ & _ & _ & _ & _ & Hb).
  - cbn. lia.
  - cbn. lia.
  - intros j Hj. lia.
  - exists s1. split; [exact E|exact Hb].
Defined.

Example tcp_active_close_leaks_witness :
  exists s', tcp_send_payload ex_nic ex_sleep 1 0x2f00 0x0f02000a 0x0202000a 2000 80 17 0x2000 3 ex_connected = Ret (0, s') /\
    tcp_finish 0x0202000a 0x0f02000a 80 2000 5 s' = s' /\ c_busy (conn_at s' 0) = 1.
Proof.
  destruct (tcp_active_close_leaks ex_nic ex_sleep 0 0x2f00 ex_connected ex_blocks ex_router_mac 2000 0 ex_conn
    0x0202000a 0x0f02000a 80 0x2000 3 ex_connected_ok) as (s' & E & Hb & Hf & _).
  - lia.
  - intros k Hk. apply ex_live. lia.
  - intros j Hj Hne. by rewrite ex_other.
  - exists s'. split; [exact E|]. split; [exact Hf|exact Hb].
Defined.
