(* ===== verification/Dhcp.v ===== *)
(** * Dhcp: the DHCP client (kernel/driver/net/dhcp.c and initialise_ethernet)

    [dhcp_send] builds the request in a heap block and sends it to the broadcast address;
    [dhcp_parse_options] reads the addresses out of the answer; [initialise_ethernet] is the
    exchange that brings the card up.  Option bytes are scanned one by one: the theorems say
    for which options that is the same as parsing them, and what happens for the others. *)
From S2P Require Import Prelude KString Bytes Inet Net.

Definition DHCP_DISCOVER : Z := 1.
Definition DHCP_REQUEST : Z := 3.
Definition DHCP_ACK : Z := 5.
Definition OPT_SUBNET_MASK : Z := 1.
Definition OPT_ROUTER : Z := 3.
Definition OPT_DNS : Z := 6.
Definition OPT_REQUESTED_IP_ADDR : Z := 50.
Definition OPT_DHCP_MESSAGE_TYPE : Z := 53.
Definition OPT_SERVER_ID : Z := 54.
Definition OPT_PARAMETER_REQUEST : Z := 55.
Definition OPT_END : Z := 255.
Definition MAGIC_COOKIE : Z := 0x63825363.
(** The offsets of the header's fields and its size. *)
Definition off_yiaddr : Z := 16.
Definition off_chaddr : Z := 28.
Definition off_sname : Z := 44.
Definition off_file : Z := 108.
Definition off_cookie : Z := 236.
Definition off_options : Z := 240.
Definition sizeof_dhcp_header : Z := 548.

Section dhcp.
Context {H : Type} `{Allocator H}.
Context (nic : list Z -> Z) (receive : net H -> outcome (net H)) (sleep_ : Z -> net H -> net H).
Context (fuel : nat) (swait : nat -> bool).
Implicit Types (s : net H) (m : mem) (dhcp : Z).

(** The options of a message, and their size. *)
Definition dhcp_options (your_ip server_ip : list Z) (message_type : Z) (options : Z) m : Z * mem :=
  let ip l i := nth i l 0 in
  let m := m⟦options := OPT_DHCP_MESSAGE_TYPE⟧ in
  let m := m⟦options + 1 := 1⟧ in
  let m := m⟦options + 2 := message_type⟧ in
  if message_type =? DHCP_DISCOVER then
    let m := m⟦options + 3 := OPT_PARAMETER_REQUEST⟧ in
    let m := m⟦options + 4 := 3⟧ in
    let m := m⟦options + 5 := OPT_SUBNET_MASK⟧ in
    let m := m⟦options + 6 := OPT_ROUTER⟧ in
    let m := m⟦options + 7 := OPT_DNS⟧ in
    (9, m⟦options + 8 := OPT_END⟧)
  else if message_type =? DHCP_REQUEST then
    let m := m⟦options + 3 := OPT_REQUESTED_IP_ADDR⟧ in
    let m := m⟦options + 4 := 4⟧ in
    let m := m⟦options + 5 := ip your_ip 0%nat⟧ in
    let m := m⟦options + 6 := ip your_ip 1%nat⟧ in
    let m := m⟦options + 7 := ip your_ip 2%nat⟧ in
    let m := m⟦options + 8 := ip your_ip 3%nat⟧ in
    let m := m⟦options + 9 := OPT_SERVER_ID⟧ in
    let m := m⟦options + 10 := 4⟧ in
    let m := m⟦options + 11 := ip server_ip 0%nat⟧ in
    let m := m⟦options + 12 := ip server_ip 1%nat⟧ in
    let m := m⟦options + 13 := ip server_ip 2%nat⟧ in
    let m := m⟦options + 14 := ip server_ip 3%nat⟧ in
    let m := m⟦options + 15 := OPT_PARAMETER_REQUEST⟧ in
    let m := m⟦options + 16 := 3⟧ in
    let m := m⟦options + 17 := OPT_SUBNET_MASK⟧ in
    let m := m⟦options + 18 := OPT_ROUTER⟧ in
    let m := m⟦options + 19 := OPT_DNS⟧ in
    (21, m⟦options + 20 := OPT_END⟧)
  else (0, m).

Definition dhcp_header (mac : list Z) (dhcp : Z) m : mem :=
  let m := m⟦dhcp := 1⟧ in
  let m := m⟦dhcp + 1 := 1⟧ in
  let m := m⟦dhcp + 2 := 6⟧ in
  let m := m⟦dhcp + 3 := 0⟧ in
  let m := st32 m (dhcp + 4) (htonl 0x3903F326) in
  let m := st16 m (dhcp + 8) (htons 0) in
  let m := st16 m (dhcp + 10) (htons 0) in
  let m := st32 m (dhcp + 12) 0 in
  let m := st32 m (dhcp + off_yiaddr) 0 in
  let m := st32 m (dhcp + 20) 0 in
  let m := st32 m (dhcp + 24) 0 in
  let m := fillMac m (dhcp + off_chaddr) mac in
  let m := memset m (dhcp + off_sname) 0 64 in
  let m := memset m (dhcp + off_file) 0 128 in
  st32 m (dhcp + off_cookie) (htonl MAGIC_COOKIE).

Definition dhcp_send (your_ip server_ip : list Z) (message_type : Z) s : outcome (Z * net H) :=
  '(dhcp, s) ← net_malloc sizeof_dhcp_header s;
  let m := dhcp_header (device_mac s) dhcp (nmem s) in
  let '(opt_size, m) := dhcp_options your_ip server_ip message_type (dhcp + off_options) m in
  let s := set_nmem m s in
  '(len, s) ← udp_send nic sleep_ fuel 0 0xFFFFFFFF 68 67 dhcp (sizeof_dhcp_header - 308 + opt_size) s;
  s ← net_free dhcp s;
  Ret (len, s).

(** An address option at [i]: its size, its four bytes when it has four, the position behind. *)
Definition address_option (set : list Z -> net H -> net H) (options i : Z) s : Z * net H :=
  let ip_size := (nmem s)⟦options + i⟧ in
  let i := i + 1 in
  let s := if ip_size =? 4 then set (bytes (nmem s) (options + i) 4) s else s in
  (i + ip_size, s).

Fixpoint parse_loop (n : nat) (options i : Z) s : outcome (net H) :=
  match n with
  | O => NoFuel
  | S n =>
      let opt_type := (nmem s)⟦options + i⟧ in
      let i := i + 1 in
      if 308 <=? i then Ret s
      else
        let '(i, s) := if opt_type =? OPT_ROUTER then address_option set_router_ip options i s else (i, s) in
        let '(i, s) := if opt_type =? OPT_DNS then address_option set_dns_ip options i s else (i, s) in
        let '(i, s) := if opt_type =? OPT_SERVER_ID then address_option set_dhcp_ip options i s else (i, s) in
        parse_loop n options i s
  end.

Definition dhcp_parse_options (n : nat) (dhcp : Z) s : outcome (Z * net H) :=
  if negb (htonl (ld32 (nmem s) (dhcp + off_cookie)) =? MAGIC_COOKIE) then Ret (-1, s)
  else
    let s := set_your_ip (bytes (nmem s) (dhcp + off_yiaddr) 4) s in
    s ← parse_loop n (dhcp + off_options) 0 s;
    Ret (0, s).

(** [string_dhcp_message] has nine entries; printing one beyond them reads wild memory. *)
Definition message_name (i : Z) : outcome unit := if i <? 9 then Ret tt else Undef.

(** The end of [initialise_ethernet]. *)
Definition ethernet_up s : outcome (net H) :=
  let s := s |> set_client_ip (your_ip s) |> set_server_ip (dhcp_ip s) in
  init_arp nic sleep_ (ethernet_set_link_status 1 s).

(** [goto end]: the header's block is freed. *)
Definition initialise_ethernet (n : nat) s : outcome (net H) :=
  '(dhcp, s) ← net_malloc sizeof_dhcp_header s;
  let s := set_ipv4_count 0 s in
  let option2 s := (nmem s)⟦dhcp + off_options + 2⟧ in
  let no_cookie s := negb (htonl (ld32 (nmem s) (dhcp + off_cookie)) =? MAGIC_COOKIE) in
  if is_enabled s =? 0 then net_free dhcp s
  else
    let s := with_mem (fun m => memset m dhcp 0 sizeof_dhcp_header) s in
    '(_, s) ← dhcp_send (your_ip s) (dhcp_ip s) DHCP_DISCOVER s;
    '(r, s) ← udp_receive receive fuel swait dhcp sizeof_dhcp_header 68 s;
    if (r =? 0) || no_cookie s then net_free dhcp s
    else
      message_name (option2 s) ;;
      '(_, s) ← dhcp_parse_options n dhcp s;
      let s := with_mem (fun m => memset m dhcp 0 sizeof_dhcp_header) s in
      '(_, s) ← dhcp_send (your_ip s) (dhcp_ip s) DHCP_REQUEST s;
      '(r, s) ← udp_receive receive fuel swait dhcp sizeof_dhcp_header 68 s;
      if r =? 0 then s ← ethernet_up s; net_free dhcp s
      else if no_cookie s then net_free dhcp s
      else if negb (option2 s =? DHCP_ACK) then message_name (option2 s) ;; net_free dhcp s
      else
        s ← ethernet_up s;
        net_free dhcp s.
End dhcp.

(** ** Options as a list *)

(** The codes the scan acts on. *)
Definition plain (b : Z) : Prop := b <> OPT_ROUTER /\ b <> OPT_DNS /\ b <> OPT_SERVER_ID.

(** An option: an address, or another one none of whose bytes is one of the codes. *)
Inductive dhcp_option :=
| Router (ip : list Z)
| Dns (ip : list Z)
| Server (ip : list Z)
| Other (code : Z) (payload : list Z).

Definition encode_option (o : dhcp_option) : list Z :=
  match o with
  | Router ip => OPT_ROUTER :: 4 :: ip
  | Dns ip => OPT_DNS :: 4 :: ip
  | Server ip => OPT_SERVER_ID :: 4 :: ip
  | Other code payload => code :: Z.of_nat (length payload) :: payload
  end.

Definition option_ok (o : dhcp_option) : Prop :=
  match o with
  | Router ip | Dns ip | Server ip => length ip = 4%nat
  | Other code payload => Forall plain (code :: Z.of_nat (length payload) :: payload)
  end.

Definition encode_options (os : list dhcp_option) : list Z := mjoin (encode_option <$> os).

Section options.
Context {H : Type} `{AllocatorLaws H}.
Implicit Types (s : net H) (m : mem) (o : dhcp_option) (os : list dhcp_option).

Definition apply_option s o : net H :=
  match o with
  | Router ip => set_router_ip ip s
  | Dns ip => set_dns_ip ip s
  | Server ip => set_dhcp_ip ip s
  | Other _ _ => s
  end.

Lemma holds_app m a l1 l2 :
  holds m a (l1 ++ l2) <-> holds m a l1 /\ holds m (a + Z.of_nat (length l1)) l2.
Proof.
  unfold holds. rewrite length_app.
  assert (bytes m a (Z.of_nat (length l1 + length l2)) =
    bytes m a (Z.of_nat (length l1)) ++ bytes m (a + Z.of_nat (length l1)) (Z.of_nat (length l2))) as ->.
  { unfold bytes. rewrite !Nat2Z.id, seq_app, fmap_app. f_equal. rewrite Nat.add_0_l.
    rewrite <- (Nat.add_0_r (length l1)) at 1. rewrite <- fmap_add_seq, <- list_fmap_compose.
    apply list_fmap_ext. intros i x _. cbn. f_equal. lia. }
  split.
  - intros E. apply app_inj_1 in E as [E1 E2]; [by split|]. rewrite length_bytes. lia.
  - intros [-> ->]. reflexivity.
Qed.

Lemma holds_cons m a x l : holds m a (x :: l) <-> m⟦a⟧ = x /\ holds m (a + 1) l.
Proof.
  change (x :: l) with ([x] ++ l). rewrite holds_app. change (Z.of_nat (length [x])) with 1.
  assert (holds m a [x] <-> m⟦a⟧ = x) as ->; [|done]. unfold holds. change (Z.of_nat (length [x])) with 1.
  change (bytes m a 1) with [m⟦a + 0⟧]. rewrite Z.add_0_r. split; [by intros [= ->]|by intros ->].
Qed.

Lemma parse_plain n options i s :
  0 <= i < 307 -> plain (nmem s)⟦options + i⟧ ->
  parse_loop (S n) options i s = parse_loop n options (i + 1) s.
Proof.
  intros Hi (P1 & P2 & P3). cbn [parse_loop]. destruct (Z.leb_spec 308 (i + 1)); [lia|].
  apply Z.eqb_neq in P1, P2, P3. by rewrite P1, P2, P3.
Qed.

Lemma parse_stop n options i s : 307 <= i -> parse_loop (S n) options i s = Ret s.
Proof. intros Hi. cbn [parse_loop]. by destruct (Z.leb_spec 308 (i + 1)); [|lia]. Qed.

(** Bytes that are not codes are stepped over. *)
Lemma parse_plain_list n l options i s :
  holds (nmem s) (options + i) l -> Forall plain l -> 0 <= i -> i + Z.of_nat (length l) <= 307 ->
  parse_loop (length l + n) options i s = parse_loop n options (i + Z.of_nat (length l)) s.
Proof.
  revert i. induction l as [|b l IH]; intros i Hh Hp Hi Hl.
  - cbn. by rewrite Z.add_0_r.
  - apply holds_cons in Hh as [Eb Hh]. inversion Hp as [|b' l' Pb Pl]; subst b' l'. cbn [length] in Hl.
    change (length (b :: l) + n)%nat with (S (length l + n)).
    rewrite parse_plain by (lia || by rewrite Eb). rewrite IH; [|by rewrite Z.add_assoc|done|lia|lia].
    f_equal. cbn [length]. lia.
Qed.

Lemma parse_address n options i s code ip (set : list Z -> net H -> net H) :
  holds (nmem s) (options + i) (code :: 4 :: ip) -> length ip = 4%nat -> 0 <= i < 307 ->
  (code = OPT_ROUTER /\ set = set_router_ip) \/ (code = OPT_DNS /\ set = set_dns_ip) \/
  (code = OPT_SERVER_ID /\ set = set_dhcp_ip) ->
  parse_loop (S n) options i s = parse_loop n options (i + 6) (set ip s).
Proof.
  intros Hh Hip Hi Hc. apply holds_cons in Hh as [E0 Hh]. apply holds_cons in Hh as [E1 Hh].
  unfold holds in Hh. rewrite Hip in Hh. change (Z.of_nat 4) with 4 in Hh.
  cbn [parse_loop]. destruct (Z.leb_spec 308 (i + 1)); [lia|]. rewrite E0.
  assert (address_option set options (i + 1) s = (i + 6, set ip s)) as Ea.
  { unfold address_option. replace (options + (i + 1)) with (options + i + 1) by lia. rewrite E1.
    replace (options + (i + 1 + 1)) with (options + i + 1 + 1) by lia. rewrite Hh.
    change (4 =? 4) with true. cbv iota. f_equal. lia. }
  destruct Hc as [[-> ->]|[[-> ->]|[-> ->]]]; cbn [Z.eqb Pos.eqb OPT_ROUTER OPT_DNS OPT_SERVER_ID]; by rewrite Ea.
Qed.

Lemma apply_option_mem s o : nmem (apply_option s o) = nmem s.
Proof. by destruct o. Qed.

Lemma encode_option_length o : option_ok o -> (2 <= length (encode_option o))%nat.
Proof. destruct o; cbn; lia. Qed.

Lemma parse_options n os l options i s :
  holds (nmem s) (options + i) (encode_options os ++ l) -> Forall option_ok os -> Forall plain l ->
  0 <= i -> i + Z.of_nat (length (encode_options os ++ l)) = 308 ->
  (length (encode_options os ++ l) < n)%nat ->
  parse_loop n options i s = Ret (fold_left apply_option os s).
Proof.
  revert n i s. induction os as [|o os IH]; intros n i s Hh Hok Hp Hi Hl Hn.
  - cbn [encode_options fmap list_fmap mjoin list_join app fold_left] in *.
    destruct (decide (l = [])) as [->|Hne].
    + cbn in Hl. destruct n; [lia|]. apply parse_stop. lia.
    + destruct l as [|x l0 _] using rev_ind; [done|]. apply holds_app in Hh as [Hh _].
      apply Forall_app in Hp as [Hp _]. rewrite length_app in Hl, Hn. cbn [length] in Hl, Hn.
      replace n with (length l0 + S (n - length l0 - 1))%nat by lia.
      rewrite parse_plain_list by (done || lia). apply parse_stop. lia.
  - inversion Hok as [|o' os' Ho Hos]; subst o' os'.
    change (encode_options (o :: os)) with (encode_option o ++ encode_options os) in *.
    rewrite <- app_assoc in Hh, Hl, Hn. apply holds_app in Hh as [Ho1 Hh].
    rewrite length_app in Hl, Hn. pose proof (encode_option_length o Ho) as Hlen.
    set (k := length (encode_option o)) in *. cbn [fold_left].
    assert (exists n', (length (encode_options os ++ l) < n')%nat /\
      parse_loop n options i s = parse_loop n' options (i + Z.of_nat k) (apply_option s o)) as (n' & Hn' & ->).
    { destruct o as [ip|ip|ip|code payload]; cbn [option_ok encode_option apply_option] in *.
      - exists (n - 1)%nat. split; [lia|]. replace n with (S (n - 1)) at 1 by lia.
        rewrite (parse_address _ _ _ _ OPT_ROUTER ip set_router_ip) by (auto || lia). f_equal. cbn in k. lia.
      - exists (n - 1)%nat. split; [lia|]. replace n with (S (n - 1)) at 1 by lia.
        rewrite (parse_address _ _ _ _ OPT_DNS ip set_dns_ip) by (auto || lia). f_equal. cbn in k. lia.
      - exists (n - 1)%nat. split; [lia|]. replace n with (S (n - 1)) at 1 by lia.
        rewrite (parse_address _ _ _ _ OPT_SERVER_ID ip set_dhcp_ip) by (auto || lia). f_equal. cbn in k. lia.
      - destruct (decide (i + Z.of_nat k <= 307)) as [Hk|Hk].
        + exists (n - k)%nat. split; [lia|]. replace n with (k + (n - k))%nat at 1 by lia.
          apply parse_plain_list; done.
        + (* the option ends the area: its last byte is never looked at *)
          exists 1%nat.
          assert (length (encode_options os ++ l) = 0)%nat as Hz by lia. split; [lia|].
          destruct (exists_last (l := code :: Z.of_nat (length payload) :: payload)) as (y & z & Eyz); [done|].
          rewrite Eyz in Ho1, Ho. subst k. rewrite Eyz, length_app in *. cbn [length] in *.
          apply holds_app in Ho1 as [Ho1 _]. apply Forall_app in Ho as [Ho _].
          replace n with (length y + S (n - length y - 1))%nat by lia.
          rewrite parse_plain_list by (done || lia). rewrite !parse_stop by lia. reflexivity. }
    apply IH; [|done|done|lia|lia|done]. rewrite apply_option_mem.
    by replace (options + (i + Z.of_nat k)) with (options + i + Z.of_nat k) by lia.
Qed.

(** The scan ends on any bytes. *)
Lemma parse_total n options i s :
  bytes_in (nmem s) -> 0 <= i -> 309 - i <= Z.of_nat n -> (0 < n)%nat ->
  exists s', parse_loop n options i s = Ret s'.
Proof.
  revert i s. induction n as [|n IH]; intros i s Hm Hi Hn Hn0; [lia|]. cbn [parse_loop].
  destruct (Z.leb_spec 308 (i + 1)); [by eexists|].
  assert (forall (set : list Z -> net H -> net H) j t, (forall l u, nmem (set l u) = nmem u) ->
    nmem t = nmem s -> i + 1 <= j ->
    exists j' t', address_option set options j t = (j', t') /\ nmem t' = nmem s /\ i + 1 <= j') as Ha.
  { intros set j t Hset Ht Hj. unfold address_option.
    eexists _, _. split; [reflexivity|]. split; [destruct (_ =? 4); by rewrite ?Hset|].
    pose proof (Hm (options + j)). rewrite Ht. lia. }
  assert (forall c (set : list Z -> net H -> net H) j t, (forall l u, nmem (set l u) = nmem u) ->
    nmem t = nmem s -> i + 1 <= j ->
    exists j' t', (if (nmem s)⟦options + i⟧ =? c then address_option set options j t else (j, t)) = (j', t') /\
      nmem t' = nmem s /\ i + 1 <= j') as Hb.
  { intros c set j t Hset Ht Hj. destruct (_ =? c); [by apply Ha|by exists j, t]. }
  destruct (Hb OPT_ROUTER set_router_ip (i + 1) s) as (j1 & s1 & -> & E1 & H1'); [done|done|lia|].
  destruct (Hb OPT_DNS set_dns_ip j1 s1) as (j2 & s2 & -> & E2 & H2'); [done|done|lia|].
  destruct (Hb OPT_SERVER_ID set_dhcp_ip j2 s2) as (j3 & s3 & -> & E3 & H3'); [done|done|lia|].
  apply IH; [by rewrite E3|lia|lia|lia].
Qed.

(** Reading a DHCP answer takes at most 309 steps whatever bytes it holds; an answer
    without the magic cookie changes nothing; and when the option area is made of address
    options and of options none of whose bytes is a code the scan knows, padded with such
    bytes, the call sets the client's address and exactly the addresses the options carry. *)
Theorem dhcp_parse_options_reads dhcp s :
  bytes_in (nmem s) ->
  (exists r s', dhcp_parse_options 309 dhcp s = Ret (r, s')) /\
  (htonl (ld32 (nmem s) (dhcp + off_cookie)) <> MAGIC_COOKIE -> dhcp_parse_options 309 dhcp s = Ret (-1, s)) /\
  forall os l, htonl (ld32 (nmem s) (dhcp + off_cookie)) = MAGIC_COOKIE ->
    holds (nmem s) (dhcp + off_options) (encode_options os ++ l) ->
    Forall option_ok os -> Forall plain l -> length (encode_options os ++ l) = 308%nat ->
    dhcp_parse_options 309 dhcp s =
      Ret (0, fold_left apply_option os (set_your_ip (bytes (nmem s) (dhcp + off_yiaddr) 4) s)).
Proof.
  intros Hm. unfold dhcp_parse_options. split; [|split].
  - destruct (negb _); [by eexists _, _|].
    destruct (parse_total 309 (dhcp + off_options) 0 (set_your_ip (bytes (nmem s) (dhcp + off_yiaddr) 4) s))
      as (s' & E); [exact Hm|lia|lia|lia|]. rewrite E. by eexists _, _.
  - intros Hc. apply Z.eqb_neq in Hc. by rewrite Hc.
  - intros os l Hc Hh Hok Hp Hl. rewrite Hc, Z.eqb_refl. cbn [negb].
    rewrite (parse_options 309 os l); [reflexivity|by rewrite Z.add_0_r|done|done|lia|lia|lia].
Qed.
End options.

(** ** Example: the offer of a small router *)
Definition ex_options : list dhcp_option :=
  [Other 53 [2]; Server [10; 0; 2; 2]; Router [10; 0; 2; 2]; Dns [10; 0; 2; 5]].
Definition ex_padding : list Z := OPT_END :: replicate 286 0.
Definition ex_offer : net bump :=
  set_nmem (poke (poke (st32 ∅ (0x6000 + off_cookie) (htonl MAGIC_COOKIE)) (0x6000 + off_yiaddr) [10; 0; 2; 15])
    (0x6000 + off_options) (encode_options ex_options ++ ex_padding)) ex_net.

Lemma bytes_in_poke m a l : bytes_in m -> bytes_list l -> bytes_in (poke m a l).
Proof.
  revert m a. induction l as [|b l IH]; intros m a Hm Hl; [done|]. cbn [poke].
  inversion Hl as [|b' l' Hb Hl']; subst. apply IH; [|done]. by apply bytes_in_wr.
Qed.

Example dhcp_parse_options_reads_witness :
  exists s', dhcp_parse_options 309 0x6000 ex_offer = Ret (0, s') /\ router_ip s' = [10; 0; 2; 2] /\
    dns_ip s' = [10; 0; 2; 5] /\ your_ip s' = [10; 0; 2; 15].
Proof.
  assert (bytes_in (nmem ex_offer)) as Hm.
  { change (bytes_in (poke (poke (st32 ∅ (0x6000 + off_cookie) (htonl MAGIC_COOKIE)) (0x6000 + off_yiaddr) [10; 0; 2; 15])
      (0x6000 + off_options) (encode_options ex_options ++ ex_padding))).
    apply bytes_in_poke; [|by apply ex_bytes_list]. apply bytes_in_poke; [|by apply ex_bytes_list].
    apply bytes_in_st, bytes_in_empty. }
  destruct (dhcp_parse_options_reads 0x6000 ex_offer Hm) as (_ & _ & Hp).
  eexists. split.
  - apply (Hp ex_options ex_padding).
    + vm_compute. reflexivity.
    + vm_compute. reflexivity.
    + repeat constructor; discriminate.
    + apply (bool_decide_eq_true_1 (Forall plain ex_padding)). vm_compute. reflexivity.
    + reflexivity.
  - split; [reflexivity|]. split; [reflexivity|]. vm_compute. reflexivity.
Defined.
