(* ===== verification/Socket.v ===== *)
(** * Socket: sockets, the loopback network and the packet handler

    kernel/file/socket.c, bind.c, sendto.c, recvfrom.c, kernel/driver/net/vmnet.c and the
    receive handler of ethernet.c.  Sockets are a linked list of heap objects, each with a
    send and a receive buffer; a packet for a socket whose receive buffer is full waits in a
    table of 128 rows.  Packets to this machine go through the ring of [vmnet], whose
    software interrupt runs the handler before [vmnet_send_package] returns. *)
From S2P Require Import Prelude Links KString Bytes Inet Net Tcp.

Definition AF_LOCAL : Z := 1.
Definition AF_INET : Z := 2.
Definition SOCK_STREAM : Z := 1.
Definition SOCK_DGRAM : Z := 2.
Definition SOCKET_BUF_SIZE : Z := 8192.
Definition ROW_NUM : Z := 128.
Definition VMNET_RX_BUF_NUM : Z := 256.
Definition sizeof_socket : Z := 82.
Definition sizeof_sockaddr_in : Z := 8.
Definition sizeof_vm_inet_header : Z := 12.

(** ** State *)

(** [struct socket]. *)
Record socket_addr := Socket_addr {
  s_id : Z;
  s_domain : Z;
  s_type : Z;
  s_protocol : Z;
  s_src_port : Z;
  s_src_ip : Z;
  s_dest_port : Z;
  s_dest_ip : Z;
  s_recv_dest_port : Z;
  s_recv_dest_ip : Z;
  s_protocol_flags : Z;
  s_flags : Z;
  s_length1 : Z;
  s_length2 : Z;
  s_buf1 : Z;
  s_buf2 : Z;
  s_client : Z;
  s_next : Z
}.

Definition set_s_id (v : Z) (s : socket_addr) : socket_addr := Socket_addr v (s_domain s)
  (s_type s) (s_protocol s) (s_src_port s) (s_src_ip s) (s_dest_port s) (s_dest_ip s)
  (s_recv_dest_port s) (s_recv_dest_ip s) (s_protocol_flags s) (s_flags s) (s_length1 s)
  (s_length2 s) (s_buf1 s) (s_buf2 s) (s_client s) (s_next s).
Definition set_s_domain (v : Z) (s : socket_addr) : socket_addr := Socket_addr (s_id s) v
  (s_type s) (s_protocol s) (s_src_port s) (s_src_ip s) (s_dest_port s) (s_dest_ip s)
  (s_recv_dest_port s) (s_recv_dest_ip s) (s_protocol_flags s) (s_flags s) (s_length1 s)
  (s_length2 s) (s_buf1 s) (s_buf2 s) (s_client s) (s_next s).
Definition set_s_type (v : Z) (s : socket_addr) : socket_addr := Socket_addr (s_id s) (s_domain
  s) v (s_protocol s) (s_src_port s) (s_src_ip s) (s_dest_port s) (s_dest_ip s)
  (s_recv_dest_port s) (s_recv_dest_ip s) (s_protocol_flags s) (s_flags s) (s_length1 s)
  (s_length2 s) (s_buf1 s) (s_buf2 s) (s_client s) (s_next s).
Definition set_s_protocol (v : Z) (s : socket_addr) : socket_addr := Socket_addr (s_id s)
  (s_domain s) (s_type s) v (s_src_port s) (s_src_ip s) (s_dest_port s) (s_dest_ip s)
  (s_recv_dest_port s) (s_recv_dest_ip s) (s_protocol_flags s) (s_flags s) (s_length1 s)
  (s_length2 s) (s_buf1 s) (s_buf2 s) (s_client s) (s_next s).
Definition set_s_src_port (v : Z) (s : socket_addr) : socket_addr := Socket_addr (s_id s)
  (s_domain s) (s_type s) (s_protocol s) v (s_src_ip s) (s_dest_port s) (s_dest_ip s)
  (s_recv_dest_port s) (s_recv_dest_ip s) (s_protocol_flags s) (s_flags s) (s_length1 s)
  (s_length2 s) (s_buf1 s) (s_buf2 s) (s_client s) (s_next s).
Definition set_s_src_ip (v : Z) (s : socket_addr) : socket_addr := Socket_addr (s_id s)
  (s_domain s) (s_type s) (s_protocol s) (s_src_port s) v (s_dest_port s) (s_dest_ip s)
  (s_recv_dest_port s) (s_recv_dest_ip s) (s_protocol_flags s) (s_flags s) (s_length1 s)
  (s_length2 s) (s_buf1 s) (s_buf2 s) (s_client s) (s_next s).
Definition set_s_dest_port (v : Z) (s : socket_addr) : socket_addr := Socket_addr (s_id s)
  (s_domain s) (s_type s) (s_protocol s) (s_src_port s) (s_src_ip s) v (s_dest_ip s)
  (s_recv_dest_port s) (s_recv_dest_ip s) (s_protocol_flags s) (s_flags s) (s_length1 s)
  (s_length2 s) (s_buf1 s) (s_buf2 s) (s_client s) (s_next s).
Definition set_s_dest_ip (v : Z) (s : socket_addr) : socket_addr := Socket_addr (s_id s)
  (s_domain s) (s_type s) (s_protocol s) (s_src_port s) (s_src_ip s) (s_dest_port s) v
  (s_recv_dest_port s) (s_recv_dest_ip s) (s_protocol_flags s) (s_flags s) (s_length1 s)
  (s_length2 s) (s_buf1 s) (s_buf2 s) (s_client s) (s_next s).
Definition set_s_recv_dest_port (v : Z) (s : socket_addr) : socket_addr := Socket_addr (s_id s)
  (s_domain s) (s_type s) (s_protocol s) (s_src_port s) (s_src_ip s) (s_dest_port s) (s_dest_ip
  s) v (s_recv_dest_ip s) (s_protocol_flags s) (s_flags s) (s_length1 s) (s_length2 s) (s_buf1
  s) (s_buf2 s) (s_client s) (s_next s).
Definition set_s_recv_dest_ip (v : Z) (s : socket_addr) : socket_addr := Socket_addr (s_id s)
  (s_domain s) (s_type s) (s_protocol s) (s_src_port s) (s_src_ip s) (s_dest_port s) (s_dest_ip
  s) (s_recv_dest_port s) v (s_protocol_flags s) (s_flags s) (s_length1 s) (s_length2 s) (s_buf1
  s) (s_buf2 s) (s_client s) (s_next s).
Definition set_s_protocol_flags (v : Z) (s : socket_addr) : socket_addr := Socket_addr (s_id s)
  (s_domain s) (s_type s) (s_protocol s) (s_src_port s) (s_src_ip s) (s_dest_port s) (s_dest_ip
  s) (s_recv_dest_port s) (s_recv_dest_ip s) v (s_flags s) (s_length1 s) (s_length2 s) (s_buf1
  s) (s_buf2 s) (s_client s) (s_next s).
Definition set_s_flags (v : Z) (s : socket_addr) : socket_addr := Socket_addr (s_id s) (s_domain
  s) (s_type s) (s_protocol s) (s_src_port s) (s_src_ip s) (s_dest_port s) (s_dest_ip s)
  (s_recv_dest_port s) (s_recv_dest_ip s) (s_protocol_flags s) v (s_length1 s) (s_length2 s)
  (s_buf1 s) (s_buf2 s) (s_client s) (s_next s).
Definition set_s_length1 (v : Z) (s : socket_addr) : socket_addr := Socket_addr (s_id s)
  (s_domain s) (s_type s) (s_protocol s) (s_src_port s) (s_src_ip s) (s_dest_port s) (s_dest_ip
  s) (s_recv_dest_port s) (s_recv_dest_ip s) (s_protocol_flags s) (s_flags s) v (s_length2 s)
  (s_buf1 s) (s_buf2 s) (s_client s) (s_next s).
Definition set_s_length2 (v : Z) (s : socket_addr) : socket_addr := Socket_addr (s_id s)
  (s_domain s) (s_type s) (s_protocol s) (s_src_port s) (s_src_ip s) (s_dest_port s) (s_dest_ip
  s) (s_recv_dest_port s) (s_recv_dest_ip s) (s_protocol_flags s) (s_flags s) (s_length1 s) v
  (s_buf1 s) (s_buf2 s) (s_client s) (s_next s).
Definition set_s_buf1 (v : Z) (s : socket_addr) : socket_addr := Socket_addr (s_id s) (s_domain
  s) (s_type s) (s_protocol s) (s_src_port s) (s_src_ip s) (s_dest_port s) (s_dest_ip s)
  (s_recv_dest_port s) (s_recv_dest_ip s) (s_protocol_flags s) (s_flags s) (s_length1 s)
  (s_length2 s) v (s_buf2 s) (s_client s) (s_next s).
Definition set_s_buf2 (v : Z) (s : socket_addr) : socket_addr := Socket_addr (s_id s) (s_domain
  s) (s_type s) (s_protocol s) (s_src_port s) (s_src_ip s) (s_dest_port s) (s_dest_ip s)
  (s_recv_dest_port s) (s_recv_dest_ip s) (s_protocol_flags s) (s_flags s) (s_length1 s)
  (s_length2 s) (s_buf1 s) v (s_client s) (s_next s).
Definition set_s_client (v : Z) (s : socket_addr) : socket_addr := Socket_addr (s_id s)
  (s_domain s) (s_type s) (s_protocol s) (s_src_port s) (s_src_ip s) (s_dest_port s) (s_dest_ip
  s) (s_recv_dest_port s) (s_recv_dest_ip s) (s_protocol_flags s) (s_flags s) (s_length1 s)
  (s_length2 s) (s_buf1 s) (s_buf2 s) v (s_next s).
Definition set_s_next (v : Z) (s : socket_addr) : socket_addr := Socket_addr (s_id s) (s_domain
  s) (s_type s) (s_protocol s) (s_src_port s) (s_src_ip s) (s_dest_port s) (s_dest_ip s)
  (s_recv_dest_port s) (s_recv_dest_ip s) (s_protocol_flags s) (s_flags s) (s_length1 s)
  (s_length2 s) (s_buf1 s) (s_buf2 s) (s_client s) v.

#[export] Instance zero_socket_addr : Zero socket_addr := Socket_addr 0 0 0 0 0 0 0 0 0 0 0 0 0 0 0 0 0 0.

(** [struct socket_receive_row]. *)
Record receive_row := Receive_row {
  r_status : Z;
  r_protocol : Z;
  r_src_port : Z;
  r_src_ip : Z;
  r_dest_port : Z;
  r_dest_ip : Z;
  r_seq : Z;
  r_ack : Z;
  r_flags : Z;
  r_win : Z;
  r_buffer : Z;
  r_length : Z
}.

Definition set_r_status (v : Z) (s : receive_row) : receive_row := Receive_row v (r_protocol s)
  (r_src_port s) (r_src_ip s) (r_dest_port s) (r_dest_ip s) (r_seq s) (r_ack s) (r_flags s)
  (r_win s) (r_buffer s) (r_length s).
Definition set_r_protocol (v : Z) (s : receive_row) : receive_row := Receive_row (r_status s) v
  (r_src_port s) (r_src_ip s) (r_dest_port s) (r_dest_ip s) (r_seq s) (r_ack s) (r_flags s)
  (r_win s) (r_buffer s) (r_length s).
Definition set_r_src_port (v : Z) (s : receive_row) : receive_row := Receive_row (r_status s)
  (r_protocol s) v (r_src_ip s) (r_dest_port s) (r_dest_ip s) (r_seq s) (r_ack s) (r_flags s)
  (r_win s) (r_buffer s) (r_length s).
Definition set_r_src_ip (v : Z) (s : receive_row) : receive_row := Receive_row (r_status s)
  (r_protocol s) (r_src_port s) v (r_dest_port s) (r_dest_ip s) (r_seq s) (r_ack s) (r_flags s)
  (r_win s) (r_buffer s) (r_length s).
Definition set_r_dest_port (v : Z) (s : receive_row) : receive_row := Receive_row (r_status s)
  (r_protocol s) (r_src_port s) (r_src_ip s) v (r_dest_ip s) (r_seq s) (r_ack s) (r_flags s)
  (r_win s) (r_buffer s) (r_length s).
Definition set_r_dest_ip (v : Z) (s : receive_row) : receive_row := Receive_row (r_status s)
  (r_protocol s) (r_src_port s) (r_src_ip s) (r_dest_port s) v (r_seq s) (r_ack s) (r_flags s)
  (r_win s) (r_buffer s) (r_length s).
Definition set_r_seq (v : Z) (s : receive_row) : receive_row := Receive_row (r_status s)
  (r_protocol s) (r_src_port s) (r_src_ip s) (r_dest_port s) (r_dest_ip s) v (r_ack s) (r_flags
  s) (r_win s) (r_buffer s) (r_length s).
Definition set_r_ack (v : Z) (s : receive_row) : receive_row := Receive_row (r_status s)
  (r_protocol s) (r_src_port s) (r_src_ip s) (r_dest_port s) (r_dest_ip s) (r_seq s) v (r_flags
  s) (r_win s) (r_buffer s) (r_length s).
Definition set_r_flags (v : Z) (s : receive_row) : receive_row := Receive_row (r_status s)
  (r_protocol s) (r_src_port s) (r_src_ip s) (r_dest_port s) (r_dest_ip s) (r_seq s) (r_ack s) v
  (r_win s) (r_buffer s) (r_length s).
Definition set_r_win (v : Z) (s : receive_row) : receive_row := Receive_row (r_status s)
  (r_protocol s) (r_src_port s) (r_src_ip s) (r_dest_port s) (r_dest_ip s) (r_seq s) (r_ack s)
  (r_flags s) v (r_buffer s) (r_length s).
Definition set_r_buffer (v : Z) (s : receive_row) : receive_row := Receive_row (r_status s)
  (r_protocol s) (r_src_port s) (r_src_ip s) (r_dest_port s) (r_dest_ip s) (r_seq s) (r_ack s)
  (r_flags s) (r_win s) v (r_length s).
Definition set_r_length (v : Z) (s : receive_row) : receive_row := Receive_row (r_status s)
  (r_protocol s) (r_src_port s) (r_src_ip s) (r_dest_port s) (r_dest_ip s) (r_seq s) (r_ack s)
  (r_flags s) (r_win s) (r_buffer s) v.

#[export] Instance zero_receive_row : Zero receive_row := Receive_row 0 0 0 0 0 0 0 0 0 0 0 0.

(** [struct RxDesc] of vmnet.c. *)
Record ring_desc := Ring_desc {
  d_buffer : Z;
  d_length : Z;
  d_status : Z
}.

Definition set_d_buffer (v : Z) (s : ring_desc) : ring_desc := Ring_desc v (d_length s)
  (d_status s).
Definition set_d_length (v : Z) (s : ring_desc) : ring_desc := Ring_desc (d_buffer s) v
  (d_status s).
Definition set_d_status (v : Z) (s : ring_desc) : ring_desc := Ring_desc (d_buffer s) (d_length
  s) v.

#[export] Instance zero_ring_desc : Zero ring_desc := Ring_desc 0 0 0.

(** The sockets, the rows, the loopback ring and the network below. *)
Record sk (H : Type) := Sk {
  sockets : gmap Z socket_addr;
  saddr_ready_queue : Z;
  current_saddr : Z;
  socket_next_id : Z;
  socket_port : Z;
  sockt_receive_row : gmap Z receive_row;
  row_cur : Z;
  rx_desc : gmap Z ring_desc;
  rx_cur : Z;
  tx_cur : Z;
  nt : net H
}.
Arguments Sk {H}.
Arguments sockets {H}.
Arguments saddr_ready_queue {H}.
Arguments current_saddr {H}.
Arguments socket_next_id {H}.
Arguments socket_port {H}.
Arguments sockt_receive_row {H}.
Arguments row_cur {H}.
Arguments rx_desc {H}.
Arguments rx_cur {H}.
Arguments tx_cur {H}.
Arguments nt {H}.

Section set_sk.
Context {H : Type}.
Implicit Types (s : sk H).

Definition set_sockets (v : gmap Z socket_addr) (s : sk H) : sk H := Sk v (saddr_ready_queue s)
  (current_saddr s) (socket_next_id s) (socket_port s) (sockt_receive_row s) (row_cur s)
  (rx_desc s) (rx_cur s) (tx_cur s) (nt s).
Definition set_saddr_ready_queue (v : Z) (s : sk H) : sk H := Sk (sockets s) v (current_saddr s)
  (socket_next_id s) (socket_port s) (sockt_receive_row s) (row_cur s) (rx_desc s) (rx_cur s)
  (tx_cur s) (nt s).
Definition set_current_saddr (v : Z) (s : sk H) : sk H := Sk (sockets s) (saddr_ready_queue s) v
  (socket_next_id s) (socket_port s) (sockt_receive_row s) (row_cur s) (rx_desc s) (rx_cur s)
  (tx_cur s) (nt s).
Definition set_socket_next_id (v : Z) (s : sk H) : sk H := Sk (sockets s) (saddr_ready_queue s)
  (current_saddr s) v (socket_port s) (sockt_receive_row s) (row_cur s) (rx_desc s) (rx_cur s)
  (tx_cur s) (nt s).
Definition set_socket_port (v : Z) (s : sk H) : sk H := Sk (sockets s) (saddr_ready_queue s)
  (current_saddr s) (socket_next_id s) v (sockt_receive_row s) (row_cur s) (rx_desc s) (rx_cur
  s) (tx_cur s) (nt s).
Definition set_sockt_receive_row (v : gmap Z receive_row) (s : sk H) : sk H := Sk (sockets s)
  (saddr_ready_queue s) (current_saddr s) (socket_next_id s) (socket_port s) v (row_cur s)
  (rx_desc s) (rx_cur s) (tx_cur s) (nt s).
Definition set_row_cur (v : Z) (s : sk H) : sk H := Sk (sockets s) (saddr_ready_queue s)
  (current_saddr s) (socket_next_id s) (socket_port s) (sockt_receive_row s) v (rx_desc s)
  (rx_cur s) (tx_cur s) (nt s).
Definition set_rx_desc (v : gmap Z ring_desc) (s : sk H) : sk H := Sk (sockets s)
  (saddr_ready_queue s) (current_saddr s) (socket_next_id s) (socket_port s) (sockt_receive_row
  s) (row_cur s) v (rx_cur s) (tx_cur s) (nt s).
Definition set_rx_cur (v : Z) (s : sk H) : sk H := Sk (sockets s) (saddr_ready_queue s)
  (current_saddr s) (socket_next_id s) (socket_port s) (sockt_receive_row s) (row_cur s)
  (rx_desc s) v (tx_cur s) (nt s).
Definition set_tx_cur (v : Z) (s : sk H) : sk H := Sk (sockets s) (saddr_ready_queue s)
  (current_saddr s) (socket_next_id s) (socket_port s) (sockt_receive_row s) (row_cur s)
  (rx_desc s) (rx_cur s) v (nt s).
Definition set_nt (v : net H) (s : sk H) : sk H := Sk (sockets s) (saddr_ready_queue s)
  (current_saddr s) (socket_next_id s) (socket_port s) (sockt_receive_row s) (row_cur s)
  (rx_desc s) (rx_cur s) (tx_cur s) v.
End set_sk.

Section sockets.
Context {H : Type} `{Allocator H}.
Context (nic : list Z -> Z) (receive : net H -> outcome (net H)) (sleep_ : Z -> net H -> net H).
(** The fuel of the address resolution and of the walks over the sockets; the locals that hold
    TCP's pseudo header and the address of [bind], [sendto] and [recvfrom]. *)
Context (fuel : nat) (phdr local : Z).
Implicit Types (s : sk H) (p : Z).

Definition memory s : mem := nmem (nt s).
Definition set_memory (m : mem) s : sk H := set_nt (set_nmem m (nt s)) s.

Definition get_s p s : outcome socket_addr :=
  match sockets s !! p with
  | Some fd => Ret fd
  | None => Undef
  end.

Definition put_s p (fd : socket_addr) s : sk H := set_sockets (<[p := fd]> (sockets s)) s.

Definition sk_malloc (n : Z) s : outcome (Z * sk H) :=
  '(p, u) ← net_malloc n (nt s);
  Ret (p, set_nt u s).

(** [fillIP((unsigned char * )&ip, a)]. *)
Definition ip_word (a : list Z) : Z := ld32 (fillIP ∅ 0 a) 0.

(** ** Creation (socket.c) *)

Definition valid_socket (domain type : Z) : bool :=
  ((domain =? AF_LOCAL) || (domain =? AF_INET)) && ((type =? SOCK_STREAM) || (type =? SOCK_DGRAM)).

(** The new socket: its block zeroed, its id and its two buffers. *)
Definition new_socket (domain type protocol : Z) s : outcome (Z * sk H) :=
  '(saddr, s) ← sk_malloc sizeof_socket s;
  let fd := (zero : socket_addr) in
  let fd := fd |> set_s_id (socket_next_id s) |> set_s_domain domain |> set_s_type type
               |> set_s_protocol protocol in
  let s := set_socket_next_id (s32 (socket_next_id s + 1)) s in
  '(b1, s) ← sk_malloc SOCKET_BUF_SIZE s;
  '(b2, s) ← sk_malloc SOCKET_BUF_SIZE s;
  let fd := fd |> set_s_buf1 b1 |> set_s_buf2 b2 |> set_s_client 0 |> set_s_next 0 in
  Ret (saddr, put_s saddr fd s).

Definition init_socket (domain type protocol : Z) s : outcome (Z * sk H) :=
  let s := s |> set_socket_port 2000 |> set_current_saddr 0 |> set_saddr_ready_queue 0
             |> set_socket_next_id 1 |> set_row_cur 0 in
  '(mem, h) ← palloc 0 (ROW_NUM * 2) (nheap (nt s));
  let s := set_nt (set_nheap h (nt s)) s in
  let s := set_sockt_receive_row
    (for_upto 0 ROW_NUM (fun i rows => wr rows i (set_r_buffer (mem + 0x2000 * i) zero)) ∅) s in
  if negb (valid_socket domain type) then Ret (-1, s)
  else
    '(saddr, s) ← new_socket domain type protocol s;
    let s := s |> set_current_saddr saddr |> set_saddr_ready_queue saddr in
    fd ← get_s saddr s;
    Ret (s_id fd, s).

(** [while (tmp) { if (tmp->id == socket) break; tmp = tmp->next; }] *)
Fixpoint find_socket (n : nat) (P : socket_addr -> bool) (p : Z) s : outcome Z :=
  match n with
  | O => NoFuel
  | S n =>
      if p =? 0 then Ret 0
      else
        fd ← get_s p s;
        if P fd then Ret p else find_socket n P (s_next fd) s
  end.

Definition socket_address (socket : Z) s : outcome Z :=
  find_socket fuel (fun fd => s_id fd =? socket) (saddr_ready_queue s) s.

(** [while (tmp->next) tmp = tmp->next;] *)
Fixpoint last_socket (n : nat) (p : Z) s : outcome Z :=
  match n with
  | O => NoFuel
  | S n =>
      fd ← get_s p s;
      if s_next fd =? 0 then Ret p else last_socket n (s_next fd) s
  end.

Definition socket (domain type protocol : Z) s : outcome (Z * sk H) :=
  if negb (valid_socket domain type) then Ret (-1, s)
  else
    '(saddr, s) ← new_socket domain type protocol s;
    tmp ← last_socket fuel (saddr_ready_queue s) s;
    t ← get_s tmp s;
    let s := put_s tmp (set_s_next saddr t) s in
    fd ← get_s saddr s;
    Ret (s_id fd, s).

(** ** Receiving (socket.c) *)

(** The packet in the receive buffer of [fd], and the flags and addresses with it. *)
Definition put_packet (p : Z) (fd : socket_addr) (protocol src_ip src_port buffer length flags : Z) s : sk H :=
  let fd := fd |> set_s_length1 length |> set_s_recv_dest_ip src_ip |> set_s_recv_dest_port src_port in
  let fd := if protocol =? IP_PROTOCOL_TCP then set_s_protocol_flags flags fd else fd in
  let s := if length =? 0 then s else set_memory (memcpy (memory s) (s_buf1 fd) buffer length) s in
  put_s p (set_s_flags (Z.lor (s_flags fd) 2) fd) s.

(** The packet goes to the receive buffer of [fd].  The length is not compared with that of the buffer: a longer
    packet is written over what stands behind it. *)
Definition deliver (p : Z) (fd : socket_addr) (protocol src_ip src_port buffer length flags : Z) s : outcome (sk H) :=
  if SOCKET_BUF_SIZE <? length then Undef else Ret (put_packet p fd protocol src_ip src_port buffer length flags s).

(** A row has as much room. *)
Definition socket_save_row (protocol src_ip dest_ip src_port dest_port buffer length seq ack flags : Z) s :
    outcome (sk H) :=
  let old_cur := row_cur s in
  let s := set_row_cur ((row_cur s + 1) mod ROW_NUM) s in
  let row := rd (sockt_receive_row s) old_cur in
  if negb (r_status row =? 0) then Die
  else if SOCKET_BUF_SIZE <? length then Undef
  else
    let row := row |> set_r_protocol (u8 protocol) |> set_r_src_port src_port |> set_r_src_ip src_ip
      |> set_r_dest_port dest_port |> set_r_dest_ip dest_ip
      |> set_r_seq seq |> set_r_ack ack |> set_r_flags flags |> set_r_win 0 in
    let s := if length =? 0 then s
             else set_memory (memcpy (memory s) (r_buffer row) buffer length) s in
    let row := row |> set_r_length length |> set_r_status 1 in
    Ret (set_sockt_receive_row (wr (sockt_receive_row s) old_cur row) s).

(** [(flags & 0x80) && (AF_INET || AF_LOCAL) && src_port == dest_port] *)
Definition accepts (dest_port : Z) (fd : socket_addr) : bool :=
  negb (Z.land (s_flags fd) 0x80 =? 0) && ((s_domain fd =? AF_INET) || (s_domain fd =? AF_LOCAL))
  && (s_src_port fd =? dest_port).

Definition has_packet (fd : socket_addr) : bool := negb (Z.land (s_flags fd) 2 =? 0).

Fixpoint receive_loop (n : nat) (origem protocol src_ip dest_ip src_port dest_port buffer length seq ack flags : Z)
    (saddr : Z) s : outcome (sk H) :=
  match n with
  | O => NoFuel
  | S n =>
      if saddr =? 0 then Ret s
      else
        fd ← get_s saddr s;
        if accepts dest_port fd then
          if has_packet fd then
            s ← (if origem =? 0
                 then socket_save_row protocol src_ip dest_ip src_port dest_port buffer length seq ack flags s
                 else Ret s);
            receive_loop n origem protocol src_ip dest_ip src_port dest_port buffer length seq ack flags (s_next fd) s
          else deliver saddr fd protocol src_ip src_port buffer length flags s
        else receive_loop n origem protocol src_ip dest_ip src_port dest_port buffer length seq ack flags (s_next fd) s
  end.

Definition socket_server_receive (origem protocol src_ip dest_ip src_port dest_port buffer length seq ack flags : Z) s :
    outcome (Z * sk H) :=
  s ← receive_loop fuel origem protocol src_ip dest_ip src_port dest_port buffer length seq ack flags
        (saddr_ready_queue s) s;
  Ret (0, s).

Definition socket_server_receive_offline (protocol src_ip dest_ip src_port dest_port buffer length seq ack flags : Z) s :
    outcome (Z * sk H) :=
  p ← find_socket fuel (fun fd => accepts dest_port fd && negb (has_packet fd)) (saddr_ready_queue s) s;
  if p =? 0 then Ret (1, s)
  else
    fd ← get_s p s;
    s ← deliver p fd protocol src_ip src_port buffer length flags s;
    Ret (0, s).

Definition execute_row (i : Z) s : outcome (sk H) :=
  let row := rd (sockt_receive_row s) i in
  if Z.land (r_status row) 1 =? 0 then Ret s
  else
    '(r, s) ← socket_server_receive_offline (r_protocol row) (r_src_ip row) (r_dest_ip row)
      (r_src_port row) (r_dest_port row) (r_buffer row) (r_length row) (r_seq row) (r_ack row) (r_flags row) s;
    if r =? 0
    then Ret (set_sockt_receive_row (upd (sockt_receive_row s) i (set_r_status 0)) s)
    else Ret s.

Definition socket_execute_row s : outcome (sk H) := for_outcome (Z.to_nat ROW_NUM) 0 execute_row s.

(** ** The loopback network (vmnet.c) *)

Definition setup_vmnet s : outcome (sk H) :=
  '(addr, h) ← palloc 0 514 (nheap (nt s));
  if addr =? 0 then Die
  else
    let s := set_nt (set_nheap h (nt s)) s in
    let s := set_memory (memset (memory s) addr 0 (514 * 0x1000)) s in
    let s := set_rx_desc
      (for_upto 0 VMNET_RX_BUF_NUM (fun i d =>
         wr d i (Ring_desc (addr + 8192 * (i + 1)) 0 0x8000)) ∅) s in
    let s := s |> set_rx_cur 0 |> set_tx_cur 0 in
    Ret (set_nt (set_local_ip [127; 0; 0; 1] (nt s)) s).

(** The packets waiting in the ring, taken into [packege_desc_buffer] from slot [desc] on. *)
Fixpoint recieve_loop (n : nat) (desc : Z) s : outcome (sk H) :=
  match n with
  | O => NoFuel
  | S n =>
      let d := rd (rx_desc s) (rx_cur s) in
      if negb (Z.land (d_status d) 0x8000 =? 0) then Ret s
      else
        let s := set_rx_desc (wr (rx_desc s) (rx_cur s) (set_d_status (Z.lor (d_status d) 0x8000) d)) s in
        let s := set_rx_cur ((rx_cur s + 1) mod VMNET_RX_BUF_NUM) s in
        let u := nt s in
        let b := packege_desc_buffer u in
        let b := upd b desc (fun x => x |> set_p_buffersize (d_length d) |> set_p_buf (d_buffer d) |> set_p_flag 0) in
        let b := upd b 0 (fun x => set_p_count (p_count x + 1) x) in
        recieve_loop n (desc + 1) (set_nt (set_packege_desc_buffer b u) s)
  end.

Definition vmnet_recieve_package (n : nat) s : outcome (sk H) :=
  let u := nt s in
  let b := upd (packege_desc_buffer u) 0 (fun x => Package (u32 (-1)) 0 0 0) in
  recieve_loop n 0 (set_nt (set_packege_desc_buffer b u) s).

(** One descriptor of the ring: only UDP is handed on. *)
Definition vmnet_packet (i : Z) s : outcome (sk H) :=
  let prd := rd (packege_desc_buffer (nt s)) i in
  if (p_buf prd =? 0) || (p_buffersize prd =? 0) || negb (p_flag prd =? 0) then Ret s
  else
    let hdr := p_buf prd in
    let m := memory s in
    if m⟦hdr + 10⟧ =? IP_PROTOCOL_UDP then
      let udp := hdr + sizeof_vm_inet_header in
      let data := udp + sizeof_udp_header in
      let end_ := udp + (htons (ld16 m (hdr + 8)) - sizeof_vm_inet_header) in
      let len := s32 (end_ - data) in
      '(_, s) ← socket_server_receive 0 IP_PROTOCOL_UDP (ld32 m hdr) (ld32 m (hdr + 4))
        (ld16 m udp) (ld16 m (udp + 2)) data (u32 len) 0 0 0 s;
      Ret s
    else Ret s.

Definition handler_vmnet (n : nat) s : outcome (sk H) :=
  s ← vmnet_recieve_package n s;
  for_outcome (Z.to_nat (s32 (p_count (rd (packege_desc_buffer (nt s)) 0)))) 0 vmnet_packet s.

(** [asm("int $0xA0")] runs [handler_vmnet]. *)
Definition vmnet_send_package (n : nat) (buf size : Z) s : outcome (Z * sk H) :=
  let d := rd (rx_desc s) (tx_cur s) in
  if 8192 <? size then Ret (2, s)
  else
    let s := set_memory (memcpy (memory s) (d_buffer d) buf size) s in
    let s := set_rx_desc (wr (rx_desc s) (tx_cur s) (d |> set_d_length (u16 size) |> set_d_status 0)) s in
    let s := set_tx_cur ((tx_cur s + 1) mod VMNET_RX_BUF_NUM) s in
    s ← handler_vmnet n s;
    Ret (0, s).

Definition vmipv4_send (n : nat) (buf protocol src_address dst_address length : Z) s : outcome (Z * sk H) :=
  let len := u32 (sizeof_vm_inet_header + length) in
  let s := set_memory (
    let m := memory s in
    let m := st32 m buf src_address in
    let m := st32 m (buf + 4) dst_address in
    let m := m⟦buf + 10 := protocol⟧ in
    let m := m⟦buf + 11 := 0⟧ in
    st16 m (buf + 8) (htons (u16 len))) s in
  '(r, s) ← vmnet_send_package n buf len s;
  Ret (if r =? 0 then 0 else 1, s).

Definition vmnet_udp_send (n : nat) (src_ip dst_ip src_port dst_port data length : Z) s : outcome (Z * sk H) :=
  let len := u32 (sizeof_vm_inet_header + sizeof_udp_header + length) in
  '(buf, s) ← sk_malloc len s;
  let udp := buf + sizeof_vm_inet_header in
  let s := set_memory (udp_datagram src_port dst_port data length udp (memory s)) s in
  let len := u32 (sizeof_udp_header + length) in
  '(_, s) ← vmipv4_send n buf IP_PROTOCOL_UDP src_ip dst_ip len s;
  u ← net_free buf (nt s);
  Ret (s32 length, set_nt u s).

(** ** Sending (socket.c) *)

Definition on_net {A} (f : net H -> outcome (A * net H)) s : outcome (A * sk H) :=
  '(r, u) ← f (nt s);
  Ret (r, set_nt u s).

(** The addresses a packet leaves with, filled in on first use. *)
Definition source_address (cur : Z) (fd : socket_addr) s : socket_addr * sk H :=
  let fd := if s_src_ip fd =? 0 then set_s_src_ip (ip_word (your_ip (nt s))) fd else fd in
  let '(fd, s) :=
    if htons (s_src_port fd) =? 0 then
      let s := if socket_port s <? 2000 then set_socket_port 2000 s else s in
      (set_s_src_port (htons (socket_port s)) fd, set_socket_port (u16 (socket_port s + 1)) s)
    else (fd, s) in
  (fd, put_s cur fd s).

Definition transmit (n : nat) (cur : Z) (fd : socket_addr) s : outcome (sk H) :=
  let dest_ip := s_dest_ip fd in
  let dest_port := htons (s_dest_port fd) in
  let flags := s_protocol_flags fd in
  let buf := s_buf2 fd in
  let len := s_length2 fd in
  let '(fd, s) := source_address cur fd s in
  let src_ip := s_src_ip fd in
  let src_port := htons (s_src_port fd) in
  '(_, s) ←
    (if s_type fd =? SOCK_DGRAM then
       if (s_domain fd =? AF_INET) && negb (dest_ip =? inet_addr 0)
       then on_net (udp_send nic sleep_ fuel src_ip dest_ip src_port dest_port buf len) s
       else vmnet_udp_send n src_ip dest_ip src_port dest_port buf len s
     else if s_type fd =? SOCK_STREAM then
       if flags =? TCP_SYN
       then on_net (tcp_connect nic sleep_ fuel phdr src_ip dest_ip src_port dest_port) s
       else on_net (tcp_send_payload nic sleep_ fuel phdr src_ip dest_ip src_port dest_port flags buf len) s
     else Ret (0, s));
  Ret s.

Definition socket_server_transmit (n : nat) s : outcome (sk H) :=
  let cur := current_saddr s in
  fd ← get_s cur s;
  s ←
    (if negb (Z.land (s_flags fd) 0x80 =? 0) && negb (Z.land (s_flags fd) 1 =? 0) then
       s ← (if (s_domain fd =? AF_INET) || (s_domain fd =? AF_LOCAL) then transmit n cur fd s else Ret s);
       fd ← get_s cur s;
       Ret (put_s cur (set_s_flags (Z.land (s_flags fd) (Z.lnot 1)) fd) s)
     else Ret s);
  fd ← get_s cur s;
  Ret (set_current_saddr (if s_next fd =? 0 then saddr_ready_queue s else s_next fd) s).

(** ** The calls of a program (bind.c, sendto.c, recvfrom.c) *)

(** The local [struct sockaddr_in]. *)
Definition sin_family m : Z := rd m local.
Definition sin_port (m : mem) : Z := ld16 m (local + 2).
Definition s_addr (m : mem) : Z := ld32 m (local + 4).

Definition bind (sock address address_len : Z) s : outcome (Z * sk H) :=
  if address_len =? 0 then Ret (-1, s)
  else
    p ← socket_address sock s;
    let s := set_memory (memcpy (memory s) local address address_len) s in
    fd ← get_s p s;
    if negb (sin_family (memory s) =? s_domain fd) then Ret (-1, s)
    else
      let '(r, m) := set_port (port_bitmap (nt s)) (htons (sin_port (memory s))) (memory s) in
      let s := set_memory m s in
      if r =? 0 then Ret (-1, s)
      else
        let fd := fd |> set_s_src_port (sin_port m) |> set_s_src_ip (s_addr m) in
        let fd :=
          if s_src_ip fd =? 0 then
            set_s_src_ip (ip_word (if s_domain fd =? AF_LOCAL then local_ip (nt s) else your_ip (nt s))) fd
          else fd in
        if s_src_port fd =? 0 then
          let '(q, m) := get_port (port_bitmap (nt s)) m in
          let fd := set_s_src_port (htons q) fd in
          let s := set_memory m (put_s p fd s) in
          if s_src_port fd =? 0 then Ret (-1, s)
          else Ret (0, put_s p (set_s_flags (Z.lor (s_flags fd) 0x80) fd) s)
        else Ret (0, put_s p (set_s_flags (Z.lor (s_flags fd) 0x80) fd) s).

(** [while (...);] on a socket's flags, the other threads running [others]. *)
Fixpoint spin (n : nat) (others : sk H -> outcome (sk H)) (stop : socket_addr -> bool) (p : Z) s : outcome (sk H) :=
  match n with
  | O => NoFuel
  | S n =>
      fd ← get_s p s;
      if stop fd then Ret s else s ← others s; spin n others stop p s
  end.

Definition idle (fd : socket_addr) : bool := Z.land (s_flags fd) 1 =? 0.

Definition sendto (n : nat) (others : sk H -> outcome (sk H))
    (sock message length flags dest_addr dest_len : Z) s : outcome (Z * sk H) :=
  if (message =? 0) && negb (length =? 0) then Ret (0, s)
  else
    p ← socket_address sock s;
    if p =? 0 then Ret (0, s)
    else
      fd ← get_s p s;
      if Z.land (s_flags fd) 0x80 =? 0 then Ret (0, s)
      else
        let s := set_memory (memcpy (memory s) local dest_addr dest_len) s in
        let dest_port := sin_port (memory s) in
        let dest_ip := s_addr (memory s) in
        s ← spin n others idle p s;
        fd ← get_s p s;
        let fd := fd |> set_s_dest_port dest_port |> set_s_dest_ip dest_ip |> set_s_length2 (u32 length) in
        let s := if length =? 0 then s else set_memory (memcpy (memory s) (s_buf2 fd) message length) s in
        let s := put_s p (set_s_flags (Z.lor (s_flags fd) 1) fd) s in
        s ← spin n others idle p s;
        Ret (length, s).

Definition recvfrom (n : nat) (others : sk H -> outcome (sk H))
    (sock buffer length flags address address_len : Z) s : outcome (Z * sk H) :=
  let s := set_memory (st32 (memory s) address_len 0) s in
  if (length =? 0) || (address =? 0) || (buffer =? 0) then Ret (0, s)
  else
    p ← socket_address sock s;
    if p =? 0 then Ret (0, s)
    else
      fd ← get_s p s;
      if Z.land (s_flags fd) 0x80 =? 0 then Ret (0, s)
      else
        s ← spin n others has_packet p s;
        fd ← get_s p s;
        let m := st32 (memory s) address_len sizeof_sockaddr_in in
        let m := m⟦local := u8 (s_domain fd)⟧ in
        let m := st16 m (local + 2) (s_recv_dest_port fd) in
        let m := st32 m (local + 4) (s_recv_dest_ip fd) in
        let m := memcpy m address local (ld32 m address_len) in
        let length := if s_length1 fd <? length then s_length1 fd else length in
        let m := memcpy m buffer (s_buf1 fd) length in
        let s := set_memory m s in
        Ret (length, put_s p (set_s_flags (Z.land (s_flags fd) (Z.lnot 2)) fd) s).

(** ** The receive handler (ethernet.c) *)

(** An ARP packet at [arp]. *)
Definition handle_arp (arp : Z) (u : net H) : outcome (net H) :=
  let m := nmem u in
  let mac := bytes m (arp + 8) 6 in
  let ip := bytes m (arp + 14) 4 in
  let op := htons (ld16 m (arp + 6)) in
  if op =? ARP_OPC_REQUEST then
    let '(_, u) := arp_save_address ip mac u in
    arp_replay nic ip mac u
  else if op =? ARP_OPC_REPLY then
    let '(_, u) := arp_save_address ip mac u in Ret u
  else Ret u.

(** A TCP segment at [tcp] in the IP packet at [ipv4]. *)
Definition handle_tcp (ipv4 tcp : Z) s : outcome (sk H) :=
  let m := memory s in
  let flags := m⟦tcp + 13⟧ in
  let data := tcp + Z.shiftr m⟦tcp + 12⟧ 4 * 4 in
  let end_ := tcp + (htons (ld16 m (ipv4 + 2)) - sizeof_ipv4_header) in
  let len := s32 (end_ - data) in
  let src := ld32 m (ipv4 + 12) in
  let dst := ld32 m (ipv4 + 16) in
  let src_port := ld16 m tcp in
  let dst_port := ld16 m (tcp + 2) in
  let seq := ld32 m (tcp + 4) in
  let ack := ld32 m (tcp + 8) in
  if (flags =? Z.lor TCP_ACK TCP_SYN) || (flags =? Z.lor TCP_ACK TCP_PSH) || (flags =? Z.lor TCP_ACK TCP_FIN) then
    '(r, s) ← on_net (tcp_ack nic sleep_ fuel phdr src dst (htons src_port) (htons dst_port)
                        (htonl seq) (htonl ack) flags (u64 len)) s;
    if negb (r =? 0) then Ret s
    else
      '(_, s) ← socket_server_receive 0 IP_PROTOCOL_TCP src dst src_port dst_port data (u32 len) seq ack flags s;
      Ret s
  else if flags =? TCP_ACK then
    Ret (set_nt (tcp_finish src dst (htons src_port) (htons dst_port) (htonl ack) (nt s)) s)
  else Ret s.

Definition handle_udp (ipv4 udp : Z) s : outcome (sk H) :=
  let m := memory s in
  let data := udp + sizeof_udp_header in
  let end_ := udp + (htons (ld16 m (ipv4 + 2)) - sizeof_ipv4_header) in
  let len := s32 (end_ - data) in
  '(_, s) ← socket_server_receive 0 IP_PROTOCOL_UDP (ld32 m (ipv4 + 12)) (ld32 m (ipv4 + 16))
    (ld16 m udp) (ld16 m (udp + 2)) data (u32 len) 0 0 0 s;
  Ret s.

(** One descriptor of the card. *)
Definition handle_package (i : Z) s : outcome (sk H) :=
  let prd := rd (packege_desc_buffer (nt s)) i in
  if (p_buf prd =? 0) || (p_buffersize prd =? 0) || negb (p_flag prd =? 0) then Ret s
  else
    let eh := p_buf prd in
    let type := htons (ld16 (memory s) (eh + 12)) in
    let ipv4 := eh + sizeof_ether_header in
    if type =? ET_ARP then u ← handle_arp ipv4 (nt s); Ret (set_nt u s)
    else if type =? ET_IPV4 then
      let protocol := (memory s)⟦ipv4 + 9⟧ in
      if protocol =? IP_PROTOCOL_TCP then handle_tcp ipv4 (ipv4 + sizeof_ipv4_header) s
      else if protocol =? IP_PROTOCOL_UDP then handle_udp ipv4 (ipv4 + sizeof_ipv4_header) s
      else Ret s
    else Ret s.

(** [loop: ... count--; if (count > 0) goto loop;] runs at least once. *)
Definition handler_ethernet_package_received s : outcome (sk H) :=
  if is_online (nt s) =? 0 then Ret s
  else
    '(ok, u) ← get_ethernet_package receive (nt s);
    let s := set_nt u s in
    if negb ok then Ret s
    else
      let count := s32 (p_count (rd (packege_desc_buffer u) 0)) in
      for_outcome (Z.to_nat (Z.max 1 count)) 0 handle_package s.
End sockets.

(** ** The list of sockets *)

Abbreviation slinked := (links s_next).

Fixpoint first_socket (P : socket_addr -> bool) (m : gmap Z socket_addr) (l : list Z) : Z :=
  match l with
  | [] => 0
  | q :: l => if P (rd m q) then q else first_socket P m l
  end.

Section list_facts.
Context {H : Type} `{Allocator H}.
Implicit Types (s : sk H) (l : list Z) (p q : Z).

Lemma rd_lookup {A} `{Zero A} (m : gmap Z A) q x : m !! q = Some x -> rd m q = x.
Proof. unfold rd. by intros ->. Qed.

Lemma find_socket_spec n P p s l :
  slinked (sockets s) p l -> (length l < n)%nat -> find_socket n P p s = Ret (first_socket P (sockets s) l).
Proof.
  revert p l. induction n as [|n IH]; intros p l Hl Hn; [lia|]. cbn [find_socket].
  destruct l as [|q l]; [by rewrite Hl|]. destruct Hl as (-> & Hq & fd & Hfd & Hl).
  destruct (Z.eqb_spec q 0); [done|]. unfold get_s. rewrite Hfd. cbn [mbind outcome_bind first_socket].
  rewrite (rd_lookup _ _ _ Hfd). destruct (P fd); [done|]. apply IH; [done|]. cbn in Hn. lia.
Qed.

Lemma first_socket_at P (m : gmap Z socket_addr) l1 q l2 :
  Forall (fun t => P (rd m t) = false) l1 -> P (rd m q) = true -> first_socket P m (l1 ++ q :: l2) = q.
Proof. intros H1 Hq. induction H1 as [|t l1 Ht _ IH]; cbn; [by rewrite Hq|by rewrite Ht]. Qed.

(** Past the sockets that do not accept the port, to one whose buffer is free. *)
Lemma receive_loop_deliver n origem protocol src_ip dest_ip src_port dest_port buffer len seq ack flags p s l1 q l2 fd :
  slinked (sockets s) p (l1 ++ q :: l2) -> (length l1 < n)%nat ->
  Forall (fun t => accepts dest_port (rd (sockets s) t) = false) l1 ->
  sockets s !! q = Some fd -> accepts dest_port fd = true -> has_packet fd = false -> len <= SOCKET_BUF_SIZE ->
  receive_loop n origem protocol src_ip dest_ip src_port dest_port buffer len seq ack flags p s =
    Ret (put_packet q fd protocol src_ip src_port buffer len flags s).
Proof.
  intros Hl Hn Hno Hfd Ha Hp Hlen. revert n p Hl Hn. induction Hno as [|t l1 Ht _ IH]; intros n p Hl Hn;
    (destruct n as [|n]; [cbn in Hn; lia|]); destruct Hl as (-> & Hq0 & x & Hx & Hl); cbn [receive_loop];
    rewrite (proj2 (Z.eqb_neq _ 0) Hq0); unfold get_s; rewrite Hx; cbn [mbind outcome_bind].
  - assert (x = fd) as -> by congruence. rewrite Ha, Hp. unfold deliver.
    by destruct (Z.ltb_spec SOCKET_BUF_SIZE len); [lia|].
  - rewrite (rd_lookup _ _ _ Hx) in Ht. rewrite Ht. apply IH; [done|]. cbn in Hn. lia.
Qed.

(** A full buffer: the packet is saved, when no other socket accepts it. *)
Lemma receive_loop_skip n origem protocol src_ip dest_ip src_port dest_port buffer len seq ack flags p s l :
  slinked (sockets s) p l -> (length l < n)%nat ->
  Forall (fun t => accepts dest_port (rd (sockets s) t) = false) l ->
  receive_loop n origem protocol src_ip dest_ip src_port dest_port buffer len seq ack flags p s = Ret s.
Proof.
  intros Hl Hn Hno. revert n p Hl Hn. induction Hno as [|t l Ht _ IH]; intros n p Hl Hn;
    (destruct n as [|n]; [cbn in Hn; lia|]); cbn [receive_loop].
  - by rewrite Hl.
  - destruct Hl as (-> & Hq0 & x & Hx & Hl). destruct (Z.eqb_spec t 0) as [?|_]; [done|].
    unfold get_s. rewrite Hx. cbn [mbind outcome_bind]. rewrite (rd_lookup _ _ _ Hx) in Ht. rewrite Ht.
    apply IH; [done|]. cbn in Hn. lia.
Qed.

Lemma receive_loop_save n protocol src_ip dest_ip src_port dest_port buffer len seq ack flags p s s1 l1 q l2 fd :
  slinked (sockets s) p (l1 ++ q :: l2) -> (length (l1 ++ q :: l2) < n)%nat ->
  Forall (fun t => accepts dest_port (rd (sockets s) t) = false) (l1 ++ l2) ->
  sockets s !! q = Some fd -> accepts dest_port fd = true -> has_packet fd = true ->
  socket_save_row protocol src_ip dest_ip src_port dest_port buffer len seq ack flags s = Ret s1 ->
  sockets s1 = sockets s ->
  receive_loop n 0 protocol src_ip dest_ip src_port dest_port buffer len seq ack flags p s = Ret s1.
Proof.
  intros Hl Hn Hno Hfd Ha Hp Hs1 Es. apply Forall_app in Hno as [Hno Hno2]. revert n p Hl Hn.
  induction Hno as [|t l1 Ht _ IH]; intros n p Hl Hn;
    (destruct n as [|n]; [cbn in Hn; lia|]); destruct Hl as (-> & Hq0 & x & Hx & Hl); cbn [receive_loop];
    rewrite (proj2 (Z.eqb_neq _ 0) Hq0); unfold get_s; rewrite Hx; cbn [mbind outcome_bind].
  - assert (x = fd) as -> by congruence. rewrite Ha, Hp. change (0 =? 0) with true. cbv iota.
    rewrite Hs1. cbn [mbind outcome_bind]. apply (receive_loop_skip _ _ _ _ _ _ _ _ _ _ _ _ _ _ l2).
    + by rewrite Es.
    + cbn in Hn. lia.
    + by rewrite Es.
  - rewrite (rd_lookup _ _ _ Hx) in Ht. rewrite Ht. apply IH; [done|]. cbn in Hn. lia.
Qed.
End list_facts.

(** ** Receiving *)

Section receiving.
Context {H : Type} `{Allocator H}.
Context (fuel : nat) (local : Z).
Implicit Types (s : sk H) (l : list Z) (p q : Z).

(** [sock] names the socket [q], which is bound, at state [fd]. *)
Record names s l (sock q : Z) (fd : socket_addr) : Prop := {
  na_linked : slinked (sockets s) (saddr_ready_queue s) l;
  na_fuel : (length l < fuel)%nat;
  na_first : first_socket (fun x => s_id x =? sock) (sockets s) l = q;
  na_socket : sockets s !! q = Some fd;
  na_not_null : q <> 0;
  na_bound : Z.land (s_flags fd) 0x80 <> 0
}.

(** What [recvfrom] writes for the socket [fd]. *)
Definition recv_memory (fd : socket_addr) (buffer n address address_len : Z) (m : mem) : mem :=
  let m := st32 m address_len sizeof_sockaddr_in in
  let m := m⟦local := u8 (s_domain fd)⟧ in
  let m := st16 m (local + 2) (s_recv_dest_port fd) in
  let m := st32 m (local + 4) (s_recv_dest_ip fd) in
  let m := memcpy m address local (ld32 m address_len) in
  memcpy m buffer (s_buf1 fd) n.

Lemma recv_memory_spec fd buffer n address address_len m :
  0 <= n -> apart address_len 4 local 8 -> apart address 8 local 8 -> apart buffer n address 8 ->
  apart buffer n (s_buf1 fd) n -> apart (s_buf1 fd) n address_len 4 -> apart (s_buf1 fd) n local 8 ->
  apart (s_buf1 fd) n address 8 ->
  let m' := recv_memory fd buffer n address address_len m in
  (forall i, 0 <= i < n -> m'⟦buffer + i⟧ = m⟦s_buf1 fd + i⟧) /\
  m'⟦address⟧ = u8 (s_domain fd) /\ ld16 m' (address + 2) = s_recv_dest_port fd mod 2 ^ 16 /\
  ld32 m' (address + 4) = s_recv_dest_ip fd mod 2 ^ 32 /\
  forall b, ~ address_len <= b < address_len + 4 -> ~ local <= b < local + 8 ->
    ~ address <= b < address + 8 -> ~ buffer <= b < buffer + n -> m'⟦b⟧ = m⟦b⟧.
Proof.
  unfold apart. intros Hn D1 D2 D3 D4 D5 D6 D7. unfold recv_memory, sizeof_sockaddr_in. cbv zeta.
  set (m1 := st32 (st16 (st32 m address_len 8)⟦local := u8 (s_domain fd)⟧ (local + 2) (s_recv_dest_port fd)) (local + 4) (s_recv_dest_ip fd)).
  assert (ld32 m1 address_len = 8) as El by (subst m1; pkt; done).
  rewrite El. set (m2 := memcpy m1 address local 8).
  assert (forall b, m2⟦b⟧ = if within b address 8 then m1⟦local + (b - address)⟧ else m1⟦b⟧) as E2
    by (intros b; apply rd_memcpy; lia).
  assert (forall b, (memcpy m2 buffer (s_buf1 fd) n)⟦b⟧ =
    if within b buffer n then m2⟦s_buf1 fd + (b - buffer)⟧ else m2⟦b⟧) as E3
    by (intros b; apply rd_memcpy; lia).
  assert (forall b, ~ address_len <= b < address_len + 4 -> ~ local <= b < local + 8 -> m1⟦b⟧ = m⟦b⟧) as E1.
  { intros b H1 H2. subst m1. by pkt. }
  assert (forall (k : nat) o, 0 <= o -> o + Z.of_nat k <= 8 ->
    ld k (memcpy m2 buffer (s_buf1 fd) n) (address + o) = ld k m1 (local + o)) as Ed.
  { intros k o Ho Hk. apply ld_agree. intros i Hi. rewrite E3.
    destruct (within_spec (address + o + i) buffer n); [lia|]. rewrite E2.
    destruct (within_spec (address + o + i) address 8); [|lia]. f_equal. lia. }
  split; [|split; [|split; [|split]]].
  - intros i Hi. rewrite E3. destruct (within_spec (buffer + i) buffer n); [|lia].
    rewrite E2. destruct (within_spec (s_buf1 fd + (buffer + i - buffer)) address 8); [lia|].
    rewrite E1 by lia. f_equal. lia.
  - rewrite E3. destruct (within_spec address buffer n); [lia|]. rewrite E2.
    destruct (within_spec address address 8); [|lia]. replace (local + (address - address)) with local by lia.
    subst m1. by pkt.
  - rewrite Ed by lia. subst m1. by pkt.
  - rewrite Ed by lia. subst m1. by pkt.
  - intros b B1 B2 B3 B4. rewrite E3. destruct (within_spec b buffer n); [lia|]. rewrite E2.
    destruct (within_spec b address 8); [lia|]. by apply E1.
Qed.

(** A call with a packet waiting returns it at once. *)
Lemma recvfrom_spec k others s l sock q fd buffer len flags address address_len :
  names s l sock q fd -> has_packet fd = true -> len <> 0 -> address <> 0 -> buffer <> 0 ->
  let n := if s_length1 fd <? len then s_length1 fd else len in
  recvfrom fuel local (S k) others sock buffer len flags address address_len s =
    Ret (n, s |> set_memory (recv_memory fd buffer n address address_len (st32 (memory s) address_len 0))
              |> put_s q (set_s_flags (Z.land (s_flags fd) (Z.lnot 2)) fd)).
Proof.
  intros [Hl Hf Hq Hfd Hq0 Hb] Hp H1 H2 H3 n. unfold recvfrom.
  apply Z.eqb_neq in H1, H2, H3. rewrite H1, H2, H3. cbn [orb].
  set (s1 := set_memory (st32 (memory s) address_len 0) s).
  unfold socket_address. rewrite (find_socket_spec fuel _ _ s1 l) by done.
  change (sockets s1) with (sockets s). rewrite Hq. cbn [mbind outcome_bind].
  rewrite (proj2 (Z.eqb_neq q 0) Hq0).
  assert (get_s q s1 = Ret fd) as Eg by (unfold get_s; change (sockets s1) with (sockets s); by rewrite Hfd).
  rewrite Eg. cbn [mbind outcome_bind]. rewrite (proj2 (Z.eqb_neq _ 0) Hb).
  assert (spin (S k) others has_packet q s1 = Ret s1) as Es by (cbn [spin]; rewrite Eg; cbn [mbind outcome_bind]; by rewrite Hp).
  rewrite Es. cbn [mbind outcome_bind]. rewrite Eg. cbn [mbind outcome_bind]. reflexivity.
Qed.
End receiving.

Section delivery.
Context {H : Type} `{Allocator H}.
Context (fuel : nat) (local : Z).
Implicit Types (s : sk H) (l : list Z) (p q : Z).

(** [q] is the only socket of the list [l] that accepts the port; it is named [sock]. *)
Record receiver s l (sock q dest_port : Z) (fd : socket_addr) : Prop := {
  re_names : names fuel s l sock q fd;
  re_accepts : accepts dest_port fd = true;
  re_only : exists l1 l2, l = l1 ++ q :: l2 /\
    Forall (fun t => accepts dest_port (rd (sockets s) t) = false) (l1 ++ l2)
}.

(** The regions [recvfrom] works on do not meet. *)
Definition recv_regions (fd : socket_addr) (buffer n address address_len : Z) : Prop :=
  apart address_len 4 local 8 /\ apart address 8 local 8 /\ apart buffer n address 8 /\
  apart buffer n (s_buf1 fd) n /\ apart (s_buf1 fd) n address_len 4 /\ apart (s_buf1 fd) n local 8 /\
  apart (s_buf1 fd) n address 8.

Lemma memory_set m s : memory (set_memory m s) = m.
Proof. reflexivity. Qed.

Lemma accepts_bound dest_port fd : accepts dest_port fd = true -> Z.land (s_flags fd) 0x80 <> 0.
Proof.
  unfold accepts. intros [[Hb _]%andb_true_iff _]%andb_true_iff. by apply negb_true_iff, Z.eqb_neq in Hb.
Qed.

Lemma land_lor_bit (f k : Z) : 0 <= k -> Z.land (Z.lor f (2 ^ k)) (2 ^ k) <> 0.
Proof.
  intros Hk E. assert (Z.testbit (Z.land (Z.lor f (2 ^ k)) (2 ^ k)) k = false) as Eb by (by rewrite E, Z.bits_0).
  rewrite Z.land_spec, Z.lor_spec, Z.pow2_bits_true, orb_true_r in Eb by lia. discriminate.
Qed.

Lemma land_clear_other (f : Z) : Z.land (Z.lor f 2) 0x80 = Z.land f 0x80.
Proof. rewrite Z.land_lor_distr_l. change (Z.land 2 0x80) with 0. by rewrite Z.lor_0_r. Qed.

Lemma land_clear_2 (f : Z) : Z.land (Z.land f (Z.lnot 2)) 2 = 0.
Proof. rewrite <- Z.land_assoc. change (Z.land (Z.lnot 2) 2) with 0. apply Z.land_0_r. Qed.

Lemma land_keep_80 (f : Z) : Z.land (Z.land f (Z.lnot 2)) 0x80 = Z.land f 0x80.
Proof. rewrite <- Z.land_assoc. by change (Z.land (Z.lnot 2) 0x80) with 0x80. Qed.

(** The socket after a packet, and after it was read. *)
Definition delivered (fd : socket_addr) (protocol src_ip src_port len flags : Z) : socket_addr :=
  let fd := fd |> set_s_length1 len |> set_s_recv_dest_ip src_ip |> set_s_recv_dest_port src_port in
  let fd := if protocol =? IP_PROTOCOL_TCP then set_s_protocol_flags flags fd else fd in
  set_s_flags (Z.lor (s_flags fd) 2) fd.

Lemma delivered_keeps fd protocol src_ip src_port len flags :
  let fd' := delivered fd protocol src_ip src_port len flags in
  s_flags fd' = Z.lor (s_flags fd) 2 /\ s_next fd' = s_next fd /\ s_id fd' = s_id fd /\
  s_domain fd' = s_domain fd /\ s_src_port fd' = s_src_port fd /\ s_buf1 fd' = s_buf1 fd /\
  s_length1 fd' = len /\ s_recv_dest_ip fd' = src_ip /\ s_recv_dest_port fd' = src_port.
Proof. unfold delivered. by destruct (protocol =? IP_PROTOCOL_TCP). Qed.

Lemma put_packet_eq p fd protocol src_ip src_port buffer len flags s :
  put_packet p fd protocol src_ip src_port buffer len flags s =
  put_s p (delivered fd protocol src_ip src_port len flags)
    (if len =? 0 then s else set_memory (memcpy (memory s) (s_buf1 fd) buffer len) s).
Proof. unfold put_packet, delivered. by destruct (protocol =? IP_PROTOCOL_TCP), (len =? 0). Qed.

Lemma names_put s l sock q fd fd' m :
  names fuel s l sock q fd -> s_next fd' = s_next fd -> s_id fd' = s_id fd ->
  Z.land (s_flags fd') 0x80 <> 0 -> names fuel (put_s q fd' (set_memory m s)) l sock q fd'.
Proof.
  intros [Hl Hf Hq Hfd Hq0 Hb] Hn Hi Hb'. constructor; try done.
  - cbn [sockets put_s set_sockets set_memory set_nt saddr_ready_queue]. by eapply links_put.
  - cbn [sockets put_s set_sockets set_memory set_nt]. rewrite <- Hq at 2. clear -Hfd Hi.
    induction l as [|t l IH]; [done|]. cbn [first_socket]. rewrite IH.
    assert (s_id (rd (<[q := fd']> (sockets s)) t) = s_id (rd (sockets s) t)) as ->; [|done].
    unfold rd. destruct (decide (t = q)) as [->|]; [by rewrite lookup_insert_eq, Hfd|by rewrite lookup_insert_ne].
  - cbn [sockets put_s set_sockets set_memory set_nt]. apply lookup_insert_eq.
Qed.

(** A packet for a socket with a free buffer. *)
Lemma receive_delivers s l sock q fd origem protocol src_ip dest_ip src_port dest_port buffer len seq ack flags :
  receiver s l sock q dest_port fd -> has_packet fd = false ->
  0 <= len <= SOCKET_BUF_SIZE -> apart buffer len (s_buf1 fd) len ->
  exists m, socket_server_receive fuel origem protocol src_ip dest_ip src_port dest_port buffer len seq ack flags s =
    Ret (0, put_s q (delivered fd protocol src_ip src_port len flags) (set_memory m s)) /\
    (forall i, 0 <= i < len -> m⟦s_buf1 fd + i⟧ = (memory s)⟦buffer + i⟧) /\
    forall b, ~ s_buf1 fd <= b < s_buf1 fd + len -> m⟦b⟧ = (memory s)⟦b⟧.
Proof.
  intros [[Hl Hf Hq Hfd Hq0 Hb] Ha (l1 & l2 & -> & Hno)] Hp Hlen Hap. apply Forall_app in Hno as [Hno _].
  exists (memcpy (memory s) (s_buf1 fd) buffer len). split; [|split].
  - unfold socket_server_receive.
    rewrite (receive_loop_deliver _ _ _ _ _ _ _ _ _ _ _ _ _ s l1 q l2 fd) by
      (done || (rewrite length_app in Hf; cbn in Hf; lia)).
    cbn [mbind outcome_bind]. rewrite put_packet_eq. destruct (Z.eqb_spec len 0) as [->|]; [|done].
    change (memcpy (memory s) (s_buf1 fd) buffer 0) with (memory s). by destruct s as [? ? ? ? ? ? ? ? ? ? []].
  - intros i Hi. rewrite rd_memcpy by (unfold apart in Hap; lia).
    destruct (within_spec (s_buf1 fd + i) (s_buf1 fd) len); [|lia]. f_equal. lia.
  - intros b Hb'. rewrite rd_memcpy by (unfold apart in Hap; lia). by destruct (within_spec b (s_buf1 fd) len).
Qed.

(** C32: a packet of at most 8192 bytes, the size of the buffer, for a bound socket whose receive buffer is free reaches the program: after
    [socket_server_receive] the next [recvfrom] on the socket returns at once with the
    smaller of the two lengths, the bytes of the packet and the address it came from, and
    leaves the buffer free again. *)
Theorem datagram_reaches_program s l sock q fd k others origem protocol src_ip dest_ip src_port dest_port data len
    seq ack flags buffer n address address_len fl :
  receiver s l sock q dest_port fd -> has_packet fd = false ->
  0 <= len <= SOCKET_BUF_SIZE -> 0 < n -> apart data len (s_buf1 fd) len -> address <> 0 -> buffer <> 0 ->
  0 <= src_ip < 2 ^ 32 -> 0 <= src_port < 2 ^ 16 ->
  recv_regions fd buffer (Z.min n len) address address_len ->
  exists s1 s2 fd2, socket_server_receive fuel origem protocol src_ip dest_ip src_port dest_port data len seq ack flags s = Ret (0, s1) /\
    recvfrom fuel local (S k) others sock buffer n fl address address_len s1 = Ret (Z.min n len, s2) /\
    (forall i, 0 <= i < Z.min n len -> (memory s2)⟦buffer + i⟧ = (memory s)⟦data + i⟧) /\
    (memory s2)⟦address⟧ = u8 (s_domain fd) /\ ld16 (memory s2) (address + 2) = src_port /\
    ld32 (memory s2) (address + 4) = src_ip /\
    names fuel s2 l sock q fd2 /\ has_packet fd2 = false /\
    forall t, t <> q -> sockets s2 !! t = sockets s !! t.
Proof.
  intros Hre Hp Hlen Hn Hap Ha0 Hb0 Hip Hpo (D1 & D2 & D3 & D4 & D5 & D6 & D7).
  destruct (receive_delivers s l sock q fd origem protocol src_ip dest_ip src_port dest_port data len seq ack flags Hre Hp Hlen Hap)
    as (m & E & Hin & Hout).
  destruct (delivered_keeps fd protocol src_ip src_port len flags) as (F1 & F2 & F3 & F4 & F5 & F6 & F7 & F8 & F9).
  set (fd1 := delivered fd protocol src_ip src_port len flags) in *.
  set (s1 := put_s q fd1 (set_memory m s)) in *.
  assert (names fuel s1 l sock q fd1) as Hna1.
  { apply (names_put s l sock q fd); [apply Hre|done|done|]. rewrite F1, land_clear_other. apply Hre. }
  assert (has_packet fd1 = true) as Hp1.
  { unfold has_packet. rewrite F1. apply negb_true_iff, Z.eqb_neq. apply (land_lor_bit _ 1). lia. }
  pose proof (recvfrom_spec fuel local k others s1 l sock q fd1 buffer n fl address address_len Hna1 Hp1 ltac:(lia) Ha0 Hb0) as E2.
  cbv zeta in E2. rewrite F7 in E2.
  replace (if len <? n then len else n) with (Z.min n len) in E2 by (destruct (Z.ltb_spec len n); lia).
  set (fd2 := set_s_flags (Z.land (s_flags fd1) (Z.lnot 2)) fd1) in *.
  destruct (recv_memory_spec local fd1 buffer (Z.min n len) address address_len (st32 (memory s1) address_len 0))
    as (R1 & R2 & R3 & R4 & _); rewrite ?F6; try done; [lia|].
  set (m2 := recv_memory local fd1 buffer (Z.min n len) address address_len (st32 (memory s1) address_len 0)) in *.
  eexists s1, _, fd2. split; [exact E|]. split; [exact E2|].
  change (memory (put_s q fd2 (set_memory m2 s1))) with m2.
  split; [|split; [|split; [|split; [|split; [|split]]]]].
  - intros i Hi. rewrite R1 by done. rewrite F6, rd_st_out by (unfold apart in *; lia).
    apply Hin. lia.
  - rewrite R2. by rewrite F4.
  - rewrite R3, F9. by apply Z.mod_small.
  - rewrite R4, F8. by apply Z.mod_small.
  - apply (names_put s1 l sock q fd1); [done|done|done|]. cbn [s_flags set_s_flags fd2].
    change (s_flags fd2) with (Z.land (s_flags fd1) (Z.lnot 2)).
    rewrite land_keep_80, F1, land_clear_other. apply Hre.
  - unfold has_packet. change (s_flags fd2) with (Z.land (s_flags fd1) (Z.lnot 2)). by rewrite land_clear_2.
  - intros t Ht. cbn [sockets put_s set_sockets set_memory set_nt s1]. by rewrite !lookup_insert_ne by congruence.
Qed.
End delivery.

(** ** The rows of waiting packets *)

Lemma for_outcome_one {S} (body : Z -> S -> outcome S) n i c s t :
  i <= c < i + Z.of_nat n -> body c s = Ret t ->
  (forall k, i <= k < c -> body k s = Ret s) -> (forall k, c < k < i + Z.of_nat n -> body k t = Ret t) ->
  for_outcome n i body s = Ret t.
Proof.
  intros Hc E Hs Ht.
  destruct (for_outcome_total (fun k u => u = if k <=? c then s else t) n i body s) as (u & Eu & Hu).
  - by destruct (Z.leb_spec i c); [|lia].
  - intros k u Hk ->. destruct (Z.leb_spec k c).
    + destruct (Z.leb_spec (k + 1) c); [exists s; split; [apply Hs; lia|done]|].
      assert (k = c) as -> by lia. by exists t.
    + destruct (Z.leb_spec (k + 1) c); [lia|]. exists t. split; [apply Ht; lia|done].
  - destruct (Z.leb_spec (i + Z.of_nat n) c); [lia|]. by subst u.
Qed.

Lemma first_socket_none P (m : gmap Z socket_addr) l :
  Forall (fun t => P (rd m t) = false) l -> first_socket P m l = 0.
Proof. induction 1 as [|t l Ht _ IH]; [done|]. cbn. by rewrite Ht. Qed.

Section rows.
Context {H : Type} `{Allocator H}.
Context (fuel : nat).
Implicit Types (s : sk H) (l : list Z) (p q : Z).

(** The search of [socket_server_receive_offline]. *)
Lemma find_free_receiver s l sock q dest_port fd :
  receiver fuel s l sock q dest_port fd ->
  find_socket fuel (fun x => accepts dest_port x && negb (has_packet x)) (saddr_ready_queue s) s =
    Ret (if has_packet fd then 0 else q).
Proof.
  intros [[Hl Hf Hq Hfd Hq0 Hb] Ha (l1 & l2 & -> & Hno)]. rewrite (find_socket_spec _ _ _ _ _ Hl Hf). f_equal.
  eapply Forall_impl in Hno; [|intros t Ht; refine (_ : (fun x => accepts dest_port x && negb (has_packet x)) (rd (sockets s) t) = false); by cbv beta; rewrite Ht].
  pose proof (rd_lookup _ _ _ Hfd) as Er. destruct (has_packet fd) eqn:Ep.
  - apply first_socket_none. apply Forall_app in Hno as [H1 H2]. apply Forall_app. split; [done|].
    constructor; [|done]. by rewrite Er, Ha, Ep.
  - apply Forall_app in Hno as [H1 _]. apply first_socket_at; [done|]. by rewrite Er, Ha, Ep.
Qed.

(** The row of a packet that waits. *)
Definition waiting (row : receive_row) (protocol src_ip src_port dest_port len flags : Z) : Prop :=
  r_status row = 1 /\ r_protocol row = protocol /\ r_src_ip row = src_ip /\ r_src_port row = src_port /\
  r_dest_port row = dest_port /\ r_length row = len /\ r_flags row = flags.

Lemma save_row_spec protocol src_ip dest_ip src_port dest_port data len seq ack flags s :
  let c := row_cur s in let row := rd (sockt_receive_row s) c in
  r_status row = 0 -> 0 <= protocol < 256 -> 0 <= len <= SOCKET_BUF_SIZE -> apart data len (r_buffer row) len ->
  exists m row', socket_save_row protocol src_ip dest_ip src_port dest_port data len seq ack flags s =
    Ret (s |> set_row_cur ((c + 1) mod ROW_NUM) |> set_memory m |> set_sockt_receive_row (wr (sockt_receive_row s) c row')) /\
    waiting row' protocol src_ip src_port dest_port len flags /\ r_buffer row' = r_buffer row /\
    (forall i, 0 <= i < len -> m⟦r_buffer row + i⟧ = (memory s)⟦data + i⟧) /\
    forall b, ~ r_buffer row <= b < r_buffer row + len -> m⟦b⟧ = (memory s)⟦b⟧.
Proof.
  intros c row Hst Hp Hlen Hap. exists (memcpy (memory s) (r_buffer row) data len). eexists. split; [|split; [|split; [|split]]].
  - unfold socket_save_row. fold c. cbn [row_cur set_row_cur sockt_receive_row]. fold row. rewrite Hst. cbn [negb Z.eqb].
    destruct (Z.ltb_spec SOCKET_BUF_SIZE len); [lia|].
    cbn [r_buffer set_r_win set_r_flags set_r_ack set_r_seq set_r_dest_ip set_r_dest_port set_r_src_ip set_r_src_port set_r_protocol].
    destruct (Z.eqb_spec len 0) as [->|_]; [|reflexivity].
    change (memcpy (memory s) (r_buffer row) data 0) with (memory s). by destruct s as [? ? ? ? ? ? ? ? ? ? []].
  - repeat split. cbn. by apply u8_small.
  - reflexivity.
  - intros i Hi. rewrite rd_memcpy by (unfold apart in Hap; lia).
    destruct (within_spec (r_buffer row + i) (r_buffer row) len); [|lia]. f_equal. lia.
  - intros b Hb. rewrite rd_memcpy by (unfold apart in Hap; lia). by destruct (within_spec b (r_buffer row) len).
Qed.

(** A row that waits, for a socket that is busy or free. *)
Lemma execute_row_spec s l sock q fd c protocol src_ip src_port dest_port len flags :
  let row := rd (sockt_receive_row s) c in
  receiver fuel s l sock q dest_port fd -> waiting row protocol src_ip src_port dest_port len flags ->
  len <= SOCKET_BUF_SIZE ->
  execute_row fuel c s =
    Ret (if has_packet fd then s
         else let s := put_packet q fd protocol src_ip src_port (r_buffer row) len flags s in
              set_sockt_receive_row (upd (sockt_receive_row s) c (set_r_status 0)) s).
Proof.
  intros row Hre (W1 & W2 & W3 & W4 & W5 & W6 & W7) Hlen. unfold execute_row. fold row. rewrite W1. cbn [Z.land Pos.land Z.eqb].
  unfold socket_server_receive_offline. rewrite W5, (find_free_receiver s l sock q dest_port fd Hre). cbn [mbind outcome_bind].
  destruct (has_packet fd); [reflexivity|]. destruct Hre as [[_ _ _ Hfd Hq0 _] _ _].
  rewrite (proj2 (Z.eqb_neq q 0) Hq0). unfold get_s. rewrite Hfd. cbn [mbind outcome_bind].
  rewrite W2, W3, W4, W6, W7. unfold deliver. by destruct (Z.ltb_spec SOCKET_BUF_SIZE len); [lia|].
Qed.

Lemma execute_row_free c s : r_status (rd (sockt_receive_row s) c) = 0 -> execute_row fuel c s = Ret s.
Proof. intros E. unfold execute_row. by rewrite E. Qed.

Lemma rows_deliver p fd protocol src_ip src_port buffer len flags s :
  sockt_receive_row (put_packet p fd protocol src_ip src_port buffer len flags s) = sockt_receive_row s.
Proof. rewrite put_packet_eq. by destruct (len =? 0). Qed.

(** With one row waiting, [socket_execute_row] does what [execute_row] does to it. *)
Lemma socket_execute_row_one s c t :
  0 <= c < ROW_NUM -> execute_row fuel c s = Ret t ->
  (forall i, i <> c -> r_status (rd (sockt_receive_row s) i) = 0) ->
  (forall i, i <> c -> rd (sockt_receive_row t) i = rd (sockt_receive_row s) i) ->
  socket_execute_row fuel s = Ret t.
Proof.
  intros Hc E Hs Ht. unfold socket_execute_row. apply (for_outcome_one _ _ _ c); [|done| |].
  - unfold ROW_NUM in *. lia.
  - intros k Hk. apply execute_row_free, Hs. lia.
  - intros k Hk. apply execute_row_free. rewrite Ht by lia. apply Hs. lia.
Qed.
Lemma receive_loop_die n protocol src_ip dest_ip src_port dest_port buffer len seq ack flags p s l1 q l2 fd :
  slinked (sockets s) p (l1 ++ q :: l2) -> (length (l1 ++ q :: l2) < n)%nat ->
  Forall (fun t => accepts dest_port (rd (sockets s) t) = false) l1 ->
  sockets s !! q = Some fd -> accepts dest_port fd = true -> has_packet fd = true ->
  socket_save_row protocol src_ip dest_ip src_port dest_port buffer len seq ack flags s = Die ->
  receive_loop n 0 protocol src_ip dest_ip src_port dest_port buffer len seq ack flags p s = Die.
Proof.
  intros Hl Hn Hno Hfd Ha Hp Hs1. revert n p Hl Hn.
  induction Hno as [|t l1 Ht _ IH]; intros n p Hl Hn;
    (destruct n as [|n]; [cbn in Hn; lia|]); destruct Hl as (-> & Hq0 & x & Hx & Hl); cbn [receive_loop];
    rewrite (proj2 (Z.eqb_neq _ 0) Hq0); unfold get_s; rewrite Hx; cbn [mbind outcome_bind].
  - assert (x = fd) as -> by congruence. rewrite Ha, Hp. change (0 =? 0) with true. cbv iota. by rewrite Hs1.
  - rewrite (rd_lookup _ _ _ Hx) in Ht. rewrite Ht. apply IH; [done|]. cbn in Hn. lia.
Qed.

(** C33: a packet of at most 8192 bytes for a socket whose receive buffer is full is kept in the next row; it stays
    there while the buffer is full, and the first [socket_execute_row] that finds the buffer
    free moves it to the socket and frees the row.  Nothing makes a later packet wait for the
    one in the row: once the buffer is free, a packet that arrives before [socket_execute_row]
    runs is delivered first.  When the row is still in use the kernel stops. *)
Theorem busy_packet_waits s l sock q fd protocol src_ip dest_ip src_port dest_port data len seq ack flags :
  let c := row_cur s in let row := rd (sockt_receive_row s) c in
  let receive := socket_server_receive fuel 0 protocol src_ip dest_ip src_port dest_port data len seq ack flags in
  receiver fuel s l sock q dest_port fd -> has_packet fd = true ->
  (r_status row <> 0 -> receive s = Die) /\
  (0 <= c < ROW_NUM -> (forall i, r_status (rd (sockt_receive_row s) i) = 0) -> 0 <= protocol < 256 ->
   0 <= len <= SOCKET_BUF_SIZE -> apart data len (r_buffer row) len ->
   exists s1, receive s = Ret (0, s1) /\ sockets s1 = sockets s /\ socket_execute_row fuel s1 = Ret s1 /\
     forall s2 l2 fd2, receiver fuel s2 l2 sock q dest_port fd2 -> has_packet fd2 = false ->
       sockt_receive_row s2 = sockt_receive_row s1 ->
       (forall i, 0 <= i < len -> (memory s2)⟦r_buffer row + i⟧ = (memory s1)⟦r_buffer row + i⟧) ->
       apart (r_buffer row) len (s_buf1 fd2) len ->
       (exists s3, socket_execute_row fuel s2 = Ret s3 /\
          sockets s3 !! q = Some (delivered fd2 protocol src_ip src_port len flags) /\
          (forall i, 0 <= i < len -> (memory s3)⟦s_buf1 fd2 + i⟧ = (memory s)⟦data + i⟧) /\
          forall i, r_status (rd (sockt_receive_row s3) i) = 0) /\
       (forall ip port buf n f, 0 <= n <= SOCKET_BUF_SIZE -> apart buf n (s_buf1 fd2) n ->
          exists s3, socket_server_receive fuel 0 protocol ip dest_ip port dest_port buf n seq ack f s2 = Ret (0, s3) /\
            sockets s3 !! q = Some (delivered fd2 protocol ip port n f) /\
            sockt_receive_row s3 = sockt_receive_row s2)).
Proof.
  intros c row receive Hre Hp. pose proof Hre as [[Hl Hf _ Hfd Hq0 _] Ha (l1 & l2' & -> & Hno)]. split.
  { intros Hst. unfold receive, socket_server_receive.
    rewrite (receive_loop_die fuel protocol src_ip dest_ip src_port dest_port data len seq ack flags _ s l1 q l2' fd); try done.
    - by apply Forall_app in Hno as [? _].
    - unfold socket_save_row. cbn [row_cur set_row_cur sockt_receive_row]. fold c row.
      destruct (Z.eqb_spec (r_status row) 0); [done|reflexivity]. }
  intros Hc Hrows Hpr Hlen Hap.
  destruct (save_row_spec protocol src_ip dest_ip src_port dest_port data len seq ack flags s (Hrows _) Hpr Hlen Hap)
    as (m & row' & E & W & Hb & Hm & Hmo).
  fold c row in E, W, Hb, Hm, Hmo.
  match type of E with _ = Ret ?x => set (s1 := x) in * end.
  exists s1. split; [|split; [|split]].
  - unfold receive, socket_server_receive.
    by rewrite (receive_loop_save fuel protocol src_ip dest_ip src_port dest_port data len seq ack flags _ s s1 l1 q l2' fd).
  - reflexivity.
  - assert (receiver fuel s1 (l1 ++ q :: l2') sock q dest_port fd) as Hre1 by (destruct Hre as [[] ? ?]; by constructor).
    apply (socket_execute_row_one s1 c s1); [done| | |done].
    + rewrite (execute_row_spec s1 _ sock q fd c protocol src_ip src_port dest_port len flags Hre1); [by rewrite Hp| |lia].
      change (sockt_receive_row s1) with (wr (sockt_receive_row s) c row'). by rewrite rd_wr_eq.
    + intros i Hi. change (sockt_receive_row s1) with (wr (sockt_receive_row s) c row'). by rewrite rd_wr_ne.
  - intros s2 l2 fd2 Hre2 Hp2 Hr2 Hm2 Hap2. split.
    + assert (rd (sockt_receive_row s2) c = row') as Erow.
      { rewrite Hr2. change (sockt_receive_row s1) with (wr (sockt_receive_row s) c row'). apply rd_wr_eq. }
      assert (forall i, i <> c -> r_status (rd (sockt_receive_row s2) i) = 0) as Hne.
      { intros i Hi. rewrite Hr2. change (sockt_receive_row s1) with (wr (sockt_receive_row s) c row'). by rewrite rd_wr_ne. }
      eexists. split; [|split; [|split]].
      * apply (socket_execute_row_one s2 c); [done| |done|].
        -- rewrite (execute_row_spec s2 _ sock q fd2 c protocol src_ip src_port dest_port len flags Hre2); [|by rewrite Erow|lia].
           rewrite Hp2, Erow, Hb. reflexivity.
        -- intros i Hi. cbv zeta. cbn [sockt_receive_row set_sockt_receive_row]. by rewrite rd_upd_ne, rows_deliver.
      * cbv zeta. rewrite put_packet_eq. cbn [sockets set_sockt_receive_row put_s set_sockets]. apply lookup_insert_eq.
      * intros i Hi. rewrite <- Hm, <- Hm2 by done. rewrite put_packet_eq. cbv zeta.
        change (memory (set_sockt_receive_row _ (put_s q ?fd3 ?x))) with (memory x).
        destruct (Z.eqb_spec len 0); [lia|].
        change (memory (set_memory ?x s2)) with x. rewrite rd_memcpy by (unfold apart in Hap2; lia).
        destruct (within_spec (s_buf1 fd2 + i) (s_buf1 fd2) len); [|lia]. f_equal. lia.
      * intros i. cbv zeta. cbn [sockt_receive_row set_sockt_receive_row]. rewrite rows_deliver, rd_upd.
        destruct (Z.eqb_spec i c) as [->|Hi]; [reflexivity|by apply Hne].
    + intros ip port buf n f Hn Hap3.
      destruct (receive_delivers fuel s2 l2 sock q fd2 0 protocol ip dest_ip port dest_port buf n seq ack f Hre2 Hp2 Hn Hap3)
        as (m3 & E3 & _). eexists. split; [exact E3|]. split; [apply lookup_insert_eq|done].
Qed.
End rows.

(** ** Binding *)

Section binding.
Context {H : Type} `{Allocator H}.
Context (fuel : nat) (local : Z).
Implicit Types (s : sk H) (l : list Z) (p q : Z).

(** The socket after a successful [bind]: an address of 0 stands for the machine's own. *)
Definition bound_socket (fd : socket_addr) (port ip own : Z) : socket_addr :=
  let fd := fd |> set_s_src_port port |> set_s_src_ip (if ip =? 0 then own else ip) in
  set_s_flags (Z.lor (s_flags fd) 0x80) fd.

Lemma ports_rep_agree b m m' X :
  ports_rep b m X -> (forall a, b <= a < b + 8192 -> m'⟦a⟧ = m⟦a⟧) -> ports_rep b m' X.
Proof.
  intros HX Hm p Hp. rewrite <- HX by done. unfold port_used. rewrite Hm; [done|].
  assert (0 <= p / 8 < 8192) by (Z.div_mod_to_equations; lia). lia.
Qed.

Lemma htons_0_iff z : 0 <= z < 2 ^ 16 -> (htons z = 0 <-> z = 0).
Proof.
  intros Hz. split; [|by intros ->]. intros E. rewrite <- (htons_invol z) by done. by rewrite E.
Qed.

Lemma set_port_keeps b q m a : 0 <= q < 65536 -> ~ b <= a < b + 8192 -> (snd (set_port b q m))⟦a⟧ = m⟦a⟧.
Proof.
  intros Hq Ha. unfold set_port. destruct (negb _); [done|]. cbn [snd].
  assert (0 <= q / 8 < 8192) by (Z.div_mod_to_equations; lia). rewrite rd_wr_ne by lia. done.
Qed.

(** [bind] on an existing socket with a complete address: it succeeds exactly when the
    family is the socket's and the port is neither 0 nor taken (so a request for any free
    port, port 0, always fails); then the socket is bound to the port and the port is taken, and no
    other socket changes.  When it fails no socket and no free port changes. *)
Theorem bind_takes_port s l sock q fd X address :
  slinked (sockets s) (saddr_ready_queue s) l -> (length l < fuel)%nat ->
  first_socket (fun x => s_id x =? sock) (sockets s) l = q -> sockets s !! q = Some fd ->
  ports_rep (port_bitmap (nt s)) (memory s) X -> 0 ∈ X -> bytes_in (memory s) ->
  apart local 8 address 8 -> apart local 8 (port_bitmap (nt s)) 8192 ->
  let family := (memory s)⟦address⟧ in
  let port := ld16 (memory s) (address + 2) in
  let ip := ld32 (memory s) (address + 4) in
  let own := ip_word (if s_domain fd =? AF_LOCAL then local_ip (nt s) else your_ip (nt s)) in
  let ok := (family =? s_domain fd) && negb (bool_decide (htons port ∈ X)) in
  exists m, bind fuel local sock address sizeof_sockaddr_in s =
      Ret (if ok then 0 else -1,
           if ok then put_s q (bound_socket fd port ip own) (set_memory m s) else set_memory m s) /\
    ports_rep (port_bitmap (nt s)) m (if ok then {[htons port]} ∪ X else X) /\
    (ok = true -> port <> 0 /\ (accepts port (bound_socket fd port ip own) = true <->
       s_domain fd = AF_INET \/ s_domain fd = AF_LOCAL)).
Proof.
  intros Hl Hf Hq Hfd HX Hx0 Hm D1 D2 family port ip own ok. unfold sizeof_sockaddr_in in *.
  set (m1 := memcpy (memory s) local address 8).
  assert (forall b, m1⟦b⟧ = if within b local 8 then (memory s)⟦address + (b - local)⟧ else (memory s)⟦b⟧) as Em
    by (intros b; apply rd_memcpy; unfold apart in D1; lia).
  assert (forall (k : nat) o, 0 <= o -> o + Z.of_nat k <= 8 -> ld k m1 (local + o) = ld k (memory s) (address + o)) as Ed.
  { intros k o Ho Hk. apply ld_agree. intros i Hi. rewrite Em. destruct (within_spec (local + o + i) local 8); [|lia]. f_equal. lia. }
  assert (sin_family local m1 = family) as Ef.
  { unfold sin_family. rewrite Em. destruct (within_spec local local 8); [|lia]. unfold family. f_equal. lia. }
  assert (sin_port local m1 = port) as Epo by (apply Ed; lia).
  assert (s_addr local m1 = ip) as Ei by (apply Ed; lia).
  assert (0 <= port < 2 ^ 16) as Hport by (by (apply (ld_range 2))).
  assert (ports_rep (port_bitmap (nt s)) m1 X) as HX1.
  { apply (ports_rep_agree _ _ _ _ HX). intros a Ha. rewrite Em. destruct (within_spec a local 8); [unfold apart in D2; lia|done]. }
  unfold bind. change (8 =? 0) with false. cbv iota. unfold socket_address.
  rewrite (find_socket_spec fuel _ _ s l Hl Hf), Hq. cbn [mbind outcome_bind]. fold m1. unfold get_s.
  change (sockets (set_memory m1 s)) with (sockets s). rewrite Hfd. cbn [mbind outcome_bind].
  change (memory (set_memory m1 s)) with m1. rewrite Ef, Epo. unfold ok.
  destruct (Z.eqb_spec family (s_domain fd)) as [Hfam|Hfam]; cbn [negb andb].
  2:{ exists m1. split; [reflexivity|]. split; [done|discriminate]. }
  assert (0 <= htons port < 65536) as Hh by (apply htons_range).
  destruct (set_port_spec (port_bitmap (nt s)) m1 X (htons port) HX1 Hh) as (m2 & E2 & HX2).
  change (port_bitmap (nt (set_memory m1 s))) with (port_bitmap (nt s)). rewrite E2.
  destruct (bool_decide_reflect (htons port ∈ X)) as [Hin|Hnin]; cbn [negb].
  { exists m2. split; [reflexivity|]. split; [|discriminate]. by rewrite (subseteq_union_1_L {[htons port]} X) in HX2 by (by apply singleton_subseteq_l). }
  assert (htons port <> 0) as Hp0 by congruence. rewrite (proj2 (Z.eqb_neq _ 0) Hp0).
  assert (forall (k : nat) o, 0 <= o -> o + Z.of_nat k <= 8 -> ld k m2 (local + o) = ld k (memory s) (address + o)) as Ed2.
  { intros k o Ho Hk. rewrite <- Ed by done. apply ld_agree. intros i Hi.
    change m2 with (snd (htons port, m2)). pose proof (set_port_keeps (port_bitmap (nt s)) (htons port) m1 (local + o + i) Hh) as Ek.
    rewrite E2 in Ek. apply Ek. unfold apart in D2. lia. }
  assert (sin_port local m2 = port) as Epo2 by (apply Ed2; lia).
  assert (s_addr local m2 = ip) as Ei2 by (apply Ed2; lia).
  rewrite Epo2, Ei2.
  assert (port <> 0) as Hpo by (intros E0; apply Hp0; by rewrite E0).
  exists m2. split; [|split; [done|]].
  - cbn [s_src_ip set_s_src_ip set_s_src_port]. destruct (Z.eqb_spec ip 0) as [E0|E0];
      cbn [s_src_port set_s_src_ip set_s_src_port]; rewrite (proj2 (Z.eqb_neq _ 0) Hpo);
      unfold bound_socket; rewrite ?E0, ?Z.eqb_refl, ?(proj2 (Z.eqb_neq _ 0) E0); by destruct fd.
  - intros _. split; [done|]. unfold accepts, bound_socket.
    assert (Z.land (Z.lor (s_flags fd) 0x80) 0x80 <> 0) as Eb by (apply (land_lor_bit _ 7); lia).
    cbn [s_flags s_domain s_src_port set_s_flags set_s_src_ip set_s_src_port]. rewrite (proj2 (Z.eqb_neq _ 0) Eb), Z.eqb_refl, andb_true_r. cbn [negb andb].
    rewrite orb_true_iff, !Z.eqb_eq. done.
Qed.
End binding.

(** ** The loopback network *)

Section loopback.
Context {H : Type} `{AllocatorLaws H}.
Context (fuel : nat).
Implicit Types (s : sk H) (l : list Z) (p q : Z).

(** The slot [i] of the ring is empty. *)
Definition slot_free s (i : Z) : Prop := Z.land (d_status (rd (rx_desc s) i)) 0x8000 <> 0.

Definition next_slot (c : Z) : Z := (c + 1) mod VMNET_RX_BUF_NUM.

Lemma next_slot_ne c : 0 <= c < VMNET_RX_BUF_NUM -> next_slot c <> c /\ 0 <= next_slot c < VMNET_RX_BUF_NUM.
Proof. unfold next_slot, VMNET_RX_BUF_NUM. intros Hc. Z.div_mod_to_equations. lia. Qed.

(** One packet in the ring is taken out. *)
Lemma vmnet_recieve_one n s c :
  rx_cur s = c -> 0 <= c < VMNET_RX_BUF_NUM -> d_status (rd (rx_desc s) c) = 0 -> slot_free s (next_slot c) ->
  exists d b, vmnet_recieve_package (S (S n)) s =
      Ret (s |> set_rx_desc d |> set_rx_cur (next_slot c) |> set_nt (set_packege_desc_buffer b (nt s))) /\
    rd b 0 = Package 0 1 (d_length (rd (rx_desc s) c)) (d_buffer (rd (rx_desc s) c)) /\
    d_status (rd d c) = 0x8000 /\ forall i, i <> c -> rd d i = rd (rx_desc s) i.
Proof.
  intros Ec Hc Hst Hnext. destruct (next_slot_ne c Hc) as [Hne Hn].
  exists (wr (rx_desc s) c (set_d_status (Z.lor 0 0x8000) (rd (rx_desc s) c))). eexists. split; [|split; [|split]].
  - unfold vmnet_recieve_package. cbn [recieve_loop rx_cur set_nt rx_desc set_rx_cur set_rx_desc].
    rewrite Ec, Hst. change (Z.land 0 0x8000) with 0. cbn [Z.eqb negb]. cbv zeta.
    change ((c + 1) mod VMNET_RX_BUF_NUM) with (next_slot c).
    rewrite rd_wr_ne by done. rewrite (proj2 (Z.eqb_neq _ 0) Hnext). cbn [negb].
    reflexivity.
  - rewrite !rd_upd_eq. cbn [packege_desc_buffer nt set_nt set_rx_cur set_rx_desc set_packege_desc_buffer]. rewrite rd_upd_eq. reflexivity.
  - rewrite rd_wr_eq. reflexivity.
  - intros i Hi. by rewrite rd_wr_ne.
Qed.

(** A packet that stands in the ring, with the headers [vmipv4_send] and [vmnet_udp_send] write. *)
Record ring_packet (m : mem) (a src dst sport dport len : Z) : Prop := {
  rp_src : ld32 m a = src;
  rp_dst : ld32 m (a + 4) = dst;
  rp_length : htons (ld16 m (a + 8)) = 20 + len;
  rp_protocol : m⟦a + 10⟧ = IP_PROTOCOL_UDP;
  rp_sport : ld16 m (a + 12) = htons sport;
  rp_dport : ld16 m (a + 14) = htons dport
}.

(** The interrupt hands the packet to the socket of the port. *)
Lemma handler_vmnet_spec n s c l sock q fd src dst sport dport len :
  rx_cur s = c -> 0 <= c < VMNET_RX_BUF_NUM -> slot_free s (next_slot c) -> 0 <= len <= 8172 ->
  d_status (rd (rx_desc s) c) = 0 -> d_length (rd (rx_desc s) c) = 20 + len ->
  let a := d_buffer (rd (rx_desc s) c) in a <> 0 ->
  ring_packet (memory s) a src dst sport dport len ->
  receiver fuel s l sock q (htons dport) fd -> has_packet fd = false ->
  apart (a + 20) len (s_buf1 fd) len ->
  exists d b m, handler_vmnet fuel (S (S n)) s =
      Ret (put_s q (delivered fd IP_PROTOCOL_UDP src (htons sport) len 0)
            (s |> set_rx_desc d |> set_rx_cur (next_slot c)
               |> set_nt (set_packege_desc_buffer b (set_nmem m (nt s))))) /\
    (forall i, 0 <= i < len -> m⟦s_buf1 fd + i⟧ = (memory s)⟦a + 20 + i⟧) /\
    d_status (rd d c) = 0x8000 /\ forall i, i <> c -> rd d i = rd (rx_desc s) i.
Proof.
  intros Ec Hc Hnext Hlen Hst Hln a Ha [P1 P2 P3 P4 P5 P6] Hre Hp Hap.
  destruct (vmnet_recieve_one n s c Ec Hc Hst Hnext) as (d & b & E & Eb & Hd & Hd').
  set (s1 := s |> set_rx_desc d |> set_rx_cur (next_slot c) |> set_nt (set_packege_desc_buffer b (nt s))) in *.
  assert (receiver fuel s1 l sock q (htons dport) fd) as Hre1 by (destruct Hre as [[] ? ?]; by constructor).
  destruct (receive_delivers fuel s1 l sock q fd 0 IP_PROTOCOL_UDP src dst (htons sport) (htons dport) (a + 20) len 0 0 0 Hre1 Hp
    ltac:(unfold SOCKET_BUF_SIZE; lia) Hap) as (m & Er & Hm & _).
  exists d, b, m. split; [|split; [exact Hm|done]].
  unfold handler_vmnet. rewrite E. cbn [mbind outcome_bind].
  change (packege_desc_buffer (nt s1)) with b. rewrite Eb.
  change (Z.to_nat (s32 (p_count (Package 0 1 _ _)))) with 1%nat. cbn [for_outcome]. unfold vmnet_packet.
  change (packege_desc_buffer (nt s1)) with b. rewrite Eb. cbn [p_buf p_buffersize p_flag]. fold a.
  rewrite (proj2 (Z.eqb_neq a 0) Ha), Hln, (proj2 (Z.eqb_neq (20 + len) 0)) by lia. cbn [orb negb Z.eqb].
  change (memory s1) with (memory s). rewrite P4. cbn [Z.eqb Pos.eqb]. cbv zeta.
  unfold sizeof_vm_inet_header, sizeof_udp_header. rewrite P1, P2, P3, P5.
  replace (a + 12 + 2) with (a + 14) by lia. rewrite P6. replace (a + 12 + 8) with (a + 20) by lia.
  replace (u32 (s32 (a + 12 + (20 + len - 12) - (a + 20)))) with len
    by (rewrite s32_small by lia; rewrite u32_small; lia).
  change (IP_PROTOCOL_UDP =? IP_PROTOCOL_UDP) with true. cbv iota. rewrite Er. reflexivity.
Qed.

(** What the sender leaves in the ring slot at [a]. *)
Lemma ring_packet_copy m a buf src dst sport dport data len :
  bytes_in m -> 0 <= src < 2 ^ 32 -> 0 <= dst < 2 ^ 32 -> 0 <= sport < 2 ^ 16 -> 0 <= dport < 2 ^ 16 ->
  0 <= len <= 8172 -> apart data len (buf + 12) (8 + len) \/ len = 0 -> apart a (20 + len) buf (20 + len) ->
  let m1 := udp_datagram sport dport data len (buf + 12) m in
  let m2 := st32 m1 buf src in
  let m2 := st32 m2 (buf + 4) dst in
  let m2 := m2⟦buf + 10 := IP_PROTOCOL_UDP⟧ in
  let m2 := m2⟦buf + 11 := 0⟧ in
  let m2 := st16 m2 (buf + 8) (htons (20 + len)) in
  let m3 := memcpy m2 a buf (20 + len) in
  ring_packet m3 a src dst sport dport len /\
  (forall i, 0 <= i < len -> m3⟦a + 20 + i⟧ = m⟦data + i⟧) /\
  forall b, ~ buf <= b < buf + 20 + len -> ~ a <= b < a + 20 + len -> m3⟦b⟧ = m⟦b⟧.
Proof.
  intros Hm Hsrc Hdst Hsp Hdp Hlen Hd Hap m1 m2a m2b m2c m2d m2 m3. unfold apart in Hd, Hap.
  destruct (udp_datagram_spec sport dport data len (buf + 12) m Hm Hsp Hdp ltac:(lia) ltac:(lia))
    as (Hm1 & U1 & U2 & U3 & U4 & U5). fold m1 in Hm1, U1, U2, U3, U4, U5.
  assert (forall b, m3⟦b⟧ = if within b a (20 + len) then m2⟦buf + (b - a)⟧ else m2⟦b⟧) as E3
    by (intros b; apply rd_memcpy; lia).
  assert (forall (k : nat) o, 0 <= o -> o + Z.of_nat k <= 20 -> ld k m3 (a + o) = ld k m2 (buf + o)) as Ed.
  { intros k o Ho Hk. apply ld_agree. intros i Hi. rewrite E3.
    destruct (within_spec (a + o + i) a (20 + len)); [|lia]. f_equal. lia. }
  assert (forall b, ~ buf <= b < buf + 12 -> m2⟦b⟧ = m1⟦b⟧) as E2 by (intros b Hb; subst m2 m2d m2c m2b m2a; by pkt).
  assert (forall o, o = 0 \/ o = 2 -> ld 2 m3 (a + (12 + o)) = ld 2 m1 (buf + 12 + o)) as Eu.
  { intros o Ho. rewrite Ed by lia. replace (buf + (12 + o)) with (buf + 12 + o) by lia. apply ld_ext.
    intros b Hb. apply E2. lia. }
  split; [constructor|split].
  - pose proof (Ed 4%nat 0 ltac:(lia) ltac:(lia)) as E. rewrite !Z.add_0_r in E. rewrite E.
    subst m2 m2d m2c m2b m2a. pkt. by apply Z.mod_small.
  - rewrite Ed by lia. subst m2 m2d m2c m2b m2a. pkt. by apply Z.mod_small.
  - rewrite Ed by lia. subst m2 m2d m2c m2b m2a. pkt. change (256 ^ Z.of_nat 2) with (2 ^ 16).
    rewrite Z.mod_small by apply htons_range. apply htons_invol. lia.
  - rewrite E3. destruct (within_spec (a + 10) a (20 + len)); [|lia]. replace (buf + (a + 10 - a)) with (buf + 10) by lia.
    subst m2 m2d m2c m2b m2a. by pkt.
  - replace (a + 12) with (a + (12 + 0)) by lia. rewrite (Eu 0) by lia. rewrite Z.add_0_r, <- U1. symmetry. apply htons_invol, (ld_range 2), Hm1.
  - replace (a + 14) with (a + (12 + 2)) by lia. rewrite (Eu 2) by lia. rewrite <- U2. symmetry. apply htons_invol, (ld_range 2), Hm1.
  - intros i Hi. rewrite E3. destruct (within_spec (a + 20 + i) a (20 + len)); [|lia].
    replace (buf + (a + 20 + i - a)) with (buf + 12 + 8 + i) by lia. rewrite E2 by lia. by apply U4.
  - intros b B1 B2. rewrite E3. destruct (within_spec b a (20 + len)); [lia|]. rewrite E2 by lia. apply U5. lia.
Qed.

(** C34: the loopback network delivers: when the ring is empty, a datagram of at most 8172
    bytes for a port on which a socket with a free buffer is bound is in that socket's buffer
    when [vmnet_udp_send] returns, with the sender's address; the ring is empty again, one slot
    further, the block the packet was built in is given back, and no other socket changes. *)
Theorem loopback_delivers n s B l sock q fd src dst sport dport data len :
  let c := tx_cur s in let a := d_buffer (rd (rx_desc s) c) in
  heap_ok (nheap (nt s)) B -> heap_room (nheap (nt s)) (20 + len) -> bytes_in (memory s) ->
  rx_cur s = c -> 0 <= c < VMNET_RX_BUF_NUM -> slot_free s (next_slot c) ->
  0 <= src < 2 ^ 32 -> 0 <= dst < 2 ^ 32 -> 0 <= sport < 2 ^ 16 -> 0 <= dport < 2 ^ 16 -> 0 <= len <= 8172 ->
  receiver fuel s l sock q (htons dport) fd -> has_packet fd = false ->
  (forall i, 0 <= i < len -> live B (data + i)) -> (forall i, 0 <= i < 8192 -> live B (a + i)) ->
  apart a 8192 (s_buf1 fd) 8192 ->
  exists s', vmnet_udp_send fuel (S (S n)) src dst sport dport data len s = Ret (len, s') /\
    sockets s' = <[q := delivered fd IP_PROTOCOL_UDP src (htons sport) len 0]> (sockets s) /\
    (forall i, 0 <= i < len -> (memory s')⟦s_buf1 fd + i⟧ = (memory s)⟦data + i⟧) /\
    heap_ok (nheap (nt s')) B /\
    tx_cur s' = next_slot c /\ rx_cur s' = next_slot c /\ slot_free s' c /\ slot_free s' (next_slot c).
Proof.
  intros c a Hheap Hroom Hm Hrx Hc Hnext Hsrc Hdst Hsp Hdp Hlen Hre Hp Hdata Hring Hap.
  destruct (net_malloc_spec (nt s) B (20 + len) Hheap ltac:(lia) Hroom) as (p & k & h & Em & Hk & Hp0 & Hh & HB & Hdis).
  destruct (live_apart B p k a 8192 ltac:(lia) Hdis Hring ltac:(lia)) as [D2|?]; [|lia].
  assert (apart data len (p + 12) (8 + len) \/ len = 0) as D1.
  { destruct (live_apart B p k data len ltac:(lia) Hdis Hdata ltac:(lia)) as [D|D]; [left|by right]. unfold apart in *. lia. }
  assert (a <> 0) as Ha0.
  { destruct (Hring 0 ltac:(lia)) as (x & j & Hx & Hj). destruct (heap_pos _ _ _ _ Hheap Hx). lia. }
  destruct (ring_packet_copy (memory s) a p src dst sport dport data len Hm Hsrc Hdst Hsp Hdp Hlen D1
    ltac:(unfold apart in *; lia)) as (HR & Hdat & _).
  match type of HR with ring_packet ?x _ _ _ _ _ _ => set (m3 := x) in * end.
  set (d := wr (rx_desc s) c (rd (rx_desc s) c |> set_d_length (u16 (20 + len)) |> set_d_status 0)).
  set (s1 := s |> set_nt (set_nmem m3 (set_nheap h (nt s))) |> set_rx_desc d |> set_tx_cur (next_slot c)).
  destruct (next_slot_ne c Hc) as [Hne Hn].
  assert (receiver fuel s1 l sock q (htons dport) fd) as Hre1 by (destruct Hre as [[] ? ?]; by constructor).
  assert (rd d c = rd (rx_desc s) c |> set_d_length (u16 (20 + len)) |> set_d_status 0) as Ed by apply rd_wr_eq.
  destruct (handler_vmnet_spec n s1 c l sock q fd src dst sport dport len) as (d' & b & m & E & Hm4 & Hd1 & Hd2);
    try assumption; try (change (rx_desc s1) with d; rewrite Ed); try reflexivity;
    [|by apply u16_small; lia|done|exact HR|unfold apart in *; change (d_buffer _) with a; lia|].
  { unfold slot_free. change (rx_desc s1) with d. unfold d. by rewrite rd_wr_ne. }
  destruct (free_spec h _ p k Hh (lookup_insert_eq _ _ _)) as (h' & Ef & Hh'). rewrite delete_insert_id in Hh' by done.
  eexists. split; [|split; [|split; [|split; [|split; [|split; [|split]]]]]].
  - unfold vmnet_udp_send, sk_malloc, vmipv4_send, sizeof_vm_inet_header, sizeof_udp_header.
    replace (u32 (12 + 8 + len)) with (20 + len) by (symmetry; apply u32_small; lia).
    replace (u32 (8 + len)) with (8 + len) by (symmetry; apply u32_small; lia).
    replace (u32 (12 + (8 + len))) with (20 + len) by (rewrite u32_small; lia).
    rewrite (u16_small (20 + len)) by lia.
    rewrite Em. cbn [mbind outcome_bind]. cbv zeta. unfold vmnet_send_package at 1.
    replace (8192 <? 20 + len) with false by (symmetry; apply Z.ltb_ge; lia). cbv zeta.
    match goal with |- context [handler_vmnet fuel (S (S n)) ?x] => change x with s1 end.
    rewrite E. cbn [mbind outcome_bind]. unfold net_free. cbn [nheap nt set_nt put_s set_sockets set_nheap set_nmem].
    change (nheap (set_packege_desc_buffer b (set_nmem m (nt s1)))) with h. rewrite Ef. cbn [mbind outcome_bind].
    rewrite s32_small by lia. reflexivity.
  - reflexivity.
  - intros i Hi. change (m⟦s_buf1 fd + i⟧ = (memory s)⟦data + i⟧). rewrite Hm4 by done.
    change (memory s1) with m3. change (rx_desc s1) with d. rewrite Ed. by apply Hdat.
  - exact Hh'.
  - reflexivity.
  - reflexivity.
  - unfold slot_free. change (rx_desc _) with d'. by rewrite Hd1.
  - unfold slot_free. change (rx_desc _) with d'. rewrite Hd2 by done.
    change (rx_desc s1) with d. unfold d. by rewrite rd_wr_ne.
Qed.
End loopback.

(** ** A concrete socket *)

Definition ex_fd : socket_addr := Socket_addr 1 AF_INET SOCK_DGRAM 0 5000 0x0f02000a 0 0 0 0 0 0x80 0 0 0x4000 0x6000 0 0.
Definition ex_sk : sk bump := Sk {[0x9000 := ex_fd]} 0x9000 0x9000 2 2000 ∅ 0 ∅ 0 0 ex_net.

Lemma ex_receiver : receiver 2 ex_sk [0x9000] 1 0x9000 5000 ex_fd.
Proof.
  constructor.
  - constructor; [|cbn; lia|reflexivity|reflexivity|discriminate|discriminate].
    split; [reflexivity|]. split; [discriminate|]. exists ex_fd. split; [reflexivity|]. reflexivity.
  - reflexivity.
  - exists [], []. split; [reflexivity|]. constructor.
Qed.

Lemma datagram_reaches_program_witness :
  exists s1 s2, socket_server_receive 2 0 IP_PROTOCOL_UDP 0x0202000a 0x0f02000a 53 5000 0x2000 3 0 0 0 ex_sk = Ret (0, s1) /\
    recvfrom 2 0x8000 1 Ret 1 0xa000 10 0 0xb000 0xb010 s1 = Ret (3, s2) /\
    (forall i, 0 <= i < 3 -> (memory s2)⟦0xa000 + i⟧ = (memory ex_sk)⟦0x2000 + i⟧).
Proof.
  destruct (datagram_reaches_program 2 0x8000 ex_sk [0x9000] 1 0x9000 ex_fd 0 Ret 0 IP_PROTOCOL_UDP
    0x0202000a 0x0f02000a 53 5000 0x2000 3 0 0 0 0xa000 10 0xb000 0xb010 0 ex_receiver)
    as (s1 & s2 & fd2 & E1 & E2 & Hin & _);
    try reflexivity; try lia; try (unfold SOCKET_BUF_SIZE; lia); try (unfold recv_regions, apart; cbn [s_buf1 ex_fd]; lia).
  exists s1, s2. split; [exact E1|]. split; [exact E2|]. exact Hin.
Defined.

(** The same socket with a packet in its buffer. *)
Definition ex_busy_fd : socket_addr := set_s_flags 0x82 ex_fd.
Definition ex_busy : sk bump := set_sockets {[0x9000 := ex_busy_fd]} ex_sk.

Lemma ex_busy_receiver : receiver 2 ex_busy [0x9000] 1 0x9000 5000 ex_busy_fd.
Proof.
  constructor.
  - constructor; [|cbn; lia|reflexivity|reflexivity|discriminate|discriminate].
    split; [reflexivity|]. split; [discriminate|]. exists ex_busy_fd. split; [reflexivity|]. reflexivity.
  - reflexivity.
  - exists [], []. split; [reflexivity|]. constructor.
Qed.

Lemma busy_packet_waits_witness :
  exists s1, socket_server_receive 2 0 IP_PROTOCOL_UDP 0x0202000a 0x0f02000a 53 5000 0x2000 3 0 0 0 ex_busy = Ret (0, s1) /\
    socket_execute_row 2 s1 = Ret s1.
Proof.
  destruct (proj2 (busy_packet_waits 2 ex_busy [0x9000] 1 0x9000 ex_busy_fd IP_PROTOCOL_UDP 0x0202000a 0x0f02000a 53 5000
    0x2000 3 0 0 0 ex_busy_receiver eq_refl)) as (s1 & E1 & _ & E2 & _).
  - change (row_cur ex_busy) with 0. unfold ROW_NUM. lia.
  - intros i. change (sockt_receive_row ex_busy) with (∅ : gmap Z receive_row). by rewrite rd_empty.
  - unfold IP_PROTOCOL_UDP. lia.
  - unfold SOCKET_BUF_SIZE. lia.
  - change (r_buffer _) with 0. unfold apart. lia.
  - exists s1. split; [exact E1|exact E2].
Defined.

Lemma ex_ports : ports_rep 0x8000 (poke ∅ 0x8000 [1]) {[0]}.
Proof.
  intros p Hp. change 1 with (Z.lor (rd (∅ : mem) (0x8000 + 0 / 8)) (Z.shiftl 1 (0 mod 8))). cbn [poke].
  change (wr ∅ 0x8000 ?v) with (wr (∅ : mem) (0x8000 + 0 / 8) v).
  rewrite mark_port by lia. unfold port_used. rewrite rd_empty, Z.bits_0. cbn [orb].
  destruct (Z.eqb_spec p 0) as [->|]; symmetry; [apply bool_decide_eq_true|apply bool_decide_eq_false]; set_solver.
Qed.

(** An unbound socket, and the address 0.0.0.0:5000 at 0xb000. *)
Definition ex_new_fd : socket_addr := Socket_addr 1 AF_INET SOCK_DGRAM 0 0 0 0 0 0 0 0 0 0 0 0x4000 0x6000 0 0.
Definition ex_unbound : sk bump :=
  ex_sk |> set_sockets {[0x9000 := ex_new_fd]}
        |> set_memory (poke (poke ∅ 0x8000 [1]) 0xb000 [2; 0; 0x13; 0x88; 0; 0; 0; 0]).

Lemma bind_takes_port_witness :
  exists m, bind 2 0xc000 1 0xb000 sizeof_sockaddr_in ex_unbound =
    Ret (0, put_s 0x9000 (bound_socket ex_new_fd 0x8813 0 0x0f02000a) (set_memory m ex_unbound)) /\
    ports_rep 0x8000 m ({[5000]} ∪ {[0]}).
Proof.
  destruct (bind_takes_port 2 0xc000 ex_unbound [0x9000] 1 0x9000 ex_new_fd {[0]} 0xb000) as (m & E & Hm & _).
  - split; [reflexivity|]. split; [discriminate|]. exists ex_new_fd. split; reflexivity.
  - cbn. lia.
  - reflexivity.
  - reflexivity.
  - apply (ports_rep_agree _ _ _ _ ex_ports). intros a Ha. change (port_bitmap (nt ex_unbound)) with 0x8000 in Ha.
    change (memory ex_unbound) with (poke (poke ∅ 0x8000 [1]) 0xb000 [2; 0; 0x13; 0x88; 0; 0; 0; 0]).
    cbn [poke]. by rewrite !rd_wr_ne by lia.
  - set_solver.
  - change (memory ex_unbound) with (poke (poke ∅ 0x8000 [1]) 0xb000 [2; 0; 0x13; 0x88; 0; 0; 0; 0]).
    cbn [poke]. repeat (apply bytes_in_wr; [|lia]). apply bytes_in_empty.
  - unfold apart. lia.
  - change (port_bitmap (nt ex_unbound)) with 0x8000. unfold apart. lia.
  - exists m. split; [exact E|exact Hm].
Defined.

(** The loopback ring with its first slot at 0x10000, in a live block. *)
Definition ex_loop : sk bump :=
  ex_sk |> set_rx_desc {[0 := Ring_desc 0x10000 0 0x8000; 1 := Ring_desc 0x12000 0 0x8000]}.
Definition ex_loop_blocks : gmap Z Z := {[0x2000 := 0x1000; 0x10000 := 0x4000]}.

Lemma loopback_delivers_witness :
  exists s', vmnet_udp_send 2 2 0x0100007f 0x0100007f 53 (htons 5000) 0x2000 3 ex_loop = Ret (3, s') /\
    (forall i, 0 <= i < 3 -> (memory s')⟦0x4000 + i⟧ = (memory ex_loop)⟦0x2000 + i⟧).
Proof.
  destruct (loopback_delivers 2 0 ex_loop ex_loop_blocks [0x9000] 1 0x9000 ex_fd 0x0100007f 0x0100007f 53 (htons 5000) 0x2000 3)
    as (s' & E & _ & Hm & _).
  - split; [reflexivity|]. intros p k Hp. change (nheap (nt ex_loop)) with 0x100000.
    unfold ex_loop_blocks in Hp. apply lookup_insert_Some in Hp as [[<- <-]|[_ Hp]]; [lia|].
    apply lookup_singleton_Some in Hp as [<- <-]. lia.
  - exact I.
  - exact ex_bytes.
  - reflexivity.
  - change (tx_cur ex_loop) with 0. unfold VMNET_RX_BUF_NUM. lia.
  - discriminate.
  - lia.
  - lia.
  - lia.
  - apply htons_range.
  - lia.
  - rewrite htons_invol by lia. destruct ex_receiver as [[] ? ?]. by constructor.
  - reflexivity.
  - intros i Hi. exists 0x2000, 0x1000. split; [reflexivity|lia].
  - intros i Hi. change (d_buffer _) with 0x10000. exists 0x10000, 0x4000. split; [reflexivity|lia].
  - change (d_buffer _) with 0x10000. change (s_buf1 ex_fd) with 0x4000. unfold apart. lia.
  - exists s'. split; [exact E|exact Hm].
Defined.
