(* ===== verification/Path.v ===== *)
(** * Path: the working directory and path names (user/lib/sys/path.c)

    The working directory is the string at [pwd].  [setpath] and [upath] move it down and
    up; [getpathname] makes a name absolute and [getfilename] splits off the last component.
    The scans of strings run on fuel. *)
From S2P Require Import Prelude KString Bytes.

Section path.
Context (fuel : nat) (pwd : Z).
Implicit Types (m : mem).

Definition setpath (name : Z) m : outcome (Z * mem) :=
  let p := pwd in
  let dst := name in
  len1 ← strlen fuel m p;
  len2 ← strlen fuel m dst;
  if 0x1000 <? len1 + len2 then Ret (-1, m)
  else
    let dst := if m⟦dst⟧ =? 47 then dst + 1 else dst in
    let p := p + len1 in
    let p := p - 1 in
    let '(m, p) :=
      if negb (m⟦p⟧ =? 47) then
        let p := p + 1 in (m⟦p := 47⟧, p + 1)
      else (m, p + 1) in
    m ← strcpy fuel m p dst;
    n ← strlen fuel m dst;
    let p := p + n in
    let p := p - 1 in
    let '(m, p) := if m⟦p⟧ =? 47 then (m⟦p := 0⟧, p) else (m, p + 1) in
    Ret (0, m⟦p := 0⟧).

(** [while ( *p != '/') *p-- = 0;] *)
Fixpoint cut_back (n : nat) (p : Z) m : outcome (Z * mem) :=
  match n with
  | O => NoFuel
  | S n => if m⟦p⟧ =? 47 then Ret (p, m) else cut_back n (p - 1) m⟦p := 0⟧
  end.

Definition upath m : outcome (Z * mem) :=
  n ← strlen fuel m pwd;
  if n <? 3 then Ret (0, m)
  else
    let p := pwd in
    let p := p + n in
    '(p, m) ← cut_back fuel p m;
    n ← strlen fuel m pwd;
    Ret (0, if 2 <? n then m⟦p := 0⟧ else m).

(** The working directory, a slash unless [usrc] has one, and [usrc]. *)
Definition after_pwd (udst usrc : Z) m : outcome mem :=
  m ← strcpy fuel m udst pwd;
  len ← strlen fuel m udst;
  let '(m, len) := if negb (m⟦usrc⟧ =? 47) then (m⟦udst + len := 47⟧, len + 1) else (m, len) in
  strcpy fuel m (udst + len) usrc.

Definition getpathname (dst src : Z) m : outcome (Z * mem) :=
  let usrc := src in
  let udst := dst in
  if (src =? 0) || (dst =? 0) then Ret (0, m)
  else
    len ← strlen fuel m usrc;
    let m := if m⟦usrc + len - 1⟧ =? 47 then m⟦usrc + len - 1 := 0⟧ else m in
    if len <? 1 then Ret (0, m)
    else
      m ← (if 1 <? len then
             if m⟦usrc + 1⟧ =? 58 then strcpy fuel m udst usrc
             else after_pwd udst usrc m
           else after_pwd udst usrc m);
      Ret (udst, m).

Fixpoint count_slashes (n : nat) (p i : Z) m : outcome Z :=
  match n with
  | O => NoFuel
  | S n => if m⟦p⟧ =? 0 then Ret i else count_slashes n (p + 1) (if m⟦p⟧ =? 47 then i + 1 else i) m
  end.

Definition path_count (path : Z) m : outcome Z :=
  if path =? 0 then Ret 0 else count_slashes fuel path 0 m.

(** [while ( *p && len-- > 0) { if ( *p == '/') break; p--; }] *)
Fixpoint back_to_slash (n : nat) (p len : Z) m : outcome Z :=
  match n with
  | O => NoFuel
  | S n =>
      if m⟦p⟧ =? 0 then Ret p
      else if len >? 0 then
        if m⟦p⟧ =? 47 then Ret p else back_to_slash n (p - 1) (len - 1) m
      else Ret p
  end.

Definition getfilename (filenane path : Z) m : outcome (Z * mem) :=
  let p := path in
  let f := filenane in
  if (p =? 0) || (f =? 0) then Ret (-1, m)
  else
    len ← strlen fuel m p;
    let p := p + len in
    let p := p - 1 in
    p ← back_to_slash fuel p len m;
    let p := p + 1 in
    m ← strcpy fuel m f p;
    Ret (0, m⟦p := 0⟧).
End path.

(** ** Moving down and up *)

Section moves.
Context (fuel : nat) (pwd : Z).
Implicit Types (m : mem) (P N l : list Z).

(** The character before the end of a non-empty string. *)
Lemma last_char m a l c : bytes_at m a (l ++ [c]) -> m⟦a + zlen (l ++ [c]) - 1⟧ = c.
Proof.
  intros [_ [E _]]%bytes_at_app. rewrite length_app. cbn [length]. rewrite <- E. f_equal. lia.
Qed.

(** The string [s] is clear of the [n] cells at [a]. *)
Definition clear_of (s : Z) (l : list Z) (a n : Z) : Prop := s + zlen l < a \/ a + n <= s.

Lemma cstr_keep m m' s l a n :
  clear_of s l a n -> (forall b, ~ a <= b < a + n -> m'⟦b⟧ = m⟦b⟧) -> cstr m s l -> cstr m' s l.
Proof. intros Hc E. apply cstr_ext. intros b Hb. apply E. unfold clear_of in Hc. lia. Qed.

(** Appending a component: the separator and the name behind a string. *)
Lemma append_spec m d s P N :
  bytes_at m d P -> cstr m s N -> chars P -> (length N < fuel)%nat -> clear_of s N d (zlen P + 1 + zlen N + 1) ->
  exists m', strcpy fuel m⟦d + zlen P := 47⟧ (d + zlen P + 1) s = Ret m' /\
    cstr m' d (P ++ 47 :: N) /\ cstr m' s N /\
    forall b, ~ d + zlen P <= b < d + zlen P + 1 + zlen N + 1 -> m'⟦b⟧ = m⟦b⟧.
Proof.
  intros HP HN HcP Hf Hd. unfold clear_of in Hd.
  assert (cstr m⟦d + zlen P := 47⟧ s N) as HN1.
  { eapply cstr_ext; [|exact HN]. intros b Hb. apply rd_wr_ne. lia. }
  destruct (strcpy_total fuel _ (d + zlen P + 1) s N HN1 Hf ltac:(lia)) as (m' & E & Hm' & Hout).
  assert (forall b, ~ d + zlen P <= b < d + zlen P + 1 + zlen N + 1 -> m'⟦b⟧ = m⟦b⟧) as Hk.
  { intros b Hb. rewrite Hout by (apply not_within; lia). by rewrite rd_wr_ne by lia. }
  exists m'. split; [exact E|]. split; [|split; [|exact Hk]].
  - apply cstr_app. split; [done|]. split; [eapply bytes_at_ext; [|exact HP]; intros b Hb; apply Hk; lia|].
    apply cstr_cons. split; [lia|]. split; [|exact Hm'].
    rewrite Hout by (apply not_within; lia). apply rd_wr_eq.
  - eapply cstr_ext; [|exact HN]. intros b Hb. apply Hk. lia.
Qed.

Lemma setpath_spec m name P N p n0 n1 N' :
  cstr m pwd P -> cstr m name N -> P = p ++ [n0] -> n0 <> 47 -> N = n1 :: N' -> n1 <> 47 ->
  (forall l c, N = l ++ [c] -> c <> 47) -> (length P < fuel)%nat -> (length N < fuel)%nat ->
  zlen P + zlen N <= 0x1000 -> clear_of name N pwd (zlen P + zlen N + 2) ->
  exists m', setpath fuel pwd name m = Ret (0, m') /\ cstr m' pwd (P ++ 47 :: N) /\
    forall b, ~ pwd + zlen P <= b < pwd + zlen P + zlen N + 2 -> m'⟦b⟧ = m⟦b⟧.
Proof.
  intros HP HN EP Hn0 EN Hn1 Hlast HfP HfN Hlen Hd. unfold setpath.
  rewrite (strlen_spec _ _ _ P HP HfP). cbn [mbind outcome_bind].
  rewrite (strlen_spec _ _ _ N HN HfN). cbn [mbind outcome_bind].
  replace (0x1000 <? zlen P + zlen N) with false by (symmetry; apply Z.ltb_ge; lia).
  assert (m⟦name⟧ = n1) as E1 by (rewrite EN in HN; by apply cstr_cons in HN as (_ & ? & _)).
  rewrite E1, (proj2 (Z.eqb_neq n1 47) Hn1). cbv zeta.
  assert (m⟦pwd + zlen P - 1⟧ = n0) as E0 by (rewrite EP; apply last_char; rewrite <- EP; apply HP).
  rewrite E0, (proj2 (Z.eqb_neq n0 47) Hn0). cbn [negb].
  replace (pwd + zlen P - 1 + 1) with (pwd + zlen P) by lia.
  destruct (append_spec m pwd name P N ltac:(apply HP) HN ltac:(apply HP) HfN) as (m1 & E & Hm1 & HN1 & Hout).
  { unfold clear_of in *. lia. }
  rewrite E. cbn [mbind outcome_bind]. rewrite (strlen_spec _ _ _ N) by done. cbn [mbind outcome_bind].
  destruct (exists_last (l := N) ltac:(by rewrite EN)) as (l & c & El).
  assert (m1⟦pwd + zlen P + 1 + zlen N - 1⟧ = c) as Ec.
  { apply cstr_app in Hm1 as (_ & _ & Hm1). apply cstr_cons in Hm1 as (_ & _ & _ & Hm1 & _).
    rewrite El in Hm1 |- *. by apply last_char. }
  rewrite Ec, (proj2 (Z.eqb_neq c 47) (Hlast _ _ El)).
  replace (pwd + zlen P + 1 + zlen N - 1 + 1) with (pwd + zlen P + 1 + zlen N) by lia.
  pose proof (cstr_end _ _ _ Hm1) as Hend. rewrite length_app in Hend. cbn [length] in Hend.
  eexists. split; [reflexivity|]. split.
  - eapply cstr_ext; [|exact Hm1]. intros b _. rewrite rd_wr. destruct (Z.eqb_spec b (pwd + zlen P + 1 + zlen N)) as [->|]; [|done].
    rewrite <- Hend. f_equal. lia.
  - intros b Hb. rewrite rd_wr_ne by lia. apply Hout. lia.
Qed.

Lemma cut_back_spec n m a l :
  m⟦a⟧ = 47 -> bytes_at m (a + 1) l -> Forall (fun c => c <> 47) l -> m⟦a + 1 + zlen l⟧ <> 47 -> (length l + 1 < n)%nat ->
  exists m', cut_back n (a + 1 + zlen l) m = Ret (a, m') /\ m'⟦a + 1⟧ = 0 /\
    forall b, ~ a + 1 <= b <= a + 1 + zlen l -> m'⟦b⟧ = m⟦b⟧.
Proof.
  revert n m. induction l as [|c l IH] using rev_ind; intros n m Ha Hl Hno He Hn.
  - cbn in *. destruct n as [|[|n]]; [lia|lia|]. cbn [cut_back]. rewrite Z.add_0_r in *.
    rewrite (proj2 (Z.eqb_neq _ _) He). replace (a + 1 - 1) with a by lia. rewrite rd_wr_ne, Ha by lia.
    cbn [Z.eqb Pos.eqb]. eexists. split; [reflexivity|]. split; [apply rd_wr_eq|]. intros b Hb. apply rd_wr_ne. lia.
  - rewrite length_app in *. cbn [length] in *. destruct n as [|n]; [lia|]. cbn [cut_back].
    rewrite (proj2 (Z.eqb_neq _ _) He). apply bytes_at_app in Hl as [Hl [Hc _]]. apply Forall_app in Hno as [Hno Hc47].
    apply Forall_cons in Hc47 as [Hc47 _].
    replace (a + 1 + Z.of_nat (length l + 1) - 1) with (a + 1 + zlen l) by lia.
    set (m1 := m⟦a + 1 + Z.of_nat (length l + 1) := 0⟧).
    destruct (IH n m1) as (m' & E & E0 & Hout); try done.
    + subst m1. by rewrite rd_wr_ne by lia.
    + eapply bytes_at_ext; [|exact Hl]. intros b Hb. subst m1. by rewrite rd_wr_ne by lia.
    + subst m1. rewrite rd_wr_ne by lia. congruence.
    + lia.
    + exists m'. split; [exact E|]. split; [exact E0|]. intros b Hb. rewrite Hout by lia. subst m1. by rewrite rd_wr_ne by lia.
Qed.

Lemma upath_spec m P N :
  cstr m pwd (P ++ 47 :: N) -> Forall (fun c => c <> 47) N -> (2 <= length P)%nat -> (length P + length N + 1 < fuel)%nat ->
  exists m', upath fuel pwd m = Ret (0, m') /\ cstr m' pwd P /\
    forall b, ~ pwd + zlen P <= b <= pwd + zlen P + 1 + zlen N -> m'⟦b⟧ = m⟦b⟧.
Proof.
  intros Hm HN HP Hf. unfold upath.
  rewrite (strlen_spec _ _ _ _ Hm) by (rewrite length_app; cbn; lia). cbn [mbind outcome_bind].
  replace (zlen (P ++ 47 :: N) <? 3) with false by (symmetry; apply Z.ltb_ge; rewrite length_app; cbn; lia). cbv zeta.
  pose proof (cstr_end _ _ _ Hm) as Hend. pose proof Hm as (HcP & HbP & Hm1)%cstr_app. apply cstr_cons in Hm1 as (_ & E47 & HcN).
  destruct (cut_back_spec fuel m (pwd + zlen P) N E47 ltac:(apply HcN) HN) as (m' & E & E0 & Hout).
  { rewrite (cstr_end _ _ _ HcN). discriminate. }
  { lia. }
  replace (pwd + zlen (P ++ 47 :: N)) with (pwd + zlen P + 1 + zlen N) by (rewrite length_app; cbn; lia).
  rewrite E. cbn [mbind outcome_bind].
  assert (cstr m' pwd (P ++ [47])) as Hm'.
  { apply cstr_app. split; [done|]. split; [eapply bytes_at_ext; [|exact HbP]; intros b Hb; apply Hout; lia|].
    apply cstr_cons. split; [lia|]. split; [by rewrite Hout by lia|]. by apply cstr_nil. }
  rewrite (strlen_spec _ _ _ _ Hm') by (rewrite length_app; cbn; lia). cbn [mbind outcome_bind].
  replace (2 <? zlen (P ++ [47])) with true by (symmetry; apply Z.ltb_lt; rewrite length_app; cbn; lia).
  eexists. split; [reflexivity|]. split.
  - by apply (cstr_cut m' pwd P [47]).
  - intros b Hb. rewrite rd_wr_ne by lia. apply Hout. lia.
Qed.

(** A file name: not empty and without a slash. *)
Definition component N : Prop := N <> [] /\ chars N /\ Forall (fun c => c <> 47) N.

(** [upath] undoes [setpath]: entering a directory by name and leaving it restores the working
    directory, for any directory of two or more characters that does not end in a slash, as long as
    the path stays within 0x1000 characters; in between the working directory is the old one, a
    slash and the name. *)
Theorem upath_setpath m name P p n0 N :
  cstr m pwd P -> P = p ++ [n0] -> n0 <> 47 -> (2 <= length P)%nat -> cstr m name N -> component N ->
  zlen P + zlen N <= 0x1000 -> (length P + length N + 1 < fuel)%nat -> clear_of name N pwd (zlen P + zlen N + 2) ->
  exists m1 m2, setpath fuel pwd name m = Ret (0, m1) /\ cstr m1 pwd (P ++ 47 :: N) /\
    upath fuel pwd m1 = Ret (0, m2) /\ cstr m2 pwd P /\
    forall b, ~ pwd + zlen P <= b < pwd + zlen P + zlen N + 2 -> m2⟦b⟧ = m⟦b⟧.
Proof.
  intros HP EP Hn0 HlP HN (Hne & _ & H47) Hlen Hf Hd. destruct N as [|n1 N']; [done|].
  destruct (setpath_spec m name P (n1 :: N') p n0 n1 N') as (m1 & E1 & Hm1 & Hout1); try done; try lia.
  - by apply Forall_cons in H47 as [? _].
  - intros l c El. rewrite El in H47. apply Forall_app in H47 as [_ H47]. by apply Forall_cons in H47 as [? _].
  - destruct (upath_spec m1 P (n1 :: N') Hm1 H47 HlP) as (m2 & E2 & Hm2 & Hout2); [lia|].
    exists m1, m2. split; [exact E1|]. split; [exact Hm1|]. split; [exact E2|]. split; [exact Hm2|].
    intros b Hb. rewrite Hout2 by lia. apply Hout1. lia.
Qed.
End moves.

(** ** Resolving a name *)

Section resolve.
Context (fuel : nat) (pwd : Z).
Implicit Types (m : mem) (P N l : list Z).

Lemma back_to_slash_spec n m a l k :
  m⟦a⟧ = 47 -> bytes_at m (a + 1) l -> chars l -> Forall (fun c => c <> 47) l ->
  zlen l < k -> (length l < n)%nat ->
  back_to_slash n (a + zlen l) k m = Ret a.
Proof.
  revert n k. induction l as [|c l IH] using rev_ind; intros n k Ha Hl Hc Hno Hk Hn.
  - cbn in *. destruct n as [|n]; [lia|]. cbn [back_to_slash]. rewrite Z.add_0_r, Ha. cbn [Z.eqb Pos.eqb].
    destruct (Z.gtb_spec k 0); [done|lia].
  - rewrite length_app in *. cbn [length] in *. destruct n as [|n]; [lia|]. cbn [back_to_slash].
    apply bytes_at_app in Hl as [Hl [Ec _]]. apply Forall_app in Hno as [Hno [H47 _]%Forall_cons].
    apply Forall_app in Hc as [Hc [Hc0 _]%Forall_cons].
    replace (a + Z.of_nat (length l + 1)) with (a + 1 + zlen l) by lia. rewrite Ec.
    destruct (Z.eqb_spec c 0); [lia|]. destruct (Z.gtb_spec k 0); [|lia]. destruct (Z.eqb_spec c 47); [done|].
    replace (a + 1 + zlen l - 1) with (a + zlen l) by lia. apply IH; try done; lia.
Qed.

(** [getfilename] splits a path behind its last slash. *)
Lemma getfilename_spec m f path D N :
  cstr m path (D ++ 47 :: N) -> component N -> path <> 0 -> f <> 0 ->
  clear_of path (D ++ 47 :: N) f (zlen N + 1) -> (length D + length N + 1 < fuel)%nat ->
  exists m', getfilename fuel f path m = Ret (0, m') /\ cstr m' path (D ++ [47]) /\ cstr m' f N /\
    forall b, ~ f <= b < f + zlen N + 1 -> b <> path + zlen D + 1 -> m'⟦b⟧ = m⟦b⟧.
Proof.
  intros Hm (Hne & HcN & HN) Hp0 Hf0 Hd Hfu. unfold clear_of in Hd. rewrite length_app in Hd. cbn [length] in Hd.
  unfold getfilename. rewrite (proj2 (Z.eqb_neq _ _) Hp0), (proj2 (Z.eqb_neq _ _) Hf0). cbn [orb].
  rewrite (strlen_spec _ _ _ _ Hm) by (rewrite length_app; cbn; lia). cbn [mbind outcome_bind]. rewrite length_app. cbn [length].
  pose proof Hm as (HcD & HbD & Hm1)%cstr_app. apply cstr_cons in Hm1 as (_ & E47 & HsN).
  replace (path + Z.of_nat (length D + S (length N)) - 1) with (path + zlen D + zlen N) by lia.
  rewrite (back_to_slash_spec fuel m (path + zlen D) N) by (done || lia || apply HsN). cbn [mbind outcome_bind].
  destruct (strcpy_total fuel m f (path + zlen D + 1) N HsN ltac:(lia) ltac:(lia)) as (m' & E & Hm' & Hout).
  rewrite E. cbn [mbind outcome_bind]. eexists. split; [reflexivity|].
  assert (forall b, ~ f <= b < f + zlen N + 1 -> m'⟦b⟧ = m⟦b⟧) as Hk by (intros b Hb; apply Hout, not_within; lia).
  split; [|split].
  - assert (cstr m' path ((D ++ [47]) ++ N)) as Hm2.
    { rewrite <- app_assoc. eapply cstr_ext; [|exact Hm]. intros b Hb. rewrite length_app in Hb. cbn [length app] in Hb. apply Hk. lia. }
    apply cstr_cut in Hm2. rewrite length_app in Hm2. cbn [length] in Hm2.
    by replace (path + zlen D + 1) with (path + Z.of_nat (length D + 1)) by lia.
  - eapply cstr_ext; [|exact Hm']. intros b Hb. apply rd_wr_ne. lia.
  - intros b H1 H2. rewrite rd_wr_ne by lia. by apply Hk.
Qed.

(** [getpathname] on a relative name of two or more characters. *)
Lemma getpathname_relative m dst src P c0 c1 l0 :
  let L := c0 :: c1 :: l0 in
  cstr m pwd P -> cstr m src L -> c0 <> 47 -> c1 <> 58 -> (forall l c, L = l ++ [c] -> c <> 47) ->
  src <> 0 -> dst <> 0 -> (length P < fuel)%nat -> (length L < fuel)%nat ->
  clear_of pwd P dst (zlen P + zlen L + 2) -> clear_of src L dst (zlen P + zlen L + 2) ->
  exists m', getpathname fuel pwd dst src m = Ret (dst, m') /\ cstr m' dst (P ++ 47 :: L) /\
    forall b, ~ dst <= b < dst + zlen P + zlen L + 2 -> m'⟦b⟧ = m⟦b⟧.
Proof.
  intros L HP HL H0 H1 Hlast Hs Hd HfP HfL D1 D2. unfold getpathname.
  rewrite (proj2 (Z.eqb_neq _ _) Hs), (proj2 (Z.eqb_neq _ _) Hd). cbn [orb].
  rewrite (strlen_spec _ _ _ L HL HfL). cbn [mbind outcome_bind]. cbv zeta.
  assert ((m⟦src + zlen L - 1⟧ =? 47) = false) as E.
  { destruct (exists_last (l := L) ltac:(discriminate)) as (l & c & El). apply Z.eqb_neq.
    rewrite El at 1. rewrite (last_char _ _ _ c); [by apply (Hlast l)|]. rewrite <- El. apply HL. }
  rewrite E. replace (zlen L <? 1) with false by (symmetry; apply Z.ltb_ge; cbn; lia).
  replace (1 <? zlen L) with true by (symmetry; apply Z.ltb_lt; cbn; lia).
  pose proof HL as (Hc0 & E0 & (_ & E1 & _)%cstr_cons)%cstr_cons. rewrite E1, (proj2 (Z.eqb_neq _ _) H1).
  unfold after_pwd. unfold clear_of in D1, D2.
  destruct (strcpy_total fuel m dst pwd P HP HfP ltac:(lia)) as (m1 & Es & Hm1 & Hout1).
  assert (forall b, ~ dst <= b < dst + zlen P + 1 -> m1⟦b⟧ = m⟦b⟧) as Hk1 by (intros b Hb; apply Hout1, not_within; lia).
  rewrite Es. cbn [mbind outcome_bind]. rewrite (strlen_spec _ _ _ P Hm1 HfP). cbn [mbind outcome_bind].
  assert (cstr m1 src L) as HL1 by (eapply cstr_ext; [|exact HL]; intros b Hb; apply Hk1; lia).
  assert (m1⟦src⟧ = c0) as E01 by (by apply cstr_cons in HL1 as (_ & ? & _)).
  rewrite E01, (proj2 (Z.eqb_neq _ _) H0). cbn [negb].
  destruct (append_spec fuel m1 dst src P L ltac:(apply Hm1) HL1 ltac:(apply HP) HfL) as (m2 & E2 & Hm2 & _ & Hout2).
  { unfold clear_of. lia. }
  replace (dst + (zlen P + 1)) with (dst + zlen P + 1) by lia. rewrite E2. cbn [mbind outcome_bind].
  exists m2. split; [reflexivity|]. split; [exact Hm2|]. intros b Hb. rewrite Hout2 by lia. apply Hk1. lia.
Qed.

(** Opening a relative name first resolves it: [getpathname] followed by
    [getfilename], as [open_file] calls them, leave the directory part, the working
    directory and the name's own directories up to and including the last slash, in the path
    buffer and the last component in the name buffer, and change nothing else. *)
Theorem resolve_relative m dst f src P D c0 c1 l0 N :
  let L := c0 :: c1 :: l0 in
  cstr m pwd P -> cstr m src L -> L = D ++ N -> (D = [] \/ exists D', D = D' ++ [47]) -> component N ->
  c0 <> 47 -> c1 <> 58 -> src <> 0 -> dst <> 0 -> f <> 0 ->
  (length P + length L + 2 < fuel)%nat ->
  clear_of pwd P dst (zlen P + zlen L + 2) -> clear_of src L dst (zlen P + zlen L + 2) ->
  clear_of dst (P ++ 47 :: L) f (zlen N + 1) ->
  exists m1 m2, getpathname fuel pwd dst src m = Ret (dst, m1) /\ getfilename fuel f dst m1 = Ret (0, m2) /\
    cstr m2 dst (P ++ 47 :: D) /\ cstr m2 f N /\
    forall b, ~ dst <= b < dst + zlen P + zlen L + 2 -> ~ f <= b < f + zlen N + 1 -> m2⟦b⟧ = m⟦b⟧.
Proof.
  intros L HP HL EL HD HN H0 H1 Hs Hd Hf Hfu D1 D2 D3.
  destruct (getpathname_relative m dst src P c0 c1 l0 HP HL H0 H1) as (m1 & E1 & Hm1 & Hout1); try done; try lia.
  { intros l c El. destruct HN as (Hne & _ & H47). destruct (exists_last Hne) as (N' & x & ->).
    change (L = l ++ [c]) in El. rewrite EL, app_assoc in El. apply app_inj_tail in El as [_ <-].
    apply Forall_app in H47 as [_ H47]. by apply Forall_cons in H47 as [? _]. }
  { change (length L < fuel)%nat. lia. }
  fold L in Hm1.
  assert (length L = length D + length N)%nat as HlL by (by rewrite EL, length_app).
  assert (exists D0, P ++ 47 :: L = D0 ++ 47 :: N /\ D0 ++ [47] = P ++ 47 :: D) as (D0 & E0 & E0').
  { destruct HD as [->|[D' ->]].
    - exists P. cbn in EL. by rewrite EL.
    - exists (P ++ 47 :: D'). rewrite EL. split; by simplify_list_eq. }
  assert (length D0 = length P + length D)%nat as HlD.
  { apply (f_equal length) in E0'. rewrite !length_app in E0'. cbn in E0'. lia. }
  rewrite E0 in Hm1, D3.
  destruct (getfilename_spec m1 f dst D0 N Hm1 HN Hd Hf D3) as (m2 & E2 & Hm2 & Hf2 & Hout2); [lia|].
  exists m1, m2. split; [exact E1|]. split; [exact E2|]. rewrite E0' in Hm2. split; [exact Hm2|]. split; [exact Hf2|].
  intros b B1 B2. rewrite Hout2 by lia. apply Hout1. fold L. lia.
Qed.
End resolve.

(** The directory "C:/ab" and the names "cd" and "cd/e". *)
Definition ex_paths : mem := poke (poke (poke ∅ 0x1000 [67; 58; 47; 97; 98]) 0x3000 [99; 100]) 0x3100 [99; 100; 47; 101].

Ltac ex_string := split; [repeat constructor; lia|split; [repeat split; reflexivity|reflexivity]].

Lemma upath_setpath_witness :
  exists m1 m2, setpath 20 0x1000 0x3000 ex_paths = Ret (0, m1) /\ upath 20 0x1000 m1 = Ret (0, m2) /\
    cstr m2 0x1000 [67; 58; 47; 97; 98].
Proof.
  destruct (upath_setpath 20 0x1000 ex_paths 0x3000 [67; 58; 47; 97; 98] [67; 58; 47; 97] 98 [99; 100])
    as (m1 & m2 & E1 & _ & E2 & Hm & _).
  - ex_string.
  - reflexivity.
  - discriminate.
  - cbn. lia.
  - ex_string.
  - split; [discriminate|]. split; repeat constructor; lia.
  - cbn. lia.
  - cbn. lia.
  - unfold clear_of. cbn. lia.
  - exists m1, m2. split; [exact E1|]. split; [exact E2|exact Hm].
Defined.

Lemma resolve_relative_witness :
  exists m1 m2, getpathname 20 0x1000 0x5000 0x3100 ex_paths = Ret (0x5000, m1) /\
    getfilename 20 0x6000 0x5000 m1 = Ret (0, m2) /\
    cstr m2 0x5000 [67; 58; 47; 97; 98; 47; 99; 100; 47] /\ cstr m2 0x6000 [101].
Proof.
  destruct (resolve_relative 20 0x1000 ex_paths 0x5000 0x6000 0x3100 [67; 58; 47; 97; 98] [99; 100; 47] 99 100 [47; 101] [101])
    as (m1 & m2 & E1 & E2 & Hm & Hf & _);
    [ex_string|ex_string|reflexivity|right; by exists [99; 100]|split; [discriminate|]; split; repeat constructor; lia
    |discriminate|discriminate|discriminate|discriminate|discriminate|cbn; lia|unfold clear_of; cbn; lia..|].
  exists m1, m2. split; [exact E1|]. split; [exact E2|]. split; [exact Hm|exact Hf].
Defined.
