(* ===== verification/Cfs.v ===== *)
(** * Cfs: the file system of the user library (user/lib/sys/cfs.c)

    The file system on a block device: a super block in sector 1, a table of 32-bit words
    that chains the blocks of each file ([fat]: 0 is a free block, 0xFFFFFFFF the last one),
    directories of one block with 64 entries of 128 bytes.  The work buffers are in the memory
    of the program and come from its heap; the device is any [BlockDevice], and the heap
    any [Allocator].  The scans of strings run on fuel.  The layouts of the super block and of a directory entry
    and the comparison of names are those of the kernel's reader (Files). *)
From S2P Require Import Prelude KString Bytes Files Path.

(** ** The device *)

(** [sector_read count addr] returns a result, 0 for success, and the bytes it transfers;
    [sector_write count addr bytes] returns a result and the device. *)
Class BlockDevice (D : Type) := {
  sector_read : Z -> Z -> D -> Z * (Z -> Z);
  sector_write : Z -> Z -> (Z -> Z) -> D -> Z * D
}.

(** A device in order keeps bytes: what is read is what is there, and a write changes the
    sectors it names and nothing else.  Every transfer succeeds: a disk that refuses one
    is outside the theorems (the operations themselves take any result). *)
Class BlockDeviceLaws (D : Type) `{BlockDevice D} := {
  contents : D -> Z -> Z;
  device_ok : D -> Prop;
  contents_byte d a : device_ok d -> 0 <= contents d a < 256;
  sector_read_spec d count addr : device_ok d ->
    exists f, sector_read count addr d = (0, f) /\
      forall i, 0 <= i < 512 * count -> f i = contents d (512 * addr + i);
  sector_write_spec d count addr f : device_ok d -> (forall i, 0 <= i < 512 * count -> 0 <= f i < 256) ->
    exists d', sector_write count addr f d = (0, d') /\ device_ok d' /\
      forall a, contents d' a = if within a (512 * addr) (512 * count) then f (a - 512 * addr) else contents d a
}.

(** A disk kept in memory: the simplest device, on which examples run. *)
Definition ram_disk : Type := mem.

#[export] Instance ram_disk_device : BlockDevice ram_disk := {
  sector_read count addr (d : ram_disk) := (0, fun i => u8 d⟦512 * addr + i⟧);
  sector_write count addr f (d : ram_disk) := (0, for_upto 0 (512 * count) (fun i d => d⟦512 * addr + i := f i⟧) d)
}.

#[export] Instance ram_disk_laws : BlockDeviceLaws ram_disk.
Proof.
  refine {| contents := fun (d : ram_disk) a => u8 d⟦a⟧; device_ok := fun _ => True |}.
  - intros d a _. apply u8_range.
  - intros d count addr _. exists (fun i => u8 d⟦512 * addr + i⟧). by split.
  - intros d count addr f _ Hf. eexists. split; [reflexivity|]. split; [done|]. intros a.
    destruct (Z.le_gt_cases 0 count) as [Hc|Hc].
    + apply (for_upto_inv (fun i d' => u8 (rd d' a) = if within a (512 * addr) i then f (a - 512 * addr) else u8 (rd d a)));
        [lia|by case_within; try lia|].
      intros k d' Hk E. rewrite rd_wr. destruct (Z.eqb_spec a (512 * addr + k)) as [->|Hne].
      * case_within; [|lia]. rewrite u8_small by (apply Hf; lia). f_equal. lia.
      * rewrite E. case_within; (done || lia).
    + unfold for_upto. replace (Z.to_nat (512 * count - 0)) with O by lia. cbn [for_loop]. by rewrite not_within by lia.
Defined.

(** ** State *)

Definition sizeof_UFILE : Z := 339.

(** The [FILE] of the user library; [fname] is at [fname_at] in the object. *)
Record UFILE := Ufile {
  f_level : Z;
  f_flags : Z;
  f_bsize : Z;
  f_buffer : Z;
  f_curp : Z;
  f_mode : Z;
  f_off : Z;
  f_off2 : Z;
  f_fsize : Z;
  f_byte_per_sector : Z;
  f_count : Z;
  f_num_of_blocks : Z;
  f_dir_cluster : Z;
  f_dir_entry : Z;
  f_dv_num : Z;
  f_blocks : Z
}.

Definition set_f_level (v : Z) (s : UFILE) : UFILE := Ufile v (f_flags s) (f_bsize s) (f_buffer
  s) (f_curp s) (f_mode s) (f_off s) (f_off2 s) (f_fsize s) (f_byte_per_sector s) (f_count s)
  (f_num_of_blocks s) (f_dir_cluster s) (f_dir_entry s) (f_dv_num s) (f_blocks s).
Definition set_f_flags (v : Z) (s : UFILE) : UFILE := Ufile (f_level s) v (f_bsize s) (f_buffer
  s) (f_curp s) (f_mode s) (f_off s) (f_off2 s) (f_fsize s) (f_byte_per_sector s) (f_count s)
  (f_num_of_blocks s) (f_dir_cluster s) (f_dir_entry s) (f_dv_num s) (f_blocks s).
Definition set_f_bsize (v : Z) (s : UFILE) : UFILE := Ufile (f_level s) (f_flags s) v (f_buffer
  s) (f_curp s) (f_mode s) (f_off s) (f_off2 s) (f_fsize s) (f_byte_per_sector s) (f_count s)
  (f_num_of_blocks s) (f_dir_cluster s) (f_dir_entry s) (f_dv_num s) (f_blocks s).
Definition set_f_buffer (v : Z) (s : UFILE) : UFILE := Ufile (f_level s) (f_flags s) (f_bsize s)
  v (f_curp s) (f_mode s) (f_off s) (f_off2 s) (f_fsize s) (f_byte_per_sector s) (f_count s)
  (f_num_of_blocks s) (f_dir_cluster s) (f_dir_entry s) (f_dv_num s) (f_blocks s).
Definition set_f_curp (v : Z) (s : UFILE) : UFILE := Ufile (f_level s) (f_flags s) (f_bsize s)
  (f_buffer s) v (f_mode s) (f_off s) (f_off2 s) (f_fsize s) (f_byte_per_sector s) (f_count s)
  (f_num_of_blocks s) (f_dir_cluster s) (f_dir_entry s) (f_dv_num s) (f_blocks s).
Definition set_f_mode (v : Z) (s : UFILE) : UFILE := Ufile (f_level s) (f_flags s) (f_bsize s)
  (f_buffer s) (f_curp s) v (f_off s) (f_off2 s) (f_fsize s) (f_byte_per_sector s) (f_count s)
  (f_num_of_blocks s) (f_dir_cluster s) (f_dir_entry s) (f_dv_num s) (f_blocks s).
Definition set_f_off (v : Z) (s : UFILE) : UFILE := Ufile (f_level s) (f_flags s) (f_bsize s)
  (f_buffer s) (f_curp s) (f_mode s) v (f_off2 s) (f_fsize s) (f_byte_per_sector s) (f_count s)
  (f_num_of_blocks s) (f_dir_cluster s) (f_dir_entry s) (f_dv_num s) (f_blocks s).
Definition set_f_off2 (v : Z) (s : UFILE) : UFILE := Ufile (f_level s) (f_flags s) (f_bsize s)
  (f_buffer s) (f_curp s) (f_mode s) (f_off s) v (f_fsize s) (f_byte_per_sector s) (f_count s)
  (f_num_of_blocks s) (f_dir_cluster s) (f_dir_entry s) (f_dv_num s) (f_blocks s).
Definition set_f_fsize (v : Z) (s : UFILE) : UFILE := Ufile (f_level s) (f_flags s) (f_bsize s)
  (f_buffer s) (f_curp s) (f_mode s) (f_off s) (f_off2 s) v (f_byte_per_sector s) (f_count s)
  (f_num_of_blocks s) (f_dir_cluster s) (f_dir_entry s) (f_dv_num s) (f_blocks s).
Definition set_f_byte_per_sector (v : Z) (s : UFILE) : UFILE := Ufile (f_level s) (f_flags s)
  (f_bsize s) (f_buffer s) (f_curp s) (f_mode s) (f_off s) (f_off2 s) (f_fsize s) v (f_count s)
  (f_num_of_blocks s) (f_dir_cluster s) (f_dir_entry s) (f_dv_num s) (f_blocks s).
Definition set_f_count (v : Z) (s : UFILE) : UFILE := Ufile (f_level s) (f_flags s) (f_bsize s)
  (f_buffer s) (f_curp s) (f_mode s) (f_off s) (f_off2 s) (f_fsize s) (f_byte_per_sector s) v
  (f_num_of_blocks s) (f_dir_cluster s) (f_dir_entry s) (f_dv_num s) (f_blocks s).
Definition set_f_num_of_blocks (v : Z) (s : UFILE) : UFILE := Ufile (f_level s) (f_flags s)
  (f_bsize s) (f_buffer s) (f_curp s) (f_mode s) (f_off s) (f_off2 s) (f_fsize s)
  (f_byte_per_sector s) (f_count s) v (f_dir_cluster s) (f_dir_entry s) (f_dv_num s) (f_blocks
  s).
Definition set_f_dir_cluster (v : Z) (s : UFILE) : UFILE := Ufile (f_level s) (f_flags s)
  (f_bsize s) (f_buffer s) (f_curp s) (f_mode s) (f_off s) (f_off2 s) (f_fsize s)
  (f_byte_per_sector s) (f_count s) (f_num_of_blocks s) v (f_dir_entry s) (f_dv_num s) (f_blocks
  s).
Definition set_f_dir_entry (v : Z) (s : UFILE) : UFILE := Ufile (f_level s) (f_flags s) (f_bsize
  s) (f_buffer s) (f_curp s) (f_mode s) (f_off s) (f_off2 s) (f_fsize s) (f_byte_per_sector s)
  (f_count s) (f_num_of_blocks s) (f_dir_cluster s) v (f_dv_num s) (f_blocks s).
Definition set_f_dv_num (v : Z) (s : UFILE) : UFILE := Ufile (f_level s) (f_flags s) (f_bsize s)
  (f_buffer s) (f_curp s) (f_mode s) (f_off s) (f_off2 s) (f_fsize s) (f_byte_per_sector s)
  (f_count s) (f_num_of_blocks s) (f_dir_cluster s) (f_dir_entry s) v (f_blocks s).
Definition set_f_blocks (v : Z) (s : UFILE) : UFILE := Ufile (f_level s) (f_flags s) (f_bsize s)
  (f_buffer s) (f_curp s) (f_mode s) (f_off s) (f_off2 s) (f_fsize s) (f_byte_per_sector s)
  (f_count s) (f_num_of_blocks s) (f_dir_cluster s) (f_dir_entry s) (f_dv_num s) v.

#[export] Instance zero_UFILE : Zero UFILE := Ufile 0 0 0 0 0 0 0 0 0 0 0 0 0 0 0 0.

(** The heap, the memory, the device, the open files and the pointer [fs_directory]. *)
Record ufs (H D : Type) := Ufs {
  uheap : H;
  umem : mem;
  udisk : D;
  ufiles : gmap Z UFILE;
  fs_directory : Z
}.
Arguments Ufs {H D}.
Arguments uheap {H D}.
Arguments umem {H D}.
Arguments udisk {H D}.
Arguments ufiles {H D}.
Arguments fs_directory {H D}.

Section set_ufs.
Context {H D : Type}.
Implicit Types (s : ufs H D).

Definition set_uheap (v : H) s : ufs H D := Ufs v (umem s) (udisk s) (ufiles s) (fs_directory
  s).
Definition set_umem (v : mem) s : ufs H D := Ufs (uheap s) v (udisk s) (ufiles s) (fs_directory
  s).
Definition set_udisk (v : D) s : ufs H D := Ufs (uheap s) (umem s) v (ufiles s) (fs_directory
  s).
Definition set_ufiles (v : gmap Z UFILE) s : ufs H D := Ufs (uheap s) (umem s) (udisk s) v
  (fs_directory s).
Definition set_fs_directory (v : Z) s : ufs H D := Ufs (uheap s) (umem s) (udisk s) (ufiles s)
  v.
End set_ufs.

(** The fields of a directory entry and of the super block that only the writer uses. *)
Definition sb_num_of_blk (m : mem) (f : Z) : Z := ld32 m (f + 36).
Definition de_busy (m : mem) (d : Z) : Z := m⟦d + 97⟧.
Definition de_attr (m : mem) (d : Z) : Z := m⟦d + 98⟧.
Definition de_dir_entry (m : mem) (d : Z) : Z := ld32 m (d + 115).
Definition fname_at (fp : Z) : Z := fp + 43.

(** [part_t], of which only the device number and the first sector are set. *)
Record part_t := Part { p_dv_num : Z; p_start : Z }.

Section cfs.
Context {H D : Type} `{Allocator H} `{BlockDevice D}.
(** The fuel of the string scans, the address of the working directory and of the
    table [_BLK_]. *)
Context (fuel : nat) (pwd _BLK_ : Z).
Implicit Types (s : ufs H D) (f d fp : Z) (p : part_t).

Definition get_ufile fp s : outcome UFILE :=
  match ufiles s !! fp with Some fl => Ret fl | None => Undef end.
Definition put_ufile fp (fl : UFILE) s : ufs H D := set_ufiles (<[fp := fl]> (ufiles s)) s.

Definition umalloc (n : Z) s : outcome (Z * ufs H D) :=
  '(a, h) ← malloc n (uheap s); Ret (a, set_uheap h s).
Definition ufree (a : Z) s : outcome (ufs H D) :=
  h ← free a (uheap s); Ret (set_uheap h s).

(** [malloc(n)] and [memset(..., 0, n)]. *)
Definition uzalloc (n : Z) s : outcome (Z * ufs H D) :=
  '(a, s) ← umalloc n s; Ret (a, set_umem (memset (umem s) a 0 n) s).

(** ** Sectors *)

Definition fill (m : mem) (buffer n : Z) (bytes : Z -> Z) : mem :=
  for_upto 0 n (fun i m => m⟦buffer + i := bytes i⟧) m.

Definition read_sector (dev count addr buffer : Z) s : Z * ufs H D :=
  let '(ret, bytes) := sector_read count addr (udisk s) in
  (ret, set_umem (fill (umem s) buffer (512 * count) bytes) s).

Definition write_sector (dev count addr buffer : Z) s : Z * ufs H D :=
  let '(ret, disk) := sector_write count addr (fun i => (umem s)⟦buffer + i⟧) (udisk s) in
  (ret, set_udisk disk s).

(** [f->rsv + f->hidden] *)
Definition data_sector (m : mem) f : Z := u32 (sb_rsv m f + sb_hidden m f).

(** The first sector of the block [blk]. *)
Definition blk_sector (m : mem) f (blk : Z) : Z := u32 (blk * sb_sector_per_blk m f + data_sector m f).

(** ** Names *)

Definition assert_fn (m : mem) (fn : Z) : mem :=
  match
    for_break 96 0 (fun k (m : mem) =>
      let i := 95 - k in
      if m⟦fn + i⟧ =? 32 then inl m⟦fn + i := 0⟧ else inr m) m
  with
  | inl m => m
  | inr m => m
  end.

Fixpoint get_file_name_loop (n : nat) (m : mem) (s r : Z) : outcome Z :=
  match n with
  | O => NoFuel
  | S n => if m⟦s⟧ =? 0 then Ret r else get_file_name_loop n m (s + 1) (if m⟦s⟧ =? 47 then s + 1 else r)
  end.

Definition get_file_name (m : mem) (path : Z) : outcome Z := get_file_name_loop fuel m path path.

(** [for (i = 0; i < 96; i++) if (dir->file_name[i] == 0) dir->file_name[i] = ' ';] *)
Definition blank_name (m : mem) (dir : Z) : mem :=
  for_upto 0 96 (fun i m => if m⟦dir + i⟧ =? 0 then m⟦dir + i := 32⟧ else m) m.

(** ** The table of blocks *)

(** One turn of the search: [start] is the sector of the table in [_BLK_]. *)
Definition search_blk_step p (i : Z) '((start, s) : Z * ufs H D) : Z * ufs H D + Z * ufs H D :=
  let cell := _BLK_ + 4 * (i mod 512) in
  if ld32 (umem s) cell =? 0 then
    let s := set_umem (st32 (umem s) cell (u32 (-1))) s in
    let '(r, s) := write_sector (p_dv_num p) 4 start _BLK_ s in
    if negb (r =? 0) then inr (u32 (-1), s) else inr (i, s)
  else if i mod 512 =? 512 - 1 then
    let start := u32 (start + 4) in
    let '(r, s) := read_sector (p_dv_num p) 4 start _BLK_ s in
    if negb (r =? 0) then inr (u32 (-1), s) else inl (start, s)
  else inl (start, s).

Definition search_blk_null p f s : Z * ufs H D :=
  let start := data_sector (umem s) f in
  let '(r, s) := read_sector (p_dv_num p) 4 start _BLK_ s in
  if negb (r =? 0) then (u32 (-1), s)
  else
    match for_break_upto 0 (sb_num_of_blk (umem s) f) (search_blk_step p) (start, s) with
    | inl (_, s) => (u32 (-1), s)
    | inr r => r
    end.

Definition clean_blk_enter (blk : Z) p f s : ufs H D :=
  let first_sector := u32 (data_sector (umem s) f + u32 (blk * sb_sector_per_blk (umem s) f)) in
  let s := set_umem (memset (umem s) _BLK_ 0 (512 * 4)) s in
  match
    for_break_upto 0 (sb_sector_per_blk (umem s) f) (fun i s =>
      let '(r, s) := write_sector (p_dv_num p) 1 (u32 (first_sector + i)) _BLK_ s in
      if negb (r =? 0) then inr s else inl s) s
  with
  | inl s => s
  | inr s => s
  end.

Definition read_super_block f p s : Z * ufs H D := read_sector (p_dv_num p) 1 (p_start p) f s.

(** The sector of the table that holds the word of block [index]. *)
Definition fat_sector (m : mem) f (index : Z) : outcome Z :=
  if sb_byte_per_sector m f =? 0 then Undef
  else Ret (u32 (u32 (index * 4) / sb_byte_per_sector m f + sb_rsv m f + sb_hidden m f)).

(** The head of the loop of [remove_blk]: the sector [start] gets into the buffer, the one that
    was there ([w]) is written back first. *)
Definition load p (BLK flg start wstart w : Z) s : Z * ufs H D * Z * Z * Z :=
  if negb (start =? flg) then
    let '(r, s) := if negb (w =? 0) then write_sector (p_dv_num p) 1 wstart BLK s else (0, s) in
    if negb (r =? 0) then (r, s, flg, wstart, w)
    else
      let '(r, s) := read_sector (p_dv_num p) 1 start BLK s in
      (r, s, start, start, 1)
  else (0, s, flg, wstart, w).

(** The loop of [remove_blk]: [start] is the sector of the word of [index], the sector
    [flg_start], when there is one ([w]), is in [BLK]. *)
Fixpoint remove_loop (n : nat) (f : Z) p (BLK index flg_start start wstart w : Z) s : outcome (Z * ufs H D) :=
  match n with
  | O => NoFuel
  | S n =>
      let '(r, s, flg_start, wstart, w) := load p BLK flg_start start wstart w s in
      if negb (r =? 0) then s ← ufree BLK s; Ret (-1, s)
      else if sb_byte_per_sector (umem s) f / 4 =? 0 then Undef
      else
        let index := index mod (sb_byte_per_sector (umem s) f / 4) in
        let index_tmp := index in
        let index := ld32 (umem s) (BLK + 4 * index) in
        let s := set_umem (st32 (umem s) (BLK + 4 * index_tmp) 0) s in
        if index =? u32 EOF then
          let '(r, s) := write_sector (p_dv_num p) 1 wstart BLK s in
          s ← ufree BLK s; Ret (r, s)
        else
          start ← fat_sector (umem s) f index;
          remove_loop n f p BLK index flg_start start wstart w s
  end.

Definition remove_blk (n : nat) (first_blk f : Z) p s : outcome (Z * ufs H D) :=
  '(BLK, s) ← umalloc 8192 s;
  let index := first_blk in
  start ← fat_sector (umem s) f index;
  remove_loop n f p BLK index (u32 (-1)) start start 0 s.

(** ** Directories *)

(** [while ( *tpath != 0) if ( *tpath == '/') { *tpath++ = 0; break; } else tpath++;] *)
Fixpoint end_component (n : nat) (tpath : Z) (m : mem) : outcome (Z * mem) :=
  match n with
  | O => NoFuel
  | S n =>
      if m⟦tpath⟧ =? 0 then Ret (tpath, m)
      else if m⟦tpath⟧ =? 47 then Ret (tpath + 1, m⟦tpath := 0⟧)
      else end_component n (tpath + 1) m
  end.

(** The scan of the 64 entries of the block at [root]. *)
Definition find_busy (P : Z -> bool) (m : mem) (root filename : Z) : option Z :=
  match
    for_break 64 0 (fun i (_ : unit) =>
      let dir := root + i * 128 in
      if P dir then
        if filename_cmp m dir filename =? 0 then inr i else inl tt
      else inl tt) tt
  with
  | inl _ => None
  | inr i => Some i
  end.

Definition is_directory (m : mem) (dir : Z) : bool :=
  negb (de_busy m dir =? 0) && negb (Z.land (de_attr m dir) 0x40 =? 0).

Definition is_busy (m : mem) (dir : Z) : bool := negb (de_busy m dir =? 0).

(** [count] levels down from the block whose first sector is [first_sector]. *)
Fixpoint walk_path (count : nat) (tpath first_sector root r : Z) p f s : outcome (Z * ufs H D) :=
  match count with
  | O => s ← ufree root s; Ret (r, s)
  | S count =>
      let filename := tpath in
      '(tpath, m) ← end_component fuel tpath (umem s);
      let s := set_umem m s in
      let '(r, s) := read_sector (p_dv_num p) (sb_sector_per_blk (umem s) f) first_sector root s in
      if negb (r =? 0) then s ← ufree root s; Ret (0, s)
      else
        match find_busy (is_directory (umem s)) (umem s) root filename with
        | None => s ← ufree root s; Ret (0, s)
        | Some i =>
            let r := de_first_blk (umem s) (root + i * 128) in
            walk_path count tpath (blk_sector (umem s) f r) root r p f s
        end
  end.

Definition read_directory_blk (path : Z) p f s : outcome (Z * ufs H D) :=
  let first_sector := blk_sector (umem s) f (sb_root_blk (umem s) f) in
  '(root, s) ← umalloc 8192 s;
  let tpath := path in
  count ← path_count fuel tpath (umem s);
  walk_path (Z.to_nat count) tpath first_sector root (sb_root_blk (umem s) f) p f s.

Definition read_directory_entry (d f : Z) p (filename : Z) s : outcome (Z * ufs H D) :=
  let first_sector := blk_sector (umem s) f (sb_root_blk (umem s) f) in
  '(root, s) ← uzalloc 8192 s;
  let '(r, s) := read_sector (p_dv_num p) (sb_sector_per_blk (umem s) f) first_sector root s in
  if negb (r =? 0) then s ← ufree root s; Ret (-1, s)
  else
    match find_busy (is_busy (umem s)) (umem s) root filename with
    | Some i =>
        let s := set_umem (memcpy (umem s) d (root + i * 128) 128) s in
        s ← ufree root s; Ret (0, s)
    | None => s ← ufree root s; Ret (-1, s)
    end.

Definition update_directory_entry f p fp s : outcome (Z * ufs H D) :=
  fl ← get_ufile fp s;
  if f_dir_entry fl <? 1 then Ret (-1, s)
  else if f_dir_entry fl >? 64 then Ret (-1, s)
  else
    let first_sector := blk_sector (umem s) f (f_dir_cluster fl) in
    '(root, s) ← uzalloc 8192 s;
    let '(r, s) := read_sector (p_dv_num p) (sb_sector_per_blk (umem s) f) first_sector root s in
    if negb (r =? 0) then s ← ufree root s; Ret (r, s)
    else
      let dir := root + f_dir_entry fl * 128 in
      let m := memset (umem s) dir 0 96 in
      n ← get_file_name m (fname_at fp);
      m ← strcpy fuel m dir n;
      let m := blank_name m dir in
      let m := m⟦dir + 96 := 0⟧ in
      let m := st32 m (dir + 111) (f_fsize fl) in
      let '(r, s) := write_sector (p_dv_num p) (sb_sector_per_blk m f) first_sector root (set_umem m s) in
      s ← ufree root s;
      Ret (r, s).

(** [for (i = 0; i < 64; i++) if (!tmp->busy) break;] *)
Definition find_free (m : mem) (root : Z) : option Z :=
  match for_break 64 0 (fun i (_ : unit) => if is_busy m (root + i * 128) then inl tt else inr i) tt with
  | inl _ => None
  | inr i => Some i
  end.

(** The fields [create_file] writes into the prepared entry. *)
Definition fill_entry (m : mem) (d i attr : Z) : mem := (st32 m (d + 115) i)⟦d + 97 := u8 (-1)⟧⟦d + 98 := u8 attr⟧.

(** The part of [create_file] behind the preparation of the entry. *)
Definition create_entry (d f : Z) p (attr : Z) s : outcome (Z * ufs H D) :=
  let first_sector := blk_sector (umem s) f (sb_root_blk (umem s) f) in
  '(root, s) ← uzalloc 8192 s;
  let '(r, s) := read_sector (p_dv_num p) (sb_sector_per_blk (umem s) f) first_sector root s in
  if negb (r =? 0) then s ← ufree root s; Ret (r, s)
  else
    match find_free (umem s) root with
    | Some i =>
        let '(blk, s) := search_blk_null p f (set_umem (fill_entry (umem s) d i attr) s) in
        let s := set_umem (st32 (umem s) (d + 107) blk) s in
        if blk =? u32 (-1) then s ← ufree root s; Ret (1, s)
        else
          let s := if negb (Z.land attr 0x40 =? 0) then clean_blk_enter blk p f s else s in
          let s := set_umem (memcpy (umem s) (root + i * 128) d 128) s in
          let '(_, s) := write_sector (p_dv_num p) (sb_sector_per_blk (umem s) f) first_sector root s in
          s ← ufree root s; Ret (0, s)
    | None => s ← ufree root s; Ret (-1, s)
    end.

Definition create_file (d f : Z) p (path attr : Z) s : outcome (Z * ufs H D) :=
  let dir := d in
  let m := memset (umem s) dir 0 128 in
  n ← get_file_name m path;
  m ← strcpy fuel m dir n;
  let m := blank_name m dir in
  create_entry d f p attr (set_umem m s).

(** ** Open files *)

(** [file_close]: the tables are freed up to the first null entry. *)
Fixpoint free_tables (k : nat) (i blocks : Z) s : outcome (ufs H D) :=
  match k with
  | O => Ret s
  | S k =>
      let b := ld64 (umem s) (blocks + 8 * i) in
      if b =? 0 then Ret s else s ← ufree b s; free_tables k (i + 1) blocks s
  end.

Definition file_close fp s : outcome (Z * ufs H D) :=
  fl ← get_ufile fp s;
  s ← ufree (f_buffer fl) s;
  s ← free_tables 1024 0 (f_blocks fl) s;
  s ← ufree (f_blocks fl) s;
  s ← ufree fp s;
  Ret (0, set_ufiles (delete fp (ufiles s)) s).

(** The walk along the chain of blocks, one table of 1024 entries: it is full, the chain
    ended, or a sector of the table could not be read. *)
Fixpoint fill_blocks (k : nat) (t f fp : Z) p (BLK blocks index flg_start : Z) s : outcome (chain * ufs H D) :=
  match k with
  | O => Ret (Chain index flg_start, s)
  | S k =>
      let m := umem s in
      let lba := u32 (u32 (index * sb_sector_per_blk m f) + sb_rsv m f + sb_hidden m f) in
      let s := set_umem (st32 m (blocks + 4 * t) lba) s in
      fl ← get_ufile fp s;
      let s := put_ufile fp (set_f_num_of_blocks (u32 (f_num_of_blocks fl + 1)) fl) s in
      start ← fat_sector (umem s) f index;
      let '(r, s) :=
        if negb (flg_start =? start) then read_sector (p_dv_num p) 1 start BLK s else (0, s) in
      if negb (r =? 0) then Ret (ChainErr, s)
      else
        let flg_start := start in
        if sb_byte_per_sector (umem s) f / 4 =? 0 then Undef
        else
          let index := index mod (sb_byte_per_sector (umem s) f / 4) in
          let index := ld32 (umem s) (BLK + 4 * index) in
          if index =? u32 EOF then Ret (ChainEof, s)
          else fill_blocks k (t + 1) f fp p BLK blocks index flg_start s
  end.

Fixpoint fill_tables (k : nat) (i f fp : Z) p (BLK index flg_start : Z) s : outcome (bool * ufs H D) :=
  match k with
  | O => Ret (true, s)
  | S k =>
      '(b, s) ← umalloc 4096 s;
      fl ← get_ufile fp s;
      let s := set_umem (st64 (umem s) (f_blocks fl + 8 * i) b) s in
      let s := set_umem (memset (umem s) b 0 4096) s in
      '(c, s) ← fill_blocks 1024 0 f fp p BLK b index flg_start s;
      match c with
      | Chain index flg_start => fill_tables k (i + 1) f fp p BLK index flg_start s
      | ChainEof => Ret (true, s)
      | ChainErr =>
          s ← ufree BLK s;
          '(_, s) ← file_close fp s;
          Ret (false, s)
      end
  end.

Definition open_file_r (d f : Z) p s : outcome (Z * ufs H D) :=
  '(fp, s) ← uzalloc sizeof_UFILE s;
  let m := umem s in
  let fl := zero |> set_f_bsize (u32 (sb_byte_per_sector m f * sb_sector_per_blk m f)) in
  '(b, s) ← umalloc BUFSIZ s;
  let m := umem s in
  let fl := fl |> set_f_buffer b |> set_f_fsize (de_file_size m d)
               |> set_f_byte_per_sector (sb_byte_per_sector m f)
               |> set_f_count (sb_sector_per_blk m f) |> set_f_dv_num (p_dv_num p) in
  '(bl, s) ← uzalloc (1024 * 8) s;
  let s := put_ufile fp (set_f_blocks bl fl) s in
  let index := de_first_blk (umem s) d in
  '(BLK, s) ← umalloc 8192 s;
  '(ok, s) ← fill_tables 1024 0 f fp p BLK index (u32 (-1)) s;
  if (ok : bool) then s ← ufree BLK s; Ret (fp, s) else Ret (0, s).

(** [malloc(1024)] for the super block, zeroed, and the partition. *)
Definition the_part : part_t := Part 0 1.

(** The frees before a failing call returns. *)
Fixpoint ufree_all (l : list Z) s : outcome (ufs H D) :=
  match l with
  | [] => Ret s
  | a :: l => s ← ufree a s; ufree_all l s
  end.

Definition open_file (filename mode : Z) s : outcome (Z * ufs H D) :=
  '(path, s) ← umalloc (0x1000 + 256) s;
  let tpath := path in
  let filename_ := path + 0x1000 in
  '(_, m) ← getpathname fuel pwd tpath filename (umem s);
  '(_, m) ← getfilename fuel filename_ tpath m;
  '(d, s) ← uzalloc sizeof_directory_entry (set_umem m s);
  let s := set_fs_directory d s in
  '(f, s) ← uzalloc 1024 s;
  let p := the_part in
  let m0 := (umem s)⟦mode⟧ in
  let m1 := if m0 =? 0 then 0 else (umem s)⟦mode + 1⟧ in
  let flg := (m0 =? 119) || (m0 =? 97) in
  let '(r, s) := read_super_block f p s in
  if negb (r =? 0) then s ← ufree_all [d; path; f] s; Ret (0, s)
  else
    let tpath := tpath + 3 in
    '(blk, s) ← read_directory_blk tpath p f s;
    if blk =? 0 then s ← ufree_all [d; path; f] s; Ret (0, s)
    else
      let s := set_umem (st32 (umem s) (f + 44) blk) s in
      '(r, s) ← read_directory_entry d f p filename_ s;
      '(r, s) ←
        (if (r =? -1) && flg then
           '(_, s) ← create_file d f p filename 0x20 s;
           read_directory_entry d f p filename s
         else Ret (r, s));
      if negb (r =? 0) then s ← ufree_all [d; path; f] s; Ret (0, s)
      else
        '(fp, s) ← open_file_r d f p s;
        s ← (if fp =? 0 then Ret s
             else
               let s := set_umem (assert_fn (memcpy (umem s) (fname_at fp) d 96) (fname_at fp)) s in
               fl ← get_ufile fp s;
               let fl := fl |> set_f_mode (if (m0 =? 119) || (m1 =? 43) || (m0 =? 97) then 2 else 1)
                            |> set_f_flags 0x6 |> set_f_dir_cluster (sb_root_blk (umem s) f)
                            |> set_f_dir_entry (de_dir_entry (umem s) d) in
               let fl := if m0 =? 97 then set_f_off (de_file_size (umem s) d) fl else fl in
               Ret (put_ufile fp fl s));
        s ← ufree_all [path; d; f] s;
        Ret (fp, s).

Definition file_update fp s : outcome (Z * ufs H D) :=
  '(f, s) ← uzalloc 1024 s;
  let p := the_part in
  let '(r, s) := read_super_block f p s in
  if negb (r =? 0) then s ← ufree f s; Ret (-1, s)
  else
    '(r, s) ← update_directory_entry f p fp s;
    s ← ufree f s;
    Ret (r, s).

(** The first sector of the file's block [addr]. *)
Definition block_sector (fl : UFILE) (addr : Z) (m : mem) : Z :=
  ld32 m (ld64 m (f_blocks fl + 8 * Z.quot addr 1024) + 4 * Z.rem addr 1024).

Definition file_read_block fp (addr : Z) s : outcome (Z * ufs H D) :=
  fl ← get_ufile fp s;
  if (u32 addr >=? f_num_of_blocks fl) || (fp =? 0) then Ret (-1, s)
  else Ret (read_sector (f_dv_num fl) (f_count fl) (block_sector fl addr (umem s)) (f_buffer fl) s).

Definition file_write_block fp (addr : Z) s : outcome (Z * ufs H D) :=
  fl ← get_ufile fp s;
  if (u32 addr >=? f_num_of_blocks fl) || (fp =? 0) then Ret (-1, s)
  else Ret (write_sector (f_dv_num fl) (f_count fl) (block_sector fl addr (umem s)) (f_buffer fl) s).

(** ** Listing and removing *)

(** The busy entries among the first [count], copied behind one another. *)
Definition list_entries (m : mem) (root buf count : Z) : mem * Z :=
  for_upto 0 (Z.min 64 count) (fun i '(m, v) =>
    let d := root + i * 128 in
    if de_busy m d =? 0 then (m, v)
    else (assert_fn (memcpy m (buf + v * 128) d 128) (buf + v * 128), v + 1)) (m, 0).

Definition open_dir (pathname buf count : Z) s : outcome (Z * ufs H D) :=
  '(path, s) ← umalloc (0x1000 + 256) s;
  let tpath := path in
  let filename := path + 0x1000 in
  '(_, m) ← getpathname fuel pwd tpath pathname (umem s);
  '(_, m) ← getfilename fuel filename tpath m;
  '(f, s) ← uzalloc 1024 (set_umem m s);
  let p := the_part in
  let '(r, s) := read_super_block f p s in
  if negb (r =? 0) then s ← ufree_all [fs_directory s; path; f] s; Ret (-1, s)
  else
    let tpath := tpath + 3 in
    '(blk, s) ← read_directory_blk tpath p f s;
    if blk =? 0 then s ← ufree_all [fs_directory s; path; f] s; Ret (-1, s)
    else
      let s := set_umem (st32 (umem s) (f + 44) blk) s in
      let first_sector := blk_sector (umem s) f (sb_root_blk (umem s) f) in
      '(root, s) ← uzalloc 8192 s;
      let '(_, s) := read_sector (p_dv_num p) (sb_sector_per_blk (umem s) f) first_sector root s in
      let '(m, v) := list_entries (umem s) root buf count in
      s ← ufree_all [root; path; f] (set_umem m s);
      Ret (v, s).

(** [n] bounds the chain of the file. *)
Definition remove_file (n : nat) (path : Z) s : outcome (Z * ufs H D) :=
  '(p_path, s) ← umalloc (0x1000 + 256) s;
  let tpath := p_path in
  let filename := p_path + 0x1000 in
  '(_, m) ← getpathname fuel pwd tpath path (umem s);
  '(_, m) ← getfilename fuel filename tpath m;
  '(f, s) ← uzalloc 1024 (set_umem m s);
  let p := the_part in
  let '(r, s) := read_super_block f p s in
  if negb (r =? 0) then s ← ufree_all [p_path; f] s; Ret (0, s)
  else
    let tpath := tpath + 3 in
    '(blk, s) ← read_directory_blk tpath p f s;
    if blk =? 0 then s ← ufree_all [p_path; f] s; Ret (-1, s)
    else
      let s := set_umem (st32 (umem s) (f + 44) blk) s in
      let first_sector := blk_sector (umem s) f (sb_root_blk (umem s) f) in
      '(root, s) ← uzalloc 8192 s;
      let '(r, s) := read_sector (p_dv_num p) (sb_sector_per_blk (umem s) f) first_sector root s in
      if negb (r =? 0) then s ← ufree_all [p_path; f; root] s; Ret (r, s)
      else
        match find_busy (is_busy (umem s)) (umem s) root filename with
        | None => s ← ufree_all [p_path; f; root] s; Ret (-1, s)
        | Some i =>
            let dir := root + i * 128 in
            let s := set_umem (umem s)⟦dir + 97 := 0⟧ s in
            let '(r, s) := write_sector (p_dv_num p) (sb_sector_per_blk (umem s) f) first_sector root s in
            if negb (r =? 0) then s ← ufree_all [p_path; f; root] s; Ret (r, s)
            else
              '(r, s) ← remove_blk n (de_first_blk (umem s) dir) f p s;
              s ← ufree_all [p_path; f; root] s;
              Ret (r, s)
        end.
End cfs.

(** ** Words of the device *)

(** The word of block [k] in the table that starts at sector [base]. *)
Definition fat (c : Z -> Z) (base k : Z) : Z := word_of 4 c (512 * base + 4 * k).

Lemma word_of_const4 c a v : (forall i, 0 <= i < 4 -> c (a + i) = v) -> word_of 4 c a = v * 0x1010101.
Proof.
  intros E. cbn [word_of]. replace (a + 1 + 1) with (a + 2) by lia. replace (a + 2 + 1) with (a + 3) by lia.
  rewrite !E by lia. replace (c a) with v; [lia|]. rewrite <- (E 0) by lia. by rewrite Z.add_0_r.
Qed.

(** The four bytes of a word set to [v]. *)
Definition set_word (c : Z -> Z) (base k v : Z) : Z -> Z := fun a => if within a (512 * base + 4 * k) 4 then v else c a.

Lemma fat_set_word c c' base k v j :
  (forall a, c' a = set_word c base k v a) -> fat c' base j = if j =? k then v * 0x1010101 else fat c base j.
Proof.
  intros E. destruct (Z.eqb_spec j k) as [->|Hne].
  - apply word_of_const4. intros i Hi. rewrite E. unfold set_word. case_within; [done|lia].
  - apply word_of_ext. intros i Hi. rewrite E. unfold set_word. case_within; [lia|done].
Qed.

Section device.
Context {H D : Type} `{AllocatorLaws H} `{BlockDeviceLaws D}.
Implicit Types (s : ufs H D) (f fp : Z) (p : part_t) (m : mem).

Lemma rd_fill m b n bytes a : (fill m b n bytes)⟦a⟧ = if within a b n then bytes (a - b) else m⟦a⟧.
Proof.
  destruct (Z.le_gt_cases 0 n) as [Hn|Hn].
  - unfold fill. apply (for_upto_inv (fun i m' => m'⟦a⟧ = if within a b i then bytes (a - b) else m⟦a⟧)); [done| |].
    + case_within; [lia|done].
    + intros k m' Hk E. rewrite rd_wr, E. case_within; try lia; try done. f_equal. lia.
  - unfold fill, for_upto. replace (Z.to_nat (n - 0)) with O by lia. cbn. case_within; [lia|done].
Qed.

Lemma read_sector_ok dev count addr buffer s :
  device_ok (udisk s) ->
  exists m, read_sector dev count addr buffer s = (0, set_umem m s) /\
    (forall i, 0 <= i < 512 * count -> m⟦buffer + i⟧ = contents (udisk s) (512 * addr + i)) /\
    forall a, ~ buffer <= a < buffer + 512 * count -> m⟦a⟧ = (umem s)⟦a⟧.
Proof.
  intros Hd. destruct (sector_read_spec (udisk s) count addr Hd) as (bytes & E & Hb).
  unfold read_sector. rewrite E. eexists. split; [reflexivity|]. split.
  - intros i Hi. rewrite rd_fill. case_within; [|lia]. rewrite <- Hb by done. f_equal. lia.
  - intros a Ha. rewrite rd_fill. by rewrite not_within.
Qed.

Lemma write_sector_ok dev count addr buffer s :
  device_ok (udisk s) -> (forall i, 0 <= i < 512 * count -> 0 <= (umem s)⟦buffer + i⟧ < 256) ->
  exists d', write_sector dev count addr buffer s = (0, set_udisk d' s) /\ device_ok d' /\
    forall a, contents d' a =
      if within a (512 * addr) (512 * count) then (umem s)⟦buffer + (a - 512 * addr)⟧ else contents (udisk s) a.
Proof.
  intros Hd Hm. destruct (sector_write_spec (udisk s) count addr (fun i => (umem s)⟦buffer + i⟧) Hd Hm) as (d' & E & Hd' & Hc).
  unfold write_sector. rewrite E. by exists d'.
Qed.
End device.

(** ** Finding a free block *)

Section search.
Context {H D : Type} `{AllocatorLaws H} `{BlockDeviceLaws D}.
Context (_BLK_ : Z).
Implicit Types (s : ufs H D) (f : Z) (p : part_t) (m : mem).

(** The state after a search: the table [_BLK_] and the device have changed. *)
Definition searched s (m : mem) (d : D) : ufs H D := s |> set_umem m |> set_udisk d.

Lemma searched_refl s : searched s (umem s) (udisk s) = s.
Proof. by destruct s. Qed.

(** [_BLK_] holds the four sectors of the table from [start] on; nothing else has changed. *)
Record blk_cache s m (start : Z) : Prop := {
  bc_in : forall i, 0 <= i < 2048 -> m⟦_BLK_ + i⟧ = contents (udisk s) (512 * start + i);
  bc_out : forall a, ~ _BLK_ <= a < _BLK_ + 2048 -> m⟦a⟧ = (umem s)⟦a⟧
}.

Lemma blk_cache_read p s m start :
  device_ok (udisk s) -> (forall a, ~ _BLK_ <= a < _BLK_ + 2048 -> m⟦a⟧ = (umem s)⟦a⟧) ->
  exists m', read_sector (p_dv_num p) 4 start _BLK_ (searched s m (udisk s)) = (0, searched s m' (udisk s)) /\
    blk_cache s m' start.
Proof.
  intros Hd Hm. destruct (read_sector_ok (p_dv_num p) 4 start _BLK_ (searched s m (udisk s)) Hd) as (m' & E & Hin & Hout).
  exists m'. split; [exact E|]. split; [exact Hin|]. intros a Ha. rewrite <- Hm by done. apply Hout. lia.
Qed.

(** One turn of the search. *)
Lemma search_blk_step_spec p s m base i :
  device_ok (udisk s) -> 0 <= i -> 0 <= base -> base + 4 * (i / 512) + 4 < 2 ^ 32 -> blk_cache s m (base + 4 * (i / 512)) ->
  if fat (contents (udisk s)) base i =? 0 then
    exists m' d', search_blk_step _BLK_ p i (base + 4 * (i / 512), searched s m (udisk s)) = inr (i, searched s m' d') /\
      device_ok d' /\ (forall a, contents d' a = set_word (contents (udisk s)) base i 255 a) /\
      forall a, ~ _BLK_ <= a < _BLK_ + 2048 -> m'⟦a⟧ = (umem s)⟦a⟧
  else
    exists m', search_blk_step _BLK_ p i (base + 4 * (i / 512), searched s m (udisk s)) =
      inl (base + 4 * ((i + 1) / 512), searched s m' (udisk s)) /\ blk_cache s m' (base + 4 * ((i + 1) / 512)).
Proof.
  intros Hd Hi Hb Hmax [Hin Hout]. set (start := base + 4 * (i / 512)) in *.
  assert (0 <= i mod 512 < 512) as Hr by (apply Z.mod_pos_bound; lia).
  assert (ld32 m (_BLK_ + 4 * (i mod 512)) = fat (contents (udisk s)) base i) as Ef.
  { rewrite (ld_copy 4 m (contents (udisk s)) _BLK_ (512 * start) 2048 Hin) by lia. unfold fat. f_equal. unfold start.
    Z.div_mod_to_equations. lia. }
  unfold search_blk_step. change (umem (searched s m (udisk s))) with m. rewrite Ef.
  destruct (Z.eqb_spec (fat (contents (udisk s)) base i) 0) as [E0|E0].
  - set (m1 := st32 m (_BLK_ + 4 * (i mod 512)) (u32 (-1))).
    change (set_umem m1 (searched s m (udisk s))) with (searched s m1 (udisk s)).
    assert (forall o, 0 <= o < 2048 -> m1⟦_BLK_ + o⟧ = set_word (contents (udisk s)) base i 255 (512 * start + o)) as Hm1.
    { intros o Ho. unfold set_word. destruct (within_spec (512 * start + o) (512 * base + 4 * i) 4) as [Hw|Hw].
      - assert (512 * start + o = 512 * base + 4 * i + (o - 4 * (i mod 512))) as Eo by (unfold start; Z.div_mod_to_equations; lia).
        replace (_BLK_ + o) with (_BLK_ + 4 * (i mod 512) + (o - 4 * (i mod 512))) by lia.
        assert (forall j, 0 <= j < 4 -> m1⟦_BLK_ + 4 * (i mod 512) + j⟧ = 255) as Hw4; [|apply Hw4; lia].
        intros j Hj. subst m1. unfold st32. assert (j = 0 \/ j = 1 \/ j = 2 \/ j = 3) as [-> | [-> | [-> | ->]]] by lia;
          cbn [st]; mem_simpl; try reflexivity; rewrite ?Z.add_0_r; mem_simpl; try reflexivity.
        all: repeat (rewrite rd_wr_ne by lia || rewrite rd_wr_eq); try reflexivity.
        all: match goal with |- (wr _ ?x _)⟦?y⟧ = _ => replace y with x by lia end; rewrite rd_wr_eq; reflexivity.
      - subst m1. rewrite rd_st_out by (unfold start in Hw; Z.div_mod_to_equations; lia). by apply Hin. }
    destruct (write_sector_ok (p_dv_num p) 4 start _BLK_ (searched s m1 (udisk s)) Hd) as (d' & E & Hd' & Hc).
    { intros o Ho. change (umem (searched s m1 (udisk s))) with m1. rewrite Hm1 by lia. unfold set_word.
      destruct (within _ _ _); [lia|]. by apply contents_byte. }
    rewrite E. exists m1, d'. split; [reflexivity|]. split; [exact Hd'|]. split.
    + intros a. rewrite Hc. change (umem (searched s m1 (udisk s))) with m1. change (udisk (searched s m1 (udisk s))) with (udisk s).
      destruct (within_spec a (512 * start) (512 * 4)) as [Hw|Hw].
      * rewrite Hm1 by lia. f_equal. lia.
      * unfold set_word. rewrite not_within; [done|]. unfold start in Hw. Z.div_mod_to_equations. lia.
    + intros a Ha. subst m1. rewrite rd_st_out by lia. by apply Hout.
  - destruct (Z.eqb_spec (i mod 512) (512 - 1)) as [El|El].
    + assert (base + 4 * ((i + 1) / 512) = start + 4) as -> by (unfold start; Z.div_mod_to_equations; lia).
      rewrite (u32_small (start + 4)) by (unfold start; Z.div_mod_to_equations; lia).
      destruct (blk_cache_read p s m (start + 4) Hd Hout) as (m' & E & Hc). rewrite E. by exists m'.
    + assert (base + 4 * ((i + 1) / 512) = start) as -> by (unfold start; Z.div_mod_to_equations; lia).
      exists m. split; [done|]. by split.
Qed.

(** [search_blk_null] is first fit on the table of blocks: it returns the lowest block
    whose word is 0 and sets that word, and no other byte of the device, to 0xFFFFFFFF; when
    no block is free it returns -1 and the device is unchanged.  Of the memory only [_BLK_] changes. *)
Lemma search_blk_null_spec p f s :
  let base := data_sector (umem s) f in
  let n := sb_num_of_blk (umem s) f in
  let free k := fat (contents (udisk s)) base k = 0 in
  device_ok (udisk s) -> 0 <= n -> base + 4 * (n / 512) + 4 < 2 ^ 32 -> apart f 52 _BLK_ 2048 ->
  exists m d, device_ok d /\ (forall a, ~ _BLK_ <= a < _BLK_ + 2048 -> m⟦a⟧ = (umem s)⟦a⟧) /\
    ((exists k, 0 <= k < n /\ free k /\ (forall j, 0 <= j < k -> ~ free j) /\
        search_blk_null _BLK_ p f s = (k, searched s m d) /\
        forall a, contents d a = set_word (contents (udisk s)) base k 255 a) \/
     ((forall j, 0 <= j < n -> ~ free j) /\ search_blk_null _BLK_ p f s = (u32 (-1), searched s m d) /\ d = udisk s)).
Proof.
  intros base n free Hd Hn0 Hmax Hap.
  assert (0 <= base) as Hb0 by apply u32_range.
  unfold search_blk_null.
  destruct (blk_cache_read p s (umem s) (data_sector (umem s) f) Hd ltac:(done)) as (m0 & E0 & Hc0).
  rewrite searched_refl in E0. rewrite E0. cbn [negb Z.eqb]. fold base in Hc0 |- *.
  assert (sb_num_of_blk (umem (searched s m0 (udisk s))) f = n) as ->.
  { unfold sb_num_of_blk. apply ld_ext. intros b Hbr. apply (bc_out _ _ _ Hc0). unfold apart in Hap. lia. }
  break_upto_with (fun i (t : Z * ufs H D) => (forall j, 0 <= j < i -> ~ free j) /\
      exists m, t = (base + 4 * (i / 512), searched s m (udisk s)) /\ blk_cache s m (base + 4 * (i / 512)))
    (fun i (r : Z * ufs H D) => (forall j, 0 <= j < i -> ~ free j) /\ free i /\ exists m d, r = (i, searched s m d) /\ device_ok d /\
       (forall a, contents d a = set_word (contents (udisk s)) base i 255 a) /\
       forall a, ~ _BLK_ <= a < _BLK_ + 2048 -> m⟦a⟧ = (umem s)⟦a⟧).
  - done.
  - split; [intros; lia|]. exists m0. change (0 / 512) with 0. rewrite Z.mul_0_r, Z.add_0_r. done.
  - intros i t Hi (Hlow & m & -> & Hc).
    assert (i / 512 <= n / 512) by (apply Z.div_le_mono; lia).
    pose proof (search_blk_step_spec p s m base i Hd ltac:(lia) Hb0 ltac:(lia) Hc) as Hs. unfold free.
    destruct (Z.eqb_spec (fat (contents (udisk s)) base i) 0) as [Ei|Ei].
    + destruct Hs as (m' & d' & -> & Hd' & Hcon & Hout). split; [done|]. split; [done|]. by exists m', d'.
    + destruct Hs as (m' & -> & Hc'). split; [|by exists m'].
      intros j Hj. destruct (decide (j = i)) as [->|]; [done|]. apply Hlow. lia.
  - intros t (Hlow & m & -> & Hc). exists m, (udisk s). split; [done|]. split; [apply Hc|]. right. done.
  - intros i r Hi (Hlow & Hfree & m & d & -> & Hd' & Hcon & Hout). exists m, d. split; [done|]. split; [done|].
    left. exists i. done.
Qed.
End search.

(** ** Freeing a chain *)

Definition LAST : Z := 0xFFFFFFFF.

(** [l] is a chain of the table [w]: each block names the next one, the last one is marked. *)
Fixpoint chain_of (w : Z -> Z) (l : list Z) : Prop :=
  match l with
  | [] => False
  | b :: l =>
      match l with
      | [] => w b = LAST
      | b' :: _ => w b = b' /\ b' <> LAST /\ chain_of w l
      end
  end.

(** The device with the words of the blocks [ks] cleared. *)
Definition cleared (c : Z -> Z) (base : Z) (ks : list Z) : Z -> Z :=
  fun a => if existsb (fun k => within a (512 * base + 4 * k) 4) ks then 0 else c a.

Lemma cleared_cons c base k ks a :
  cleared c base (k :: ks) a = if within a (512 * base + 4 * k) 4 then 0 else cleared c base ks a.
Proof. unfold cleared. cbn [existsb]. by destruct (within a _ _). Qed.

Lemma cleared_byte c base ks a : 0 <= c a < 256 -> 0 <= cleared c base ks a < 256.
Proof. unfold cleared. destruct (existsb _ _); lia. Qed.

Lemma fat_cleared c c' base ks j :
  (forall a, c' a = cleared c base ks a) -> fat c' base j = if bool_decide (j ∈ ks) then 0 else fat c base j.
Proof.
  revert c'. induction ks as [|k ks IH]; intros c' E.
  - rewrite bool_decide_eq_false_2 by (intros Hj; by apply not_elem_of_nil in Hj). apply word_of_ext. intros i Hi. apply E.
  - assert (forall a, c' a = set_word (cleared c base ks) base k 0 a) as E'.
    { intros a. rewrite E, cleared_cons. reflexivity. }
    rewrite (fat_set_word _ _ _ _ _ _ E'). rewrite (IH (cleared c base ks)) by done.
    destruct (Z.eqb_spec j k) as [->|Hne].
    + rewrite bool_decide_eq_true_2 by left. lia.
    + destruct (decide (j ∈ ks)).
      * rewrite !bool_decide_eq_true_2; [done|by right|done].
      * rewrite !bool_decide_eq_false_2; [done|by intros [?|?]%elem_of_cons|done].
Qed.

Section remove.
Context {H D : Type} `{AllocatorLaws H} `{BlockDeviceLaws D}.
Implicit Types (s : ufs H D) (p : part_t) (m : mem).

(** The geometry of the file system, as the super block at [f] states it. *)
Record geometry (m : mem) (f base spb : Z) : Prop := {
  ge_base : data_sector m f = base;
  ge_bps : sb_byte_per_sector m f = 512;
  ge_spb : sb_sector_per_blk m f = spb
}.

Lemma geometry_ext m m' f base spb :
  (forall a, f <= a < f + 52 -> m'⟦a⟧ = m⟦a⟧) -> geometry m f base spb -> geometry m' f base spb.
Proof.
  intros E [E1 E2 E3]. assert (forall o, 0 <= o <= 48 -> ld32 m' (f + o) = ld32 m (f + o)) as El.
  { intros o Ho. apply ld_ext. intros b Hb. apply E. lia. }
  unfold data_sector, sb_rsv, sb_hidden, sb_byte_per_sector, sb_sector_per_blk in *.
  constructor; unfold data_sector, sb_rsv, sb_hidden, sb_byte_per_sector, sb_sector_per_blk; by rewrite !El by lia.
Qed.

Lemma fat_sector_eq m f base spb k :
  geometry m f base spb -> 0 <= base -> 0 <= k < 2 ^ 30 -> base + k / 128 < 2 ^ 32 ->
  fat_sector m f k = Ret (base + k / 128).
Proof.
  intros [E1 E2 _] Hb Hk Hmax. unfold fat_sector. rewrite E2. cbn [Z.eqb Pos.eqb]. f_equal.
  rewrite (u32_small (k * 4)) by lia. replace (k * 4 / 512) with (k / 128) by (Z.div_mod_to_equations; lia).
  unfold data_sector in E1. unfold u32 in E1 |- *. rewrite <- Z.add_assoc, <- Zplus_mod_idemp_r, E1.
  rewrite Z.mod_small; [lia|]. Z.div_mod_to_equations. lia.
Qed.

(** The sector [flg] is in the buffer [BLK] when [w] is 1; what the device holds once the
    buffer is written back is the device [c] with the blocks [ks] cleared. *)
Record cached (c : Z -> Z) (m0 m : mem) (dk : D) (BLK base : Z) (ks : list Z) (flg w : Z) : Prop := {
  ca_ok : device_ok dk;
  ca_w : w = 1 \/ w = 0 /\ flg = u32 (-1);
  ca_view a : cleared c base ks a =
    if (w =? 1) && within a (512 * flg) 512 then m⟦BLK + (a - 512 * flg)⟧ else contents dk a;
  ca_out a : ~ BLK <= a < BLK + 512 -> m⟦a⟧ = m0⟦a⟧
}.

(** The buffer is written back. *)
Lemma flush_cached c s m0 BLK base ks flg p :
  (forall a, 0 <= c a < 256) -> cached c m0 (umem s) (udisk s) BLK base ks flg 1 ->
  exists dk, write_sector (p_dv_num p) 1 flg BLK s = (0, set_udisk dk s) /\ device_ok dk /\
    forall a, contents dk a = cleared c base ks a.
Proof.
  intros Hc [Hd _ Hv Ho]. destruct (write_sector_ok (p_dv_num p) 1 flg BLK s Hd) as (dk & E & Hd' & Hcon).
  - intros i Hi. pose proof (Hv (512 * flg + i)) as E. cbn [Z.eqb Pos.eqb andb] in E.
    destruct (within_spec (512 * flg + i) (512 * flg) 512); [|lia].
    replace (BLK + (512 * flg + i - 512 * flg)) with (BLK + i) in E by lia. rewrite <- E. by apply cleared_byte.
  - exists dk. split; [exact E|]. split; [exact Hd'|]. intros a. rewrite Hcon. change (512 * 1) with 512. rewrite Hv.
    by destruct (within a (512 * flg) 512).
Qed.

Lemma load_spec c s m0 BLK base ks flg w wstart p start :
  (forall a, 0 <= c a < 256) -> cached c m0 (umem s) (udisk s) BLK base ks flg w -> (w = 1 -> wstart = flg) ->
  start <> u32 (-1) ->
  exists m dk, load p BLK flg start wstart w s = (0, searched s m dk, start, start, 1) /\
    cached c m0 m dk BLK base ks start 1.
Proof.
  intros Hc Hca Hw Hst. unfold load. destruct (Z.eqb_spec start flg) as [->|Hne]; cbn [negb].
  - exists (umem s), (udisk s). rewrite searched_refl. destruct (ca_w _ _ _ _ _ _ _ _ _ Hca) as [->|[_ ->]]; [|done].
    rewrite Hw by done. done.
  - assert (exists dk, (if negb (w =? 0) then write_sector (p_dv_num p) 1 wstart BLK s else (0, s)) = (0, set_udisk dk s) /\
      device_ok dk /\ forall a, contents dk a = cleared c base ks a) as (dk & E & Hd & Hcon).
    { destruct Hca as [Hd [->|[-> _]] Hv Ho].
      - rewrite Hw by done. apply (flush_cached c s m0 BLK base ks flg p Hc). constructor; try done. by left.
      - exists (udisk s). split; [by destruct s|]. split; [done|]. intros a. by rewrite Hv. }
    rewrite E. cbn [negb Z.eqb]. destruct (read_sector_ok (p_dv_num p) 1 start BLK (set_udisk dk s) Hd) as (m & Er & Hin & Hout).
    rewrite Er. exists m, dk. split; [reflexivity|]. constructor; [done|by left| |].
    + intros a. cbn [Z.eqb Pos.eqb andb]. change (udisk (set_udisk dk s)) with dk in Hin.
      destruct (within_spec a (512 * start) 512) as [Hw'|]; [|by rewrite Hcon].
      rewrite Hin by lia. rewrite Hcon. f_equal. lia.
    + intros a Ha. rewrite Hout by lia. by apply (ca_out _ _ _ _ _ _ _ _ _ Hca).
Qed.

(** The word of [k] in the buffer, and clearing it. *)
Lemma cached_word c m0 m dk BLK base ks k :
  cached c m0 m dk BLK base ks (base + k / 128) 1 -> 0 <= k -> k ∉ ks ->
  ld32 m (BLK + 4 * (k mod 128)) = fat c base k /\
  cached c m0 (st32 m (BLK + 4 * (k mod 128)) 0) dk BLK base (k :: ks) (base + k / 128) 1.
Proof.
  intros [Hd Hw Hv Ho] Hk Hni. assert (0 <= k mod 128 < 128) as Hr by (apply Z.mod_pos_bound; lia).
  assert (k = 128 * (k / 128) + k mod 128) as Ek by (apply Z.div_mod; lia). split.
  - assert (forall i, 0 <= i < 512 -> m⟦BLK + i⟧ = cleared c base ks (512 * (base + k / 128) + i)) as Hin.
    { intros i Hi. rewrite Hv. cbn [Z.eqb Pos.eqb andb]. case_within; [|lia]. f_equal. lia. }
    rewrite (ld_copy 4 m _ BLK _ 512 Hin) by lia.
    transitivity (fat (cleared c base ks) base k); [unfold fat; f_equal; lia|].
    rewrite (fat_cleared c _ base ks) by done. by rewrite bool_decide_eq_false_2.
  - constructor; [done|done| |].
    + intros a. cbn [Z.eqb Pos.eqb andb]. rewrite cleared_cons, Hv. cbn [Z.eqb Pos.eqb andb].
      destruct (within_spec a (512 * base + 4 * k) 4) as [Hwa|Hwa].
      * assert (within a (512 * (base + k / 128)) 512 = true) as -> by (case_within; [done|lia]).
        set (o := a - (512 * base + 4 * k)). replace (BLK + (a - 512 * (base + k / 128))) with (BLK + 4 * (k mod 128) + o) by lia.
        rewrite rd_st_in by lia. by rewrite Zdiv_0_l, Zmod_0_l.
      * case_within; [|done]. rewrite rd_st_out; [done|]. lia.
    + intros a Ha. rewrite rd_st_out by lia. by apply Ho.
Qed.
End remove.

Section remove_claims.
Context {H D : Type} `{AllocatorLaws H} `{BlockDeviceLaws D}.
Implicit Types (s : ufs H D) (p : part_t) (m : mem).

(** The blocks a table of the given place can name. *)
Definition block_ok (base k : Z) : Prop := 0 <= k < 2 ^ 30 /\ base + k / 128 < 2 ^ 32 - 1.

Lemma remove_loop_spec c m0 h h' f base spb BLK p :
  (forall a, 0 <= c a < 256) -> geometry m0 f base spb -> 0 <= base -> apart f 52 BLK 512 -> free BLK h = Ret h' ->
  forall l n b ks flg w wstart s,
  chain_of (fat c base) (b :: l) -> NoDup (b :: l) -> Forall (fun k => k ∉ ks) (b :: l) -> Forall (block_ok base) (b :: l) ->
  (length (b :: l) <= n)%nat -> uheap s = h ->
  cached c m0 (umem s) (udisk s) BLK base ks flg w -> (w = 1 -> wstart = flg) ->
  exists m dk ks', remove_loop n f p BLK b flg (base + b / 128) wstart w s = Ret (0, searched s m dk |> set_uheap h') /\
    device_ok dk /\ (forall a, contents dk a = cleared c base ks' a) /\ (forall k, k ∈ ks' <-> k ∈ b :: l \/ k ∈ ks) /\
    forall a, ~ BLK <= a < BLK + 512 -> m⟦a⟧ = m0⟦a⟧.
Proof.
  intros Hc Hg Hb0 Hap Hfree. induction l as [|b' l IH]; intros n b ks flg w wstart s Hch Hnd Hks Hok Hn Eh Hca Hw;
    (destruct n as [|n]; [cbn in Hn; lia|]); apply Forall_cons in Hok as [[Hbr Hmax] Hok]; apply Forall_cons in Hks as [Hbk Hks];
    cbn [remove_loop];
    (destruct (load_spec c s m0 BLK base ks flg w wstart p (base + b / 128) Hc Hca Hw) as (m1 & dk1 & El & Hca1);
      [change (u32 (-1)) with (2 ^ 32 - 1); lia|]); rewrite El; cbn [negb Z.eqb];
    change (umem (searched s m1 dk1)) with m1;
    (assert (geometry m1 f base spb) as Hg1
      by (apply (geometry_ext m0); [intros a Ha; apply (ca_out _ _ _ _ _ _ _ _ _ Hca1); unfold apart in Hap; lia|done]));
    rewrite (ge_bps _ _ _ _ Hg1); change (512 / 4) with 128; cbn [Z.eqb];
    destruct (cached_word c m0 m1 dk1 BLK base ks b Hca1 ltac:(lia) Hbk) as [-> Hca2];
    set (m2 := st32 m1 (BLK + 4 * (b mod 128)) 0) in *;
    change (set_umem m2 (searched s m1 dk1)) with (searched s m2 dk1).
  - change (fat c base b = LAST) in Hch. rewrite Hch. change (LAST =? u32 EOF) with true. cbv iota.
    destruct (flush_cached c (searched s m2 dk1) m0 BLK base (b :: ks) (base + b / 128) p Hc Hca2) as (dk & Ef & Hd & Hcon).
    rewrite Ef. unfold ufree. change (uheap (set_udisk dk (searched s m2 dk1))) with (uheap s). rewrite Eh, Hfree. cbn [mbind outcome_bind].
    exists m2, dk, (b :: ks). split; [reflexivity|]. split; [done|]. split; [done|]. split.
    + intros k. rewrite !elem_of_cons, elem_of_nil. tauto.
    + intros a Ha. by apply (ca_out _ _ _ _ _ _ _ _ _ Hca2).
  - destruct Hch as (Ew & Hb' & Hch). rewrite Ew. rewrite (proj2 (Z.eqb_neq b' (u32 EOF)) Hb').
    pose proof Hok as [[Hb'r Hb'm] _]%Forall_cons.
    assert (geometry m2 f base spb) as Hg2
      by (apply (geometry_ext m0); [intros a Ha; apply (ca_out _ _ _ _ _ _ _ _ _ Hca2); unfold apart in Hap; lia|done]).
    change (umem (searched s m2 dk1)) with m2. rewrite (fat_sector_eq m2 f base spb b' Hg2) by lia. cbn [mbind outcome_bind].
    apply NoDup_cons in Hnd as [Hni Hnd].
    destruct (IH n b' (b :: ks) (base + b / 128) 1 (base + b / 128) (searched s m2 dk1) Hch Hnd) as (m & dk & ks' & E & Hd & Hcon & Hks' & Ho).
    + rewrite Forall_forall in Hks |- *. intros k Hk. apply not_elem_of_cons. split; [|by apply Hks]. intros ->. done.
    + done.
    + cbn in Hn |- *. lia.
    + exact Eh.
    + exact Hca2.
    + done.
    + exists m, dk, ks'. split; [exact E|]. split; [done|]. split; [done|]. split; [|done].
      intros k. rewrite Hks', !elem_of_cons. tauto.
Qed.

(** C26: [remove_blk] frees a chain: given the first block of a chain of distinct blocks it
    ends, returns 0, sets the words of exactly those blocks to 0 and changes no other byte of the
    device; its buffer goes back to the heap and the memory in use is as it was. *)
Theorem remove_blk_frees_chain n b l f p s B base spb :
  let c := contents (udisk s) in
  device_ok (udisk s) -> heap_ok (uheap s) B -> heap_room (uheap s) 8192 ->
  geometry (umem s) f base spb -> 0 <= base -> (forall i, 0 <= i < 52 -> live B (f + i)) ->
  chain_of (fat c base) (b :: l) -> NoDup (b :: l) -> Forall (block_ok base) (b :: l) -> (length (b :: l) <= n)%nat ->
  exists s', remove_blk n b f p s = Ret (0, s') /\ device_ok (udisk s') /\ heap_ok (uheap s') B /\
    (forall j, fat (contents (udisk s')) base j = if bool_decide (j ∈ b :: l) then 0 else fat c base j) /\
    (forall a, (forall k, k ∈ b :: l -> ~ 512 * base + 4 * k <= a < 512 * base + 4 * k + 4) -> contents (udisk s') a = c a) /\
    (forall a, live B a -> (umem s')⟦a⟧ = (umem s)⟦a⟧) /\ ufiles s' = ufiles s.
Proof.
  intros c Hd Hheap Hroom Hg Hb0 Hlive Hch Hnd Hok Hn.
  destruct (malloc_fresh _ _ 8192 Hheap ltac:(lia) Hroom) as (BLK & k & h & Em & Hk & _ & Hh & HN & Hdis).
  destruct (free_spec h _ BLK k Hh (lookup_insert_eq _ _ _)) as (h' & Ef & Hh'). rewrite delete_insert_id in Hh' by done.
  destruct (live_apart B BLK k f 52 ltac:(lia) Hdis Hlive ltac:(lia)) as [Hap|?]; [|lia].
  pose proof Hok as [[Hbr Hbm] _]%Forall_cons.
  unfold remove_blk, umalloc. rewrite Em. cbn [mbind outcome_bind]. set (s1 := set_uheap h s).
  change (umem s1) with (umem s). rewrite (fat_sector_eq _ f base spb b Hg) by lia. cbn [mbind outcome_bind].
  destruct (remove_loop_spec c (umem s) h h' f base spb BLK p) with (l := l) (n := n) (b := b) (ks := @nil Z)
    (flg := u32 (-1)) (w := 0) (wstart := base + b / 128) (s := s1) as (m & dk & ks' & E & Hd' & Hcon & Hks & Ho); try done.
  - intros a. by apply contents_byte.
  - unfold apart in *. lia.
  - apply Forall_forall. intros x _. apply not_elem_of_nil.
  - constructor; [done|by right| |done]. intros a. reflexivity.
  - eexists. split; [exact E|]. split; [done|]. split; [done|].
    assert (forall k, k ∈ ks' <-> k ∈ b :: l) as Hks'.
    { intros x. rewrite Hks. split; [intros [?|[]%elem_of_nil]; done|by left]. }
    split; [|split; [|split; [|done]]].
    + intros j. change (udisk _) with dk. rewrite (fat_cleared c _ base ks' j Hcon).
      by rewrite (bool_decide_ext (j ∈ ks') (j ∈ b :: l) (Hks' j)).
    + intros a Ha. change (udisk _) with dk. rewrite Hcon. unfold cleared.
      destruct (existsb (fun k0 => within a (512 * base + 4 * k0) 4) ks') eqn:Ex; [|done].
      apply existsb_exists in Ex as (x & Hx & Hw). apply list_elem_of_In, Hks' in Hx. apply Ha in Hx.
      destruct (within_spec a (512 * base + 4 * x) 4); done.
    + intros a Ha. apply (Ho a). pose proof (Hdis a Ha). lia.
Qed.
End remove_claims.

(** ** Names and entries *)

(** The directory entry at [a]: a file in use, its name padded with blanks. *)
Record entry_at (c : Z -> Z) (a : Z) (N : list Z) (attr blk size idx : Z) : Prop := {
  ea_name : cells c a 96 = entry_name N;
  ea_busy : c (a + 97) = 255;
  ea_attr : c (a + 98) = attr;
  ea_blk : word_of 4 c (a + 107) = blk;
  ea_size : word_of 4 c (a + 111) = size;
  ea_idx : word_of 4 c (a + 115) = idx
}.

Lemma entry_at_copy c c' a a' N attr blk size idx :
  (forall i, 0 <= i < 128 -> c' (a' + i) = c (a + i)) -> entry_at c a N attr blk size idx -> entry_at c' a' N attr blk size idx.
Proof.
  intros E [E1 E2 E3 E4 E5 E6]. constructor.
  - rewrite <- E1. apply cells_ext. intros i Hi. apply E. lia.
  - rewrite <- E2. apply E. lia.
  - rewrite <- E3. apply E. lia.
  - rewrite <- E4. apply word_of_ext. intros i Hi. rewrite <- !Z.add_assoc. apply E. lia.
  - rewrite <- E5. apply word_of_ext. intros i Hi. rewrite <- !Z.add_assoc. apply E. lia.
  - rewrite <- E6. apply word_of_ext. intros i Hi. rewrite <- !Z.add_assoc. apply E. lia.
Qed.

Section names.
Context (fuel : nat).
Implicit Types (m : mem) (N l : list Z).

Definition no_slash l : Prop := Forall (fun c => c <> 47) l.

(** A directory prefix: nothing, or up to a slash. *)
Definition dir_prefix l : Prop := l = [] \/ exists l', l = l' ++ [47].

Lemma entry_name_byte N o m d :
  chars N -> cells (rd m) d 96 = entry_name N -> 0 <= o < 96 -> 0 <= m⟦d + o⟧ < 256.
Proof.
  intros HcN Hn Ho. assert (cells (rd m) d 96 !! Z.to_nat o = Some m⟦d + o⟧) as El.
  { unfold cells. rewrite list_lookup_fmap, lookup_seq_lt by lia. cbn. do 3 f_equal. lia. }
  rewrite Hn in El. apply list_elem_of_lookup_2 in El. unfold entry_name in El. apply elem_of_app in El as [El|El].
  - unfold chars in HcN. rewrite Forall_forall in HcN. apply HcN in El. lia.
  - apply elem_of_replicate in El as [-> _]. lia.
Qed.

Lemma get_file_name_loop_end n m s r N :
  cstr m s N -> no_slash N -> (length N < n)%nat -> get_file_name_loop n m s r = Ret r.
Proof.
  revert n s r. induction N as [|x N IH]; intros n s r Hs Hno Hn; (destruct n as [|n]; [cbn in Hn; lia|]); cbn [get_file_name_loop].
  - apply cstr_end in Hs. cbn in Hs. rewrite Z.add_0_r in Hs. by rewrite Hs.
  - apply cstr_cons in Hs as (Hx & -> & Hs). apply Forall_cons in Hno as [Hx47 Hno].
    destruct (Z.eqb_spec x 0); [lia|]. destruct (Z.eqb_spec x 47); [done|]. apply IH; [done|done|cbn in Hn; lia].
Qed.

Lemma get_file_name_loop_spec n m s r l N :
  cstr m s (l ++ 47 :: N) -> no_slash N -> (length l + length N + 1 < n)%nat ->
  get_file_name_loop n m s r = Ret (s + zlen l + 1).
Proof.
  revert n s r. induction l as [|x l IH]; intros n s r Hs Hno Hn; (destruct n as [|n]; [cbn in Hn; lia|]); cbn [get_file_name_loop].
  - apply cstr_cons in Hs as (_ & -> & Hs). cbn [Z.eqb Pos.eqb]. rewrite (get_file_name_loop_end _ _ _ _ N) by (done || (cbn in Hn; lia)).
    f_equal. cbn. lia.
  - apply cstr_cons in Hs as (Hx & -> & Hs). destruct (Z.eqb_spec x 0); [lia|].
    rewrite IH by (done || (cbn in Hn; lia)). f_equal. cbn [length]. lia.
Qed.

Lemma get_file_name_spec m path l N :
  cstr m path (l ++ N) -> dir_prefix l -> no_slash N -> (length l + length N < fuel)%nat ->
  get_file_name fuel m path = Ret (path + zlen l).
Proof.
  intros Hs [->|[l' ->]] Hno Hf; unfold get_file_name.
  - rewrite (get_file_name_loop_end _ _ _ _ N) by (done || (cbn in Hf; lia)). f_equal. cbn. lia.
  - rewrite <- app_assoc in Hs. rewrite length_app in *. cbn in Hf.
    rewrite (get_file_name_loop_spec _ _ _ _ l' N) by (done || lia). f_equal. cbn. lia.
Qed.

Lemma rd_blank_name m dir a :
  (blank_name m dir)⟦a⟧ = if within a dir 96 then (if m⟦a⟧ =? 0 then 32 else m⟦a⟧) else m⟦a⟧.
Proof.
  unfold blank_name. upto_with (fun i m' => forall a, m'⟦a⟧ = if within a dir i then (if m⟦a⟧ =? 0 then 32 else m⟦a⟧) else m⟦a⟧).
  - lia.
  - intros b. case_within; [lia|done|done].
  - intros i m' Hi E b. pose proof (E (dir + i)) as Ei. destruct (within_spec (dir + i) dir i); [lia|].
    destruct (Z.eqb_spec m'⟦dir + i⟧ 0) as [E0|E0].
    + rewrite rd_wr, E. destruct (Z.eqb_spec b (dir + i)) as [->|]; [|by case_within; try lia].
      destruct (within_spec (dir + i) dir (i + 1)); [|lia]. rewrite <- Ei, E0. reflexivity.
    + rewrite E. destruct (decide (b = dir + i)) as [->|]; [|by case_within; try lia].
      destruct (within_spec (dir + i) dir i); [lia|]. destruct (within_spec (dir + i) dir (i + 1)); [|lia].
      rewrite <- Ei. by destruct (Z.eqb_spec m'⟦dir + i⟧ 0).
  - intros m' E. apply E.
Qed.

(** The name of an entry at [d], of which [z] cells are zeroed: copied in and padded. *)
Lemma new_entry_spec m d z path l N :
  96 <= z <= 128 ->
  cstr m path (l ++ N) -> dir_prefix l -> no_slash N -> (length N <= 96)%nat -> (length l + length N < fuel)%nat ->
  clear_of path (l ++ N) d 128 ->
  exists m', (n ← get_file_name fuel (memset m d 0 z) path; m ← strcpy fuel (memset m d 0 z) d n; Ret (blank_name m d)) = Ret m' /\
    cells (rd m') d 96 = entry_name N /\ (forall i, 96 <= i < 128 -> m'⟦d + i⟧ = if (i <? z) || (i =? zlen N) then 0 else m⟦d + i⟧) /\
    forall a, ~ d <= a < d + 128 -> m'⟦a⟧ = m⟦a⟧.
Proof.
  intros Hz Hs Hl Hno HN Hf Hcl. set (m1 := memset m d 0 z).
  assert (forall a, m1⟦a⟧ = if within a d z then 0 else m⟦a⟧) as E1 by (intros a; apply rd_memset).
  unfold clear_of in Hcl. rewrite length_app in Hcl.
  assert (cstr m1 path (l ++ N)) as Hs1.
  { eapply cstr_ext; [|exact Hs]. intros b Hb. rewrite length_app in Hb. rewrite E1, not_within; [done|lia]. }
  rewrite (get_file_name_spec m1 path l N Hs1 Hl Hno Hf). cbn [mbind outcome_bind].
  apply cstr_app in Hs1 as (_ & _ & HsN).
  destruct (strcpy_total fuel m1 d (path + zlen l) N HsN ltac:(lia) ltac:(lia)) as (m2 & E2 & Hm2 & Hout).
  rewrite E2. cbn [mbind outcome_bind]. eexists. split; [reflexivity|].
  assert (forall a, ~ d <= a <= d + zlen N -> m2⟦a⟧ = m1⟦a⟧) as Ho by (intros a Ha; apply Hout, not_within; lia).
  destruct Hm2 as (HcN & HbN & H0N). split; [|split].
  - apply list_eq. intros i. unfold cells. rewrite list_lookup_fmap. destruct (decide (i < 96)%nat) as [Hi|Hi].
    + rewrite lookup_seq_lt by done. cbn [fmap option_fmap option_map]. rewrite rd_blank_name, Nat.add_0_l.
      destruct (within_spec (d + Z.of_nat i) d 96); [|lia]. unfold entry_name.
      destruct (decide (i < length N)%nat) as [HiN|HiN].
      * rewrite lookup_app_l by done. destruct (lookup_lt_is_Some_2 N i HiN) as [x Hx]. rewrite Hx.
        rewrite (bytes_at_nth _ _ _ _ _ HbN Hx).
        assert (0 < x < 256) by (unfold chars in HcN; rewrite Forall_forall in HcN; apply HcN; by eapply list_elem_of_lookup_2).
        destruct (Z.eqb_spec x 0); [lia|done].
      * rewrite lookup_app_r by lia. rewrite lookup_replicate_2 by lia.
        assert (m2⟦d + Z.of_nat i⟧ = 0) as ->; [|done].
        destruct (decide (i = length N)) as [->|]; [done|]. rewrite Ho, E1 by lia. case_within; [done|lia].
    + rewrite lookup_ge_None_2 by (rewrite length_seq; lia). symmetry. apply lookup_ge_None_2.
      unfold entry_name. rewrite length_app, length_replicate. lia.
  - intros i Hi. rewrite rd_blank_name, not_within by lia.
    destruct (Z.eqb_spec i (zlen N)) as [->|]; [by rewrite orb_true_r|]. rewrite orb_false_r, Ho, E1 by lia.
    destruct (Z.ltb_spec i z); case_within; (done || lia).
  - intros a Ha. rewrite rd_blank_name, not_within by lia. rewrite Ho, E1 by lia. by rewrite not_within by lia.
Qed.

(** The scan for a name. *)
Lemma find_busy_spec (P : Z -> bool) m root filename N :
  cstr m filename N -> (length N <= 96)%nat ->
  let hit i := P (root + i * 128) = true /\ cells (rd m) (root + i * 128) 96 = entry_name N in
  match find_busy P m root filename with
  | Some i => 0 <= i < 64 /\ hit i /\ forall j, 0 <= j < i -> ~ hit j
  | None => forall j, 0 <= j < 64 -> ~ hit j
  end.
Proof.
  intros Hs HN hit. unfold find_busy.
  break_with (fun i (_ : unit) => forall j, 0 <= j < i -> ~ hit j) (fun i r => r = i /\ hit i /\ forall j, 0 <= j < i -> ~ hit j).
  - intros; lia.
  - intros i [] Hi Hlow. cbv zeta. destruct (P (root + i * 128)) eqn:EP.
    + rewrite (filename_cmp_spec _ _ _ N) by done.
      destruct (decide (bytes m (root + i * 128) 96 = entry_name N)) as [E|E].
      * rewrite bool_decide_eq_true_2 by done. done.
      * rewrite bool_decide_eq_false_2 by done. intros j Hj. destruct (decide (j = i)) as [->|]; [by intros [_ ?]|]. apply Hlow. lia.
    + intros j Hj. destruct (decide (j = i)) as [->|]; [by intros [? _]; congruence|]. apply Hlow. lia.
  - intros _ Hall. exact Hall.
  - intros i r Hi (-> & E & Hlow). split; [lia|]. done.
Qed.

Lemma find_free_spec m root :
  match find_free m root with
  | Some i => 0 <= i < 64 /\ m⟦root + i * 128 + 97⟧ = 0 /\ forall j, 0 <= j < i -> m⟦root + j * 128 + 97⟧ <> 0
  | None => forall j, 0 <= j < 64 -> m⟦root + j * 128 + 97⟧ <> 0
  end.
Proof.
  unfold find_free. break_with (fun i (_ : unit) => forall j, 0 <= j < i -> m⟦root + j * 128 + 97⟧ <> 0)
    (fun i r => r = i /\ m⟦root + i * 128 + 97⟧ = 0 /\ forall j, 0 <= j < i -> m⟦root + j * 128 + 97⟧ <> 0).
  - intros; lia.
  - intros i [] Hi Hlow. unfold is_busy, de_busy. destruct (Z.eqb_spec m⟦root + i * 128 + 97⟧ 0) as [E|E]; cbn [negb].
    + done.
    + intros j Hj. destruct (decide (j = i)) as [->|]; [done|]. apply Hlow. lia.
  - intros _ Hall. exact Hall.
  - intros i r Hi (-> & E & Hlow). split; [lia|]. done.
Qed.
End names.

(** ** Directory blocks of 16 sectors *)

(** The position on the device of the directory block [rb]. *)
Definition dir_pos (base rb : Z) : Z := 512 * (rb * 16 + base).

Section directories.
Context {H D : Type} `{AllocatorLaws H} `{BlockDeviceLaws D}.
Context (fuel : nat) (_BLK_ : Z).
Implicit Types (s : ufs H D) (p : part_t) (m : mem) (N l : list Z).

Lemma blk_sector_eq m f base rb :
  geometry m f base 16 -> 0 <= base -> 0 <= rb -> rb * 16 + base < 2 ^ 32 -> blk_sector m f rb = rb * 16 + base.
Proof. intros [E1 _ E3] Hb Hr Hm. unfold blk_sector. rewrite E1, E3. apply u32_small. lia. Qed.

(** A zeroed buffer from the heap, and a directory block read into it. *)
Lemma load_block s B st p :
  device_ok (udisk s) -> heap_ok (uheap s) B -> heap_room (uheap s) 8192 ->
  exists root h m0 m, uzalloc 8192 s = Ret (root, s |> set_uheap h |> set_umem m0) /\
    read_sector (p_dv_num p) 16 st root (s |> set_uheap h |> set_umem m0) = (0, s |> set_uheap h |> set_umem m) /\
    (forall i, 0 <= i < 8192 -> m⟦root + i⟧ = contents (udisk s) (512 * st + i)) /\
    (forall a, live B a -> m0⟦a⟧ = (umem s)⟦a⟧ /\ m⟦a⟧ = (umem s)⟦a⟧) /\
    (forall a, live B a -> ~ root <= a < root + 8192) /\
    exists h', free root h = Ret h' /\ heap_ok h' B.
Proof.
  intros Hd Hheap Hroom.
  destruct (malloc_fresh _ _ 8192 Hheap ltac:(lia) Hroom) as (root & k & h & Em & Hk & _ & Hh & HN & Hdis).
  destruct (free_spec h _ root k Hh (lookup_insert_eq _ _ _)) as (h' & Ef & Hh'). rewrite delete_insert_id in Hh' by done.
  set (m0 := memset (umem s) root 0 8192). set (s1 := s |> set_uheap h |> set_umem m0).
  destruct (read_sector_ok (p_dv_num p) 16 st root s1 Hd) as (m & Er & Hin & Hout).
  exists root, h, m0, m. split; [|split; [|split; [|split; [|split]]]].
  - unfold uzalloc, umalloc. rewrite Em. reflexivity.
  - exact Er.
  - exact Hin.
  - intros a Ha. pose proof (Hdis a Ha). assert (m0⟦a⟧ = (umem s)⟦a⟧) as E by (unfold m0; rewrite rd_memset, not_within; [done|lia]).
    split; [done|]. rewrite Hout by lia. exact E.
  - intros a Ha. pose proof (Hdis a Ha). lia.
  - by exists h'.
Qed.

Lemma live_cstr B m m' a l :
  (forall b, live B b -> m'⟦b⟧ = m⟦b⟧) -> live_range B a (zlen l + 1) -> cstr m a l -> cstr m' a l.
Proof. intros E Hl. apply cstr_ext. intros b Hb. apply E. replace b with (a + (b - a)) by lia. apply Hl. lia. Qed.

Lemma live_geometry B m m' f base spb :
  (forall b, live B b -> m'⟦b⟧ = m⟦b⟧) -> live_range B f 52 -> geometry m f base spb -> geometry m' f base spb.
Proof. intros E Hl. apply geometry_ext. intros b Hb. apply E. replace b with (f + (b - f)) by lia. apply Hl. lia. Qed.

(** The entry [i] of the directory block at [pos] is in use under the name [N]. *)
Definition named (c : Z -> Z) (pos i : Z) N : Prop :=
  c (pos + i * 128 + 97) <> 0 /\ cells c (pos + i * 128) 96 = entry_name N.

Lemma read_directory_entry_spec d f p filename s B base rb N i :
  let c := contents (udisk s) in let pos := dir_pos base rb in
  device_ok (udisk s) -> heap_ok (uheap s) B -> heap_room (uheap s) 8192 ->
  geometry (umem s) f base 16 -> sb_root_blk (umem s) f = rb -> 0 <= base -> 0 <= rb -> rb * 16 + base < 2 ^ 32 ->
  live_range B f 52 -> live_range B d 128 -> live_range B filename (zlen N + 1) ->
  cstr (umem s) filename N -> (length N <= 96)%nat ->
  0 <= i < 64 -> named c pos i N -> (forall j, 0 <= j < i -> ~ named c pos j N) ->
  exists s', read_directory_entry d f p filename s = Ret (0, s') /\ udisk s' = udisk s /\ heap_ok (uheap s') B /\
    (forall o, 0 <= o < 128 -> (umem s')⟦d + o⟧ = c (pos + i * 128 + o)) /\
    (forall a, live B a -> ~ d <= a < d + 128 -> (umem s')⟦a⟧ = (umem s)⟦a⟧) /\ ufiles s' = ufiles s.
Proof.
  intros c pos Hd Hheap Hroom Hg Hrb Hb0 Hr0 Hmax Hlf Hld Hln Hname HN Hi Hnamed Hfirst.
  destruct (load_block s B (rb * 16 + base) p Hd Hheap Hroom) as (root & h & m0 & m & Ez & Er & Hin & Hlive & Hfresh & h' & Ef & Hh').
  unfold read_directory_entry. rewrite Hrb, (blk_sector_eq _ _ base) by done. rewrite Ez. cbn [mbind outcome_bind].
  set (s1 := s |> set_uheap h |> set_umem m0) in *. set (s2 := s |> set_uheap h |> set_umem m) in *.
  change (umem s1) with m0. rewrite (ge_spb m0 f base 16) by (eapply (live_geometry B); [|done|exact Hg]; intros b Hb; by apply Hlive).
  rewrite Er. cbn [negb Z.eqb]. change (umem s2) with m.
  assert (forall j, 0 <= j < 64 -> named c pos j N <->
    is_busy m (root + j * 128) = true /\ cells (rd m) (root + j * 128) 96 = entry_name N) as Hnm.
  { intros j Hj. unfold named, is_busy, de_busy. replace (root + j * 128 + 97) with (root + (j * 128 + 97)) by lia.
    rewrite Hin by lia. change (512 * (rb * 16 + base)) with pos. replace (pos + (j * 128 + 97)) with (pos + j * 128 + 97) by lia.
    rewrite negb_true_iff, Z.eqb_neq. rewrite (cells_ext c (rd m) (pos + j * 128)); [done|].
    intros o Ho. rewrite <- !Z.add_assoc. apply Hin. lia. }
  assert (cstr m filename N) as Hname1 by (eapply (live_cstr B); [|done|exact Hname]; intros b Hb; by apply Hlive).
  pose proof (find_busy_spec (is_busy m) m root filename N Hname1 HN) as Hfb.
  destruct (find_busy (is_busy m) m root filename) as [i'|]; [|destruct (Hfb i Hi); by apply Hnm].
  destruct Hfb as (Hi' & Hhit & Hlow). assert (i' = i) as ->.
  { destruct (Z.lt_trichotomy i' i) as [Hlt|[->|Hlt]]; [|done|].
    - destruct (Hfirst i'); [lia|]. by apply Hnm.
    - destruct (Hlow i); [lia|]. by apply Hnm. }
  pose proof (fresh_apart B root 8192 d 128 Hfresh Hld ltac:(lia) ltac:(lia)) as Hap. unfold apart in Hap.
  set (m1 := memcpy m d (root + i * 128) 128).
  assert (forall a, m1⟦a⟧ = if within a d 128 then m⟦root + i * 128 + (a - d)⟧ else m⟦a⟧) as Em1 by (intros a; apply rd_memcpy; lia).
  unfold ufree. change (uheap (set_umem m1 s2)) with h. rewrite Ef. cbn [mbind outcome_bind].
  eexists. split; [reflexivity|]. split; [done|]. split; [exact Hh'|]. split; [|split; [|done]].
  - intros o Ho. change (m1⟦d + o⟧ = c (pos + i * 128 + o)). rewrite Em1. destruct (within_spec (d + o) d 128); [|lia].
    replace (root + i * 128 + (d + o - d)) with (root + (i * 128 + o)) by lia. rewrite Hin by lia.
    unfold c, pos, dir_pos. f_equal. lia.
  - intros a Ha Hda. change (m1⟦a⟧ = (umem s)⟦a⟧). rewrite Em1, not_within by lia. by apply Hlive.
Qed.

Lemma fill_entry_out m d i attr a : ~ d + 97 <= a < d + 119 -> (fill_entry m d i attr)⟦a⟧ = m⟦a⟧.
Proof. intros Ha. unfold fill_entry. by rewrite !rd_wr_ne, rd_st_out by lia. Qed.

Lemma word_of_zero n c a : (forall i, 0 <= i < Z.of_nat n -> c (a + i) = 0) -> word_of n c a = 0.
Proof.
  revert a. induction n as [|n IH]; intros a E; cbn; [done|]. rewrite IH.
  - pose proof (E 0 ltac:(lia)) as E0. rewrite Z.add_0_r in E0. lia.
  - intros i Hi. rewrite <- Z.add_assoc. apply E. lia.
Qed.

(** The entry once its block is known: [m] is prepared, [m'] agrees with it on the filled entry. *)
Lemma entry_complete m m' d N i attr blk :
  cells (rd m) d 96 = entry_name N -> (forall o, 96 <= o < 128 -> m⟦d + o⟧ = 0) -> 0 <= i < 64 -> 0 <= attr < 256 -> 0 <= blk < 2 ^ 32 ->
  (forall a, d <= a < d + 128 -> m'⟦a⟧ = (fill_entry m d i attr)⟦a⟧) ->
  entry_at (rd (st32 m' (d + 107) blk)) d N attr blk 0 i.
Proof.
  intros Hn Hz Hi Ha Hblk E. set (m1 := st32 m' (d + 107) blk).
  assert (forall a, d <= a < d + 107 \/ d + 111 <= a < d + 128 -> m1⟦a⟧ = (fill_entry m d i attr)⟦a⟧) as E1.
  { intros a Hr. unfold m1. rewrite rd_st_out by lia. apply E. lia. }
  constructor.
  - rewrite <- Hn. apply cells_ext. intros o Ho. rewrite E1 by lia. apply fill_entry_out. lia.
  - rewrite E1 by lia. unfold fill_entry. rewrite rd_wr_ne, rd_wr_eq by lia. reflexivity.
  - rewrite E1 by lia. unfold fill_entry. rewrite rd_wr_eq. by apply u8_small.
  - rewrite <- ld_word_of. unfold m1. rewrite ld_st_eq. by apply Z.mod_small.
  - apply word_of_zero. intros o Ho. rewrite E1 by lia. rewrite <- Z.add_assoc. unfold fill_entry.
    rewrite !rd_wr_ne, rd_st_out by lia. apply Hz. lia.
  - rewrite <- ld_word_of. transitivity (ld32 (fill_entry m d i attr) (d + 115)).
    + apply ld_ext. intros b Hb. apply E1. lia.
    + unfold fill_entry. rewrite !ld_wr_ne by lia. rewrite ld_st_eq. apply Z.mod_small. change (256 ^ Z.of_nat 4) with (2 ^ 32). lia.
Qed.

Lemma bytes_in_strcpy_loop n m m' dst src e : bytes_in m -> strcpy_loop n m dst src = Ret (m', e) -> bytes_in m'.
Proof.
  revert m dst src. induction n as [|n IH]; intros m dst src Hm E; [done|]. cbn in E.
  destruct (m⟦src⟧ =? 0); [by injection E as <- _|]. eapply IH; [|exact E]. by apply bytes_in_wr.
Qed.

(** The directory on the device before the call, and what is known of it. *)
Record free_slot (c : Z -> Z) (base rb i : Z) : Prop := {
  fs_range : 0 <= i < 64;
  fs_free : c (dir_pos base rb + i * 128 + 97) = 0;
  fs_first : forall j, 0 <= j < i -> c (dir_pos base rb + j * 128 + 97) <> 0
}.

(** The lowest free block of a table of [n] words. *)
Record free_block (c : Z -> Z) (base n k : Z) : Prop := {
  fb_range : 0 <= k < n;
  fb_free : fat c base k = 0;
  fb_first : forall j, 0 <= j < k -> fat c base j <> 0
}.

Lemma create_entry_spec d f p attr s B base rb n N i k :
  let c := contents (udisk s) in
  device_ok (udisk s) -> heap_ok (uheap s) B -> heap_room (uheap s) 8192 ->
  geometry (umem s) f base 16 -> sb_root_blk (umem s) f = rb -> sb_num_of_blk (umem s) f = n ->
  0 <= base -> 0 <= rb -> rb * 16 + base < 2 ^ 32 -> n < 2 ^ 32 -> base + 4 * (n / 512) + 4 < 2 ^ 32 ->
  512 * base + 4 * n <= dir_pos base rb -> 0 <= attr < 256 -> Z.land attr 0x40 = 0 ->
  live_range B f 52 -> live_range B d 128 -> live_range B _BLK_ 2048 ->
  apart f 52 _BLK_ 2048 -> apart d 128 _BLK_ 2048 -> apart f 52 d 128 ->
  cells (rd (umem s)) d 96 = entry_name N -> (forall o, 96 <= o < 128 -> (umem s)⟦d + o⟧ = 0) ->
  (forall o, 0 <= o < 96 -> 0 <= (umem s)⟦d + o⟧ < 256) ->
  free_slot c base rb i -> free_block c base n k ->
  exists s', create_entry _BLK_ d f p attr s = Ret (0, s') /\ device_ok (udisk s') /\ heap_ok (uheap s') B /\
    entry_at (contents (udisk s')) (dir_pos base rb + i * 128) N attr k 0 i /\
    (forall a, ~ dir_pos base rb + i * 128 <= a < dir_pos base rb + i * 128 + 128 ->
       contents (udisk s') a = set_word c base k 255 a) /\
    (forall a, live B a -> ~ d <= a < d + 128 -> ~ _BLK_ <= a < _BLK_ + 2048 -> (umem s')⟦a⟧ = (umem s)⟦a⟧) /\
    ufiles s' = ufiles s.
Proof.
  intros c Hd Hheap Hroom Hg Hrb Hn Hb0 Hr0 Hmax Hn32 Hnm Hpos Hattr Ha40 Hlf Hld Hlb Afb Adb Afd Hname Hz Hbyte Hslot Hblk.
  assert (0 <= n) as Hn0 by (destruct Hblk as [? _ _]; lia).
  destruct (load_block s B (rb * 16 + base) p Hd Hheap Hroom) as (root & h & m0 & m & Ez & Er & Hin & Hlive & Hfresh & h' & Ef & Hh').
  unfold create_entry. rewrite Hrb, (blk_sector_eq _ _ base) by done. rewrite Ez. cbn [mbind outcome_bind].
  set (s1 := s |> set_uheap h |> set_umem m0) in *. set (s2 := s |> set_uheap h |> set_umem m) in *.
  change (umem s1) with m0. rewrite (ge_spb m0 f base 16) by (eapply (live_geometry B); [|done|exact Hg]; intros b Hb; by apply Hlive).
  rewrite Er. cbn [negb Z.eqb]. change (umem s2) with m.
  pose proof (find_free_spec m root) as Hff.
  assert (forall j, 0 <= j < 64 -> m⟦root + j * 128 + 97⟧ = c (dir_pos base rb + j * 128 + 97)) as Hbusy.
  { intros j Hj. rewrite <- !Z.add_assoc. rewrite Hin by lia. done. }
  destruct Hslot as [Hi Hfree Hfirst].
  assert (find_free m root = Some i) as ->.
  { destruct (find_free m root) as [i'|]; [|destruct (Hff i Hi); by rewrite Hbusy].
    destruct Hff as (Hi' & Hzero & Hbelow). f_equal. destruct (Z.lt_trichotomy i' i) as [Hlt|[->|Hlt]]; [|done|].
    - destruct (Hfirst i'); [lia|]. by rewrite <- Hbusy.
    - destruct (Hbelow i); [lia|]. by rewrite Hbusy. }
  set (m3 := fill_entry m d i attr).
  assert (forall a, live B a -> ~ d <= a < d + 128 -> m3⟦a⟧ = (umem s)⟦a⟧) as Hm3.
  { intros a Ha Hda. unfold m3. rewrite fill_entry_out by lia. by apply Hlive. }
  set (s3 := set_umem m3 s2).
  assert (forall a, f <= a < f + 52 -> m3⟦a⟧ = (umem s)⟦a⟧) as Hm3f.
  { intros a Ha. apply Hm3; [replace a with (f + (a - f)) by lia; apply Hlf; lia|unfold apart in Afd; lia]. }
  assert (geometry m3 f base 16) as Hg3 by (by apply (geometry_ext (umem s))).
  assert (sb_num_of_blk m3 f = n) as Hn3 by (rewrite <- Hn; apply ld_ext; intros b Hb; apply Hm3f; lia).
  destruct (search_blk_null_spec _BLK_ p f s3) as (m4 & d4 & Hd4 & Hm4 & Hres);
    change (umem s3) with m3 in *; change (udisk s3) with (udisk s) in *; rewrite ?(ge_base _ _ _ _ Hg3), ?Hn3 in *; try done.
  fold c in Hres. destruct Hblk as [Hk Hkf Hkl].
  destruct Hres as [(k' & Hk' & Hfree' & Hlow' & -> & Hc4)|(Hnone & _)]; [|by destruct (Hnone k)].
  assert (k' = k) as ->.
  { destruct (Z.lt_trichotomy k' k) as [Hlt|[->|Hlt]]; [|done|].
    - destruct (Hkl k'); [lia|done].
    - destruct (Hlow' k); [lia|done]. }
  rewrite (proj2 (Z.eqb_neq k (u32 (-1)))) by (change (u32 (-1)) with (2 ^ 32 - 1); lia). rewrite Ha40. cbn [Z.eqb negb].
  change (umem (searched s3 m4 d4)) with m4. set (m5 := st32 m4 (d + 107) k).
  change (umem (set_umem m5 ?x)) with m5.
  pose proof (fresh_apart B root 8192 d 128 Hfresh Hld ltac:(lia) ltac:(lia)) as Adr.
  pose proof (fresh_apart B root 8192 _BLK_ 2048 Hfresh Hlb ltac:(lia) ltac:(lia)) as Abr.
  pose proof (fresh_apart B root 8192 f 52 Hfresh Hlf ltac:(lia) ltac:(lia)) as Afr.
  unfold apart in *.
  assert (forall a, d <= a < d + 128 -> m4⟦a⟧ = m3⟦a⟧) as Hm4d by (intros a Ha; apply Hm4; lia).
  assert (forall a, d <= a < d + 128 -> m⟦a⟧ = (umem s)⟦a⟧) as Hmd.
  { intros a Ha. apply Hlive. replace a with (d + (a - d)) by lia. apply Hld. lia. }
  assert (entry_at (rd m5) d N attr k 0 i) as Hent.
  { apply (entry_complete m m4); try done; try lia.
    - rewrite <- Hname. apply cells_ext. intros o Ho. apply Hmd. lia.
    - intros o Ho. rewrite Hmd by lia. by apply Hz. }
  assert (forall o, 0 <= o < 128 -> 0 <= m5⟦d + o⟧ < 256) as Hbd.
  { intros o Ho. unfold m5. destruct (decide (107 <= o < 111)).
    - replace (d + o) with (d + 107 + (o - 107)) by lia. rewrite rd_st_in by lia. apply Z.mod_pos_bound. lia.
    - rewrite rd_st_out by lia. rewrite Hm4d by lia. unfold m3, fill_entry. rewrite !rd_wr.
      destruct (Z.eqb_spec (d + o) (d + 98)); [apply u8_range|]. destruct (Z.eqb_spec (d + o) (d + 97)); [apply u8_range|].
      destruct (decide (115 <= o < 119)).
      + replace (d + o) with (d + 115 + (o - 115)) by lia. rewrite rd_st_in by lia. apply Z.mod_pos_bound. lia.
      + rewrite rd_st_out, Hmd by lia. destruct (decide (o < 96)); [apply Hbyte; lia|]. rewrite Hz by lia. lia. }
  assert (forall a, (memcpy m5 (root + i * 128) d 128)⟦a⟧ =
    if within a (root + i * 128) 128 then m5⟦d + (a - (root + i * 128))⟧ else m5⟦a⟧) as Em6 by (intros a; apply rd_memcpy; lia).
  set (m6 := memcpy m5 (root + i * 128) d 128) in *. clearbody m6. set (s6 := set_umem m6 (set_umem m5 (searched s3 m4 d4))).
  assert (forall o, 0 <= o < 8192 -> ~ i * 128 <= o < i * 128 + 128 -> m6⟦root + o⟧ = c (dir_pos base rb + o)) as Hroot.
  { intros o Ho Hno. rewrite Em6, not_within by lia. unfold m5. rewrite rd_st_out, Hm4 by lia. unfold m3. rewrite fill_entry_out by lia. by apply Hin. }
  change (umem (set_umem m6 _)) with m6.
  change (umem s6) with m6.   rewrite (ge_spb m6 f base 16).
  2:{ apply (geometry_ext m3); [|done]. intros a Ha. rewrite Em6, not_within by lia. unfold m5. rewrite rd_st_out by lia. apply Hm4. lia. }
  destruct (write_sector_ok (p_dv_num p) 16 (rb * 16 + base) root s6 Hd4) as (d6 & Ew & Hd6 & Hc6).
  { intros o Ho. change (umem s6) with m6. destruct (decide (i * 128 <= o < i * 128 + 128)).
    - rewrite Em6. case_within; [|lia]. replace (d + (root + o - (root + i * 128))) with (d + (o - i * 128)) by lia. apply Hbd. lia.
    - rewrite Hroot by lia. by apply contents_byte. }
  fold s6. rewrite Ew. unfold ufree. change (uheap (set_udisk d6 s6)) with h. rewrite Ef. cbn [mbind outcome_bind].
  assert (forall a, contents d6 a = if within a (dir_pos base rb) 8192 then m6⟦root + (a - dir_pos base rb)⟧ else contents d4 a)
    as Hc7.
  { assert (umem s6 = m6) as Eu by reflexivity. assert (udisk s6 = d4) as Ed by reflexivity.
    intros a. rewrite Hc6, Eu, Ed. reflexivity. }
  eexists. split; [reflexivity|]. split; [exact Hd6|]. split; [exact Hh'|]. change (udisk (set_uheap h' (set_udisk d6 s6))) with d6.
  split; [|split; [|split; [|done]]].
  - apply (entry_at_copy (rd m5) _ d); [|exact Hent]. intros o Ho. rewrite Hc7. destruct (within_spec (dir_pos base rb + i * 128 + o) (dir_pos base rb) 8192); [|lia].
    rewrite Em6. case_within; [|lia]. f_equal. lia.
  - intros a Ha. rewrite Hc7. destruct (within_spec a (dir_pos base rb) 8192) as [Hw|Hw]; [|by rewrite Hc4].
    rewrite Hroot by lia. unfold set_word. rewrite not_within by lia. f_equal. lia.
  - intros a Ha Hda Hba. change (m6⟦a⟧ = (umem s)⟦a⟧). pose proof (Hfresh a Ha). rewrite Em6, not_within by lia.
    unfold m5. rewrite rd_st_out by lia. rewrite Hm4 by done. by apply Hm3.
Qed.
End directories.

Section create_claims.
Context {H D : Type} `{AllocatorLaws H} `{BlockDeviceLaws D}.
Context (fuel : nat) (_BLK_ : Z).
Implicit Types (s : ufs H D) (p : part_t) (N l : list Z).

(** A file system in memory: its super block at [f], with blocks of 8 KiB, a table of [n] words
    in front of the directory block [rb], a device in order and a heap with the live blocks [B]. *)
Record mounted s (B : gmap Z Z) (f base rb n : Z) : Prop := {
  mo_device : device_ok (udisk s);
  mo_heap : heap_ok (uheap s) B;
  mo_room : heap_room (uheap s) 8192;
  mo_geometry : geometry (umem s) f base 16;
  mo_root : sb_root_blk (umem s) f = rb;
  mo_blocks : sb_num_of_blk (umem s) f = n;
  mo_base : 0 <= base;
  mo_rb : 0 <= rb /\ rb * 16 + base < 2 ^ 32;
  mo_n : n < 2 ^ 32 /\ base + 4 * (n / 512) + 4 < 2 ^ 32;
  mo_table : 512 * base + 4 * n <= dir_pos base rb;
  mo_live : live_range B f 52 /\ live_range B _BLK_ 2048;
  mo_apart : apart f 52 _BLK_ 2048
}.

(** C25: a file that was created is found: in a directory with a free entry, on a device
    with a free block, [create_file] takes the first free entry and the lowest free block, writes the
    name padded with blanks, the attribute, the block and a size of 0, marks the block as the last of
    its chain and changes nothing else on the device; [read_directory_entry] on the name then returns
    that entry, unless an earlier entry has the same name. *)
Theorem create_then_find d f p path attr filename s B base rb n l N i k :
  let c := contents (udisk s) in let pos := dir_pos base rb in
  mounted s B f base rb n -> free_slot c base rb i -> free_block c base n k ->
  (forall j, 0 <= j < i -> ~ named c pos j N) ->
  cstr (umem s) path (l ++ N) -> dir_prefix l -> no_slash N -> (length N <= 96)%nat -> (length l + length N < fuel)%nat ->
  clear_of path (l ++ N) d 128 -> live_range B d 128 -> apart d 128 _BLK_ 2048 -> apart f 52 d 128 ->
  cstr (umem s) filename N -> live_range B filename (zlen N + 1) ->
  apart filename (zlen N + 1) d 128 -> apart filename (zlen N + 1) _BLK_ 2048 ->
  0 <= attr < 256 -> Z.land attr 0x40 = 0 ->
  exists s1, create_file fuel _BLK_ d f p path attr s = Ret (0, s1) /\ heap_ok (uheap s1) B /\
    entry_at (contents (udisk s1)) (pos + i * 128) N attr k 0 i /\
    (forall a, ~ pos + i * 128 <= a < pos + i * 128 + 128 -> contents (udisk s1) a = set_word c base k 255 a) /\
    (heap_room (uheap s1) 8192 ->
     exists s2, read_directory_entry d f p filename s1 = Ret (0, s2) /\
       entry_at (rd (umem s2)) d N attr k 0 i /\ udisk s2 = udisk s1 /\ heap_ok (uheap s2) B).
Proof.
  intros c pos [Hd Hheap Hroom Hg Hrb Hn Hb0 [Hr0 Hmax] [Hn32 Hnm] Hpos [Hlf Hlb] Afb] Hslot Hblk Hnew
    Hpath Hl Hno HN Hfu Hcl Hld Adb Afd Hname Hln Afd2 Afb2 Hattr Ha40.
  destruct (new_entry_spec fuel (umem s) d 128 path l N ltac:(lia) Hpath Hl Hno HN Hfu Hcl) as (m1 & E1 & Hn1 & Hz1 & Ho1).
  set (s0 := set_umem m1 s).
  assert (create_file fuel _BLK_ d f p path attr s = create_entry _BLK_ d f p attr s0) as Ec.
  { unfold create_file. destruct (get_file_name fuel (memset (umem s) d 0 128) path) as [a| | | |]; try discriminate E1.
    cbn [mbind outcome_bind] in E1 |- *. destruct (strcpy fuel (memset (umem s) d 0 128) d a) as [x| | | |]; try discriminate E1.
    cbn [mbind outcome_bind] in E1 |- *. revert E1. generalize (blank_name x d). by intros y [= ->]. }
  assert (forall a, f <= a < f + 52 -> m1⟦a⟧ = (umem s)⟦a⟧) as Hf1 by (intros a Ha; apply Ho1; unfold apart in Afd; lia).
  assert (chars N) as HcN by (apply cstr_chars in Hname; done).
  assert (forall o, 96 <= o < 128 -> m1⟦d + o⟧ = 0) as Hz0.
  { intros o Ho. rewrite Hz1 by done. destruct (Z.ltb_spec o 128); [done|lia]. }
  destruct (create_entry_spec _BLK_ d f p attr s0 B base rb n N i k) as (s1 & E & Hd1 & Hh1 & Hent & Hcon & Hm1 & _);
    try done; change (umem s0) with m1.
  - by apply (geometry_ext (umem s)).
  - rewrite <- Hrb. apply ld_ext. intros b Hb. apply Hf1. lia.
  - rewrite <- Hn. apply ld_ext. intros b Hb. apply Hf1. lia.
  - intros o Ho. by apply (entry_name_byte N).
  - exists s1. rewrite Ec. split; [exact E|]. split; [exact Hh1|]. split; [exact Hent|]. split; [exact Hcon|]. intros Hroom1.
    assert (forall a, live B a -> ~ d <= a < d + 128 -> ~ _BLK_ <= a < _BLK_ + 2048 -> (umem s1)⟦a⟧ = (umem s)⟦a⟧) as Hm.
    { intros a Ha Hda Hba. rewrite Hm1 by done. by apply Ho1. }
    assert (forall a, f <= a < f + 52 -> (umem s1)⟦a⟧ = (umem s)⟦a⟧) as Hf2.
    { intros a Ha. unfold apart in *. apply Hm; [replace a with (f + (a - f)) by lia; apply Hlf; lia|lia|lia]. }
    destruct Hslot as [Hi Hfree Hfirst].
    destruct (read_directory_entry_spec d f p filename s1 B base rb N i) as (s2 & E2 & Hu2 & Hh2 & Hin & _); try done.
    + by apply (geometry_ext (umem s)).
    + rewrite <- Hrb. apply ld_ext. intros b Hb. apply Hf2. lia.
    + eapply cstr_ext; [|exact Hname]. intros b Hb. unfold apart in *.
      apply Hm; [replace b with (filename + (b - filename)) by lia; apply Hln; lia|lia|lia].
    + split; [|exact (ea_name _ _ _ _ _ _ _ Hent)]. rewrite (ea_busy _ _ _ _ _ _ _ Hent). lia.
    + intros j Hj [Hb' Hc']. destruct Hblk as [Hk _ _]. fold pos in Hb', Hc'.
      assert (forall o, 0 <= o < 128 -> contents (udisk s1) (pos + j * 128 + o) = c (pos + j * 128 + o)) as Eo.
      { intros o Ho. rewrite Hcon by (unfold pos; lia). unfold set_word. rewrite not_within; [done|]. unfold pos. lia. }
      apply (Hnew j Hj). split; [by rewrite <- Eo by lia|]. rewrite <- Hc'. symmetry. apply cells_ext. intros o Ho. apply Eo. lia.
    + exists s2. split; [exact E2|]. split; [|done]. eapply entry_at_copy; [|exact Hent]. intros o Ho. by apply Hin.
Qed.
End create_claims.

(** ** Updating an entry *)

Section update.
Context {H D : Type} `{AllocatorLaws H} `{BlockDeviceLaws D}.
Context (fuel : nat).
Implicit Types (s : ufs H D) (p : part_t) (N : list Z) (fl : UFILE).

(** The device [c'] is [c] with the name and the size of the entry at [pos] rewritten. *)
Record entry_updated (c c' : Z -> Z) (pos : Z) N (size : Z) : Prop := {
  eu_name : cells c' pos 96 = entry_name N;
  eu_size : word_of 4 c' (pos + 111) = size;
  eu_rest a : ~ pos <= a < pos + 97 -> ~ pos + 111 <= a < pos + 115 -> c' a = c a
}.

Lemma update_directory_entry_spec f p fp fl N e s B base rb :
  let c := contents (udisk s) in
  device_ok (udisk s) -> heap_ok (uheap s) B -> heap_room (uheap s) 8192 ->
  ufiles s !! fp = Some fl -> f_dir_entry fl = e -> f_dir_cluster fl = rb -> 1 <= e < 64 -> 0 <= f_fsize fl < 2 ^ 32 ->
  geometry (umem s) f base 16 -> 0 <= base -> 0 <= rb -> rb * 16 + base < 2 ^ 32 -> live_range B f 52 ->
  cstr (umem s) (fname_at fp) N -> live_range B (fname_at fp) (zlen N + 1) -> no_slash N -> (length N <= 96)%nat -> (length N < fuel)%nat ->
  exists s', update_directory_entry fuel f p fp s = Ret (0, s') /\ device_ok (udisk s') /\ heap_ok (uheap s') B /\
    entry_updated c (contents (udisk s')) (dir_pos base rb + e * 128) N (f_fsize fl) /\
    (forall a, live B a -> (umem s')⟦a⟧ = (umem s)⟦a⟧) /\ ufiles s' = ufiles s.
Proof.
  intros c Hd Hheap Hroom Hfl He Hrb Her Hsz Hg Hb0 Hr0 Hmax Hlf Hname Hln Hno HN Hfu.
  destruct (load_block s B (rb * 16 + base) p Hd Hheap Hroom) as (root & h & m0 & m & Ez & Er & Hin & Hlive & Hfresh & h' & Ef & Hh').
  unfold update_directory_entry, get_ufile. rewrite Hfl. cbn [mbind outcome_bind]. rewrite He, Hrb.
  destruct (Z.ltb_spec e 1); [lia|]. rewrite Z.gtb_ltb. destruct (Z.ltb_spec 64 e); [lia|].
  rewrite (blk_sector_eq _ _ base) by done. rewrite Ez. cbn [mbind outcome_bind].
  set (s1 := s |> set_uheap h |> set_umem m0) in *. set (s2 := s |> set_uheap h |> set_umem m) in *.
  change (umem s1) with m0. rewrite (ge_spb m0 f base 16) by (eapply (live_geometry B); [|done|exact Hg]; intros b Hb; by apply Hlive).
  rewrite Er. cbn [negb Z.eqb]. change (umem s2) with m.
  assert (cstr m (fname_at fp) N) as Hname1 by (eapply (live_cstr B); [|done|exact Hname]; intros b Hb; by apply Hlive).
  pose proof (fresh_apart B root 8192 (fname_at fp) (zlen N + 1) Hfresh Hln ltac:(lia) ltac:(lia)) as An.
  pose proof (fresh_apart B root 8192 f 52 Hfresh Hlf ltac:(lia) ltac:(lia)) as Afr. unfold apart in *.
  destruct (new_entry_spec fuel m (root + e * 128) 96 (fname_at fp) [] N) as (m1 & E1 & Hn1 & Hz1 & Ho1);
    [lia|done|by left|done|done|cbn; lia|unfold clear_of; cbn [length app]; lia|].
  destruct (get_file_name fuel (memset m (root + e * 128) 0 96) (fname_at fp)) as [a| | | |]; try discriminate E1.
  cbn [mbind outcome_bind] in E1 |- *. destruct (strcpy fuel (memset m (root + e * 128) 0 96) (root + e * 128) a) as [x| | | |]; try discriminate E1.
  cbn [mbind outcome_bind] in E1 |- *. revert E1. generalize (blank_name x (root + e * 128)). intros y [= ->].
  set (dir := root + e * 128) in *. set (m2 := st32 m1⟦dir + 96 := 0⟧ (dir + 111) (f_fsize fl)).
  assert (forall a, ~ dir <= a < dir + 97 -> ~ dir + 111 <= a < dir + 115 -> m2⟦a⟧ = m⟦a⟧) as Hm2.
  { intros b B1 B2. unfold m2. rewrite rd_st_out, rd_wr_ne by lia. destruct (decide (dir <= b < dir + 128)) as [Hb|Hb]; [|by apply Ho1].
    replace b with (dir + (b - dir)) by lia. rewrite Hz1 by lia. destruct (Z.ltb_spec (b - dir) 96); [lia|].
    destruct (Z.eqb_spec (b - dir) (zlen N)); [lia|done]. }
  assert (cells (rd m2) dir 96 = entry_name N) as Hcells.
  { rewrite <- Hn1. apply cells_ext. intros o Ho. unfold m2. by rewrite rd_st_out, rd_wr_ne by lia. }
  assert (forall o, 0 <= o < 8192 -> 0 <= m2⟦root + o⟧ < 256) as Hbyte.
  { intros o Ho. destruct (decide (dir <= root + o < dir + 96)).
    - replace (root + o) with (dir + (root + o - dir)) by lia. apply (entry_name_byte N); [by apply cstr_chars in Hname|done|lia].
    - destruct (decide (dir + 111 <= root + o < dir + 115)).
      + unfold m2. replace (root + o) with (dir + 111 + (root + o - (dir + 111))) by lia. rewrite rd_st_in by lia. apply Z.mod_pos_bound. lia.
      + destruct (decide (root + o = dir + 96)) as [->|]; [unfold m2; rewrite rd_st_out, rd_wr_eq by lia; lia|].
        rewrite Hm2 by lia. rewrite Hin by lia. by apply contents_byte. }
  set (s3 := set_umem m2 s2). rewrite (ge_spb m2 f base 16).
  2:{ apply (geometry_ext (umem s)); [|done]. intros b Hb. rewrite Hm2 by lia. apply Hlive. replace b with (f + (b - f)) by lia. apply Hlf. lia. }
  destruct (write_sector_ok (p_dv_num p) 16 (rb * 16 + base) root s3 Hd Hbyte) as (d' & Ew & Hd' & Hcon).
  rewrite Ew. unfold ufree. change (uheap (set_udisk d' s3)) with h. rewrite Ef. cbn [mbind outcome_bind].
  eexists. split; [reflexivity|]. split; [exact Hd'|]. split; [exact Hh'|].
  change (udisk (set_uheap h' (set_udisk d' s3))) with d'. change (umem s3) with m2 in Hcon. change (udisk s3) with (udisk s) in Hcon.
  set (pos := dir_pos base rb) in *. change (512 * (rb * 16 + base)) with pos in Hcon.
  assert (forall o, 0 <= o < 128 -> contents d' (pos + e * 128 + o) = m2⟦dir + o⟧) as Hent.
  { intros o Ho. rewrite Hcon. destruct (within_spec (pos + e * 128 + o) pos (512 * 16)); [|lia]. f_equal. unfold dir. lia. }
  split; [constructor|split; [|done]].
  - rewrite <- Hcells. apply cells_ext. intros o Ho. apply Hent. lia.
  - transitivity (ld32 m2 (dir + 111)).
    + rewrite ld_word_of. apply word_of_ext. intros o Ho. pose proof (Hent (111 + o) ltac:(lia)) as Eo. by rewrite !Z.add_assoc in Eo.
    + unfold m2. rewrite ld_st_eq. apply Z.mod_small. change (256 ^ Z.of_nat 4) with (2 ^ 32). lia.
  - intros a' A1 A2. rewrite Hcon. destruct (within_spec a' pos (512 * 16)) as [Hw|]; [|done].
    rewrite Hm2 by (unfold dir; lia). rewrite Hin by lia. change (512 * (rb * 16 + base)) with pos. f_equal. lia.
  - intros b Hb. change (m2⟦b⟧ = (umem s)⟦b⟧). pose proof (Hfresh b Hb). rewrite Hm2 by (unfold dir; lia). by apply Hlive.
Qed.
(** The super block in sector 1 of a device: the table of blocks starts at sector [base], blocks have
    16 sectors of 512 bytes. *)
Record super_on (c : Z -> Z) (base : Z) : Prop := {
  so_base : u32 (word_of 4 c (512 + 24) + word_of 4 c (512 + 20)) = base;
  so_bps : word_of 4 c (512 + 28) = 512;
  so_spb : word_of 4 c (512 + 32) = 16
}.

Lemma super_geometry c base m f :
  (forall i, 0 <= i < 512 -> m⟦f + i⟧ = c (512 + i)) -> super_on c base -> geometry m f base 16.
Proof.
  intros E [E1 E2 E3]. assert (forall o, 0 <= o <= 48 -> ld32 m (f + o) = word_of 4 c (512 + o)) as El.
  { intros o Ho. apply (ld_copy 4 m c f 512 512 E); lia. }
  constructor; unfold data_sector, sb_rsv, sb_hidden, sb_byte_per_sector, sb_sector_per_blk; by rewrite !El by lia.
Qed.

(** A zeroed block from the heap. *)
Lemma uzalloc_fresh s B n :
  heap_ok (uheap s) B -> 0 < n < 2 ^ 31 -> heap_room (uheap s) n ->
  exists q k h m, uzalloc n s = Ret (q, s |> set_uheap h |> set_umem m) /\ malloc n (uheap s) = Ret (q, h) /\
    n <= k /\ 0 < q /\ heap_ok h (<[q := k]> B) /\ B !! q = None /\
    (forall a, live B a -> ~ q <= a < q + k /\ m⟦a⟧ = (umem s)⟦a⟧).
Proof.
  intros Hh Hn Hroom. destruct (malloc_fresh _ _ n Hh Hn Hroom) as (q & k & h & Em & Hk & Hq & Hh' & HN & Hdis).
  exists q, k, h, (memset (umem s) q 0 n). unfold uzalloc, umalloc. rewrite Em. split; [reflexivity|].
  do 5 (split; [done|]). intros a Ha. pose proof (Hdis a Ha). split; [done|]. rewrite rd_memset, not_within; [done|lia].
Qed.

Lemma live_insert B q k a : B !! q = None -> live B a -> live (<[q := k]> B) a.
Proof.
  intros HN (x & j & Hx & Ha). exists x, j. split; [|done]. apply lookup_insert_Some. right. split; [|done]. intros ->. congruence.
Qed.

Lemma live_new B q k a : q <= a < q + k -> live (<[q := k]> B) a.
Proof. intros Ha. exists q, k. split; [apply lookup_insert_eq|done]. Qed.

(** The heap serves the two buffers of [file_update]. *)
Definition update_room (h : H) : Prop := heap_room h 1024 /\ forall q h', malloc 1024 h = Ret (q, h') -> heap_room h' 8192.

(** The super block is read into a fresh buffer. *)
Lemma read_super_fresh s B base :
  device_ok (udisk s) -> heap_ok (uheap s) B -> heap_room (uheap s) 1024 -> super_on (contents (udisk s)) base ->
  exists f k h m m0, uzalloc 1024 s = Ret (f, s |> set_uheap h |> set_umem m0) /\
    read_super_block f the_part (s |> set_uheap h |> set_umem m0) = (0, s |> set_uheap h |> set_umem m) /\
    malloc 1024 (uheap s) = Ret (f, h) /\ 1024 <= k /\ heap_ok h (<[f := k]> B) /\ B !! f = None /\
    geometry m f base 16 /\ (forall a, live B a -> m⟦a⟧ = (umem s)⟦a⟧).
Proof.
  intros Hd Hh Hroom Hs. destruct (uzalloc_fresh s B 1024 Hh ltac:(lia) Hroom) as (f & k & h & m0 & Ez & Em & Hk & _ & Hh' & HN & Hl).
  destruct (read_sector_ok (p_dv_num the_part) 1 1 f (s |> set_uheap h |> set_umem m0) Hd) as (m & Er & Hin & Hout).
  exists f, k, h, m, m0. split; [exact Ez|]. split; [exact Er|]. do 4 (split; [done|]). split.
  - apply (super_geometry (contents (udisk s))); [|done]. intros i Hi. apply Hin. lia.
  - intros a Ha. destruct (Hl a Ha) as [Hf <-]. apply Hout. lia.
Qed.

Lemma file_update_spec fp fl N e s B base rb :
  let c := contents (udisk s) in
  device_ok (udisk s) -> heap_ok (uheap s) B -> update_room (uheap s) -> super_on c base ->
  ufiles s !! fp = Some fl -> f_dir_entry fl = e -> f_dir_cluster fl = rb -> 0 <= e < 64 -> 0 <= f_fsize fl < 2 ^ 32 ->
  0 <= base -> 0 <= rb -> rb * 16 + base < 2 ^ 32 ->
  cstr (umem s) (fname_at fp) N -> live_range B (fname_at fp) (zlen N + 1) -> no_slash N -> (length N <= 96)%nat -> (length N < fuel)%nat ->
  exists s', file_update fuel fp s = Ret (if e =? 0 then -1 else 0, s') /\ device_ok (udisk s') /\ heap_ok (uheap s') B /\
    (if e =? 0 then udisk s' = udisk s
     else entry_updated c (contents (udisk s')) (dir_pos base rb + e * 128) N (f_fsize fl)) /\
    (forall a, live B a -> (umem s')⟦a⟧ = (umem s)⟦a⟧) /\ ufiles s' = ufiles s.
Proof.
  intros c Hd Hheap [Hroom Hroom2] Hsup Hfl He Hrb Her Hsz Hb0 Hr0 Hmax Hname Hln Hno HN Hfu.
  destruct (read_super_fresh s B base Hd Hheap Hroom Hsup) as (f & k & h & m & m0 & Ez & Er & Em & Hk & Hh & HNone & Hg & Hlive).
  unfold file_update. rewrite Ez. cbn [mbind outcome_bind]. rewrite Er. cbn [negb Z.eqb].
  set (s2 := s |> set_uheap h |> set_umem m).
  assert (forall h1 : H, heap_ok h1 (<[f := k]> B) -> exists h2, free f h1 = Ret h2 /\ heap_ok h2 B) as Hfree.
  { intros h1 Hh1. destruct (free_spec h1 _ f k Hh1 (lookup_insert_eq _ _ _)) as (h2 & Ef & Hh2). rewrite delete_insert_id in Hh2 by done.
    by exists h2. }
  destruct (Z.eqb_spec e 0) as [E0|E0].
  - unfold update_directory_entry, get_ufile. change (ufiles s2) with (ufiles s). rewrite Hfl. cbn [mbind outcome_bind]. rewrite He, E0.
    cbn [Z.ltb Z.compare mbind outcome_bind]. destruct (Hfree h Hh) as (h2 & Ef & Hh2). unfold ufree. change (uheap s2) with h. rewrite Ef. cbn [mbind outcome_bind].
    eexists. split; [reflexivity|]. done.
  - destruct (update_directory_entry_spec f the_part fp fl N e s2 (<[f := k]> B) base rb) as (s3 & E3 & Hd3 & Hh3 & Hu3 & Hl3 & Hf3);
      try done; try lia.
    + by eapply Hroom2.
    + intros i Hi. apply live_new. lia.
    + apply (live_cstr B (umem s)); done.
    + intros i Hi. by apply live_insert, Hln.
    + rewrite E3. cbn [mbind outcome_bind]. destruct (Hfree _ Hh3) as (h2 & Ef & Hh2). unfold ufree. rewrite Ef. cbn [mbind outcome_bind].
      eexists. split; [reflexivity|]. split; [exact Hd3|]. split; [exact Hh2|]. split; [exact Hu3|]. split; [|exact Hf3].
      intros a Ha. rewrite <- Hlive by done. apply Hl3. by apply live_insert.
Qed.
End update.

(** ** Examples *)

(** A super block at 1000 (blocks of 16 sectors, 5 blocks, the table in sector 2, the directory in block 1),
    an empty entry at 2000, and the strings "/a/x" and "x". *)
Definition example_super : mem :=
  st32 (st32 (st32 (st32 (st32 ∅ (1000 + 24) 2) (1000 + 28) 512) (1000 + 32) 16) (1000 + 36) 5) (1000 + 44) 1.
Definition example_memory : mem := poke (poke example_super 3000 [47; 97; 47; 120; 0]) 7000 [120; 0].

(** The blocks 0, 1, 3 and 4 are taken, 3 by a chain that goes on in 4; the first entry of the
    directory is in use. *)
Definition example_disk : ram_disk :=
  (st32 (st32 (st32 (st32 ∅ (512 * 2) LAST) (512 * 2 + 4) LAST) (512 * 2 + 12) 4) (512 * 2 + 16) LAST)⟦512 * 18 + 97 := 255⟧.
Definition example_heap : gmap Z Z := {[1000 := 52; 2000 := 128; 4000 := 2048; 7000 := 2]}.
Definition example_ufs : ufs bump ram_disk := Ufs 10000 example_memory example_disk ∅ 0.

Ltac ex_live :=
  unfold live_range;
  match goal with
  | |- forall i, 0 <= i < ?n -> live _ (?a + i) => intros i Hi; exists a, n; split; [vm_compute; reflexivity|lia]
  end.

Lemma example_heap_ok : heap_ok (uheap example_ufs) example_heap.
Proof.
  split; [reflexivity|]. intros p k Hp. unfold example_heap in Hp.
  repeat (apply lookup_insert_Some in Hp as [[<- <-]|[_ Hp]]; [cbn; lia|]).
  apply lookup_singleton_Some in Hp as [<- <-]. cbn. lia.
Qed.

Lemma remove_blk_frees_chain_witness :
  exists s', remove_blk 3 3 1000 the_part example_ufs = Ret (0, s') /\
    forall j, fat (contents (udisk s')) 2 j = if bool_decide (j ∈ [3; 4]) then 0 else fat (contents (udisk example_ufs)) 2 j.
Proof.
  destruct (remove_blk_frees_chain 3 3 [4] 1000 the_part example_ufs example_heap 2 16) as (s' & E & _ & _ & Hf & _).
  - exact I.
  - exact example_heap_ok.
  - exact I.
  - by constructor.
  - lia.
  - ex_live.
  - split; [reflexivity|]. split; [discriminate|reflexivity].
  - by apply (bool_decide_unpack _).
  - repeat constructor; vm_compute; congruence.
  - cbn. lia.
  - exists s'. split; [exact E|exact Hf].
Defined.

Lemma create_then_find_witness :
  exists s1, create_file 20 4000 2000 1000 the_part 3000 0x20 example_ufs = Ret (0, s1) /\
    entry_at (contents (udisk s1)) (dir_pos 2 1 + 1 * 128) [120] 0x20 2 0 1 /\
    exists s2, read_directory_entry 2000 1000 the_part 7000 s1 = Ret (0, s2).
Proof.
  destruct (create_then_find 20 4000 2000 1000 the_part 3000 0x20 7000 example_ufs example_heap 2 1 5 [47; 97; 47] [120] 1 2)
    as (s1 & E & _ & Hent & _ & Hread).
  - constructor; try done; try lia.
    + exact example_heap_ok.
    + split; ex_live.
    + unfold apart. lia.
  - constructor; [lia|reflexivity|]. intros j Hj. replace j with 0 by lia. discriminate.
  - constructor; [lia|reflexivity|]. intros j Hj. assert (j = 0 \/ j = 1) as [-> | ->] by lia; discriminate.
  - intros j Hj [_ Hc]. replace j with 0 in Hc by lia. discriminate Hc.
  - ex_string.
  - right. by exists [47; 97].
  - by repeat constructor.
  - cbn. lia.
  - cbn. lia.
  - unfold clear_of. cbn. lia.
  - ex_live.
  - left. lia.
  - left. lia.
  - ex_string.
  - ex_live.
  - right. lia.
  - right. lia.
  - lia.
  - reflexivity.
  - exists s1. split; [exact E|]. split; [exact Hent|]. destruct (Hread I) as (s2 & E2 & _). by exists s2.
Defined.
