(* ===== verification/Ustdio.v ===== *)
(** * Ustdio: the streams of the user library (user/lib/sys/file.c, user/lib/libc/stdio)

    Characters go through the buffer of one block of the stream: the flag 0x10 says that the
    buffer holds the block of the position, 0x80 that something was written.  The standard
    streams are rings (flags 2, 3, 4), a pipe has the flag 5.  Where the code waits for a key in
    a loop the call is [Hang]: nothing in the call itself ends the wait. *)
From S2P Require Import Prelude KString Bytes Files Path Cfs.

Definition SEEK_SET : Z := 0.
Definition SEEK_CUR : Z := 1.
Definition SEEK_END : Z := 2.

Section ustdio.
Context {H D : Type} `{Allocator H} `{BlockDevice D}.
(** The fuel of the scans of strings, the working directory and the table of blocks; the three standard
    streams and the two colours of the terminal. *)
Context (fuel : nat) (pwd _BLK_ : Z).
Context (stdin_ stdout_ : Z) (term_fg_color term_bg_color : Z).
Implicit Types (s : ufs H D) (fp : Z) (fl : UFILE).

(** ** The standard streams *)

(** The colour byte of a character on the screen. *)
Definition colour : Z :=
  let fg := term_fg_color in
  let bg := term_bg_color in
  let bg := if (bg >? 15) || (bg <? 0) then 0 else bg in
  let fg := if (fg >? 15) || (fg <? 0) then 0 else fg in
  let bg := if (fg =? 15) && (bg =? 15) then 0 else bg in
  Z.lor (Z.land (Z.shiftl bg 4) 0xf0) (Z.land fg 0xf).

Fixpoint stdputc_r (n : nat) (c fp : Z) s : outcome (Z * ufs H D) :=
  match n with
  | O => NoFuel
  | S n =>
      fl ← get_ufile fp s;
      let fl := if (u32 (f_level fl) >=? f_bsize fl) || (f_off fl >=? f_bsize fl)
                then fl |> set_f_off 0 |> set_f_level 0 else fl in
      let s := put_ufile fp fl s in
      s ← (if f_flags fl =? 4 then '(_, s) ← stdputc_r n c stdout_ s; Ret s else Ret s);
      fl ← get_ufile fp s;
      if f_flags fl =? 3 then
        let val := Z.lor (Z.land c 0xff) (Z.shiftl colour 8) in
        let fl := set_f_curp (f_buffer fl + f_off fl) fl in
        let s := set_umem (st16 (umem s) (f_curp fl) (Z.land val 0xffff)) s in
        let fl := set_f_off (u32 (f_off fl + 2)) fl in
        let fl := if f_off fl >? f_fsize fl then set_f_fsize (u32 (f_fsize fl + 2)) fl else fl in
        Ret (c, put_ufile fp fl s)
      else
        let fl := set_f_curp (f_buffer fl + f_off fl) fl in
        let s := set_umem (umem s)⟦f_curp fl := Z.land c 0xff⟧ s in
        let fl := set_f_off (u32 (f_off fl + 1)) fl in
        let fl := if f_off fl >? f_fsize fl then set_f_fsize (u32 (f_fsize fl + 1)) fl else fl in
        Ret (c, put_ufile fp fl s)
  end.

Definition wrap_off2 fl : UFILE := if f_off2 fl >=? f_bsize fl then set_f_off2 0 fl else fl.

(** The byte at [off2], which moves on by [k]. *)
Definition take_byte (k : Z) fp fl s : outcome (Z * ufs H D) :=
  let fl := set_f_curp (f_buffer fl + f_off2 fl) fl in
  let r := Z.land (umem s)⟦f_curp fl⟧ 0xff in
  Ret (r, put_ufile fp (set_f_off2 (u32 (f_off2 fl + k)) fl) s).

Definition caught_up fl : bool := (f_off fl <=? f_off2 fl) && (f_off fl >=? f_off2 fl).

Definition stdgetc_r fp s : outcome (Z * ufs H D) :=
  fl ← get_ufile fp s;
  let fl := wrap_off2 fl in
  let s := put_ufile fp fl s in
  if f_flags fl =? 2 then
    if caught_up fl then Hang else take_byte 1 fp fl s
  else if f_flags fl =? 4 then
    if f_off fl =? 0 then Ret (EOF, s)
    else if f_off2 fl >=? f_off fl then Ret (EOF, s)
    else take_byte 1 fp fl s
  else if f_flags fl =? 3 then
    if f_off2 fl =? f_off fl then Ret (EOF, s)
    else take_byte 2 fp fl s
  else Ret (0, s).

Definition getkey s : outcome (Z * ufs H D) :=
  let fp := stdin_ in
  fl ← get_ufile fp s;
  let fl := wrap_off2 fl in
  let s := put_ufile fp fl s in
  if f_flags fl =? 2 then
    if caught_up fl then Ret (0, s) else take_byte 1 fp fl s
  else Ret (0, s).

Definition getkeyw s : outcome (Z * ufs H D) :=
  let fp := stdin_ in
  fl ← get_ufile fp s;
  let fl := wrap_off2 fl in
  let s := put_ufile fp fl s in
  if f_flags fl =? 2 then
    if caught_up fl then Hang else take_byte 1 fp fl s
  else Ret (0, s).

(** ** Files *)

Definition open_r (path mode : Z) s : outcome (Z * ufs H D) :=
  if (umem s)⟦mode⟧ =? 0 then Ret (0, s) else open_file fuel pwd _BLK_ path mode s.

Definition flush_r fp s : outcome (Z * ufs H D) :=
  if fp =? 0 then Ret (-1, s)
  else
    fl ← get_ufile fp s;
    if (Z.land (f_flags fl) 0x6 =? 0) || negb (f_mode fl =? 2) then Ret (-1, s)
    else if Z.land (f_flags fl) 0x80 =? 0 then Ret (0, s)
    else if f_bsize fl =? 0 then Undef
    else
      let addr := s32 (f_off fl / f_bsize fl) in
      s ← (if Z.land (f_flags fl) 0x40 =? 0 then '(_, s) ← file_write_block fp addr s; Ret s else Ret s);
      file_update fuel fp s.

Definition close_r fp s : outcome (Z * ufs H D) :=
  if fp =? 0 then Ret (-1, s)
  else
    '(_, s) ← flush_r fp s;
    file_close fp s.

(** The block of the position gets into the buffer, unless it is there. *)
Definition load_block_r fp s : outcome (ufs H D) :=
  fl ← get_ufile fp s;
  if (Z.land (f_flags fl) 0x10 =? 0) && (f_off fl <=? f_fsize fl) && negb (f_fsize fl =? 0) then
    let s := put_ufile fp (set_f_flags (Z.lor (f_flags fl) 0x10) fl) s in
    if f_bsize fl =? 0 then Undef
    else
      let addr := s32 (f_off fl / f_bsize fl) in
      '(_, s) ← file_read_block fp addr s;
      Ret s
  else Ret s.

Definition putc_r (ch fp : Z) s : outcome (Z * ufs H D) :=
  if fp =? 0 then Ret (-1, s)
  else
    fl ← get_ufile fp s;
    if f_flags fl =? 5 then Ret (0, s)
    else if (f_flags fl =? 2) || (f_flags fl =? 3) || (f_flags fl =? 4) then stdputc_r 2 ch fp s
    else
      s ← load_block_r fp s;
      fl ← get_ufile fp s;
      let fl := set_f_flags (Z.lor (f_flags fl) 0x10) fl in
      if f_bsize fl =? 0 then Undef
      else
        let fl := set_f_level (s16 (f_off fl mod f_bsize fl)) fl in
        let fl := set_f_curp (f_buffer fl + f_level fl) fl in
        let s := set_umem (umem s)⟦f_curp fl := Z.land ch 0xff⟧ s in
        s ← (if u32 (f_level fl) >=? u32 (f_bsize fl - 1) then
               let fl := set_f_flags (Z.land (f_flags fl) (Z.lnot 0x10)) fl in
               let fl := set_f_level 0 fl in
               '(_, s) ← flush_r fp (put_ufile fp fl s);
               Ret s
             else Ret (put_ufile fp fl s));
        fl ← get_ufile fp s;
        let fl := set_f_off (u32 (f_off fl + 1)) fl in
        let fl := if f_off fl >? f_fsize fl then set_f_fsize (u32 (f_fsize fl + 1)) fl else fl in
        let fl := set_f_flags (Z.lor (f_flags fl) 0x80) fl in
        Ret (0, put_ufile fp fl s).

Definition getc_r fp s : outcome (Z * ufs H D) :=
  if fp =? 0 then Ret (-1, s)
  else
    fl ← get_ufile fp s;
    if f_flags fl =? 5 then Ret (0, s)
    else if (f_flags fl =? 2) || (f_flags fl =? 3) || (f_flags fl =? 4) then stdgetc_r fp s
    else if f_off fl >=? f_fsize fl then Ret (EOF, s)
    else
      s ← load_block_r fp s;
      fl ← get_ufile fp s;
      if f_bsize fl =? 0 then Undef
      else
        let fl := set_f_level (s16 (f_off fl mod f_bsize fl)) fl in
        let fl := set_f_curp (f_buffer fl + f_level fl) fl in
        let r := Z.land (umem s)⟦f_curp fl⟧ 0xff in
        let fl := if u32 (f_level fl) >=? u32 (f_bsize fl - 1)
                  then fl |> set_f_flags (Z.land (f_flags fl) (Z.lnot 0x10)) |> set_f_level 0 else fl in
        let fl := set_f_off (u32 (f_off fl + 1)) fl in
        Ret (r, put_ufile fp fl s).

(** [for (i = 0; i < size * count; i++)] *)
Fixpoint read_loop (k : nat) (buf fp rc : Z) s : outcome (Z * ufs H D) :=
  match k with
  | O => Ret (rc, s)
  | S k =>
      '(c, s) ← getc_r fp s;
      if c =? EOF then Ret (rc, s)
      else read_loop k (buf + 1) fp (rc + 1) (set_umem (umem s)⟦buf := u8 c⟧ s)
  end.

Definition read_r (buffer size count fp : Z) s : outcome (Z * ufs H D) :=
  if fp =? 0 then Ret (0, s)
  else
    '(rc, s) ← read_loop (Z.to_nat (u64 (size * count))) buffer fp 0 s;
    if size =? 0 then Undef else Ret (rc / size, s).

Fixpoint write_loop (k : nat) (buf fp rc : Z) s : outcome (Z * ufs H D) :=
  match k with
  | O => Ret (rc, s)
  | S k =>
      let c := (umem s)⟦buf⟧ in
      '(_, s) ← putc_r c fp s;
      write_loop k (buf + 1) fp (rc + 1) s
  end.

Definition write_r (buffer size count fp : Z) s : outcome (Z * ufs H D) :=
  if fp =? 0 then Ret (0, s)
  else
    '(rc, s) ← write_loop (Z.to_nat (u64 (size * count))) buffer fp 0 s;
    if size =? 0 then Undef else Ret (rc / size, s).

Definition seek_r (fp num_bytes origin : Z) s : outcome (Z * ufs H D) :=
  fl ← get_ufile fp s;
  let fl :=
    if origin =? SEEK_SET then fl |> set_f_off (u32 num_bytes) |> set_f_off2 (u32 num_bytes)
    else if origin =? SEEK_CUR then
      fl |> set_f_off (u32 (f_off fl + num_bytes)) |> set_f_off2 (u32 (f_off2 fl + num_bytes))
    else if origin =? SEEK_END then
      let off := u32 (f_fsize fl - num_bytes) in fl |> set_f_off off |> set_f_off2 off
    else fl in
  if f_bsize fl =? 0 then Undef
  else Ret (0, put_ufile fp (set_f_level (s16 (f_off fl mod f_bsize fl)) fl) s).

Definition tell_r fp s : outcome (Z * ufs H D) :=
  if fp =? 0 then Ret (0, s) else fl ← get_ufile fp s; Ret (f_off fl, s).

Definition rewind_r fp s : outcome (ufs H D) :=
  if fp =? 0 then Ret s
  else
    fl ← get_ufile fp s;
    Ret (put_ufile fp (fl |> set_f_off2 0 |> set_f_off 0 |> set_f_level 0
                          |> set_f_flags (Z.land (f_flags fl) (Z.lnot 0x10))) s).

(** ** The functions of stdio.h *)

Definition fopen (n : nat) (path mode : Z) s : outcome (Z * ufs H D) :=
  if (umem s)⟦mode⟧ =? 0 then Ret (0, s)
  else
    s ← (if (umem s)⟦mode⟧ =? 119 then '(_, s) ← remove_file fuel pwd n path s; Ret s else Ret s);
    open_r path mode s.

Definition fclose fp s := close_r fp s.
Definition fflush fp s := flush_r fp s.
Definition fread (buffer size count fp : Z) s := read_r buffer size count fp s.
Definition fwrite (buffer size count fp : Z) s := write_r buffer size count fp s.
Definition fseek (fp num_bytes origin : Z) s := seek_r fp num_bytes origin s.
Definition ftell fp s := tell_r fp s.
Definition rewind fp s := rewind_r fp s.
Definition remove (n : nat) (path : Z) s := remove_file fuel pwd n path s.

Definition feof fp s : outcome (Z * ufs H D) :=
  if fp =? 0 then Ret (EOF, s)
  else fl ← get_ufile fp s; Ret (if f_off fl >=? f_fsize fl then EOF else 0, s).

Definition ungetc (c fp : Z) s : outcome (Z * ufs H D) :=
  if fp =? 0 then Ret (-1, s)
  else if c =? EOF then Ret (-1, s)
  else
    fl ← get_ufile fp s;
    let fl := if f_off fl >? 0 then set_f_off (f_off fl - 1) fl else fl in
    if f_bsize fl =? 0 then Undef
    else
      let fl := set_f_level (s16 (f_off fl mod f_bsize fl)) fl in
      let fl := set_f_curp (f_buffer fl + f_level fl) fl in
      Ret (c, set_umem (umem s)⟦f_curp fl := Z.land c 0xff⟧ (put_ufile fp fl s)).

Definition getchar s : outcome (Z * ufs H D) :=
  '(c, s) ← getc_r stdin_ s;
  s ← (if c =? EOF then Ret s else '(_, s) ← putc_r c stdout_ s; Ret s);
  Ret (c, s).

(** [for (i = 0; i < strlen(str); i++) putc(str[i], fp);] *)
Fixpoint fputs_loop (n : nat) (str i fp : Z) s : outcome (Z * ufs H D) :=
  match n with
  | O => NoFuel
  | S n =>
      len ← strlen fuel (umem s) str;
      if len <=? i then Ret (i, s)
      else
        '(_, s) ← putc_r (s8 (umem s)⟦str + i⟧) fp s;
        fputs_loop n str (i + 1) fp s
  end.

Definition fputs (str fp : Z) s : outcome (Z * ufs H D) :=
  if str =? 0 then Ret (0, s) else fputs_loop fuel str 0 fp s.

Definition putc (ch fp : Z) s : outcome (Z * ufs H D) := putc_r ch fp s.
Definition fputc (ch fp : Z) s : outcome (Z * ufs H D) := putc ch fp s.
Definition putchar (c : Z) s : outcome (Z * ufs H D) := putc c stdout_ s.
Definition puts (str : Z) s : outcome (ufs H D) :=
  if str =? 0 then Ret s else '(_, s) ← fputs_loop fuel str 0 stdout_ s; Ret s.

(** A character of the standard input is shown. *)
Definition getc fp s : outcome (Z * ufs H D) :=
  if fp =? 0 then Ret (-1, s)
  else
    '(c, s) ← getc_r fp s;
    fl ← get_ufile fp s;
    s ← (if f_flags fl =? 2 then '(_, s) ← putc_r c stdout_ s; Ret s else Ret s);
    Ret (c, s).

Definition fgetc fp s : outcome (Z * ufs H D) := getc fp s.

(** The loop of [fgets]: [s0] is the pointer [s], [off] the counter [of]; a backspace takes back the last
    character. *)
Fixpoint fgets_loop (n : nat) (length fp p s0 off : Z) s : outcome (Z * Z * ufs H D) :=
  match n with
  | O => NoFuel
  | S n =>
      '(c, s) ← getc_r fp s;
      if c =? EOF then Ret (c, s0, s)
      else
        fl ← get_ufile fp s;
        s ← (if f_flags fl =? 2 then
               if (c =? 8) && (off <? 1) then Ret s else '(_, s) ← putc_r c stdout_ s; Ret s
             else Ret s);
        if c =? 10 then Ret (c, s0 + 1, set_umem (umem s)⟦s0 := u8 c⟧ s)
        else if off <? length then
          if (c =? 8) && (off >? 0) && (s0 >? p) then fgets_loop n length fp p (s0 - 1) (off - 1) s
          else if negb (c =? 8) then fgets_loop n length fp p (s0 + 1) (off + 1) (set_umem (umem s)⟦s0 := u8 c⟧ s)
          else fgets_loop n length fp p s0 off s
        else if (c =? 8) && (off >? 0) then fgets_loop n length fp p s0 (off - 1) s
        else fgets_loop n length fp p s0 (off + 1) s
  end.

Definition fgets (n : nat) (str length fp : Z) s : outcome (Z * ufs H D) :=
  if fp =? 0 then Ret (str, s)
  else
    '(c, s0, s) ← fgets_loop n length fp str str 0 s;
    Ret (str, set_umem (umem s)⟦s0 := (if length >? 1 then 0 else u8 c)⟧ s).

Definition FILENAME_MAX : Z := 96.

(** [r_plus] is the address of the literal "r+". *)
Definition rename (old new r_plus : Z) (n : nat) s : outcome (Z * ufs H D) :=
  '(f, s) ← fopen n old r_plus s;
  if f =? 0 then Ret (EOF, s)
  else
    len ← strlen fuel (umem s) new;
    '(r, s) ← (if len >? FILENAME_MAX then Ret (- EOF, s)
               else m ← strcpy fuel (umem s) (fname_at f) new; Ret (0, set_umem m s));
    fl ← get_ufile f s;
    '(_, s) ← fclose f (put_ufile f (set_f_flags (Z.lor (f_flags fl) (Z.lor 0x80 0x40)) fl) s);
    Ret (r, s).
End ustdio.

(** ** Reading and writing inside a block *)

(** [b] is the stream [a] at another position. *)
Record same_file (a b : UFILE) : Prop := {
  sf_bsize : f_bsize b = f_bsize a;
  sf_buffer : f_buffer b = f_buffer a;
  sf_mode : f_mode b = f_mode a;
  sf_count : f_count b = f_count a;
  sf_num : f_num_of_blocks b = f_num_of_blocks a;
  sf_cluster : f_dir_cluster b = f_dir_cluster a;
  sf_entry : f_dir_entry b = f_dir_entry a;
  sf_dv : f_dv_num b = f_dv_num a;
  sf_blocks : f_blocks b = f_blocks a
}.

#[export] Instance same_file_pre : PreOrder same_file.
Proof.
  split; [by intros a; constructor|].
  intros a b c [] []. constructor; congruence.
Qed.

(** The flags of an open file: nothing in the buffer, the block of the position in the buffer; and the same
    for a file that was written. *)
Definition file_flags (v : Z) : Prop := v = 0x6 \/ v = 0x16 \/ v = 0x86 \/ v = 0x96.

Ltac ufl :=
  cbn [f_level f_flags f_bsize f_buffer f_curp f_mode f_off f_off2 f_fsize f_byte_per_sector f_count
       f_num_of_blocks f_dir_cluster f_dir_entry f_dv_num f_blocks
       set_f_level set_f_flags set_f_bsize set_f_buffer set_f_curp set_f_mode set_f_off set_f_off2 set_f_fsize
       set_f_byte_per_sector set_f_count set_f_num_of_blocks set_f_dir_cluster set_f_dir_entry set_f_dv_num set_f_blocks] in *.

Section streams.
Context {H D : Type} `{AllocatorLaws H} `{BlockDeviceLaws D}.
Context (fuel : nat) (stdin_ stdout_ term_fg_color term_bg_color : Z).
Implicit Types (s : ufs H D) (fp : Z) (fl : UFILE) (m : mem).

(** The state with the memory [m] and the stream [fl]. *)
Definition with_file s fp fl m : ufs H D := s |> set_umem m |> put_ufile fp fl.

Lemma with_file_refl s fp fl : ufiles s !! fp = Some fl -> with_file s fp fl (umem s) = s.
Proof. intros E. unfold with_file, put_ufile. change (ufiles (set_umem (umem s) s)) with (ufiles s). rewrite insert_id by done. by destruct s. Qed.

Lemma with_file_file s fp fl m : ufiles (with_file s fp fl m) !! fp = Some fl.
Proof. apply lookup_insert_eq. Qed.

Lemma put_with_file s fp fl fl' m : put_ufile fp fl' (with_file s fp fl m) = with_file s fp fl' m.
Proof. unfold with_file, put_ufile, set_ufiles, set_umem. cbn. by rewrite insert_insert_eq. Qed.

Lemma umem_with_file s fp fl m m' : set_umem m' (with_file s fp fl m) = with_file s fp fl m'.
Proof. reflexivity. Qed.

Lemma get_with_file s fp fl m : get_ufile fp (with_file s fp fl m) = Ret fl.
Proof. unfold get_ufile. by rewrite with_file_file. Qed.

Lemma file_flags_std fl : file_flags (f_flags fl) ->
  (f_flags fl =? 5) = false /\ (f_flags fl =? 2) = false /\ (f_flags fl =? 3) = false /\ (f_flags fl =? 4) = false.
Proof. by intros [->|[->|[->| ->]]]. Qed.

(** A buffer that holds the block of the position is left alone, as is one of an empty file. *)
Lemma load_block_r_loaded s fp fl m :
  Z.land (f_flags fl) 0x10 <> 0 \/ f_fsize fl = 0 -> load_block_r fp (with_file s fp fl m) = Ret (with_file s fp fl m).
Proof.
  intros Hl. unfold load_block_r. rewrite get_with_file. cbn [mbind outcome_bind].
  destruct Hl as [Hf|Hs]; [by rewrite (proj2 (Z.eqb_neq _ _) Hf)|]. rewrite Hs. change (0 =? 0) with true. by rewrite andb_false_r.
Qed.

(** One character into a block that is not full. *)
Lemma putc_r_step s s' fp fl fl0 m m0 ch :
  fp <> 0 -> file_flags (f_flags fl0) -> file_flags (f_flags fl) ->
  load_block_r fp (with_file s fp fl0 m0) = Ret (with_file s' fp fl m) ->
  f_bsize fl = 8192 -> 0 <= f_off fl < 2 ^ 32 - 1 -> f_off fl mod 8192 < 8191 -> 0 <= f_fsize fl < 2 ^ 32 - 1 ->
  exists fl', putc_r fuel stdout_ term_fg_color term_bg_color ch fp (with_file s fp fl0 m0) =
      Ret (0, with_file s' fp fl' m⟦f_buffer fl + f_off fl mod 8192 := Z.land ch 0xff⟧) /\
    same_file fl fl' /\ f_off fl' = f_off fl + 1 /\ f_flags fl' = 0x96 /\
    f_fsize fl' = if f_off fl + 1 >? f_fsize fl then f_fsize fl + 1 else f_fsize fl.
Proof.
  intros Hfp Hf0 Hf Hload Hbs Hoff Hlev Hsz. unfold putc_r. rewrite (proj2 (Z.eqb_neq fp 0) Hfp), get_with_file. cbn [mbind outcome_bind].
  destruct (file_flags_std fl0 Hf0) as (-> & -> & -> & ->). cbn [orb]. rewrite Hload. cbn [mbind outcome_bind].
  rewrite get_with_file. cbn [mbind outcome_bind]. cbv zeta. destruct fl as [lv fg bs bf cu mo off off2 sz bp co nb dc de dv bk]. ufl. subst bs.
  assert (Z.lor fg 0x10 = 0x16 \/ Z.lor fg 0x10 = 0x96) as Hlor by (destruct Hf as [->|[->|[->| ->]]]; [left|left|right|right]; reflexivity).
  cbn [Z.eqb]. pose proof (Z.mod_pos_bound off 8192 ltac:(lia)) as Hmod.
  assert (s16 (off mod 8192) = off mod 8192) as -> by (unfold s16; rewrite Z.mod_small; lia).
  rewrite (u32_small (off mod 8192)) by lia. change (u32 (8192 - 1)) with 8191.
  destruct (Z.geb_spec (off mod 8192) 8191); [lia|]. rewrite umem_with_file, put_with_file. cbn [mbind outcome_bind].
  rewrite get_with_file. cbn [mbind outcome_bind]. ufl. rewrite (u32_small (off + 1)) by lia. rewrite (u32_small (sz + 1)) by lia.
  rewrite put_with_file. eexists. split; [reflexivity|].
  destruct (off + 1 >? sz); ufl; (split; [by constructor|]); (split; [done|]); (split; [|done]); by destruct Hlor as [-> | ->].
Qed.
Lemma write_loop_S k buf fp rc s :
  write_loop fuel stdout_ term_fg_color term_bg_color (S k) buf fp rc s =
  ('(_, s') ← putc_r fuel stdout_ term_fg_color term_bg_color (umem s)⟦buf⟧ fp s;
   write_loop fuel stdout_ term_fg_color term_bg_color k (buf + 1) fp (rc + 1) s').
Proof. reflexivity. Qed.

Lemma read_loop_S k buf fp rc s :
  read_loop (S k) buf fp rc s =
  ('(c, s') ← getc_r fp s;
   if c =? EOF then Ret (rc, s') else read_loop k (buf + 1) fp (rc + 1) (set_umem (umem s')⟦buf := u8 c⟧ s')).
Proof. reflexivity. Qed.

(** The bytes of [src] written one after another into a block that has room for them. *)
Lemma write_loop_spec k s fp fl fl0 m m0 src rc :
  fp <> 0 -> file_flags (f_flags fl0) -> file_flags (f_flags fl) ->
  load_block_r fp (with_file s fp fl0 m0) = Ret (with_file s fp fl m) ->
  f_bsize fl = 8192 -> 0 <= f_off fl <= f_fsize fl -> f_off fl mod 8192 + Z.of_nat (S k) <= 8191 ->
  f_fsize fl + Z.of_nat (S k) < 2 ^ 32 - 1 ->
  (forall i, 0 <= i < Z.of_nat (S k) -> m⟦src + i⟧ = m0⟦src + i⟧ /\ 0 <= m0⟦src + i⟧ < 256) ->
  apart src (Z.of_nat (S k)) (f_buffer fl) 8192 ->
  exists fl' m', write_loop fuel stdout_ term_fg_color term_bg_color (S k) src fp rc (with_file s fp fl0 m0) =
      Ret (rc + Z.of_nat (S k), with_file s fp fl' m') /\
    same_file fl fl' /\ f_off fl' = f_off fl + Z.of_nat (S k) /\ f_flags fl' = 0x96 /\
    f_fsize fl' = Z.max (f_fsize fl) (f_off fl + Z.of_nat (S k)) /\
    forall a, m'⟦a⟧ = if within a (f_buffer fl + f_off fl mod 8192) (Z.of_nat (S k))
                      then m0⟦src + (a - (f_buffer fl + f_off fl mod 8192))⟧ else m⟦a⟧.
Proof.
  revert fl fl0 m m0 src rc. induction k as [|k IH]; intros fl fl0 m m0 src rc Hfp Hf0 Hf Hload Hbs Hoff Hlev Hsz Hsrc Hap;
    (pose proof (Z.mod_pos_bound (f_off fl) 8192 ltac:(lia)) as Hmod);
    (destruct (Hsrc 0 ltac:(lia)) as [Es Hs]; rewrite Z.add_0_r in Es, Hs);
    (destruct (putc_r_step s s fp fl fl0 m m0 m0⟦src⟧) as (fl1 & E & Hsame & Hoff1 & Hfl1 & Hsz1); try done; try lia);
    (rewrite (land_255_small _ Hs) in E); rewrite write_loop_S; change (umem (with_file s fp fl0 m0)) with m0; rewrite E; cbn [mbind outcome_bind].
  - eexists fl1, _. split; [reflexivity|]. split; [exact Hsame|]. split; [lia|]. split; [exact Hfl1|]. split.
    + rewrite Hsz1. rewrite Z.gtb_ltb. destruct (Z.ltb_spec (f_fsize fl) (f_off fl + 1)); lia.
    + intros a. rewrite rd_wr. case_within; try lia. subst a. f_equal. lia.
  - set (m1 := m⟦f_buffer fl + f_off fl mod 8192 := m0⟦src⟧⟧) in *. unfold apart in Hap.
    assert (f_off fl1 mod 8192 = f_off fl mod 8192 + 1) as Emod by (rewrite Hoff1; Z.div_mod_to_equations; lia).
    assert (f_fsize fl1 = Z.max (f_fsize fl) (f_off fl + 1)) as Esz.
    { rewrite Hsz1. rewrite Z.gtb_ltb. destruct (Z.ltb_spec (f_fsize fl) (f_off fl + 1)); lia. }
    assert (forall i, 0 <= i < Z.of_nat (S (S k)) -> m1⟦src + i⟧ = m0⟦src + i⟧) as Em1.
    { intros i Hi. unfold m1. rewrite rd_wr_ne by lia. by apply Hsrc. }
    destruct (IH fl1 fl1 m1 m1 (src + 1) (rc + 1)) as (fl' & m' & E' & Hsame' & Hoff' & Hfl' & Hsz' & Hm'); clear IH; try done.
    + rewrite Hfl1. by right; right; right.
    + rewrite Hfl1. by right; right; right.
    + apply load_block_r_loaded. rewrite Hfl1. by left.
    + rewrite (sf_bsize _ _ Hsame). exact Hbs.
    + lia.
    + lia.
    + lia.
    + intros i Hi. split; [done|]. rewrite <- Z.add_assoc, Em1 by lia. apply Hsrc. lia.
    + rewrite (sf_buffer _ _ Hsame). unfold apart. lia.
    + exists fl', m'. split; [rewrite E'; do 2 f_equal; lia|]. split; [by etransitivity|]. split; [lia|]. split; [done|]. split; [lia|].
      intros a. rewrite Hm', (sf_buffer _ _ Hsame), Emod. case_within; try lia.
      * rewrite <- Z.add_assoc, Em1 by lia. f_equal. lia.
      * unfold m1. assert (a = f_buffer fl + f_off fl mod 8192) as -> by lia. rewrite rd_wr_eq. f_equal. lia.
      * unfold m1. by rewrite rd_wr_ne by lia.
Qed.

(** One character out of a block. *)
Lemma getc_r_step s fp fl fl0 m m0 :
  fp <> 0 -> file_flags (f_flags fl0) -> load_block_r fp (with_file s fp fl0 m0) = Ret (with_file s fp fl m) ->
  f_off fl0 < f_fsize fl0 -> f_bsize fl = 8192 -> 0 <= f_off fl < 2 ^ 32 - 1 -> f_off fl mod 8192 < 8191 ->
  exists fl', getc_r fp (with_file s fp fl0 m0) = Ret (Z.land m⟦f_buffer fl + f_off fl mod 8192⟧ 0xff, with_file s fp fl' m) /\
    same_file fl fl' /\ f_off fl' = f_off fl + 1 /\ f_flags fl' = f_flags fl /\ f_fsize fl' = f_fsize fl.
Proof.
  intros Hfp Hf0 Hload Hlt Hbs Hoff Hlev. unfold getc_r. rewrite (proj2 (Z.eqb_neq fp 0) Hfp), get_with_file. cbn [mbind outcome_bind].
  destruct (file_flags_std fl0 Hf0) as (-> & -> & -> & ->). cbn [orb]. destruct (Z.geb_spec (f_off fl0) (f_fsize fl0)); [lia|].
  rewrite Hload. cbn [mbind outcome_bind]. rewrite get_with_file. cbn [mbind outcome_bind]. cbv zeta.
  destruct fl as [lv fg bs bf cu mo off off2 sz bp co nb dc de dv bk]. ufl. subst bs. cbn [Z.eqb].
  pose proof (Z.mod_pos_bound off 8192 ltac:(lia)) as Hmod.
  assert (s16 (off mod 8192) = off mod 8192) as -> by (unfold s16; rewrite Z.mod_small; lia).
  rewrite (u32_small (off mod 8192)) by lia. change (u32 (8192 - 1)) with 8191.
  destruct (Z.geb_spec (off mod 8192) 8191); [lia|]. ufl. rewrite (u32_small (off + 1)) by lia. rewrite put_with_file.
  eexists. split; [reflexivity|]. by split; [constructor|].
Qed.

(** Bytes read one after another from a block that has them all. *)
Lemma read_loop_spec k s fp fl fl0 m m0 dst rc :
  fp <> 0 -> file_flags (f_flags fl0) -> file_flags (f_flags fl) -> Z.land (f_flags fl) 0x10 <> 0 ->
  load_block_r fp (with_file s fp fl0 m0) = Ret (with_file s fp fl m) ->
  f_bsize fl = 8192 -> 0 <= f_off fl -> f_off fl0 = f_off fl -> f_fsize fl0 = f_fsize fl -> f_off fl mod 8192 + Z.of_nat (S k) <= 8191 ->
  f_off fl + Z.of_nat (S k) <= f_fsize fl -> f_fsize fl < 2 ^ 32 - 1 ->
  (forall i, 0 <= i < 8192 -> 0 <= m⟦f_buffer fl + i⟧ < 256) -> apart dst (Z.of_nat (S k)) (f_buffer fl) 8192 ->
  exists fl' m', read_loop (S k) dst fp rc (with_file s fp fl0 m0) = Ret (rc + Z.of_nat (S k), with_file s fp fl' m') /\
    same_file fl fl' /\ f_off fl' = f_off fl + Z.of_nat (S k) /\ f_fsize fl' = f_fsize fl /\
    forall a, m'⟦a⟧ = if within a dst (Z.of_nat (S k)) then m⟦f_buffer fl + f_off fl mod 8192 + (a - dst)⟧ else m⟦a⟧.
Proof.
  revert fl fl0 m m0 dst rc.
  induction k as [|k IH]; intros fl fl0 m m0 dst rc Hfp Hf0 Hf Hin Hload Hbs Hoff Eoff Esz Hlev Hend Hsz Hbytes Hap;
    (pose proof (Z.mod_pos_bound (f_off fl) 8192 ltac:(lia)) as Hmod);
    (destruct (getc_r_step s fp fl fl0 m m0) as (fl1 & E & Hsame & Hoff1 & Hfl1 & Hsz1); try done; try lia);
    (assert (0 <= m⟦f_buffer fl + f_off fl mod 8192⟧ < 256) as Hb by (apply Hbytes; lia));
    (rewrite (land_255_small _ Hb) in E); rewrite read_loop_S; rewrite E; cbn [mbind outcome_bind];
    (destruct (Z.eqb_spec m⟦f_buffer fl + f_off fl mod 8192⟧ EOF) as [Ee|_]; [unfold EOF in Ee; lia|]);
    rewrite (u8_small _ Hb), umem_with_file; change (umem (with_file s fp fl1 m)) with m.
  - eexists fl1, _. split; [reflexivity|]. split; [exact Hsame|]. split; [lia|]. split; [exact Hsz1|].
    intros a. rewrite rd_wr. case_within; try lia. subst a. f_equal. lia.
  - set (m1 := m⟦dst := m⟦f_buffer fl + f_off fl mod 8192⟧⟧) in *. unfold apart in Hap.
    assert (f_off fl1 mod 8192 = f_off fl mod 8192 + 1) as Emod by (rewrite Hoff1; Z.div_mod_to_equations; lia).
    assert (forall i, 0 <= i < 8192 -> m1⟦f_buffer fl + i⟧ = m⟦f_buffer fl + i⟧) as Em1 by (intros i Hi; unfold m1; rewrite rd_wr_ne by lia; done).
    destruct (IH fl1 fl1 m1 m1 (dst + 1) (rc + 1)) as (fl' & m' & E' & Hsame' & Hoff' & Hsz' & Hm'); clear IH; try done;
      rewrite ?Hfl1, ?(sf_bsize _ _ Hsame), ?(sf_buffer _ _ Hsame); try done; try lia.
    + apply load_block_r_loaded. rewrite Hfl1. by left.
    + intros i Hi. rewrite Em1 by done. by apply Hbytes.
    + unfold apart. lia.
    + exists fl', m'. split; [rewrite E'; do 2 f_equal; lia|]. split; [by etransitivity|]. split; [lia|]. split; [lia|].
      intros a. rewrite Hm', (sf_buffer _ _ Hsame), Emod. case_within; try lia.
      * replace (f_buffer fl + (f_off fl mod 8192 + 1) + (a - (dst + 1))) with (f_buffer fl + (f_off fl mod 8192 + (a - dst))) by lia.
        rewrite Em1 by lia. f_equal. lia.
      * unfold m1. assert (a = dst) as -> by lia. rewrite rd_wr_eq. f_equal. lia.
      * unfold m1. by rewrite rd_wr_ne by lia.
Qed.
(** ** Through the device *)

(** The stream [fl] at [fp] in the memory [m]: its name [N] and the table of its blocks, the first
    of which is at sector [S], do not meet its buffer. *)
Record placed m (B : gmap Z Z) fp fl (N : list Z) (tbl S : Z) : Prop := {
  pl_fp : fp <> 0;
  pl_bsize : f_bsize fl = 8192;
  pl_count : f_count fl = 16;
  pl_num : 1 <= f_num_of_blocks fl;
  pl_table : ld64 m (f_blocks fl) = tbl;
  pl_sector : ld32 m tbl = S;
  pl_name : cstr m (fname_at fp) N;
  pl_slash : no_slash N;
  pl_len : (length N <= 96)%nat /\ (length N < fuel)%nat;
  pl_live_name : live_range B (fname_at fp) (zlen N + 1);
  pl_live_table : live_range B (f_blocks fl) 8 /\ live_range B tbl 4;
  pl_live_buffer : live_range B (f_buffer fl) 8192;
  pl_apart_name : apart (fname_at fp) (zlen N + 1) (f_buffer fl) 8192;
  pl_apart_table : apart (f_blocks fl) 8 (f_buffer fl) 8192 /\ apart tbl 4 (f_buffer fl) 8192
}.

Lemma placed_ext m m' B fp fl fl' N tbl S :
  (forall a, live B a -> ~ f_buffer fl <= a < f_buffer fl + 8192 -> m'⟦a⟧ = m⟦a⟧) -> same_file fl fl' ->
  placed m B fp fl N tbl S -> placed m' B fp fl' N tbl S.
Proof.
  intros E [] []. unfold live_range, apart in *.
  assert (forall a n, (forall i, 0 <= i < n -> live B (a + i)) -> a + n <= f_buffer fl \/ f_buffer fl + 8192 <= a ->
    forall b, a <= b < a + n -> m'⟦b⟧ = m⟦b⟧) as E'.
  { intros a n Ha Hn b Hb. apply E; [replace b with (a + (b - a)) by lia; apply Ha; lia|lia]. }
  destruct pl_live_table0, pl_apart_table0.
  constructor; unfold live_range, apart; try congruence; try done.
  - rewrite sf_blocks0, <- pl_table0. apply ld_ext. eapply E'; [done|]. lia.
  - rewrite <- pl_sector0. apply ld_ext. eapply E'; [done|]. lia.
  - eapply cstr_ext; [|done]. intros b Hb. apply (E' (fname_at fp) (zlen N + 1)); [done|lia|lia].
  - by rewrite sf_blocks0.
  - by rewrite sf_buffer0.
  - by rewrite sf_buffer0, sf_blocks0.
Qed.

Lemma block_sector_placed m B fp fl N tbl S : placed m B fp fl N tbl S -> block_sector fl 0 m = S.
Proof.
  intros Hp. unfold block_sector. change (8 * Z.quot 0 1024) with 0. change (4 * Z.rem 0 1024) with 0. rewrite !Z.add_0_r.
  by rewrite (pl_table _ _ _ _ _ _ _ Hp), (pl_sector _ _ _ _ _ _ _ Hp).
Qed.

(** The block at sector [S] is none of the sectors of the super block and of the directory. *)
Record disk_layout (c : Z -> Z) (base rb S : Z) : Prop := {
  dl_super : super_on c base;
  dl_base : 0 <= base;
  dl_rb : 0 <= rb /\ rb * 16 + base < 2 ^ 32;
  dl_sector : 2 <= S /\ 2 <= rb * 16 + base;
  dl_apart : apart S 16 (rb * 16 + base) 16
}.

Lemma super_on_ext c c' base : (forall a, 512 <= a < 1024 -> c' a = c a) -> super_on c base -> super_on c' base.
Proof.
  intros E [E1 E2 E3]. assert (forall o, 0 <= o <= 508 -> word_of 4 c' (512 + o) = word_of 4 c (512 + o)) as El.
  { intros o Ho. apply word_of_ext. intros i Hi. apply E. lia. }
  constructor; by rewrite !El by lia.
Qed.

(** The block of the position comes into the buffer from the device. *)
Lemma load_block_r_reads s B fp fl m N tbl S :
  device_ok (udisk s) -> placed m B fp fl N tbl S -> Z.land (f_flags fl) 0x10 = 0 -> 0 <= f_off fl < 8192 -> f_off fl <= f_fsize fl ->
  f_fsize fl <> 0 ->
  exists m', load_block_r fp (with_file s fp fl m) = Ret (with_file s fp (set_f_flags (Z.lor (f_flags fl) 0x10) fl) m') /\
    (forall i, 0 <= i < 8192 -> m'⟦f_buffer fl + i⟧ = contents (udisk s) (512 * S + i)) /\
    forall a, ~ f_buffer fl <= a < f_buffer fl + 8192 -> m'⟦a⟧ = m⟦a⟧.
Proof.
  intros Hd Hp Hfl Hoff Hle Hsz. unfold load_block_r. rewrite get_with_file. cbn [mbind outcome_bind]. rewrite Hfl.
  rewrite (proj2 (Z.leb_le _ _) Hle), (proj2 (Z.eqb_neq _ _) Hsz). cbn [Z.eqb andb negb].
  rewrite (pl_bsize _ _ _ _ _ _ _ Hp). cbn [Z.eqb]. rewrite (Z.div_small (f_off fl) 8192) by lia. rewrite put_with_file.
  set (fl' := set_f_flags (Z.lor (f_flags fl) 0x10) fl). unfold file_read_block. rewrite get_with_file. cbn [mbind outcome_bind].
  change (u32 (s32 0)) with 0. change (s32 0) with 0. pose proof (pl_num _ _ _ _ _ _ _ Hp). change (f_num_of_blocks fl') with (f_num_of_blocks fl).
  destruct (Z.geb_spec 0 (f_num_of_blocks fl)); [lia|]. rewrite (proj2 (Z.eqb_neq fp 0) (pl_fp _ _ _ _ _ _ _ Hp)). cbn [orb].
  change (umem (with_file s fp fl' m)) with m. change (block_sector fl' 0 m) with (block_sector fl 0 m).
  rewrite (block_sector_placed _ _ _ _ _ _ _ Hp). change (f_count fl') with (f_count fl). rewrite (pl_count _ _ _ _ _ _ _ Hp).
  change (f_buffer fl') with (f_buffer fl). change (f_dv_num fl') with (f_dv_num fl).
  destruct (read_sector_ok (f_dv_num fl) 16 S (f_buffer fl) (with_file s fp fl' m) Hd) as (m' & E & Hin & Hout).
  exists m'. rewrite E. split; [reflexivity|]. split; [exact Hin|]. intros a Ha. apply Hout. lia.
Qed.

Lemma flush_r_spec s B fp fl N tbl S base rb e :
  let c := contents (udisk s) in
  let c1 a := if within a (512 * S) 8192 then (umem s)⟦f_buffer fl + (a - 512 * S)⟧ else c a in
  device_ok (udisk s) -> heap_ok (uheap s) B -> update_room (uheap s) -> disk_layout c base rb S ->
  ufiles s !! fp = Some fl -> placed (umem s) B fp fl N tbl S ->
  f_flags fl = 0x96 -> f_mode fl = 2 -> 0 <= f_off fl < 8192 -> 0 <= f_fsize fl < 2 ^ 32 ->
  f_dir_entry fl = e -> 0 <= e < 64 -> f_dir_cluster fl = rb ->
  (forall i, 0 <= i < 8192 -> 0 <= (umem s)⟦f_buffer fl + i⟧ < 256) ->
  exists s', flush_r fuel fp s = Ret (if e =? 0 then -1 else 0, s') /\ device_ok (udisk s') /\ heap_ok (uheap s') B /\
    (if e =? 0 then forall a, contents (udisk s') a = c1 a
     else entry_updated c1 (contents (udisk s')) (dir_pos base rb + e * 128) N (f_fsize fl)) /\
    (forall a, live B a -> (umem s')⟦a⟧ = (umem s)⟦a⟧) /\ ufiles s' = ufiles s.
Proof.
  intros c c1 Hd Hh Hroom Hlay Hfile Hp Hflags Hmode Hoff Hsz He Her Hrb Hbytes.
  assert (get_ufile fp s = Ret fl) as Eg by (unfold get_ufile; by rewrite Hfile).
  unfold flush_r. rewrite (proj2 (Z.eqb_neq fp 0) (pl_fp _ _ _ _ _ _ _ Hp)), Eg. cbn [mbind outcome_bind]. rewrite Hflags, Hmode.
  change (Z.land 0x96 0x6 =? 0) with false. change (Z.land 0x96 0x80 =? 0) with false. change (Z.land 0x96 0x40 =? 0) with true. cbn [orb negb Z.eqb Pos.eqb].
  rewrite (pl_bsize _ _ _ _ _ _ _ Hp). cbn [Z.eqb]. rewrite (Z.div_small (f_off fl) 8192) by lia. change (s32 0) with 0.
  unfold file_write_block. rewrite Eg. cbn [mbind outcome_bind]. change (u32 0) with 0. pose proof (pl_num _ _ _ _ _ _ _ Hp).
  destruct (Z.geb_spec 0 (f_num_of_blocks fl)); [lia|]. rewrite (proj2 (Z.eqb_neq fp 0) (pl_fp _ _ _ _ _ _ _ Hp)). cbn [orb].
  rewrite (block_sector_placed _ _ _ _ _ _ _ Hp), (pl_count _ _ _ _ _ _ _ Hp).
  destruct (write_sector_ok (f_dv_num fl) 16 S (f_buffer fl) s Hd Hbytes) as (d1 & Ew & Hd1 & Hc1).
  rewrite Ew. cbn [mbind outcome_bind]. destruct Hlay as [Hsup Hb0 [Hr0 Hmax] [HS Hdir] Hap]. unfold apart in Hap.
  destruct (file_update_spec fuel fp fl N e (set_udisk d1 s) B base rb) as (s' & E' & Hd' & Hh' & Hu & Hl & Hf); try done.
  - apply (super_on_ext c); [|done]. intros a Ha. change (udisk (set_udisk d1 s)) with d1. rewrite Hc1, not_within by lia. done.
  - apply Hp.
  - apply Hp.
  - apply Hp.
  - apply Hp.
  - apply Hp.
  - exists s'. split; [exact E'|]. split; [exact Hd'|]. split; [exact Hh'|]. split; [|done].
    change (udisk (set_udisk d1 s)) with d1 in Hu. destruct (e =? 0).
    + intros a. rewrite Hu. apply Hc1.
    + destruct Hu as [U1 U2 U3]. constructor; [done|done|]. intros a A1 A2. rewrite U3 by done. apply Hc1.
Qed.
(** A stream at the start of its file, open for writing, nothing in its buffer yet. *)
Record fresh_stream s (B : gmap Z Z) fp fl (N : list Z) (tbl S base rb e : Z) : Prop := {
  fr_device : device_ok (udisk s);
  fr_heap : heap_ok (uheap s) B;
  fr_room : update_room (uheap s);
  fr_layout : disk_layout (contents (udisk s)) base rb S;
  fr_file : ufiles s !! fp = Some fl;
  fr_placed : placed (umem s) B fp fl N tbl S;
  fr_flags : f_flags fl = 0x6;
  fr_mode : f_mode fl = 2;
  fr_off : f_off fl = 0;
  fr_size : 0 <= f_fsize fl < 2 ^ 31;
  fr_entry : f_dir_entry fl = e /\ 0 <= e < 64;
  fr_cluster : f_dir_cluster fl = rb;
  fr_bytes : forall i, 0 <= i < 8192 -> 0 <= (umem s)⟦f_buffer fl + i⟧ < 256
}.

(** What the program hands to a call: [n] bytes, away from the buffer of the stream. *)
Definition user_bytes m (a n : Z) fl : Prop := (forall i, 0 <= i < n -> 0 <= m⟦a + i⟧ < 256) /\ apart a n (f_buffer fl) 8192.

(** Writing at the start of a file. *)
Lemma fwrite_fresh s B fp fl N tbl S base rb e src n :
  fresh_stream s B fp fl N tbl S base rb e -> 1 <= n <= 8191 -> user_bytes (umem s) src n fl ->
  exists fl' m', fwrite fuel stdout_ term_fg_color term_bg_color src 1 n fp s = Ret (n, with_file s fp fl' m') /\
    same_file fl fl' /\ f_off fl' = n /\ f_flags fl' = 0x96 /\ f_fsize fl' = Z.max (f_fsize fl) n /\
    (forall i, 0 <= i < n -> m'⟦f_buffer fl + i⟧ = (umem s)⟦src + i⟧) /\
    (forall i, 0 <= i < 8192 -> 0 <= m'⟦f_buffer fl + i⟧ < 256) /\
    forall a, ~ f_buffer fl <= a < f_buffer fl + 8192 -> m'⟦a⟧ = (umem s)⟦a⟧.
Proof.
  intros Hfr Hn [Hsrc Hap]. pose proof (fr_size _ _ _ _ _ _ _ _ _ _ Hfr) as Hsz. pose proof (fr_off _ _ _ _ _ _ _ _ _ _ Hfr) as Hoff.
  assert (exists fl1 m1, load_block_r fp (with_file s fp fl (umem s)) = Ret (with_file s fp fl1 m1) /\ same_file fl fl1 /\
    f_off fl1 = 0 /\ f_fsize fl1 = f_fsize fl /\ file_flags (f_flags fl1) /\ (forall i, 0 <= i < 8192 -> 0 <= m1⟦f_buffer fl + i⟧ < 256) /\
    forall a, ~ f_buffer fl <= a < f_buffer fl + 8192 -> m1⟦a⟧ = (umem s)⟦a⟧) as (fl1 & m1 & El & Hs1 & Ho1 & Hz1 & Hf1 & Hb1 & Hm1).
  { destruct (decide (f_fsize fl = 0)) as [E0|E0].
    - exists fl, (umem s). split; [apply load_block_r_loaded; by right|]. split; [done|]. split; [done|]. split; [done|].
      split; [left; apply Hfr|]. split; [apply Hfr|done].
    - destruct (load_block_r_reads s B fp fl (umem s) N tbl S) as (m1 & El & Hin & Hout); try apply Hfr; try lia.
      { by rewrite (fr_flags _ _ _ _ _ _ _ _ _ _ Hfr). }
      eexists _, m1. split; [exact El|]. split; [by constructor|]. split; [exact Hoff|]. split; [done|]. split.
      + right; left. cbn. by rewrite (fr_flags _ _ _ _ _ _ _ _ _ _ Hfr).
      + split; [|exact Hout]. intros i Hi. rewrite Hin by done. apply contents_byte, Hfr. }
  assert (Z.to_nat (u64 (1 * n)) = Datatypes.S (Z.to_nat (n - 1))) as En by (rewrite u64_small by lia; lia).
  assert (Z.of_nat (Datatypes.S (Z.to_nat (n - 1))) = n) as En' by lia.
  destruct (write_loop_spec (Z.to_nat (n - 1)) s fp fl1 fl m1 (umem s) src 0) as (fl' & m' & E & Hs & Ho & Hf & Hz & Hm);
    rewrite ?En', ?Ho1, ?Hz1 in *; change (0 mod 8192) with 0 in *; rewrite ?Z.add_0_r, ?Z.add_0_l in *;
    try done; try lia; try apply Hfr.
  - left. apply Hfr.
  - rewrite (sf_bsize _ _ Hs1). apply Hfr.
  - intros i Hi. unfold apart in Hap. split; [apply Hm1; lia|by apply Hsrc].
  - by rewrite (sf_buffer _ _ Hs1).
  - exists fl', m'. rewrite (sf_buffer _ _ Hs1) in Hm.
    rewrite with_file_refl in E by apply Hfr.
    split; [|split; [by etransitivity|]]; [|split; [done|]; split; [done|]; split; [done|]; split; [|split]].
    + unfold fwrite, write_r. rewrite (proj2 (Z.eqb_neq fp 0)) by apply Hfr. rewrite En, E. cbn [mbind outcome_bind Z.eqb]. by rewrite Z.div_1_r.
    + intros i Hi. rewrite Hm. case_within; [f_equal; lia|lia].
    + intros i Hi. rewrite Hm. case_within; [|by apply Hb1]. replace (src + (f_buffer fl + i - f_buffer fl)) with (src + i) by lia. apply Hsrc. lia.
    + intros a Ha. rewrite Hm, not_within by lia. by apply Hm1.
Qed.

(** Reading from the start of a file: the bytes come from the device. *)
Lemma rewind_fread s B fp fl N tbl S dst n :
  device_ok (udisk s) -> ufiles s !! fp = Some fl -> placed (umem s) B fp fl N tbl S -> f_flags fl = 0x96 ->
  1 <= n <= 8191 -> n <= f_fsize fl < 2 ^ 32 - 1 -> apart dst n (f_buffer fl) 8192 ->
  exists s3 s4, rewind fp s = Ret s3 /\ fread dst 1 n fp s3 = Ret (n, s4) /\ udisk s4 = udisk s /\
    forall i, 0 <= i < n -> (umem s4)⟦dst + i⟧ = contents (udisk s) (512 * S + i).
Proof.
  intros Hd Hfile Hp Hfl Hn Hsz Hap. unfold rewind, rewind_r, get_ufile. rewrite (proj2 (Z.eqb_neq fp 0)) by apply Hp. rewrite Hfile.
  cbn [mbind outcome_bind]. rewrite Hfl. change (Z.land 0x96 (Z.lnot 0x10)) with 0x86. set (fl3 := set_f_flags 0x86 _). exists (put_ufile fp fl3 s).
  assert (same_file fl fl3) as Hs by by constructor.
  assert (placed (umem s) B fp fl3 N tbl S) as Hp3 by (by apply (placed_ext (umem s) (umem s) B fp fl)).
  destruct (load_block_r_reads s B fp fl3 (umem s) N tbl S Hd Hp3) as (m1 & El & Hin & Hout); try done; try (cbn; lia).
  set (fl4 := set_f_flags (Z.lor (f_flags fl3) 0x10) fl3) in *.
  assert (Z.to_nat (u64 (1 * n)) = Datatypes.S (Z.to_nat (n - 1))) as En by (rewrite u64_small by lia; lia).
  assert (Z.of_nat (Datatypes.S (Z.to_nat (n - 1))) = n) as En' by lia.
  destruct (read_loop_spec (Z.to_nat (n - 1)) s fp fl4 fl3 m1 (umem s) dst 0) as (fl' & m' & E & _ & _ & _ & Hm);
    rewrite ?En' in *; try done; try (cbn; lia); try apply Hp.
  - by right; right; left.
  - by right; right; right.
  - change (f_off fl4) with 0. change (0 mod 8192) with 0. lia.
  - intros i Hi. change (f_buffer fl4) with (f_buffer fl3). rewrite Hin by done. by apply contents_byte.
  - exists (with_file s fp fl' m'). split; [reflexivity|]. split; [|split; [done|]].
    + change (put_ufile fp fl3 s) with (with_file s fp fl3 (umem s)). unfold fread, read_r. rewrite (proj2 (Z.eqb_neq fp 0)) by apply Hp.
      rewrite En. rewrite E. cbn [mbind outcome_bind Z.eqb]. by rewrite Z.div_1_r.
    + intros i Hi. change (m'⟦dst + i⟧ = contents (udisk s) (512 * S + i)). rewrite Hm. case_within; [|lia].
      change (f_off fl4) with 0. change (0 mod 8192) with 0. change (f_buffer fl4) with (f_buffer fl3).
      rewrite <- Hin by lia. f_equal. lia.
Qed.

(** C27: bytes written to the start of a file, flushed, and read again after a rewind are the bytes
    written, for any number that leaves room in the block: [fwrite] keeps them in the buffer; [fflush]
    writes them to the first block of the file and the new size into its directory entry, and nothing
    else changes there but the name; [rewind] and [fread] bring them back through the device.  When
    the file has the entry 0 of its directory, [fflush] fails after it wrote the block, and the entry keeps
    the old size. *)
Theorem write_flush_read s B fp fl N tbl S base rb e src dst n :
  fresh_stream s B fp fl N tbl S base rb e -> 1 <= n <= 8191 -> user_bytes (umem s) src n fl -> apart dst n (f_buffer fl) 8192 ->
  exists s1 s2 s3 s4,
    fwrite fuel stdout_ term_fg_color term_bg_color src 1 n fp s = Ret (n, s1) /\ udisk s1 = udisk s /\
    fflush fuel fp s1 = Ret (if e =? 0 then -1 else 0, s2) /\
    (forall i, 0 <= i < n -> contents (udisk s2) (512 * S + i) = (umem s)⟦src + i⟧) /\
    (forall a, ~ 512 * S <= a < 512 * S + 8192 ->
       (e <> 0 -> ~ dir_pos base rb + e * 128 <= a < dir_pos base rb + e * 128 + 97) ->
       (e <> 0 -> ~ dir_pos base rb + e * 128 + 111 <= a < dir_pos base rb + e * 128 + 115) ->
       contents (udisk s2) a = contents (udisk s) a) /\
    (e <> 0 -> cells (contents (udisk s2)) (dir_pos base rb + e * 128) 96 = entry_name N /\
       word_of 4 (contents (udisk s2)) (dir_pos base rb + e * 128 + 111) = Z.max (f_fsize fl) n) /\
    rewind fp s2 = Ret s3 /\ fread dst 1 n fp s3 = Ret (n, s4) /\
    forall i, 0 <= i < n -> (umem s4)⟦dst + i⟧ = (umem s)⟦src + i⟧.
Proof.
  intros Hfr Hn Hsrc Hdst. destruct (fwrite_fresh _ _ _ _ _ _ _ _ _ _ src n Hfr Hn Hsrc) as (fl1 & m1 & E1 & Hs1 & Ho1 & Hf1 & Hz1 & Hb1 & Hr1 & Hm1).
  pose proof (fr_size _ _ _ _ _ _ _ _ _ _ Hfr) as Hsz. pose proof (fr_entry _ _ _ _ _ _ _ _ _ _ Hfr) as [He Her].
  pose proof (fr_layout _ _ _ _ _ _ _ _ _ _ Hfr) as Hlay.
  assert (placed m1 B fp fl1 N tbl S) as Hp1 by (eapply placed_ext; [|exact Hs1|apply Hfr]; intros a _ Ha; by apply Hm1).
  set (s1 := with_file s fp fl1 m1) in *.
  destruct (flush_r_spec s1 B fp fl1 N tbl S base rb e) as (s2 & E2 & Hd2 & Hh2 & Hu2 & Hl2 & Hf2); try apply Hfr; try done; try lia.
  { apply with_file_file. }
  { rewrite (sf_mode _ _ Hs1). apply Hfr. }
  { by rewrite (sf_entry _ _ Hs1). }
  { rewrite (sf_cluster _ _ Hs1). apply Hfr. }
  { rewrite (sf_buffer _ _ Hs1). exact Hr1. }
  change (umem s1) with m1 in *. change (udisk s1) with (udisk s) in *.
  assert (ufiles s2 !! fp = Some fl1) as Hfile2 by (rewrite Hf2; apply with_file_file).
  assert (placed (umem s2) B fp fl1 N tbl S) as Hp2 by (eapply placed_ext; [|reflexivity|exact Hp1]; intros a Ha _; by apply Hl2).
  destruct (rewind_fread s2 B fp fl1 N tbl S dst n Hd2 Hfile2 Hp2 Hf1 Hn) as (s3 & s4 & E3 & E4 & _ & Hread);
    [lia|by rewrite (sf_buffer _ _ Hs1)|].
  destruct Hlay as [_ Hb0 [Hr0 _] _ Hap]. unfold apart in Hap.
  assert (forall i, 0 <= i < n -> contents (udisk s2) (512 * S + i) = (umem s)⟦src + i⟧) as Hblock.
  { intros i Hi. transitivity m1⟦f_buffer fl1 + (512 * S + i - 512 * S)⟧.
    - destruct (e =? 0).
      + rewrite Hu2. case_within; [done|lia].
      + rewrite (eu_rest _ _ _ _ _ Hu2) by (unfold dir_pos; lia). case_within; [done|lia].
    - rewrite (sf_buffer _ _ Hs1). rewrite <- Hb1 by done. f_equal. lia. }
  exists s1, s2, s3, s4. split; [exact E1|]. split; [done|]. split; [exact E2|]. split; [exact Hblock|]. split; [|split; [|split; [exact E3|split; [exact E4|]]]].
  - intros a A1 A2 A3. destruct (Z.eqb_spec e 0) as [E0|E0]; [rewrite Hu2|rewrite (eu_rest _ _ _ _ _ Hu2) by auto]; by rewrite not_within by lia.
  - intros E0. destruct (Z.eqb_spec e 0); [done|]. split; [apply Hu2|]. rewrite (eu_size _ _ _ _ _ Hu2). exact Hz1.
  - intros i Hi. rewrite Hread by done. by apply Hblock.
Qed.

(** What was written and not flushed is lost by a [rewind]: the reads that follow take the block
    from the device again, which the writes have not reached. *)
Theorem rewind_discards s B fp fl N tbl S base rb e src dst n :
  fresh_stream s B fp fl N tbl S base rb e -> 1 <= n <= 8191 -> user_bytes (umem s) src n fl -> apart dst n (f_buffer fl) 8192 ->
  exists s1 s3 s4, fwrite fuel stdout_ term_fg_color term_bg_color src 1 n fp s = Ret (n, s1) /\
    rewind fp s1 = Ret s3 /\ fread dst 1 n fp s3 = Ret (n, s4) /\ udisk s4 = udisk s /\
    forall i, 0 <= i < n -> (umem s4)⟦dst + i⟧ = contents (udisk s) (512 * S + i).
Proof.
  intros Hfr Hn Hsrc Hdst. destruct (fwrite_fresh _ _ _ _ _ _ _ _ _ _ src n Hfr Hn Hsrc) as (fl1 & m1 & E1 & Hs1 & Ho1 & Hf1 & Hz1 & _ & _ & Hm1).
  pose proof (fr_size _ _ _ _ _ _ _ _ _ _ Hfr) as Hsz.
  assert (placed m1 B fp fl1 N tbl S) as Hp1 by (eapply placed_ext; [|exact Hs1|apply Hfr]; intros a _ Ha; by apply Hm1).
  destruct (rewind_fread (with_file s fp fl1 m1) B fp fl1 N tbl S dst n) as (s3 & s4 & E3 & E4 & Hd & Hread); try done; try lia.
  - apply Hfr.
  - apply with_file_file.
  - by rewrite (sf_buffer _ _ Hs1).
  - exists (with_file s fp fl1 m1), s3, s4. split; [exact E1|]. split; [exact E3|]. split; [exact E4|]. split; [exact Hd|exact Hread].
Qed.
End streams.

(** ** The pointers of the streams *)

(** The stream has a buffer whose length a short holds, and its pointer, once it was set, stands inside it. *)
Record stream_ok (fl : UFILE) : Prop := {
  ok_bsize : 0 < f_bsize fl < 2 ^ 15;
  ok_level : 0 <= f_level fl < f_bsize fl;
  ok_off : 0 <= f_off fl;
  ok_off2 : 0 <= f_off2 fl;
  ok_curp : f_curp fl = 0 \/ f_buffer fl <= f_curp fl < f_buffer fl + f_bsize fl
}.

Create HintDb ustdio.

Section pointers.
Context {H D : Type} `{Allocator H} `{BlockDevice D}.
Context (fuel : nat) (stdin_ stdout_ term_fg_color term_bg_color : Z).
(** The streams that were open at first. *)
Context (s0 : ufs H D).
Implicit Types (s : ufs H D) (fp v : Z) (fl : UFILE).

(** [fl] is the stream that was open at [fp], elsewhere perhaps, and in order. *)
Definition fits fp fl : Prop := exists a, ufiles s0 !! fp = Some a /\ same_file a fl /\ stream_ok fl.

Definition streams_fit s : Prop :=
  (forall fp fl, ufiles s !! fp = Some fl -> fits fp fl) /\ forall fp, ufiles s !! fp = None -> ufiles s0 !! fp = None.

Lemma fits_set fp fl fl' : fits fp fl -> same_file fl fl' -> stream_ok fl' -> fits fp fl'.
Proof. intros (a & Ha & Hs & _) Hs' Hok. exists a. split; [done|]. split; [by etrans|done]. Qed.

Lemma fits_ok fp fl : fits fp fl -> stream_ok fl.
Proof. by intros (a & _ & _ & Hok). Qed.

Lemma fits_flags fp fl v : fits fp fl -> fits fp (set_f_flags v fl).
Proof. intros Hf. apply (fits_set fp fl); [done|by constructor|]. by destruct (fits_ok _ _ Hf); constructor. Qed.

Lemma fits_fsize fp fl v : fits fp fl -> fits fp (set_f_fsize v fl).
Proof. intros Hf. apply (fits_set fp fl); [done|by constructor|]. by destruct (fits_ok _ _ Hf); constructor. Qed.

Lemma fits_off fp fl v : 0 <= v -> fits fp fl -> fits fp (set_f_off v fl).
Proof. intros Hv Hf. apply (fits_set fp fl); [done|by constructor|]. by destruct (fits_ok _ _ Hf); constructor. Qed.

Lemma fits_off2 fp fl v : 0 <= v -> fits fp fl -> fits fp (set_f_off2 v fl).
Proof. intros Hv Hf. apply (fits_set fp fl); [done|by constructor|]. by destruct (fits_ok _ _ Hf); constructor. Qed.

Lemma fits_level_0 fp fl : fits fp fl -> fits fp (set_f_level 0 fl).
Proof.
  intros Hf. apply (fits_set fp fl); [done|by constructor|]. destruct (fits_ok _ _ Hf). constructor; try done. ufl. lia.
Qed.

Lemma fits_curp fp fl v : f_buffer fl <= v < f_buffer fl + f_bsize fl -> fits fp fl -> fits fp (set_f_curp v fl).
Proof.
  intros Hv Hf. apply (fits_set fp fl); [done|by constructor|]. destruct (fits_ok _ _ Hf). constructor; try done. by right.
Qed.

(** The position inside the block, where the pointer then goes. *)
Lemma fits_level fp fl v : fits fp fl -> fits fp (set_f_level (s16 (v mod f_bsize fl)) fl).
Proof.
  intros Hf. apply (fits_set fp fl); [done|by constructor|]. destruct (fits_ok _ _ Hf). constructor; try done. ufl.
  pose proof (Z.mod_pos_bound v (f_bsize fl) ltac:(lia)). unfold s16. rewrite Z.mod_small; lia.
Qed.

Lemma fits_at_level fp fl : fits fp fl -> fits fp (set_f_curp (f_buffer fl + f_level fl) fl).
Proof. intros Hf. apply fits_curp; [|done]. destruct (fits_ok _ _ Hf). lia. Qed.

Lemma u32_pos v : 0 <= u32 v.
Proof. apply u32_range. Qed.

Lemma fits_wrap_off2 fp fl : fits fp fl -> fits fp (wrap_off2 fl).
Proof. unfold wrap_off2. intros Hf. destruct (f_off2 fl >=? f_bsize fl); [by apply fits_off2|done]. Qed.

#[local] Hint Resolve fits_flags fits_fsize fits_off fits_off2 fits_level_0 fits_level fits_at_level fits_wrap_off2 u32_pos : ustdio.
#[local] Hint Extern 1 (0 <= 0) => lia : ustdio.

Lemma get_fits s fp fl : streams_fit s -> get_ufile fp s = Ret fl -> fits fp fl.
Proof. unfold get_ufile. intros [Hs _] E. destruct (ufiles s !! fp) eqn:El; [|done]. injection E as <-. by apply Hs. Qed.

Lemma put_fits s fp fl : streams_fit s -> fits fp fl -> streams_fit (put_ufile fp fl s).
Proof.
  intros [Hs Hn] Hf. split.
  - intros p g Hp. cbn [put_ufile ufiles set_ufiles] in Hp. apply lookup_insert_Some in Hp as [[<- <-]|[_ Hp]]; [done|by apply Hs].
  - intros p Hp. cbn [put_ufile ufiles set_ufiles] in Hp. apply lookup_insert_None in Hp as [Hp _]. by apply Hn.
Qed.

Lemma umem_fits s m : streams_fit s -> streams_fit (set_umem m s).
Proof. done. Qed.

Lemma ufiles_fit s s' : ufiles s' = ufiles s -> streams_fit s -> streams_fit s'.
Proof. unfold streams_fit. by intros ->. Qed.
(** [run E] follows the steps of a call that returned. *)
Ltac run E :=
  repeat (cbv zeta in E; match type of E with
  | _ ≫= _ = Ret _ =>
      let a := fresh "a" in let Ea := fresh "Ea" in
      apply outcome_bind_ret in E; destruct E as (a & Ea & E); match type of a with prod _ _ => destruct a as [? ?] | _ => idtac end; cbn beta iota in E
  | (if ?b then _ else _) = Ret _ => destruct b eqn:?
  | Ret _ = Ret _ => injection E; clear E; intros; subst
  | Undef = Ret _ => discriminate E
  | Hang = Ret _ => discriminate E
  | NoFuel = Ret _ => discriminate E
  end).

Lemma read_sector_ufiles dev n addr buf s : ufiles (read_sector dev n addr buf s).2 = ufiles s.
Proof. unfold read_sector. by destruct (sector_read n addr (udisk s)). Qed.

Lemma write_sector_ufiles dev n addr buf s : ufiles (write_sector dev n addr buf s).2 = ufiles s.
Proof. unfold write_sector. by destruct (sector_write n addr _ (udisk s)). Qed.

Lemma uzalloc_ufiles n s a s' : uzalloc n s = Ret (a, s') -> ufiles s' = ufiles s.
Proof. unfold uzalloc, umalloc. intros E. run E. run Ea. done. Qed.

Lemma ufree_ufiles a s s' : ufree a s = Ret s' -> ufiles s' = ufiles s.
Proof. unfold ufree. intros E. by run E. Qed.

Lemma file_read_block_ufiles fp addr s r s' : file_read_block fp addr s = Ret (r, s') -> ufiles s' = ufiles s.
Proof.
  unfold file_read_block. intros E. run E; [done|].
  match goal with Er : read_sector ?d ?n ?a ?b ?x = _ |- _ => pose proof (read_sector_ufiles d n a b x) as Hu; by rewrite Er in Hu end.
Qed.

Lemma file_write_block_ufiles fp addr s r s' : file_write_block fp addr s = Ret (r, s') -> ufiles s' = ufiles s.
Proof.
  unfold file_write_block. intros E. run E; [done|].
  match goal with Er : write_sector ?d ?n ?a ?b ?x = _ |- _ => pose proof (write_sector_ufiles d n a b x) as Hu; by rewrite Er in Hu end.
Qed.

Lemma update_directory_entry_ufiles f p fp s r s' : update_directory_entry fuel f p fp s = Ret (r, s') -> ufiles s' = ufiles s.
Proof.
  unfold update_directory_entry. intros E. run E; try done.
  match goal with H : uzalloc _ _ = Ret _ |- _ => apply uzalloc_ufiles in H as Hz end.
  match type of E with context [read_sector ?d ?n ?a ?b ?x] => pose proof (read_sector_ufiles d n a b x) as Hr; destruct (read_sector d n a b x) as [r1 s1] end.
  cbn in Hr. run E.
  - apply ufree_ufiles in Ea1. congruence.
  - match type of E with context [write_sector ?d ?n ?a ?b ?x] => pose proof (write_sector_ufiles d n a b x) as Hw; destruct (write_sector d n a b x) as [r2 s2] end.
    cbn in Hw. run E. apply ufree_ufiles in Ea3. congruence.
Qed.

Lemma file_update_ufiles fp s r s' : file_update fuel fp s = Ret (r, s') -> ufiles s' = ufiles s.
Proof.
  unfold file_update. intros E. run E. apply uzalloc_ufiles in Ea. unfold read_super_block in E.
  match type of E with context [read_sector ?d ?n ?a ?b ?x] => pose proof (read_sector_ufiles d n a b x) as Hr; destruct (read_sector d n a b x) as [r1 s1] end.
  cbn in Hr. run E.
  - apply ufree_ufiles in Ea0. congruence.
  - apply update_directory_entry_ufiles in Ea0. apply ufree_ufiles in Ea1. congruence.
Qed.
(** [fit] proves that a state is in order, from the states and streams it was made of. *)
Ltac fit :=
  lazymatch goal with
  | |- streams_fit (put_ufile _ _ _) => apply put_fits; fit
  | |- streams_fit (set_umem _ _) => apply umem_fits; fit
  | |- streams_fit (if ?b then _ else _) => destruct b; fit
  | |- fits _ (if ?b then _ else _) => destruct b; fit
  | |- fits _ _ => solve [auto 12 with ustdio]
  | |- _ => assumption
  end.

(** [got H] records that the stream that [H] found is in order. *)
Ltac got H := match type of H with get_ufile ?fp ?s = Ret ?fl => assert (fits fp fl) by (apply (get_fits s fp fl); [fit|exact H]) end.

(** [stdputc_r] on the standard output changes no other stream, and does not return when that one is an error stream. *)
Lemma stdputc_stdout n c s r s' fp : stdputc_r stdout_ term_fg_color term_bg_color n c stdout_ s = Ret (r, s') ->
  fp <> stdout_ -> ufiles s' !! fp = ufiles s !! fp.
Proof.
  revert s r s'. induction n as [|n IH]; intros s r s' E Hne; [done|]. cbn [stdputc_r] in E.
  apply outcome_bind_ret in E as (fl & Eg & E). cbv zeta in E. set (fl1 := if _ || _ then _ else fl) in E.
  apply outcome_bind_ret in E as (s1 & E1 & E). cbn beta in E.
  assert (ufiles s1 !! fp = ufiles s !! fp) as <-.
  { assert (ufiles (put_ufile stdout_ fl1 s) !! fp = ufiles s !! fp) as <- by (by apply lookup_insert_ne).
    destruct (f_flags fl1 =? 4); run E1; [|done].
    match goal with H : stdputc_r _ _ _ _ _ _ _ = _ |- _ => exact (IH _ _ _ H Hne) end. }
  apply outcome_bind_ret in E as (fl2 & Eg2 & E). cbn beta in E. run E; by apply lookup_insert_ne.
Qed.

Lemma stdputc_loops n c s fl r : get_ufile stdout_ s = Ret fl -> f_flags fl = 4 ->
  stdputc_r stdout_ term_fg_color term_bg_color n c stdout_ s <> Ret r.
Proof.
  revert s fl r. induction n as [|n IH]; intros s fl r Eg Hf E; [done|]. cbn [stdputc_r] in E. rewrite Eg in E.
  cbn [mbind outcome_bind] in E. cbv zeta in E. set (fl1 := if _ || _ then _ else fl) in E.
  assert (f_flags fl1 = 4) as Hf1 by (subst fl1; by destruct (_ || _)).
  rewrite Hf1 in E. change (4 =? 4) with true in E. cbv iota in E.
  apply outcome_bind_ret in E as (s1 & E1 & _). apply outcome_bind_ret in E1 as (r1 & E1 & _).
  refine (IH _ fl1 r1 _ Hf1 E1). unfold get_ufile, put_ufile. cbn [ufiles set_ufiles]. by rewrite lookup_insert_eq.
Qed.

Lemma stdputc_r_fits n c fp s r s' : streams_fit s ->
  stdputc_r stdout_ term_fg_color term_bg_color n c fp s = Ret (r, s') -> streams_fit s'.
Proof.
  revert fp s r s'. induction n as [|n IH]; intros fp s r s' Hs E; [done|]. cbn [stdputc_r] in E.
  apply outcome_bind_ret in E as (fl & Eg & E). got Eg. cbv zeta in E. set (fl1 := if _ || _ then _ else fl) in E.
  assert (fits fp fl1) as Hf1 by (subst fl1; fit).
  assert (f_off fl1 < f_bsize fl1) as Hoff.
  { subst fl1. destruct (fits_ok _ _ Hf1). destruct (u32 (f_level fl) >=? f_bsize fl); cbn [orb] in *; [ufl; lia|].
    destruct (Z.geb_spec (f_off fl) (f_bsize fl)); ufl; lia. }
  clearbody fl1. apply outcome_bind_ret in E as (s1 & E1 & E). cbn beta in E.
  assert (streams_fit s1 /\ ufiles s1 !! fp = Some fl1) as [Hs1 Hl1].
  { destruct (Z.eqb_spec (f_flags fl1) 4) as [H4|_]; run E1.
    - match goal with H : stdputc_r _ _ _ _ _ _ _ = _ |- _ => rename H into E2 end. split; [eapply IH; [|exact E2]; fit|].
      destruct (decide (fp = stdout_)) as [->|Hne].
      + exfalso. refine (stdputc_loops _ _ _ fl1 _ _ H4 E2). unfold get_ufile, put_ufile. cbn [ufiles set_ufiles]. by rewrite lookup_insert_eq.
      + rewrite (stdputc_stdout _ _ _ _ _ fp E2 Hne). apply lookup_insert_eq.
    - split; [fit|apply lookup_insert_eq]. }
  apply outcome_bind_ret in E as (fl2 & Eg2 & E). unfold get_ufile in Eg2. rewrite Hl1 in Eg2. injection Eg2 as <-.
  cbn beta in E. assert (fits fp (set_f_curp (f_buffer fl1 + f_off fl1) fl1)) as Hc
    by (apply fits_curp; [destruct (fits_ok _ _ Hf1); lia|done]).
  run E; fit.
Qed.

(** What [wrap_off2] prepared is inside the buffer. *)
Lemma take_byte_fits k fp fl s r s' : streams_fit s -> fits fp fl ->
  take_byte k fp (wrap_off2 fl) s = Ret (r, s') -> streams_fit s'.
Proof.
  unfold take_byte. intros Hs Hf E. run E. apply put_fits; [done|]. apply fits_off2; [apply u32_pos|].
  pose proof (fits_wrap_off2 _ _ Hf) as Hw. apply fits_curp; [|done]. destruct (fits_ok _ _ Hw).
  unfold wrap_off2 in *. destruct (Z.geb_spec (f_off2 fl) (f_bsize fl)); ufl; lia.
Qed.

Lemma stdgetc_r_fits fp s r s' : streams_fit s -> stdgetc_r fp s = Ret (r, s') -> streams_fit s'.
Proof.
  unfold stdgetc_r. intros Hs E. apply outcome_bind_ret in E as (fl & Eg & E). got Eg.
  assert (streams_fit (put_ufile fp (wrap_off2 fl) s)) by fit.
  run E; try done; by eapply (take_byte_fits _ fp fl).
Qed.

Lemma getkey_fits s r s' : streams_fit s -> getkey stdin_ s = Ret (r, s') -> streams_fit s'.
Proof.
  unfold getkey. intros Hs E. apply outcome_bind_ret in E as (fl & Eg & E). got Eg.
  assert (streams_fit (put_ufile stdin_ (wrap_off2 fl) s)) by fit.
  run E; try done; by eapply (take_byte_fits _ stdin_ fl).
Qed.

Lemma getkeyw_fits s r s' : streams_fit s -> getkeyw stdin_ s = Ret (r, s') -> streams_fit s'.
Proof.
  unfold getkeyw. intros Hs E. apply outcome_bind_ret in E as (fl & Eg & E). got Eg.
  assert (streams_fit (put_ufile stdin_ (wrap_off2 fl) s)) by fit.
  run E; try done; by eapply (take_byte_fits _ stdin_ fl).
Qed.

Lemma load_block_r_fits fp s s' : streams_fit s -> load_block_r fp s = Ret s' -> streams_fit s'.
Proof.
  unfold load_block_r. intros Hs E. apply outcome_bind_ret in E as (fl & Eg & E). got Eg. cbn beta in E. run E; [|done].
  apply file_read_block_ufiles in Ea. apply (ufiles_fit _ _ Ea). fit.
Qed.

Lemma flush_r_fits fp s r s' : streams_fit s -> flush_r fuel fp s = Ret (r, s') -> streams_fit s'.
Proof.
  unfold flush_r. intros Hs E. run E; try done.
  match goal with H : (if _ then _ else _) = Ret _ |- _ => rename H into E1 end. apply file_update_ufiles in E.
  apply (ufiles_fit _ _ E). run E1; [|done].
  match goal with H : file_write_block _ _ _ = _ |- _ => exact (ufiles_fit _ _ (file_write_block_ufiles _ _ _ _ _ H) Hs) end.
Qed.

Lemma putc_r_fits c fp s r s' : streams_fit s -> putc_r fuel stdout_ term_fg_color term_bg_color c fp s = Ret (r, s') -> streams_fit s'.
Proof.
  unfold putc_r. intros Hs E. destruct (fp =? 0); [by run E|]. apply outcome_bind_ret in E as (fl & Eg & E). cbn beta in E.
  destruct (f_flags fl =? 5); [by run E|]. destruct (_ || _ || _); [by eapply stdputc_r_fits|].
  apply outcome_bind_ret in E as (s1 & El & E). apply load_block_r_fits in El; [|done]. cbn beta in E.
  apply outcome_bind_ret in E as (fl1 & Eg1 & E). got Eg1. cbv zeta in E. destruct (f_bsize _ =? 0); [done|].
  set (fl2 := set_f_flags _ fl1) in E. assert (fits fp fl2) as Hf2 by (subst fl2; fit). clearbody fl2.
  set (fl3 := set_f_level _ fl2) in E. assert (fits fp fl3) as Hf3 by (subst fl3; fit). clearbody fl3.
  apply outcome_bind_ret in E as (s2 & E2 & E). assert (streams_fit s2).
  { run E2; [|fit]. eapply flush_r_fits; [|eassumption]. fit. }
  cbn beta in E. apply outcome_bind_ret in E as (fl4 & Eg4 & E). got Eg4. cbv zeta in E.
  destruct (_ >? _) in E; run E; fit.
Qed.

Lemma getc_r_fits fp s r s' : streams_fit s -> getc_r fp s = Ret (r, s') -> streams_fit s'.
Proof.
  unfold getc_r. intros Hs E. destruct (fp =? 0); [by run E|]. apply outcome_bind_ret in E as (fl & Eg & E). cbn beta in E.
  destruct (f_flags fl =? 5); [by run E|]. destruct (_ || _ || _); [by eapply stdgetc_r_fits|]. destruct (f_off fl >=? f_fsize fl); [by run E|].
  apply outcome_bind_ret in E as (s1 & El & E). apply load_block_r_fits in El; [|done]. cbn beta in E.
  apply outcome_bind_ret in E as (fl1 & Eg1 & E). got Eg1. cbv zeta in E. destruct (f_bsize fl1 =? 0); [done|].
  set (fl3 := set_f_level _ fl1) in E. assert (fits fp fl3) as Hf3 by (subst fl3; fit). clearbody fl3.
  destruct (_ >=? _) in E; run E; fit.
Qed.

Lemma read_loop_fits k buf fp rc s r s' : streams_fit s -> read_loop k buf fp rc s = Ret (r, s') -> streams_fit s'.
Proof.
  revert buf rc s. induction k as [|k IH]; intros buf rc s Hs E; [by injection E as _ <-|]. cbn [read_loop] in E.
  apply outcome_bind_ret in E as ([c s1] & E1 & E). apply getc_r_fits in E1; [|done]. cbn beta iota in E. destruct (c =? EOF); [by run E|].
  eapply IH; [|exact E]. fit.
Qed.

Lemma write_loop_fits k buf fp rc s r s' : streams_fit s ->
  write_loop fuel stdout_ term_fg_color term_bg_color k buf fp rc s = Ret (r, s') -> streams_fit s'.
Proof.
  revert buf rc s. induction k as [|k IH]; intros buf rc s Hs E; [by injection E as _ <-|]. cbn [write_loop] in E.
  apply outcome_bind_ret in E as ([c s1] & E1 & E). apply putc_r_fits in E1; [|done]. cbn beta iota in E. by eapply IH.
Qed.

Lemma fseek_fits fp n origin s r s' : streams_fit s -> fseek fp n origin s = Ret (r, s') -> streams_fit s'.
Proof.
  unfold fseek, seek_r. intros Hs E. apply outcome_bind_ret in E as (fl & Eg & E). got Eg. cbv zeta in E.
  match type of E with context [f_bsize ?x =? 0] => set (fl1 := x) in E end.
  assert (fits fp fl1) as Hf1 by (subst fl1; fit). clearbody fl1. run E. fit.
Qed.

Lemma ungetc_fits c fp s r s' : streams_fit s -> ungetc c fp s = Ret (r, s') -> streams_fit s'.
Proof.
  unfold ungetc. intros Hs E. destruct (fp =? 0); [by run E|]. destruct (c =? EOF); [by run E|].
  apply outcome_bind_ret in E as (fl & Eg & E). got Eg. cbv zeta in E.
  set (fl1 := if f_off fl >? 0 then _ else fl) in E.
  assert (fits fp fl1) as Hf1 by (subst fl1; destruct (Z.gtb_spec (f_off fl) 0); [apply fits_off; [lia|]|]; fit). clearbody fl1.
  set (fl3 := set_f_level _ fl1) in E. assert (fits fp fl3) as Hf3 by (subst fl3; fit). clearbody fl3. run E; fit.
Qed.

(** The calls of a program on a stream that is open. *)
Inductive stream_call s : ufs H D -> Prop :=
| call_putc c fp r s' : putc_r fuel stdout_ term_fg_color term_bg_color c fp s = Ret (r, s') -> stream_call s s'
| call_getc fp r s' : getc_r fp s = Ret (r, s') -> stream_call s s'
| call_getkey r s' : getkey stdin_ s = Ret (r, s') -> stream_call s s'
| call_getkeyw r s' : getkeyw stdin_ s = Ret (r, s') -> stream_call s s'
| call_fread buf size count fp r s' : fread buf size count fp s = Ret (r, s') -> stream_call s s'
| call_fwrite buf size count fp r s' :
    fwrite fuel stdout_ term_fg_color term_bg_color buf size count fp s = Ret (r, s') -> stream_call s s'
| call_fflush fp r s' : fflush fuel fp s = Ret (r, s') -> stream_call s s'
| call_fseek fp n origin r s' : fseek fp n origin s = Ret (r, s') -> stream_call s s'
| call_rewind fp s' : rewind fp s = Ret s' -> stream_call s s'
| call_ungetc c fp r s' : ungetc c fp s = Ret (r, s') -> stream_call s s'.

Lemma stream_call_fits s s' : stream_call s s' -> streams_fit s -> streams_fit s'.
Proof.
  intros Hc Hs.
  destruct Hc as [c fp r s' E|fp r s' E|r s' E|r s' E|buf size count fp r s' E|buf size count fp r s' E|fp r s' E|fp n origin r s' E|fp s' E|c fp r s' E].
  - by eapply putc_r_fits.
  - by eapply getc_r_fits.
  - by eapply getkey_fits.
  - by eapply getkeyw_fits.
  - unfold fread, read_r in E. run E; [done|]. by eapply read_loop_fits.
  - unfold fwrite, write_r in E. run E; [done|]. by eapply write_loop_fits.
  - by eapply flush_r_fits.
  - by eapply fseek_fits.
  - unfold rewind, rewind_r in E. destruct (fp =? 0); [by run E|]. apply outcome_bind_ret in E as (fl & Eg & E). got Eg. run E. fit.
  - by eapply ungetc_fits.
Qed.
End pointers.


(** ** Examples *)

(** The stream at 3000 of an empty file "x": the entry 1 of the directory block 1, its first block at
    sector 36, on a disk whose table starts at sector 4; the bytes 104 and 105 at 20000. *)
Definition ex_stream : UFILE := Ufile 0 0x6 8192 10000 0 2 0 0 0 512 16 1 1 1 0 5000.
Definition ex_memory : mem := poke (poke (st32 (st64 ∅ 5000 6000) 6000 36) 3043 [120]) 20000 [104; 105].
Definition ex_disk : ram_disk := st32 (st32 (st32 ∅ (512 + 24) 4) (512 + 28) 512) (512 + 32) 16.
Definition ex_heap : gmap Z Z := {[3000 := 339; 5000 := 8; 6000 := 4; 10000 := 8192]}.
Definition ex_ufs : ufs bump ram_disk := Ufs 30000 ex_memory ex_disk {[3000 := ex_stream]} 0.

Lemma ex_fresh : fresh_stream 20 ex_ufs ex_heap 3000 ex_stream [120] 6000 36 4 1 1.
Proof.
  constructor; try done.
  - split; [reflexivity|]. intros p k Hp. unfold ex_heap in Hp.
    repeat (apply lookup_insert_Some in Hp as [[<- <-]|[_ Hp]]; [cbn; lia|]). apply lookup_singleton_Some in Hp as [<- <-]. cbn. lia.
  - constructor; [constructor; reflexivity|lia|lia|lia|right; lia].
  - constructor; try done; try reflexivity.
    + ex_string.
    + by repeat constructor.
    + cbn. lia.
    + intros i Hi. exists 3000, 339. split; [reflexivity|]. cbn in Hi. unfold fname_at. lia.
    + split; ex_live.
    + ex_live.
    + left. unfold fname_at. cbn. lia.
    + split; left; cbn; lia.
  - intros i Hi. unfold ex_ufs, ex_memory. change (umem _) with (poke (poke (st32 (st64 ∅ 5000 6000) 6000 36) 3043 [120]) 20000 [104; 105]).
    change (f_buffer ex_stream) with 10000. cbn [poke]. rewrite !rd_wr_ne, !rd_st_out, rd_empty by lia. unfold zero, zero_Z. lia.
Qed.

Lemma write_flush_read_witness :
  exists s1 s2 s3 s4, fwrite 20 0 7 0 20000 1 2 3000 ex_ufs = Ret (2, s1) /\ fflush 20 3000 s1 = Ret (0, s2) /\
    rewind 3000 s2 = Ret s3 /\ fread 21000 1 2 3000 s3 = Ret (2, s4) /\ (umem s4)⟦21001⟧ = 105.
Proof.
  destruct (write_flush_read 20 0 7 0 ex_ufs ex_heap 3000 ex_stream [120] 6000 36 4 1 1 20000 21000 2)
    as (s1 & s2 & s3 & s4 & E1 & _ & E2 & _ & _ & _ & E3 & E4 & Hr).
  - exact ex_fresh.
  - lia.
  - split; [|right; cbn; lia]. intros i Hi. assert (i = 0 \/ i = 1) as [-> | ->] by lia; split; vm_compute; congruence.
  - right. cbn. lia.
  - exists s1, s2, s3, s4. split; [exact E1|]. split; [exact E2|]. split; [exact E3|]. split; [exact E4|]. exact (Hr 1 ltac:(lia)).
Defined.

Lemma rewind_discards_witness :
  exists s1 s3 s4, fwrite 20 0 7 0 20000 1 2 3000 ex_ufs = Ret (2, s1) /\ rewind 3000 s1 = Ret s3 /\
    fread 21000 1 2 3000 s3 = Ret (2, s4) /\ (umem s4)⟦21001⟧ = 0.
Proof.
  destruct (rewind_discards 20 0 7 0 ex_ufs ex_heap 3000 ex_stream [120] 6000 36 4 1 1 20000 21000 2)
    as (s1 & s3 & s4 & E1 & E3 & E4 & _ & Hr).
  - exact ex_fresh.
  - lia.
  - split; [|right; cbn; lia]. intros i Hi. assert (i = 0 \/ i = 1) as [-> | ->] by lia; split; vm_compute; congruence.
  - right. cbn. lia.
  - exists s1, s3, s4. split; [exact E1|]. split; [exact E3|]. split; [exact E4|]. exact (Hr 1 ltac:(lia)).
Defined.

