(* ===== verification/Qsort.v ===== *)
(** * Qsort: the sort of the user library (user/lib/libc/stdlib/qsort.c)

    A quicksort that splits a range in the elements below, equal to and above its middle element;
    the equal ones grow from the middle outwards.  The labels of the inner loop are [label]; the
    elements are blocks of [qses] bytes in memory and the comparison is any function that reads
    the memory at its two arguments.  Both the inner loop and the recursion run on fuel. *)
From stdpp Require Import sorting.
From S2P Require Import Prelude KString Bytes.

Section qsort.
Context (qscmp : mem -> Z -> Z -> Z).

(** ** The code *)

(** [do { ... } while(--n);] *)
Fixpoint qsexc_loop (n : nat) (ri rj : Z) (m : mem) : mem :=
  match n with
  | O => m
  | S n =>
      let c := m⟦ri⟧ in
      let m := m⟦ri := m⟦rj⟧⟧ in
      let m := m⟦rj := c⟧ in
      qsexc_loop n (ri + 1) (rj + 1) m
  end.

Definition qsexc (qses i j : Z) (m : mem) : mem := qsexc_loop (Z.to_nat qses) i j m.

Fixpoint qstexc_loop (n : nat) (ri rj rk : Z) (m : mem) : mem :=
  match n with
  | O => m
  | S n =>
      let c := m⟦ri⟧ in
      let m := m⟦ri := m⟦rk⟧⟧ in
      let m := m⟦rk := m⟦rj⟧⟧ in
      let m := m⟦rj := c⟧ in
      qstexc_loop n (ri + 1) (rj + 1) (rk + 1) m
  end.

Definition qstexc (qses i j k : Z) (m : mem) : mem := qstexc_loop (Z.to_nat qses) i j k m.

(** The head of the [for] and the label [loop]. *)
Inductive label := For | Loop.

Fixpoint partition (n : nat) (lb : label) (es i j lp hp : Z) (m : mem) : outcome (Z * Z * mem) :=
  match n with
  | O => NoFuel
  | S n =>
      let loop :=
        if j >? hp then
          let c := qscmp m hp j in
          if c =? 0 then
            let hp := hp + es in partition n Loop es i j lp hp (qsexc es hp j m)
          else if c >? 0 then
            if i =? lp then
              let hp := hp + es in
              let m := qstexc es i hp j m in
              let lp := lp + es in
              partition n Loop es lp j lp hp m
            else
              let m := qsexc es i j m in
              partition n For es (i + es) (j - es) lp hp m
          else partition n Loop es i (j - es) lp hp m
        else if i =? lp then Ret (lp, hp, m)
        else
          let lp := lp - es in
          let m := qstexc es j lp i m in
          let hp := hp - es in
          partition n For es i hp lp hp m in
      match lb with
      | For =>
          if i <? lp then
            let c := qscmp m i lp in
            if c =? 0 then let lp := lp - es in partition n For es i j lp hp (qsexc es i lp m)
            else if c <? 0 then partition n For es (i + es) j lp hp m
            else loop
          else loop
      | Loop => loop
      end
  end.

Fixpoint qs1 (n k : nat) (es a l : Z) (m : mem) : outcome mem :=
  match n with
  | O => NoFuel
  | S n =>
      if u32 (l - a) <=? u32 es then Ret m
      else
        let h := u32 (u32 es * (u32 (l - a) / u32 (s32 (2 * es)))) in
        '(lp, hp, m) ← partition k For es a (l - es) (a + h) (a + h) m;
        if lp - a >=? l - hp then
          m ← qs1 n k es (hp + es) l m;
          qs1 n k es a lp m
        else
          m ← qs1 n k es a lp m;
          qs1 n k es (hp + es) l m
  end.

Definition qsort (n k : nat) (base nmemb size : Z) (m : mem) : outcome mem :=
  qs1 n k (s32 size) base (base + u64 (nmemb * size)) m.
End qsort.

(** ** Arrays and permutations *)

Section perm.
Context {E : Type}.
Implicit Types (A B C : Z -> E) (lo hi i j k : Z).

Definition slice A lo hi : list E := A <$> seqZ lo (hi - lo).

(** [B] is [A] with the elements of [lo, hi) in another order. *)
Record perm lo hi A B : Prop := {
  perm_out k : ~ lo <= k < hi -> B k = A k;
  perm_in : slice B lo hi ≡ₚ slice A lo hi
}.

Definition swap A i j : Z -> E := fun k => if k =? i then A j else if k =? j then A i else A k.

Lemma slice_ext A B lo hi : (forall k, lo <= k < hi -> B k = A k) -> slice B lo hi = slice A lo hi.
Proof.
  intros E'. apply list_fmap_ext. intros n x Hx. apply lookup_seqZ in Hx as [-> Hn]. apply E'. lia.
Qed.

Lemma slice_app A lo mid hi : lo <= mid <= hi -> slice A lo hi = slice A lo mid ++ slice A mid hi.
Proof.
  intros Hm. unfold slice. rewrite <- fmap_app. f_equal. replace (hi - lo) with (mid - lo + (hi - mid)) by lia.
  rewrite seqZ_app by lia. do 2 f_equal. lia.
Qed.

Lemma elem_of_slice A lo hi x : x ∈ slice A lo hi <-> exists k, lo <= k < hi /\ A k = x.
Proof.
  unfold slice. rewrite list_elem_of_fmap. setoid_rewrite elem_of_seqZ. split.
  - intros (k & -> & Hk). exists k. split; [lia|done].
  - intros (k & Hk & <-). exists k. split; [done|lia].
Qed.

Lemma perm_refl lo hi A B : (forall k, B k = A k) -> perm lo hi A B.
Proof. intros E'. constructor; [by intros k _|]. by rewrite (slice_ext A B). Qed.

Lemma perm_trans lo hi A B C : perm lo hi A B -> perm lo hi B C -> perm lo hi A C.
Proof.
  intros [H1 H2] [H3 H4]. constructor.
  - intros k Hk. by rewrite H3, H1.
  - by rewrite H4.
Qed.

Lemma perm_widen lo hi lo' hi' A B : lo' <= lo -> lo <= hi -> hi <= hi' -> perm lo hi A B -> perm lo' hi' A B.
Proof.
  intros H1 H2 H3 [H4 H5]. constructor.
  - intros k Hk. apply H4. lia.
  - rewrite !(slice_app _ lo' lo hi'), !(slice_app _ lo hi hi') by lia. rewrite H5.
    rewrite (slice_ext A B lo' lo), (slice_ext A B hi hi'); [done| |]; intros k Hk; apply H4; lia.
Qed.

Lemma perm_forall (P : E -> Prop) lo hi A B :
  perm lo hi A B -> (forall k, lo <= k < hi -> P (A k)) -> forall k, lo <= k < hi -> P (B k).
Proof.
  intros [_ Hp] HA k Hk. assert (B k ∈ slice A lo hi) as Hin.
  { rewrite <- Hp. apply elem_of_slice. by exists k. }
  apply elem_of_slice in Hin as (k' & Hk' & <-). by apply HA.
Qed.

Lemma swap_perm lo hi A B i j : lo <= i < hi -> lo <= j < hi -> (forall k, B k = swap A i j k) -> perm lo hi A B.
Proof.
  intros Hi Hj E'. constructor.
  - intros k Hk. rewrite E'. unfold swap. destruct (Z.eqb_spec k i); [lia|]. by destruct (Z.eqb_spec k j); [lia|].
  - set (t k := if k =? i then j else if k =? j then i else k).
    assert (slice B lo hi = A <$> (t <$> seqZ lo (hi - lo))) as ->.
    { unfold slice. rewrite <- list_fmap_compose. apply list_fmap_ext. intros n x _. cbn. rewrite E'. unfold swap, t.
      destruct (x =? i); [done|]. by destruct (x =? j). }
    unfold slice. apply fmap_Permutation, NoDup_Permutation.
    + apply NoDup_fmap_2_strong; [|apply NoDup_seqZ]. intros x y _ _. unfold t.
      destruct (Z.eqb_spec x i), (Z.eqb_spec x j), (Z.eqb_spec y i), (Z.eqb_spec y j); lia.
    + apply NoDup_seqZ.
    + intros x. rewrite list_elem_of_fmap. setoid_rewrite elem_of_seqZ. split.
      * intros (y & -> & Hy). unfold t. destruct (Z.eqb_spec y i), (Z.eqb_spec y j); lia.
      * intros Hx. exists (t x). unfold t. destruct (Z.eqb_spec x i), (Z.eqb_spec x j); subst; rewrite ?Z.eqb_refl;
          try (split; [done|lia]); case_within; (split; [lia|lia]).
Qed.
End perm.

(** ** Exchanges of elements *)

Section elements.
Context (base es : Z) (es_pos : 0 < es).
#[local] Set Default Proof Using "es_pos".
Implicit Types (m : mem) (i j k b : Z).

(** The address and the contents of the element [k]. *)
Definition pos k : Z := base + k * es.
Definition elem m k : list Z := bytes m (pos k) es.

Lemma pos_lt i j : (pos i <? pos j) = (i <? j).
Proof. unfold pos. destruct (Z.ltb_spec i j), (Z.ltb_spec (base + i * es) (base + j * es)); nia. Qed.

Lemma pos_gt i j : (pos i >? pos j) = (j <? i).
Proof. rewrite Z.gtb_ltb. apply pos_lt. Qed.

Lemma pos_eq i j : (pos i =? pos j) = (i =? j).
Proof. unfold pos. destruct (Z.eqb_spec i j), (Z.eqb_spec (base + i * es) (base + j * es)); nia. Qed.

Lemma pos_succ k : pos k + es = pos (k + 1).
Proof. unfold pos. lia. Qed.

Lemma pos_pred k : pos k - es = pos (k - 1).
Proof. unfold pos. lia. Qed.

Lemma pos_apart i j : i <> j -> pos i + es <= pos j \/ pos j + es <= pos i.
Proof. unfold pos. intros Hne. destruct (Z.lt_total i j) as [?|[?|?]]; [left|lia|right]; nia. Qed.

Lemma bytes_shift m m' a a' : (forall o, 0 <= o < es -> m'⟦a' + o⟧ = m⟦a + o⟧) -> bytes m' a' es = bytes m a es.
Proof. intros E. apply list_fmap_ext. intros n x Hx. apply lookup_seq in Hx as [-> Hn]. apply E. lia. Qed.

Lemma rd_qsexc_loop n ri rj m b :
  ri + Z.of_nat n <= rj \/ rj + Z.of_nat n <= ri \/ ri = rj ->
  (qsexc_loop n ri rj m)⟦b⟧ =
    if within b ri (Z.of_nat n) then m⟦rj + (b - ri)⟧ else if within b rj (Z.of_nat n) then m⟦ri + (b - rj)⟧ else m⟦b⟧.
Proof.
  revert ri rj m. induction n as [|n IH]; intros ri rj m Hd; cbn [qsexc_loop].
  - rewrite !not_within by lia. done.
  - rewrite IH by lia. case_within; try lia; rewrite ?rd_wr; case_within; try lia; f_equal; lia.
Qed.

Lemma rd_qstexc_loop n ri rj rk m b :
  (ri + Z.of_nat n <= rj \/ rj + Z.of_nat n <= ri) -> (ri + Z.of_nat n <= rk \/ rk + Z.of_nat n <= ri) ->
  rj + Z.of_nat n <= rk \/ rk + Z.of_nat n <= rj \/ rj = rk ->
  (qstexc_loop n ri rj rk m)⟦b⟧ =
    if within b ri (Z.of_nat n) then m⟦rk + (b - ri)⟧ else if within b rj (Z.of_nat n) then m⟦ri + (b - rj)⟧
    else if within b rk (Z.of_nat n) then m⟦rj + (b - rk)⟧ else m⟦b⟧.
Proof.
  revert ri rj rk m. induction n as [|n IH]; intros ri rj rk m H1 H2 H3; cbn [qstexc_loop].
  - rewrite !not_within by lia. done.
  - rewrite IH by lia. case_within; try lia; rewrite ?rd_wr; case_within; try lia; f_equal; lia.
Qed.

(** What an exchange leaves of the elements and of the rest of the memory. *)
Lemma qsexc_elem m i j :
  (forall k, elem (qsexc es (pos i) (pos j) m) k = swap (elem m) i j k) /\
  forall b, ~ pos i <= b < pos i + es -> ~ pos j <= b < pos j + es -> (qsexc es (pos i) (pos j) m)⟦b⟧ = m⟦b⟧.
Proof.
  unfold qsexc. assert (Z.of_nat (Z.to_nat es) = es) as Ees by lia.
  assert (pos i + es <= pos j \/ pos j + es <= pos i \/ pos i = pos j) as Hd.
  { destruct (decide (i = j)) as [->|Hne]; [lia|]. destruct (pos_apart i j Hne); lia. }
  split.
  - intros k. unfold swap, elem. destruct (Z.eqb_spec k i) as [->|Hi]; [|destruct (Z.eqb_spec k j) as [->|Hj]];
      apply bytes_shift; intros o Ho; rewrite rd_qsexc_loop by lia; rewrite Ees.
    + case_within; try lia. f_equal. lia.
    + pose proof (pos_apart j i Hi). case_within; try lia; f_equal; lia.
    + pose proof (pos_apart k i Hi). pose proof (pos_apart k j Hj). by rewrite !not_within by lia.
  - intros b Hi Hj. rewrite rd_qsexc_loop by lia. rewrite !not_within by lia. done.
Qed.

Lemma qstexc_elem m i j k' :
  i <> j -> i <> k' ->
  (forall k, elem (qstexc es (pos i) (pos j) (pos k') m) k = swap (swap (elem m) i k') k' j k) /\
  forall b, ~ pos i <= b < pos i + es -> ~ pos j <= b < pos j + es -> ~ pos k' <= b < pos k' + es ->
    (qstexc es (pos i) (pos j) (pos k') m)⟦b⟧ = m⟦b⟧.
Proof.
  intros Hij Hik. unfold qstexc. assert (Z.of_nat (Z.to_nat es) = es) as Ees by lia.
  pose proof (pos_apart i j Hij). pose proof (pos_apart i k' Hik).
  assert (pos j + es <= pos k' \/ pos k' + es <= pos j \/ pos j = pos k') as Hd.
  { destruct (decide (j = k')) as [->|Hne]; [lia|]. destruct (pos_apart j k' Hne); lia. }
  split.
  - intros k. unfold swap, elem. destruct (Z.eqb_spec k k') as [->|Hk]; [|destruct (Z.eqb_spec k j) as [->|Hj]; [|destruct (Z.eqb_spec k i) as [->|Hi]]].
    + destruct (Z.eqb_spec j i); [lia|]. destruct (Z.eqb_spec j k') as [->|Hjk];
        apply bytes_shift; intros o Ho; rewrite rd_qstexc_loop by lia; rewrite Ees.
      * case_within; try lia; f_equal; lia.
      * pose proof (pos_apart j k' Hjk). case_within; try lia; f_equal; lia.
    + destruct (Z.eqb_spec k' i); [lia|]. rewrite Z.eqb_refl.
      apply bytes_shift; intros o Ho; rewrite rd_qstexc_loop by lia; rewrite Ees. case_within; try lia; f_equal; lia.
    + apply bytes_shift; intros o Ho; rewrite rd_qstexc_loop by lia; rewrite Ees. case_within; try lia; f_equal; lia.
    + pose proof (pos_apart k i Hi). pose proof (pos_apart k j Hj). pose proof (pos_apart k k' Hk).
      apply bytes_shift; intros o Ho; rewrite rd_qstexc_loop by lia. by rewrite !not_within by lia.
  - intros b B1 B2 B3. rewrite rd_qstexc_loop by lia. rewrite !not_within by lia. done.
Qed.
End elements.

(** ** The comparison *)

(** A comparison function of C: it reads its two elements, answers the opposite when they are
    exchanged, and is transitive. *)
Class Comparator (qscmp : mem -> Z -> Z -> Z) (es : Z) (cmp : list Z -> list Z -> Z) : Prop := {
  cmp_reads m x y : qscmp m x y = cmp (bytes m x es) (bytes m y es);
  cmp_flip x y : cmp x y < 0 <-> 0 < cmp y x;
  cmp_trans x y z : cmp x y <= 0 -> cmp y z <= 0 -> cmp x z <= 0
}.

Section partition.
Context (qscmp : mem -> Z -> Z -> Z) (base es : Z) (cmp : list Z -> list Z -> Z).
Context (es_pos : 0 < es) `{!Comparator qscmp es cmp}.
#[local] Set Default Proof Using "All".
Implicit Types (m : mem) (i j k b : Z) (p x y : list Z).
Abbreviation pos := (pos base es).
Abbreviation elem := (elem base es).

Lemma cmp_zero x y : cmp x y = 0 <-> cmp y x = 0.
Proof. pose proof (cmp_flip x y). pose proof (cmp_flip y x). lia. Qed.

Lemma cmp_equal_l p x y : cmp x p = 0 -> (cmp x y < 0 -> cmp p y < 0) /\ (cmp x y = 0 -> cmp p y = 0) /\ (0 < cmp x y -> 0 < cmp p y).
Proof.
  intros Hx. pose proof (proj1 (cmp_zero x p) Hx) as Hp.
  pose proof (cmp_flip x y). pose proof (cmp_flip p y). pose proof (cmp_flip y x). pose proof (cmp_flip y p).
  pose proof (cmp_trans p x y). pose proof (cmp_trans x p y). pose proof (cmp_trans y x p). pose proof (cmp_trans y p x).
  split; [|split]; intros; lia.
Qed.

(** The elements of [lo, hi) are below, equal to, above [p]. *)
Definition below m p lo hi : Prop := forall k, lo <= k < hi -> cmp (elem m k) p < 0.
Definition equal m p lo hi : Prop := forall k, lo <= k < hi -> cmp (elem m k) p = 0.
Definition above m p lo hi : Prop := forall k, lo <= k < hi -> 0 < cmp (elem m k) p.

Lemma qscmp_elem m i j : qscmp m (pos i) (pos j) = cmp (elem m i) (elem m j).
Proof. apply cmp_reads. Qed.

(** The state of the inner loop on the elements of [a, l): below the middle up to [i], equal to it from [lp]
    to [hp], above it behind [j]. *)
Record split m p a l i lp hp j : Prop := {
  sp_order : a <= i <= lp /\ lp <= hp <= j /\ j < l;
  sp_below : below m p a i;
  sp_equal : equal m p lp (hp + 1);
  sp_above : above m p (j + 1) l
}.

(** [m'] has the elements of [a, l) in another order and nothing else has changed. *)
Definition reordered a l m m' : Prop :=
  perm a l (elem m) (elem m') /\ forall b, ~ pos a <= b < pos l -> m'⟦b⟧ = m⟦b⟧.

Lemma reordered_refl a l m : reordered a l m m.
Proof. split; [by apply perm_refl|done]. Qed.

Lemma reordered_trans a l m m' m'' : reordered a l m m' -> reordered a l m' m'' -> reordered a l m m''.
Proof. intros [H1 H2] [H3 H4]. split; [by eapply perm_trans|]. intros b Hb. by rewrite H4, H2. Qed.

Lemma pos_in a l i : a <= i < l -> pos a <= pos i /\ pos i + es <= pos l.
Proof. unfold Qsort.pos. nia. Qed.

Lemma qsexc_reordered a l m i j : a <= i < l -> a <= j < l -> reordered a l m (qsexc es (pos i) (pos j) m).
Proof.
  intros Hi Hj. destruct (qsexc_elem base es es_pos m i j) as [He Ho]. split; [by apply (swap_perm _ _ _ _ i j)|].
  intros b Hb. pose proof (pos_in a l i Hi). pose proof (pos_in a l j Hj). apply Ho; lia.
Qed.

Lemma qstexc_reordered a l m i j k : a <= i < l -> a <= j < l -> a <= k < l -> i <> j -> i <> k ->
  reordered a l m (qstexc es (pos i) (pos j) (pos k) m).
Proof.
  intros Hi Hj Hk Hij Hik. destruct (qstexc_elem base es es_pos m i j k Hij Hik) as [He Ho]. split.
  - apply (perm_trans _ _ _ (swap (elem m) i k)); [by apply (swap_perm _ _ _ _ i k)|by apply (swap_perm _ _ _ _ k j)].
  - intros b Hb. pose proof (pos_in a l i Hi). pose proof (pos_in a l j Hj). pose proof (pos_in a l k Hk). apply Ho; lia.
Qed.

(** What the inner loop ends with. *)
Definition splits n lb m p a l i lp hp j : Prop :=
  exists lp' hp' m', partition qscmp n lb es (pos i) (pos j) (pos lp) (pos hp) m = Ret (pos lp', pos hp', m') /\
    reordered a l m m' /\ a <= lp' <= hp' /\ hp' < l /\ below m' p a lp' /\ above m' p (hp' + 1) l /\ equal m' p lp' (hp' + 1).

Lemma splits_step n lb lb' m m1 p a l i lp hp j i' lp' hp' j' :
  partition qscmp (S n) lb es (pos i) (pos j) (pos lp) (pos hp) m = partition qscmp n lb' es (pos i') (pos j') (pos lp') (pos hp') m1 ->
  reordered a l m m1 -> splits n lb' m1 p a l i' lp' hp' j' -> splits (S n) lb m p a l i lp hp j.
Proof.
  intros E Hr (lp2 & hp2 & m2 & E2 & Hr2 & Hrest). exists lp2, hp2, m2. split; [by rewrite E|]. split; [by eapply reordered_trans|done].
Qed.

(** An exchange outside of [lo, hi). *)
Lemma below_ext m m' p lo hi : (forall k, lo <= k < hi -> elem m' k = elem m k) -> below m p lo hi -> below m' p lo hi.
Proof. intros E Hb k Hk. rewrite E by done. by apply Hb. Qed.

(** Comparing with an element equal to [p] is comparing with [p]. *)
Lemma cmp_middle p x y : cmp x p = 0 ->
  ((cmp x y < 0 -> 0 < cmp y p) /\ (cmp x y = 0 -> cmp y p = 0) /\ (0 < cmp x y -> cmp y p < 0)) /\
  ((cmp y x < 0 -> cmp y p < 0) /\ (cmp y x = 0 -> cmp y p = 0) /\ (0 < cmp y x -> 0 < cmp y p)).
Proof.
  intros Hx. destruct (cmp_equal_l p x y Hx) as (A1 & A2 & A3).
  pose proof (cmp_flip p y). pose proof (cmp_flip y p). pose proof (cmp_flip x y). pose proof (cmp_flip y x).
  pose proof (cmp_zero y p). pose proof (cmp_zero x y). lia.
Qed.

Lemma partition_For n i j lp hp m :
  partition qscmp (S n) For es i j lp hp m =
  if i <? lp then
    let c := qscmp m i lp in
    if c =? 0 then partition qscmp n For es i j (lp - es) hp (qsexc es i (lp - es) m)
    else if c <? 0 then partition qscmp n For es (i + es) j lp hp m
    else partition qscmp (S n) Loop es i j lp hp m
  else partition qscmp (S n) Loop es i j lp hp m.
Proof. reflexivity. Qed.

Lemma partition_Loop n i j lp hp m :
  partition qscmp (S n) Loop es i j lp hp m =
  if j >? hp then
    let c := qscmp m hp j in
    if c =? 0 then partition qscmp n Loop es i j lp (hp + es) (qsexc es (hp + es) j m)
    else if c >? 0 then
      if i =? lp then partition qscmp n Loop es (lp + es) j (lp + es) (hp + es) (qstexc es i (hp + es) j m)
      else partition qscmp n For es (i + es) (j - es) lp hp (qsexc es i j m)
    else partition qscmp n Loop es i (j - es) lp hp m
  else if i =? lp then Ret (lp, hp, m)
  else partition qscmp n For es i (hp - es) (lp - es) (hp - es) (qstexc es j (lp - es) i m).
Proof. reflexivity. Qed.

Definition partition_goal n : Prop := forall lb m p a l i lp hp j,
  split m p a l i lp hp j -> (lb = Loop -> i = lp \/ 0 < cmp (elem m i) p) -> (lp - i) + (j - hp) < Z.of_nat n ->
  splits n lb m p a l i lp hp j.

(** After an exchange: where an element comes from. *)
Ltac from_swap E Hb He Ha :=
  let k := fresh "k" in let Hk := fresh "Hk" in
  intros k Hk; rewrite E; unfold swap; case_within; subst; try lia; try (apply Hb; lia); try (apply He; lia); try (apply Ha; lia); try done.

Lemma partition_loop_spec n m p a l i lp hp j :
  partition_goal n -> split m p a l i lp hp j -> i = lp \/ 0 < cmp (elem m i) p -> (lp - i) + (j - hp) < Z.of_nat (S n) ->
  splits (S n) Loop m p a l i lp hp j.
Proof.
  intros IH [Hord Hb He Ha] Hi Hn. assert (cmp (elem m hp) p = 0) as Hp by (apply He; lia).
  destruct (cmp_middle p (elem m hp) (elem m j) Hp) as [(C1 & C2 & C3) _].
  pose proof (partition_Loop n (pos i) (pos j) (pos lp) (pos hp) m) as E.
  rewrite pos_gt, pos_eq, !pos_succ, !pos_pred, qscmp_elem in E by done. cbv zeta in E.
  destruct (Z.ltb_spec hp j) as [Hj|Hj]; [destruct (Z.eqb_spec (cmp (elem m hp) (elem m j)) 0) as [Ec|Ec];
    [|rewrite Z.gtb_ltb in E; destruct (Z.ltb_spec 0 (cmp (elem m hp) (elem m j))) as [Ec'|Ec'];
      [destruct (Z.eqb_spec i lp) as [Ei|Ei]|]]|destruct (Z.eqb_spec i lp) as [Ei|Ei]].
  - destruct (qsexc_elem base es es_pos m (hp + 1) j) as [Es _]. eapply splits_step; [exact E|apply qsexc_reordered; lia|].
    apply IH; [|intros _|lia].
    + constructor; [lia|from_swap Es Hb He Ha..].
    + destruct Hi as [Hi|Hi]; [by left|right]. rewrite Es. unfold swap. case_within; try lia.
  - destruct (qstexc_elem base es es_pos m i (hp + 1) j ltac:(lia) ltac:(lia)) as [Es _].
    eapply splits_step; [exact E|apply qstexc_reordered; lia|]. apply IH; [|by left|lia].
    constructor; [lia|from_swap Es Hb He Ha..].
  - destruct (qsexc_elem base es es_pos m i j) as [Es _]. eapply splits_step; [exact E|apply qsexc_reordered; lia|].
    apply IH; [|done|lia]. constructor; [lia|from_swap Es Hb He Ha..].
  - eapply splits_step; [exact E|apply reordered_refl|]. apply IH; [|by intros _|lia].
    constructor; [lia|done|done|]. intros k Hk. destruct (decide (k = j)) as [->|]; [apply C1; lia|apply Ha; lia].
  - exists lp, hp, m. split; [done|]. split; [apply reordered_refl|]. split; [lia|]. split; [lia|]. split; [|split; [|done]].
    + subst i. exact Hb.
    + intros k Hk. apply Ha. lia.
  - assert (j = hp) as -> by lia.
    destruct (qstexc_elem base es es_pos m hp (lp - 1) i ltac:(lia) ltac:(lia)) as [Es _].
    eapply splits_step; [exact E|apply qstexc_reordered; lia|]. apply IH; [|done|lia].
    constructor; [lia|from_swap Es Hb He Ha..].
Qed.

Lemma partition_spec n : partition_goal n.
Proof.
  induction n as [|n IH]; intros lb m p a l i lp hp j Hsp Hlb Hn; [destruct Hsp; lia|].
  destruct lb; [|by apply partition_loop_spec; [| |apply Hlb|]].
  pose proof (partition_For n (pos i) (pos j) (pos lp) (pos hp) m) as E.
  rewrite pos_lt, !pos_succ, !pos_pred, qscmp_elem in E by done. cbv zeta in E.
  assert (i = lp \/ 0 < cmp (elem m i) p ->
    partition qscmp (S n) For es (pos i) (pos j) (pos lp) (pos hp) m = partition qscmp (S n) Loop es (pos i) (pos j) (pos lp) (pos hp) m ->
    splits (S n) For m p a l i lp hp j) as Hfall.
  { intros Hi E'. destruct (partition_loop_spec n m p a l i lp hp j IH Hsp Hi Hn) as (lp' & hp' & m' & E2 & Hrest).
    exists lp', hp', m'. by rewrite E'. }
  destruct Hsp as [Hord Hb He Ha]. destruct (Z.ltb_spec i lp) as [Hi|Hi]; [|apply Hfall; [left; lia|done]].
  assert (cmp (elem m lp) p = 0) as Hp by (apply He; lia).
  destruct (cmp_middle p (elem m lp) (elem m i) Hp) as [_ (C1 & C2 & C3)].
  destruct (Z.eqb_spec (cmp (elem m i) (elem m lp)) 0) as [Ec|Ec]; [|destruct (Z.ltb_spec (cmp (elem m i) (elem m lp)) 0) as [Ec'|Ec']].
  - destruct (qsexc_elem base es es_pos m i (lp - 1)) as [Es _]. eapply splits_step; [exact E|apply qsexc_reordered; lia|].
    apply IH; [|done|lia]. constructor; [lia|from_swap Es Hb He Ha..]. replace (lp - 1) with i by lia. by apply C2.
  - eapply splits_step; [exact E|apply reordered_refl|]. apply IH; [|done|lia].
    constructor; [lia| |done|done]. intros k Hk. destruct (decide (k = i)) as [->|]; [by apply C1|apply Hb; lia].
  - apply Hfall; [right; apply C3; lia|done].
Qed.

(** ** The recursion *)

Definition sorted m a l : Prop := forall i j, a <= i < j -> j < l -> cmp (elem m i) (elem m j) <= 0.

Lemma sorted_ext m m' a l : (forall k, a <= k < l -> elem m' k = elem m k) -> sorted m a l -> sorted m' a l.
Proof. intros E Hs i j Hi Hj. rewrite !E by lia. apply Hs; lia. Qed.

Lemma sorted_join m p a lp hp l :
  lp <= hp -> below m p a lp -> equal m p lp (hp + 1) -> above m p (hp + 1) l -> sorted m a lp -> sorted m (hp + 1) l -> sorted m a l.
Proof.
  intros Hlh Hb He Ha S1 S2 i j Hi Hj. destruct (decide (j < lp)); [apply S1; lia|]. destruct (decide (hp < i)); [apply S2; lia|].
  apply (cmp_trans _ p).
  - destruct (decide (i < lp)); [pose proof (Hb i ltac:(lia)); lia|rewrite He by lia; lia].
  - destruct (decide (j <= hp)) as [Hjh|Hjh].
    + rewrite (proj1 (cmp_zero _ _) (He j ltac:(lia))). lia.
    + pose proof (proj2 (cmp_flip p (elem m j)) (Ha j ltac:(lia))). lia.
Qed.

(** Sorting one side of a split, then the other. *)
Lemma split_reordered m m' p a lp hp l lo hi :
  a <= lp <= hp -> hp < l -> lo = a /\ hi = lp \/ lo = hp + 1 /\ hi = l ->
  below m p a lp -> equal m p lp (hp + 1) -> above m p (hp + 1) l -> reordered lo hi m m' ->
  (below m' p a lp /\ equal m' p lp (hp + 1) /\ above m' p (hp + 1) l) /\ reordered a l m m' /\
  forall k, ~ lo <= k < hi -> elem m' k = elem m k.
Proof.
  intros H1 H2 Hside Hb He Ha [Hp Ho].
  assert (forall (P : list Z -> Prop) i j, (forall k, i <= k < j -> P (elem m k)) -> hi <= i \/ j <= lo \/ i = lo /\ j = hi ->
    forall k, i <= k < j -> P (elem m' k)) as Hkeep.
  { intros P i j HP [Hd|[Hd|[-> ->]]] k Hk; [rewrite (perm_out _ _ _ _ Hp) by lia; by apply HP..|]. by apply (perm_forall P lo hi (elem m)). }
  split; [split; [|split]|split; [split|]].
  - refine (Hkeep (fun x => cmp x p < 0) a lp Hb _). lia.
  - refine (Hkeep (fun x => cmp x p = 0) lp (hp + 1) He _). lia.
  - refine (Hkeep (fun x => 0 < cmp x p) (hp + 1) l Ha _). lia.
  - apply (perm_widen lo hi); (done || lia).
  - intros b Hbr. apply Ho. unfold Qsort.pos in *. nia.
  - intros k Hk. by apply (perm_out _ _ _ _ Hp).
Qed.

Lemma qs1_spec (n n2 : nat) a l m :
  es < 2 ^ 30 -> a <= l -> (l - a) * es < 2 ^ 31 -> l - a < Z.of_nat n -> l - a < Z.of_nat n2 ->
  exists m', qs1 qscmp n n2 es (pos a) (pos l) m = Ret m' /\ reordered a l m m' /\ sorted m' a l.
Proof.
  intros Hes. revert a l m. induction n as [|n IH]; intros a l m Hal Hsz Hn Hk; [lia|]. cbn [qs1].
  assert (pos l - pos a = (l - a) * es) as Epos by (unfold Qsort.pos; lia).
  rewrite Epos, (u32_small ((l - a) * es)) by nia. rewrite (u32_small es) by lia.
  destruct (Z.leb_spec ((l - a) * es) es) as [Hone|Hmore].
  { exists m. split; [done|]. split; [apply reordered_refl|]. intros i j Hi Hj. nia. }
  assert (2 <= l - a) as Htwo by nia.
  assert (u32 (es * ((l - a) * es / u32 (s32 (2 * es)))) = (l - a) / 2 * es) as ->.
  { rewrite (s32_small (2 * es)), (u32_small (2 * es)) by lia. rewrite Z.div_mul_cancel_r by lia. rewrite u32_small; [lia|].
    assert (0 <= (l - a) / 2 <= l - a) by (Z.div_mod_to_equations; lia). nia. }
  assert (pos a + (l - a) / 2 * es = pos (a + (l - a) / 2)) as -> by (unfold Qsort.pos; lia). rewrite pos_pred by done.
  set (h := a + (l - a) / 2). assert (a < h < l) as Hh by (unfold h; Z.div_mod_to_equations; lia).
  assert (cmp (elem m h) (elem m h) = 0) as Erefl by (pose proof (cmp_flip (elem m h) (elem m h)); lia).
  destruct (partition_spec n2 For m (elem m h) a l a h h (l - 1)) as (lp & hp & m1 & Ep & Hr & Ho & Hhp & Hb & Ha & He); [|done|lia|].
  { constructor; [lia| | |]; intros i Hi; [lia|by replace i with h by lia|lia]. }
  rewrite Ep. cbn [mbind outcome_bind]. rewrite pos_succ by done.
  destruct (pos lp - pos a >=? pos l - pos hp).
  - destruct (IH (hp + 1) l m1) as (m2 & E2 & Hr2 & Hs2); [lia|nia|lia|lia|]. rewrite E2. cbn [mbind outcome_bind].
    destruct (IH a lp m2) as (m3 & E3 & Hr3 & Hs3); [lia|nia|lia|lia|]. rewrite E3.
    destruct (split_reordered m1 m2 _ a lp hp l (hp + 1) l Ho Hhp ltac:(by right) Hb He Ha Hr2) as ((Hb2 & He2 & Ha2) & R2 & _).
    destruct (split_reordered m2 m3 _ a lp hp l a lp Ho Hhp ltac:(by left) Hb2 He2 Ha2 Hr3) as ((Hb3 & He3 & Ha3) & R3 & Hk3).
    exists m3. split; [done|]. split; [by eapply reordered_trans; [|eapply reordered_trans]|].
    apply (sorted_join m3 (elem m h) a lp hp l); try done; [lia|]. apply (sorted_ext m2); [|done]. intros i Hi. apply Hk3. lia.
  - destruct (IH a lp m1) as (m2 & E2 & Hr2 & Hs2); [lia|nia|lia|lia|]. rewrite E2. cbn [mbind outcome_bind].
    destruct (IH (hp + 1) l m2) as (m3 & E3 & Hr3 & Hs3); [lia|nia|lia|lia|]. rewrite E3.
    destruct (split_reordered m1 m2 _ a lp hp l a lp Ho Hhp ltac:(by left) Hb He Ha Hr2) as ((Hb2 & He2 & Ha2) & R2 & _).
    destruct (split_reordered m2 m3 _ a lp hp l (hp + 1) l Ho Hhp ltac:(by right) Hb2 He2 Ha2 Hr3) as ((Hb3 & He3 & Ha3) & R3 & Hk3).
    exists m3. split; [done|]. split; [by eapply reordered_trans; [|eapply reordered_trans]|].
    apply (sorted_join m3 (elem m h) a lp hp l); try done; [lia|]. apply (sorted_ext m2); [|done]. intros i Hi. apply Hk3. lia.
Qed.

Lemma sorted_slice m n a : sorted m a (a + Z.of_nat n) -> StronglySorted (fun x y => cmp x y <= 0) (slice (elem m) a (a + Z.of_nat n)).
Proof.
  revert a. induction n as [|n IH]; intros a Hs.
  - unfold slice. rewrite seqZ_nil by lia. constructor.
  - rewrite (slice_app _ a (a + 1)) by lia.
    replace (slice (elem m) a (a + 1)) with [elem m a] by (unfold slice; by replace (a + 1 - a) with 1 by lia).
    replace (a + Z.of_nat (S n)) with (a + 1 + Z.of_nat n) in * by lia. constructor.
    + apply IH. intros i j Hi Hj. apply Hs; lia.
    + apply Forall_forall. intros x (k & Hk & <-)%elem_of_slice. apply Hs; lia.
Qed.
End partition.

Section qsort_claims.
Context (qscmp : mem -> Z -> Z -> Z) (cmp : list Z -> list Z -> Z).

(** C24: [qsort] sorts: for every comparison function the call ends, its elements stand in order, they are a
    permutation of what stood there, and no other byte of the memory has changed; fuel beyond the
    number of elements is enough. *)
Theorem qsort_sorts n k base nmemb size m :
  Comparator qscmp size cmp -> 0 < size < 2 ^ 30 -> 0 <= nmemb -> nmemb * size < 2 ^ 31 -> nmemb < Z.of_nat n -> nmemb < Z.of_nat k ->
  exists m', qsort qscmp n k base nmemb size m = Ret m' /\
    StronglySorted (fun x y => cmp x y <= 0) (slice (elem base size m') 0 nmemb) /\
    slice (elem base size m') 0 nmemb ≡ₚ slice (elem base size m) 0 nmemb /\
    forall b, ~ base <= b < base + nmemb * size -> m'⟦b⟧ = m⟦b⟧.
Proof.
  intros Hc Hsize Hn Hb Hfn Hfk. assert (0 < size) as Hpos by lia.
  destruct (qs1_spec qscmp base size cmp Hpos n k 0 nmemb m) as (m' & E & [Hp Ho] & Hs); try lia.
  exists m'. split; [|split; [|split; [apply Hp|]]].
  - unfold qsort. rewrite s32_small by lia. rewrite u64_small by nia. rewrite <- E. unfold pos. do 2 f_equal; lia.
  - pose proof (sorted_slice qscmp base size cmp Hpos m' (Z.to_nat nmemb) 0) as Hsl.
    replace (0 + Z.of_nat (Z.to_nat nmemb)) with nmemb in Hsl by lia. by apply Hsl.
  - intros b Hbr. apply Ho. unfold pos. lia.
Qed.
End qsort_claims.

(** ** An example *)

(** The comparison of bytes. *)
Definition cmp_byte (m : mem) (x y : Z) : Z := m⟦x⟧ - m⟦y⟧.

Lemma cmp_byte_comparator : Comparator cmp_byte 1 (fun x y => hd 0 x - hd 0 y).
Proof.
  constructor; [|lia|lia]. intros m x y. change (m⟦x⟧ - m⟦y⟧ = m⟦x + 0⟧ - m⟦y + 0⟧). by rewrite !Z.add_0_r.
Qed.

Lemma qsort_sorts_witness :
  exists m', qsort cmp_byte 6 6 100 5 1 (poke ∅ 100 [3; 1; 2; 3; 0]) = Ret m' /\
    StronglySorted (fun x y => hd 0 x - hd 0 y <= 0) (slice (elem 100 1 m') 0 5).
Proof.
  destruct (qsort_sorts cmp_byte (fun x y => hd 0 x - hd 0 y) 6 6 100 5 1 (poke ∅ 100 [3; 1; 2; 3; 0]))
    as (m' & E & Hs & _); [exact cmp_byte_comparator|lia..|].
  exists m'. split; [exact E|exact Hs].
Defined.
