(* ===== verification/Libc.v ===== *)
(** * Libc: the string routines of the user library (user/lib/libc/string, ctype)

    Strings are bytes in memory; the scans run on fuel.  [memset], [memcpy], [strcpy], [strlen] and
    [strcmp] of the library are the loops of the kernel's routines (KString) over again, and the
    routines here call those.  The plain [char] of the source is signed: a value read through it
    is [s8] of the cell where that matters. *)
From S2P Require Import Prelude KString Bytes.

(** ** Characters (ctype) *)

Definition _U : Z := 0x01.
Definition _L : Z := 0x02.
Definition _D : Z := 0x04.
Definition _C : Z := 0x08.
Definition _P : Z := 0x10.
Definition _S : Z := 0x20.
Definition _X : Z := 0x40.
Definition _SP : Z := 0x80.

Definition _ctype : list Z :=
  replicate 9 _C ++ replicate 5 (Z.lor _C _S) ++ replicate 18 _C ++                        (* 0-31 *)
  [Z.lor _S _SP] ++ replicate 15 _P ++ replicate 10 _D ++ replicate 7 _P ++                (* 32-64 *)
  replicate 6 (Z.lor _U _X) ++ replicate 20 _U ++ replicate 6 _P ++                        (* 65-96 *)
  replicate 6 (Z.lor _L _X) ++ replicate 20 _L ++ replicate 4 _P ++ [_C] ++                (* 97-127 *)
  replicate 32 0 ++ [Z.lor _S _SP] ++ replicate 31 _P ++                                   (* 128-191 *)
  replicate 23 _U ++ [_P] ++ replicate 7 _U ++ replicate 24 _L ++ [_P] ++ replicate 8 _L.  (* 192-255 *)

Definition __ismask (x : Z) : Z := nth (Z.to_nat (u8 x)) _ctype 0.
Definition ismask (mask c : Z) : bool := negb (Z.land (__ismask c) mask =? 0).
Definition isalpha (c : Z) : bool := ismask (Z.lor _U _L) c.
Definition isdigit (c : Z) : bool := ismask _D c.
Definition isspace (c : Z) : bool := ismask _S c.
Definition isupper (c : Z) : bool := ismask _U c.
Definition islower (c : Z) : bool := ismask _L c.

Definition tolower (c : Z) : Z := if isupper c then c - (65 - 97) else c.
Definition toupper (c : Z) : Z := if islower c then c - (97 - 65) else c.

(** ** Blocks of memory *)

(** The bytes backwards when the destination begins inside the source, forwards otherwise. *)
Definition memmove (m : mem) (s1 s2 n : Z) : mem :=
  if (s1 >? s2) && (s1 <? s2 + n)
  then for_upto 0 n (fun i m => m⟦s1 + n - 1 - i := m⟦s2 + n - 1 - i⟧⟧) m
  else for_upto 0 n (fun i m => m⟦s1 + i := m⟦s2 + i⟧⟧) m.

Definition memchr (m : mem) (buf c n : Z) : Z :=
  match for_break (Z.to_nat n) 0 (fun i (_ : unit) => if m⟦buf + i⟧ =? c then inr (buf + i) else inl tt) tt with
  | inl _ => 0
  | inr p => p
  end.

(** The loop ends at a zero byte of both as well. *)
Definition memcmp (m : mem) (s1 s2 n : Z) : Z :=
  match
    for_break (Z.to_nat n) 0 (fun i (_ : Z) =>
      let c1 := m⟦s1 + i⟧ in
      let c2 := m⟦s2 + i⟧ in
      let d := c1 - c2 in
      if negb (d =? 0) || (c2 =? 0) then inr d else inl d) 0
  with
  | inl d => d
  | inr d => d
  end.

(** ** Comparing and copying *)

(** [while (--count) if ( *_s1++ != *_s2++) break; return count;] *)
Fixpoint strncmp_loop (n : nat) (m : mem) (s1 s2 : Z) : Z :=
  match n with
  | O => 0
  | S n' => if m⟦s1⟧ =? m⟦s2⟧ then strncmp_loop n' m (s1 + 1) (s2 + 1) else Z.of_nat n
  end.

Definition strncmp (m : mem) (s1 s2 count : Z) : Z :=
  if count =? 0 then -1 else s32 (strncmp_loop (Z.to_nat (count - 1)) m s1 s2).

Fixpoint strcasecmp (n : nat) (m : mem) (s1 s2 : Z) : outcome Z :=
  match n with
  | O => NoFuel
  | S n =>
      let c1 := tolower m⟦s1⟧ in
      let c2 := tolower m⟦s2⟧ in
      let d := c1 - c2 in
      if negb (d =? 0) || (c2 =? 0) then Ret d else strcasecmp n m (s1 + 1) (s2 + 1)
  end.

Definition strncasecmp (m : mem) (s1 s2 len : Z) : Z :=
  match
    for_break (Z.to_nat len) 0 (fun i (_ : Z) =>
      let c1 := tolower m⟦s1 + i⟧ in
      let c2 := tolower m⟦s2 + i⟧ in
      let d := c1 - c2 in
      if negb (d =? 0) || (c2 =? 0) then inr d else inl d) 0
  with
  | inl d => d
  | inr d => d
  end.

Definition strncpy (m : mem) (dest src count : Z) : Z * mem :=
  let m := for_upto 0 count (fun i m => m⟦dest + i := m⟦src + i⟧⟧) m in
  (s32 count, m⟦dest + count := 0⟧).

Section scans.
Context (fuel : nat).

Definition strcat (m : mem) (dest src : Z) : outcome (Z * mem) :=
  n ← strlen fuel m dest;
  m ← strcpy fuel m (dest + n) src;
  Ret (dest, m).

Fixpoint strchr (n : nat) (m : mem) (s c : Z) : outcome Z :=
  match n with
  | O => NoFuel
  | S n => if m⟦s⟧ =? 0 then Ret 0 else if s8 m⟦s⟧ =? c then Ret s else strchr n m (s + 1) c
  end.

(** From the terminator back; the first character is never looked at. *)
Definition strrchr (m : mem) (s c : Z) : outcome Z :=
  len ← strlen fuel m s;
  match for_break (Z.to_nat len) 0 (fun i (p : Z) => if s8 m⟦p⟧ =? c then inr p else inl (p - 1)) (s + len) with
  | inl _ => Ret 0
  | inr p => Ret p
  end.

Definition strdup {H} `{Allocator H} (s : Z) (h : H) (m : mem) : outcome (Z * H * mem) :=
  n ← strlen fuel m s;
  let len := n + 1 in
  '(result, h) ← malloc len h;
  if result =? 0 then Ret (0, h, m) else Ret (result, h, memcpy m result s len).

Fixpoint strstr_loop (n : nat) (m : mem) (s1 s2 len : Z) : outcome Z :=
  match n with
  | O => NoFuel
  | S n => if m⟦s1⟧ =? 0 then Ret 0 else if memcmp m s1 s2 len =? 0 then Ret s1 else strstr_loop n m (s1 + 1) s2 len
  end.

Definition strstr (m : mem) (s1 s2 : Z) : outcome Z :=
  len ← strlen fuel m s2;
  strstr_loop fuel m s1 s2 len.

(** ** Spans: sets of bytes as four words of 64 bits *)

Definition bitop_or (byteset : mem) (b : Z) : mem :=
  byteset⟦b / 64 := u64 (Z.lor byteset⟦b / 64⟧ (Z.shiftl 1 (b mod 64)))⟧.

Definition bitop_and (byteset : mem) (b : Z) : bool := negb (Z.land byteset⟦b / 64⟧ (Z.shiftl 1 (b mod 64)) =? 0).

(** [for (; *s2 && BITOP(byteset, *s2, |=); s2++);]: the word that was written is not zero. *)
Fixpoint fill_set (n : nat) (m : mem) (s2 : Z) (byteset : mem) : outcome mem :=
  match n with
  | O => NoFuel
  | S n =>
      if m⟦s2⟧ =? 0 then Ret byteset
      else
        let byteset := bitop_or byteset m⟦s2⟧ in
        if byteset⟦m⟦s2⟧ / 64⟧ =? 0 then Ret byteset else fill_set n m (s2 + 1) byteset
  end.

(** [for (; *s1 && BITOP(...) == want; s1++);] *)
Fixpoint span_set (n : nat) (m : mem) (s1 : Z) (byteset : mem) (want : bool) : outcome Z :=
  match n with
  | O => NoFuel
  | S n =>
      if negb (m⟦s1⟧ =? 0) && eqb (bitop_and byteset m⟦s1⟧) want
      then span_set n m (s1 + 1) byteset want else Ret s1
  end.

(** [for (; *s1 == *s2; s1++);] *)
Fixpoint span_char (n : nat) (m : mem) (s1 s2 : Z) : outcome Z :=
  match n with
  | O => NoFuel
  | S n => if m⟦s1⟧ =? m⟦s2⟧ then span_char n m (s1 + 1) s2 else Ret s1
  end.

Definition strspn (m : mem) (s1 s2 : Z) : outcome Z :=
  let a := s1 in
  if m⟦s2⟧ =? 0 then Ret 0
  else if m⟦s2 + 1⟧ =? 0 then e ← span_char fuel m s1 s2; Ret (e - a)
  else
    byteset ← fill_set fuel m s2 ∅;
    e ← span_set fuel m s1 byteset true;
    Ret (e - a).

Definition ALIGN : Z := 8.
Definition ONES : Z := u64 (-1) / 255.
Definition HIGHS : Z := ONES * (255 / 2 + 1).
Definition HASZERO (x : Z) : bool := negb (Z.land (Z.land (u64 (x - ONES)) (u64 (Z.lnot x))) HIGHS =? 0).

(** Byte by byte up to an aligned address ([true]: the search ended before it). *)
Fixpoint chr_align (n : nat) (m : mem) (s c : Z) : outcome (bool * Z) :=
  match n with
  | O => NoFuel
  | S n =>
      if s mod ALIGN =? 0 then Ret (false, s)
      else if (m⟦s⟧ =? 0) || (m⟦s⟧ =? c) then Ret (true, s)
      else chr_align n m (s + 1) c
  end.

(** Word by word. *)
Fixpoint chr_words (n : nat) (m : mem) (w k : Z) : outcome Z :=
  match n with
  | O => NoFuel
  | S n => if negb (HASZERO (ld64 m w)) && negb (HASZERO (Z.lxor (ld64 m w) k)) then chr_words n m (w + 8) k else Ret w
  end.

Fixpoint chr_bytes (n : nat) (m : mem) (s c : Z) : outcome Z :=
  match n with
  | O => NoFuel
  | S n => if negb (m⟦s⟧ =? 0) && negb (m⟦s⟧ =? c) then chr_bytes n m (s + 1) c else Ret s
  end.

Definition strchrnul (m : mem) (s c : Z) : outcome Z :=
  let c := u8 c in
  if c =? 0 then n ← strlen fuel m s; Ret (s + n)
  else
    '(found, s) ← chr_align fuel m s c;
    if (found : bool) then Ret s
    else
      let k := u64 (ONES * c) in
      w ← chr_words fuel m s k;
      chr_bytes fuel m w c.

Definition strcspn (m : mem) (s1 s2 : Z) : outcome Z :=
  let a := s1 in
  if negb (m⟦s2⟧ =? 0) && negb (m⟦s2 + 1⟧ =? 0) then
    byteset ← fill_set fuel m s2 ∅;
    e ← span_set fuel m s1 byteset false;
    Ret (e - a)
  else e ← strchrnul m s1 (s8 m⟦s2⟧); Ret (e - a).

Definition strpbrk (m : mem) (s1 s2 : Z) : outcome Z :=
  n ← strcspn m s1 s2;
  let s1 := s1 + n in
  Ret (if m⟦s1⟧ =? 0 then 0 else s1).

(** ** Tokens *)

(** Is the character one of those of the string [spanp]?  [do { if ((sc = *spanp++) == c) ... } while (sc != 0);]
    finds the terminator too, [for (...; (sc = *spanp++) != 0;)] does not. *)
Fixpoint in_delim (n : nat) (nul : bool) (m : mem) (spanp c : Z) : outcome bool :=
  match n with
  | O => NoFuel
  | S n =>
      let sc := m⟦spanp⟧ in
      if sc =? 0 then Ret (nul && (c =? 0))
      else if sc =? c then Ret true else in_delim n nul m (spanp + 1) c
  end.

(** The loop behind the start of the token: the rest of the string, 0 when there is none, and the
    memory with the token ended. *)
Fixpoint end_token (n : nat) (m : mem) (s delim : Z) : outcome (Z * mem) :=
  match n with
  | O => NoFuel
  | S n =>
      let c := m⟦s⟧ in
      let s := s + 1 in
      b ← in_delim fuel true m delim c;
      if (b : bool) then if c =? 0 then Ret (0, m) else Ret (s, m⟦s - 1 := 0⟧)
      else end_token n m s delim
  end.

(** [*stringp] before and after, and the token. *)
Definition strsep (stringp delim : Z) (m : mem) : outcome (Z * Z * mem) :=
  if stringp =? 0 then Ret (0, stringp, m)
  else '(s, m) ← end_token fuel m stringp delim; Ret (stringp, s, m).

(** The loop of the label [cont]: the first character that is no delimiter. *)
Fixpoint skip_delim (n : nat) (m : mem) (s delim : Z) : outcome (Z * Z) :=
  match n with
  | O => NoFuel
  | S n =>
      let c := m⟦s⟧ in
      let s := s + 1 in
      b ← in_delim fuel false m delim c;
      if (b : bool) then skip_delim n m s delim else Ret (c, s)
  end.

(** The token, [*last] and the memory. *)
Definition strtok_r (s delim last : Z) (m : mem) : outcome (Z * Z * mem) :=
  let s := if s =? 0 then last else s in
  if s =? 0 then Ret (0, last, m)
  else
    '(c, s) ← skip_delim fuel m s delim;
    if c =? 0 then Ret (0, 0, m)
    else
      let tok := s - 1 in
      '(s, m) ← end_token fuel m s delim;
      Ret (tok, s, m).

(** [last] is the static variable. *)
Definition strtok (s1 s2 last : Z) (m : mem) : outcome (Z * Z * mem) := strtok_r s1 s2 last m.
End scans.

(** ** Moving *)

(** [memmove] moves [n] bytes whether or not the two blocks overlap: the destination holds what the
    source held before the call, and no other byte changes. *)
Theorem memmove_moves m s1 s2 n a :
  (memmove m s1 s2 n)⟦a⟧ = if within a s1 n then m⟦s2 + (a - s1)⟧ else m⟦a⟧.
Proof.
  destruct (Z.le_gt_cases 0 n) as [Hn|Hn].
  2:{ unfold memmove, for_upto. replace (Z.to_nat (n - 0)) with O by lia. cbn [for_loop]. rewrite not_within by lia.
      by destruct ((s1 >? s2) && (s1 <? s2 + n)). }
  unfold memmove. rewrite Z.gtb_ltb. revert a. destruct (Z.ltb_spec s2 s1), (Z.ltb_spec s1 (s2 + n)); cbn [andb].
  1:{ upto_with (fun i m' => forall a, m'⟦a⟧ = if within a (s1 + n - i) i then m⟦s2 + (a - s1)⟧ else m⟦a⟧).
      - done.
      - intros a. by rewrite not_within by lia.
      - intros i m' Hi E a. rewrite rd_wr, !E. case_within; try lia; f_equal; lia.
      - intros m' E a. rewrite E. by replace (s1 + n - n) with s1 by lia. }
  all: upto_with (fun i m' => forall a, m'⟦a⟧ = if within a s1 i then m⟦s2 + (a - s1)⟧ else m⟦a⟧);
    [done|intros a; by rewrite not_within by lia| |done];
    intros i m' Hi E a; rewrite rd_wr, !E; case_within; try lia; f_equal; lia.
Qed.

(** ** Bytes of words *)

(** The little-endian word of some bytes. *)
Fixpoint word (l : list Z) : Z := match l with [] => 0 | b :: l => b + 256 * word l end.

Lemma testbit_byte b x k : 0 <= b < 256 -> 0 <= k -> Z.testbit (b + 256 * x) k = if k <? 8 then Z.testbit b k else Z.testbit x (k - 8).
Proof.
  intros Hb Hk. destruct (Z.ltb_spec k 8).
  - rewrite <- (Z.mod_pow2_bits_low _ 8) by lia. f_equal. change (2 ^ 8) with 256. Z.div_mod_to_equations; lia.
  - replace k with (k - 8 + 8) at 1 by lia. rewrite <- Z.div_pow2_bits by lia. f_equal. change (2 ^ 8) with 256. Z.div_mod_to_equations; lia.
Qed.

Lemma byte_ops b c x y : 0 <= b < 256 -> 0 <= c < 256 ->
  Z.land (b + 256 * x) (c + 256 * y) = Z.land b c + 256 * Z.land x y /\
  Z.lxor (b + 256 * x) (c + 256 * y) = Z.lxor b c + 256 * Z.lxor x y /\ 0 <= Z.land b c < 256 /\ 0 <= Z.lxor b c < 256.
Proof.
  intros Hb Hc.
  assert (forall z, (forall k, 8 <= k -> Z.testbit z k = false) -> 0 <= z mod 256 /\ z = z mod 256) as Hsmall.
  { intros z Hz. split; [apply Z.mod_pos_bound; lia|]. apply Z.bits_inj'. intros k Hk. change 256 with (2 ^ 8).
    destruct (Z.ltb_spec k 8); [by rewrite Z.mod_pow2_bits_low by lia|]. rewrite Z.mod_pow2_bits_high by lia. apply Hz. lia. }
  assert (forall z k, 0 <= z < 256 -> 8 <= k -> Z.testbit z k = false) as Hhigh.
  { intros z k Hz Hk. rewrite <- (Z.mod_small z (2 ^ 8)) by lia. apply Z.mod_pow2_bits_high. lia. }
  assert (0 <= Z.land b c < 256) as H1.
  { destruct (Hsmall (Z.land b c)) as [_ ->]; [|apply Z.mod_pos_bound; lia]. intros k Hk. rewrite Z.land_spec. by rewrite (Hhigh b). }
  assert (0 <= Z.lxor b c < 256) as H2.
  { destruct (Hsmall (Z.lxor b c)) as [_ ->]; [|apply Z.mod_pos_bound; lia]. intros k Hk. rewrite Z.lxor_spec. by rewrite (Hhigh b), (Hhigh c). }
  split; [|split; [|done]]; apply Z.bits_inj'; intros k Hk.
  - rewrite Z.land_spec, !testbit_byte, !Z.land_spec by lia. by destruct (k <? 8).
  - rewrite Z.lxor_spec, !testbit_byte, !Z.lxor_spec by lia. by destruct (k <? 8).
Qed.

Lemma lnot_byte b x : Z.lnot (b + 256 * x) = (255 - b) + 256 * Z.lnot x.
Proof. unfold Z.lnot. lia. Qed.

(** The test for a zero byte, on words of any number of bytes. *)
Lemma zero_byte l :
  Forall (fun b => 0 <= b < 256) l ->
  let z := Z.land (Z.land (word l - word (replicate (length l) 1)) (Z.lnot (word l))) (word (replicate (length l) 128)) in
  0 <= z /\ (z = 0 <-> 0 ∉ l).
Proof.
  induction l as [|b l IH]; intros Hl; cbn [length replicate word]; cbv zeta.
  - split; [done|]. split; [intros _; apply not_elem_of_nil|done].
  - apply Forall_cons in Hl as [Hb Hl]. specialize (IH Hl). cbv zeta in IH. destruct IH as [IH0 IH].
    rewrite lnot_byte. set (x := word l) in *. set (o := word (replicate (length l) 1)) in *. set (h := word (replicate (length l) 128)) in *.
    rewrite not_elem_of_cons. destruct (Z.eqb_spec b 0) as [->|Hb0].
    + replace (0 + 256 * x - (1 + 256 * o)) with (255 + 256 * (x - o - 1)) by lia.
      destruct (byte_ops 255 (255 - 0) (x - o - 1) (Z.lnot x) ltac:(lia) ltac:(lia)) as (-> & _).
      change (Z.land 255 (255 - 0)) with 255. destruct (byte_ops 255 128 (Z.land (x - o - 1) (Z.lnot x)) h ltac:(lia) ltac:(lia)) as (-> & _).
      change (Z.land 255 128) with 128. assert (0 <= h) as Hh.
      { subst h. clear. induction (length l); cbn [replicate word]; lia. }
      pose proof (proj2 (Z.land_nonneg (Z.land (x - o - 1) (Z.lnot x)) h) (or_intror Hh)). split; [lia|]. split; [lia|]. by intros [? _].
    + replace (b + 256 * x - (1 + 256 * o)) with ((b - 1) + 256 * (x - o)) by lia.
      destruct (byte_ops (b - 1) (255 - b) (x - o) (Z.lnot x) ltac:(lia) ltac:(lia)) as (-> & _ & Hr & _).
      destruct (byte_ops (Z.land (b - 1) (255 - b)) 128 (Z.land (x - o) (Z.lnot x)) h Hr ltac:(lia)) as (-> & _).
      assert (Z.land (Z.land (b - 1) (255 - b)) 128 = 0) as ->.
      { assert (forallb (fun b => Z.land (Z.land (b - 1) (255 - b)) 128 =? 0) (seqZ 1 255) = true) as Hall by (vm_compute; reflexivity).
        rewrite forallb_forall in Hall. apply Z.eqb_eq, Hall, list_elem_of_In, elem_of_seqZ. lia. }
      split; [lia|]. rewrite <- IH. split; [intros E; split; [lia|lia]|intros [_ E]; lia].
Qed.

Lemma testbit_u64 z k : 0 <= k -> Z.testbit (u64 z) k = (k <? 64) && Z.testbit z k.
Proof.
  intros Hk. unfold u64. destruct (Z.ltb_spec k 64); [by rewrite Z.mod_pow2_bits_low by lia|by rewrite Z.mod_pow2_bits_high by lia].
Qed.

Lemma word_le n m a : ld n m a = word (bytes m a (Z.of_nat n)).
Proof.
  revert a. induction n as [|n IH]; intros a; [done|]. cbn [ld]. rewrite IH. unfold bytes.
  replace (Z.to_nat (Z.of_nat (S n))) with (S n) by lia. replace (Z.to_nat (Z.of_nat n)) with n by lia.
  cbn [seq fmap list_fmap word]. f_equal; [f_equal; lia|]. do 2 f_equal. rewrite <- fmap_S_seq, <- list_fmap_compose.
  apply list_fmap_ext. intros i x _. cbn. f_equal. lia.
Qed.

Lemma HASZERO_spec l : Forall (fun b => 0 <= b < 256) l -> length l = 8%nat -> HASZERO (word l) = bool_decide (0 ∈ l).
Proof.
  intros Hl Hn. destruct (zero_byte l Hl) as [_ Hz]. rewrite Hn in Hz.
  change (word (replicate 8 1)) with ONES in Hz. change (word (replicate 8 128)) with HIGHS in Hz.
  assert (Z.land (Z.land (u64 (word l - ONES)) (u64 (Z.lnot (word l)))) HIGHS = Z.land (Z.land (word l - ONES) (Z.lnot (word l))) HIGHS) as E.
  { apply Z.bits_inj'. intros k Hk. rewrite !Z.land_spec, !testbit_u64 by done. destruct (Z.ltb_spec k 64); [done|].
    assert (Z.testbit HIGHS k = false) as ->; [|by rewrite !andb_false_r]. rewrite <- (Z.mod_small HIGHS (2 ^ 64)) by (by vm_compute).
    apply Z.mod_pow2_bits_high. lia. }
  unfold HASZERO. rewrite E. case_bool_decide as Hin.
  - apply negb_true_iff, Z.eqb_neq. intros E0. by apply Hz in E0.
  - apply negb_false_iff, Z.eqb_eq. by apply Hz.
Qed.

Lemma lxor_word c l : 0 <= c < 256 -> Forall (fun b => 0 <= b < 256) l ->
  Z.lxor (word l) (word (replicate (length l) c)) = word ((fun b => Z.lxor b c) <$> l) /\ Forall (fun b => 0 <= b < 256) ((fun b => Z.lxor b c) <$> l).
Proof.
  intros Hc. induction l as [|b l IH]; intros Hl; [done|]. apply Forall_cons in Hl as [Hb Hl]. destruct (IH Hl) as [E Hf].
  cbn [length replicate word fmap list_fmap]. destruct (byte_ops b c (word l) (word (replicate (length l) c)) Hb Hc) as (_ & -> & _ & Hr).
  rewrite E. split; [done|]. by constructor.
Qed.

(** The tests on the word of memory at [w]. *)
Lemma HASZERO_ld m w c : bytes_in m -> 0 <= c < 256 ->
  (HASZERO (ld64 m w) = true <-> exists b, w <= b < w + 8 /\ m⟦b⟧ = 0) /\
  (HASZERO (Z.lxor (ld64 m w) (u64 (ONES * c))) = true <-> exists b, w <= b < w + 8 /\ m⟦b⟧ = c).
Proof.
  intros Hm Hc. rewrite (word_le 8). change (Z.of_nat 8) with 8. set (l := bytes m w 8).
  assert (Forall (fun b => 0 <= b < 256) l) as Hl.
  { apply Forall_forall. intros x Hx. unfold l, bytes in Hx. apply list_elem_of_fmap in Hx as (i & -> & _). apply Hm. }
  assert (length l = 8%nat) as Hn by apply length_bytes.
  assert (forall v, v ∈ l <-> exists b, w <= b < w + 8 /\ m⟦b⟧ = v) as Hin.
  { intros v. unfold l, bytes. rewrite list_elem_of_fmap. setoid_rewrite elem_of_seq. split.
    - intros (i & -> & Hi). exists (w + Z.of_nat i). split; [lia|done].
    - intros (b & Hb & <-). exists (Z.to_nat (b - w)). split; [f_equal; lia|lia]. }
  assert (u64 (ONES * c) = word (replicate (length l) c)) as ->.
  { rewrite Hn. cbn [replicate word]. change ONES with 0x0101010101010101. rewrite u64_small by lia. lia. }
  destruct (lxor_word c l Hc Hl) as [-> Hl']. rewrite !HASZERO_spec by (rewrite ?length_fmap; done). rewrite !bool_decide_eq_true, Hin. split; [done|].
  rewrite list_elem_of_fmap. setoid_rewrite <- Hin. split.
  - intros (y & E & Hy). symmetry in E. apply Z.lxor_eq in E. by subst y.
  - intros Hy. exists c. by rewrite Z.lxor_nilpotent.
Qed.

(** ** Spans *)

(** How many characters at the head of [l] satisfy [P]: the definition the spans are compared with. *)
Fixpoint prefix_len (P : Z -> bool) (l : list Z) : nat :=
  match l with
  | [] => O
  | c :: l => if P c then S (prefix_len P l) else O
  end.

Lemma prefix_len_ext P Q l : (forall c, c ∈ l -> P c = Q c) -> prefix_len P l = prefix_len Q l.
Proof.
  induction l as [|c l IH]; intros E; cbn; [done|]. rewrite E by left. destruct (Q c); [|done]. f_equal. apply IH. intros x Hx. apply E. by right.
Qed.

Lemma prefix_len_le P l : (prefix_len P l <= length l)%nat.
Proof. induction l as [|c l IH]; cbn; [lia|]. destruct (P c); lia. Qed.

(** The byte where the prefix ends. *)
Lemma prefix_len_stop P m s l : cstr m s l ->
  let e := s + Z.of_nat (prefix_len P l) in
  (forall b, s <= b < e -> m⟦b⟧ <> 0 /\ P m⟦b⟧ = true) /\ (m⟦e⟧ = 0 \/ m⟦e⟧ <> 0 /\ P m⟦e⟧ = false).
Proof.
  revert s. induction l as [|c l IH]; intros s Hs; cbn [prefix_len]; cbv zeta.
  - rewrite Z.add_0_r. split; [lia|]. left. apply cstr_end in Hs. cbn in Hs. by rewrite Z.add_0_r in Hs.
  - apply cstr_cons in Hs as (Hc & E & Hs). destruct (P c) eqn:EP.
    + destruct (IH (s + 1) Hs) as [H1 H2]. replace (s + Z.of_nat (S (prefix_len P l))) with (s + 1 + Z.of_nat (prefix_len P l)) by lia.
      split; [|done]. intros b Hb. destruct (decide (b = s)) as [->|]; [rewrite E; split; [lia|done]|apply H1; lia].
    + rewrite Z.add_0_r, E. split; [lia|]. right. split; [lia|done].
Qed.

Section spans.
Context (fuel : nat).
Implicit Types (m : mem) (s c e : Z) (l : list Z).

(** [e] is the first place from [s] on that holds 0 or [c]. *)
Definition stop_at m s c e : Prop := s <= e /\ (forall b, s <= b < e -> m⟦b⟧ <> 0 /\ m⟦b⟧ <> c) /\ (m⟦e⟧ = 0 \/ m⟦e⟧ = c).

Lemma stop_at_later m s s' c e : stop_at m s c e -> s <= s' <= e -> stop_at m s' c e.
Proof. intros (H1 & H2 & H3) Hs. split; [lia|]. split; [|done]. intros b Hb. apply H2. lia. Qed.

Lemma chr_bytes_spec n m s c e : stop_at m s c e -> e - s < Z.of_nat n -> chr_bytes n m s c = Ret e.
Proof.
  revert s. induction n as [|n IH]; intros s Hst Hn; [destruct Hst; lia|]. cbn [chr_bytes]. destruct (decide (s = e)) as [->|Hne].
  - destruct Hst as (_ & _ & [->| ->]); [done|]. rewrite Z.eqb_refl. by rewrite andb_false_r.
  - destruct Hst as (Hle & Hb & He). destruct (Hb s) as [B1 B2]; [lia|].
    rewrite (proj2 (Z.eqb_neq _ _) B1), (proj2 (Z.eqb_neq _ _) B2). cbn [negb andb]. apply IH; [|lia]. apply (stop_at_later m s); [done|lia].
Qed.

Lemma chr_align_spec n m s c e : stop_at m s c e -> e - s < Z.of_nat n ->
  (exists s', chr_align n m s c = Ret (false, s') /\ s <= s' <= e) \/ chr_align n m s c = Ret (true, e).
Proof.
  revert s. induction n as [|n IH]; intros s Hst Hn; [destruct Hst; lia|]. cbn [chr_align]. destruct (s mod ALIGN =? 0).
  - left. exists s. split; [done|]. destruct Hst; lia.
  - destruct (decide (s = e)) as [->|Hne].
    + right. destruct Hst as (_ & _ & [->| ->]); [done|]. by rewrite Z.eqb_refl, orb_true_r.
    + destruct Hst as (Hle & Hb & He). destruct (Hb s) as [B1 B2]; [lia|].
      rewrite (proj2 (Z.eqb_neq _ _) B1), (proj2 (Z.eqb_neq _ _) B2). cbn [orb].
      destruct (IH (s + 1)) as [(s' & E & Hs')|E]; [apply (stop_at_later m s); [done|lia]|lia| |by right].
      left. exists s'. split; [exact E|lia].
Qed.

Lemma chr_words_spec n m w c e : bytes_in m -> 0 <= c < 256 -> stop_at m w c e -> e - w < Z.of_nat n ->
  exists w', chr_words n m w (u64 (ONES * c)) = Ret w' /\ w <= w' <= e.
Proof.
  intros Hm Hc. revert w. induction n as [|n IH]; intros w Hst Hn; [destruct Hst; lia|]. cbn [chr_words].
  destruct (HASZERO_ld m w c Hm Hc) as [Z1 Z2]. destruct (HASZERO (ld64 m w)); [exists w; destruct Hst; split; [done|lia]|].
  destruct (HASZERO (Z.lxor (ld64 m w) (u64 (ONES * c)))); [exists w; destruct Hst; split; [done|lia]|]. cbn [negb andb].
  assert (w + 8 <= e) as Hle.
  { destruct (Z.le_gt_cases (w + 8) e); [done|]. destruct Hst as (H1 & _ & [He|He]).
    - destruct Z1 as [_ Z1]. discriminate Z1. exists e. split; [lia|done].
    - destruct Z2 as [_ Z2]. discriminate Z2. exists e. split; [lia|done]. }
  destruct (IH (w + 8)) as (w' & E & Hw'); [apply (stop_at_later m w); [done|lia]|lia|]. exists w'. split; [exact E|lia].
Qed.

Lemma strchrnul_spec m s c l : bytes_in m -> cstr m s l -> (length l < fuel)%nat ->
  strchrnul fuel m s c = Ret (s + Z.of_nat (prefix_len (fun x => negb (x =? u8 c)) l)).
Proof.
  intros Hm Hs Hf. pose proof (u8_range c) as Hc. unfold strchrnul. set (c' := u8 c) in *.
  set (e := s + Z.of_nat (prefix_len (fun x => negb (x =? c')) l)). pose proof (prefix_len_le (fun x => negb (x =? c')) l) as Hle.
  destruct (Z.eqb_spec c' 0) as [E0|E0].
  - rewrite (strlen_spec _ _ _ l) by done. cbn [mbind outcome_bind]. unfold e. rewrite E0. do 3 f_equal.
    destruct Hs as [Hch _]. clear -Hch. induction l as [|x l IH]; [done|]. apply Forall_cons in Hch as [Hx Hch]. cbn [prefix_len length].
    destruct (Z.eqb_spec x 0); [lia|]. cbn [negb]. f_equal. by apply IH.
  - assert (stop_at m s c' e) as Hst.
    { destruct (prefix_len_stop (fun x => negb (x =? c')) m s l Hs) as [H1 H2]. fold e in H1, H2. split; [unfold e; lia|]. split.
      - intros b Hb. destruct (H1 b Hb) as [? Hx]. split; [done|]. apply negb_true_iff, Z.eqb_neq in Hx. done.
      - destruct H2 as [?|[_ Hx]]; [by left|right]. apply negb_false_iff, Z.eqb_eq in Hx. done. }
    destruct (chr_align_spec fuel m s c' e Hst ltac:(unfold e; lia)) as [(s' & -> & Hs')| ->]; [|done]. cbn [mbind outcome_bind].
    destruct (chr_words_spec fuel m s' c' e Hm ltac:(lia)) as (w & -> & Hw); [apply (stop_at_later m s); [done|lia]|unfold e in *; lia|].
    cbn [mbind outcome_bind]. apply chr_bytes_spec; [apply (stop_at_later m s); [done|lia]|unfold e in *; lia].
Qed.

(** The set of bytes. *)
Lemma bitop_and_testbit bs b : 0 <= b -> bitop_and bs b = Z.testbit bs⟦b / 64⟧ (b mod 64).
Proof. intros Hb. unfold bitop_and. rewrite land_1_shiftl_eqb, negb_involutive; [done|]. apply Z.mod_pos_bound. lia. Qed.

Lemma bitop_or_spec bs x b : 0 <= x -> 0 <= b -> bitop_and (bitop_or bs x) b = (b =? x) || bitop_and bs b.
Proof.
  intros Hx Hb. rewrite !bitop_and_testbit by done. unfold bitop_or. rewrite rd_wr.
  pose proof (Z.mod_pos_bound b 64 ltac:(lia)). pose proof (Z.mod_pos_bound x 64 ltac:(lia)).
  destruct (Z.eqb_spec (b / 64) (x / 64)) as [E|E].
  - unfold u64. rewrite testbit_wrap, testbit_lor_1 by lia. rewrite E. rewrite orb_comm. f_equal.
    destruct (Z.eqb_spec (b mod 64) (x mod 64)), (Z.eqb_spec b x); try done; Z.div_mod_to_equations; lia.
  - destruct (Z.eqb_spec b x) as [->|]; done.
Qed.

Lemma fill_set_spec n m s2 l bs : cstr m s2 l -> (length l < n)%nat ->
  exists bs', fill_set n m s2 bs = Ret bs' /\ forall b, 0 <= b -> bitop_and bs' b = bool_decide (b ∈ l) || bitop_and bs b.
Proof.
  revert s2 l bs. induction n as [|n IH]; intros s2 l bs Hs Hn; [lia|]. cbn [fill_set]. destruct l as [|c l].
  - apply cstr_end in Hs. cbn in Hs. rewrite Z.add_0_r in Hs. rewrite Hs. exists bs. split; [done|]. intros b _.
    by rewrite bool_decide_eq_false_2 by apply not_elem_of_nil.
  - apply cstr_cons in Hs as (Hc & -> & Hs). destruct (Z.eqb_spec c 0); [lia|].
    assert (bitop_and (bitop_or bs c) c = true) as Hbit by (rewrite bitop_or_spec, Z.eqb_refl by lia; done).
    destruct (Z.eqb_spec (bitop_or bs c)⟦c / 64⟧ 0) as [E|_].
    { rewrite bitop_and_testbit, E, Z.bits_0 in Hbit by lia. done. }
    destruct (IH (s2 + 1) l (bitop_or bs c) Hs ltac:(cbn in Hn; lia)) as (bs' & E & Hbs). exists bs'. split; [exact E|].
    intros b Hb. rewrite Hbs, bitop_or_spec by lia. rewrite orb_assoc. f_equal.
    destruct (Z.eqb_spec b c) as [->|Hne].
    + rewrite orb_true_r. symmetry. apply bool_decide_eq_true_2. left.
    + rewrite orb_false_r. apply bool_decide_ext. rewrite elem_of_cons. split; [by right|by intros [?|?]].
Qed.

Lemma span_set_spec n m s1 l bs want : cstr m s1 l -> (length l < n)%nat ->
  span_set n m s1 bs want = Ret (s1 + Z.of_nat (prefix_len (fun c => eqb (bitop_and bs c) want) l)).
Proof.
  revert s1 l. induction n as [|n IH]; intros s1 l Hs Hn; [lia|]. cbn [span_set]. destruct l as [|c l].
  - apply cstr_end in Hs. cbn in Hs. rewrite Z.add_0_r in Hs. rewrite Hs. cbn. by rewrite Z.add_0_r.
  - apply cstr_cons in Hs as (Hc & -> & Hs). destruct (Z.eqb_spec c 0); [lia|]. cbn [negb andb prefix_len].
    destruct (eqb (bitop_and bs c) want); [|by rewrite Z.add_0_r]. rewrite (IH _ l) by (done || (cbn in Hn; lia)). f_equal. lia.
Qed.

Lemma span_char_spec n m s1 s2 l c : cstr m s1 l -> m⟦s2⟧ = c -> c <> 0 -> (length l < n)%nat ->
  span_char n m s1 s2 = Ret (s1 + Z.of_nat (prefix_len (fun x => x =? c) l)).
Proof.
  intros Hs Ec Hc0. revert s1 l Hs. induction n as [|n IH]; intros s1 l Hs Hn; [lia|]. cbn [span_char]. rewrite Ec. destruct l as [|x l].
  - apply cstr_end in Hs. cbn in Hs. rewrite Z.add_0_r in Hs. rewrite Hs. destruct (Z.eqb_spec 0 c); [done|]. cbn. by rewrite Z.add_0_r.
  - apply cstr_cons in Hs as (Hx & -> & Hs). cbn [prefix_len]. destruct (x =? c); [|by rewrite Z.add_0_r].
    rewrite (IH _ l) by (done || (cbn in Hn; lia)). f_equal. lia.
Qed.

Lemma elem_of_single (x c : Z) : x ∈ [c] <-> x = c.
Proof. rewrite elem_of_cons, elem_of_nil. tauto. Qed.
End spans.

Section span_claims.
Context (fuel : nat).

(** C30: [strspn] and [strcspn] compute the length of the longest prefix of a string whose characters
    all are, or all are not, among those of a second string: the sets of 256 bits, the
    special cases of one character and the search that tests eight bytes at a time with
    HASZERO give the same answer as the definition on lists. *)
Theorem spans_equal_reference m s1 s2 l1 l2 :
  bytes_in m -> cstr m s1 l1 -> cstr m s2 l2 -> (length l1 < fuel)%nat -> (length l2 < fuel)%nat ->
  strspn fuel m s1 s2 = Ret (Z.of_nat (prefix_len (fun c => bool_decide (c ∈ l2)) l1)) /\
  strcspn fuel m s1 s2 = Ret (Z.of_nat (prefix_len (fun c => negb (bool_decide (c ∈ l2))) l1)).
Proof.
  intros Hm H1 H2 F1 F2. pose proof H2 as H2'. assert (forall x, x ∈ l1 -> 0 < x < 256) as Hl1 by (destruct H1 as [Hc _]; by apply Forall_forall).
  destruct l2 as [|c [|c' l2]].
  - apply cstr_end in H2. cbn in H2. rewrite Z.add_0_r in H2. unfold strspn, strcspn. rewrite H2. cbn [Z.eqb negb andb]. split.
    + destruct l1; [done|]. cbn [prefix_len]. by rewrite bool_decide_eq_false_2 by apply not_elem_of_nil.
    + rewrite (strchrnul_spec fuel m s1 (s8 0) l1) by done. cbn [mbind outcome_bind]. change (u8 (s8 0)) with 0. do 2 f_equal.
      rewrite (prefix_len_ext _ (fun c => negb (bool_decide (c ∈ [])))); [lia|]. intros x Hx. apply Hl1 in Hx.
      rewrite bool_decide_eq_false_2 by apply not_elem_of_nil. destruct (Z.eqb_spec x 0); [lia|done].
  - apply cstr_cons in H2 as (Hc & E & H2). apply cstr_end in H2. cbn in H2. rewrite Z.add_0_r in H2.
    unfold strspn, strcspn. rewrite E, H2. destruct (Z.eqb_spec c 0); [lia|]. cbn [Z.eqb negb andb]. split.
    + rewrite (span_char_spec fuel m s1 s2 l1 c) by (done || lia). cbn [mbind outcome_bind]. do 2 f_equal.
      rewrite (prefix_len_ext _ (fun x => bool_decide (x ∈ [c]))); [lia|]. intros x _.
      rewrite (bool_decide_ext _ _ (elem_of_single x c)). by destruct (Z.eqb_spec x c); case_bool_decide.
    + rewrite (strchrnul_spec fuel m s1 (s8 c) l1) by done. cbn [mbind outcome_bind]. replace (u8 (s8 c)) with c by word_lia. do 2 f_equal.
      rewrite (prefix_len_ext _ (fun x => negb (bool_decide (x ∈ [c])))); [lia|]. intros x _.
      rewrite (bool_decide_ext _ _ (elem_of_single x c)). by destruct (Z.eqb_spec x c); case_bool_decide.
  - apply cstr_cons in H2 as (Hc & E & H2). apply cstr_cons in H2 as (Hc' & E' & H2).
    unfold strspn, strcspn. rewrite E, E'. destruct (Z.eqb_spec c 0); [lia|]. destruct (Z.eqb_spec c' 0); [lia|]. cbn [negb andb].
    destruct (fill_set_spec fuel m s2 (c :: c' :: l2) ∅ H2' F2) as (bs & -> & Hbs). cbn [mbind outcome_bind].
    rewrite !(span_set_spec fuel m s1 l1) by done. cbn [mbind outcome_bind].
    assert (forall x, x ∈ l1 -> bitop_and bs x = bool_decide (x ∈ c :: c' :: l2)) as Hx.
    { intros x Hx. apply Hl1 in Hx. rewrite Hbs by lia. unfold bitop_and. rewrite rd_empty. rewrite Z.land_0_l. cbn. by rewrite orb_false_r. }
    split; do 2 f_equal.
    + rewrite (prefix_len_ext _ (fun x => bool_decide (x ∈ c :: c' :: l2))); [lia|]. intros x Hxl. rewrite Hx by done. by destruct (bool_decide _).
    + rewrite (prefix_len_ext _ (fun x => negb (bool_decide (x ∈ c :: c' :: l2)))); [lia|]. intros x Hxl. rewrite Hx by done. by destruct (bool_decide _).
Qed.
End span_claims.

(** ** Tokens *)

Section tokens.
Context (fuel : nat).
Implicit Types (m : mem) (s delim c : Z) (dl d t r : list Z).

Lemma in_delim_spec n nul m delim dl c : cstr m delim dl -> (length dl < n)%nat ->
  in_delim n nul m delim c = Ret (bool_decide (c ∈ dl) || (nul && (c =? 0))).
Proof.
  revert delim dl. induction n as [|n IH]; intros delim dl Hs Hn; [lia|]. cbn [in_delim]. destruct dl as [|x dl].
  - apply cstr_end in Hs. cbn in Hs. rewrite Z.add_0_r in Hs. rewrite Hs. by rewrite bool_decide_eq_false_2 by apply not_elem_of_nil.
  - apply cstr_cons in Hs as (Hx & -> & Hs). destruct (Z.eqb_spec x 0); [lia|]. destruct (Z.eqb_spec x c) as [->|Hne].
    + rewrite bool_decide_eq_true_2 by left. done.
    + rewrite (IH _ dl) by (done || (cbn in Hn; lia)). do 2 f_equal. apply bool_decide_ext. rewrite elem_of_cons.
      split; [by right|intros [?|?]; [congruence|done]].
Qed.

(** [r] is empty or begins with a delimiter. *)
Definition ends_token dl r : Prop := match r with [] => True | x :: _ => x ∈ dl end.

Lemma skip_delim_spec n m s delim dl d r :
  cstr m delim dl -> (length dl < fuel)%nat -> cstr m s (d ++ r) -> Forall (fun x => x ∈ dl) d -> match r with [] => True | x :: _ => x ∉ dl end ->
  (length d < n)%nat -> skip_delim fuel n m s delim = Ret (hd 0 r, s + zlen d + 1).
Proof.
  intros Hdl Hfd. revert s d. induction n as [|n IH]; intros s d Hs Hd Hr Hn; [lia|]. cbn [skip_delim].
  rewrite (in_delim_spec fuel false m delim dl) by done. cbn [mbind outcome_bind andb]. rewrite orb_false_r. destruct d as [|x d].
  - cbn [app] in Hs. rewrite Z.add_0_r. assert (m⟦s⟧ = hd 0 r /\ m⟦s⟧ ∉ dl) as [-> Hni].
    { destruct r as [|x r].
      - apply cstr_end in Hs. cbn in Hs. rewrite Z.add_0_r in Hs. split; [done|]. rewrite Hs. intros Hin. destruct Hdl as [Hc _].
        unfold chars in Hc. rewrite Forall_forall in Hc. apply Hc in Hin. lia.
      - apply cstr_cons in Hs as (_ & -> & _). done. }
    by rewrite bool_decide_eq_false_2.
  - apply cstr_cons in Hs as (_ & -> & Hs). apply Forall_cons in Hd as [Hx Hd]. rewrite bool_decide_eq_true_2 by done.
    rewrite (IH _ d) by (done || (cbn in Hn; lia)). do 2 f_equal. cbn [length]. lia.
Qed.

Lemma end_token_spec n m s delim dl t r :
  cstr m delim dl -> (length dl < fuel)%nat -> cstr m s (t ++ r) -> Forall (fun x => x ∉ dl) t -> ends_token dl r -> (length t < n)%nat ->
  end_token fuel n m s delim = Ret (match r with [] => (0, m) | _ => (s + zlen t + 1, m⟦s + zlen t := 0⟧) end).
Proof.
  intros Hdl Hfd. revert s t. induction n as [|n IH]; intros s t Hs Ht Hr Hn; [lia|]. cbn [end_token].
  rewrite (in_delim_spec fuel true m delim dl) by done. cbn [mbind outcome_bind andb]. destruct t as [|x t].
  - cbn [app length] in *. rewrite Z.add_0_r. destruct r as [|x r].
    + apply cstr_end in Hs. cbn in Hs. rewrite Z.add_0_r in Hs. rewrite Hs. by rewrite orb_true_r.
    + apply cstr_cons in Hs as (Hx & -> & _). cbn in Hr. rewrite bool_decide_eq_true_2 by done. cbn [orb].
      destruct (Z.eqb_spec x 0); [lia|]. do 3 f_equal. lia.
  - apply cstr_cons in Hs as (Hx & -> & Hs). apply Forall_cons in Ht as [Hx' Ht]. rewrite bool_decide_eq_false_2 by done.
    destruct (Z.eqb_spec x 0); [lia|]. cbn [orb]. rewrite (IH _ t) by (done || (cbn in Hn; lia)).
    destruct r; [done|]. do 2 f_equal; [cbn [length]; lia|]. f_equal. cbn [length]. lia.
Qed.
End tokens.

Section token_claims.
Context (fuel : nat).

(** [strtok_r] cuts the next token off a string: it skips the delimiters [d] at its head, ends the longest
    run [t] of other characters with a zero byte in place of the delimiter behind it, returns
    the address of [t], and leaves in [*last] the rest [r] behind that delimiter, or 0 at the end of
    the string; of a string of delimiters it makes 0 and changes nothing.  A call with 0 goes on from
    [*last]. *)
Theorem strtok_r_cuts s p delim last m dl d t r :
  s <> 0 -> p = s \/ p = 0 /\ last = s -> cstr m delim dl -> (length dl < fuel)%nat ->
  cstr m s (d ++ t ++ r) -> (length (d ++ t) < fuel)%nat ->
  Forall (fun x => x ∈ dl) d -> Forall (fun x => x ∉ dl) t -> ends_token dl r -> (t = [] -> r = []) ->
  match t with
  | [] => strtok_r fuel p delim last m = Ret (0, 0, m)
  | _ =>
      let tok := s + zlen d in
      let rest := tok + zlen t + 1 in
      exists m', strtok_r fuel p delim last m = Ret (tok, match r with [] => 0 | _ => rest end, m') /\
        cstr m' tok t /\ (forall x r', r = x :: r' -> cstr m' rest r') /\
        forall b, b <> rest - 1 -> m'⟦b⟧ = m⟦b⟧
  end.
Proof.
  intros Hs0 Hp Hdl Hfd Hs Hf Hd Ht Hr Htr. rewrite length_app in Hf.
  assert ((if p =? 0 then last else p) = s) as Ep.
  { destruct Hp as [->|[-> ->]]; [by rewrite (proj2 (Z.eqb_neq s 0) Hs0)|done]. }
  unfold strtok_r. rewrite Ep, (proj2 (Z.eqb_neq s 0) Hs0).
  destruct t as [|x t].
  - rewrite Htr in Hs by done. rewrite (skip_delim_spec fuel fuel m s delim dl d []) by (done || lia). done.
  - rewrite (skip_delim_spec fuel fuel m s delim dl d (x :: t ++ r)) by first [done|lia|by apply Forall_cons in Ht as [? _]].
    cbn [mbind outcome_bind hd]. apply cstr_app in Hs as (HcD & HbD & Hs). pose proof Hs as Hs'. apply cstr_cons in Hs as (Hx & Ex & Hs).
    destruct (Z.eqb_spec x 0); [lia|]. apply Forall_cons in Ht as [Hx' Ht]. cbn [length] in Hf.
    rewrite (end_token_spec fuel fuel m (s + zlen d + 1) delim dl t r) by (done || lia).
    replace (s + zlen d + 1 - 1) with (s + zlen d) by lia.
    replace (s + zlen d + 1 + zlen t) with (s + zlen d + zlen (x :: t)) by (cbn [length]; lia).
    change ((x :: t) ++ r) with (x :: t ++ r) in Hs'. cbv zeta. destruct r as [|y r].
    + exists m. split; [done|]. rewrite app_nil_r in Hs'. split; [done|]. split; [done|]. done.
    + exists m⟦s + zlen d + zlen (x :: t) := 0⟧. split; [done|]. split; [|split].
      * apply (cstr_cut m _ _ (y :: r)). exact Hs'.
      * intros x' r' [= <- <-]. change (x :: t ++ y :: r) with ((x :: t) ++ y :: r) in Hs'. apply cstr_app in Hs' as (_ & _ & Hs').
        apply cstr_cons in Hs' as (_ & _ & Hs'). eapply cstr_ext; [|exact Hs']. intros b Hb. by rewrite rd_wr_ne by lia.
      * intros b Hb. apply rd_wr_ne. lia.
Qed.
End token_claims.

(** ** Examples *)

(** "hello, world" at 100 and ", " at 200. *)
Definition ex_words : mem := poke (poke ∅ 100 [104; 101; 108; 108; 111; 44; 32; 119; 111; 114; 108; 100]) 200 [44; 32].

Lemma poke_bytes_in m a l : bytes_in m -> Forall (fun b => 0 <= b < 256) l -> bytes_in (poke m a l).
Proof.
  revert m a. induction l as [|b l IH]; intros m a Hm Hl; cbn [poke]; [done|]. apply Forall_cons in Hl as [Hb Hl].
  apply IH; [by apply bytes_in_wr|done].
Qed.

Lemma spans_equal_reference_witness : strcspn 20 ex_words 100 200 = Ret 5 /\ strspn 20 ex_words 100 200 = Ret 0.
Proof.
  destruct (spans_equal_reference 20 ex_words 100 200 [104; 101; 108; 108; 111; 44; 32; 119; 111; 114; 108; 100] [44; 32]) as [E1 E2].
  - unfold ex_words. apply poke_bytes_in; [apply poke_bytes_in; [exact bytes_in_empty|]|]; repeat constructor; lia.
  - split; [repeat constructor; lia|]. split; [repeat split; reflexivity|reflexivity].
  - split; [repeat constructor; lia|]. split; [repeat split; reflexivity|reflexivity].
  - cbn. lia.
  - cbn. lia.
  - split; [exact E2|exact E1].
Defined.

Lemma strtok_r_cuts_witness : exists m', strtok_r 20 100 200 0 ex_words = Ret (100, 106, m') /\ cstr m' 100 [104; 101; 108; 108; 111].
Proof.
  destruct (strtok_r_cuts 20 100 100 200 0 ex_words [44; 32] [] [104; 101; 108; 108; 111] [44; 32; 119; 111; 114; 108; 100])
    as (m' & E & Ht & _).
  - lia.
  - by left.
  - split; [repeat constructor; lia|]. split; [repeat split; reflexivity|reflexivity].
  - cbn. lia.
  - split; [repeat constructor; lia|]. split; [repeat split; reflexivity|reflexivity].
  - cbn. lia.
  - constructor.
  - by apply (bool_decide_unpack _).
  - left.
  - done.
  - exists m'. split; [exact E|exact Ht].
Defined.
