(* ===== verification/Libnum.v ===== *)
(** * Libnum: numbers of the user library (user/lib/libc/stdlib)

    [strtol] and [strtoul] with what they are called by, [div], [abs] and [ltoa].  limits.h gives a
    long the range of an int, so LONG_MIN and LONG_MAX are those of 32 bits while a [long] of the
    program has 64.  The scans run on fuel; [errno] is passed along. *)
From S2P Require Import Prelude KString Bytes KConvert Libc.

Definition INT_MIN : Z := -2147483648.
Definition LONG_MIN : Z := INT_MIN.
Definition LONG_MAX : Z := INT_MAX.
Definition ULONG_MAX : Z := 4294967295.
Definition LLONG_MAX : Z := 9223372036854775807.
Definition ERANGE : Z := 34.

(** The value of a digit or a letter. *)
Definition digit (c : Z) : option Z :=
  if isdigit c then Some (c - 48)
  else if isalpha c then Some (c - (if isupper c then 65 - 10 else 97 - 10))
  else None.

Section numbers.
(** The fuel of the scans. *)
Context (fuel : nat).
Implicit Types (m : mem) (s c base : Z).

(** [do { c = *s++; } while (isspace(c));] *)
Fixpoint skip_space (n : nat) m s : outcome (Z * Z) :=
  match n with
  | O => NoFuel
  | S n => let c := m⟦s⟧ in let s := s + 1 in if isspace c then skip_space n m s else Ret (c, s)
  end.

(** The sign and the prefix of the base: [neg], the next character, [s] and the base. *)
Definition number_head m s c base : bool * Z * Z * Z :=
  let '(neg, c, s) :=
    if c =? 45 then (true, s8 m⟦s⟧, s + 1)
    else if c =? 43 then (false, s8 m⟦s⟧, s + 1)
    else (false, c, s) in
  let '(c, s, base) :=
    if ((base =? 0) || (base =? 16)) && (c =? 48) && ((m⟦s⟧ =? 120) || (m⟦s⟧ =? 88))
    then (s8 m⟦s + 1⟧, s + 2, 16) else (c, s, base) in
  let base := if base =? 0 then (if c =? 48 then 8 else 10) else base in
  (neg, c, s, base).

(** The loop over the digits: [acc], [any], [s] and [errno]. *)
Fixpoint strtol_loop (n : nat) m s c (neg : bool) base cutoff cutlim acc any errno : outcome (Z * Z * Z * Z) :=
  match n with
  | O => NoFuel
  | S n =>
      match digit c with
      | None => Ret (acc, any, s, errno)
      | Some c =>
          if c >=? base then Ret (acc, any, s, errno)
          else
            let '(acc, any, errno) :=
              if any <? 0 then (acc, any, errno)
              else if neg then
                if (acc <? cutoff) || ((acc =? cutoff) && (c >? cutlim)) then (LONG_MIN, -1, -1)
                else (s64 (s64 (acc * base) - c), 1, errno)
              else
                if (acc >? cutoff) || ((acc =? cutoff) && (c >? cutlim)) then (LONG_MAX, -1, -1)
                else (s64 (s64 (acc * base) + c), 1, errno) in
            strtol_loop n m (s + 1) m⟦s⟧ neg base cutoff cutlim acc any errno
      end
  end.

Definition strtol (nptr endptr base : Z) m (errno : Z) : outcome (Z * mem * Z) :=
  '(c, s) ← skip_space fuel m nptr;
  let '(neg, c, s, base) := number_head m s c base in
  let cutoff := if (neg : bool) then LONG_MIN else LONG_MAX in
  let cutlim := Z.rem cutoff base in
  let cutoff := Z.quot cutoff base in
  let '(cutoff, cutlim) :=
    if neg then
      let '(cutoff, cutlim) := if cutlim >? 0 then (cutoff + 1, cutlim - base) else (cutoff, cutlim) in
      (cutoff, - cutlim)
    else (cutoff, cutlim) in
  '(acc, any, s, errno) ← strtol_loop fuel m s c neg base cutoff cutlim 0 0 errno;
  let m := if negb (endptr =? 0) then st64 m endptr (if any =? 0 then nptr else s - 1) else m in
  Ret (acc, m, errno).

Definition atoi (nptr : Z) m (errno : Z) : outcome (Z * mem * Z) :=
  '(r, m, errno) ← strtol nptr 0 10 m errno; Ret (s32 r, m, errno).

Definition atol (nptr : Z) m (errno : Z) : outcome (Z * mem * Z) := strtol nptr 0 10 m errno.

(** Every character is a signed [char] here. *)
Fixpoint strtoul_loop (n : nat) m s c base cutoff cutlim acc any : outcome (Z * Z * Z) :=
  match n with
  | O => NoFuel
  | S n =>
      match digit c with
      | None => Ret (acc, any, s)
      | Some c =>
          if c >=? base then Ret (acc, any, s)
          else
            let '(acc, any) :=
              if ((any <? 0) || (acc >? cutoff) || (acc =? cutoff)) && (c >? cutlim) then (acc, -1)
              else (u64 (u64 (acc * base) + c), 1) in
            strtoul_loop n m (s + 1) (s8 m⟦s⟧) base cutoff cutlim acc any
      end
  end.

Definition strtoul (nptr endptr base : Z) m (errno : Z) : outcome (Z * mem * Z) :=
  '(c, s) ← skip_space fuel m nptr;
  let '(neg, c, s, base) := number_head m s (s8 c) base in
  let cutoff := ULONG_MAX / u64 base in
  let cutlim := s32 (ULONG_MAX mod u64 base) in
  '(acc, any, s) ← strtoul_loop fuel m s c base cutoff cutlim 0 0;
  let '(acc, errno) :=
    if any <? 0 then (ULONG_MAX, ERANGE)
    else if (neg : bool) then (u64 (- acc), errno) else (acc, errno) in
  let m := if negb (endptr =? 0) then st64 m endptr (if any =? 0 then nptr else s - 1) else m in
  Ret (s64 acc, m, errno).

(** [numer / denom] and [numer % denom], and a correction that C99 has made redundant. *)
Definition div (numer denom : Z) : outcome (Z * Z) :=
  if denom =? 0 then Undef
  else
    let quot := s32 (Z.quot numer denom) in
    let rem := Z.rem numer denom in
    if (numer >=? 0) && (rem <? 0) then Ret (s32 (quot + 1), s32 (rem - denom))
    else if (numer <? 0) && (rem >? 0) then Ret (s32 (quot - 1), s32 (rem + denom))
    else Ret (quot, rem).

Definition abs (j : Z) : Z := if j <? 0 then s32 (- j) else j.

(** [ltoa_r] is the kernel's [itoa] on 64 bits; [ltoa] has written the sign before it is called. *)
Definition ltoa_r (val str : Z) m : mem :=
  let valuestring := str in
  let value := val in
  let '(m, valuestring, value, min_flag) :=
    if 0 >? value then
      let m := m⟦valuestring := 45⟧ in
      let valuestring := valuestring + 1 in
      if - LLONG_MAX >? value then (m, valuestring, LLONG_MAX, LLONG_MAX)
      else (m, valuestring, - value, 0)
    else (m, valuestring, value, 0) in
  let p := valuestring in
  let '(m, p) := digit_loop 64 m p value in
  let m := if negb (min_flag =? 0) then m⟦valuestring := u8 (m⟦valuestring⟧ + 1)⟧ else m in
  let m := m⟦p := 0⟧ in
  let p := p - 1 in
  swap_loop 64 m p valuestring.

Definition ltoa (val dst radix : Z) m : outcome mem :=
  let cp := dst in
  let '(m, cp, val) := if val <? 0 then (m⟦cp := 45⟧, cp + 1, s64 (- val)) else (m, cp, val) in
  let l := val in
  if radix =? 16 then i2hex fuel m (u64 l) cp 16 else Ret (ltoa_r l cp m).
End numbers.

(** ** The value of a string of digits *)

Section values.
Implicit Types (base c v : Z) (l ds vs : list Z).

(** The digit [c] denotes in [base]. *)
Definition digit_of base c : option Z :=
  match digit c with Some v => if v <? base then Some v else None | None => None end.

(** The number the digits [vs] continue [v] to. *)
Definition number base v vs : Z := fold_left (fun v d => v * base + d) vs v.

Lemma number_range base v vs : 0 <= v -> 0 <= base -> Forall (fun d => 0 <= d) vs -> v * base ^ Z.of_nat (length vs) <= number base v vs.
Proof.
  intros Hv Hb. revert v Hv. induction vs as [|d vs IH]; intros v Hv Hvs; [cbn; lia|]. apply Forall_cons in Hvs as [Hd Hvs].
  cbn [number fold_left length]. etransitivity; [|apply IH; [nia|done]]. rewrite Nat2Z.inj_succ, Z.pow_succ_r by lia.
  pose proof (Z.pow_nonneg base (Z.of_nat (length vs)) Hb). nia.
Qed.

(** What is true of every digit of a base up to 36, checked for all bytes. *)
Lemma digit_byte base c v : 0 <= c < 256 -> base <= 36 -> digit_of base c = Some v ->
  digit c = Some v /\ 0 <= v < base /\ c < 128 /\ isspace c = false /\ c <> 43 /\ c <> 45.
Proof.
  intros Hc Hb Hd. unfold digit_of in Hd. destruct (digit c) as [w|] eqn:E; [|done]. destruct (Z.ltb_spec w base) as [Hw|]; [|done].
  injection Hd as ->. split; [done|].
  assert (forallb (fun c => match digit c with
    | Some v => (0 <=? v) && ((36 <=? v) || (c <? 128) && negb (isspace c) && negb (c =? 43) && negb (c =? 45)) | None => true end) (seqZ 0 256) = true)
    as Hall by (vm_compute; reflexivity).
  rewrite forallb_forall in Hall. specialize (Hall c). rewrite E in Hall. rewrite <- list_elem_of_In, elem_of_seqZ in Hall. specialize (Hall ltac:(lia)).
  apply andb_prop in Hall as [H1 H2]. apply Z.leb_le in H1. destruct (Z.leb_spec 36 v); [lia|]. cbn [orb] in H2.
  repeat (apply andb_prop in H2 as [H2 ?]). rewrite negb_true_iff, ?Z.eqb_neq, ?Z.ltb_lt in *. repeat split; try done; lia.
Qed.
End values.

Section strtol.
Context (fuel : nat).
Implicit Types (m : mem) (s c base v : Z) (l ds vs r : list Z).

Definition signed (neg : bool) v : Z := if neg then - v else v.
Definition clamp v : Z := Z.max LONG_MIN (Z.min LONG_MAX v).

Definition cut_off (neg : bool) base : Z := Z.quot (if neg then LONG_MIN else LONG_MAX) base.
Definition cut_lim (neg : bool) base : Z := if neg then - Z.rem LONG_MIN base else Z.rem LONG_MAX base.

(** The test against [cutoff] and [cutlim] tells whether the next digit leaves the range. *)
Lemma cut_spec (neg : bool) base acc d : 2 <= base <= 36 -> 0 <= d < base -> LONG_MIN <= acc <= LONG_MAX -> 0 <= signed neg acc ->
  (if neg then (acc <? cut_off neg base) || ((acc =? cut_off neg base) && (d >? cut_lim neg base))
   else (acc >? cut_off neg base) || ((acc =? cut_off neg base) && (d >? cut_lim neg base))) =
  negb (bool_decide (LONG_MIN <= acc * base + signed neg d <= LONG_MAX)).
Proof.
  intros Hb Hd Hacc Hs. unfold cut_off, cut_lim, signed in *. change LONG_MIN with (-2147483648) in *. change LONG_MAX with 2147483647 in *.
  assert (0 < base) as Hb0 by lia. destruct neg.
  - pose proof (Z.quot_rem (-2147483648) base ltac:(lia)) as Eq. pose proof (Z.rem_nonpos (-2147483648) base ltac:(lia) ltac:(lia)).
    pose proof (Z.rem_bound_abs (-2147483648) base ltac:(lia)) as Hr. set (q := Z.quot (-2147483648) base) in *. set (w := Z.rem (-2147483648) base) in *.
    rewrite Z.gtb_ltb. case_bool_decide as Hin; cbn [negb];
      destruct (Z.ltb_spec acc q), (Z.eqb_spec acc q), (Z.ltb_spec (- w) d); cbn [orb andb]; try done; exfalso; nia.
  - pose proof (Z.quot_rem 2147483647 base ltac:(lia)) as Eq. pose proof (Z.rem_nonneg 2147483647 base ltac:(lia) ltac:(lia)).
    pose proof (Z.rem_bound_abs 2147483647 base ltac:(lia)) as Hr. set (q := Z.quot 2147483647 base) in *. set (w := Z.rem 2147483647 base) in *.
    rewrite !Z.gtb_ltb. case_bool_decide as Hin; cbn [negb];
      destruct (Z.ltb_spec q acc), (Z.eqb_spec acc q), (Z.ltb_spec w d); cbn [orb andb]; try done; exfalso; nia.
Qed.

(** The accumulator holds the number read so far, or the limit it has passed. *)
Definition accumulated (neg : bool) v acc any errno errno0 : Prop :=
  LONG_MIN <= signed neg v <= LONG_MAX /\ acc = signed neg v /\ 0 <= any /\ errno = errno0 \/
  ~ LONG_MIN <= signed neg v <= LONG_MAX /\ acc = clamp (signed neg v) /\ any = -1 /\ errno = -1.

Lemma accumulate (neg : bool) base v acc any errno errno0 d : 2 <= base <= 36 -> 0 <= d < base -> 0 <= v ->
  accumulated neg v acc any errno errno0 ->
  exists acc' any' errno', accumulated neg (v * base + d) acc' any' errno' errno0 /\ any' <> 0 /\
    (if any <? 0 then (acc, any, errno)
     else if neg then
       if (acc <? cut_off neg base) || ((acc =? cut_off neg base) && (d >? cut_lim neg base)) then (LONG_MIN, -1, -1)
       else (s64 (s64 (acc * base) - d), 1, errno)
     else
       if (acc >? cut_off neg base) || ((acc =? cut_off neg base) && (d >? cut_lim neg base)) then (LONG_MAX, -1, -1)
       else (s64 (s64 (acc * base) + d), 1, errno)) = (acc', any', errno').
Proof.
  intros Hb Hd Hv [(Hr & -> & Ha & ->)|(Hr & -> & -> & ->)].
  - destruct (Z.ltb_spec any 0); [lia|].
    assert (signed neg v * base + signed neg d = signed neg (v * base + d)) as Es by (unfold signed; destruct neg; lia).
    pose proof (cut_spec neg base (signed neg v) d Hb Hd ltac:(lia) ltac:(unfold signed; destruct neg; lia)) as Ec. rewrite Es in Ec.
    case_bool_decide as Hin; cbn [negb] in Ec.
    + exists (signed neg (v * base + d)), 1, errno0. split; [by left|]. split; [done|].
      change LONG_MIN with (-2147483648) in *. change LONG_MAX with 2147483647 in *.
      assert (0 <= v * base <= 2147483648 * 36) by (unfold signed in Hr; destruct neg; nia).
      destruct neg; rewrite Ec; unfold signed in *; rewrite (s64_small (_ * base)), s64_small by lia; do 2 f_equal; lia.
    + exists (clamp (signed neg (v * base + d))), (-1), (-1). split; [by right|]. split; [done|]. unfold clamp.
      change LONG_MIN with (-2147483648) in *. change LONG_MAX with 2147483647 in *.
      destruct neg; rewrite Ec; unfold signed in *; do 2 f_equal; nia.
  - exists (clamp (signed neg v)), (-1), (-1). split; [|done]. right. unfold clamp. change LONG_MIN with (-2147483648) in *. change LONG_MAX with 2147483647 in *.
    unfold signed in *. split; [destruct neg; nia|]. split; [destruct neg; nia|done].
Qed.

(** [r] does not go on with a digit. *)
Definition ends_number base r : Prop := match r with [] => True | c :: _ => digit_of base c = None end.

Lemma digit_of_end base c : digit_of base c = None -> digit c = None \/ exists v, digit c = Some v /\ base <= v.
Proof.
  unfold digit_of. destruct (digit c) as [v|]; [|by left]. destruct (Z.ltb_spec v base); [done|]. intros _. right. by exists v.
Qed.

Lemma strtol_loop_spec n m s (neg : bool) base v acc any errno errno0 ds vs r :
  2 <= base <= 36 -> 0 <= v -> accumulated neg v acc any errno errno0 ->
  cstr m (s - 1) (ds ++ r) -> mapM (digit_of base) ds = Some vs -> ends_number base r -> (length ds < n)%nat ->
  exists acc' any' errno', strtol_loop n m s m⟦s - 1⟧ neg base (cut_off neg base) (cut_lim neg base) acc any errno =
      Ret (acc', any', s + zlen ds, errno') /\
    accumulated neg (number base v vs) acc' any' errno' errno0 /\ (ds <> [] \/ any <> 0 -> any' <> 0).
Proof.
  intros Hb. revert s v acc any errno ds vs. induction n as [|n IH]; intros s v acc any errno ds vs Hv Hacc Hs Hds Hr Hn; [lia|].
  cbn [strtol_loop]. destruct ds as [|c ds].
  - injection Hds as <-. exists acc, any, errno. cbn [app length] in *. rewrite Z.add_0_r. split; [|split; [done|tauto]].
    destruct r as [|c r].
    + apply cstr_end in Hs. cbn in Hs. rewrite Z.add_0_r in Hs. rewrite Hs. done.
    + apply cstr_cons in Hs as (_ & -> & _). cbn in Hr. destruct (digit_of_end _ _ Hr) as [->|(w & -> & Hw)]; [done|].
      by rewrite (proj2 (Z.geb_le _ _)).
  - apply cstr_cons in Hs as (Hc & -> & Hs). cbn in Hds. destruct (digit_of base c) as [d|] eqn:Ed; [|done].
    destruct (mapM (digit_of base) ds) as [vs'|] eqn:Evs; [|done]. injection Hds as <-.
    destruct (digit_byte base c d ltac:(lia) ltac:(lia) Ed) as (-> & Hd & _). destruct (Z.geb_spec d base); [lia|].
    destruct (accumulate neg base v acc any errno errno0 d Hb Hd Hv Hacc) as (acc1 & any1 & errno1 & Hacc1 & Hany & E).
    rewrite E. replace (s - 1 + 1) with (s + 1 - 1) in Hs by lia. replace m⟦s⟧ with m⟦s + 1 - 1⟧ by (f_equal; lia).
    destruct (IH (s + 1) (v * base + d) acc1 any1 errno1 ds vs') as (acc' & any' & errno' & E' & Hacc' & Hany'); try done; [nia|cbn in Hn; lia|].
    exists acc', any', errno'. split; [replace (s + zlen (c :: ds)) with (s + 1 + zlen ds) by (cbn [length]; lia); exact E'|]. split; [exact Hacc'|]. auto.
Qed.

Lemma skip_space_spec n m s ws c l :
  cstr m s (ws ++ c :: l) -> Forall (fun c => isspace c = true) ws -> isspace c = false -> (length ws < n)%nat ->
  skip_space n m s = Ret (c, s + zlen ws + 1).
Proof.
  intros Hs Hw Hc. revert s ws Hs Hw. induction n as [|n IH]; intros s ws Hs Hw Hn; [lia|]. cbn [skip_space]. destruct ws as [|x ws].
  - apply cstr_cons in Hs as (_ & -> & _). rewrite Hc. do 2 f_equal. cbn. lia.
  - apply cstr_cons in Hs as (_ & -> & Hs). apply Forall_cons in Hw as [-> Hw]. rewrite (IH _ ws) by (done || (cbn in Hn; lia)).
    do 2 f_equal. cbn [length]. lia.
Qed.
End strtol.

Section strtol_claims.
Context (fuel : nat).
Implicit Types (m : mem) (s c base v : Z) (ws sg ds vs r : list Z).

(** The sign [sg] of a number that is negative when [neg] holds. *)
Definition sign_of (neg : bool) sg : Prop := sg = [45] /\ neg = true \/ (sg = [] \/ sg = [43]) /\ neg = false.

(** "0x" or "0X" at the head, which base 16 skips. *)
Definition hex_prefix (l : list Z) : bool :=
  match l with c :: x :: _ => (c =? 48) && ((x =? 120) || (x =? 88)) | _ => false end.

Lemma number_head_spec m s base (neg : bool) sg c l d :
  2 <= base <= 36 -> cstr m (s - 1) (sg ++ c :: l) -> sign_of neg sg -> digit_of base c = Some d -> (base = 16 -> hex_prefix (c :: l) = false) ->
  number_head m s m⟦s - 1⟧ base = (neg, c, s + zlen sg, base).
Proof.
  intros Hb Hs Hsg Hd Hx.
  assert (forall s', cstr m (s' - 1) (c :: l) -> 0 < c < 256 /\ m⟦s' - 1⟧ = c /\ ((base =? 0) || (base =? 16)) && (c =? 48) && ((m⟦s'⟧ =? 120) || (m⟦s'⟧ =? 88)) = false) as Hdig.
  { intros s' (Hc & Ec & Hs')%cstr_cons. split; [done|]. split; [done|]. destruct (Z.eqb_spec base 0); [lia|]. destruct (Z.eqb_spec base 16) as [E16|]; [|done].
    specialize (Hx E16). cbn [orb andb]. replace (s' - 1 + 1) with s' in Hs' by lia. destruct l as [|x l].
    - apply cstr_end in Hs'. cbn in Hs'. rewrite Z.add_0_r in Hs'. rewrite Hs'. by rewrite andb_false_r.
    - apply cstr_cons in Hs' as (_ & -> & _). exact Hx. }
  assert ((base =? 0) = false) as Hb0 by (apply Z.eqb_neq; lia).
  assert (0 < c < 256 -> c <> 45 /\ c <> 43 /\ s8 c = c) as Hc8.
  { intros Hc. destruct (digit_byte base c d ltac:(lia) ltac:(lia) Hd) as (_ & _ & ? & _ & ? & ?). split; [done|]. split; [done|]. unfold s8. rewrite Z.mod_small; lia. }
  unfold number_head. destruct Hsg as [[-> ->]|[[-> | ->] ->]].
  - apply cstr_cons in Hs as (_ & -> & Hs). destruct (Hdig (s + 1)) as (Hc & Ec & E); [by replace (s + 1 - 1) with (s - 1 + 1) by lia|].
    destruct (Hc8 Hc) as (_ & _ & E8). cbn [Z.eqb Pos.eqb]. replace m⟦s⟧ with c by (rewrite <- Ec; f_equal; lia). rewrite E8, E, Hb0. done.
  - cbn [app] in Hs. destruct (Hdig s Hs) as (Hc & Ec & E). rewrite Ec. destruct (Hc8 Hc) as (N1 & N2 & _).
    rewrite (proj2 (Z.eqb_neq _ _) N1), (proj2 (Z.eqb_neq _ _) N2), E, Hb0. do 2 f_equal. cbn. lia.
  - apply cstr_cons in Hs as (_ & -> & Hs). destruct (Hdig (s + 1)) as (Hc & Ec & E); [by replace (s + 1 - 1) with (s - 1 + 1) by lia|].
    destruct (Hc8 Hc) as (_ & _ & E8). cbn [Z.eqb Pos.eqb]. replace m⟦s⟧ with c by (rewrite <- Ec; f_equal; lia). rewrite E8, E, Hb0. done.
Qed.

(** C31: [strtol] reads a number of any base from 2 to 36, whatever its length: behind white space and
    a sign it takes the digits of the base, returns the number when it lies in the range
    of limits.h and otherwise the limit it passes, with [errno] set in that case only, and stores
    in [*endptr] the address behind the last digit. *)
Theorem strtol_clamps nptr endptr base m errno ws (neg : bool) sg ds vs r :
  2 <= base <= 36 -> cstr m nptr (ws ++ sg ++ ds ++ r) -> (length (ws ++ sg ++ ds) < fuel)%nat ->
  Forall (fun c => isspace c = true) ws -> sign_of neg sg -> ds <> [] -> mapM (digit_of base) ds = Some vs -> ends_number base r ->
  (base = 16 -> hex_prefix (ds ++ r) = false) ->
  let v := signed neg (number base 0 vs) in
  strtol fuel nptr endptr base m errno =
    Ret (clamp v, if endptr =? 0 then m else st64 m endptr (nptr + zlen (ws ++ sg ++ ds)),
         if bool_decide (LONG_MIN <= v <= LONG_MAX) then errno else -1).
Proof.
  intros Hb Hs Hf Hws Hsg Hne Hds Hr Hx v. destruct ds as [|c ds]; [done|]. pose proof Hds as Hds'. cbn in Hds'.
  destruct (digit_of base c) as [d|] eqn:Ed; [|done]. clear Hds'. rewrite !length_app in Hf. cbn [length] in Hf.
  pose proof Hs as (_ & _ & Hs1)%cstr_app. pose proof Hs1 as (_ & _ & Hs2)%cstr_app. cbn [app] in Hs2. pose proof Hs2 as (Hc & Ec & _)%cstr_cons.
  destruct (digit_byte base c d ltac:(lia) ltac:(lia) Ed) as (_ & _ & _ & Hcs & _).
  assert (skip_space fuel m nptr = Ret (m⟦nptr + zlen ws + 1 - 1⟧, nptr + zlen ws + 1)) as Esk.
  { assert (exists x l', sg ++ (c :: ds) ++ r = x :: l' /\ isspace x = false) as (x & l' & El & Hsp).
    { destruct Hsg as [[-> _]|[[-> | ->] _]]; cbn [app]; [by eexists _, _|by exists c, (ds ++ r)|by eexists _, _]. }
    rewrite El in Hs. rewrite (skip_space_spec fuel m nptr ws x l') by (done || lia). do 2 f_equal.
    apply cstr_app in Hs as (_ & _ & Hs). apply cstr_cons in Hs as (_ & <- & _). f_equal. lia. }
  unfold strtol. rewrite Esk. cbn [mbind outcome_bind]. set (s := nptr + zlen ws + 1) in *.
  rewrite (number_head_spec m s base neg sg c (ds ++ r) d) by (try done; by replace (s - 1) with (nptr + zlen ws) by (unfold s; lia)).
  set (p := s + zlen sg). assert (m⟦p - 1⟧ = c) as Ep by (rewrite <- Ec; f_equal; unfold p, s; lia).
  assert (cstr m (p - 1) ((c :: ds) ++ r)) as Hs3 by (by replace (p - 1) with (nptr + zlen ws + zlen sg) by (unfold p, s; lia)).
  assert (accumulated neg 0 0 0 errno errno) as Hacc0.
  { left. unfold signed. destruct neg; split_and!; done. }
  destruct (strtol_loop_spec fuel m p neg base 0 0 0 errno errno (c :: ds) vs r Hb ltac:(lia) Hacc0 Hs3 Hds Hr ltac:(cbn [length]; lia))
    as (acc & any & errno' & E & Hacc & Hany).
  rewrite Ep in E.
  assert ((let '(cutoff, cutlim) := (if neg then let '(cutoff, cutlim) := if Z.rem (if neg then LONG_MIN else LONG_MAX) base >? 0
        then (Z.quot (if neg then LONG_MIN else LONG_MAX) base + 1, Z.rem (if neg then LONG_MIN else LONG_MAX) base - base)
        else (Z.quot (if neg then LONG_MIN else LONG_MAX) base, Z.rem (if neg then LONG_MIN else LONG_MAX) base) in (cutoff, - cutlim)
      else (Z.quot (if neg then LONG_MIN else LONG_MAX) base, Z.rem (if neg then LONG_MIN else LONG_MAX) base)) in (cutoff, cutlim)) = (cut_off neg base, cut_lim neg base)) as Ecut.
  { unfold cut_off, cut_lim. destruct neg; [|done]. pose proof (Z.rem_nonpos LONG_MIN base ltac:(lia) ltac:(done)).
    rewrite Z.gtb_ltb. destruct (Z.ltb_spec 0 (Z.rem LONG_MIN base)); [lia|done]. }
  destruct (if neg then _ else _) as [cutoff cutlim] in Ecut |- *. injection Ecut as -> ->. rewrite E. cbn [mbind outcome_bind].
  destruct (Z.eqb_spec any 0) as [E0|_]; [by destruct (Hany (or_introl Hne))|].
  replace (p + zlen (c :: ds) - 1) with (nptr + zlen (ws ++ sg ++ c :: ds)) by (rewrite !length_app; unfold p, s; cbn [length]; lia).
  fold v in Hacc. destruct Hacc as [(Hin & -> & _ & ->)|(Hin & -> & _ & ->)].
  - rewrite bool_decide_eq_true_2 by done. replace (clamp v) with v by (unfold clamp; lia). by destruct (endptr =? 0).
  - rewrite bool_decide_eq_false_2 by done. by destruct (endptr =? 0).
Qed.

Lemma strtoul_hex_loop n m s v any ds vs r :
  0 <= v -> 0 <= any -> cstr m (s - 1) (ds ++ r) -> mapM (digit_of 16) ds = Some vs -> ends_number 16 r -> (forall c r', r = c :: r' -> c < 128) -> (length ds < n)%nat ->
  exists any', strtoul_loop n m s (s8 m⟦s - 1⟧) 16 (ULONG_MAX / 16) 15 (u64 v) any = Ret (u64 (number 16 v vs), any', s + zlen ds) /\
    0 <= any' /\ (ds <> [] \/ any <> 0 -> any' <> 0).
Proof.
  revert s v any ds vs. induction n as [|n IH]; intros s v any ds vs Hv Hany Hs Hds Hr Hr8 Hn; [lia|]. cbn [strtoul_loop]. destruct ds as [|c ds].
  - injection Hds as <-. exists any. cbn [app length] in *. rewrite Z.add_0_r. split; [|split; [done|tauto]].
    assert (digit (s8 m⟦s - 1⟧) = None \/ exists w, digit (s8 m⟦s - 1⟧) = Some w /\ 16 <= w) as [->|(w & -> & Hw)]; [|done|by rewrite (proj2 (Z.geb_le _ _))].
    destruct r as [|c r].
    + apply cstr_end in Hs. cbn in Hs. rewrite Z.add_0_r in Hs. rewrite Hs. by left.
    + apply cstr_cons in Hs as (Hc & -> & _). cbn in Hr. specialize (Hr8 c r eq_refl).
      replace (s8 c) with c by (unfold s8; rewrite Z.mod_small; lia). by apply digit_of_end.
  - apply cstr_cons in Hs as (Hc & -> & Hs). cbn in Hds. destruct (digit_of 16 c) as [d|] eqn:Ed; [|done].
    destruct (mapM (digit_of 16) ds) as [vs'|] eqn:Evs; [|done]. injection Hds as <-.
    destruct (digit_byte 16 c d ltac:(lia) ltac:(lia) Ed) as (Edc & Hd & Hc8 & _).
    replace (s8 c) with c by (unfold s8; rewrite Z.mod_small; lia). rewrite Edc. destruct (Z.geb_spec d 16); [lia|].
    rewrite !Z.gtb_ltb. destruct (Z.ltb_spec 15 d); [lia|]. rewrite andb_false_r.
    replace (s - 1 + 1) with (s + 1 - 1) in Hs by lia. replace m⟦s⟧ with m⟦s + 1 - 1⟧ by (f_equal; lia).
    replace (u64 (u64 (u64 v * 16) + d)) with (u64 (v * 16 + d)) by word_lia.
    destruct (IH (s + 1) (v * 16 + d) 1 ds vs') as (any' & E & Ha & Ha'); try done; [nia|cbn in Hn; lia|].
    exists any'. split; [replace (s + zlen (c :: ds)) with (s + 1 + zlen ds) by (cbn [length]; lia); exact E|]. split; [done|]. intros _. apply Ha'. by right.
Qed.

(** [strtoul] does not notice a number that is too large in base 16: for any string of hexadecimal
    digits it returns the number modulo 2^64, far beyond the ULONG_MAX of limits.h, and leaves
    [errno] alone, because no digit is above the remainder 15 that its test asks for. *)
Theorem strtoul_hex_wraps nptr endptr m errno ds vs r :
  cstr m nptr (ds ++ r) -> (length ds < fuel)%nat -> ds <> [] -> mapM (digit_of 16) ds = Some vs -> ends_number 16 r ->
  (forall c r', r = c :: r' -> c < 128) -> hex_prefix (ds ++ r) = false ->
  strtoul fuel nptr endptr 16 m errno =
    Ret (s64 (u64 (number 16 0 vs)), if endptr =? 0 then m else st64 m endptr (nptr + zlen ds), errno).
Proof.
  intros Hs Hf Hne Hds Hr Hr8 Hx. destruct ds as [|c ds]; [done|]. pose proof Hds as Hds'. cbn in Hds'.
  destruct (digit_of 16 c) as [d|] eqn:Ed; [|done]. clear Hds'. pose proof Hs as (Hc & Ec & _)%cstr_cons.
  destruct (digit_byte 16 c d ltac:(lia) ltac:(lia) Ed) as (_ & _ & Hc8 & Hcs & _).
  unfold strtoul. rewrite (skip_space_spec fuel m nptr [] c (ds ++ r)) by (try done; cbn in Hf |- *; lia). cbn [mbind outcome_bind].
  change (zlen []) with 0. rewrite Z.add_0_r. replace (s8 c) with m⟦nptr + 1 - 1⟧ by (rewrite Z.add_simpl_r, Ec; unfold s8; rewrite Z.mod_small; lia).
  rewrite (number_head_spec m (nptr + 1) 16 false [] c (ds ++ r) d) by first [done|lia|by rewrite Z.add_simpl_r|right; split; [by left|done]].
  change (zlen []) with 0. rewrite Z.add_0_r. change (ULONG_MAX / u64 16) with (ULONG_MAX / 16). change (s32 (ULONG_MAX mod u64 16)) with 15.
  destruct (strtoul_hex_loop fuel m (nptr + 1) 0 0 (c :: ds) vs r) as (any & E & Ha & Hany); try done; [by rewrite Z.add_simpl_r|].
  rewrite Z.add_simpl_r, Ec in E. replace (s8 c) with c in E by (unfold s8; rewrite Z.mod_small; lia). change (u64 0) with 0 in E. rewrite E.
  cbn [mbind outcome_bind]. destruct (Z.ltb_spec any 0); [lia|]. destruct (Z.eqb_spec any 0) as [E0|_]; [by destruct (Hany (or_introl Hne))|].
  replace (nptr + 1 + zlen (c :: ds) - 1) with (nptr + zlen (c :: ds)) by lia. by destruct (endptr =? 0).
Qed.
End strtol_claims.

(** ** Examples *)

(** " -2147483649;" at 100 and "1F0000000000000000A" at 200. *)
Definition ex_numbers : mem :=
  poke (poke ∅ 100 [32; 45; 50; 49; 52; 55; 52; 56; 51; 54; 52; 57; 59]) 200 ([49; 70] ++ replicate 16 48 ++ [65]).

Lemma strtol_clamps_witness : strtol 20 100 300 10 ex_numbers 0 = Ret (LONG_MIN, st64 ex_numbers 300 112, -1).
Proof.
  rewrite (strtol_clamps 20 100 300 10 ex_numbers 0 [32] true [45] [50; 49; 52; 55; 52; 56; 51; 54; 52; 57] [2; 1; 4; 7; 4; 8; 3; 6; 4; 9] [59]).
  - reflexivity.
  - lia.
  - split; [repeat constructor; lia|]. split; [repeat split; reflexivity|reflexivity].
  - cbn. lia.
  - by repeat constructor.
  - left. done.
  - done.
  - reflexivity.
  - reflexivity.
  - done.
Defined.

Lemma strtoul_hex_wraps_witness : strtoul 20 200 0 16 ex_numbers 0 = Ret (s64 (0x1F0000000000000000A mod 2 ^ 64), ex_numbers, 0).
Proof.
  rewrite (strtoul_hex_wraps 20 200 0 ex_numbers 0 ([49; 70] ++ replicate 16 48 ++ [65]) ([1; 15] ++ replicate 16 0 ++ [10]) []).
  - reflexivity.
  - split; [repeat constructor; lia|]. split; [repeat split; reflexivity|reflexivity].
  - cbn. lia.
  - done.
  - reflexivity.
  - done.
  - done.
  - reflexivity.
Defined.
