(* ===== verification/Uprintf.v ===== *)
(** * Uprintf: formatted output of the user library (user/lib/libc/stdio/vsprintf.c, sprintf.c, vsnprintf.c)

    The conversions [itoa], [utoa] and [i2hex] of the user library have the text of the kernel's and
    are those of KConvert; [ltoa] is Libnum's.  [ftoa] needs the arithmetic of the floating-point unit and
    is a parameter; a format with its directives is outside the theorems.  Arguments are the 64-bit
    words [va_arg] takes from. *)
From S2P Require Import Prelude KString Bytes KConvert Libnum.

Definition vf (c : Z) : Z :=
  if c =? 99 (* 'c' *) then 0x01
  else if (c =? 115) || (c =? 83) (* 's', 'S' *) then 0x02
  else if (c =? 100) || (c =? 105) (* 'd', 'i' *) then 0x03
  else if c =? 117 (* 'u' *) then 0x04
  else if (c =? 120) || (c =? 88) (* 'x', 'X' *) then 0x05
  else if c =? 103 (* 'g' *) then 0x06
  else if c =? 102 (* 'f' *) then 0x07
  else -1.

Section code.
(** The locals [buffer], [_c_r] and [a], the literals "%" and "(null)", and the conversion of a double. *)
Context (buffer c_r a_ pct nul : Z) (ftoa : Z -> Z -> Z -> mem -> mem).
Implicit Types (m : mem) (str_tmp index : Z) (ap : list Z).

(** A number was written to [buffer]; it goes to the output. *)
Definition put_buffer (fuel : nat) m str_tmp ap : outcome (mem * Z * list Z) :=
'(m, str_tmp) ← vsputs_r fuel m str_tmp buffer; Ret (m, str_tmp, ap).

(** The switch; an argument list that runs out is undefined behaviour. *)
Definition user_directive (fuel : nat) m (fmt index type str_tmp : Z) ap : outcome (mem * Z * list Z) :=
if type =? 0x01 then
  match ap with
  | [] => Undef
  | c :: ap => '(m, str_tmp) ← vsputs_r fuel m⟦c_r := u8 c⟧ str_tmp c_r; Ret (m, str_tmp, ap)
  end
else if type =? 0x02 then
  match ap with
  | [] => Undef
  | s :: ap => '(m, str_tmp) ← vsputs_r fuel m str_tmp (if negb (s =? 0) then s else nul); Ret (m, str_tmp, ap)
  end
else if type =? 0x03 then
  match ap with
  | [] => Undef
  | i :: ap => put_buffer fuel (itoa m (s32 i) buffer) str_tmp ap
  end
else if type =? 0x04 then
  match ap with
  | [] => Undef
  | u :: ap => m ← utoa fuel m (u32 u) buffer 10; put_buffer fuel m str_tmp ap
  end
else if type =? 0x05 then
  match ap with
  | [] => Undef
  | u :: ap => m ← i2hex fuel m (u32 u) buffer 8; put_buffer fuel m str_tmp ap
  end
else if (type =? 0x06) || (type =? 0x07) then
  match ap with
  | [] => Undef
  | f :: ap => put_buffer fuel (ftoa f buffer 2 m) str_tmp ap
  end
else if type =? 0x13 then
  match ap with
  | [] => Undef
  | l :: ap => m ← ltoa fuel (s64 l) buffer 10 m; put_buffer fuel m str_tmp ap
  end
else if type =? 0x14 then
  match ap with
  | [] => Undef
  | lu :: ap => m ← utoa fuel m (u64 lu) buffer 10; put_buffer fuel m str_tmp ap
  end
else if type =? 0x15 then
  match ap with
  | [] => Undef
  | lu :: ap => m ← utoa fuel m (u64 lu) buffer 16; put_buffer fuel m str_tmp ap
  end
else if (type =? 0x16) || (type =? 0x17) then
  match ap with
  | [] => Undef
  | d :: ap => put_buffer fuel (ftoa d buffer 2 m) str_tmp ap
  end
else
  '(m, str_tmp) ← vsputs_r fuel m str_tmp pct;
  let m := m⟦a_ := 0⟧⟦a_ + 1 := 0⟧ in
  let m := m⟦a_ := m⟦fmt + index⟧⟧ in
  '(m, str_tmp) ← vsputs_r fuel m str_tmp a_;
  Ret (m, str_tmp, ap).

Fixpoint user_vsprintf_loop (k fuel : nat) m (fmt index str_tmp : Z) ap : outcome (mem * Z) :=
match k with
| O => NoFuel
| S k =>
    let c := m⟦fmt + index⟧ in
    if c =? 0 then Ret (m, str_tmp)
    else if c =? 37 (* '%' *) then
      let index := index + 1 in
      let '(index, type) := if m⟦fmt + index⟧ =? 108 (* 'l' *) then (index + 1, 0x10) else (index, 0) in
      let type := Z.lor type (vf m⟦fmt + index⟧) in
      '(m, str_tmp, ap) ← user_directive fuel m fmt index type str_tmp ap;
      user_vsprintf_loop k fuel m fmt (index + 1) str_tmp ap
    else
      '(m, str_tmp) ← vsputs_r fuel m⟦c_r := c⟧ str_tmp c_r;
      user_vsprintf_loop k fuel m fmt (index + 1) str_tmp ap
end.

(** The result and the memory. *)
Definition user_vsprintf (fuel : nat) m (str fmt : Z) ap : outcome (Z * mem) :=
let m := m⟦c_r := 0⟧⟦c_r + 1 := 0⟧⟦c_r + 2 := 0⟧ in
'(m, str_tmp) ← user_vsprintf_loop fuel fuel m fmt 0 str ap;
let m := m⟦str_tmp := 0⟧ in
Ret (s32 (str_tmp - str), m).

Definition sprintf (fuel : nat) m (str fmt : Z) ap : outcome (Z * mem) :=
'(ret, m) ← user_vsprintf fuel m str fmt ap;
Ret (ret, m⟦str + ret := 0⟧).

Definition BUFFER_SIZE : Z := 65536.

(** [sn_buf] is a static array. *)
Definition vsnprintf (sn_buf : Z) (fuel : nat) m (s n fmt : Z) ap : outcome (Z * mem) :=
if n >? BUFFER_SIZE then Ret (0, m)
else
  '(rv, m) ← user_vsprintf fuel m sn_buf fmt ap;
  if rv >=? BUFFER_SIZE then Ret (BUFFER_SIZE, m)
  else
    let bytes := rv in
    let m := if bytes >? 0 then (memcpy m s sn_buf bytes)⟦s + bytes := 0⟧ else m in
    Ret (rv, m).
End code.

(** ** What a format prints *)

Inductive piece :=
| PLit (c : Z)
| PChr (c : Z)
| PStr (s : Z) (l : list Z)
| PNull
| PDec (d : Z)
| PUns (u : Z)
| PHex (u : Z)
| PLong (l : Z)
| PULong (u : Z)
| PLHex (u : Z)
| POther (long : bool) (c : Z).

Definition piece_text (p : piece) : list Z :=
  match p with
  | PLit c => [c]
  | PChr _ => [37; 99]
  | PStr _ _ | PNull => [37; 115]
  | PDec _ => [37; 100]
  | PUns _ => [37; 117]
  | PHex _ => [37; 120]
  | PLong _ => [37; 108; 100]
  | PULong _ => [37; 108; 117]
  | PLHex _ => [37; 108; 120]
  | POther long c => 37 :: (if long then [108; c] else [c])
  end.

Definition piece_args (p : piece) : list Z :=
  match p with
  | PLit _ | POther _ _ => []
  | PNull => [0]
  | PChr a | PStr a _ | PDec a | PUns a | PHex a | PLong a | PULong a | PLHex a => [a]
  end.

Definition null_text : list Z := [40; 110; 117; 108; 108; 41].

Definition piece_out (p : piece) : list Z :=
  match p with
  | PLit c => [c]
  | PChr c => if u8 c =? 0 then [] else [u8 c]
  | PStr _ l => l
  | PNull => null_text
  | PDec d => int_text (s32 d)
  | PUns u => dec_chars (digits 64 (u32 u))
  | PHex u => hex_text 8 (u32 u)
  | PLong l => int_text (s64 l)
  | PULong u => dec_chars (digits 64 (u64 u))
  | PLHex u => hex_text 16 (u64 u)
  | POther _ c => [37; c]
  end.

(** A character that makes no directive, after a 'l' or not. *)
Definition no_directive (long : bool) (c : Z) : bool :=
  (vf c =? -1) || long && ((vf c =? 1) || (vf c =? 2)).

Definition pieces_text ps : list Z := concat (piece_text <$> ps).
Definition pieces_args ps : list Z := concat (piece_args <$> ps).
Definition pieces_out ps : list Z := concat (piece_out <$> ps).

Lemma ltoa_text fuel m val str :
  - 2 ^ 63 < val < 2 ^ 63 ->
  exists m', ltoa fuel val str 10 m = Ret m' /\ cstr m' str (int_text val) /\
    (forall b, ~ str <= b <= str + zlen (int_text val) -> m'⟦b⟧ = m⟦b⟧).
Proof.
  intros Hv. unfold ltoa, int_text. assert (Hr : forall v p m, 0 <= v -> ltoa_r v p m = utoa_r m v p).
  { intros v p m1 Hv1. unfold ltoa_r, utoa_r. destruct (Z.gtb_spec 0 v); [lia|reflexivity]. }
  destruct (Z.ltb_spec val 0) as [Hneg|Hpos]; cbn [Z.eqb Pos.eqb].
  - rewrite s64_small, Hr by lia.
    destruct (utoa_r_text m⟦str := 45⟧ (- val) (str + 1)) as [Hs Ho]; [lia|]. cbn [length]. rewrite length_dec_chars.
    eexists. split; [reflexivity|]. split.
    + apply cstr_cons. split; [lia|]. split; [|done]. rewrite Ho, rd_wr_eq by lia. done.
    + intros b Hb. rewrite Ho, rd_wr_ne by lia. done.
  - rewrite Hr, length_dec_chars by lia. eexists. split; [reflexivity|]. apply utoa_r_text. lia.
Qed.

Lemma length_text64 v : - 2 ^ 63 <= v < 2 ^ 64 -> (length (int_text v) <= 65)%nat.
Proof.
  intros Hv. unfold int_text. destruct (Z.ltb_spec v 0); cbn [length]; rewrite length_dec_chars.
  - destruct (digits_spec 64 (- v)) as (_ & _ & Hl & _); [apply pow64; lia|lia|lia].
  - destruct (digits_spec 64 v) as (_ & _ & Hl & _); [apply pow64; lia|lia|lia].
Qed.

Section formats.
Context (buffer c_r a_ pct nul str : Z) (m0 : mem) (total : Z).
Implicit Types (m : mem) (p : piece) (ps : list piece) (index : Z) (ap out : list Z).

Definition cells_of_a (b : Z) : bool := within b a_ 2.

Abbreviation printing_ := (printing buffer c_r str cells_of_a m0 total).
Abbreviation source_ := (source buffer c_r str cells_of_a m0 total).

(** The output and the locals do not overlap, and the literals are what they are. *)
Record layout : Prop := {
  ly_buffer : apart str total buffer 256;
  ly_cr : apart str total c_r 3;
  ly_a : apart str total a_ 2;
  ly_buffer_cr : apart buffer 256 c_r 3;
  ly_buffer_a : apart buffer 256 a_ 2;
  ly_cr_a : apart c_r 3 a_ 2;
  ly_pct : source_ pct [37];
  ly_nul : source_ nul null_text;
  ly_nul0 : nul <> 0
}.

Definition piece_ok p : Prop :=
match p with
| PLit c => 0 < c < 256 /\ c <> 37
| PStr s l => s <> 0 /\ source_ s l
| PLong l => s64 l <> - 2 ^ 63
| POther long c => 0 < c < 256 /\ no_directive long c = true /\ (long = false -> c <> 108)
| _ => True
end.

(** The two hypotheses the lemmas of KConvert share. *)
Lemma layout_regions : layout ->
(str + total <= buffer \/ buffer + 256 <= str) /\ (str + total <= c_r \/ c_r + 3 <= str) /\
(buffer + 256 <= c_r \/ c_r + 3 <= buffer).
Proof. intros []. unfold apart in *. tauto. Qed.

Lemma layout_locals : layout -> forall b, cells_of_a b = true ->
within b str total = false /\ within b buffer 256 = false /\ within b c_r 3 = false.
Proof. intros [] b Hb. unfold apart, cells_of_a, within in *. lia. Qed.

(** A string outside the output goes to its end. *)
Lemma put_text fuel m out s l :
layout -> printing_ m out -> cstr m s l -> (length l < fuel)%nat -> zlen out + zlen l < total ->
(s + zlen l < str \/ str + total <= s) ->
exists m', vsputs_r fuel m (str + zlen out) s = Ret (m', str + zlen (out ++ l)) /\ printing_ m' (out ++ l).
Proof. intros HL. apply vsputs_spec; [by apply layout_regions|by apply layout_locals]. Qed.

(** A text no directive writes over. *)
Lemma put_source fuel m out s l :
layout -> printing_ m out -> source_ s l -> (length l < fuel)%nat -> zlen out + zlen l < total ->
exists m', vsputs_r fuel m (str + zlen out) s = Ret (m', str + zlen (out ++ l)) /\ printing_ m' (out ++ l).
Proof.
intros HL Hp Hs Hf Ht. pose proof (layout_regions HL) as HR. pose proof (layout_locals HL) as HC.
apply put_text; [done|done|exact (source_cstr _ _ _ _ _ _ HR HC m out s l Hp Hs)|done|done|].
destruct (source_apart _ _ _ _ _ _ HR HC s l Hs) as [?|[?|?]]; lia.
Qed.

(** A number in [buffer] goes to the output. *)
Lemma put_number fuel m m1 out l ap :
layout -> printing_ m out -> zlen out + zlen l < total -> (length l <= 65)%nat -> (length l < fuel)%nat ->
cstr m1 buffer l -> (forall b, ~ buffer <= b < buffer + 256 -> m1⟦b⟧ = m⟦b⟧) ->
exists m', put_buffer buffer fuel m1 (str + zlen out) ap = Ret (m', str + zlen (out ++ l), ap) /\ printing_ m' (out ++ l).
Proof.
intros HL Hp Ht Hl Hf Hs Ho. pose proof (layout_regions HL) as HR. pose proof (layout_locals HL) as HC.
assert (Hp1 : printing_ m1 out) by (apply (printing_buffer _ _ _ _ _ _ HR HC m); [done|lia|done]).
destruct (put_text fuel m1 out buffer l HL Hp1 Hs Hf Ht) as (m' & E & Hm'); [lia|].
exists m'. unfold put_buffer. by rewrite E.
Qed.

(** The default of the switch: a percent sign and the character. *)
Lemma put_other fuel m out q c :
layout -> printing_ m out -> 0 < c < 256 -> m0⟦q⟧ = c -> touched buffer c_r str cells_of_a total q = false ->
zlen out + 2 < total -> (1 < fuel)%nat ->
exists m1 m', vsputs_r fuel m (str + zlen out) pct = Ret (m1, str + zlen (out ++ [37])) /\
  (let m := m1⟦a_ := 0⟧⟦a_ + 1 := 0⟧ in vsputs_r fuel m⟦a_ := m⟦q⟧⟧ (str + zlen (out ++ [37])) a_) =
    Ret (m', str + zlen (out ++ [37; c])) /\ printing_ m' (out ++ [37; c]).
Proof.
intros HL Hp Hc E Htouch Ht Hf. pose proof (layout_regions HL) as HR. pose proof (layout_locals HL) as HC.
destruct (put_source fuel m out pct [37] HL Hp (ly_pct HL)) as (m1 & E1 & Hp1); [cbn; lia|cbn; lia|].
exists m1. cbv zeta. set (m2 := m1⟦a_ := 0⟧⟦a_ + 1 := 0⟧).
assert (Hpa : within q a_ 2 = false) by (unfold touched in Htouch; by apply orb_false_iff in Htouch as [_ ?]).
assert (m2⟦q⟧ = c) as ->.
{ unfold m2, within in *. rewrite !rd_wr_ne by lia. destruct Hp1 as (Hsrc & _ & _). by rewrite Hsrc. }
assert (Hp2 : printing_ m2⟦a_ := c⟧ (out ++ [37])).
{ apply (printing_locals _ _ _ _ _ _ HR HC m1); [exact Hp1|rewrite length_app; cbn; lia|].
  intros b Hb. unfold m2, cells_of_a, within in *. by rewrite !rd_wr_ne by lia. }
destruct (put_text fuel m2⟦a_ := c⟧ (out ++ [37]) a_ [c] HL Hp2) as (m' & E' & Hm').
- apply cstr_cons. rewrite rd_wr_eq. split; [done|]. split; [done|]. apply cstr_nil. unfold m2. rewrite rd_wr_ne, rd_wr_eq by lia. done.
- exact Hf.
- rewrite length_app. cbn. lia.
- destruct (ly_a HL); cbn; lia.
- exists m'. rewrite <- app_assoc in E', Hm'. by split_and!.
Qed.

(** The directive of a piece: whether it has the 'l', and its character. *)
Definition conversion p : option (bool * Z) :=
match p with
| PLit _ => None
| PChr _ => Some (false, 99)
| PStr _ _ | PNull => Some (false, 115)
| PDec _ => Some (false, 100)
| PUns _ => Some (false, 117)
| PHex _ => Some (false, 120)
| PLong _ => Some (true, 100)
| PULong _ => Some (true, 117)
| PLHex _ => Some (true, 120)
| POther long c => Some (long, c)
end.

Definition type_of (long : bool) (c : Z) : Z := Z.lor (if long then 0x10 else 0) (vf c).

Lemma type_of_other (long : bool) c : no_directive long c = true ->
type_of long c = -1 \/ type_of long c = 0x11 \/ type_of long c = 0x12.
Proof.
unfold no_directive, type_of. intros [E%Z.eqb_eq|[-> [E%Z.eqb_eq|E%Z.eqb_eq]%orb_true_iff]%andb_true_iff]%orb_true_iff; rewrite E.
- left. apply Z.lor_m1_r.
- by right; left.
- by right; right.
Qed.

Context (ftoa : Z -> Z -> Z -> mem -> mem).

Lemma user_directive_spec fuel m out p ap fmt index (long : bool) c :
layout -> piece_ok p -> conversion p = Some (long, c) -> printing_ m out ->
m0⟦fmt + index⟧ = c -> touched buffer c_r str cells_of_a total (fmt + index) = false ->
zlen out + zlen (piece_out p) < total -> (length (piece_out p) < fuel)%nat -> (65 < fuel)%nat ->
exists m', user_directive buffer c_r a_ pct nul ftoa fuel m fmt index (type_of long c) (str + zlen out) (piece_args p ++ ap) =
    Ret (m', str + zlen (out ++ piece_out p), ap) /\ printing_ m' (out ++ piece_out p).
Proof.
intros HL Hok Hconv Hp Ec Htouch Ht Hf Hf65. pose proof (layout_regions HL) as HR. pose proof (layout_locals HL) as HC.
assert (Hnum : forall v, -2147483648 <= v < 2 ^ 32 -> (length (int_text v) <= 65)%nat) by (intros v Hv; apply length_text64; lia).
assert (Hdec : forall v, 0 <= v < 2 ^ 64 -> dec_chars (digits 64 v) = int_text v).
{ intros v Hv. unfold int_text. destruct (Z.ltb_spec v 0); [lia|done]. }
destruct p as [c'|a|s l| |d|u|u|l|u|u|long' c']; try discriminate Hconv; injection Hconv as <- <-;
  cbn [piece_args piece_out app] in *; unfold user_directive;
  match goal with
  | |- context [type_of ?lg 99] => change (type_of lg 99) with 0x01
  | |- context [type_of ?lg 115] => change (type_of lg 115) with 0x02
  | |- context [type_of false 100] => change (type_of false 100) with 0x03
  | |- context [type_of false 117] => change (type_of false 117) with 0x04
  | |- context [type_of false 120] => change (type_of false 120) with 0x05
  | |- context [type_of true 100] => change (type_of true 100) with 0x13
  | |- context [type_of true 117] => change (type_of true 117) with 0x14
  | |- context [type_of true 120] => change (type_of true 120) with 0x15
  | _ => idtac
  end; cbn [Z.eqb Pos.eqb orb].
- destruct (printing_char _ _ _ _ _ _ HR HC m (u8 a) out Hp) as [Hp1 Hs]; [lia|apply u8_range|].
  destruct (put_text fuel _ _ _ _ HL Hp1 Hs Hf Ht) as (m' & E & Hm').
  { destruct HR as (_ & R2 & _). destruct (u8 a =? 0); cbn [length]; lia. }
  exists m'. by rewrite E.
- destruct Hok as [Hs0 Hs]. rewrite (proj2 (Z.eqb_neq s 0) Hs0). cbn [negb].
  destruct (put_source fuel m out s l HL Hp Hs Hf Ht) as (m' & E & Hm'). exists m'. by rewrite E.
- cbn [negb]. destruct (put_source fuel m out nul null_text HL Hp (ly_nul HL) Hf Ht) as (m' & E & Hm'). exists m'. by rewrite E.
- pose proof (s32_range d). destruct (itoa_text m (s32 d) buffer ltac:(lia)) as [Hs Ho]. specialize (Hnum (s32 d) ltac:(lia)).
  apply (put_number fuel m); [done..|]. intros b Hb. apply Ho. lia.
- pose proof (u32_range u). rewrite Hdec in * by lia. specialize (Hnum (u32 u) ltac:(lia)). unfold utoa. cbn [Z.eqb Pos.eqb mbind outcome_bind].
  destruct (utoa_r_text m (u32 u) buffer ltac:(lia)) as [Hs Ho]. rewrite Hdec in Hs by lia. rewrite <- length_dec_chars, Hdec in Ho by lia.
  apply (put_number fuel m); [done..|]. intros b Hb. apply Ho. lia.
- pose proof (u32_range u). destruct (i2hex_text fuel m (u32 u) buffer 8) as (m1 & E1 & Hs & Ho);
    [change (16 ^ 8) with 4294967296; lia|lia|lia|].
  change (Z.to_nat 8) with 8%nat in Hs. rewrite E1. cbn [mbind outcome_bind].
  pose proof (length_hex_text 8 (u32 u) ltac:(lia)).
  apply (put_number fuel m); [done|done|done|lia|done|done|]. intros b Hb. apply Ho. lia.
- assert (- 2 ^ 63 < s64 l < 2 ^ 63) as Hl by (cbn in Hok; assert (- 2 ^ 63 <= s64 l < 2 ^ 63) by word_lia; lia).
  destruct (ltoa_text fuel m (s64 l) buffer Hl) as (m1 & E1 & Hs & Ho). rewrite E1. cbn [mbind outcome_bind].
  pose proof (length_text64 (s64 l) ltac:(lia)).
  apply (put_number fuel m); [done..|]. intros b Hb. apply Ho. lia.
- pose proof (u64_range u). rewrite Hdec in * by lia. pose proof (length_text64 (u64 u) ltac:(lia)). unfold utoa. cbn [Z.eqb Pos.eqb mbind outcome_bind].
  destruct (utoa_r_text m (u64 u) buffer ltac:(lia)) as [Hs Ho]. rewrite Hdec in Hs by lia. rewrite <- length_dec_chars, Hdec in Ho by lia.
  apply (put_number fuel m); [done..|]. intros b Hb. apply Ho. lia.
- pose proof (u64_range u). unfold utoa. cbn [Z.eqb Pos.eqb]. destruct (i2hex_text fuel m (u64 u) buffer 16) as (m1 & E1 & Hs & Ho);
    [change (16 ^ 16) with 18446744073709551616; lia|lia|lia|].
  change (Z.to_nat 16) with 16%nat in Hs. rewrite E1. cbn [mbind outcome_bind].
  pose proof (length_hex_text 16 (u64 u) ltac:(lia)).
  apply (put_number fuel m); [done|done|done|lia|done|done|]. intros b Hb. apply Ho. lia.
- destruct Hok as (Hc & Hno & _). destruct (put_other fuel m out (fmt + index) c' HL Hp Hc Ec Htouch) as (m1 & m' & E1 & E' & Hm');
    [cbn [length] in Ht; lia|lia|].
  exists m'. split; [|exact Hm'].
  destruct (type_of_other long' c' Hno) as [-> | [-> | ->]]; cbn [Z.eqb Pos.eqb orb]; rewrite E1; cbn [mbind outcome_bind]; cbv zeta in E'; by rewrite E'.
Qed.

(** A piece that is no character begins with the percent sign, and has at most two more. *)
Lemma piece_directive p : piece_ok p -> (exists c, p = PLit c) \/
exists (long : bool) c, conversion p = Some (long, c) /\ piece_text p = 37 :: (if long then [108; c] else [c]) /\ (long = false -> c <> 108).
Proof.
intros Hok. destruct p as [c'|a|s l| |d|u|u|l|u|u|long c']; [left; by eexists|right..];
  try (eexists _, _; split; [reflexivity|]; split; [reflexivity|done]).
eexists _, _. split; [reflexivity|]. split; [done|]. by destruct Hok as (_ & _ & ?).
Qed.

(** Reading a character of the format. *)
Lemma format_read m out fmt index c l : layout -> printing_ m out -> source_ (fmt + index) (c :: l) ->
0 < c < 256 /\ m⟦fmt + index⟧ = c /\ m0⟦fmt + index⟧ = c /\ touched buffer c_r str cells_of_a total (fmt + index) = false /\
source_ (fmt + (index + 1)) l.
Proof.
intros HL Hp Hs. pose proof (layout_regions HL) as HR. pose proof (layout_locals HL) as HC.
pose proof (source_read _ _ _ _ _ _ HR HC m out c l _ Hp Hs) as Hm.
destruct (source_cons _ _ _ _ _ _ HR HC c l _ Hs) as (Hc & H0 & Ht & Hs'). rewrite Z.add_assoc. split; [exact Hc|]. by split_and!.
Qed.

Lemma user_vsprintf_loop_spec ps k fuel m fmt index out ap :
layout -> Forall piece_ok ps -> source_ (fmt + index) (pieces_text ps) -> printing_ m out ->
zlen out + zlen (pieces_out ps) < total -> (length ps < k)%nat -> (length (pieces_out ps) < fuel)%nat -> (65 < fuel)%nat ->
exists m', user_vsprintf_loop buffer c_r a_ pct nul ftoa k fuel m fmt index (str + zlen out) (pieces_args ps ++ ap) =
    Ret (m', str + zlen (out ++ pieces_out ps)) /\ printing_ m' (out ++ pieces_out ps).
Proof.
intros HL. pose proof (layout_regions HL) as HR. pose proof (layout_locals HL) as HC.
revert k m index out. induction ps as [|p ps IH]; intros k m index out Hok Hsrc Hp Ht Hk Hf Hf65;
  (destruct k as [|k]; [cbn in Hk; lia|]); cbn [user_vsprintf_loop].
- pose proof (source_cstr _ _ _ _ _ _ HR HC m out _ _ Hp Hsrc) as (_ & _ & Hz). cbn in Hz. rewrite Z.add_0_r in Hz.
  rewrite Hz. exists m. cbn. by rewrite app_nil_r.
- apply Forall_cons in Hok as [Hi Hok]. unfold pieces_text, pieces_args, pieces_out in *.
  cbn [fmap list_fmap concat length] in *. rewrite length_app in Ht, Hf. rewrite <- app_assoc.
  assert (Hrest : forall m' index', source_ (fmt + index') (concat (piece_text <$> ps)) -> printing_ m' (out ++ piece_out p) ->
    exists m2, user_vsprintf_loop buffer c_r a_ pct nul ftoa k fuel m' fmt index' (str + zlen (out ++ piece_out p)) (concat (piece_args <$> ps) ++ ap) =
      Ret (m2, str + zlen (out ++ piece_out p ++ concat (piece_out <$> ps))) /\ printing_ m2 (out ++ piece_out p ++ concat (piece_out <$> ps))).
  { intros m' index' Hs' Hp'. rewrite (app_assoc out). apply IH; [done|done|done|rewrite length_app; lia|lia|lia|lia]. }
  destruct (piece_directive p Hi) as [[c ->]|(long & c & Hconv & Htext & Hl)].
  + cbn [piece_text piece_args piece_out app] in *. destruct Hi as [Hc Hpc].
    destruct (format_read m out fmt index c _ HL Hp Hsrc) as (_ & -> & _ & _ & Hsrc').
    destruct (Z.eqb_spec c 0); [lia|]. destruct (Z.eqb_spec c 37); [done|].
    destruct (printing_char _ _ _ _ _ _ HR HC m c out Hp) as [Hp1 Hs1]; [lia|lia|]. destruct (Z.eqb_spec c 0); [lia|].
    destruct (put_text fuel _ _ c_r [c] HL Hp1 Hs1) as (m' & E & Hm'); [cbn [length] in *; lia|cbn [length] in *; lia|
      destruct HR as (_ & R2 & _); cbn [length]; lia|].
    rewrite E. cbn [mbind outcome_bind]. by apply Hrest.
  + rewrite Htext in Hsrc. cbn [app] in Hsrc. destruct (format_read m out fmt index 37 _ HL Hp Hsrc) as (_ & -> & _ & _ & Hsrc1).
    cbn [Z.eqb Pos.eqb].
    assert (exists index', (if m⟦fmt + (index + 1)⟧ =? 108 then (index + 1 + 1, 0x10) else (index + 1, 0)) = (index', if long then 0x10 else 0) /\
      source_ (fmt + index') (c :: concat (piece_text <$> ps))) as (index' & -> & Hsrc2).
    { destruct long; cbn [app] in Hsrc1; destruct (format_read m out fmt (index + 1) _ _ HL Hp Hsrc1) as (_ & -> & _ & _ & Hs2).
      - by eexists.
      - rewrite (proj2 (Z.eqb_neq c 108)) by auto. by eexists. }
    destruct (format_read m out fmt index' c _ HL Hp Hsrc2) as (_ & Em & E0 & Htouch & Hsrc3). rewrite Em.
    destruct (user_directive_spec fuel m out p (concat (piece_args <$> ps) ++ ap) fmt index' long c HL Hi Hconv Hp E0 Htouch)
      as (m' & E & Hm'); [lia|lia|lia|].
    unfold type_of in E. cbv iota beta. rewrite E. cbn [mbind outcome_bind]. by apply Hrest.
Qed.

(** The text is terminated. *)
Lemma user_vsprintf_spec ps fuel fmt ap :
layout -> Forall piece_ok ps -> source_ fmt (pieces_text ps) -> zlen (pieces_out ps) < total -> total < 2 ^ 31 ->
(length ps < fuel)%nat -> (length (pieces_out ps) < fuel)%nat -> (65 < fuel)%nat ->
exists m', user_vsprintf buffer c_r a_ pct nul ftoa fuel m0 str fmt (pieces_args ps ++ ap) = Ret (zlen (pieces_out ps), m') /\
  bytes_at m' str (pieces_out ps) /\ m'⟦str + zlen (pieces_out ps)⟧ = 0 /\
  forall b, touched buffer c_r str cells_of_a total b = false -> m'⟦b⟧ = m0⟦b⟧.
Proof.
intros HL Hok Hsrc Ht Ht31 Hk Hf Hf65. unfold user_vsprintf. set (m1 := m0⟦c_r := 0⟧⟦c_r + 1 := 0⟧⟦c_r + 2 := 0⟧).
assert (Hp : printing_ m1 []).
{ split_and!; [|done|unfold m1; by mem_simpl]. intros b Hb. unfold touched in Hb. apply orb_false_iff in Hb as [Hb _].
  apply orb_false_iff in Hb as [_ Hb]. unfold m1, within in *. by rewrite !rd_wr_ne by lia. }
destruct (user_vsprintf_loop_spec ps fuel fuel m1 fmt 0 [] ap HL Hok) as (m' & E & (Hsrc' & Hout & _));
  [by rewrite Z.add_0_r|exact Hp|cbn [length]; lia|done..|].
cbn [length app] in E, Hout. rewrite Z.add_0_r in E. rewrite E. cbn [mbind outcome_bind].
eexists. split; [replace (str + zlen (pieces_out ps) - str) with (zlen (pieces_out ps)) by lia; rewrite s32_small by lia; reflexivity|].
split; [|split; [apply rd_wr_eq|]].
- eapply bytes_at_ext; [|exact Hout]. intros b Hb. by rewrite rd_wr_ne by lia.
- intros b Hb. rewrite rd_wr_ne; [by apply Hsrc'|]. unfold touched in Hb. apply orb_false_iff in Hb as [Hb _].
  apply orb_false_iff in Hb as [Hb _]. apply orb_false_iff in Hb as [Hb _]. unfold within in Hb. lia.
Qed.
End formats.

(** ** Properties *)

Lemma piece_out_chars buffer c_r a_ str m0 total p :
  piece_ok buffer c_r a_ str m0 total p -> chars (piece_out p).
Proof.
  assert (Hd : forall v, 0 <= v < 2 ^ 64 -> chars (dec_chars (digits 64 v))).
  { intros v Hv. apply dec_chars_chars. destruct (digits_spec 64 v (pow64 _ Hv) ltac:(lia)) as (_ & ? & _). done. }
  assert (Hi : forall v, - 2 ^ 63 <= v < 2 ^ 63 -> chars (int_text v)).
  { intros v Hv. unfold int_text. destruct (Z.ltb_spec v 0); [constructor; [lia|]|]; apply Hd; lia. }
  assert (Hh : forall k v, chars (hex_text k v)).
  { intros k v. unfold hex_text. destruct (v =? 0); [repeat constructor; lia|].
    pose proof (hex_char_chars _ (hex_digits_range k v)) as Hc. destruct (strip_suffix (hex_char <$> hex_digits k v)) as [z Hz].
    rewrite Hz in Hc. by apply Forall_app in Hc as [_ ?]. }
  destruct p as [c|a|s l| |d|u|u|l|u|u|long c]; cbn [piece_ok piece_out]; intros Hok.
  - by repeat constructor; lia.
  - pose proof (u8_range a). destruct (Z.eqb_spec (u8 a) 0); repeat constructor; lia.
  - destruct Hok as [_ [Hs _]]. by apply cstr_chars in Hs.
  - repeat constructor; lia.
  - pose proof (s32_range d). apply Hi. lia.
  - pose proof (u32_range u). apply Hd. lia.
  - apply Hh.
  - apply Hi. word_lia.
  - pose proof (u64_range u). apply Hd. lia.
  - apply Hh.
  - destruct Hok as (Hc & _). repeat constructor; lia.
Qed.

Lemma pieces_out_chars buffer c_r a_ str m0 total ps :
  Forall (piece_ok buffer c_r a_ str m0 total) ps -> chars (pieces_out ps).
Proof.
  induction 1 as [|p ps Hp _ IH]; [constructor|]. unfold pieces_out, chars in *. cbn. apply Forall_app.
  split; [by eapply piece_out_chars|exact IH].
Qed.

Lemma sprintf_spec (buffer c_r a_ pct nul str total fmt : Z) (ftoa : Z -> Z -> Z -> mem -> mem) (m0 : mem)
    (ps : list piece) (ap : list Z) (fuel : nat) :
  layout buffer c_r a_ pct nul str m0 total ->
  Forall (piece_ok buffer c_r a_ str m0 total) ps ->
  source buffer c_r str (cells_of_a a_) m0 total fmt (pieces_text ps) ->
  zlen (pieces_out ps) < total -> total < 2 ^ 31 ->
  (length ps < fuel)%nat -> (length (pieces_out ps) < fuel)%nat -> (65 < fuel)%nat ->
  exists m', sprintf buffer c_r a_ pct nul ftoa fuel m0 str fmt (pieces_args ps ++ ap) = Ret (zlen (pieces_out ps), m') /\
    cstr m' str (pieces_out ps) /\
    forall b, touched buffer c_r str (cells_of_a a_) total b = false -> m'⟦b⟧ = m0⟦b⟧.
Proof.
  intros HL Hok Hsrc Ht Ht31 Hk Hf Hf65.
  destruct (user_vsprintf_spec buffer c_r a_ pct nul str m0 total ftoa ps fuel fmt ap HL Hok Hsrc Ht Ht31 Hk Hf Hf65)
    as (m' & E & Hout & Hz & Hrest).
  unfold sprintf. rewrite E. cbn [mbind outcome_bind]. eexists. split; [reflexivity|]. split.
  - split; [by eapply pieces_out_chars|]. split; [|apply rd_wr_eq].
    eapply bytes_at_ext; [|exact Hout]. intros b Hb. by rewrite rd_wr_ne by lia.
  - intros b Hb. rewrite rd_wr. destruct (Z.eqb_spec b (str + zlen (pieces_out ps))) as [->|]; [|by apply Hrest].
    rewrite <- Hz. by apply Hrest.
Qed.

(** C29: [sprintf] of the user library prints its format.  For every format of plain characters, the directives
    for characters, strings, and decimal and hexadecimal numbers, long or not, and any others, which stand for
    themselves, the call returns the number of characters, and the output is one terminated
    string: every number in full, "(null)" for a null string, the lower case directives in upper case
    digits.  Nothing outside the output and the locals of the call is written. *)
Theorem sprintf_prints (buffer c_r a_ pct nul str total fmt : Z) (ftoa : Z -> Z -> Z -> mem -> mem) (m0 : mem)
    (ps : list piece) (ap : list Z) (fuel : nat) :
  layout buffer c_r a_ pct nul str m0 total ->
  Forall (piece_ok buffer c_r a_ str m0 total) ps ->
  source buffer c_r str (cells_of_a a_) m0 total fmt (pieces_text ps) ->
  zlen (pieces_out ps) < total -> total < 2 ^ 31 ->
  (length ps < fuel)%nat -> (length (pieces_out ps) < fuel)%nat -> (65 < fuel)%nat ->
  exists m', sprintf buffer c_r a_ pct nul ftoa fuel m0 str fmt (pieces_args ps ++ ap) = Ret (zlen (pieces_out ps), m') /\
    cstr m' str (pieces_out ps) /\
    forall b, touched buffer c_r str (cells_of_a a_) total b = false -> m'⟦b⟧ = m0⟦b⟧.
Proof. apply sprintf_spec. Qed.

(** [vsnprintf] does not obey its limit.  Whatever the size [n] is, as long as it is no larger than
    the static buffer, the whole text goes to [s], with its terminator: [n] bytes or more are written, far more than
    the caller's array may have. *)
Theorem vsnprintf_ignores_limit (buffer c_r a_ pct nul sn_buf s n fmt : Z) (ftoa : Z -> Z -> Z -> mem -> mem) (m0 : mem)
    (ps : list piece) (ap : list Z) (fuel : nat) :
  layout buffer c_r a_ pct nul sn_buf m0 BUFFER_SIZE ->
  Forall (piece_ok buffer c_r a_ sn_buf m0 BUFFER_SIZE) ps ->
  source buffer c_r sn_buf (cells_of_a a_) m0 BUFFER_SIZE fmt (pieces_text ps) ->
  0 < zlen (pieces_out ps) < BUFFER_SIZE -> apart s (zlen (pieces_out ps) + 1) sn_buf BUFFER_SIZE ->
  0 <= n <= BUFFER_SIZE ->
  (length ps < fuel)%nat -> (length (pieces_out ps) < fuel)%nat -> (65 < fuel)%nat ->
  exists m', vsnprintf buffer c_r a_ pct nul ftoa sn_buf fuel m0 s n fmt (pieces_args ps ++ ap) = Ret (zlen (pieces_out ps), m') /\
    cstr m' s (pieces_out ps).
Proof.
  intros HL Hok Hsrc Ht Hap Hn Hk Hf Hf65.
  destruct (user_vsprintf_spec buffer c_r a_ pct nul sn_buf m0 BUFFER_SIZE ftoa ps fuel fmt ap HL Hok Hsrc ltac:(lia) ltac:(done) Hk Hf Hf65)
    as (m' & E & Hout & Hz & Hrest).
  unfold vsnprintf. destruct (Z.gtb_spec n BUFFER_SIZE); [lia|]. rewrite E. cbn [mbind outcome_bind].
  destruct (Z.geb_spec (zlen (pieces_out ps)) BUFFER_SIZE); [lia|].
  destruct (Z.gtb_spec (zlen (pieces_out ps)) 0); [|lia].
  eexists. split; [reflexivity|]. split; [by eapply pieces_out_chars|]. split; [|apply rd_wr_eq].
  apply bytes_at_intro. intros i c Hc. pose proof (lookup_lt_Some _ _ _ Hc). unfold apart in Hap.
  rewrite rd_wr_ne, rd_memcpy by lia. case_within; [|lia]. rewrite <- (bytes_at_nth m' sn_buf (pieces_out ps) i c Hout Hc). f_equal. lia.
Qed.

(** "x=%d,%lx%%" in a small memory. *)
Definition ex_format : mem :=
  poke (poke (poke ∅ 10 [37; 0]) 14 null_text) 30 [120; 61; 37; 100; 44; 37; 108; 120; 37; 37; 0].
Definition ex_pieces : list piece := [PLit 120; PLit 61; PDec (-7); PLit 44; PLHex 0xBEEF; POther false 37].

Lemma ex_layout total str : 4000 <= str -> layout 1000 2000 2100 10 14 str ex_format total.
Proof.
  intros Hs. assert (Ht : forall b, b < 1000 -> touched 1000 2000 str (cells_of_a 2100) total b = false).
  { intros b Hb. unfold touched, cells_of_a, within. lia. }
  split; unfold apart; try lia.
  - split; [by repeat split; try (repeat constructor; lia)|]. intros b Hb. cbn in Hb. apply Ht. lia.
  - split; [by repeat split; try (repeat constructor; lia)|]. intros b Hb. cbn in Hb. apply Ht. lia.
Qed.

Lemma ex_source total str : 4000 <= str ->
  source 1000 2000 str (cells_of_a 2100) ex_format total 30 (pieces_text ex_pieces) /\
  Forall (piece_ok 1000 2000 2100 str ex_format total) ex_pieces.
Proof.
  intros Hs. split.
  - split; [split; [repeat constructor; lia|by repeat split]|]. intros b Hb. cbn in Hb. unfold touched, cells_of_a, within. lia.
  - repeat constructor; try lia; by vm_compute.
Qed.

Lemma sprintf_prints_witness :
  exists m', sprintf 1000 2000 2100 10 14 (fun _ _ _ m => m) 80 ex_format 4000 30 [-7; 0xBEEF] = Ret (11, m') /\
    cstr m' 4000 [120; 61; 45; 55; 44; 66; 69; 69; 70; 37; 37].
Proof.
  destruct (ex_source 64 4000 ltac:(lia)) as [Hs Hok].
  destruct (sprintf_prints 1000 2000 2100 10 14 4000 64 30 (fun _ _ _ m => m) ex_format ex_pieces [] 80) as (m' & E & Hc & _).
  - apply ex_layout. lia.
  - exact Hok.
  - exact Hs.
  - vm_compute. reflexivity.
  - lia.
  - cbn. lia.
  - vm_compute. lia.
  - lia.
  - exists m'. split; [exact E|exact Hc].
Defined.

Lemma vsnprintf_ignores_limit_witness :
  exists m', vsnprintf 1000 2000 2100 10 14 (fun _ _ _ m => m) 70000 80 ex_format 4000 3 30 [-7; 0xBEEF] = Ret (11, m') /\
    cstr m' 4000 [120; 61; 45; 55; 44; 66; 69; 69; 70; 37; 37].
Proof.
  destruct (ex_source BUFFER_SIZE 70000 ltac:(lia)) as [Hs Hok].
  destruct (vsnprintf_ignores_limit 1000 2000 2100 10 14 70000 4000 3 30 (fun _ _ _ m => m) ex_format ex_pieces [] 80) as (m' & E & Hc).
  - apply ex_layout. lia.
  - exact Hok.
  - exact Hs.
  - vm_compute. done.
  - left. vm_compute. done.
  - vm_compute. done.
  - cbn. lia.
  - vm_compute. lia.
  - lia.
  - exists m'. split; [exact E|exact Hc].
Defined.
