(* ===== verification/Resolver.v ===== *)
(** * Resolver: addresses and names of the user library (user/lib/sys/arpa/inet.c, user/lib/sys/net/dns.c)

    [inet_addr] reads an address in dotted form with [strtok], so it writes into its argument;
    [changeto_dns_name_format] turns a name into the labels of a DNS question.  The static pointer of
    [strtok] and [errno] are passed along. *)
From S2P Require Import Prelude KString Bytes KConvert Inet Libc Libnum Uprintf.

(** The four bytes of an address, in the order of memory. *)
Definition ip4 (a b c d : Z) : Z := a + 256 * (b + 256 * (c + 256 * d)).

Section code.
(** The fuel of the scans, and the literal ". ". *)
Context (fuel : nat) (delims : Z).
Implicit Types (m : mem) (last errno : Z).

(** [tmp = strtok(p, ". "); src[i] = tmp ? strtoul(tmp, NULL, 10) : 0;] *)
Definition octet (p last : Z) m errno : outcome (Z * Z * mem * Z) :=
'(tmp, last, m) ← strtok fuel p delims last m;
if negb (tmp =? 0) then
  '(v, m, errno) ← strtoul fuel tmp 0 10 m errno;
  Ret (u8 v, last, m, errno)
else Ret (0, last, m, errno).

Definition inet_addr (cp last : Z) m errno : outcome (Z * Z * mem * Z) :=
'(a, last, m, errno) ← octet cp last m errno;
'(b, last, m, errno) ← octet 0 last m errno;
'(c, last, m, errno) ← octet 0 last m errno;
'(d, last, m, errno) ← octet 0 last m errno;
Ret (ip4 a b c d, last, m, errno).
End code.

(** [cp = name + 1]; a zero byte ends the call at once. *)
Definition name_step (name : Z) (i : Z) : mem * Z * Z -> (mem * Z * Z) + mem := fun '(m, position, n) =>
  let c := m⟦name + 1 + i⟧ in
  if c =? 0 then inr m
  else if c =? 46 (* '.' *) then inl (m⟦name + position := u8 n⟧, i + 1, 0)
  else inl (m, position, s32 (n + 1)).

Definition changeto_dns_name_format (m : mem) (name size : Z) : mem :=
  match for_break_upto 0 size (name_step name) (m, 0, 0) with
  | inr m => m
  | inl (m, position, n) => m⟦name + position := u8 n⟧⟦name + size + 1 := 0⟧
  end.

Definition sizeof_DNS_HEADER : Z := 12.
Definition sizeof_ANSWER : Z := 16.

(** [get_ip_from_name] up to its socket: the question in the block [dns], and its size. *)
Definition dns_query (fuel : nat) (m : mem) (dns name query_type : Z) : outcome (mem * Z) :=
  name_size ← strlen fuel m name;
  let dns_size := sizeof_DNS_HEADER + name_size + 6 in
  let m := st16 m dns (htons 0x1234) in
  let m := st16 m (dns + 2) (htons 0x0100) in
  let m := st16 m (dns + 4) (htons 1) in
  let m := st16 m (dns + 6) (htons 0) in
  let m := st16 m (dns + 8) (htons 0) in
  let m := st16 m (dns + 10) (htons 0) in
  let query := dns + sizeof_DNS_HEADER in
  let m := memcpy m (query + 1) name name_size in
  let m := changeto_dns_name_format m query name_size in
  let query := query + (name_size + 2) in
  let m := st16 m query (htons (u16 query_type)) in
  let query := query + 2 in
  let m := st16 m query (htons 1) in
  Ret (m, dns_size).

Section answer.
Context (buffer c_r a_ pct nul fmt : Z) (ftoa : Z -> Z -> Z -> mem -> mem).

(** The rest of it, with [count] bytes of the reply in [dns]: the last record gives the address; [fmt] is "%d.%d.%d.%d". *)
Definition dns_answer (fuel : nat) (m : mem) (dns addr count : Z) : outcome (Z * mem) :=
let answer_rr := htons (ld16 m (dns + 6)) in
let print m :=
  let address := dns + u64 (count - sizeof_ANSWER) + 12 in
  '(_, m) ← sprintf buffer c_r a_ pct nul ftoa fuel m addr fmt
    [m⟦address⟧; m⟦address + 1⟧; m⟦address + 2⟧; m⟦address + 3⟧];
  Ret m in
m ← (if negb (Z.land answer_rr 3 =? 0) then print m
     else if negb (Z.land answer_rr 4 =? 0) then print m
     else Ret m);
if m⟦addr⟧ =? 0 then Ret (0, m) else Ret (addr, m).
End answer.

(** ** Dotted addresses *)

Section addresses.
Implicit Types (m : mem) (l : list Z).

(** The text of a number below 256, any number of zeros before it. *)
Definition octet_text l (v : Z) : Prop :=
l <> [] /\ 0 <= v < 256 /\ exists vs, mapM (digit_of 10) l = Some vs /\ number 10 0 vs = v.

Definition dotted l0 l1 l2 l3 : list Z := l0 ++ 46 :: l1 ++ 46 :: l2 ++ 46 :: l3.

(** What [sprintf] writes for "%d" is such a text. *)
Lemma int_text_octet v : 0 <= v < 256 -> octet_text (int_text v) v.
Proof.
intros Hv. split; [|split; [done|]].
- unfold int_text. destruct (Z.ltb_spec v 0); [done|]. intros E. apply (f_equal length) in E. rewrite length_dec_chars in E.
  destruct (digits_spec 64 v) as (_ & _ & Hl & _); [apply pow64; lia|lia|]. cbn in E. lia.
- assert (from_option (fun vs => number 10 0 vs =? v) false (mapM (digit_of 10) (int_text v)) = true) as Hb.
  { below 256%nat v. }
  destruct (mapM _ _) as [vs|]; [|done]. exists vs. split; [done|]. by apply Z.eqb_eq.
Qed.

Lemma strtoul_dec_loop n m s v any ds vs :
0 <= v -> 0 <= any -> cstr m (s - 1) ds -> mapM (digit_of 10) ds = Some vs -> number 10 v vs < 429496729 -> (length ds < n)%nat ->
exists any', strtoul_loop n m s (s8 m⟦s - 1⟧) 10 429496729 5 v any = Ret (number 10 v vs, any', s + zlen ds) /\ 0 <= any'.
Proof.
revert s v any ds vs. induction n as [|n IH]; intros s v any ds vs Hv Hany Hs Hds Hbig Hn; [lia|]. cbn [strtoul_loop]. destruct ds as [|c ds].
- injection Hds as <-. exists any. cbn [length]. rewrite Z.add_0_r. apply cstr_end in Hs. cbn in Hs. rewrite Z.add_0_r in Hs.
  rewrite Hs. by split.
- apply cstr_cons in Hs as (Hc & -> & Hs). cbn in Hds. destruct (digit_of 10 c) as [d|] eqn:Ed; [|done].
  destruct (mapM (digit_of 10) ds) as [vs'|] eqn:Evs; [|done]. injection Hds as <-.
  destruct (digit_byte 10 c d ltac:(lia) ltac:(lia) Ed) as (Edc & Hd & Hc8 & _).
  replace (s8 c) with c by (unfold s8; rewrite Z.mod_small; lia). rewrite Edc. destruct (Z.geb_spec d 10); [lia|].
  assert (v * 10 + d <= number 10 (v * 10 + d) vs') as Hle.
  { assert (Forall (fun d => 0 <= d) vs') as Hall.
    { pose proof (cstr_chars _ _ _ Hs) as Hch. clear - Evs Hch. revert vs' Evs. induction ds as [|c ds IH]; intros vs' E; cbn in E; [injection E as <-; constructor|].
      apply Forall_cons in Hch as [Hc Hch].
      destruct (digit_of 10 c) as [d|] eqn:Ed; [|done]. destruct (mapM (digit_of 10) ds) as [l|]; [|done]. injection E as <-.
      constructor; [|by apply IH]. destruct (digit_byte 10 c d ltac:(lia) ltac:(lia) Ed) as (_ & ? & _). lia. }
    pose proof (number_range 10 (v * 10 + d) vs' ltac:(lia) ltac:(lia) Hall).
    pose proof (Z.pow_pos_nonneg 10 (Z.of_nat (length vs')) ltac:(lia) ltac:(lia)). nia. }
  change (number 10 v (d :: vs')) with (number 10 (v * 10 + d) vs') in *.
  rewrite !Z.gtb_ltb. destruct (Z.ltb_spec any 0); [lia|]. destruct (Z.ltb_spec 429496729 v); [lia|]. destruct (Z.eqb_spec v 429496729); [lia|].
  cbn [orb andb]. rewrite (u64_small (v * 10)), u64_small by lia.
  replace (s - 1 + 1) with (s + 1 - 1) in Hs by lia. replace m⟦s⟧ with m⟦s + 1 - 1⟧ by (f_equal; lia).
  destruct (IH (s + 1) (v * 10 + d) 1 ds vs') as (any' & E & Ha); try done; [lia|cbn in Hn; lia|].
  exists any'. split; [|done]. rewrite E. do 2 f_equal. cbn [length]. lia.
Qed.

Lemma octet_digits l v : octet_text l v -> Forall (fun c => is_Some (digit_of 10 c)) l.
Proof. intros (_ & _ & vs & E & _). apply mapM_is_Some. by exists vs. Qed.

Lemma octet_no_delim l v : octet_text l v -> Forall (fun c => c ∉ [46; 32]) l.
Proof.
intros Ho. eapply Forall_impl; [exact (octet_digits l v Ho)|]. intros c [d Hd] Hin.
repeat (apply elem_of_cons in Hin as [->|Hin]; [discriminate Hd|]). by apply not_elem_of_nil in Hin.
Qed.

Lemma strtoul_octet fuel m p l v errno :
octet_text l v -> cstr m p l -> (length l < fuel)%nat -> strtoul fuel p 0 10 m errno = Ret (v, m, errno).
Proof.
intros (Hne & Hv & vs & Evs & En) Hs Hf. destruct l as [|c l]; [done|]. pose proof Evs as Evs'. cbn in Evs'.
destruct (digit_of 10 c) as [d|] eqn:Ed; [|done]. clear Evs'. pose proof Hs as (Hc & Ec & _)%cstr_cons.
destruct (digit_byte 10 c d ltac:(lia) ltac:(lia) Ed) as (_ & _ & Hc8 & Hcs & _).
unfold strtoul. rewrite (skip_space_spec fuel m p [] c l) by (try done; cbn in Hf |- *; lia). cbn [mbind outcome_bind].
change (zlen []) with 0. rewrite Z.add_0_r. replace (s8 c) with m⟦p + 1 - 1⟧ by (rewrite Z.add_simpl_r, Ec; unfold s8; rewrite Z.mod_small; lia).
rewrite (number_head_spec m (p + 1) 10 false [] c l d) by first [done|lia|by rewrite Z.add_simpl_r|right; split; [by left|done]].
change (zlen []) with 0. rewrite Z.add_0_r. change (ULONG_MAX / u64 10) with 429496729. change (s32 (ULONG_MAX mod u64 10)) with 5.
destruct (strtoul_dec_loop fuel m (p + 1) 0 0 (c :: l) vs) as (any & E & Ha); try done; [by rewrite Z.add_simpl_r|lia|].
rewrite Z.add_simpl_r, Ec in E. replace (s8 c) with c in E by (unfold s8; rewrite Z.mod_small; lia). rewrite E.
cbn [mbind outcome_bind]. destruct (Z.ltb_spec any 0); [lia|]. cbn [Z.eqb negb]. rewrite En, s64_small by lia. done.
Qed.

(** One number, and the delimiter behind it turned into the end of its string. *)
Lemma octet_spec fuel delims s p last m errno l r v :
s <> 0 -> p = s \/ p = 0 /\ last = s -> cstr m delims [46; 32] -> (2 < fuel)%nat -> cstr m s (l ++ r) -> (length l < fuel)%nat ->
octet_text l v -> r = [] \/ (exists r', r = 46 :: r') ->
exists m', octet fuel delims p last m errno = Ret (v, match r with [] => 0 | _ => s + zlen l + 1 end, m', errno) /\
  cstr m' s l /\ (forall x r', r = x :: r' -> cstr m' (s + zlen l + 1) r') /\ forall b, b <> s + zlen l -> m'⟦b⟧ = m⟦b⟧.
Proof.
intros Hs0 Hp Hd Hf2 Hs Hf Ho Hr. pose proof Ho as (Hne & Hv & _).
pose proof (strtok_r_cuts fuel s p delims last m [46; 32] [] l r Hs0 Hp Hd ltac:(cbn; lia) Hs Hf (Forall_nil_2 _) (octet_no_delim l v Ho)) as Hcut.
destruct l as [|c l]; [done|]. destruct Hcut as (m' & E & Ht & Hrest & Hout).
{ destruct Hr as [->|[r' ->]]; [done|]. cbn. left. }
{ done. }
change (zlen []) with 0 in *. rewrite Z.add_0_r in *. exists m'. unfold octet, strtok. rewrite E. cbn [mbind outcome_bind].
rewrite (proj2 (Z.eqb_neq s 0) Hs0). cbn [negb]. rewrite (strtoul_octet fuel m' s (c :: l) v errno Ho Ht Hf). cbn [mbind outcome_bind].
rewrite u8_small by lia. split; [done|]. split; [done|]. split; [exact Hrest|]. intros b Hb. apply Hout. lia.
Qed.

(** With nothing left there is no token. *)
Lemma octet_none fuel delims m errno : octet fuel delims 0 0 m errno = Ret (0, 0, m, errno).
Proof. reflexivity. Qed.

Lemma dotted_length l0 l1 l2 l3 :
zlen (dotted l0 l1 l2 l3) = zlen l0 + zlen l1 + zlen l2 + zlen l3 + 3.
Proof. unfold dotted. repeat (rewrite length_app; cbn [length]). lia. Qed.
End addresses.

Lemma inet_addr_spec (fuel : nat) (delims cp last errno : Z) (m : mem) (l0 l1 l2 l3 : list Z) (v0 v1 v2 v3 : Z) :
  0 < cp -> (2 < fuel)%nat -> cstr m delims [46; 32] ->
  cstr m cp (dotted l0 l1 l2 l3) -> (length (dotted l0 l1 l2 l3) < fuel)%nat ->
  octet_text l0 v0 -> octet_text l1 v1 -> octet_text l2 v2 -> octet_text l3 v3 ->
  apart cp (zlen (dotted l0 l1 l2 l3) + 1) delims 3 ->
  exists m' m2, inet_addr fuel delims cp last m errno = Ret (ip4 v0 v1 v2 v3, 0, m', errno) /\
    inet_addr fuel delims cp 0 m' errno = Ret (ip4 v0 0 0 0, 0, m2, errno).
Proof.
  intros Hpos Hf2 Hd Hs Hf O0 O1 O2 O3 Hap. assert (cp <> 0) as Hcp by lia. unfold apart in Hap. rewrite dotted_length in Hap.
  assert (Hdelim : forall m m', (forall b, m'⟦b⟧ = m⟦b⟧ \/ cp <= b <= cp + zlen (dotted l0 l1 l2 l3)) -> cstr m delims [46; 32] -> cstr m' delims [46; 32]).
  { intros ma mb E. apply cstr_ext. intros b Hb. cbn in Hb. destruct (E b) as [|Hin]; [done|]. rewrite dotted_length in Hin. lia. }
  assert (L : (length l0 < fuel /\ length l1 < fuel /\ length l2 < fuel /\ length l3 < fuel)%nat) by (pose proof (dotted_length l0 l1 l2 l3); lia).
  destruct L as (L0 & L1 & L2 & L3). unfold dotted in Hs.
  destruct (octet_spec fuel delims cp cp last m errno l0 _ v0 Hcp (or_introl eq_refl) Hd Hf2 Hs L0 O0) as (m1 & E1 & T1 & R1 & U1); [right; by eexists|].
  specialize (R1 _ _ eq_refl). set (p1 := cp + zlen l0 + 1) in *.
  assert (D1 : cstr m1 delims [46; 32]).
  { apply (Hdelim m m1); [|done]. intros b. destruct (decide (b = cp + zlen l0)); [right; rewrite dotted_length; lia|left; by apply U1]. }
  destruct (octet_spec fuel delims p1 0 p1 m1 errno l1 _ v1 ltac:(lia) (or_intror (conj eq_refl eq_refl)) D1 Hf2 R1 L1 O1) as (m2 & E2 & T2 & R2 & U2); [right; by eexists|].
  specialize (R2 _ _ eq_refl). set (p2 := p1 + zlen l1 + 1) in *.
  assert (D2 : cstr m2 delims [46; 32]).
  { apply (Hdelim m1 m2); [|done]. intros b. destruct (decide (b = p1 + zlen l1)); [right; rewrite dotted_length; lia|left; by apply U2]. }
  destruct (octet_spec fuel delims p2 0 p2 m2 errno l2 _ v2 ltac:(lia) (or_intror (conj eq_refl eq_refl)) D2 Hf2 R2 L2 O2) as (m3 & E3 & T3 & R3 & U3); [right; by eexists|].
  specialize (R3 _ _ eq_refl). set (p3 := p2 + zlen l2 + 1) in *.
  assert (D3 : cstr m3 delims [46; 32]).
  { apply (Hdelim m2 m3); [|done]. intros b. destruct (decide (b = p2 + zlen l2)); [right; rewrite dotted_length; lia|left; by apply U3]. }
  rewrite <- (app_nil_r l3) in R3.
  destruct (octet_spec fuel delims p3 0 p3 m3 errno l3 [] v3 ltac:(lia) (or_intror (conj eq_refl eq_refl)) D3 Hf2 R3 L3 O3 (or_introl eq_refl)) as (m4 & E4 & T4 & _ & U4).
  assert (D4 : cstr m4 delims [46; 32]).
  { apply (Hdelim m3 m4); [|done]. intros b. destruct (decide (b = p3 + zlen l3)); [right; rewrite dotted_length; lia|left; by apply U4]. }
  assert (Hfirst : cstr m4 cp (l0 ++ [])).
  { rewrite app_nil_r. eapply cstr_ext; [|exact T1]. intros b Hb. rewrite U4, U3, U2 by lia. done. }
  destruct (octet_spec fuel delims cp cp 0 m4 errno l0 [] v0 Hcp (or_introl eq_refl) D4 Hf2 Hfirst L0 O0 (or_introl eq_refl)) as (m5 & E5 & T5 & _ & U5).
  exists m4, m5. split; unfold inet_addr.
  - rewrite E1. cbn [mbind outcome_bind]. rewrite E2. cbn [mbind outcome_bind]. rewrite E3. cbn [mbind outcome_bind]. by rewrite E4.
  - by rewrite E5.
Qed.

(** C19: [inet_addr] reads an address, once.  For any four numbers below 256 in dotted form it returns the address with these
    bytes in the order of memory, and [errno] as it was.  But [strtok] has put zero bytes in place of the dots: the
    same call on the same string then gives the first number and zeros, so a second question to the
    name server goes to another machine. *)
Theorem inet_addr_once (fuel : nat) (delims cp last errno : Z) (m : mem) (l0 l1 l2 l3 : list Z) (v0 v1 v2 v3 : Z) :
  0 < cp -> (2 < fuel)%nat -> cstr m delims [46; 32] ->
  cstr m cp (dotted l0 l1 l2 l3) -> (length (dotted l0 l1 l2 l3) < fuel)%nat ->
  octet_text l0 v0 -> octet_text l1 v1 -> octet_text l2 v2 -> octet_text l3 v3 ->
  apart cp (zlen (dotted l0 l1 l2 l3) + 1) delims 3 ->
  exists m' m2, inet_addr fuel delims cp last m errno = Ret (ip4 v0 v1 v2 v3, 0, m', errno) /\
    inet_addr fuel delims cp 0 m' errno = Ret (ip4 v0 0 0 0, 0, m2, errno).
Proof. apply inet_addr_spec. Qed.

Lemma dotted_roundtrip (buffer c_r a_ pct nul str total fmt delims last errno : Z) (ftoa : Z -> Z -> Z -> mem -> mem)
    (m0 : mem) (fuel : nat) (a b c d : Z) :
  layout buffer c_r a_ pct nul str m0 total ->
  source buffer c_r str (cells_of_a a_) m0 total fmt (pieces_text [PDec a; PLit 46; PDec b; PLit 46; PDec c; PLit 46; PDec d]) ->
  source buffer c_r str (cells_of_a a_) m0 total delims [46; 32] ->
  0 <= a < 256 -> 0 <= b < 256 -> 0 <= c < 256 -> 0 <= d < 256 ->
  0 < str -> 16 < total < 2 ^ 31 -> (65 < fuel)%nat ->
  exists n m1 m2, sprintf buffer c_r a_ pct nul ftoa fuel m0 str fmt [a; b; c; d] = Ret (n, m1) /\ m1⟦str⟧ <> 0 /\
    inet_addr fuel delims str last m1 errno = Ret (ip4 a b c d, 0, m2, errno).
Proof.
  intros HL Hfmt Hdel Ha Hb Hc Hd Hstr Ht Hf. set (ps := [PDec a; _; PDec b; _; PDec c; _; PDec d]) in *.
  assert (E : forall v, 0 <= v < 256 -> s32 v = v) by (intros v Hv; apply s32_small; lia).
  assert (Hout : pieces_out ps = dotted (int_text a) (int_text b) (int_text c) (int_text d)).
  { unfold pieces_out, ps, dotted. cbn [fmap list_fmap concat piece_out app]. rewrite !E, app_nil_r by done. done. }
  assert (Hlen : forall v, 0 <= v < 256 -> zlen (int_text v) <= 3) by (intros v Hv; below 256%nat v).
  pose proof (dotted_length (int_text a) (int_text b) (int_text c) (int_text d)) as Hdl.
  pose proof (Hlen a Ha). pose proof (Hlen b Hb). pose proof (Hlen c Hc). pose proof (Hlen d Hd).
  assert (Hok : Forall (piece_ok buffer c_r a_ str m0 total) ps) by (repeat constructor; lia || done).
  destruct (sprintf_spec buffer c_r a_ pct nul str total fmt ftoa m0 ps [] fuel HL Hok Hfmt) as (m1 & E1 & Hs1 & Hr1);
    [rewrite Hout; lia|lia|cbn; lia|rewrite Hout; lia|lia|].
  rewrite Hout in *.
  destruct (inet_addr_spec fuel delims str last errno m1 (int_text a) (int_text b) (int_text c) (int_text d) a b c d) as (m2 & _ & E2 & _);
    try (by apply int_text_octet); [lia|lia| |exact Hs1|lia| |].
  - destruct Hdel as [Hdc Hdt]. eapply cstr_ext; [|exact Hdc]. intros x Hx. apply Hr1, Hdt. exact Hx.
  - destruct Hdel as [_ Hdt]. cbn [length] in Hdt. unfold apart.
    assert (Hd' : forall x, delims <= x <= delims + 2 -> ~ str <= x < str + total).
    { intros x Hx Hin. specialize (Hdt x ltac:(lia)). unfold touched in Hdt. rewrite !orb_false_iff in Hdt.
      destruct Hdt as [[[Hdt _] _] _]. unfold within in Hdt. lia. }
    destruct (Z.leb_spec (delims + 3) str); [by right|]. left.
    pose proof (Hd' delims ltac:(lia)). pose proof (Hd' (delims + 2) ltac:(lia)).
    destruct (Z.leb_spec (str + total) delims); [lia|]. exfalso.
    destruct (Z.leb_spec delims str); [apply (Hd' str); lia|lia].
  - eexists _, m1, m2. split; [exact E1|]. split; [|exact E2].
    destruct (int_text_octet a Ha) as (Hne & _). unfold dotted in Hs1. destruct (int_text a) as [|x l]; [done|].
    apply cstr_cons in Hs1 as (Hx & -> & _). lia.
Qed.

(** C17: what the resolver gives, the programs can use.  Of a reply of [count] bytes with one to seven answers, whose last record ends in the
    four bytes of an address, [get_ip_from_name] writes the text and returns it, and [inet_addr] reads exactly
    this address back from it. *)
Theorem answer_roundtrip (buffer c_r a_ pct nul addr total fmt delims last errno : Z) (ftoa : Z -> Z -> Z -> mem -> mem)
    (m0 : mem) (fuel : nat) (dns count rr a b c d : Z) :
  layout buffer c_r a_ pct nul addr m0 total ->
  source buffer c_r addr (cells_of_a a_) m0 total fmt (pieces_text [PDec a; PLit 46; PDec b; PLit 46; PDec c; PLit 46; PDec d]) ->
  source buffer c_r addr (cells_of_a a_) m0 total delims [46; 32] ->
  16 <= count < 2 ^ 31 -> 0 < rr < 8 -> ld16 m0 (dns + 6) = 256 * rr ->
  bytes_at m0 (dns + count - 4) [a; b; c; d] -> Forall (fun v => 0 <= v < 256) [a; b; c; d] ->
  0 < addr -> 16 < total < 2 ^ 31 -> (65 < fuel)%nat ->
  exists m1 m2, dns_answer buffer c_r a_ pct nul fmt ftoa fuel m0 dns addr count = Ret (addr, m1) /\
    inet_addr fuel delims addr last m1 errno = Ret (ip4 a b c d, 0, m2, errno).
Proof.
  intros HL Hfmt Hdel Hcount Hrr Hld Hb Hall Haddr Ht Hf.
  apply Forall_cons in Hall as [Ha [Hb' [Hc [Hd _]%Forall_cons]%Forall_cons]%Forall_cons].
  destruct (dotted_roundtrip buffer c_r a_ pct nul addr total fmt delims last errno ftoa m0 fuel a b c d
    HL Hfmt Hdel Ha Hb' Hc Hd Haddr Ht Hf) as (n & m1 & m2 & E & Hne & E2).
  exists m1, m2. split; [|exact E2]. unfold dns_answer. rewrite Hld.
  replace (htons (256 * rr)) with rr by (rewrite htons_eq by lia; word_lia).
  replace (dns + u64 (count - sizeof_ANSWER) + 12) with (dns + count - 4) by (unfold sizeof_ANSWER; rewrite u64_small; lia).
  cbn [bytes_at] in Hb. replace (dns + count - 4 + 1 + 1 + 1) with (dns + count - 4 + 3) in Hb by lia.
  replace (dns + count - 4 + 1 + 1) with (dns + count - 4 + 2) in Hb by lia. destruct Hb as (-> & -> & -> & -> & _). rewrite E. cbn [mbind outcome_bind].
  assert (Hor : negb (Z.land rr 3 =? 0) = true \/ negb (Z.land rr 3 =? 0) = false /\ negb (Z.land rr 4 =? 0) = true).
  { assert (rr = 1 \/ rr = 2 \/ rr = 3 \/ rr = 4 \/ rr = 5 \/ rr = 6 \/ rr = 7) as Hrr' by lia.
    repeat (destruct Hrr' as [->|Hrr']; [vm_compute; tauto|]). subst rr. vm_compute. tauto. }
  destruct Hor as [-> | [-> ->]]; cbn [mbind outcome_bind]; by rewrite (proj2 (Z.eqb_neq _ _) Hne).
Qed.

(** ** Names *)

(** A name is its labels with dots between them. *)
Fixpoint dots (ls : list (list Z)) : list Z :=
  match ls with
  | [] => []
  | [l] => l
  | l :: ls => l ++ 46 :: dots ls
  end.

(** In a question each label follows its length, and a label of length 0 is the end. *)
Definition wire_label (l : list Z) : list Z := zlen l :: l.
Definition wire_name (ls : list (list Z)) : list Z := concat (wire_label <$> ls) ++ [0].

(** What a server reads. *)
Fixpoint read_labels (n : nat) (m : mem) (a : Z) : option (list (list Z)) :=
  match n with
  | O => None
  | S n =>
      if m⟦a⟧ =? 0 then Some []
      else ls ← read_labels n m (a + 1 + m⟦a⟧); Some (bytes m (a + 1) m⟦a⟧ :: ls)
  end.

Definition label_ok (l : list Z) : Prop :=
  (0 < length l < 256)%nat /\ Forall (fun c => 0 < c < 256 /\ c <> 46) l.

Section names.
Implicit Types (m : mem) (name i p : Z) (l : list Z) (ls : list (list Z)).

(** The loop over the characters of one label counts them. *)
Lemma name_label name m l i position n :
Forall (fun c => 0 < c < 256 /\ c <> 46) l -> bytes_at m (name + 1 + i) l -> 0 <= n -> n + zlen l < 2 ^ 31 ->
for_break (length l) i (name_step name) (m, position, n) = inl (m, position, n + zlen l).
Proof.
revert i n. induction l as [|c l IH]; intros i n Hl Hb Hn Hlen; cbn [length for_break]; [by rewrite Z.add_0_r|].
apply Forall_cons in Hl as [[Hc Hdot] Hl]. destruct Hb as [Hc' Hb]. cbn [length] in Hlen. unfold name_step at 1. rewrite Hc'.
destruct (Z.eqb_spec c 0); [lia|]. destruct (Z.eqb_spec c 46); [lia|].
rewrite s32_small by lia. rewrite IH; [f_equal; f_equal; lia|exact Hl|by rewrite Z.add_assoc|lia|lia].
Qed.

(** From the label at [i] on: the length of each goes where the dot before it was. *)
Lemma name_loop name m ls i :
Forall label_ok ls -> ls <> [] -> bytes_at m (name + 1 + i) (dots ls) ->
exists m' position n, for_break (length (dots ls)) i (name_step name) (m, i, 0) = inl (m', position, n) /\
  bytes_at m'⟦name + position := u8 n⟧ (name + i) (concat (wire_label <$> ls)) /\
  name + i <= name + position <= name + i + zlen (dots ls) /\
  forall b, ~ (name + i <= b <= name + i + zlen (dots ls)) -> m'⟦b⟧ = m⟦b⟧.
Proof.
revert m i. induction ls as [|l ls IH]; intros m i Hok Hne Hb; [done|]. clear Hne. apply Forall_cons in Hok as [[Hl Hc] Hok].
destruct ls as [|l2 ls].
- cbn [dots] in *. exists m, i, (zlen l). rewrite name_label; [|done|done|lia|lia]. split; [done|]. split; [|split; [lia|done]].
  cbn [fmap list_fmap concat]. rewrite app_nil_r. unfold wire_label. cbn [bytes_at].
  rewrite rd_wr_eq, u8_small by lia. split; [done|]. eapply bytes_at_ext; [|].
  2: { replace (name + i + 1) with (name + 1 + i) by lia. exact Hb. }
  intros b Hbr. by rewrite rd_wr_ne by lia.
- change (dots (l :: l2 :: ls)) with (l ++ 46 :: dots (l2 :: ls)) in *. set (rest := dots (l2 :: ls)) in *.
  apply bytes_at_app in Hb as [Hb1 [Hdot Hb2]].
  rewrite length_app. cbn [length]. replace (length l + S (length rest))%nat with (length l + (1 + length rest))%nat by lia.
  rewrite for_break_app, name_label by (done || lia). cbn [Nat.add for_break]. unfold name_step at 1.
  replace (name + 1 + (i + zlen l)) with (name + 1 + i + zlen l) by lia. rewrite Hdot. cbn [Z.eqb Pos.eqb].
  rewrite Z.add_0_l, u8_small by lia. set (m1 := m⟦name + i := zlen l⟧).
  destruct (IH m1 (i + zlen l + 1) Hok ltac:(done)) as (m' & position & n & E & Hw & Hp & Ho).
  { fold rest. eapply bytes_at_ext; [|].
    2: { replace (name + 1 + (i + zlen l + 1)) with (name + 1 + i + zlen l + 1) by lia. exact Hb2. }
    intros b Hbr. unfold m1. by rewrite rd_wr_ne by lia. }
  fold rest in E, Hp, Ho. exists m', position, n. split; [exact E|]. split; [|split; [lia|]].
  + change (concat (wire_label <$> (l :: l2 :: ls))) with (wire_label l ++ concat (wire_label <$> (l2 :: ls))).
    apply bytes_at_app. split.
    * unfold wire_label. cbn [bytes_at]. rewrite rd_wr_ne, Ho by lia. unfold m1. rewrite rd_wr_eq. split; [done|].
      eapply bytes_at_ext; [|].
      2: { replace (name + i + 1) with (name + 1 + i) by lia. exact Hb1. }
      intros b Hbr. rewrite rd_wr_ne, Ho by lia. unfold m1. by rewrite rd_wr_ne by lia.
    * unfold wire_label at 1. cbn [length]. replace (name + i + Z.of_nat (S (length l))) with (name + (i + zlen l + 1)) by lia. exact Hw.
  + intros b Hbr. rewrite Ho by lia. unfold m1. by rewrite rd_wr_ne by lia.
Qed.

Lemma length_wire ls : ls <> [] -> zlen (concat (wire_label <$> ls)) = zlen (dots ls) + 1.
Proof.
induction ls as [|l ls IH]; intros Hne; [done|]. clear Hne. destruct ls as [|l2 ls].
- cbn. rewrite length_app. cbn. lia.
- change (concat (wire_label <$> (l :: l2 :: ls))) with (wire_label l ++ concat (wire_label <$> (l2 :: ls))).
  change (dots (l :: l2 :: ls)) with (l ++ 46 :: dots (l2 :: ls)). rewrite !length_app. cbn [length wire_label].
  specialize (IH ltac:(done)). lia.
Qed.

Lemma bytes_of_list m a l : bytes_at m a l -> bytes m a (zlen l) = l.
Proof.
intros Hb. apply list_eq. intros i. destruct (decide (i < length l)%nat) as [Hi|Hi].
- rewrite lookup_bytes by lia. destruct (lookup_lt_is_Some_2 l i Hi) as [c Hc]. rewrite Hc. f_equal. by eapply bytes_at_nth.
- rewrite !lookup_ge_None_2; [done|lia|rewrite length_bytes; lia].
Qed.

Lemma read_labels_spec n m a ls :
Forall label_ok ls -> bytes_at m a (wire_name ls) -> (length ls < n)%nat -> read_labels n m a = Some ls.
Proof.
revert n a. induction ls as [|l ls IH]; intros n a Hok Hb Hn; (destruct n as [|n]; [cbn in Hn; lia|]); cbn [read_labels].
- destruct Hb as [-> _]. done.
- apply Forall_cons in Hok as [[Hl _] Hok]. unfold wire_name in *. cbn [fmap list_fmap concat] in Hb. rewrite <- app_assoc in Hb.
  apply bytes_at_app in Hb as [[Ha Hb1] Hb2]. rewrite Ha. destruct (Z.eqb_spec (zlen l) 0); [lia|].
  rewrite bytes_of_list by done. rewrite (IH n (a + 1 + zlen l)); [done|done| |cbn in Hn; lia].
  replace (a + 1 + zlen l) with (a + zlen (wire_label l)) by (unfold wire_label; cbn [length]; lia). exact Hb2.
Qed.
End names.

(** The name in a question is the name that was asked for.  For any name of labels of up to 255 characters with dots between them,
    one byte behind [name], the call writes in place each label behind its length and a last 0, and nothing else: a
    server that reads the labels finds those of the name. *)
Lemma dns_name_encodes (m : mem) (name : Z) (ls : list (list Z)) :
  Forall label_ok ls -> ls <> [] -> bytes_at m (name + 1) (dots ls) -> zlen (dots ls) < 2 ^ 31 ->
  let m' := changeto_dns_name_format m name (zlen (dots ls)) in
  bytes_at m' name (wire_name ls) /\ read_labels (S (length ls)) m' name = Some ls /\
  forall b, ~ (name <= b <= name + zlen (dots ls) + 1) -> m'⟦b⟧ = m⟦b⟧.
Proof.
  intros Hok Hne Hb Hlen. cbv zeta.
  destruct (name_loop name m ls 0 Hok Hne) as (m' & position & n & E & Hw & Hp & Ho); [by rewrite Z.add_0_r|].
  unfold changeto_dns_name_format. rewrite for_break_upto_nat, Z.sub_0_r, Nat2Z.id, E. rewrite Z.add_0_r in *.
  set (m2 := _⟦name + zlen (dots ls) + 1 := 0⟧).
  assert (Hbytes : bytes_at m2 name (wire_name ls)).
  { apply bytes_at_app. rewrite length_wire by done. split.
    - eapply bytes_at_ext; [|exact Hw]. intros b Hbr. rewrite length_wire in Hbr by done. unfold m2. by rewrite (rd_wr_ne _ _ b) by lia.
    - split; [|done]. replace (name + (zlen (dots ls) + 1)) with (name + zlen (dots ls) + 1) by lia. apply rd_wr_eq. }
  split; [exact Hbytes|]. split; [by apply read_labels_spec; [..|lia]|].
  intros b Hbr. unfold m2. rewrite !rd_wr_ne by lia. apply Ho. lia.
Qed.

(** C18: the question asks for the name.  For any name of labels of up to 255 characters with dots between them, the
    block holds a packet of the size that is sent: the header of a query with one question, the labels of the name, each behind its length, and
    the type and class, most significant byte first; a server that reads the labels finds those of the name, and
    nothing outside the packet is written. *)
Theorem dns_query_asks (fuel : nat) (m : mem) (dns name query_type : Z) (ls : list (list Z)) :
  Forall label_ok ls -> ls <> [] -> cstr m name (dots ls) -> (length (dots ls) < fuel)%nat -> zlen (dots ls) < 2 ^ 31 ->
  0 <= query_type < 2 ^ 16 -> apart name (zlen (dots ls) + 1) dns (zlen (dots ls) + 18) ->
  exists m', dns_query fuel m dns name query_type = Ret (m', zlen (dots ls) + 18) /\
    bytes_at m' dns ([0x12; 0x34; 1; 0; 0; 1; 0; 0; 0; 0; 0; 0] ++ wire_name ls ++ [query_type / 256; query_type mod 256; 0; 1]) /\
    read_labels (S (length ls)) m' (dns + 12) = Some ls /\
    forall b, ~ (dns <= b < dns + zlen (dots ls) + 18) -> m'⟦b⟧ = m⟦b⟧.
Proof.
  intros Hok Hne Hs Hf Hlen Hq Hap. unfold apart in Hap. unfold dns_query. rewrite (strlen_spec fuel m name (dots ls)) by done.
  cbn [mbind outcome_bind]. unfold sizeof_DNS_HEADER.
  set (m1 := st16 (st16 (st16 (st16 (st16 (st16 m dns _) _ _) _ _) _ _) _ _) _ _).
  assert (H1 : bytes_at m1 dns [0x12; 0x34; 1; 0; 0; 1; 0; 0; 0; 0; 0; 0]).
  { unfold m1. cbn [bytes_at st]. rewrite <- !Z.add_assoc. repeat (rewrite rd_wr_eq || rewrite rd_wr_ne by lia). by vm_compute. }
  assert (O1 : forall b, ~ (dns <= b < dns + 12) -> m1⟦b⟧ = m⟦b⟧).
  { intros b Hb. unfold m1. by rewrite !rd_st_out by lia. }
  clearbody m1. set (m2 := memcpy m1 (dns + 12 + 1) name (zlen (dots ls))).
  assert (E2 : forall b, m2⟦b⟧ = if within b (dns + 12 + 1) (zlen (dots ls)) then m1⟦name + (b - (dns + 12 + 1))⟧ else m1⟦b⟧).
  { intros b. unfold m2. apply rd_memcpy. lia. }
  assert (H2 : bytes_at m2 (dns + 12 + 1) (dots ls)).
  { apply bytes_at_intro. intros i c Hc. pose proof (lookup_lt_Some _ _ _ Hc). rewrite E2. case_within; [|lia].
    replace (name + (dns + 12 + 1 + Z.of_nat i - (dns + 12 + 1))) with (name + Z.of_nat i) by lia. rewrite O1 by lia.
    destruct Hs as (_ & Hb & _). by apply (bytes_at_nth _ _ (dots ls)). }
  destruct (dns_name_encodes m2 (dns + 12) ls Hok Hne H2 Hlen) as (H3 & _ & O3).
  set (m3 := changeto_dns_name_format m2 (dns + 12) (zlen (dots ls))) in *. clearbody m3.
  pose proof (length_wire ls Hne) as Hw.
  assert (Hwn : zlen (wire_name ls) = zlen (dots ls) + 2) by (unfold wire_name; rewrite length_app; cbn [length]; lia).
  set (q := dns + 12 + (zlen (dots ls) + 2)). rewrite (u16_small query_type) by lia.
  set (m4 := st16 (st16 m3 q _) (q + 2) _).
  assert (O4 : forall b, ~ (q <= b < q + 4) -> m4⟦b⟧ = m3⟦b⟧) by (intros b Hb; unfold m4; by rewrite !rd_st_out by lia).
  assert (H4 : bytes_at m4 (dns + 12) (wire_name ls)).
  { eapply bytes_at_ext; [|exact H3]. intros b Hb. apply O4. unfold q. lia. }
  exists m4. split; [do 2 f_equal; lia|]. split; [|split].
  - apply bytes_at_app. split; [|cbn [length]; change (dns + Z.of_nat 12) with (dns + 12); apply bytes_at_app; split].
    + eapply bytes_at_ext; [|exact H1]. cbn [length]. intros b Hb. rewrite O4, O3, E2 by (unfold q; lia). case_within; [lia|done].
    + exact H4.
    + rewrite Hwn. fold q. unfold m4. rewrite htons_eq by lia. cbn [bytes_at st]. rewrite <- !Z.add_assoc.
      repeat (rewrite rd_wr_eq || rewrite rd_wr_ne by lia). change (htons 1) with 256.
      split; [|split; [|split; [|split]]]; try done; word_lia.
  - by apply read_labels_spec; [..|lia].
  - intros b Hb. rewrite O4, O3, E2 by (unfold q; lia). case_within; [lia|]. apply O1. lia.
Qed.

(** "www.ab.c" behind 200. *)
Definition ex_labels : list (list Z) := [[119; 119; 119]; [97; 98]; [99]].
Definition ex_name : mem := poke (poke (poke ∅ 201 (dots ex_labels)) 100 [49; 48; 46; 49; 55; 50; 46; 50; 50; 52; 46; 49; 48; 0]) 130 [46; 32; 0].

Lemma dns_query_asks_witness :
  exists m', dns_query 20 ex_name 400 201 1 = Ret (m', 26) /\ read_labels 4 m' 412 = Some ex_labels.
Proof.
  destruct (dns_query_asks 20 ex_name 400 201 1 ex_labels) as (m' & E & _ & Er & _).
  - repeat constructor; cbn; lia.
  - done.
  - split; [repeat constructor; lia|]. vm_compute. by repeat split.
  - vm_compute. lia.
  - vm_compute. done.
  - lia.
  - left. vm_compute. done.
  - exists m'. split; [exact E|exact Er].
Defined.

(** The third name server of the table, "10.172.224.10". *)
Lemma inet_addr_once_witness :
  exists m' m2, inet_addr 20 130 100 0 ex_name 0 = Ret (ip4 10 172 224 10, 0, m', 0) /\
    inet_addr 20 130 100 0 m' 0 = Ret (ip4 10 0 0 0, 0, m2, 0).
Proof.
  apply (inet_addr_once 20 130 100 0 0 ex_name [49; 48] [49; 55; 50] [50; 50; 52] [49; 48] 10 172 224 10).
  - lia.
  - lia.
  - split; [repeat constructor; lia|]. by repeat split.
  - split; [repeat constructor; lia|]. by repeat split.
  - cbn. lia.
  - split; [done|]. split; [lia|]. by exists [1; 0].
  - split; [done|]. split; [lia|]. by exists [1; 7; 2].
  - split; [done|]. split; [lia|]. by exists [2; 2; 4].
  - split; [done|]. split; [lia|]. by exists [1; 0].
  - left. vm_compute. done.
Defined.

(** A reply of 40 bytes with one answer, 192.168.0.7. *)
Lemma answer_roundtrip_witness :
  let m0 := poke (poke (poke (poke ex_format 50 [37; 100; 46; 37; 100; 46; 37; 100; 46; 37; 100; 0]) 70 [46; 32; 0])
    306 [0; 1]) 336 [192; 168; 0; 7] in
  exists m1 m2, dns_answer 1000 2000 2100 10 14 50 (fun _ _ _ m => m) 80 m0 300 4000 40 = Ret (4000, m1) /\
    inet_addr 80 70 4000 0 m1 0 = Ret (ip4 192 168 0 7, 0, m2, 0).
Proof.
  set (m0 := poke _ 336 _). cbv zeta.
  assert (Ht : forall b, b < 1000 -> touched 1000 2000 4000 (cells_of_a 2100) 64 b = false).
  { intros b Hb. unfold touched, cells_of_a, within. lia. }
  apply (answer_roundtrip 1000 2000 2100 10 14 4000 64 50 70 0 0 (fun _ _ _ m => m) m0 80 300 40 1 192 168 0 7); try lia.
  - split; unfold apart; try lia.
    + split; [split; [repeat constructor; lia|by repeat split]|]. intros b Hb. cbn in Hb. apply Ht. lia.
    + split; [split; [repeat constructor; lia|by repeat split]|]. intros b Hb. cbn in Hb. apply Ht. lia.
  - split; [split; [repeat constructor; lia|by repeat split]|]. intros b Hb. cbn in Hb. apply Ht. lia.
  - split; [split; [repeat constructor; lia|by repeat split]|]. intros b Hb. cbn in Hb. apply Ht. lia.
  - reflexivity.
  - by repeat split.
  - repeat constructor; lia.
Defined.
