(* ===== verification/Ps2.v ===== *)
(** * Ps2: the ports of the keyboard controller (kernel/include/io.h, kernel/driver/ps2/ps2.c)

    The controller is a parameter: [inportb] and [outportb] act on a state of any type, and
    [outanyb], which only spends time, writes whatever the accumulator holds.  [KeyboardPort] says
    what the handlers rely on: a byte that has arrived is the byte port 0x60 gives, and the
    input buffer is empty again after a bounded number of polls. *)
From S2P Require Import Prelude.

Class Ports (C : Type) := {
  inportb : Z -> C -> Z * C;
  outportb : Z -> Z -> C -> C;
  outanyb : Z -> C -> C
}.

Section controller.
Context {C : Type} `{Ports C}.
Implicit Types (c : C) (val type : Z).

(** The two loops of [kbdc_wait]: [spin] counts the passes that are left. *)
Fixpoint kbdc_poll (ready : Z -> bool) (spin : nat) c : C :=
let '(status, c) := inportb 0x64 c in
if ready status then c
else
  match spin with
  | O => c
  | S spin => kbdc_poll ready spin (outanyb 0xed c)
  end.

Definition kbdc_wait type c : C :=
if type =? 0 then kbdc_poll (fun status => negb (Z.land status 1 =? 0)) (Z.to_nat 10000) c
else if type =? 1 then kbdc_poll (fun status => Z.land status 2 =? 0) (Z.to_nat 10000) c
else c.

Definition kbdc_set_cmd val c : C := outportb 0x64 val (kbdc_wait 1 c).

Definition kbdc_read c : Z * C := inportb 0x60 (kbdc_wait 0 c).

(** [while (ack != 0xFA && spin--)]: at most [spin] more reads. *)
Fixpoint wait_ack (spin : nat) (ack : Z) c : C :=
if ack =? 0xFA then c
else
  match spin with
  | O => c
  | S spin => let '(ack, c) := kbdc_read c in wait_ack spin ack c
  end.

Definition kbdc_wait_ack c : C := let '(ack, c) := kbdc_read c in wait_ack 100 ack c.

(** [while (inportb(0x64) & 2);] *)
Fixpoint input_empty (fuel : nat) c : outcome C :=
match fuel with
| O => NoFuel
| S fuel =>
    let '(status, c) := inportb 0x64 c in
    if Z.land status 2 =? 0 then Ret c else input_empty fuel c
end.
End controller.

(** [arrive b c]: the controller [c] after the device has sent the byte [b]. *)
Class KeyboardPort (C : Type) `{Ports C} := {
  arrive : Z -> C -> C;
  arrive_read : forall b c, 0 <= b < 256 -> (inportb 0x60 (arrive b c)).1 = b;
  patience : nat;
  busy : C -> nat;
  busy_bound : forall c, (busy c <= patience)%nat;
  busy_poll : forall c, Z.land (inportb 0x64 c).1 2 <> 0 -> (busy (inportb 0x64 c).2 < busy c)%nat
}.

Lemma input_empty_total {C} `{KeyboardPort C} (fuel : nat) (c : C) :
  (patience < fuel)%nat -> exists c', input_empty fuel c = Ret c'.
Proof.
  intros Hf. assert (busy c < fuel)%nat as Hb by (pose proof (busy_bound c); lia). clear Hf.
  revert c Hb. induction fuel as [|fuel IH]; intros c Hb; [lia|]. cbn [input_empty].
  pose proof (busy_poll c) as Hd. destruct (inportb 0x64 c) as [v c1]. cbn [fst snd] in Hd.
  destruct (Z.eqb_spec (Z.land v 2) 0) as [|Hv]; [by eexists|]. apply IH. specialize (Hd Hv). lia.
Qed.

(** A controller that keeps the byte that arrived, is busy for two polls after a write, and
    remembers what was written. *)
Record script := Script { pending : Z; polls : bool * bool; written : list (Z * Z) }.

#[export] Instance script_ports : Ports script := {
  inportb p c :=
    if p =? 0x64 then
      match polls c with
      | (true, b) => (2, Script (pending c) (b, false) (written c))
      | (false, _) => (0, c)
      end
    else (pending c, c);
  outportb p v c := Script (pending c) (true, true) (written c ++ [(p, v)]);
  outanyb p c := c
}.

#[export] Instance script_port : KeyboardPort script.
Proof.
  refine {| arrive b c := Script b (polls c) (written c); patience := 2;
            busy c := match polls c with (true, true) => 2 | (true, false) => 1 | _ => 0 end%nat |}.
  - intros b c _. reflexivity.
  - intros [p [[] []] w]; cbn; lia.
  - intros [p [[] []] w]; cbn; (lia || (intros E; by contradict E)).
Defined.
