(* ===== verification/Keyboard.v ===== *)
(** * Keyboard: from scan codes to the characters a program reads (kernel/driver/ps2/keyboard.c)

    [keyboard_handler] is the handler of the keyboard's interrupt; its variables are the fields of
    [kbd], with the ports of the controller and the state of the streams, of which it writes the
    global [_stdin].  [count] and [key_buffer] of the source are never read.  A program reads the
    stream with [fgetc] of Files.  The abstract keyboard has two bits, shift held and caps
    lock on; [key_event] gives the text of one movement of a key. *)
From S2P Require Import Prelude KString Bytes Files Ps2.

Definition ESC : Z := 0x1B.
Definition LEFT_BRACKET : Z := 91.
Definition SEQUENCE : Z := 65.
Definition KEY_F1 : Z := 0x3B.
Definition UP : Z := 0x48.
Definition LEFT : Z := 0x4B.
Definition DOWN : Z := 0x50.
Definition RIGHT : Z := 0x4D.

(** The two maps; the entries after the space are 0. *)
Definition ascii_minusculas : list Z :=
  [0; ESC; 49; 50; 51; 52; 53; 54; 55; 56; 57; 48; 45; 61; 8;
   9; 113; 119; 101; 114; 116; 121; 117; 105; 111; 112; 91; 93; 10;
   0; 97; 115; 100; 102; 103; 104; 106; 107; 108; 59; 39; 96;
   0; 92; 122; 120; 99; 118; 98; 110; 109; 44; 46; 47; 0; 0; 0; 32].

Definition ascii_maiusculas : list Z :=
  [0; ESC; 33; 64; 35; 36; 37; 94; 38; 42; 40; 41; 95; 43; 8;
   9; 81; 87; 69; 82; 84; 89; 85; 73; 79; 80; 123; 125; 10;
   0; 65; 83; 68; 70; 71; 72; 74; 75; 76; 58; 34; 126;
   0; 124; 90; 88; 67; 86; 66; 78; 77; 60; 62; 63; 0; 0; 0; 32].

Definition key_char (map : list Z) (scancode : Z) : Z := nth (Z.to_nat scancode) map 0.

Record kbd (H C : Type) := Kbd {
  shift : Z;
  caps_lock : Z;
  led_status : Z;
  scaps : Z;
  keyboard_charset : Z;
  kbd_irq_ack : Z;
  _stdin : Z;
  ports : C;
  streams : sys H
}.
Arguments Kbd {H C}.
Arguments shift {H C}.
Arguments caps_lock {H C}.
Arguments led_status {H C}.
Arguments scaps {H C}.
Arguments keyboard_charset {H C}.
Arguments kbd_irq_ack {H C}.
Arguments _stdin {H C}.
Arguments ports {H C}.
Arguments streams {H C}.

Section handler.
Context {H C : Type} `{Allocator H} `{Ports C}.
Implicit Types (k : kbd H C) (scancode status : Z).

Definition set_shift v k := Kbd v (caps_lock k) (led_status k) (scaps k) (keyboard_charset k) (kbd_irq_ack k) (_stdin k) (ports k) (streams k).
Definition set_caps_lock v k := Kbd (shift k) v (led_status k) (scaps k) (keyboard_charset k) (kbd_irq_ack k) (_stdin k) (ports k) (streams k).
Definition set_led_status v k := Kbd (shift k) (caps_lock k) v (scaps k) (keyboard_charset k) (kbd_irq_ack k) (_stdin k) (ports k) (streams k).
Definition set_scaps v k := Kbd (shift k) (caps_lock k) (led_status k) v (keyboard_charset k) (kbd_irq_ack k) (_stdin k) (ports k) (streams k).
Definition set_charset v k := Kbd (shift k) (caps_lock k) (led_status k) (scaps k) v (kbd_irq_ack k) (_stdin k) (ports k) (streams k).
Definition set_irq_ack v k := Kbd (shift k) (caps_lock k) (led_status k) (scaps k) (keyboard_charset k) v (_stdin k) (ports k) (streams k).
Definition set_ports (c : C) k := Kbd (shift k) (caps_lock k) (led_status k) (scaps k) (keyboard_charset k) (kbd_irq_ack k) (_stdin k) c (streams k).
Definition set_streams (s : sys H) k := Kbd (shift k) (caps_lock k) (led_status k) (scaps k) (keyboard_charset k) (kbd_irq_ack k) (_stdin k) (ports k) s.

Definition kbd_led_handling (fuel : nat) status k : outcome (kbd H C) :=
c ← input_empty fuel (ports k);
c ← input_empty fuel (outportb 0x60 0xED c);
Ret (set_ports (outportb 0x60 status c) k).

(** [fputc(ch, _stdin)] *)
Definition putc ch k : outcome (kbd H C) :=
'(_, s) ← fputc 1 ch (_stdin k) (streams k);
Ret (set_streams s k).

Definition put_sequence last k : outcome (kbd H C) :=
k ← putc ESC k;
k ← putc LEFT_BRACKET k;
putc last k.

(** A key was let go, or it is the key of the numeric lock. *)
Definition key_released (fuel : nat) scancode k : outcome (kbd H C) :=
let k := if scancode =? 0xE0 then set_shift 0 (set_scaps (s32 (scaps k + 1)) k) else set_scaps 0 k in
if Z.land scancode 0x7F =? 0x3A then
  let k := if caps_lock k =? 1 then set_caps_lock 0 k else set_caps_lock 1 k in
  let k := set_led_status (u8 (Z.land (led_status k) (Z.shiftl (Z.lnot 1) 2))) k in
  let k := set_led_status (u8 (Z.lor (led_status k) (Z.shiftl (caps_lock k) 2))) k in
  kbd_led_handling fuel (led_status k) k
else Ret k.

Definition key_pressed scancode k : outcome (kbd H C) :=
if scaps k >? 0 then
  let k := set_scaps 0 k in
  if scancode =? UP then put_sequence SEQUENCE k
  else if scancode =? DOWN then put_sequence (SEQUENCE + 1) k
  else if scancode =? RIGHT then put_sequence (SEQUENCE + 2) k
  else if scancode =? LEFT then put_sequence (SEQUENCE + 3) k
  else Ret k
else if (shift k =? 1) || (caps_lock k =? 1) then Ret (set_charset (u8 (key_char ascii_maiusculas scancode)) k)
else Ret (set_charset (u8 (key_char ascii_minusculas scancode)) k).

Definition keyboard_handler (fuel : nat) k : outcome (kbd H C) :=
let '(scancode, c) := inportb 0x60 (ports k) in
let k := set_ports c k in
if scancode =? 0xFA then Ret (set_irq_ack 1 k)
else if scancode =? KEY_F1 then Ret (set_scaps 0 k)
else if (Z.land scancode 0x80 =? 0) && ((scancode =? 0x2A) || (scancode =? 0x36)) then
  Ret (set_scaps 0 (set_shift 1 k))
else
  let k := if negb (Z.land scancode 0x80 =? 0) && ((scancode =? 0xAA) || (scancode =? 0xB6))
           then set_shift 0 k else k in
  k ← (if negb (Z.land scancode 0x80 =? 0) || (scancode =? 0x45) then key_released fuel scancode k
       else key_pressed scancode k);
  k ← (if negb (Z.land (keyboard_charset k) 0xff =? 0) then putc (Z.land (keyboard_charset k) 0xff) k else Ret k);
  Ret (set_charset 0 k).

(** ** Installation *)

Definition keyboard_read (c : C) : Z * C := inportb 0x60 (kbdc_wait 0 c).

Definition keyboard_write (write : Z) (c : C) : C := outportb 0x60 write (kbdc_wait 1 c).

(** 0xAA is success and 0xFC failure; the command is sent again after anything else. *)
Fixpoint KEYBOARD_BAT_TEST (fuel : nat) (c : C) : outcome (Z * C) :=
match fuel with
| O => NoFuel
| S fuel =>
    let '(val, c) := keyboard_read c in
    if val =? 0xAA then Ret (0, c)
    else if val =? 0xFC then Ret (-1, c)
    else KEYBOARD_BAT_TEST fuel (keyboard_write 0xFE c)
end.

(** [while (!(inportb(0x64) & 1));] *)
Fixpoint output_full (fuel : nat) (c : C) : outcome C :=
match fuel with
| O => NoFuel
| S fuel =>
    let '(status, c) := inportb 0x64 c in
    if negb (Z.land status 1 =? 0) then Ret c else output_full fuel c
end.

(** Reads until one is an acknowledgement or a request to send again. *)
Fixpoint command_answer (fuel : nat) (c : C) : outcome C :=
match fuel with
| O => NoFuel
| S fuel =>
    let '(answer, c) := inportb 0x60 c in
    if (answer =? 0xFA) || (answer =? 0xFE) then Ret c else command_answer fuel c
end.

Definition kbd_set_command (fuel : nat) (command val : Z) (c : C) : outcome C :=
c ← input_empty fuel c;
c ← input_empty fuel (outportb 0x60 command c);
c ← output_full fuel (outportb 0x60 val c);
command_answer fuel c.

(** The interrupts that come between two looks at the flag are [irqs]; the text of a timeout is left out. *)
Fixpoint poll_irq_ack (n : nat) (irqs : kbd H C -> outcome (kbd H C)) k : outcome (Z * kbd H C) :=
match n with
| O => Ret (-1, k)
| S n => if negb (kbd_irq_ack k =? 0) then Ret (0, set_irq_ack 0 k) else k ← irqs k; poll_irq_ack n irqs k
end.

Definition kbd_wait_irq_ack (irqs : kbd H C -> outcome (kbd H C)) k : outcome (Z * kbd H C) :=
poll_irq_ack (Z.to_nat 10000000) irqs (set_irq_ack 0 k).

(** The handler is entered in the table of vectors; it is what [irqs] runs. *)
Definition keyboard_install (fuel : nat) (irqs : kbd H C -> outcome (kbd H C)) k : outcome (kbd H C) :=
let k := set_led_status 0 (set_scaps 0 (set_caps_lock 0 (set_shift 0 (set_charset 0 k)))) in
c ← kbd_set_command fuel 0xF3 0 (ports k);
'(_, k) ← kbd_wait_irq_ack irqs (set_ports c k);
Ret k.

(** The program at the other end of the stream reads a character. *)
Definition getc (read_sector : disk) k : outcome (Z * kbd H C) :=
'(r, s) ← fgetc read_sector (_stdin k) (streams k);
Ret (r, set_streams s k).
End handler.

(** ** The stream of the standard input as a queue

    Offsets after [n] characters: the counter wraps only when the next one comes. *)
Definition ring1 (n : Z) : Z := if n =? 0 then 0 else (n - 1) mod BUFSIZ + 1.

Section queue.
Context {H : Type} `{Allocator H} (read_sector : disk).
Implicit Types (s : sys H) (fp r : Z) (text : list Z).

(** [text] was put into the stream at [fp], and [r] characters of it were read. *)
Definition stdin_rep s fp text r : Prop :=
exists f, files s !! fp = Some f /\ flags f = 2 /\ level f = 0 /\ bsize f = BUFSIZ /\
  off f = ring1 (zlen text) /\ off2 f = ring1 r /\ fsize f = Z.min (zlen text) BUFSIZ /\
  0 <= r <= zlen text /\ zlen text < r + BUFSIZ /\
  forall (i : nat) c, zlen text - BUFSIZ <= Z.of_nat i -> text !! i = Some c ->
    (bytes_of s)⟦buffer f + Z.of_nat i mod BUFSIZ⟧ = c.

Lemma ring1_range n : 0 <= n -> 0 <= ring1 n <= BUFSIZ.
Proof. intros Hn. unfold ring1, BUFSIZ. destruct (Z.eqb_spec n 0); [lia|]. pose proof (Z.mod_pos_bound (n - 1) 8192). lia. Qed.

(** The cell of the next character, after the offset was wrapped. *)
Lemma ring1_wrap n : 0 <= n -> (if ring1 n >=? BUFSIZ then 0 else ring1 n) = n mod BUFSIZ.
Proof.
intros Hn. unfold ring1, BUFSIZ. destruct (Z.eqb_spec n 0) as [->|]; [done|].
destruct (Z.geb_spec ((n - 1) mod 8192 + 1) 8192); Z.div_mod_to_equations; lia.
Qed.

Lemma ring1_S n : 0 <= n -> ring1 (n + 1) = n mod BUFSIZ + 1.
Proof. intros Hn. unfold ring1. destruct (Z.eqb_spec (n + 1) 0); [lia|]. by replace (n + 1 - 1) with n by lia. Qed.

Lemma stdin_put s fp text r c :
stdin_rep s fp text r -> 0 <= c < 256 -> zlen text + 1 < r + BUFSIZ ->
exists s', fputc 1 c fp s = Ret (c, s') /\ stdin_rep s' fp (text ++ [c]) r.
Proof.
intros (f & Hf & Hfl & Hl & Hb & Ho & Ho2 & Hsz & Hr & Hfull & Hc) Hc8 Hroom.
pose proof (ring1_range (zlen text) ltac:(lia)) as Hrg.
unfold fputc, std_putc, get_file. rewrite Hf. cbn [mbind outcome_bind]. rewrite Hfl. cbn [Z.eqb orb Pos.eqb].
set (g := if (u32 (level f) >=? bsize f) || (off f >=? bsize f) then f |> set_off 0 |> set_level 0 else f).
assert (Hg : flags g = 2 /\ level g = 0 /\ bsize g = BUFSIZ /\ off g = zlen text mod BUFSIZ /\ off2 g = ring1 r /\
  fsize g = Z.min (zlen text) BUFSIZ /\ buffer g = buffer f).
{ rewrite <- ring1_wrap by lia. unfold g. rewrite Hl, Hb, Ho. change (u32 0 >=? BUFSIZ) with false. cbn [orb].
  destruct (ring1 (zlen text) >=? BUFSIZ); cbn; auto with lia. }
clearbody g. destruct Hg as (Gfl & Gl & Gb & Go & Go2 & Gsz & Gbuf).
rewrite Gfl. cbn [mbind outcome_bind Z.eqb Pos.eqb]. rewrite files_put. cbn [mbind outcome_bind]. rewrite Gfl. cbn [Z.eqb Pos.eqb].
pose proof (Z.mod_pos_bound (zlen text) BUFSIZ ltac:(done)) as Hmod.
eexists. split; [reflexivity|].
eexists. split; [apply files_put|].
rewrite length_app. cbn [length]. replace (Z.of_nat (length text + 1)) with (zlen text + 1) by lia.
assert (Hsmall : u32 (off g + 1) = ring1 (zlen text + 1)).
{ rewrite Go, ring1_S by lia. apply u32_small. unfold BUFSIZ in *. lia. }
assert (Hcells : forall (i : nat) d, zlen text + 1 - BUFSIZ <= Z.of_nat i -> (text ++ [c]) !! i = Some d ->
  (bytes_of s)⟦buffer f + zlen text mod BUFSIZ := c⟧⟦buffer f + Z.of_nat i mod BUFSIZ⟧ = d).
{ intros i d Hi [Hd|[Hge Hd]]%lookup_app_Some.
  - pose proof (lookup_lt_Some _ _ _ Hd). rewrite rd_wr_ne; [apply Hc; [lia|done]|].
    unfold BUFSIZ in *. Z.div_mod_to_equations. lia.
  - apply list_lookup_singleton_Some in Hd as [Hd <-]. replace (Z.of_nat i) with (zlen text) by lia. apply rd_wr_eq. }
destruct (_ >? _) eqn:Hgt; cbn -[wr] in Hgt |- *; rewrite Hsmall in *.
all: rewrite ring1_S in Hgt by lia; rewrite Gsz in *; rewrite Gbuf, Go, u8_small by done.
all: (split; [done|]; split; [done|]; split; [done|]; split; [done|]; split; [done|]).
- split; [rewrite u32_small; unfold BUFSIZ in *; Z.div_mod_to_equations; lia|]. split; [lia|]. split; [lia|]. exact Hcells.
- split; [unfold BUFSIZ in *; Z.div_mod_to_equations; lia|]. split; [lia|]. split; [lia|]. exact Hcells.
Qed.

(** The stream hands out the cell at [r]; with everything read it would wait, were it not for the wrap. *)
Lemma stdin_get s fp text r c :
stdin_rep s fp text r -> text !! Z.to_nat r = Some c ->
exists s', fgetc read_sector fp s = Ret (c, s') /\ stdin_rep s' fp text (r + 1).
Proof.
intros (f & Hf & Hfl & Hl & Hb & Ho & Ho2 & Hsz & Hr & Hfull & Hc) Hrc.
pose proof (lookup_lt_Some _ _ _ Hrc) as Hlt.
unfold fgetc, std_getc, get_file. rewrite Hf. cbn [mbind outcome_bind]. rewrite Hfl. cbn [Z.eqb orb Pos.eqb].
rewrite Hsz. destruct (Z.eqb_spec (Z.min (zlen text) BUFSIZ) 0); [unfold BUFSIZ in *; lia|].
set (g := if off2 f >=? bsize f then set_off2 0 f else f).
assert (Hg : flags g = 2 /\ level g = 0 /\ bsize g = BUFSIZ /\ off g = ring1 (zlen text) /\ off2 g = r mod BUFSIZ /\
  fsize g = Z.min (zlen text) BUFSIZ /\ buffer g = buffer f).
{ rewrite <- (ring1_wrap r) by lia. unfold g. rewrite Hb, Ho2.
  destruct (ring1 r >=? BUFSIZ); cbn; auto with lia. }
clearbody g. destruct Hg as (Gfl & Gl & Gb & Go & Go2 & Gsz & Gbuf).
rewrite Gfl. cbn [Z.eqb Pos.eqb]. rewrite both_eqb, Go, Go2.
assert (ring1 (zlen text) <> r mod BUFSIZ) as Hne.
{ unfold ring1, BUFSIZ in *. destruct (Z.eqb_spec (zlen text) 0); Z.div_mod_to_equations; lia. }
rewrite (proj2 (Z.eqb_neq _ _) Hne).
eexists. split.
- f_equal. f_equal. cbn. rewrite Gbuf, <- (Hc (Z.to_nat r) c), Z2Nat.id by (done || lia). done.
- eexists. split; [apply files_put|]. cbn. rewrite Go2.
  rewrite <- (ring1_S r) by lia. pose proof (ring1_range (r + 1) ltac:(lia)).
  rewrite u32_small by (unfold BUFSIZ in *; lia). rewrite Gbuf. split_and!; try done; lia.
Qed.
End queue.

(** ** What is typed

    A movement of a key: [Down] and [Up] with its scan code, [DownE] and [UpE] for the keys
    whose code has the prefix 0xE0. *)
Inductive event := Down (c : Z) | Up (c : Z) | DownE (c : Z) | UpE (c : Z).

Definition code (e : event) : Z := match e with Down c | Up c | DownE c | UpE c => c end.

(** The bytes the keyboard sends for it. *)
Definition codes (e : event) : list Z :=
  match e with
  | Down c => [c]
  | Up c => [c + 0x80]
  | DownE c => [0xE0; c]
  | UpE c => [0xE0; c + 0x80]
  end.

(** Scan codes of set 1 end well before 0x60. *)
Definition key_ok (e : event) : Prop := 0 < code e < 0x60.

Record keys := Keys { held : bool; caps : bool }.

Definition shift_key (c : Z) : bool := (c =? 0x2A) || (c =? 0x36).
Definition silent (c : Z) : bool := shift_key c || (c =? KEY_F1) || (c =? 0x45).

(** The character of a key; a key without one has none. *)
Definition char_of (upper : bool) (c : Z) : list Z :=
  let ch := key_char (if upper then ascii_maiusculas else ascii_minusculas) c in
  if ch =? 0 then [] else [ch].

(** The sequences ESC [ A to ESC [ D of the four arrows. *)
Definition arrow (c : Z) : list Z :=
  if c =? UP then [ESC; LEFT_BRACKET; 65]
  else if c =? DOWN then [ESC; LEFT_BRACKET; 66]
  else if c =? RIGHT then [ESC; LEFT_BRACKET; 67]
  else if c =? LEFT then [ESC; LEFT_BRACKET; 68]
  else [].

(** The keyboard after a movement and the text it types.  A key with the prefix takes the
    shift away; caps lock changes when its key is let go. *)
Definition key_event (q : keys) (e : event) : keys * list Z :=
  match e with
  | Down c => (Keys (held q || shift_key c) (caps q),
               if silent c then [] else char_of (held q || caps q) c)
  | Up c => (Keys (held q && negb (shift_key c)) (xorb (caps q) (c =? 0x3A)), [])
  | DownE c => (Keys (shift_key c) (caps q), if silent c then [] else arrow c)
  | UpE c => (Keys false (xorb (caps q) (c =? 0x3A)), [])
  end.

Fixpoint typed (q : keys) (es : list event) : list Z :=
  match es with
  | [] => []
  | e :: es => (key_event q e).2 ++ typed (key_event q e).1 es
  end.

(** One byte: the keyboard with the prefix pending or not. *)
Definition scan (q : keys) (pre : bool) (b : Z) : keys * bool * list Z :=
  if b =? KEY_F1 then (q, false, [])
  else if (Z.land b 0x80 =? 0) && shift_key b then (Keys true (caps q), false, [])
  else
    let h := held q && negb ((b =? 0xAA) || (b =? 0xB6)) in
    if negb (Z.land b 0x80 =? 0) || (b =? 0x45) then
      (Keys (if b =? 0xE0 then false else h) (xorb (caps q) (Z.land b 0x7F =? 0x3A)), b =? 0xE0, [])
    else (Keys h (caps q), false, if pre then arrow b else char_of (h || caps q) b).

Fixpoint scans (q : keys) (pre : bool) (bs : list Z) : keys * bool * list Z :=
  match bs with
  | [] => (q, pre, [])
  | b :: bs => let '(q, pre, t) := scan q pre b in let '(q, pre, u) := scans q pre bs in (q, pre, t ++ u)
  end.

#[export] Instance keys_dec : EqDecision keys.
Proof. solve_decision. Defined.

Lemma scans_event q e : key_ok e -> scans q false (codes e) = ((key_event q e).1, false, (key_event q e).2).
Proof.
  intros Hc. unfold key_ok in Hc. revert Hc.
  destruct q as [[] []], e as [c|c|c|c]; cbn [code]; intros Hc; below 0x60%nat c.
Qed.

(** ** The handler *)
Section handling.
Context {H C : Type} `{Allocator H} `{KeyboardPort C} (fuel : nat) (read_sector : disk).
Implicit Types (k : kbd H C) (q : keys) (text : list Z) (b r : Z).

(** The variables of the handler, between two interrupts. *)
Definition kbd_vars q (pre : bool) k : Prop :=
shift k = Z.b2z (held q) /\ caps_lock k = Z.b2z (caps q) /\ led_status k = 4 * Z.b2z (caps q) /\
scaps k = Z.b2z pre /\ keyboard_charset k = 0.

Definition kbd_rep q (pre : bool) text r k : Prop :=
kbd_vars q pre k /\ stdin_rep (streams k) (_stdin k) text r.

Lemma putc_spec text r k c :
stdin_rep (streams k) (_stdin k) text r -> 0 <= c < 256 -> zlen text + 1 < r + BUFSIZ ->
exists s, putc c k = Ret (set_streams s k) /\ stdin_rep s (_stdin k) (text ++ [c]) r.
Proof.
intros Hk Hc Hroom. destruct (stdin_put _ _ _ _ _ Hk Hc Hroom) as (s & E & Hs).
exists s. split; [|done]. unfold putc. by rewrite E.
Qed.

Lemma put_sequence_spec text r k c :
stdin_rep (streams k) (_stdin k) text r -> 0 <= c < 256 -> zlen text + 3 < r + BUFSIZ ->
exists s, put_sequence c k = Ret (set_streams s k) /\ stdin_rep s (_stdin k) (text ++ [ESC; LEFT_BRACKET; c]) r.
Proof.
intros Hk Hc Hroom. unfold put_sequence.
destruct (putc_spec text r k ESC) as (s1 & E1 & Hs1); [done|done|lia|].
destruct (putc_spec (text ++ [ESC]) r (set_streams s1 k) LEFT_BRACKET) as (s2 & E2 & Hs2); [done|done|rewrite length_app; cbn; lia|].
destruct (putc_spec ((text ++ [ESC]) ++ [LEFT_BRACKET]) r (set_streams s2 (set_streams s1 k)) c) as (s3 & E3 & Hs3);
  [done|done|rewrite !length_app; cbn; lia|].
exists s3. rewrite E1. cbn [mbind outcome_bind]. rewrite E2. cbn [mbind outcome_bind]. rewrite E3.
split; [done|]. by rewrite <- !app_assoc in Hs3.
Qed.

Lemma kbd_led_handling_total status k :
(patience < fuel)%nat -> exists c, kbd_led_handling fuel status k = Ret (set_ports c k).
Proof.
intros Hf. unfold kbd_led_handling. destruct (input_empty_total fuel (ports k) Hf) as (c1 & ->). cbn [mbind outcome_bind].
destruct (input_empty_total fuel (outportb 0x60 0xED c1) Hf) as (c2 & ->). by eexists.
Qed.

Lemma char_of_byte (up : bool) c : 0 <= c < 0x80 -> 0 <= key_char (if up then ascii_maiusculas else ascii_minusculas) c < 256.
Proof.
intros Hc. destruct up; below 0x80%nat c.
Qed.

(** A key was pressed that stands for a character or, with the prefix, for a sequence. *)
Lemma key_pressed_spec q pre text r k b :
kbd_rep q pre text r k -> 0 <= b < 0x80 ->
let t := if pre then arrow b else char_of (held q || caps q) b in
zlen text + zlen t < r + BUFSIZ ->
exists k', (k ← key_pressed b k;
            k ← (if negb (Z.land (keyboard_charset k) 0xff =? 0) then putc (Z.land (keyboard_charset k) 0xff) k else Ret k);
            Ret (set_charset 0 k)) = Ret k' /\
  kbd_rep q false (text ++ t) r k' /\ _stdin k' = _stdin k.
Proof.
intros [(Hsh & Hcl & Hled & Hsc & Hcs) Hstd] Hb t Hroom. unfold key_pressed. rewrite Hsc, Hsh, Hcl.
destruct pre; cbn [Z.b2z].
- change (1 >? 0) with true. cbv iota. unfold t, arrow in *. clear t.
  destruct (b =? UP), (b =? DOWN), (b =? RIGHT), (b =? LEFT);
    try (match goal with
    | |- context [put_sequence ?c ?kk] =>
        destruct (put_sequence_spec text r kk c) as (s & Es & Hs); [exact Hstd|done|cbn in Hroom; lia|]; rewrite Es
    end); cbn [mbind outcome_bind keyboard_charset set_scaps set_streams]; rewrite Hcs; cbn [Z.land Z.eqb negb mbind outcome_bind].
  all: eexists; (split; [reflexivity|]); split; [|reflexivity].
  all: split; [split_and!; done|].
  all: try exact Hs.
  by rewrite app_nil_r.
- change (0 >? 0) with false. cbv iota.
  pose proof (char_of_byte (held q || caps q) b Hb) as Hch.
  set (up := held q || caps q) in *. replace ((Z.b2z (held q) =? 1) || (Z.b2z (caps q) =? 1)) with up by (by unfold up; destruct (held q), (caps q)).
  replace (if up then Ret _ else Ret _) with
    (Ret (set_charset (u8 (key_char (if up then ascii_maiusculas else ascii_minusculas) b)) k)) by (by destruct up).
  unfold t, char_of in *. clear t.
  set (ch := key_char (if up then ascii_maiusculas else ascii_minusculas) b) in *. clearbody ch.
  cbn [mbind outcome_bind keyboard_charset set_charset]. rewrite u8_small, land_255_small by done.
  destruct (Z.eqb_spec ch 0) as [E0|Hne]; cbn [negb].
  + eexists. split; [reflexivity|]. split; [|reflexivity]. split; [split_and!; done|]. by rewrite app_nil_r.
  + destruct (putc_spec text r (set_charset ch k) ch) as (s & Es & Hs); [exact Hstd|done|cbn in Hroom; lia|]. rewrite Es.
    eexists. split; [reflexivity|]. split; [|reflexivity]. split; [split_and!; done|exact Hs].
Qed.

(** A key was let go: caps lock may change, and the lamps follow it. *)
Lemma key_released_spec q (pre : bool) k b :
(patience < fuel)%nat -> kbd_vars q pre k -> pre && (b =? 0xE0) = false ->
exists k', key_released fuel b k = Ret k' /\
  kbd_vars (Keys (if b =? 0xE0 then false else held q) (xorb (caps q) (Z.land b 0x7F =? 0x3A))) (b =? 0xE0) k' /\
  streams k' = streams k /\ _stdin k' = _stdin k.
Proof.
intros Hf (Hsh & Hcl & Hled & Hsc & Hcs) Hpre. unfold key_released.
set (k1 := if b =? 0xE0 then _ else _).
assert (Hk1 : kbd_vars (Keys (if b =? 0xE0 then false else held q) (caps q)) (b =? 0xE0) k1 /\
  streams k1 = streams k /\ _stdin k1 = _stdin k).
{ unfold k1. destruct (b =? 0xE0).
  - rewrite andb_true_r in Hpre. subst pre. split; [|done]. split_and!; try done. cbn. by rewrite Hsc.
  - split; [|done]. by split_and!. }
clearbody k1. destruct Hk1 as ((Ksh & Kcl & Kled & Ksc & Kcs) & Kst & Kin). clear Hsh Hcl Hled Hsc Hcs.
cbn [held caps] in *. destruct (Z.land b 0x7F =? 0x3A).
- rewrite Kcl. set (k2 := if Z.b2z (caps q) =? 1 then _ else _).
  set (k3 := set_led_status _ (set_led_status _ k2)).
  assert (Hk3 : kbd_vars (Keys (if b =? 0xE0 then false else held q) (xorb (caps q) true)) (b =? 0xE0) k3 /\
    streams k3 = streams k1 /\ _stdin k3 = _stdin k1).
  { unfold k3, k2. destruct q as [h []]; cbn [Z.b2z Z.eqb Pos.eqb caps held] in *; cbn; rewrite Kled;
      (split; [|done]); split_and!; try done. }
  destruct Hk3 as (K3 & S3 & I3). clearbody k3.
  destruct (kbd_led_handling_total (led_status k3) k3 Hf) as (c & ->).
  eexists. split; [reflexivity|]. split; [exact K3|]. cbn. by rewrite S3, I3.
- eexists. split; [reflexivity|]. rewrite xorb_false_r. by split_and!.
Qed.

(** One interrupt does what [scan] says of its byte. *)
Lemma keyboard_handler_spec q pre text r k b :
(patience < fuel)%nat -> kbd_rep q pre text r k -> (inportb 0x60 (ports k)).1 = b ->
0 <= b < 256 -> b <> 0xFA -> pre && (b =? 0xE0) = false ->
zlen text + zlen (scan q pre b).2 < r + BUFSIZ ->
exists k', keyboard_handler fuel k = Ret k' /\
  kbd_rep (scan q pre b).1.1 (scan q pre b).1.2 (text ++ (scan q pre b).2) r k' /\ _stdin k' = _stdin k.
Proof.
intros Hf [Hv Hstd] Hin Hb Hack Hpre Hroom. unfold keyboard_handler.
destruct (inportb 0x60 (ports k)) as [b' c]. cbn [fst] in Hin. subst b'.
assert (Hv0 : kbd_vars q pre (set_ports c k)) by exact Hv.
assert (Hs0 : stdin_rep (streams (set_ports c k)) (_stdin (set_ports c k)) text r) by exact Hstd.
change (_stdin k) with (_stdin (set_ports c k)). set (k0 := set_ports c k) in *. clearbody k0. clear Hv Hstd k.
destruct Hv0 as (Hsh & Hcl & Hled & Hsc & Hcs).
rewrite (proj2 (Z.eqb_neq _ _) Hack). unfold scan in *.
destruct (b =? KEY_F1).
{ eexists. split; [reflexivity|]. split; [|reflexivity]. rewrite app_nil_r. by split; [split_and!|]. }
fold (shift_key b). destruct ((Z.land b 0x80 =? 0) && shift_key b) eqn:Es.
{ eexists. split; [reflexivity|]. split; [|reflexivity]. rewrite app_nil_r. by split; [split_and!|]. }
set (up := (b =? 0xAA) || (b =? 0xB6)) in *.
set (k1 := if negb (Z.land b 0x80 =? 0) && up then set_shift 0 k0 else k0).
assert (Hk1 : kbd_rep (Keys (held q && negb up) (caps q)) pre text r k1 /\ _stdin k1 = _stdin k0).
{ unfold k1. assert (up = true -> (Z.land b 0x80 =? 0) = false) as Hup.
  { unfold up. intros [->%Z.eqb_eq| ->%Z.eqb_eq]%orb_true_iff; done. }
  destruct up.
  - rewrite (Hup eq_refl), andb_false_r. by split; [split; [split_and!|]|].
  - rewrite andb_false_r, andb_true_r. by split; [split; [split_and!|]|]. }
clearbody k1. destruct Hk1 as [Hk1 Hi1]. cbn [fst snd] in *.
destruct (negb (Z.land b 0x80 =? 0) || (b =? 0x45)) eqn:Er.
- destruct Hk1 as [Hv1 Hs1]. destruct (key_released_spec _ _ k1 b Hf Hv1 Hpre) as (k2 & E2 & Hv2 & St2 & In2).
  rewrite E2. cbn [mbind outcome_bind]. pose proof Hv2 as (_ & _ & _ & _ & Hcs2). rewrite Hcs2. cbn [Z.land Z.eqb negb mbind outcome_bind].
  eexists. split; [reflexivity|]. cbn [fst snd]. rewrite app_nil_r. split; [|cbn; congruence]. split.
  + destruct Hv2 as (? & ? & ? & ? & ?). by split_and!.
  + cbn. by rewrite St2, In2.
- apply orb_false_iff in Er as [Er _]. apply negb_false_iff, Z.eqb_eq in Er.
  assert (Hb7 : 0 <= b < 0x80).
  { split; [lia|]. destruct (Z.ltb_spec b 0x80); [done|exfalso].
    assert (Z.testbit b 7 = true) as Ht.
    { apply Z.b2z_inj. rewrite Z.testbit_spec' by lia. cbn. change (2 ^ 7) with 128. Z.div_mod_to_equations. lia. }
    assert (Z.testbit (Z.land b 0x80) 7 = true) as H7 by (by rewrite Z.land_spec, Ht).
    rewrite Er in H7. done. }
  destruct (key_pressed_spec _ _ _ _ k1 b Hk1 Hb7 Hroom) as (k2 & E2 & Hk2 & Hi2).
  exists k2. split; [exact E2|]. split; [exact Hk2|congruence].
Qed.

(** ** Keys and reads in any order *)

(** The interrupts of the bytes [bs], one after the other. *)
Fixpoint deliver (bs : list Z) k : outcome (kbd H C) :=
match bs with
| [] => Ret k
| b :: bs => k ← keyboard_handler fuel (set_ports (arrive b (ports k)) k); deliver bs k
end.

Lemma deliver_cons q pre text r k b bs :
(patience < fuel)%nat -> kbd_rep q pre text r k -> 0 <= b < 256 -> b <> 0xFA -> pre && (b =? 0xE0) = false ->
zlen text + zlen (scan q pre b).2 < r + BUFSIZ ->
exists k', deliver (b :: bs) k = deliver bs k' /\
  kbd_rep (scan q pre b).1.1 (scan q pre b).1.2 (text ++ (scan q pre b).2) r k'.
Proof.
intros Hf Hk Hb Hack Hpre Hroom. cbn [deliver].
destruct (keyboard_handler_spec q pre text r (set_ports (arrive b (ports k)) k) b) as (k' & E & Hk' & _); try done.
- by apply arrive_read.
- exists k'. rewrite E. by split.
Qed.

Lemma deliver_event q text r k e :
(patience < fuel)%nat -> kbd_rep q false text r k -> key_ok e ->
zlen text + zlen (key_event q e).2 < r + BUFSIZ ->
exists k', deliver (codes e) k = Ret k' /\ kbd_rep (key_event q e).1 false (text ++ (key_event q e).2) r k'.
Proof.
intros Hf Hk He Hroom. pose proof (scans_event q e He) as Hs. unfold key_ok in He.
assert (Hone : forall q1 pre b k1 q2 t u, kbd_rep q1 pre t r k1 -> scan q1 pre b = (q2, false, u) -> 0 <= b < 256 ->
  b <> 0xFA -> b <> 0xE0 -> zlen t + zlen u < r + BUFSIZ ->
  exists k', deliver [b] k1 = Ret k' /\ kbd_rep q2 false (t ++ u) r k').
{ intros q1 pre b k1 q2 t u Hk1 Eb Hb Ha Hn Hr.
  destruct (deliver_cons q1 pre t r k1 b [] Hf Hk1 Hb Ha) as (k' & E & Hk');
    [by rewrite (proj2 (Z.eqb_neq _ _) Hn), andb_false_r|by rewrite Eb|].
  exists k'. rewrite Eb in Hk'. by split. }
assert (Htwo : forall c q2 u, scans q false [0xE0; c] = (q2, false, u) -> 0 <= c < 256 -> c <> 0xFA -> c <> 0xE0 ->
  zlen text + zlen u < r + BUFSIZ -> exists k', deliver [0xE0; c] k = Ret k' /\ kbd_rep q2 false (text ++ u) r k').
{ intros c q2 u Eu Hc Ha Hn Hr. cbn [scans] in Eu.
  destruct (deliver_cons q false text r k 0xE0 [c] Hf Hk) as (k1 & Ed & Hk1); [done..|change (zlen (scan q false 0xE0).2) with 0; lia|]. rewrite Ed.
  change (scan q false 0xE0) with (Keys false (xorb (caps q) false), true, @nil Z) in *. cbn [fst snd] in Hk1. cbv beta iota in Eu.
  destruct (scan _ true c) as [[q3 p3] t3] eqn:E3. rewrite !app_nil_r in *. injection Eu as -> -> <-.
  by apply (Hone _ _ _ _ _ _ _ Hk1 E3). }
destruct e as [c|c|c|c]; cbn [code codes] in *; [| |apply (Htwo _ _ _ Hs); lia || done..].
all: cbn [scans] in Hs; match type of Hs with context [scan ?q0 false ?b] => destruct (scan q0 false b) as [[q1 p1] t1] eqn:E1 end;
  rewrite app_nil_r in Hs; injection Hs as -> -> ->; apply (Hone _ _ _ _ _ _ _ Hk E1); lia || done.
Qed.

Inductive action := Press (e : event) | Getc.

Fixpoint run (acts : list action) k : outcome (list Z * kbd H C) :=
match acts with
| [] => Ret ([], k)
| Press e :: acts => k ← deliver (codes e) k; run acts k
| Getc :: acts =>
    '(c, k) ← getc read_sector k;
    '(l, k) ← run acts k;
    Ret (c :: l, k)
end.

Fixpoint presses (acts : list action) : list event :=
match acts with
| [] => []
| Press e :: acts => e :: presses acts
| Getc :: acts => presses acts
end.

Fixpoint reads (acts : list action) : nat :=
match acts with
| [] => O
| Press _ :: acts => reads acts
| Getc :: acts => S (reads acts)
end.

(** Of [n] characters typed, [r] were read: no read finds the stream empty, and what is
    not read yet stays below the length of the buffer. *)
Fixpoint fits q (n r : Z) (acts : list action) : Prop :=
match acts with
| [] => True
| Press e :: acts => n + zlen (key_event q e).2 < r + BUFSIZ /\ fits (key_event q e).1 (n + zlen (key_event q e).2) r acts
| Getc :: acts => r < n /\ fits q n (r + 1) acts
end.

Fixpoint after q (es : list event) : keys :=
match es with
| [] => q
| e :: es => after (key_event q e).1 es
end.

Lemma run_spec acts q text r k :
(patience < fuel)%nat -> kbd_rep q false text r k -> Forall key_ok (presses acts) -> fits q (zlen text) r acts ->
exists k', run acts k = Ret (take (reads acts) (drop (Z.to_nat r) (text ++ typed q (presses acts))), k') /\
  kbd_rep (after q (presses acts)) false (text ++ typed q (presses acts)) (r + Z.of_nat (reads acts)) k'.
Proof.
intros Hf. revert q text r k. induction acts as [|[e|] acts IH]; intros q text r k Hk Hok Hfit; cbn [run presses reads typed after fits] in *.
- exists k. rewrite Z.add_0_r, app_nil_r. split; [done|exact Hk].
- apply Forall_cons in Hok as [He Hok]. destruct Hfit as [Hroom Hfit].
  destruct (deliver_event q text r k e Hf Hk He Hroom) as (k1 & -> & Hk1). cbn [mbind outcome_bind].
  rewrite app_assoc. apply IH; [exact Hk1|exact Hok|]. by rewrite length_app, Nat2Z.inj_add.
- destruct Hfit as [Hlt Hfit]. destruct Hk as [Hv Hstd].
  assert (0 <= r) as Hr by (destruct Hstd as (? & _ & _ & _ & _ & _ & _ & _ & Hr & _); lia).
  destruct (lookup_lt_is_Some_2 text (Z.to_nat r) ltac:(lia)) as [c Hc].
  destruct (stdin_get read_sector _ _ _ _ c Hstd Hc) as (s & Es & Hs).
  unfold getc. rewrite Es. cbn [mbind outcome_bind].
  destruct (IH q text (r + 1) (set_streams s k)) as (k' & -> & Hk'); [by split|done|done|].
  cbn [mbind outcome_bind]. exists k'. split.
  + rewrite (drop_S (text ++ _) c (Z.to_nat r)) by (by apply lookup_app_l_Some). cbn [firstn].
    by replace (Z.to_nat (r + 1)) with (S (Z.to_nat r)) by lia.
  + by replace (r + Z.of_nat (S (reads acts))) with (r + 1 + Z.of_nat (reads acts)) by lia.
Qed.
End handling.

(** C12: what is typed is what programs read.  Take any sequence of movements of keys and of reads of
    [_stdin], starting on a new stream with no key held, in which no read comes before its
    character and fewer than BUFSIZ characters wait.  The interrupt handler, run once for each byte the
    keyboard sends, and [fgetc] all return; the reads give the text of the keys, in order and each character once:
    letters and signs by shift and caps lock, arrows as sequences, no character for a key that has none.  Afterwards the
    handler's variables stand for the keys held, with the lamp of caps lock lit exactly when it is on. *)
Theorem typed_text_read {H C : Type} `{Allocator H} `{KeyboardPort C} (fuel : nat) (read_sector : disk)
    (acts : list action) (k : kbd H C) :
  (patience < fuel)%nat ->
  kbd_rep (Keys false false) false [] 0 k ->
  Forall key_ok (presses acts) ->
  fits (Keys false false) 0 0 acts ->
  exists k', run fuel read_sector acts k = Ret (take (reads acts) (typed (Keys false false) (presses acts)), k') /\
    kbd_rep (after (Keys false false) (presses acts)) false (typed (Keys false false) (presses acts)) (Z.of_nat (reads acts)) k'.
Proof. intros Hf Hk Hok Hfit. exact (run_spec fuel read_sector acts _ [] 0 k Hf Hk Hok Hfit). Qed.

(** A keyboard on a new stream, and "Ab", an arrow, a digit with caps lock on, read as they are typed. *)
Definition ex_stream : FILE := zero |> set_bsize BUFSIZ |> set_buffer 0x2000 |> set_mode 2 |> set_flags 2.
Definition ex_kbd : kbd bump script :=
  Kbd 0 0 0 0 0 0 0x1000 (Script 0 (false, false) []) (Sys 0x9000 ∅ {[0x1000 := ex_stream]} 0).
Definition ex_acts : list action :=
  [Press (Down 0x2A); Press (Down 0x1E); Getc; Press (Up 0x1E); Press (Up 0x2A); Press (Down 0x30);
   Press (DownE 0x48); Getc; Getc; Press (Down 0x3A); Press (Up 0x3A); Press (Down 2); Getc; Getc; Getc].

Lemma typed_text_read_witness :
  exists k', run 3 ramp_disk ex_acts ex_kbd = Ret ([65; 98; ESC; LEFT_BRACKET; 65; 33], k') /\ led_status k' = 4.
Proof.
  destruct (typed_text_read 3 ramp_disk ex_acts ex_kbd) as (k' & E & (_ & _ & Hled & _) & _).
  - cbn. lia.
  - split; [by split_and!|]. exists ex_stream. split; [reflexivity|]. split_and!; try done.
  - cbn [presses ex_acts]. repeat (constructor; [unfold key_ok; cbn; lia|]). constructor.
  - vm_compute. repeat split.
  - exists k'. split; [exact E|exact Hled].
Defined.

(** C36: a read when everything typed was read.  Before the first character of all the stream answers
    end of file at once; after any other number of characters the program waits; but when the number is a multiple of
    BUFSIZ the reader's offset is wrapped and the writer's is not, so the read does not wait: it delivers
    the oldest of the last BUFSIZ characters again. *)
Theorem drained_stream_read {H : Type} `{Allocator H} (read_sector : disk) (s : sys H) (fp : Z) (text : list Z) :
  stdin_rep s fp text (zlen text) ->
  if decide (text = []) then fgetc read_sector fp s = Ret (EOF, s)
  else if decide (zlen text mod BUFSIZ = 0) then
    exists c s', text !! Z.to_nat (zlen text - BUFSIZ) = Some c /\ fgetc read_sector fp s = Ret (c, s')
  else fgetc read_sector fp s = Hang.
Proof.
  intros (f & Hf & Hfl & Hl & Hb & Ho & Ho2 & Hsz & _ & _ & Hc).
  unfold fgetc, std_getc, get_file. rewrite Hf. cbn [mbind outcome_bind]. rewrite Hfl. cbn [Z.eqb orb Pos.eqb].
  rewrite Hsz. destruct (decide (text = [])) as [->|Hne]; [done|].
  assert (0 < zlen text) as Hpos by (destruct text; cbn; [done|lia]).
  destruct (Z.eqb_spec (Z.min (zlen text) BUFSIZ) 0) as [E|_]; [unfold BUFSIZ in E; lia|].
  pose proof (ring1_wrap (zlen text) ltac:(lia)) as Hw. rewrite Hb, Ho2.
  destruct (decide (zlen text mod BUFSIZ = 0)) as [Hm|Hm].
  - assert (BUFSIZ <= zlen text) as Hge by (unfold BUFSIZ in *; Z.div_mod_to_equations; lia).
    assert (ring1 (zlen text) = BUFSIZ) as Er.
    { unfold ring1, BUFSIZ in *. destruct (Z.eqb_spec (zlen text) 0); [lia|]. Z.div_mod_to_equations. lia. }
    destruct (lookup_lt_is_Some_2 text (Z.to_nat (zlen text - BUFSIZ)) ltac:(unfold BUFSIZ in *; lia)) as [c Hcc].
    exists c. rewrite Er. change (BUFSIZ >=? BUFSIZ) with true. cbv iota.
    replace (flags (set_off2 0 f)) with 2 by done. cbn [Z.eqb Pos.eqb].
    rewrite both_eqb. replace (off (set_off2 0 f)) with BUFSIZ by (cbn; congruence).
    change (BUFSIZ =? off2 (set_off2 0 f)) with false. cbv iota.
    eexists. split; [exact Hcc|]. f_equal. f_equal. cbn. rewrite Z.add_0_r.
    rewrite <- (Hc (Z.to_nat (zlen text - BUFSIZ)) c), Z2Nat.id by (done || lia).
    replace ((zlen text - BUFSIZ) mod BUFSIZ) with 0 by (unfold BUFSIZ in *; Z.div_mod_to_equations; lia).
    by rewrite Z.add_0_r.
  - destruct (ring1 (zlen text) >=? BUFSIZ); [congruence|]. rewrite Hfl. cbn [Z.eqb Pos.eqb].
    by rewrite both_eqb, Ho, Ho2, Z.eqb_refl.
Qed.

(** A buffer full of one character, all of it read. *)
Definition full_sys : sys bump :=
  Sys 0x9000 (memset ∅ 0x2000 65 BUFSIZ)
    {[0x1000 := ex_stream |> set_off BUFSIZ |> set_off2 BUFSIZ |> set_fsize BUFSIZ]} 0.

Lemma drained_stream_read_witness :
  exists l c s', zlen l = BUFSIZ /\ l !! O = Some c /\ fgetc ramp_disk 0x1000 full_sys = Ret (c, s').
Proof.
  assert (exists l, zlen l = BUFSIZ /\ forall (i : nat) c, l !! i = Some c -> c = 65) as (l & Hlen & Hl).
  { exists (replicate (Z.to_nat BUFSIZ) 65). rewrite length_replicate. split; [reflexivity|].
    intros i c [-> _]%lookup_replicate. reflexivity. }
  pose proof (drained_stream_read ramp_disk full_sys 0x1000 l) as Hd. rewrite Hlen in Hd.
  destruct (decide (l = [])) as [->|_]; [discriminate Hlen|].
  destruct (decide (BUFSIZ mod BUFSIZ = 0)) as [_|Hn]; [|by contradict Hn].
  destruct Hd as (c & s' & Hcc & E).
  - exists (ex_stream |> set_off BUFSIZ |> set_off2 BUFSIZ |> set_fsize BUFSIZ). rewrite Hlen.
    split_and!; try reflexivity; [discriminate|].
    intros i c _ Hi. rewrite (Hl i c Hi). cbn [bytes_of full_sys]. rewrite rd_memset.
    change (buffer _) with 0x2000. pose proof (Z.mod_pos_bound (Z.of_nat i) BUFSIZ ltac:(done)). case_within; [done|lia].
  - exists l, c, s'. split; [exact Hlen|]. split; [exact Hcc|exact E].
Defined.
