(* ===== verification/Mouse.v ===== *)
(** * Mouse: packets of the mouse and the pointer (kernel/driver/ps2/mouse.c, kernel/driver/intel/cursor.c)

    [mouse_handler] takes one byte of a packet at each interrupt and, with the third, moves the
    pointer in [mouse] and copies it to the block [mouse2] that programs read.  Both blocks are
    byte memory laid out as [mouse_t].  Of the display the resolution is used, and the register
    of the cursor when the card is Intel's. *)
From S2P Require Import Prelude KString Bytes Budget Ps2.

Definition sizeof_mouse_t : Z := 24.
Definition off_y : Z := 4.
Definition off_z : Z := 8.
Definition off_b : Z := 12.
Definition off_wx : Z := 16.
Definition off_wy : Z := 20.

(** The variables of the handler, the screen, and the rest of the machine. *)
Record packet_vars := PacketVars { buttons : Z; mouse_x : Z; mouse_y : Z; count_mouse : Z }.
Record screen := Screen { horizontal_resolution : Z; vertical_resolution : Z; INTEL : Z; cursor_reg : Z }.
Record machine (H C : Type) := Machine {
  vars : packet_vars;
  gui : screen;
  mouse : Z;
  mouse2 : Z;
  ports : C;
  heap : H;
  ram : mem
}.
Arguments Machine {H C}.
Arguments vars {H C}.
Arguments gui {H C}.
Arguments mouse {H C}.
Arguments mouse2 {H C}.
Arguments ports {H C}.
Arguments heap {H C}.
Arguments ram {H C}.

Section mouse.
Context {H C : Type} `{Allocator H} `{Ports C}.
Implicit Types (d : machine H C) (x y val : Z).

Definition set_vars v d : machine H C := Machine v (gui d) (mouse d) (mouse2 d) (ports d) (heap d) (ram d).
Definition set_gui g d : machine H C := Machine (vars d) g (mouse d) (mouse2 d) (ports d) (heap d) (ram d).
Definition set_ports (c : C) d : machine H C := Machine (vars d) (gui d) (mouse d) (mouse2 d) c (heap d) (ram d).
Definition set_ram m d : machine H C := Machine (vars d) (gui d) (mouse d) (mouse2 d) (ports d) (heap d) m.

Definition update_graphic_cursor x y (g : screen) : screen :=
if INTEL g =? 0 then g
else
  Screen (horizontal_resolution g) (vertical_resolution g) (INTEL g)
    (u32 (Z.lor (Z.land x 0x7fff) (Z.shiftl (Z.land y 0x7fff) 16))).

(** A coordinate held on the screen; the second comparison is of unsigned numbers. *)
Definition clamp (v resolution : Z) : Z :=
if v <? 0 then 0 else if u32 v >? resolution then s32 resolution else v.

Definition mouse_refresh d : machine H C :=
let m := ram d in
let m := st32 m (mouse d) (s32 (s32 (ld32 m (mouse d)) + mouse_x (vars d))) in
let m := st32 m (mouse d + off_y) (s32 (s32 (ld32 m (mouse d + off_y)) - mouse_y (vars d))) in
let m := st32 m (mouse d + off_z) (s32 (s32 (ld32 m (mouse d + off_z)) + 0)) in
let m := st32 m (mouse d + off_b) (buttons (vars d)) in
let m := st32 m (mouse d) (clamp (s32 (ld32 m (mouse d))) (horizontal_resolution (gui d))) in
let m := st32 m (mouse d + off_y) (clamp (s32 (ld32 m (mouse d + off_y))) (vertical_resolution (gui d))) in
let d := set_gui (update_graphic_cursor (s32 (ld32 m (mouse d))) (s32 (ld32 m (mouse d + off_y))) (gui d)) d in
set_ram (memcpy m (mouse2 d) (mouse d) sizeof_mouse_t) d.

(** [(int)val | 0xFFFFFF00] when the sign bit of the packet is set. *)
Definition delta (sign val : Z) : Z := if negb (sign =? 0) then s32 (Z.lor val 0xFFFFFF00) else val.

Definition mouse_handler d : machine H C :=
let '(val, c) := inportb 0x60 (ports d) in
let d := set_ports c d in
let v := vars d in
let n := count_mouse v in
if n =? 0 then set_vars (PacketVars val (mouse_x v) (mouse_y v) (s32 (n + 1))) d
else if n =? 1 then
  set_vars (PacketVars (buttons v) (delta (Z.land (buttons v) 0x10) val) (mouse_y v) (s32 (n + 1))) d
else if n =? 2 then
  let v := PacketVars (buttons v) (mouse_x v) (delta (Z.land (buttons v) 0x20) val) (s32 (n + 1)) in
  let d := set_vars v d in
  let d := if negb (Z.land (buttons v) 0x80 =? 0) || (Z.land (buttons v) 0x40 =? 0) then mouse_refresh d else d in
  set_vars (PacketVars (buttons v) (mouse_x v) (mouse_y v) 0) d
else set_vars (PacketVars (buttons v) (mouse_x v) (mouse_y v) 0) d.

(** ** Installation *)

Definition mouse_write val (c : C) : C :=
let c := outportb 0x64 0xD4 (kbdc_wait 1 c) in
outportb 0x60 val (kbdc_wait 1 c).

Definition mouse_read (c : C) : Z * C := inportb 0x60 (kbdc_wait 0 c).

(** 0xAA is success and 0xFC failure; the command is sent again after anything else. *)
Fixpoint MOUSE_BAT_TEST (fuel : nat) (c : C) : outcome (Z * C) :=
match fuel with
| O => NoFuel
| S fuel =>
    let '(val, c) := mouse_read c in
    if val =? 0xAA then Ret (0, c)
    else if val =? 0xFC then Ret (-1, c)
    else MOUSE_BAT_TEST fuel (mouse_write 0xFE c)
end.

(** A command and its acknowledgement. *)
Definition command val (c : C) : C := kbdc_wait_ack (mouse_write val c).

(** The conversation with the controller: the byte of its configuration gets the bit of the second
  port's interrupt, the port is enabled, and the device is reset and configured. *)
Definition enable_mouse (c : C) : C :=
let c := outportb 0x64 0x20 (kbdc_wait 1 c) in
let '(tmp, c) := inportb 0x60 (kbdc_wait 0 c) in
let tmp := u8 (Z.lor tmp 2) in
let c := outportb 0x64 0x60 (kbdc_wait 1 c) in
let c := outportb 0x60 tmp (kbdc_wait 1 c) in
let c := outportb 0x64 0xA8 (kbdc_wait 1 c) in
let c := kbdc_wait 0 c in
let c := command 0xFF c in
let c := command 0xF6 c in
let c := command 0xF3 c in
let c := command 200 c in
let c := command 0xE8 c in
let c := command 3 c in
let c := command 0xE6 c in
command 0xF4 c.

(** The two blocks; what [mouse_install] writes to the handler table is the handler itself. *)
Definition mouse_install d : outcome (machine H C) :=
'(p, h) ← malloc sizeof_mouse_t (heap d);
let m := memset (ram d) p 0 sizeof_mouse_t in
'(p2, h) ← malloc sizeof_mouse_t h;
let m := memset m p2 0 sizeof_mouse_t in
let g := gui d in
let m := st32 m p (horizontal_resolution g / 2) in
let m := st32 m (p + off_y) (vertical_resolution g / 2) in
let m := st32 m (p + off_wx) (horizontal_resolution g / 2) in
let m := st32 m (p + off_wy) (vertical_resolution g) in
Ret (Machine (PacketVars 0 0 0 4) g p p2 (enable_mouse (ports d)) h m).
End mouse.

(** ** The pointer

    A packet: its flags and the low bytes of the two movements. *)
Record packet := Packet { pflags : Z; pdx : Z; pdy : Z }.

Definition packet_bytes (p : packet) : list Z := [pflags p; pdx p; pdy p].
Definition packet_ok (p : packet) : Prop := Forall (fun b => 0 <= b < 256) (packet_bytes p).

(** Where the pointer is, and the place and flags programs see in their copy. *)
Record pointer := Pointer { px : Z; py : Z; shown : option (Z * Z * Z) }.

(** A movement is a number of nine bits in two's complement, its sign among the flags. *)
Definition nine (sign : bool) (low : Z) : Z := if sign then low - 256 else low.
Definition within_screen (limit v : Z) : Z := Z.max 0 (Z.min limit v).

(** A packet whose movement to the side overflowed is left out, unless the other one did, too. *)
Definition move (g : screen) (q : pointer) (p : packet) : pointer :=
  if Z.testbit (pflags p) 7 || negb (Z.testbit (pflags p) 6) then
    let x := within_screen (horizontal_resolution g) (px q + nine (Z.testbit (pflags p) 4) (pdx p)) in
    let y := within_screen (vertical_resolution g) (py q - nine (Z.testbit (pflags p) 5) (pdy p)) in
    Pointer x y (Some (x, y, pflags p))
  else q.

Section tracking.
Context {H C : Type} `{BudgetLaws H} `{KeyboardPort C}.
Implicit Types (d : machine H C) (g : screen) (q : pointer) (p : packet) (bs : list Z).

Definition screen_ok g : Prop := 0 <= horizontal_resolution g < 2 ^ 30 /\ 0 <= vertical_resolution g < 2 ^ 30.

(** The resolution never changes. *)
Definition same_screen g g' : Prop :=
horizontal_resolution g' = horizontal_resolution g /\ vertical_resolution g' = vertical_resolution g.

Definition pointer_rep g q d : Prop :=
same_screen g (gui d) /\ apart (mouse d) sizeof_mouse_t (mouse2 d) sizeof_mouse_t /\
ld32 (ram d) (mouse d) = px q /\ ld32 (ram d) (mouse d + off_y) = py q /\
0 <= px q <= horizontal_resolution g /\ 0 <= py q <= vertical_resolution g /\
match shown q with
| None => True
| Some (x, y, b) =>
    ld32 (ram d) (mouse2 d) = x /\ ld32 (ram d) (mouse2 d + off_y) = y /\ ld32 (ram d) (mouse2 d + off_b) = b
end.

Lemma clamp_spec v limit : 0 <= limit < 2 ^ 30 -> - 2 ^ 30 <= v < 2 ^ 31 -> clamp v limit = within_screen limit v.
Proof.
intros Hl Hv. unfold clamp, within_screen. destruct (Z.ltb_spec v 0); [lia|]. rewrite u32_small by lia.
destruct (Z.gtb_spec v limit); [rewrite s32_small by lia|]; lia.
Qed.

Lemma delta_nine b i val : 0 <= i -> 0 <= val < 256 -> delta (Z.land b (Z.shiftl 1 i)) val = nine (Z.testbit b i) val.
Proof.
intros Hi Hv. unfold delta, nine. rewrite land_1_shiftl_eqb by done. rewrite negb_involutive.
destruct (Z.testbit b i); [|done]. below 256%nat val.
Qed.

Lemma ld32_st32_same m a v : 0 <= v < 2 ^ 32 -> ld32 (st32 m a v) a = v.
Proof. intros Hv. rewrite ld_st_eq. apply Z.mod_small. exact Hv. Qed.

Lemma ld32_s32 m a v : - 2 ^ 31 <= v < 2 ^ 31 -> s32 (ld32 (st32 m a v) a) = v.
Proof. intros Hv. rewrite ld_st_eq. change (256 ^ Z.of_nat 4) with (2 ^ 32). word_lia. Qed.

Lemma within_screen_range limit v : 0 <= limit -> 0 <= within_screen limit v <= limit.
Proof. unfold within_screen. lia. Qed.

Lemma nine_range sign low : 0 <= low < 256 -> -256 <= nine sign low < 256.
Proof. unfold nine. destruct sign; lia. Qed.

(** The coordinates after the block of stores of [mouse_refresh]. *)
Lemma mouse_refresh_spec g q d b dx dy :
screen_ok g -> pointer_rep g q d -> 0 <= b < 256 -> -256 <= dx < 256 -> -256 <= dy < 256 ->
buttons (vars d) = b -> mouse_x (vars d) = dx -> mouse_y (vars d) = dy ->
let x := within_screen (horizontal_resolution g) (px q + dx) in
let y := within_screen (vertical_resolution g) (py q - dy) in
pointer_rep g (Pointer x y (Some (x, y, b))) (mouse_refresh d) /\
vars (mouse_refresh d) = vars d /\ ports (mouse_refresh d) = ports d.
Proof.
intros [HW HV] ([Eh Ev] & Hap & Ex & Ey & Hx & Hy & _) Hb Hdx Hdy Eb Edx Edy x y.
assert (Hx' := within_screen_range (horizontal_resolution g) (px q + dx) ltac:(lia)).
assert (Hy' := within_screen_range (vertical_resolution g) (py q - dy) ltac:(lia)).
unfold mouse_refresh. rewrite Eb, Edx, Edy, Eh, Ev.
set (M := mouse d) in *. set (M2 := mouse2 d) in *.
assert (Hoff : off_y = 4 /\ off_z = 8 /\ off_b = 12) by done. destruct Hoff as (Oy & Oz & Ob).
set (m1 := st32 (ram d) M _). set (m2 := st32 m1 (M + off_y) _). set (m3 := st32 m2 (M + off_z) _). set (m4 := st32 m3 (M + off_b) b).
assert (Ex4 : s32 (ld32 m4 M) = px q + dx).
{ unfold m4, m3, m2. rewrite !ld_st_ne by lia. unfold m1. rewrite Ex, (s32_small (px q)), (s32_small (px q + dx)) by lia. apply ld32_s32. lia. }
assert (Ey4 : s32 (ld32 m4 (M + off_y)) = py q - dy).
{ unfold m4, m3. rewrite !ld_st_ne by lia. unfold m2.
  assert (ld32 m1 (M + off_y) = py q) as -> by (unfold m1; rewrite ld_st_ne by lia; exact Ey).
  rewrite (s32_small (py q)), (s32_small (py q - dy)) by lia. apply ld32_s32. lia. }
assert (Eb4 : ld32 m4 (M + off_b) = b) by (unfold m4; apply ld32_st32_same; lia).
clearbody m4. clear m1 m2 m3. rewrite Ex4, clamp_spec by lia. fold x.
set (m5 := st32 m4 M x).
assert (Ey5 : ld32 m5 (M + off_y) = ld32 m4 (M + off_y)) by (unfold m5; rewrite ld_st_ne by lia; done).
rewrite Ey5, Ey4, clamp_spec by lia. fold y.
set (m6 := st32 m5 (M + off_y) y).
assert (Ex6 : ld32 m6 M = x).
{ unfold m6. rewrite ld_st_ne by lia. unfold m5. apply ld32_st32_same. lia. }
assert (Ey6 : ld32 m6 (M + off_y) = y) by (unfold m6; apply ld32_st32_same; lia).
assert (Eb6 : ld32 m6 (M + off_b) = b).
{ unfold m6, m5. rewrite !ld_st_ne by lia. exact Eb4. }
clearbody m6. clear m5 Ey5.
set (g' := update_graphic_cursor _ _ _).
assert (same_screen g g') as Hg.
{ unfold g', update_graphic_cursor. destruct (INTEL (gui d) =? 0); by split. }
clearbody g'. split; [|done]. unfold pointer_rep. cbn [gui mouse mouse2 ram set_gui set_ram px py shown].
fold M M2. unfold apart, sizeof_mouse_t in *.
assert (Hcopy : forall o, 0 <= o -> o + 4 <= 24 -> ld32 (memcpy m6 M2 M 24) (M2 + o) = ld32 m6 (M + o)).
{ intros o Ho Hk. rewrite (ld_word_of 4 m6). apply (ld_copy 4 _ _ _ _ 24); [|done|done].
  intros i Hi. rewrite rd_memcpy by lia. case_within; [f_equal; lia|lia]. }
assert (Hold : forall o, 0 <= o -> o + 4 <= 24 -> ld32 (memcpy m6 M2 M 24) (M + o) = ld32 m6 (M + o)).
{ intros o Ho Hk. apply ld_ext. intros c Hc. rewrite rd_memcpy by lia. case_within; [lia|done]. }
pose proof (Hcopy 0 ltac:(lia) ltac:(lia)) as C0. pose proof (Hold 0 ltac:(lia) ltac:(lia)) as O0. rewrite !Z.add_0_r in C0, O0.
rewrite C0, O0, !Hcopy, Hold by (rewrite ?Oy, ?Ob; lia).
split_and!; try assumption; try lia. by rewrite Z.add_0_r.
Qed.

Fixpoint deliver (bs : list Z) d : machine H C :=
match bs with
| [] => d
| b :: bs => deliver bs (mouse_handler (set_ports (arrive b (ports d)) d))
end.

(** The handler, with the byte that has just arrived. *)
Lemma deliver_byte b bs d v :
0 <= b < 256 -> vars d = v ->
exists c, deliver (b :: bs) d = deliver bs
  (let d := set_ports c d in
   if count_mouse v =? 0 then set_vars (PacketVars b (mouse_x v) (mouse_y v) (s32 (count_mouse v + 1))) d
   else if count_mouse v =? 1 then
     set_vars (PacketVars (buttons v) (delta (Z.land (buttons v) 0x10) b) (mouse_y v) (s32 (count_mouse v + 1))) d
   else if count_mouse v =? 2 then
     let v := PacketVars (buttons v) (mouse_x v) (delta (Z.land (buttons v) 0x20) b) (s32 (count_mouse v + 1)) in
     let d := set_vars v d in
     let d := if negb (Z.land (buttons v) 0x80 =? 0) || (Z.land (buttons v) 0x40 =? 0) then mouse_refresh d else d in
     set_vars (PacketVars (buttons v) (mouse_x v) (mouse_y v) 0) d
   else set_vars (PacketVars (buttons v) (mouse_x v) (mouse_y v) 0) d).
Proof.
intros Hb <-. pose proof (arrive_read b (ports d) Hb) as E. cbn [deliver]. unfold mouse_handler.
cbn [ports set_ports]. destruct (inportb 0x60 (arrive b (ports d))) as [b' c]. cbn [fst] in E. subst b'.
exists c. reflexivity.
Qed.

Lemma pointer_rep_vars g q d v : pointer_rep g q d -> pointer_rep g q (set_vars v d).
Proof. intros Hq. exact Hq. Qed.

Lemma deliver_packet g q d p bs :
screen_ok g -> packet_ok p -> pointer_rep g q d -> count_mouse (vars d) = 0 ->
exists d', deliver (packet_bytes p ++ bs) d = deliver bs d' /\ pointer_rep g (move g q p) d' /\ count_mouse (vars d') = 0.
Proof.
intros Hg Hp Hq Hn. destruct p as [b X Y]. unfold packet_ok in Hp. cbn [packet_bytes pflags pdx pdy app] in *.
apply Forall_cons in Hp as [Hb [HX [HY _]%Forall_cons]%Forall_cons]. cbn [pflags pdx pdy] in Hb, HX, HY.
destruct (deliver_byte b (X :: Y :: bs) d _ Hb eq_refl) as (c1 & ->). rewrite Hn. cbn [Z.eqb].
set (d1 := set_vars _ _). destruct (deliver_byte X (Y :: bs) d1 _ HX eq_refl) as (c2 & ->). cbn [vars d1 set_vars count_mouse].
change (s32 (0 + 1)) with 1. cbn [Z.eqb Pos.eqb].
change (Z.land (buttons _) 0x10) with (Z.land b (Z.shiftl 1 4)). rewrite (delta_nine b 4 X)  by lia.
set (d2 := set_vars _ (set_ports c2 d1)). destruct (deliver_byte Y bs d2 _ HY eq_refl) as (c3 & ->).
cbn [vars d2 set_vars count_mouse]. change (s32 (1 + 1)) with 2. cbn [Z.eqb Pos.eqb].
change (Z.land (buttons _) 0x20) with (Z.land b (Z.shiftl 1 5)). rewrite delta_nine by lia.
cbv zeta. set (d3 := set_vars _ (set_ports c3 d2)).
assert (Hq3 : pointer_rep g q d3) by exact Hq.
change (buttons (PacketVars _ _ _ _)) with b.
change 0x80 with (Z.shiftl 1 7). change 0x40 with (Z.shiftl 1 6). rewrite !land_1_shiftl_eqb, negb_involutive by lia.
eexists. split; [reflexivity|]. split; [|reflexivity]. unfold move. cbn [pflags pdx pdy].
destruct (Z.testbit b 7 || negb (Z.testbit b 6)); [|apply pointer_rep_vars; exact Hq3].
destruct (mouse_refresh_spec g q d3 b _ _ Hg Hq3 Hb (nine_range (Z.testbit b 4) X HX) (nine_range (Z.testbit b 5) Y HY)
  eq_refl eq_refl eq_refl) as [Hr _]. cbv zeta. apply pointer_rep_vars. exact Hr.
Qed.

Lemma deliver_packets g ps q d :
screen_ok g -> Forall packet_ok ps -> pointer_rep g q d -> count_mouse (vars d) = 0 ->
let d' := deliver (ps ≫= packet_bytes) d in
pointer_rep g (fold_left (move g) ps q) d' /\ count_mouse (vars d') = 0.
Proof.
intros Hg Hps. revert q d. induction ps as [|p ps IH]; intros q d Hq Hn; [by split|].
apply Forall_cons in Hps as [Hp Hps]. cbn [mbind list_bind fold_left].
destruct (deliver_packet g q d p (ps ≫= packet_bytes) Hg Hp Hq Hn) as (d' & E & Hq' & Hn').
cbv zeta. change (packet_bytes p ++ mbind packet_bytes ps) with (packet_bytes p ++ (ps ≫= packet_bytes)) in *.
rewrite E. by apply (IH Hps).
Qed.

(** The pointer starts in the middle of the screen, and the byte that comes first is dropped. *)
Lemma mouse_install_spec d B :
screen_ok (gui d) -> heap_ok (heap d) B -> budget (heap d) 2 ->
exists d0, mouse_install d = Ret d0 /\ count_mouse (vars d0) = 4 /\
  pointer_rep (gui d) (Pointer (horizontal_resolution (gui d) / 2) (vertical_resolution (gui d) / 2) None) d0.
Proof.
intros [HW HV] Hok Hbud. unfold mouse_install.
destruct (malloc_budget (heap d) B sizeof_mouse_t 1 Hok) as (p & j & h & E & Hj & Hp & Hok1 & _ & _ & _ & Hbud1); [done|done|exact Hbud|].
rewrite E. cbn [mbind outcome_bind].
destruct (malloc_budget h (<[p := j]> B) sizeof_mouse_t 0 Hok1) as (p2 & j2 & h2 & E2 & Hj2 & Hp2 & _ & _ & Hf & _); [done|done|exact Hbud1|].
rewrite E2. cbn [mbind outcome_bind]. unfold sizeof_mouse_t in *.
assert (apart p 24 p2 24) as Hap.
{ destruct (fresh_apart (<[p := j]> B) p2 j2 p 24 Hf) as [?|?]; [|lia|lia|left; lia|right; lia].
  intros i Hi. exists p, j. split; [apply lookup_insert_eq|lia]. }
set (m0 := memset _ p2 0 24). clearbody m0. set (W := horizontal_resolution (gui d)) in *. set (V := vertical_resolution (gui d)) in *.
set (m := st32 (st32 _ _ _) _ _). eexists. split; [reflexivity|]. split; [reflexivity|].
assert (Hoff : off_y = 4 /\ off_wx = 16 /\ off_wy = 20) by done. destruct Hoff as (Oy & Ox & Ow).
assert (0 <= W / 2 <= W) by word_lia. assert (0 <= V / 2 <= V) by word_lia.
split; [by split|]. split; [exact Hap|]. cbn [ram mouse px py shown].
split_and!; try lia; unfold m.
- rewrite !ld_st_ne by lia. apply ld32_st32_same. lia.
- rewrite !(ld_st_ne 4 4 _ (p + off_y)) by lia. apply ld32_st32_same. lia.
Qed.
End tracking.

(** C16: the pointer follows the mouse.  After [mouse_install] and a first byte, which is dropped, take any packets the mouse
    sends, three bytes and three interrupts each.  The pointer is where the movements lead from
    the middle of the screen, each a signed number of nine bits and each result held on the screen, a packet that
    overflowed to the side only being left out; the block programs read has the place and the buttons of the last packet
    that counted; and the handler is ready for the next packet. *)
Theorem mouse_tracks {H C : Type} `{BudgetLaws H} `{KeyboardPort C} (d : machine H C) (B : gmap Z Z) (a : Z) (ps : list packet) :
  screen_ok (gui d) -> heap_ok (heap d) B -> budget (heap d) 2 -> 0 <= a < 256 -> Forall packet_ok ps ->
  exists d0, mouse_install d = Ret d0 /\
    let d' := deliver (a :: (ps ≫= packet_bytes)) d0 in
    pointer_rep (gui d) (fold_left (move (gui d)) ps
      (Pointer (horizontal_resolution (gui d) / 2) (vertical_resolution (gui d) / 2) None)) d' /\
    count_mouse (vars d') = 0.
Proof.
  intros Hg Hok Hbud Ha Hps. destruct (mouse_install_spec d B Hg Hok Hbud) as (d0 & E & Hn & Hq).
  exists d0. split; [exact E|]. cbv zeta.
  destruct (deliver_byte a (ps ≫= packet_bytes) d0 _ Ha eq_refl) as (c & ->). rewrite Hn. cbn [Z.eqb Pos.eqb].
  apply deliver_packets; [exact Hg|exact Hps|apply pointer_rep_vars; exact Hq|reflexivity].
Qed.

(** Right and up; far left, to the edge; a packet that overflowed to the side. *)
Definition ex_machine : machine bump script :=
  Machine (PacketVars 0 0 0 0) (Screen 1024 768 0 0) 0 0 (Script 0xFA (false, false) []) 0x1000 ∅.
Definition ex_packets : list packet :=
  [Packet 0x09 100 50; Packet 0x18 0 0; Packet 0x18 0 0; Packet 0x18 0 0; Packet 0x48 5 0].

Lemma mouse_tracks_witness :
  exists d0, mouse_install ex_machine = Ret d0 /\
    let d' := deliver (0xFA :: (ex_packets ≫= packet_bytes)) d0 in
    ld32 (ram d') (mouse2 d') = 0 /\ ld32 (ram d') (mouse2 d' + off_y) = 334.
Proof.
  destruct (mouse_tracks ex_machine ∅ 0xFA ex_packets) as (d0 & E & (_ & _ & _ & _ & _ & _ & Hs) & _).
  - split; cbn; lia.
  - split; [done|]. intros p k Hp. discriminate Hp.
  - split; [done|]. cbn. lia.
  - done.
  - repeat constructor; cbn; lia.
  - exists d0. split; [exact E|]. cbv zeta. destruct Hs as (Hx & Hy & _). split; [exact Hx|exact Hy].
Defined.
