(* ===== verification/Image.v ===== *)
(** * Image: the tool that makes disk images (fs.c)

    The tool formats an image file as a CFS volume and copies files of the host into it.  The
    image and the host's files are streams of the host's C library: their bytes, their length
    and the position.  Section [tool] has the functions of fs.c in the order of the file;
    [volume_holds] is the state of a volume with its files, which formatting sets up and
    every copy extends; the kernel's reader of Open then finds each file. *)
From S2P Require Import Prelude KString Bytes Path Cfs.
From S2P Require Import Files Budget Open.

(** ** Streams of the host's library

    Calls to the host are taken to succeed; a write past the end extends the file. *)
Record hfile := Hfile { h_data : mem; h_len : Z; h_pos : Z }.

Section host.
Implicit Types (f : hfile) (m : mem) (ptr n c v old off : Z).

Definition hseek off f : hfile := if off <? 0 then f else Hfile (h_data f) (h_len f) off.
Definition hrewind f : hfile := hseek 0 f.
Definition hseek_end f : hfile := hseek (h_len f) f.

Definition hwrite m ptr n f : hfile :=
Hfile (fill (h_data f) (h_pos f) n (fun i => m⟦ptr + i⟧)) (Z.max (h_len f) (h_pos f + n)) (h_pos f + n).

(** What there is up to [n] bytes, and how much it was. *)
Definition hread ptr n m f : Z * mem * hfile :=
let k := Z.max 0 (Z.min n (h_len f - h_pos f)) in
(k, fill m ptr k (fun i => (h_data f)⟦h_pos f + i⟧), Hfile (h_data f) (h_len f) (h_pos f + k)).

(** The same for a local variable of four bytes, whose value was [old]. *)
Definition hwrite_word v f : hfile :=
Hfile (st32 (h_data f) (h_pos f) v) (Z.max (h_len f) (h_pos f + 4)) (h_pos f + 4).
Definition hread_word old f : Z * hfile :=
let '(_, m, f) := hread 0 4 (st32 ∅ 0 old) f in (ld32 m 0, f).

Definition hputc c f : hfile :=
Hfile (h_data f)⟦h_pos f := u8 c⟧ (Z.max (h_len f) (h_pos f + 1)) (h_pos f + 1).
Definition hgetc f : Z * hfile :=
if h_pos f <? h_len f then ((h_data f)⟦h_pos f⟧, Hfile (h_data f) (h_len f) (h_pos f + 1)) else (EOF, f).
End host.

(** ** The functions of fs.c *)

Definition sb_size_of_blk (m : mem) (f : Z) : Z := ld32 m (f + 40).
Definition sb_total_num_of_sector (m : mem) (f : Z) : Z := ld32 m (f + 48).
Definition sizeof_super_block : Z := 52.

Section tool.
(** [fopen] of the path at an address; fuel for the C strings; the local [dir2] and the value an uninitialised
    [blk] has. *)
Context (fopen_host : mem -> Z -> option hfile) (fuel : nat) (dir2 blk0 : Z).
Implicit Types (m : mem) (fd f : hfile) (fs dir path blk attr : Z).

Definition read_super_block fd fs m : mem * hfile :=
let off := 1 * 512 in
let '(_, m, fd) := hread fs sizeof_super_block m (hseek off fd) in
(m, hrewind fd).

Definition size_of_blk m fs : outcome Z :=
let blk := u32 (sb_byte_per_sector m fs * sb_sector_per_blk m fs) in
if (sb_sector_per_blk m fs =? 0) || (blk =? 0) then Undef
else
  let words := u32 (u32 (sb_total_num_of_sector m fs - sb_rsv m fs) / sb_sector_per_blk m fs * 4) in
  let n := words / blk in
  Ret (if negb (words mod blk =? 0) then u32 (n + 1) else n).

Definition num_of_blk m fs : outcome Z :=
if sb_sector_per_blk m fs =? 0 then Undef
else Ret (u32 (sb_total_num_of_sector m fs - sb_rsv m fs) / sb_sector_per_blk m fs).

Definition format_blk fd m fs : hfile :=
let fd := hseek (u32 (sb_rsv m fs * sb_byte_per_sector m fs)) fd in
let fd := for_upto 0 (sb_num_of_blk m fs) (fun i fd => hwrite_word (if i <? sb_size_of_blk m fs then 0x8fffffff else 0) fd) fd in
hrewind fd.

Definition clean_blk_enter blk fd m fs : hfile :=
let data_sector := sb_rsv m fs in
let first_sector := u32 (data_sector + blk * sb_sector_per_blk m fs) in
let off := u32 (first_sector * sb_byte_per_sector m fs) in
let n := s32 (u32 (sb_byte_per_sector m fs * sb_sector_per_blk m fs) / 4) in
let fd := hseek off fd in
let fd := for_upto 0 n (fun _ fd => hwrite_word 0 fd) fd in
hrewind fd.

Definition root_dir fd m fs : mem * hfile :=
let m := st32 m (fs + 44) (sb_size_of_blk m fs) in
let off := s32 (sb_rsv m fs * sb_byte_per_sector m fs + sb_root_blk m fs * 4) in
let fd := hwrite_word (u32 (-1)) (hseek off fd) in
let off := s32 (sb_rsv m fs * sb_byte_per_sector m fs + sb_sector_per_blk m fs * sb_byte_per_sector m fs * sb_root_blk m fs) in
let fd := hseek off fd in
let n := u32 (sb_sector_per_blk m fs * sb_byte_per_sector m fs) / 4 in
let fd := for_upto 0 n (fun _ fd => hwrite_word 0 fd) fd in
let fd := hrewind fd in
(m, clean_blk_enter (sb_root_blk m fs) fd m fs).

(** One turn of the search: [off] is the offset of the word. *)
Definition search_turn (index : Z) '((blk, off, fd) : Z * Z * hfile) : Z * Z * hfile + Z * hfile :=
let '(blk, fd) := hread_word blk fd in
if blk =? 0 then inr (index, hrewind (hwrite_word (u32 (-1)) (hseek off fd)))
else inl (blk, u32 (off + 4), fd).

Definition search_blk_null fd m fs : Z * hfile :=
let off := u32 (sb_rsv m fs * sb_byte_per_sector m fs) in
let fd := hseek off fd in
match for_break_upto 0 (sb_num_of_blk m fs) search_turn (blk0, off, fd) with
| inl (_, _, fd) => (u32 (-1), hrewind fd)
| inr r => r
end.

Definition write_blk new_blk cur_blk fd m fs : hfile :=
let off := u32 (sb_rsv m fs * sb_byte_per_sector m fs + 4 * cur_blk) in
hrewind (hwrite_word new_blk (hseek off fd)).

(** The loop that pads the name, with its flag [off]. *)
Definition pad_filename m dir : mem :=
(for_upto 0 96 (fun index '(off, m) =>
   if (m⟦dir + index⟧ =? 0) || (off =? 1) then (0, m⟦dir + index := 32⟧) else (off, m)) (0, m)).2.

(** The first entry that is not busy; every one read goes through [dir2]. *)
Definition free_entry root_sector fd m fs : mem * hfile + Z * mem * hfile :=
for_break 64 0 (fun index '(m, fd) =>
  let off := u32 (root_sector * sb_byte_per_sector m fs + 128 * index) in
  let '(_, m, fd) := hread dir2 128 m (hseek off fd) in
  if m⟦dir2 + 97⟧ =? 0 then inr (index, m, fd) else inl (m, fd)) (m, fd).

(** The part of [create_file] behind the name. *)
Definition create_in dir attr fd m fs : Z * mem * hfile :=
let m := st32 m (dir + 111) 0 in
let data_sector := sb_rsv m fs in
let root_sector := u32 (data_sector + sb_root_blk m fs * sb_sector_per_blk m fs) in
let '(blk, fd) := search_blk_null fd m fs in
let m := st32 m (dir + 107) blk in
if blk =? u32 (-1) then (1, m, fd)
else
  match free_entry root_sector fd m fs with
  | inl (m, fd) => (-1, m, fd)
  | inr (index, m, fd) =>
      let m := st32 m (dir + 115) index in
      let m := m⟦dir + 97 := u8 (-1)⟧ in
      let m := m⟦dir + 98 := u8 attr⟧ in
      let off := u32 (root_sector * sb_byte_per_sector m fs + 128 * ld32 m (dir + 115)) in
      (0, m, hrewind (hwrite m dir 128 (hseek off fd)))
  end.

Definition create_file path fd m fs dir attr : outcome (Z * mem * hfile) :=
let m := memset m dir 0 128 in
if (attr =? 0x20) && negb (bool_decide (is_Some (fopen_host m path))) then Ret (-1, m, fd)
else
  n ← get_file_name fuel m path;
  m ← strcpy fuel m dir n;
  Ret (create_in dir attr fd (pad_filename m dir) fs).

(** One byte: at the end of a block the chain gets another one first. *)
Definition copy_turn m fs (size_blk i : Z) '((n, cur_blk, f, fd) : Z * Z * hfile * hfile) : Z * Z * hfile * hfile :=
let '(n, cur_blk, fd) :=
  if i =? u32 (size_blk * n) then
    let '(new_blk, fd) := search_blk_null fd m fs in
    let fd := write_blk new_blk cur_blk fd m fs in
    let first_sector := u32 (sb_rsv m fs + new_blk * sb_sector_per_blk m fs) in
    let off := u32 (first_sector * sb_byte_per_sector m fs) in
    (n + 1, new_blk, hseek off fd)
  else (n, cur_blk, fd) in
let '(c, f) := hgetc f in
(n, cur_blk, f, hputc c fd).

Definition copy fd m fs dir path : mem * hfile :=
match fopen_host m path with
| None => (m, fd)
| Some f =>
    let first_sector := u32 (sb_rsv m fs + ld32 m (dir + 107) * sb_sector_per_blk m fs) in
    let root_sector := u32 (sb_rsv m fs + sb_root_blk m fs * sb_sector_per_blk m fs) in
    let size_blk := u32 (sb_sector_per_blk m fs * sb_byte_per_sector m fs) in
    let f := hseek_end f in
    let m := st32 m (dir + 111) (u32 (h_pos f)) in
    let f := hrewind f in
    let off := u32 (root_sector * sb_byte_per_sector m fs + 128 * ld32 m (dir + 115)) in
    let fd := hwrite m dir 128 (hseek off fd) in
    let off := u32 (first_sector * sb_byte_per_sector m fs) in
    let cur_blk := ld32 m (dir + 107) in
    let fd := hseek off fd in
    let '(_, _, _, fd) := for_upto 0 (ld32 m (dir + 111)) (copy_turn m fs size_blk) (1, cur_blk, f, fd) in
    (m, hrewind fd)
end.

(** *** main *)

Definition streq m (p : Z) (lit : list Z) : bool := bool_decide (bytes m p (zlen lit + 1) = lit ++ [0]).
Definition opt_f : list Z := [45; 102].
Definition opt_g : list Z := [45; 103].
Definition opt_p : list Z := [45; 112].

(** What the command line asks for: the variables [flg], [d] and [a] of [main], none when it is refused. *)
Definition arguments m (argc : Z) (argv : Z -> Z) : option (Z * Z * Z) :=
if argc <? 3 then None
else if streq m (argv 1) opt_f then
  if (argc >? 3) && (argc <? 6) then if streq m (argv 3) opt_g then Some (2, 2, 4) else None
  else if argc =? 3 then Some (1, 2, 0) else None
else if streq m (argv 1) opt_g then
  if argc =? 4 then Some (3, 3, 2)
  else if (argc >? 3) && (argc <? 6) then if streq m (argv 3) opt_f then Some (2, 4, 2) else None
  else None
else if streq m (argv 1) opt_p then if argc =? 4 then Some (4, 3, 2) else None
else None.

(** The fields of the super block of an empty volume. *)
Definition format_super (disk_size : Z) m fs : outcome mem :=
let m := st32 m (fs + 24) 2 in
let m := st32 m (fs + 28) 512 in
let m := st32 m (fs + 32) 16 in
if sb_byte_per_sector m fs =? 0 then Undef
else
  let m := st32 m (fs + 48) (disk_size / sb_byte_per_sector m fs) in
  n ← num_of_blk m fs;
  let m := st32 m (fs + 36) n in
  n ← size_of_blk m fs;
  Ret (st32 m (fs + 40) n).

(** From there to __gravar: an empty volume, the boot sector and the super block; [None] is [exit(1)]. *)
Definition format (fopen_boot : option hfile) (data_ : Z) fd m fs : outcome (option (mem * hfile)) :=
let fd := hseek_end fd in
let disk_size := u32 (h_pos fd) in
let fd := hrewind fd in
m ← format_super disk_size m fs;
let fd := format_blk fd m fs in
let m := st32 m (fs + 44) 0 in
let '(m, fd) := root_dir fd m fs in
match fopen_boot with
| None => Ret None
| Some fd_boot =>
    let '(r, m, _) := hread data_ (sb_byte_per_sector m fs) m fd_boot in
    if negb (r =? sb_byte_per_sector m fs) then Ret None
    else
      let fd := hwrite m data_ (sb_byte_per_sector m fs) fd in
      let fd := hwrite m fs sizeof_super_block fd in
      Ret (Some (m, hrewind fd))
end.

(** The labels __gravar and __folder to the end. *)
Definition store attr fd m fs dir path : outcome (mem * hfile) :=
'(r, m, fd) ← create_file path fd m fs dir attr;
if (attr =? 0x20) && (r =? 0) then Ret (copy fd m fs dir path) else Ret (m, fd).

(** The image, as the program leaves it; [None] where it stops with [exit(1)] or refuses the command line. *)
Definition main (fopen_boot : option hfile) (data_ : Z) (argc : Z) (argv : Z -> Z) m fs dir : outcome (option (mem * hfile)) :=
let m := memset m dir 0 128 in
let m := memset m fs 0 sizeof_super_block in
match arguments m argc argv with
| None => Ret None
| Some (flg, d, a) =>
    let m := memset m data_ 0 512 in
    let m := poke m fs [75; 73; 78; 71; 85; 73; 79; 95; 0] in
    match fopen_host m (argv d) with
    | None => Ret None
    | Some fd =>
        if flg =? 3 then
          let '(m, fd) := read_super_block fd fs m in
          r ← store 0x20 fd m fs dir (argv a); Ret (Some r)
        else if flg =? 4 then
          let '(m, fd) := read_super_block fd fs m in
          r ← store 0x40 fd m fs dir (argv a); Ret (Some r)
        else
          r ← format fopen_boot data_ fd m fs;
          match r with
          | None => Ret None
          | Some (m, fd) =>
              if flg =? 1 then Ret (Some (m, fd)) else r ← store 0x20 fd m fs dir (argv a); Ret (Some r)
          end
    end
end.
End tool.

(** ** Volumes in an image *)

Definition blk_pos (k : Z) : Z := 1024 + 8192 * k.
Definition blk_word (d : mem) (k : Z) : Z := ld32 d (1024 + 4 * k).

(** The super block in the memory of the tool: [n] blocks, the directory in block [rb]. *)
Record super_at (m : mem) (fs rb n : Z) : Prop := {
  sp_rsv : sb_rsv m fs = 2;
  sp_bps : sb_byte_per_sector m fs = 512;
  sp_spb : sb_sector_per_blk m fs = 16;
  sp_root : sb_root_blk m fs = rb;
  sp_num : sb_num_of_blk m fs = n;
  sp_range : 0 < rb < n /\ 4 * n <= 8192 * rb /\ blk_pos n < 2 ^ 32
}.

(** The image reaches as far as its blocks. *)
Definition image_ok (n : Z) (fd : hfile) : Prop := bytes_in (h_data fd) /\ blk_pos n <= h_len fd.

Section volumes.
Context (blk0 : Z).
Implicit Types (d m : mem) (fd f : hfile) (fs rb n k i : Z) (cs : list Z).

Lemma super_at_ext m m' fs rb n : (forall a, fs <= a < fs + 52 -> m'⟦a⟧ = m⟦a⟧) -> super_at m fs rb n -> super_at m' fs rb n.
Proof.
intros E [S1 S2 S3 S4 S5 S6]. unfold sb_rsv, sb_byte_per_sector, sb_sector_per_blk, sb_root_blk, sb_num_of_blk in *.
constructor; unfold sb_rsv, sb_byte_per_sector, sb_sector_per_blk, sb_root_blk, sb_num_of_blk; try done;
  (rewrite (ld_ext 4 m m'); [done|]; intros b Hb; apply E; lia).
Qed.

Lemma blk_word_ext d d' k : (forall a, 1024 + 4 * k <= a < 1024 + 4 * k + 4 -> d'⟦a⟧ = d⟦a⟧) -> blk_word d' k = blk_word d k.
Proof. intros E. by apply ld_ext. Qed.

Lemma blk_word_range d k : bytes_in d -> 0 <= blk_word d k < 2 ^ 32.
Proof. intros Hd. by apply (ld_range 4). Qed.

(** Setting the word of a block. *)
Lemma blk_word_st d k v j : 0 <= v < 2 ^ 32 -> blk_word (st32 d (1024 + 4 * k) v) j = if j =? k then v else blk_word d j.
Proof.
intros Hv. unfold blk_word. destruct (Z.eqb_spec j k) as [->|Hne].
- rewrite ld_st_eq. by apply Z.mod_small.
- apply ld_st_ne. lia.
Qed.

Lemma hread_word_spec old fd p :
h_pos fd = p -> 0 <= p -> p + 4 <= h_len fd -> hread_word old fd = (ld32 (h_data fd) p, Hfile (h_data fd) (h_len fd) (p + 4)).
Proof.
intros Hp H0 Hl. unfold hread_word, hread. rewrite Hp. replace (Z.max 0 (Z.min 4 (h_len fd - p))) with 4 by lia. f_equal.
rewrite !ld_word_of. apply word_of_ext. intros i Hi. rewrite rd_fill. case_within; [f_equal; lia|lia].
Qed.

(** First fit on the table of the image. *)
Lemma search_blk_null_first fd m fs rb n :
super_at m fs rb n -> image_ok n fd -> let d := h_data fd in
(exists k, 0 <= k < n /\ blk_word d k = 0 /\ (forall j, 0 <= j < k -> blk_word d j <> 0) /\
   search_blk_null blk0 fd m fs = (k, Hfile (st32 d (1024 + 4 * k) LAST) (h_len fd) 0)) \/
((forall j, 0 <= j < n -> blk_word d j <> 0) /\ search_blk_null blk0 fd m fs = (LAST, Hfile d (h_len fd) 0)).
Proof.
intros [S1 S2 S3 S4 S5 (Hrb & Hn & Hmax)] [Hb Hlen] d. unfold blk_pos in *. unfold search_blk_null. rewrite S1, S2, S5.
change (u32 (2 * 512)) with 1024. change (hseek 1024 fd) with (Hfile d (h_len fd) 1024).
break_upto_with (fun i (t : Z * Z * hfile) => (forall j, 0 <= j < i -> blk_word d j <> 0) /\
    exists b, t = (b, 1024 + 4 * i, Hfile d (h_len fd) (1024 + 4 * i)))
  (fun i (r : Z * hfile) => (forall j, 0 <= j < i -> blk_word d j <> 0) /\ blk_word d i = 0 /\
     r = (i, Hfile (st32 d (1024 + 4 * i) LAST) (h_len fd) 0)).
- lia.
- split; [intros; lia|]. by exists blk0.
- intros i t Hi (Hlow & b & ->). unfold search_turn. rewrite (hread_word_spec b _ (1024 + 4 * i)) by (cbn [h_pos h_len]; lia || done).
  cbn [h_data h_len]. fold (blk_word d i). destruct (Z.eqb_spec (blk_word d i) 0) as [E|E].
  + split; [done|]. split; [done|]. f_equal. unfold hseek. destruct (Z.ltb_spec (1024 + 4 * i) 0); [lia|].
    unfold hrewind, hseek, hwrite_word. cbn [h_data h_len h_pos Z.ltb Z.compare]. f_equal. lia.
  + split; [intros j Hj; destruct (decide (j = i)) as [->|]; [done|apply Hlow; lia]|].
    exists (blk_word d i). rewrite u32_small by lia. f_equal; [f_equal; lia|f_equal; lia].
- intros t (Hlow & b & ->). right. done.
- intros i r Hi (Hlow & Hz & ->). left. exists i. done.
Qed.
End volumes.

(** ** Copying the bytes of a file *)

(** A stream of the host on a file with the bytes [L]. *)
Record file_is (f : hfile) (L : list Z) : Prop := {
  fi_len : h_len f = zlen L;
  fi_bytes : forall i c, L !! Z.to_nat i = Some c -> 0 <= i -> (h_data f)⟦i⟧ = c /\ 0 <= c < 256
}.

(** The blocks a file of [size] bytes takes: one at least. *)
Definition blocks_of (size : Z) : Z := Z.max 1 ((size + 8191) / 8192).

(** The cells of the blocks [cs]: their words and their bytes. *)
Definition blk_cell (k a : Z) : Prop := 1024 + 4 * k <= a < 1024 + 4 * k + 4 \/ blk_pos k <= a < blk_pos k + 8192.

Section copying.
Context (blk0 : Z) (m : mem) (fs rb n : Z) (Hs : super_at m fs rb n).
(** The image before the copy, the file and its first block. *)
Context (d0 : mem) (L : list Z) (b0 len0 : Z).
Implicit Types (fd f : hfile) (i k a : Z) (cs : list Z).

(** The first [i] bytes are in the blocks [cs]. *)
Record copied i cs fd : Prop := {
  cp_head : head cs = Some b0;
  cp_nodup : NoDup cs;
  cp_in : forall k, k ∈ cs -> rb < k < n;
  cp_free : forall k, k ∈ tail cs -> blk_word d0 k = 0;
  cp_link : forall (j : nat) x y, cs !! j = Some x -> cs !! S j = Some y -> blk_word (h_data fd) x = y;
  cp_last : forall x, last cs = Some x -> blk_word (h_data fd) x = LAST;
  cp_bytes : forall x, 0 <= x < i -> exists k, cs !! Z.to_nat (x / 8192) = Some k /\
    Some (h_data fd)⟦blk_pos k + x mod 8192⟧ = L !! Z.to_nat x;
  cp_out : forall a, (forall k, k ∈ cs -> ~ blk_cell k a) -> (h_data fd)⟦a⟧ = d0⟦a⟧;
  cp_image : image_ok n fd /\ h_len fd = len0
}.

(** Words and blocks do not meet. *)
Lemma blk_cell_apart k j a : rb < k < n -> 0 <= j < n -> blk_cell k a -> 1024 + 4 * j <= a < 1024 + 4 * j + 4 -> k = j.
Proof using Hs. destruct Hs as [_ _ _ _ _ (Hrb & Hn & _)]. unfold blk_cell, blk_pos. lia. Qed.

Lemma copied_word i cs fd k : copied i cs fd -> k ∉ cs -> 0 <= k < n -> blk_word (h_data fd) k = blk_word d0 k.
Proof using Hs.
intros C Hk Hr. apply blk_word_ext. intros a Ha. apply (cp_out _ _ _ C). intros j Hj Hc.
assert (j = k) as -> by (apply (blk_cell_apart j k a); try done; by apply (cp_in _ _ _ C)). done.
Qed.

(** The words of the chain mark its blocks as used. *)
Lemma copied_used i cs fd k : copied i cs fd -> k ∈ cs -> blk_word (h_data fd) k <> 0.
Proof using Hs.
intros C (j & Hj)%list_elem_of_lookup. destruct (cs !! S j) as [y|] eqn:Hy.
- rewrite (cp_link _ _ _ C j k y Hj Hy). assert (rb < y < n) by (apply (cp_in _ _ _ C); by eapply list_elem_of_lookup_2).
  destruct Hs as [_ _ _ _ _ (Hrb & _)]. lia.
- rewrite (cp_last _ _ _ C k); [done|]. rewrite last_lookup. pose proof (lookup_lt_Some _ _ _ Hj). apply lookup_ge_None in Hy.
  by replace (pred (length cs)) with j by lia.
Qed.
(** The words of the table lie below the blocks. *)
Lemma word_below k j o x : 0 <= k < n -> rb < j < n -> 0 <= x -> 0 <= o < 4 -> 1024 + 4 * k + o <> blk_pos j + x.
Proof using Hs. destruct Hs as [_ _ _ _ _ (Hrb & Hn & _)]. unfold blk_pos. lia. Qed.

Definition with_data fd d p : hfile := Hfile d (h_len fd) p.

(** One more block is linked to the last one. *)
Lemma copied_link i cs fd cur k p :
copied i cs fd -> last cs = Some cur -> rb < k < n -> k ∉ cs -> blk_word (h_data fd) k = 0 -> i <= 8192 * zlen cs ->
copied i (cs ++ [k]) (with_data fd (st32 (st32 (h_data fd) (1024 + 4 * k) LAST) (1024 + 4 * cur) k) p).
Proof using Hs.
intros C Hlast Hk Hkc Hk0 Hi. assert (cur ∈ cs) as Hcur by (rewrite last_lookup in Hlast; by eapply list_elem_of_lookup_2).
assert (cs <> []) as Hne by (by intros ->). pose proof (cp_in _ _ _ C cur Hcur) as Hcr.
pose proof (sp_range _ _ _ _ Hs) as (Hrb & Hn & Hmax). unfold blk_pos in Hmax.
set (d' := st32 (st32 (h_data fd) (1024 + 4 * k) LAST) (1024 + 4 * cur) k).
assert (forall j, blk_word d' j = if j =? cur then k else if j =? k then LAST else blk_word (h_data fd) j) as Hw.
{ intros j. unfold d'. by rewrite !blk_word_st by (unfold LAST; lia). }
assert (forall a, ~ 1024 + 4 * k <= a < 1024 + 4 * k + 4 -> ~ 1024 + 4 * cur <= a < 1024 + 4 * cur + 4 -> d'⟦a⟧ = (h_data fd)⟦a⟧) as Hd
  by (intros a H1 H2; unfold d'; rewrite !rd_st_out by lia; done).
assert (cur <> k) as Hck by (by intros ->).
constructor; cbn [h_data h_len with_data].
- destruct cs as [|x cs]; [done|exact (cp_head _ _ _ C)].
- apply NoDup_app. split; [exact (cp_nodup _ _ _ C)|]. split; [|apply NoDup_singleton]. by intros x Hx ->%list_elem_of_singleton.
- intros j [Hj| ->%list_elem_of_singleton]%elem_of_app; [by apply (cp_in _ _ _ C)|done].
- intros j Hj. assert (j ∈ tail cs \/ j = k) as [Hj'| ->].
  { destruct cs as [|x cs]; [done|]. cbn in Hj. apply elem_of_app in Hj as [?|?%list_elem_of_singleton]; [by left|by right]. }
  + by apply (cp_free _ _ _ C).
  + by rewrite <- (copied_word i cs fd k C Hkc) by lia.
- intros j x y Hx Hy. rewrite Hw. destruct (decide (S j < length cs)%nat) as [Hj|Hj].
  + rewrite lookup_app_l in Hx, Hy by lia. rewrite <- (cp_link _ _ _ C j x y Hx Hy).
    destruct (Z.eqb_spec x cur) as [->|_].
    { rewrite last_lookup in Hlast. pose proof (NoDup_lookup _ _ _ _ (cp_nodup _ _ _ C) Hx Hlast). lia. }
    destruct (Z.eqb_spec x k) as [->|_]; [|done]. destruct Hkc. by eapply list_elem_of_lookup_2.
  + pose proof (lookup_lt_Some _ _ _ Hy) as Hlen. rewrite length_app in Hlen. cbn in Hlen. assert (S j = length cs) as Ej by lia.
    rewrite lookup_app_r in Hy by lia. rewrite Ej, Nat.sub_diag in Hy. injection Hy as <-.
    rewrite lookup_app_l in Hx by lia. rewrite last_lookup in Hlast. replace (pred (length cs)) with j in Hlast by lia.
    rewrite Hx in Hlast. injection Hlast as ->. by rewrite Z.eqb_refl.
- intros x Hx. rewrite last_snoc in Hx. injection Hx as <-. rewrite Hw, Z.eqb_refl. by destruct (Z.eqb_spec k cur).
- intros x Hx. destruct (cp_bytes _ _ _ C x Hx) as (b & Hb & E). exists b. rewrite lookup_app_l by (by eapply lookup_lt_Some).
  split; [done|]. rewrite <- E. f_equal.
  assert (rb < b < n) by (apply (cp_in _ _ _ C); by eapply list_elem_of_lookup_2).
  apply Hd; unfold blk_pos; word_lia.
- intros a Ha. rewrite Hd.
  + apply (cp_out _ _ _ C). intros j Hj. apply Ha. apply elem_of_app. by left.
  + intros Hc. apply (Ha k); [apply elem_of_app; right; by left|by left].
  + intros Hc. apply (Ha cur); [apply elem_of_app; by left|by left].
- destruct (cp_image _ _ _ C) as [[Hb Hl] E]. split; [|done]. split; [by do 2 apply bytes_in_st|done].
Qed.

(** One more byte is written behind the others. *)
Lemma copied_byte i cs fd cur c :
copied i cs fd -> last cs = Some cur -> L !! Z.to_nat i = Some c -> 0 <= c < 256 -> 8192 * (zlen cs - 1) <= i < 8192 * zlen cs ->
h_pos fd = blk_pos cur + (i - 8192 * (zlen cs - 1)) -> copied (i + 1) cs (hputc c fd).
Proof using Hs.
intros C Hlast HL Hc Hi Hpos. assert (cur ∈ cs) as Hcur by (rewrite last_lookup in Hlast; by eapply list_elem_of_lookup_2).
pose proof (cp_in _ _ _ C cur Hcur) as Hcr. pose proof (sp_range _ _ _ _ Hs) as (Hrb & Hn & Hmax).
rewrite last_lookup in Hlast. pose proof (lookup_lt_Some _ _ _ Hlast) as Hlen. assert (Z.to_nat (i / 8192) = pred (length cs)) as Eq by word_lia.
unfold hputc. rewrite u8_small, Hpos by lia. set (p := blk_pos cur + (i - 8192 * (zlen cs - 1))).
assert (p = blk_pos cur + i mod 8192) as Ep by (unfold p; word_lia).
assert (forall k, blk_word (h_data fd)⟦p := c⟧ k = blk_word (h_data fd) k \/ ~ 0 <= k < n) as Hw.
{ intros k. destruct (decide (0 <= k < n)) as [Hk|]; [left|by right]. apply ld_wr_ne. unfold p, blk_pos. lia. }
assert (forall x, x ∈ cs -> blk_word (h_data fd)⟦p := c⟧ x = blk_word (h_data fd) x) as Hwc.
{ intros x Hx. destruct (Hw x) as [|Hno]; [done|]. pose proof (cp_in _ _ _ C x Hx). lia. }
destruct (cp_image _ _ _ C) as [[Hb Hl] El].
constructor; cbn [h_data h_len]; [apply C..| | | | |].
- intros j x y Hx Hy. rewrite Hwc by (by eapply list_elem_of_lookup_2). by apply (cp_link _ _ _ C j).
- intros x Hx. rewrite Hwc by (rewrite last_lookup in Hx; by eapply list_elem_of_lookup_2). by apply (cp_last _ _ _ C).
- intros x Hx. destruct (decide (x = i)) as [->|Hne].
  + exists cur. rewrite Eq. split; [done|]. by rewrite HL, <- Ep, rd_wr_eq.
  + destruct (cp_bytes _ _ _ C x) as (b & Hbk & E); [lia|]. exists b. split; [done|]. rewrite <- E. f_equal. apply rd_wr_ne.
    rewrite Ep. destruct (decide (b = cur)) as [->|Hbc]; [|unfold blk_pos; word_lia].
    pose proof (NoDup_lookup _ _ _ _ (cp_nodup _ _ _ C) Hbk Hlast). word_lia.
- intros a Ha. rewrite rd_wr_ne; [by apply (cp_out _ _ _ C)|]. intros ->. apply (Ha cur Hcur). right. unfold blk_pos in *. word_lia.
- split; [|unfold p, blk_pos in *; lia]. split; cbn [h_data h_len]; [by apply bytes_in_wr|lia].
Qed.
(** There is a block for every turn that needs one. *)
Definition blocks_free (l : list Z) : Prop := NoDup l /\ forall k, k ∈ l -> rb < k < n /\ blk_word d0 k = 0 /\ k <> b0.

Hypothesis (Hused : forall j, 0 <= j <= rb -> blk_word d0 j <> 0).

Lemma next_block_found i cs fd l :
copied i cs fd -> blocks_free l -> zlen cs <= zlen l ->
exists k, search_blk_null blk0 fd m fs = (k, Hfile (st32 (h_data fd) (1024 + 4 * k) LAST) (h_len fd) 0) /\
  rb < k < n /\ (k ∉ cs) /\ blk_word (h_data fd) k = 0.
Proof using Hs Hused.
intros C [Hnd Hl] Hlen. pose proof (sp_range _ _ _ _ Hs) as (Hrb & Hn & Hmax). destruct (cp_image _ _ _ C) as [Him _].
destruct (search_blk_null_first blk0 fd m fs rb n Hs Him) as [(k & Hk & H0 & Hlow & E)|[Hall _]].
- exists k. split; [exact E|]. assert (k ∉ cs) as Hkc by (intros Hin; by apply (copied_used i cs fd k C)).
  split; [|done]. split; [|lia]. destruct (Z.ltb_spec rb k); [done|]. destruct (Hused k); [lia|].
  by rewrite <- (copied_word i cs fd k C Hkc) by lia.
- exfalso. assert (length l <= length (tail cs))%nat as Hle.
  { apply submseteq_length, NoDup_submseteq; [done|]. intros k Hkl. destruct (Hl k Hkl) as (Hr & H0 & Hb).
    destruct (decide (k ∈ cs)) as [Hin|Hno]; [|destruct (Hall k); [lia|by rewrite (copied_word i cs fd k C Hno) by lia]].
    pose proof (cp_head _ _ _ C) as Hh. destruct cs as [|x cs]; [done|]. injection Hh as ->. by apply elem_of_cons in Hin as [->|?]. }
  pose proof (cp_head _ _ _ C) as Hh. destruct cs as [|x cs]; [done|]. cbn [length tail] in *. lia.
Qed.

Definition turning (f0 : hfile) i '((nn, cur, f, fd) : Z * Z * hfile * hfile) : Prop :=
exists cs, copied i cs fd /\ nn = zlen cs /\ last cs = Some cur /\ (i = 0 /\ zlen cs = 1 \/ 8192 * (zlen cs - 1) < i) /\
  i <= 8192 * zlen cs /\ h_pos fd = blk_pos cur + (i - 8192 * (zlen cs - 1)) /\ f = Hfile (h_data f0) (h_len f0) i.

Lemma copy_turn_spec f0 i t l :
file_is f0 L -> blocks_free l -> blocks_of (zlen L) <= 1 + zlen l -> zlen L < 2 ^ 31 -> 0 <= i < zlen L -> turning f0 i t ->
turning f0 (i + 1) (copy_turn blk0 m fs 8192 i t).
Proof using Hs Hused.
intros [Hlen Hbytes] Hfree Hroom HL Hi. destruct t as [[[nn cur] f] fd]. intros (cs & C & -> & Hlast & Hlow & Hhigh & Hpos & ->).
pose proof (sp_range _ _ _ _ Hs) as (Hrb & Hn & Hmax). unfold blk_pos in Hmax.
destruct (lookup_lt_is_Some_2 L (Z.to_nat i)) as [c Hc]; [lia|]. destruct (Hbytes i c Hc) as [Hfc Hcr]; [lia|].
assert (hgetc (Hfile (h_data f0) (h_len f0) i) = (c, Hfile (h_data f0) (h_len f0) (i + 1))) as Eget.
{ unfold hgetc. cbn [h_pos h_len h_data]. destruct (Z.ltb_spec i (h_len f0)); [by rewrite Hfc|lia]. }
unfold copy_turn. rewrite u32_small by lia. destruct (Z.eqb_spec i (8192 * zlen cs)) as [Ei|Hne].
- assert (zlen cs <= zlen l) as Hz by (unfold blocks_of in Hroom; word_lia).
  destruct (next_block_found i cs fd l C Hfree Hz) as (k & E & Hk & Hkc & Hk0). rewrite E.
  assert (cur ∈ cs) as Hcur by (rewrite last_lookup in Hlast; by eapply list_elem_of_lookup_2).
  pose proof (cp_in _ _ _ C cur Hcur) as Hcr2. destruct (cp_image _ _ _ C) as [[_ Hl] _]. unfold blk_pos in Hl.
  unfold write_blk. rewrite (sp_rsv _ _ _ _ Hs), (sp_bps _ _ _ _ Hs), (sp_spb _ _ _ _ Hs).
  rewrite (u32_small (2 * 512 + 4 * cur)), (u32_small (2 + k * 16)), (u32_small ((2 + k * 16) * 512)) by lia.
  set (fd2 := hseek _ _).
  assert (fd2 = with_data fd (st32 (st32 (h_data fd) (1024 + 4 * k) LAST) (1024 + 4 * cur) k) (blk_pos k)) as E2.
  { unfold fd2, with_data, hrewind, hseek, hwrite_word. cbn [h_data h_len h_pos].
    destruct (Z.ltb_spec (2 * 512 + 4 * cur) 0); [lia|]. destruct (Z.ltb_spec ((2 + k * 16) * 512) 0); [lia|].
    change (0 <? 0) with false. cbv iota. cbn [h_data h_len h_pos].
    replace (2 * 512 + 4 * cur) with (1024 + 4 * cur) by lia. rewrite Z.max_l by lia. f_equal. unfold blk_pos. lia. }
  rewrite E2, Eget. pose proof (copied_link i cs fd cur k (blk_pos k) C Hlast Hk Hkc Hk0 ltac:(lia)) as C2.
  assert (zlen (cs ++ [k]) = zlen cs + 1) as El by (rewrite length_app; cbn; lia).
  exists (cs ++ [k]). rewrite El. split; [|split; [done|split; [apply last_snoc|split; [right; lia|split; [lia|split; [|done]]]]]].
  + apply (copied_byte i (cs ++ [k]) _ k c C2); [apply last_snoc|done|done|lia|]. cbn [h_pos with_data]. lia.
  + cbn [hputc h_pos with_data]. lia.
- rewrite Eget. exists cs. split; [|split; [done|split; [done|split; [right; lia|split; [lia|split; [|done]]]]]].
  + apply (copied_byte i cs fd cur c C Hlast Hc Hcr); lia.
  + cbn [hputc h_pos]. lia.
Qed.
End copying.

(** ** The files of a volume *)

Definition entry_pos (rb i : Z) : Z := blk_pos rb + 128 * i.

(** The file [L] under the name [N] in entry [i], with its bytes in the blocks [cs]. *)
Record file_stored (d : mem) (rb n i : Z) (N L cs : list Z) : Prop := {
  st_name : cells (rd d) (entry_pos rb i) 96 = entry_name N;
  st_busy : d⟦entry_pos rb i + 97⟧ <> 0;
  st_first : head cs = Some (ld32 d (entry_pos rb i + 107));
  st_size : ld32 d (entry_pos rb i + 111) = zlen L;
  st_count : zlen cs = blocks_of (zlen L);
  st_in : forall k, k ∈ cs -> rb < k < n;
  st_link : forall (j : nat) x y, cs !! j = Some x -> cs !! S j = Some y -> blk_word d x = y;
  st_last : forall x, last cs = Some x -> blk_word d x = LAST;
  st_bytes : forall x c, 0 <= x -> L !! Z.to_nat x = Some c ->
    exists k, cs !! Z.to_nat (x / 8192) = Some k /\ d⟦blk_pos k + x mod 8192⟧ = c
}.

(** The names as the directory has them. *)
Definition file_names (files : list (list Z * list Z)) : list (list Z) := (fun p => entry_name p.1) <$> files.

(** The volume holds [files], the blocks of each in [css], in the first entries of its directory; the other entries and
    blocks are free. *)
Record volume_holds (d : mem) (rb n : Z) (files : list (list Z * list Z)) (css : list (list Z)) : Prop := {
  vh_length : length css = length files;
  vh_files : forall i N L cs, files !! i = Some (N, L) -> css !! i = Some cs -> file_stored d rb n (Z.of_nat i) N L cs;
  vh_blocks : NoDup (concat css);
  vh_names : NoDup (file_names files);
  vh_entries : forall i, zlen files <= i < 64 -> d⟦entry_pos rb i + 97⟧ = 0;
  vh_free : forall k, rb < k < n -> k ∉ concat css -> blk_word d k = 0;
  vh_used : forall k, 0 <= k <= rb -> blk_word d k <> 0;
  vh_super : ld32 d (512 + 20) = 0 /\ ld32 d (512 + 24) = 2 /\ ld32 d (512 + 28) = 512 /\ ld32 d (512 + 32) = 16 /\
    ld32 d (512 + 44) = rb /\ ld32 d (512 + 36) = n
}.

Section files.
Context (m0 : mem) (fs0 rb n : Z) (Hs : super_at m0 fs0 rb n).
Implicit Types (d m : mem) (i k a : Z) (N L cs : list Z).

Lemma blk_cell_inj k j a : rb < k < n -> rb < j < n -> blk_cell k a -> blk_cell j a -> k = j.
Proof using Hs. destruct Hs as [_ _ _ _ _ (Hrb & Hn & _)]. unfold blk_cell, blk_pos. lia. Qed.

(** The entries of the directory are no cells of the files' blocks. *)
Lemma entry_cell i o k : 0 <= i < 64 -> 0 <= o < 128 -> rb < k < n -> ~ blk_cell k (entry_pos rb i + o).
Proof using Hs. destruct Hs as [_ _ _ _ _ (Hrb & Hn & _)]. unfold blk_cell, entry_pos, blk_pos. lia. Qed.

Lemma entry_no_word i o k : 0 <= i < 64 -> 0 <= o < 128 -> 0 <= k < n -> ~ 1024 + 4 * k <= entry_pos rb i + o < 1024 + 4 * k + 4.
Proof using Hs. destruct Hs as [_ _ _ _ _ (Hrb & Hn & _)]. unfold entry_pos, blk_pos. lia. Qed.

Lemma file_stored_ext d d' i N L cs :
(forall o, 0 <= o < 128 -> d'⟦entry_pos rb i + o⟧ = d⟦entry_pos rb i + o⟧) ->
(forall k a, k ∈ cs -> blk_cell k a -> d'⟦a⟧ = d⟦a⟧) -> file_stored d rb n i N L cs -> file_stored d' rb n i N L cs.
Proof using.
intros E1 E2 [F1 F2 F3 F4 F5 F6 F7 F8 F9].
assert (forall x, x ∈ cs -> blk_word d' x = blk_word d x) as Ew
  by (intros x Hx; apply blk_word_ext; intros a Ha; apply (E2 x); [done|by left]).
assert (forall o, 0 <= o -> o + 4 <= 128 -> ld32 d' (entry_pos rb i + o) = ld32 d (entry_pos rb i + o)) as El.
{ intros o Ho Ho4. apply ld_ext. intros a Ha. replace a with (entry_pos rb i + (a - entry_pos rb i)) by lia. apply E1. lia. }
constructor; try done.
- rewrite <- F1. apply cells_ext. intros o Ho. apply E1. lia.
- by rewrite E1 by lia.
- by rewrite El by lia.
- by rewrite El by lia.
- intros j x y Hx Hy. rewrite Ew by (by eapply list_elem_of_lookup_2). by apply (F7 j).
- intros x Hx. rewrite Ew by (rewrite last_lookup in Hx; by eapply list_elem_of_lookup_2). by apply F8.
- intros x c H0 Hx. destruct (F9 x c H0 Hx) as (k & Hk & Hd). exists k. split; [done|]. rewrite <- Hd.
  apply (E2 k); [by eapply list_elem_of_lookup_2|]. right. word_lia.
Qed.

(** The words of a stored file are in use. *)
Lemma file_stored_used d i N L cs k : file_stored d rb n i N L cs -> k ∈ cs -> blk_word d k <> 0.
Proof using Hs.
intros F (j & Hj)%list_elem_of_lookup. destruct (cs !! S j) as [y|] eqn:Hy.
- rewrite (st_link _ _ _ _ _ _ _ F j k y Hj Hy). assert (rb < y < n) by (apply (st_in _ _ _ _ _ _ _ F); by eapply list_elem_of_lookup_2).
  destruct Hs as [_ _ _ _ _ (Hrb & _)]. lia.
- rewrite (st_last _ _ _ _ _ _ _ F k); [done|]. rewrite last_lookup. pose proof (lookup_lt_Some _ _ _ Hj). apply lookup_ge_None in Hy.
  by replace (pred (length cs)) with j by lia.
Qed.

Lemma elem_of_blocks k (css : list (list Z)) : k ∈ concat css <-> exists (i : nat) cs, css !! i = Some cs /\ k ∈ cs.
Proof using.
rewrite list_elem_of_In, in_concat. split.
- intros (cs & Hcs & Hk). apply list_elem_of_In in Hcs, Hk. apply list_elem_of_lookup in Hcs as [i Hi]. by exists i, cs.
- intros (i & cs & Hi & Hk). exists cs. split; apply list_elem_of_In; [by eapply list_elem_of_lookup_2|done].
Qed.

Lemma volume_file d files css (i : nat) cs : volume_holds d rb n files css -> css !! i = Some cs ->
exists N L, files !! i = Some (N, L) /\ file_stored d rb n (Z.of_nat i) N L cs.
Proof using.
intros V Hi. pose proof (lookup_lt_Some _ _ _ Hi) as Hl. rewrite (vh_length _ _ _ _ _ V) in Hl.
destruct (lookup_lt_is_Some_2 files i Hl) as [[N L] E]. exists N, L. split; [done|]. by apply (vh_files _ _ _ _ _ V).
Qed.

Lemma volume_used d files css k : volume_holds d rb n files css -> k ∈ concat css -> rb < k < n /\ blk_word d k <> 0.
Proof using Hs.
intros V (i & cs & Hi & Hk)%elem_of_blocks. destruct (volume_file d files css i cs V Hi) as (N & L & _ & F).
split; [by apply (st_in _ _ _ _ _ _ _ F)|]. exact (file_stored_used d (Z.of_nat i) N L cs k F Hk).
Qed.

(** The free blocks but one. *)
Lemma free_blocks_left d files css b :
volume_holds d rb n files css -> rb < b < n ->
exists l, NoDup l /\ (forall k, k ∈ l -> rb < k < n /\ blk_word d k = 0 /\ k <> b) /\ n - rb - 2 - zlen (concat css) <= zlen l.
Proof using Hs.
intros V Hb. exists (filter (fun k => k ∉ b :: concat css) (seqZ (rb + 1) (n - rb - 1))). split; [|split].
- apply NoDup_filter, NoDup_seqZ.
- intros k [Hk Hr]%list_elem_of_filter. apply elem_of_seqZ in Hr. apply not_elem_of_cons in Hk as [Hkb Hk].
  split; [lia|]. split; [|done]. apply (vh_free _ _ _ _ _ V); [lia|done].
- set (l := filter _ _). assert (length (seqZ (rb + 1) (n - rb - 1)) <= length (l ++ b :: concat css))%nat as Hle.
  { apply submseteq_length, NoDup_submseteq; [apply NoDup_seqZ|]. intros k Hk. apply elem_of_app.
    destruct (decide (k ∈ b :: concat css)) as [Hin|Hno]; [by right|left]. by apply list_elem_of_filter. }
  rewrite length_seqZ, length_app in Hle. cbn [length] in Hle. lia.
Qed.

(** There is a free block as long as not all are taken. *)
Lemma free_block_exists d files css :
volume_holds d rb n files css -> zlen (concat css) < n - rb - 1 -> exists k, rb < k < n /\ (k ∉ concat css) /\ blk_word d k = 0.
Proof using Hs.
intros V Hlt. destruct (decide (Exists (fun k => k ∉ concat css) (seqZ (rb + 1) (n - rb - 1)))) as [(k & Hk & Hno)%Exists_exists|Hall].
- apply elem_of_seqZ in Hk. exists k. split; [lia|]. split; [done|]. apply (vh_free _ _ _ _ _ V); [lia|done].
- exfalso. assert (length (seqZ (rb + 1) (n - rb - 1)) <= length (concat css))%nat as Hle.
  { apply submseteq_length, NoDup_submseteq; [apply NoDup_seqZ|]. intros k Hk.
    destruct (decide (k ∈ concat css)) as [|Hno]; [done|]. destruct Hall. apply Exists_exists. by exists k. }
  rewrite length_seqZ in Hle. lia.
Qed.
End files.

(** ** Storing a file *)

Lemma Ret_inj {A : Type} (a b : A) : Ret a = Ret b -> a = b.
Proof. congruence. Qed.

Section storing.
Context (fopen_host : mem -> Z -> option hfile) (fuel : nat) (dir2 blk0 fs dir rb n : Z).
(** The super block, the entry that is made and the one that is read are different objects. *)
Context (Afs : apart fs 52 dir 128) (Afs2 : apart fs 52 dir2 128) (Adir : apart dir 128 dir2 128).
Implicit Types (d m : mem) (fd f : hfile) (i k a p path attr : Z) (N L l cs : list Z).

Lemma super_keep m m' :
(forall a, ~ dir <= a < dir + 128 -> ~ dir2 <= a < dir2 + 128 -> m'⟦a⟧ = m⟦a⟧) -> super_at m fs rb n -> super_at m' fs rb n.
Proof using Afs Afs2 Adir. intros E. apply super_at_ext. intros a Ha. apply E; unfold apart in *; lia. Qed.

(** The flag of the padding loop stays 0. *)
Lemma pad_filename_blank m : pad_filename m dir = blank_name m dir.
Proof using.
unfold pad_filename, blank_name, for_upto.
assert (forall j i m, for_loop j i (fun index '(off, m) => if (m⟦dir + index⟧ =? 0) || (off =? 1) then (0, m⟦dir + index := 32⟧) else (off, m)) (0, m) =
  (0, for_loop j i (fun i m => if m⟦dir + i⟧ =? 0 then m⟦dir + i := 32⟧ else m) m)) as E; [|by rewrite E].
induction j as [|j IH]; intros i m1; [done|]. cbn [for_loop]. rewrite orb_false_r. destruct (m1⟦dir + i⟧ =? 0); apply IH.
Qed.

Lemma fill_bytes_in m p k g : bytes_in m -> (forall i, 0 <= i < k -> 0 <= g i < 256) -> bytes_in (fill m p k g).
Proof using. intros Hm Hg a. rewrite rd_fill. case_within; [apply Hg; lia|apply Hm]. Qed.

(** The scan for an entry that is not busy. *)
Lemma free_entry_spec fd m root_sector j :
super_at m fs rb n -> image_ok n fd -> bytes_in m -> root_sector = 2 + 16 * rb -> 0 <= j < 64 ->
(forall i, 0 <= i < j -> (h_data fd)⟦entry_pos rb i + 97⟧ <> 0) -> (h_data fd)⟦entry_pos rb j + 97⟧ = 0 ->
exists m' p, free_entry dir2 root_sector fd m fs = inr (j, m', Hfile (h_data fd) (h_len fd) p) /\
  (forall a, ~ dir2 <= a < dir2 + 128 -> m'⟦a⟧ = m⟦a⟧) /\ bytes_in m'.
Proof using Afs Afs2 Adir.
intros Hs [Hb Hl] Hbm -> Hj Hbusy Hfree. pose proof (sp_range _ _ _ _ Hs) as (Hrb & Hn & Hmax). unfold blk_pos in Hmax, Hl.
unfold free_entry.
break_with (fun i (t : mem * hfile) => i <= j /\ exists m' p, t = (m', Hfile (h_data fd) (h_len fd) p) /\
    (forall a, ~ dir2 <= a < dir2 + 128 -> m'⟦a⟧ = m⟦a⟧) /\ bytes_in m')
  (fun i (r : Z * mem * hfile) => i = j /\ exists m' p, r = (i, m', Hfile (h_data fd) (h_len fd) p) /\
    (forall a, ~ dir2 <= a < dir2 + 128 -> m'⟦a⟧ = m⟦a⟧) /\ bytes_in m').
- split; [lia|]. exists m, (h_pos fd). by destruct fd.
- intros i t Hi (Hij & m' & p & -> & Hm' & Hbm').
  assert (super_at m' fs rb n) as Hs' by (apply (super_keep m); [intros a _ Ha; by apply Hm'|done]).
  rewrite (sp_bps _ _ _ _ Hs'). rewrite u32_small by lia. unfold hseek. cbn [h_data h_len h_pos].
  destruct (Z.ltb_spec ((2 + 16 * rb) * 512 + 128 * i) 0); [lia|]. unfold hread. cbn [h_data h_len h_pos].
  replace (Z.max 0 (Z.min 128 (h_len fd - ((2 + 16 * rb) * 512 + 128 * i)))) with 128 by lia.
  set (m2 := fill _ _ _ _).
  assert (m2⟦dir2 + 97⟧ = (h_data fd)⟦entry_pos rb i + 97⟧) as E97.
  { unfold m2. rewrite rd_fill. case_within; [|lia]. f_equal. unfold entry_pos, blk_pos. lia. }
  assert (forall a, ~ dir2 <= a < dir2 + 128 -> m2⟦a⟧ = m⟦a⟧) as Hm2 by (intros a Ha; unfold m2; rewrite rd_fill; case_within; [lia|by apply Hm']).
  assert (bytes_in m2) as Hbm2 by (apply fill_bytes_in; [done|intros; apply Hb]).
  rewrite E97. destruct (Z.eqb_spec ((h_data fd)⟦entry_pos rb i + 97⟧) 0) as [E|E].
  + assert (i = j) as -> by (destruct (Z.lt_trichotomy i j) as [?|[?|?]]; [by destruct (Hbusy i); [lia|]|done|lia]).
    split; [done|]. by eexists m2, _.
  + split; [assert (i <> j) by congruence; lia|]. by eexists m2, _.
- intros t (Hij & _). lia.
- intros i r Hi (-> & m' & p & -> & Hm' & Hbm'). by exists m', p.
Qed.

(** What the image is after an entry was written behind the word of a block. *)
Definition entry_written d0 m rb i (d : mem) : Prop :=
forall a, d⟦a⟧ = if within a (entry_pos rb i) 128 then m⟦dir + (a - entry_pos rb i)⟧ else d0⟦a⟧.

Lemma hwrite_entry m fd off i k :
image_ok n fd -> 0 < rb < n -> 0 <= i < 64 -> off = entry_pos rb i ->
let fd' := hwrite m dir 128 (hseek off (Hfile (h_data fd) (h_len fd) k)) in
h_len fd' = h_len fd /\ entry_written (h_data fd) m rb i (h_data fd').
Proof using.
intros [Hb Hl] Hrb Hi ->. unfold blk_pos in Hl. unfold hseek. cbn [h_data h_len].
destruct (Z.ltb_spec (entry_pos rb i) 0); [unfold entry_pos, blk_pos in *; lia|]. cbn [hwrite h_data h_len h_pos].
split; [unfold entry_pos, blk_pos; lia|]. intros a. apply rd_fill.
Qed.

Lemma create_in_spec attr fd m files css N :
super_at m fs rb n -> image_ok n fd -> bytes_in m -> volume_holds (h_data fd) rb n files css ->
zlen files < 64 -> zlen (concat css) < n - rb - 1 -> 0 <= attr < 256 ->
cells (rd m) dir 96 = entry_name N -> (forall o, 96 <= o < 128 -> m⟦dir + o⟧ = 0) ->
exists b0 m' fd', create_in dir2 blk0 dir attr fd m fs = (0, m', fd') /\ rb < b0 < n /\ (b0 ∉ concat css) /\
  entry_at (rd m') dir N attr b0 0 (zlen files) /\
  (forall a, ~ dir <= a < dir + 128 -> ~ dir2 <= a < dir2 + 128 -> m'⟦a⟧ = m⟦a⟧) /\ bytes_in m' /\ h_len fd' = h_len fd /\
  entry_written (st32 (h_data fd) (1024 + 4 * b0) LAST) m' rb (zlen files) (h_data fd').
Proof using Afs Afs2 Adir.
intros Hs Him Hbm V Hlen Hroom Hattr Hname Hzero. pose proof (sp_range _ _ _ _ Hs) as (Hrb & Hn & Hmax). unfold blk_pos in Hmax.
unfold create_in. set (m1 := st32 m (dir + 111) 0).
assert (super_at m1 fs rb n) as Hs1 by (apply (super_keep m); [intros a Ha _; apply rd_st_out; lia|done]).
rewrite (sp_rsv _ _ _ _ Hs1), (sp_spb _ _ _ _ Hs1), (sp_root _ _ _ _ Hs1). rewrite (u32_small (2 + rb * 16)) by lia.
destruct (search_blk_null_first blk0 fd m1 fs rb n Hs1 Him) as [(b0 & Hk & Hk0 & _ & E)|[Hall _]].
2:{ destruct (free_block_exists m fs rb n Hs _ files css V Hroom) as (k & Hk & _ & Hk0). by destruct (Hall k); [lia|]. }
rewrite E. cbv beta iota. destruct (Z.eqb_spec b0 (u32 (-1))) as [Eb|_]; [rewrite Eb in Hk; change (u32 (-1)) with 4294967295 in Hk; lia|].
assert (rb < b0) as Hb0 by (destruct (Z.ltb_spec rb b0); [done|]; by destruct (vh_used _ _ _ _ _ V b0); [lia|]).
assert (b0 ∉ concat css) as Hfree by (intros Hin; by destruct (volume_used m fs rb n Hs _ files css b0 V Hin)).
set (d1 := st32 (h_data fd) (1024 + 4 * b0) LAST). set (m2 := st32 m1 (dir + 107) b0).
assert (forall i, 0 <= i < 64 -> d1⟦entry_pos rb i + 97⟧ = (h_data fd)⟦entry_pos rb i + 97⟧) as Hd1.
{ intros i Hi. apply rd_st_out. unfold entry_pos, blk_pos. lia. }
assert (bytes_in m2) as Hbm2 by (by do 2 apply bytes_in_st).
assert (super_at m2 fs rb n) as Hs2 by (apply (super_keep m1); [intros a Ha _; apply rd_st_out; lia|done]).
assert (image_ok n (Hfile d1 (h_len fd) 0)) as Him1 by (split; [apply bytes_in_st, Him|apply Him]).
destruct (free_entry_spec (Hfile d1 (h_len fd) 0) m2 (2 + rb * 16) (zlen files) Hs2 Him1 Hbm2) as (m3 & p & E3 & Hm3 & Hbm3); [lia|lia|..].
{ intros i Hi. cbn [h_data]. rewrite Hd1 by lia. destruct (lookup_lt_is_Some_2 css (Z.to_nat i)) as [cs Hcs]; [rewrite (vh_length _ _ _ _ _ V); lia|].
  destruct (volume_file rb n _ files css _ cs V Hcs) as (N' & L' & _ & F). rewrite Z2Nat.id in F by lia. apply F. }
{ cbn [h_data]. rewrite Hd1 by lia. apply (vh_entries _ _ _ _ _ V). lia. }
rewrite E3. cbv beta iota zeta. cbn [h_data h_len].
set (m4 := (st32 m3 (dir + 115) (zlen files))⟦dir + 97 := u8 (-1)⟧⟦dir + 98 := u8 attr⟧).
assert (forall a, ~ dir <= a < dir + 128 -> m4⟦a⟧ = m3⟦a⟧) as Hm4 by (intros a Ha; unfold m4; by rewrite !rd_wr_ne, rd_st_out by lia).
assert (super_at m4 fs rb n) as Hs4.
{ apply (super_keep m2); [|done]. intros a Ha Ha2. by rewrite Hm4, Hm3. }
assert (ld32 m4 (dir + 115) = zlen files) as E115.
{ unfold m4. rewrite !ld_wr_ne by lia. rewrite ld_st_eq. apply Z.mod_small. change (256 ^ Z.of_nat 4) with (2 ^ 32). lia. }
assert (forall a, dir <= a < dir + 128 -> m3⟦a⟧ = m2⟦a⟧) as Hm3d by (intros a Ha; apply Hm3; unfold apart in Adir; lia).
rewrite E115, (sp_bps _ _ _ _ Hs4), u32_small by lia.
destruct (hwrite_entry m4 (Hfile d1 (h_len fd) 0) ((2 + rb * 16) * 512 + 128 * zlen files) (zlen files) p Him1) as [Hl Hw];
  [lia|lia|unfold entry_pos, blk_pos; lia|]. cbn [h_data h_len] in Hl, Hw.
eexists b0, m4, _. split; [reflexivity|]. split; [lia|]. split; [done|]. split; [|split; [|split; [|split; [exact Hl|exact Hw]]]].
- assert (forall o, 0 <= o < 97 \/ 99 <= o < 115 -> m4⟦dir + o⟧ = m2⟦dir + o⟧) as Hlow.
  { intros o Ho. unfold m4. rewrite !rd_wr_ne, rd_st_out by lia. apply Hm3d. lia. }
  assert (forall o, 0 <= o < 107 -> m2⟦dir + o⟧ = m⟦dir + o⟧) as Hm2.
  { intros o Ho. unfold m2, m1. by rewrite !rd_st_out by lia. }
  constructor.
  + rewrite <- Hname. apply cells_ext. intros o Ho. rewrite Hlow, Hm2 by lia. done.
  + unfold m4. rewrite rd_wr_ne, rd_wr_eq by lia. reflexivity.
  + unfold m4. rewrite rd_wr_eq. by apply u8_small.
  + rewrite <- ld_word_of. transitivity (ld32 m2 (dir + 107)).
    * apply ld_ext. intros a Ha. replace a with (dir + (a - dir)) by lia. apply Hlow. lia.
    * unfold m2. rewrite ld_st_eq. apply Z.mod_small. change (256 ^ Z.of_nat 4) with (2 ^ 32). lia.
  + rewrite <- ld_word_of. transitivity (ld32 m1 (dir + 111)).
    * apply ld_ext. intros a Ha. replace a with (dir + (a - dir)) by lia. rewrite Hlow by lia. apply rd_st_out. lia.
    * unfold m1. rewrite ld_st_eq. done.
  + rewrite <- ld_word_of. exact E115.
- intros a Ha Ha2. rewrite Hm4, Hm3 by done. unfold m2, m1. by rewrite !rd_st_out by lia.
- unfold m4. apply bytes_in_wr; [|apply u8_range]. apply bytes_in_wr; [|apply u8_range]. by apply bytes_in_st.
Qed.

Lemma create_file_spec fd m path attr l N f0 files css :
super_at m fs rb n -> image_ok n fd -> bytes_in m -> volume_holds (h_data fd) rb n files css ->
zlen files < 64 -> zlen (concat css) < n - rb - 1 -> 0 <= attr < 256 ->
cstr m path (l ++ N) -> dir_prefix l -> no_slash N -> (length N <= 96)%nat -> (length l + length N < fuel)%nat ->
Path.clear_of path (l ++ N) dir 128 -> (forall m', cstr m' path (l ++ N) -> fopen_host m' path = Some f0) ->
exists b0 m' fd', create_file fopen_host fuel dir2 blk0 path fd m fs dir attr = Ret (0, m', fd') /\ rb < b0 < n /\ (b0 ∉ concat css) /\
  entry_at (rd m') dir N attr b0 0 (zlen files) /\
  (forall a, ~ dir <= a < dir + 128 -> ~ dir2 <= a < dir2 + 128 -> m'⟦a⟧ = m⟦a⟧) /\ bytes_in m' /\ h_len fd' = h_len fd /\
  entry_written (st32 (h_data fd) (1024 + 4 * b0) LAST) m' rb (zlen files) (h_data fd').
Proof using Afs Afs2 Adir.
intros Hs Him Hbm V Hlen Hroom Hattr Hpath Hl HN HN96 Hfuel Hcl Hopen. unfold create_file.
assert (cstr (memset m dir 0 128) path (l ++ N)) as Hpath1.
{ apply (cstr_keep m _ _ _ dir 128 Hcl); [|done]. intros b Hb. rewrite rd_memset. by rewrite not_within by lia. }
rewrite (Hopen _ Hpath1), bool_decide_eq_true_2 by (by eexists). rewrite andb_false_r.
destruct (new_entry_spec fuel m dir 128 path l N ltac:(lia) Hpath Hl HN HN96 Hfuel Hcl) as (m2 & E & Hname & Hz & Hout).
apply outcome_bind_ret in E as (q & Eq & E). apply outcome_bind_ret in E as (m1 & E1 & E). apply Ret_inj in E as <-.
assert (bytes_in m1) as Hb1.
{ unfold strcpy in E1. apply outcome_bind_ret in E1 as ([m3 e] & E3 & E4). apply Ret_inj in E4 as <-.
  apply bytes_in_wr; [|lia]. exact (bytes_in_strcpy_loop _ _ _ _ _ _ (bytes_in_memset m dir 0 128 Hbm) E3). }
rewrite Eq, bind_ret, E1, bind_ret, pad_filename_blank. set (m2 := blank_name m1 dir) in *.
assert (bytes_in m2) as Hb2.
{ intros a. unfold m2. rewrite rd_blank_name. specialize (Hb1 a). destruct (within_spec a dir 96); [destruct (m1⟦a⟧ =? 0)|]; lia. }
assert (super_at m2 fs rb n) as Hs2 by (apply (super_keep m); [intros a Ha _; by apply Hout|done]).
destruct (create_in_spec attr fd m2 files css N Hs2 Him Hb2 V Hlen Hroom Hattr Hname) as (b0 & m3 & fd' & E & Hb0 & Hc & Hent & Hm3 & Hbm3 & Hl3 & Hd3).
{ intros o Ho. rewrite Hz by lia. by destruct (Z.ltb_spec o 128); [|lia]. }
exists b0, m3, fd'. rewrite E. split; [done|]. split; [done|]. split; [done|]. split; [done|]. split; [|done].
intros a Ha Ha2. rewrite Hm3 by done. by apply Hout.
Qed.

Lemma copy_spec d0 fd m path f0 L files css N attr b0 :
super_at m fs rb n -> image_ok n fd -> bytes_in m -> volume_holds d0 rb n files css -> zlen files < 64 ->
rb < b0 < n -> (b0 ∉ concat css) -> bytes_in d0 -> entry_at (rd m) dir N attr b0 0 (zlen files) ->
entry_written (st32 d0 (1024 + 4 * b0) LAST) m rb (zlen files) (h_data fd) ->
fopen_host m path = Some f0 -> file_is f0 L -> zlen L < 2 ^ 31 -> zlen (concat css) + blocks_of (zlen L) <= n - rb - 1 ->
exists m2 d2 fd' cs, copy fopen_host blk0 fd m fs dir path = (m2, fd') /\
  entry_at (rd m2) dir N attr b0 (zlen L) (zlen files) /\ (forall a, ~ dir <= a < dir + 128 -> m2⟦a⟧ = m⟦a⟧) /\ bytes_in m2 /\
  entry_written (st32 d0 (1024 + 4 * b0) LAST) m2 rb (zlen files) d2 /\
  copied rb n d2 L b0 (h_len fd) (zlen L) cs fd' /\ zlen cs = blocks_of (zlen L).
Proof using Afs Afs2 Adir.
intros Hs Him Hbm V Hlen Hb0 Hfree Hbd He Hw Hopen HfL HL Hroom. pose proof (sp_range _ _ _ _ Hs) as (Hrb & Hn & Hmax). unfold blk_pos in Hmax.
destruct He as [E1 E2 E3 E4 E5 E6]. rewrite <- ld_word_of in E4, E5, E6.
unfold copy. rewrite Hopen, E4. cbv zeta. pose proof (fi_len _ _ HfL) as HlenL.
assert (hseek_end f0 = Hfile (h_data f0) (h_len f0) (h_len f0)) as ->.
{ unfold hseek_end, hseek. destruct (Z.ltb_spec (h_len f0) 0); [lia|done]. }
cbn [h_pos]. replace (u32 (h_len f0)) with (zlen L) by (rewrite HlenL, u32_small by lia; done). set (m2 := st32 m (dir + 111) (zlen L)).
assert (super_at m2 fs rb n) as Hs2 by (apply (super_keep m); [intros a Ha _; apply rd_st_out; lia|done]).
rewrite !(sp_rsv _ _ _ _ Hs), !(sp_spb _ _ _ _ Hs), !(sp_root _ _ _ _ Hs), !(sp_bps _ _ _ _ Hs).
assert (ld32 m2 (dir + 115) = zlen files) as E115 by (rewrite <- E6; apply ld_st_ne; lia).
assert (ld32 m2 (dir + 107) = b0) as E107 by (rewrite <- E4; apply ld_st_ne; lia).
assert (ld32 m2 (dir + 111) = zlen L) as E111.
{ unfold m2. rewrite ld_st_eq. apply Z.mod_small. change (256 ^ Z.of_nat 4) with (2 ^ 32). lia. }
rewrite E115, E107, E111. change (u32 (16 * 512)) with 8192.
rewrite !(sp_bps _ _ _ _ Hs2).
rewrite (u32_small (2 + rb * 16)), (u32_small (2 + b0 * 16)), (u32_small ((2 + b0 * 16) * 512)), (u32_small ((2 + rb * 16) * 512 + 128 * zlen files)) by lia.
assert (fd = Hfile (h_data fd) (h_len fd) (h_pos fd)) as Efd by (by destruct fd).
destruct (hwrite_entry m2 fd ((2 + rb * 16) * 512 + 128 * zlen files) (zlen files) (h_pos fd) Him) as [Hl2 Hw2];
  [lia|lia|unfold entry_pos, blk_pos; lia|]. rewrite <- Efd in Hl2, Hw2.
set (fd2 := hwrite _ _ _ _) in *. set (d2 := h_data fd2) in *.
assert (entry_written (st32 d0 (1024 + 4 * b0) LAST) m2 rb (zlen files) d2) as Hd2.
{ intros a. rewrite Hw2. destruct (within_spec a (entry_pos rb (zlen files)) 128) as [|Ho]; [done|]. rewrite Hw.
  by rewrite not_within by done. }
assert (bytes_in m2) as Hbm2 by (by apply bytes_in_st).
assert (bytes_in d2) as Hbd2.
{ intros a. rewrite Hd2. case_within; [apply Hbm2|]. by apply bytes_in_st. }
assert (forall k, 0 <= k < n -> blk_word d2 k = if k =? b0 then LAST else blk_word d0 k) as Hword.
{ intros k Hk. rewrite <- blk_word_st by (unfold LAST; lia). apply blk_word_ext. intros a Ha. rewrite Hd2, not_within; [done|].
  unfold entry_pos, blk_pos. lia. }
assert (forall j, 0 <= j <= rb -> blk_word d2 j <> 0) as Hused.
{ intros j Hj. rewrite Hword by lia. destruct (Z.eqb_spec j b0); [done|]. by apply (vh_used _ _ _ _ _ V). }
destruct (free_blocks_left m fs rb n Hs d0 files css b0 V Hb0) as (lf & Hnd & Hlf & Hlenf).
assert (blocks_free rb n d2 b0 lf) as Hbf.
{ split; [done|]. intros k Hk. destruct (Hlf k Hk) as (Hr & H0 & Hne). split; [done|]. split; [|done]. rewrite Hword by lia.
  by destruct (Z.eqb_spec k b0). }
unfold hrewind, hseek. cbn [h_data h_len h_pos]. change (0 <? 0) with false. cbv iota.
destruct (Z.ltb_spec ((2 + b0 * 16) * 512) 0); [lia|]. fold d2. rewrite Hl2.
set (fd3 := Hfile d2 (h_len fd) ((2 + b0 * 16) * 512)).
assert (copied rb n d2 L b0 (h_len fd) 0 [b0] fd3) as C0.
{ constructor; try done.
  - apply NoDup_singleton.
  - by intros k ->%list_elem_of_singleton.
  - by intros k Hk%not_elem_of_nil.
  - intros x [= <-]. cbn [h_data fd3]. rewrite Hword by lia. by rewrite Z.eqb_refl.
  - intros; lia.
  - split; [|done]. split; [done|apply Him]. }
pose proof (for_upto_inv (turning rb n d2 L b0 (h_len fd) f0) 0 (zlen L) (copy_turn blk0 m2 fs 8192)
  (1, b0, Hfile (h_data f0) (h_len f0) 0, fd3) ltac:(lia)) as Hloop.
destruct (for_upto 0 (zlen L) (copy_turn blk0 m2 fs 8192) (1, b0, Hfile (h_data f0) (h_len f0) 0, fd3)) as [[[nn cur] f] fd4].
destruct Hloop as (cs & C & _ & _ & Hlow & Hhigh & _).
{ exists [b0]. split; [exact C0|]. split; [done|]. split; [done|]. split; [by left|]. split; [cbn; lia|].
  split; [|done]. cbn [fd3 h_pos]. unfold blk_pos. cbn. lia. }
{ intros i t Hi Ht. apply (copy_turn_spec blk0 m2 fs rb n Hs2 d2 L b0 (h_len fd) Hused f0 i t lf HfL Hbf); [lia|done|done|done]. }
exists m2, d2, (Hfile (h_data fd4) (h_len fd4) 0), cs. split; [done|]. split; [|split; [|split; [done|split; [exact Hd2|split]]]].
- constructor; rewrite <- ?ld_word_of; try done.
  + rewrite <- E1. apply cells_ext. intros o Ho. apply rd_st_out. lia.
  + rewrite <- E2. apply rd_st_out. lia.
  + rewrite <- E3. apply rd_st_out. lia.
- intros a Ha. apply rd_st_out. lia.
- destruct C as [G1 G2 G3 G4 G5 G6 G7 G8 G9]. by constructor.
- assert (zlen cs <> 0) by (destruct C as [G1 _ _ _ _ _ _ _ _]; by destruct cs). unfold blocks_of. word_lia.
Qed.

(** The volume with the file that was copied. *)
Lemma volume_extended m d0 d2 m2 files css cs N L b0 len fd :
super_at m fs rb n -> volume_holds d0 rb n files css -> zlen files < 64 -> (b0 ∉ concat css) ->
entry_at (rd m2) dir N 0x20 b0 (zlen L) (zlen files) ->
entry_written (st32 d0 (1024 + 4 * b0) LAST) m2 rb (zlen files) d2 ->
copied rb n d2 L b0 len (zlen L) cs fd -> zlen cs = blocks_of (zlen L) ->
entry_name N ∉ file_names files ->
volume_holds (h_data fd) rb n (files ++ [(N, L)]) (css ++ [cs]).
Proof using.
intros Hs V Hlen Hfree He Hd2 C Hcount Hnew. pose proof (sp_range _ _ _ _ Hs) as (Hrb & Hn & Hmax).
set (idx := zlen files) in *. set (d' := h_data fd). pose proof (cp_head _ _ _ _ _ _ _ _ _ C) as Hhead.
assert (b0 ∈ cs) as Hb0 by (destruct cs; [done|injection Hhead as ->; by left]).
pose proof (cp_in _ _ _ _ _ _ _ _ _ C) as Hin. pose proof (Hin b0 Hb0) as Hb0r.
assert (forall a, ~ (exists o, 0 <= o < 128 /\ a = entry_pos rb idx + o) -> ~ 1024 + 4 * b0 <= a < 1024 + 4 * b0 + 4 -> d2⟦a⟧ = d0⟦a⟧) as U2.
{ intros a Ha Hw. rewrite Hd2, not_within; [apply rd_st_out; lia|]. intros Hr. apply Ha. exists (a - entry_pos rb idx). lia. }
assert (forall k, 0 <= k < n -> k <> b0 -> blk_word d2 k = blk_word d0 k) as Hw2.
{ intros k Hk Hne. apply blk_word_ext. intros a Ha. apply U2; [|lia]. intros (o & Ho & ->).
  by apply (entry_no_word m fs rb n Hs idx o k); [lia|lia|lia|]. }
assert (forall k, k ∈ cs -> k ∉ concat css) as Hdis.
{ intros k Hk Hkc. destruct (volume_used m fs rb n Hs d0 files css k V Hkc) as [Hkr Hk0]. destruct (decide (k = b0)) as [->|Hne]; [done|].
  apply Hk0. rewrite <- Hw2 by lia. apply (cp_free _ _ _ _ _ _ _ _ _ C). destruct cs as [|x cs]; [done|]. injection Hhead as ->.
  by apply elem_of_cons in Hk as [->|?]. }
assert (forall i o, 0 <= i < 64 -> 0 <= o < 128 -> d'⟦entry_pos rb i + o⟧ = d2⟦entry_pos rb i + o⟧) as Hent.
{ intros i o Hi Ho. apply (cp_out _ _ _ _ _ _ _ _ _ C). intros k Hk. apply (entry_cell m fs rb n Hs); [done|done|by apply Hin]. }
assert (forall i o, 0 <= i < 64 -> i <> idx -> 0 <= o < 128 -> d'⟦entry_pos rb i + o⟧ = d0⟦entry_pos rb i + o⟧) as Hent0.
{ intros i o Hi Hne Ho. rewrite Hent by done. apply U2; [|apply (entry_no_word m fs rb n Hs); lia].
  intros (o' & Ho' & E). unfold entry_pos in E. lia. }
assert (forall o, 0 <= o < 128 -> d'⟦entry_pos rb idx + o⟧ = m2⟦dir + o⟧) as Hnewent.
{ intros o Ho. rewrite Hent by lia. rewrite Hd2. case_within; [f_equal; lia|lia]. }
destruct He as [E1 E2 _ E4 E5 _].
assert (forall o, 0 <= o -> o + 4 <= 128 -> ld32 d' (entry_pos rb idx + o) = word_of 4 (rd m2) (dir + o)) as Hword.
{ intros o Ho Ho4. rewrite ld_word_of. apply word_of_ext. intros x Hx. rewrite <- !Z.add_assoc. apply Hnewent. lia. }
constructor.
- rewrite !length_app. cbn. by rewrite (vh_length _ _ _ _ _ V).
- intros i N' L' cs' Hi Hcs. destruct (decide (i < length files)%nat) as [Hlt|Hge].
  + rewrite lookup_app_l in Hi by done. rewrite lookup_app_l in Hcs by (by rewrite (vh_length _ _ _ _ _ V)).
    pose proof (vh_files _ _ _ _ _ V i N' L' cs' Hi Hcs) as F.
    assert (forall k, k ∈ cs' -> k ∈ concat css) as Hcc by (intros k Hk; apply elem_of_blocks; by exists i, cs').
    apply (file_stored_ext rb n d0); [intros o Ho; apply Hent0; lia| |exact F].
    intros k a Hk Hc. pose proof (st_in _ _ _ _ _ _ _ F k Hk) as Hkr. transitivity d2⟦a⟧.
    * apply (cp_out _ _ _ _ _ _ _ _ _ C). intros j Hj Hcj.
      assert (k = j) as -> by (apply (blk_cell_inj m fs rb n Hs k j a); [done|by apply Hin|done|done]). by apply (Hdis j); [|apply Hcc].
    * apply U2.
      -- intros (o & Ho & ->). by apply (entry_cell m fs rb n Hs idx o k); [lia|lia|lia|].
      -- intros Hw. assert (k = b0) as -> by (apply (blk_cell_inj m fs rb n Hs k b0 a); [done|done|done|by left]).
         by apply Hfree, Hcc.
  + rewrite lookup_app_r in Hi by lia. rewrite lookup_app_r in Hcs by (rewrite (vh_length _ _ _ _ _ V); lia).
    rewrite (vh_length _ _ _ _ _ V) in Hcs. destruct (i - length files)%nat as [|?] eqn:Ei; [|done]. injection Hi as <- <-. injection Hcs as <-.
    replace (Z.of_nat i) with idx by lia. constructor.
    * rewrite <- E1. apply cells_ext. intros o Ho. apply Hnewent. lia.
    * rewrite Hnewent, E2 by lia. done.
    * rewrite Hhead. f_equal. by rewrite Hword by lia.
    * by rewrite Hword by lia.
    * done.
    * done.
    * apply (cp_link _ _ _ _ _ _ _ _ _ C).
    * apply (cp_last _ _ _ _ _ _ _ _ _ C).
    * intros x c H0 Hx. destruct (cp_bytes _ _ _ _ _ _ _ _ _ C x) as (k & Hk & Hb).
      { apply lookup_lt_Some in Hx. lia. }
      exists k. split; [done|]. rewrite Hx in Hb. by injection Hb.
- rewrite concat_app. cbn. rewrite app_nil_r. apply NoDup_app. split; [apply V|]. split; [|apply C].
  intros k Hk Hkc. by apply (Hdis k).
- unfold file_names in *. rewrite fmap_app. apply NoDup_app. split; [apply V|]. split; [|apply NoDup_singleton].
  intros x Hx ->%list_elem_of_singleton. done.
- intros i Hi. rewrite length_app in Hi. cbn [length] in Hi. rewrite Hent0 by lia. apply (vh_entries _ _ _ _ _ V). lia.
- intros k Hk Hno. rewrite concat_app in Hno. cbn in Hno. rewrite app_nil_r in Hno. apply not_elem_of_app in Hno as [Hno1 Hno2].
  unfold d'. rewrite (copied_word m fs rb n Hs _ _ _ _ _ _ _ _ C Hno2) by lia. rewrite Hw2 by (lia || congruence). by apply (vh_free _ _ _ _ _ V).
- intros k Hk. assert (k ∉ cs) as Hno by (intros Hkc; specialize (Hin k Hkc); lia).
  unfold d'. rewrite (copied_word m fs rb n Hs _ _ _ _ _ _ _ _ C Hno) by lia. rewrite Hw2 by lia. by apply (vh_used _ _ _ _ _ V).
- assert (forall a, a < 1024 -> d'⟦a⟧ = d0⟦a⟧) as Hlow.
  { intros a Ha. transitivity d2⟦a⟧.
    - apply (cp_out _ _ _ _ _ _ _ _ _ C). intros k Hk. specialize (Hin k Hk). unfold blk_cell, blk_pos. lia.
    - apply U2; [|lia]. intros (o & Ho & ->). unfold entry_pos, blk_pos in Ha. lia. }
  assert (forall a, a + 4 <= 1024 -> ld32 d' a = ld32 d0 a) as Hl by (intros a Ha; apply ld_ext; intros b Hb; apply Hlow; lia).
  rewrite !Hl by lia. apply V.
Qed.

Lemma store_spec fd m path l N f0 L files css :
super_at m fs rb n -> image_ok n fd -> bytes_in m -> volume_holds (h_data fd) rb n files css -> zlen files < 64 ->
cstr m path (l ++ N) -> dir_prefix l -> no_slash N -> (length N <= 96)%nat -> (length l + length N < fuel)%nat ->
Path.clear_of path (l ++ N) dir 128 -> Path.clear_of path (l ++ N) dir2 128 ->
(forall m', cstr m' path (l ++ N) -> fopen_host m' path = Some f0) -> file_is f0 L -> zlen L < 2 ^ 31 ->
zlen (concat css) + blocks_of (zlen L) <= n - rb - 1 -> entry_name N ∉ file_names files ->
exists m' fd' cs, store fopen_host fuel dir2 blk0 0x20 fd m fs dir path = Ret (m', fd') /\
  super_at m' fs rb n /\ bytes_in m' /\ image_ok n fd' /\
  volume_holds (h_data fd') rb n (files ++ [(N, L)]) (css ++ [cs]).
Proof using Afs Afs2 Adir.
intros Hs Him Hbm V Hlen Hpath Hl HN HN96 Hfuel Hcl Hcl2 Hopen HfL HL Hroom Hnew.
assert (zlen (concat css) < n - rb - 1) as Hroom1 by (unfold blocks_of in Hroom; lia).
destruct (create_file_spec fd m path 0x20 l N f0 files css Hs Him Hbm V Hlen Hroom1 ltac:(lia) Hpath Hl HN HN96 Hfuel Hcl Hopen)
  as (b0 & m1 & fd1 & E1 & Hb0 & Hfree & He & Hm1 & Hbm1 & Hl1 & Hw1).
assert (super_at m1 fs rb n) as Hs1 by (by apply (super_keep m)).
assert (image_ok n fd1) as Him1.
{ split; [|rewrite Hl1; apply Him]. intros a. rewrite Hw1. case_within; [apply Hbm1|]. apply bytes_in_st, Him. }
assert (cstr m1 path (l ++ N)) as Hpath1.
{ apply (cstr_ext m); [|done]. intros a Ha. unfold Path.clear_of in Hcl, Hcl2. apply Hm1; lia. }
destruct (copy_spec (h_data fd) fd1 m1 path f0 L files css N 0x20 b0 Hs1 Him1 Hbm1 V Hlen Hb0 Hfree (proj1 Him) He Hw1 (Hopen m1 Hpath1) HfL HL Hroom)
  as (m2 & d2 & fd2 & cs & E2 & He2 & Hm2 & Hbm2 & Hd2 & C & Hcount).
exists m2, fd2, cs. unfold store. rewrite E1, bind_ret. cbv beta iota. change ((32 =? 32) && (0 =? 0)) with true. cbv iota. rewrite E2.
split; [done|]. split; [apply (super_keep m1); [intros a Ha _; by apply Hm2|done]|]. split; [done|].
split; [apply C|]. by apply (volume_extended m1 (h_data fd) d2 m2 files css cs N L b0 (h_len fd1)).
Qed.
End storing.

(** ** What the kernel finds in an image *)

Definition image_volume (rb : Z) : volume := Vol 0 2 512 16 rb.

Section reading.
Context (m0 : mem) (fs0 rb n : Z) (Hs : super_at m0 fs0 rb n).
Context (d : mem) (files : list (list Z * list Z)) (css : list (list Z)) (V : volume_holds d rb n files css) (Hd : bytes_in d) (dv : Z).
Implicit Types (k c o : Z) (N L cs : list Z).

Lemma image_word l a o : l * 512 + o = a -> word_of 4 (image_bytes d 512 dv l) o = ld32 d a.
Proof using. intros <-. rewrite ld_word_of. apply word_of_ext. intros x Hx. unfold image_bytes. f_equal. lia. Qed.

Lemma image_volume_on : volume_on (image_bytes d 512) dv (image_volume rb).
Proof using V.
destruct (vh_super _ _ _ _ _ V) as (S1 & S2 & S3 & S4 & S5 & _).
constructor; cbn [v_hidden v_rsv v_bps v_spb v_root image_volume].
1-5: erewrite image_word by reflexivity; done.
- unfold BUFSIZ. lia.
- intros c. unfold table_sector. cbn [v_hidden v_rsv v_bps image_volume]. pose proof (u32_range (c * 4)). word_lia.
Qed.

Lemma image_next_block c : 0 <= c < n -> next_block (image_bytes d 512) dv (image_volume rb) c = blk_word d c.
Proof using Hs.
intros Hc. pose proof (sp_range _ _ _ _ Hs) as (Hrb & Hn & Hmax). unfold blk_pos in Hmax. unfold next_block, table_sector.
cbn [v_hidden v_rsv v_bps image_volume]. apply image_word. rewrite (u32_small (c * 4)) by lia. rewrite u32_small by word_lia.
change (512 / 4) with 128. word_lia.
Qed.

Lemma image_chain cs :
cs <> [] -> (forall k, k ∈ cs -> rb < k < n) ->
(forall (j : nat) x y, cs !! j = Some x -> cs !! S j = Some y -> blk_word d x = y) -> (forall x, last cs = Some x -> blk_word d x = LAST) ->
Open.chain_of (image_bytes d 512) dv (image_volume rb) (default 0 (head cs)) cs.
Proof using Hs.
pose proof (sp_range _ _ _ _ Hs) as (Hrb & Hn & Hmax). unfold blk_pos in Hmax.
induction cs as [|x cs IH]; intros Hne Hin Hlink Hlast; [done|]. assert (rb < x < n) as Hx by (apply Hin; by left).
change (default 0 (head (x :: cs))) with x. cbn [Open.chain_of]. split; [done|]. rewrite image_next_block by lia. destruct cs as [|y cs].
- by rewrite (Hlast x).
- rewrite (Hlink 0%nat x y) by done. split; [|apply IH; [done|intros k Hk; apply Hin; by right|intros j; apply (Hlink (S j))|exact Hlast]].
  assert (rb < y < n) by (apply Hin; right; by left). intros E. change (u32 EOF) with 4294967295 in E. lia.
Qed.

Lemma image_entry i N L cs :
files !! i = Some (N, L) -> css !! i = Some cs -> (i < 64)%nat ->
entry_on (image_bytes d 512) dv (image_volume rb) (Z.of_nat i) N (default 0 (head cs)) (zlen L).
Proof using Hs V.
intros Hi Hcs Hi64. pose proof (sp_range _ _ _ _ Hs) as (Hrb & Hn & Hmax). unfold blk_pos in Hmax.
assert (root_sector (image_volume rb) * 512 = blk_pos rb) as Hroot.
{ unfold root_sector. cbn [v_hidden v_rsv v_spb v_root image_volume]. change (u32 (2 + 0)) with 2. rewrite u32_small by lia. unfold blk_pos. lia. }
assert (forall j, entry_bytes (image_bytes d 512) dv (image_volume rb) j = cells (rd d) (entry_pos rb j) 96) as Hbytes.
{ intros j. apply cells_ext. intros o Ho. unfold image_bytes, entry_pos. f_equal. lia. }
pose proof (vh_files _ _ _ _ _ V i N L cs Hi Hcs) as F. constructor.
- cbn [v_bps v_spb image_volume]. lia.
- rewrite Hbytes. apply F.
- intros j Hj E. rewrite Hbytes in E. destruct (lookup_lt_is_Some_2 files (Z.to_nat j)) as [[N' L'] Hj'].
  { apply lookup_lt_Some in Hi. lia. }
  destruct (lookup_lt_is_Some_2 css (Z.to_nat j)) as [cs' Hcs']; [rewrite (vh_length _ _ _ _ _ V); by eapply lookup_lt_Some|].
  pose proof (st_name _ _ _ _ _ _ _ (vh_files _ _ _ _ _ V _ _ _ _ Hj' Hcs')) as E'. rewrite Z2Nat.id in E' by lia. rewrite E in E'.
  assert (Z.to_nat j = i) as Eij; [|lia]. apply (NoDup_lookup (file_names files) _ _ (entry_name N)); [apply V|..];
    unfold file_names; rewrite list_lookup_fmap; [rewrite Hj'|by rewrite Hi]. cbn. by rewrite E'.
- rewrite (image_word _ (entry_pos rb (Z.of_nat i) + 107)) by (unfold entry_pos; lia). rewrite (st_first _ _ _ _ _ _ _ F). done.
- rewrite (image_word _ (entry_pos rb (Z.of_nat i) + 111)) by (unfold entry_pos; lia). apply F.
Qed.

Lemma image_file_read {H : Type} `{BudgetLaws H} (read_sector : disk) (s : sys H) (B : gmap Z Z) filename dst size i N L :
disk_holds read_sector 512 (image_bytes d 512) -> files !! i = Some (N, L) -> (i < 64)%nat -> heap_ok (heap s) B ->
budget (heap s) (11 + (blocks_of (zlen L) + 1023) / 1024) ->
live_range B filename (zlen N + 1) -> cstr (bytes_of s) filename N -> (length N <= 96)%nat ->
0 <= size < 2 ^ 64 -> live_range B dst size ->
exists fp s1 s2, open_file read_sector dv filename s = Ret (fp, s1) /\
  fread read_sector dst 1 size fp s1 = Ret (Z.min size (zlen L), s2) /\
  forall j c, 0 <= j < size -> L !! Z.to_nat j = Some c -> (bytes_of s2)⟦dst + j⟧ = c.
Proof using Hs V Hd.
intros Hdisk Hi Hi64 Hok Hbud Ln Hc HN Hsz Ldst.
destruct (lookup_lt_is_Some_2 css i) as [cs Hcs]; [rewrite (vh_length _ _ _ _ _ V); by eapply lookup_lt_Some|].
pose proof (vh_files _ _ _ _ _ V i N L cs Hi Hcs) as F. pose proof (sp_range _ _ _ _ Hs) as (Hrb & Hn & Hmax). unfold blk_pos in Hmax.
assert (0 <= zlen L < 2 ^ 32) as HL by (rewrite <- (st_size _ _ _ _ _ _ _ F); by apply (ld_range 4)).
pose proof (st_count _ _ _ _ _ _ _ F) as Hcount.
assert (cs <> []) as Hne by (intros ->; cbn in Hcount; unfold blocks_of in Hcount; lia).
pose proof (image_entry i N L cs Hi Hcs Hi64) as He.
pose proof (image_chain cs Hne (st_in _ _ _ _ _ _ _ F) (st_link _ _ _ _ _ _ _ F) (st_last _ _ _ _ _ _ _ F)) as Hch.
assert (forall l o, 0 <= image_bytes d 512 dv l o < 256) as Hb by (intros l o; apply Hd).
assert (zlen cs <= 1048576 /\ zlen L <= zlen cs * 8192) as [Hn20 Hfit] by (rewrite Hcount; unfold blocks_of; word_lia).
destruct (open_file_spec read_sector (image_bytes d 512) dv (image_volume rb) Hdisk image_volume_on Hb filename s B N (Z.of_nat i)
  (default 0 (head cs)) (zlen L) cs 0 He Hch Hn20 HL Hfit Hok ltac:(lia)) as (fp & b & bl & tbls & fl & h1 & m1 & B1 & E1 & Hop & _ & _ & _ & U1).
{ unfold tables_of. by rewrite Hcount, Z.add_0_r. }
{ done. }
{ done. }
{ done. }
set (s1 := Sys h1 m1 _ _) in *. clearbody s1. pose proof Hop as [Hrep Hgeo _ _ _ _].
destruct (fread_delivers read_sector 512 (image_bytes d 512) fp b bl (zlen cs) dv 16 8192 (zlen L) (table_at tbls) (sector_at (image_volume rb) cs)
  s1 0 dst 1 size Hgeo Hrep) as (s2 & E2 & _ & Hin2 & _); try lia.
{ intros j Hj. apply (outside_stream read_sector (image_bytes d 512) dv (image_volume rb) fp b bl cs tbls (zlen L) s1); [done|].
  apply U1, Ldst. lia. }
exists fp, s1, s2. split; [exact E1|]. rewrite Z.mul_1_l, Z.sub_0_r, Z.div_1_r in E2. split; [exact E2|].
intros j c Hj Hjc. pose proof (lookup_lt_Some _ _ _ Hjc). rewrite Hin2 by lia.
destruct (st_bytes _ _ _ _ _ _ _ F j c ltac:(lia) Hjc) as (k & Hk & <-). rewrite Z.add_0_l. unfold file_byte, sector_at, image_bytes, blk_lba.
rewrite Hk. cbn [default v_hidden v_rsv v_spb image_volume]. f_equal.
assert (rb < k < n) by (apply (st_in _ _ _ _ _ _ _ F); by eapply list_elem_of_lookup_2).
change (id k) with k. rewrite (u32_small (k * 16)), u32_small by lia. unfold blk_pos. lia.
Qed.
End reading.

(** ** Formatting *)

Section formatting.
Implicit Types (d m : mem) (fd f : hfile) (fs rb n i k a p len c : Z).

(** A loop that writes [c] words. *)
Lemma write_words (g : Z -> Z) d len p c :
0 <= p -> 0 <= c -> p + 4 * c <= len -> bytes_in d ->
exists d', for_upto 0 c (fun i fd => hwrite_word (g i) fd) (Hfile d len p) = Hfile d' len (p + 4 * c) /\ bytes_in d' /\
  (forall a, ~ p <= a < p + 4 * c -> d'⟦a⟧ = d⟦a⟧) /\
  (forall k o, 0 <= k < c -> 0 <= o < 4 -> d'⟦p + 4 * k + o⟧ = g k / 256 ^ o mod 256).
Proof.
intros Hp Hc Hlen Hb.
pose proof (for_upto_inv (fun j fd => exists d', fd = Hfile d' len (p + 4 * j) /\ bytes_in d' /\
  (forall a, ~ p <= a < p + 4 * j -> d'⟦a⟧ = d⟦a⟧) /\
  (forall k o, 0 <= k < j -> 0 <= o < 4 -> d'⟦p + 4 * k + o⟧ = g k / 256 ^ o mod 256)) 0 c
  (fun i fd => hwrite_word (g i) fd) (Hfile d len p) Hc) as Hloop.
apply Hloop.
- exists d. split; [f_equal; lia|]. split; [done|]. split; [done|]. intros; lia.
- intros j fd Hj (d' & -> & Hb' & Ho & Hw). unfold hwrite_word. cbn [h_data h_len h_pos].
  exists (st32 d' (p + 4 * j) (g j)). split; [f_equal; lia|]. split; [by apply bytes_in_st|]. split.
  + intros a Ha. rewrite rd_st_out by lia. apply Ho. lia.
  + intros k o Hk Hoo. destruct (decide (k = j)) as [->|Hne]; [by apply rd_st_in|].
    rewrite rd_st_out by lia. apply Hw; lia.
Qed.

Lemma write_zeros d len p c :
0 <= p -> 0 <= c -> p + 4 * c <= len -> bytes_in d ->
exists d', for_upto 0 c (fun _ fd => hwrite_word 0 fd) (Hfile d len p) = Hfile d' len (p + 4 * c) /\ bytes_in d' /\
  forall a, d'⟦a⟧ = if within a p (4 * c) then 0 else d⟦a⟧.
Proof.
intros Hp Hc Hlen Hb. destruct (write_words (fun _ => 0) d len p c Hp Hc Hlen Hb) as (d' & E & Hb' & Ho & Hw).
exists d'. split; [exact E|]. split; [done|]. intros a. case_within; [|by apply Ho].
specialize (Hw ((a - p) / 4) ((a - p) mod 4)). replace (p + 4 * ((a - p) / 4) + (a - p) mod 4) with a in Hw by word_lia.
rewrite Hw by word_lia. rewrite Z.div_0_l; [done|]. apply Z.pow_nonzero; word_lia.
Qed.

Lemma hseek_at off d len p : 0 <= off -> hseek off (Hfile d len p) = Hfile d len off.
Proof. intros Ho. unfold hseek. by destruct (Z.ltb_spec off 0); [lia|]. Qed.

Lemma hrewind_at d len p : hrewind (Hfile d len p) = Hfile d len 0.
Proof. done. Qed.

Lemma hwrite_word_in v d len p : p + 4 <= len -> hwrite_word v (Hfile d len p) = Hfile (st32 d p v) len (p + 4).
Proof. intros Hp. unfold hwrite_word. cbn [h_data h_len h_pos]. by rewrite Z.max_l by lia. Qed.

(** The words of the fresh table. *)
Lemma write_table d len rb n :
0 <= n -> 1024 + 4 * n <= len -> bytes_in d ->
exists d', for_upto 0 n (fun i fd => hwrite_word (if i <? rb then 0x8fffffff else 0) fd) (Hfile d len 1024) =
    Hfile d' len (1024 + 4 * n) /\ bytes_in d' /\
  (forall a, ~ 1024 <= a < 1024 + 4 * n -> d'⟦a⟧ = d⟦a⟧) /\
  (forall k, 0 <= k < n -> blk_word d' k = if k <? rb then 0x8fffffff else 0).
Proof.
intros Hn Hlen Hb. destruct (write_words (fun i => if i <? rb then 0x8fffffff else 0) d len 1024 n ltac:(lia) Hn Hlen Hb) as (d' & E & Hb' & Ho & Hw).
exists d'. split; [exact E|]. split; [done|]. split; [done|]. intros k Hk. set (v := if k <? rb then _ else 0) in *.
transitivity (ld32 (st32 ∅ (1024 + 4 * k) v) (1024 + 4 * k)).
- apply ld_ext. intros a Ha. replace a with (1024 + 4 * k + (a - (1024 + 4 * k))) by lia. rewrite rd_st_in by lia. apply Hw; lia.
- rewrite ld_st_eq. apply Z.mod_small. unfold v. destruct (k <? rb); lia.
Qed.

(** The super block as far as formatting needs it. *)
Record geometry_at m fs rb : Prop := {
  ga_rsv : sb_rsv m fs = 2;
  ga_bps : sb_byte_per_sector m fs = 512;
  ga_spb : sb_sector_per_blk m fs = 16;
  ga_size : sb_size_of_blk m fs = rb
}.

Lemma geometry_at_st m fs rb o v : o = 44 \/ o = 36 \/ 48 <= o -> geometry_at m fs rb -> geometry_at (st32 m (fs + o) v) fs rb.
Proof.
intros Ho [G1 G2 G3 G4]. unfold sb_rsv, sb_byte_per_sector, sb_sector_per_blk, sb_size_of_blk in *.
constructor; unfold sb_rsv, sb_byte_per_sector, sb_sector_per_blk, sb_size_of_blk; by rewrite ld_st_ne by lia.
Qed.

Lemma root_dir_spec d len p m fs rb :
geometry_at m fs rb -> 0 < rb < 65536 -> blk_pos (rb + 1) <= len -> bytes_in d ->
exists d', root_dir (Hfile d len p) m fs = (st32 m (fs + 44) rb, Hfile d' len 0) /\ bytes_in d' /\
  forall a, d'⟦a⟧ = if within a (blk_pos rb) 8192 then 0 else (st32 d (1024 + 4 * rb) LAST)⟦a⟧.
Proof.
intros G Hrb Hlen Hb. unfold blk_pos in Hlen. unfold root_dir. rewrite (ga_size _ _ _ G). set (m1 := st32 m (fs + 44) rb).
assert (geometry_at m1 fs rb) as [G1 G2 G3 _] by (apply geometry_at_st; [lia|done]).
assert (sb_root_blk m1 fs = rb) as Hroot.
{ unfold sb_root_blk, m1. rewrite ld_st_eq. apply Z.mod_small. change (256 ^ Z.of_nat 4) with (2 ^ 32). lia. }
unfold clean_blk_enter. cbv zeta. rewrite G1, G2, G3, Hroot. change (u32 (16 * 512) / 4) with 2048. change (s32 (u32 (512 * 16) / 4)) with 2048.
rewrite (s32_small (2 * 512 + rb * 4)), (s32_small (2 * 512 + 16 * 512 * rb)) by lia.
rewrite (u32_small (2 + rb * 16)), (u32_small ((2 + rb * 16) * 512)) by lia.
rewrite hseek_at, hwrite_word_in by lia. change (u32 (-1)) with LAST.
replace (2 * 512 + rb * 4) with (1024 + 4 * rb) by lia. set (d1 := st32 d (1024 + 4 * rb) LAST).
assert (bytes_in d1) as Hb1 by (by apply bytes_in_st). rewrite hseek_at by lia.
destruct (write_zeros d1 len (2 * 512 + 16 * 512 * rb) 2048 ltac:(lia) ltac:(lia) ltac:(lia) Hb1) as (d2 & E2 & Hb2 & Hd2).
rewrite E2, hrewind_at, hseek_at by lia.
destruct (write_zeros d2 len ((2 + rb * 16) * 512) 2048 ltac:(lia) ltac:(lia) ltac:(lia) Hb2) as (d3 & E3 & Hb3 & Hd3).
rewrite E3, hrewind_at.
exists d3. split; [done|]. split; [done|]. intros a. rewrite Hd3, Hd2. unfold blk_pos.
replace ((2 + rb * 16) * 512) with (1024 + 8192 * rb) by lia. replace (2 * 512 + 16 * 512 * rb) with (1024 + 8192 * rb) by lia.
change (4 * 2048) with 8192. destruct (within a (1024 + 8192 * rb) 8192); reflexivity.
Qed.

(** The number of blocks a table of [n] words takes. *)
Definition table_blocks (n : Z) : Z := (4 * n + 8191) / 8192.

Lemma format_super_spec len m fs n :
0 <= len < 2 ^ 32 -> n = (len / 512 - 2) / 16 -> 2 <= n -> bytes_in m ->
exists m', format_super len m fs = Ret m' /\ geometry_at m' fs (table_blocks n) /\ sb_num_of_blk m' fs = n /\
  ld32 m' (fs + 20) = ld32 m (fs + 20) /\ bytes_in m'.
Proof.
intros Hlen Hn Hn2 Hbm. unfold format_super. set (m1 := st32 (st32 (st32 m (fs + 24) 2) (fs + 28) 512) (fs + 32) 16).
assert (sb_byte_per_sector m1 fs = 512) as -> by (unfold sb_byte_per_sector, m1; by rewrite ld_st_ne, ld_st_eq by lia).
change (512 =? 0) with false. cbv iota zeta. set (m2 := st32 m1 (fs + 48) (len / 512)).
assert (sb_rsv m2 fs = 2 /\ sb_byte_per_sector m2 fs = 512 /\ sb_sector_per_blk m2 fs = 16 /\ sb_total_num_of_sector m2 fs = len / 512)
  as (I1 & I2 & I3 & I4).
{ unfold sb_rsv, sb_byte_per_sector, sb_sector_per_blk, sb_total_num_of_sector, m2, m1.
  split; [by rewrite !ld_st_ne, ld_st_eq by lia|]. split; [by rewrite !ld_st_ne, ld_st_eq by lia|].
  split; [by rewrite ld_st_ne, ld_st_eq by lia|]. rewrite ld_st_eq. apply Z.mod_small. change (256 ^ Z.of_nat 4) with (2 ^ 32). word_lia. }
assert (0 <= len / 512 - 2 < 2 ^ 32) as Ht by word_lia.
unfold num_of_blk. rewrite I1, I3, I4. change (16 =? 0) with false. cbv iota. rewrite (u32_small (len / 512 - 2)) by lia.
rewrite <- Hn, bind_ret. set (m3 := st32 m2 (fs + 36) n).
assert (sb_rsv m3 fs = 2 /\ sb_byte_per_sector m3 fs = 512 /\ sb_sector_per_blk m3 fs = 16 /\ sb_total_num_of_sector m3 fs = len / 512)
  as (J1 & J2 & J3 & J4).
{ unfold sb_rsv, sb_byte_per_sector, sb_sector_per_blk, sb_total_num_of_sector, m3 in *. by rewrite !(ld_st_ne 4 4 m2) by lia. }
unfold size_of_blk. rewrite J1, J2, J3, J4. change (u32 (512 * 16)) with 8192. change ((16 =? 0) || (8192 =? 0)) with false. cbv iota zeta.
rewrite (u32_small (len / 512 - 2)) by lia. rewrite <- Hn. rewrite (u32_small (n * 4)) by word_lia. rewrite bind_ret.
set (w := if negb _ then _ else _).
assert (w = table_blocks n) as ->.
{ unfold w, table_blocks. destruct (Z.eqb_spec ((n * 4) mod 8192) 0); cbn [negb]; [word_lia|rewrite u32_small by word_lia; word_lia]. }
assert (0 <= table_blocks n < 2 ^ 32) as Hrb by (unfold table_blocks; word_lia).
exists (st32 m3 (fs + 40) (table_blocks n)). split; [done|].
unfold sb_rsv, sb_byte_per_sector, sb_sector_per_blk, sb_total_num_of_sector in *. split; [|split; [|split]].
- constructor; unfold sb_rsv, sb_byte_per_sector, sb_sector_per_blk, sb_size_of_blk; [by rewrite ld_st_ne by lia..|].
  rewrite ld_st_eq. by apply Z.mod_small.
- unfold sb_num_of_blk. rewrite ld_st_ne by lia. unfold m3. rewrite ld_st_eq. apply Z.mod_small. change (256 ^ Z.of_nat 4) with (2 ^ 32). word_lia.
- unfold m3, m2, m1. by rewrite !ld_st_ne by lia.
- unfold m3, m2, m1. by do 6 apply bytes_in_st.
Qed.

Lemma format_spec fb data_ fd m fs n :
h_pos fb = 0 -> 512 <= h_len fb -> bytes_in (h_data fb) -> apart fs 52 data_ 512 ->
bytes_in (h_data fd) -> bytes_in m -> 0 <= h_len fd < 2 ^ 32 -> n = (h_len fd / 512 - 2) / 16 -> 2 <= n -> ld32 m (fs + 20) = 0 ->
exists m' fd', format (Some fb) data_ fd m fs = Ret (Some (m', fd')) /\ super_at m' fs (table_blocks n) n /\
  image_ok n fd' /\ h_len fd' = h_len fd /\ volume_holds (h_data fd') (table_blocks n) n [] [] /\
  forall i, 0 <= i < 512 -> (h_data fd')⟦i⟧ = (h_data fb)⟦i⟧.
Proof.
intros Hfb Hfl Hfbb Afs Hb Hbm Hlen Hn Hn2 Hhid. set (rb := table_blocks n).
assert (0 < rb < n /\ 4 * n <= 8192 * rb /\ rb < 65536 /\ 1024 + 8192 * n <= h_len fd) as (Hrb & Hrn & Hr16 & Hnl) by (unfold rb, table_blocks; word_lia).
unfold format.
assert (h_pos (hseek_end fd) = h_len fd /\ hrewind (hseek_end fd) = Hfile (h_data fd) (h_len fd) 0) as [-> ->].
{ unfold hseek_end, hrewind, hseek. destruct (Z.ltb_spec (h_len fd) 0); [lia|]. done. }
rewrite (u32_small (h_len fd)) by lia.
destruct (format_super_spec (h_len fd) m fs n Hlen Hn Hn2 Hbm) as (m1 & E1 & G & Gn & Gh & Hbm1). rewrite E1, bind_ret. cbv zeta. fold rb in G.
unfold format_blk. rewrite (ga_rsv _ _ _ G), (ga_bps _ _ _ G), Gn. change (u32 (2 * 512)) with 1024. rewrite hseek_at by lia.
rewrite (ga_size _ _ _ G).
destruct (write_table (h_data fd) (h_len fd) rb n ltac:(lia) ltac:(lia) Hb) as (d1 & E2 & Hb1 & Ho1 & Hw1). rewrite E2, hrewind_at.
assert (geometry_at (st32 m1 (fs + 44) 0) fs rb) as G2 by (apply geometry_at_st; [lia|done]).
destruct (root_dir_spec d1 (h_len fd) 0 (st32 m1 (fs + 44) 0) fs rb G2 ltac:(lia) ltac:(unfold blk_pos; lia) Hb1) as (d2 & E3 & Hb2 & Hd2).
rewrite E3. cbv beta iota. set (m2 := st32 (st32 m1 (fs + 44) 0) (fs + 44) rb).
assert (geometry_at m2 fs rb) as G3 by (apply geometry_at_st; [lia|done]).
assert (bytes_in m2) as Hbm2 by (by do 2 apply bytes_in_st).
unfold hread. rewrite Hfb, (ga_bps _ _ _ G3), Z.sub_0_r. replace (Z.max 0 (Z.min 512 (h_len fb))) with 512 by lia.
set (m3 := fill m2 data_ 512 _).
assert (forall o, 0 <= o < 52 -> m3⟦fs + o⟧ = m2⟦fs + o⟧) as Hm3 by (intros o Ho; unfold m3; rewrite rd_fill, not_within; [done|unfold apart in Afs; lia]).
assert (forall o, 0 <= o -> o + 4 <= 52 -> ld32 m3 (fs + o) = ld32 m2 (fs + o)) as Hl3.
{ intros o Ho Ho4. apply ld_ext. intros a Ha. replace a with (fs + (a - fs)) by lia. apply Hm3. lia. }
assert (super_at m3 fs rb n) as Hs3.
{ destruct G3 as [K1 K2 K3 _]. unfold sb_rsv, sb_byte_per_sector, sb_sector_per_blk, sb_num_of_blk in *.
  constructor; unfold sb_rsv, sb_byte_per_sector, sb_sector_per_blk, sb_root_blk, sb_num_of_blk; try (rewrite Hl3 by lia; done).
  - rewrite Hl3 by lia. unfold m2. rewrite ld_st_eq. apply Z.mod_small. change (256 ^ Z.of_nat 4) with (2 ^ 32). lia.
  - rewrite Hl3 by lia. unfold m2. by rewrite !ld_st_ne by lia.
  - unfold blk_pos. lia. }
assert (ld32 m3 (fs + 20) = 0) as Hh3 by (rewrite Hl3 by lia; unfold m2; rewrite !ld_st_ne by lia; congruence).
assert (bytes_in m3) as Hbm3 by (apply fill_bytes_in; [done|intros; apply Hfbb]).
rewrite (sp_bps _ _ _ _ Hs3). change (negb (512 =? 512)) with false. cbv iota.
unfold hwrite. cbn [h_data h_len h_pos]. change sizeof_super_block with 52.
set (d3 := fill d2 0 512 _). set (d4 := fill d3 _ 52 _). rewrite hrewind_at.
assert (forall a, d4⟦a⟧ = if within a 512 52 then m3⟦fs + (a - 512)⟧ else if within a 0 512 then (h_data fb)⟦a⟧ else d2⟦a⟧) as Hd4.
{ intros a. unfold d4, d3. rewrite !rd_fill. change (0 + 512) with 512. destruct (within a 512 52); [done|].
  destruct (within_spec a 0 512); [|done]. unfold m3. rewrite rd_fill. case_within; [|lia]. f_equal. lia. }
assert (forall a, 1024 <= a -> d4⟦a⟧ = d2⟦a⟧) as Hhigh by (intros a Ha; rewrite Hd4, !not_within by lia; done).
assert (forall k, 0 <= k < n -> blk_word d4 k = if k =? rb then LAST else if k <? rb then 0x8fffffff else 0) as Hw4.
{ intros k Hk. rewrite <- (Hw1 k Hk), <- blk_word_st by (unfold LAST; lia). apply blk_word_ext. intros a Ha.
  rewrite Hhigh, Hd2 by lia. rewrite not_within; [done|]. unfold blk_pos. lia. }
exists m3, (Hfile d4 (Z.max (Z.max (h_len fd) (0 + 512)) (0 + 512 + 52)) 0). split; [done|]. split; [done|]. split; [|split; [cbn [h_len]; lia|split]].
- split; cbn [h_data h_len]; [|unfold blk_pos; lia]. unfold d4, d3. apply fill_bytes_in; [apply fill_bytes_in|]; auto.
- cbn [h_data]. constructor.
  + reflexivity.
  + intros i N L cs Hi. by rewrite lookup_nil in Hi.
  + apply NoDup_nil_2.
  + apply NoDup_nil_2.
  + intros i Hi. rewrite Hhigh, Hd2 by (unfold entry_pos, blk_pos; lia). destruct (within_spec (entry_pos rb i + 97) (blk_pos rb) 8192); [done|].
    unfold entry_pos in *. cbn in Hi. lia.
  + intros k Hk _. rewrite Hw4 by lia. destruct (Z.eqb_spec k rb); [lia|]. by destruct (Z.ltb_spec k rb); [lia|].
  + intros k Hk. rewrite Hw4 by lia. destruct (Z.eqb_spec k rb); [done|]. by destruct (Z.ltb_spec k rb); [|lia].
  + destruct Hs3 as [K1 K2 K3 K4 K5 _].
    assert (forall o, 0 <= o -> o + 4 <= 52 -> ld32 d4 (512 + o) = ld32 m3 (fs + o)) as Hl4.
    { intros o Ho Ho4. rewrite (ld_word_of 4 m3). apply (ld_copy 4 d4 (rd m3) 512 fs 52); [|done|done]. intros x Hx. rewrite Hd4.
      destruct (within_spec (512 + x) 512 52); [f_equal; lia|lia]. }
    rewrite !Hl4 by lia. split; [exact Hh3|]. split; [exact K1|]. split; [exact K2|]. split; [exact K3|]. split; [exact K4|exact K5].
- intros i Hi. cbn [h_data]. rewrite Hd4. rewrite not_within by lia. by case_within; [|lia].
Qed.
End formatting.

(** ** Properties *)

(** C14: what the tool stores the kernel reads.  On an image that holds a volume with some files,
    [main] with "-g path image" puts the host's file under the last part of the path: the volume then holds one file more, in the first free entry
    and in free blocks, the others as before.  The kernel, on a disk with this image, opens
    each file of the volume by its name, and what [fread] stores are the bytes the host's file had. *)
Theorem stored_files_read (fopen_host : mem -> Z -> option hfile) (fuel : nat) (dir2 blk0 data_ fs dir rb n : Z) (boot : option hfile)
    (argv : Z -> Z) (m : mem) (fd f0 : hfile) (l N L : list Z) (files : list (list Z * list Z)) (css : list (list Z)) :
  let path := argv 2 in
  apart fs 52 dir 128 -> apart fs 52 dir2 128 -> apart dir 128 dir2 128 -> bytes_in m ->
  arguments (memset (memset m dir 0 128) fs 0 52) 4 argv = Some (3, 3, 2) -> (forall m', fopen_host m' (argv 3) = Some fd) ->
  0 < rb < n -> 4 * n <= 8192 * rb -> blk_pos n < 2 ^ 32 -> image_ok n fd -> volume_holds (h_data fd) rb n files css -> zlen files < 64 ->
  cstr m path (l ++ N) -> dir_prefix l -> no_slash N -> (length N <= 96)%nat -> (length l + length N < fuel)%nat ->
  Forall (fun '(a, k) => Path.clear_of path (l ++ N) a k) [(dir, 128); (fs, 52); (data_, 512); (dir2, 128)] ->
  (forall m', cstr m' path (l ++ N) -> fopen_host m' path = Some f0) -> file_is f0 L -> zlen L < 2 ^ 31 ->
  zlen (concat css) + blocks_of (zlen L) <= n - rb - 1 -> entry_name N ∉ file_names files ->
  exists m' fd' cs,
    main fopen_host fuel dir2 blk0 boot data_ 4 argv m fs dir = Ret (Some (m', fd')) /\
    volume_holds (h_data fd') rb n (files ++ [(N, L)]) (css ++ [cs]) /\ image_ok n fd' /\
    forall (H : Type) (AH : Allocator H) (AL : AllocatorLaws H) (BL : BudgetLaws H) (read_sector : disk) (s : sys H) (B : gmap Z Z)
      (dv filename dst size : Z) (i : nat) (Ni Li : list Z),
      disk_holds read_sector 512 (image_bytes (h_data fd') 512) -> (files ++ [(N, L)]) !! i = Some (Ni, Li) ->
      heap_ok (heap s) B -> budget (heap s) (11 + (blocks_of (zlen Li) + 1023) / 1024) ->
      live_range B filename (zlen Ni + 1) -> cstr (bytes_of s) filename Ni -> (length Ni <= 96)%nat ->
      0 <= size < 2 ^ 64 -> live_range B dst size ->
      exists fp s1 s2, open_file read_sector dv filename s = Ret (fp, s1) /\
        fread read_sector dst 1 size fp s1 = Ret (Z.min size (zlen Li), s2) /\
        forall j c, 0 <= j < size -> Li !! Z.to_nat j = Some c -> (bytes_of s2)⟦dst + j⟧ = c.
Proof.
  intros path A1 A2 A3 Hbm Hargs Hdisk Hrb Hn Hmax Him V Hlen Hpath Hl HN HN96 Hfuel Hcl Hopen HfL HL Hroom Hnew.
  inversion_clear Hcl as [|? ? C1 Hcl']. inversion_clear Hcl' as [|? ? C2 Hcl]. inversion_clear Hcl as [|? ? C3 Hcl'].
  inversion_clear Hcl' as [|? ? C4 _].
  unfold main. change sizeof_super_block with 52. rewrite Hargs. cbv beta iota zeta. rewrite Hdisk. change (3 =? 3) with true. cbv iota.
  set (m1 := poke _ fs _). set (m2 := fill m1 fs 52 (fun i => (h_data fd)⟦512 + i⟧)).
  assert (read_super_block fd fs m1 = (m2, Hfile (h_data fd) (h_len fd) 0)) as ->.
  { destruct Him as [_ Hl']. unfold blk_pos in Hl'. unfold read_super_block.
    change (hseek (1 * 512) fd) with (Hfile (h_data fd) (h_len fd) 512). unfold hread. cbn [h_pos h_len h_data].
    change sizeof_super_block with 52. replace (Z.max 0 (Z.min 52 (h_len fd - 512))) with 52 by lia. reflexivity. }
  assert (bytes_in m2) as Hbm2.
  { apply fill_bytes_in; [|intros; apply Him]. unfold m1. cbn [poke]. do 9 (apply bytes_in_wr; [|lia]). by do 3 apply bytes_in_memset. }
  assert (super_at m2 fs rb n) as Hs2.
  { destruct (vh_super _ _ _ _ _ V) as (_ & S2 & S3 & S4 & S5 & S6).
    assert (forall o, 0 <= o -> o + 4 <= 52 -> ld32 m2 (fs + o) = ld32 (h_data fd) (512 + o)) as Ho.
    { intros o Ho Ho4. rewrite (ld_word_of 4 (h_data fd)). apply (ld_copy 4 m2 (rd (h_data fd)) fs 512 52); [|done|done]. intros x Hx. unfold m2. rewrite rd_fill.
      case_within; [f_equal; lia|lia]. }
    constructor; [rewrite <- S2|rewrite <- S3|rewrite <- S4|rewrite <- S5|rewrite <- S6|done]; by apply Ho. }
  assert (cstr m2 path (l ++ N)) as Hpath2.
  { apply (cstr_keep m1 _ _ _ fs 52 C2); [intros b Hb; unfold m2; rewrite rd_fill; by rewrite not_within|].
    apply (cstr_keep (memset (memset (memset m dir 0 128) fs 0 52) data_ 0 512) _ _ _ fs 52 C2).
    { intros b Hb. unfold m1. cbn [poke]. by rewrite !rd_wr_ne by lia. }
    apply (cstr_keep (memset (memset m dir 0 128) fs 0 52) _ _ _ data_ 512 C3); [intros b Hb; rewrite rd_memset; by rewrite not_within|].
    apply (cstr_keep (memset m dir 0 128) _ _ _ fs 52 C2); [intros b Hb; rewrite rd_memset; by rewrite not_within|].
    apply (cstr_keep m _ _ _ dir 128 C1); [intros b Hb; rewrite rd_memset; by rewrite not_within|done]. }
  clearbody m2. clear m1.
  destruct (store_spec fopen_host fuel dir2 blk0 fs dir rb n A1 A2 A3 (Hfile (h_data fd) (h_len fd) 0) m2 path l N f0 L files css Hs2 Him Hbm2 V Hlen
    Hpath2 Hl HN HN96 Hfuel C1 C4 Hopen HfL HL Hroom Hnew) as (m3 & fd3 & cs & E3 & Hs3 & Hbm3 & Him3 & V3).
  fold path. rewrite E3, bind_ret. exists m3, fd3, cs. split; [done|]. split; [exact V3|]. split; [exact Him3|].
  intros H AH AL BL read_sector s B dv filename dst size i Ni Li Hds Hi Hok Hbud Ln Hc HNi Hsz Ld.
  apply (image_file_read m3 fs rb n Hs3 (h_data fd3) _ _ V3 (proj1 Him3) dv read_sector s B filename dst size i Ni Li); try done.
  apply lookup_lt_Some in Hi. rewrite length_app in Hi. cbn in Hi. lia.
Qed.

(** A volume of four blocks without files, and a host with the file "a/x" of three bytes. *)
Definition example_image : mem :=
  st32 (st32 (st32 (st32 (st32 (st32 (st32 ∅ (512 + 24) 2) (512 + 28) 512) (512 + 32) 16) (512 + 36) 4) (512 + 44) 1) 1024 LAST) 1028 LAST.
Definition example_disk_file : hfile := Hfile example_image 33792 0.
Definition example_file : hfile := Hfile (poke ∅ 0 [5; 6; 7]) 3 0.
Definition example_host (m : mem) (p : Z) : option hfile := if p =? 0x120 then Some example_disk_file else Some example_file.
Definition example_argv (i : Z) : Z := if i =? 1 then 0x100 else if i =? 2 then 0x110 else 0x120.
Definition example_args : mem := poke (poke ∅ 0x100 [45; 103; 0]) 0x110 [97; 47; 120; 0].

Lemma example_volume : volume_holds example_image 1 4 [] [].
Proof.
  constructor.
  - reflexivity.
  - intros i N L cs Hi. by rewrite lookup_nil in Hi.
  - apply NoDup_nil_2.
  - apply NoDup_nil_2.
  - intros i Hi. unfold example_image. cbn [length] in Hi. rewrite !rd_st_out by (unfold entry_pos, blk_pos; lia). apply rd_empty.
  - intros k Hk _. assert (k = 2 \/ k = 3) as [-> | ->] by lia; reflexivity.
  - intros k Hk. assert (k = 0 \/ k = 1) as [-> | ->] by lia; vm_compute; discriminate.
  - split_and!; vm_compute; reflexivity.
Qed.

Lemma example_bytes : bytes_in example_args /\ bytes_in example_image.
Proof.
  split.
  - unfold example_args. cbn [poke]. do 7 (apply bytes_in_wr; [|lia]). apply bytes_in_empty.
  - unfold example_image. do 7 apply bytes_in_st. apply bytes_in_empty.
Qed.

Example stored_files_read_witness :
  exists m' fd' (fp : Z) (s1 s2 : sys bump),
    main example_host 9 0x1200 77 None 0x2000 4 example_argv example_args 0x1000 0x1100 = Ret (Some (m', fd')) /\
    open_file (image_disk (h_data fd') 512) 0 0x100 (Sys (0x1000 : bump) (poke ∅ 0x100 [120; 0]) ∅ 0) = Ret (fp, s1) /\
    fread (image_disk (h_data fd') 512) 0x200 1 8 fp s1 = Ret (3, s2) /\ (bytes_of s2)⟦0x202⟧ = 7.
Proof.
  destruct example_bytes as [Hb1 Hb2].
  destruct (stored_files_read example_host 9 0x1200 77 0x2000 0x1000 0x1100 1 4 None example_argv example_args example_disk_file example_file
    [97; 47] [120] [5; 6; 7] [] []) as (m' & fd' & cs & E & _ & _ & Hread).
  - unfold apart. lia.
  - unfold apart. lia.
  - unfold apart. lia.
  - exact Hb1.
  - vm_compute. reflexivity.
  - reflexivity.
  - lia.
  - lia.
  - unfold blk_pos. lia.
  - split; [exact Hb2|]. unfold blk_pos. cbn [h_len example_disk_file]. lia.
  - exact example_volume.
  - cbn. lia.
  - split; [repeat constructor; lia|]. split; [repeat split|reflexivity].
  - right. by exists [97].
  - repeat constructor; lia.
  - cbn. lia.
  - cbn. lia.
  - repeat constructor; unfold Path.clear_of; cbn; lia.
  - reflexivity.
  - split; [reflexivity|]. intros i c Hi H0. pose proof (lookup_lt_Some _ _ _ Hi) as Hl. cbn in Hl.
    assert (i = 0 \/ i = 1 \/ i = 2) as [-> | [-> | ->]] by lia; injection Hi as <-; (split; [reflexivity|lia]).
  - cbn. lia.
  - vm_compute. discriminate.
  - apply not_elem_of_nil.
  - destruct (Hread bump _ _ _ (image_disk (h_data fd') 512) (Sys (0x1000 : bump) (poke ∅ 0x100 [120; 0]) ∅ 0) {[0x100 := 2; 0x200 := 8]}
      0 0x100 0x200 8 0%nat [120] [5; 6; 7]) as (fp & s1 & s2 & E1 & E2 & Hin).
    + by apply image_disk_holds.
    + reflexivity.
    + split; [reflexivity|]. intros p k Hp.
      apply lookup_insert_Some in Hp as [[<- <-]|[_ [<- <-]%lookup_singleton_Some]]; cbn; lia.
    + split; [done|vm_compute; reflexivity].
    + intros x Hx. exists 0x100, 2. split; [reflexivity|]. cbn in Hx. lia.
    + split; [repeat constructor; lia|]. split; [repeat split|reflexivity].
    + cbn. lia.
    + lia.
    + intros x Hx. exists 0x200, 8. split; [reflexivity|lia].
    + exists m', fd', fp, s1, s2. split; [exact E|]. split; [exact E1|]. split; [exact E2|].
      by apply (Hin 2 7); [lia|].
Defined.

(** C20: the tool formats an image: [main] with "-f image" leaves a volume without files on every image file below 4 GiB that has
    room for two blocks: the boot sector in front, the super block in sector 1, a table that marks its own blocks and that of the directory and
    no other as used, and an empty directory. *)
Theorem formatted_image_empty (fopen_host : mem -> Z -> option hfile) (fuel : nat) (dir2 blk0 data_ fs dir : Z)
    (argv : Z -> Z) (m : mem) (fd fb : hfile) :
  let n := (h_len fd / 512 - 2) / 16 in
  apart fs 52 data_ 512 -> bytes_in m ->
  arguments (memset (memset m dir 0 128) fs 0 52) 3 argv = Some (1, 2, 0) -> (forall m', fopen_host m' (argv 2) = Some fd) ->
  bytes_in (h_data fd) -> 0 <= h_len fd < 2 ^ 32 -> 2 <= n ->
  h_pos fb = 0 -> 512 <= h_len fb -> bytes_in (h_data fb) ->
  exists m' fd', main fopen_host fuel dir2 blk0 (Some fb) data_ 3 argv m fs dir = Ret (Some (m', fd')) /\
    super_at m' fs (table_blocks n) n /\ image_ok n fd' /\ h_len fd' = h_len fd /\
    volume_holds (h_data fd') (table_blocks n) n [] [] /\ forall i, 0 <= i < 512 -> (h_data fd')⟦i⟧ = (h_data fb)⟦i⟧.
Proof.
  intros n Ha Hbm Hargs Hdisk Hb Hlen Hn Hfb Hfl Hfbb. unfold main. change sizeof_super_block with 52. rewrite Hargs. cbv beta iota zeta.
  rewrite Hdisk. change (1 =? 3) with false. change (1 =? 4) with false. change (1 =? 1) with true. cbv iota.
  set (m1 := poke _ fs _).
  assert (bytes_in m1) as Hbm1 by (unfold m1; cbn [poke]; do 9 (apply bytes_in_wr; [|lia]); by do 3 apply bytes_in_memset).
  assert (ld32 m1 (fs + 20) = 0) as Hhid.
  { apply ld_zero. intros a Hr. unfold m1. cbn [poke]. rewrite !rd_wr_ne by lia. rewrite rd_memset. case_within; [done|].
    rewrite rd_memset. by case_within; [|lia]. }
  destruct (format_spec fb data_ fd m1 fs n Hfb Hfl Hfbb Ha Hb Hbm1 Hlen eq_refl Hn Hhid) as (m' & fd' & E & Hrest).
  exists m', fd'. rewrite E, bind_ret. split; [done|exact Hrest].
Qed.

Example formatted_image_empty_witness :
  exists m' fd', main (fun _ _ => Some (Hfile ∅ 33792 0)) 9 0x1200 77 (Some (Hfile (poke ∅ 0 [0xEB; 0x3C]) 512 0)) 0x2000 3 example_argv
      (poke ∅ 0x100 [45; 102; 0]) 0x1000 0x1100 = Ret (Some (m', fd')) /\
    volume_holds (h_data fd') 1 4 [] [] /\ (h_data fd')⟦1⟧ = 0x3C.
Proof.
  destruct (formatted_image_empty (fun _ _ => Some (Hfile ∅ 33792 0)) 9 0x1200 77 0x2000 0x1000 0x1100 example_argv
    (poke ∅ 0x100 [45; 102; 0]) (Hfile ∅ 33792 0) (Hfile (poke ∅ 0 [0xEB; 0x3C]) 512 0)) as (m' & fd' & E & _ & _ & _ & V & Hboot).
  - unfold apart. lia.
  - cbn [poke]. do 3 (apply bytes_in_wr; [|lia]). apply bytes_in_empty.
  - vm_compute. reflexivity.
  - reflexivity.
  - apply bytes_in_empty.
  - cbn [h_len]. lia.
  - cbn [h_len]. vm_compute. discriminate.
  - reflexivity.
  - cbn [h_len]. lia.
  - cbn [h_data poke]. do 2 (apply bytes_in_wr; [|lia]). apply bytes_in_empty.
  - exists m', fd'. split; [exact E|]. split; [exact V|]. by rewrite Hboot by lia.
Defined.

(** A full image is not noticed: when [copy] needs a block and none is free, it takes the -1 of [search_blk_null] for a block: the
    chain of the file ends with the block it had, and the byte goes to the offset 2^32 - 7168, so
    that the image grows to 4 GiB; no error is reported. *)
Theorem copy_ignores_full_image (blk0 : Z) (m : mem) (fs rb n i nn cur c : Z) (f f' fd : hfile) :
  super_at m fs rb n -> image_ok n fd -> (forall j, 0 <= j < n -> blk_word (h_data fd) j <> 0) -> 0 <= cur < n ->
  i = 8192 * nn -> 0 < nn -> i < 2 ^ 31 -> hgetc f = (c, f') ->
  copy_turn blk0 m fs 8192 i (nn, cur, f, fd) =
    (nn + 1, LAST, f', Hfile (st32 (h_data fd) (1024 + 4 * cur) LAST)⟦4294960128 := u8 c⟧ (Z.max (h_len fd) 4294960129) 4294960129).
Proof.
  intros Hs Him Hall Hcur -> Hnn Hi Hget. pose proof (sp_range _ _ _ _ Hs) as (Hrb & Hn & Hmax). unfold blk_pos in Hmax.
  unfold copy_turn. rewrite u32_small, Z.eqb_refl by lia.
  destruct (search_blk_null_first blk0 fd m fs rb n Hs Him) as [(k & Hk & H0 & _)|[_ E]]; [by destruct (Hall k)|]. rewrite E.
  unfold write_blk. rewrite (sp_rsv _ _ _ _ Hs), (sp_bps _ _ _ _ Hs), (sp_spb _ _ _ _ Hs). rewrite (u32_small (2 * 512 + 4 * cur)) by lia.
  destruct Him as [_ Hl]. unfold blk_pos in Hl. rewrite hseek_at, hwrite_word_in, hrewind_at by lia.
  change (u32 (u32 (2 + LAST * 16) * 512)) with 4294960128. rewrite hseek_at, Hget by lia. reflexivity.
Qed.

Example copy_ignores_full_image_witness :
  let d := st32 (st32 example_image 1032 LAST) 1036 LAST in
  copy_turn 77 (st32 (st32 (st32 (st32 (st32 ∅ (0x1000 + 24) 2) (0x1000 + 28) 512) (0x1000 + 32) 16) (0x1000 + 36) 4) (0x1000 + 44) 1) 0x1000 8192 8192
    (1, 2, Hfile (poke ∅ 8192 [5]) 8193 8192, Hfile d 33792 0) =
  (2, LAST, Hfile (poke ∅ 8192 [5]) 8193 8193, Hfile (st32 d (1024 + 8) LAST)⟦4294960128 := 5⟧ 4294960129 4294960129).
Proof.
  intros d. apply (copy_ignores_full_image 77 _ 0x1000 1 4 8192 1 2 5 (Hfile (poke ∅ 8192 [5]) 8193 8192) (Hfile (poke ∅ 8192 [5]) 8193 8193) (Hfile d 33792 0)).
  - constructor; try (vm_compute; reflexivity). unfold blk_pos. lia.
  - split; [unfold d; do 2 apply bytes_in_st; apply example_bytes|]. unfold blk_pos. cbn [h_len]. lia.
  - intros j Hj. assert (j = 0 \/ j = 1 \/ j = 2 \/ j = 3) as [-> | [-> | [-> | ->]]] by lia; vm_compute; discriminate.
  - lia.
  - lia.
  - lia.
  - lia.
  - reflexivity.
Defined.
